(* ===== verification/_CoqProject ===== *)
-Q . S2P
Prelude.v
Money.v
Json.v
Format.v
Calendar.v
ImportText.v
Fuzzy.v
Import.v
MpesaTypes.v
Schema.v
Schedule.v
Ledger.v
LedgerFacts.v
LedgerInv.v
LedgerProps.v
LedgerLegs.v
Accounts.v
ImportRun.v
ImportJobs.v
AccountFacts.v
Repayment.v
Guarantors.v
GuarantorFacts.v
RepaymentFacts.v
LoanRules.v
AuditLogs.v
AuditFacts.v
AuditEvents.v
ApprovalChains.v
Mpesa.v
MpesaCallbacks.v
MpesaInbox.v
MwaloniClient.v
PayoutState.v
PayoutMachine.v
Payouts.v
PayoutOutbox.v
WithdrawalRecon.v
Redis.v
Frames.v
ImportFacts.v
Recovery.v
Loans.v
LoanRepay.v
Lending.v
AuthState.v
AuthParts.v
Auth.v
Accounting.v
LoanApply.v
GuarantorConsent.v
LoansFacts.v
LoanRepayFacts.v
RecoveryFacts.v
ConsentFacts.v
RecoveryJobs.v
Offset.v
Financial.v
FinancialFacts.v
Fixture.v
LedgerTheorems.v
AccountsTheorems.v
RepaymentTheorems.v
MpesaFacts.v
PayoutFacts.v
PayoutRefines.v
PayoutSystem.v
LoanRulesTheorems.v
GuarantorTheorems.v
AuditTheorems.v
RecoveryTheorems.v
OffsetTheorems.v
FinancialTheorems.v
LoansTheorems.v
ConsentTheorems.v
AuthTheorems.v
AccountingTheorems.v
ImportTheorems.v
MpesaTheorems.v
PayoutTheorems.v
