(* ===== verification/Prelude.v ===== *)
(** * Beba SACCO backend: verification development

    Beba SACCO is a NestJS service for savings and credit societies.  Members
    save on FOSA and BOSA accounts, borrow against their savings and against
    guarantors' savings, and move money by M-Pesa.  This library models the
    services that sign people in, move money, decide on loans, record audits and
    import members, and proves what they promise: tokens refused once replaced,
    books that balance, money sent once, loans that are signed off, covered and
    repaid, and evidence that cannot be rewritten.  It also proves where the
    code does less than it means to.

    ** How code becomes definitions

    A method is a computation [comp S A], a function from the state to a result
    ([Ok] or a thrown exception [Err]) and the next state; [let*] is [await].
    [Schema] has the rows of the database with the columns the modelled code
    uses, the [DB] of all tables and the [World]: the database, the identifiers
    drawn so far, the clock, caches, locks, queues and messages.  The table
    operations at the end of [Schema] do what the Prisma calls do, unique keys,
    foreign keys and the range of numeric(18,4) included.  A transaction rolls
    the tables back when its body throws and keeps what is outside the
    database.  Components with tables of their own run on a state that has a
    [World] inside: [ImportWorld], [PayoutWorld], [LendingWorld],
    [AccountingWorld].  Sign-in has its own state, [AuthWorld]: no modelled
    service reads what it changes.

    Amounts are integers counting ten-thousandths ([Money]); a decimal.js value
    before rounding is a rational.  Identifiers, e-mail and SMS jobs, audit rows
    and queue jobs are kept where a theorem or another component reads them;
    log lines, metrics, domain events and cache invalidation are not.

    ** The files

    - [Prelude]: the error monad, its inversion lemmas and [run_inv]; sums over
      lists and maps, rows replaced by key.  [Money], [Json], [Format],
      [Calendar]: decimals, JSON and ISO texts, numbers as texts, months.
    - [Schema]: rows, tables, [World].  [Redis]: locks with their lifetimes.
    - [Ledger] (accounting/ledger.service.ts), [Accounts] (accounts/),
      [Financial] (financial/financial.service.ts), [Accounting]
      (accounting/accounting.service.ts): postings, accounts, daily accrual,
      entries by hand, matches by hand and the chart of a new tenant.
    - [LoanRules] (core/state-machine.ts, product-rule.service.ts,
      disbursement-gate.service.ts), [Guarantors]
      (guarantor-validation.service.ts), [ApprovalChains]
      (fraud/approval-chain.service.ts), [Schedule], [Loans], [LoanRepay]
      (loans.service.ts), [Repayment] (loan-repayment.service.ts).
    - [Lending] (common/services/idempotency.service.ts and the tables of an
      application), [LoanApply] (loan-application.service.ts,
      loan-review.service.ts, the guarantor requests of
      member-portal.controller.ts), [GuarantorConsent]
      (loans/guarantor-response.service.ts, guarantor-expiry.consumer.ts).
    - [AuthState] (the rows and keys of sign-in, and how the tenant of a request
      is added to a query), [AuthParts] (otp.service.ts, pin.service.ts,
      session.service.ts, two-factor.service.ts, jwt-blocklist.service.ts,
      password-policy.service.ts, jwt.strategy.ts, jwt.guard.ts), [Auth]
      (auth/auth.service.ts).
    - [Recovery], [RecoveryJobs] (loan-recovery.service.ts and its worker),
      [Offset] (guarantor-default-offset.processor.ts).
    - [AuditLogs], [AuditEvents] (audit/): the two hash chains.
    - [MpesaTypes], [Mpesa], [MpesaCallbacks], [MpesaInbox]: provider callbacks,
      from the inbox to the ledger.  [MwaloniClient], [PayoutState], [Payouts],
      [PayoutOutbox], [WithdrawalRecon]: withdrawals to a phone; the last
      also has the write of the daily reconciliation
      (financial/reconciliation.service.ts).  [PayoutMachine]: the abstract life of a payout.
    - [ImportText], [Fuzzy], [Import], [ImportRun], [ImportJobs]
      (data-import/): the member import.
    - [Frames]: what a computation leaves alone and which invariants it keeps,
      as classes closed under the monad, so that instance search proves both
      for whole handlers.  The files ending in [Facts], [Inv], [Props], [Legs],
      and [PayoutRefines] and [PayoutSystem], are the lemmas of
      their components; the files ending in [Theorems] hold the properties with
      their witnesses, which run on the small tenant of [Fixture].

    ** What is shown

    - Ledger: along every sequence of postings in their natural direction,
      transfers, reversals of single postings and general-ledger-only legs of
      cash repayments and penalties, the general ledger equals the members'
      balances, and the reversal of a transfer leg is what breaks it; a posting is made once per reference; a debit never touches
      committed funds; a reversal restores once; [postEntry] refines an abstract
      account book.
    - Loans: the calls refine the loan state machine, but for a sign-off that
      rejects an approved loan; a payout passes every
      gate, pays once and writes a complete schedule; large loans need two
      people; repayments conserve money and follow the waterfall.
    - Applications and consent ([ConsentTheorems]): an application passes every
      gate and opens one loan; the same key gets the same answer; the batched
      eligibility check agrees with the single one; equal shares are exact;
      approval by a guarantor's answer means full consent and coverage, a
      decline frees everyone; and
      along every sequence of lending calls, postings and transfers the savings
      frozen on an account are exactly what its member guarantees.  The ways
      around it: a stale expiry job, an acceptance after the decline, a decline
      by hand.
    - Accounting by hand ([AccountingTheorems]): however requests interleave, an
      approved entry above the threshold had a second pair of eyes; a payment is
      matched once; a provisioned tenant can post.  Where it departs from
      LedgerService: a manual match posts to another account of the general
      ledger, a rejected entry can become an approved one, and the numbers of a
      year run out at a million.
    - Recovery, forfeiture, accrual: what is taken is booked on every side and
      charged once; a forfeiture beyond the debt reduces nothing.
    - Payments: no order is paid twice however workers interleave, crash and
      retry; a settled payout is final unless the daily reconciliation, which
      writes by id what it read earlier, flags its row or it is matched by hand; the payout code refines
      [PayoutMachine]; deposits are credited once; and the cases in which a payment is lost,
      stuck or refunded wrongly.
    - Sign-in ([AuthTheorems]): signing in takes the password and every check;
      a refresh token is refused once its successor is stored, however the
      reads and writes of exchanges interleave, while exchanges that overlap are
      both accepted ([overlapping_exchanges_accepted]); a replay ends every
      session; a signed-out token is refused; guesses at a code are
      answered like a reference function; PIN codes have their promised shape.
      [AuthInvariant] says what an invariant has to survive for every handler to
      keep it.  The ways around it: any TOTP code passes, a texted code signs in
      on its own, and no refresh session ever begins.
    - Audit: chains with the same end agree on every entry; written chains
      verify.  Import: batches end, jobs settle, reports are true, the edit
      distance is minimal.

    ** What the models rest on

    Code outside the repository is a class argument, with the documented
    behaviour that is used as a field: [UuidSource] (identifiers; a theorem that
    needs them distinct says so), [Sha256] (64 hexadecimal digits), [Hmac],
    [AuditConfig], [Environment], [DecimalLib] (decimal.js rounding: monotone,
    exact on twenty digits), [Numbers] (JavaScript numbers: exact on fifteen
    digits), [DateReader], [Network] and [MwaloniConfig] (the wallet may answer
    anything), [ReconConfig], [JobIds], [Entropy]; for sign-in
    [Argon2] (a hash verifies its own password), [Jwt] (a token verifies under
    its secret until it expires), [Totp], [AesGcm], [RandomSource] (numbers in
    range), [AuthConfig].  Witnesses instantiate them
    with concrete functions.

    Recursion is structural but for the batching loop of the import, whose fuel
    is the length of the list: each round with a positive step drops at least
    one row ([chunk_from_runs]), and with step zero no fuel is enough, as in the
    code ([chunk_from_stuck]).  Tables are finite; amounts are unbounded integers
    checked against numeric(18,4) at each write that could pass it.  Clocks are
    in UTC.  Texts of the import are ASCII.

    ** Not modelled

    - Requests: controllers, DTO validation, rate limits of the framework and
      the other guards.  The services are modelled on the values they receive.
    - Database concurrency: a transaction is one step, as its row locks and
      serializable sections make it; the interleavings that matter between
      transactions are modelled for payouts, imports, locks, lending calls,
      entries and matches by hand, and exchanges of refresh tokens.  A handler
      that reads a row just before its transaction ([handleStkCallback]) is one
      step; an import whose batch fails to commit after its body ran is left
      out, its report would count rows that are not there.
      The lifetime of an idempotency key is not modelled.
    - Read models: dashboards, analytics, statements, reports, listings.
    - The financial import, documents, membership applications, administration of users and members,
      compliance tables, fraud scores, notifications and exports: none of the
      modelled handlers reads what they change, except through rows that are
      arguments here.
    - Starting an STK push and other calls to outside systems: Daraja, SMS,
      e-mail, storage, credit bureaus. *)
From stdpp Require Export base gmap strings list fin_maps pretty sorting.
From Stdlib Require Export ZArith Lia.

#[global] Open Scope Z_scope.

(** ** Outcomes of fallible code

    The NestJS services signal failure by throwing; [exn] lists the exceptions
    the modelled code throws itself and the database errors its writes can
    meet.  The message is kept where callers or users can see it. *)
Inductive exn :=
  | BadRequest (msg : string)
  | NotFound (msg : string)
  | Conflict (msg : string)
  | Forbidden (msg : string)
  | Unauthorized (msg : string)
  | TooManyRequests (msg : string)
  | Unprocessable (msg : string)
  | PlainError (msg : string)
  | InternalError (msg : string)
  | HttpException (status : Z) (msg : string) (body : list (string * string))
  | MpesaError (code msg : string) (retryable : bool)
  | UniqueViolation (table : string)
  | ForeignKeyViolation (table : string)
  | RecordNotFound (table : string)
  | NumericOverflow.

#[export] Instance exn_eq_dec : EqDecision exn.
Proof. solve_decision. Defined.

(** [error.message] *)
Definition exn_message (e : exn) : string :=
  match e with
  | BadRequest m | NotFound m | Conflict m | Forbidden m | Unauthorized m | TooManyRequests m
  | Unprocessable m | PlainError m | InternalError m | HttpException _ m _ | MpesaError _ m _ => m
  | UniqueViolation t => "Unique constraint failed on " +:+ t
  | ForeignKeyViolation t => "Foreign key constraint violated on " +:+ t
  | RecordNotFound t => "Record to update not found: " +:+ t
  | NumericOverflow => "numeric field overflow"
  end.

Inductive result (A : Type) :=
  | Ok (a : A)
  | Err (e : exn).
Arguments Ok {A} a.
Arguments Err {A} e.

Definition is_ok {A} (r : result A) : bool :=
  match r with Ok _ => true | Err _ => false end.

(** ** Stateful, fallible computations

    A computation reads and writes a state and may throw; the state reached
    when it throws is kept, because code outside a database transaction leaves
    its earlier writes behind.  A rollback is explicit (see
    [Schema.transaction]). *)
Definition comp (S A : Type) : Type := S -> result A * S.

Section Monad.
Context {S : Type}.

Definition ret {A} (a : A) : comp S A := fun s => (Ok a, s).

Definition throw {A} (e : exn) : comp S A := fun s => (Err e, s).

Definition bind {A B} (m : comp S A) (f : A -> comp S B) : comp S B :=
  fun s => match m s with
           | (Ok a, s') => f a s'
           | (Err e, s') => (Err e, s')
           end.

Definition gets {A} (f : S -> A) : comp S A := fun s => (Ok (f s), s).

Definition modify (f : S -> S) : comp S unit := fun s => (Ok tt, f s).

(** [if (c) throw e;] *)
Definition throw_if (c : bool) (e : exn) : comp S unit :=
  if c then throw e else ret tt.

(** [const x = ...; if (!x) throw e;] *)
Definition or_throw {A} (o : option A) (e : exn) : comp S A :=
  match o with Some a => ret a | None => throw e end.

(** [for (const x of xs) acc = await body(acc, x);] *)
Fixpoint foldM {A B} (body : B -> A -> comp S B) (acc : B) (xs : list A)
  : comp S B :=
  match xs with
  | [] => ret acc
  | x :: xs' => bind (body acc x) (fun acc' => foldM body acc' xs')
  end.

Lemma bind_Ok {A B} (m : comp S A) (f : A -> comp S B) s b s'' :
  bind m f s = (Ok b, s'') <->
  exists a s', m s = (Ok a, s') /\ f a s' = (Ok b, s'').
Proof.
  unfold bind. split.
  - destruct (m s) as [[a|e] s'] eqn:E; [eauto | discriminate].
  - intros (a & s' & -> & H). exact H.
Qed.

Lemma bind_run {A B} (m : comp S A) (f : A -> comp S B) s a s' :
  m s = (Ok a, s') -> bind m f s = f a s'.
Proof. unfold bind. by intros ->. Qed.

Lemma bind_Err {A B} (m : comp S A) (f : A -> comp S B) s e s' :
  m s = (Err e, s') -> bind m f s = (Err e, s').
Proof. unfold bind. by intros ->. Qed.

Lemma ret_Ok {A} (a b : A) (s s' : S) : ret a s = (Ok b, s') <-> a = b /\ s = s'.
Proof. unfold ret. naive_solver. Qed.

Lemma gets_Ok {A} (f : S -> A) b (s s' : S) :
  gets f s = (Ok b, s') <-> f s = b /\ s = s'.
Proof. unfold gets. naive_solver. Qed.

Lemma modify_Ok (f : S -> S) u (s s' : S) :
  modify f s = (Ok u, s') <-> s' = f s.
Proof. unfold modify. destruct u. naive_solver. Qed.

Lemma throw_Ok {A} e (b : A) (s s' : S) : throw e s = (Ok b, s') <-> False.
Proof. unfold throw. naive_solver. Qed.

Lemma throw_if_Ok c e u (s s' : S) :
  throw_if c e s = (Ok u, s') <-> c = false /\ s = s'.
Proof. unfold throw_if, throw, ret. destruct c, u; naive_solver. Qed.

Lemma or_throw_Ok {A} (o : option A) e b (s s' : S) :
  or_throw o e s = (Ok b, s') <-> o = Some b /\ s = s'.
Proof. unfold or_throw, throw, ret. destruct o; naive_solver. Qed.

(** Rule induction over a loop: an invariant the body keeps on every
    successful pass holds after the loop. *)
Lemma foldM_inv {A B} (body : B -> A -> comp S B) (I : B -> S -> Prop) xs :
  (forall acc x s acc' s', x ∈ xs -> I acc s ->
     body acc x s = (Ok acc', s') -> I acc' s') ->
  forall acc s acc' s', I acc s ->
    foldM body acc xs s = (Ok acc', s') -> I acc' s'.
Proof.
  induction xs as [|x xs IH]; intros Hb acc s acc' s' HI Hr.
  - apply ret_Ok in Hr as [<- <-]. exact HI.
  - apply bind_Ok in Hr as (acc1 & s1 & H1 & H2).
    eapply IH; [|eapply Hb; [|exact HI|exact H1]|exact H2]; [|set_solver].
    intros; eapply Hb; [|eassumption..]. set_solver.
Qed.

(** A loop whose body never throws never throws. *)
Lemma foldM_total {A B} (body : B -> A -> comp S B) xs :
  (forall acc x s, exists acc' s', body acc x s = (Ok acc', s')) ->
  forall acc s, exists acc' s', foldM body acc xs s = (Ok acc', s').
Proof.
  intros Hb. induction xs as [|x xs IH]; intros acc s; cbn; [by eexists _, _|].
  unfold bind. destruct (Hb acc x s) as (acc1 & s1 & ->). apply IH.
Qed.
End Monad.

Declare Scope comp_scope.
Delimit Scope comp_scope with comp.
#[global] Open Scope comp_scope.

Notation "'let*' x := m 'in' k" := (bind m (fun x => k))
  (at level 10, x name, m at level 99, k at level 200)
  : comp_scope.
Notation "'let*' ' p := m 'in' k" := (bind m (fun x => match x with p => k end))
  (at level 10, p pattern, m at level 99, k at level 200)
  : comp_scope.
Notation "m ;; k" := (bind m (fun _ => k)) : comp_scope.

(** [run_step] inverts one successful step of a computation; [run_inv] inverts
    all the plumbing and leaves the calls of named operations. *)
Ltac run_step :=
  match goal with
  | H : bind _ _ _ = (Ok _, _) |- _ =>
      let a := fresh "r" in let s := fresh "s" in
      let H1 := fresh "Hrun" in let H2 := fresh "Hrun" in
      apply bind_Ok in H; destruct H as (a & s & H1 & H2)
  | H : ret _ _ = (Ok _, _) |- _ => apply ret_Ok in H; destruct H; subst
  | H : gets _ _ = (Ok _, _) |- _ => apply gets_Ok in H; destruct H; subst
  | H : modify _ _ = (Ok _, _) |- _ => apply modify_Ok in H; subst
  | H : throw _ _ = (Ok _, _) |- _ => apply throw_Ok in H; destruct H
  | H : throw_if _ _ _ = (Ok _, _) |- _ =>
      let Hc := fresh "Hguard" in apply throw_if_Ok in H; destruct H as [Hc ?]; subst
  | H : or_throw _ _ _ = (Ok _, _) |- _ =>
      let Hc := fresh "Hsome" in apply or_throw_Ok in H; destruct H as [Hc ?]; subst
  | H : (Ok _, _) = (Ok _, _) |- _ => injection H as ? ?; subst
  | H : (Err _, _) = (Ok _, _) |- _ => discriminate H
  | H : Ok _ = Ok _ |- _ => injection H as ?; subst
  end.
Ltac run_inv := repeat (run_step; cbn beta iota in * ).

(** Apply the inversion lemma [L] to the call it is about. *)
Tactic Notation "inv_call" uconstr(L) "as" simple_intropattern(p) :=
  match reverse goal with H : _ = (Ok _, _) |- _ => apply L in H as p end.

(** ** Sums over lists and maps *)
Fixpoint sum_by {A} (f : A -> Z) (l : list A) : Z :=
  match l with
  | [] => 0
  | x :: l' => f x + sum_by f l'
  end.

Section SumBy.
Context {A : Type}.
Implicit Types (f g : A -> Z) (l : list A).

Lemma sum_by_cons f x l : sum_by f (x :: l) = f x + sum_by f l.
Proof. done. Qed.

Lemma sum_by_app f l1 l2 : sum_by f (l1 ++ l2) = sum_by f l1 + sum_by f l2.
Proof. induction l1 as [|x l1 IH]; simpl; lia. Qed.

Lemma sum_by_ext f g l : (forall x, x ∈ l -> f x = g x) -> sum_by f l = sum_by g l.
Proof.
  induction l as [|x l IH]; intros H; cbn; [done|].
  rewrite (H x) by set_solver. rewrite IH by set_solver. done.
Qed.

Lemma sum_by_nonneg f l : (forall x, x ∈ l -> 0 <= f x) -> 0 <= sum_by f l.
Proof.
  induction l as [|x l IH]; intros H; cbn; [lia|].
  assert (0 <= f x) by (apply H; set_solver).
  assert (0 <= sum_by f l) by (apply IH; set_solver). lia.
Qed.

Lemma sum_by_perm f l1 l2 : l1 ≡ₚ l2 -> sum_by f l1 = sum_by f l2.
Proof. induction 1; simpl; lia. Qed.

Lemma sum_by_plus f g l :
  sum_by (fun x => f x + g x) l = sum_by f l + sum_by g l.
Proof. induction l as [|x l IH]; simpl; lia. Qed.

Lemma sum_by_fmap {B} (h : B -> A) f (l : list B) :
  sum_by f (h <$> l) = sum_by (fun x => f (h x)) l.
Proof. induction l as [|x l IH]; csimpl; lia. Qed.
End SumBy.

Definition map_sum {K A} `{Countable K} (f : A -> Z) (m : gmap K A) : Z :=
  sum_by (fun kv => f kv.2) (map_to_list m).

Section MapSum.
Context {K : Type} `{Countable K} {A : Type}.
Implicit Types (f : A -> Z) (m : gmap K A).

Lemma map_sum_empty f : map_sum f (∅ : gmap K A) = 0.
Proof. unfold map_sum. by rewrite map_to_list_empty. Qed.

Lemma map_sum_insert_new f m k v :
  m !! k = None -> map_sum f (<[k:=v]> m) = f v + map_sum f m.
Proof.
  intros Hk. unfold map_sum.
  rewrite (sum_by_perm _ _ _ (map_to_list_insert m k v Hk)). done.
Qed.

Lemma map_sum_zero f m : map_Forall (fun _ v => f v = 0) m -> map_sum f m = 0.
Proof.
  intros Hm. unfold map_sum. rewrite (sum_by_ext _ (fun _ => 0)).
  - induction (map_to_list m) as [|x l IH]; simpl; lia.
  - intros [k v] Hkv. apply elem_of_map_to_list in Hkv. by apply (Hm k).
Qed.

(** Replacing a row changes the sum by the row's change. *)
Lemma map_sum_replace f m k v v' :
  m !! k = Some v -> map_sum f (<[k:=v']> m) = map_sum f m - f v + f v'.
Proof.
  intros Hk. rewrite <- (insert_delete_eq m k v').
  rewrite map_sum_insert_new by apply lookup_delete_eq.
  rewrite <- (insert_delete_id m k v Hk) at 2.
  rewrite map_sum_insert_new by apply lookup_delete_eq. lia.
Qed.
End MapSum.

(** ** Rows in a list table *)
Definition update_where {A} (P : A -> bool) (f : A -> A) (l : list A) : list A :=
  (fun x => if P x then f x else x) <$> l.

Definition count_where {A} (P : A -> bool) (l : list A) : nat :=
  length (List.filter P l).

Lemma update_where_none {A} (P : A -> bool) f (l : list A) :
  (forall x, x ∈ l -> P x = false) -> update_where P f l = l.
Proof.
  induction l as [|x l IH]; intros HP; cbn; [done|].
  rewrite (HP x) by set_solver. f_equal. apply IH. set_solver.
Qed.

Lemma update_where_length {A} (P : A -> bool) f (l : list A) :
  length (update_where P f l) = length l.
Proof. unfold update_where. by rewrite length_fmap. Qed.

Lemma sum_by_update_where {A} (P : A -> bool) f (g : A -> Z) (l : list A) :
  (forall x, x ∈ l -> P x = true -> g (f x) = g x) ->
  sum_by g (update_where P f l) = sum_by g l.
Proof.
  intros Hg. unfold update_where. rewrite sum_by_fmap.
  apply sum_by_ext. intros x Hx. destruct (P x) eqn:E; auto.
Qed.

Lemma sum_by_update_where_by {A} (P : A -> bool) f (g : A -> Z) k (l : list A) :
  (forall x, x ∈ l -> P x = true -> g (f x) = g x + k) ->
  sum_by g (update_where P f l) = sum_by g l + k * Z.of_nat (length (List.filter P l)).
Proof.
  induction l as [|x l IH]; intros Hg; [simpl; lia|].
  change (update_where P f (x :: l)) with ((if P x then f x else x) :: update_where P f l).
  rewrite !sum_by_cons, IH by (intros; apply Hg; set_solver). cbn [List.filter].
  destruct (P x) eqn:E; [rewrite Hg by set_solver; cbn [length]|]; lia.
Qed.

Lemma find_some_elem {A} (P : A -> bool) (l : list A) x :
  List.find P l = Some x -> x ∈ l /\ P x = true.
Proof. intros H. apply List.find_some in H as [Hin HP]. by rewrite list_elem_of_In. Qed.

Lemma find_app_none {A} (P : A -> bool) (l1 l2 : list A) :
  List.find P l1 = None -> List.find P (l1 ++ l2) = List.find P l2.
Proof. induction l1 as [|x l1 IH]; cbn; [done|]. destruct (P x); naive_solver. Qed.

Lemma find_app_some {A} (P : A -> bool) (l1 l2 : list A) x :
  List.find P l1 = Some x -> List.find P (l1 ++ l2) = Some x.
Proof. induction l1 as [|y l1 IH]; cbn; [done|]. destruct (P y); naive_solver. Qed.

(** Decidable equality as a boolean test, in the code's [===] places. *)
Notation "a === b" := (bool_decide (a = b)) (at level 70, no associativity) : comp_scope.

Lemma same_true {A} `{EqDecision A} (a b : A) : (a === b) = true <-> a = b.
Proof. apply bool_decide_eq_true. Qed.
Lemma same_false {A} `{EqDecision A} (a b : A) : (a === b) = false <-> a <> b.
Proof. apply bool_decide_eq_false. Qed.
Lemma same_refl {A} `{EqDecision A} (a : A) : (a === a) = true.
Proof. by apply same_true. Qed.

(** Decide a closed proposition by running its decision procedure. *)
Ltac by_decision := apply (bool_decide_unpack _); vm_compute; exact I.

(** Replacing the row with a given unique key. *)
Section ReplaceRow.
Context {A : Type} (key : A -> string).

(** A unique key names one row. *)
Lemma NoDup_key_inj l x y :
  NoDup (key <$> l) -> x ∈ l -> y ∈ l -> key x = key y -> x = y.
Proof.
  intros Hnd Hx Hy E. apply list_elem_of_lookup in Hx as [i Hi]. apply list_elem_of_lookup in Hy as [j Hj].
  assert (i = j); [|congruence].
  eapply (NoDup_lookup _ _ _ (key x) Hnd); rewrite list_lookup_fmap.
  - by rewrite Hi.
  - by rewrite Hj, E.
Qed.

Lemma NoDup_key_filter P l : NoDup (key <$> l) -> NoDup (key <$> List.filter P l).
Proof.
  induction l as [|x l IH]; intros Hnd; [done|]. cbn in Hnd. apply NoDup_cons in Hnd as [Hx Hnd].
  cbn. destruct (P x); [|auto]. cbn. apply NoDup_cons. split; [|auto].
  intros (y & E & Hy)%list_elem_of_fmap. apply Hx. rewrite E. apply list_elem_of_fmap_2.
  apply list_elem_of_In, List.filter_In in Hy. apply list_elem_of_In, Hy.
Qed.

Definition replace_row (x' : A) (l : list A) : list A :=
  update_where (fun y => key y === key x') (fun _ => x') l.

Lemma replace_row_keys x' l : key <$> replace_row x' l = key <$> l.
Proof.
  unfold replace_row, update_where. rewrite <- list_fmap_compose. apply list_fmap_ext.
  intros i y _. cbn. case_bool_decide; congruence.
Qed.

Lemma replace_row_other x' l y : y ∈ l -> key y <> key x' -> y ∈ replace_row x' l.
Proof.
  intros Hy Hne. apply list_elem_of_fmap. exists y. by rewrite bool_decide_eq_false_2.
Qed.

Lemma replace_row_absent x' l : (key x' ∉ (key <$> l)) -> replace_row x' l = l.
Proof.
  intros Hno. apply update_where_none. intros y Hy. apply bool_decide_eq_false. intros E.
  apply Hno. rewrite <- E. by apply list_elem_of_fmap_2.
Qed.

Lemma replace_row_self x l : NoDup (key <$> l) -> x ∈ l -> replace_row x l = l.
Proof.
  intros Hnd Hx. unfold replace_row, update_where. rewrite <- (list_fmap_id l) at 2.
  apply list_fmap_ext. intros i y Hy. case_bool_decide as E; [|done].
  symmetry. eapply NoDup_key_inj; [done|by eapply list_elem_of_lookup_2|done|done].
Qed.

Lemma sum_by_replace_row g x x' l :
  NoDup (key <$> l) -> x ∈ l -> key x' = key x ->
  sum_by g (replace_row x' l) = sum_by g l - g x + g x'.
Proof.
  induction l as [|y l IH]; intros Hnd Hx Hk; [by apply elem_of_nil in Hx|].
  cbn in Hnd. apply NoDup_cons in Hnd as [Hy Hnd].
  change (g (if key y === key x' then x' else y) + sum_by g (replace_row x' l)
          = g y + sum_by g l - g x + g x').
  apply elem_of_cons in Hx as [->|Hx].
  - rewrite bool_decide_eq_true_2 by done. rewrite replace_row_absent by (by rewrite Hk). lia.
  - rewrite bool_decide_eq_false_2. 2: { intros E. apply Hy. rewrite E, Hk. by apply list_elem_of_fmap_2. }
    rewrite IH by done. lia.
Qed.

Lemma replace_row_Forall2 (R : A -> A -> Prop) x x' l :
  (forall y, y ∈ l -> R y y) -> R x x' -> NoDup (key <$> l) -> x ∈ l -> key x' = key x ->
  Forall2 R l (replace_row x' l).
Proof.
  intros Hrefl HR Hnd Hx Hk. unfold replace_row, update_where. apply Forall2_fmap_r, Forall_Forall2_diag.
  apply Forall_forall. intros y Hy. cbn. case_bool_decide as E; [|by apply Hrefl].
  rewrite (NoDup_key_inj l y x) by (congruence || done). done.
Qed.
(** A list is determined by its keys and a row for each of them. *)
Lemma keyed_ext l l' : NoDup (key <$> l) -> key <$> l' = key <$> l -> (forall x, x ∈ l -> x ∈ l') -> l' = l.
Proof.
  intros Hnd Hk Hin. apply list_eq. intros i. assert (NoDup (key <$> l')) as Hnd' by (by rewrite Hk).
  destruct (l !! i) as [x|] eqn:Hx.
  - assert (x ∈ l') as Hx' by (by eapply Hin, list_elem_of_lookup_2).
    apply list_elem_of_lookup in Hx' as [j Hj]. assert (j = i) as ->; [|done].
    eapply (NoDup_lookup _ _ _ (key x) Hnd').
    + by rewrite list_lookup_fmap, Hj.
    + by rewrite Hk, list_lookup_fmap, Hx.
  - apply lookup_ge_None in Hx. apply lookup_ge_None.
    apply (f_equal length) in Hk. rewrite !length_fmap in Hk. lia.
Qed.
End ReplaceRow.

Create HintDb sacco.
Create Rewrite HintDb sacco_bool.
#[export] Hint Rewrite @bool_decide_eq_true @bool_decide_eq_false Z.leb_le Z.leb_gt Z.ltb_lt Z.ltb_ge
  andb_true_iff andb_false_iff orb_true_iff orb_false_iff negb_true_iff
  negb_false_iff : sacco_bool.

(** Turn every boolean test in the context into the proposition it decides. *)
Ltac reflect := autorewrite with sacco_bool in *; destruct_and?.

(** ** Strings *)
Lemma str_app_inv (s a b : string) : s +:+ a = s +:+ b -> a = b.
Proof. induction s as [|c s IH]; [done|]. intros [= E]. auto. Qed.

Lemma str_length_app (a b : string) :
  String.length (a +:+ b) = (String.length a + String.length b)%nat.
Proof. induction a as [|c a IH]; [done|]. apply (f_equal S IH). Qed.

Lemma str_app_inv_same_length (a b s t : string) :
  a +:+ s = b +:+ t -> String.length s = String.length t -> s = t.
Proof.
  revert b. induction a as [|c a IH]; intros [|d b] E Hl; [exact E| | |injection E as _ E; by eapply IH].
  - apply (f_equal String.length) in E. change (String.length s = S (String.length (b +:+ t))) in E.
    rewrite str_length_app in E. lia.
  - apply (f_equal String.length) in E. change (S (String.length (a +:+ s)) = String.length t) in E.
    rewrite str_length_app in E. lia.
Qed.

Lemma str_app_longer (s x : string) : s <> s +:+ "-" +:+ x.
Proof. intros E. apply (f_equal String.length) in E. rewrite !str_length_app in E. cbn in E. lia. Qed.
