(* ===== verification/Money.v ===== *)
(** * Money: decimal amounts at the width the database keeps them

    Every money column of [src/src/prisma/schema.prisma] is a PostgreSQL
    numeric(18,4).  Here such a value is a [Z] counting units of 0.0001, and
    the decimal.js values the services compute with before rounding are
    rationals.  Sums and differences of four-digit amounts are exact in
    decimal.js (twenty significant digits) as long as they stay below 10^20
    units; a numeric(18,4) column keeps them below 10^18.  Products and
    quotients are rounded by the library, whose rounding is a parameter. *)
From S2P Require Import Prelude.
From Stdlib Require Export QArith Qround.
From Stdlib Require Import Lqa.
#[global] Close Scope Q_scope.
#[global] Open Scope Z_scope.

(** ** Rounding to four decimals

    [x.toDecimalPlaces(4)] with the default rounding mode ROUND_HALF_UP: to
    the nearest multiple of 0.0001, ties away from zero. *)
Definition round_half_up (n : Z) (d : positive) : Z :=
  if 0 <=? n then (2 * n + Z.pos d) / (2 * Z.pos d)
  else - ((2 * (- n) + Z.pos d) / (2 * Z.pos d)).

Definition to_dp4 (q : Q) : Z := round_half_up (Qnum q * 10000) (Qden q).

(** The decimal a four-digit column denotes: [new Decimal(col.toString())]. *)
Definition dec (z : Z) : Q := z # 10000.

Lemma round_half_up_exact n d : round_half_up (n * Z.pos d) d = n.
Proof.
  unfold round_half_up. destruct (0 <=? n * Z.pos d) eqn:E.
  - symmetry. apply (Z.div_unique _ _ _ (Z.pos d)); lia.
  - enough ((2 * - (n * Z.pos d) + Z.pos d) / (2 * Z.pos d) = - n) by lia.
    symmetry. apply (Z.div_unique _ _ _ (Z.pos d)); lia.
Qed.

Lemma to_dp4_dec z : to_dp4 (dec z) = z.
Proof. apply (round_half_up_exact z 10000). Qed.

Lemma round_half_up_mono n1 n2 d : n1 <= n2 -> round_half_up n1 d <= round_half_up n2 d.
Proof.
  intros Hle. unfold round_half_up.
  destruct (0 <=? n1) eqn:E1, (0 <=? n2) eqn:E2; reflect.
  - apply Z.div_le_mono; lia.
  - lia.
  - assert (0 <= (2 * - n1 + Z.pos d) / (2 * Z.pos d)) by (apply Z.div_pos; lia).
    assert (0 <= (2 * n2 + Z.pos d) / (2 * Z.pos d)) by (apply Z.div_pos; lia). lia.
  - apply Z.opp_le_mono. rewrite !Z.opp_involutive. apply Z.div_le_mono; lia.
Qed.

(** Half a unit bounds the rounding error. *)
Lemma round_half_up_error n d :
  2 * Z.abs (round_half_up n d * Z.pos d - n) <= Z.pos d.
Proof.
  unfold round_half_up. destruct (0 <=? n) eqn:E; reflect.
  - pose proof (Z.mod_pos_bound (2 * n + Z.pos d) (2 * Z.pos d)).
    pose proof (Z.div_mod (2 * n + Z.pos d) (2 * Z.pos d)). nia.
  - pose proof (Z.mod_pos_bound (2 * - n + Z.pos d) (2 * Z.pos d)).
    pose proof (Z.div_mod (2 * - n + Z.pos d) (2 * Z.pos d)). nia.
Qed.

Lemma round_half_up_scale n d k :
  round_half_up (n * Z.pos k) (d * k) = round_half_up n d.
Proof.
  unfold round_half_up. rewrite Pos2Z.inj_mul.
  destruct (0 <=? n) eqn:E; reflect.
  - replace (0 <=? n * Z.pos k) with true by (symmetry; apply Z.leb_le; nia).
    replace (2 * (n * Z.pos k) + Z.pos d * Z.pos k) with ((2 * n + Z.pos d) * Z.pos k) by lia.
    replace (2 * (Z.pos d * Z.pos k)) with (2 * Z.pos d * Z.pos k) by lia.
    apply Z.div_mul_cancel_r; lia.
  - replace (0 <=? n * Z.pos k) with false by (symmetry; apply Z.leb_gt; nia).
    replace (2 * - (n * Z.pos k) + Z.pos d * Z.pos k)
      with ((2 * - n + Z.pos d) * Z.pos k) by lia.
    replace (2 * (Z.pos d * Z.pos k)) with (2 * Z.pos d * Z.pos k) by lia.
    f_equal. apply Z.div_mul_cancel_r; lia.
Qed.

Lemma to_dp4_mono q1 q2 : (q1 <= q2)%Q -> to_dp4 q1 <= to_dp4 q2.
Proof.
  intros H. unfold to_dp4, Qle in *. destruct q1 as [n1 d1], q2 as [n2 d2]. cbn in *.
  rewrite <- (round_half_up_scale (n1 * 10000) d1 d2).
  rewrite <- (round_half_up_scale (n2 * 10000) d2 d1).
  rewrite (Pos.mul_comm d2 d1). apply round_half_up_mono. nia.
Qed.

#[export] Instance to_dp4_proper : Proper (Qeq ==> eq) to_dp4.
Proof.
  intros q1 q2 H. apply Z.le_antisymm; apply to_dp4_mono; rewrite H; apply Qle_refl.
Qed.

Lemma to_dp4_nonneg q : (0 <= q)%Q -> 0 <= to_dp4 q.
Proof. intros H. apply to_dp4_mono in H. exact H. Qed.

(** ** The numeric library

    decimal.js rounds the exact product or quotient to its precision.  The
    model takes that rounding as a parameter: it is monotone and leaves every
    value of at most twenty significant digits alone, in particular every
    multiple of 0.0001 below 10^16. *)
Class DecimalLib := {
  rnd : Q -> Q;
  rnd_mono : forall p q, (p <= q)%Q -> (rnd p <= rnd q)%Q;
  rnd_exact : forall z, Z.abs z < 10 ^ 20 -> (rnd (dec z) == dec z)%Q;
}.

Definition d_times `{DecimalLib} (a b : Q) : Q := rnd (a * b)%Q.
Definition d_div `{DecimalLib} (a b : Q) : Q := rnd (a / b)%Q.

Lemma rnd_nonneg `{DecimalLib} q : (0 <= q)%Q -> (0 <= rnd q)%Q.
Proof.
  intros Hq. apply Qle_trans with (rnd (dec 0)).
  - rewrite rnd_exact by lia. done.
  - apply rnd_mono. by apply Qle_trans with 0%Q.
Qed.

(** An instance: a library of unbounded precision. *)
#[export] Instance exact_decimals : DecimalLib.
Proof. refine {| rnd q := q |}; [done|]. intros. apply Qeq_refl. Defined.

(** ** Column widths *)

(** A numeric(18,4) column rejects values of eighteen digits or more. *)
Definition fits_18_4 (z : Z) : bool := Z.abs z <? 10 ^ 18.

(** A numeric(10,2) column holds hundredths; the server rounds a four-digit
    value to the nearest hundredth, ties away from zero. *)
Definition to_numeric_10_2 (z : Z) : Z := round_half_up z 100.
Definition fits_10_2 (c : Z) : bool := Z.abs c <? 10 ^ 10.

(** [Decimal.min] of three amounts. *)
Definition min3 (a b c : Z) : Z := Z.min a (Z.min b c).

(** A decimal.js value as the callers pass it in: NaN and the infinities are
    kept apart so that [isFinite] guards can be modelled. *)
Inductive decimal :=
  | Finite (q : Q)
  | NonFinite.

(** [!x.isFinite() || x.lessThanOrEqualTo(0)] *)
Definition not_positive (d : decimal) : bool :=
  match d with
  | Finite q => Qle_bool q 0
  | NonFinite => true
  end.

Definition finite_value (d : decimal) : Q :=
  match d with Finite q => q | NonFinite => 0%Q end.

(** [Decimal.max] of two values. *)
Definition Qmax_ (a b : Q) : Q := if Qle_bool a b then b else a.

(** [Decimal.min] of two values. *)
Definition Qmin_ (a b : Q) : Q := if Qle_bool a b then a else b.

(** Rounding a minimum with a four-digit amount is the minimum of the rounded
    amounts. *)
Lemma to_dp4_min z q : to_dp4 (Qmin_ (dec z) q) = Z.min z (to_dp4 q).
Proof.
  unfold Qmin_. destruct (Qle_bool (dec z) q) eqn:E.
  - apply Qle_bool_iff, to_dp4_mono in E. rewrite to_dp4_dec in *. lia.
  - assert (q <= dec z)%Q as Hle.
    { apply Qlt_le_weak, Qnot_le_lt. intros Hle. apply Qle_bool_iff in Hle. congruence. }
    apply to_dp4_mono in Hle. rewrite to_dp4_dec in Hle. lia.
Qed.
