(* ===== verification/Json.v ===== *)
(** * Json: JSON values, JSON.stringify and ISO dates

    What the services use of the JavaScript standard library when they build
    texts: JSON.stringify, Array.join, String.split, trim and toLowerCase, and
    Date.toISOString.  Strings are UTF-8 byte strings. *)
From S2P Require Import Prelude.
From Stdlib Require Export Ascii.

(** ** Strings *)

(** [xs.join(sep)] *)
Fixpoint join (sep : string) (xs : list string) : string :=
  match xs with
  | [] => ""
  | [x] => x
  | x :: xs' => x +:+ sep +:+ join sep xs'
  end.

Definition is_space (c : ascii) : bool :=
  let n := N_of_ascii c in ((9 <=? n) && (n <=? 13) || (n =? 32))%N.

Fixpoint trim_start (s : string) : string :=
  match s with
  | String c s' => if is_space c then trim_start s' else s
  | EmptyString => s
  end.

Fixpoint reverse_onto (s acc : string) : string :=
  match s with
  | String c s' => reverse_onto s' (String c acc)
  | EmptyString => acc
  end.
Definition reverse_string (s : string) : string := reverse_onto s "".

(** [s.trim()] *)
Definition trim (s : string) : string :=
  reverse_string (trim_start (reverse_string (trim_start s))).

Definition lower_char (c : ascii) : ascii :=
  let n := N_of_ascii c in if ((65 <=? n) && (n <=? 90))%N then ascii_of_N (n + 32) else c.
Definition upper_char (c : ascii) : ascii :=
  let n := N_of_ascii c in if ((97 <=? n) && (n <=? 122))%N then ascii_of_N (n - 32) else c.

Fixpoint map_string (f : ascii -> ascii) (s : string) : string :=
  match s with
  | String c s' => String (f c) (map_string f s')
  | EmptyString => ""
  end.
Definition toLowerCase : string -> string := map_string lower_char.
Definition toUpperCase : string -> string := map_string upper_char.

(** [s.split(c)] for a one-character separator. *)
Fixpoint split_on (c : ascii) (s : string) : list string :=
  match s with
  | EmptyString => [""%string]
  | String x s' =>
      if Ascii.eqb x c then ""%string :: split_on c s'
      else match split_on c s' with
           | [] => [String x ""]
           | h :: t => String x h :: t
           end
  end.

(** A string option as JavaScript's truthiness sees it. *)
Definition truthy (o : option string) : option string :=
  match o with Some s => if s === "" then None else Some s | None => None end.

(** ** JSON *)
Inductive json :=
  | JNull
  | JBool (b : bool)
  | JNum (text : string)  (* a number, as JavaScript prints it *)
  | JStr (s : string)
  | JArr (xs : list json)
  | JObj (fields : list (string * json)).

#[export] Instance json_eq_dec : EqDecision json.
Proof.
  refine (fix go (a b : json) : Decision (a = b) :=
    match a, b with
    | JNull, JNull => left eq_refl
    | JBool x, JBool y => cast_if (decide (x = y))
    | JNum x, JNum y => cast_if (decide (x = y))
    | JStr x, JStr y => cast_if (decide (x = y))
    | JArr xs, JArr ys => cast_if ((fix list_go (xs ys : list json) : {xs = ys} + {xs <> ys} :=
        match xs, ys with
        | [], [] => left eq_refl
        | x :: xs', y :: ys' => cast_if_and (go x y) (list_go xs' ys')
        | _, _ => right _
        end) xs ys)
    | JObj xs, JObj ys => cast_if ((fix fields_go (xs ys : list (string * json)) : {xs = ys} + {xs <> ys} :=
        match xs, ys with
        | [], [] => left eq_refl
        | (k, x) :: xs', (j, y) :: ys' => cast_if_and3 (decide (k = j)) (go x y) (fields_go xs' ys')
        | _, _ => right _
        end) xs ys)
    | _, _ => right _
    end); try clear list_go; try clear fields_go; clear go; congruence.
Defined.

Definition hex_digit (n : N) : ascii :=
  if (n <? 10)%N then ascii_of_N (48 + n) else ascii_of_N (87 + n).

Definition escape_char (c : ascii) : string :=
  match N_of_ascii c with
  | 8%N => "\b" | 9%N => "\t" | 10%N => "\n" | 12%N => "\f" | 13%N => "\r"
  | 34%N => String "\" (String c "") | 92%N => "\\"
  | n => if (n <? 32)%N
         then "\u00" +:+ String (hex_digit (n / 16)) (String (hex_digit (n mod 16)) "")
         else String c ""
  end.

Fixpoint escape (s : string) : string :=
  match s with
  | EmptyString => ""
  | String c s' => escape_char c +:+ escape s'
  end.

Definition quote_char : string := String (ascii_of_N 34) "".
Definition quote (s : string) : string := quote_char +:+ escape s +:+ quote_char.

(** [JSON.stringify(v)] *)
Fixpoint stringify (v : json) : string :=
  match v with
  | JNull => "null"
  | JBool b => if b then "true" else "false"
  | JNum t => t
  | JStr s => quote s
  | JArr xs => "[" +:+ join "," (map stringify xs) +:+ "]"
  | JObj fs => "{" +:+ join "," (map (fun kv => quote kv.1 +:+ ":" +:+ stringify kv.2) fs) +:+ "}"
  end.

Definition key_le (a b : string * string) : Prop := String.leb a.1 b.1 = true.
#[export] Instance key_le_dec : RelDecision key_le.
Proof. intros a b. unfold key_le. apply _. Defined.

(** The audit chain's canonical text: object keys in sorted order. *)
Fixpoint canonicalJson (v : json) : string :=
  match v with
  | JNull => "null"
  | JBool b => if b then "true" else "false"
  | JNum t => t
  | JStr s => quote s
  | JArr xs => "[" +:+ join "," (map canonicalJson xs) +:+ "]"
  | JObj fs =>
      "{" +:+ join "," (map (fun kv => kv.2)
        (merge_sort key_le (map (fun kv => (kv.1, quote kv.1 +:+ ":" +:+ canonicalJson kv.2)) fs))) +:+ "}"
  end.

Definition json_or_null (o : option string) : json :=
  match o with Some s => JStr s | None => JNull end.

(** A property that is left out when its value is undefined. *)
Definition json_opt_field (key : string) (o : option string) : list (string * json) :=
  match o with Some s => [(key, JStr s)] | None => [] end.

(** ** Dates

    A date is a number of milliseconds since 1970-01-01T00:00:00Z. *)
Definition msPerDay : Z := 24 * 60 * 60 * 1000.

(** Year, month and day of a day number, in the proleptic Gregorian calendar. *)
Definition civil_from_days (days : Z) : Z * (Z * Z) :=
  let z := days + 719468 in
  let era := z / 146097 in
  let doe := z - era * 146097 in
  let yoe := (doe - doe / 1460 + doe / 36524 - doe / 146096) / 365 in
  let doy := doe - (365 * yoe + yoe / 4 - yoe / 100) in
  let mp := (5 * doy + 2) / 153 in
  let d := doy - (153 * mp + 2) / 5 + 1 in
  let m := if mp <? 10 then mp + 3 else mp - 9 in
  ((yoe + era * 400) + (if m <=? 2 then 1 else 0), (m, d)).

Fixpoint zeros (k : nat) (s : string) : string :=
  match k with O => s | S k' => "0" +:+ zeros k' s end.

(** [s.padStart(n, '0')] *)
Definition padStart0 (n : nat) (s : string) : string := zeros (n - String.length s) s.

Definition pad (n : nat) (z : Z) : string := padStart0 n (pretty z).

(** The date part of [d.toISOString()], for years 0 to 9999. *)
Definition iso_date (ms : Z) : string :=
  let '(y, (m, d)) := civil_from_days (ms / msPerDay) in
  pad 4 y +:+ "-" +:+ pad 2 m +:+ "-" +:+ pad 2 d.

Definition iso_time (ms : Z) : string :=
  let t := ms mod msPerDay in
  pad 2 (t / 3600000) +:+ ":" +:+ pad 2 (t / 60000 mod 60) +:+ ":" +:+ pad 2 (t / 1000 mod 60)
  +:+ "." +:+ pad 3 (t mod 1000) +:+ "Z".

Definition toISOString (ms : Z) : string := iso_date ms +:+ "T" +:+ iso_time ms.

Example iso_epoch : toISOString 0 = "1970-01-01T00:00:00.000Z".
Proof. reflexivity. Qed.
Example iso_leap : toISOString 1709210096789 = "2024-02-29T12:34:56.789Z".
Proof. vm_compute. reflexivity. Qed.

(** ** Texts without a character *)
Fixpoint lacks (x : ascii) (s : string) : bool :=
  match s with
  | EmptyString => true
  | String c s' => negb (Ascii.eqb c x) && lacks x s'
  end.

Lemma str_cons_app (c : ascii) s t : String c s +:+ t = String c (s +:+ t).
Proof. done. Qed.

Lemma str_app_assoc (a b c : string) : (a +:+ b) +:+ c = a +:+ b +:+ c.
Proof. induction a as [|x a IH]; [done|]. rewrite !str_cons_app. by rewrite IH. Qed.

Lemma lacks_app x a b : lacks x (a +:+ b) = lacks x a && lacks x b.
Proof.
  induction a as [|c a IH]; [done|].
  change (negb (Ascii.eqb c x) && lacks x (a +:+ b) = negb (Ascii.eqb c x) && lacks x a && lacks x b).
  by rewrite IH, andb_assoc.
Qed.

Lemma lacks_zeros x k s : Ascii.eqb "0" x = false -> lacks x s = true -> lacks x (zeros k s) = true.
Proof.
  intros Hx Hs. induction k as [|k IH]; [done|].
  change (negb (Ascii.eqb "0" x) && lacks x (zeros k s) = true). by rewrite Hx, IH.
Qed.

(** Not a character of a printed number. *)
Definition numeric_chars : list ascii := ["-"; "0"; "1"; "2"; "3"; "4"; "5"; "6"; "7"; "8"; "9"]%char.
Definition not_numeric (x : ascii) : bool := forallb (fun c => negb (Ascii.eqb c x)) numeric_chars.

Lemma not_numeric_char x c : not_numeric x = true -> List.In c numeric_chars -> Ascii.eqb c x = false.
Proof. intros Hx Hc. apply negb_true_iff. exact (proj1 (forallb_forall _ _) Hx c Hc). Qed.

Lemma pretty_N_char_numeric (n : N) : List.In (pretty_N_char n) numeric_chars.
Proof. unfold pretty_N_char. repeat case_match; simpl; tauto. Qed.

Lemma lacks_cons x c s : lacks x (String c s) = negb (Ascii.eqb c x) && lacks x s.
Proof. done. Qed.

Lemma lacks_pretty_go x (n : N) s :
  not_numeric x = true -> lacks x s = true -> lacks x (pretty_N_go n s) = true.
Proof.
  intros Hx. revert s. induction (N.lt_wf_0 n) as [n _ IH]. intros s Hs.
  destruct (decide (n = 0)%N) as [->|Hn]; [by rewrite pretty_N_go_0|].
  rewrite pretty_N_go_step by lia. apply IH; [apply N.div_lt; lia|].
  by rewrite lacks_cons, (not_numeric_char x _ Hx (pretty_N_char_numeric _)).
Qed.

Lemma lacks_pretty x (z : Z) : not_numeric x = true -> lacks x (pretty z) = true.
Proof.
  intros Hx. assert (forall n : N, lacks x (pretty n) = true) as Hn.
  { intros n. unfold pretty, pretty_N. case_decide; [|by apply lacks_pretty_go].
    rewrite lacks_cons, (not_numeric_char x "0" Hx); [done|]. simpl; tauto. }
  destruct z as [|p|p]; [apply (Hn 0%N)|apply (Hn (Npos p))|].
  change (lacks x (String "-" (pretty (Npos p))) = true).
  rewrite lacks_cons, Hn, (not_numeric_char x "-" Hx); [done|]. simpl; tauto.
Qed.

Lemma lacks_pad x n z : not_numeric x = true -> lacks x (pad n z) = true.
Proof.
  intros Hx. apply lacks_zeros; [|by apply lacks_pretty].
  apply (not_numeric_char x "0" Hx). simpl; tauto.
Qed.

(** Splitting at the first separator. *)
Lemma split_on_lacks c s : lacks c s = true -> split_on c s = [s].
Proof.
  induction s as [|x s IH]; [done|]. rewrite lacks_cons. intros [Hx%negb_true_iff Hs]%andb_true_iff.
  cbn [split_on]. by rewrite Hx, IH.
Qed.

Lemma split_on_app c s t :
  lacks c s = true -> split_on c (s +:+ String c t) = s :: split_on c t.
Proof.
  induction s as [|x s IH]; intros Hs.
  - change ("" +:+ String c t) with (String c t). cbn [split_on].
    by replace (Ascii.eqb c c) with true by (symmetry; apply Ascii.eqb_refl).
  - rewrite lacks_cons in Hs. apply andb_true_iff in Hs as [Hx%negb_true_iff Hs]. rewrite str_cons_app.
    cbn [split_on]. by rewrite Hx, IH.
Qed.
