(* ===== verification/Format.v ===== *)
(** * Format: decimals and dates as texts

    The parts of decimal.js and Date that turn amounts into text and back:
    toString, toFixed, and the constructor applied to a text. *)
From S2P Require Import Prelude Money Json.

(** ** Printing *)
Fixpoint trim_zeros (s : string) : string :=
  match s with
  | EmptyString => ""
  | String c s' =>
      let r := trim_zeros s' in
      if Ascii.eqb c "0" && (r === "") then "" else String c r
  end.

Definition sign_text (z : Z) : string := if z <? 0 then "-" else "".

(** [d.toString()] for a decimal with at most four decimal places. *)
Definition dp4_toString (z : Z) : string :=
  let n := Z.abs z in
  sign_text z +:+ pretty (n / 10000) +:+
  (if n mod 10000 =? 0 then "" else "." +:+ trim_zeros (pad 4 (n mod 10000))).

(** [d.toFixed(2)] and [d.toFixed(4)]: rounded half up. *)
Definition toFixed2 (q : Q) : string :=
  let c := round_half_up (Qnum q * 100) (Qden q) in
  sign_text c +:+ pretty (Z.abs c / 100) +:+ "." +:+ pad 2 (Z.abs c mod 100).

Definition toFixed4 (q : Q) : string :=
  let z := to_dp4 q in
  sign_text z +:+ pretty (Z.abs z / 10000) +:+ "." +:+ pad 4 (Z.abs z mod 10000).

(** ** Parsing *)
Definition digit_value (c : ascii) : option Z :=
  let n := Z.of_N (N_of_ascii c) in
  if (48 <=? n) && (n <=? 57) then Some (n - 48) else None.

Fixpoint digits_value (acc : Z) (s : string) : option Z :=
  match s with
  | EmptyString => Some acc
  | String c s' =>
      match digit_value c with
      | Some v => digits_value (acc * 10 + v) s'
      | None => None
      end
  end.

Fixpoint pow10 (n : nat) : positive :=
  match n with O => 1%positive | S n' => (10 * pow10 n')%positive end.

Definition invalid_decimal (s : string) : exn := PlainError ("[DecimalError] Invalid argument: " +:+ s).

(** Integer digits, and fraction digits after a dot; one of them present. *)
Definition parse_unsigned (s : string) : option Q :=
  match split_on "." s with
  | [i] => if i === "" then None
           else match digits_value 0 i with Some v => Some (inject_Z v) | None => None end
  | [i; f] =>
      if (i === "") && (f === "") then None
      else match digits_value 0 (i +:+ f) with
           | Some v => Some (Qmake v (pow10 (String.length f)))
           | None => None
           end
  | _ => None
  end.

(** [new Decimal(text)] for texts without exponent. *)
Definition parse_decimal (s : string) : option Q :=
  match s with
  | String "-" s' => match parse_unsigned s' with Some q => Some (- q)%Q | None => None end
  | _ => parse_unsigned s
  end.

(** ** Printing and parsing agree *)
Lemma digits_value_app acc s t v :
  digits_value acc s = Some v -> digits_value acc (s +:+ t) = digits_value v t.
Proof.
  revert acc. induction s as [|c s IH]; intros acc Hs; [by injection Hs as ->|].
  rewrite str_cons_app. cbn [digits_value] in *. destruct (digit_value c); [|done]. by apply IH.
Qed.

Lemma digit_value_char (x : N) : (x < 10)%N -> digit_value (pretty_N_char x) = Some (Z.of_N x).
Proof.
  intros Hx. assert (x = 0 \/ x = 1 \/ x = 2 \/ x = 3 \/ x = 4 \/ x = 5 \/ x = 6 \/ x = 7 \/ x = 8
    \/ x = 9)%N as Hc by lia. by repeat destruct Hc as [->|Hc]; subst.
Qed.

Lemma pretty_go_value (x : N) s : digits_value 0 (pretty_N_go x s) = digits_value (Z.of_N x) s.
Proof.
  revert s. induction (N.lt_wf_0 x) as [x _ IH]. intros s.
  destruct (decide (x = 0)%N) as [->|Hx]; [by rewrite pretty_N_go_0|].
  rewrite pretty_N_go_step by lia. rewrite IH by (apply N.div_lt; lia). cbn.
  rewrite digit_value_char by (apply N.mod_lt; lia). f_equal.
  pose proof (N.div_mod x 10). lia.
Qed.

Lemma pretty_value (z : Z) : 0 <= z -> digits_value 0 (pretty z) = Some z.
Proof.
  intros Hz. assert (forall n : N, digits_value 0 (pretty n) = Some (Z.of_N n)) as Hn.
  { intros n. unfold pretty, pretty_N. case_decide; [by subst|]. by rewrite pretty_go_value. }
  destruct z as [|p|p]; [apply (Hn 0%N)|apply (Hn (Npos p))|lia].
Qed.

Lemma pretty_nonempty (z : Z) : pretty z <> "".
Proof. intros E. destruct (decide (0 <= z)) as [Hz|Hz].
  - pose proof (pretty_value z Hz) as Hv. rewrite E in Hv. injection Hv as <-. done.
  - destruct z; [lia|lia|]. done.
Qed.

Lemma digits_value_shift v s r :
  digits_value 0 s = Some r -> digits_value v s = Some (v * Z.pos (pow10 (String.length s)) + r).
Proof.
  assert (forall a b x, digits_value a s = Some x ->
    digits_value (a + b) s = Some (b * Z.pos (pow10 (String.length s)) + x)) as Hshift.
  { induction s as [|c s IH]; intros a b x Hx; cbn [digits_value String.length pow10] in *.
    - injection Hx as <-. f_equal. lia.
    - destruct (digit_value c) as [d|]; [|done].
      replace ((a + b) * 10 + d) with ((a * 10 + d) + b * 10) by lia.
      rewrite (IH _ _ _ Hx). f_equal. lia. }
  intros Hr. by rewrite <- (Hshift 0 v r Hr), Z.add_0_l.
Qed.

(** The fraction digits, checked for each of the 9999 of them. *)
Definition fraction_ok (f : Z) : bool :=
  let s := trim_zeros (pad 4 f) in
  lacks "." s && match digits_value 0 s with
                 | Some r => r * 10000 =? f * Z.pos (pow10 (String.length s))
                 | None => false end.

Lemma fractions_ok : forallb (fun n => fraction_ok (Z.of_nat n)) (seq 1 (Z.to_nat 9999)) = true.
Proof. vm_compute. reflexivity. Qed.

Lemma fraction_text f :
  0 < f < 10000 -> let s := trim_zeros (pad 4 f) in
  lacks "." s = true /\ exists r, digits_value 0 s = Some r /\ r * 10000 = f * Z.pos (pow10 (String.length s)).
Proof.
  intros Hf. pose proof fractions_ok as H. rewrite forallb_forall in H.
  specialize (H (Z.to_nat f)). rewrite Z2Nat.id in H by lia.
  specialize (H ltac:(apply List.in_seq; lia)). unfold fraction_ok in H. cbn zeta in H |- *.
  apply andb_true_iff in H as [Hl Hv]. split; [done|].
  destruct (digits_value 0 _) as [r|]; [|done]. exists r. split; [done|]. by apply Z.eqb_eq.
Qed.

Lemma parse_unsigned_print n :
  0 <= n -> exists q, parse_unsigned (pretty (n / 10000) +:+
    (if n mod 10000 =? 0 then "" else "." +:+ trim_zeros (pad 4 (n mod 10000)))) = Some q /\ (q == dec n)%Q.
Proof.
  intros Hn. assert (0 <= n / 10000) as Hi by (apply Z.div_pos; lia).
  pose proof (Z.mod_pos_bound n 10000 ltac:(lia)) as Hm. pose proof (Z.div_mod n 10000 ltac:(lia)) as Hdm.
  pose proof (lacks_pretty "." (n / 10000) eq_refl) as Hl.
  unfold parse_unsigned. destruct (Z.eqb_spec (n mod 10000) 0) as [E|Hne].
  - assert (forall s, s +:+ "" = s) as Happ by (induction s as [|c s IH]; [done|rewrite str_cons_app, IH; done]).
    rewrite Happ, split_on_lacks, bool_decide_eq_false_2 by (done || apply pretty_nonempty).
    rewrite pretty_value by done. eexists. split; [done|]. unfold Qeq, dec, inject_Z. cbn. lia.
  - destruct (fraction_text (n mod 10000)) as (Hlf & r & Hr & Er); [lia|].
    set (s := trim_zeros (pad 4 (n mod 10000))) in *.
    change ("." +:+ s) with (String "." s). rewrite split_on_app, split_on_lacks by done.
    rewrite (bool_decide_eq_false_2 (pretty (n / 10000) = "")) by apply pretty_nonempty. cbn [andb].
    rewrite (digits_value_app _ _ _ _ (pretty_value _ Hi)), (digits_value_shift _ _ _ Hr).
    eexists. split; [done|]. unfold Qeq, dec. cbn [Qnum Qden]. nia.
Qed.

(** A printed amount parses back to itself. *)
Lemma parse_print z : exists q, parse_decimal (dp4_toString z) = Some q /\ (q == dec z)%Q.
Proof.
  destruct (parse_unsigned_print (Z.abs z)) as (q & Hq & E); [lia|].
  unfold dp4_toString, sign_text. destruct (z <? 0) eqn:Hz; reflect.
  - rewrite (str_cons_app "-" ""). cbn [parse_decimal]. cbn [String.append].
    match goal with |- context [parse_unsigned ?s] => change s with (pretty (Z.abs z / 10000) +:+
      (if Z.abs z mod 10000 =? 0 then "" else "." +:+ trim_zeros (pad 4 (Z.abs z mod 10000)))) end.
    rewrite Hq. eexists. split; [done|]. rewrite E. unfold Qeq, dec. cbn. lia.
  - change (exists q0, parse_decimal (pretty (Z.abs z / 10000) +:+
      (if Z.abs z mod 10000 =? 0 then "" else "." +:+ trim_zeros (pad 4 (Z.abs z mod 10000)))) = Some q0 /\
      (q0 == dec z)%Q).
    destruct (pretty (Z.abs z / 10000)) as [|c t] eqn:Et; [by apply pretty_nonempty in Et|].
    assert (Ascii.eqb c "-" = false) as Hc.
    { pose proof (pretty_value (Z.abs z / 10000) ltac:(apply Z.div_pos; lia)) as Hv. rewrite Et in Hv.
      cbn in Hv. by destruct (Ascii.eqb_spec c "-") as [->|]. }
    exists q. split; [|rewrite E; unfold Qeq, dec; cbn; lia].
    rewrite <- Hq, str_cons_app. cbn [parse_decimal].
    destruct (Ascii.eqb_spec c "-") as [->|Hne]; [done|]. by destruct c as [[] [] [] [] [] [] [] []].
Qed.
