(* ===== verification/Calendar.v ===== *)
(** * Calendar: months on JavaScript dates

    [date.setMonth(m)] on a server whose clock is UTC: the day of the month is
    kept, and a day the new month does not have runs over into the next. *)
From S2P Require Import Prelude Json.

(** Day number of a civil date; the day may run over the end of the month. *)
Definition days_from_civil (y m d : Z) : Z :=
  let y' := y - (if m <=? 2 then 1 else 0) in
  let era := y' / 400 in
  let yoe := y' - era * 400 in
  let mp := if 2 <? m then m - 3 else m + 9 in
  let doy := (153 * mp + 2) / 5 + d - 1 in
  let doe := yoe * 365 + yoe / 4 - yoe / 100 + doy in
  era * 146097 + doe - 719468.

(** [d.setMonth(d.getMonth() + months)] *)
Definition add_months (ms months : Z) : Z :=
  let '(y, (m, d)) := civil_from_days (ms / msPerDay) in
  let m' := m - 1 + months in
  days_from_civil (y + m' / 12) (m' mod 12 + 1) d * msPerDay + ms mod msPerDay.

Example add_months_leap : add_months 1706702400000 1 = 1709380800000.
Proof. vm_compute. reflexivity. Qed.

(** ** The calendar repeats every 400 years *)

(** [P] holds of the [n] integers from [z]. *)
Fixpoint all_from (n : nat) (z : Z) (P : Z -> bool) : bool :=
  match n with O => true | S n' => if P z then all_from n' (z + 1) P else false end.

Lemma all_from_spec P n : forall z, all_from n z P = true ->
  forall x, z <= x < z + Z.of_nat n -> P x = true.
Proof.
  induction n as [|n IH]; intros z H x Hx; [lia|]. cbn [all_from] in H.
  destruct (P z) eqn:E; [|done]. destruct (decide (x = z)) as [->|]; [done|]. apply (IH (z + 1)); [done|lia].
Qed.

(** The year and month of the [doe]-th day of an era. *)
Lemma era_day doe : 0 <= doe < 146097 ->
  let yoe := (doe - doe / 1460 + doe / 36524 - doe / 146096) / 365 in
  let doy := doe - (365 * yoe + yoe / 4 - yoe / 100) in
  let mp := (5 * doy + 2) / 153 in
  0 <= yoe < 400 /\ 0 <= mp < 12.
Proof. intros Hd. cbv zeta. Z.div_mod_to_equations. lia. Qed.

Lemma era_range z : 0 <= z - z / 146097 * 146097 < 146097.
Proof. pose proof (Z.mod_pos_bound z 146097). pose proof (Z.div_mod z 146097). lia. Qed.

Lemma civil_month z y m d : civil_from_days z = (y, (m, d)) -> 1 <= m <= 12.
Proof.
  unfold civil_from_days. intros E. injection E as _ <- _.
  pose proof (era_day _ (era_range (z + 719468))) as [_ Hmp]. case_match; reflect; lia.
Qed.

Lemma div_era k r : 0 <= r < 400 -> (r + k * 400) / 400 = k.
Proof. intros. rewrite Z.div_add by lia. rewrite Z.div_small by done. lia. Qed.

Lemma days_from_civil_from_days z :
  let '(y, (m, d)) := civil_from_days z in days_from_civil y m d = z.
Proof.
  unfold civil_from_days. set (z' := z + 719468). set (doe := z' - z' / 146097 * 146097).
  pose proof (era_range z') as Hdoe. fold doe in Hdoe.
  pose proof (era_day doe Hdoe) as Hok. cbv zeta in Hok.
  set (yoe := (doe - doe / 1460 + doe / 36524 - doe / 146096) / 365) in *.
  set (doy := doe - (365 * yoe + yoe / 4 - yoe / 100)) in *. set (mp := (5 * doy + 2) / 153) in *.
  destruct Hok as [Hyoe Hmp]. unfold days_from_civil. set (k := z' / 146097) in *.
  replace (yoe + k * 400 + (if (if mp <? 10 then mp + 3 else mp - 9) <=? 2 then 1 else 0)
    - (if (if mp <? 10 then mp + 3 else mp - 9) <=? 2 then 1 else 0)) with (yoe + k * 400) by lia.
  rewrite div_era by lia. replace (yoe + k * 400 - k * 400) with yoe by lia.
  assert ((if 2 <? (if mp <? 10 then mp + 3 else mp - 9) then (if mp <? 10 then mp + 3 else mp - 9) - 3
           else (if mp <? 10 then mp + 3 else mp - 9) + 9) = mp) as ->.
  { destruct (Z.ltb_spec mp 10); repeat case_match; reflect; lia. }
  assert (k * 146097 + doe = z') by (unfold doe; lia). unfold z' in *. unfold doy. lia.
Qed.

(** ** Later months are later *)
Definition first_of_month (k : Z) : Z := days_from_civil (k / 12) (k mod 12 + 1) 1.

Lemma days_from_civil_day y m d : days_from_civil y m d = days_from_civil y m 1 + (d - 1).
Proof. unfold days_from_civil. lia. Qed.

Lemma first_of_month_era k j : first_of_month (k + j * 4800) = first_of_month k + j * 146097.
Proof.
  unfold first_of_month. replace (k + j * 4800) with (k + (j * 400) * 12) by lia.
  rewrite Z.div_add, Z_mod_plus_full by lia. unfold days_from_civil.
  set (c := if k mod 12 + 1 <=? 2 then 1 else 0).
  replace (k / 12 + j * 400 - c) with (k / 12 - c + j * 400) by lia.
  rewrite Z.div_add by lia. replace (k / 12 - c + j * 400 - ((k / 12 - c) / 400 + j) * 400)
    with (k / 12 - c - (k / 12 - c) / 400 * 400) by lia. lia.
Qed.

Lemma months_of_era : all_from 4800 0 (fun k => first_of_month k + 28 <=? first_of_month (k + 1)) = true.
Proof. vm_compute. reflexivity. Qed.

Lemma first_of_month_step k : first_of_month k + 28 <= first_of_month (k + 1).
Proof.
  replace k with (k mod 4800 + k / 4800 * 4800) by (pose proof (Z.div_mod k 4800); lia).
  replace (k mod 4800 + k / 4800 * 4800 + 1) with (k mod 4800 + 1 + k / 4800 * 4800) by lia.
  rewrite !first_of_month_era.
  pose proof (all_from_spec _ _ _ months_of_era (k mod 4800)) as H. cbn beta in H. rewrite Z.leb_le in H.
  pose proof (Z.mod_pos_bound k 4800). lia.
Qed.

Lemma first_of_month_mono k n : 0 <= n -> first_of_month k + 28 * n <= first_of_month (k + n).
Proof.
  intros Hn. pattern n. apply natlike_ind; [replace (k + 0) with k by lia; lia| |done].
  intros x Hx IH. pose proof (first_of_month_step (k + x)) as Hs. replace (k + Z.succ x) with (k + x + 1) by lia. lia.
Qed.

(** Adding [months] months moves the date by whole days: to the same day of a
    month counted from January of year 0. *)
Lemma add_months_run ms months :
  exists k d, add_months ms months = (first_of_month (k + months) + d) * msPerDay + ms mod msPerDay /\
    ms / msPerDay = first_of_month k + d.
Proof.
  unfold add_months. pose proof (days_from_civil_from_days (ms / msPerDay)) as Hr.
  destruct (civil_from_days (ms / msPerDay)) as [y [m d]] eqn:E. exists (y * 12 + (m - 1)), (d - 1).
  pose proof (civil_month _ _ _ _ E) as Hm.
  unfold first_of_month. split.
  - replace (y * 12 + (m - 1) + months) with (m - 1 + months + y * 12) by lia.
    rewrite Z.div_add, Z_mod_plus_full by lia. rewrite (days_from_civil_day _ _ d).
    replace ((m - 1 + months) / 12 + y) with (y + (m - 1 + months) / 12) by lia. done.
  - rewrite <- Hr, (days_from_civil_day _ _ d). replace (y * 12 + (m - 1)) with (m - 1 + y * 12) by lia.
    rewrite Z.div_add, Z_mod_plus_full, Z.div_small, Z.mod_small by lia.
    replace (0 + y) with y by lia. by replace (m - 1 + 1) with m by lia.
Qed.

Lemma add_months_zero ms : add_months ms 0 = ms.
Proof.
  destruct (add_months_run ms 0) as (k & d & -> & E). rewrite Z.add_0_r, <- E. unfold msPerDay.
  pose proof (Z.div_mod ms (24 * 60 * 60 * 1000)). lia.
Qed.

(** A month later is at least 28 days later. *)
Lemma add_months_later ms a b : a <= b -> add_months ms a + 28 * (b - a) * msPerDay <= add_months ms b.
Proof.
  intros Hab. unfold add_months. destruct (civil_from_days (ms / msPerDay)) as [y [m d]] eqn:E.
  rewrite (days_from_civil_day _ _ d), (days_from_civil_day (y + (m - 1 + b) / 12) _ d).
  assert (forall j, days_from_civil (y + (m - 1 + j) / 12) ((m - 1 + j) mod 12 + 1) 1 =
    first_of_month (y * 12 + (m - 1) + j)) as Hf.
  { intros j. unfold first_of_month. replace (y * 12 + (m - 1) + j) with (m - 1 + j + y * 12) by lia.
    rewrite Z.div_add, Z_mod_plus_full by lia. f_equal. lia. }
  rewrite !Hf. pose proof (first_of_month_mono (y * 12 + (m - 1) + a) (b - a) ltac:(lia)) as Hm.
  replace (y * 12 + (m - 1) + a + (b - a)) with (y * 12 + (m - 1) + b) in Hm by lia. unfold msPerDay. lia.
Qed.
