(* ===== verification/ImportText.v ===== *)
(** * ImportText: cleaning the texts of a member list

    [src/src/modules/data-import/utils/phone-normalizer.ts], [name-parser.ts]
    and the ID and position rules of [csv-parser.service.ts].  Texts are ASCII:
    outside ASCII the upper and lower case of a letter and the blanks differ. *)
From S2P Require Import Prelude Json.
From Stdlib Require Import Floats.SpecFloat.

(** ** Regular-expression replacements *)
Fixpoint keep_chars (P : ascii -> bool) (s : string) : string :=
  match s with
  | EmptyString => EmptyString
  | String c s' => if P c then String c (keep_chars P s') else keep_chars P s'
  end.

Definition is_digit (c : ascii) : bool := let n := N_of_ascii c in ((48 <=? n) && (n <=? 57))%N.
Definition is_upper (c : ascii) : bool := let n := N_of_ascii c in ((65 <=? n) && (n <=? 90))%N.
Definition is_lower (c : ascii) : bool := let n := N_of_ascii c in ((97 <=? n) && (n <=? 122))%N.

Fixpoint all_chars (P : ascii -> bool) (s : string) : bool :=
  match s with EmptyString => true | String c s' => P c && all_chars P s' end.

(** [s.replace(/\s+/g, ' ')] *)
Fixpoint collapse_spaces (s : string) : string :=
  match s with
  | EmptyString => EmptyString
  | String c s' =>
      if is_space c then
        match s' with
        | String d _ => if is_space d then collapse_spaces s' else String " " (collapse_spaces s')
        | EmptyString => " "
        end
      else String c (collapse_spaces s')
  end.

Definition slice (n : nat) (s : string) : string := String.substring n (String.length s - n) s.

(** ** phone-normalizer.ts *)
Definition E164_PREFIX : string := "254".

Record NormalizeResult := mkNormalized {
  normalized : option string;
  original : option string;
  isValid : bool;
  errorCode : option string;
}.

(** [/^[71]/] on nine characters. *)
Definition isValidKenyanLocal9 (local : string) : bool :=
  Nat.eqb (String.length local) 9 &&
  match local with String c _ => (c === "7"%char) || (c === "1"%char) | EmptyString => false end.

Definition invalid_phone (original : option string) (code : string) : NormalizeResult :=
  mkNormalized None original false (Some code).
Definition valid_phone (original : option string) (n : string) : NormalizeResult :=
  mkNormalized (Some n) original true None.

Definition phone_digits (original : string) : string :=
  let digits := keep_chars (fun c => is_digit c || (c === "+"%char)) original in
  if String.prefix "+" digits then slice 1 digits else digits.

Definition normalizePhone (raw : option string) : NormalizeResult :=
  let original := trim <$> raw in
  match truthy original with
  | None => invalid_phone original "PHONE_EMPTY"
  | Some text =>
      if text === "0" then invalid_phone original "PHONE_EMPTY" else
      let digits := phone_digits text in
      if String.prefix "254" digits && Nat.eqb (String.length digits) 12 then
        if isValidKenyanLocal9 (slice 3 digits) then valid_phone original digits
        else invalid_phone original "PHONE_INVALID_FORMAT"
      else if String.prefix "0" digits && Nat.eqb (String.length digits) 10 then
        let local := slice 1 digits in
        if isValidKenyanLocal9 local then valid_phone original (E164_PREFIX +:+ local)
        else invalid_phone original "PHONE_INVALID_FORMAT"
      else if Nat.eqb (String.length digits) 9 then
        if String.prefix "7" digits then valid_phone original (E164_PREFIX +:+ digits)
        else invalid_phone original "PHONE_INVALID_FORMAT"
      else invalid_phone original "PHONE_INVALID_FORMAT"
  end.

(** [/^254[71]\d{8}$/] *)
Definition isValidE164Phone (phone : string) : bool :=
  String.prefix "254" phone &&
  match slice 3 phone with
  | String c rest => ((c === "7"%char) || (c === "1"%char)) && Nat.eqb (String.length rest) 8 && all_chars is_digit rest
  | EmptyString => false
  end.

(** ** name-parser.ts *)
Record ParsedName := mkName {
  firstName : string;
  lastName : string;
  fullName : string;
}.

Definition toTitleCase (word : string) : string :=
  match word with
  | EmptyString => EmptyString
  | String c rest => String (upper_char c) (toLowerCase rest)
  end.

Definition unknown_name : ParsedName := mkName "Unknown" "Unknown" "Unknown Unknown".

Definition parseFullName (full : option string) : ParsedName :=
  let raw := default "" (trim <$> full) in
  if raw === "" then unknown_name else
  let parts := List.filter (fun w => negb (w === "")) (split_on " " (trim (collapse_spaces raw))) in
  match parts with
  | [] => unknown_name
  | [p] => let name := toTitleCase p in mkName name name name
  | p :: rest =>
      let first := toTitleCase p in
      let last := join " " (toTitleCase <$> rest) in
      mkName first last (first +:+ " " +:+ last)
  end.

Definition clean_email (s : string) : string :=
  String.substring 0 20 (keep_chars (fun c => is_lower c || is_digit c) (toLowerCase s)).

Definition generateImportEmail (firstName lastName phone : string) : string :=
  clean_email firstName +:+ "." +:+ clean_email lastName +:+ "."
    +:+ slice (String.length phone - 6) phone +:+ "@import.local".

(** ** csv-parser.service.ts *)
Definition normalizeIdNumber (raw : option string) : option string :=
  match truthy (trim <$> raw) with
  | None => None
  | Some text =>
      let digits := keep_chars is_digit text in
      if Nat.eqb (String.length digits) 7 || Nat.eqb (String.length digits) 8 then Some digits else None
  end.

Definition normalizePosition (raw : option string) : string :=
  let upper := default "" ((fun s => trim (toUpperCase s)) <$> raw) in
  if bool_decide (upper ∈ ["CHAIRMAN"; "SECRETARY"; "TREASURER"; "MEMBER"]) then upper else "MEMBER".

(** The repository's own tests. *)
Example phone_leading_zero : normalized (normalizePhone (Some "0712 345 678")) = Some "254712345678".
Proof. reflexivity. Qed.
Example phone_plus : normalized (normalizePhone (Some "+254712345678")) = Some "254712345678".
Proof. reflexivity. Qed.
Example phone_ambiguous : normalized (normalizePhone (Some "115483804")) = None.
Proof. reflexivity. Qed.
Example name_three : parseFullName (Some "ISAAC  ODHIAMBO OLOO") = mkName "Isaac" "Odhiambo Oloo" "Isaac Odhiambo Oloo".
Proof. reflexivity. Qed.
Example id_nine_digits : normalizeIdNumber (Some "293007493") = None.
Proof. reflexivity. Qed.
Example email_example : generateImportEmail "Dan" "Ocholla" "254712345678" = "dan.ocholla.345678@import.local".
Proof. reflexivity. Qed.

(** ** Strings of digits *)
Lemma all_chars_impl (P Q : ascii -> bool) s :
  (forall c, P c = true -> Q c = true) -> all_chars P s = true -> all_chars Q s = true.
Proof.
  intros HPQ. induction s as [|c s IH]; cbn; [done|]. intros [Hc Hs]%andb_prop. by rewrite (HPQ c Hc), IH.
Qed.

Lemma keep_chars_all P s : all_chars P s = true -> keep_chars P s = s.
Proof. induction s as [|c s IH]; cbn; [done|]. intros [-> Hs]%andb_prop. by rewrite IH. Qed.

Lemma reverse_onto_all P s : forall acc, all_chars P (reverse_onto s acc) = all_chars P s && all_chars P acc.
Proof. induction s as [|c s IH]; intros acc; cbn; [done|]. rewrite IH. cbn. by destruct (P c), (all_chars P s). Qed.

Lemma reverse_onto_twice s : forall acc acc', reverse_onto (reverse_onto s acc) acc' = reverse_onto acc (s +:+ acc').
Proof. induction s as [|c s IH]; intros acc acc'; cbn; [done|]. by rewrite IH. Qed.

Lemma trim_start_all s : all_chars (fun c => negb (is_space c)) s = true -> trim_start s = s.
Proof. destruct s as [|c s]; cbn; [done|]. intros [Hc _]%andb_prop. by destruct (is_space c). Qed.

(** A text without blanks is its own trim. *)
Lemma trim_all s : all_chars (fun c => negb (is_space c)) s = true -> trim s = s.
Proof.
  intros Hs. unfold trim, reverse_string. rewrite (trim_start_all s Hs).
  rewrite trim_start_all by (by rewrite reverse_onto_all, Hs). rewrite reverse_onto_twice. cbn.
  clear Hs. induction s as [|c s IH]; [done|].
  change (String c s +:+ "") with (String c (s +:+ "")). by rewrite IH.
Qed.

Lemma digit_not_space c : is_digit c = true -> negb (is_space c) = true.
Proof. unfold is_digit, is_space. intros [?%N.leb_le ?%N.leb_le]%andb_prop. cbn zeta in *.
  destruct (N.leb_spec 9 (N_of_ascii c)), (N.leb_spec (N_of_ascii c) 13), (N.eqb_spec (N_of_ascii c) 32); cbn; lia || done. Qed.

(** A local number of nine digits. *)
Definition local_digits (l : string) : bool := isValidKenyanLocal9 l && all_chars is_digit l.

Lemma local_cases l : isValidKenyanLocal9 l = true ->
  exists c rest, l = String c rest /\ (c = "7"%char \/ c = "1"%char) /\ String.length rest = 8%nat.
Proof.
  unfold isValidKenyanLocal9. destruct l as [|c rest]; cbn; [done|]. intros [Hl Hc]%andb_prop.
  exists c, rest. apply Nat.eqb_eq in Hl. apply orb_prop in Hc as [Hc|Hc]; apply bool_decide_eq_true_1 in Hc; auto.
Qed.

Lemma substring_whole s : String.substring 0 (String.length s) s = s.
Proof. induction s as [|c s IH]; cbn; [done|]. by rewrite IH. Qed.

Lemma slice_prefix l : slice 3 ("254" +:+ l) = l.
Proof.
  change (String.substring 0 (String.length l - 0) l = l). by rewrite Nat.sub_0_r, substring_whole.
Qed.

Lemma prefix_app p : forall s, String.prefix p s = true -> exists r, s = p +:+ r.
Proof.
  induction p as [|a p IH]; intros s; [by exists s|]. destruct s as [|b s]; cbn [String.prefix]; [done|].
  destruct (ascii_dec a b) as [->|]; [|done]. intros [r ->]%IH. by exists r.
Qed.

Lemma valid_prefixed l : isValidKenyanLocal9 l = true -> isValidE164Phone ("254" +:+ l) = all_chars is_digit l.
Proof.
  intros Hl. unfold isValidE164Phone. rewrite slice_prefix.
  destruct (local_cases l Hl) as (c & rest & -> & [-> | ->] & Hlen); cbn [andb String.prefix]; by rewrite Hlen.
Qed.

(** A local number with its prefix is valid, and normal. *)
Lemma normal_phone l : local_digits l = true ->
  isValidE164Phone ("254" +:+ l) = true /\ normalized (normalizePhone (Some ("254" +:+ l))) = Some ("254" +:+ l).
Proof.
  intros [Hl Hd]%andb_prop. split; [by rewrite valid_prefixed|].
  destruct (local_cases l Hl) as (c & rest & -> & Hc & Hlen).
  set (p := "254" +:+ String c rest).
    assert (all_chars is_digit p = true) as Hp by exact Hd.
    unfold normalizePhone. cbn [fmap option_fmap option_map].
    rewrite (trim_all p) by (eapply all_chars_impl; [apply digit_not_space|exact Hp]).
    assert (phone_digits p = p) as Hpd.
    { unfold phone_digits. rewrite keep_chars_all; [done|].
      eapply all_chars_impl; [|exact Hp]. intros d Hd'. by rewrite Hd'. }
    cbn [truthy]. rewrite (proj2 (same_false p "")), (proj2 (same_false p "0")) by done. rewrite Hpd.
    change (slice 3 p) with (slice 3 ("254" +:+ String c rest)). rewrite slice_prefix, Hl.
    assert (String.prefix "254" p && Nat.eqb (String.length p) 12 = true) as ->; [|done].
    change (Nat.eqb (S (S (S (S (String.length rest))))) 12 = true). by rewrite Hlen.
Qed.

(** What an accepted phone is made of. *)
Lemma normalizePhone_local raw p : normalized (normalizePhone raw) = Some p ->
  let digits := phone_digits (default "" (trim <$> raw)) in
  exists l, p = "254" +:+ l /\ isValidKenyanLocal9 l = true /\
    all_chars is_digit digits = all_chars is_digit l.
Proof.
  unfold normalizePhone. destruct (truthy (trim <$> raw)) as [text|] eqn:Et; [|done].
  assert (default "" (trim <$> raw) = text) as ->.
  { destruct raw as [r|]; [|done]. cbn in *. case_match; congruence. }
  cbv zeta. destruct (text === "0"); [done|]. set (digits := phone_digits text).
  destruct (String.prefix "254" digits && Nat.eqb (String.length digits) 12) eqn:E1.
  { apply andb_prop in E1 as [[l El]%prefix_app _]. rewrite El. rewrite slice_prefix.
    destruct (isValidKenyanLocal9 l) eqn:El9; [|done]. intros [= <-]. by exists l. }
  destruct (String.prefix "0" digits && Nat.eqb (String.length digits) 10) eqn:E2.
  { apply andb_prop in E2 as [[l El]%prefix_app _].
    assert (slice 1 digits = l) as ->.
    { rewrite El. change (String.substring 0 (String.length l - 0) l = l). by rewrite Nat.sub_0_r, substring_whole. }
    destruct (isValidKenyanLocal9 l) eqn:El9; [|done]. intros [= <-]. exists l. by rewrite El. }
  destruct (Nat.eqb (String.length digits) 9) eqn:E3; [|done].
  destruct (String.prefix "7" digits) eqn:E4; [|done]. intros [= <-]. exists digits. split_and!; [done| |done].
  apply prefix_app in E4 as [l El]. unfold isValidKenyanLocal9. rewrite E3, El. done.
Qed.

(** * JavaScript numbers where rounding can be seen

    IEEE 754 binary64 arithmetic, by the Standard Library's specification of
    floating-point numbers, which is executable. *)
Definition num := spec_float.

Definition num_of_Z (z : Z) : num := binary_normalize 53 1024 z 0 false.
Definition num_div : num -> num -> num := SFdiv 53 1024.
Definition num_mul : num -> num -> num := SFmul 53 1024.
Definition num_sub : num -> num -> num := SFsub 53 1024.
Definition num_lt : num -> num -> bool := SFltb.

(** [x * k] rounded to the nearest integer, ties upward, for a finite [x]. *)
Definition round_scaled (k : Z) (x : num) : Z :=
  match x with
  | S754_finite s m e =>
      let n := k * (if s then - Z.pos m else Z.pos m) in
      if 0 <=? e then n * 2 ^ e else (2 * n + 2 ^ (- e)) / (2 * 2 ^ (- e))
  | _ => 0
  end.

(** [Math.round(x)] *)
Definition js_round (x : num) : Z := round_scaled 1 x.

(** [x.toFixed(1)] of a number that is not negative. *)
Definition toFixed1 (x : num) : string :=
  let n := round_scaled 10 x in pretty (n / 10) +:+ "." +:+ pretty (n mod 10).

Example js_round_half : js_round (num_mul (num_sub (num_of_Z 1) (num_div (num_of_Z 1) (num_of_Z 8))) (num_of_Z 100)) = 88.
Proof. vm_compute. reflexivity. Qed.
