(* ===== verification/Fuzzy.v ===== *)
(** * Fuzzy: matching misspelt stage names

    [src/src/modules/data-import/utils/fuzzy-matcher.ts].  Scores are
    JavaScript numbers; the table of the edit distance holds small integers. *)
From S2P Require Import Prelude Json ImportText.

(** ** levenshtein *)

(** [Array.from({ length: m + 1 }, (_, i) => Array.from({ length: n + 1 }, ...))] *)
Definition dp_init (m n : nat) : list (list nat) :=
  (fun i => (fun j => if Nat.eqb i 0 then j else if Nat.eqb j 0 then i else 0%nat) <$> seq 0 (n + 1)) <$> seq 0 (m + 1).

(** [dp[i][j]], inside the table. *)
Definition cell (dp : list (list nat)) (i j : nat) : nat := default 0%nat (dp !! i ≫= lookup j).
(** [dp[i][j] = v] *)
Definition set_cell (i j v : nat) (dp : list (list nat)) : list (list nat) := alter (insert j v) i dp.

Definition dp_step (a b : string) (i : nat) (dp : list (list nat)) (j : nat) : list (list nat) :=
  set_cell i j
    (if String.get (i - 1) a === String.get (j - 1) b then cell dp (i - 1) (j - 1)
     else S (Nat.min (cell dp (i - 1) j) (Nat.min (cell dp i (j - 1)) (cell dp (i - 1) (j - 1))))) dp.

Definition dp_row (a b : string) (dp : list (list nat)) (i : nat) : list (list nat) :=
  foldl (dp_step a b i) dp (seq 1 (String.length b)).

Definition levenshtein (a b : string) : nat :=
  cell (foldl (dp_row a b) (dp_init (String.length a) (String.length b)) (seq 1 (String.length a)))
    (String.length a) (String.length b).

(** ** similarity and matching *)
Definition similarity (a b : string) : num :=
  if a === b then num_of_Z 1 else
  if Nat.eqb (String.length a) 0 || Nat.eqb (String.length b) 0 then num_of_Z 0 else
  num_sub (num_of_Z 1) (num_div (num_of_Z (Z.of_nat (levenshtein a b)))
    (num_of_Z (Z.of_nat (Nat.max (String.length a) (String.length b))))).

Definition normalize (s : string) : string :=
  trim (collapse_spaces (keep_chars (fun c => is_upper c || is_digit c || is_space c || (c === "-"%char)) (toUpperCase s))).

Record FuzzyMatchResult := mkMatch {
  matched : option string;
  confidence : Z;
  isExact : bool;
}.

(** The loop over the candidates: the best one so far and its score. *)
Definition best_of (input : string) (acc : option string * num) (candidate : string) : option string * num :=
  let score := similarity input (normalize candidate) in
  if num_lt acc.2 score then (Some candidate, score) else acc.

Definition fuzzyMatchStageName (input : string) (candidates : list string) (minConfidence : Z) : FuzzyMatchResult :=
  if (input === "") || Nat.eqb (length candidates) 0 then mkMatch None 0 false else
  let normalizedInput := normalize input in
  match truthy (List.find (fun c => normalize c === normalizedInput) candidates) with
  | Some exact => mkMatch (Some exact) 100 true
  | None =>
      let best := foldl (best_of normalizedInput) (None, num_of_Z 0) candidates in
      let confidence := js_round (num_mul best.2 (num_of_Z 100)) in
      if confidence <? minConfidence then mkMatch None confidence false else mkMatch best.1 confidence false
  end.

Definition STAGE_NAME_ALIASES : list (string * string) :=
  [("KIBOS GALYNES", "KIBOS GALYNES"); ("KIBOS GARLYNES", "KIBOS GALYNES"); ("GYLINES", "KIBOS GALYNES");
   ("TEAM PRACIOUS", "TEAM PRECIOUS"); ("TEAM PRECIOUS", "TEAM PRECIOUS");
   ("KASULE WHITE HOUSE", "KASULE WHITEHOUSE"); ("KASULE WHITEHOUSE", "KASULE WHITEHOUSE")].

Definition applyKnownAliases (stageName : string) : string :=
  let upper := trim (toUpperCase stageName) in
  match List.find (fun kv => kv.1 === upper) STAGE_NAME_ALIASES with
  | Some kv => kv.2
  | None => stageName
  end.

Example galynes : fuzzyMatchStageName "KIBOS GARLYNES" ["TEAM PRECIOUS"; "KIBOS GALYNES"] 70
  = mkMatch (Some "KIBOS GALYNES") 93 false.
Proof. vm_compute. reflexivity. Qed.
Example unrelated : matched (fuzzyMatchStageName "COMPLETELY DIFFERENT" ["KIBOS GALYNES"; "TEAM PRECIOUS"] 70) = None.
Proof. vm_compute. reflexivity. Qed.

(** ** Edit scripts *)

(** [edits a b n]: [b] is obtained from [a] by [n] insertions, deletions and
    replacements of one character, left to right. *)
Inductive edits : list ascii -> list ascii -> nat -> Prop :=
  | edits_nil : edits [] [] 0
  | edits_keep x a b n : edits a b n -> edits (x :: a) (x :: b) n
  | edits_replace x y a b n : edits a b n -> edits (x :: a) (y :: b) (S n)
  | edits_insert y a b n : edits a b n -> edits a (y :: b) (S n)
  | edits_delete x a b n : edits a b n -> edits (x :: a) b (S n).

Lemma edits_app a b n a' b' n' : edits a b n -> edits a' b' n' -> edits (a ++ a') (b ++ b') (n + n').
Proof. intros H H'. induction H; cbn; [done|by constructor..]. Qed.

Lemma edits_reverse a b n : edits a b n -> edits (reverse a) (reverse b) n.
Proof.
  assert (forall x : ascii, edits [x] [x] 0) as Hkeep by (by repeat constructor).
  assert (forall x y : ascii, edits [x] [y] 1) as Hrep by (by repeat constructor).
  assert (forall x : ascii, edits [] [x] 1) as Hins by (by repeat constructor).
  assert (forall x : ascii, edits [x] [] 1) as Hdel by (by repeat constructor).
  induction 1 as [|x a b n _ IH|x y a b n _ IH|y a b n _ IH|x a b n _ IH]; [constructor|..];
    rewrite ?reverse_cons; [replace n with (n + 0)%nat by lia|replace (S n) with (n + 1)%nat by lia..].
  - by apply edits_app.
  - by apply edits_app.
  - replace (reverse a) with (reverse a ++ []) by apply app_nil_r. by apply edits_app.
  - replace (reverse b) with (reverse b ++ []) by apply app_nil_r. by apply edits_app.
Qed.

(** The distance, by recursion on both lists. *)
Fixpoint lev (a : list ascii) : list ascii -> nat :=
  match a with
  | [] => fun b => length b
  | x :: a' =>
      fix go (b : list ascii) : nat :=
        match b with
        | [] => S (length a')
        | y :: b' => if x === y then lev a' b' else S (Nat.min (lev a' (y :: b')) (Nat.min (go b') (lev a' b')))
        end
  end.

Lemma lev_cons x y a b :
  lev (x :: a) (y :: b) =
  if x === y then lev a b else S (Nat.min (lev a (y :: b)) (Nat.min (lev (x :: a) b) (lev a b))).
Proof. done. Qed.

Lemma lev_nil_l b : lev [] b = length b.
Proof. done. Qed.

Lemma lev_nil_r a : lev a [] = length a.
Proof. by destruct a. Qed.

Lemma edits_lev a : forall b, edits a b (lev a b).
Proof.
  induction a as [|x a IHa]; intros b.
  - cbn. induction b; cbn; by constructor.
  - induction b as [|y b IHb].
    + rewrite lev_nil_r. cbn. constructor. specialize (IHa []). by rewrite lev_nil_r in IHa.
    + rewrite lev_cons. case_bool_decide as E; [subst y; by constructor|].
      destruct (Nat.min_spec (lev a (y :: b)) (Nat.min (lev (x :: a) b) (lev a b))) as [[_ ->]|[_ ->]].
      { by constructor. }
      destruct (Nat.min_spec (lev (x :: a) b) (lev a b)) as [[_ ->]|[_ ->]]; by constructor.
Qed.

(** One more character changes the distance by at most one. *)
Lemma lev_lipschitz a : forall b,
  (forall x, (lev a b <= S (lev (x :: a) b))%nat /\ (lev (x :: a) b <= S (lev a b))%nat) /\
  (forall y, (lev a b <= S (lev a (y :: b)))%nat /\ (lev a (y :: b) <= S (lev a b))%nat).
Proof.
  induction a as [|z a IHa]; intros b.
  - induction b as [|w b IHb]; [cbn; split; intros; lia|]. destruct IHb as [IHx _].
    split; [|cbn; intros; lia]. intros x. specialize (IHx x). rewrite lev_cons, !lev_nil_l in *. cbn [length].
    case_bool_decide; lia.
  - induction b as [|w b IHb].
    + split; [cbn; intros; lia|]. intros y. rewrite lev_cons, lev_nil_r. destruct (IHa []) as [_ Hy].
      specialize (Hy y). rewrite lev_nil_r in Hy. cbn [length].
      rewrite lev_nil_r. case_bool_decide; lia.
    + destruct IHb as [IHx IHy]. destruct (IHa (w :: b)) as [Ax Ay]. split.
      * intros x. rewrite (lev_cons x w). specialize (IHx x). specialize (IHy w). case_bool_decide; lia.
      * intros y. rewrite (lev_cons z y). specialize (Ay y). specialize (Ax z). case_bool_decide; lia.
Qed.

Lemma lev_least a b n : edits a b n -> (lev a b <= n)%nat.
Proof.
  induction 1 as [|x a b n _ IH|x y a b n _ IH|y a b n _ IH|x a b n _ IH]; [done|..].
  - by rewrite lev_cons, same_refl.
  - rewrite lev_cons. case_bool_decide; lia.
  - destruct (lev_lipschitz a b) as [_ Hy]. specialize (Hy y). lia.
  - destruct (lev_lipschitz a b) as [Hx _]. specialize (Hx x). lia.
Qed.

(** ** The table *)

(** What the cell for the first [i] and the first [j] characters must hold. *)
Definition prefix_distance (a b : string) (i j : nat) : nat :=
  lev (reverse (take i (String.list_ascii_of_string a))) (reverse (take j (String.list_ascii_of_string b))).

Lemma get_list_ascii i a : String.get i a = String.list_ascii_of_string a !! i.
Proof. revert i. induction a as [|c a IH]; intros [|i]; cbn; auto. Qed.

Lemma length_list_ascii a : length (String.list_ascii_of_string a) = String.length a.
Proof. induction a as [|c a IH]; cbn; auto. Qed.

Lemma prefix_distance_0_l a b j : (j <= String.length b)%nat -> prefix_distance a b 0 j = j.
Proof. intros Hj. unfold prefix_distance.
  rewrite take_0, reverse_nil, lev_nil_l, length_reverse, length_take, length_list_ascii. lia. Qed.

Lemma prefix_distance_0_r a b i : (i <= String.length a)%nat -> prefix_distance a b i 0 = i.
Proof.
  intros Hi. unfold prefix_distance.
  rewrite take_0, reverse_nil, lev_nil_r, length_reverse, length_take, length_list_ascii. lia.
Qed.

Lemma prefix_distance_step a b i j : (i < String.length a)%nat -> (j < String.length b)%nat ->
  prefix_distance a b (S i) (S j) =
  if String.get i a === String.get j b then prefix_distance a b i j
  else S (Nat.min (prefix_distance a b i (S j)) (Nat.min (prefix_distance a b (S i) j) (prefix_distance a b i j))).
Proof.
  intros Hi Hj. rewrite !get_list_ascii. unfold prefix_distance.
  destruct (lookup_lt_is_Some_2 (String.list_ascii_of_string a) i) as [x Hx]; [by rewrite length_list_ascii|].
  destruct (lookup_lt_is_Some_2 (String.list_ascii_of_string b) j) as [y Hy]; [by rewrite length_list_ascii|].
  rewrite (take_S_r _ _ _ Hx), (take_S_r _ _ _ Hy), !reverse_snoc, Hx, Hy, lev_cons.
  destruct (decide (x = y)) as [->|Hne]; [by rewrite !same_refl|].
  rewrite !(proj2 (same_false _ _)) by congruence. done.
Qed.

(** The table has [m + 1] rows of [n + 1] cells, and its border, the rows
    before [i] and the cells of row [i] before [j] are right. *)
Record filled (a b : string) (i j : nat) (dp : list (list nat)) : Prop := {
  fi_rows : forall r row, dp !! r = Some row -> length row = (String.length b + 1)%nat;
  fi_length : length dp = (String.length a + 1)%nat;
  fi_cells : forall r c, (r <= String.length a)%nat -> (c <= String.length b)%nat ->
    (r < i \/ r = i /\ c < j \/ r = 0 \/ c = 0)%nat -> cell dp r c = prefix_distance a b r c;
}.

Lemma cell_init m n r c : (r <= m)%nat -> (c <= n)%nat ->
  cell (dp_init m n) r c = if Nat.eqb r 0 then c else if Nat.eqb c 0 then r else 0%nat.
Proof.
  intros Hr Hc. unfold cell, dp_init. rewrite list_lookup_fmap, lookup_seq_lt by lia. cbn.
  rewrite list_lookup_fmap, lookup_seq_lt by lia. done.
Qed.

Lemma filled_init a b : filled a b 1 1 (dp_init (String.length a) (String.length b)).
Proof.
  split.
  - unfold dp_init. intros r row Hr. rewrite list_lookup_fmap in Hr. apply fmap_Some in Hr as (k & _ & ->).
    by rewrite length_fmap, length_seq.
  - unfold dp_init. by rewrite length_fmap, length_seq.
  - intros r c Hr Hc Hin. rewrite cell_init by done. destruct r as [|r]; cbn; [by rewrite prefix_distance_0_l|].
    destruct c as [|c]; cbn; [by rewrite prefix_distance_0_r|lia].
Qed.

Lemma cell_set i j v dp r c row :
  dp !! i = Some row -> (j < length row)%nat ->
  cell (set_cell i j v dp) r c = if (r === i) && (c === j) then v else cell dp r c.
Proof.
  intros Hrow Hj. unfold cell, set_cell. destruct (decide (r = i)) as [->|Hr].
  - rewrite list_lookup_alter_eq, same_refl, Hrow. cbn.
    destruct (decide (c = j)) as [->|Hc]; [by rewrite list_lookup_insert_eq, same_refl|].
    rewrite list_lookup_insert_ne by done. by rewrite (proj2 (same_false c j)) by done.
  - rewrite list_lookup_alter_ne by done. by rewrite (proj2 (same_false r i)) by done.
Qed.

Lemma filled_step a b i j dp : (1 <= i <= String.length a)%nat -> (1 <= j <= String.length b)%nat ->
  filled a b i j dp -> filled a b i (S j) (dp_step a b i dp j).
Proof.
  intros Hi Hj [Hrows Hlen Hcells].
  destruct (lookup_lt_is_Some_2 dp i) as [row Hrow]; [lia|].
  assert (j < length row)%nat as Hjr by (rewrite (Hrows _ _ Hrow); lia).
  unfold dp_step. match goal with |- context [set_cell i j ?x dp] => set (v := x) end. split.
  - intros r row' Hr. unfold set_cell in Hr. rewrite list_lookup_alter in Hr.
    destruct (decide (i = r)) as [->|]; [|by eapply Hrows]. apply fmap_Some in Hr as (row0 & H0 & ->).
    rewrite length_insert. by eapply Hrows.
  - unfold set_cell. by rewrite length_alter.
  - intros r c Hr Hc Hin. rewrite (cell_set _ _ _ _ _ _ row) by done.
    destruct ((r === i) && (c === j)) eqn:E.
    + reflect. subst r c. destruct i as [|i], j as [|j]; try lia. unfold v. cbn [Nat.sub]. rewrite !Nat.sub_0_r.
      rewrite prefix_distance_step by lia. rewrite !Hcells by lia. done.
    + apply Hcells; try done. apply andb_false_iff in E as [E|E]; reflect; lia.
Qed.

(** An invariant of a loop from [k] on. *)
Lemma foldl_seq_inv {B} (P : nat -> B -> Prop) (f : B -> nat -> B) n : forall k b,
  (forall i b, (k <= i < k + n)%nat -> P i b -> P (S i) (f b i)) -> P k b -> P (k + n)%nat (foldl f b (seq k n)).
Proof.
  induction n as [|n IH]; intros k b Hf Hb; cbn; [by rewrite Nat.add_0_r|].
  replace (k + S n)%nat with (S k + n)%nat by lia. apply IH; [|apply Hf; [lia|done]].
  intros i b' Hi. apply Hf. lia.
Qed.

Lemma filled_row a b i dp : (1 <= i <= String.length a)%nat -> filled a b i 1 dp -> filled a b (S i) 1 (dp_row a b dp i).
Proof.
  intros Hi Hf. unfold dp_row.
  assert (filled a b i (1 + String.length b) (foldl (dp_step a b i) dp (seq 1 (String.length b)))) as [Hr Hl Hc].
  { apply (foldl_seq_inv (fun j dp => filled a b i j dp)); [|done]. intros j dp' Hj. by apply filled_step; lia. }
  split; [done|done|]. intros r c Hrm Hcn Hin. apply Hc; try done. lia.
Qed.

Lemma levenshtein_lev a b : levenshtein a b = prefix_distance a b (String.length a) (String.length b).
Proof.
  unfold levenshtein.
  assert (filled a b (1 + String.length a) 1 (foldl (dp_row a b) (dp_init (String.length a) (String.length b))
    (seq 1 (String.length a)))) as [_ _ Hc].
  { apply (foldl_seq_inv (fun i dp => filled a b i 1 dp)); [|apply filled_init].
    intros i dp Hi. by apply filled_row; lia. }
  apply Hc; lia.
Qed.
