(* ===== verification/Import.v ===== *)
(** * Import: reading and validating a member list

    [src/src/modules/data-import/csv-parser.service.ts] (from the rows the
    csv-parse package yields) and [import-validation.service.ts]: each row is
    cleaned, checked against the rows before it, the existing users and the
    existing stages, and given a status and an action. *)
From S2P Require Import Prelude Json ImportText Fuzzy.

(** ** Raw records *)
Record RawCsvRecord := mkRaw {
  raw_no : string;
  raw_name : string;
  raw_idNo : string;
  raw_phoneNo : string;
  raw_stageName : string;
  raw_position : string;
  raw_nextOfKin : string;
  raw_subCounty : string;
  raw_wardChairman : string;
}.

Inductive RawField := F_no | F_name | F_idNo | F_phoneNo | F_stageName | F_position | F_nextOfKin | F_subCounty | F_wardChairman.

Definition HEADER_MAP : list (string * RawField) :=
  [("NO", F_no); ("NAME", F_name); ("ID NO.", F_idNo); ("PHONE NO.", F_phoneNo); ("STAGE NAME", F_stageName);
   ("POSITION", F_position); ("NEXT OF KIN CONTACT", F_nextOfKin); ("SUB COUNTY", F_subCounty);
   ("WARD CHAIRMAN", F_wardChairman)].

Definition header_field (header : string) : option RawField :=
  snd <$> List.find (fun kv => kv.1 === header) HEADER_MAP.

Definition set_field (r : RawCsvRecord) (f : RawField) (v : string) : RawCsvRecord :=
  let '(mkRaw no name idNo phone stage pos kin sub ward) := r in
  match f with
  | F_no => mkRaw v name idNo phone stage pos kin sub ward
  | F_name => mkRaw no v idNo phone stage pos kin sub ward
  | F_idNo => mkRaw no name v phone stage pos kin sub ward
  | F_phoneNo => mkRaw no name idNo v stage pos kin sub ward
  | F_stageName => mkRaw no name idNo phone v pos kin sub ward
  | F_position => mkRaw no name idNo phone stage v kin sub ward
  | F_nextOfKin => mkRaw no name idNo phone stage pos v sub ward
  | F_subCounty => mkRaw no name idNo phone stage pos kin v ward
  | F_wardChairman => mkRaw no name idNo phone stage pos kin sub v
  end.

(** [c.includes(needle)] *)
Definition includes (needle c : string) : bool := bool_decide (is_Some (String.index 0 needle c)).

Definition is_header (upperRow : list string) : bool :=
  bool_decide ("NAME" ∈ upperRow) && existsb (includes "PHONE") upperRow.

(** The known columns, left to right. *)
Definition column_map (upperRow : list string) : list (nat * RawField) :=
  omap (fun kv : nat * string => (fun f => (kv.1, f)) <$> header_field kv.2) (imap pair upperRow).

Definition blank_record : RawCsvRecord := mkRaw "" "" "" "" "" "MEMBER" "" "" "".

Definition read_record (columnMap : list (nat * RawField)) (row : list string) : RawCsvRecord :=
  foldl (fun r kv => set_field r kv.2 (default "" (trim <$> row !! kv.1))) blank_record columnMap.

(** One row from the parser: the header, once found, and the records so far. *)
Definition read_row (st : option (list (nat * RawField)) * list RawCsvRecord) (row : list string)
  : option (list (nat * RawField)) * list RawCsvRecord :=
  match st.1 with
  | None =>
      let upperRow := (fun c => trim (toUpperCase c)) <$> row in
      if is_header upperRow then (Some (column_map upperRow), st.2) else st
  | Some columnMap =>
      if forallb (fun c => trim c === "") row then st else
      let record := read_record columnMap row in
      if (raw_name record === "") && (raw_phoneNo record === "") then st else (st.1, st.2 ++ [record])
  end.

Definition extractRawRecords (rows : list (list string)) : result (list RawCsvRecord) :=
  match foldl read_row (None, []) rows with
  | (None, _) => Err (BadRequest "Could not find header row in CSV. Expected columns: NAME, PHONE NO.")
  | (Some _, records) => Ok records
  end.

(** ** Parsed rows *)
Record ParsedCsvRow := mkParsed {
  rowNumber : Z;
  legacyNo : option string;
  row_firstName : string;
  row_lastName : string;
  rawIdNumber : option string;
  idNumber : option string;
  rawPhone : option string;
  phoneNumber : option string;
  stageName : option string;
  position : string;
  nextOfKinPhone : option string;
  subCounty : option string;
  wardChairman : option string;
}.

(** [s?.trim() || null] *)
Definition trimmed (s : string) : option string := truthy (Some (trim s)).

Definition transformRecord (raw : RawCsvRecord) (n : Z) : ParsedCsvRow :=
  let name := parseFullName (Some (raw_name raw)) in
  {| rowNumber := n;
     legacyNo := trimmed (raw_no raw);
     row_firstName := firstName name;
     row_lastName := lastName name;
     rawIdNumber := trimmed (raw_idNo raw);
     idNumber := normalizeIdNumber (Some (raw_idNo raw));
     rawPhone := trimmed (raw_phoneNo raw);
     phoneNumber := normalized (normalizePhone (Some (raw_phoneNo raw)));
     stageName := trimmed (raw_stageName raw);
     position := normalizePosition (Some (raw_position raw));
     nextOfKinPhone := trimmed (raw_nextOfKin raw);
     subCounty := trimmed (raw_subCounty raw);
     wardChairman := trimmed (raw_wardChairman raw) |}.

Definition parseBuffer (rows : list (list string)) : result (list ParsedCsvRow) :=
  match extractRawRecords rows with
  | Ok records => Ok (imap (fun i r => transformRecord r (Z.of_nat i + 1)) records)
  | Err e => Err e
  end.

(** ** Validated rows *)
Inductive RowStatus := VALID | WARNING | ERROR | DUPLICATE.
Inductive RowAction := CREATE | UPDATE | SKIP.
#[export] Instance RowStatus_dec : EqDecision RowStatus. Proof. solve_decision. Defined.
#[export] Instance RowAction_dec : EqDecision RowAction. Proof. solve_decision. Defined.

Record RowError := mkRowError {
  field : string;
  value : option string;
  reason : string;
  re_errorCode : string;
}.

Record FuzzyStageMatch := mkStageMatch {
  fs_original : string;
  fs_matched : string;
  fs_confidence : Z;
}.

Record ValidatedRow := mkValidated {
  parsed : ParsedCsvRow;
  status : RowStatus;
  errors : list RowError;
  warnings : list RowError;
  action : RowAction;
  existingUserId : option string;
  fuzzyStageMatch : option FuzzyStageMatch;
}.

Definition AUTO_ACCEPT_CONFIDENCE : Z := 90.
Definition WARN_CONFIDENCE : Z := 70.

(** *** The steps of [validateRow] *)

Definition name_errors (row : ParsedCsvRow) : list RowError :=
  if (row_firstName row === "") || (row_firstName row === "Unknown")
  then [mkRowError "NAME" None "Name is missing or could not be parsed" "NAME_MISSING"] else [].

Definition id_warnings (row : ParsedCsvRow) : list RowError :=
  match truthy (idNumber row) with
  | Some _ => []
  | None =>
      match truthy (rawIdNumber row) with
      | Some raw => [mkRowError "ID NO." (Some raw)
          ("ID number '" +:+ raw +:+ "' is not a valid Kenyan National ID (7-8 digits). Will be imported as PENDING_VERIFICATION.")
          "ID_INVALID_FORMAT"]
      | None => [mkRowError "ID NO." None "ID number is missing. Will be imported as PENDING_VERIFICATION." "ID_MISSING"]
      end
  end.

(** A key seen in an earlier row is an error, otherwise it is recorded:
    [seen.has(key)] and [seen.set(key, rowNumber)]. *)
Definition check_seen (fld what code : string) (seen : gmap string Z) (key : string) (n : Z)
  : list RowError * gmap string Z :=
  match seen !! key with
  | Some first => ([mkRowError fld (Some key)
      ("Duplicate " +:+ what +:+ " within this import batch (first seen at row " +:+ pretty first +:+ ")") code], seen)
  | None => ([], <[key := n]> seen)
  end.

Definition id_seen (seen : gmap string Z) (row : ParsedCsvRow) : list RowError * gmap string Z :=
  match truthy (idNumber row) with
  | Some id => check_seen "ID NO." "ID number" "ID_DUPLICATE_IN_BATCH" seen id (rowNumber row)
  | None => ([], seen)
  end.

(** The existing user of the row's ID number. *)
Definition id_user (existingByIdNumber : gmap string string) (row : ParsedCsvRow) : option string :=
  truthy (idNumber row) ≫= fun id => existingByIdNumber !! id.

Definition phone_missing (row : ParsedCsvRow) : RowError :=
  match truthy (rawPhone row) with
  | Some raw => mkRowError "PHONE NO." (Some raw)
      ("Phone '" +:+ raw +:+ "' could not be normalized to a valid Kenyan number") "PHONE_INVALID_FORMAT"
  | None => mkRowError "PHONE NO." None "Phone number is missing" "PHONE_MISSING"
  end.

Definition phone_seen (seen : gmap string Z) (row : ParsedCsvRow) : list RowError * gmap string Z :=
  match truthy (phoneNumber row) with
  | Some phone => check_seen "PHONE NO." "phone" "PHONE_DUPLICATE_IN_BATCH" seen phone (rowNumber row)
  | None => ([phone_missing row], seen)
  end.

(** The phone's existing user, against the one found by the ID number: the
    errors and the existing user, which makes the row an update. *)
Definition phone_user (existingByPhone : gmap string string) (byId : option string) (row : ParsedCsvRow)
  : list RowError * option string :=
  match truthy (phoneNumber row) with
  | None => ([], byId)
  | Some phone =>
      match existingByPhone !! phone, byId with
      | Some phoneUserId, Some u =>
          if u === phoneUserId then ([], byId)
          else ([mkRowError "PHONE NO." (Some phone)
            "Phone number belongs to a different existing user than the ID number" "PHONE_ID_CONFLICT"], byId)
      | Some phoneUserId, None => ([], Some phoneUserId)
      | None, _ => ([], byId)
      end
  end.

Definition stage_warning (name matched : string) (confidence : Z) (verdict code : string) : RowError :=
  mkRowError "STAGE NAME" (Some name)
    ("Stage name fuzzy-matched to '" +:+ matched +:+ "' (" +:+ pretty confidence +:+ "% confidence). " +:+ verdict) code.

Definition check_stage (existingStageNames : list string) (row : ParsedCsvRow)
  : list RowError * option FuzzyStageMatch :=
  match truthy (stageName row) with
  | None => ([mkRowError "STAGE NAME" None "Stage name is missing. Will be assigned to UNASSIGNED stage." "STAGE_MISSING"], None)
  | Some name =>
      let fuzzyResult := fuzzyMatchStageName (applyKnownAliases name) existingStageNames 70 in
      match isExact fuzzyResult, truthy (matched fuzzyResult) with
      | false, Some m =>
          let confidence := confidence fuzzyResult in
          if AUTO_ACCEPT_CONFIDENCE <=? confidence then
            ([stage_warning name m confidence "Auto-accepted." "STAGE_FUZZY_MATCH_AUTO"], Some (mkStageMatch name m confidence))
          else if WARN_CONFIDENCE <=? confidence then
            ([stage_warning name m confidence "Requires admin review." "STAGE_FUZZY_MATCH_REVIEW"],
             Some (mkStageMatch name m confidence))
          else ([], None)
      | _, _ => ([], None)
      end
  end.

(** What a batch is validated against: the tenant's stages and the users found
    by [fetchExistingByIdNumber] and [fetchExistingByPhone]. *)
Record Existing := mkExisting {
  existingByIdNumber : gmap string string;
  existingByPhone : gmap string string;
  existingStageNames : list string;
}.

(** The keys of the rows seen so far, with the first row that had them. *)
Record Seen := mkSeen {
  seenIdNumbers : gmap string Z;
  seenPhones : gmap string Z;
}.

Definition validateRow (ex : Existing) (seen : Seen) (row : ParsedCsvRow) : ValidatedRow * Seen :=
  let byId := id_user (existingByIdNumber ex) row in
  let '(idErrors, seenIds) := id_seen (seenIdNumbers seen) row in
  let '(phoneErrors, phones) := phone_seen (seenPhones seen) row in
  let '(conflicts, user) := phone_user (existingByPhone ex) byId row in
  let '(stageWarnings, stageMatch) := check_stage (existingStageNames ex) row in
  let errs := name_errors row ++ idErrors ++ phoneErrors ++ conflicts in
  let warns := id_warnings row ++ stageWarnings in
  let '(st, act) :=
    if negb (Nat.eqb (length errs) 0) then (ERROR, SKIP)
    else if bool_decide (is_Some user) then (DUPLICATE, UPDATE)
    else if negb (Nat.eqb (length warns) 0) then (WARNING, CREATE)
    else (VALID, CREATE) in
  (mkValidated row st errs warns act user stageMatch, mkSeen seenIds phones).

(** ** The preview *)
Record StageSummary := mkStageSummary {
  ss_name : string;
  ss_count : Z;
  ss_isNew : bool;
}.

Record ImportPreviewReport := mkPreview {
  pr_importLogId : string;
  pr_fileName : string;
  pr_totalRows : Z;
  validCount : Z;
  pr_warningCount : Z;
  errorCount : Z;
  duplicateCount : Z;
  pr_rows : list ValidatedRow;
  stagesSummary : list StageSummary;
  canProceed : bool;
}.

Definition used_stage (v : ValidatedRow) : string :=
  match fs_matched <$> fuzzyStageMatch v, stageName (parsed v) with
  | Some m, _ => m
  | None, Some s => s
  | None, None => "UNASSIGNED"
  end.

(** [stageCountMap.set(...)]: a Map keeps the order of first insertion. *)
Fixpoint count_stage (name : string) (isNew : bool) (l : list StageSummary) : list StageSummary :=
  match l with
  | [] => [mkStageSummary name 1 isNew]
  | s :: l' => if ss_name s === name then mkStageSummary name (ss_count s + 1) isNew :: l'
               else s :: count_stage name isNew l'
  end.

Definition is_new_stage (ex : Existing) (name : string) : bool :=
  negb (existsb (fun s => toUpperCase s === toUpperCase name) (existingStageNames ex)).

Definition validate_step (ex : Existing) (st : list ValidatedRow * Seen * list StageSummary) (row : ParsedCsvRow)
  : list ValidatedRow * Seen * list StageSummary :=
  let '(done, seen, stages) := st in
  let '(v, seen') := validateRow ex seen row in
  (done ++ [v], seen', count_stage (used_stage v) (is_new_stage ex (used_stage v)) stages).

Definition validate_all (ex : Existing) (rows : list ParsedCsvRow) : list ValidatedRow * Seen * list StageSummary :=
  foldl (validate_step ex) ([], mkSeen ∅ ∅, []) rows.

Definition count_status (st : RowStatus) (l : list ValidatedRow) : Z :=
  Z.of_nat (count_where (fun v => status v === st) l).

Definition half : num := num_div (num_of_Z 1) (num_of_Z 2).

Definition validateRows (ex : Existing) (rows : list ParsedCsvRow) (importLogId fileName : string) : ImportPreviewReport :=
  let '(validatedRows, _, stages) := validate_all ex rows in
  let n := Z.of_nat (length rows) in
  {| pr_importLogId := importLogId; pr_fileName := fileName; pr_totalRows := n;
     validCount := count_status VALID validatedRows;
     pr_warningCount := count_status WARNING validatedRows;
     errorCount := count_status ERROR validatedRows;
     duplicateCount := count_status DUPLICATE validatedRows;
     pr_rows := validatedRows;
     stagesSummary := stages;
     canProceed := num_lt (num_div (num_of_Z (count_status ERROR validatedRows)) (num_of_Z n)) half |}.
