(* ===== verification/MpesaTypes.v ===== *)
(** * MpesaTypes: payloads of the payment provider's callbacks

    [src/src/modules/mpesa/dto/mpesa-callback.dto.ts]: the fields the code
    reads.  A metadata value, a string or a number, is kept as the text
    [String(value)]. *)
From S2P Require Import Prelude Json.
From S2P Require Import Format Calendar ImportText.

Record StkCallback := mkStk {
  stk_CheckoutRequestID : string;
  stk_ResultCode : Z;
  stk_ResultDesc : string;
  stk_Item : option (list (string * option string));  (* CallbackMetadata?.Item *)
}.

Record C2bCallback := mkC2b {
  c2b_TransID : string;
  c2b_TransTime : string;
  c2b_TransAmount : string;
  c2b_BillRefNumber : string;
  c2b_MSISDN : string;
}.

Record B2cResult := mkB2c {
  b2c_ResultCode : Z;
  b2c_ResultDesc : string;
  b2c_OriginatorConversationID : string;
  b2c_ConversationID : string;
  b2c_TransactionID : option string;
  b2c_ResultParameter : option (list (string * string));
}.

(** What the type guards [isStkCallback], [isC2bCallback] and [isB2cCallback]
    tell apart; the rest is kept as it is. *)
Inductive CallbackPayload :=
  | P_stk (cb : StkCallback)
  | P_c2b (cb : C2bCallback)
  | P_b2c (cb : B2cResult)
  | P_other (body : json).

#[export] Instance StkCallback_dec : EqDecision StkCallback. Proof. solve_decision. Defined.
#[export] Instance C2bCallback_dec : EqDecision C2bCallback. Proof. solve_decision. Defined.
#[export] Instance B2cResult_dec : EqDecision B2cResult. Proof. solve_decision. Defined.
#[export] Instance CallbackPayload_dec : EqDecision CallbackPayload. Proof. solve_decision. Defined.

Inductive MpesaTxType := MT_STK_PUSH | MT_C2B | MT_B2C.
#[export] Instance MpesaTxType_dec : EqDecision MpesaTxType. Proof. solve_decision. Defined.

(** The columns of an MpesaTransaction row that say whose payment it is and
    what it is for. *)
Record MpesaDetails := mkDetails {
  mpd_type : MpesaTxType;
  mpd_phoneNumber : string;
  mpd_memberId : option string;
  mpd_accountReference : option string;
  mpd_checkoutRequestId : option string;
  mpd_conversationId : option string;
  mpd_originatorConversationId : option string;
  mpd_referenceType : option string;
  mpd_referenceId : option string;
  mpd_failureReason : option string;
  mpd_callbackPayload : option CallbackPayload;
}.
#[export] Instance MpesaDetails_dec : EqDecision MpesaDetails. Proof. solve_decision. Defined.

Definition set_callbackPayload (p : CallbackPayload) (d : MpesaDetails) : MpesaDetails :=
  mkDetails (mpd_type d) (mpd_phoneNumber d) (mpd_memberId d) (mpd_accountReference d) (mpd_checkoutRequestId d)
    (mpd_conversationId d) (mpd_originatorConversationId d) (mpd_referenceType d) (mpd_referenceId d)
    (mpd_failureReason d) (Some p).

Definition set_failureReason (r : string) (d : MpesaDetails) : MpesaDetails :=
  mkDetails (mpd_type d) (mpd_phoneNumber d) (mpd_memberId d) (mpd_accountReference d) (mpd_checkoutRequestId d)
    (mpd_conversationId d) (mpd_originatorConversationId d) (mpd_referenceType d) (mpd_referenceId d)
    (Some r) (mpd_callbackPayload d).

(** ** References, phones and dates of the payment provider

    [src/src/modules/mpesa/utils/mpesa.utils.ts] and the text rules of
    [src/src/modules/queue/processors/mpesa-callback.processor.ts]. *)
Definition maskPhone (phone : string) : string :=
  if Nat.ltb (String.length phone) 4 then "254***????" else "254***" +:+ slice (String.length phone - 4) phone.

(** ** Routing a reference *)
Inductive ParsedRefType := REF_LOAN_REPAYMENT | REF_DEPOSIT.
#[export] Instance ParsedRefType_dec : EqDecision ParsedRefType. Proof. solve_decision. Defined.

Record ParsedReference := mkParsedRef {
  ref_type : ParsedRefType;
  ref_target : string;
  isMemberIdDeposit : bool;
}.

Definition parseReference (accountReference : string) : ParsedReference :=
  if String.prefix "LOAN-" accountReference then mkParsedRef REF_LOAN_REPAYMENT (trim (slice 5 accountReference)) false
  else if String.prefix "DEPOSIT-" accountReference then mkParsedRef REF_DEPOSIT (trim (slice 8 accountReference)) true
  else mkParsedRef REF_DEPOSIT (trim accountReference) false.

Definition c2b_reference (transId : string) : string := "C2B-" +:+ transId.

(** ** Metadata

    [Object.fromEntries]: a later entry with the same key wins. *)
Definition meta_get (key : string) (items : list (string * string)) : option string :=
  snd <$> last (List.filter (fun kv => kv.1 === key) items).

Definition parseStkMeta (items : option (list (string * option string))) : list (string * string) :=
  omap (fun kv : string * option string => pair kv.1 <$> kv.2) (default [] items).

Definition parseB2cResultMeta (params : option (list (string * string))) : list (string * string) :=
  default [] params.

(** ** Dates

    A JavaScript Date: its milliseconds, or [None] for an invalid one. *)
Definition js_date : Type := option Z.

Definition two_digits (s : string) : option Z := if Nat.eqb (String.length s) 2 then digits_value 0 s else None.

Definition days_in_month (y m : Z) : Z :=
  days_from_civil (if m =? 12 then y + 1 else y) (if m =? 12 then 1 else m + 1) 1 - days_from_civil y m 1.

(** [new Date(`${Y}-${Mo}-${D}T${H}:${Mi}:${S}+03:00`)] *)
Definition iso_date_eat (Y Mo D H Mi S : string) : js_date :=
  match digits_value 0 Y, two_digits Mo, two_digits D, two_digits H, two_digits Mi, two_digits S with
  | Some y, Some mo, Some d, Some h, Some mi, Some s =>
      if (1 <=? mo) && (mo <=? 12) && (1 <=? d) && (d <=? days_in_month y mo)
         && ((h <=? 23) || ((h =? 24) && (mi =? 0) && (s =? 0))) && (mi <=? 59) && (s <=? 59)
      then Some ((((days_from_civil y mo d * 24 + h) * 60 + mi) * 60 + s) * 1000 - 3 * 60 * 60 * 1000)
      else None
  | _, _, _, _, _, _ => None
  end.

Definition parseDarajaTimestamp (now : Z) (ts : string) : js_date :=
  if (ts === "") || Nat.ltb (String.length ts) 14 then Some now else
  iso_date_eat (String.substring 0 4 ts) (String.substring 4 2 ts) (String.substring 6 2 ts)
    (String.substring 8 2 ts) (String.substring 10 2 ts) (String.substring 12 2 ts).

(** How the runtime reads a date that is not in ISO format is its own choice. *)
Class DateReader := { new_Date : string -> js_date }.

(** ** Phones in provider texts *)

(** [[17]\d{8}] at the start of the text. *)
Definition local_match (s : string) : option string :=
  let m := String.substring 0 9 s in
  if isValidKenyanLocal9 m && all_chars is_digit m then Some m else None.

Definition after_prefix (p s : string) : option string :=
  if String.prefix p s then (fun m => p +:+ m) <$> local_match (slice (String.length p) s) else None.

(** [/(?:\+?254|0)?[17]\d{8}/] at the start of the text: the optional group is
    tried first. *)
Definition match_here (s : string) : option string :=
  match after_prefix "+254" s, after_prefix "254" s, after_prefix "0" s with
  | Some m, _, _ => Some m
  | None, Some m, _ => Some m
  | None, None, Some m => Some m
  | None, None, None => local_match s
  end.

(** The leftmost match. *)
Fixpoint match_phone (s : string) : option string :=
  match match_here s, s with
  | Some m, _ => Some m
  | None, String _ s' => match_phone s'
  | None, EmptyString => None
  end.

Definition extractPhoneFromProviderText (value : string) : option string :=
  match_phone value ≫= fun m => normalized (normalizePhone (Some m)).

Example extract_receiver : extractPhoneFromProviderText "0712345678 - ANN A" = Some "254712345678".
Proof. vm_compute. reflexivity. Qed.
Example daraja_timestamp : parseDarajaTimestamp 0 "20240115103045" = Some 1705303845000.
Proof. vm_compute. reflexivity. Qed.

(** [String(amount).replace(/,/g, '').replace(/[^\d.-]/g, '').trim()] *)
Definition clean_amount (s : string) : string :=
  trim (keep_chars (fun c => is_digit c || (c === "."%char) || (c === "-"%char)) s).
