(* ===== verification/Schema.v ===== *)
(** * Schema: the rows, the database and the process state

    The tables of [src/src/prisma/schema.prisma] the modelled services touch,
    with the columns they read or write; the database as the collection of
    these tables; and the [World] a request runs in.  The operations at the
    end are what the Prisma calls used by the services do to those tables:
    unique keys, foreign keys and column widths included. *)
From S2P Require Import Prelude Money Json MpesaTypes.

(** ** Enumerations *)
Inductive AccountType := BOSA | FOSA.

Inductive JournalEntryStatus := JE_DRAFT | JE_PENDING_APPROVAL | JE_APPROVED | JE_REJECTED | JE_POSTED.

Inductive JournalEntryType :=
  | MANUAL | JLOAN_DISBURSEMENT | JLOAN_REPAYMENT | JFEE_CHARGE | JFEE_REVERSAL
  | MPESA_DEPOSIT | JINTEREST_ACCRUAL | JDEPOSIT | JWITHDRAWAL | JTRANSFER
  | JDIVIDEND_PAYOUT | JREVERSAL.

Inductive TransactionStatus := T_PENDING | T_COMPLETED | T_FAILED | T_REVERSED | T_RECON_PENDING.

Inductive TransactionType :=
  | DEPOSIT | WITHDRAWAL | LOAN_DISBURSEMENT | LOAN_REPAYMENT | INTEREST_EARNED
  | DIVIDEND_PAYOUT | FEE_CHARGE | TRANSFER | INTEREST_ACCRUAL | PENALTY | REVERSAL.

Inductive LoanStatus :=
  | DRAFT | PENDING_GUARANTORS | PENDING_REVIEW | PENDING_APPROVAL | APPROVED
  | REJECTED | REJECTED_GUARANTOR_DECLINE | DISBURSED | ACTIVE | FULLY_PAID
  | DEFAULTED | WRITTEN_OFF.

Inductive GuarantorStatus := G_PENDING | G_ACCEPTED | G_REJECTED | G_EXPIRED | G_RELEASED.

Inductive InstallmentStatus := I_PENDING | I_PARTIAL | I_PAID | I_OVERDUE | I_WAIVED.

Inductive LoanStaging := PERFORMING | WATCHLIST | NPL.

Inductive InterestType := FLAT | REDUCING_BALANCE.
Inductive KycStatus := KYC_PENDING_REVIEW | KYC_APPROVED | KYC_REJECTED | KYC_PENDING_UPLOAD.
Inductive ApprovalStatus := AP_PENDING | AP_APPROVED | AP_REJECTED.

Inductive UserRole :=
  | SUPER_ADMIN | TENANT_ADMIN | MANAGER | TELLER | MEMBER | AUDITOR
  | LOAN_OFFICER | CHAIRMAN | ACCOUNTANT | SYSTEM.

#[export] Instance AccountType_dec : EqDecision AccountType. Proof. solve_decision. Defined.
#[export] Instance JournalEntryStatus_dec : EqDecision JournalEntryStatus. Proof. solve_decision. Defined.
#[export] Instance JournalEntryType_dec : EqDecision JournalEntryType. Proof. solve_decision. Defined.
#[export] Instance TransactionStatus_dec : EqDecision TransactionStatus. Proof. solve_decision. Defined.
#[export] Instance TransactionType_dec : EqDecision TransactionType. Proof. solve_decision. Defined.
#[export] Instance LoanStatus_dec : EqDecision LoanStatus. Proof. solve_decision. Defined.
#[export] Instance GuarantorStatus_dec : EqDecision GuarantorStatus. Proof. solve_decision. Defined.
#[export] Instance InstallmentStatus_dec : EqDecision InstallmentStatus. Proof. solve_decision. Defined.
#[export] Instance LoanStaging_dec : EqDecision LoanStaging. Proof. solve_decision. Defined.
#[export] Instance UserRole_dec : EqDecision UserRole. Proof. solve_decision. Defined.
#[export] Instance InterestType_dec : EqDecision InterestType. Proof. solve_decision. Defined.
#[export] Instance KycStatus_dec : EqDecision KycStatus. Proof. solve_decision. Defined.
#[export] Instance ApprovalStatus_dec : EqDecision ApprovalStatus. Proof. solve_decision. Defined.

(** ** Rows

    Money is in units of 0.0001; dates are milliseconds since the epoch. *)
Record Account := mkAccount {
  acc_tenantId : string;
  acc_memberId : string;
  acc_accountNumber : string;
  acc_accountType : AccountType;
  acc_balance : Z;
  acc_isActive : bool;
  acc_version : Z;
  acc_lockedBalance : Z;
  acc_frozenSavings : Z;
  acc_allowsNegative : bool;
  acc_minimumBalance : Z;
}.

Record Transaction := mkTransaction {
  txn_id : string;
  txn_tenantId : string;
  txn_accountId : string;
  txn_loanId : option string;
  txn_type : TransactionType;
  txn_status : TransactionStatus;
  txn_amount : Z;
  txn_balanceBefore : Z;
  txn_balanceAfter : Z;
  txn_reference : string;
  txn_description : string;
  txn_processedBy : string;
  txn_linkedTransactionId : option string;
  txn_createdAt : Z;
}.

Record GLPosting := mkGLPosting {
  post_debitAccountId : string;
  post_creditAccountId : string;
  post_amount : Z;
  post_description : string;
}.

Record JournalEntry := mkJournalEntry {
  je_id : string;
  je_tenantId : string;
  je_entryNumber : string;
  je_type : JournalEntryType;
  je_status : JournalEntryStatus;
  je_description : string;
  je_referenceType : string;
  je_referenceId : string;
  je_totalAmount : Z;
  je_createdById : string;
  je_approvedById : string;
  je_approvalNotes : string;
  je_postedAt : Z;
  je_reversalOf : option string;
  je_postings : list GLPosting;
}.

Record GLAccount := mkGLAccount {
  gl_id : string;
  gl_tenantId : string;
  gl_code : string;
  gl_isActive : bool;
}.

Record User := mkUser {
  user_id : string;
  user_tenantId : string;
  user_role : UserRole;
}.

(** The terms of a loan, and the marks its approval and payout leave. *)
Record LoanTerms := mkTerms {
  lt_interestRate : Z;       (* a year, in units of 0.0001 *)
  lt_processingFee : Z;
  lt_tenureMonths : Z;
  lt_gracePeriodMonths : Z;
  lt_monthlyInstalment : Z;
  lt_repaymentScheduleGenerated : bool;
  lt_approvedAt : option Z;
  lt_approvedBy : option string;
  lt_disbursedBy : option string;
  lt_notes : option string;
}.

Record Loan := mkLoan {
  loan_tenantId : string;
  loan_memberId : string;
  loan_loanProductId : string;
  loan_loanNumber : string;
  loan_status : LoanStatus;
  loan_principalAmount : Z;
  loan_outstandingBalance : Z;
  loan_totalRepaid : Z;
  loan_accruedInterest : Z;
  loan_arrearsAmount : Z;
  loan_arrearsDays : Z;
  loan_staging : LoanStaging;
  loan_lastAccrualDate : option Z;
  loan_dueDate : option Z;
  loan_disbursedAt : option Z;
  loan_createdAt : Z;
  loan_updatedAt : Z;
  loan_terms : LoanTerms;
}.

Record LoanRepayment := mkLoanRepayment {
  lr_id : string;
  lr_tenantId : string;
  lr_loanId : string;
  lr_dayNumber : Z;
  lr_dueDate : Z;
  lr_status : InstallmentStatus;
  lr_principalDue : Z;
  lr_interestDue : Z;
  lr_penaltyDue : Z;
  lr_principalPaid : Z;
  lr_interestPaid : Z;
  lr_penaltyPaid : Z;
  lr_amountPaid : Z;  (* hundredths: a numeric(10,2) column *)
  lr_paidAt : option Z;
  lr_method : string;
  lr_lastPenaltyAccrualDate : option Z;
}.

Record LoanGuarantor := mkLoanGuarantor {
  lg_id : string;
  lg_tenantId : string;
  lg_loanId : string;
  lg_memberId : string;
  lg_status : GuarantorStatus;
  lg_guaranteedAmount : Z;
  lg_recoveredAmount : Z;
  lg_recoveryDate : option Z;
  lg_holdReleasedAt : option Z;
  lg_createdAt : Z;
}.

Record LoanProduct := mkLoanProduct {
  lp_tenantId : string;
  lp_name : string;
  lp_requiredAccountType : option AccountType;
  lp_minGuarantors : Z;
  lp_maxGuarantors : Z;
  lp_savingsMultiplier : Z;
  lp_guarantorCoverageRatio : Z;
  lp_gracePeriodDays : Z;
  lp_interestType : InterestType;
}.

(** A member with the contact details of its user. *)
Record Member := mkMember {
  mem_tenantId : string;
  mem_memberNumber : string;
  mem_userId : string;
  mem_firstName : string;
  mem_lastName : string;
  mem_phone : option string;
  mem_email : option string;
  mem_kycStatus : KycStatus;
}.

Record MpesaTransaction := mkMpesaTransaction {
  mp_tenantId : string;
  mp_reference : string;
  mp_amount : Z;
  mp_status : TransactionStatus;
  mp_transactionId : option string;
  mp_loanId : option string;
  mp_resultCode : option Z;
  mp_resultDesc : option string;
  mp_receipt : option string;
  mp_transactionDate : option Z;
  mp_details : MpesaDetails;
}.

Record AccountTypePolicy := mkPolicy {
  pol_tenantId : string;
  pol_accountType : AccountType;
  pol_minimumBalance : Z;
  pol_allowsNegative : bool;
}.

Record AuditLog := mkAuditLog {
  al_id : string;
  al_tenantId : string;
  al_actorId : option string;
  al_action : string;
  al_entityType : string;
  al_entityId : option string;
  al_timestamp : Z;
  al_prevHash : option string;
  al_entryHash : option string;
  al_requestId : option string;
  al_metadata : option json;
  al_payload : option json;
  al_oldValue : json;
  al_newValue : json;
  al_ipAddress : option string;
  al_userAgent : option string;
}.

Inductive NotificationChannel := SMS | EMAIL.

(** A notification log row. *)
Record NotificationLog := mkNotificationLog {
  nl_tenantId : string;
  nl_memberId : string;
  nl_channel : NotificationChannel;
  nl_recipient : string;
  nl_templateId : string;
  nl_message : string;
}.

(** ** The database *)
(** One signature of the two a large loan needs. *)
Record LoanApprovalChain := mkSlot {
  ac_id : string;
  ac_tenantId : string;
  ac_loanId : string;
  ac_approverId : string;
  ac_role : UserRole;
  ac_status : ApprovalStatus;
}.

Record DB := mkDB {
  accounts : gmap string Account;
  transactions : list Transaction;
  journalEntries : list JournalEntry;
  glAccounts : list GLAccount;
  users : list User;
  loans : gmap string Loan;
  loanRepayments : list LoanRepayment;
  loanGuarantors : list LoanGuarantor;
  loanProducts : gmap string LoanProduct;
  members : gmap string Member;
  policies : list AccountTypePolicy;
  accountSeqs : gmap string Z;
  auditLogs : list AuditLog;
  mpesaTransactions : gmap string MpesaTransaction;
  notificationLogs : list NotificationLog;
  loanApprovalChains : list LoanApprovalChain;
}.

(** A job on the guarantor-recovery queue: a notice, or a debit to be executed
    after the time it carries. *)
Record QueueJob := mkJob {
  job_id : string;
  job_name : string;
  job_tenantId : string;
  job_loanId : string;
  job_actorId : string;
  job_defaultAmount : string;
  job_dateIso : string;   (* noticeDateIso or executeAfterIso *)
  job_delay : Z;          (* milliseconds *)
}.

(** A message handed to the SMS or the e-mail queue. *)
Record OutboxMessage := mkMessage {
  msg_channel : NotificationChannel;
  msg_type : string;
  msg_to : string;
  msg_body : string;
}.

(** What a request handler runs against: the database, and the state outside
    it that a rollback does not undo. *)
Record World := mkWorld {
  db : DB;
  nextUuid : N;                       (* identifiers drawn so far *)
  clock : Z;                          (* [new Date()] *)
  systemUserIdCache : gmap string string;  (* LedgerService.systemUserIdCache *)
  locks : gmap string string;         (* Redis lock keys and their tokens *)
  jobs : list QueueJob;               (* jobs on the guarantor-recovery queue *)
  auditTrail : list string;           (* actions handed to AuditService.create *)
  outbox : list OutboxMessage;        (* messages on the SMS and e-mail queues *)
}.

Definition with_db (f : DB -> DB) (w : World) : World :=
  mkWorld (f (db w)) (nextUuid w) (clock w) (systemUserIdCache w) (locks w) (jobs w) (auditTrail w) (outbox w).
Definition with_systemUsers (f : gmap string string -> gmap string string) (w : World) : World :=
  mkWorld (db w) (nextUuid w) (clock w) (f (systemUserIdCache w)) (locks w) (jobs w) (auditTrail w) (outbox w).
Definition with_locks (f : gmap string string -> gmap string string) (w : World) : World :=
  mkWorld (db w) (nextUuid w) (clock w) (systemUserIdCache w) (f (locks w)) (jobs w) (auditTrail w) (outbox w).
Definition with_jobs (f : list QueueJob -> list QueueJob) (w : World) : World :=
  mkWorld (db w) (nextUuid w) (clock w) (systemUserIdCache w) (locks w) (f (jobs w)) (auditTrail w) (outbox w).
Definition bump_uuid (w : World) : World :=
  mkWorld (db w) (N.succ (nextUuid w)) (clock w) (systemUserIdCache w) (locks w) (jobs w) (auditTrail w) (outbox w).
Definition log_audit (action : string) (w : World) : World :=
  mkWorld (db w) (nextUuid w) (clock w) (systemUserIdCache w) (locks w) (jobs w)
    (auditTrail w ++ [action]) (outbox w).
Definition send_message (m : OutboxMessage) (w : World) : World :=
  mkWorld (db w) (nextUuid w) (clock w) (systemUserIdCache w) (locks w) (jobs w) (auditTrail w)
    (outbox w ++ [m]).

Definition set_accounts (x : gmap string Account) (d : DB) : DB :=
  mkDB x (transactions d) (journalEntries d) (glAccounts d) (users d) (loans d)
    (loanRepayments d) (loanGuarantors d) (loanProducts d) (members d) (policies d)
    (accountSeqs d) (auditLogs d) (mpesaTransactions d) (notificationLogs d) (loanApprovalChains d).
Definition set_transactions (x : list Transaction) (d : DB) : DB :=
  mkDB (accounts d) x (journalEntries d) (glAccounts d) (users d) (loans d) (loanRepayments d)
    (loanGuarantors d) (loanProducts d) (members d) (policies d) (accountSeqs d) (auditLogs d)
    (mpesaTransactions d) (notificationLogs d) (loanApprovalChains d).
Definition set_journalEntries (x : list JournalEntry) (d : DB) : DB :=
  mkDB (accounts d) (transactions d) x (glAccounts d) (users d) (loans d) (loanRepayments d)
    (loanGuarantors d) (loanProducts d) (members d) (policies d) (accountSeqs d) (auditLogs d)
    (mpesaTransactions d) (notificationLogs d) (loanApprovalChains d).
Definition set_loans (x : gmap string Loan) (d : DB) : DB :=
  mkDB (accounts d) (transactions d) (journalEntries d) (glAccounts d) (users d) x
    (loanRepayments d) (loanGuarantors d) (loanProducts d) (members d) (policies d)
    (accountSeqs d) (auditLogs d) (mpesaTransactions d) (notificationLogs d) (loanApprovalChains d).
Definition set_loanRepayments (x : list LoanRepayment) (d : DB) : DB :=
  mkDB (accounts d) (transactions d) (journalEntries d) (glAccounts d) (users d) (loans d) x
    (loanGuarantors d) (loanProducts d) (members d) (policies d) (accountSeqs d) (auditLogs d)
    (mpesaTransactions d) (notificationLogs d) (loanApprovalChains d).
Definition set_loanGuarantors (x : list LoanGuarantor) (d : DB) : DB :=
  mkDB (accounts d) (transactions d) (journalEntries d) (glAccounts d) (users d) (loans d)
    (loanRepayments d) x (loanProducts d) (members d) (policies d) (accountSeqs d) (auditLogs d)
    (mpesaTransactions d) (notificationLogs d) (loanApprovalChains d).
Definition set_accountSeqs (x : gmap string Z) (d : DB) : DB :=
  mkDB (accounts d) (transactions d) (journalEntries d) (glAccounts d) (users d) (loans d)
    (loanRepayments d) (loanGuarantors d) (loanProducts d) (members d) (policies d) x
    (auditLogs d) (mpesaTransactions d) (notificationLogs d) (loanApprovalChains d).
Definition set_auditLogs (x : list AuditLog) (d : DB) : DB :=
  mkDB (accounts d) (transactions d) (journalEntries d) (glAccounts d) (users d) (loans d)
    (loanRepayments d) (loanGuarantors d) (loanProducts d) (members d) (policies d)
    (accountSeqs d) x (mpesaTransactions d) (notificationLogs d) (loanApprovalChains d).
Definition set_mpesaTransactions (x : gmap string MpesaTransaction) (d : DB) : DB :=
  mkDB (accounts d) (transactions d) (journalEntries d) (glAccounts d) (users d) (loans d)
    (loanRepayments d) (loanGuarantors d) (loanProducts d) (members d) (policies d)
    (accountSeqs d) (auditLogs d) x (notificationLogs d) (loanApprovalChains d).

Definition set_notificationLogs (x : list NotificationLog) (d : DB) : DB :=
  mkDB (accounts d) (transactions d) (journalEntries d) (glAccounts d) (users d) (loans d)
    (loanRepayments d) (loanGuarantors d) (loanProducts d) (members d) (policies d)
    (accountSeqs d) (auditLogs d) (mpesaTransactions d) x (loanApprovalChains d).
Definition set_loanApprovalChains (x : list LoanApprovalChain) (d : DB) : DB :=
  mkDB (accounts d) (transactions d) (journalEntries d) (glAccounts d) (users d) (loans d)
    (loanRepayments d) (loanGuarantors d) (loanProducts d) (members d) (policies d)
    (accountSeqs d) (auditLogs d) (mpesaTransactions d) (notificationLogs d) x.

Definition set_users (x : list User) (d : DB) : DB :=
  mkDB (accounts d) (transactions d) (journalEntries d) (glAccounts d) x (loans d)
    (loanRepayments d) (loanGuarantors d) (loanProducts d) (members d) (policies d)
    (accountSeqs d) (auditLogs d) (mpesaTransactions d) (notificationLogs d) (loanApprovalChains d).
Definition set_members (x : gmap string Member) (d : DB) : DB :=
  mkDB (accounts d) (transactions d) (journalEntries d) (glAccounts d) (users d) (loans d)
    (loanRepayments d) (loanGuarantors d) (loanProducts d) x (policies d)
    (accountSeqs d) (auditLogs d) (mpesaTransactions d) (notificationLogs d) (loanApprovalChains d).

Definition set_balance (b v : Z) (a : Account) : Account :=
  mkAccount (acc_tenantId a) (acc_memberId a) (acc_accountNumber a) (acc_accountType a)
    b (acc_isActive a) v (acc_lockedBalance a) (acc_frozenSavings a)
    (acc_allowsNegative a) (acc_minimumBalance a).
Definition set_frozen (f v : Z) (a : Account) : Account :=
  mkAccount (acc_tenantId a) (acc_memberId a) (acc_accountNumber a) (acc_accountType a)
    (acc_balance a) (acc_isActive a) v (acc_lockedBalance a) f
    (acc_allowsNegative a) (acc_minimumBalance a).

Abbreviation M := (comp World).

(** [prisma.$transaction(body)]: the body's database writes are undone when it
    throws.  A Serializable transaction that the server aborts is one more
    throwing body; the ones that commit run as if alone. *)
Definition transaction {A} (body : M A) : M A := fun w =>
  match body w with
  | (Ok a, w') => (Ok a, w')
  | (Err e, w') => (Err e, with_db (fun _ => db w) w')
  end.

(** ** Identifiers

    Row identifiers come from a UUID generator outside the repository, a
    parameter: the [n]-th identifier drawn is [uuid n]. *)
Class UuidSource := { uuid : N -> string }.

Definition fresh_id `{UuidSource} : M string := fun w =>
  (Ok (uuid (nextUuid w)), bump_uuid w).

(** ** Table operations *)

(** [findFirst({ where: { id, tenantId, isActive: true } })] on Account. *)
Definition active_account (tenantId id : string) (d : DB) : option Account :=
  match accounts d !! id with
  | Some a => if (acc_tenantId a === tenantId) && acc_isActive a then Some a else None
  | None => None
  end.

(** [findFirst({ where: { tenantId, memberId, accountType, isActive: true } })]. *)
Definition member_account (tenantId memberId : string) (t : AccountType) (d : DB)
  : option (string * Account) :=
  List.find (fun kv =>
    (acc_tenantId kv.2 === tenantId) && (acc_memberId kv.2 === memberId)
    && (acc_accountType kv.2 === t) && acc_isActive kv.2)
    (map_to_list (accounts d)).

Definition txn_by_reference (tenantId reference : string) (d : DB) : option Transaction :=
  List.find (fun t => (txn_tenantId t === tenantId) && (txn_reference t === reference))
    (transactions d).

Definition txn_by_id (tenantId id : string) (d : DB) : option Transaction :=
  List.find (fun t => (txn_id t === id) && (txn_tenantId t === tenantId)) (transactions d).

(** [journalEntry.findFirst({ where: { tenantId, referenceType: 'TRANSACTION', referenceId } })] *)
Definition je_by_transaction (tenantId txnId : string) (d : DB) : option JournalEntry :=
  List.find (fun e => (je_tenantId e === tenantId) && (je_referenceType e === "TRANSACTION")
                      && (je_referenceId e === txnId)) (journalEntries d).

Definition je_by_number (tenantId n : string) (d : DB) : option JournalEntry :=
  List.find (fun e => (je_tenantId e === tenantId) && (je_entryNumber e === n))
    (journalEntries d).

Definition je_reversal_of (tenantId id : string) (d : DB) : option JournalEntry :=
  List.find (fun e => (je_tenantId e === tenantId) && (je_reversalOf e === Some id))
    (journalEntries d).

(** [account.updateMany({ where: { id, ...cond }, data: f })]: the number of
    rows changed. A result that does not fit a money column is refused. *)
Definition account_fits (a : Account) : bool :=
  fits_18_4 (acc_balance a) && fits_18_4 (acc_lockedBalance a)
  && fits_18_4 (acc_frozenSavings a) && fits_18_4 (acc_minimumBalance a).

Definition account_updateMany (id : string) (cond : Account -> bool) (f : Account -> Account)
  : M nat := fun w =>
  match accounts (db w) !! id with
  | Some a =>
      if cond a then
        if account_fits (f a)
        then (Ok 1%nat, with_db (set_accounts (<[id := f a]> (accounts (db w)))) w)
        else (Err NumericOverflow, w)
      else (Ok 0%nat, w)
  | None => (Ok 0%nat, w)
  end.

(** What a caller passes to [transaction.create]. *)
Record TransactionData := mkTxnData {
  td_tenantId : string;
  td_accountId : string;
  td_loanId : option string;
  td_type : TransactionType;
  td_status : TransactionStatus;
  td_amount : Z;
  td_balanceBefore : Z;
  td_balanceAfter : Z;
  td_reference : string;
  td_description : string;
  td_processedBy : string;
  td_linkedTransactionId : option string;
}.

Definition txn_of_data (id : string) (now : Z) (t : TransactionData) : Transaction :=
  mkTransaction id (td_tenantId t) (td_accountId t) (td_loanId t) (td_type t) (td_status t)
    (td_amount t) (td_balanceBefore t) (td_balanceAfter t) (td_reference t)
    (td_description t) (td_processedBy t) (td_linkedTransactionId t) now.

Definition txn_fits (t : TransactionData) : bool :=
  fits_18_4 (td_amount t) && fits_18_4 (td_balanceBefore t) && fits_18_4 (td_balanceAfter t).

Definition transaction_create `{UuidSource} (t : TransactionData) : M Transaction :=
  let* id := fresh_id in
  let* now := gets clock in
  let* dup := gets (fun w => txn_by_reference (td_tenantId t) (td_reference t) (db w)) in
  let* acc := gets (fun w => accounts (db w) !! td_accountId t) in
  throw_if (negb (txn_fits t)) NumericOverflow ;;
  let* dupId := gets (fun w => existsb (fun t => txn_id t === id) (transactions (db w))) in
  throw_if (dupId || bool_decide (is_Some dup)) (UniqueViolation "Transaction") ;;
  throw_if (bool_decide (acc = None)) (ForeignKeyViolation "Transaction") ;;
  let row := txn_of_data id now t in
  modify (with_db (fun d => set_transactions (transactions d ++ [row]) d)) ;;
  ret row.

(** What a caller passes to [journalEntry.create], postings included. *)
Record JournalData := mkJournalData {
  jd_tenantId : string;
  jd_entryNumber : string;
  jd_type : JournalEntryType;
  jd_description : string;
  jd_referenceId : string;
  jd_totalAmount : Z;
  jd_actorId : string;
  jd_approvalNotes : string;
  jd_reversalOf : option string;
  jd_posting : GLPosting;
}.

Definition je_of_data (id : string) (now : Z) (j : JournalData) : JournalEntry :=
  mkJournalEntry id (jd_tenantId j) (jd_entryNumber j) (jd_type j) JE_POSTED
    (jd_description j) "TRANSACTION" (jd_referenceId j) (jd_totalAmount j)
    (jd_actorId j) (jd_actorId j) (jd_approvalNotes j) now (jd_reversalOf j) [jd_posting j].

Definition user_exists (id : string) (d : DB) : bool :=
  existsb (fun u => user_id u === id) (users d).

(** Every journal entry LedgerService writes is POSTED, refers to a
    TRANSACTION, and carries one posting; [createdById] and [approvedById] are
    foreign keys to User. *)
Definition journal_create `{UuidSource} (j : JournalData) : M JournalEntry :=
  let* id := fresh_id in
  let* now := gets clock in
  let* dup := gets (fun w => je_by_number (jd_tenantId j) (jd_entryNumber j) (db w)) in
  let* ok := gets (fun w => user_exists (jd_actorId j) (db w)) in
  throw_if (negb (fits_18_4 (jd_totalAmount j) && fits_18_4 (post_amount (jd_posting j)))) NumericOverflow ;;
  let* dupId := gets (fun w => existsb (fun e => je_id e === id) (journalEntries (db w))) in
  throw_if (dupId || bool_decide (is_Some dup)) (UniqueViolation "JournalEntry") ;;
  throw_if (negb ok) (ForeignKeyViolation "JournalEntry") ;;
  let row := je_of_data id now j in
  modify (with_db (fun d => set_journalEntries (journalEntries d ++ [row]) d)) ;;
  ret row.

(** [transaction.update({ where: { id }, data })] *)
Definition transaction_update (id : string) (f : Transaction -> Transaction) : M unit :=
  let* hit := gets (fun w => existsb (fun t => txn_id t === id) (transactions (db w))) in
  throw_if (negb hit) (RecordNotFound "Transaction") ;;
  modify (with_db (fun d =>
    set_transactions (update_where (fun t => txn_id t === id) f (transactions d)) d)).

Definition set_txn_status (s : TransactionStatus) (t : Transaction) : Transaction :=
  mkTransaction (txn_id t) (txn_tenantId t) (txn_accountId t) (txn_loanId t) (txn_type t) s
    (txn_amount t) (txn_balanceBefore t) (txn_balanceAfter t) (txn_reference t)
    (txn_description t) (txn_processedBy t) (txn_linkedTransactionId t) (txn_createdAt t).

Definition set_txn_link (l : string) (t : Transaction) : Transaction :=
  mkTransaction (txn_id t) (txn_tenantId t) (txn_accountId t) (txn_loanId t) (txn_type t)
    (txn_status t) (txn_amount t) (txn_balanceBefore t) (txn_balanceAfter t) (txn_reference t)
    (txn_description t) (txn_processedBy t) (Some l) (txn_createdAt t).

(** ** Loans, installments, guarantors and M-Pesa rows *)
Definition loan_fits (l : Loan) : bool :=
  fits_18_4 (loan_principalAmount l) && fits_18_4 (loan_outstandingBalance l)
  && fits_18_4 (loan_totalRepaid l) && fits_18_4 (loan_accruedInterest l)
  && fits_18_4 (loan_arrearsAmount l).

(** Every update of a loan row stamps [updatedAt]. *)
Definition touch_loan (now : Z) (l : Loan) : Loan :=
  mkLoan (loan_tenantId l) (loan_memberId l) (loan_loanProductId l) (loan_loanNumber l)
    (loan_status l) (loan_principalAmount l) (loan_outstandingBalance l) (loan_totalRepaid l)
    (loan_accruedInterest l) (loan_arrearsAmount l) (loan_arrearsDays l) (loan_staging l)
    (loan_lastAccrualDate l) (loan_dueDate l) (loan_disbursedAt l) (loan_createdAt l) now
    (loan_terms l).

(** [loan.updateMany({ where: { id, ...cond }, data: f })] *)
Definition loan_updateMany (id : string) (cond : Loan -> bool) (f : Loan -> Loan) : M nat :=
  fun w =>
  match loans (db w) !! id with
  | Some l =>
      if cond l then
        if loan_fits (f l)
        then (Ok 1%nat, with_db (set_loans (<[id := touch_loan (clock w) (f l)]> (loans (db w)))) w)
        else (Err NumericOverflow, w)
      else (Ok 0%nat, w)
  | None => (Ok 0%nat, w)
  end.

(** [loan.update({ where: { id }, data: f })] *)
Definition loan_update (id : string) (f : Loan -> Loan) : M unit :=
  let* n := loan_updateMany id (fun _ => true) f in
  throw_if (Nat.eqb n 0) (RecordNotFound "Loan").

(** [loan.findFirst({ where: { id, tenantId } })] *)
Definition tenant_loan (tenantId id : string) (d : DB) : option Loan :=
  match loans d !! id with
  | Some l => if loan_tenantId l === tenantId then Some l else None
  | None => None
  end.

Definition installment_fits (r : LoanRepayment) : bool :=
  fits_18_4 (lr_penaltyPaid r) && fits_18_4 (lr_interestPaid r) && fits_18_4 (lr_principalPaid r)
  && fits_18_4 (lr_penaltyDue r) && fits_10_2 (lr_amountPaid r).

(** [loanRepayment.updateMany({ where: { id, ...cond }, data: f })] *)
Definition installment_updateMany (id : string) (cond : LoanRepayment -> bool)
    (f : LoanRepayment -> LoanRepayment) : M nat :=
  let* hit := gets (fun w => List.filter (fun r => (lr_id r === id) && cond r) (loanRepayments (db w))) in
  throw_if (existsb (fun r => negb (installment_fits (f r))) hit) NumericOverflow ;;
  modify (with_db (fun d => set_loanRepayments
    (update_where (fun r => (lr_id r === id) && cond r) f (loanRepayments d)) d)) ;;
  ret (length hit).

(** [loanRepayment.update({ where: { id }, data: f })] *)
Definition installment_update (id : string) (f : LoanRepayment -> LoanRepayment) : M unit :=
  let* n := installment_updateMany id (fun _ => true) f in
  throw_if (Nat.eqb n 0) (RecordNotFound "LoanRepayment").

(** [loanGuarantor.updateMany({ where: { id, ...cond }, data: f })] *)
Definition guarantor_updateMany (id : string) (cond : LoanGuarantor -> bool)
    (f : LoanGuarantor -> LoanGuarantor) : M nat :=
  let* hit := gets (fun w => List.filter (fun g => (lg_id g === id) && cond g) (loanGuarantors (db w))) in
  throw_if (existsb (fun g => negb (fits_18_4 (lg_recoveredAmount (f g)))) hit) NumericOverflow ;;
  modify (with_db (fun d => set_loanGuarantors
    (update_where (fun g => (lg_id g === id) && cond g) f (loanGuarantors d)) d)) ;;
  ret (length hit).

(** [mpesaTransaction.update({ where: { id }, data: f })]; the receipt number
    and the transaction id are unique keys. *)
Definition mpesa_clash (id : string) (m : MpesaTransaction) (d : DB) : bool :=
  existsb (fun kv => negb (kv.1 === id)
    && ((bool_decide (is_Some (mp_receipt m)) && (mp_receipt kv.2 === mp_receipt m))
        || (bool_decide (is_Some (mp_transactionId m)) && (mp_transactionId kv.2 === mp_transactionId m))
        || (mp_reference kv.2 === mp_reference m)))
    (map_to_list (mpesaTransactions d)).

#[export] Instance MpesaTransaction_dec : EqDecision MpesaTransaction.
Proof. solve_decision. Defined.

Definition mpesa_update (id : string) (f : MpesaTransaction -> MpesaTransaction) : M unit :=
  let* found := gets (fun w => mpesaTransactions (db w) !! id) in
  let* m := or_throw found (RecordNotFound "MpesaTransaction") in
  let* clash := gets (fun w => mpesa_clash id (f m) (db w)) in
  throw_if clash (UniqueViolation "MpesaTransaction") ;;
  modify (with_db (fun d => set_mpesaTransactions (<[id := f m]> (mpesaTransactions d)) d)).
