(* ===== verification/Schedule.v ===== *)
(** * Schedule: splitting a loan into installments

    [buildAmortizationSchedule] of [src/src/modules/loans/loans.service.ts].
    The instalment is the four-digit one stored on the loan. *)
From S2P Require Import Prelude Money Schema.

Record Period := mkPeriod {
  principalDue : Z;
  interestDue : Z;
}.

Section Schedule.
Context `{DecimalLib}.

(** The loop over FLAT periods: [k] are left, [principalAccrued] and
    [interestAccrued] are allocated. *)
Fixpoint flat_periods (k : nat) (principal totalInterest perPeriod instalment principalAccrued interestAccrued : Z)
  : list Period :=
  match k with
  | O => []
  | S k' =>
      let isLast := Nat.eqb k' 0 in
      let interest := if isLast then totalInterest - interestAccrued else perPeriod in
      let due := if isLast then principal - principalAccrued else instalment - perPeriod in
      mkPeriod due interest ::
        flat_periods k' principal totalInterest perPeriod instalment (principalAccrued + due)
          (interestAccrued + interest)
  end.

Definition monthly_interest (monthlyRate : Q) (outstanding : Z) : Z :=
  if Qeq_bool monthlyRate 0 then 0 else to_dp4 (d_times (dec outstanding) monthlyRate).

Fixpoint reducing_periods (k : nat) (principal : Z) (monthlyRate : Q) (instalment outstanding principalAccrued : Z)
  : list Period :=
  match k with
  | O => []
  | S k' =>
      let interest := monthly_interest monthlyRate outstanding in
      let due := if Nat.eqb k' 0 then principal - principalAccrued
                 else Z.min (instalment - interest) outstanding in
      mkPeriod due interest ::
        reducing_periods k' principal monthlyRate instalment (outstanding - due) (principalAccrued + due)
  end.

(** [principal.times(rate).times(tenure).dividedBy(12).toDecimalPlaces(4)] *)
Definition flat_total_interest (principal annualRate tenureMonths : Z) : Z :=
  to_dp4 (d_div (d_times (d_times (dec principal) (dec annualRate)) (inject_Z tenureMonths)) 12).

Definition buildAmortizationSchedule (principal annualRate tenureMonths : Z) (interestType : InterestType)
    (instalment : Z) : list Period :=
  match interestType with
  | FLAT =>
      let totalInterest := flat_total_interest principal annualRate tenureMonths in
      let interestPerPeriod := to_dp4 (d_div (dec totalInterest) (inject_Z tenureMonths)) in
      flat_periods (Z.to_nat tenureMonths) principal totalInterest interestPerPeriod instalment 0 0
  | REDUCING_BALANCE =>
      reducing_periods (Z.to_nat tenureMonths) principal (d_div (dec annualRate) 12) instalment principal 0
  end.

(** ** The schedule covers the loan *)
Lemma flat_periods_sums k principal total per inst : forall pa ia, (0 < k)%nat ->
  let ps := flat_periods k principal total per inst pa ia in
  length ps = k /\ sum_by principalDue ps = principal - pa /\ sum_by interestDue ps = total - ia.
Proof.
  induction k as [|k IH]; intros pa ia Hk ps; [lia|]. subst ps. cbn [flat_periods].
  destruct k as [|k].
  - cbn. lia.
  - cbn [Nat.eqb]. destruct (IH (pa + (inst - per)) (ia + per) ltac:(lia)) as (H1 & H2 & H3).
    rewrite !sum_by_cons. cbn [principalDue interestDue]. cbn [length]. split_and!; [by f_equal|lia|lia].
Qed.

(** All periods but the last ask for the same interest. *)
Lemma flat_periods_parts k principal total per inst : forall pa ia,
  exists rest final, flat_periods (S k) principal total per inst pa ia = rest ++ [final] /\
    Forall (fun p => interestDue p = per) rest /\ interestDue final = total - ia - Z.of_nat k * per.
Proof.
  induction k as [|k IH]; intros pa ia.
  - eexists [], _. split; [reflexivity|]. split; [constructor|]. cbn. lia.
  - destruct (IH (pa + (inst - per)) (ia + per)) as (rest & final & E & Hr & Hf).
    exists (mkPeriod (inst - per) per :: rest), final. split_and!; [|by constructor|lia].
    change (flat_periods (S (S k)) principal total per inst pa ia)
      with (mkPeriod (inst - per) per :: flat_periods (S k) principal total per inst (pa + (inst - per)) (ia + per)).
    by rewrite E.
Qed.

(** The interest of a period is a month's share of the total, rounded. *)
Lemma flat_share total n : 0 <= total < 10 ^ 20 -> 1 <= n ->
  let per := to_dp4 (d_div (dec total) (inject_Z n)) in
  0 <= per /\ - (n - 1) <= total - n * per <= n - 1.
Proof.
  intros Ht Hn per.
  assert (forall z, Z.abs z < 10 ^ 20 -> to_dp4 (rnd (dec z)) = z) as Hex.
  { intros z Hz. rewrite (to_dp4_proper _ _ (rnd_exact z Hz)). apply to_dp4_dec. }
  assert (forall z, z * n <= total -> (dec z <= dec total / inject_Z n)%Q) as Hlow.
  { intros z Hz. apply Qle_shift_div_l; [unfold Qlt; cbn; lia|]. unfold Qle, dec, Qmult, inject_Z. cbn. nia. }
  assert (forall z, total <= z * n -> (dec total / inject_Z n <= dec z)%Q) as Hhigh.
  { intros z Hz. apply Qle_shift_div_r; [unfold Qlt; cbn; lia|]. unfold Qle, dec, Qmult, inject_Z. cbn. nia. }
  pose proof (Z.div_mod total n ltac:(lia)) as E1. pose proof (Z.mod_pos_bound total n ltac:(lia)) as B1.
  pose proof (Z.div_mod (total + n - 1) n ltac:(lia)) as E2. pose proof (Z.mod_pos_bound (total + n - 1) n ltac:(lia)) as B2.
  set (l := total / n) in *. set (u := (total + n - 1) / n) in *.
  assert (0 <= l) as Hl by (apply Z.div_pos; lia). assert (u <= total) as Hu by (destruct (Z.le_gt_cases u total); [done|nia]).
  assert (0 <= u) as Hu0 by (apply Z.div_pos; lia).
  assert (l <= per) as Hlo. { rewrite <- (Hex l) by nia. apply to_dp4_mono, rnd_mono, Hlow. nia. }
  assert (per <= u) as Hup. { rewrite <- (Hex u) by lia. apply to_dp4_mono, rnd_mono, Hhigh. nia. }
  split; [lia|]. nia.
Qed.

Lemma reducing_periods_sums k principal rate inst : forall out pa, (0 < k)%nat ->
  let ps := reducing_periods k principal rate inst out pa in
  length ps = k /\ sum_by principalDue ps = principal - pa.
Proof.
  induction k as [|k IH]; intros out pa Hk ps; [lia|]. subst ps. cbn [reducing_periods].
  destruct k as [|k].
  - cbn. lia.
  - cbn [Nat.eqb]. set (due := Z.min _ _). destruct (IH (out - due) (pa + due) ltac:(lia)) as (H1 & H2).
    rewrite sum_by_cons. cbn [principalDue length]. split; [by f_equal|lia].
Qed.

Lemma monthly_interest_mono rate a b : (0 <= rate)%Q -> a <= b -> monthly_interest rate a <= monthly_interest rate b.
Proof.
  intros Hr Hab. unfold monthly_interest. destruct (Qeq_bool rate 0); [lia|].
  apply to_dp4_mono, rnd_mono, Qmult_le_compat_r; [|done]. unfold Qle, dec. cbn. lia.
Qed.

Lemma monthly_interest_nonneg rate a : (0 <= rate)%Q -> 0 <= a -> 0 <= monthly_interest rate a.
Proof.
  intros Hr Ha. unfold monthly_interest. destruct (Qeq_bool rate 0); [lia|].
  apply to_dp4_nonneg, rnd_nonneg, Qmult_le_0_compat; [|done]. unfold Qle, dec. cbn. lia.
Qed.

(** While the instalment covers the interest on the whole principal, no period
    of a reducing balance asks for a negative amount. *)
Lemma reducing_periods_nonneg k principal rate inst : forall out pa,
  (0 <= rate)%Q -> monthly_interest rate principal <= inst -> 0 <= out -> out <= principal -> pa = principal - out ->
  Forall (fun p => 0 <= principalDue p <= principal /\ 0 <= interestDue p <= inst)
    (reducing_periods k principal rate inst out pa).
Proof.
  induction k as [|k IH]; intros out pa Hr Hi Ho Hop ->; [constructor|]. cbn [reducing_periods].
  pose proof (monthly_interest_mono rate out principal Hr Hop) as Hm. pose proof (monthly_interest_nonneg rate out Hr Ho) as Hm0.
  set (due := if Nat.eqb k 0 then _ else _).
  assert (0 <= due <= out) as Hd by (unfold due; destruct (Nat.eqb k 0); lia).
  constructor; [cbn [principalDue interestDue]; lia|]. apply IH; lia || done.
Qed.

(** One period a month, and the whole principal. *)
Lemma schedule_sums principal annualRate tenureMonths interestType instalment :
  1 <= tenureMonths ->
  let ps := buildAmortizationSchedule principal annualRate tenureMonths interestType instalment in
  Z.of_nat (length ps) = tenureMonths /\ sum_by principalDue ps = principal.
Proof.
  intros Ht ps. subst ps. unfold buildAmortizationSchedule.
  assert (0 < Z.to_nat tenureMonths)%nat as Hn by lia. destruct interestType.
  all: match goal with |- context [flat_periods ?k ?p ?t ?e ?i] =>
           destruct (flat_periods_sums k p t e i 0 0 Hn) as (H1 & H2 & H3)
         | |- context [reducing_periods ?k ?p ?r ?i] =>
           destruct (reducing_periods_sums k p r i p 0 Hn) as (H1 & H2) end.
  all: rewrite H1; lia.
Qed.
End Schedule.
