(* ===== verification/Ledger.v ===== *)
(** * Ledger: LedgerService

    [src/src/modules/accounting/ledger.service.ts]: posting a deposit,
    withdrawal, fee or disbursement against one account, transferring between
    two accounts, reversing a posting, and the general-ledger-only postings of
    the loan and guarantor flows.  One definition per method. *)
From S2P Require Import Prelude Money Schema.

Inductive Direction := DEBIT | CREDIT.
#[export] Instance Direction_dec : EqDecision Direction. Proof. solve_decision. Defined.

(** The leg of a repayment waterfall. *)
Inductive Leg := LEG_PENALTY | LEG_INTEREST | LEG_PRINCIPAL.
#[export] Instance Leg_dec : EqDecision Leg. Proof. solve_decision. Defined.

(** ** Chart of accounts *)
Module GL_CODES.
Definition CASH : string := "1000".
Definition LOAN_RECEIVABLE : string := "1300".
Definition FOSA_DEPOSITS : string := "2300".
Definition BOSA_DEPOSITS : string := "2400".
Definition INTEREST_INCOME : string := "4000".
Definition FEE_INCOME : string := "4300".
Definition PENALTY_INCOME : string := "4200".
End GL_CODES.

Definition JOURNAL_TO_TRANSACTION_TYPE (j : JournalEntryType) : option TransactionType :=
  match j with
  | JDEPOSIT | MPESA_DEPOSIT => Some DEPOSIT
  | JWITHDRAWAL => Some WITHDRAWAL
  | JTRANSFER => Some TRANSFER
  | JDIVIDEND_PAYOUT => Some DIVIDEND_PAYOUT
  | JFEE_CHARGE => Some FEE_CHARGE
  | JLOAN_DISBURSEMENT => Some LOAN_DISBURSEMENT
  | MANUAL | JLOAN_REPAYMENT | JFEE_REVERSAL | JINTEREST_ACCRUAL | JREVERSAL => None
  end.

Definition memberDepositsCode (t : AccountType) : string :=
  match t with FOSA => GL_CODES.FOSA_DEPOSITS | BOSA => GL_CODES.BOSA_DEPOSITS end.

(** The debit and credit codes of a posting. *)
Definition resolveGlCodes (t : AccountType) (j : JournalEntryType) (dir : Direction)
    (counterparty : option AccountType) : result (string * string) :=
  let ownCode := memberDepositsCode t in
  match j with
  | JTRANSFER =>
      match counterparty with
      | None => Err (BadRequest "resolveGlCodes: TRANSFER requires a counterparty account type")
      | Some ct =>
          let counterpartyCode := memberDepositsCode ct in
          match dir with
          | CREDIT => Ok (counterpartyCode, ownCode)
          | DEBIT => Ok (ownCode, counterpartyCode)
          end
      end
  | JDEPOSIT | MPESA_DEPOSIT => Ok (GL_CODES.CASH, ownCode)
  | JWITHDRAWAL => Ok (ownCode, GL_CODES.CASH)
  | JLOAN_DISBURSEMENT => Ok (GL_CODES.LOAN_RECEIVABLE, ownCode)
  | JFEE_CHARGE => Ok (ownCode, GL_CODES.FEE_INCOME)
  | _ => Err (BadRequest "resolveGlCodes: unsupported journalType for LedgerService.postEntry()")
  end.

Definition lift_result {A} (r : result A) : M A :=
  match r with Ok a => ret a | Err e => throw e end.

Definition findGlAccountPair (tenantId debitCode creditCode : string)
  : M (GLAccount * GLAccount) :=
  let* found := gets (fun w => List.filter (fun g =>
      (gl_tenantId g === tenantId)
      && ((gl_code g === debitCode) || (gl_code g === creditCode)) && gl_isActive g)
    (glAccounts (db w))) in
  let debitAccount := List.find (fun g => gl_code g === debitCode) found in
  let creditAccount := List.find (fun g => gl_code g === creditCode) found in
  match debitAccount, creditAccount with
  | Some d, Some c => ret (d, c)
  | _, _ => throw (BadRequest ("Required GL accounts (" +:+ debitCode +:+ "/" +:+ creditCode
      +:+ ") are not configured for this tenant"))
  end.

(** The tenant's SYSTEM user, memoised per service instance. *)
Definition resolveSystemActorId (tenantId : string) : M string :=
  let* cached := gets (fun w => systemUserIdCache w !! tenantId) in
  match cached with
  | Some id => ret id
  | None =>
      let* found := gets (fun w => List.find (fun u =>
        (user_tenantId u === tenantId) && (user_role u === SYSTEM)) (users (db w))) in
      match found with
      | None => throw (NotFound ("Tenant " +:+ tenantId +:+ " has no SYSTEM user provisioned"))
      | Some u =>
          modify (with_systemUsers (fun c => <[tenantId := user_id u]> c)) ;;
          ret (user_id u)
      end
  end.

Definition actor_or_system (tenantId : string) (actorId : option string) : M string :=
  match actorId with
  | Some a => ret a
  | None => resolveSystemActorId tenantId
  end.

(** ** Balance changes *)
Record BalanceChange := mkBalanceChange {
  balanceBefore : Z;
  balanceAfter : Z;
  changeAccountType : AccountType;
}.

(** The smallest balance from which [amount] may be debited: committed funds
    always stay, the minimum balance stays unless the account allows
    negatives. *)
Definition debit_floor (a : Account) (amount : Z) : Z :=
  let committedFloor := acc_lockedBalance a + acc_frozenSavings a + amount in
  let policyFloor := if acc_allowsNegative a then 0 else acc_minimumBalance a + amount in
  Z.max committedFloor policyFloor.

Definition insufficient_funds : exn :=
  BadRequest "Insufficient available funds (below minimum balance, or amount is committed to a guarantor hold), or concurrent modification".

Definition applyBalanceChange (tenantId accountId : string) (amount : Z) (direction : Direction)
  : M BalanceChange :=
  let* found := gets (fun w => active_account tenantId accountId (db w)) in
  let* account := or_throw found
    (NotFound ("Account " +:+ accountId +:+ " not found or inactive in this tenant")) in
  let before := acc_balance account in
  let delta := match direction with CREDIT => amount | DEBIT => - amount end in
  let after := before + delta in
  let where_ (a : Account) : bool :=
    (acc_tenantId a === tenantId) && acc_isActive a &&
    match direction with
    | DEBIT => debit_floor account amount <=? acc_balance a
    | CREDIT => true
    end in
  let* count := account_updateMany accountId where_
    (fun a => set_balance (acc_balance a + delta) (acc_version a + 1) a) in
  throw_if (Nat.eqb count 0) insufficient_funds ;;
  ret (mkBalanceChange before after (acc_accountType account)).

Section Posting.
  Context `{UuidSource}.

(** ** postEntry *)
Record Posted := mkPosted {
  posted_transaction : Transaction;
  posted_journalEntry : JournalEntry;
  posted_replayed : bool;
}.

Definition postEntryBody (tenantId reference : string) (journalType : JournalEntryType)
    (accountId : string) (amount : Z) (direction : Direction) (actorId description : string)
    (linkedTransactionId loanId : option string) : M Posted :=
  let* existing := gets (fun w => txn_by_reference tenantId reference (db w)) in
  match existing with
  | Some t =>
      let* entry := gets (fun w => je_by_transaction tenantId (txn_id t) (db w)) in
      let* e := or_throw entry (Conflict ("Transaction " +:+ reference
        +:+ " exists without a linked journal entry")) in
      ret (mkPosted t e true)
  | None =>
      let* change := applyBalanceChange tenantId accountId amount direction in
      let* transactionType := or_throw (JOURNAL_TO_TRANSACTION_TYPE journalType)
        (BadRequest "postEntry: no TransactionType mapping for journalType") in
      let* txn := transaction_create (mkTxnData tenantId accountId loanId transactionType
        T_COMPLETED amount (balanceBefore change) (balanceAfter change) reference description
        actorId linkedTransactionId) in
      let* codes := lift_result
        (resolveGlCodes (changeAccountType change) journalType direction None) in
      let* pair := findGlAccountPair tenantId codes.1 codes.2 in
      let* entry := journal_create (mkJournalData tenantId ("JE-LEDGER-" +:+ reference)
        journalType description (txn_id txn) amount actorId
        "System-posted via LedgerService.postEntry()" None
        (mkGLPosting (gl_id pair.1) (gl_id pair.2) amount description)) in
      ret (mkPosted txn entry false)
  end.

(** The parameters of [postEntry]; [pe_inTx] is whether the caller passes its
    own transaction client. *)
Record PostEntryParams := mkPostEntry {
  pe_tenantId : string;
  pe_reference : string;
  pe_journalType : JournalEntryType;
  pe_accountId : string;
  pe_amount : Q;
  pe_direction : Direction;
  pe_actorId : option string;
  pe_description : option string;
  pe_linkedTransactionId : option string;
  pe_loanId : option string;
  pe_inTx : bool;
}.

Definition journal_type_name (j : JournalEntryType) : string :=
  match j with
  | MANUAL => "MANUAL" | JLOAN_DISBURSEMENT => "LOAN_DISBURSEMENT"
  | JLOAN_REPAYMENT => "LOAN_REPAYMENT" | JFEE_CHARGE => "FEE_CHARGE"
  | JFEE_REVERSAL => "FEE_REVERSAL" | MPESA_DEPOSIT => "MPESA_DEPOSIT"
  | JINTEREST_ACCRUAL => "INTEREST_ACCRUAL" | JDEPOSIT => "DEPOSIT"
  | JWITHDRAWAL => "WITHDRAWAL" | JTRANSFER => "TRANSFER"
  | JDIVIDEND_PAYOUT => "DIVIDEND_PAYOUT" | JREVERSAL => "REVERSAL"
  end.

Definition positive_amount (amount : Z) : M unit :=
  throw_if (amount <=? 0) (BadRequest "Amount must be positive").

Definition postEntry (p : PostEntryParams) : M Posted :=
  let* actorId := actor_or_system (pe_tenantId p) (pe_actorId p) in
  let amount := to_dp4 (pe_amount p) in
  positive_amount amount ;;
  let description := default (journal_type_name (pe_journalType p)) (pe_description p) in
  let runBody := postEntryBody (pe_tenantId p) (pe_reference p) (pe_journalType p)
    (pe_accountId p) amount (pe_direction p) actorId description
    (pe_linkedTransactionId p) (pe_loanId p) in
  let* result := if pe_inTx p then runBody else transaction runBody in
  (if negb (posted_replayed result) && negb (pe_inTx p)
   then modify (log_audit "LEDGER_POST_ENTRY") else ret tt) ;;
  ret result.

(** ** postInternalTransfer *)
Record Transferred := mkTransferred {
  tr_from : Transaction;
  tr_to : Transaction;
  tr_entry : JournalEntry;
  tr_replayed : bool;
}.

Definition transferBody (tenantId fromAccountId toAccountId : string) (amount : Z)
    (reference actorId description : string) : M Transferred :=
  let srcReference := reference +:+ "-SRC" in
  let dstReference := reference +:+ "-DST" in
  let* existingSrc := gets (fun w => txn_by_reference tenantId srcReference (db w)) in
  match existingSrc with
  | Some src =>
      let* existingDst := gets (fun w => txn_by_reference tenantId dstReference (db w)) in
      let* existingEntry := gets (fun w => je_by_transaction tenantId (txn_id src) (db w)) in
      match existingDst, existingEntry with
      | Some dst, Some e => ret (mkTransferred src dst e true)
      | _, _ => throw (Conflict ("Transfer " +:+ reference +:+ " exists partially"))
      end
  | None =>
      let* fromChange := applyBalanceChange tenantId fromAccountId amount DEBIT in
      let* toChange := applyBalanceChange tenantId toAccountId amount CREDIT in
      let* fromTransaction := transaction_create (mkTxnData tenantId fromAccountId None TRANSFER
        T_COMPLETED amount (balanceBefore fromChange) (balanceAfter fromChange) srcReference
        description actorId None) in
      let* toTransaction := transaction_create (mkTxnData tenantId toAccountId None TRANSFER
        T_COMPLETED amount (balanceBefore toChange) (balanceAfter toChange) dstReference
        description actorId (Some (txn_id fromTransaction))) in
      transaction_update (txn_id fromTransaction) (set_txn_link (txn_id toTransaction)) ;;
      let* codes := lift_result (resolveGlCodes (changeAccountType fromChange) JTRANSFER DEBIT
        (Some (changeAccountType toChange))) in
      let* pair := findGlAccountPair tenantId codes.1 codes.2 in
      let* entry := journal_create (mkJournalData tenantId ("JE-LEDGER-" +:+ reference)
        JTRANSFER description (txn_id fromTransaction) amount actorId
        "System-posted via LedgerService.postInternalTransfer()" None
        (mkGLPosting (gl_id pair.1) (gl_id pair.2) amount description)) in
      ret (mkTransferred (set_txn_link (txn_id toTransaction) fromTransaction)
             toTransaction entry false)
  end.

Definition postInternalTransfer (tenantId fromAccountId toAccountId : string) (amount : Q)
    (reference actorId : string) (description : option string) : M Transferred :=
  let amount := to_dp4 amount in
  positive_amount amount ;;
  throw_if (fromAccountId === toAccountId)
    (BadRequest "Cannot transfer an account to itself") ;;
  let* result := transaction (transferBody tenantId fromAccountId toAccountId amount reference
    actorId (default "Internal transfer" description)) in
  (if negb (tr_replayed result) then modify (log_audit "LEDGER_POST_ENTRY") else ret tt) ;;
  ret result.

(** ** reverseTransaction *)
Definition reverseTransactionBody (tenantId originalTransactionId reason actorId : string)
  : M (Transaction * JournalEntry) :=
  let* found := gets (fun w => txn_by_id tenantId originalTransactionId (db w)) in
  let* original := or_throw found
    (NotFound ("Transaction " +:+ originalTransactionId +:+ " not found in this tenant")) in
  throw_if (txn_status original === T_REVERSED)
    (Conflict ("Transaction " +:+ originalTransactionId +:+ " has already been reversed")) ;;
  let* foundEntry := gets (fun w => je_by_transaction tenantId (txn_id original) (db w)) in
  let* originalEntry := or_throw foundEntry
    (Conflict ("Transaction " +:+ originalTransactionId +:+ " has no linked journal entry")) in
  let* originalPosting := match je_postings originalEntry with
    | [p] => ret p
    | _ => throw (BadRequest "reverseTransaction: only single-posting entries (postEntry()) are supported")
    end in
  let* existingReversal := gets (fun w => je_reversal_of tenantId (je_id originalEntry) (db w)) in
  throw_if (bool_decide (is_Some existingReversal))
    (Conflict ("Journal entry " +:+ je_entryNumber originalEntry +:+ " has already been reversed")) ;;
  let amount := txn_amount original in
  let originalWasCredit := txn_balanceBefore original <=? txn_balanceAfter original in
  let reverseDirection := if originalWasCredit then DEBIT else CREDIT in
  let* change := applyBalanceChange tenantId (txn_accountId original) amount reverseDirection in
  let* reversal := transaction_create (mkTxnData tenantId (txn_accountId original) None REVERSAL
    T_COMPLETED amount (balanceBefore change) (balanceAfter change)
    (txn_reference original +:+ "-REVERSAL")
    ("Reversal of " +:+ txn_reference original +:+ ": " +:+ reason) actorId
    (Some (txn_id original))) in
  let* entry := journal_create (mkJournalData tenantId
    ("JE-REVERSAL-" +:+ txn_reference original) JREVERSAL
    ("Reversal of " +:+ je_entryNumber originalEntry +:+ ": " +:+ reason) (txn_id reversal)
    (je_totalAmount originalEntry) actorId
    ("System-posted via LedgerService.reverseTransaction() — " +:+ reason)
    (Some (je_id originalEntry))
    (mkGLPosting (post_creditAccountId originalPosting) (post_debitAccountId originalPosting)
       (post_amount originalPosting) ("Reversal: " +:+ post_description originalPosting))) in
  transaction_update (txn_id original) (set_txn_status T_REVERSED) ;;
  ret (reversal, entry).

Definition reverseTransaction (tenantId originalTransactionId reason : string)
    (reversedByUserId : option string) (inTx : bool) : M (Transaction * JournalEntry) :=
  let* actorId := actor_or_system tenantId reversedByUserId in
  let runBody := reverseTransactionBody tenantId originalTransactionId reason actorId in
  let* result := if inTx then runBody else transaction runBody in
  (if inTx then ret tt else modify (log_audit "LEDGER_REVERSE_TRANSACTION")) ;;
  ret result.

(** ** General-ledger-only postings *)
Definition leg_credit_code (leg : Leg) : string :=
  match leg with
  | LEG_PENALTY => GL_CODES.PENALTY_INCOME
  | LEG_INTEREST => GL_CODES.INTEREST_INCOME
  | LEG_PRINCIPAL => GL_CODES.LOAN_RECEIVABLE
  end.

Definition postGlOnlyLegEntry (tenantId reference : string) (leg : Leg) (amount : Q)
    (debitCode transactionId : string) (actorId : option string)
    (description approvalNotes : string) (journalType : option JournalEntryType)
  : M (JournalEntry * bool) :=
  let journalType := default JLOAN_REPAYMENT journalType in
  let* actorId := actor_or_system tenantId actorId in
  let amount := to_dp4 amount in
  positive_amount amount ;;
  let entryNumber := "JE-LEDGER-" +:+ reference in
  let* existing := gets (fun w => je_by_number tenantId entryNumber (db w)) in
  match existing with
  | Some e => ret (e, true)
  | None =>
      let* pair := findGlAccountPair tenantId debitCode (leg_credit_code leg) in
      let* entry := journal_create (mkJournalData tenantId entryNumber journalType description
        transactionId amount actorId approvalNotes None
        (mkGLPosting (gl_id pair.1) (gl_id pair.2) amount description)) in
      ret (entry, false)
  end.

Definition leg_name (leg : Leg) : string :=
  match leg with LEG_PENALTY => "penalty" | LEG_INTEREST => "interest" | LEG_PRINCIPAL => "principal" end.

Definition postLoanRepaymentLegEntry (tenantId reference : string) (leg : Leg) (amount : Q)
    (transactionId actorId : string) (description : option string) : M (JournalEntry * bool) :=
  postGlOnlyLegEntry tenantId reference leg amount GL_CODES.CASH transactionId (Some actorId)
    (default ("Loan repayment — " +:+ leg_name leg +:+ " allocation") description)
    "System-posted via LedgerService.postLoanRepaymentLegEntry()" None.

Definition postAccountSourcedRepaymentLegEntry (tenantId reference : string) (leg : Leg)
    (amount : Q) (accountType : AccountType) (transactionId actorId : string)
    (description : option string) : M (JournalEntry * bool) :=
  postGlOnlyLegEntry tenantId reference leg amount (memberDepositsCode accountType)
    transactionId (Some actorId)
    (default ("Loan repayment (FOSA-sourced) — " +:+ leg_name leg +:+ " allocation") description)
    "System-posted via LedgerService.postAccountSourcedRepaymentLegEntry()" None.

Definition postGuarantorForfeitureEntry (tenantId reference : string) (amount : Q)
    (accountType : AccountType) (transactionId : string) (actorId description : option string)
  : M (JournalEntry * bool) :=
  postGlOnlyLegEntry tenantId reference LEG_PRINCIPAL amount (memberDepositsCode accountType)
    transactionId actorId
    (default "Guarantor default offset — savings forfeited to cover defaulted loan" description)
    "System-posted via LedgerService.postGuarantorForfeitureEntry()" None.

Definition postInterestAccrualEntry (tenantId reference : string) (amount : Q)
    (accountType : AccountType) (transactionId : string) (actorId description : option string)
  : M (JournalEntry * bool) :=
  postGlOnlyLegEntry tenantId reference LEG_INTEREST amount (memberDepositsCode accountType)
    transactionId actorId
    (default "Interest accrual — charged against FOSA/BOSA balance" description)
    "System-posted via LedgerService.postInterestAccrualEntry()" (Some JINTEREST_ACCRUAL).

Definition postPenaltyDeductionEntry (tenantId reference : string) (amount : Q)
    (accountType : AccountType) (transactionId : string) (actorId description : option string)
  : M (JournalEntry * bool) :=
  postGlOnlyLegEntry tenantId reference LEG_PENALTY amount (memberDepositsCode accountType)
    transactionId actorId
    (default "Penalty accrual — charged against FOSA/BOSA balance" description)
    "System-posted via LedgerService.postPenaltyDeductionEntry()" None.

Definition postPenaltyReceivableEntry (tenantId reference : string) (amount : Q)
    (transactionId : string) (actorId description : option string) : M (JournalEntry * bool) :=
  postGlOnlyLegEntry tenantId reference LEG_PENALTY amount GL_CODES.LOAN_RECEIVABLE
    transactionId actorId
    (default "Penalty accrued on overdue installment (not yet collected)" description)
    "System-posted via LedgerService.postPenaltyReceivableEntry()" None.

End Posting.
