(* ===== verification/LedgerFacts.v ===== *)
(** * LedgerFacts: what each ledger operation does to the tables

    Inversion lemmas for the table operations and LedgerService's helpers
    (what a successful run read, checked and wrote), and the accounting lemmas
    on sums of balances and postings the properties are built from. *)
From S2P Require Import Prelude Money Schema Ledger.

(** ** Table operations *)
Section Tables.
Context `{UuidSource}.

Lemma existsb_id_false {A} (f : A -> string) id (l : list A) :
  existsb (fun x => f x === id) l = false -> id ∉ (f <$> l).
Proof.
  intros Hf Hin. apply list_elem_of_fmap in Hin as (x & -> & Hin).
  assert (existsb (fun y => f y === f x) l = true) as E; [|congruence].
  apply existsb_exists. exists x. rewrite <- list_elem_of_In.
  split; [done|]. by apply bool_decide_eq_true.
Qed.

Lemma transaction_create_Ok td w row w' :
  transaction_create td w = (Ok row, w') ->
  row = txn_of_data (uuid (nextUuid w)) (clock w) td /\
  txn_fits td = true /\
  txn_by_reference (td_tenantId td) (td_reference td) (db w) = None /\
  (uuid (nextUuid w) ∉ (txn_id <$> transactions (db w))) /\
  is_Some (accounts (db w) !! td_accountId td) /\
  w' = with_db (fun d => set_transactions (transactions d ++ [row]) d) (bump_uuid w).
Proof.
  unfold transaction_create. intros Hr. apply bind_Ok in Hr as (id & w1 & Hid & Hr).
  injection Hid as <- <-. run_inv. reflect. split_and!; try done.
  - by apply eq_None_not_Some.
  - by apply existsb_id_false.
  - by apply not_eq_None_Some.
Qed.

Lemma journal_create_Ok jd w row w' :
  journal_create jd w = (Ok row, w') ->
  row = je_of_data (uuid (nextUuid w)) (clock w) jd /\
  je_by_number (jd_tenantId jd) (jd_entryNumber jd) (db w) = None /\
  user_exists (jd_actorId jd) (db w) = true /\
  w' = with_db (fun d => set_journalEntries (journalEntries d ++ [row]) d) (bump_uuid w).
Proof.
  unfold journal_create. intros Hr. apply bind_Ok in Hr as (id & w1 & Hid & Hr).
  injection Hid as <- <-. run_inv. reflect. split_and!; try done.
  by apply eq_None_not_Some.
Qed.

Lemma transaction_update_Ok id f w u w' :
  transaction_update id f w = (Ok u, w') ->
  w' = with_db (fun d => set_transactions
         (update_where (fun t => txn_id t === id) f (transactions d)) d) w.
Proof. unfold transaction_update. intros Hr. by run_inv. Qed.

Lemma account_updateMany_Ok id cond f w n w' :
  account_updateMany id cond f w = (Ok n, w') ->
  (n = 0%nat /\ w' = w) \/
  (exists a, n = 1%nat /\ accounts (db w) !! id = Some a /\ cond a = true /\
     account_fits (f a) = true /\
     w' = with_db (set_accounts (<[id := f a]> (accounts (db w)))) w).
Proof.
  unfold account_updateMany. destruct (accounts (db w) !! id) as [a|] eqn:E.
  - destruct (cond a) eqn:Ec; [destruct (account_fits (f a)) eqn:Ef|]; intros Hr;
      try discriminate; injection Hr as <- <-; naive_solver.
  - intros Hr. injection Hr as <- <-. by left.
Qed.

Lemma account_updateMany_hit id cond f w n w' a :
  account_updateMany id cond f w = (Ok n, w') -> accounts (db w) !! id = Some a -> cond a = true ->
  n = 1%nat /\ w' = with_db (set_accounts (<[id := f a]> (accounts (db w)))) w.
Proof.
  unfold account_updateMany. intros Hr Ha Hc. rewrite Ha, Hc in Hr. destruct (account_fits (f a)); [|done].
  by injection Hr as <- <-.
Qed.

Lemma active_account_Some t id d a :
  active_account t id d = Some a <->
  accounts d !! id = Some a /\ acc_tenantId a = t /\ acc_isActive a = true.
Proof.
  unfold active_account. destruct (accounts d !! id) as [b|]; [|naive_solver].
  destruct (_ && _) eqn:E; reflect; [naive_solver|].
  split; [done|]. intros (Hb & Ht & Ha). injection Hb as ->. by destruct E; [|congruence].
Qed.

Definition signed (dir : Direction) (amount : Z) : Z :=
  match dir with CREDIT => amount | DEBIT => - amount end.

(** A successful balance change: the account was active, a debit left the
    floor standing, and only this account's balance and version moved. *)
Lemma applyBalanceChange_Ok t id amount dir w ch w' :
  applyBalanceChange t id amount dir w = (Ok ch, w') ->
  exists a, active_account t id (db w) = Some a /\
    (dir = DEBIT -> debit_floor a amount <= acc_balance a) /\
    ch = mkBalanceChange (acc_balance a) (acc_balance a + signed dir amount) (acc_accountType a) /\
    account_fits (set_balance (acc_balance a + signed dir amount) (acc_version a + 1) a) = true /\
    w' = with_db (set_accounts
           (<[id := set_balance (acc_balance a + signed dir amount) (acc_version a + 1) a]>
              (accounts (db w)))) w.
Proof.
  unfold applyBalanceChange. intros Hr. run_inv.
  apply active_account_Some in Hsome as (Hl & Ht & Ha).
  inv_call account_updateMany_Ok as [[-> ->]|(b & -> & Hb & Hc & Hf & ->)].
  { discriminate. }
  assert (b = r0) as -> by congruence. reflect.
  exists r0. split_and!; try done.
  - by apply active_account_Some.
  - intros ->. by reflect.
Qed.

Lemma applyBalanceChange_run t id amount dir w a :
  active_account t id (db w) = Some a ->
  (dir = DEBIT -> debit_floor a amount <= acc_balance a) ->
  account_fits (set_balance (acc_balance a + signed dir amount) (acc_version a + 1) a) = true ->
  applyBalanceChange t id amount dir w =
    (Ok (mkBalanceChange (acc_balance a) (acc_balance a + signed dir amount) (acc_accountType a)),
     with_db (set_accounts
           (<[id := set_balance (acc_balance a + signed dir amount) (acc_version a + 1) a]>
              (accounts (db w)))) w).
Proof.
  intros Ha Hfl Hf. unfold applyBalanceChange. unfold bind, gets. rewrite Ha. cbn.
  apply active_account_Some in Ha as (Hl & Ht & Hact).
  unfold account_updateMany. rewrite Hl. cbn beta. rewrite Ht, Hact, same_refl. cbn [andb].
  destruct dir; cbn [signed] in *; [|by rewrite Hf].
  apply Z.leb_le in Hfl as ->; [by rewrite Hf|done].
Qed.
End Tables.

(** ** The chart of accounts *)
Definition find_gl (t code : string) (d : DB) : option GLAccount :=
  List.find (fun g => (gl_tenantId g === t) && (gl_code g === code) && gl_isActive g)
    (glAccounts d).

Lemma find_filter {A} (P Q : A -> bool) (l : list A) :
  List.find P (List.filter Q l) = List.find (fun x => Q x && P x) l.
Proof.
  induction l as [|x l IH]; cbn; [done|]. destruct (Q x); cbn; [destruct (P x)|]; done.
Qed.

Lemma find_update_where {A} (P Q : A -> bool) f (l : list A) :
  (forall x, P (f x) = P x) ->
  List.find P (update_where Q f l) = (fun x => if Q x then f x else x) <$> List.find P l.
Proof.
  intros HP. induction l as [|x l IH]; [done|]. csimpl.
  assert (P (if Q x then f x else x) = P x) as -> by (destruct (Q x); auto).
  by destruct (P x).
Qed.

Lemma find_ext {A} (P Q : A -> bool) (l : list A) :
  (forall x, P x = Q x) -> List.find P l = List.find Q l.
Proof. intros HPQ. induction l as [|x l IH]; cbn; [done|]. by rewrite HPQ, IH. Qed.

Lemma findGlAccountPair_Ok t dc cc w p w' :
  findGlAccountPair t dc cc w = (Ok p, w') ->
  find_gl t dc (db w) = Some p.1 /\ find_gl t cc (db w) = Some p.2 /\ w' = w.
Proof.
  unfold findGlAccountPair. intros Hr. run_inv. rewrite !find_filter in Hrun0.
  rewrite (find_ext _ (fun g => (gl_tenantId g === t) && (gl_code g === dc) && gl_isActive g))
    in Hrun0.
  2: { intros x. destruct (gl_tenantId x === t), (gl_isActive x), (gl_code x === dc),
        (gl_code x === cc); done. }
  rewrite (find_ext (fun x => _ && (gl_code x === cc))
    (fun g => (gl_tenantId g === t) && (gl_code g === cc) && gl_isActive g)) in Hrun0.
  2: { intros x. destruct (gl_tenantId x === t), (gl_isActive x), (gl_code x === dc),
        (gl_code x === cc); done. }
  unfold find_gl. destruct (List.find _ _) as [g1|]; [|discriminate].
  destruct (List.find _ _) as [g2|]; [|discriminate]. by injection Hrun0 as <- <-.
Qed.

Lemma find_gl_props t code d g :
  find_gl t code d = Some g -> g ∈ glAccounts d /\ gl_tenantId g = t /\ gl_code g = code.
Proof. unfold find_gl. intros H. apply find_some_elem in H as [Hin HP]. by reflect. Qed.

(** With unique row ids, a GL account id names one tenant and one code. *)
Lemma gl_id_inj d g1 g2 :
  NoDup (gl_id <$> glAccounts d) -> g1 ∈ glAccounts d -> g2 ∈ glAccounts d ->
  gl_id g1 = gl_id g2 -> g1 = g2.
Proof. apply NoDup_key_inj. Qed.

(** ** Postings and deposits *)
Definition posting_net (gid : string) (p : GLPosting) : Z :=
  (if post_creditAccountId p === gid then post_amount p else 0)
  - (if post_debitAccountId p === gid then post_amount p else 0).

Definition entry_net (gid : string) (e : JournalEntry) : Z :=
  sum_by (posting_net gid) (je_postings e).

(** Credits minus debits of one GL account over the whole journal. *)
Definition gl_net (gid : string) (d : DB) : Z :=
  sum_by (entry_net gid) (journalEntries d).

Definition deposit_of (t : string) (T : AccountType) (a : Account) : Z :=
  if (acc_tenantId a === t) && (acc_accountType a === T) then acc_balance a else 0.

(** What a tenant owes its members on accounts of one type. *)
Definition deposits (t : string) (T : AccountType) (d : DB) : Z :=
  map_sum (deposit_of t T) (accounts d).

(** The general ledger carries exactly the members' deposits. *)
Definition gl_backed (d : DB) : Prop :=
  forall t T g, find_gl t (memberDepositsCode T) d = Some g ->
    gl_net (gl_id g) d = deposits t T d.

(** Replacing an account row by one of the same owner and type moves the
    deposits by the balance's change. *)
Lemma deposits_insert t T d id a a' :
  accounts d !! id = Some a ->
  acc_tenantId a' = acc_tenantId a -> acc_accountType a' = acc_accountType a ->
  map_sum (deposit_of t T) (<[id := a']> (accounts d)) =
  deposits t T d + (if (acc_tenantId a === t) && (acc_accountType a === T)
                    then acc_balance a' - acc_balance a else 0).
Proof.
  intros Ha Ht HT. rewrite (map_sum_replace _ _ _ a) by done.
  unfold deposits, deposit_of. rewrite Ht, HT. destruct (_ && _); lia.
Qed.

(** The effect of one posting on the deposit accounts of the ledger: [eff t T]
    for the account type [T] of tenant [t]. *)
Definition deposit_effect (d : DB) (p : GLPosting) (eff : string -> AccountType -> Z) : Prop :=
  forall t T g, find_gl t (memberDepositsCode T) d = Some g -> posting_net (gl_id g) p = eff t T.

Definition code_effect (dc cc code : string) (amount : Z) : Z :=
  (if cc === code then amount else 0) - (if dc === code then amount else 0).

Lemma memberDepositsCode_inj T1 T2 : memberDepositsCode T1 = memberDepositsCode T2 -> T1 = T2.
Proof. by destruct T1, T2. Qed.

(** Two resolved GL accounts coincide exactly when tenant and code do. *)
Lemma find_gl_id_eqb d t1 c1 t2 c2 g1 g2 :
  NoDup (gl_id <$> glAccounts d) ->
  find_gl t1 c1 d = Some g1 -> find_gl t2 c2 d = Some g2 ->
  (gl_id g1 === gl_id g2) = (t1 === t2) && (c1 === c2).
Proof.
  intros Hnd H1 H2.
  destruct ((t1 === t2) && (c1 === c2)) eqn:E; reflect.
  - subst. assert (g1 = g2) as -> by congruence. done.
  - intros Heq. apply find_gl_props in H1 as (Hi1 & <- & <-).
    apply find_gl_props in H2 as (Hi2 & <- & <-).
    rewrite (gl_id_inj d g1 g2) in E by done. naive_solver.
Qed.

(** The effect of a posting between two resolved GL accounts, by code. *)
Lemma pair_effect d tn dc cc p1 p2 amount descr :
  NoDup (gl_id <$> glAccounts d) ->
  find_gl tn dc d = Some p1 -> find_gl tn cc d = Some p2 ->
  deposit_effect d (mkGLPosting (gl_id p1) (gl_id p2) amount descr)
    (fun t T => if tn === t then code_effect dc cc (memberDepositsCode T) amount else 0).
Proof.
  intros Hnd H1 H2 t T g Hg. unfold posting_net, code_effect. cbn [post_creditAccountId
    post_debitAccountId post_amount].
  rewrite (find_gl_id_eqb d tn dc t (memberDepositsCode T) p1 g) by done.
  rewrite (find_gl_id_eqb d tn cc t (memberDepositsCode T) p2 g) by done.
  by destruct (tn === t).
Qed.

Lemma gl_net_app gid d e :
  sum_by (entry_net gid) (journalEntries d ++ [e]) = gl_net gid d + entry_net gid e.
Proof. unfold gl_net. rewrite sum_by_app. cbn. lia. Qed.

Lemma entry_net_single gid e p : je_postings e = [p] -> entry_net gid e = posting_net gid p.
Proof. unfold entry_net. intros ->. cbn. lia. Qed.

(** A step that moves deposits and appends one entry keeps the ledger backed
    when the entry's effect is the deposits' change. *)
Lemma gl_backed_step d d' e p eff :
  gl_backed d -> glAccounts d' = glAccounts d ->
  journalEntries d' = journalEntries d ++ [e] -> je_postings e = [p] ->
  deposit_effect d p eff ->
  (forall t T, deposits t T d' = deposits t T d + eff t T) ->
  gl_backed d'.
Proof.
  intros Hb Hg Hj He Heff Hd t T g Hf.
  assert (find_gl t (memberDepositsCode T) d = Some g) as Hf'
    by (unfold find_gl in *; by rewrite Hg in Hf).
  unfold gl_net. rewrite Hj, gl_net_app, (entry_net_single _ _ p) by done.
  rewrite (Heff t T g), (Hb t T g), Hd by done. done.
Qed.

Lemma gl_backed_frame d d' :
  gl_backed d -> glAccounts d' = glAccounts d -> journalEntries d' = journalEntries d ->
  (forall t T, deposits t T d' = deposits t T d) -> gl_backed d'.
Proof.
  intros Hb Hg Hj Hd t T g Hf. unfold find_gl, gl_net in *. rewrite Hg in Hf. rewrite Hj, Hd.
  by apply Hb.
Qed.

(** ** Which postings a journal type makes *)

(** The direction each single-account journal type is posted in. *)
Definition natural_direction (j : JournalEntryType) : option Direction :=
  match j with
  | JDEPOSIT | MPESA_DEPOSIT | JLOAN_DISBURSEMENT => Some CREDIT
  | JWITHDRAWAL | JFEE_CHARGE => Some DEBIT
  | _ => None
  end.

Ltac decide_codes :=
  unfold code_effect; cbn [fst snd memberDepositsCode signed];
  repeat case_bool_decide; try congruence; try discriminate; lia.

Lemma resolveGlCodes_effect T0 j dir codes amount T :
  resolveGlCodes T0 j dir None = Ok codes -> natural_direction j = Some dir ->
  code_effect codes.1 codes.2 (memberDepositsCode T) amount =
  if T0 === T then signed dir amount else 0.
Proof.
  intros Hc Hn. destruct j; try discriminate Hc; injection Hc as <-;
    injection Hn as <-; destruct T0, T; decide_codes.
Qed.

Lemma resolveGlCodes_transfer T1 T2 codes amount T :
  resolveGlCodes T1 JTRANSFER DEBIT (Some T2) = Ok codes ->
  code_effect codes.1 codes.2 (memberDepositsCode T) amount =
  (if T1 === T then - amount else 0) + (if T2 === T then amount else 0).
Proof. intros Hc. injection Hc as <-. destruct T1, T2, T; decide_codes. Qed.

Lemma lift_result_Ok {A} (r : result A) a (w w' : World) :
  lift_result r w = (Ok a, w') <-> r = Ok a /\ w' = w.
Proof. destruct r; unfold lift_result, ret, throw; naive_solver. Qed.
