(* ===== verification/LedgerInv.v ===== *)
(** * LedgerInv: the ledger invariant and the operations that keep it

    [ledger_ok] says that row ids are unique, that every journal entry refers
    to a transaction row, that the general ledger carries exactly the members'
    deposits, and that the entry of a single-account posting moves the ledger
    the way the posting moved the account, which is what makes the posting
    reversible.  The lemmas show how a step that appends rows keeps it. *)
From S2P Require Import Prelude Money Schema Ledger LedgerFacts.

(** Transaction types that postEntry and reverseTransaction write. *)
Definition single_account_type (ty : TransactionType) : bool :=
  match ty with
  | DEPOSIT | WITHDRAWAL | FEE_CHARGE | LOAN_DISBURSEMENT | REVERSAL => true
  | _ => false
  end.

(** What the invariant looks at in a transaction row: everything but its
    status and its link. *)
Record TxnCore := mkCore {
  core_id : string; core_tenant : string; core_account : string;
  core_type : TransactionType; core_amount : Z; core_before : Z; core_after : Z;
}.
Definition txn_core (t : Transaction) : TxnCore :=
  mkCore (txn_id t) (txn_tenantId t) (txn_accountId t) (txn_type t) (txn_amount t)
    (txn_balanceBefore t) (txn_balanceAfter t).

(** [e] carries the posting of [t]: one positive amount moved one account, and
    the ledger effect is that movement. *)
Definition coherent (d : DB) (c : TxnCore) (e : JournalEntry) : Prop :=
  exists a p dir,
    accounts d !! core_account c = Some a /\ acc_tenantId a = core_tenant c /\
    je_postings e = [p] /\ 0 < core_amount c /\
    core_after c = core_before c + signed dir (core_amount c) /\
    deposit_effect d p (fun t T =>
      if (acc_tenantId a === t) && (acc_accountType a === T)
      then signed dir (core_amount c) else 0).

Record ledger_ok (d : DB) : Prop := {
  ok_gl_ids : NoDup (gl_id <$> glAccounts d);
  ok_txn_ids : NoDup (txn_id <$> transactions d);
  ok_backed : gl_backed d;
  ok_refs : forall e, e ∈ journalEntries d -> je_referenceId e ∈ (txn_id <$> transactions d);
  ok_pairs : forall t e, t ∈ transactions d -> e ∈ journalEntries d ->
    je_referenceId e = txn_id t -> single_account_type (txn_type t) = true ->
    coherent d (txn_core t) e;
}.

(** Accounts may change balance, never owner or type. *)
Definition same_kinds (d d' : DB) : Prop :=
  forall id a, accounts d !! id = Some a ->
    exists a', accounts d' !! id = Some a' /\
      acc_tenantId a' = acc_tenantId a /\ acc_accountType a' = acc_accountType a.

Lemma same_kinds_refl d : same_kinds d d.
Proof. intros id a Ha. eauto. Qed.

Lemma same_kinds_trans d1 d2 d3 : same_kinds d1 d2 -> same_kinds d2 d3 -> same_kinds d1 d3.
Proof.
  intros H1 H2 id a Ha. destruct (H1 id a Ha) as (b & Hb & Ht & HT).
  destruct (H2 id b Hb) as (c & Hc & Ht' & HT'). exists c. split_and!; congruence.
Qed.

Lemma same_kinds_insert d id a a' :
  accounts d !! id = Some a -> acc_tenantId a' = acc_tenantId a ->
  acc_accountType a' = acc_accountType a ->
  same_kinds d (set_accounts (<[id := a']> (accounts d)) d).
Proof.
  intros Ha Ht HT k b Hb. cbn. destruct (decide (id = k)) as [<-|Hne].
  - exists a'. rewrite lookup_insert_eq. split_and!; congruence.
  - exists b. by rewrite lookup_insert_ne.
Qed.

Lemma coherent_mono d d' c e :
  same_kinds d d' -> glAccounts d' = glAccounts d -> coherent d c e -> coherent d' c e.
Proof.
  intros Hk Hg (a & p & dir & Ha & Ht & Hp & Hpos & Haft & Heff).
  destruct (Hk _ _ Ha) as (a' & Ha' & Ht' & HT'). exists a', p, dir.
  split_and!; try done; [congruence|].
  intros t T g Hfg. rewrite Ht', HT'. apply Heff. unfold find_gl in *. by rewrite <- Hg.
Qed.

(** Appending transaction rows [ts] and one journal entry. *)
Record extends (d d' : DB) (ts : list Transaction) (e : JournalEntry) (p : GLPosting)
    (eff : string -> AccountType -> Z) : Prop := {
  ext_gl : glAccounts d' = glAccounts d;
  ext_kinds : same_kinds d d';
  ext_txns : txn_core <$> transactions d' = (txn_core <$> transactions d) ++ (txn_core <$> ts);
  ext_fresh : forall t, t ∈ ts -> txn_id t ∉ (txn_id <$> transactions d);
  ext_ids : NoDup (txn_id <$> ts);
  ext_entries : journalEntries d' = journalEntries d ++ [e];
  ext_posting : je_postings e = [p];
  ext_ref : je_referenceId e ∈ (txn_id <$> ts);
  ext_effect : deposit_effect d p eff;
  ext_deposits : forall t T, deposits t T d' = deposits t T d + eff t T;
  ext_coherent : forall t, t ∈ ts -> txn_id t = je_referenceId e ->
    single_account_type (txn_type t) = true -> coherent d' (txn_core t) e;
}.

Lemma txn_ids_of_cores (l1 l2 : list Transaction) :
  txn_core <$> l1 = txn_core <$> l2 -> txn_id <$> l1 = txn_id <$> l2.
Proof.
  intros H. assert (forall l : list Transaction, txn_id <$> l = core_id <$> (txn_core <$> l)) as E.
  { intros l. by rewrite <- list_fmap_compose. }
  by rewrite (E l1), (E l2), H.
Qed.

Lemma ledger_ok_extends d d' ts e p eff :
  ledger_ok d -> extends d d' ts e p eff -> ledger_ok d'.
Proof.
  intros [Hgl Hids Hb Hrefs Hpairs] [Eg Ek Et Ef Ei Ee Ep Er Eeff Ed Ec].
  rewrite <- fmap_app in Et. pose proof (txn_ids_of_cores _ _ Et) as Eids.
  rewrite fmap_app in Eids.
  assert (forall t', t' ∈ transactions d' ->
    exists t, t ∈ transactions d ++ ts /\ txn_core t = txn_core t') as Hcore.
  { intros t' Ht'. assert (txn_core t' ∈ txn_core <$> transactions d') as H.
    { by apply list_elem_of_fmap_2. }
    rewrite Et in H. apply list_elem_of_fmap in H as (t & Heq & Hin). by exists t. }
  split.
  - by rewrite Eg.
  - rewrite Eids. apply NoDup_app. split_and!; try done.
    intros x Hx Hy. apply list_elem_of_fmap in Hy as (t & -> & Hy). by apply (Ef t).
  - by eapply gl_backed_step.
  - intros e0 He0. rewrite Eids. rewrite Ee in He0. set_solver.
  - intros t' e0 Ht' He0 Href Hty.
    destruct (Hcore t' Ht') as (t & Hin & Heq). rewrite <- Heq.
    assert (txn_id t = txn_id t' /\ txn_type t = txn_type t') as [Hidt Htyt]
      by (unfold txn_core in Heq; by injection Heq).
    rewrite Ee in He0. apply elem_of_app in Hin as [Hin|Hin].
    + apply elem_of_app in He0 as [He0|He0%list_elem_of_singleton].
      * eapply coherent_mono; [done..|]. apply Hpairs; congruence.
      * subst e0. apply list_elem_of_fmap in Er as (t2 & Heq2 & Ht2).
        exfalso. apply (Ef t2 Ht2). apply list_elem_of_fmap. exists t.
        split; [congruence|done].
    + apply elem_of_app in He0 as [He0|He0%list_elem_of_singleton].
      * exfalso. apply (Ef t Hin). apply Hrefs in He0. congruence.
      * subst e0. apply Ec; congruence.
Qed.

(** The database after account [id] became [a'], with new transaction rows and
    one new journal entry. *)
Definition posted_db (id : string) (a' : Account) (ts : list Transaction) (e : JournalEntry)
    (d : DB) : DB :=
  set_journalEntries (journalEntries d ++ [e])
    (set_transactions (transactions d ++ ts) (set_accounts (<[id := a']> (accounts d)) d)).

(** The ledger effect of moving one account by [delta]. *)
Definition account_effect (a : Account) (delta : Z) : string -> AccountType -> Z :=
  fun t T => if (acc_tenantId a === t) && (acc_accountType a === T) then delta else 0.

(** One account moves by the amount its transaction row says, and the entry
    that refers to the row has that effect. *)
Lemma extends_single d id a a' t e p dir :
  accounts d !! id = Some a ->
  acc_tenantId a' = acc_tenantId a -> acc_accountType a' = acc_accountType a ->
  acc_balance a' = acc_balance a + signed dir (txn_amount t) ->
  txn_accountId t = id -> txn_tenantId t = acc_tenantId a -> 0 < txn_amount t ->
  txn_balanceAfter t = txn_balanceBefore t + signed dir (txn_amount t) ->
  (txn_id t ∉ (txn_id <$> transactions d)) ->
  je_postings e = [p] -> je_referenceId e = txn_id t ->
  deposit_effect d p (account_effect a (signed dir (txn_amount t))) ->
  extends d (posted_db id a' [t] e d) [t] e p (account_effect a (signed dir (txn_amount t))).
Proof.
  intros Ha Ht HT Hb Hid Htn Hpos Haft Hfresh Hp Hr Heff.
  assert (same_kinds d (posted_db id a' [t] e d)) as Hk by (by eapply same_kinds_insert).
  split; try done.
  - cbn. by rewrite fmap_app.
  - intros t0 ->%list_elem_of_singleton. done.
  - apply NoDup_singleton.
  - rewrite Hr. cbn. set_solver.
  - intros t' T. unfold deposits at 1. cbn. rewrite (deposits_insert _ _ _ _ a) by done.
    unfold account_effect. destruct (_ && _); lia.
  - intros t0 ->%list_elem_of_singleton _ _. exists a', p, dir. cbn. rewrite Ht, HT.
    split_and!; try done. rewrite Hid. apply lookup_insert_eq.
Qed.

(** Rewriting rows without touching their cores, and other tables, keeps it. *)
Lemma ledger_ok_frame d d' :
  ledger_ok d -> glAccounts d' = glAccounts d -> journalEntries d' = journalEntries d ->
  accounts d' = accounts d -> txn_core <$> transactions d' = txn_core <$> transactions d ->
  ledger_ok d'.
Proof.
  intros [Hgl Hids Hb Hrefs Hpairs] Eg Ej Ea Et.
  pose proof (txn_ids_of_cores _ _ Et) as Eids. split.
  - by rewrite Eg.
  - by rewrite Eids.
  - eapply gl_backed_frame; try done. intros. unfold deposits. by rewrite Ea.
  - rewrite Ej, Eids. done.
  - intros t e Ht He Href Hty. rewrite Ej in He.
    assert (txn_core t ∈ txn_core <$> transactions d) as H.
    { rewrite <- Et. by apply list_elem_of_fmap_2. }
    apply list_elem_of_fmap in H as (t0 & Heq & Hin). rewrite Heq.
    unfold txn_core in Heq. injection Heq as H1 H2 H3 H4 H5 H6 H7.
    apply (coherent_mono d); [intros id a; rewrite Ea; eauto|done|].
    apply Hpairs; congruence.
Qed.

(** Changing an account's row but not its owner, type or balance keeps it. *)
Lemma ledger_ok_same_balance d id a a' :
  ledger_ok d -> accounts d !! id = Some a -> acc_tenantId a' = acc_tenantId a ->
  acc_accountType a' = acc_accountType a -> acc_balance a' = acc_balance a ->
  ledger_ok (set_accounts (<[id := a']> (accounts d)) d).
Proof.
  intros [Hgl Hids Hb Hrefs Hpairs] Ha Ht HT Hbal. split; try done.
  - eapply gl_backed_frame; try done. intros t T. unfold deposits at 1. cbn.
    rewrite (deposits_insert t T _ _ a) by done. destruct (_ && _); lia.
  - intros t e Ht0 He Href Hty. apply (coherent_mono d); [by eapply same_kinds_insert|done|]. by apply Hpairs.
Qed.

Lemma ledger_ok_refreeze d id a f v :
  ledger_ok d -> accounts d !! id = Some a ->
  ledger_ok (set_accounts (<[id := set_frozen f v a]> (accounts d)) d).
Proof. intros. by apply (ledger_ok_same_balance d id a). Qed.

Lemma update_where_core P f (l : list Transaction) :
  (forall t, txn_core (f t) = txn_core t) ->
  txn_core <$> update_where P f l = txn_core <$> l.
Proof.
  intros Hf. unfold update_where. rewrite <- list_fmap_compose. apply list_fmap_ext.
  intros i t _. cbn. destruct (P t); auto.
Qed.

Lemma set_txn_status_core s t : txn_core (set_txn_status s t) = txn_core t.
Proof. done. Qed.
Lemma set_txn_link_core l t : txn_core (set_txn_link l t) = txn_core t.
Proof. done. Qed.

#[export] Hint Resolve same_kinds_refl set_txn_status_core set_txn_link_core : sacco.
