(* ===== verification/LedgerProps.v ===== *)
(** * LedgerProps: properties of LedgerService *)
From S2P Require Import Prelude Money Schema Ledger LedgerFacts LedgerInv.

(** ** Specifications of the bodies *)

(** The account after a change of [delta]. *)
Definition moved (a : Account) (delta : Z) : Account :=
  set_balance (acc_balance a + delta) (acc_version a + 1) a.

(** A balance change that went through: the account it found, and the guards
    that held. *)
Definition change_allowed (t id : string) (amount : Z) (dir : Direction) (d : DB) (a : Account)
  : Prop :=
  active_account t id d = Some a /\
  (dir = DEBIT -> debit_floor a amount <= acc_balance a) /\
  account_fits (moved a (signed dir amount)) = true.

Section Specs.
Context `{UuidSource}.

(** What a fresh posting did, in full. *)
Definition fresh_posting (t ref : string) (j : JournalEntryType) (id : string) (amount : Z)
    (dir : Direction) (actor descr : string) (link loan : option string)
    (w : World) (r : Posted) (w' : World) : Prop :=
  exists a ty codes p1 p2,
    txn_by_reference t ref (db w) = None /\
    change_allowed t id amount dir (db w) a /\
    JOURNAL_TO_TRANSACTION_TYPE j = Some ty /\
    resolveGlCodes (acc_accountType a) j dir None = Ok codes /\
    find_gl t codes.1 (db w) = Some p1 /\ find_gl t codes.2 (db w) = Some p2 /\
    (uuid (nextUuid w) ∉ (txn_id <$> transactions (db w))) /\
    user_exists actor (db w) = true /\
    je_by_number t ("JE-LEDGER-" +:+ ref) (db w) = None /\
    let txn := txn_of_data (uuid (nextUuid w)) (clock w)
      (mkTxnData t id loan ty T_COMPLETED amount (acc_balance a)
         (acc_balance a + signed dir amount) ref descr actor link) in
    let entry := je_of_data (uuid (N.succ (nextUuid w))) (clock w)
      (mkJournalData t ("JE-LEDGER-" +:+ ref) j descr (txn_id txn) amount actor
         "System-posted via LedgerService.postEntry()" None
         (mkGLPosting (gl_id p1) (gl_id p2) amount descr)) in
    r = mkPosted txn entry false /\
    w' = with_db (posted_db id (moved a (signed dir amount)) [txn] entry)
           (bump_uuid (bump_uuid w)).

(** A replay hands back the stored rows and writes nothing. *)
Definition replayed_posting (t ref : string) (w : World) (r : Posted) (w' : World) : Prop :=
  posted_replayed r = true /\ w' = w /\
  txn_by_reference t ref (db w) = Some (posted_transaction r) /\
  je_by_transaction t (txn_id (posted_transaction r)) (db w) = Some (posted_journalEntry r).

Lemma postEntryBody_Ok t ref j id amount dir actor descr link loan w r w' :
  postEntryBody t ref j id amount dir actor descr link loan w = (Ok r, w') ->
  replayed_posting t ref w r w' \/
  fresh_posting t ref j id amount dir actor descr link loan w r w'.
Proof.
  unfold postEntryBody. intros Hr. run_inv.
  destruct (txn_by_reference t ref (db s)) as [t0|] eqn:Href.
  - left. run_inv. unfold replayed_posting. naive_solver.
  - right. run_inv.
    inv_call applyBalanceChange_Ok as (a & Ha & Hfl & -> & Hfit & ->).
    inv_call transaction_create_Ok as (-> & Hf1 & Hd1 & Hid1 & Hacc & ->).
    inv_call lift_result_Ok as (Hcodes & ->).
    inv_call findGlAccountPair_Ok as (Hg1 & Hg2 & ->).
    inv_call journal_create_Ok as (-> & Hje & Hu & ->).
    do 5 eexists. cbn in *. split_and!; try done.
Qed.

Lemma fresh_posting_extends t ref j id amount dir actor descr link loan w r w' :
  ledger_ok (db w) -> 0 < amount -> natural_direction j = Some dir ->
  fresh_posting t ref j id amount dir actor descr link loan w r w' ->
  exists p eff, extends (db w) (db w') [posted_transaction r] (posted_journalEntry r) p eff.
Proof.
  intros Hok Hpos Hdir (a & ty & codes & p1 & p2 & Href & (Ha & Hfl & Hfit) & Hty & Hcodes &
    Hg1 & Hg2 & Hid & Hu & Hje & -> & ->).
  apply active_account_Some in Ha as (Hl & Ht & Hact).
  exists (mkGLPosting (gl_id p1) (gl_id p2) amount descr), (account_effect a (signed dir amount)).
  apply (extends_single _ _ a); try done.
  intros t' T g Hg. rewrite (pair_effect _ t _ _ _ _ _ _ (ok_gl_ids _ Hok) Hg1 Hg2 t' T g Hg).
  unfold account_effect. cbn [txn_amount txn_of_data td_amount]. rewrite Ht.
  destruct (t === t'); cbn [andb]; [|done]. by eapply resolveGlCodes_effect.
Qed.

Lemma postEntryBody_keeps t ref j id amount dir actor descr link loan w r w' :
  ledger_ok (db w) -> 0 < amount -> natural_direction j = Some dir ->
  postEntryBody t ref j id amount dir actor descr link loan w = (Ok r, w') ->
  ledger_ok (db w').
Proof.
  intros Hok Hpos Hdir Hr. apply postEntryBody_Ok in Hr as [(_ & -> & _)|Hf]; [done|].
  destruct (fresh_posting_extends _ _ _ _ _ _ _ _ _ _ _ _ _ Hok Hpos Hdir Hf) as (p & eff & He).
  by eapply ledger_ok_extends.
Qed.

(** ** Transfers *)
Definition transfer_rows (t fromId toId ref actor descr : string) (amount : Z) (a b : Account)
    (w : World) : Transaction * Transaction :=
  let f := txn_of_data (uuid (nextUuid w)) (clock w)
    (mkTxnData t fromId None TRANSFER T_COMPLETED amount (acc_balance a)
       (acc_balance a + - amount) (ref +:+ "-SRC") descr actor None) in
  (f, txn_of_data (uuid (N.succ (nextUuid w))) (clock w)
    (mkTxnData t toId None TRANSFER T_COMPLETED amount (acc_balance b)
       (acc_balance b + amount) (ref +:+ "-DST") descr actor (Some (txn_id f)))).

Definition fresh_transfer (t fromId toId : string) (amount : Z) (ref actor descr : string)
    (w : World) (r : Transferred) (w' : World) : Prop :=
  exists a b codes p1 p2,
    let d1 := set_accounts (<[fromId := moved a (- amount)]> (accounts (db w))) (db w) in
    let rows := transfer_rows t fromId toId ref actor descr amount a b w in
    let entry := je_of_data (uuid (N.succ (N.succ (nextUuid w)))) (clock w)
      (mkJournalData t ("JE-LEDGER-" +:+ ref) JTRANSFER descr (txn_id rows.1) amount actor
         "System-posted via LedgerService.postInternalTransfer()" None
         (mkGLPosting (gl_id p1) (gl_id p2) amount descr)) in
    txn_by_reference t (ref +:+ "-SRC") (db w) = None /\
    change_allowed t fromId amount DEBIT (db w) a /\
    change_allowed t toId amount CREDIT d1 b /\
    resolveGlCodes (acc_accountType a) JTRANSFER DEBIT (Some (acc_accountType b)) = Ok codes /\
    find_gl t codes.1 (db w) = Some p1 /\ find_gl t codes.2 (db w) = Some p2 /\
    (txn_id rows.1 ∉ (txn_id <$> transactions (db w))) /\
    (txn_id rows.2 ∉ (txn_id <$> transactions (db w) ++ [rows.1])) /\
    r = mkTransferred (set_txn_link (txn_id rows.2) rows.1) rows.2 entry false /\
    db w' = set_journalEntries (journalEntries (db w) ++ [entry])
      (set_transactions (update_where (fun x => txn_id x === txn_id rows.1)
           (set_txn_link (txn_id rows.2)) ((transactions (db w) ++ [rows.1]) ++ [rows.2]))
         (set_accounts (<[toId := moved b amount]> (accounts d1)) d1)).

Lemma transferBody_Ok t fromId toId amount ref actor descr w r w' :
  transferBody t fromId toId amount ref actor descr w = (Ok r, w') ->
  (tr_replayed r = true /\ is_Some (txn_by_reference t (ref +:+ "-SRC") (db w)) /\ w' = w) \/
  fresh_transfer t fromId toId amount ref actor descr w r w'.
Proof.
  unfold transferBody. intros Hr. run_inv.
  destruct (txn_by_reference t (ref +:+ "-SRC") (db s)) as [t0|] eqn:Href; run_inv.
  - repeat case_match; run_inv; naive_solver.
  - right. inv_call applyBalanceChange_Ok as (a & Ha & Hfl & -> & Hfit & ->).
    inv_call applyBalanceChange_Ok as (b & Hb & _ & -> & Hfitb & ->).
    inv_call transaction_create_Ok as (-> & _ & _ & Hid1 & _ & ->).
    inv_call transaction_create_Ok as (-> & _ & _ & Hid2 & _ & ->).
    inv_call transaction_update_Ok as ->.
    inv_call lift_result_Ok as (Hcodes & ->).
    inv_call findGlAccountPair_Ok as (Hg1 & Hg2 & ->).
    inv_call journal_create_Ok as (-> & _ & _ & ->).
    exists a, b. do 3 eexists. cbn in *. unfold change_allowed. split_and!; done.
Qed.

Lemma transferBody_keeps t fromId toId amount ref actor descr w r w' :
  ledger_ok (db w) -> 0 < amount -> fromId <> toId ->
  transferBody t fromId toId amount ref actor descr w = (Ok r, w') ->
  ledger_ok (db w').
Proof.
  intros Hok Hpos Hne Hr. apply transferBody_Ok in Hr as [(_ & _ & ->)|Hf]; [done|].
  destruct Hf as (a & b & codes & p1 & p2 & Href & (Ha & Hfl & _) & (Hb & _ & _) & Hcodes &
    Hg1 & Hg2 & Hid1 & Hid2 & -> & Hdb).
  apply active_account_Some in Ha as (Hla & Hta & _).
  apply active_account_Some in Hb as (Hlb & Htb & _). cbn in Hlb.
  set (rows := transfer_rows t fromId toId ref actor descr amount a b w) in *.
  set (eff := fun t' T => account_effect a (- amount) t' T + account_effect b amount t' T).
  eapply (ledger_ok_extends (db w) _ [rows.1; rows.2] _
    (mkGLPosting (gl_id p1) (gl_id p2) amount descr) eff Hok).
  rewrite Hdb. split; try done; cbn [glAccounts accounts transactions journalEntries
    set_journalEntries set_transactions set_accounts].
  - exact (same_kinds_trans _ _ _
      (same_kinds_insert _ fromId a (moved a (- amount)) Hla eq_refl eq_refl)
      (same_kinds_insert (set_accounts (<[fromId := moved a (- amount)]> (accounts (db w))) (db w))
         toId b (moved b amount) Hlb eq_refl eq_refl)).
  - rewrite update_where_core by done. by rewrite !fmap_app, <- app_assoc.
  - intros x Hx. apply elem_of_cons in Hx as [->|Hx%list_elem_of_singleton]; [done|].
    subst x. rewrite fmap_app in Hid2. set_solver.
  - cbn in Hid2 |- *. rewrite fmap_app in Hid2. apply NoDup_cons. split; [|apply NoDup_singleton].
    set_solver.
  - cbn. set_solver.
  - intros t' T g Hg. rewrite (pair_effect _ t _ _ _ _ _ _ (ok_gl_ids _ Hok) Hg1 Hg2 t' T g Hg).
    unfold eff, account_effect. rewrite Hta, Htb.
    destruct (t === t'); cbn [andb]; [|done]. by eapply resolveGlCodes_transfer.
  - intros t' T. unfold deposits at 1.
    cbn [accounts set_accounts set_journalEntries set_transactions].
    pose proof (deposits_insert t' T (set_accounts (<[fromId := moved a (- amount)]>
      (accounts (db w))) (db w)) toId b (moved b amount) Hlb eq_refl eq_refl) as E2.
    cbn [accounts set_accounts] in E2. rewrite E2. unfold deposits at 1.
    cbn [accounts set_accounts]. rewrite (deposits_insert t' T _ _ a) by done.
    unfold eff, account_effect. cbn. destruct (_ && _), (_ && _); lia.
  - intros x Hx _ Hty. apply elem_of_cons in Hx as [->|Hx%list_elem_of_singleton];
      [|subst x]; discriminate.
Qed.

(** ** Reversals *)
Definition reversal_direction (t : Transaction) : Direction :=
  if txn_balanceBefore t <=? txn_balanceAfter t then DEBIT else CREDIT.

Lemma reversal_direction_opposite t dir :
  0 < txn_amount t ->
  txn_balanceAfter t = txn_balanceBefore t + signed dir (txn_amount t) ->
  signed (reversal_direction t) (txn_amount t) = - signed dir (txn_amount t).
Proof.
  intros Hpos Haft. unfold reversal_direction.
  destruct dir; cbn [signed] in *; case_match; reflect; cbn [signed]; lia.
Qed.

Definition reversal_row (t0 : Transaction) (t actor reason : string) (a : Account) (w : World)
  : Transaction :=
  txn_of_data (uuid (nextUuid w)) (clock w)
    (mkTxnData t (txn_accountId t0) None REVERSAL T_COMPLETED (txn_amount t0) (acc_balance a)
       (acc_balance a + signed (reversal_direction t0) (txn_amount t0))
       (txn_reference t0 +:+ "-REVERSAL")
       ("Reversal of " +:+ txn_reference t0 +:+ ": " +:+ reason) actor (Some (txn_id t0))).

(** The posting of a reversal: debit and credit swapped. *)
Definition swapped (p : GLPosting) : GLPosting :=
  mkGLPosting (post_creditAccountId p) (post_debitAccountId p) (post_amount p)
    ("Reversal: " +:+ post_description p).

Lemma posting_net_swapped gid p : posting_net gid (swapped p) = - posting_net gid p.
Proof. unfold posting_net. cbn. lia. Qed.

Definition reversed_posting (t origId reason actor : string) (w : World)
    (r : Transaction * JournalEntry) (w' : World) : Prop :=
  exists t0 e0 p0 a,
    txn_by_id t origId (db w) = Some t0 /\ txn_status t0 <> T_REVERSED /\
    je_by_transaction t (txn_id t0) (db w) = Some e0 /\ je_postings e0 = [p0] /\
    je_reversal_of t (je_id e0) (db w) = None /\
    change_allowed t (txn_accountId t0) (txn_amount t0) (reversal_direction t0) (db w) a /\
    r.1 = reversal_row t0 t actor reason a w /\
    (txn_id r.1 ∉ (txn_id <$> transactions (db w))) /\
    je_referenceId r.2 = txn_id r.1 /\ je_postings r.2 = [swapped p0] /\
    je_reversalOf r.2 = Some (je_id e0) /\ je_tenantId r.2 = t /\
    let d1 := posted_db (txn_accountId t0)
      (moved a (signed (reversal_direction t0) (txn_amount t0))) [r.1] r.2 (db w) in
    db w' = set_transactions (update_where (fun x => txn_id x === txn_id t0)
              (set_txn_status T_REVERSED) (transactions d1)) d1.

Lemma reverseTransactionBody_Ok t origId reason actor w r w' :
  reverseTransactionBody t origId reason actor w = (Ok r, w') ->
  reversed_posting t origId reason actor w r w'.
Proof.
  unfold reverseTransactionBody. intros Hr. run_inv.
  destruct (je_postings _) as [|p0 [|]] eqn:Hp; run_inv.
  inv_call applyBalanceChange_Ok as (a & Ha & Hfl & -> & Hfit & ->).
  inv_call transaction_create_Ok as (-> & _ & _ & Hid & _ & ->).
  inv_call journal_create_Ok as (-> & _ & _ & ->).
  inv_call transaction_update_Ok as ->. reflect.
  do 4 eexists. unfold change_allowed. cbn in *.
  split_and!; try done. by apply eq_None_not_Some.
Qed.

Lemma je_by_transaction_Some t id d e :
  je_by_transaction t id d = Some e -> e ∈ journalEntries d /\ je_referenceId e = id.
Proof. intros He. apply find_some_elem in He as [Hin HP]. by reflect. Qed.

Lemma txn_by_id_Some t id d x :
  txn_by_id t id d = Some x -> x ∈ transactions d /\ txn_id x = id /\ txn_tenantId x = t.
Proof. intros Hx. apply find_some_elem in Hx as [Hin HP]. by reflect. Qed.

(** The reversal of a single-account posting is again one, with the opposite
    movement. *)
Lemma reversed_posting_keeps t origId reason actor w r w' t0 :
  ledger_ok (db w) -> txn_by_id t origId (db w) = Some t0 ->
  single_account_type (txn_type t0) = true ->
  reversed_posting t origId reason actor w r w' -> ledger_ok (db w').
Proof.
  intros Hok Ht0 Hty (t1 & e0 & p0 & a & Ht1 & _ & He0 & Hp0 & _ & (Ha & _) & Hr1 & Hid & Href &
    Hpost & _ & _ & Hdb).
  assert (t1 = t0) as -> by congruence.
  apply je_by_transaction_Some in He0 as [He0in He0ref].
  apply txn_by_id_Some in Ht1 as (Hin & _ & Htn).
  apply active_account_Some in Ha as (Hla & Hta & _).
  destruct (ok_pairs _ Hok t0 e0 Hin He0in He0ref Hty)
    as (a' & p & dir & Ha' & Hta' & Hp & Hpos & Haft & Heff).
  cbn in Ha', Hta', Hpos, Haft. assert (a' = a) as -> by congruence.
  assert (p = p0) as -> by congruence.
  assert (signed (reversal_direction t0) (txn_amount t0) = - signed dir (txn_amount t0)) as Hs
    by by apply reversal_direction_opposite.
  assert (extends (db w) (posted_db (txn_accountId t0)
      (moved a (signed (reversal_direction t0) (txn_amount t0))) [r.1] r.2 (db w)) [r.1] r.2
      (swapped p0) (account_effect a (signed (reversal_direction t0) (txn_amount t0)))) as Hext.
  { assert (txn_amount r.1 = txn_amount t0) as Hamt by (by rewrite Hr1).
    rewrite <- Hamt at 2.
    apply (extends_single _ _ a); rewrite ?Hamt; try done; try (rewrite Hr1; done).
    - intros t' T g Hg. rewrite posting_net_swapped, (Heff t' T g Hg).
      unfold account_effect. rewrite Hs. cbn. by destruct (_ && _). }
  eapply (ledger_ok_frame _ _ (ledger_ok_extends _ _ _ _ _ _ Hok Hext)); rewrite Hdb; try done.
  cbn [transactions set_transactions]. by rewrite update_where_core.
Qed.

(** ** From the bodies to the public methods *)
Lemma actor_or_system_db t o w r w' :
  actor_or_system t o w = (r, w') ->
  db w' = db w /\ clock w' = clock w /\ nextUuid w' = nextUuid w /\ auditTrail w' = auditTrail w.
Proof.
  unfold actor_or_system, resolveSystemActorId, bind, gets, ret, throw, modify.
  destruct o; cbn; [by intros [= <- <-]|].
  destruct (systemUserIdCache w !! t); cbn; [by intros [= <- <-]|].
  destruct (List.find _ _); cbn; by intros [= <- <-].
Qed.

Lemma transaction_Ok {A} (m : M A) w a w' :
  transaction m w = (Ok a, w') -> m w = (Ok a, w').
Proof. unfold transaction. destruct (m w) as [[b|e] w1]; naive_solver. Qed.

Lemma transaction_Err {A} (m : M A) w e w' :
  transaction m w = (Err e, w') -> db w' = db w.
Proof. unfold transaction. destruct (m w) as [[b|e'] w1]; [done|]. by intros [= <- <-]. Qed.

(** A successful [postEntry] is its body run by the resolved actor. *)
Lemma postEntry_Ok p w r w' :
  postEntry p w = (Ok r, w') ->
  exists actor w1 w2, actor_or_system (pe_tenantId p) (pe_actorId p) w = (Ok actor, w1) /\
    0 < to_dp4 (pe_amount p) /\
    postEntryBody (pe_tenantId p) (pe_reference p) (pe_journalType p) (pe_accountId p)
      (to_dp4 (pe_amount p)) (pe_direction p) actor
      (default (journal_type_name (pe_journalType p)) (pe_description p))
      (pe_linkedTransactionId p) (pe_loanId p) w1 = (Ok r, w2) /\
    db w' = db w2 /\ db w1 = db w /\ clock w1 = clock w.
Proof.
  unfold postEntry, positive_amount. intros Hr. run_inv.
  pose proof (actor_or_system_db _ _ _ _ _ Hrun) as (Hdb & Hcl & _). reflect.
  exists r0, s0, s1. split_and!; try done.
  - destruct (pe_inTx p); [|apply transaction_Ok]; assumption.
  - destruct (_ && _); run_inv; done.
Qed.

(** A call that opens its own database transaction and throws leaves the
    database as it was. *)
Lemma postEntry_Err p w e w' :
  pe_inTx p = false -> postEntry p w = (Err e, w') -> db w' = db w.
Proof.
  intros Hin. unfold postEntry, positive_amount, throw_if. rewrite Hin. unfold bind at 1.
  destruct (actor_or_system _ _ w) as [[a|e0] w1] eqn:Ea;
    apply actor_or_system_db in Ea as (<- & _); [|by intros [= _ <-]].
  unfold bind at 1. destruct (to_dp4 (pe_amount p) <=? 0); cbn [throw ret]; [by intros [= _ <-]|].
  unfold bind at 1. destruct (transaction _ w1) as [[r|e1] w2] eqn:Et.
  - unfold bind. by destruct (negb _ && _).
  - apply transaction_Err in Et as <-. by intros [= _ <-].
Qed.

Lemma postInternalTransfer_Ok t f to amt ref actor descr w r w' :
  postInternalTransfer t f to amt ref actor descr w = (Ok r, w') ->
  exists w1, 0 < to_dp4 amt /\ f <> to /\
    transferBody t f to (to_dp4 amt) ref actor (default "Internal transfer" descr) w = (Ok r, w1) /\
    db w' = db w1.
Proof.
  unfold postInternalTransfer, positive_amount. intros Hr. run_inv. reflect.
  match goal with Ht : transaction _ _ = _ |- _ => apply transaction_Ok in Ht end.
  eexists. split_and!; [done..|eassumption|].
  destruct (negb _); by run_inv.
Qed.

Lemma postInternalTransfer_Err t f to amt ref actor descr w e w' :
  postInternalTransfer t f to amt ref actor descr w = (Err e, w') -> db w' = db w.
Proof.
  unfold postInternalTransfer, positive_amount, throw_if. unfold bind at 1.
  destruct (to_dp4 amt <=? 0); cbn [throw ret]; [by intros [= _ <-]|]. unfold bind at 1.
  destruct (f === to); cbn [throw ret]; [by intros [= _ <-]|]. unfold bind at 1.
  destruct (transaction _ w) as [[r|e1] w2] eqn:Et.
  - unfold bind. by destruct (negb _).
  - apply transaction_Err in Et as <-. by intros [= _ <-].
Qed.

Lemma reverseTransaction_Ok t id reason o inTx w r w' :
  reverseTransaction t id reason o inTx w = (Ok r, w') ->
  exists actor w1 w2, actor_or_system t o w = (Ok actor, w1) /\
    reverseTransactionBody t id reason actor w1 = (Ok r, w2) /\ db w' = db w2 /\ db w1 = db w.
Proof.
  unfold reverseTransaction. intros Hr. run_inv.
  pose proof (actor_or_system_db _ _ _ _ _ Hrun) as (Hdb & _).
  eexists _, _, _. split_and!; [eassumption| |..|done].
  - destruct inTx; [|apply transaction_Ok]; eassumption.
  - destruct inTx; by run_inv.
Qed.

Lemma reverseTransaction_Err t id reason o w e w' :
  reverseTransaction t id reason o false w = (Err e, w') -> db w' = db w.
Proof.
  unfold reverseTransaction. unfold bind at 1.
  destruct (actor_or_system _ _ w) as [[a|e0] w1] eqn:Ea;
    apply actor_or_system_db in Ea as (<- & _); [|by intros [= _ <-]].
  unfold bind at 1. destruct (transaction _ w1) as [[r|e1] w2] eqn:Et.
  - by unfold bind.
  - apply transaction_Err in Et as <-. by intros [= _ <-].
Qed.
End Specs.
