(* ===== verification/LedgerLegs.v ===== *)
(** * LedgerLegs: general-ledger-only postings and the ledger invariant

    What a postGlOnlyLegEntry call did, and how the flows built on it (loan
    repayment, accrual, guarantor recovery) keep [ledger_ok]. *)
From S2P Require Import Prelude Money Schema Ledger LedgerFacts LedgerInv LedgerProps.

(** ** Databases that agree on everything the ledger invariant sees *)
Definition same_ledger (d d' : DB) : Prop :=
  accounts d' = accounts d /\ transactions d' = transactions d /\
  journalEntries d' = journalEntries d /\ glAccounts d' = glAccounts d.

#[export] Instance same_ledger_equiv : Equivalence same_ledger.
Proof.
  split.
  - intros d. done.
  - intros d1 d2 (E1 & E2 & E3 & E4). done.
  - intros d1 d2 d3 (E1 & E2 & E3 & E4) (F1 & F2 & F3 & F4). unfold same_ledger.
    by rewrite F1, F2, F3, F4.
Qed.

#[export] Instance ledger_ok_proper : Proper (same_ledger ==> iff) ledger_ok.
Proof.
  assert (forall d d', same_ledger d d' -> ledger_ok d -> ledger_ok d') as Himp.
  { intros d d' (E1 & E2 & E3 & E4) Hok. eapply ledger_ok_frame; try done. by rewrite E2. }
  intros d d' E. split; [by apply Himp|]. apply Himp. by symmetry.
Qed.

Lemma tenant_loan_Some t id d l : tenant_loan t id d = Some l -> loans d !! id = Some l /\ loan_tenantId l = t.
Proof.
  unfold tenant_loan. destruct (loans d !! id) as [l'|]; [|done]. case_bool_decide; [|done].
  by intros [= ->].
Qed.

Lemma loan_updateMany_Ok id cond f w n w' :
  loan_updateMany id cond f w = (Ok n, w') ->
  (n = 0%nat /\ w' = w) \/
  (exists l, n = 1%nat /\ loans (db w) !! id = Some l /\ cond l = true /\ loan_fits (f l) = true /\
     w' = with_db (set_loans (<[id := touch_loan (clock w) (f l)]> (loans (db w)))) w).
Proof.
  unfold loan_updateMany. destruct (loans (db w) !! id) as [l|] eqn:E.
  - destruct (cond l) eqn:Ec; [destruct (loan_fits (f l)) eqn:Ef|]; intros Hr;
      try discriminate; injection Hr as <- <-; naive_solver.
  - intros Hr. injection Hr as <- <-. by left.
Qed.

Lemma loan_updateMany_hit id cond f w n w' l :
  loan_updateMany id cond f w = (Ok n, w') -> loans (db w) !! id = Some l -> cond l = true ->
  n = 1%nat /\ w' = with_db (set_loans (<[id := touch_loan (clock w) (f l)]> (loans (db w)))) w.
Proof.
  unfold loan_updateMany. intros Hr Hl Hc. rewrite Hl, Hc in Hr. destruct (loan_fits (f l)); [|done].
  by injection Hr as <- <-.
Qed.

Lemma loan_update_Ok id f w u w' :
  loan_update id f w = (Ok u, w') ->
  exists l, loans (db w) !! id = Some l /\ loan_fits (f l) = true /\
    w' = with_db (set_loans (<[id := touch_loan (clock w) (f l)]> (loans (db w)))) w.
Proof.
  unfold loan_update. intros Hr. run_inv.
  inv_call loan_updateMany_Ok as [[-> ->]|(l & -> & Hl & _ & Hf & ->)]; [done|]. eauto.
Qed.

Lemma installment_updateMany_Ok id cond f w n w' :
  installment_updateMany id cond f w = (Ok n, w') ->
  w' = with_db (fun d => set_loanRepayments
    (update_where (fun r => (lr_id r === id) && cond r) f (loanRepayments d)) d) w /\
  n = length (List.filter (fun r => (lr_id r === id) && cond r) (loanRepayments (db w))).
Proof. unfold installment_updateMany. intros Hr. by run_inv. Qed.

Lemma installment_update_Ok id f w u w' :
  installment_update id f w = (Ok u, w') ->
  w' = with_db (fun d => set_loanRepayments
    (update_where (fun r => lr_id r === id) f (loanRepayments d)) d) w.
Proof.
  unfold installment_update. intros Hr. run_inv.
  inv_call installment_updateMany_Ok as [-> _]. unfold with_db. cbn. do 2 f_equal.
  unfold update_where. apply list_fmap_ext. intros i x _. by rewrite andb_true_r.
Qed.

Lemma guarantor_updateMany_Ok id cond f w n w' :
  guarantor_updateMany id cond f w = (Ok n, w') ->
  w' = with_db (fun d => set_loanGuarantors
    (update_where (fun g => (lg_id g === id) && cond g) f (loanGuarantors d)) d) w /\
  n = length (List.filter (fun g => (lg_id g === id) && cond g) (loanGuarantors (db w))).
Proof. unfold guarantor_updateMany. intros Hr. by run_inv. Qed.

Lemma mpesa_update_Ok id f w u w' :
  mpesa_update id f w = (Ok u, w') ->
  exists m, w' = with_db (fun d => set_mpesaTransactions (<[id := f m]> (mpesaTransactions d)) d) w.
Proof. unfold mpesa_update. intros Hr. run_inv. eauto. Qed.

(** ** What a general-ledger-only posting did *)
Section Legs.
Context `{UuidSource}.

Definition leg_entry (t ref descr notes txnId actor : string) (amount : Z)
    (jt : JournalEntryType) (p1 p2 : GLAccount) (w : World) : JournalEntry :=
  je_of_data (uuid (nextUuid w)) (clock w)
    (mkJournalData t ("JE-LEDGER-" +:+ ref) jt descr txnId amount actor notes None
       (mkGLPosting (gl_id p1) (gl_id p2) amount descr)).

Definition leg_replayed (t ref : string) (w : World) (r : JournalEntry * bool) (w' : World) : Prop :=
  r.2 = true /\ db w' = db w /\ je_by_number t ("JE-LEDGER-" +:+ ref) (db w) = Some r.1.

Definition leg_posted (t ref : string) (leg : Leg) (amount : Z) (debitCode txnId descr notes : string)
    (jt : JournalEntryType) (w : World) (r : JournalEntry * bool) (w' : World) : Prop :=
  exists actor p1 p2,
    r.2 = false /\ je_by_number t ("JE-LEDGER-" +:+ ref) (db w) = None /\
    find_gl t debitCode (db w) = Some p1 /\ find_gl t (leg_credit_code leg) (db w) = Some p2 /\
    r.1 = leg_entry t ref descr notes txnId actor amount jt p1 p2 w /\
    db w' = set_journalEntries (journalEntries (db w) ++ [r.1]) (db w).

Lemma postGlOnlyLegEntry_Ok t ref leg amt dc txnId o descr notes jt w r w' :
  postGlOnlyLegEntry t ref leg amt dc txnId o descr notes jt w = (Ok r, w') ->
  0 < to_dp4 amt /\ clock w' = clock w /\
  (leg_replayed t ref w r w' \/
   leg_posted t ref leg (to_dp4 amt) dc txnId descr notes (default JLOAN_REPAYMENT jt) w r w').
Proof.
  unfold postGlOnlyLegEntry, positive_amount. intros Hr. run_inv. reflect.
  pose proof (actor_or_system_db _ _ _ _ _ Hrun) as (Hdb & Hcl & Hu & _).
  destruct (je_by_number _ _ _) as [e|] eqn:Hje; run_inv.
  - split_and!; [done|done|]. left. unfold leg_replayed. by rewrite Hdb in *.
  - inv_call findGlAccountPair_Ok as (Hg1 & Hg2 & ->).
    inv_call journal_create_Ok as (-> & _ & _ & ->).
    split_and!; [done|done|]. right. rewrite Hdb in *. do 3 eexists. split_and!; try done.
    + cbn. unfold leg_entry. by rewrite Hcl, Hu.
    + cbn. by rewrite Hdb.
Qed.

(** Codes that are not member deposits. *)
Definition not_deposit_code (c : string) : Prop := forall T, memberDepositsCode T <> c.

Lemma leg_code_not_deposit leg : not_deposit_code (leg_credit_code leg).
Proof. intros T. by destruct leg, T. Qed.

Lemma cash_not_deposit : not_deposit_code GL_CODES.CASH.
Proof. intros T. by destruct T. Qed.

Lemma loans_not_deposit : not_deposit_code GL_CODES.LOAN_RECEIVABLE.
Proof. intros T. by destruct T. Qed.

Lemma code_effect_other dc cc T amount :
  not_deposit_code dc -> not_deposit_code cc -> code_effect dc cc (memberDepositsCode T) amount = 0.
Proof.
  intros Hd Hc. unfold code_effect. rewrite !bool_decide_eq_false_2; [done|..];
    intros E; [by apply (Hd T)|by apply (Hc T)].
Qed.

Lemma code_effect_debit T0 T cc amount :
  not_deposit_code cc ->
  code_effect (memberDepositsCode T0) cc (memberDepositsCode T) amount =
  if T0 === T then - amount else 0.
Proof.
  intros Hc. unfold code_effect. rewrite (bool_decide_eq_false_2 (cc = _)) by (intros E; by apply (Hc T)).
  destruct (decide (T0 = T)) as [->|Hne].
  - rewrite !same_refl. lia.
  - rewrite !bool_decide_eq_false_2; [done|done|]. by intros ?%memberDepositsCode_inj.
Qed.

(** Appending transaction rows alone. *)
Lemma ledger_ok_add_txn d t :
  ledger_ok d -> (txn_id t ∉ (txn_id <$> transactions d)) ->
  ledger_ok (set_transactions (transactions d ++ [t]) d).
Proof.
  intros [Hgl Hids Hb Hrefs Hpairs] Hfresh. split; cbn [glAccounts transactions set_transactions
    journalEntries]; try done.
  - rewrite fmap_app. apply NoDup_app. split_and!; [done|set_solver|apply NoDup_singleton].
  - intros e He. rewrite fmap_app. apply elem_of_app. left. by apply Hrefs.
  - intros x e Hx He Href Hty. apply elem_of_app in Hx as [Hx|Hx%list_elem_of_singleton].
    + by apply Hpairs.
    + subst x. exfalso. apply Hfresh. rewrite <- Href. by apply Hrefs.
Qed.

(** Appending an entry that moves no deposits and refers to a row that is not
    a single-account posting. *)
Lemma ledger_ok_add_entry d t e p :
  ledger_ok d -> t ∈ transactions d -> single_account_type (txn_type t) = false ->
  je_postings e = [p] -> je_referenceId e = txn_id t -> deposit_effect d p (fun _ _ => 0) ->
  ledger_ok (set_journalEntries (journalEntries d ++ [e]) d).
Proof.
  intros [Hgl Hids Hb Hrefs Hpairs] Hin Hty Hp Href Heff. split; try done.
  - eapply (gl_backed_step d); try done. intros t' T. unfold deposits. cbn. lia.
  - intros e0 [He|He%list_elem_of_singleton]%elem_of_app; [by apply Hrefs|]. subst e0. rewrite Href.
    by apply list_elem_of_fmap_2.
  - intros x e0 Hx [He|He%list_elem_of_singleton]%elem_of_app Hr Ht; [by apply Hpairs|]. subst e0.
    rewrite Href in Hr. assert (x = t) as -> by (by eapply (NoDup_key_inj txn_id (transactions d))). congruence.
Qed.

(** A general-ledger-only leg between accounts that hold no deposits. *)
Lemma postGlOnlyLegEntry_keeps t ref leg amt dc txnId o descr notes jt w r w' t0 :
  ledger_ok (db w) -> not_deposit_code dc -> t0 ∈ transactions (db w) -> txn_id t0 = txnId ->
  single_account_type (txn_type t0) = false ->
  postGlOnlyLegEntry t ref leg amt dc txnId o descr notes jt w = (Ok r, w') -> ledger_ok (db w').
Proof.
  intros Hok Hdc Hin Hid Hty (_ & _ & [(_ & -> & _)|Hl])%postGlOnlyLegEntry_Ok; [done|].
  destruct Hl as (actor & p1 & p2 & _ & _ & Hg1 & Hg2 & Hr & ->).
  eapply (ledger_ok_add_entry _ t0 _ (mkGLPosting (gl_id p1) (gl_id p2) (to_dp4 amt) descr)); try done;
    [by rewrite Hr|by rewrite Hr|].
  intros t' T g Hg. rewrite (pair_effect _ t _ _ _ _ _ _ (ok_gl_ids _ Hok) Hg1 Hg2 t' T g Hg).
  rewrite (code_effect_other _ _ T _ Hdc (leg_code_not_deposit leg)). by destruct (t === t').
Qed.

(** A row that moves no balance, and the general-ledger entry that refers to
    it: deposits and their accounts stay in step. *)
Lemma ledger_ok_leg d t e p :
  ledger_ok d -> (txn_id t ∉ (txn_id <$> transactions d)) ->
  single_account_type (txn_type t) = false ->
  je_postings e = [p] -> je_referenceId e = txn_id t ->
  deposit_effect d p (fun _ _ => 0) ->
  ledger_ok (set_journalEntries (journalEntries d ++ [e])
    (set_transactions (transactions d ++ [t]) d)).
Proof.
  intros Hok Hfresh Hty Hp Href Heff.
  eapply (ledger_ok_extends d _ [t] e p (fun _ _ => 0) Hok). split; try done.
  - exact (same_kinds_refl d).
  - cbn. by rewrite fmap_app.
  - intros x ->%list_elem_of_singleton. done.
  - apply NoDup_singleton.
  - rewrite Href. cbn. set_solver.
  - intros t' T. unfold deposits. cbn. lia.
  - intros x ->%list_elem_of_singleton _. by rewrite Hty.
Qed.
End Legs.

#[export] Hint Resolve leg_code_not_deposit cash_not_deposit loans_not_deposit : sacco.
