(* ===== verification/Accounts.v ===== *)
(** * Accounts: AccountsService and the provisioning of member accounts

    [src/src/modules/accounts/accounts.service.ts] and
    [src/src/modules/accounts/utils/provision-accounts.util.ts]: opening
    accounts, depositing, withdrawing, transferring between a member's own
    accounts, and the paged transaction history. *)
From S2P Require Import Prelude Money Json Schema Ledger.

Definition account_type_name (T : AccountType) : string :=
  match T with BOSA => "BOSA" | FOSA => "FOSA" end.

(** [`ACC-${accountType}-${String(seq).padStart(6, '0')}`] *)
Definition account_number (T : AccountType) (seq : Z) : string :=
  "ACC-" +:+ account_type_name T +:+ "-" +:+ padStart0 6 (pretty seq).

Definition account_policy (tenantId : string) (T : AccountType) (d : DB) : option AccountTypePolicy :=
  List.find (fun p => (pol_tenantId p === tenantId) && (pol_accountType p === T)) (policies d).

(** The row an account starts as: the tenant's policy is copied onto it. *)
Definition new_account (tenantId memberId number : string) (T : AccountType)
    (policy : option AccountTypePolicy) : Account :=
  mkAccount tenantId memberId number T 0 true 0 0 0
    (from_option pol_allowsNegative false policy) (from_option pol_minimumBalance 0 policy).

(** [tenantCounter.upsert]: add [n] to the tenant's account counter. *)
Definition claim_account_seq (tenantId : string) (n : Z) : M Z :=
  let* seq := gets (fun w => default 0 (accountSeqs (db w) !! tenantId) + n) in
  modify (with_db (fun d => set_accountSeqs (<[tenantId := seq]> (accountSeqs d)) d)) ;;
  ret seq.

Definition account_number_taken (tenantId number : string) (d : DB) : bool :=
  existsb (fun kv => (acc_tenantId kv.2 === tenantId) && (acc_accountNumber kv.2 === number))
    (map_to_list (accounts d)).

Section Accounts.
Context `{UuidSource}.

Definition account_create (a : Account) : M string :=
  let* id := fresh_id in
  let* d := gets db in
  throw_if (bool_decide (is_Some (accounts d !! id))
            || account_number_taken (acc_tenantId a) (acc_accountNumber a) d)
    (UniqueViolation "Account") ;;
  throw_if (bool_decide (members d !! acc_memberId a = None)) (ForeignKeyViolation "Account") ;;
  modify (with_db (fun d => set_accounts (<[id := a]> (accounts d)) d)) ;;
  ret id.

Definition create (tenantId memberId : string) (accountType : AccountType) : M string :=
  let* member := gets (fun w => members (db w) !! memberId) in
  throw_if (negb match member with Some m => mem_tenantId m === tenantId | None => false end)
    (NotFound "Member not found in this tenant") ;;
  let* existing := gets (fun w => List.find (fun kv =>
      (acc_memberId kv.2 === memberId) && (acc_accountType kv.2 === accountType)
      && acc_isActive kv.2) (map_to_list (accounts (db w)))) in
  match existing with
  | Some (_, a) => throw (Conflict ("Member already has an active "
      +:+ account_type_name accountType +:+ " account (" +:+ acc_accountNumber a +:+ ")"))
  | None =>
      let* policy := gets (fun w => account_policy tenantId accountType (db w)) in
      let* seq := claim_account_seq tenantId 1 in
      let* id := account_create (new_account tenantId memberId (account_number accountType seq)
        accountType policy) in
      modify (log_audit "ACCOUNT.CREATE") ;;
      ret id
  end.

(** ** Provisioning *)
Definition REQUIRED_TYPES : list AccountType := [FOSA; BOSA].

Definition has_active_account (tenantId memberId : string) (d : DB) (T : AccountType) : bool :=
  bool_decide (is_Some (member_account tenantId memberId T d)).

(** The created and the skipped types. *)
Definition provisionMemberAccounts (tenantId memberId : string)
  : M (list AccountType * list AccountType) :=
  let* d := gets db in
  let existing := has_active_account tenantId memberId d in
  let missingTypes := List.filter (fun T => negb (existing T)) REQUIRED_TYPES in
  match missingTypes with
  | [] => ret ([], REQUIRED_TYPES)
  | _ =>
      let* policyMap := gets (fun w T => account_policy tenantId T (db w)) in
      let* seq := claim_account_seq tenantId (Z.of_nat (length missingTypes)) in
      let firstSeq := seq - Z.of_nat (length missingTypes) + 1 in
      foldM (fun index T =>
        account_create (new_account tenantId memberId
          (account_number T (firstSeq + index)) T (policyMap T)) ;;
        ret (index + 1)) 0 missingTypes ;;
      ret (missingTypes, List.filter existing REQUIRED_TYPES)
  end.

(** ** Deposits, withdrawals and transfers *)
Definition deposit (accountId : string) (amountKes : Q) (reference description tenantId processedBy : string)
  : M (Transaction * Z) :=
  let* posted := postEntry (mkPostEntry tenantId reference JDEPOSIT accountId amountKes CREDIT
    (Some processedBy) (Some description) None None false) in
  modify (log_audit "ACCOUNT.DEPOSIT") ;;
  ret (posted_transaction posted, txn_balanceAfter (posted_transaction posted)).

Definition withdraw (accountId : string) (amountKes : Q) (reference description tenantId processedBy : string)
  : M (Transaction * Z) :=
  let* posted := postEntry (mkPostEntry tenantId reference JWITHDRAWAL accountId amountKes DEBIT
    (Some processedBy) (Some description) None None false) in
  modify (log_audit "ACCOUNT.WITHDRAW") ;;
  ret (posted_transaction posted, txn_balanceAfter (posted_transaction posted)).

Record TransferFundsDto := mkTransferDto {
  dto_destinationAccountId : string;
  dto_amount : Q;
  dto_idempotencyKey : string;
  dto_description : option string;
}.

Definition transfer (sourceAccountId : string) (dto : TransferFundsDto) (tenantId actorId : string)
  : M Transferred :=
  throw_if (sourceAccountId === dto_destinationAccountId dto)
    (BadRequest "Cannot transfer an account to itself") ;;
  let* source := gets (fun w => active_account tenantId sourceAccountId (db w)) in
  let* destination := gets (fun w => active_account tenantId (dto_destinationAccountId dto) (db w)) in
  let* source := or_throw source (NotFound "Source account not found or inactive") in
  let* destination := or_throw destination (NotFound "Destination account not found or inactive") in
  throw_if (negb (acc_memberId source === acc_memberId destination))
    (Forbidden "Internal transfers are only allowed between accounts of the same member") ;;
  let reference := "XFER-" +:+ tenantId +:+ "-" +:+ dto_idempotencyKey dto in
  let* result := postInternalTransfer tenantId sourceAccountId (dto_destinationAccountId dto)
    (dto_amount dto) reference actorId (dto_description dto) in
  modify (log_audit "ACCOUNT.TRANSFER") ;;
  ret result.

(** ** Transaction history *)

(** [orderBy: { createdAt: 'desc' }] *)
Definition newer (t1 t2 : Transaction) : Prop := txn_createdAt t2 <= txn_createdAt t1.
#[export] Instance newer_dec : RelDecision newer.
Proof. intros t1 t2. unfold newer. apply _. Defined.

Definition account_history (accountId tenantId : string) (d : DB) : list Transaction :=
  merge_sort newer (List.filter (fun t => (txn_accountId t === accountId)
    && (txn_tenantId t === tenantId)) (transactions d)).

(** A page of the history, the total and the number of pages; [page] counts
    from 1. *)
Definition getTransactions (accountId tenantId : string) (page limit : nat)
  : M (list Transaction * (nat * nat)) :=
  let* account := gets (fun w => accounts (db w) !! accountId) in
  throw_if (negb match account with Some a => acc_tenantId a === tenantId | None => false end)
    (NotFound "Account not found") ;;
  let skip := ((page - 1) * limit)%nat in
  let* history := gets (fun w => account_history accountId tenantId (db w)) in
  let total := length history in
  ret (take limit (drop skip history), (total, ((total + limit - 1) / limit)%nat)).

End Accounts.
