(* ===== verification/ImportRun.v ===== *)
(** * ImportRun: executing a validated member list

    [src/src/modules/data-import/import-execution.service.ts],
    [data-import.service.ts] and [processors/import.processor.ts].  The state is
    the [World] of the rest of the application with the tables only the import
    uses beside it; the accounts of an imported member are opened by
    [Accounts.provisionMemberAccounts].  The report is an object shared by the
    rows: a rolled back transaction does not undo what its body wrote there. *)
From S2P Require Import Prelude Json ImportText Fuzzy Schema Accounts Import.

(** ** Tables of the import *)
Inductive ImportJobStatus := QUEUED | PROCESSING | COMPLETED | FAILED | PARTIAL.
Inductive StagePosition := POS_CHAIRMAN | POS_SECRETARY | POS_TREASURER | POS_MEMBER.
#[export] Instance ImportJobStatus_dec : EqDecision ImportJobStatus. Proof. solve_decision. Defined.
#[export] Instance StagePosition_dec : EqDecision StagePosition. Proof. solve_decision. Defined.

Record Stage := mkStage {
  stage_id : string;
  stage_name : string;
  stage_wardId : string;
  stage_tenantId : string;
}.

(** The columns of a User row that [Schema.User] leaves out. *)
Record UserProfile := mkProfile {
  up_id : string;
  up_tenantId : string;
  up_email : string;
  up_passwordHash : string;
  up_firstName : string;
  up_lastName : string;
  up_idNumber : option string;
  up_phoneNumber : option string;
  up_nextOfKinPhone : option string;
  up_legacyMemberNo : option string;
  up_importBatchId : option string;
  up_wardId : option string;
  up_createdById : option string;
}.

Record StageAssignment := mkAssignment {
  sa_userId : string;
  sa_stageId : string;
  sa_position : StagePosition;
  sa_isActive : bool;
}.

Record MemberStage := mkMemberStage {
  ms_memberId : string;
  ms_stageId : string;
  ms_assignedBy : option string;
  ms_isActive : bool;
}.

Record ReportError := mkReportError {
  er_row : Z;
  er_field : string;
  er_value : option string;
  er_reason : string;
  er_errorCode : string;
}.

Record ImportReport := mkReport {
  batchId : string;
  importLogId : string;
  totalRows : Z;
  successCount : Z;
  failedCount : Z;
  warningCount : Z;
  skippedCount : Z;
  dryRun : bool;
  report_errors : list ReportError;
  createdUsers : list string;
  createdStages : list string;
}.

(** [errorDetails]: null, the validated rows, or what a fatal error leaves. *)
Inductive ErrorDetails :=
  | ED_null
  | ED_rows (rows : list ValidatedRow)
  | ED_fatal (fatalError : string).

Record DataImportLog := mkImportLog {
  il_id : string;
  il_tenantId : string;
  il_batchId : string;
  il_initiatedBy : string;
  il_fileName : string;
  il_totalRows : Z;
  il_counts : Z * Z * Z * Z;  (* successCount, failedCount, warningCount, skippedCount *)
  il_status : ImportJobStatus;
  il_dryRun : bool;
  il_errorDetails : ErrorDetails;
  il_reportData : option ImportReport;
  il_queueJobId : option string;
  il_startedAt : option Z;
  il_completedAt : option Z;
  il_createdAt : Z;
}.

Record ImportTables := mkTables {
  wards : list string;
  stages : list Stage;
  profiles : list UserProfile;
  nationalIds : gmap string (option string);  (* Member.nationalId *)
  stageAssignments : list StageAssignment;
  memberStages : list MemberStage;
  importLogs : list DataImportLog;
}.

Record ImportWorld := mkIW {
  base : World;
  tables : ImportTables;
  draws : N;                                  (* random numbers drawn so far *)
  report : ImportReport;                      (* the report of the running import *)
  importQueue : list (string * string);       (* payloads: importJobId and tenantId *)
}.

Abbreviation IM := (comp ImportWorld).

Definition with_base (f : World -> World) (s : ImportWorld) : ImportWorld :=
  mkIW (f (base s)) (tables s) (draws s) (report s) (importQueue s).
Definition with_tables (f : ImportTables -> ImportTables) (s : ImportWorld) : ImportWorld :=
  mkIW (base s) (f (tables s)) (draws s) (report s) (importQueue s).
Definition with_report (f : ImportReport -> ImportReport) (s : ImportWorld) : ImportWorld :=
  mkIW (base s) (tables s) (draws s) (f (report s)) (importQueue s).

(** An operation of the rest of the application. *)
Definition lift {A} (m : M A) : IM A := fun s =>
  let '(r, w) := m (base s) in (r, with_base (fun _ => w) s).

(** [prisma.$transaction(body)] over all the tables. *)
Definition import_transaction {A} (body : IM A) : IM A := fun s =>
  match body s with
  | (Ok a, s') => (Ok a, s')
  | (Err e, s') => (Err e, with_tables (fun _ => tables s) (with_base (with_db (fun _ => db (base s))) s'))
  end.

Definition set_stages (x : list Stage) (t : ImportTables) : ImportTables :=
  mkTables (wards t) x (profiles t) (nationalIds t) (stageAssignments t) (memberStages t) (importLogs t).
Definition set_profiles (x : list UserProfile) (t : ImportTables) : ImportTables :=
  mkTables (wards t) (stages t) x (nationalIds t) (stageAssignments t) (memberStages t) (importLogs t).
Definition set_nationalIds (x : gmap string (option string)) (t : ImportTables) : ImportTables :=
  mkTables (wards t) (stages t) (profiles t) x (stageAssignments t) (memberStages t) (importLogs t).
Definition set_stageAssignments (x : list StageAssignment) (t : ImportTables) : ImportTables :=
  mkTables (wards t) (stages t) (profiles t) (nationalIds t) x (memberStages t) (importLogs t).
Definition set_memberStages (x : list MemberStage) (t : ImportTables) : ImportTables :=
  mkTables (wards t) (stages t) (profiles t) (nationalIds t) (stageAssignments t) x (importLogs t).
Definition set_importLogs (x : list DataImportLog) (t : ImportTables) : ImportTables :=
  mkTables (wards t) (stages t) (profiles t) (nationalIds t) (stageAssignments t) (memberStages t) x.

(** ** Randomness

    [crypto.randomInt] and the argon2 package: the [n]-th number drawn, and the
    hash of a password with the salt drawn for it. *)
Class Entropy := {
  randomInt : N -> Z -> Z -> Z;
  argon2_hash : N -> string -> string;
}.

Definition draw (s : ImportWorld) : ImportWorld :=
  mkIW (base s) (tables s) (N.succ (draws s)) (report s) (importQueue s).

Section Run.
Context `{UuidSource} `{Entropy}.

Definition random_int (lo hi : Z) : IM Z := fun s => (Ok (randomInt (draws s) lo hi), draw s).

Definition PASSWORD_ALPHABET : string := "ABCDEFGHJKLMNPQRSTUVWXYZabcdefghijkmnopqrstuvwxyz23456789".

Definition generateTempPassword : IM string :=
  foldM (fun acc (_ : nat) =>
    let* i := random_int 0 (Z.of_nat (String.length PASSWORD_ALPHABET)) in
    ret (acc +:+ match String.get (Z.to_nat i) PASSWORD_ALPHABET with
                 | Some c => String c EmptyString | None => "" end)) "" (seq 0 10).

Definition hash_password (password : string) : IM string := fun s =>
  (Ok (argon2_hash (draws s) password), draw s).

(** [member.findFirst({ where: { tenantId, memberNumber } })] *)
Definition member_number_taken (tenantId candidate : string) (d : DB) : bool :=
  existsb (fun kv => (mem_tenantId kv.2 === tenantId) && (mem_memberNumber kv.2 === candidate))
    (map_to_list (members d)).

Fixpoint member_number_attempts (attempts : nat) (tenantId : string) : IM string :=
  match attempts with
  | O => throw (PlainError "Could not generate a unique member number")
  | S n =>
      let* r := random_int 100000 1000000 in
      let candidate := "MBR-" +:+ pretty r in
      let* taken := gets (fun s => member_number_taken tenantId candidate (db (base s))) in
      if taken : bool then member_number_attempts n tenantId else ret candidate
  end.

Definition generateUniqueMemberNumber (tenantId : string) : IM string := member_number_attempts 5 tenantId.

Definition email_taken (tenantId email : string) (t : ImportTables) : bool :=
  existsb (fun u => (up_tenantId u === tenantId) && (up_email u === email)) (profiles t).

Definition uniqueImportEmail (tenantId email : string) (rowNumber : Z) : IM string :=
  let* taken := gets (fun s => email_taken tenantId email (tables s)) in
  if negb taken then ret email else
  let* now := gets (fun s => clock (base s)) in
  let part n := default "undefined" (split_on "@" email !! n) in
  ret (part 0%nat +:+ "." +:+ pretty rowNumber +:+ "." +:+ pretty now +:+ "@" +:+ part 1%nat).

Definition mapPosition (position : string) : StagePosition :=
  let upper := toUpperCase position in
  if upper === "CHAIRMAN" then POS_CHAIRMAN
  else if upper === "SECRETARY" then POS_SECRETARY
  else if upper === "TREASURER" then POS_TREASURER
  else POS_MEMBER.

(** ** Inserts *)

(** [name: { equals, mode: 'insensitive' }] in the ward and the tenant. *)
Definition find_stage (tenantId wardId name : string) (t : ImportTables) : option Stage :=
  List.find (fun st => (toUpperCase (stage_name st) === toUpperCase name) && (stage_wardId st === wardId)
                       && (stage_tenantId st === tenantId)) (stages t).

Definition stage_create (tenantId wardId name : string) : IM Stage :=
  let* id := lift fresh_id in
  let* t := gets tables in
  throw_if (existsb (fun st => (stage_id st === id) || ((stage_name st === name) && (stage_wardId st === wardId)
                               && (stage_tenantId st === tenantId))) (stages t)) (UniqueViolation "Stage") ;;
  throw_if (negb (bool_decide (wardId ∈ wards t))) (ForeignKeyViolation "Stage") ;;
  let row := mkStage id name wardId tenantId in
  modify (with_tables (fun t => set_stages (stages t ++ [row]) t)) ;;
  ret row.

(** The unique columns of User: id, idNumber, phoneNumber, and the e-mail
    address inside the tenant; NULL equals nothing. *)
Definition same_key (a b : option string) : bool :=
  match a, b with Some x, Some y => x === y | _, _ => false end.
Definition user_clash (p q : UserProfile) : bool :=
  (up_id p === up_id q) || same_key (up_idNumber p) (up_idNumber q)
  || same_key (up_phoneNumber p) (up_phoneNumber q)
  || ((up_tenantId p === up_tenantId q) && (up_email p === up_email q)).

(** [user.create] with [role: MEMBER]. *)
Definition user_create (p : UserProfile) : IM unit :=
  let* t := gets tables in
  let* d := gets (fun s => db (base s)) in
  throw_if (existsb (user_clash p) (profiles t) || user_exists (up_id p) d) (UniqueViolation "User") ;;
  modify (with_base (with_db (fun d => set_users (users d ++ [mkUser (up_id p) (up_tenantId p) MEMBER]) d))) ;;
  modify (with_tables (fun t => set_profiles (profiles t ++ [p]) t)).

Definition member_create (id : string) (m : Member) (nationalId : option string) : IM unit :=
  let* d := gets (fun s => db (base s)) in
  throw_if (bool_decide (is_Some (members d !! id))
            || existsb (fun kv => (mem_userId kv.2 === mem_userId m)
                 || ((mem_tenantId kv.2 === mem_tenantId m) && (mem_memberNumber kv.2 === mem_memberNumber m)))
                 (map_to_list (members d))) (UniqueViolation "Member") ;;
  throw_if (negb (user_exists (mem_userId m) d)) (ForeignKeyViolation "Member") ;;
  modify (with_base (with_db (fun d => set_members (<[id := m]> (members d)) d))) ;;
  modify (with_tables (fun t => set_nationalIds (<[id := nationalId]> (nationalIds t)) t)).

(** The upserts by [userId_stageId] and [memberId_stageId]. *)
Definition stageAssignment_upsert (row : StageAssignment) : IM unit :=
  modify (with_tables (fun t =>
    let same a := (sa_userId a === sa_userId row) && (sa_stageId a === sa_stageId row) in
    set_stageAssignments (if existsb same (stageAssignments t)
      then update_where same (fun _ => row) (stageAssignments t) else stageAssignments t ++ [row]) t)).

Definition memberStage_upsert (row : MemberStage) : IM unit :=
  modify (with_tables (fun t =>
    let same a := (ms_memberId a === ms_memberId row) && (ms_stageId a === ms_stageId row) in
    set_memberStages (if existsb same (memberStages t)
      then update_where same (fun _ => row) (memberStages t) else memberStages t ++ [row]) t)).

(** ** Report updates *)
Definition add_stage_created (name : string) (r : ImportReport) : ImportReport :=
  mkReport (batchId r) (importLogId r) (totalRows r) (successCount r) (failedCount r) (warningCount r)
    (skippedCount r) (dryRun r) (report_errors r) (createdUsers r)
    (if bool_decide (name ∈ createdStages r) then createdStages r else createdStages r ++ [name]).

Definition count_success (warned : bool) (userId : string) (r : ImportReport) : ImportReport :=
  mkReport (batchId r) (importLogId r) (totalRows r) (successCount r + 1) (failedCount r)
    (if warned then warningCount r + 1 else warningCount r) (skippedCount r) (dryRun r) (report_errors r)
    (createdUsers r ++ [userId]) (createdStages r).

Definition push_error (e : ReportError) (r : ImportReport) : ImportReport :=
  mkReport (batchId r) (importLogId r) (totalRows r) (successCount r) (failedCount r) (warningCount r)
    (skippedCount r) (dryRun r) (report_errors r ++ [e]) (createdUsers r) (createdStages r).

Definition count_failure (e : ReportError) (r : ImportReport) : ImportReport :=
  push_error e (mkReport (batchId r) (importLogId r) (totalRows r) (successCount r) (failedCount r + 1)
    (warningCount r) (skippedCount r) (dryRun r) (report_errors r) (createdUsers r) (createdStages r)).

(** ** processRow *)
Record RowContext := mkRowContext {
  rc_tenantId : string;
  rc_wardId : string;
  rc_actorId : string;
  rc_batchId : string;
}.

Definition canonical_stage_name (row : ValidatedRow) : string :=
  match fs_matched <$> fuzzyStageMatch row with
  | Some m => m
  | None => match truthy (stageName (parsed row)) with Some s => applyKnownAliases s | None => "UNASSIGNED" end
  end.

Definition find_or_create_stage (c : RowContext) (name : string) : IM Stage :=
  let* found := gets (fun s => find_stage (rc_tenantId c) (rc_wardId c) name (tables s)) in
  match found with
  | Some stage => ret stage
  | None =>
      let* stage := stage_create (rc_tenantId c) (rc_wardId c) name in
      modify (with_report (add_stage_created name)) ;;
      ret stage
  end.

Definition row_phone (row : ParsedCsvRow) : string :=
  match phoneNumber row, rawPhone row with
  | Some p, _ => p
  | None, Some p => p
  | None, None => "unknown-" +:+ pretty (rowNumber row)
  end.

Definition row_profile (c : RowContext) (id email hash : string) (row : ParsedCsvRow) : UserProfile :=
  mkProfile id (rc_tenantId c) email hash (row_firstName row) (row_lastName row) (idNumber row) (phoneNumber row)
    (nextOfKinPhone row) (legacyNo row) (Some (rc_batchId c)) (Some (rc_wardId c)) (Some (rc_actorId c)).

Definition row_member (c : RowContext) (userId email number : string) (row : ParsedCsvRow) : Member :=
  mkMember (rc_tenantId c) number userId (row_firstName row) (row_lastName row) (phoneNumber row) (Some email)
    KYC_PENDING_UPLOAD.

Definition processRowBody (c : RowContext) (passwordHash : string) (v : ValidatedRow) : IM string :=
  let row := parsed v in
  let* stage := find_or_create_stage c (canonical_stage_name v) in
  let email := generateImportEmail (row_firstName row) (row_lastName row) (row_phone row) in
  let* finalEmail := uniqueImportEmail (rc_tenantId c) email (rowNumber row) in
  let* userId := lift fresh_id in
  user_create (row_profile c userId finalEmail passwordHash row) ;;
  let* number := generateUniqueMemberNumber (rc_tenantId c) in
  let* memberId := lift fresh_id in
  member_create memberId (row_member c userId finalEmail number row) (idNumber row) ;;
  lift (provisionMemberAccounts (rc_tenantId c) memberId) ;;
  stageAssignment_upsert (mkAssignment userId (stage_id stage) (mapPosition (position row)) true) ;;
  memberStage_upsert (mkMemberStage memberId (stage_id stage) (Some (rc_actorId c)) true) ;;
  modify (with_report (count_success (negb (Nat.eqb (length (warnings v)) 0)) userId)) ;;
  ret userId.

Definition welcome_message (phone password : string) : OutboxMessage :=
  mkMessage SMS "TEMP_PASSWORD" phone
    ("Welcome to Beba SACCO. Login with your phone number " +:+ phone +:+ " and temporary password: " +:+ password
     +:+ ". You will be required to change it immediately.").

Definition processRow (c : RowContext) (v : ValidatedRow) : IM unit :=
  let* tempPassword := generateTempPassword in
  let* passwordHash := hash_password tempPassword in
  import_transaction (processRowBody c passwordHash v) ;;
  match truthy (phoneNumber (parsed v)) with
  | Some phone => lift (modify (send_message (welcome_message phone tempPassword)))
  | None => ret tt
  end.

(** ** processBatch *)
Definition row_failure (v : ValidatedRow) (e : exn) : ReportError :=
  mkReportError (rowNumber (parsed v)) "SYSTEM" None (exn_message e) "ROW_PROCESSING_ERROR".

(** [try { await processRow(...) } catch (error) { ... }] *)
Definition try_row (c : RowContext) (v : ValidatedRow) : IM unit := fun s =>
  match processRow c v s with
  | (Ok _, s') => (Ok tt, s')
  | (Err e, s') => (Ok tt, with_report (count_failure (row_failure v e)) s')
  end.

Definition processBatch (c : RowContext) (batch : list ValidatedRow) : IM unit :=
  foldM (fun _ v => try_row c v) tt batch.

(** ** executeImport *)
Definition BATCH_SIZE : nat := 50.
Definition FAILURE_THRESHOLD : num := num_div (num_of_Z 1) (num_of_Z 10).

(** [for (let i = 0; i < arr.length; i += n) result.push(arr.slice(i, i + n));]
    [None] when the fuel runs out. *)
Fixpoint chunk_from {A} (fuel n i : nat) (arr : list A) : option (list (list A)) :=
  if Nat.ltb i (length arr) then
    match fuel with
    | O => None
    | S fuel' => cons (take n (drop i arr)) <$> chunk_from fuel' n (i + n) arr
    end
  else Some [].

Definition chunk {A} (arr : list A) (n : nat) : list (list A) :=
  default [] (chunk_from (length arr) n 0 arr).

Definition halt_error (failureRate : num) : ReportError :=
  mkReportError 0 "BATCH" None
    ("Import halted: failure rate " +:+ toFixed1 (num_mul failureRate (num_of_Z 100)) +:+ "% exceeded 10% threshold")
    "BATCH_FAILURE_THRESHOLD_EXCEEDED".

(** The loop over the batches, with its early [break]. *)
Fixpoint run_batches (c : RowContext) (total processable : nat) (processed : nat) (batches : list (list ValidatedRow))
  : IM unit :=
  match batches with
  | [] => ret tt
  | batch :: rest =>
      processBatch c batch ;;
      let processed' := (processed + length batch)%nat in
      let* r := gets report in
      let failureRate := num_div (num_of_Z (failedCount r)) (num_of_Z (Z.of_nat total)) in
      if num_lt FAILURE_THRESHOLD failureRate && Nat.ltb processed' processable
      then modify (with_report (push_error (halt_error failureRate)))
      else run_batches c total processable processed' rest
  end.

Definition processable_row (v : ValidatedRow) : bool :=
  (action v === CREATE) && negb (status v === ERROR) && negb (status v === DUPLICATE).

Definition row_errors (v : ValidatedRow) : list ReportError :=
  (fun e => mkReportError (rowNumber (parsed v)) (field e) (value e) (reason e) (re_errorCode e)) <$> errors v.

Definition initial_report (batch logId : string) (dry : bool) (rows : list ValidatedRow) : ImportReport :=
  let skipped := List.filter (fun v => negb (processable_row v)) rows in
  mkReport batch logId (Z.of_nat (length rows)) 0 (count_status ERROR skipped) 0 (Z.of_nat (length skipped)) dry
    (mjoin (row_errors <$> skipped)) [] [].

Definition dry_report (processable : list ValidatedRow) (r : ImportReport) : ImportReport :=
  mkReport (batchId r) (importLogId r) (totalRows r) (Z.of_nat (length processable)) (failedCount r)
    (count_status WARNING processable) (skippedCount r) (dryRun r) (report_errors r) (createdUsers r)
    (createdStages r).

Definition executeImport (logId : string) (c : RowContext) (dry : bool) (rows : list ValidatedRow)
  : IM ImportReport :=
  let processableRows := List.filter processable_row rows in
  modify (with_report (fun _ => initial_report (rc_batchId c) logId dry rows)) ;;
  if dry then modify (with_report (dry_report processableRows)) ;; gets report else
  let* ward := gets (fun s => bool_decide (rc_wardId c ∈ wards (tables s))) in
  throw_if (negb ward) (PlainError ("Ward " +:+ rc_wardId c +:+ " not found")) ;;
  run_batches c (length rows) (length processableRows) 0 (chunk processableRows BATCH_SIZE) ;;
  lift (modify (log_audit "BULK_IMPORT")) ;;
  gets report.
End Run.
