(* ===== verification/ImportJobs.v ===== *)
(** * ImportJobs: previews, queued jobs and their states

    [src/src/modules/data-import/data-import.service.ts] and
    [processors/import.processor.ts].  The csv-parse package is an argument: the
    rows it yields for the uploaded file. *)
From S2P Require Import Prelude Json ImportText Fuzzy Schema Accounts Import ImportRun.

(** The identifier BullMQ gives the [n]-th job of the queue. *)
Class JobIds := { bullJobId : nat -> string }.

Section Jobs.
Context `{UuidSource} `{Entropy} `{JobIds}.

(** ** Import logs *)
Definition find_log (tenantId id : string) (t : ImportTables) : option DataImportLog :=
  List.find (fun l => (il_id l === id) && (il_tenantId l === tenantId)) (importLogs t).

Definition find_log_by_job (tenantId jobId : string) (t : ImportTables) : option DataImportLog :=
  List.find (fun l => (il_tenantId l === tenantId) && same_key (il_queueJobId l) (Some jobId)) (importLogs t).

(** [dataImportLog.update({ where: { id }, data: f })] *)
Definition log_update (id : string) (f : DataImportLog -> DataImportLog) : IM unit :=
  let* t := gets tables in
  throw_if (negb (existsb (fun l => il_id l === id) (importLogs t))) (RecordNotFound "DataImportLog") ;;
  modify (with_tables (fun t => set_importLogs (update_where (fun l => il_id l === id) f (importLogs t)) t)).

Definition log_create (tenantId actorId fileName : string) (rows : nat) (dry : bool) (details : ErrorDetails)
  : IM DataImportLog :=
  let* id := lift fresh_id in
  let* batch := lift fresh_id in
  let* now := gets (fun s => clock (base s)) in
  let* t := gets tables in
  throw_if (existsb (fun l => (il_id l === id) || (il_batchId l === batch)) (importLogs t)) (UniqueViolation "DataImportLog") ;;
  let row := mkImportLog id tenantId batch actorId fileName (Z.of_nat rows) (0, 0, 0, 0) QUEUED dry details
               None None None None now in
  modify (with_tables (fun t => set_importLogs (importLogs t ++ [row]) t)) ;;
  ret row.

Definition log_previewed (r : ImportPreviewReport) (l : DataImportLog) : DataImportLog :=
  mkImportLog (il_id l) (il_tenantId l) (il_batchId l) (il_initiatedBy l) (il_fileName l) (pr_totalRows r)
    (let '(s, f, _, k) := il_counts l in (s, f, pr_warningCount r, k)) QUEUED (il_dryRun l) (ED_rows (pr_rows r))
    (il_reportData l) (il_queueJobId l) (il_startedAt l) (il_completedAt l) (il_createdAt l).

Definition log_queued (jobId : string) (dry : option bool) (l : DataImportLog) : DataImportLog :=
  mkImportLog (il_id l) (il_tenantId l) (il_batchId l) (il_initiatedBy l) (il_fileName l) (il_totalRows l)
    (il_counts l) QUEUED (default false dry) (il_errorDetails l) (il_reportData l) (Some jobId) (il_startedAt l)
    (il_completedAt l) (il_createdAt l).

Definition log_job (jobId : string) (l : DataImportLog) : DataImportLog :=
  mkImportLog (il_id l) (il_tenantId l) (il_batchId l) (il_initiatedBy l) (il_fileName l) (il_totalRows l)
    (il_counts l) (il_status l) (il_dryRun l) (il_errorDetails l) (il_reportData l) (Some jobId) (il_startedAt l)
    (il_completedAt l) (il_createdAt l).

Definition log_processing (now : Z) (l : DataImportLog) : DataImportLog :=
  mkImportLog (il_id l) (il_tenantId l) (il_batchId l) (il_initiatedBy l) (il_fileName l) (il_totalRows l)
    (il_counts l) PROCESSING (il_dryRun l) (il_errorDetails l) (il_reportData l) (il_queueJobId l) (Some now)
    (il_completedAt l) (il_createdAt l).

Definition log_settled (st : ImportJobStatus) (r : ImportReport) (now : Z) (l : DataImportLog) : DataImportLog :=
  mkImportLog (il_id l) (il_tenantId l) (il_batchId l) (il_initiatedBy l) (il_fileName l) (il_totalRows l)
    (successCount r, failedCount r, warningCount r, skippedCount r) st (il_dryRun l) (il_errorDetails l) (Some r)
    (il_queueJobId l) (il_startedAt l) (Some now) (il_createdAt l).

Definition log_fatal (msg : string) (now : Z) (l : DataImportLog) : DataImportLog :=
  mkImportLog (il_id l) (il_tenantId l) (il_batchId l) (il_initiatedBy l) (il_fileName l) (il_totalRows l)
    (il_counts l) FAILED (il_dryRun l) (ED_fatal msg) (il_reportData l) (il_queueJobId l) (il_startedAt l)
    (Some now) (il_createdAt l).

(** ** The queue *)
Definition enqueue_import (importJobId tenantId : string) : IM string := fun s =>
  (Ok (bullJobId (length (importQueue s))),
   mkIW (base s) (tables s) (draws s) (report s) (importQueue s ++ [(importJobId, tenantId)])).

(** ** DataImportService *)

(** The users found by ID number and by phone, whatever their tenant. *)
Definition fetchExistingByIdNumber (t : ImportTables) : gmap string string :=
  foldl (fun m u => match truthy (up_idNumber u) with Some k => <[k := up_id u]> m | None => m end) ∅ (profiles t).
Definition fetchExistingByPhone (t : ImportTables) : gmap string string :=
  foldl (fun m u => match truthy (up_phoneNumber u) with Some k => <[k := up_id u]> m | None => m end) ∅ (profiles t).

Definition existing_of (tenantId wardId : string) (t : ImportTables) : Existing :=
  mkExisting (fetchExistingByIdNumber t) (fetchExistingByPhone t)
    (stage_name <$> List.filter (fun st => (stage_tenantId st === tenantId) && (stage_wardId st === wardId)) (stages t)).

Definition preview (fileName : string) (csvRows : result (list (list string))) (wardId tenantId actorId : string)
  : IM ImportPreviewReport :=
  let* ward := gets (fun s => bool_decide (wardId ∈ wards (tables s))) in
  throw_if (negb ward) (BadRequest ("Ward '" +:+ wardId +:+ "' not found")) ;;
  match (match csvRows with Ok rows => parseBuffer rows | Err e => Err e end) with
  | Err e => throw e
  | Ok parsedRows =>
      throw_if (Nat.eqb (length parsedRows) 0) (BadRequest "CSV file contains no data rows") ;;
      let* importLog := log_create tenantId actorId fileName (length parsedRows) true ED_null in
      let* ex := gets (fun s => existing_of tenantId wardId (tables s)) in
      let report := validateRows ex parsedRows (il_id importLog) fileName in
      log_update (il_id importLog) (log_previewed report) ;;
      ret report
  end.

Definition RATE_LIMIT_MS : Z := 10 * 60 * 1000.

Definition status_name (st : ImportJobStatus) : string :=
  match st with
  | QUEUED => "QUEUED" | PROCESSING => "PROCESSING" | COMPLETED => "COMPLETED" | FAILED => "FAILED"
  | PARTIAL => "PARTIAL"
  end.

(** The creation times of the tenant's other recent imports. *)
Definition recent_imports (tenantId logId : string) (now : Z) (t : ImportTables) : list Z :=
  il_createdAt <$> List.filter (fun l => (il_tenantId l === tenantId)
    && bool_decide (il_status l ∈ [PROCESSING; COMPLETED; PARTIAL])
    && (now - RATE_LIMIT_MS <=? il_createdAt l) && negb (il_id l === logId)) (importLogs t).

Definition rate_limited (createdAt now : Z) : exn :=
  let waitMs := RATE_LIMIT_MS - (now - createdAt) in
  TooManyRequests ("Rate limit: 1 import per tenant per 10 minutes. Please wait "
    +:+ pretty (- ((- waitMs) / 60000)) +:+ " more minute(s).").

Record Queued := mkQueued {
  q_jobId : string;
  q_importLogId : string;
  q_retryCount : option Z;
}.

Definition execute (logId : string) (dry : option bool) (tenantId : string) : IM Queued :=
  let* found := gets (fun s => find_log tenantId logId (tables s)) in
  let* l := or_throw found (NotFound ("Import log '" +:+ logId +:+ "' not found")) in
  throw_if (negb (il_status l === QUEUED)) (BadRequest ("Import log is in status '" +:+ status_name (il_status l)
    +:+ "'. Only QUEUED imports can be executed.")) ;;
  let* now := gets (fun s => clock (base s)) in
  let* recent := gets (fun s => recent_imports tenantId logId now (tables s)) in
  match recent with
  | t :: ts => throw (rate_limited (foldl Z.max t ts) now)
  | [] =>
      throw_if (match il_errorDetails l with ED_rows _ => false | _ => true end)
        (BadRequest "Import log has no validated rows. Please run preview first.") ;;
      let* jobId := enqueue_import (il_id l) tenantId in
      log_update (il_id l) (log_queued jobId dry) ;;
      ret (mkQueued jobId (il_id l) None)
  end.

(** [retryFailed].  On the details of a fatal error [allRows.filter] is not a
    function. *)
Definition retryFailed (logId tenantId actorId : string) : IM Queued :=
  let* found := gets (fun s => find_log tenantId logId (tables s)) in
  let* l := or_throw found (NotFound ("Import log '" +:+ logId +:+ "' not found")) in
  throw_if (negb (bool_decide (il_status l ∈ [COMPLETED; FAILED; PARTIAL]))) (BadRequest
    ("Cannot retry import in status '" +:+ status_name (il_status l)
     +:+ "'. Only COMPLETED/FAILED/PARTIAL jobs can be retried.")) ;;
  let* allRows := match il_errorDetails l with
                  | ED_rows rows => ret rows | ED_null => ret []
                  | ED_fatal _ => throw (PlainError "allRows.filter is not a function")
                  end in
  let failedRows := List.filter (fun v => status v === ERROR) allRows in
  throw_if (Nat.eqb (length failedRows) 0) (BadRequest "No failed rows to retry") ;;
  let* retryLog := log_create tenantId actorId ("RETRY_" +:+ il_fileName l) (length failedRows) false (ED_rows failedRows) in
  let* jobId := enqueue_import (il_id retryLog) tenantId in
  log_update (il_id retryLog) (log_job jobId) ;;
  ret (mkQueued jobId (il_id retryLog) (Some (Z.of_nat (length failedRows)))).

(** [getJobStatus] and [getJobReport] read the log of a job. *)
Definition getJobLog (jobId tenantId : string) : IM DataImportLog :=
  let* found := gets (fun s => find_log_by_job tenantId jobId (tables s)) in
  or_throw found (NotFound ("Job '" +:+ jobId +:+ "' not found")).

(** ** ImportProcessor *)
Definition finalStatus (r : ImportReport) : ImportJobStatus :=
  if failedCount r =? 0 then COMPLETED else if successCount r =? 0 then FAILED else PARTIAL.

Definition first_ward (tenantId : string) (t : ImportTables) : string :=
  default "" (stage_wardId <$> List.find (fun st => stage_tenantId st === tenantId) (stages t)).

Definition settle (id : string) (r : ImportReport) : IM unit :=
  let* now := gets (fun s => clock (base s)) in
  log_update id (log_settled (finalStatus r) r now).

Definition fail_fatally (id : string) (e : exn) : IM unit :=
  let* now := gets (fun s => clock (base s)) in
  log_update id (log_fatal (exn_message e) now) ;;
  throw e.

(** The [try] block and its [catch]. *)
Definition run_import (l : DataImportLog) (c : RowContext) (rows : list ValidatedRow) : IM unit := fun s =>
  match bind (executeImport (il_id l) c (il_dryRun l) rows) (settle (il_id l)) s with
  | (Ok _, s') => (Ok tt, s')
  | (Err e, s') => fail_fatally (il_id l) e s'
  end.

Definition process (job : string * string) : IM unit :=
  let '(importJobId, tenantId) := job in
  let* found := gets (fun s => find_log tenantId importJobId (tables s)) in
  let* l := or_throw found (PlainError ("Import log " +:+ importJobId +:+ " not found")) in
  match il_errorDetails l with
  | ED_rows rows =>
      let* wardId := gets (fun s => first_ward tenantId (tables s)) in
      let* now := gets (fun s => clock (base s)) in
      log_update importJobId (log_processing now) ;;
      run_import l (mkRowContext tenantId wardId (il_initiatedBy l) (il_batchId l)) rows
  | _ => throw (PlainError ("Import log " +:+ importJobId +:+ " has no persisted validated rows"))
  end.
End Jobs.
