(* ===== verification/AccountFacts.v ===== *)
(** * AccountFacts: who holds which account, and what opening one changes *)
From S2P Require Import Prelude Money Schema Ledger LedgerFacts Accounts.

(** ** Who holds an account of which type *)
Definition holds (t m : string) (T : AccountType) (a : Account) : Prop :=
  acc_tenantId a = t /\ acc_memberId a = m /\ acc_accountType a = T /\ acc_isActive a = true.

Lemma member_account_Some t m T d id a :
  member_account t m T d = Some (id, a) -> accounts d !! id = Some a /\ holds t m T a.
Proof.
  intros Hf. apply find_some_elem in Hf as [Hin HP]. apply elem_of_map_to_list in Hin.
  reflect. done.
Qed.

Lemma has_active_account_spec t m T d :
  has_active_account t m d T = true <-> exists id a, accounts d !! id = Some a /\ holds t m T a.
Proof.
  unfold has_active_account. rewrite bool_decide_eq_true. split.
  - intros [[id a] Hs]. apply member_account_Some in Hs. eauto.
  - intros (id & a & Ha & Ht & Hm & HT & Hact).
    destruct (member_account t m T d) as [x|] eqn:E; [by eexists|].
    eapply List.find_none in E; [|by apply list_elem_of_In, elem_of_map_to_list].
    cbn in E. by rewrite Ht, Hm, HT, Hact, !same_refl in E.
Qed.

(** At most one active account per tenant, member and type. *)
Definition one_account_each (d : DB) : Prop :=
  forall t m T id1 a1 id2 a2,
    accounts d !! id1 = Some a1 -> accounts d !! id2 = Some a2 ->
    holds t m T a1 -> holds t m T a2 -> id1 = id2.

Lemma one_account_insert d id a :
  one_account_each d -> accounts d !! id = None ->
  has_active_account (acc_tenantId a) (acc_memberId a) d (acc_accountType a) = false ->
  one_account_each (set_accounts (<[id := a]> (accounts d)) d).
Proof.
  intros Hone Hnew Hno t m T id1 a1 id2 a2 H1 H2 Hh1 Hh2. cbn in H1, H2.
  assert (forall k b, accounts d !! k = Some b -> holds t m T b -> holds t m T a -> False) as Hc.
  { intros k b Hb Hhb (Et & Em & ET & _). apply not_true_iff_false in Hno. apply Hno.
    apply has_active_account_spec. exists k, b. by rewrite Et, Em, ET. }
  apply lookup_insert_Some in H1 as [[<- <-]|[Hn1 H1]];
    apply lookup_insert_Some in H2 as [[<- <-]|[Hn2 H2]];
    [done|by destruct (Hc id2 a2)|by destruct (Hc id1 a1)|by eapply Hone].
Qed.

Section Accounts.
Context `{UuidSource}.

Lemma account_create_Ok a w id w' :
  account_create a w = (Ok id, w') ->
  accounts (db w) !! id = None /\ account_number_taken (acc_tenantId a) (acc_accountNumber a) (db w) = false /\
  w' = with_db (fun d => set_accounts (<[id := a]> (accounts d)) d) (bump_uuid w).
Proof.
  unfold account_create. intros Hr. apply bind_Ok in Hr as (id0 & w1 & Hid & Hr).
  injection Hid as <- <-. run_inv. reflect. split_and!; [|done|done].
  by apply eq_None_not_Some.
Qed.

Lemma claim_account_seq_Ok t n w seq w' :
  claim_account_seq t n w = (Ok seq, w') -> accounts (db w') = accounts (db w).
Proof. unfold claim_account_seq. intros Hr. by run_inv. Qed.

Lemma has_active_ext t m T d d' :
  accounts d' = accounts d -> has_active_account t m d' T = has_active_account t m d T.
Proof. intros E. unfold has_active_account, member_account. by rewrite E. Qed.

Lemma one_account_ext d d' :
  accounts d' = accounts d -> one_account_each d -> one_account_each d'.
Proof. intros E Hone t m T id1 a1 id2 a2. rewrite E. apply Hone. Qed.

(** One successful creation: the member holds the type now, holds the other
    types as before, and uniqueness is kept. *)
Lemma account_create_holds t m number T pol w id w' :
  account_create (new_account t m number T pol) w = (Ok id, w') ->
  has_active_account t m (db w') T = true /\
  (forall T', T' <> T -> has_active_account t m (db w') T' = has_active_account t m (db w) T') /\
  (one_account_each (db w) -> has_active_account t m (db w) T = false -> one_account_each (db w')).
Proof.
  intros Hr. apply account_create_Ok in Hr as (Hnew & _ & ->). split_and!.
  - apply has_active_account_spec. exists id, (new_account t m number T pol).
    cbn. by rewrite lookup_insert_eq.
  - intros T' Hne. apply eq_true_iff_eq. rewrite !has_active_account_spec. cbn.
    split; intros (k & b & Hb & Hh); exists k, b.
    + split; [|done]. apply lookup_insert_Some in Hb as [[<- <-]|[_ Hb]]; [|done].
      destruct Hh as (_ & _ & HT & _). by destruct Hne.
    + split; [|done]. rewrite lookup_insert_ne; [done|congruence].
  - intros Hone Hno. by apply (one_account_insert (db w)).
Qed.

(** Creating the missing accounts one by one. *)
Lemma create_missing_holds t m pols first missing index w n w' :
  NoDup missing ->
  (forall T, T ∈ missing -> has_active_account t m (db w) T = false) ->
  foldM (fun index T =>
      account_create (new_account t m (account_number T (first + index)) T (pols T)) ;;
      ret (index + 1)) index missing w = (Ok n, w') ->
  (forall T, T ∈ missing -> has_active_account t m (db w') T = true) /\
  (forall T, T ∉ missing -> has_active_account t m (db w') T = has_active_account t m (db w) T) /\
  (one_account_each (db w) -> one_account_each (db w')).
Proof.
  intros Hnd. revert index w.
  induction Hnd as [|T missing HT Hnd IH]; intros index w Hno Hr; cbn in Hr; run_inv.
  { split_and!; [set_solver|done|done]. }
  inv_call @account_create_holds as (Hnow & Hothers & Hone).
  apply IH in Hrun0 as (Hin & Hout & Hone').
  - split_and!.
    + intros T0 [->|HT0]%elem_of_cons; [by rewrite Hout|auto].
    + intros T0 [HT0 HT1]%not_elem_of_cons. by rewrite Hout, Hothers.
    + intros Ho. apply Hone', Hone; [done|]. apply Hno. set_solver.
  - intros T0 HT0. rewrite Hothers; [apply Hno; set_solver|]. by intros ->.
Qed.
End Accounts.

(** With one account each, the lookup by member finds the account held. *)
Lemma member_account_held t m T d id a :
  one_account_each d -> accounts d !! id = Some a -> holds t m T a ->
  member_account t m T d = Some (id, a).
Proof.
  intros Hone Ha Hh.
  assert (has_active_account t m d T = true) as Hact by (apply has_active_account_spec; eauto).
  unfold has_active_account in Hact. apply bool_decide_eq_true in Hact as [[id' a'] Hs].
  rewrite Hs. apply member_account_Some in Hs as [Ha' Hh'].
  assert (id' = id) as -> by by eapply Hone. congruence.
Qed.
