(* ===== verification/Repayment.v ===== *)
(** * Repayment: LoanRepaymentService

    [src/src/modules/loans/loan-repayment.service.ts]: the repayment waterfall
    (penalty, then interest, then principal, the rest to the member's FOSA
    account), the allocation to installments, and the cancelling of delayed
    guarantor debits. *)
From S2P Require Import Prelude Money Json MpesaTypes Schema Ledger.

Definition GUARANTOR_RECOVERY_NOTICE_JOB : string := "guarantor-recovery-notice".
Definition GUARANTOR_DEBIT_JOB : string := "guarantor-debit-execute".

Record ProcessRepaymentInput := mkRepaymentInput {
  in_tenantId : string;
  in_amount : decimal;
  in_reference : string;
  in_processedBy : string;
  in_memberId : option string;
  in_loanId : option string;
  in_loanNumber : option string;
  in_accountReference : option string;
  in_mpesaTxId : option string;
  in_receipt : option string;
  in_resultCode : option Z;
  in_resultDesc : option string;
  in_transactionDate : option (option Z);  (* an invalid Date is [Some None] *)
  in_callbackPayload : option CallbackPayload;
}.

(** Three amounts, one per leg of the waterfall. *)
Record Legs := mkLegs {
  penalty : Z;
  interest : Z;
  principal : Z;
}.

(** What a loan owes, leg by leg. *)
Definition owed_by (l : Loan) : Legs :=
  mkLegs (loan_arrearsAmount l) (loan_accruedInterest l) (loan_outstandingBalance l).

Definition legs_sum (l : Legs) : Z := penalty l + interest l + principal l.

Record RepaymentAllocationSummary := mkSummary {
  sum_loanId : string;
  sum_loanNumber : string;
  sum_allocated : Legs;
  sum_overpaymentToFosa : Z;
  sum_outstandingBalance : Z;
  sum_status : LoanStatus;
}.

(** [s.replace(/^LOAN-/, '')] *)
Definition strip_loan_prefix (s : string) : string :=
  if String.prefix "LOAN-" s then String.substring 5 (String.length s - 5) s else s.

Definition loan_by_number (tenantId number : string) (d : DB) : option (string * Loan) :=
  List.find (fun kv => (loan_loanNumber kv.2 === number) && (loan_tenantId kv.2 === tenantId))
    (map_to_list (loans d)).

Definition validateLoanForRepayment (loanReference tenantId : string) : M (string * LoanStatus) :=
  let loanNumber := strip_loan_prefix loanReference in
  let* found := gets (fun w => loan_by_number tenantId loanNumber (db w)) in
  let* loan := or_throw found (NotFound ("Loan " +:+ loanNumber +:+ " not found")) in
  throw_if (negb (bool_decide (loan_status loan.2 ∈ [DISBURSED; ACTIVE])))
    (BadRequest ("Loan " +:+ loanNumber +:+ " is not in a repayable state")) ;;
  ret (loan.1, loan_status loan.2).

(** ** The waterfall *)

(** The legs paid from [amount] against what is owed, and what is left over. *)
Definition waterfall (amount : Z) (owed : Legs) : Legs * Z :=
  let toPenalty := Z.min amount (penalty owed) in
  let remaining := amount - toPenalty in
  let toInterest := Z.min remaining (interest owed) in
  let remaining := remaining - toInterest in
  let toPrincipal := Z.min remaining (principal owed) in
  let remaining := remaining - toPrincipal in
  (mkLegs toPenalty toInterest toPrincipal, if 0 <? remaining then remaining else 0).

Definition status_after (current : LoanStatus) (newPrincipal residual : Z) : LoanStatus :=
  if newPrincipal <=? 0 then FULLY_PAID
  else if (current === DEFAULTED) && (0 <? residual) then DEFAULTED else ACTIVE.

(** ** Installments *)

(** One installment takes what it can of the remaining legs: the legs left and
    the updated row, if it changed. *)
Definition allocate_row (paidAt : Z) (legs : Legs) (row : LoanRepayment)
  : Legs * option LoanRepayment :=
  if legs_sum legs <=? 0 then (legs, None) else
  let principalDue := if 0 <? lr_principalDue row then lr_principalDue row
                      else lr_amountPaid row * 100 in
  let addPenalty := Z.min (penalty legs) (Z.max (lr_penaltyDue row - lr_penaltyPaid row) 0) in
  let addInterest := Z.min (interest legs) (Z.max (lr_interestDue row - lr_interestPaid row) 0) in
  let addPrincipal := Z.min (principal legs) (Z.max (principalDue - lr_principalPaid row) 0) in
  let legs' := mkLegs (penalty legs - addPenalty) (interest legs - addInterest)
                 (principal legs - addPrincipal) in
  if addPenalty + addInterest + addPrincipal <=? 0 then (legs', None) else
  let paidTotal := (lr_penaltyPaid row + addPenalty) + (lr_interestPaid row + addInterest)
                   + (lr_principalPaid row + addPrincipal) in
  let dueTotal := lr_penaltyDue row + lr_interestDue row + principalDue in
  let status := if dueTotal <=? paidTotal then I_PAID else I_PARTIAL in
  (legs', Some (mkLoanRepayment (lr_id row) (lr_tenantId row) (lr_loanId row) (lr_dayNumber row)
    (lr_dueDate row) status (lr_principalDue row) (lr_interestDue row) (lr_penaltyDue row)
    (lr_principalPaid row + addPrincipal) (lr_interestPaid row + addInterest)
    (lr_penaltyPaid row + addPenalty) (to_numeric_10_2 paidTotal)
    (if status === I_PAID then Some paidAt else None) "WATERFALL" (lr_lastPenaltyAccrualDate row))).

(** [orderBy: [{ dueDate: 'asc' }, { dayNumber: 'asc' }]] *)
Definition due_before (r1 r2 : LoanRepayment) : Prop :=
  lr_dueDate r1 < lr_dueDate r2 \/ (lr_dueDate r1 = lr_dueDate r2 /\ lr_dayNumber r1 <= lr_dayNumber r2).
#[export] Instance due_before_dec : RelDecision due_before.
Proof. intros r1 r2. unfold due_before. apply _. Defined.

Definition open_installments (tenantId loanId : string) (d : DB) : list LoanRepayment :=
  merge_sort due_before (List.filter (fun r => (lr_tenantId r === tenantId)
    && (lr_loanId r === loanId) && bool_decide (lr_status r ∈ [I_PENDING; I_PARTIAL]))
    (loanRepayments d)).

Definition applyInstallmentAllocation (tenantId loanId : string) (allocation : Legs) : M unit :=
  let* rows := gets (fun w => open_installments tenantId loanId (db w)) in
  let* paidAt := gets clock in
  foldM (fun legs row =>
    let (legs', updated) := allocate_row paidAt legs row in
    (match updated with
     | Some row' => installment_update (lr_id row) (fun _ => row')
     | None => ret tt
     end) ;;
    ret legs') allocation rows ;;
  ret tt.

(** ** Locking reads *)
Definition disbursed_before (kv1 kv2 : string * Loan) : Prop :=
  match loan_disbursedAt kv1.2, loan_disbursedAt kv2.2 with
  | Some d1, Some d2 => d1 < d2 \/ (d1 = d2 /\ loan_createdAt kv1.2 <= loan_createdAt kv2.2)
  | Some _, None => True
  | None, Some _ => False
  | None, None => loan_createdAt kv1.2 <= loan_createdAt kv2.2
  end.
#[export] Instance disbursed_before_dec : RelDecision disbursed_before.
Proof. intros kv1 kv2. unfold disbursed_before. repeat case_match; apply _. Defined.

Definition repayable (s : LoanStatus) : bool := bool_decide (s ∈ [ACTIVE; DISBURSED; DEFAULTED]).

(** The loan a repayment is for: by id, by number, or the member's oldest
    running one. *)
Definition target_loan (input : ProcessRepaymentInput) (d : DB) : option (string * Loan) :=
  let loanNumber := match in_loanNumber input with
    | Some n => Some n
    | None => strip_loan_prefix <$> in_accountReference input
    end in
  match truthy (in_loanId input), truthy loanNumber with
  | Some id, _ => pair id <$> tenant_loan (in_tenantId input) id d
  | None, Some number => loan_by_number (in_tenantId input) number d
  | None, None =>
      head (merge_sort disbursed_before (List.filter (fun kv =>
        (Some (loan_memberId kv.2) === in_memberId input)
        && (loan_tenantId kv.2 === in_tenantId input) && repayable (loan_status kv.2))
        (map_to_list (loans d))))
  end.

Definition lockTargetLoan (input : ProcessRepaymentInput) : M (string * Loan) :=
  let* found := gets (fun w => target_loan input (db w)) in
  let* loan := or_throw found (NotFound "Target loan not found for repayment") in
  throw_if (negb (repayable (loan_status loan.2))) (BadRequest "Loan is not repayable in status") ;;
  ret loan.

Definition lockFosaAccount (tenantId memberId : string) : M (string * Account) :=
  let* found := gets (fun w => member_account tenantId memberId FOSA (db w)) in
  or_throw found (NotFound "Active FOSA account not found for repayment").

Section Repayment.
Context `{UuidSource}.

Definition allocation_type (leg : Leg) : TransactionType :=
  match leg with LEG_PENALTY => PENALTY | LEG_INTEREST => INTEREST_EARNED | LEG_PRINCIPAL => LOAN_REPAYMENT end.
Definition allocation_label (leg : Leg) : string :=
  match leg with
  | LEG_PENALTY => "Penalty allocation"
  | LEG_INTEREST => "Interest allocation"
  | LEG_PRINCIPAL => "Principal allocation"
  end.
(** [label.toUpperCase().replace(/\s+/g, '_')] *)
Definition allocation_suffix (leg : Leg) : string :=
  match leg with
  | LEG_PENALTY => "PENALTY_ALLOCATION"
  | LEG_INTEREST => "INTEREST_ALLOCATION"
  | LEG_PRINCIPAL => "PRINCIPAL_ALLOCATION"
  end.
Definition leg_key (leg : Leg) : string :=
  match leg with LEG_PENALTY => "PENALTY" | LEG_INTEREST => "INTEREST" | LEG_PRINCIPAL => "PRINCIPAL" end.

Definition createAllocationTransaction (input : ProcessRepaymentInput) (accountId loanId : string)
    (amount balance : Z) (leg : Leg) : M string :=
  let* nonce := fresh_id in
  let* txn := transaction_create (mkTxnData (in_tenantId input) accountId (Some loanId)
    (allocation_type leg) T_COMPLETED amount balance balance
    (in_reference input +:+ "-" +:+ allocation_suffix leg +:+ "-" +:+ nonce)
    (allocation_label leg +:+ " from repayment " +:+ default (in_reference input) (in_receipt input))
    (in_processedBy input) None) in
  ret (txn_id txn).

(** One leg of the waterfall: its transaction row and its general-ledger
    posting.  The account's balance is not touched. *)
Definition post_leg (input : ProcessRepaymentInput) (accountId loanId : string) (balance : Z)
    (leg : Leg) (amount : Z) : M (list string) :=
  if 0 <? amount then
    let* txnId := createAllocationTransaction input accountId loanId amount balance leg in
    postLoanRepaymentLegEntry (in_tenantId input) (in_reference input +:+ "-" +:+ leg_key leg)
      leg (dec amount) txnId (in_processedBy input) None ;;
    ret [txnId]
  else ret [].

Definition post_overpayment (input : ProcessRepaymentInput) (accountId loanId : string)
    (overpayment : Z) : M (list string) :=
  if 0 <? overpayment then
    let* posted := postEntry (mkPostEntry (in_tenantId input) (in_reference input +:+ "-OVERPAY")
      JDEPOSIT accountId (dec overpayment) CREDIT (Some (in_processedBy input))
      (Some ("Loan repayment overpayment credited to FOSA "
             +:+ default (in_reference input) (in_receipt input)))
      None (Some loanId) true) in
    ret [txn_id (posted_transaction posted)]
  else ret [].

Definition repay_loan (owed paid : Legs) (status : LoanStatus) (l : Loan) : Loan :=
  mkLoan (loan_tenantId l) (loan_memberId l) (loan_loanProductId l) (loan_loanNumber l) status
    (loan_principalAmount l) (Z.max (principal owed - principal paid) 0)
    (loan_totalRepaid l + legs_sum paid) (Z.max (interest owed - interest paid) 0)
    (Z.max (penalty owed - penalty paid) 0) (loan_arrearsDays l) (loan_staging l)
    (loan_lastAccrualDate l) (loan_dueDate l) (loan_disbursedAt l) (loan_createdAt l)
    (loan_updatedAt l) (loan_terms l).

(** The client refuses to write an invalid Date. *)
Definition invalid_date : exn := PlainError "Invalid value for argument transactionDate: Invalid Date".

Definition settle_mpesa (input : ProcessRepaymentInput) (loanId : string) (ledgerIds : list string)
  : M unit :=
  match truthy (in_mpesaTxId input) with
  | None => ret tt
  | Some id =>
      let* now := gets clock in
      let* date := or_throw (default (Some now) (in_transactionDate input)) invalid_date in
      mpesa_update id (fun m => mkMpesaTransaction (mp_tenantId m) (mp_reference m) (mp_amount m)
        T_COMPLETED
        (match ledgerIds with i :: _ => Some i | [] => mp_transactionId m end) (Some loanId)
        (Some (default 0 (in_resultCode input))) (Some (default "Success" (in_resultDesc input)))
        (match in_receipt input with Some r => Some r | None => mp_receipt m end)
        (Some date)
        (match in_callbackPayload input with Some p => set_callbackPayload p (mp_details m) | None => mp_details m end))
  end.

(** ** The transaction of a repayment *)
Definition repayment_replay (input : ProcessRepaymentInput) (duplicate : Transaction)
    (loanId : string) : M RepaymentAllocationSummary :=
  let* found := gets (fun w => tenant_loan (in_tenantId input) loanId (db w)) in
  let* loan := or_throw found (NotFound "Existing repayment loan not found") in
  ret (mkSummary loanId (loan_loanNumber loan) (mkLegs 0 0 (txn_amount duplicate)) 0
         (loan_outstandingBalance loan) (loan_status loan)).

Definition repayment_fresh (input : ProcessRepaymentInput) (amount : Z)
  : M RepaymentAllocationSummary :=
  let* loan := lockTargetLoan input in
  let* account := lockFosaAccount (in_tenantId input) (loan_memberId loan.2) in
  let owed := owed_by loan.2 in
  let (paid, overpayment) := waterfall amount owed in
  applyInstallmentAllocation (in_tenantId input) loan.1 paid ;;
  let newPrincipal := principal owed - principal paid in
  let residual := legs_sum owed - legs_sum paid in
  let newStatus := status_after (loan_status loan.2) newPrincipal residual in
  let balance := acc_balance account.2 in
  let* ids1 := post_leg input account.1 loan.1 balance LEG_PENALTY (penalty paid) in
  let* ids2 := post_leg input account.1 loan.1 balance LEG_INTEREST (interest paid) in
  let* ids3 := post_leg input account.1 loan.1 balance LEG_PRINCIPAL (principal paid) in
  let* ids4 := post_overpayment input account.1 loan.1 overpayment in
  loan_update loan.1 (repay_loan owed paid newStatus) ;;
  settle_mpesa input loan.1 (ids1 ++ ids2 ++ ids3 ++ ids4) ;;
  ret (mkSummary loan.1 (loan_loanNumber loan.2) paid overpayment (Z.max newPrincipal 0) newStatus).

(** The summary, and whether the repayment was allocated now rather than
    found already recorded. *)
Definition repaymentBody (input : ProcessRepaymentInput) (amount : Z)
  : M (RepaymentAllocationSummary * bool) :=
  let* duplicate := gets (fun w => txn_by_reference (in_tenantId input) (in_reference input) (db w)) in
  match duplicate with
  | Some t =>
      match truthy (txn_loanId t) with
      | Some loanId => let* s := repayment_replay input t loanId in ret (s, false)
      | None => let* s := repayment_fresh input amount in ret (s, true)
      end
  | None => let* s := repayment_fresh input amount in ret (s, true)
  end.

Definition cancelDelayedGuarantorDebit (tenantId loanId : string) : M unit :=
  let* delayed := gets (fun w => List.filter (fun j => 0 <? job_delay j) (jobs w)) in
  foldM (fun _ job =>
    if (job_tenantId job === tenantId) && (job_loanId job === loanId)
       && (job_name job === GUARANTOR_DEBIT_JOB)
    then
      modify (with_jobs (List.filter (fun j => negb (job_id j === job_id job)))) ;;
      modify (log_audit "GUARANTOR_RECOVERY.DEBIT_CANCELLED")
    else ret tt) tt delayed.

(** Run [m]; when it throws, do [k] and throw again. *)
Definition on_error {A} (m : M A) (k : World -> World) : M A := fun w =>
  match m w with
  | (Ok a, w') => (Ok a, w')
  | (Err e, w') => (Err e, k w')
  end.

Definition processRepayment (input : ProcessRepaymentInput) : M RepaymentAllocationSummary :=
  throw_if (not_positive (in_amount input)) (BadRequest "INVALID_REPAYMENT_AMOUNT") ;;
  let amount := to_dp4 (finite_value (in_amount input)) in
  let* result := on_error (transaction (repaymentBody input amount))
                   (log_audit "LOAN.REPAYMENT.FAILED") in
  (if sum_status result.1 === DEFAULTED then ret tt
   else cancelDelayedGuarantorDebit (in_tenantId input) (sum_loanId result.1)) ;;
  (if result.2 then modify (log_audit "LOAN.REPAYMENT.WATERFALL") else ret tt) ;;
  ret result.1.

End Repayment.
