(* ===== verification/Guarantors.v ===== *)
(** * Guarantors: GuarantorValidationService

    [src/src/modules/loans/guarantor-validation.service.ts]: coverage of a loan
    by its guarantors' savings, and the holds placed on those savings. *)
From S2P Require Import Prelude Money Schema Ledger Accounts.

Record GuarantorCoverageInput := mkCoverageInput {
  gc_memberId : string;
  gc_guaranteedAmount : decimal;
}.

Record GuarantorCoverageResult := mkCoverageResult {
  totalGuaranteed : Q;
  cov_requiredCoverage : Z;
  coverageRatio : Z;
}.

Record GuarantorAccountBalance := mkAccountBalance {
  gb_id : string;
  gb_balance : Z;
  gb_lockedBalance : Z;
  gb_frozenSavings : Z;
  gb_availableBalance : Z;
}.

Definition resolveAccountType (requiredAccountType : option AccountType) : AccountType :=
  default FOSA requiredAccountType.

(** The nominated guarantors with their amounts: no member twice, no amount
    that is not finite and positive. *)
Fixpoint normalize_from (seen : list string) (guarantors : list GuarantorCoverageInput)
  : result (list (string * Q)) :=
  match guarantors with
  | [] => Ok []
  | g :: gs =>
      if bool_decide (gc_memberId g ∈ seen) then
        Err (BadRequest ("DUPLICATE_GUARANTOR: guarantor " +:+ gc_memberId g
          +:+ " was nominated more than once"))
      else if not_positive (gc_guaranteedAmount g) then
        Err (BadRequest ("INVALID_GUARANTEE_AMOUNT: guarantor " +:+ gc_memberId g
          +:+ " amount must be greater than zero"))
      else
        match normalize_from (gc_memberId g :: seen) gs with
        | Ok rest => Ok ((gc_memberId g, finite_value (gc_guaranteedAmount g)) :: rest)
        | Err e => Err e
        end
  end.

Definition normalizeGuarantors : list GuarantorCoverageInput -> result (list (string * Q)) :=
  normalize_from [].

Definition getActiveAccount (tenantId memberId : string) (accountType : AccountType)
  : M (option GuarantorAccountBalance) :=
  let* found := gets (fun w => member_account tenantId memberId accountType (db w)) in
  ret ((fun kv : string * Account => let a := kv.2 in
    mkAccountBalance kv.1 (acc_balance a) (acc_lockedBalance a) (acc_frozenSavings a)
      (acc_balance a - acc_lockedBalance a - acc_frozenSavings a)) <$> found).

Definition account_not_found (memberId : string) (accountType : AccountType) : exn :=
  BadRequest ("GUARANTOR_ACCOUNT_NOT_FOUND: guarantor " +:+ memberId +:+ " has no active "
    +:+ account_type_name accountType +:+ " account").
Definition insufficient_guarantor (memberId : string) : exn :=
  BadRequest ("GUARANTOR_INSUFFICIENT_FUNDS: guarantor " +:+ memberId).

(** The guarantor's account, which must have [amount] available. *)
Definition covering_account (tenantId memberId : string) (accountType : AccountType) (amount : Q)
  : M GuarantorAccountBalance :=
  let* found := getActiveAccount tenantId memberId accountType in
  let* account := or_throw found (account_not_found memberId accountType) in
  throw_if (negb (Qle_bool amount (dec (gb_availableBalance account))))
    (insufficient_guarantor memberId) ;;
  ret account.

Section Coverage.
Context `{DecimalLib}.

Definition validateGuarantorCoverage (tenantId : string) (loanAmount : Q)
    (guarantors : list GuarantorCoverageInput) (requiredAccountType : option AccountType)
    (guarantorCoverageRatio : option Z) : M GuarantorCoverageResult :=
  let* normalized := lift_result (normalizeGuarantors guarantors) in
  let accountType := resolveAccountType requiredAccountType in
  let ratio := default 10000 guarantorCoverageRatio in
  let required := to_dp4 (d_times loanAmount (dec ratio)) in
  let total := foldr (fun g acc => (g.2 + acc)%Q) 0%Q normalized in
  throw_if (negb (Qle_bool (dec required) total)) (BadRequest "INSUFFICIENT_COVERAGE") ;;
  foldM (fun _ g =>
    covering_account tenantId g.1 accountType g.2 ;; ret tt) tt normalized ;;
  ret (mkCoverageResult total required ratio).
End Coverage.

(** Account updates that keep everything but [frozenSavings] and the version. *)
Definition change_frozen (delta : Z) (a : Account) : Account :=
  set_frozen (acc_frozenSavings a + delta) (acc_version a + 1) a.

Definition place_hold (tenantId : string) (accountType : AccountType) (g : string * Q) : M unit :=
  let* account := covering_account tenantId g.1 accountType g.2 in
  let guaranteedAmount := to_dp4 g.2 in
  let newFrozenSavings := gb_frozenSavings account + guaranteedAmount in
  let* count := account_updateMany (gb_id account)
    (fun a => (acc_tenantId a === tenantId) && acc_isActive a
      && (acc_frozenSavings a =? gb_frozenSavings account)
      && (gb_lockedBalance account + newFrozenSavings <=? acc_balance a))
    (change_frozen guaranteedAmount) in
  throw_if (negb (Nat.eqb count 1))
    (Conflict "Guarantor collateral changed or insufficient; please retry").

Definition placeGuarantorHolds (tenantId : string) (guarantors : list GuarantorCoverageInput)
    (accountType : AccountType) : M unit :=
  let* normalized := lift_result (normalizeGuarantors guarantors) in
  foldM (fun _ g => place_hold tenantId accountType g) tt normalized.

Definition release_hold (tenantId : string) (accountType : AccountType) (g : string * Q) : M unit :=
  let* found := getActiveAccount tenantId g.1 accountType in
  match found with
  | None => ret tt
  | Some account =>
      let releaseAmount := to_dp4 (Qmin_ (dec (gb_frozenSavings account)) g.2) in
      if releaseAmount =? 0 then ret tt else
      let* count := account_updateMany (gb_id account)
        (fun a => (acc_tenantId a === tenantId) && acc_isActive a)
        (change_frozen (- releaseAmount)) in
      throw_if (negb (Nat.eqb count 1))
        (BadRequest ("HOLD_RELEASE_FAILED: guarantor " +:+ g.1 +:+ " account was not updated"))
  end.

Definition releaseGuarantorHolds (tenantId : string) (guarantors : list GuarantorCoverageInput)
    (accountType : AccountType) : M unit :=
  let* normalized := lift_result (normalizeGuarantors guarantors) in
  foldM (fun _ g => release_hold tenantId accountType g) tt normalized.
