(* ===== verification/GuarantorFacts.v ===== *)
(** * GuarantorFacts: what placing and releasing holds changes *)
From S2P Require Import Prelude Money Schema Ledger LedgerFacts Accounts AccountFacts.
From S2P Require Import Guarantors.

(** ** What a list of nominated guarantors puts on hold on one account *)
Definition holdsb (t m : string) (T : AccountType) (a : Account) : bool :=
  (acc_tenantId a === t) && (acc_memberId a === m) && (acc_accountType a === T) && acc_isActive a.

Lemma holdsb_spec t m T a : holdsb t m T a = true <-> holds t m T a.
Proof. unfold holdsb, holds. rewrite !andb_true_iff, !bool_decide_eq_true. tauto. Qed.

Definition hold_on (t : string) (T : AccountType) (a : Account) (g : string * Q) : Z :=
  if holdsb t g.1 T a then to_dp4 g.2 else 0.

Definition hold_amount (t : string) (T : AccountType) (gs : list (string * Q)) (a : Account) : Z :=
  sum_by (hold_on t T a) gs.

(** [d'] is [d] with [f] added to the frozen savings of every account, and
    nothing else but versions changed. *)
Definition reframed (f : Account -> Z) (d d' : DB) : Prop :=
  forall id, option_relation
    (fun a a' => exists v, a' = set_frozen (acc_frozenSavings a + f a) v a)
    (fun _ => False) (fun _ => False) (accounts d !! id) (accounts d' !! id).

Lemma set_frozen_same a : exists v, a = set_frozen (acc_frozenSavings a + 0) v a.
Proof. exists (acc_version a). rewrite Z.add_0_r. by destruct a. Qed.

Lemma reframed_zero d d' f :
  accounts d' = accounts d -> (forall a, f a = 0) -> reframed f d d'.
Proof.
  intros E Hf id. rewrite E. destruct (accounts d !! id) as [a|]; [|done]. cbn. rewrite Hf. apply set_frozen_same.
Qed.

Lemma reframed_trans f g d1 d2 d3 :
  (forall a x v, g (set_frozen x v a) = g a) ->
  reframed f d1 d2 -> reframed g d2 d3 -> reframed (fun a => f a + g a) d1 d3.
Proof.
  intros Hg H1 H2 id. specialize (H1 id). specialize (H2 id).
  destruct (accounts d1 !! id) as [a|], (accounts d2 !! id) as [b|], (accounts d3 !! id) as [c|];
    cbn in *; try done.
  destruct H1 as [v ->]. destruct H2 as [v' ->]. exists v'. rewrite Hg. cbn.
  unfold set_frozen. cbn. f_equal. lia.
Qed.

Lemma reframed_ext f g d d' : (forall a, f a = g a) -> reframed f d d' -> reframed g d d'.
Proof.
  intros E Hr id. specialize (Hr id). destruct (accounts d !! id), (accounts d' !! id); cbn in *; try done.
  by rewrite <- E.
Qed.

Lemma hold_amount_one t T g a :
  hold_amount t T [g] a = if holdsb t g.1 T a then to_dp4 g.2 else 0.
Proof. unfold hold_amount, hold_on. simpl. lia. Qed.

Lemma hold_amount_cons t T g gs a :
  hold_amount t T (g :: gs) a = hold_amount t T [g] a + hold_amount t T gs a.
Proof. unfold hold_amount. simpl. lia. Qed.

Lemma hold_amount_frozen t T gs a x v : hold_amount t T gs (set_frozen x v a) = hold_amount t T gs a.
Proof. done. Qed.

Lemma hold_amount_nonneg t T gs a :
  (forall g, g ∈ gs -> 0 <= to_dp4 g.2) -> 0 <= hold_amount t T gs a.
Proof.
  intros Hg. apply sum_by_nonneg. intros g Hin. unfold hold_on. destruct (holdsb _ _ _ _); [by apply Hg|lia].
Qed.

Lemma one_each_reframed f d d' : reframed f d d' -> one_account_each d -> one_account_each d'.
Proof.
  intros Hr Hone t m T id1 a1 id2 a2 H1 H2 Hh1 Hh2.
  assert (forall id a, accounts d' !! id = Some a -> holds t m T a ->
    exists b, accounts d !! id = Some b /\ holds t m T b) as Hback.
  { intros id a Ha Hh. specialize (Hr id). rewrite Ha in Hr.
    destruct (accounts d !! id) as [b|]; [|done]. destruct Hr as [v ->]. by exists b. }
  destruct (Hback _ _ H1 Hh1) as (b1 & Hb1 & ?). destruct (Hback _ _ H2 Hh2) as (b2 & Hb2 & ?).
  by eapply Hone.
Qed.

(** Changing the frozen savings of the account the member holds. *)
Lemma reframed_insert d t m T id a delta (f : Account -> Z) :
  one_account_each d -> accounts d !! id = Some a -> holds t m T a ->
  (forall b, f b = if holdsb t m T b then delta else 0) ->
  reframed f d (set_accounts (<[id := change_frozen delta a]> (accounts d)) d).
Proof.
  intros Hone Ha Hh Hf k. cbn. destruct (decide (id = k)) as [<-|Hne].
  - rewrite lookup_insert_eq, Ha. cbn. exists (acc_version a + 1). rewrite Hf.
    apply holdsb_spec in Hh as ->. done.
  - rewrite lookup_insert_ne by done. destruct (accounts d !! k) as [b|] eqn:Hb; [|done]. cbn.
    rewrite Hf. destruct (holdsb t m T b) eqn:E; [|apply set_frozen_same].
    apply holdsb_spec in E. by destruct Hne; eapply Hone.
Qed.

(** ** The operations *)
Lemma getActiveAccount_Ok t m T w o w' :
  getActiveAccount t m T w = (Ok o, w') ->
  w' = w /\
  match o with
  | Some b => exists a, member_account t m T (db w) = Some (gb_id b, a) /\
      b = mkAccountBalance (gb_id b) (acc_balance a) (acc_lockedBalance a) (acc_frozenSavings a)
            (acc_balance a - acc_lockedBalance a - acc_frozenSavings a)
  | None => member_account t m T (db w) = None
  end.
Proof.
  unfold getActiveAccount. intros Hr. run_inv.
  destruct (member_account t m T (db w')) as [[id a]|]; cbn; [|done]. split; [done|]. by exists a.
Qed.

Lemma covering_account_Ok t m T amount w b w' :
  covering_account t m T amount w = (Ok b, w') ->
  w' = w /\ (amount <= dec (gb_availableBalance b))%Q /\
  exists a, member_account t m T (db w) = Some (gb_id b, a) /\
    b = mkAccountBalance (gb_id b) (acc_balance a) (acc_lockedBalance a) (acc_frozenSavings a)
          (acc_balance a - acc_lockedBalance a - acc_frozenSavings a).
Proof.
  unfold covering_account. intros Hr. run_inv. inv_call getActiveAccount_Ok as (-> & Ha).
  apply negb_false_iff, Qle_bool_iff in Hguard. subst. done.
Qed.

Lemma place_hold_Ok t T g w u w' :
  place_hold t T g w = (Ok u, w') ->
  exists id a, member_account t g.1 T (db w) = Some (id, a) /\
    acc_lockedBalance a + (acc_frozenSavings a + to_dp4 g.2) <= acc_balance a /\
    db w' = set_accounts (<[id := change_frozen (to_dp4 g.2) a]> (accounts (db w))) (db w).
Proof.
  unfold place_hold. intros Hr. run_inv.
  inv_call covering_account_Ok as (-> & _ & a & Hm & Hb).
  destruct r as [id bal lock fro av]. injection Hb as -> -> -> ->. cbn in *.
  exists id, a. split; [done|].
  inv_call account_updateMany_Ok as [[-> ->]|(a' & -> & Ha' & Hc & _ & ->)]; [done|].
  pose proof (member_account_Some _ _ _ _ _ _ Hm) as [Ha _]. assert (a' = a) as -> by congruence.
  split; [|done]. apply andb_true_iff in Hc as [_ Hc]. by apply Z.leb_le.
Qed.

Lemma release_hold_Ok t T g w u w' :
  release_hold t T g w = (Ok u, w') ->
  (member_account t g.1 T (db w) = None /\ w' = w) \/
  exists id a, member_account t g.1 T (db w) = Some (id, a) /\
    let amount := Z.min (acc_frozenSavings a) (to_dp4 g.2) in
    (amount = 0 /\ w' = w \/
     db w' = set_accounts (<[id := change_frozen (- amount) a]> (accounts (db w))) (db w)).
Proof.
  unfold release_hold. intros Hr. run_inv. inv_call getActiveAccount_Ok as (-> & Ho).
  destruct r as [b|]; [right|run_inv; by left]. destruct Ho as (a & Hm & Hb).
  destruct b as [id bal lock fro av]. injection Hb as -> -> -> ->. cbn in *.
  exists id, a. split; [done|]. rewrite to_dp4_min in *.
  cbn zeta. destruct (Z.eqb_spec (Z.min (acc_frozenSavings a) (to_dp4 g.2)) 0) as [E|_]; run_inv; [by left|right].
  inv_call account_updateMany_Ok as [[-> ->]|(a' & -> & Ha' & Hc & _ & ->)]; [done|].
  pose proof (member_account_Some _ _ _ _ _ _ Hm) as [Ha _]. by assert (a' = a) as -> by congruence.
Qed.

Lemma place_hold_reframed t T g w u w' :
  one_account_each (db w) -> place_hold t T g w = (Ok u, w') ->
  reframed (hold_amount t T [g]) (db w) (db w').
Proof.
  intros Hone Hr. apply place_hold_Ok in Hr as (id & a & Hm & _ & ->).
  apply member_account_Some in Hm as [Ha Hh].
  apply (reframed_insert _ t g.1 T id a (to_dp4 g.2)); [done..|].
  intros b. by rewrite hold_amount_one.
Qed.

Lemma place_holds_reframed t T gs : forall w u w',
  one_account_each (db w) -> foldM (fun _ g => place_hold t T g) tt gs w = (Ok u, w') ->
  reframed (hold_amount t T gs) (db w) (db w').
Proof.
  induction gs as [|g gs IH]; intros w u w' Hone Hr; cbn [foldM] in Hr; run_inv.
  { by apply reframed_zero. }
  match goal with x : unit |- _ => destruct x end.
  pose proof (place_hold_reframed _ _ _ _ _ _ Hone Hrun) as H1.
  apply IH in Hrun0; [|by eapply one_each_reframed].
  eapply reframed_ext; [|exact (reframed_trans _ _ _ _ _ (hold_amount_frozen t T gs) H1 Hrun0)].
  intros a. by rewrite (hold_amount_cons t T g gs a).
Qed.

Lemma release_holds_reframed t T gs : forall w u w',
  one_account_each (db w) -> (forall g, g ∈ gs -> 0 <= to_dp4 g.2) ->
  (forall id a, accounts (db w) !! id = Some a -> hold_amount t T gs a <= acc_frozenSavings a) ->
  foldM (fun _ g => release_hold t T g) tt gs w = (Ok u, w') ->
  reframed (fun a => - hold_amount t T gs a) (db w) (db w').
Proof.
  induction gs as [|g gs IH]; intros w u w' Hone Hnn Hfz Hr; cbn [foldM] in Hr; run_inv.
  { by apply reframed_zero. }
  match goal with x : unit |- _ => destruct x end.
  assert (0 <= to_dp4 g.2) as Hg by (apply Hnn; set_solver).
  assert (forall a, 0 <= hold_amount t T gs a) as Hrest
    by (intros a; apply hold_amount_nonneg; intros; apply Hnn; set_solver).
  assert (reframed (fun a => - hold_amount t T [g] a) (db w) (db s)) as H1.
  { apply release_hold_Ok in Hrun as [(Hm & ->)|(id & a & Hm & Hcase)].
    - intros id. destruct (accounts (db w) !! id) as [a|] eqn:Ha; [|done].
      change (exists v, a = set_frozen (acc_frozenSavings a + - hold_amount t T [g] a) v a).
      rewrite hold_amount_one. destruct (holdsb t g.1 T a) eqn:E; [|apply set_frozen_same].
      apply holdsb_spec in E. by rewrite (member_account_held _ _ _ _ _ _ Hone Ha E) in Hm.
    - apply member_account_Some in Hm as [Ha Hh].
      pose proof (Hfz _ _ Ha) as Hf. rewrite hold_amount_cons, hold_amount_one in Hf.
      pose proof Hh as Hb. apply holdsb_spec in Hb. rewrite Hb in Hf. specialize (Hrest a).
      rewrite Z.min_r in Hcase by lia. cbn zeta in Hcase.
      assert (reframed (fun a => - hold_amount t T [g] a) (db w)
        (set_accounts (<[id := change_frozen (- to_dp4 g.2) a]> (accounts (db w))) (db w))) as Hset.
      { apply (reframed_insert _ t g.1 T id a (- to_dp4 g.2)); [done..|].
        intros b. rewrite hold_amount_one. destruct (holdsb t g.1 T b); lia. }
      destruct Hcase as [[E0 ->]| ->]; [|done].
      apply reframed_zero; [done|]. intros b. rewrite hold_amount_one.
      destruct (holdsb t g.1 T b); lia. }
  apply IH in Hrun0; [|by eapply one_each_reframed|intros; apply Hnn; set_solver|].
  - eapply reframed_ext; [|refine (reframed_trans _ _ _ _ _ _ H1 Hrun0); done].
    intros a0. rewrite (hold_amount_cons t T g gs a0). lia.
  - intros id a Ha. specialize (H1 id). rewrite Ha in H1.
    destruct (accounts (db w) !! id) as [b|] eqn:Hb; [|done]. destruct H1 as [v ->].
    specialize (Hfz _ _ Hb). rewrite hold_amount_cons in Hfz. rewrite hold_amount_frozen. simpl. lia.
Qed.

(** ** What normalising guarantees *)
Lemma normalize_from_Ok seen gs norm :
  normalize_from seen gs = Ok norm ->
  norm.*1 = gc_memberId <$> gs /\ NoDup (norm.*1) /\ (forall m, m ∈ norm.*1 -> m ∉ seen) /\
  forall g, g ∈ norm -> (0 < g.2)%Q.
Proof.
  revert seen norm. induction gs as [|g gs IH]; intros seen norm Hn; cbn in Hn.
  { injection Hn as <-. split_and!; [done|constructor|set_solver|set_solver]. }
  destruct (bool_decide _) eqn:Es; [done|]. destruct (not_positive _) eqn:Ep; [done|].
  destruct (normalize_from _ gs) as [rest|] eqn:Er; [|done]. injection Hn as <-.
  destruct (IH _ _ Er) as (E & Hnd & Hseen & Hpos). apply bool_decide_eq_false in Es. cbn.
  split_and!.
  - by f_equal.
  - apply NoDup_cons. split; [|done]. intros Hin. apply (Hseen _ Hin). by left.
  - intros m [->|Hm]%elem_of_cons; [done|]. intros Hm'. apply (Hseen _ Hm). by right.
  - intros x [->|Hx]%elem_of_cons; [|by apply Hpos]. cbn.
    destruct (gc_guaranteedAmount g) as [q|]; [|done]. cbn in *. apply Qnot_le_lt. intros Hle.
    apply Qle_bool_iff in Hle. congruence.
Qed.

Lemma normalized_nonneg gs norm :
  normalizeGuarantors gs = Ok norm -> forall g, g ∈ norm -> 0 <= to_dp4 g.2.
Proof.
  intros Hn g Hg. apply normalize_from_Ok in Hn as (_ & _ & _ & Hpos).
  apply to_dp4_nonneg, Qlt_le_weak. by apply Hpos.
Qed.

Lemma placeGuarantorHolds_Ok t gs T w u w' :
  placeGuarantorHolds t gs T w = (Ok u, w') ->
  exists norm, normalizeGuarantors gs = Ok norm /\
    foldM (fun _ g => place_hold t T g) tt norm w = (Ok u, w').
Proof.
  unfold placeGuarantorHolds. intros Hr. run_inv. inv_call lift_result_Ok as (Hn & ->). eauto.
Qed.

(** Every account's holds are covered by its balance. *)
Definition committed (d : DB) : Prop :=
  map_Forall (fun _ a => 0 <= acc_frozenSavings a /\
    acc_lockedBalance a + acc_frozenSavings a <= acc_balance a) (accounts d).

Lemma has_active_reframed f d d' t m T :
  reframed f d d' -> has_active_account t m d' T = has_active_account t m d T.
Proof.
  intros Hr. apply eq_true_iff_eq. rewrite !has_active_account_spec.
  split; intros (id & a & Ha & Hh); specialize (Hr id); rewrite Ha in Hr; cbn in Hr.
  - destruct (accounts d !! id) as [b|] eqn:Hb; [|done]. destruct Hr as [v ->]. by exists id, b.
  - destruct (accounts d' !! id) as [b|] eqn:Hb; [|done]. destruct Hr as [v ->]. by eexists id, _.
Qed.

Lemma place_holds_members t T gs : forall w u w',
  one_account_each (db w) -> foldM (fun _ g => place_hold t T g) tt gs w = (Ok u, w') ->
  forall m, m ∈ gs.*1 -> has_active_account t m (db w) T = true.
Proof.
  induction gs as [|g gs IH]; intros w u w' Hone Hr m Hm; cbn [foldM] in Hr; [by apply elem_of_nil in Hm|].
  run_inv. match goal with x : unit |- _ => destruct x end.
  pose proof (place_hold_reframed _ _ _ _ _ _ Hone Hrun) as H1.
  apply elem_of_cons in Hm as [->|Hm].
  - apply place_hold_Ok in Hrun as (id & a & Ha & _). unfold has_active_account.
    apply bool_decide_eq_true. by rewrite Ha.
  - rewrite <- (has_active_reframed _ _ _ _ _ _ H1). eapply IH; [by eapply one_each_reframed|done|done].
Qed.

Lemma committed_insert d id a :
  committed d -> 0 <= acc_frozenSavings a ->
  acc_lockedBalance a + acc_frozenSavings a <= acc_balance a ->
  committed (set_accounts (<[id := a]> (accounts d)) d).
Proof. intros Hc H1 H2. apply map_Forall_insert_2; [done|exact Hc]. Qed.

Lemma place_holds_committed t T gs w u w' :
  (forall g, g ∈ gs -> 0 <= to_dp4 g.2) -> committed (db w) ->
  foldM (fun _ g => place_hold t T g) tt gs w = (Ok u, w') -> committed (db w').
Proof.
  intros Hnn. apply (foldM_inv _ (fun _ w => committed (db w))).
  intros acc g s acc' s' Hg Hc Hb. apply place_hold_Ok in Hb as (id & a & Hm & Hle & ->).
  apply member_account_Some in Hm as [Ha _]. specialize (Hnn g Hg). destruct (Hc id a Ha) as [Hfz _].
  apply committed_insert; cbn; [done|lia|lia].
Qed.

Lemma release_holds_committed t T gs w u w' :
  committed (db w) -> (forall g, g ∈ gs -> 0 <= to_dp4 g.2) ->
  foldM (fun _ g => release_hold t T g) tt gs w = (Ok u, w') -> committed (db w').
Proof.
  intros Hc Hnn. revert Hc. apply (foldM_inv _ (fun _ w => committed (db w))).
  intros acc g s acc' s' Hg Hc Hb. specialize (Hnn g Hg).
  apply release_hold_Ok in Hb as [(_ & ->)|(id & a & Hm & [[_ ->]| ->])]; [done..|].
  apply member_account_Some in Hm as [Ha _]. destruct (Hc id a Ha) as [Hfz Hle].
  apply committed_insert; cbn; [done|lia|lia].
Qed.
