(* ===== verification/RepaymentFacts.v ===== *)
(** * RepaymentFacts: what each step of a repayment reads and writes *)
From S2P Require Import Prelude Money Json Schema Ledger LedgerFacts LedgerInv LedgerProps.
From S2P Require Import LedgerLegs Repayment.

Section Facts.
Context `{UuidSource}.

(** Rows a repayment appends: their references extend the repayment's own by
    a suffix that satisfies [P]. *)
Definition appended (P : string -> Prop) (input : ProcessRepaymentInput) (d d' : DB) : Prop :=
  exists ts, transactions d' = transactions d ++ ts /\
    forall t, t ∈ ts -> exists s, txn_reference t = in_reference input +:+ "-" +:+ s /\ P s.

Abbreviation own_rows := (appended (fun _ => True)).
Abbreviation leg_rows := (appended (fun s => s <> "OVERPAY")).

Lemma appended_refl P input d d' : transactions d' = transactions d -> appended P input d d'.
Proof. exists []. rewrite app_nil_r. set_solver. Qed.

Lemma appended_trans P input d1 d2 d3 :
  appended P input d1 d2 -> appended P input d2 d3 -> appended P input d1 d3.
Proof.
  intros (ts1 & E1 & H1) (ts2 & E2 & H2). exists (ts1 ++ ts2). split.
  - by rewrite E2, E1, app_assoc.
  - set_solver.
Qed.

Lemma leg_rows_own input d d' : leg_rows input d d' -> own_rows input d d'.
Proof. intros (ts & E & Hts). exists ts. split; [done|]. naive_solver. Qed.

(** Looking up a reference no appended row carries. *)
Lemma appended_lookup P input d d' t ref :
  appended P input d d' -> (forall s, ref = in_reference input +:+ "-" +:+ s -> ~ P s) ->
  txn_by_reference t ref d' = txn_by_reference t ref d.
Proof.
  intros (ts & E & Hts) Hno. unfold txn_by_reference. rewrite E.
  destruct (List.find _ (transactions d)) as [x|] eqn:Ef; [by apply find_app_some|].
  rewrite find_app_none by done. destruct (List.find _ ts) as [x|] eqn:E2; [|done].
  apply find_some_elem in E2 as [Hin HP]. reflect. destruct (Hts x Hin) as (s & Hs & HPs).
  exfalso. apply (Hno s); [congruence|done].
Qed.

(** The tables a leg leaves alone. *)
Definition loan_tables (d d' : DB) : Prop :=
  loans d' = loans d /\ loanRepayments d' = loanRepayments d /\ loanGuarantors d' = loanGuarantors d.

Lemma loan_tables_trans d1 d2 d3 : loan_tables d1 d2 -> loan_tables d2 d3 -> loan_tables d1 d3.
Proof. unfold loan_tables. intros (-> & -> & ->). done. Qed.

Lemma createAllocationTransaction_Ok input acc loan amount bal leg w id w' :
  createAllocationTransaction input acc loan amount bal leg w = (Ok id, w') ->
  exists t nonce, id = txn_id t /\ (id ∉ (txn_id <$> transactions (db w))) /\
    txn_reference t = in_reference input +:+ "-" +:+ allocation_suffix leg +:+ "-" +:+ nonce /\
    txn_type t = allocation_type leg /\
    db w' = set_transactions (transactions (db w) ++ [t]) (db w).
Proof.
  unfold createAllocationTransaction. intros Hr. apply bind_Ok in Hr as (n & w1 & Hid & Hr).
  injection Hid as <- <-. run_inv.
  inv_call transaction_create_Ok as (-> & _ & _ & Hid & _ & ->).
  do 2 eexists. split_and!; [reflexivity|exact Hid|reflexivity|done|done].
Qed.

Lemma post_leg_Ok input acc loan bal leg amount w ids w' :
  post_leg input acc loan bal leg amount w = (Ok ids, w') ->
  leg_rows input (db w) (db w') /\ loan_tables (db w) (db w') /\
  accounts (db w') = accounts (db w) /\ glAccounts (db w') = glAccounts (db w) /\
  (ledger_ok (db w) -> ledger_ok (db w')).
Proof.
  unfold post_leg. intros Hr. destruct (0 <? amount) eqn:Hpos; run_inv.
  2: { split_and!; [by apply appended_refl|done..]. }
  inv_call createAllocationTransaction_Ok as (t & nonce & -> & Hid & Href & Hty & Hdb).
  assert (leg_rows input (db w) (set_transactions (transactions (db w) ++ [t]) (db w))) as Hown.
  { exists [t]. split; [done|]. intros x ->%list_elem_of_singleton. eexists. split; [done|].
    by destruct leg. }
  unfold postLoanRepaymentLegEntry in *.
  inv_call postGlOnlyLegEntry_Ok as (_ & _ & [(_ & Hdb' & _)|Hnew]).
  - rewrite Hdb', Hdb. split_and!; try done. intros Hok. by apply ledger_ok_add_txn.
  - destruct Hnew as (actor & p1 & p2 & _ & _ & Hg1 & Hg2 & He & Hdb'). rewrite Hdb' in *. rewrite Hdb in *.
    split_and!; try done. intros Hok. cbn [journalEntries set_transactions].
    eapply (ledger_ok_leg _ _ _ (mkGLPosting (gl_id p1) (gl_id p2) (to_dp4 (dec amount)) _) Hok Hid);
      [by rewrite Hty; destruct leg|by rewrite He|by rewrite He|].
    intros t' T g Hg. rewrite (pair_effect (db w) (in_tenantId input) _ _ p1 p2 _ _
      (ok_gl_ids _ Hok) Hg1 Hg2 t' T g Hg).
    rewrite code_effect_other by auto with sacco. by destruct (_ === t').
Qed.

Lemma post_overpayment_Ok input acc loan over w ids w' :
  post_overpayment input acc loan over w = (Ok ids, w') ->
  own_rows input (db w) (db w') /\ loan_tables (db w) (db w') /\
  (ledger_ok (db w) -> ledger_ok (db w')) /\
  ((accounts (db w') = accounts (db w) /\
    (over <= 0 \/ is_Some (txn_by_reference (in_tenantId input) (in_reference input +:+ "-OVERPAY") (db w)))) \/
   (0 < over /\ exists a, active_account (in_tenantId input) acc (db w) = Some a /\
      accounts (db w') = <[acc := moved a over]> (accounts (db w)))).
Proof.
  unfold post_overpayment. intros Hr. destruct (0 <? over) eqn:Hpos; reflect; run_inv.
  2: { split_and!; [by apply appended_refl|done..|]. left. auto. }
  inv_call @postEntry_Ok as (actor & w1 & w2 & _ & Hp & Hb & E & E1 & _).
  cbn [pe_tenantId pe_amount pe_reference pe_journalType pe_accountId pe_direction pe_loanId
    pe_linkedTransactionId pe_description] in *. rewrite E in *. rewrite to_dp4_dec in *.
  assert (ledger_ok (db w) -> ledger_ok (db w2)) as Hkeep.
  { rewrite <- E1. intros Hok. exact (postEntryBody_keeps _ _ JDEPOSIT _ _ CREDIT _ _ _ _ _ _ _ Hok Hp eq_refl Hb). }
  apply postEntryBody_Ok in Hb as [(Hrep & -> & Hs & _)|Hf].
  - rewrite E1 in *. split_and!; [by apply appended_refl|done..|]. left. eauto.
  - destruct Hf as (a & ty & codes & p1 & p2 & _ & (Ha & _) & _ & _ & _ & _ & _ & _ & _ & -> & ->).
    cbn in Hkeep |- *. rewrite E1 in *. split_and!; [|done|done|].
    + eexists [_]. split; [done|]. intros x ->%list_elem_of_singleton. by eexists.
    + right. split; [done|]. eauto.
Qed.

Lemma applyInstallmentAllocation_frame t loan legs w u w' :
  applyInstallmentAllocation t loan legs w = (Ok u, w') ->
  same_ledger (db w) (db w') /\ loans (db w') = loans (db w) /\
  loanGuarantors (db w') = loanGuarantors (db w) /\ clock w' = clock w.
Proof.
  unfold applyInstallmentAllocation. intros Hr. run_inv.
  match goal with Hf : foldM _ _ _ _ = _ |- _ =>
    refine (foldM_inv _ (fun _ w1 => same_ledger (db s0) (db w1) /\ loans (db w1) = loans (db s0) /\
      loanGuarantors (db w1) = loanGuarantors (db s0) /\ clock w1 = clock s0) _ _ _ _ _ _ _ Hf) end;
    [|by split_and!].
  intros acc x s acc' s' _ (HI & Hl & Hg & Hc) Hb. destruct (allocate_row _ _ _) as [l [row|]]; run_inv;
    [|by split_and!].
  inv_call installment_update_Ok as ->. done.
Qed.

Lemma settle_mpesa_frame input loan ids w u w' :
  settle_mpesa input loan ids w = (Ok u, w') ->
  same_ledger (db w) (db w') /\ loan_tables (db w) (db w').
Proof.
  unfold settle_mpesa. intros Hr. destruct (truthy _); run_inv; [|done].
  inv_call mpesa_update_Ok as (m & ->). done.
Qed.

Lemma lockTargetLoan_Ok input w r w' :
  lockTargetLoan input w = (Ok r, w') ->
  target_loan input (db w) = Some r /\ repayable (loan_status r.2) = true /\ w' = w.
Proof. unfold lockTargetLoan. intros Hr. run_inv. by reflect. Qed.

Lemma lockFosaAccount_Ok t m w r w' :
  lockFosaAccount t m w = (Ok r, w') -> member_account t m FOSA (db w) = Some r /\ w' = w.
Proof. unfold lockFosaAccount. intros Hr. by run_inv. Qed.

(** A repayment that was allocated now, in full. *)
Lemma repayment_fresh_Ok input amount w s w' :
  repayment_fresh input amount w = (Ok s, w') ->
  exists id l accId a paid over w1,
    target_loan input (db w) = Some (id, l) /\ repayable (loan_status l) = true /\
    member_account (in_tenantId input) (loan_memberId l) FOSA (db w) = Some (accId, a) /\
    waterfall amount (owed_by l) = (paid, over) /\
    applyInstallmentAllocation (in_tenantId input) id paid w = (Ok tt, w1) /\
    loanRepayments (db w') = loanRepayments (db w1) /\
    (let newStatus := status_after (loan_status l) (principal (owed_by l) - principal paid)
       (legs_sum (owed_by l) - legs_sum paid) in
     s = mkSummary id (loan_loanNumber l) paid over
           (Z.max (principal (owed_by l) - principal paid) 0) newStatus /\
     exists l0 now, loans (db w) !! id = Some l0 /\
       loans (db w') = <[id := touch_loan now (repay_loan (owed_by l) paid newStatus l0)]> (loans (db w))) /\
    own_rows input (db w) (db w') /\ (ledger_ok (db w) -> ledger_ok (db w')) /\
    ((accounts (db w') = accounts (db w) /\
      (over <= 0 \/
       is_Some (txn_by_reference (in_tenantId input) (in_reference input +:+ "-OVERPAY") (db w)))) \/
     (0 < over /\ exists b, active_account (in_tenantId input) accId (db w) = Some b /\
        accounts (db w') = <[accId := moved b over]> (accounts (db w)))).
Proof.
  unfold repayment_fresh. intros Hr. run_inv.
  inv_call lockTargetLoan_Ok as (Htl & Hrep & ->). inv_call lockFosaAccount_Ok as (Hacc & ->).
  destruct (waterfall _ _) as [paid over] eqn:Hw. run_inv.
  match goal with u : unit |- _ => destruct u end.
  pose proof (applyInstallmentAllocation_frame _ _ _ _ _ _ Hrun) as (Hsl & El & _).
  assert (ledger_ok (db w) -> ledger_ok (db s0)) as K0 by (by rewrite <- Hsl).
  destruct Hsl as (Ea & Et & Ej & Eg).
  pose proof (appended_refl (fun s => s <> "OVERPAY") input _ _ Et) as O0.
  inv_call post_leg_Ok as (O1 & (L1 & R1 & _) & A1 & G1 & K1).
  inv_call post_leg_Ok as (O2 & (L2 & R2 & _) & A2 & G2 & K2).
  inv_call post_leg_Ok as (O3 & (L3 & R3 & _) & A3 & G3 & K3).
  inv_call post_overpayment_Ok as (O4 & (L4 & R4 & _) & K4 & Hover).
  inv_call loan_update_Ok as (l0 & Hl0 & _ & ->).
  inv_call settle_mpesa_frame as (S5 & L5 & R5 & _).
  pose proof (appended_trans _ _ _ _ _ O0 (appended_trans _ _ _ _ _ O1
    (appended_trans _ _ _ _ _ O2 O3))) as Hown.
  assert (accounts (db s3) = accounts (db w)) as Hacc3 by congruence.
  assert (loans (db s4) = loans (db w)) as Hl4 by congruence.
  exists r.1, r.2, r0.1, r0.2, paid, over, s0. rewrite <- !surjective_pairing.
  split_and!; try done; rewrite Hl4 in *; cbn in S5, L5, R5.
  - by destruct r1.
  - congruence.
  - eexists l0, _. split; [done|exact L5].
  - apply (appended_trans _ _ _ (db s3)); [by apply leg_rows_own|].
    apply (appended_trans _ _ _ (db s4)); [done|]. apply appended_refl. apply S5.
  - intros Hok. apply K0, K1, K2, K3, K4 in Hok. rewrite <- S5. by apply (ledger_ok_proper (db s4)).
  - destruct S5 as (Ea5 & _). cbn in Ea5. rewrite Ea5, <- Hacc3.
    destruct Hover as [(Eacc & [Hle|Hd])|(Hpos & b & Hb & Eacc)]; [by left; eauto| |right].
    { left. split; [done|right]. rewrite (appended_lookup _ _ _ _ _ _ Hown) in Hd; [done|].
      intros s Hs Hne. apply Hne. by apply str_app_inv, (str_app_inv "-") in Hs. }
   
    split; [done|]. exists b. split; [|done]. unfold active_account in *. by rewrite <- Hacc3.
Qed.
End Facts.
