(* ===== verification/LoanRules.v ===== *)
(** * LoanRules: the loan state machine, product rules and disbursement gate

    [src/src/core/state-machine.ts], the transition guard of the loans
    controller, [src/src/modules/loans/product-rule.service.ts] and
    [src/src/loans/disbursement-gate.service.ts]. *)
From S2P Require Import Prelude Money Json Schema.

(** ** State machine *)
Definition LOAN_TRANSITIONS (s : LoanStatus) : list LoanStatus :=
  match s with
  | DRAFT => [PENDING_GUARANTORS; PENDING_APPROVAL; REJECTED]
  | PENDING_GUARANTORS => [PENDING_REVIEW; PENDING_APPROVAL; REJECTED_GUARANTOR_DECLINE; REJECTED]
  | PENDING_REVIEW => [APPROVED; REJECTED]
  | PENDING_APPROVAL => [APPROVED; REJECTED]
  | APPROVED => [DISBURSED; ACTIVE]
  | DISBURSED => [ACTIVE]
  | ACTIVE => [FULLY_PAID; DEFAULTED]
  | DEFAULTED => [WRITTEN_OFF; ACTIVE]
  | REJECTED | REJECTED_GUARANTOR_DECLINE | FULLY_PAID | WRITTEN_OFF => []
  end.

Definition canTransition (from to : LoanStatus) : bool := bool_decide (to ∈ LOAN_TRANSITIONS from).

(** A status change the machine allows. *)
Definition loan_step (s s' : LoanStatus) : Prop := canTransition s s' = true.

Definition loan_status_name (s : LoanStatus) : string :=
  match s with
  | DRAFT => "DRAFT" | PENDING_GUARANTORS => "PENDING_GUARANTORS"
  | PENDING_REVIEW => "PENDING_REVIEW" | PENDING_APPROVAL => "PENDING_APPROVAL"
  | APPROVED => "APPROVED" | REJECTED => "REJECTED"
  | REJECTED_GUARANTOR_DECLINE => "REJECTED_GUARANTOR_DECLINE" | DISBURSED => "DISBURSED"
  | ACTIVE => "ACTIVE" | FULLY_PAID => "FULLY_PAID" | DEFAULTED => "DEFAULTED"
  | WRITTEN_OFF => "WRITTEN_OFF"
  end.

Definition assertTransition (from to : LoanStatus) : result unit :=
  if canTransition from to then Ok tt
  else
    let allowed := match LOAN_TRANSITIONS from with
      | [] => "none"
      | l => join ", " (loan_status_name <$> l)
      end in
    Err (PlainError ("INVALID_LOAN_STATUS_TRANSITION: " +:+ loan_status_name from +:+ " -> "
      +:+ loan_status_name to +:+ ". Allowed: " +:+ allowed)).

(** ** LoanStateTransitionGuard

    What the guard reads from a request: its metadata (absent on unguarded
    handlers), the loan id parameter, the tenant and the target status field. *)
Record GuardRequest := mkGuardRequest {
  gr_guarded : bool;
  gr_loanId : option string;
  gr_tenant_id : option string;       (* req.tenant?.id *)
  gr_tenantId : option string;        (* req.tenantId *)
  gr_tenantHeader : option string;    (* x-tenant-id *)
  gr_targetStatus : option string;
  gr_targetStatusMap : list (string * string);
}.

Definition nonempty (o : option string) : option string :=
  match o with Some s => if s === "" then None else Some s | None => None end.

(** [req.tenant?.id ?? req.tenantId ?? header] *)
Definition request_tenant (r : GuardRequest) : option string :=
  match gr_tenant_id r, gr_tenantId r with
  | Some t, _ => Some t
  | None, Some t => Some t
  | None, None => gr_tenantHeader r
  end.

Definition target_status (r : GuardRequest) (raw : string) : string :=
  match List.find (fun kv => kv.1 === raw) (gr_targetStatusMap r) with
  | Some kv => kv.2
  | None => raw
  end.

Definition canActivate (r : GuardRequest) : M bool :=
  if negb (gr_guarded r) then ret true else
  let* loanId := or_throw (nonempty (gr_loanId r))
    (BadRequest "Loan id is required for loan state transition validation") in
  let* tenantId := or_throw (nonempty (request_tenant r))
    (BadRequest "Tenant context is required for loan state transition validation") in
  match nonempty (gr_targetStatus r) with
  | None => ret true
  | Some raw =>
      let targetStatus := target_status r raw in
      let* found := gets (fun w => tenant_loan tenantId loanId (db w)) in
      let* loan := or_throw found (NotFound "Loan not found") in
      throw_if (negb (bool_decide (targetStatus ∈ loan_status_name <$> LOAN_TRANSITIONS (loan_status loan))))
        (BadRequest ("INVALID_LOAN_STATUS_TRANSITION: " +:+ loan_status_name (loan_status loan)
          +:+ " -> " +:+ targetStatus)) ;;
      ret true
  end.

(** ** ProductRuleService *)
Record ProductRuleProduct := mkProductRule {
  pr_name : string;
  pr_requiredAccountType : option AccountType;
  pr_savingsMultiplier : option Z;
  pr_minGuarantors : Z;
  pr_maxGuarantors : Z;
}.

Record ProductRuleResult := mkProductRuleResult {
  eligibleSavings : Z;
  savingsMultiplier : Z;
  requiredAccountLabel : string;
  minGuarantors : Z;
  maxGuarantors : Z;
}.

Definition resolve (product : ProductRuleProduct) (fosaBalance bosaBalance : Z) : ProductRuleResult :=
  mkProductRuleResult
    (match pr_requiredAccountType product with
     | Some BOSA => bosaBalance
     | Some FOSA => fosaBalance
     | None => fosaBalance + bosaBalance
     end)
    (default 30000 (pr_savingsMultiplier product))
    (match pr_requiredAccountType product with
     | Some BOSA => "BOSA" | Some FOSA => "FOSA" | None => "combined FOSA+BOSA"
     end)
    (pr_minGuarantors product) (pr_maxGuarantors product).

Section Rules.
Context `{DecimalLib}.

Definition assertLoanApplicationRules (product : ProductRuleProduct) (principal : Q)
    (guarantorCount fosaBalance bosaBalance : Z) : result ProductRuleResult :=
  let rules := resolve product fosaBalance bosaBalance in
  if eligibleSavings rules =? 0 then
    Err (BadRequest ("This product requires " +:+ requiredAccountLabel rules
      +:+ " savings, but none are available."))
  else if guarantorCount <? minGuarantors rules then
    Err (BadRequest (pr_name product +:+ " requires minGuarantors=" +:+ pretty (minGuarantors rules)
      +:+ "; received " +:+ pretty guarantorCount +:+ "."))
  else if (0 <? maxGuarantors rules) && (maxGuarantors rules <? guarantorCount) then
    Err (BadRequest (pr_name product +:+ " allows at most " +:+ pretty (maxGuarantors rules)
      +:+ " guarantor(s); received " +:+ pretty guarantorCount +:+ "."))
  else
    let maxLoanLimit := d_times (dec (eligibleSavings rules)) (dec (savingsMultiplier rules)) in
    if Qle_bool principal maxLoanLimit then Ok rules
    else Err (BadRequest "Loan amount exceeds your maximum eligible limit").

(** ** DisbursementGateService *)
Record DisbursementGateResult := mkGateResult {
  gatePassed : bool;
  blockingReasons : list string;
  acceptedCount : Z;
  requiredGuarantors : Z;
  totalAcceptedCoverage : Z;
  requiredCoverage : Z;
}.

(** The loan's guarantors in the tenant. *)
Definition loan_guarantors (tenantId loanId : string) (d : DB) : list LoanGuarantor :=
  List.filter (fun g => (lg_loanId g === loanId) && (lg_tenantId g === tenantId)) (loanGuarantors d).

Definition accepted (g : LoanGuarantor) : bool := lg_status g === G_ACCEPTED.

Definition gate_result (required principalAmount coverageRatio : Z) (guarantors : list LoanGuarantor)
  : DisbursementGateResult :=
  let accepted_ := List.filter accepted guarantors in
  let totalAccepted := sum_by lg_guaranteedAmount accepted_ in
  let coverage := d_times (dec principalAmount) (dec coverageRatio) in
  let reasons :=
    (if (0 <? required) && (Z.of_nat (length guarantors) <? required)
     then ["DISBURSEMENT_BLOCKED_MIN_GUARANTORS"] else [])
    ++ (if (0 <? required) && existsb (fun g => negb (accepted g)) guarantors
        then ["DISBURSEMENT_BLOCKED_GUARANTORS_PENDING"] else [])
    ++ (if (0 <? required) && (Z.of_nat (length accepted_) <? required)
        then ["DISBURSEMENT_BLOCKED_ACCEPTED_COUNT"] else [])
    ++ (if (0 <? required) && negb (Qle_bool coverage (dec totalAccepted))
        then ["DISBURSEMENT_BLOCKED_COVERAGE"] else []) in
  mkGateResult (bool_decide (reasons = [])) reasons (Z.of_nat (length accepted_)) required
    totalAccepted (to_dp4 coverage).

Definition evaluate (tenantId loanId : string) : M DisbursementGateResult :=
  let* found := gets (fun w => tenant_loan tenantId loanId (db w)) in
  let* loan := or_throw found (NotFound "Loan not found") in
  let* foundProduct := gets (fun w => loanProducts (db w) !! loan_loanProductId loan) in
  let* product := or_throw foundProduct (RecordNotFound "LoanProduct") in
  let* guarantors := gets (fun w => loan_guarantors tenantId loanId (db w)) in
  ret (gate_result (lp_minGuarantors product) (loan_principalAmount loan)
         (lp_guarantorCoverageRatio product) guarantors).

Definition assertPassed (tenantId loanId : string) : M unit :=
  let* result := evaluate tenantId loanId in
  throw_if (negb (gatePassed result)) (BadRequest (join "; " (blockingReasons result))).
End Rules.
