(* ===== verification/AuditLogs.v ===== *)
(** * AuditLogs: the audit log and the verification of its hash chain

    [src/src/modules/audit/audit.service.ts] (writing entries),
    [src/src/modules/audit/audit-chain.service.ts] (verifying and stamping
    them), the in-transaction writer of
    [src/src/modules/loans/loan-recovery.service.ts], and the feature flags of
    [src/src/config/feature-flags.ts] every entry records. *)
From S2P Require Import Prelude Money Json Schema.

(** Texts without the separator of the chain texts. *)
Abbreviation no_bar := (lacks "|").

(** SHA-256 comes from Node's crypto library: a parameter whose digests are 64
    hexadecimal digits, so none of them contains a bar. *)
Class Sha256 := {
  sha256 : string -> string;
  sha256_length : forall s, String.length (sha256 s) = 64%nat;
  sha256_hex : forall s, no_bar (sha256 s) = true;
}.

(** [process.env] *)
Class Environment := { env : string -> option string }.

(** ** Feature flags *)
Section Flags.
Context `{Environment}.

Definition readFlagValue (flagName : string) : string :=
  toLowerCase (trim (default "false" (env ("FEATURE_" +:+ flagName)))).

Definition canaryTenantsFor (flagName : string) : list string :=
  List.filter (fun t => negb (t === ""))
    (trim <$> split_on "," (default "" (env ("FEATURE_" +:+ flagName +:+ "_CANARY_TENANTS")))).

Definition isEnabled (flagName tenantId : string) : bool :=
  if readFlagValue flagName === "true" then true
  else if (readFlagValue flagName === "canary") && negb (tenantId === "")
  then bool_decide (tenantId ∈ canaryTenantsFor flagName)
  else false.
End Flags.

(** ** Rows *)
Definition later (a b : AuditLog) : Prop := al_timestamp b <= al_timestamp a.
Definition earlier (a b : AuditLog) : Prop := al_timestamp a <= al_timestamp b.
#[export] Instance later_dec : RelDecision later.
Proof. intros a b. unfold later. apply _. Defined.
#[export] Instance earlier_dec : RelDecision earlier.
Proof. intros a b. unfold earlier. apply _. Defined.

Definition tenant_audit (tenantId : string) (d : DB) : list AuditLog :=
  List.filter (fun e => al_tenantId e === tenantId) (auditLogs d).

(** [auditLog.findFirst({ where: { tenantId }, orderBy: { timestamp: 'desc' } })] *)
Definition latest_audit (tenantId : string) (d : DB) : option AuditLog :=
  head (merge_sort later (tenant_audit tenantId d)).

Definition latest_hash (tenantId : string) (d : DB) : option string :=
  match latest_audit tenantId d with Some e => al_entryHash e | None => None end.

(** [auditLog.create]: the actor is a foreign key, the request id unique. *)
Definition audit_row_create (row : AuditLog) : M unit :=
  let* d := gets db in
  throw_if (match al_actorId row with
            | Some a => negb (existsb (fun u => user_id u === a) (users d))
            | None => false end) (ForeignKeyViolation "AuditLog") ;;
  throw_if (match al_requestId row with
            | Some r => existsb (fun e => al_requestId e === Some r) (auditLogs d)
            | None => false end) (UniqueViolation "AuditLog") ;;
  modify (with_db (fun d => set_auditLogs (auditLogs d ++ [row]) d)).

Section Entries.
Context `{UuidSource, Sha256, Environment}.

(** The text whose digest is an entry's hash, for the chain verifier. *)
Definition entry_text (tenantId : string) (actorId : option string) (action entityType : string)
    (entityId : option string) (timestamp : Z) (prevHash : option string) : string :=
  join "|" [tenantId; default "" actorId; action; entityType; default "" entityId;
            toISOString timestamp; default "" prevHash].

Definition computeEntryHash (tenantId : string) (actorId : option string) (action entityType : string)
    (entityId : option string) (timestamp : Z) (prevHash : option string) : string :=
  sha256 (entry_text tenantId actorId action entityType entityId timestamp prevHash).

(** The recovery service's writer. *)
Definition createAuditLogInTransaction (tenantId actorId action entityType entityId : string)
    (metadata : json) : M unit :=
  let* timestamp := gets clock in
  let* prevHash := gets (fun w => latest_hash tenantId (db w)) in
  let entryHash := sha256 (join "|" [tenantId; actorId; action; entityType; entityId;
    toISOString timestamp; default "" prevHash]) in
  let* id := fresh_id in
  audit_row_create (mkAuditLog id tenantId (Some actorId) action entityType (Some entityId)
    timestamp prevHash (Some entryHash) None (Some metadata) None JNull JNull None None).

(** ** AuditService *)
Record CreateAuditLogDto := mkAuditDto {
  au_tenantId : string;
  au_actorId : option string;
  au_userId : option string;
  au_action : string;
  au_entityType : option string;
  au_resource : option string;
  au_entityId : option string;
  au_resourceId : option string;
  au_oldValue : option json;
  au_newValue : option json;
  au_metadata : list (string * json);
  au_payload : option json;
  au_ipAddress : option string;
  au_userAgent : option string;
  au_requestId : option string;
}.

(** A later field of an object literal replaces an earlier one in place. *)
Fixpoint set_field (key : string) (v : json) (fs : list (string * json)) : list (string * json) :=
  match fs with
  | [] => [(key, v)]
  | (k, x) :: fs' => if k === key then (key, v) :: fs' else (k, x) :: set_field key v fs'
  end.

Definition first_of {A} (a b : option A) : option A := match a with Some _ => a | None => b end.

Definition audit_metadata (dto : CreateAuditLogDto) : list (string * json) :=
  let requestedActorId := first_of (au_actorId dto) (au_userId dto) in
  let fs := au_metadata dto in
  let fs := if requestedActorId === Some "SYSTEM" then set_field "actorId" (JStr "SYSTEM") fs else fs in
  let fs := set_field "featureFlags" (JObj
    [("secureUpload", JBool (isEnabled "SECURE_UPLOAD_V2" (au_tenantId dto)));
     ("rlsEnforcement", JBool (isEnabled "RLS_ENFORCEMENT" (au_tenantId dto)));
     ("kycStatusAlias", JBool (isEnabled "KYC_STATUS_ALIAS" (au_tenantId dto)))]) fs in
  match au_requestId dto with
  | Some r => if r === "" then fs else set_field "correlationId" (JStr r) fs
  | None => fs
  end.

Definition audit_actor (dto : CreateAuditLogDto) : option string :=
  match first_of (au_actorId dto) (au_userId dto) with
  | Some a => if a === "SYSTEM" then None else Some a
  | None => None
  end.

Definition audit_entityType (dto : CreateAuditLogDto) : string :=
  default "Unknown" (first_of (au_entityType dto) (au_resource dto)).
Definition audit_entityId (dto : CreateAuditLogDto) : option string :=
  first_of (au_entityId dto) (au_resourceId dto).

(** The text AuditService digests. *)
Definition dto_text (dto : CreateAuditLogDto) (prevHash : option string) (timestamp : Z) : string :=
  stringify (JObj
    [("tenantId", JStr (au_tenantId dto)); ("actorId", json_or_null (audit_actor dto));
     ("action", JStr (au_action dto)); ("entityType", JStr (audit_entityType dto));
     ("entityId", json_or_null (audit_entityId dto));
     ("payload", default (JObj (audit_metadata dto)) (au_payload dto));
     ("prevHash", json_or_null prevHash); ("timestamp", JStr (toISOString timestamp))]).

(** [create] and [logAtomic] write the same row, through the service's own
    client or the caller's transaction. *)
Definition logAtomic (dto : CreateAuditLogDto) : M unit :=
  let* prevHash := gets (fun w => latest_hash (au_tenantId dto) (db w)) in
  let* timestamp := gets clock in
  let entryHash := sha256 (dto_text dto prevHash timestamp) in
  let* id := fresh_id in
  audit_row_create (mkAuditLog id (au_tenantId dto) (audit_actor dto) (au_action dto)
    (audit_entityType dto) (audit_entityId dto) timestamp prevHash (Some entryHash)
    (au_requestId dto) (Some (JObj (audit_metadata dto)))
    (Some (default (JObj (audit_metadata dto)) (au_payload dto)))
    (default JNull (au_oldValue dto)) (default JNull (au_newValue dto))
    (au_ipAddress dto) (au_userAgent dto)).

Definition createAtomic : CreateAuditLogDto -> M unit := logAtomic.

(** ** AuditChainService *)
Inductive Issue := HASH_MISMATCH | MISSING_HASH | BROKEN_CHAIN.
#[export] Instance Issue_dec : EqDecision Issue. Proof. solve_decision. Defined.

Record TamperEvidence := mkEvidence {
  ev_auditLogId : string;
  ev_timestamp : string;
  ev_action : string;
  ev_issue : Issue;
  ev_expectedHash : option string;
  ev_actualHash : option string;
}.
#[export] Instance TamperEvidence_dec : EqDecision TamperEvidence. Proof. solve_decision. Defined.

Definition evidence (e : AuditLog) : Issue -> option string -> option string -> TamperEvidence :=
  mkEvidence (al_id e) (toISOString (al_timestamp e)) (al_action e).

Definition entry_hash (e : AuditLog) : string :=
  computeEntryHash (al_tenantId e) (al_actorId e) (al_action e) (al_entityType e)
    (al_entityId e) (al_timestamp e) (al_prevHash e).

(** The entry's issues, and the hash the next entry must link to. *)
Definition check_entry (prevHash : option string) (e : AuditLog)
    : list TamperEvidence * option string :=
  match al_entryHash e with
  | None | Some EmptyString => ([evidence e MISSING_HASH None None], None)
  | Some h =>
      ((match prevHash with
        | Some p => if al_prevHash e === Some p then []
                    else [evidence e BROKEN_CHAIN (Some p) (al_prevHash e)]
        | None => []
        end)
       ++ (if entry_hash e === h then []
           else [evidence e HASH_MISMATCH (Some (entry_hash e)) (Some h)]), Some h)
  end.

Fixpoint check_chain (prevHash : option string) (entries : list AuditLog) : list TamperEvidence :=
  match entries with
  | [] => []
  | e :: es => let r := check_entry prevHash e in r.1 ++ check_chain r.2 es
  end.

Record AuditChainVerifyResult := mkVerify {
  vr_tenantId : string;
  valid : bool;
  totalEntries : Z;
  verifiedEntries : Z;
  tamperEvidence : list TamperEvidence;
  verifiedAt : string;
}.

Definition verifyChain (tenantId : string) (limit : nat) : M AuditChainVerifyResult :=
  let* entries := gets (fun w => take limit (merge_sort earlier (tenant_audit tenantId (db w)))) in
  let* now := gets clock in
  let found := check_chain None entries in
  ret (mkVerify tenantId (bool_decide (found = [])) (Z.of_nat (length entries))
         (Z.of_nat (length entries) - Z.of_nat (length found)) found (toISOString now)).

(** [auditLog.update({ where: { id }, data })]: the table has a trigger that
    refuses every update
    ([prisma/migrations/20260520232000_add_rls_and_audit_immutability]). *)
Definition audit_update (row : AuditLog) : M unit :=
  let* hit := gets (fun w => existsb (fun e => al_id e === al_id row) (auditLogs (db w))) in
  throw_if (negb hit) (RecordNotFound "AuditLog") ;;
  throw (PlainError
    "AUDIT_IMMUTABLE: AuditLog records cannot be modified. Attempted UPDATE on table AuditLog").

(** Write the chain hash onto an entry already stored. *)
Definition stampEntry (auditLogId : string) : M unit :=
  let* found := gets (fun w => List.find (fun e => al_id e === auditLogId) (auditLogs (db w))) in
  match found with
  | None => ret tt
  | Some e =>
      let* prevEntry := gets (fun w => head (merge_sort later (List.filter (fun x =>
        (al_timestamp x <? al_timestamp e) && negb (al_id x === al_id e))
        (tenant_audit (al_tenantId e) (db w))))) in
      let prevHash := match prevEntry with Some p => al_entryHash p | None => None end in
      let entryHash := computeEntryHash (al_tenantId e) (al_actorId e) (al_action e)
        (al_entityType e) (al_entityId e) (al_timestamp e) prevHash in
      audit_update (mkAuditLog (al_id e) (al_tenantId e) (al_actorId e) (al_action e) (al_entityType e)
        (al_entityId e) (al_timestamp e) prevHash (Some entryHash) (al_requestId e) (al_metadata e)
        (al_payload e) (al_oldValue e) (al_newValue e) (al_ipAddress e) (al_userAgent e))
  end.
End Entries.
