(* ===== verification/AuditFacts.v ===== *)
(** * AuditFacts: bar-separated texts, chronological tables and chain checks *)
From S2P Require Import Prelude Money Json Schema AuditLogs.

(** ** Bar-separated texts *)
Lemma no_bar_pad n z : no_bar (pad n z) = true.
Proof. by apply lacks_pad. Qed.

Lemma no_bar_iso ms : no_bar (toISOString ms) = true.
Proof.
  unfold toISOString, iso_date, iso_time. destruct (civil_from_days _) as [y [m d]].
  by rewrite !lacks_app, !no_bar_pad.
Qed.

(** A bar-free prefix up to the first bar is determined by the text. *)
Lemma bar_prefix_inj a b s t :
  no_bar a = true -> no_bar b = true -> a +:+ "|" +:+ s = b +:+ "|" +:+ t -> a = b /\ s = t.
Proof.
  revert b. induction a as [|c a IH]; intros [|x b] Ha Hb E; cbn in *; reflect.
  - by injection E.
  - injection E as <- _. done.
  - injection E as -> _. done.
  - injection E as -> E. destruct (IH b) as [-> ->]; auto.
Qed.

Lemma join_inj xs ys a b :
  Forall (fun x => no_bar x = true) xs -> Forall (fun x => no_bar x = true) ys ->
  length xs = length ys -> join "|" (xs ++ [a]) = join "|" (ys ++ [b]) -> xs = ys /\ a = b.
Proof.
  assert (forall x zs c, join "|" ((x :: zs) ++ [c]) = x +:+ "|" +:+ join "|" (zs ++ [c])) as Hj.
  { intros x [|z zs] c; done. }
  intros Hx. revert ys. induction Hx as [|x xs Hx Hxs IH]; intros [|y ys] Hy Hlen E; try done.
  rewrite !Hj in E. inversion_clear Hy. apply bar_prefix_inj in E as [-> E]; [|done..].
  destruct (IH ys) as [-> ->]; [done|by injection Hlen|done|done].
Qed.

(** ** Chronological tables *)
Section Chronological.
Context {A : Type} (time : A -> Z).

Definition before (a b : A) : Prop := time a < time b.
Definition chronological (es : list A) : Prop := StronglySorted before es.

Lemma chronological_inj es a b :
  chronological es -> a ∈ es -> b ∈ es -> time a = time b -> a = b.
Proof.
  intros Hs. induction Hs as [|x es Hs IH Hx]; intros Ha Hb E; [by apply elem_of_nil in Ha|].
  rewrite Forall_forall in Hx.
  apply elem_of_cons in Ha as [->|Ha]; apply elem_of_cons in Hb as [->|Hb]; auto.
  - specialize (Hx b Hb). unfold before in Hx. lia.
  - specialize (Hx a Ha). unfold before in Hx. lia.
Qed.

Lemma chronological_app es es' :
  chronological (es ++ es') <->
  chronological es /\ chronological es' /\ forall a b, a ∈ es -> b ∈ es' -> before a b.
Proof. unfold chronological. rewrite StronglySorted_app. naive_solver. Qed.

Lemma chronological_snoc es e :
  chronological es -> Forall (fun x => before x e) es -> chronological (es ++ [e]).
Proof.
  intros Hs Hlt. apply chronological_app. split_and!; [done|by repeat constructor|].
  intros x y Hx ->%list_elem_of_singleton. rewrite Forall_forall in Hlt. auto.
Qed.

(** Sorting by an order that respects time leaves no element after a later one. *)
Lemma merge_sort_times (R : A -> A -> Prop) `{!RelDecision R, !Total R} es :
  (forall a b, R a b -> time a <= time b) ->
  StronglySorted (fun a b => time a <= time b) (merge_sort R es).
Proof.
  intros Hle. apply Sorted_StronglySorted; [intros a b c; lia|].
  pose proof (Sorted_merge_sort R es) as Hs.
  induction Hs as [|x l Hs IH Hx]; constructor; [done|]. destruct Hx; constructor. auto.
Qed.

(** A chronological table is sorted by every order that respects time. *)
Lemma sort_chronological (R : A -> A -> Prop) `{!RelDecision R, !Total R} es :
  (forall a b, R a b -> time a <= time b) -> chronological es -> merge_sort R es = es.
Proof.
  intros Hle Hs. eapply (StronglySorted_unique_strong (fun a b => time a <= time b)).
  - intros x1 x2 H1 H2 H12 H21. rewrite merge_sort_Permutation in H1.
    eapply chronological_inj; try done. lia.
  - by apply merge_sort_times.
  - clear -Hs. induction Hs as [|x es Hs IH Hx]; constructor; [done|].
    eapply Forall_impl; [exact Hx|]. unfold before. lia.
  - by rewrite merge_sort_Permutation.
Qed.

Lemma sort_reverse_chronological (R : A -> A -> Prop) `{!RelDecision R, !Transitive R, !Total R} es :
  (forall a b, before a b -> R b a) -> (forall a b, R a b -> time b <= time a) ->
  chronological es -> merge_sort R es = reverse es.
Proof.
  intros HR Hle Hs. eapply (StronglySorted_unique_strong R).
  - intros x1 x2 H1 H2 H12%Hle H21%Hle. rewrite merge_sort_Permutation in H1.
    rewrite elem_of_reverse in H2. eapply chronological_inj; try done. lia.
  - by apply StronglySorted_merge_sort.
  - clear -Hs HR. induction Hs as [|x es Hs IH Hx]; [constructor|]. rewrite reverse_cons.
    apply StronglySorted_app_2; [|done|by repeat constructor].
    intros a b Ha ->%list_elem_of_singleton. rewrite elem_of_reverse in Ha.
    rewrite Forall_forall in Hx. auto.
  - by rewrite merge_sort_Permutation, reverse_Permutation.
Qed.
End Chronological.

#[export] Instance earlier_total : Total earlier.
Proof. intros a b. unfold earlier. lia. Qed.
#[export] Instance earlier_trans : Transitive earlier.
Proof. intros a b c. unfold earlier. lia. Qed.
#[export] Instance later_total : Total later.
Proof. intros a b. unfold later. lia. Qed.
#[export] Instance later_trans : Transitive later.
Proof. intros a b c. unfold later. lia. Qed.

Lemma length_merge_sort_perm es : length (merge_sort earlier es) = length es.
Proof. apply Permutation_length, merge_sort_Permutation. Qed.

Lemma sort_earlier_chronological es : chronological al_timestamp es -> merge_sort earlier es = es.
Proof. apply sort_chronological; [apply _|]. unfold earlier. intros; lia. Qed.

Lemma sort_later_head es : chronological al_timestamp es -> head (merge_sort later es) = last es.
Proof.
  intros Hs. rewrite (sort_reverse_chronological al_timestamp later es); [by rewrite <- head_reverse| | |done];
    unfold before, later; intros; lia.
Qed.

(** ** Chain checks *)
Section Checks.
Context `{Sha256}.

Lemma sha256_nonempty s : sha256 s <> "".
Proof. intros E. pose proof (sha256_length s) as Hl. by rewrite E in Hl. Qed.

Definition hashed_fields (e : AuditLog) : list string :=
  [al_tenantId e; default "" (al_actorId e); al_action e; al_entityType e;
   default "" (al_entityId e); toISOString (al_timestamp e)].

(** The text an entry's hash should be the digest of. *)
Definition text_of (e : AuditLog) : string :=
  entry_text (al_tenantId e) (al_actorId e) (al_action e) (al_entityType e) (al_entityId e)
    (al_timestamp e) (al_prevHash e).

Lemma text_of_join e : text_of e = join "|" (hashed_fields e ++ [default "" (al_prevHash e)]).
Proof. done. Qed.

Definition bar_free (e : AuditLog) : Prop := Forall (fun x => no_bar x = true) (hashed_fields e).

Lemma text_of_inj e e' : bar_free e -> bar_free e' -> text_of e = text_of e' ->
  hashed_fields e = hashed_fields e' /\ default "" (al_prevHash e) = default "" (al_prevHash e').
Proof. rewrite !text_of_join. intros He He'. by apply join_inj. Qed.

(** Entries that verify: each carries the digest of its own fields and links
    to the one before it. *)
Fixpoint linked (prev : option string) (es : list AuditLog) : Prop :=
  match es with
  | [] => True
  | e :: es' => al_entryHash e = Some (sha256 (text_of e)) /\
      (forall p, prev = Some p -> al_prevHash e = Some p) /\ linked (al_entryHash e) es'
  end.

Lemma check_chain_linked prev es : check_chain prev es = [] <-> linked prev es.
Proof.
  revert prev. induction es as [|e es IH]; intros prev; [done|]. cbn [check_chain linked].
  unfold check_entry, entry_hash, computeEntryHash. fold (text_of e).
  destruct (al_entryHash e) as [[|c h]|] eqn:Eh; cbn [fst snd app].
  - split; [done|]. intros [E _]. injection E as E. symmetry in E. by apply sha256_nonempty in E.
  - rewrite app_nil, IH, app_nil. destruct prev as [p|].
    + repeat case_bool_decide; split; try naive_solver congruence.
    + repeat case_bool_decide; split; try naive_solver congruence.
  - split; [done|]. naive_solver.
Qed.

Lemma linked_app prev es e :
  linked prev (es ++ [e]) <->
  linked prev es /\ linked (match last es with Some l => al_entryHash l | None => prev end) [e].
Proof.
  revert prev. induction es as [|x es IH]; intros prev; cbn [app linked].
  - naive_solver.
  - rewrite IH. destruct es as [|y es]; [cbn; naive_solver|].
    change (last (x :: y :: es)) with (last (y :: es)).
    destruct (last (y :: es)) as [z|] eqn:E; [naive_solver|]. by apply last_None in E.
Qed.

Lemma linked_last prev es e :
  linked prev es -> last es = Some e -> al_entryHash e = Some (sha256 (text_of e)).
Proof.
  intros Hl Hlast. apply last_Some in Hlast as [es' ->]. apply linked_app in Hl as [_ Hl]. by destruct Hl.
Qed.

Lemma linked_take n prev es : linked prev es -> linked prev (take n es).
Proof. revert prev n. induction es as [|e es IH]; intros prev [|n] Hl; cbn; naive_solver. Qed.

(** The previous hash ends the text, and a hash has one length. *)
Lemma text_of_suffix e : exists s, text_of e = s +:+ default "" (al_prevHash e).
Proof.
  exists (join "|" (hashed_fields e) +:+ "|"). rewrite text_of_join. cbn. by rewrite !str_app_assoc.
Qed.

Lemma text_of_prev e e' s s' : al_prevHash e = Some (sha256 s) -> al_prevHash e' = Some (sha256 s') ->
  text_of e = text_of e' -> sha256 s = sha256 s'.
Proof.
  intros E E' Et. destruct (text_of_suffix e) as [a Ha]. destruct (text_of_suffix e') as [b Hb].
  rewrite Ha, Hb, E, E' in Et. apply str_app_inv_same_length in Et; [done|].
  transitivity 64%nat; [apply sha256_length|symmetry; apply sha256_length].
Qed.

(** Equally long linked lists ending in the same hash have the same texts, or
    exhibit a collision. *)
Lemma linked_commits l1 l2 :
  linked None l1 -> linked None l2 ->
  length l1 = length l2 -> (al_entryHash <$> last l1) = (al_entryHash <$> last l2) ->
  text_of <$> l1 = text_of <$> l2 \/
  exists e1 e2, e1 ∈ l1 /\ e2 ∈ l2 /\
    text_of e1 <> text_of e2 /\ sha256 (text_of e1) = sha256 (text_of e2).
Proof.
  revert l2. induction l1 as [|e1 l1 IH] using rev_ind; intros l2 Hok1 Hok2 Hlen Hlast.
  { destruct l2; [by left|done]. }
  destruct l2 as [|e2 l2 _] using rev_ind; [by rewrite length_app in Hlen; cbn in Hlen; lia|].
  rewrite !last_snoc in Hlast. injection Hlast as Hlast. rewrite !length_app in Hlen. cbn in Hlen.
  apply linked_app in Hok1 as [Hok1 (Hh1 & Hp1 & _)]. apply linked_app in Hok2 as [Hok2 (Hh2 & Hp2 & _)].
  destruct (decide (text_of e1 = text_of e2)) as [Et|Hne].
  2: { right. exists e1, e2. split_and!; [set_solver|set_solver|done|congruence]. }
  destruct (IH l2) as [Efs|(x & y & Hx & Hy & Hxy)]; [done..|lia| | |].
  - destruct (last l1) as [a|] eqn:E1, (last l2) as [b|] eqn:E2; try done.
    + pose proof (linked_last _ _ _ Hok1 E1) as Ea. pose proof (linked_last _ _ _ Hok2 E2) as Eb.
      change (Some (al_entryHash a) = Some (al_entryHash b)). rewrite Ea, Eb. do 2 f_equal.
      exact (text_of_prev _ _ _ _ (Hp1 _ Ea) (Hp2 _ Eb) Et).
    + apply last_None in E2 as ->. destruct l1; [done|cbn in Hlen; lia].
    + apply last_None in E1 as ->. destruct l2; [done|cbn in Hlen; lia].
  - left. rewrite !fmap_app, Efs, !fmap_cons, Et. done.
  - right. exists x, y. set_solver.
Qed.

(** Texts without stray bars determine the fields. *)
Lemma texts_fields l1 : forall l2, Forall bar_free l1 -> Forall bar_free l2 ->
  text_of <$> l1 = text_of <$> l2 -> hashed_fields <$> l1 = hashed_fields <$> l2.
Proof.
  induction l1 as [|e1 l1 IH]; intros [|e2 l2] H1 H2 E; try done. apply Forall_cons in H1 as [B1 H1].
  apply Forall_cons in H2 as [B2 H2]. pose proof (f_equal head E) as Et. apply (f_equal tail) in E.
  apply (inj Some) in Et. apply text_of_inj in Et as [Ef _]; [|done..].
  change (hashed_fields e1 :: (hashed_fields <$> l1) = hashed_fields e2 :: (hashed_fields <$> l2)).
  f_equal; [exact Ef|]. by apply IH.
Qed.

Lemma verifyChain_Ok t limit w r w' :
  verifyChain t limit w = (Ok r, w') ->
  let es := take limit (merge_sort earlier (tenant_audit t (db w))) in
  w' = w /\ tamperEvidence r = check_chain None es /\ (valid r = true <-> linked None es) /\
  totalEntries r = Z.of_nat (length es) /\
  verifiedEntries r = Z.of_nat (length es) - Z.of_nat (length (check_chain None es)).
Proof.
  unfold verifyChain. intros Hr. run_inv. split_and!; try done. cbn [valid].
  rewrite bool_decide_eq_true. apply check_chain_linked.
Qed.

(** An entry whose stored hash is not the digest of its fields is reported. *)
Lemma mismatch_reported prev es e h :
  e ∈ es -> al_entryHash e = Some h -> h <> "" -> h <> sha256 (text_of e) ->
  evidence e HASH_MISMATCH (Some (sha256 (text_of e))) (Some h) ∈ check_chain prev es.
Proof.
  intros He Eh Hne Hh. revert prev. induction es as [|x es IH]; intros prev; [by apply elem_of_nil in He|].
  cbn [check_chain]. apply elem_of_app. apply elem_of_cons in He as [<-|He]; [left|right; by apply IH].
  unfold check_entry. rewrite Eh. destruct h as [|c h]; [done|]. cbn [fst].
  apply elem_of_app. right. unfold entry_hash, computeEntryHash. fold (text_of e).
  rewrite bool_decide_eq_false_2 by congruence. by apply list_elem_of_singleton.
Qed.
End Checks.
