(* ===== verification/AuditEvents.v ===== *)
(** * AuditEvents: the signed event chain

    [src/src/modules/audit/audit.chain.service.ts]: every event of a tenant is
    digested together with the hash at the tenant's chain head, signed, stored,
    and becomes the new head; [verifyTenantChain] walks the stored events.

    The two tables are kept apart from [Schema.DB]: no other service reads
    them.  A jsonb column gives back the value stored in it. *)
From S2P Require Import Prelude Json Schema AuditLogs.

Definition GENESIS_HASH : string := "GENESIS".

(** HMAC-SHA256 (hexadecimal) comes from Node's crypto library; the secret
    from the configuration service. *)
Class Hmac := { hmac_sha256 : string -> string -> string }.
Class AuditConfig := { hmacSecret : option string }.

Record EventFields := mkFields {
  ef_correlationId : string;
  ef_tenantId : string;
  ef_userId : option string;
  ef_role : option string;
  ef_action : string;
  ef_resourceType : option string;
  ef_resourceId : option string;
  ef_oldState : option json;
  ef_newState : option json;
  ef_metadata : option json;
  ef_ip : option string;
  ef_userAgent : option string;
  ef_endpoint : option string;
  ef_method : option string;
  ef_statusCode : Z;
  ef_success : bool;
  ef_errorCode : option string;
}.

(** The job: the fields, and the time the request was made, when known. *)
Record AuditPersistJobPayload := mkPersist {
  pj_timestamp : option Z;
  pj_fields : EventFields;
}.

Record AuditEvent := mkEvent {
  ae_id : string;
  ae_timestamp : Z;
  ae_fields : EventFields;
  ae_prevHash : string;
  ae_eventHash : string;
  ae_signature : string;
}.

Record ChainHeadRow := mkHead {
  lastHash : string;
  sequence : Z;
}.

Record AuditStore := mkStore {
  auditEvents : list AuditEvent;
  chainHeads : gmap string ChainHeadRow;
  storeUuid : N;
  storeClock : Z;
}.

Definition set_events (x : list AuditEvent) (s : AuditStore) : AuditStore :=
  mkStore x (chainHeads s) (storeUuid s) (storeClock s).
Definition set_heads (x : gmap string ChainHeadRow) (s : AuditStore) : AuditStore :=
  mkStore (auditEvents s) x (storeUuid s) (storeClock s).

(** [ORDER BY timestamp ASC, id ASC] *)
Definition event_le (a b : AuditEvent) : Prop :=
  ae_timestamp a < ae_timestamp b \/
  (ae_timestamp a = ae_timestamp b /\ String.leb (ae_id a) (ae_id b) = true).
#[export] Instance event_le_dec : RelDecision event_le.
Proof. intros a b. unfold event_le. apply _. Defined.

(** [Buffer.from(s, 'hex')]: the bytes up to the first pair that is not
    hexadecimal. *)
Definition hex_value (c : ascii) : option N :=
  let n := N_of_ascii c in
  if ((48 <=? n) && (n <=? 57))%N then Some (n - 48)%N
  else if ((97 <=? n) && (n <=? 102))%N then Some (n - 87)%N
  else if ((65 <=? n) && (n <=? 70))%N then Some (n - 55)%N
  else None.

Fixpoint from_hex (s : string) : list N :=
  match s with
  | String a (String b s') =>
      match hex_value a, hex_value b with
      | Some x, Some y => (16 * x + y)%N :: from_hex s'
      | _, _ => []
      end
  | _ => []
  end.

Section Events.
Context `{UuidSource, Sha256, Hmac, AuditConfig}.

Definition getTenantSecret (tenantId : string) : string :=
  match hmacSecret with
  | None | Some EmptyString => tenantId
  | Some secret => tenantId +:+ ":" +:+ secret
  end.

Definition sign (tenantId eventHash : string) : string :=
  hmac_sha256 (getTenantSecret tenantId) eventHash.

Definition verifySignature (tenantId eventHash signature : string) : bool :=
  from_hex (sign tenantId eventHash) === from_hex signature.

Definition serializedPayload (f : EventFields) : string :=
  canonicalJson (JObj
    [("correlationId", JStr (ef_correlationId f)); ("tenantId", JStr (ef_tenantId f));
     ("userId", json_or_null (ef_userId f)); ("role", json_or_null (ef_role f));
     ("action", JStr (ef_action f)); ("resourceType", json_or_null (ef_resourceType f));
     ("resourceId", json_or_null (ef_resourceId f)); ("oldState", default JNull (ef_oldState f));
     ("newState", default JNull (ef_newState f)); ("metadata", default JNull (ef_metadata f));
     ("ip", json_or_null (ef_ip f)); ("userAgent", json_or_null (ef_userAgent f));
     ("endpoint", json_or_null (ef_endpoint f)); ("method", json_or_null (ef_method f));
     ("statusCode", JNum (pretty (ef_statusCode f))); ("success", JBool (ef_success f));
     ("errorCode", json_or_null (ef_errorCode f))]).

Definition event_text (prevHash : string) (f : EventFields) (timestamp : Z) : string :=
  prevHash +:+ "|" +:+ serializedPayload f +:+ "|" +:+ toISOString timestamp.

(** Insert the tenant's head row unless it has one, and read it back. *)
Definition lockChainHead (tenantId : string) : comp AuditStore ChainHeadRow :=
  modify (fun s => match chainHeads s !! tenantId with
                   | Some _ => s
                   | None => set_heads (<[tenantId := mkHead GENESIS_HASH 0]> (chainHeads s)) s
                   end) ;;
  let* head := gets (fun s => chainHeads s !! tenantId) in
  or_throw head (PlainError ("Audit chain head missing for tenant " +:+ tenantId)).

(** [INSERT ... ON CONFLICT (tenantId, eventHash) DO NOTHING] *)
Definition event_insert (e : AuditEvent) : comp AuditStore unit :=
  let* events := gets auditEvents in
  throw_if (existsb (fun x => ae_id x === ae_id e) events) (UniqueViolation "AuditEvent") ;;
  if existsb (fun x => (ef_tenantId (ae_fields x) === ef_tenantId (ae_fields e))
                       && (ae_eventHash x === ae_eventHash e)) events
  then ret tt
  else modify (set_events (events ++ [e])).

Definition persistBody (timestamp : Z) (payload : AuditPersistJobPayload) : comp AuditStore string :=
  let f := pj_fields payload in
  let* head := lockChainHead (ef_tenantId f) in
  let prevHash := if lastHash head === "" then GENESIS_HASH else lastHash head in
  let eventHash := sha256 (event_text prevHash f timestamp) in
  let signature := sign (ef_tenantId f) eventHash in
  let* id := gets (fun s => uuid (storeUuid s)) in
  modify (fun s => mkStore (auditEvents s) (chainHeads s) (N.succ (storeUuid s)) (storeClock s)) ;;
  event_insert (mkEvent id timestamp f prevHash eventHash signature) ;;
  modify (fun s => match chainHeads s !! ef_tenantId f with
                   | Some _ => set_heads (<[ef_tenantId f := mkHead eventHash (sequence head + 1)]>
                                            (chainHeads s)) s
                   | None => s
                   end) ;;
  ret eventHash.

(** The serializable transaction: both tables are left alone when it throws. *)
Definition persistEvent (payload : AuditPersistJobPayload) : comp AuditStore string := fun s =>
  match persistBody (default (storeClock s) (pj_timestamp payload)) payload s with
  | (Ok h, s') => (Ok h, s')
  | (Err e, s') => (Err e, mkStore (auditEvents s) (chainHeads s) (storeUuid s') (storeClock s'))
  end.

Definition tenant_events (tenantId : string) (s : AuditStore) : list AuditEvent :=
  List.filter (fun e => ef_tenantId (ae_fields e) === tenantId) (auditEvents s).

Definition event_valid (e : AuditEvent) : bool :=
  (sha256 (event_text (ae_prevHash e) (ae_fields e) (ae_timestamp e)) === ae_eventHash e)
  && verifySignature (ef_tenantId (ae_fields e)) (ae_eventHash e) (ae_signature e).

(** The first event the walk rejects. *)
Fixpoint walk (previous : string) (rows : list AuditEvent) : option string :=
  match rows with
  | [] => None
  | row :: rest =>
      if negb (ae_prevHash row === previous) then Some (ae_id row)
      else if negb (event_valid row) then Some (ae_id row)
      else walk (ae_eventHash row) rest
  end.

Definition verifyTenantChain (tenantId : string) : comp AuditStore (bool * option string) :=
  let* rows := gets (fun s => merge_sort event_le (tenant_events tenantId s)) in
  let failedAt := walk GENESIS_HASH rows in
  ret (bool_decide (failedAt = None), failedAt).
End Events.
