(* ===== verification/ApprovalChains.v ===== *)
(** * ApprovalChains: two signatures for large loans

    [src/src/modules/fraud/approval-chain.service.ts]. *)
From S2P Require Import Prelude Money Json Schema Ledger AuditLogs LoanRules.

(** 500,000 shillings, in units of 0.0001. *)
Definition DUAL_APPROVAL_THRESHOLD : Z := 500000 * 10000.

Definition requiresDualApproval (principalAmount : Z) : bool := DUAL_APPROVAL_THRESHOLD <=? principalAmount.

Definition of_loan (tenantId loanId : string) (s : LoanApprovalChain) : bool :=
  (ac_loanId s === loanId) && (ac_tenantId s === tenantId).

Definition chain_of (tenantId loanId : string) (d : DB) : list LoanApprovalChain :=
  List.filter (of_loan tenantId loanId) (loanApprovalChains d).

Definition role_name (r : UserRole) : string :=
  match r with
  | SUPER_ADMIN => "SUPER_ADMIN" | TENANT_ADMIN => "TENANT_ADMIN" | MANAGER => "MANAGER" | TELLER => "TELLER"
  | MEMBER => "MEMBER" | AUDITOR => "AUDITOR" | LOAN_OFFICER => "LOAN_OFFICER" | CHAIRMAN => "CHAIRMAN"
  | ACCOUNTANT => "ACCOUNTANT" | SYSTEM => "SYSTEM"
  end.

Definition isChainApproved (loanId tenantId : string) (d : DB) : bool :=
  forallb (fun s => ac_status s === AP_APPROVED) (chain_of tenantId loanId d).

Definition sign_slot (approverId : string) (status : ApprovalStatus) (s : LoanApprovalChain) : LoanApprovalChain :=
  mkSlot (ac_id s) (ac_tenantId s) (ac_loanId s) approverId (ac_role s) status.

Definition note_terms (notes : option string) (t : LoanTerms) : LoanTerms :=
  mkTerms (lt_interestRate t) (lt_processingFee t) (lt_tenureMonths t) (lt_gracePeriodMonths t)
    (lt_monthlyInstalment t) (lt_repaymentScheduleGenerated t) (lt_approvedAt t) (lt_approvedBy t)
    (lt_disbursedBy t) notes.

Definition set_loan_status (status : LoanStatus) (terms : LoanTerms) (l : Loan) : Loan :=
  mkLoan (loan_tenantId l) (loan_memberId l) (loan_loanProductId l) (loan_loanNumber l) status
    (loan_principalAmount l) (loan_outstandingBalance l) (loan_totalRepaid l) (loan_accruedInterest l)
    (loan_arrearsAmount l) (loan_arrearsDays l) (loan_staging l) (loan_lastAccrualDate l) (loan_dueDate l)
    (loan_disbursedAt l) (loan_createdAt l) (loan_updatedAt l) terms.

Section Chain.
Context `{UuidSource, Sha256, Environment}.

Definition slot_create (s : LoanApprovalChain) : M unit :=
  let* dup := gets (fun w => existsb (fun x => ac_id x === ac_id s) (loanApprovalChains (db w))) in
  throw_if dup (UniqueViolation "LoanApprovalChain") ;;
  modify (with_db (fun d => set_loanApprovalChains (loanApprovalChains d ++ [s]) d)).

(** Both slots are created in one statement. *)
Definition initApprovalChain (loanId tenantId : string) : M unit :=
  let* existing := gets (fun w => chain_of tenantId loanId (db w)) in
  if negb (Nat.eqb (length existing) 0) then ret tt else
  let* id1 := fresh_id in
  let* id2 := fresh_id in
  transaction (
    slot_create (mkSlot id1 tenantId loanId "" MANAGER AP_PENDING) ;;
    slot_create (mkSlot id2 tenantId loanId "" TELLER AP_PENDING)).

Record SignOff := mkSignOff {
  chainComplete : bool;
  allApproved : bool;
}.

Definition chain_audit (tenantId approverId action entityType entityId : string) (oldValue newValue : option json)
    (metadata : list (string * json)) (ipAddress : option string) : CreateAuditLogDto :=
  mkAuditDto tenantId (Some approverId) None action (Some entityType) None (Some entityId) None oldValue newValue
    metadata None ipAddress None None.

Definition signOffBody (loanId tenantId approverId : string) (role : UserRole) (approve : bool)
    (notes ipAddress : option string) : M SignOff :=
  let* chain := gets (fun w => chain_of tenantId loanId (db w)) in
  throw_if (Nat.eqb (length chain) 0) (NotFound "Approval chain not found for this loan") ;;
  let* slot := or_throw (List.find (fun c => (ac_role c === role) && (ac_status c === AP_PENDING)) chain)
    (BadRequest ("No pending approval slot for role " +:+ role_name role)) in
  throw_if (existsb (fun c => (ac_approverId c === approverId) && negb (ac_status c === AP_PENDING)) chain)
    (Forbidden "An approver cannot sign off more than once on the same loan") ;;
  let newStatus := if approve then AP_APPROVED else AP_REJECTED in
  modify (with_db (fun d => set_loanApprovalChains
    (update_where (fun s => ac_id s === ac_id slot) (sign_slot approverId newStatus) (loanApprovalChains d)) d)) ;;
  logAtomic (chain_audit tenantId approverId
    (if approve then "LOAN.DUAL_APPROVAL_SIGNED" else "LOAN.DUAL_APPROVAL_REJECTED") "LoanApprovalChain"
    (ac_id slot) None None
    ([("loanId", JStr loanId); ("role", JStr (role_name role)); ("approve", JBool approve)]
     ++ json_opt_field "notes" notes) ipAddress) ;;
  let* updated := gets (fun w => chain_of tenantId loanId (db w)) in
  let all := forallb (fun c => ac_status c === AP_APPROVED) updated in
  let anyRejected := existsb (fun c => ac_status c === AP_REJECTED) updated in
  (if anyRejected then
     let* loan := gets (fun w => tenant_loan tenantId loanId (db w)) in
     let* rejected := loan_updateMany loanId
       (fun l => (loan_tenantId l === tenantId) && (loan_status l === APPROVED))
       (fun l => set_loan_status REJECTED (note_terms (Some "REJECTED_VIA_APPROVAL_CHAIN") (loan_terms l)) l) in
     if Nat.ltb 0 rejected then
       logAtomic (chain_audit tenantId approverId "LOAN.REJECTED_VIA_CHAIN" "Loan" loanId
         (Some (JObj [("status", JStr (loan_status_name (from_option loan_status APPROVED loan)))]))
         (Some (JObj [("status", JStr "REJECTED")]))
         (json_opt_field "loanNumber" (loan_loanNumber <$> loan) ++ [("role", JStr (role_name role))]
          ++ json_opt_field "notes" notes) ipAddress)
     else ret tt
   else ret tt) ;;
  ret (mkSignOff (all || anyRejected) all).

Definition signOff (loanId tenantId approverId : string) (role : UserRole) (approve : bool)
    (notes ipAddress : option string) : M SignOff :=
  transaction (signOffBody loanId tenantId approverId role approve notes ipAddress).
End Chain.
