(* ===== verification/Mpesa.v ===== *)
(** * Mpesa: processing the payment provider's callbacks

    [src/src/modules/queue/processors/mpesa-callback.processor.ts]: results of
    STK pushes (deposits and repayments), direct paybill payments (C2B) and
    payouts (B2C).  Money moves only through [Ledger] and [Repayment].  Domain
    events, metrics, log lines and the dashboard cache are left out. *)
From S2P Require Import Prelude Money Json Format Calendar ImportText MpesaTypes Schema.
From S2P Require Import Ledger Repayment AuditLogs.

(** ** MpesaTransaction rows *)

(** [findUnique({ where: { checkoutRequestId } })] and the like. *)
Definition mpesa_find (P : MpesaTransaction -> bool) (d : DB) : option (string * MpesaTransaction) :=
  List.find (fun kv => P kv.2) (map_to_list (mpesaTransactions d)).

Definition mpesa_by_checkout (checkoutRequestId : string) : DB -> option (string * MpesaTransaction) :=
  mpesa_find (fun m => mpd_checkoutRequestId (mp_details m) === Some checkoutRequestId).
Definition mpesa_by_receipt (receipt : string) : DB -> option (string * MpesaTransaction) :=
  mpesa_find (fun m => mp_receipt m === Some receipt).
Definition mpesa_by_conversation (conversationId : string) : DB -> option (string * MpesaTransaction) :=
  mpesa_find (fun m => mpd_conversationId (mp_details m) === Some conversationId).

(** [updateMany({ where: { id, ...cond }, data: f })] *)
Definition mpesa_updateMany (id : string) (cond : MpesaTransaction -> bool)
    (f : MpesaTransaction -> MpesaTransaction) : M nat :=
  let* found := gets (fun w => mpesaTransactions (db w) !! id) in
  match found with
  | Some m => if cond m then mpesa_update id f ;; ret 1%nat else ret 0%nat
  | None => ret 0%nat
  end.

(** The rows a callback may still act on. *)
Definition is_pending (m : MpesaTransaction) : bool := mp_status m === T_PENDING.
Definition is_open (m : MpesaTransaction) : bool := is_pending m || (mp_status m === T_RECON_PENDING).

Definition set_result (status : TransactionStatus) (code : Z) (desc : string) (p : CallbackPayload)
    (m : MpesaTransaction) : MpesaTransaction :=
  mkMpesaTransaction (mp_tenantId m) (mp_reference m) (mp_amount m) status (mp_transactionId m) (mp_loanId m)
    (Some code) (Some desc) (mp_receipt m) (mp_transactionDate m) (set_callbackPayload p (mp_details m)).

Definition set_receipt (receipt : string) (date : Z) (m : MpesaTransaction) : MpesaTransaction :=
  mkMpesaTransaction (mp_tenantId m) (mp_reference m) (mp_amount m) (mp_status m) (mp_transactionId m) (mp_loanId m)
    (mp_resultCode m) (mp_resultDesc m) (Some receipt) (Some date) (mp_details m).

Definition set_transactionId (id : string) (m : MpesaTransaction) : MpesaTransaction :=
  mkMpesaTransaction (mp_tenantId m) (mp_reference m) (mp_amount m) (mp_status m) (Some id) (mp_loanId m)
    (mp_resultCode m) (mp_resultDesc m) (mp_receipt m) (mp_transactionDate m) (mp_details m).

Definition set_failure (reason : string) (m : MpesaTransaction) : MpesaTransaction :=
  mkMpesaTransaction (mp_tenantId m) (mp_reference m) (mp_amount m) (mp_status m) (mp_transactionId m) (mp_loanId m)
    (mp_resultCode m) (mp_resultDesc m) (mp_receipt m) (mp_transactionDate m) (set_failureReason reason (mp_details m)).

Section Callbacks.
Context `{UuidSource, Sha256, Environment, DateReader}.

(** [mpesaTransaction.create]: id, reference, receipt, transaction and the
    provider's request ids are unique, the member a foreign key. *)
Definition mpesa_unique (a b : MpesaTransaction) : bool :=
  let clash (x y : option string) := bool_decide (is_Some x) && (x === y) in
  (mp_reference a === mp_reference b) || clash (mp_receipt a) (mp_receipt b)
  || clash (mp_transactionId a) (mp_transactionId b)
  || clash (mpd_checkoutRequestId (mp_details a)) (mpd_checkoutRequestId (mp_details b))
  || clash (mpd_conversationId (mp_details a)) (mpd_conversationId (mp_details b)).

Definition mpesa_create (m : MpesaTransaction) : M string :=
  let* id := fresh_id in
  let* d := gets db in
  throw_if (bool_decide (is_Some (mpesaTransactions d !! id))
            || existsb (fun kv => mpesa_unique m kv.2) (map_to_list (mpesaTransactions d)))
    (UniqueViolation "MpesaTransaction") ;;
  throw_if (match mpd_memberId (mp_details m) with
            | Some member => negb (bool_decide (is_Some (members d !! member))) | None => false end)
    (ForeignKeyViolation "MpesaTransaction") ;;
  throw_if (negb (fits_18_4 (mp_amount m))) NumericOverflow ;;
  modify (with_db (fun d => set_mpesaTransactions (<[id := m]> (mpesaTransactions d)) d)) ;;
  ret id.

(** ** Audit rows *)
Definition UNRESOLVED : string := "UNRESOLVED".

(** No tenant has the id [UNRESOLVED], and an audit row's tenant is a foreign
    key. *)
Definition mpesa_audit (tenantId action entityId : string) (old new : option json)
    (metadata : list (string * json)) (requestId : option string) : M unit :=
  throw_if (tenantId === UNRESOLVED) (ForeignKeyViolation "AuditLog") ;;
  createAtomic (mkAuditDto tenantId (Some "SYSTEM") None action (Some "MpesaTransaction") None (Some entityId) None
    old new metadata None None None requestId).

(** [createAuditOnce], outside the transaction. *)
Definition createAuditOnce (action : string) : M unit := modify (log_audit action).

Definition result_json (status : string) (code : Z) (desc : string) (more : list (string * json)) : option json :=
  Some (JObj ([("status", JStr status); ("resultCode", JNum (pretty code)); ("resultDesc", JStr desc)] ++ more)).

(** ** postLedgerEntry *)
Record LedgerParams := mkLedgerParams {
  pl_tenantId : string;
  pl_memberId : option string;
  pl_accountReference : string;
  pl_amount : Q;
  pl_receipt : string;
  pl_mpesaTxId : string;
  pl_payload : CallbackPayload;
  pl_resultCode : Z;
  pl_resultDesc : string;
  pl_date : js_date;
}.

Definition invalid_time : exn := PlainError "Invalid time value".

Definition repayment_input (p : LedgerParams) (target : string) : ProcessRepaymentInput :=
  mkRepaymentInput (pl_tenantId p) (Finite (pl_amount p)) ("MPESA-" +:+ pl_receipt p)
    "MPESA_SYSTEM" (pl_memberId p) None (Some target) (Some (pl_accountReference p))
    (Some (pl_mpesaTxId p)) (Some (pl_receipt p)) (Some (pl_resultCode p))
    (Some (pl_resultDesc p)) (Some (pl_date p)) (Some (pl_payload p)).

Definition post_repayment (p : LedgerParams) (target : string) : M unit :=
  processRepayment (repayment_input p target) ;;
  let* _ := or_throw (pl_date p) invalid_time in
  createAuditOnce "MPESA.LOAN_REPAYMENT.COMPLETED".

Definition resolveDefaultFosaByMember (memberId tenantId : string) : M string :=
  let* found := gets (fun w => member_account tenantId memberId FOSA (db w)) in
  let* acc := or_throw found (PlainError ("No FOSA account for member " +:+ memberId)) in
  ret (acc_accountNumber acc.2).

(** [account.findFirst({ where: { accountNumber, tenantId, isActive: true } })] *)
Definition account_by_number (tenantId number : string) (d : DB) : option (string * Account) :=
  List.find (fun kv => (acc_accountNumber kv.2 === number) && (acc_tenantId kv.2 === tenantId) && acc_isActive kv.2)
    (map_to_list (accounts d)).

Definition deposit_reference (p : LedgerParams) : string :=
  "MPESA_DEP-" +:+ pl_receipt p +:+ "-" +:+ pl_tenantId p.

Definition deposit_entry (p : LedgerParams) (accountId : string) : PostEntryParams :=
  mkPostEntry (pl_tenantId p) (deposit_reference p) MPESA_DEPOSIT accountId (pl_amount p) CREDIT None
    (Some ("M-Pesa deposit – " +:+ pl_receipt p)) None None true.

(** The row of a payment that has reached the ledger. *)
Definition completed_row (p : LedgerParams) (txnId : string) (date : Z) (m : MpesaTransaction) : MpesaTransaction :=
  set_transactionId txnId (set_receipt (pl_receipt p) date
    (set_result T_COMPLETED (pl_resultCode p) (pl_resultDesc p) (pl_payload p) m)).

Definition deposit_metadata (p : LedgerParams) (date : Z) : list (string * json) :=
  [("reference", JStr ("MPESA-" +:+ pl_receipt p)); ("accountReference", JStr (pl_accountReference p))]
  ++ json_opt_field "memberId" (pl_memberId p) ++ [("transactionDate", JStr (toISOString date))].

Definition depositBody (p : LedgerParams) (accountNumber : string) : M unit :=
  let* account := gets (fun w => account_by_number (pl_tenantId p) accountNumber (db w)) in
  match account with
  | None => ret tt
  | Some (accountId, _) =>
      let* posted := postEntry (deposit_entry p accountId) in
      let txn := posted_transaction posted in
      let* date := or_throw (pl_date p) invalid_date in
      mpesa_update (pl_mpesaTxId p) (completed_row p (txn_id txn) date) ;;
      mpesa_audit (pl_tenantId p) "MPESA.DEPOSIT.COMPLETED" (pl_mpesaTxId p)
        (Some (JObj [("status", JStr "PENDING"); ("balanceBefore", JStr (dp4_toString (txn_balanceBefore txn)))]))
        (Some (JObj [("status", JStr "COMPLETED"); ("balanceAfter", JStr (dp4_toString (txn_balanceAfter txn)));
                     ("receipt", JStr (pl_receipt p)); ("amount", JStr (toFixed4 (pl_amount p)))]))
        (deposit_metadata p date) None
  end.

Definition postLedgerEntry (p : LedgerParams) : M unit :=
  let parsed := parseReference (pl_accountReference p) in
  match ref_type parsed with
  | REF_LOAN_REPAYMENT => post_repayment p (ref_target parsed)
  | REF_DEPOSIT =>
      let* accountNumber :=
        if isMemberIdDeposit parsed then resolveDefaultFosaByMember (ref_target parsed) (pl_tenantId p)
        else ret (ref_target parsed) in
      transaction (depositBody p accountNumber)
  end.

(** ** STK push results *)
Definition stk_failed_body (id : string) (m : MpesaTransaction) (cb : StkCallback) : M unit :=
  let* count := mpesa_updateMany id is_pending
    (set_result T_FAILED (stk_ResultCode cb) (stk_ResultDesc cb) (P_stk cb)) in
  if Nat.eqb count 0 then ret tt else
  mpesa_audit (mp_tenantId m) "MPESA.DEPOSIT.FAILED" id None
    (result_json "FAILED" (stk_ResultCode cb) (stk_ResultDesc cb) [])
    [("checkoutRequestId", JStr (stk_CheckoutRequestID cb)); ("amount", JStr (dp4_toString (mp_amount m)));
     ("phone", JStr (maskPhone (mpd_phoneNumber (mp_details m))));
     ("accountReference", json_or_null (mpd_accountReference (mp_details m)))]
    (Some ("audit.MPESA.DEPOSIT.FAILED." +:+ mp_tenantId m +:+ "." +:+ id)).

Definition stk_params (id : string) (m : MpesaTransaction) (cb : StkCallback) (receipt : string) (now : Z) : LedgerParams :=
  let meta := parseStkMeta (stk_Item cb) in
  mkLedgerParams (mp_tenantId m) (mpd_memberId (mp_details m)) (default "" (mpd_accountReference (mp_details m)))
    (dec (mp_amount m)) receipt id (P_stk cb) (stk_ResultCode cb) (stk_ResultDesc cb)
    (match truthy (meta_get "TransactionDate" meta) with Some ts => parseDarajaTimestamp now ts | None => Some now end).

Definition handleStkCallback (cb : StkCallback) : M unit :=
  let* found := gets (fun w => mpesa_by_checkout (stk_CheckoutRequestID cb) (db w)) in
  match found with
  | None => ret tt
  | Some (id, m) =>
      if negb (is_pending m) then ret tt else
      if negb (stk_ResultCode cb =? 0) then transaction (stk_failed_body id m cb) else
      let* receipt := match meta_get "MpesaReceiptNumber" (parseStkMeta (stk_Item cb)) with
                      | Some r => ret r | None => fresh_id end in
      let* now := gets clock in
      postLedgerEntry (stk_params id m cb receipt now)
  end.
End Callbacks.
