(* ===== verification/MpesaCallbacks.v ===== *)
(** * MpesaCallbacks: paybill payments and payouts

    The C2B and B2C handlers of
    [src/src/modules/queue/processors/mpesa-callback.processor.ts]. *)
From S2P Require Import Prelude Money Json Format Calendar ImportText MpesaTypes Schema.
From S2P Require Import Ledger Repayment AuditLogs Mpesa.

(** [try { ... } catch (P2002) { return }] *)
Definition skip_duplicates (m : M unit) : M unit := fun w =>
  match m w with
  | (Err (UniqueViolation _), w') => (Ok tt, w')
  | r => r
  end.

Section C2b.
Context `{UuidSource, Sha256, Environment, DateReader}.

(** ** C2B: paybill payments *)
Definition RESOLVE_IN_PROCESSOR : string := "resolve-in-processor".

(** The tenant the job carries, if it is known. *)
Definition known_tenant (resolvedTenantId : string) : option string :=
  if (resolvedTenantId === "") || (resolvedTenantId === RESOLVE_IN_PROCESSOR) then None else Some resolvedTenantId.

Definition c2b_accounts (cb : C2bCallback) (tenant : option string) (d : DB) : list (string * Account) :=
  List.filter (fun kv => (acc_accountNumber kv.2 === c2b_BillRefNumber cb)
    && match tenant with Some t => acc_tenantId kv.2 === t | None => true end) (map_to_list (accounts d)).

(** The row of a payment, whether created or overwritten. *)
Definition c2b_row (cb : C2bCallback) (tenantId : string) (memberId : option string) (amount : Z) (date : Z)
    : MpesaTransaction :=
  mkMpesaTransaction tenantId (c2b_reference (c2b_TransID cb)) amount T_PENDING None None None None
    (Some (c2b_TransID cb)) (Some date)
    (mkDetails MT_C2B (c2b_MSISDN cb) memberId (Some (c2b_BillRefNumber cb)) None None None None None None (Some (P_c2b cb))).

Definition c2b_claim (cb : C2bCallback) (tenantId : string) (memberId : string) (amount : Z) (date : Z)
    (m : MpesaTransaction) : MpesaTransaction :=
  let d := mp_details m in
  mkMpesaTransaction tenantId (c2b_reference (c2b_TransID cb)) amount T_PENDING (mp_transactionId m) (mp_loanId m)
    (mp_resultCode m) (mp_resultDesc m) (Some (c2b_TransID cb)) (Some date)
    (mkDetails MT_C2B (c2b_MSISDN cb) (Some memberId) (Some (c2b_BillRefNumber cb)) (mpd_checkoutRequestId d)
       (mpd_conversationId d) (mpd_originatorConversationId d) (mpd_referenceType d) (mpd_referenceId d)
       (mpd_failureReason d) (Some (P_c2b cb))).

Definition set_tenant (t : string) (m : MpesaTransaction) : MpesaTransaction :=
  mkMpesaTransaction t (mp_reference m) (mp_amount m) (mp_status m) (mp_transactionId m) (mp_loanId m)
    (mp_resultCode m) (mp_resultDesc m) (mp_receipt m) (mp_transactionDate m) (mp_details m).
Definition set_date (date : Z) (m : MpesaTransaction) : MpesaTransaction :=
  mkMpesaTransaction (mp_tenantId m) (mp_reference m) (mp_amount m) (mp_status m) (mp_transactionId m) (mp_loanId m)
    (mp_resultCode m) (mp_resultDesc m) (mp_receipt m) (Some date) (mp_details m).

(** A payment that cannot be routed: the row is marked FAILED and audited. *)
Definition c2b_reject_body (cb : C2bCallback) (tenantId : string) (persistedTxId : option string) (amount : Q)
    (code : Z) (desc reason : string) (more : list (string * json)) : M unit :=
  let* now := gets clock in
  let* date := or_throw (parseDarajaTimestamp now (c2b_TransTime cb)) invalid_date in
  let reject m := set_date date (set_tenant tenantId (set_result T_FAILED code desc (P_c2b cb) m)) in
  let* id := match persistedTxId with
    | Some id => mpesa_update id reject ;; ret id
    | None => mpesa_create (reject (c2b_row cb tenantId None (to_dp4 amount) date))
    end in
  mpesa_audit tenantId "MPESA.C2B.REJECTED" id None
    (Some (JObj [("status", JStr "FAILED"); ("resultCode", JNum (pretty code))]))
    ([("transId", JStr (c2b_TransID cb)); ("phoneNumber", JStr (maskPhone (c2b_MSISDN cb)));
      ("accountReference", JStr (c2b_BillRefNumber cb)); ("amount", JStr (toFixed4 amount));
      ("rejection_reason", JStr reason)] ++ more)
    (Some ("audit.MPESA.C2B.REJECTED." +:+ tenantId +:+ "." +:+ c2b_TransID cb)).

Definition c2b_params (cb : C2bCallback) (id : string) (account : Account) (amount : Q) (now : Z) : LedgerParams :=
  mkLedgerParams (acc_tenantId account) (Some (acc_memberId account)) (c2b_BillRefNumber cb) amount
    (c2b_TransID cb) id (P_c2b cb) 0 "Success" (parseDarajaTimestamp now (c2b_TransTime cb)).

Definition c2bBody (cb : C2bCallback) (resolvedTenantId : string) (persistedTxId : option string) : M unit :=
  let* existing := gets (fun w => mpesa_by_receipt (c2b_TransID cb) (db w)) in
  let duplicate := match existing with
    | Some (id, m) => if Some id === persistedTxId then negb (is_pending m) else true
    | None => false
    end in
  if duplicate then ret tt else
  let* amount := or_throw (parse_decimal (c2b_TransAmount cb)) (invalid_decimal (c2b_TransAmount cb)) in
  let tenant := known_tenant resolvedTenantId in
  let fallbackTenantId := default UNRESOLVED tenant in
  let* found := gets (fun w => c2b_accounts cb tenant (db w)) in
  match found with
  | [] => transaction (c2b_reject_body cb fallbackTenantId persistedTxId amount 9999
            "Account not found - requires manual reconciliation" "ACCOUNT_NOT_FOUND" [])
  | [(_, account)] =>
      let* now := gets clock in
      let* date := or_throw (parseDarajaTimestamp now (c2b_TransTime cb)) invalid_date in
      let* id := match persistedTxId with
        | Some id => mpesa_update id (c2b_claim cb (acc_tenantId account) (acc_memberId account) (to_dp4 amount) date) ;; ret id
        | None => mpesa_create (c2b_row cb (acc_tenantId account) (Some (acc_memberId account)) (to_dp4 amount) date)
        end in
      postLedgerEntry (c2b_params cb id account amount now)
  | _ => transaction (c2b_reject_body cb fallbackTenantId persistedTxId amount 9998
           "Cross-tenant account collision - requires manual reconciliation" "CROSS_TENANT_COLLISION"
           [("collidingTenantIds", JArr ((fun kv => JStr (acc_tenantId kv.2)) <$> found))])
  end.

Definition handleC2bCallback (cb : C2bCallback) (resolvedTenantId : string) (persistedTxId : option string) : M unit :=
  skip_duplicates (c2bBody cb resolvedTenantId persistedTxId).

(** ** B2C: payouts *)
Definition phones_differ (receiver expected : option string) : bool :=
  match receiver, expected with Some r, Some e => negb (r === e) | _, _ => false end.

Definition findB2cCallbackMismatches (m : MpesaTransaction) (meta : list (string * string)) : result (list string) :=
  let phone := match truthy (meta_get "ReceiverPartyPublicName" meta) with
    | Some name => if phones_differ (truthy (extractPhoneFromProviderText name))
                        (truthy (normalized (normalizePhone (Some (mpd_phoneNumber (mp_details m))))))
                   then ["PHONE_MISMATCH"] else []
    | None => []
    end in
  match meta_get "TransactionAmount" meta with
  | None => Ok phone
  | Some text =>
      let cleaned := clean_amount text in
      if cleaned === "" then Ok ("AMOUNT_MISMATCH" :: phone) else
      match parse_decimal cleaned with
      | None => Err (invalid_decimal cleaned)
      | Some q => Ok (if to_dp4 q =? mp_amount m then phone else "AMOUNT_MISMATCH" :: phone)
      end
  end.

Definition FOSA_WITHDRAWAL : string := "FOSA_WITHDRAWAL".
Definition NO_LINKED_TRANSACTION : string := "B2C_FAILURE_NO_LINKED_LEDGER_TRANSACTION".

Definition mismatch_body (id : string) (m : MpesaTransaction) (cb : B2cResult) (mismatches : list string) : M unit :=
  let* count := mpesa_updateMany id is_open (fun m => set_failure "B2C_CALLBACK_MISMATCH"
    (set_result T_RECON_PENDING (b2c_ResultCode cb) (b2c_ResultDesc cb) (P_b2c cb) m)) in
  if Nat.eqb count 0 then ret tt else
  mpesa_audit (mp_tenantId m) "MPESA.DISBURSEMENT.CALLBACK_MISMATCH" id
    (Some (JObj [("status", JStr (if is_pending m then "PENDING" else "RECON_PENDING"))]))
    (result_json "RECON_PENDING" (b2c_ResultCode cb) (b2c_ResultDesc cb)
       [("failureReason", JStr "B2C_CALLBACK_MISMATCH"); ("mismatches", JArr (JStr <$> mismatches))])
    ([("conversationId", JStr (b2c_ConversationID cb));
      ("originatorConversationId", JStr (b2c_OriginatorConversationID cb))]
     ++ json_opt_field "providerTransactionId" (b2c_TransactionID cb)
     ++ [("referenceId", json_or_null (mpd_referenceId (mp_details m)));
         ("transactionId", json_or_null (mp_transactionId m)); ("originalReference", JStr (mp_reference m));
         ("memberId", json_or_null (mpd_memberId (mp_details m)));
         ("expectedAmount", JStr (dp4_toString (mp_amount m)));
         ("expectedPhone", JStr (maskPhone (mpd_phoneNumber (mp_details m))));
         ("automaticCompletionUnsafe", JBool true)])
    (Some ("audit.MPESA.DISBURSEMENT.CALLBACK_MISMATCH." +:+ mp_tenantId m +:+ "." +:+ id +:+ "."
           +:+ default "undefined" (b2c_TransactionID cb))).

(** A failed payout of savings gives the debit back through the ledger. *)
Definition refund_body (id : string) (m : MpesaTransaction) (cb : B2cResult) (txnId : string) : M unit :=
  let* count := mpesa_updateMany id is_open
    (set_result T_FAILED (b2c_ResultCode cb) (b2c_ResultDesc cb) (P_b2c cb)) in
  if Nat.eqb count 0 then ret tt else
  reverseTransaction (mp_tenantId m) txnId ("B2C withdrawal failed: " +:+ b2c_ResultDesc cb +:+ " (code "
    +:+ pretty (b2c_ResultCode cb) +:+ ")") None true ;;
  mpesa_audit (mp_tenantId m) "MPESA.DISBURSEMENT.FAILED_REFUNDED" id None
    (result_json "FAILED" (b2c_ResultCode cb) (b2c_ResultDesc cb) [("refundedAmount", JStr (dp4_toString (mp_amount m)))])
    [("conversationId", JStr (b2c_ConversationID cb)); ("referenceId", json_or_null (mpd_referenceId (mp_details m)));
     ("amount", JStr (dp4_toString (mp_amount m))); ("phone", JStr (maskPhone (mpd_phoneNumber (mp_details m))))] None.

(** A failed payout without its debit on record waits for an operator. *)
Definition manual_review_body (id : string) (m : MpesaTransaction) (cb : B2cResult) (referenceId : string) : M unit :=
  let* account := gets (fun w => accounts (db w) !! referenceId) in
  let* count := mpesa_updateMany id
    (fun m => is_open m && negb (mpd_failureReason (mp_details m) === Some NO_LINKED_TRANSACTION))
    (fun m => set_failure NO_LINKED_TRANSACTION
       (set_result T_RECON_PENDING (b2c_ResultCode cb) (b2c_ResultDesc cb) (P_b2c cb) m)) in
  if Nat.eqb count 0 then ret tt else
  mpesa_audit (mp_tenantId m) "MPESA.DISBURSEMENT.FAILURE_MANUAL_REVIEW_REQUIRED" id None
    (result_json "RECON_PENDING" (b2c_ResultCode cb) (b2c_ResultDesc cb) [("reason", JStr "NO_LINKED_LEDGER_TRANSACTION")])
    ([("conversationId", JStr (b2c_ConversationID cb));
      ("originatorConversationId", JStr (b2c_OriginatorConversationID cb))]
     ++ json_opt_field "providerTransactionId" (b2c_TransactionID cb)
     ++ [("referenceId", JStr referenceId); ("originalReference", JStr (mp_reference m));
         ("accountId", JStr referenceId); ("accountNumber", json_or_null (acc_accountNumber <$> account));
         ("memberId", match account with Some a => JStr (acc_memberId a) | None => json_or_null (mpd_memberId (mp_details m)) end);
         ("amount", JStr (dp4_toString (mp_amount m))); ("phone", JStr (maskPhone (mpd_phoneNumber (mp_details m))));
         ("automaticReversalUnsafe", JBool true)])
    (Some ("audit.MPESA.DISBURSEMENT.FAILURE_MANUAL_REVIEW_REQUIRED." +:+ mp_tenantId m +:+ "." +:+ id)).

Definition b2c_failed_body (id : string) (m : MpesaTransaction) (cb : B2cResult) : M unit :=
  let* count := mpesa_updateMany id is_open
    (set_result T_FAILED (b2c_ResultCode cb) (b2c_ResultDesc cb) (P_b2c cb)) in
  if Nat.eqb count 0 then ret tt else
  mpesa_audit (mp_tenantId m) "MPESA.DISBURSEMENT.FAILED" id None
    (result_json "FAILED" (b2c_ResultCode cb) (b2c_ResultDesc cb) [])
    [("conversationId", JStr (b2c_ConversationID cb)); ("referenceId", json_or_null (mpd_referenceId (mp_details m)));
     ("amount", JStr (dp4_toString (mp_amount m))); ("phone", JStr (maskPhone (mpd_phoneNumber (mp_details m))))]
    (Some ("audit.MPESA.DISBURSEMENT.FAILED." +:+ mp_tenantId m +:+ "." +:+ id)).

Definition b2c_failure (id : string) (m : MpesaTransaction) (cb : B2cResult) : M unit :=
  if mpd_referenceType (mp_details m) === Some FOSA_WITHDRAWAL then
    match truthy (mp_transactionId m), truthy (mpd_referenceId (mp_details m)) with
    | Some txnId, _ => transaction (refund_body id m cb txnId)
    | None, Some referenceId => transaction (manual_review_body id m cb referenceId)
    | None, None => transaction (b2c_failed_body id m cb)
    end
  else transaction (b2c_failed_body id m cb).

(** ** Successful payouts *)
Definition b2c_date (meta : list (string * string)) (now : Z) : js_date :=
  match truthy (meta_get "TransactionCompletedDateTime" meta) with Some s => new_Date s | None => Some now end.

Definition withdrawal_done_body (id : string) (m : MpesaTransaction) (cb : B2cResult) (receipt : string) : M bool :=
  let meta := parseB2cResultMeta (b2c_ResultParameter cb) in
  let* now := gets clock in
  let* date := or_throw (b2c_date meta now) invalid_date in
  let* count := mpesa_updateMany id is_open (fun m => set_receipt receipt date
    (set_result T_COMPLETED (b2c_ResultCode cb) (b2c_ResultDesc cb) (P_b2c cb) m)) in
  if Nat.eqb count 0 then ret false else
  mpesa_audit (mp_tenantId m) "MPESA.DISBURSEMENT.COMPLETED" id None
    (Some (JObj [("status", JStr "COMPLETED"); ("receipt", JStr receipt); ("amount", JStr (toFixed4 (dec (mp_amount m))))]))
    [("referenceId", json_or_null (mpd_referenceId (mp_details m)));
     ("phone", JStr (maskPhone (mpd_phoneNumber (mp_details m))))] None ;;
  ret true.

Definition mark_disbursed (date : Z) (l : Loan) : Loan :=
  let t := loan_terms l in
  mkLoan (loan_tenantId l) (loan_memberId l) (loan_loanProductId l) (loan_loanNumber l) DISBURSED
    (loan_principalAmount l) (loan_outstandingBalance l) (loan_totalRepaid l) (loan_accruedInterest l)
    (loan_arrearsAmount l) (loan_arrearsDays l) (loan_staging l) (loan_lastAccrualDate l) (loan_dueDate l)
    (Some date) (loan_createdAt l) (loan_updatedAt l)
    (mkTerms (lt_interestRate t) (lt_processingFee t) (lt_tenureMonths t) (lt_gracePeriodMonths t)
       (lt_monthlyInstalment t) (lt_repaymentScheduleGenerated t) (lt_approvedAt t) (lt_approvedBy t)
       (Some "MPESA_SYSTEM") (lt_notes t)).

Definition getFosaAccountId (memberId tenantId : string) : M string :=
  let* found := gets (fun w => member_account tenantId memberId FOSA (db w)) in
  let* acc := or_throw found (PlainError ("No active FOSA account for member " +:+ memberId +:+ " in tenant " +:+ tenantId)) in
  ret acc.1.

(** [postDisbursementLedger]'s transaction: whether there was a loan. *)
Definition disbursementBody (p : LedgerParams) (loanId : string) : M bool :=
  let* found := gets (fun w => loans (db w) !! loanId) in
  match found with
  | None => ret false
  | Some loan =>
      let* fosaId := getFosaAccountId (loan_memberId loan) (pl_tenantId p) in
      let* posted := postEntry (mkPostEntry (pl_tenantId p) ("MPESA-B2C-" +:+ pl_receipt p) JLOAN_DISBURSEMENT fosaId
        (pl_amount p) CREDIT None (Some ("M-Pesa B2C disbursement – " +:+ pl_receipt p)) None (Some loanId) true) in
      let* date := or_throw (pl_date p) invalid_date in
      (if loan_status loan === APPROVED then loan_update loanId (mark_disbursed date) else ret tt) ;;
      mpesa_update (pl_mpesaTxId p) (completed_row p (txn_id (posted_transaction posted)) date) ;;
      ret true
  end.

Definition postDisbursementLedger (p : LedgerParams) (loanId : string) : M unit :=
  let* posted := transaction (disbursementBody p loanId) in
  if posted : bool then createAuditOnce "MPESA.DISBURSEMENT.COMPLETED" else ret tt.

Definition b2c_success (id : string) (m : MpesaTransaction) (cb : B2cResult) : M unit :=
  let meta := parseB2cResultMeta (b2c_ResultParameter cb) in
  let* receipt := match meta_get "TransactionReceipt" meta, b2c_TransactionID cb with
    | Some r, _ => ret r
    | None, Some r => ret r
    | None, None => fresh_id
    end in
  if mpd_referenceType (mp_details m) === Some FOSA_WITHDRAWAL then
    let* claimed := transaction (withdrawal_done_body id m cb receipt) in
    if claimed : bool then ret tt
    else createAuditOnce "MPESA.WITHDRAWAL.LATE_SUCCESS_AFTER_AUTO_REFUND"
  else
    match truthy (mp_loanId m) with
    | Some loanId =>
        let* now := gets clock in
        postDisbursementLedger (mkLedgerParams (mp_tenantId m) (mpd_memberId (mp_details m)) "" (dec (mp_amount m))
          receipt id (P_b2c cb) (b2c_ResultCode cb) (b2c_ResultDesc cb) (b2c_date meta now)) loanId
    | None => ret tt
    end.

Definition handleB2cCallback (cb : B2cResult) : M unit :=
  let* found := gets (fun w => mpesa_by_conversation (b2c_ConversationID cb) (db w)) in
  match found with
  | None => ret tt
  | Some (id, m) =>
      if negb (is_open m) then ret tt else
      match findB2cCallbackMismatches m (parseB2cResultMeta (b2c_ResultParameter cb)) with
      | Err e => throw e
      | Ok (x :: xs) => transaction (mismatch_body id m cb (x :: xs))
      | Ok [] => if negb (b2c_ResultCode cb =? 0) then b2c_failure id m cb else b2c_success id m cb
      end
  end.

(** ** The dispatcher *)
Definition handleCallback (p : CallbackPayload) (resolvedTenantId : string) (persistedTxId : option string) : M unit :=
  match p with
  | P_stk cb => handleStkCallback cb
  | P_c2b cb => handleC2bCallback cb resolvedTenantId persistedTxId
  | P_b2c cb => handleB2cCallback cb
  | P_other _ => ret tt
  end.
End C2b.
