(* ===== verification/MpesaInbox.v ===== *)
(** * MpesaInbox: the durable inbox of callbacks and its queue

    [src/src/modules/mpesa/mpesa.service.ts] ([enqueueCallback],
    [dispatchPendingCallbackInbox], [requeueFromDlq]) writes a callback down
    and hands it to the queue; [process] and [onFailed] of
    [src/src/modules/queue/processors/mpesa-callback.processor.ts] take it from
    there.  The queue is BullMQ: it keeps a finished job for a while, and
    ignores an [add] whose job id it still knows. *)
From S2P Require Import Prelude Money Json Format Calendar ImportText MpesaTypes Schema.
From S2P Require Import Ledger Repayment AuditLogs Mpesa MpesaCallbacks.

(** ** State *)
Inductive OutboxStatus := OB_PENDING | OB_PROCESSING | OB_DELIVERED | OB_FAILED | OB_DEAD_LETTER.
#[export] Instance OutboxStatus_dec : EqDecision OutboxStatus. Proof. solve_decision. Defined.

Record Inbox := mkInbox {
  ib_tenantId : string;
  ib_callbackType : string;
  ib_providerUniqueId : string;
  ib_uniqueKey : string;
  ib_payload : CallbackPayload;
  ib_mpesaTransactionId : option string;
  ib_status : OutboxStatus;
  ib_attempts : Z;
  ib_queueJobId : option string;
  ib_lastError : option string;
  ib_nextRetryAt : option Z;
  ib_createdAt : Z;
  ib_updatedAt : Z;
}.

(** The data of a callback job, and the attempts made at it; a job the queue
    remembers is waiting, done or exhausted. *)
Record CallbackJobPayload := mkCallbackJob {
  cj_tenantId : string;
  cj_mpesaTransactionId : option string;
  cj_callbackInboxId : option string;
  cj_callbackPayload : option CallbackPayload;
  cj_callbackType : string;
}.
Inductive JobState := JOB_WAITING | JOB_COMPLETED | JOB_EXHAUSTED.
#[export] Instance JobState_dec : EqDecision JobState. Proof. solve_decision. Defined.

Record CallbackJob := mkCJob {
  job_data : CallbackJobPayload;
  attemptsMade : nat;
  job_state : JobState;
}.

(** The tables, the inbox, the queue and the dead-letter queue, and whether the
    queue's store answers. *)
Record MpesaWorld := mkMW {
  mw_base : World;
  inbox : gmap string Inbox;
  callbackQueue : gmap string CallbackJob;
  dlq : gmap string CallbackJobPayload;
  queue_up : bool;
}.

Abbreviation MM := (comp MpesaWorld).

Definition on_base {A} (m : M A) : MM A := fun s =>
  let '(r, w) := m (mw_base s) in (r, mkMW w (inbox s) (callbackQueue s) (dlq s) (queue_up s)).
Definition with_inbox (f : gmap string Inbox -> gmap string Inbox) (s : MpesaWorld) : MpesaWorld :=
  mkMW (mw_base s) (f (inbox s)) (callbackQueue s) (dlq s) (queue_up s).
Definition with_queue (f : gmap string CallbackJob -> gmap string CallbackJob) (s : MpesaWorld) : MpesaWorld :=
  mkMW (mw_base s) (inbox s) (f (callbackQueue s)) (dlq s) (queue_up s).
Definition with_dlq (f : gmap string CallbackJobPayload -> gmap string CallbackJobPayload) (s : MpesaWorld) : MpesaWorld :=
  mkMW (mw_base s) (inbox s) (callbackQueue s) (f (dlq s)) (queue_up s).

(** A transaction over the tables and the inbox. *)
Definition inbox_transaction {A} (body : MM A) : MM A := fun s =>
  match body s with
  | (Ok a, s') => (Ok a, s')
  | (Err e, s') => (Err e, mkMW (with_db (fun _ => db (mw_base s)) (mw_base s')) (inbox s) (callbackQueue s') (dlq s') (queue_up s'))
  end.

Definition now_ms : MM Z := gets (fun s => clock (mw_base s)).

(** ** Inbox rows *)
Definition inbox_update (id : string) (f : Inbox -> Inbox) : MM unit :=
  let* found := gets (fun s => inbox s !! id) in
  let* row := or_throw found (RecordNotFound "MpesaCallbackInbox") in
  modify (with_inbox <[id := f row]>).

Definition set_inbox (st : OutboxStatus) (attempts : Z) (job : option string) (err : option string) (retry : option Z)
    (now : Z) (r : Inbox) : Inbox :=
  mkInbox (ib_tenantId r) (ib_callbackType r) (ib_providerUniqueId r) (ib_uniqueKey r) (ib_payload r)
    (ib_mpesaTransactionId r) st attempts job err retry (ib_createdAt r) now.

Definition inbox_delivered (now : Z) (r : Inbox) : Inbox :=
  set_inbox OB_DELIVERED (ib_attempts r) (ib_queueJobId r) None None now r.
Definition inbox_processing (job : string) (now : Z) (r : Inbox) : Inbox :=
  set_inbox OB_PROCESSING (ib_attempts r) (Some job) None None now r.

Definition CALLBACK_RETRY_DELAY_MS : Z := 60000.
Definition inbox_failed (err : string) (now : Z) (r : Inbox) : Inbox :=
  set_inbox OB_FAILED (ib_attempts r + 1) (ib_queueJobId r) (Some err) (Some (now + CALLBACK_RETRY_DELAY_MS)) now r.

(** [upsert({ where: { uniqueKey } })]: an existing row takes the new payload
    and keeps its status. *)
Definition inbox_by_key (key : string) (s : MpesaWorld) : option (string * Inbox) :=
  List.find (fun kv => ib_uniqueKey kv.2 === key) (map_to_list (inbox s)).

Definition inbox_refresh (p : CallbackPayload) (txId : string) (now : Z) (r : Inbox) : Inbox :=
  mkInbox (ib_tenantId r) (ib_callbackType r) (ib_providerUniqueId r) (ib_uniqueKey r) p (Some txId)
    (ib_status r) (ib_attempts r) (ib_queueJobId r) (ib_lastError r) (ib_nextRetryAt r) (ib_createdAt r) now.

Definition callbackUniqueKey (provider tenantId callbackType uniqueId : string) : string :=
  provider +:+ ":" +:+ tenantId +:+ ":" +:+ callbackType +:+ ":" +:+ uniqueId.

(** ** Job ids: [replace(/[^A-Za-z0-9_.:-]/g, '-')] *)
Definition job_id_char (c : ascii) : bool :=
  is_upper c || is_lower c || is_digit c || existsb (fun x => c === x) ["_"; "."; ":"; "-"]%char.

Fixpoint sanitise (s : string) : string :=
  match s with
  | EmptyString => EmptyString
  | String c s' => String (if job_id_char c then c else "-"%char) (sanitise s')
  end.

Definition inbox_jobId (r : Inbox) : string :=
  sanitise ("mpesa-callback-" +:+ ib_tenantId r +:+ "-" +:+ ib_callbackType r +:+ "-" +:+ ib_providerUniqueId r).

(** [queue.add(name, data, { jobId })] *)
Definition QUEUE_DOWN : exn := PlainError "Connection is closed.".
Definition queue_add (jobId : string) (data : CallbackJobPayload) : MM unit :=
  let* up := gets queue_up in
  throw_if (negb up) QUEUE_DOWN ;;
  modify (with_queue (fun q => match q !! jobId with Some _ => q | None => <[jobId := mkCJob data 0 JOB_WAITING]> q end)).

Definition inbox_job (id : string) (r : Inbox) : CallbackJobPayload :=
  mkCallbackJob (ib_tenantId r) (ib_mpesaTransactionId r) (Some id) None (ib_callbackType r).

(** [try { m } catch (e) { h(e) }] *)
Definition try_catch {A} (m : MM A) (h : exn -> MM A) : MM A := fun s =>
  match m s with
  | (Ok a, s') => (Ok a, s')
  | (Err e, s') => h e s'
  end.

(** Whether the row went to the queue. *)
Definition enqueueCallbackInbox (callbackInboxId : string) : MM bool :=
  let* found := gets (fun s => inbox s !! callbackInboxId) in
  match found with
  | None => ret false
  | Some row =>
      if ib_status row === OB_DELIVERED then ret false else
      let jobId := inbox_jobId row in
      let* now := now_ms in
      try_catch
        (queue_add jobId (inbox_job callbackInboxId row) ;;
         inbox_update callbackInboxId (inbox_processing jobId now) ;;
         ret true)
        (fun e => inbox_update callbackInboxId (inbox_failed (exn_message e) now) ;; ret false)
  end.

(** ** dispatchPendingCallbackInbox *)
Definition due (now : Z) (r : Inbox) : bool :=
  (((ib_status r === OB_PENDING) || (ib_status r === OB_FAILED))
   && match ib_nextRetryAt r with None => true | Some t => t <=? now end)
  || ((ib_status r === OB_PROCESSING) && (ib_updatedAt r <? now - 5 * 60000)).

Definition created_before (a b : string * Inbox) : Prop := ib_createdAt a.2 <= ib_createdAt b.2.
#[export] Instance created_before_dec a b : Decision (created_before a b) := decide (ib_createdAt a.2 <= ib_createdAt b.2).

(** Rows created at the same moment come in an order of the store's own. *)
Definition due_rows (limit : nat) (s : MpesaWorld) : list string :=
  let rows := List.filter (fun kv : string * Inbox => due (clock (mw_base s)) kv.2) (map_to_list (inbox s)) in
  fst <$> take limit (merge_sort created_before rows).

Definition dispatchPendingCallbackInbox (limit : nat) : MM nat :=
  let* rows := gets (due_rows limit) in
  foldM (fun queued id => let* ok := enqueueCallbackInbox id in ret (if ok : bool then S queued else queued)) 0%nat rows.

Section Inbox.
Context `{UuidSource, Sha256, Environment, DateReader}.

(** ** persistCallbackPayload *)
Definition inbox_upsert (p : CallbackPayload) (callbackType uniqueId tenantId txId : string) : MM string :=
  let key := callbackUniqueKey "MPESA" tenantId callbackType uniqueId in
  let* now := now_ms in
  let* found := gets (inbox_by_key key) in
  match found with
  | Some (id, row) => modify (with_inbox <[id := inbox_refresh p txId now row]>) ;; ret id
  | None =>
      let* id := on_base fresh_id in
      let* taken := gets (fun s => bool_decide (is_Some (inbox s !! id))) in
      throw_if taken (UniqueViolation "MpesaCallbackInbox") ;;
      modify (with_inbox <[id := mkInbox tenantId callbackType uniqueId key p (Some txId) OB_PENDING 0 None None None now now]>) ;;
      ret id
  end.

Definition set_payload (p : CallbackPayload) (m : MpesaTransaction) : MpesaTransaction :=
  mkMpesaTransaction (mp_tenantId m) (mp_reference m) (mp_amount m) (mp_status m) (mp_transactionId m) (mp_loanId m)
    (mp_resultCode m) (mp_resultDesc m) (mp_receipt m) (mp_transactionDate m) (set_callbackPayload p (mp_details m)).

(** The row a result belongs to must exist; it takes the payload. *)
Definition persist_known (found : DB -> option (string * MpesaTransaction)) (missing : exn) (p : CallbackPayload)
    (callbackType uniqueId : string) : MM string :=
  inbox_transaction (
    let* row := gets (fun s => found (db (mw_base s))) in
    let* kv := or_throw row missing in
    on_base (mpesa_update kv.1 (set_payload p)) ;;
    inbox_upsert p callbackType uniqueId (mp_tenantId kv.2) kv.1).

Definition by_conversations (cb : B2cResult) : DB -> option (string * MpesaTransaction) :=
  mpesa_find (fun m => (mpd_conversationId (mp_details m) === Some (b2c_ConversationID cb))
    || (mpd_originatorConversationId (mp_details m) === Some (b2c_OriginatorConversationID cb))).

Definition c2b_new_row (cb : C2bCallback) (tenantId : string) (amount : Q) (date : Z) : MpesaTransaction :=
  c2b_row cb tenantId None (to_dp4 amount) date.

Definition persist_c2b (cb : C2bCallback) (callbackType uniqueId resolvedTenantId : string) : MM string :=
  let* amount := or_throw (parse_decimal (c2b_TransAmount cb)) (invalid_decimal (c2b_TransAmount cb)) in
  inbox_transaction (
    let* now := now_ms in
    let* found := gets (fun s => mpesa_find (fun m => mp_reference m === c2b_reference (c2b_TransID cb)) (db (mw_base s))) in
    let* date := or_throw (parseDarajaTimestamp now (c2b_TransTime cb)) invalid_date in
    let* kv := match found with
      | Some (id, m) =>
          on_base (mpesa_update id (fun m => set_date date (set_payload (P_c2b cb) m))) ;;
          ret (id, mp_tenantId m)
      | None =>
          let* id := on_base (mpesa_create (c2b_new_row cb resolvedTenantId amount date)) in
          ret (id, resolvedTenantId)
      end in
    inbox_upsert (P_c2b cb) callbackType uniqueId kv.2 kv.1).

Definition persistCallbackPayload (p : CallbackPayload) (callbackType uniqueId tenantId : string) : MM string :=
  match p with
  | P_stk cb => persist_known (mpesa_by_checkout (stk_CheckoutRequestID cb))
      (PlainError ("STK callback has no MpesaTransaction for CheckoutRequestID=" +:+ stk_CheckoutRequestID cb))
      p callbackType uniqueId
  | P_b2c cb => persist_known (by_conversations cb)
      (PlainError ("B2C callback has no MpesaTransaction for ConversationID=" +:+ b2c_ConversationID cb))
      p callbackType uniqueId
  | P_c2b cb => persist_c2b cb callbackType uniqueId (default UNRESOLVED (known_tenant tenantId))
  | P_other _ => throw (PlainError ("Unsupported M-Pesa callback structure for type=" +:+ callbackType))
  end.

Definition enqueueCallback (p : CallbackPayload) (callbackType uniqueId tenantId : string) : MM unit :=
  let* id := persistCallbackPayload p callbackType uniqueId tenantId in
  enqueueCallbackInbox id ;;
  ret tt.

(** ** process: one attempt at a job *)

(** What the job is about: the payload, its tenant and its row.  [None] when
    the inbox row has been dealt with. *)
Definition resolve_job (job : CallbackJobPayload) : MM (option (CallbackPayload * string * option string)) :=
  let* inboxed := match cj_callbackInboxId job with
    | Some id =>
        let* found := gets (fun s => inbox s !! id) in
        let* row := or_throw found (PlainError ("M-Pesa callback inbox row not found for " +:+ id)) in
        ret (Some row)
    | None => ret None
    end in
  match inboxed with
  | Some row =>
      if ib_status row === OB_DELIVERED then ret None
      else ret (Some (ib_payload row, ib_tenantId row,
                      match ib_mpesaTransactionId row with Some t => Some t | None => cj_mpesaTransactionId job end))
  | None =>
      match cj_callbackPayload job, truthy (cj_mpesaTransactionId job) with
      | Some p, _ => ret (Some (p, cj_tenantId job, cj_mpesaTransactionId job))
      | None, Some txId =>
          let* found := gets (fun s => mpesaTransactions (db (mw_base s)) !! txId) in
          match found with
          | Some m =>
              let* p := or_throw (mpd_callbackPayload (mp_details m))
                (PlainError ("M-Pesa callback payload not found for transaction " +:+ txId)) in
              ret (Some (p, mp_tenantId m, Some txId))
          | None => throw (PlainError ("M-Pesa callback payload not found for transaction " +:+ txId))
          end
      | None, None => throw (PlainError "M-Pesa callback job has no payload reference or legacy payload")
      end
  end.

Definition process (job : CallbackJobPayload) : MM unit :=
  let* resolved := resolve_job job in
  match resolved with
  | None => ret tt
  | Some (p, tenantId, txId) =>
      let* now := now_ms in
      try_catch
        (on_base (handleCallback p tenantId txId) ;;
         match cj_callbackInboxId job with Some id => inbox_update id (inbox_delivered now) | None => ret tt end)
        (fun e =>
           match cj_callbackInboxId job with
           | Some id => inbox_update id (inbox_failed (exn_message e) now)
           | None => ret tt
           end ;;
           throw e)
  end.

(** ** The worker: the queue runs a waiting job, three times at most *)
Definition MAX_ATTEMPTS : nat := 3.

(** [onFailed]: the last failure moves the job to the dead-letter queue. *)
Definition onFailed (job : CallbackJob) : MM unit :=
  if Nat.ltb (attemptsMade job) MAX_ATTEMPTS then ret tt else
  let* id := on_base fresh_id in
  modify (with_dlq <[id := job_data job]>) ;;
  on_base (createAuditOnce "MPESA.CALLBACK.DLQ").

Definition run_job (jobId : string) : MM unit :=
  let* found := gets (fun s => callbackQueue s !! jobId) in
  match found with
  | Some job =>
      if negb (job_state job === JOB_WAITING) then ret tt else
      try_catch
        (process (job_data job) ;;
         modify (with_queue <[jobId := mkCJob (job_data job) (S (attemptsMade job)) JOB_COMPLETED]>))
        (fun _ =>
           let job' := mkCJob (job_data job) (S (attemptsMade job))
             (if Nat.ltb (S (attemptsMade job)) MAX_ATTEMPTS then JOB_WAITING else JOB_EXHAUSTED) in
           modify (with_queue <[jobId := job']>) ;;
           onFailed job')
  | None => ret tt
  end.

(** The queue forgets a finished job some time after. *)
Definition forget_job (jobId : string) (s : MpesaWorld) : MpesaWorld := with_queue (delete jobId) s.

(** ** requeueFromDlq *)
Definition requeueFromDlq (jobId : string) : MM string :=
  let* found := gets (fun s => dlq s !! jobId) in
  let* data := or_throw found (NotFound ("DLQ job " +:+ jobId +:+ " not found")) in
  let* now := now_ms in
  let newJobId := "dlq-replay-" +:+ jobId +:+ "-" +:+ pretty now in
  queue_add newJobId data ;;
  modify (with_dlq (delete jobId)) ;;
  ret newJobId.
End Inbox.
