(* ===== verification/MwaloniClient.v ===== *)
(** * MwaloniClient: the payment wallet's HTTP client

    [src/src/modules/mpesa/mwaloni-client.service.ts].  The network is a
    parameter: what a POST answers may depend on every POST made before it, so
    any behaviour of the provider is some [fetch].  The token cache is the
    Redis store; log lines and the waiting between two attempts are left out. *)
From S2P Require Import Prelude Json Format AuditLogs.
From S2P Require Import Money ImportText MpesaTypes Schema.

(** ** Exceptions ([exceptions/mpesa.exceptions.ts]) *)
Definition MwaloniAuthException (msg : string) (retryable : bool) : exn :=
  MpesaError "MWALONI_AUTH_FAILED" msg retryable.
Definition MwaloniConfigException (missing : string) : exn :=
  MpesaError "MWALONI_CONFIG_MISSING" (missing +:+ " is not configured") false.
Definition MpesaNetworkException (msg : string) : exn := MpesaError "MPESA_NETWORK_ERROR" msg true.
Definition MpesaApiException (responseCode description : string) : exn :=
  MpesaError "MPESA_API_ERROR" ("Daraja error " +:+ responseCode +:+ ": " +:+ description) false.
Definition MpesaServiceUnavailableException (detail : string) : exn :=
  MpesaError "MPESA_SERVICE_UNAVAILABLE" detail true.
Definition B2cProviderUnavailableException (detail : string) : exn :=
  MpesaError "B2C_PROVIDER_UNAVAILABLE" detail false.

(** [error instanceof MpesaException && !error.retryable] *)
Definition permanent (e : exn) : bool :=
  match e with MpesaError _ _ retryable => negb retryable | _ => false end.

(** ** The network *)
Record HttpRequest := mkPost {
  post_url : string;
  post_headers : list (string * string);
  post_body : json;
}.
Record HttpResponse := mkResponse {
  res_status : Z;
  res_text : string;
  res_json : option json;   (* [None]: the body is not JSON *)
}.

(** The answer to a POST, or why none came. *)
Class Network := { fetch : list HttpRequest -> HttpRequest -> string + HttpResponse }.

(** The service's configuration ([app.mwaloni.*]). *)
Class MwaloniConfig := {
  mwaloni_enabled : bool;
  mwaloni_get : string -> option string;
}.

(** The POSTs made so far, oldest first, and the cached tokens with the time
    they expire. *)
Record Wallet := mkWallet {
  posts : list HttpRequest;
  tokens : gmap string (string * Z);
}.

Definition with_tokens (f : gmap string (string * Z) -> gmap string (string * Z)) (s : Wallet) : Wallet :=
  mkWallet (posts s) (f (tokens s)).

Definition send_post `{Network} (r : HttpRequest) : comp Wallet (string + HttpResponse) := fun s =>
  (Ok (fetch (posts s) r), mkWallet (posts s ++ [r]) (tokens s)).

(** ** Reading an answer *)
Definition fields_get (key : string) (fs : list (string * json)) : option json :=
  snd <$> List.find (fun kv => kv.1 === key) fs.

(** [v.key]; reading a property of null throws. *)
Definition read_member {St} (key : string) (v : json) : comp St (option json) :=
  match v with
  | JNull => throw (PlainError ("Cannot read properties of null (reading '" +:+ key +:+ "')"))
  | JObj fs => ret (fields_get key fs)
  | _ => ret None
  end.

(** [v?.key] *)
Definition opt_member (key : string) (v : option json) : option json :=
  match v with Some (JObj fs) => fields_get key fs | _ => None end.

(** [v ?? d] for a value that is null or absent. *)
Definition nullish (v : option json) : option json :=
  match v with Some JNull => None | _ => v end.

Definition string_field (v : option json) : option string :=
  match v with Some (JStr s) => Some s | _ => None end.

Section Client.
Context `{Network, MwaloniConfig, Sha256}.

(** ** Configuration *)
Definition REQUIRED_CONFIG : list (string * string) :=
  [("serviceId", "MWALONI_SERVICE_ID"); ("username", "MWALONI_USERNAME");
   ("password", "MWALONI_PASSWORD"); ("apiKey", "MWALONI_API_KEY")].

Definition config_value (key : string) : option string := truthy (trim <$> mwaloni_get key).

Definition getMissingConfig : list string :=
  snd <$> List.filter (fun kv => negb (bool_decide (is_Some (config_value kv.1)))) REQUIRED_CONFIG.

Definition assertConfigured : comp Wallet unit :=
  throw_if (negb (getMissingConfig === [])) (MwaloniConfigException (join " / " getMissingConfig)).

Definition getRequiredConfig (key envName : string) : comp Wallet string :=
  or_throw (config_value key) (MwaloniConfigException envName).

Definition wallet_env : string := default "sandbox" (mwaloni_get "env").

Definition ends_with_slash (s : string) : bool := String.prefix "/" (reverse_string s).

Definition baseUrl : string :=
  let configured := if wallet_env === "production"
    then default "https://wallet.mwaloni.com/api/" (mwaloni_get "urlProduction")
    else default "https://wallet-stg.mwaloni.com/api/" (mwaloni_get "urlSandbox") in
  if ends_with_slash configured then configured else configured +:+ "/".

Definition tokenCacheKey (username : string) : string :=
  "mwaloni:token:" +:+ wallet_env +:+ ":"
  +:+ String.substring 0 12 (sha256 (username +:+ ":" +:+ default "" (mwaloni_get "apiKey"))).

(** ** withRetry *)
Fixpoint attempts_from {A} (fn : comp Wallet A) (left : nat) (lastError : exn) : comp Wallet A :=
  match left with
  | O => throw lastError
  | S left' => fun s =>
      match fn s with
      | (Ok a, s') => (Ok a, s')
      | (Err e, s') => if permanent e then (Err e, s') else attempts_from fn left' e s'
      end
  end.

Definition final_error (label : string) (maxAttempts : nat) (e : exn) : exn :=
  match e with
  | MpesaError _ _ _ => e
  | _ => MpesaServiceUnavailableException ("Mwaloni " +:+ label +:+ " failed after " +:+ pretty maxAttempts
           +:+ " attempts: " +:+ exn_message e)
  end.

Definition withRetry {A} (fn : comp Wallet A) (maxAttempts : nat) (label : string) : comp Wallet A := fun s =>
  match attempts_from fn maxAttempts (PlainError "No attempts made") s with
  | (Ok a, s') => (Ok a, s')
  | (Err e, s') => (Err (final_error label maxAttempts e), s')
  end.

(** ** post *)
Definition RETRY_ATTEMPTS : nat := 3.

Definition read_response (label : string) (answer : string + HttpResponse) : comp Wallet json :=
  match answer with
  | inl message => throw (MpesaNetworkException ("Mwaloni " +:+ label +:+ ": " +:+ message))
  | inr res =>
      if res_status res =? 401 then
        let* username := getRequiredConfig "username" "MWALONI_USERNAME" in
        modify (with_tokens (delete (tokenCacheKey username))) ;;
        throw (MwaloniAuthException "Mwaloni returned 401 - token expired or credentials rejected" true)
      else if 500 <=? res_status res then
        throw (MpesaServiceUnavailableException ("Mwaloni " +:+ label +:+ " HTTP " +:+ pretty (res_status res)))
      else if negb ((200 <=? res_status res) && (res_status res <=? 299)) then
        throw (MpesaApiException (pretty (res_status res))
          ("Mwaloni " +:+ label +:+ " HTTP " +:+ pretty (res_status res) +:+ ": " +:+ String.substring 0 120 (res_text res)))
      else or_throw (res_json res) (PlainError "Unexpected end of JSON input")
  end.

(** One attempt: the token, when one is needed, is fetched anew each time. *)
Definition post_once (token : comp Wallet (option string)) (endpoint : string) (body : json) (label apiKey : string)
    : comp Wallet json :=
  let* bearer := token in
  let* answer := send_post (mkPost (baseUrl +:+ endpoint)
    ([("Content-Type", "application/json"); ("x-api-key", apiKey)]
     ++ match bearer with Some t => [("Authorization", "Bearer " +:+ t)] | None => [] end) body) in
  read_response label answer.

Definition post (token : comp Wallet (option string)) (endpoint : string) (body : json) (label : string) (attempts : nat)
    : comp Wallet json :=
  let* apiKey := getRequiredConfig "apiKey" "MWALONI_API_KEY" in
  withRetry (post_once token endpoint body label apiKey) attempts label.

(** ** authenticate *)
Definition DEFAULT_TOKEN_TTL_SECONDS : Z := 55 * 60.

(** [Number(expiresIn ?? DEFAULT)], which the store takes only when whole. *)
Definition token_lifetime (expiresIn : option json) : option Z :=
  match nullish expiresIn with
  | None => Some DEFAULT_TOKEN_TTL_SECONDS
  | Some (JNum t) | Some (JStr t) => digits_value 0 t
  | Some _ => None
  end.

Definition token_ttl (lifetime : Z) : Z := Z.max 60 (Z.min (lifetime - 300) DEFAULT_TOKEN_TTL_SECONDS).

Definition cached_token (key : string) (now : Z) (s : Wallet) : option string :=
  match tokens s !! key with Some (t, expires) => if now <? expires then truthy (Some t) else None | None => None end.

Definition fetch_token (username password cacheKey : string) (now : Z) : comp Wallet string :=
  let* response := post (ret None) "authenticate" (JObj [("username", JStr username); ("password", JStr password)])
    "authentication" RETRY_ATTEMPTS in
  let* status := read_member "status" response in
  let* data := read_member "data" response in
  match string_field status === Some "00", truthy (string_field (opt_member "token" data)) with
  | true, Some t =>
      let* lifetime := or_throw (token_lifetime (opt_member "expiresIn" data))
        (PlainError "ERR value is not an integer or out of range") in
      modify (with_tokens <[cacheKey := (t, now + token_ttl lifetime * 1000)]>) ;;
      ret t
  | _, _ =>
      let* message := read_member "message" response in
      throw (MwaloniAuthException ("Mwaloni authentication failed: "
        +:+ default "missing token" (string_field message)) false)
  end.

Definition authenticate (now : Z) : comp Wallet string :=
  assertConfigured ;;
  let* username := getRequiredConfig "username" "MWALONI_USERNAME" in
  let* password := getRequiredConfig "password" "MWALONI_PASSWORD" in
  let cacheKey := tokenCacheKey username in
  let* cached := gets (cached_token cacheKey now) in
  match cached with
  | Some t => ret t
  | None => fetch_token username password cacheKey now
  end.

Definition makeRequest (now : Z) (endpoint : string) (body : json) (label : string) (attempts : nat) : comp Wallet json :=
  post (let* t := authenticate now in ret (Some t)) endpoint body label attempts.

(** ** The operations *)
Record MwaloniMobileParams := mkMobile {
  mo_orderNumber : string;
  mo_phoneNumber : string;
  mo_amount : Z;          (* units of 0.0001 *)
  mo_description : string;
}.

Definition SEND_MONEY : string := "send-money".

Definition send_money_body (serviceId : string) (p : MwaloniMobileParams) : json :=
  JObj [("channel", JStr "daraja-mobile"); ("service_id", JStr serviceId); ("order_number", JStr (mo_orderNumber p));
        ("amount", JNum (dp4_toString (mo_amount p))); ("account_number", JStr (mo_phoneNumber p));
        ("description", JStr (mo_description p)); ("country_code", JStr "KE"); ("currency_code", JStr "KES")].

(** Money is sent with a single attempt. *)
Definition sendMobile (now : Z) (p : MwaloniMobileParams) : comp Wallet json :=
  assertConfigured ;;
  let* serviceId := getRequiredConfig "serviceId" "MWALONI_SERVICE_ID" in
  makeRequest now SEND_MONEY (send_money_body serviceId p) "send money" 1.

Definition getStatus (now : Z) (orderNumber : string) : comp Wallet json :=
  assertConfigured ;;
  makeRequest now "get-transaction-status" (JObj [("orderNumber", JStr orderNumber)]) "transaction status" RETRY_ATTEMPTS.

Definition fetchBalance (now : Z) : comp Wallet json :=
  assertConfigured ;;
  let* serviceId := getRequiredConfig "serviceId" "MWALONI_SERVICE_ID" in
  makeRequest now "get-balance" (JObj [("service_id", JStr serviceId)]) "balance" RETRY_ATTEMPTS.
End Client.

(** ** Reading the wallet's answers

    The private helpers of [src/src/modules/mpesa/mpesa.service.ts] that look
    an order number, an amount or a phone up in an answer of unknown shape and
    compare them with the payout on record.  Numerals are read exactly; the
    code's doubles agree with them up to fifteen significant digits. *)
(** The first value that is there. *)
Fixpoint first_some {A B} (f : A -> option B) (xs : list A) : option B :=
  match xs with
  | [] => None
  | x :: xs' => match f x with Some b => Some b | None => first_some f xs' end
  end.

(** ** findFieldValue: a key anywhere in the answer

    A key of the object itself comes before any nested one; a null value counts
    as not found. *)
Definition own_field (targetKey : string) (fs : list (string * json)) : option (option json) :=
  match List.find (fun kv => toLowerCase kv.1 === targetKey) fs with
  | Some kv => Some (nullish (Some kv.2))
  | None => None
  end.

Fixpoint findFieldValue (targetKey : string) (v : json) : option json :=
  match v with
  | JArr xs => (fix items (xs : list json) : option json :=
      match xs with
      | [] => None
      | x :: xs' => match findFieldValue targetKey x with Some j => Some j | None => items xs' end
      end) xs
  | JObj fs =>
      match own_field targetKey fs with
      | Some found => found
      | None => (fix values (fs : list (string * json)) : option json :=
          match fs with
          | [] => None
          | (_, x) :: fs' => match findFieldValue targetKey x with Some j => Some j | None => values fs' end
          end) fs
      end
  | _ => None
  end.

(** ** toFiniteNumber, extractNumericField *)
Definition toFiniteNumber (v : json) : option Q :=
  match v with
  | JNum t => parse_decimal t
  | JStr s => let normalized := clean_amount s in if normalized === "" then None else parse_decimal normalized
  | _ => None
  end.

Definition extractNumericField (v : json) (fieldNames : list string) : option Q :=
  first_some (fun name => findFieldValue (toLowerCase name) v ≫= toFiniteNumber) fieldNames.

(** ** extractStringField *)
Definition wanted_string (fieldNames : list string) (kv : string * json) : option string :=
  if existsb (fun name => toLowerCase name === toLowerCase kv.1) fieldNames then
    match kv.2 with JStr s => truthy (Some (trim s)) | _ => None end
  else None.

Fixpoint extractStringField (fieldNames : list string) (v : json) : option string :=
  match v with
  | JArr xs => (fix items (xs : list json) : option string :=
      match xs with
      | [] => None
      | x :: xs' => match extractStringField fieldNames x with Some s => Some s | None => items xs' end
      end) xs
  | JObj fs =>
      match first_some (wanted_string fieldNames) fs with
      | Some s => Some s
      | None => (fix values (fs : list (string * json)) : option string :=
          match fs with
          | [] => None
          | (_, x) :: fs' => match extractStringField fieldNames x with Some s => Some s | None => values fs' end
          end) fs
      end
  | _ => None
  end.

(** ** findMwaloniResponseMismatches *)
Definition ORDER_FIELDS : list string := ["orderNumber"; "order_number"; "conversationId"; "ConversationID"].
Definition AMOUNT_FIELDS : list string :=
  ["amount"; "transactionAmount"; "TransactionAmount"; "transAmount"; "TransAmount"].
Definition PHONE_FIELDS : list string :=
  ["phone"; "phoneNumber"; "account_number"; "accountNumber"; "msisdn"; "MSISDN"; "receiverPhone"].

Definition both_differ {A} `{EqDecision A} (x y : option A) : bool :=
  match x, y with Some a, Some b => negb (a === b) | _, _ => false end.

Definition findMwaloniResponseMismatches (m : MpesaTransaction) (response : json) : list string :=
  let order := extractStringField ORDER_FIELDS response in
  let amount := extractNumericField response AMOUNT_FIELDS in
  let phone := extractStringField PHONE_FIELDS response in
  (if both_differ order (truthy (mpd_conversationId (mp_details m))) then ["ORDER_NUMBER_MISMATCH"] else [])
  ++ (if both_differ (to_dp4 <$> amount) (Some (mp_amount m)) then ["AMOUNT_MISMATCH"] else [])
  ++ match phone with
     | Some p => if both_differ (truthy (normalized (normalizePhone (Some p))))
                      (truthy (normalized (normalizePhone (Some (mpd_phoneNumber (mp_details m))))))
                 then ["PHONE_MISMATCH"] else []
     | None => []
     end.

(** ** The status *)
Definition isMwaloniSuccess (status : string) : bool := status === "00".
Definition isMwaloniPending (status : string) : bool :=
  existsb (fun s => s === toUpperCase status) ["02"; "03"; "PENDING"; "PROCESSING"; "QUEUED"; "IN_PROGRESS"].

(** [String(v)] *)
Fixpoint js_String (v : json) : string :=
  match v with
  | JNull => "null"
  | JBool b => if b then "true" else "false"
  | JNum t => t
  | JStr s => s
  | JArr xs => join "," (map (fun x => match x with JNull => "" | _ => js_String x end) xs)
  | JObj _ => "[object Object]"
  end.

(** [String(response.status ?? '').trim()] and [response.message ?? ...], a
    message being a text. *)
Definition response_status (response : json) : string :=
  match nullish (opt_member "status" (Some response)) with Some v => trim (js_String v) | None => "" end.
Definition response_message (response : json) : string :=
  default "Mwaloni response received" (string_field (opt_member "message" (Some response))).

(** [/^\d+$/.test(status) ? Number(status) : null] *)
Definition status_code (status : string) : option Z :=
  if status === "" then None else digits_value 0 status.

(** [buildMwaloniOrderNumber] *)
Definition buildMwaloniOrderNumber (referenceId : string) (sourceTransactionId : option string) (now : Z) : string :=
  match truthy sourceTransactionId with
  | Some id => "MWD-" +:+ id
  | None => "MWD-" +:+ referenceId +:+ "-" +:+ pretty now
  end.

(** [buildMpesaRef.b2c] ([utils/mpesa.utils.ts]) *)
Definition b2c_reference (conversationId : string) : string := "B2C-" +:+ conversationId.

(** ** normalizeMwaloniBalance *)
Record B2cWalletBalance := mkBalance {
  wb_currency : string;
  wb_balance : option Q;
  wb_availableBalance : option Q;
  wb_actualBalance : option Q;
}.

Definition AVAILABLE_FIELDS : list string :=
  ["utilityBalance"; "utility_balance"; "availableBalance"; "available_balance"; "available"; "walletBalance";
   "wallet_balance"; "balance"].
Definition ACTUAL_FIELDS : list string :=
  ["workingBalance"; "working_balance"; "actualBalance"; "actual_balance"; "ledgerBalance"; "ledger_balance";
   "currentBalance"; "current_balance"; "balance"].

Definition normalizeMwaloniBalance (response : json) : B2cWalletBalance :=
  let available := extractNumericField response AVAILABLE_FIELDS in
  let actual := extractNumericField response ACTUAL_FIELDS in
  let balance := first_some (fun x => x) [extractNumericField response ["balance"]; available; actual] in
  mkBalance (default "KES" (extractStringField ["currency"; "currencyCode"; "currency_code"] response))
    balance available actual.

Example nested_amount :
  extractNumericField (JObj [("data", JArr [JObj [("Amount", JStr "KES 1,250.50")]])]) AMOUNT_FIELDS = Some (125050 # 100)%Q.
Proof. vm_compute. reflexivity. Qed.
