(* ===== verification/PayoutState.v ===== *)
(** * PayoutState: the tables, queues and wallet behind a payout

    The columns of an MpesaTransaction row that follow a payout at the
    provider, the payout outbox, the record of reconciliation attempts and the
    operational alerts ([MpesaPayoutIntent],
    [MpesaWithdrawalReconciliationAttempt] and [ComplianceAlert] of
    [src/src/prisma/schema.prisma]); the two BullMQ queues; and the computations
    over all of these. *)
From S2P Require Import Prelude Money Json Format ImportText MpesaTypes Schema.
From S2P Require Import Ledger AuditLogs Mpesa MpesaCallbacks MpesaInbox MwaloniClient.

(** ** Rows *)

(** [MWALONI_PROVIDER_STATE] *)
Inductive ProviderState :=
  LOCAL_CREATED | SEND_ATTEMPTED | PROVIDER_ACCEPTED | OUTCOME_UNKNOWN | PROVIDER_COMPLETED | PROVIDER_FAILED.
#[export] Instance ProviderState_dec : EqDecision ProviderState. Proof. solve_decision. Defined.

Definition provider_state_text (p : ProviderState) : string :=
  match p with
  | LOCAL_CREATED => "LOCAL_CREATED"
  | SEND_ATTEMPTED => "PROVIDER_SEND_ATTEMPTED"
  | PROVIDER_ACCEPTED => "PROVIDER_ACCEPTED"
  | OUTCOME_UNKNOWN => "PROVIDER_OUTCOME_UNKNOWN"
  | PROVIDER_COMPLETED => "COMPLETED"
  | PROVIDER_FAILED => "FAILED"
  end.

(** The columns of an MpesaTransaction row that its payout and its
    reconciliation use, kept beside the row under the same id. *)
Record ProviderColumns := mkColumns {
  pc_state : option ProviderState;
  pc_sendAttemptedAt : option Z;
  pc_acceptedAt : option Z;
  pc_lastCheckedAt : option Z;
  pc_reconciliationDueAt : option Z;
  pc_lastRecoveryAt : option Z;
  pc_attemptCount : Z;
  pc_nextRetryAt : option Z;
  pc_lockedAt : option Z;
  pc_lockedBy : option string;
  pc_manualReviewRequired : bool;
  pc_manualReviewReason : option string;
  pc_lastReason : option string;
  pc_createdAt : Z;
}.

(** A row's columns when nothing has set them. *)
Definition blank_columns (createdAt : Z) : ProviderColumns :=
  mkColumns None None None None None None 0 None None None false None None createdAt.

Record PayoutIntent := mkIntent {
  pi_tenantId : string;
  pi_dispatchKey : string;
  pi_jobId : string;
  pi_referenceType : string;
  pi_referenceId : string;
  pi_sourceTransactionId : string;
  pi_memberId : option string;
  pi_accountId : option string;
  pi_phoneNumber : string;
  pi_amount : Z;
  pi_triggeredBy : string;
  pi_status : OutboxStatus;
  pi_attempts : Z;
  pi_lastError : option string;
  pi_nextRetryAt : option Z;
  pi_dispatchedAt : option Z;
  pi_deadLetteredAt : option Z;
  pi_mpesaTransactionId : option string;
  pi_createdAt : Z;
  pi_updatedAt : Z;
}.

Inductive ReconTrigger := AUTOMATED | MANUAL_REFRESH | MANUAL_COMPLETE | MANUAL_REVERSE.
#[export] Instance ReconTrigger_dec : EqDecision ReconTrigger. Proof. solve_decision. Defined.

Definition trigger_text (t : ReconTrigger) : string :=
  match t with
  | AUTOMATED => "AUTOMATED" | MANUAL_REFRESH => "MANUAL_REFRESH"
  | MANUAL_COMPLETE => "MANUAL_COMPLETE" | MANUAL_REVERSE => "MANUAL_REVERSE"
  end.

Record ReconAttempt := mkAttempt {
  ra_id : string;
  ra_tenantId : string;
  ra_mpesaTransactionId : string;
  ra_payoutIntentId : option string;
  ra_attemptNumber : Z;
  ra_triggerType : ReconTrigger;
  ra_actorId : option string;
  ra_startedAt : Z;
  ra_completedAt : option Z;
  ra_providerRequestReference : option string;
  ra_oldStatus : option TransactionStatus;
  ra_newStatus : option TransactionStatus;
  ra_reasonCode : option string;
  ra_errorCategory : option string;
  ra_nextRetryAt : option Z;
}.

Record ComplianceAlert := mkAlert {
  ca_tenantId : string;
  ca_policy : string;
  ca_severity : string;
  ca_message : string;
  ca_entityId : string;
  ca_action : string;
}.

(** ** Queues *)
Record DisbursementJob := mkDJob {
  dj_payoutIntentId : option string;
  dj_referenceType : string;
  dj_referenceId : string;
  dj_tenantId : string;
  dj_phone : string;
  dj_amount : Z;
  dj_triggeredBy : string;
  dj_sourceTransactionId : option string;
}.

(** A job the disbursement queue remembers: one that succeeded is forgotten at
    once, one that failed for good is kept for a day. *)
Record QueuedPayout := mkQueued {
  qp_data : DisbursementJob;
  qp_attemptsMade : nat;
  qp_exhausted : bool;
}.

Record TimeoutJob := mkTimeout {
  tj_referenceId : string;
  tj_referenceType : string;
  tj_tenantId : string;
  tj_conversationId : string;
  tj_runAt : Z;
  tj_attemptsMade : nat;
}.

(** ** The state *)
Record PayoutTables := mkTables {
  providerColumns : gmap string ProviderColumns;
  payoutIntents : gmap string PayoutIntent;
  reconAttempts : list ReconAttempt;
  complianceAlerts : list ComplianceAlert;
}.

Record PayoutWorld := mkPW {
  pw_base : World;
  tables : PayoutTables;
  payoutQueue : gmap string QueuedPayout;
  payoutDlq : list DisbursementJob;
  timeoutQueue : gmap string TimeoutJob;
  wallet : Wallet;
  payoutQueue_up : bool;
  timeoutQueue_up : bool;
}.

Abbreviation PM := (comp PayoutWorld).

Definition set_base (w : World) (s : PayoutWorld) : PayoutWorld :=
  mkPW w (tables s) (payoutQueue s) (payoutDlq s) (timeoutQueue s) (wallet s) (payoutQueue_up s) (timeoutQueue_up s).
Definition set_tables (t : PayoutTables) (s : PayoutWorld) : PayoutWorld :=
  mkPW (pw_base s) t (payoutQueue s) (payoutDlq s) (timeoutQueue s) (wallet s) (payoutQueue_up s) (timeoutQueue_up s).
Definition set_payoutQueue (q : gmap string QueuedPayout) (s : PayoutWorld) : PayoutWorld :=
  mkPW (pw_base s) (tables s) q (payoutDlq s) (timeoutQueue s) (wallet s) (payoutQueue_up s) (timeoutQueue_up s).
Definition set_payoutDlq (q : list DisbursementJob) (s : PayoutWorld) : PayoutWorld :=
  mkPW (pw_base s) (tables s) (payoutQueue s) q (timeoutQueue s) (wallet s) (payoutQueue_up s) (timeoutQueue_up s).
Definition set_timeoutQueue (q : gmap string TimeoutJob) (s : PayoutWorld) : PayoutWorld :=
  mkPW (pw_base s) (tables s) (payoutQueue s) (payoutDlq s) q (wallet s) (payoutQueue_up s) (timeoutQueue_up s).
Definition set_wallet (x : Wallet) (s : PayoutWorld) : PayoutWorld :=
  mkPW (pw_base s) (tables s) (payoutQueue s) (payoutDlq s) (timeoutQueue s) x (payoutQueue_up s) (timeoutQueue_up s).

Definition set_columns (c : gmap string ProviderColumns) (t : PayoutTables) : PayoutTables :=
  mkTables c (payoutIntents t) (reconAttempts t) (complianceAlerts t).
Definition set_intents (i : gmap string PayoutIntent) (t : PayoutTables) : PayoutTables :=
  mkTables (providerColumns t) i (reconAttempts t) (complianceAlerts t).
Definition set_attempts (a : list ReconAttempt) (t : PayoutTables) : PayoutTables :=
  mkTables (providerColumns t) (payoutIntents t) a (complianceAlerts t).
Definition set_alerts (a : list ComplianceAlert) (t : PayoutTables) : PayoutTables :=
  mkTables (providerColumns t) (payoutIntents t) (reconAttempts t) a.

(** ** Computations *)
Definition on_world {A} (m : M A) : PM A := fun s =>
  let '(r, w) := m (pw_base s) in (r, set_base w s).
Definition on_wallet {A} (m : comp Wallet A) : PM A := fun s =>
  let '(r, x) := m (wallet s) in (r, set_wallet x s).
Definition modify_tables (f : PayoutTables -> PayoutTables) : PM unit := modify (fun s => set_tables (f (tables s)) s).

(** [prisma.$transaction(body)] over every table; the queues and the wallet are
    outside it. *)
Definition payout_transaction {A} (body : PM A) : PM A := fun s =>
  match body s with
  | (Ok a, s') => (Ok a, s')
  | (Err e, s') => (Err e, set_tables (tables s) (set_base (with_db (fun _ => db (pw_base s)) (pw_base s')) s'))
  end.

(** [try { m } catch (e) { h(e) }] *)
Definition rescue {A} (m : PM A) (h : exn -> PM A) : PM A := fun s =>
  match m s with
  | (Ok a, s') => (Ok a, s')
  | (Err e, s') => h e s'
  end.

(** [m.catch((e) => logger.warn(e))] *)
Definition best_effort (m : PM unit) : PM unit := rescue m (fun _ => ret tt).

Definition now_of (s : PayoutWorld) : Z := clock (pw_base s).
Definition tdb (s : PayoutWorld) : DB := db (pw_base s).

(** ** MpesaTransaction rows with their columns *)
Definition row_of (id : string) (s : PayoutWorld) : option MpesaTransaction := mpesaTransactions (tdb s) !! id.
Definition columns_of (id : string) (s : PayoutWorld) : ProviderColumns :=
  default (blank_columns 0) (providerColumns (tables s) !! id).

Definition put_columns (id : string) (c : ProviderColumns) : PM unit :=
  modify_tables (fun t => set_columns (<[id := c]> (providerColumns t)) t).

(** [mpesaTransaction.updateMany({ where: { id, ...cond }, data: f, g })]: the
    columns of the row, and those kept beside it. *)
Definition payout_updateMany (id : string) (cond : MpesaTransaction -> ProviderColumns -> bool)
    (f : MpesaTransaction -> MpesaTransaction) (g : ProviderColumns -> ProviderColumns) : PM nat :=
  let* found := gets (row_of id) in
  let* c := gets (columns_of id) in
  match found with
  | Some m => if cond m c then on_world (mpesa_update id f) ;; put_columns id (g c) ;; ret 1%nat else ret 0%nat
  | None => ret 0%nat
  end.

(** [mpesaTransaction.update({ where: { id }, data })] *)
Definition payout_update (id : string) (f : MpesaTransaction -> MpesaTransaction)
    (g : ProviderColumns -> ProviderColumns) : PM unit :=
  let* c := gets (columns_of id) in
  on_world (mpesa_update id f) ;;
  put_columns id (g c).

(** [findUniqueOrThrow({ where: { id } })] *)
Definition row_or_throw (id : string) : PM MpesaTransaction :=
  let* found := gets (row_of id) in
  or_throw found (RecordNotFound "MpesaTransaction").

Definition payout_row_by (P : MpesaTransaction -> bool) (s : PayoutWorld) : option (string * MpesaTransaction) :=
  mpesa_find P (tdb s).

(** ** Outbox rows *)
Definition intent_by (P : PayoutIntent -> bool) (s : PayoutWorld) : option (string * PayoutIntent) :=
  List.find (fun kv => P kv.2) (map_to_list (payoutIntents (tables s))).
Definition put_intent (id : string) (i : PayoutIntent) : PM unit :=
  modify_tables (fun t => set_intents (<[id := i]> (payoutIntents t)) t).
Definition intent_update (id : string) (f : PayoutIntent -> PayoutIntent) : PM unit :=
  let* found := gets (fun s => payoutIntents (tables s) !! id) in
  let* i := or_throw found (RecordNotFound "MpesaPayoutIntent") in
  put_intent id (f i).

(** ** Audit rows *)
Section Audit.
Context `{UuidSource, Sha256, Environment}.

(** [audit.create] and [audit.createAtomic] write the same row. *)
Definition payout_audit (dto : CreateAuditLogDto) : PM unit := on_world (createAtomic dto).

Definition entity_audit (tenantId actorId action entityType entityId : string) (old new : option json)
    (metadata : list (string * json)) (requestId : option string) (ipAddress : option string) : PM unit :=
  payout_audit (mkAuditDto tenantId (Some actorId) None action (Some entityType) None (Some entityId) None
    old new metadata None ipAddress None requestId).
End Audit.
