(* ===== verification/PayoutMachine.v ===== *)
(** * PayoutMachine: the life of a payout, abstractly

    What the payout code promises, as a transition system: a row is created,
    claimed by one worker, sent at most once by the worker that claimed it,
    settled once, and refunded only after it failed.  Workers interleave: a
    claim is held from the moment the row leaves [LOCAL_CREATED] until the
    money is asked for or the worker dies.  Beside the machine stand the flag
    of the daily reconciliation, which reopens whatever row it is put on, and
    the match of a row by hand, which completes it with a deposit. *)
From stdpp Require Import relations.
From S2P Require Import Prelude Json MpesaTypes Schema Mpesa MwaloniClient PayoutState.

Record PayoutRow := mkPayoutRow {
  ar_reference : string;
  ar_order : option string;
  ar_txn : option string;
  ar_status : TransactionStatus;
  ar_state : option ProviderState;
}.

Record Machine := mkMachine {
  a_rows : gmap string PayoutRow;
  a_sent : list string;        (* orders the wallet was asked to pay, oldest first *)
  a_claimed : list string;     (* orders claimed and not yet asked for *)
  a_refunded : gset string;    (* debits given back *)
}.

Definition row_open (r : PayoutRow) : bool := (ar_status r === T_PENDING) || (ar_status r === T_RECON_PENDING).

Definition set_ar (status : TransactionStatus) (st : option ProviderState) (r : PayoutRow) : PayoutRow :=
  mkPayoutRow (ar_reference r) (ar_order r) (ar_txn r) status st.
Definition put_row (id : string) (r : PayoutRow) (a : Machine) : Machine :=
  mkMachine (<[id := r]> (a_rows a)) (a_sent a) (a_claimed a) (a_refunded a).

(** No state goes back to [LOCAL_CREATED]. *)
Definition onward (st st' : option ProviderState) : Prop := st' = st \/ st' <> Some LOCAL_CREATED.

(** A row keeps what identifies it, and its status unless it was open. *)
Record row_change (r r' : PayoutRow) : Prop := {
  rc_reference : ar_reference r' = ar_reference r;
  rc_order : ar_order r' = ar_order r;
  rc_txn : ar_txn r' = ar_txn r;
  rc_state : onward (ar_state r) (ar_state r');
  rc_status : ar_status r' = ar_status r \/ row_open r = true;
}.

Definition rows_change (rows rows' : gmap string PayoutRow) : Prop :=
  forall id, option_Forall2 row_change (rows !! id) (rows' !! id).

Inductive payout_step (a : Machine) : Machine -> Prop :=
  | ps_create id o t :
      a_rows a !! id = None ->
      (forall j r, a_rows a !! j = Some r -> ar_reference r <> b2c_reference o) ->
      (forall j r, a_rows a !! j = Some r -> is_Some t -> ar_txn r <> t) ->
      payout_step a (put_row id (mkPayoutRow (b2c_reference o) (Some o) t T_PENDING (Some LOCAL_CREATED)) a)
  | ps_claim id r o :
      a_rows a !! id = Some r -> row_open r = true -> ar_state r = Some LOCAL_CREATED -> ar_order r = Some o ->
      payout_step a (mkMachine (<[id := set_ar (ar_status r) (Some SEND_ATTEMPTED) r]> (a_rows a)) (a_sent a)
                       (o :: a_claimed a) (a_refunded a))
  | ps_send o c1 c2 :
      a_claimed a = c1 ++ o :: c2 ->
      payout_step a (mkMachine (a_rows a) (a_sent a ++ [o]) (c1 ++ c2) (a_refunded a))
  | ps_drop o c1 c2 :
      a_claimed a = c1 ++ o :: c2 ->
      payout_step a (mkMachine (a_rows a) (a_sent a) (c1 ++ c2) (a_refunded a))
  | ps_change rows' :
      rows_change (a_rows a) rows' ->
      payout_step a (mkMachine rows' (a_sent a) (a_claimed a) (a_refunded a))
  | ps_refund id r t :
      a_rows a !! id = Some r -> ar_txn r = Some t -> ar_status r = T_FAILED ->
      payout_step a (mkMachine (a_rows a) (a_sent a) (a_claimed a) ({[t]} ∪ a_refunded a)).

(** ** The invariant *)
Definition unique_row (f : PayoutRow -> option string) (rows : gmap string PayoutRow) : Prop :=
  forall i j r r' x, rows !! i = Some r -> rows !! j = Some r' -> f r = Some x -> f r' = Some x -> i = j.

Record machine_ok (a : Machine) : Prop := {
  mo_local : forall id r, a_rows a !! id = Some r -> ar_state r = Some LOCAL_CREATED ->
    exists o, ar_order r = Some o /\ ar_reference r = b2c_reference o /\ (o ∉ a_claimed a ++ a_sent a);
  mo_row : forall o, o ∈ a_claimed a ++ a_sent a -> exists id r, a_rows a !! id = Some r /\ ar_reference r = b2c_reference o;
  mo_once : NoDup (a_claimed a ++ a_sent a);
  mo_references : unique_row (fun r => Some (ar_reference r)) (a_rows a);
  mo_txns : unique_row ar_txn (a_rows a);
  mo_refunded : forall t, t ∈ a_refunded a -> exists id r, a_rows a !! id = Some r /\ ar_txn r = Some t;
}.

(** The row [id] whose debit was given back has failed. *)
Definition refund_ok (id : string) (a : Machine) : Prop :=
  forall r t, a_rows a !! id = Some r -> ar_txn r = Some t -> t ∈ a_refunded a -> ar_status r = T_FAILED.
Definition refunds_ok (a : Machine) : Prop := forall id, refund_ok id a.

Lemma b2c_reference_inj o o' : b2c_reference o = b2c_reference o' -> o = o'.
Proof. unfold b2c_reference. cbn. by injection 1. Qed.

(** ** The transitions keep it *)
Lemma row_change_refl r : row_change r r.
Proof. split; try done; by left. Qed.

Lemma rows_change_insert rows id r r' :
  rows !! id = Some r -> row_change r r' -> rows_change rows (<[id := r']> rows).
Proof.
  intros Hr Hc j. rewrite lookup_insert. case_decide; [subst; rewrite Hr; by constructor|].
  destruct (rows !! j); constructor. apply row_change_refl.
Qed.

Lemma rows_change_l rows rows' id r :
  rows_change rows rows' -> rows !! id = Some r -> exists r', rows' !! id = Some r' /\ row_change r r'.
Proof. intros Hc Hr. specialize (Hc id). rewrite Hr in Hc. inversion Hc; subst. eauto. Qed.
Lemma rows_change_r rows rows' id r' :
  rows_change rows rows' -> rows' !! id = Some r' -> exists r, rows !! id = Some r /\ row_change r r'.
Proof. intros Hc Hr. specialize (Hc id). rewrite Hr in Hc. inversion Hc; subst. eauto. Qed.

Lemma unique_row_change f rows rows' :
  (forall r r', row_change r r' -> f r' = f r) -> unique_row f rows -> rows_change rows rows' -> unique_row f rows'.
Proof.
  intros Hf Hu Hc i j a b x Hi Hj Ha Hb.
  destruct (rows_change_r _ _ _ _ Hc Hi) as (a0 & Hi' & Ca). destruct (rows_change_r _ _ _ _ Hc Hj) as (b0 & Hj' & Cb).
  apply (Hu i j a0 b0 x Hi' Hj'); [by rewrite <- (Hf _ _ Ca)|by rewrite <- (Hf _ _ Cb)].
Qed.

Lemma unique_row_new f rows id r :
  unique_row f rows -> (forall j r' x, rows !! j = Some r' -> f r = Some x -> f r' <> Some x) ->
  unique_row f (<[id := r]> rows).
Proof.
  intros Hu Hn i j a b x. rewrite !lookup_insert. repeat case_decide; subst; intros; simplify_eq; try done.
  - exfalso. by eapply Hn.
  - exfalso. by eapply Hn.
  - by eapply Hu.
Qed.

Lemma rows_change_ok a rows' :
  machine_ok a -> rows_change (a_rows a) rows' -> machine_ok (mkMachine rows' (a_sent a) (a_claimed a) (a_refunded a)).
Proof.
  intros [Hl Hr Ho Hu Ht Hf] Hc. split; cbn; [| |done| | |].
  - intros id r' (r & Hid & C)%(rows_change_r _ _ _ _ Hc) Hloc. rewrite (rc_order _ _ C), (rc_reference _ _ C).
    apply (Hl id r Hid). destruct (rc_state _ _ C); congruence.
  - intros o (id & r & Hid & E)%Hr. destruct (rows_change_l _ _ _ _ Hc Hid) as (r' & Hid' & C).
    exists id, r'. split; [done|]. by rewrite (rc_reference _ _ C).
  - eapply unique_row_change; [|done..]. intros r r' C. by rewrite (rc_reference _ _ C).
  - eapply unique_row_change; [|done..]. intros r r' C. by rewrite (rc_txn _ _ C).
  - intros t (id & r & Hid & E)%Hf. destruct (rows_change_l _ _ _ _ Hc Hid) as (r' & Hid' & C).
    exists id, r'. split; [done|by rewrite (rc_txn _ _ C)].
Qed.

Lemma claimed_middle o (c1 c2 l : list string) : (c1 ++ o :: c2) ++ l ≡ₚ o :: (c1 ++ c2) ++ l.
Proof. by rewrite <- Permutation_middle. Qed.

(** Fewer orders in flight, in another order. *)
Lemma in_flight_ok a sent claimed :
  machine_ok a -> (exists rest, a_claimed a ++ a_sent a ≡ₚ rest ++ claimed ++ sent) ->
  machine_ok (mkMachine (a_rows a) sent claimed (a_refunded a)).
Proof.
  intros [Hl Hr Ho Hu Ht Hf] [rest E]. split; cbn; [| | |done..].
  - intros id r Hid Hst. destruct (Hl id r Hid Hst) as (o & E1 & E2 & Hno). exists o. split_and!; [done..|].
    rewrite E in Hno. set_solver.
  - intros o Hin. apply Hr. rewrite E. set_solver.
  - rewrite E in Ho. by apply NoDup_app in Ho as (_ & _ & ?).
Qed.

Lemma payout_step_ok a a' : payout_step a a' -> machine_ok a -> machine_ok a'.
Proof.
  intros Hs Hok. destruct Hs.
  - destruct Hok as [Hl Hr Ho Hu Ht Hf]. split; cbn; [| |done| | |].
    + intros j r. rewrite lookup_insert. case_decide; [subst; intros [= <-] _|apply Hl].
      exists o. split_and!; [done..|]. intros (k & r & Hk & E)%Hr. by eapply H0.
    + intros x (j & r & Hj & E)%Hr. exists j, r. rewrite lookup_insert_ne; [done|]. congruence.
    + apply unique_row_new; [done|]. intros j r' x Hj [= <-] [= E]. by eapply H0.
    + apply unique_row_new; [done|]. cbn. intros j r' x Hj -> E. by eapply H1; eauto.
    + intros t' (j & r & Hj & E)%Hf. exists j, r. rewrite lookup_insert_ne; [done|]. congruence.
  - pose proof Hok as [Hl Hr Ho _ _ _]. destruct (Hl id r H H1) as (o' & E1 & E2 & Hno). simplify_eq.
    assert (rows_change (a_rows a) (<[id := set_ar (ar_status r) (Some SEND_ATTEMPTED) r]> (a_rows a))) as Hc.
    { eapply rows_change_insert; [done|]. split; try done; [by right|by left]. }
    destruct (rows_change_ok _ _ Hok Hc) as [Hl' Hr' Ho' Hu' Ht' Hf'].
    split; cbn in *; [| | |done..].
    + intros j x Hj Hst. destruct (Hl' j x Hj Hst) as (o1 & F1 & F2 & Hn). exists o1. split_and!; [done..|].
      apply not_elem_of_cons. split; [|done]. intros ->.
      assert (j = id) as -> by (eapply (Hu' j id); [done|apply lookup_insert_eq|by rewrite F2|by cbn; rewrite E2]).
      rewrite lookup_insert_eq in Hj. by simplify_eq.
    + intros x [->|Hx]%elem_of_cons; [|by apply Hr'].
      eexists id, _. by rewrite lookup_insert_eq.
    + by apply NoDup_cons.
  - apply in_flight_ok; [done|]. exists []. rewrite H. cbn. rewrite claimed_middle. by rewrite (assoc_L (++)), <- Permutation_cons_append.
  - apply in_flight_ok; [done|]. exists [o]. by rewrite H, claimed_middle.
  - by apply rows_change_ok.
  - destruct Hok as [Hl Hr Ho Hu Ht Hf]. split; cbn; [done..|].
    intros x [->%elem_of_singleton|Hx]%elem_of_union; [|by apply Hf]. eauto.
Qed.

Lemma payout_steps_ok a a' : rtc payout_step a a' -> machine_ok a -> machine_ok a'.
Proof. induction 1; eauto using payout_step_ok. Qed.

(** No order is asked for twice. *)
Lemma sent_once a : machine_ok a -> NoDup (a_sent a).
Proof. intros Hok. pose proof (mo_once a Hok) as H. by apply NoDup_app in H as (_ & _ & ?). Qed.

(** Only failed rows are refunded. *)
Lemma refund_step id a a' : payout_step a a' -> machine_ok a -> refund_ok id a -> refund_ok id a'.
Proof.
  intros Hs Hok Hf. destruct Hs; unfold refund_ok in *; cbn; [| |done|done| |].
  - intros r x. rewrite lookup_insert. case_decide; [|apply Hf]. intros [= <-] Ht (j & r1 & Hj & Hx)%(mo_refunded a Hok).
    cbn in Ht. subst t. by destruct (H1 j r1 Hj ltac:(by eexists) Hx).
  - intros x t. rewrite lookup_insert. case_decide as He; [|apply Hf]. subst id0. intros Hx. injection Hx as <-. exact (Hf r t H).
  - intros r' t (r & Hr & C)%(rows_change_r _ _ _ _ H). rewrite (rc_txn _ _ C). intros Ht Hin.
    specialize (Hf r t Hr Ht Hin). destruct (rc_status _ _ C) as [->|Hop]; [done|]. unfold row_open in Hop. by rewrite Hf in Hop.
  - intros r' x Hr' Hx [->%elem_of_singleton|Hin]%elem_of_union; [|by eapply Hf].
    assert (id0 = id) as -> by (eapply (mo_txns a Hok); eauto). congruence.
Qed.
Lemma refund_steps id a a' : rtc payout_step a a' -> machine_ok a -> refund_ok id a -> refund_ok id a'.
Proof. induction 1; eauto using refund_step, payout_step_ok. Qed.

(** ** The flag of the daily reconciliation *)
Definition flag_row (id : string) (a : Machine) : Machine :=
  mkMachine (alter (fun r => set_ar T_RECON_PENDING (ar_state r) r) id (a_rows a)) (a_sent a) (a_claimed a) (a_refunded a).

Lemma flagged_other id j a : j <> id -> a_rows (flag_row id a) !! j = a_rows a !! j.
Proof. intros Hne. cbn. by rewrite lookup_alter_ne. Qed.

Lemma flagged_row id a j r' : a_rows (flag_row id a) !! j = Some r' ->
  exists r, a_rows a !! j = Some r /\ ar_reference r' = ar_reference r /\ ar_order r' = ar_order r /\
    ar_txn r' = ar_txn r /\ ar_state r' = ar_state r.
Proof.
  destruct (decide (j = id)) as [->|Hne]; [|rewrite flagged_other by done; by exists r'].
  cbn. rewrite lookup_alter_eq. intros (r & Hr & ->)%fmap_Some. by exists r.
Qed.
Lemma row_flagged id a j r : a_rows a !! j = Some r ->
  exists r', a_rows (flag_row id a) !! j = Some r' /\ ar_reference r' = ar_reference r /\ ar_txn r' = ar_txn r.
Proof.
  intros Hr. destruct (decide (j = id)) as [->|Hne]; [|exists r; by rewrite flagged_other].
  cbn. rewrite lookup_alter_eq, Hr. by eexists.
Qed.

Lemma flag_row_ok id a : machine_ok a -> machine_ok (flag_row id a).
Proof.
  intros [Hl Hr Ho Hu Ht Hf]. split; [| |done| | |].
  - intros j r' (r & Hj & -> & -> & _ & ->)%flagged_row. by eapply Hl.
  - intros o (j & r & Hj & E)%Hr. destruct (row_flagged id a j r Hj) as (r' & Hj' & E' & _). exists j, r'. by rewrite E'.
  - intros i j ri rj x (a1 & Hi & Ei & _)%flagged_row (b1 & Hj & Ej & _)%flagged_row. rewrite Ei, Ej. by eapply Hu.
  - intros i j ri rj x (a1 & Hi & _ & _ & Ei & _)%flagged_row (b1 & Hj & _ & _ & Ej & _)%flagged_row. rewrite Ei, Ej. by eapply Ht.
  - intros t (j & r & Hj & E)%Hf. destruct (row_flagged id a j r Hj) as (r' & Hj' & _ & E'). exists j, r'. by rewrite E'.
Qed.

(** ** The match of a row by hand *)
Definition match_row (id t : string) (a : Machine) : Machine :=
  mkMachine (alter (fun r => mkPayoutRow (ar_reference r) (ar_order r) (Some t) T_COMPLETED (ar_state r)) id (a_rows a))
    (a_sent a) (a_claimed a) (a_refunded a).

Lemma matched_other id t j a : j <> id -> a_rows (match_row id t a) !! j = a_rows a !! j.
Proof. intros Hne. cbn. by rewrite lookup_alter_ne. Qed.

Lemma matched_row id t a j r' : a_rows (match_row id t a) !! j = Some r' ->
  exists r, a_rows a !! j = Some r /\ ar_reference r' = ar_reference r /\ ar_order r' = ar_order r /\
    ar_state r' = ar_state r /\ ar_txn r' = (if decide (j = id) then Some t else ar_txn r).
Proof.
  case_decide as Hj; [subst j|rewrite matched_other by done; by exists r'].
  cbn. rewrite lookup_alter_eq. intros (r & Hr & ->)%fmap_Some. by exists r.
Qed.
Lemma row_matched id t a j r : a_rows a !! j = Some r ->
  exists r', a_rows (match_row id t a) !! j = Some r' /\ ar_reference r' = ar_reference r /\
    (j <> id -> ar_txn r' = ar_txn r).
Proof.
  intros Hr. destruct (decide (j = id)) as [->|Hne]; [|exists r; by rewrite matched_other].
  cbn. rewrite lookup_alter_eq, Hr. by eexists.
Qed.

(** The row had no transaction, and gets one of its own. *)
Lemma match_row_ok id t a :
  (forall r, a_rows a !! id = Some r -> ar_txn r = None) ->
  (forall j r, j <> id -> a_rows a !! j = Some r -> ar_txn r <> Some t) ->
  machine_ok a -> machine_ok (match_row id t a).
Proof.
  intros Hnone Hnew [Hl Hr Ho Hu Ht Hf]. split; [| |done| | |].
  - intros j r' (r & Hj & -> & -> & -> & _)%matched_row. by eapply Hl.
  - intros o (j & r & Hj & E)%Hr. destruct (row_matched id t a j r Hj) as (r' & Hj' & E' & _). exists j, r'. by rewrite E'.
  - intros i j ri rj x (a1 & Hi & Ei & _)%matched_row (b1 & Hj & Ej & _)%matched_row. rewrite Ei, Ej. by eapply Hu.
  - intros i j ri rj x (a1 & Hi & _ & _ & _ & Ei)%matched_row (b1 & Hj & _ & _ & _ & Ej)%matched_row. rewrite Ei, Ej.
    destruct (decide (i = id)) as [->|Hi'], (decide (j = id)) as [->|Hj']; [done| | |by eapply Ht].
    + intros [= <-] E. by destruct (Hnew j b1 Hj' Hj).
    + intros E [= <-]. by destruct (Hnew i a1 Hi' Hi).
  - intros x (j & r & Hj & E)%Hf. destruct (row_matched id t a j r Hj) as (r' & Hj' & _ & E'). exists j, r'. split; [done|].
    rewrite E'; [done|]. intros ->. rewrite (Hnone r Hj) in E. discriminate E.
Qed.

(** A settled row stays as it was settled. *)
Lemma settled_step a a' id r :
  payout_step a a' -> a_rows a !! id = Some r -> row_open r = false ->
  exists r', a_rows a' !! id = Some r' /\ ar_status r' = ar_status r.
Proof.
  intros Hs Hid Ho. destruct Hs; cbn; eauto.
  - exists r. rewrite lookup_insert_ne; [done|]. congruence.
  - rewrite lookup_insert. case_decide; subst; simplify_eq; eauto.
  - destruct (rows_change_l _ _ _ _ H Hid) as (r' & Hid' & C). exists r'. split; [done|].
    destruct (rc_status _ _ C); congruence.
Qed.

Lemma settled_steps a a' id r :
  rtc payout_step a a' -> a_rows a !! id = Some r -> row_open r = false ->
  exists r', a_rows a' !! id = Some r' /\ ar_status r' = ar_status r.
Proof.
  intros Hs. revert r. induction Hs as [|a b c Hab _ IH]; intros r Hid Ho; [eauto|].
  destruct (settled_step _ _ _ _ Hab Hid Ho) as (r1 & H1 & E1).
  destruct (IH r1 H1) as (r2 & H2 & E2); [unfold row_open in *; by rewrite E1|]. exists r2. split; [done|congruence].
Qed.

(** Rows are never dropped, and keep the debit they pay out. *)
Lemma row_kept a a' id r :
  payout_step a a' -> a_rows a !! id = Some r -> exists r', a_rows a' !! id = Some r' /\ ar_txn r' = ar_txn r.
Proof.
  intros Hs Hid. destruct Hs; cbn; eauto.
  - exists r. rewrite lookup_insert_ne; [done|]. congruence.
  - rewrite lookup_insert. case_decide; subst; simplify_eq; eauto.
  - destruct (rows_change_l _ _ _ _ H Hid) as (r' & Hid' & C). exists r'. split; [done|]. exact (rc_txn _ _ C).
Qed.
Lemma payout_rows_kept a a' id r :
  rtc payout_step a a' -> a_rows a !! id = Some r -> exists r', a_rows a' !! id = Some r' /\ ar_txn r' = ar_txn r.
Proof.
  intros Hs. revert r. induction Hs as [|a b c Hab _ IH]; intros r Hid; [eauto|].
  destruct (row_kept _ _ _ _ Hab Hid) as (r1 & Hr1 & E1). destruct (IH r1 Hr1) as (r2 & Hr2 & E2).
  exists r2. split; [done|congruence].
Qed.
