(* ===== verification/Payouts.v ===== *)
(** * Payouts: sending savings to a phone through the wallet

    [executeB2cDisbursement] and what it calls in
    [src/src/modules/mpesa/mpesa.service.ts]: one row per payout, claimed before
    money is sent, and settled by what the wallet answers.  The trigger source
    and the description of a row, metrics and log lines are left out. *)
From S2P Require Import Prelude Money Json Format ImportText MpesaTypes Schema.
From S2P Require Import Ledger AuditLogs Mpesa MpesaCallbacks MpesaInbox MwaloniClient.
From S2P Require Import PayoutState.

Record PayoutParams := mkPayout {
  pp_referenceId : string;
  pp_referenceType : string;
  pp_tenantId : string;
  pp_memberId : string;
  pp_accountReference : string;
  pp_phone : string;
  pp_amount : Z;
  pp_triggeredBy : string;
  pp_sourceTransactionId : option string;
}.

(** [{ conversationId, mpesaTxId }] *)
Record Dispatched := mkDispatched { conversationId : string; mpesaTxId : string }.

(** [{ refreshed, terminal, status }] *)
Record Refreshed := mkRefreshed {
  refreshed : bool;
  terminal : bool;
  refreshed_status : option TransactionStatus;
}.

(** ** Columns *)
Definition set_pc_state (st : ProviderState) (c : ProviderColumns) : ProviderColumns :=
  mkColumns (Some st) (pc_sendAttemptedAt c) (pc_acceptedAt c) (pc_lastCheckedAt c) (pc_reconciliationDueAt c)
    (pc_lastRecoveryAt c) (pc_attemptCount c) (pc_nextRetryAt c) (pc_lockedAt c) (pc_lockedBy c)
    (pc_manualReviewRequired c) (pc_manualReviewReason c) (pc_lastReason c) (pc_createdAt c).
Definition set_checked (now : Z) (c : ProviderColumns) : ProviderColumns :=
  mkColumns (pc_state c) (pc_sendAttemptedAt c) (pc_acceptedAt c) (Some now) (pc_reconciliationDueAt c)
    (pc_lastRecoveryAt c) (pc_attemptCount c) (pc_nextRetryAt c) (pc_lockedAt c) (pc_lockedBy c)
    (pc_manualReviewRequired c) (pc_manualReviewReason c) (pc_lastReason c) (pc_createdAt c).
Definition set_attempted (now : Z) (c : ProviderColumns) : ProviderColumns :=
  mkColumns (Some SEND_ATTEMPTED) (Some now) (pc_acceptedAt c) (Some now) (pc_reconciliationDueAt c)
    (pc_lastRecoveryAt c) (pc_attemptCount c) (pc_nextRetryAt c) (pc_lockedAt c) (pc_lockedBy c)
    (pc_manualReviewRequired c) (pc_manualReviewReason c) (pc_lastReason c) (pc_createdAt c).
Definition set_accepted (now : Z) (c : ProviderColumns) : ProviderColumns :=
  mkColumns (Some PROVIDER_ACCEPTED) (pc_sendAttemptedAt c) (Some now) (Some now) (pc_reconciliationDueAt c)
    (pc_lastRecoveryAt c) (pc_attemptCount c) (pc_nextRetryAt c) (pc_lockedAt c) (pc_lockedBy c)
    (pc_manualReviewRequired c) (pc_manualReviewReason c) (pc_lastReason c) (pc_createdAt c).
Definition set_provider (st : ProviderState) (now : Z) (c : ProviderColumns) : ProviderColumns :=
  set_pc_state st (set_checked now c).

(** A payout's columns when its row is created: reconciliation is due in half
    an hour. *)
Definition created_columns (now : Z) : ProviderColumns :=
  mkColumns (Some LOCAL_CREATED) None None None (Some (now + 30 * 60 * 1000)) None 0 None None None false None None now.

(** ** Rows *)
Definition set_outcome (status : TransactionStatus) (code : option Z) (desc : string) (date : option Z)
    (d : MpesaDetails) (m : MpesaTransaction) : MpesaTransaction :=
  mkMpesaTransaction (mp_tenantId m) (mp_reference m) (mp_amount m) status (mp_transactionId m) (mp_loanId m)
    code (Some desc) (mp_receipt m) date d.

Definition row_completed (desc : string) (payload : json) (now : Z) (m : MpesaTransaction) : MpesaTransaction :=
  set_outcome T_COMPLETED (Some 0) desc (Some now) (set_callbackPayload (P_other payload) (mp_details m)) m.
Definition row_pending (desc : string) (payload : json) (m : MpesaTransaction) : MpesaTransaction :=
  set_outcome (mp_status m) (mp_resultCode m) desc (mp_transactionDate m)
    (set_callbackPayload (P_other payload) (mp_details m)) m.
Definition row_failed (code : option Z) (desc reason : string) (payload : json) (m : MpesaTransaction) : MpesaTransaction :=
  set_outcome T_FAILED code desc (mp_transactionDate m)
    (set_failureReason reason (set_callbackPayload (P_other payload) (mp_details m))) m.
Definition row_unknown (reason : string) (m : MpesaTransaction) : MpesaTransaction :=
  set_outcome T_RECON_PENDING (mp_resultCode m) (String.substring 0 240 reason) (mp_transactionDate m)
    (set_failureReason "MWALONI_PROVIDER_SEND_OUTCOME_UNKNOWN" (mp_details m)) m.
Definition row_mismatch (desc : string) (payload : json) (m : MpesaTransaction) : MpesaTransaction :=
  set_outcome T_RECON_PENDING (mp_resultCode m) desc (mp_transactionDate m)
    (set_failureReason "MWALONI_PROVIDER_RESPONSE_MISMATCH" (set_callbackPayload (P_other payload) (mp_details m))) m.

Definition status_text (s : TransactionStatus) : string :=
  match s with
  | T_PENDING => "PENDING" | T_COMPLETED => "COMPLETED" | T_FAILED => "FAILED"
  | T_REVERSED => "REVERSED" | T_RECON_PENDING => "RECON_PENDING"
  end.

(** [{ provider, source, response, checkedAt }] *)
Definition wallet_payload (source : string) (response : json) (now : Z) : json :=
  JObj [("provider", JStr "MWALONI"); ("source", JStr source);
        ("response", match response with JNull => JObj [] | _ => response end); ("checkedAt", JStr (toISOString now))].

(** What the audit rows of a payout say about it, under the names the code
    gives the amount and the phone. *)
Definition payout_fields (amount phone : string) (m : MpesaTransaction) : list (string * json) :=
  let d := mp_details m in
  [("provider", JStr "MWALONI"); ("orderNumber", json_or_null (mpd_conversationId d));
   ("referenceId", json_or_null (mpd_referenceId d)); ("transactionId", json_or_null (mp_transactionId m));
   ("memberId", json_or_null (mpd_memberId d)); (amount, JStr (dp4_toString (mp_amount m)));
   (phone, JStr (maskPhone (mpd_phoneNumber d)))].
Definition payout_metadata : MpesaTransaction -> list (string * json) := payout_fields "amount" "phone".

Section Payouts.
Context `{UuidSource, Sha256, Environment, Network, MwaloniConfig}.

(** ** scheduleB2cTimeoutCheck: a failure to enqueue is logged and forgotten *)
Definition scheduleB2cTimeoutCheck (referenceId referenceType tenantId conversationId : string) : PM unit :=
  let* now := gets now_of in
  let jobId := "b2c-timeout." +:+ conversationId in
  best_effort (
    let* up := gets timeoutQueue_up in
    throw_if (negb up) QUEUE_DOWN ;;
    modify (fun s => match timeoutQueue s !! jobId with
      | Some _ => s
      | None => set_timeoutQueue (<[jobId := mkTimeout referenceId referenceType tenantId conversationId
                                     (now + 30 * 60 * 1000) 0]> (timeoutQueue s)) s
      end)).

(** ** markMwaloniOutcomeUnknown *)
Definition outcome_unknown_body (id reason : string) : PM unit :=
  let* found := gets (row_of id) in
  match found with
  | None => ret tt
  | Some m =>
      let* now := gets now_of in
      let* count := payout_updateMany id (fun m _ => is_open m) (row_unknown reason) (set_provider OUTCOME_UNKNOWN now) in
      if Nat.eqb count 0 then ret tt else
      entity_audit (mp_tenantId m) "SYSTEM" "MWALONI.B2C.SEND_AMBIGUOUS" "MpesaTransaction" id
        (Some (JObj [("status", JStr (status_text (mp_status m)))]))
        (Some (JObj [("status", JStr "RECON_PENDING");
                     ("providerSubmissionState", JStr (provider_state_text OUTCOME_UNKNOWN)); ("reason", JStr reason)]))
        (payout_metadata m)
        (Some ("audit.MWALONI.B2C.SEND_AMBIGUOUS." +:+ mp_tenantId m +:+ "." +:+ id)) None
  end.
Definition markMwaloniOutcomeUnknown (id reason : string) : PM unit := payout_transaction (outcome_unknown_body id reason).

(** ** markMwaloniMismatchReconciliation *)
Definition mismatch_reconciliation_body (id : string) (m : MpesaTransaction) (payload : json) (mismatches : list string)
    (message : string) : PM unit :=
  let* now := gets now_of in
  let* count := payout_updateMany id (fun m _ => is_open m) (row_mismatch message payload) (set_provider OUTCOME_UNKNOWN now) in
  if Nat.eqb count 0 then ret tt else
  entity_audit (mp_tenantId m) "SYSTEM" "MWALONI.B2C.RESPONSE_MISMATCH" "MpesaTransaction" id None
    (Some (JObj [("status", JStr "RECON_PENDING"); ("failureReason", JStr "MWALONI_PROVIDER_RESPONSE_MISMATCH");
                 ("mismatches", JArr (JStr <$> mismatches))]))
    (payout_fields "expectedAmount" "expectedPhone" m)
    (Some ("audit.MWALONI.B2C.RESPONSE_MISMATCH." +:+ mp_tenantId m +:+ "." +:+ id)) None.
Definition markMwaloniMismatchReconciliation (id : string) (m : MpesaTransaction) (payload : json)
    (mismatches : list string) (message : string) : PM unit :=
  payout_transaction (mismatch_reconciliation_body id m payload mismatches message).

(** ** failMwaloniTransaction: the row fails and its debit is given back *)
Definition fail_body (id : string) (code : option Z) (desc reason : string) (payload : json) : PM unit :=
  let* found := gets (row_of id) in
  let* m := or_throw found (NotFound "Mwaloni B2C transaction not found") in
  if negb (is_open m) then ret tt else
  let* now := gets now_of in
  payout_update id (row_failed code desc reason payload) (set_provider PROVIDER_FAILED now) ;;
  (if mpd_referenceType (mp_details m) === Some FOSA_WITHDRAWAL then
     match truthy (mp_transactionId m) with
     | Some txnId =>
         on_world (reverseTransaction (mp_tenantId m) txnId ("Mwaloni B2C failed: " +:+ desc) None true) ;; ret tt
     | None => ret tt
     end
   else ret tt) ;;
  entity_audit (mp_tenantId m) "SYSTEM" "MWALONI.B2C.FAILED_REFUNDED" "MpesaTransaction" id
    (Some (JObj [("status", JStr (status_text (mp_status m)))]))
    (Some (JObj [("status", JStr "FAILED"); ("resultCode", match code with Some n => JNum (pretty n) | None => JNull end);
                 ("resultDesc", JStr desc); ("failureReason", JStr reason)]))
    (payout_metadata m) None None.
Definition failMwaloniTransaction (id : string) (code : option Z) (desc reason : string) (payload : json) : PM unit :=
  payout_transaction (fail_body id code desc reason payload).

(** ** applyMwaloniStatus *)
Definition complete_body (id : string) (response : json) (desc : string) (payload : json) : PM unit :=
  let* now := gets now_of in
  let* count := payout_updateMany id (fun m _ => is_open m) (row_completed desc payload now)
    (set_provider PROVIDER_COMPLETED now) in
  let* row := row_or_throw id in
  if Nat.eqb count 0 then ret tt else
  entity_audit (mp_tenantId row) "SYSTEM" "MWALONI.B2C.COMPLETED" "MpesaTransaction" id None
    (Some (JObj [("status", JStr (status_text (mp_status row)));
                 ("resultCode", match mp_resultCode row with Some n => JNum (pretty n) | None => JNull end);
                 ("resultDesc", json_or_null (mp_resultDesc row))]))
    (payout_metadata row
     ++ match opt_member "status" (Some response) with Some v => [("providerStatus", v)] | None => [] end) None None.

Definition failure_reason (status : string) : string :=
  if status === "" then "MWALONI_STATUS_UNKNOWN" else "MWALONI_STATUS_" +:+ status.

Definition applyMwaloniStatus (id : string) (response : json) (source : string) : PM Refreshed :=
  let* _ := read_member "status" response in
  let status := response_status response in
  let message := response_message response in
  let* now := gets now_of in
  let payload := wallet_payload source response now in
  let* found := gets (row_of id) in
  let* current := or_throw found (NotFound "Mwaloni B2C transaction not found") in
  match findMwaloniResponseMismatches current response with
  | x :: xs =>
      markMwaloniMismatchReconciliation id current payload (x :: xs) message ;;
      ret (mkRefreshed true false (Some T_RECON_PENDING))
  | [] =>
      if isMwaloniSuccess status then
        payout_transaction (complete_body id response message payload) ;;
        ret (mkRefreshed true true (Some T_COMPLETED))
      else if isMwaloniPending status then
        payout_update id (row_pending message payload) (set_checked now) ;;
        ret (mkRefreshed true false (Some T_PENDING))
      else
        failMwaloniTransaction id (status_code status) message (failure_reason status) payload ;;
        ret (mkRefreshed true true (Some T_FAILED))
  end.

(** ** submitMwaloniMobilePayout: claim the row, then send once *)
Definition claim_send (id : string) : PM bool :=
  let* attemptedAt := gets now_of in
  let* count := payout_updateMany id (fun m c => is_open m && (pc_state c === Some LOCAL_CREATED))
    (fun m => m) (set_attempted attemptedAt) in
  ret (negb (Nat.eqb count 0)).

Definition mobile_params (orderNumber : string) (p : PayoutParams) : MwaloniMobileParams :=
  mkMobile orderNumber (pp_phone p) (pp_amount p)
    (String.substring 0 100 ("FOSA withdrawal " +:+ pp_accountReference p)).

Definition params_metadata (p : PayoutParams) : list (string * json) :=
  [("referenceType", JStr (pp_referenceType p)); ("referenceId", JStr (pp_referenceId p))]
  ++ json_opt_field "transactionId" (pp_sourceTransactionId p)
  ++ [("memberId", JStr (pp_memberId p)); ("phone", JStr (maskPhone (pp_phone p)))].

Definition send_and_apply (id orderNumber : string) (p : PayoutParams) : PM unit :=
  let* now := gets now_of in
  let* response := on_wallet (sendMobile now (mobile_params orderNumber p)) in
  payout_updateMany id (fun _ _ => true) (fun m => m) (set_accepted now) ;;
  applyMwaloniStatus id response SEND_MONEY ;;
  ret tt.

Definition send_claimed (id orderNumber : string) (p : PayoutParams) : PM unit :=
  best_effort (entity_audit (pp_tenantId p) (pp_triggeredBy p) "MWALONI.B2C.SEND_ATTEMPTED" "MpesaTransaction" id None
    (Some (JObj [("providerSubmissionState", JStr (provider_state_text SEND_ATTEMPTED)); ("orderNumber", JStr orderNumber);
                 ("amount", JNum (dp4_toString (pp_amount p)))]))
    (("provider", JStr "MWALONI") :: params_metadata p) None None) ;;
  rescue (send_and_apply id orderNumber p) (fun e =>
    markMwaloniOutcomeUnknown id ("Mwaloni send outcome unknown: " +:+ exn_message e) ;;
    scheduleB2cTimeoutCheck (pp_referenceId p) (pp_referenceType p) (pp_tenantId p) orderNumber).

Definition submitMwaloniMobilePayout (id orderNumber : string) (p : PayoutParams) : PM Dispatched :=
  let* claimed := claim_send id in
  if claimed then
    send_claimed id orderNumber p ;;
    ret (mkDispatched orderNumber id)
  else
    let* existing := row_or_throw id in
    ret (mkDispatched (default orderNumber (mpd_conversationId (mp_details existing))) id).

(** ** refreshMwaloniB2cStatus *)
Definition NOT_REFRESHED : Refreshed := mkRefreshed false false None.

Definition refreshMwaloniB2cStatus (id : string) : PM Refreshed :=
  if negb mwaloni_enabled then ret NOT_REFRESHED else
  let* found := gets (row_of id) in
  match found with
  | None => ret NOT_REFRESHED
  | Some m =>
      match mpd_type (mp_details m) === MT_B2C, truthy (mpd_conversationId (mp_details m)) with
      | true, Some conversationId =>
          if negb (is_open m) then ret (mkRefreshed false true (Some (mp_status m))) else
          let* now := gets now_of in
          let* response := on_wallet (getStatus now conversationId) in
          applyMwaloniStatus id response "get-transaction-status"
      | _, _ => ret NOT_REFRESHED
      end
  end.

Definition refreshMwaloniB2cStatusByConversation (tenantId conversationId : string) : PM Refreshed :=
  let* found := gets (payout_row_by (fun m => (mp_tenantId m === tenantId)
    && (mpd_conversationId (mp_details m) === Some conversationId) && (mpd_type (mp_details m) === MT_B2C))) in
  match found with
  | Some (id, _) => refreshMwaloniB2cStatus id
  | None => ret NOT_REFRESHED
  end.

(** ** executeMwaloniMobilePayout *)
Definition payout_row (orderNumber reference : string) (p : PayoutParams) : MpesaTransaction :=
  mkMpesaTransaction (pp_tenantId p) reference (pp_amount p) T_PENDING (truthy (pp_sourceTransactionId p)) None
    None None None None
    (mkDetails MT_B2C (pp_phone p) (Some (pp_memberId p)) (Some (pp_accountReference p)) None (Some orderNumber) None
       (Some (pp_referenceType p)) (Some (pp_referenceId p)) None
       (Some (P_other (JObj [("provider", JStr "MWALONI"); ("orderNumber", JStr orderNumber);
          ("request", JObj ([("channel", JStr "daraja-mobile")] ++ json_opt_field "serviceId" (mwaloni_get "serviceId")
             ++ [("accountNumber", JStr (maskPhone (pp_phone p))); ("amount", JNum (dp4_toString (pp_amount p)));
                 ("accountReference", JStr (pp_accountReference p))]))])))).

(** The source transaction is a foreign key. *)
Definition create_payout_body (orderNumber reference : string) (p : PayoutParams) : PM string :=
  let* now := gets now_of in
  let* linked := gets (fun s => match truthy (pp_sourceTransactionId p) with
    | Some id => existsb (fun t => txn_id t === id) (transactions (tdb s)) | None => true end) in
  throw_if (negb linked) (ForeignKeyViolation "MpesaTransaction") ;;
  let* id := on_world (mpesa_create (payout_row orderNumber reference p)) in
  put_columns id (created_columns now) ;;
  entity_audit (pp_tenantId p) (pp_triggeredBy p) "MWALONI.B2C.INITIATED" "MpesaTransaction" id None
    (Some (JObj [("status", JStr "PENDING"); ("provider", JStr "MWALONI"); ("orderNumber", JStr orderNumber);
                 ("amount", JNum (dp4_toString (pp_amount p)))]))
    (params_metadata p) None None ;;
  ret id.

Definition executeMwaloniMobilePayout (p : PayoutParams) : PM Dispatched :=
  let* now := gets now_of in
  let orderNumber := buildMwaloniOrderNumber (pp_referenceId p) (pp_sourceTransactionId p) now in
  let reference := b2c_reference orderNumber in
  let* existing := gets (payout_row_by (fun m => mp_reference m === reference)) in
  match existing with
  | Some (id, m) =>
      let* c := gets (columns_of id) in
      if pc_state c === Some LOCAL_CREATED then submitMwaloniMobilePayout id orderNumber p else
      (if is_open m then refreshMwaloniB2cStatus id ;; ret tt else ret tt) ;;
      ret (mkDispatched orderNumber id)
  | None =>
      let* id := payout_transaction (create_payout_body orderNumber reference p) in
      submitMwaloniMobilePayout id orderNumber p ;;
      scheduleB2cTimeoutCheck (pp_referenceId p) (pp_referenceType p) (pp_tenantId p) orderNumber ;;
      ret (mkDispatched orderNumber id)
  end.

(** ** executeB2cDisbursement *)
Definition LOAN_DISBURSEMENT_TYPE : string := "LOAN_DISBURSEMENT".
Definition NOT_ENABLED : exn := B2cProviderUnavailableException "Mwaloni B2C payment wallet is not enabled or available".

(** An earlier attempt at the same payout left a row: send it if nothing was
    sent, never send it twice. *)
Definition resume_payout (id conversation : string) (m : MpesaTransaction) (p : PayoutParams) : PM Dispatched :=
  let* c := gets (columns_of id) in
  if pc_state c === Some LOCAL_CREATED then
    throw_if (negb mwaloni_enabled) NOT_ENABLED ;;
    submitMwaloniMobilePayout id conversation p
  else
    (if is_open m
     then scheduleB2cTimeoutCheck (default (pp_referenceId p) (mpd_referenceId (mp_details m)))
            (default (pp_referenceType p) (mpd_referenceType (mp_details m))) (mp_tenantId m) conversation
     else ret tt) ;;
    (if (pc_state c === Some SEND_ATTEMPTED) || (pc_state c === Some OUTCOME_UNKNOWN)
     then markMwaloniOutcomeUnknown id "B2C dispatch retry found an ambiguous prior provider send state"
     else ret tt) ;;
    ret (mkDispatched conversation id).

Definition executeB2cDisbursement (referenceId referenceType tenantId phone : string) (amount : Z) (triggeredBy : string)
    (sourceTransactionId : option string) : PM Dispatched :=
  throw_if (referenceType === LOAN_DISBURSEMENT_TYPE) (BadRequest
    "Direct M-Pesa loan disbursement execution is disabled. Use FOSA withdrawal payout after loan disbursement.") ;;
  let* found := gets (fun s => accounts (tdb s) !! referenceId) in
  let* account := or_throw found (NotFound "FOSA account not found for withdrawal") in
  let p := mkPayout referenceId referenceType tenantId (acc_memberId account) (acc_accountNumber account) phone amount
    triggeredBy sourceTransactionId in
  let* existing := gets (fun s => match truthy sourceTransactionId with
    | Some id => payout_row_by (fun m => mp_transactionId m === Some id) s | None => None end) in
  match existing with
  | Some (id, m) =>
      match truthy (mpd_conversationId (mp_details m)) with
      | Some conversation => resume_payout id conversation m p
      | None => throw (BadRequest "B2C dispatch is already in an ambiguous provider state and requires reconciliation")
      end
  | None =>
      throw_if (negb mwaloni_enabled) NOT_ENABLED ;;
      executeMwaloniMobilePayout p
  end.
End Payouts.
