(* ===== verification/PayoutOutbox.v ===== *)
(** * PayoutOutbox: from a withdrawal to the queue, and from the queue to the wallet

    [executeWithdrawMpesa] of [src/src/modules/members/member-portal.service.ts]
    debits the savings and writes the payout down in one transaction;
    [src/src/modules/mpesa/mpesa-payout-outbox.service.ts] hands it to the
    queue; [processors/mpesa-disbursement.processor.ts] sends it, and
    [processors/mpesa-b2c-timeout.processor.ts] looks at it half an hour later. *)
From S2P Require Import Prelude Money Json Format ImportText MpesaTypes Schema.
From S2P Require Import Ledger AuditLogs ApprovalChains Mpesa MpesaCallbacks MpesaInbox.
From S2P Require Import MwaloniClient.
From S2P Require Import PayoutState Payouts.

(** ** Outbox rows *)
Definition set_intent (st : OutboxStatus) (attempts : Z) (err : option string) (retry dispatched dead : option Z)
    (mpesaTx : option string) (now : Z) (i : PayoutIntent) : PayoutIntent :=
  mkIntent (pi_tenantId i) (pi_dispatchKey i) (pi_jobId i) (pi_referenceType i) (pi_referenceId i)
    (pi_sourceTransactionId i) (pi_memberId i) (pi_accountId i) (pi_phoneNumber i) (pi_amount i) (pi_triggeredBy i)
    st attempts err retry dispatched dead mpesaTx (pi_createdAt i) now.

Definition intent_queued (now : Z) (i : PayoutIntent) : PayoutIntent :=
  set_intent OB_PROCESSING (pi_attempts i) None None (pi_dispatchedAt i) (pi_deadLetteredAt i) (pi_mpesaTransactionId i) now i.
Definition RETRY_DELAY_MS : Z := 60000.
Definition intent_failed (err : string) (now : Z) (i : PayoutIntent) : PayoutIntent :=
  set_intent OB_FAILED (pi_attempts i + 1) (Some err) (Some (now + RETRY_DELAY_MS)) (pi_dispatchedAt i)
    (pi_deadLetteredAt i) (pi_mpesaTransactionId i) now i.
Definition intent_delivered (mpesaTx : string) (now : Z) (i : PayoutIntent) : PayoutIntent :=
  set_intent OB_DELIVERED (pi_attempts i) None None (Some now) (pi_deadLetteredAt i) (Some mpesaTx) now i.
Definition intent_dead (err : string) (now : Z) (i : PayoutIntent) : PayoutIntent :=
  set_intent OB_DEAD_LETTER (pi_attempts i + 1) (Some err) None (pi_dispatchedAt i) (Some now) (pi_mpesaTransactionId i) now i.

(** [{ queued, jobId }] *)
Record DispatchResult := mkDispatch { dr_queued : bool; dr_jobId : option string }.

Definition disbursement_job (id : string) (i : PayoutIntent) : DisbursementJob :=
  mkDJob (Some id) (pi_referenceType i) (pi_referenceId i) (pi_tenantId i) (pi_phoneNumber i) (pi_amount i)
    (pi_triggeredBy i) (Some (pi_sourceTransactionId i)).

(** [disbursementQueue.add(..., { jobId })]: a job the queue still knows under
    the id is left as it is. *)
Definition payout_add (jobId : string) (data : DisbursementJob) : PM unit :=
  let* up := gets payoutQueue_up in
  throw_if (negb up) QUEUE_DOWN ;;
  modify (fun s => match payoutQueue s !! jobId with
    | Some _ => s
    | None => set_payoutQueue (<[jobId := mkQueued data 0 false]> (payoutQueue s)) s
    end).

Definition markQueueFailure (intentId message : string) : PM unit :=
  let* now := gets now_of in
  intent_update intentId (intent_failed message now).

Definition known_reference (t : string) : bool := (t === FOSA_WITHDRAWAL) || (t === LOAN_DISBURSEMENT_TYPE).

Definition dispatchIntent (intentId : string) : PM DispatchResult :=
  let* found := gets (fun s => payoutIntents (tables s) !! intentId) in
  match found with
  | None => ret (mkDispatch false None)
  | Some i =>
      if (pi_status i === OB_DELIVERED) || (pi_status i === OB_DEAD_LETTER) then ret (mkDispatch false (Some (pi_jobId i)))
      else if negb (known_reference (pi_referenceType i)) then
        markQueueFailure intentId ("Unsupported payout referenceType=" +:+ pi_referenceType i) ;;
        ret (mkDispatch false (Some (pi_jobId i)))
      else
        let* now := gets now_of in
        rescue
          (payout_add (pi_jobId i) (disbursement_job intentId i) ;;
           intent_update intentId (intent_queued now) ;;
           ret (mkDispatch true (Some (pi_jobId i))))
          (fun e => markQueueFailure intentId (exn_message e) ;; ret (mkDispatch false (Some (pi_jobId i))))
  end.

(** ** dispatchDueIntents *)
Definition STALE_PROCESSING_MS : Z := 5 * 60000.
Definition intent_due (now : Z) (i : PayoutIntent) : bool :=
  (((pi_status i === OB_PENDING) || (pi_status i === OB_FAILED))
   && match pi_nextRetryAt i with None => true | Some t => t <=? now end)
  || ((pi_status i === OB_PROCESSING) && (pi_updatedAt i <? now - STALE_PROCESSING_MS)).

Definition intent_before (a b : string * PayoutIntent) : Prop := pi_createdAt a.2 <= pi_createdAt b.2.
#[export] Instance intent_before_dec a b : Decision (intent_before a b) := decide (pi_createdAt a.2 <= pi_createdAt b.2).

Definition due_intents (limit : nat) (s : PayoutWorld) : list string :=
  let rows := List.filter (fun kv : string * PayoutIntent => intent_due (now_of s) kv.2)
                (map_to_list (payoutIntents (tables s))) in
  fst <$> take limit (merge_sort intent_before rows).

Definition dispatchDueIntents (limit : nat) : PM nat :=
  let* ids := gets (due_intents limit) in
  foldM (fun queued id => let* r := dispatchIntent id in ret (if dr_queued r then S queued else queued)) 0%nat ids.

(** ** markDelivered *)
Definition intent_selected (payoutIntentId sourceTransactionId : option string) (s : PayoutWorld)
    : option (string * PayoutIntent) :=
  match truthy payoutIntentId, truthy sourceTransactionId with
  | Some id, _ => (fun i => (id, i)) <$> payoutIntents (tables s) !! id
  | None, Some txn => intent_by (fun i => pi_sourceTransactionId i === txn) s
  | None, None => None
  end.

Definition markDelivered (payoutIntentId sourceTransactionId : option string) (mpesaTransactionId : string) : PM unit :=
  let* now := gets now_of in
  let* found := gets (intent_selected payoutIntentId sourceTransactionId) in
  match found with
  | Some (id, i) =>
      if pi_status i === OB_DEAD_LETTER then ret tt else
      let* taken := gets (fun s => existsb (fun kv => negb (kv.1 === id)
        && (pi_mpesaTransactionId kv.2 === Some mpesaTransactionId)) (map_to_list (payoutIntents (tables s)))) in
      throw_if taken (UniqueViolation "MpesaPayoutIntent") ;;
      put_intent id (intent_delivered mpesaTransactionId now i)
  | None => ret tt
  end.

Section Outbox.
Context `{UuidSource, Sha256, Environment, Network, MwaloniConfig}.

(** ** markDeadLetter *)
Definition dead_letter_metadata (jobId : string) (data : DisbursementJob) (found : option (string * PayoutIntent)) (now : Z)
    : list (string * json) :=
  let i := snd <$> found in
  [("queueJobId", JStr jobId)]
  ++ json_opt_field "payoutIntentId" (first_of (fst <$> found) (dj_payoutIntentId data))
  ++ [("mpesaTransactionId", json_or_null (i ≫= pi_mpesaTransactionId))]
  ++ json_opt_field "sourceTransactionId" (dj_sourceTransactionId data)
  ++ [("referenceId", JStr (dj_referenceId data)); ("referenceType", JStr (dj_referenceType data));
      ("tenantId", JStr (dj_tenantId data)); ("amount", JNum (dp4_toString (dj_amount data)));
      ("memberId", json_or_null (i ≫= pi_memberId)); ("accountId", json_or_null (i ≫= pi_accountId));
      ("failedAt", JStr (toISOString now))].

Definition dead_letter_body (jobId : string) (retryCount : nat) (lastError : string) (data : DisbursementJob) : PM unit :=
  let* found := gets (intent_selected (dj_payoutIntentId data) (dj_sourceTransactionId data)) in
  let entityId := match found with
    | Some (id, _) => id
    | None => default jobId (first_of (dj_payoutIntentId data) (dj_sourceTransactionId data))
    end in
  let requestId := "audit.MPESA.DISBURSEMENT.DLQ." +:+ dj_tenantId data +:+ "." +:+ entityId in
  let* audited := gets (fun s => existsb (fun e => al_requestId e === Some requestId) (auditLogs (tdb s))) in
  let* now := gets now_of in
  if match found with Some (_, i) => pi_status i === OB_DEAD_LETTER | None => audited end then ret tt else
  match found with Some (id, _) => intent_update id (intent_dead lastError now) | None => ret tt end ;;
  entity_audit (dj_tenantId data) "SYSTEM" "MPESA.DISBURSEMENT.DLQ" "MpesaPayoutIntent" entityId None
    (Some (JObj [("status", JStr "DEAD_LETTER"); ("retryCount", JNum (pretty retryCount)); ("lastError", JStr lastError)]))
    (dead_letter_metadata jobId data found now) (Some requestId) None.
Definition markDeadLetter (jobId : string) (retryCount : nat) (lastError : string) (data : DisbursementJob) : PM unit :=
  payout_transaction (dead_letter_body jobId retryCount lastError data).

(** ** MpesaDisbursementProcessor *)
Definition disburse (data : DisbursementJob) : PM unit :=
  let* result := executeB2cDisbursement (dj_referenceId data) (dj_referenceType data) (dj_tenantId data) (dj_phone data)
    (dj_amount data) (dj_triggeredBy data) (dj_sourceTransactionId data) in
  markDelivered (dj_payoutIntentId data) (dj_sourceTransactionId data) (mpesaTxId result).

(** [onFailed]: the last failure sends the job to the dead-letter queue. *)
Definition disbursement_failed (jobId : string) (attemptsMade : nat) (failedReason : string) (data : DisbursementJob) : PM unit :=
  if Nat.ltb attemptsMade MAX_ATTEMPTS then ret tt else
  modify (fun s => set_payoutDlq (payoutDlq s ++ [data]) s) ;;
  markDeadLetter jobId attemptsMade failedReason data.

(** One attempt by the queue's worker: a job that succeeds is removed. *)
Definition run_payout (jobId : string) : PM unit :=
  let* found := gets (fun s => payoutQueue s !! jobId) in
  match found with
  | None => ret tt
  | Some q =>
      if qp_exhausted q then ret tt else
      rescue
        (disburse (qp_data q) ;;
         modify (fun s => set_payoutQueue (delete jobId (payoutQueue s)) s))
        (fun e =>
           let made := S (qp_attemptsMade q) in
           modify (fun s => set_payoutQueue
             (<[jobId := mkQueued (qp_data q) made (negb (Nat.ltb made MAX_ATTEMPTS))]> (payoutQueue s)) s) ;;
           best_effort (disbursement_failed jobId made (exn_message e) (qp_data q)))
  end.

(** ** MpesaB2cTimeoutProcessor *)
Definition B2C_TIMEOUT : string := "B2C_TIMEOUT".
Definition row_timed_out (m : MpesaTransaction) : MpesaTransaction :=
  set_outcome T_RECON_PENDING (mp_resultCode m) "B2C callback not received before timeout window" (mp_transactionDate m)
    (set_failureReason B2C_TIMEOUT (mp_details m)) m.

(** [tx.auditLog.create]: a row outside the hash chain. *)
Definition plain_audit (tenantId action entityType entityId : string) (old new metadata : json) : M unit :=
  let* id := fresh_id in
  let* now := gets clock in
  audit_row_create (mkAuditLog id tenantId None action entityType (Some entityId) now None None None (Some metadata) None
    old new None None).

Definition timeout_audit (j : TimeoutJob) (jobId entityType entityId : string) (old new : json)
    (more : list (string * json)) : PM unit :=
  let* now := gets now_of in
  on_world (plain_audit (tj_tenantId j) "B2C_TIMEOUT_REVERT" entityType entityId old new
    (JObj ([("conversationId", JStr (tj_conversationId j))] ++ more
           ++ [("jobId", JStr jobId); ("revertedAt", JStr (toISOString now))]))).

Definition timed_out (j : TimeoutJob) (m : MpesaTransaction) : bool :=
  (mp_tenantId m === tj_tenantId j) && (mpd_conversationId (mp_details m) === Some (tj_conversationId j))
  && (mpd_referenceId (mp_details m) === Some (tj_referenceId j))
  && (mpd_referenceType (mp_details m) === Some (tj_referenceType j)) && is_pending m.

Definition loan_status_text (s : LoanStatus) : string := if s === DISBURSED then "DISBURSED" else "APPROVED".

(** The branch for direct loan payouts, which nothing queues any more; the
    loan's failure reason is not a column of the model. *)
Definition loan_timeout (j : TimeoutJob) (jobId id : string) (m : MpesaTransaction) : PM unit :=
  let loanId := default (tj_referenceId j) (mp_loanId m) in
  let* found := gets (fun s => tenant_loan (tj_tenantId j) loanId (tdb s)) in
  match found with
  | None => ret tt
  | Some loan =>
      if negb ((loan_status loan === DISBURSED) || (loan_status loan === APPROVED)) then ret tt else
      on_world (loan_update loanId (fun l => set_loan_status APPROVED (loan_terms l) l)) ;;
      payout_update id row_timed_out (fun c => c) ;;
      timeout_audit j jobId "Loan" loanId (JObj [("status", JStr (loan_status_text (loan_status loan)))])
        (JObj [("status", JStr "APPROVED"); ("disbursementFailureReason", JStr B2C_TIMEOUT)])
        [("mpesaTransactionId", JStr id)]
  end.

Definition timeout_body (j : TimeoutJob) (jobId : string) : PM unit :=
  let* found := gets (payout_row_by (timed_out j)) in
  match found with
  | None => ret tt
  | Some (id, m) =>
      if tj_referenceType j === LOAN_DISBURSEMENT_TYPE then loan_timeout j jobId id m else
      payout_update id row_timed_out (fun c => c) ;;
      timeout_audit j jobId "MpesaTransaction" id (JObj [("status", JStr "PENDING")])
        (JObj [("status", JStr "RECON_PENDING"); ("failureReason", JStr B2C_TIMEOUT)])
        [("referenceId", JStr (tj_referenceId j)); ("referenceType", JStr (tj_referenceType j))]
  end.

Definition process_timeout (jobId : string) (j : TimeoutJob) : PM unit :=
  let* providerStatus := refreshMwaloniB2cStatusByConversation (tj_tenantId j) (tj_conversationId j) in
  if terminal providerStatus then ret tt else payout_transaction (timeout_body j jobId).

(** The queue runs the job once its delay is over, five times at most
    ([DEFAULT_JOB_OPTIONS] of [queue.module.ts]; the pause between two attempts
    is left out), and forgets it when it succeeds. *)
Definition TIMEOUT_ATTEMPTS : nat := 5.
Definition failed_once (j : TimeoutJob) : TimeoutJob :=
  mkTimeout (tj_referenceId j) (tj_referenceType j) (tj_tenantId j) (tj_conversationId j) (tj_runAt j) (S (tj_attemptsMade j)).

Definition run_timeout (jobId : string) : PM unit :=
  let* now := gets now_of in
  let* found := gets (fun s => timeoutQueue s !! jobId) in
  match found with
  | Some j =>
      if (now <? tj_runAt j) || negb (Nat.ltb (tj_attemptsMade j) TIMEOUT_ATTEMPTS) then ret tt else
      rescue
        (process_timeout jobId j ;;
         modify (fun s => set_timeoutQueue (delete jobId (timeoutQueue s)) s))
        (fun _ => modify (fun s => set_timeoutQueue (<[jobId := failed_once j]> (timeoutQueue s)) s))
  | None => ret tt
  end.

(** ** executeWithdrawMpesa *)
Record WithdrawRequest := mkWithdraw {
  wr_memberId : string;
  wr_userId : string;
  wr_phone : string;
  wr_amount : Q;
  wr_tenantId : string;
  wr_ipAddress : option string;
  wr_idempotencyKey : string;
}.

(** What may be taken out: the balance less what is locked, frozen and kept as
    a minimum. *)
Definition available_balance (a : Account) : Z :=
  Z.max 0 (acc_balance a - acc_lockedBalance a - acc_frozenSavings a
           - (if acc_allowsNegative a then 0 else acc_minimumBalance a)).

Definition withdrawal_reference (r : WithdrawRequest) : string :=
  "MPESA_WD-" +:+ wr_tenantId r +:+ "-" +:+ wr_memberId r +:+ "-" +:+ wr_idempotencyKey r.

Definition withdrawal_entry (r : WithdrawRequest) (accountId : string) : PostEntryParams :=
  mkPostEntry (wr_tenantId r) (withdrawal_reference r) JWITHDRAWAL accountId (wr_amount r) DEBIT (Some (wr_userId r))
    (Some ("M-Pesa withdrawal to " +:+ maskPhone (wr_phone r))) None None true.

Definition insufficient_withdrawal (a : Account) : exn :=
  BadRequest ("Insufficient available FOSA balance (available: KES " +:+ toFixed2 (dec (available_balance a))
    +:+ "). Please try again with a smaller amount or deposit funds into your account.").

(** [mpesaPayoutIntent.upsert({ where: { dispatchKey }, create, update: {} })];
    the job id and the source transaction are unique, too. *)
Definition intent_upsert (dispatchKey : string) (row : PayoutIntent) : PM string :=
  let* found := gets (intent_by (fun i => pi_dispatchKey i === dispatchKey)) in
  match found with
  | Some (id, _) => ret id
  | None =>
      let* id := on_world fresh_id in
      let* taken := gets (fun s => bool_decide (is_Some (payoutIntents (tables s) !! id))
        || existsb (fun kv => (pi_jobId kv.2 === pi_jobId row) || (pi_sourceTransactionId kv.2 === pi_sourceTransactionId row))
             (map_to_list (payoutIntents (tables s)))) in
      throw_if taken (UniqueViolation "MpesaPayoutIntent") ;;
      throw_if (negb (fits_18_4 (pi_amount row))) NumericOverflow ;;
      put_intent id row ;;
      ret id
  end.

Definition withdrawal_intent (r : WithdrawRequest) (accountId txnId dispatchKey : string) (now : Z) : PayoutIntent :=
  mkIntent (wr_tenantId r) dispatchKey ("fosa-withdraw-" +:+ txnId) FOSA_WITHDRAWAL accountId txnId
    (Some (wr_memberId r)) (Some accountId) (wr_phone r) (to_dp4 (wr_amount r)) (wr_userId r) OB_PENDING 0 None None None
    None None now now.

(** The transaction and the payout intent of the withdrawal. *)
Definition withdraw_body (r : WithdrawRequest) : PM (string * string) :=
  let* found := gets (fun s => member_account (wr_tenantId r) (wr_memberId r) FOSA (tdb s)) in
  let* acc := or_throw found (NotFound "No active FOSA account found for withdrawal") in
  throw_if (negb (Qle_bool (wr_amount r) (dec (available_balance acc.2)))) (insufficient_withdrawal acc.2) ;;
  let* posted := on_world (postEntry (withdrawal_entry r acc.1)) in
  let txnId := txn_id (posted_transaction posted) in
  entity_audit (wr_tenantId r) (wr_userId r) "MPESA.WITHDRAW.INITIATED" "Transaction" txnId None
    (Some (JObj [("amount", JNum (dp4_toString (to_dp4 (wr_amount r)))); ("phone", JStr (maskPhone (wr_phone r)));
                 ("status", JStr "PROCESSING")]))
    [("accountId", JStr acc.1)] None (wr_ipAddress r) ;;
  let* now := gets now_of in
  let dispatchKey := "FOSA_WITHDRAWAL:" +:+ wr_tenantId r +:+ ":" +:+ txnId in
  let* intentId := intent_upsert dispatchKey (withdrawal_intent r acc.1 txnId dispatchKey now) in
  ret (txnId, intentId).

(** The id of the withdrawal's transaction: the request succeeds whether or not
    the queue took the payout. *)
Definition executeWithdrawMpesa (r : WithdrawRequest) : PM string :=
  let* result := payout_transaction (withdraw_body r) in
  dispatchIntent result.2 ;;
  ret result.1.

(** ** resolveProfileWithdrawalPhone *)
Definition profile_phones (candidates : list (option string)) : list string :=
  remove_dups (omap (fun p => truthy (normalized (normalizePhone p))) candidates).

(** The phone the money goes to, or the code of the refusal and its answer. *)
Definition resolveWithdrawalPhone (candidates : list (option string)) (requestedPhone : option string)
    : string + string * exn :=
  let requested := match truthy requestedPhone with Some p => Some (normalizePhone (Some p)) | None => None end in
  if match requested with Some n => negb (isValid n) | None => false end
  then inr ("REQUEST_PHONE_INVALID", BadRequest "Withdrawal phone number is invalid")
  else match profile_phones candidates with
  | [] => inr ("PROFILE_PHONE_REQUIRED",
      BadRequest "Add your member phone number in your profile before withdrawing to M-Pesa")
  | [profilePhone] =>
      match requested ≫= (fun n => truthy (normalized n)) with
      | Some p => if p === profilePhone then inl profilePhone else inr ("REQUEST_PHONE_MISMATCH",
          BadRequest "Withdrawal destination must match your member profile phone number")
      | None => inl profilePhone
      end
  | _ => inr ("MEMBER_PHONE_FIELDS_MISMATCH",
      BadRequest "Your profile phone records need verification before withdrawing to M-Pesa")
  end.

(** ** The sweeps of unanswered pushes

    [mpesa-stk-timeout.service.ts] every two minutes and
    [jobs/stk-expiry.processor.ts]: pushes without an answer fail. *)
Definition sweep_rows (P : string -> MpesaTransaction -> bool) (f : MpesaTransaction -> MpesaTransaction) : PM unit :=
  modify (fun s => set_base (with_db (fun d => set_mpesaTransactions
    (map_imap (fun id m => Some (if P id m then f m else m)) (mpesaTransactions d)) d) (pw_base s)) s).

Definition stale_push (cutoff : Z) (s : PayoutWorld) (id : string) (m : MpesaTransaction) : bool :=
  (mpd_type (mp_details m) === MT_STK_PUSH) && is_pending m && (pc_createdAt (columns_of id s) <? cutoff).

Definition STK_TIMEOUT_MS : Z := 2 * 60 * 1000.
Definition cleanupStaleStkTransactions : PM unit :=
  let* now := gets now_of in
  let* stale := gets (stale_push (now - STK_TIMEOUT_MS)) in
  sweep_rows stale (fun m => set_outcome T_FAILED (Some 17)
    "STK Push expired – user did not complete payment within 2 minutes" (mp_transactionDate m) (mp_details m) m).

Definition expire_pushes : PM unit :=
  let* now := gets now_of in
  let* stale := gets (stale_push (now - 10 * 60 * 1000)) in
  sweep_rows stale (fun m => set_outcome T_FAILED (mp_resultCode m) "STK push timed out without a Daraja callback"
    (mp_transactionDate m) (set_failureReason "STK_TIMEOUT_SWEEP" (mp_details m)) m).
End Outbox.
