(* ===== verification/WithdrawalRecon.v ===== *)
(** * WithdrawalRecon: reconciling payouts that did not settle

    [src/src/modules/mpesa/withdrawal-reconciliation.service.ts]: the sweep
    that asks the wallet about open payouts, the two checks for payouts that
    were never sent, and an operator's decisions.  The JSON columns of an
    attempt, the operators' listing and the gauges are left out.  [DailyRecon] is
    the other reconciliation, once a day, of
    [src/src/modules/financial/reconciliation.service.ts]: what it writes to the
    rows of payments it read as pending. *)
From S2P Require Import Prelude Money Json Format ImportText MpesaTypes Schema.
From S2P Require Import Ledger AuditLogs Mpesa MpesaCallbacks MpesaInbox MwaloniClient.
From S2P Require Import PayoutState Payouts PayoutOutbox.

(** ** Configuration ([app.mpesa.b2c...], in milliseconds) *)
Class ReconConfig := {
  pendingThresholdMs : Z;   (* 30 min *)
  retryIntervalMs : Z;      (* 15 min *)
  staleOutboxMs : Z;        (* 10 min *)
  manualReviewMs : Z;       (* 2 h *)
  lockTtlMs : Z;            (* 5 min *)
  maxAttempts : Z;          (* 5 *)
}.

(** ** Columns *)
Definition set_lock (at_ : option Z) (by_ : option string) (c : ProviderColumns) : ProviderColumns :=
  mkColumns (pc_state c) (pc_sendAttemptedAt c) (pc_acceptedAt c) (pc_lastCheckedAt c) (pc_reconciliationDueAt c)
    (pc_lastRecoveryAt c) (pc_attemptCount c) (pc_nextRetryAt c) at_ by_
    (pc_manualReviewRequired c) (pc_manualReviewReason c) (pc_lastReason c) (pc_createdAt c).

Definition attempt_done (count : Z) (retry : option Z) (manual : bool) (manualReason : option string) (reason : string)
    (now : Z) (c : ProviderColumns) : ProviderColumns :=
  mkColumns (pc_state c) (pc_sendAttemptedAt c) (pc_acceptedAt c) (pc_lastCheckedAt c) (pc_reconciliationDueAt c)
    (Some now) count retry None None manual manualReason (Some reason) (pc_createdAt c).

Definition decided (reason : string) (now : Z) (c : ProviderColumns) : ProviderColumns :=
  mkColumns (pc_state c) (pc_sendAttemptedAt c) (pc_acceptedAt c) (Some now) (pc_reconciliationDueAt c)
    (pc_lastRecoveryAt c) (pc_attemptCount c) None None None false None (Some reason) (pc_createdAt c).

(** ** Attempts *)
Definition finish_attempt (now : Z) (reference : option string) (old new : TransactionStatus) (reason : string)
    (category : option string) (retry : option Z) (a : ReconAttempt) : ReconAttempt :=
  mkAttempt (ra_id a) (ra_tenantId a) (ra_mpesaTransactionId a) (ra_payoutIntentId a) (ra_attemptNumber a)
    (ra_triggerType a) (ra_actorId a) (ra_startedAt a) (Some now) reference (Some old) (Some new) (Some reason)
    category retry.

Definition attempt_update (id : string) (f : ReconAttempt -> ReconAttempt) : PM unit :=
  let* hit := gets (fun s => existsb (fun a => ra_id a === id) (reconAttempts (tables s))) in
  throw_if (negb hit) (RecordNotFound "MpesaWithdrawalReconciliationAttempt") ;;
  modify_tables (fun t => set_attempts (update_where (fun a => ra_id a === id) f (reconAttempts t)) t).

(** A numbered attempt at a row exists: the pair is a unique key. *)
Definition attempt_exists (rowId : string) (n : Z) (s : PayoutWorld) : bool :=
  existsb (fun a => (ra_mpesaTransactionId a === rowId) && (ra_attemptNumber a =? n)) (reconAttempts (tables s)).

Record ReconParams := mkReconParams {
  rp_trigger : ReconTrigger;
  rp_actorId : string;
  rp_reason : string;
  rp_ipAddress : option string;
  rp_jobId : option string;
}.

Record Outcome := mkOutcome {
  oc_reasonCode : string;
  oc_errorCategory : option string;
  oc_nextRetryAt : option Z;
  oc_manualReview : option bool;
  oc_manualReviewReason : option string;
}.

(** [{ action, status, manualReviewRequired, nextRetryAt }] *)
Record ReconResult := mkReconResult {
  rr_action : string;
  rr_status : option TransactionStatus;
  rr_manualReview : option bool;
  rr_nextRetryAt : option Z;
}.

Record Evidence := mkEvidence {
  ev_reason : string;
  ev_reference : string;
  ev_note : option string;
}.

Definition SKIPPED : ReconResult := mkReconResult "SKIPPED" None None None.

Definition PROVIDER_CONTACT_STATES : list ProviderState :=
  [SEND_ATTEMPTED; PROVIDER_ACCEPTED; OUTCOME_UNKNOWN; PROVIDER_COMPLETED; PROVIDER_FAILED].
Definition contact_state (c : ProviderColumns) : bool :=
  match pc_state c with Some st => existsb (fun x => x === st) PROVIDER_CONTACT_STATES | None => false end.

Definition wasProviderContacted (m : MpesaTransaction) (c : ProviderColumns) : bool :=
  bool_decide (is_Some (pc_sendAttemptedAt c)) || contact_state c
  || bool_decide (is_Some (truthy (mpd_conversationId (mp_details m)))).

(** [s.includes(sub)] *)
Fixpoint includes (sub s : string) : bool :=
  String.prefix sub s || match s with String _ s' => includes sub s' | EmptyString => false end.

Section Recon.
Context `{UuidSource, Sha256, Environment, Network, MwaloniConfig, ReconConfig}.

Definition shouldManualReview (now createdAt attemptCount : Z) : bool :=
  (maxAttempts <=? attemptCount) || (manualReviewMs <=? now - createdAt).

Definition nextRetry (now attemptCount : Z) : Z :=
  now + retryIntervalMs * Z.min 8 (2 ^ Z.max 0 (attemptCount - 1)).

(** ** claim *)
Definition claimable (now : Z) (m : MpesaTransaction) (c : ProviderColumns) : bool :=
  is_open m && match pc_lockedAt c with None => true | Some t => t <? now - lockTtlMs end.

Definition claim (id : string) (trigger : ReconTrigger) (actorId : string)
    : PM (option (MpesaTransaction * ProviderColumns)) :=
  let* now := gets now_of in
  let* count := payout_updateMany id (claimable now) (fun m => m)
    (set_lock (Some now) (Some (trigger_text trigger +:+ ":" +:+ actorId))) in
  if Nat.eqb count 0 then ret None else
  let* m := row_or_throw id in
  let* c := gets (columns_of id) in
  ret (Some (m, c)).

(** ** createAttempt *)
Definition createAttempt (id : string) (m : MpesaTransaction) (c : ProviderColumns) (trigger : ReconTrigger)
    (actorId : string) : PM (string * Z) :=
  let* intent := gets (fun s => match truthy (mp_transactionId m) with
    | Some txn => fst <$> intent_by (fun i => pi_sourceTransactionId i === txn) s | None => None end) in
  let* attemptId := on_world fresh_id in
  let* now := gets now_of in
  let n := pc_attemptCount c + 1 in
  let* taken := gets (fun s => attempt_exists id n s || existsb (fun a => ra_id a === attemptId) (reconAttempts (tables s))) in
  throw_if taken (UniqueViolation "MpesaWithdrawalReconciliationAttempt") ;;
  modify_tables (fun t => set_attempts (reconAttempts t ++
    [mkAttempt attemptId (mp_tenantId m) id intent n trigger (if actorId === "SYSTEM" then None else Some actorId) now None
       (mpd_conversationId (mp_details m)) (Some (mp_status m)) None None None None]) t) ;;
  ret (attemptId, n).

(** ** completeAttemptAndSchedule *)
Definition completeAttemptAndSchedule (attemptId id : string) (before : MpesaTransaction) (c : ProviderColumns)
    (outcome : Outcome) : PM unit :=
  let* after := row_or_throw id in
  let* now := gets now_of in
  let attemptCount := pc_attemptCount c + 1 in
  let manual := default (shouldManualReview now (pc_createdAt c) attemptCount) (oc_manualReview outcome) in
  let retry := if is_open after && negb manual
    then Some (default (nextRetry now attemptCount) (oc_nextRetryAt outcome)) else None in
  payout_transaction (
    payout_update id (fun m => m) (attempt_done attemptCount retry manual
      (if manual then Some (default (oc_reasonCode outcome) (oc_manualReviewReason outcome)) else None)
      (oc_reasonCode outcome) now) ;;
    attempt_update attemptId (fun a => finish_attempt now (ra_providerRequestReference a) (mp_status before)
      (mp_status after) (oc_reasonCode outcome) (oc_errorCategory outcome) retry a)).

(** ** classifyOutcome *)
Definition is_mismatched (m : MpesaTransaction) : bool :=
  match mpd_failureReason (mp_details m) with Some r => includes "MISMATCH" r | None => false end.

Definition classifyOutcome (now : Z) (m : MpesaTransaction) (createdAt : Z) (p : Refreshed) (attemptCount : Z) : Outcome :=
  let manual := shouldManualReview now createdAt attemptCount in
  let retry := nextRetry now attemptCount in
  match mp_status m with
  | T_COMPLETED => mkOutcome "PROVIDER_CONFIRMED_SUCCESS" None None None None
  | T_FAILED => mkOutcome "PROVIDER_CONFIRMED_FAILURE_REVERSED" None None None None
  | _ =>
      if is_mismatched m then
        mkOutcome "PROVIDER_RESPONSE_MISMATCH" (Some "CORRELATION_MISMATCH") None (Some true) (mpd_failureReason (mp_details m))
      else if negb (refreshed p) then
        mkOutcome "PROVIDER_STATUS_NOT_REFRESHED" (Some "PROVIDER_UNAVAILABLE") (Some retry) (Some manual) None
      else
        mkOutcome (if refreshed_status p === Some T_PENDING then "PROVIDER_STILL_PENDING" else "PROVIDER_OUTCOME_UNKNOWN")
          None (Some retry) (Some manual)
          (if manual then Some "Automated reconciliation exhausted or exceeded manual review SLA" else None)
  end.

Definition auditActionForOutcome (reasonCode : string) : string :=
  if reasonCode === "PROVIDER_CONFIRMED_SUCCESS" then "MPESA.WITHDRAWAL.RECON_RESOLVED_SUCCESS"
  else if reasonCode === "PROVIDER_CONFIRMED_FAILURE_REVERSED" then "MPESA.WITHDRAWAL.RECON_RESOLVED_FAILURE"
  else if reasonCode === "PROVIDER_STILL_PENDING" then "MPESA.WITHDRAWAL.RECON_STILL_PENDING"
  else if reasonCode === "PROVIDER_RESPONSE_MISMATCH" then "MPESA.WITHDRAWAL.RECON_MISMATCH"
  else "MPESA.WITHDRAWAL.RECON_UNKNOWN".

(** ** raiseOperationalAlertOnce *)
Record AlertParams := mkAlertParams {
  op_tenantId : string;
  op_entityType : string;
  op_entityId : string;
  op_action : string;
  op_severity : string;
  op_message : string;
  op_details : list (string * json);
}.

Definition alert_requestId (a : AlertParams) : string :=
  "audit." +:+ op_action a +:+ "." +:+ op_tenantId a +:+ "." +:+ op_entityId a.

Definition raiseOperationalAlertOnce (a : AlertParams) : PM unit :=
  payout_transaction (
    let* existing := gets (fun s => existsb (fun e => al_requestId e === Some (alert_requestId a)) (auditLogs (tdb s))) in
    if existing : bool then ret tt else
    entity_audit (op_tenantId a) "SYSTEM" (op_action a) (op_entityType a) (op_entityId a) None
      (Some (JObj [("alert", JStr (op_message a)); ("severity", JStr (op_severity a))])) (op_details a)
      (Some (alert_requestId a)) None ;;
    modify_tables (fun t => set_alerts (complianceAlerts t ++
      [mkAlert (op_tenantId a) "MPESA_WITHDRAWAL_RECONCILIATION" (op_severity a) (op_message a) (op_entityId a) (op_action a)]) t)).

(** ** reconcileTransaction *)
Definition recon_audit (id : string) (m : MpesaTransaction) (p : ReconParams) (action : string) (old new : option json)
    (metadata : list (string * json)) : PM unit :=
  entity_audit (mp_tenantId m) (rp_actorId p) action "MpesaTransaction" id old new metadata None (rp_ipAddress p).

Definition status_json (s : TransactionStatus) : json := JObj [("status", JStr (status_text s))].
Definition state_json (c : ProviderColumns) : json := json_or_null (provider_state_text <$> pc_state c).
Definition order_json (m : MpesaTransaction) : json := json_or_null (mpd_conversationId (mp_details m)).

(** A payout that never reached the wallet waits for an operator. *)
Definition not_contacted (id attemptId : string) (m : MpesaTransaction) (c : ProviderColumns) : PM ReconResult :=
  let* now := gets now_of in
  completeAttemptAndSchedule attemptId id m c
    (mkOutcome "PROVIDER_NOT_CONTACTED_OR_UNKNOWN_LOCAL_STATE" (Some "LOCAL_ANOMALY")
       (Some (nextRetry now (pc_attemptCount c + 1))) (Some true)
       (Some "Provider submission was not durably attempted; inspect payout intent/outbox before action")) ;;
  raiseOperationalAlertOnce (mkAlertParams (mp_tenantId m) "MpesaTransaction" id "MPESA.WITHDRAWAL.ANOMALY_DETECTED" "CRITICAL"
    "B2C withdrawal has no durable provider-contact evidence" [("providerSubmissionState", state_json c)]) ;;
  ret (mkReconResult "MANUAL_REVIEW" (Some T_RECON_PENDING) None None).

Definition refreshed_json (r : Refreshed) : json :=
  JObj ([("refreshed", JBool (refreshed r)); ("terminal", JBool (terminal r))]
        ++ json_opt_field "status" (status_text <$> refreshed_status r)).

Definition query_provider (id attemptId : string) (n : Z) (m : MpesaTransaction) (c : ProviderColumns) (p : ReconParams)
    : PM ReconResult :=
  recon_audit id m p "MPESA.WITHDRAWAL.PROVIDER_STATUS_QUERIED" None None
    [("provider", JStr "MWALONI"); ("orderNumber", order_json m); ("attemptNumber", JNum (pretty n))] ;;
  let* providerStatus := refreshMwaloniB2cStatus id in
  let* after := row_or_throw id in
  let* now := gets now_of in
  let outcome := classifyOutcome now after (pc_createdAt c) providerStatus (pc_attemptCount c + 1) in
  completeAttemptAndSchedule attemptId id m c outcome ;;
  recon_audit id m p (auditActionForOutcome (oc_reasonCode outcome)) (Some (status_json (mp_status m)))
    (Some (JObj ([("status", JStr (status_text (mp_status after)))]
       ++ match oc_manualReview outcome with Some b => [("manualReviewRequired", JBool b)] | None => [] end
       ++ [("nextRetryAt", json_or_null (toISOString <$> oc_nextRetryAt outcome))])))
    [("provider", JStr "MWALONI"); ("orderNumber", order_json m); ("attemptNumber", JNum (pretty n));
     ("providerStatus", refreshed_json providerStatus); ("reasonCode", JStr (oc_reasonCode outcome))] ;;
  ret (mkReconResult "REFRESH_PROVIDER_STATUS" (Some (mp_status after)) (oc_manualReview outcome) (oc_nextRetryAt outcome)).

Definition retry_later (id attemptId : string) (m : MpesaTransaction) (c : ProviderColumns) : PM ReconResult :=
  let* now := gets now_of in
  completeAttemptAndSchedule attemptId id m c
    (mkOutcome "PROVIDER_STATUS_UNAVAILABLE" (Some "PROVIDER_UNAVAILABLE") (Some (nextRetry now (pc_attemptCount c + 1)))
       (Some (shouldManualReview now (pc_createdAt c) (pc_attemptCount c + 1)))
       (Some "Provider status unavailable beyond automated retry policy")) ;;
  ret (mkReconResult "RETRY_SCHEDULED" (Some (mp_status m)) None None).

(** The lock on the row and the numbered attempt: what is on record when the
    process dies in the middle. *)
Definition begin_attempt (id : string) (p : ReconParams)
    : PM (option (MpesaTransaction * ProviderColumns * (string * Z))) :=
  let* claimed := claim id (rp_trigger p) (rp_actorId p) in
  match claimed with
  | None => ret None
  | Some (m, c) =>
      let* attempt := createAttempt id m c (rp_trigger p) (rp_actorId p) in
      ret (Some (m, c, attempt))
  end.

Definition reconcileTransaction (id : string) (p : ReconParams) : PM ReconResult :=
  let* begun := begin_attempt id p in
  match begun with
  | None => ret SKIPPED
  | Some (m, c, (attemptId, n)) =>
      recon_audit id m p "MPESA.WITHDRAWAL.RECON_STARTED" (Some (status_json (mp_status m))) None
        [("trigger", JStr (trigger_text (rp_trigger p))); ("reason", JStr (rp_reason p)); ("attemptNumber", JNum (pretty n));
         ("orderNumber", order_json m); ("providerSubmissionState", state_json c); ("jobId", json_or_null (rp_jobId p))] ;;
      rescue
        (if negb (wasProviderContacted m c) then not_contacted id attemptId m c
         else query_provider id attemptId n m c p)
        (fun _ => retry_later id attemptId m c)
  end.

(** ** selectEligibleProviderTransactions *)
Definition eligible (now : Z) (m : MpesaTransaction) (c : ProviderColumns) : bool :=
  (mpd_type (mp_details m) === MT_B2C) && (mpd_referenceType (mp_details m) === Some FOSA_WITHDRAWAL)
  && is_open m && negb (pc_manualReviewRequired c)
  && match pc_nextRetryAt c, pc_reconciliationDueAt c with
     | Some t, _ => t <=? now
     | None, Some t => t <=? now
     | None, None => pc_createdAt c <=? now - pendingThresholdMs
     end
  && match pc_lockedAt c with None => true | Some t => t <? now - lockTtlMs end.

(** Ordered by retry time, rows without one last, then by age. *)
Definition retry_before (a b : string * ProviderColumns) : Prop :=
  match pc_nextRetryAt a.2, pc_nextRetryAt b.2 with
  | Some x, Some y => x < y \/ (x = y /\ pc_createdAt a.2 <= pc_createdAt b.2)
  | Some _, None => True
  | None, Some _ => False
  | None, None => pc_createdAt a.2 <= pc_createdAt b.2
  end.
#[export] Instance retry_before_dec a b : Decision (retry_before a b).
Proof. unfold retry_before. repeat case_match; apply _. Defined.

Definition eligible_rows (s : PayoutWorld) : list string :=
  let rows := List.filter (fun kv : string * MpesaTransaction => eligible (now_of s) kv.2 (columns_of kv.1 s))
                (map_to_list (mpesaTransactions (tdb s))) in
  fst <$> take 50 (merge_sort retry_before ((fun kv => (kv.1, columns_of kv.1 s)) <$> rows)).

(** ** detectStalePayoutIntents *)
Definition stale_intent (cutoff : Z) (i : PayoutIntent) : bool :=
  (pi_referenceType i === FOSA_WITHDRAWAL) && negb (pi_status i === OB_DELIVERED) && (pi_updatedAt i <=? cutoff).
Definition updated_before (a b : string * PayoutIntent) : Prop := pi_updatedAt a.2 <= pi_updatedAt b.2.
#[export] Instance updated_before_dec a b : Decision (updated_before a b) := decide (pi_updatedAt a.2 <= pi_updatedAt b.2).

Definition stale_intents (cutoff : Z) (s : PayoutWorld) : list (string * PayoutIntent) :=
  take 100 (merge_sort updated_before
    (List.filter (fun kv : string * PayoutIntent => stale_intent cutoff kv.2) (map_to_list (payoutIntents (tables s))))).

Definition outbox_text (s : OutboxStatus) : string :=
  match s with
  | OB_PENDING => "PENDING" | OB_PROCESSING => "PROCESSING" | OB_DELIVERED => "DELIVERED"
  | OB_FAILED => "FAILED" | OB_DEAD_LETTER => "DEAD_LETTER"
  end.

Definition intent_alert (id : string) (i : PayoutIntent) (action severity message : string)
    (details : list (string * json)) : AlertParams :=
  mkAlertParams (pi_tenantId i) "MpesaPayoutIntent" id action severity message details.

Definition check_intent (jobId : option string) (id : string) (i : PayoutIntent) : PM unit :=
  let* providerTx := gets (payout_row_by (fun m => (mp_transactionId m === Some (pi_sourceTransactionId i))
    && (mpd_referenceType (mp_details m) === Some FOSA_WITHDRAWAL))) in
  if pi_status i === OB_DEAD_LETTER then
    raiseOperationalAlertOnce (intent_alert id i "MPESA.WITHDRAWAL.RECON_DLQ" "CRITICAL"
      "B2C payout intent is in dead letter and requires manual review"
      ([("jobId", JStr (pi_jobId i)); ("sourceTransactionId", JStr (pi_sourceTransactionId i))]
       ++ json_opt_field "jobIdFromSweep" jobId))
  else
    match providerTx with
    | None =>
        let* dispatch := dispatchIntent id in
        raiseOperationalAlertOnce (intent_alert id i "MPESA.WITHDRAWAL.STALE_PAYOUT_INTENT_DETECTED" "WARNING"
          "Stale B2C payout intent detected and safely re-dispatched before provider contact"
          ([("status", JStr (outbox_text (pi_status i))); ("sourceTransactionId", JStr (pi_sourceTransactionId i));
            ("queued", JBool (dr_queued dispatch))] ++ json_opt_field "jobId" (dr_jobId dispatch)))
    | Some (txId, _) =>
        let* c := gets (columns_of txId) in
        if bool_decide (is_Some (pc_sendAttemptedAt c)) || contact_state c then
          raiseOperationalAlertOnce (intent_alert id i "MPESA.WITHDRAWAL.STALE_PAYOUT_INTENT_WITH_PROVIDER_TX" "WARNING"
            "Stale payout intent has provider transaction evidence; no redispatch attempted"
            [("mpesaTransactionId", JStr txId); ("providerSubmissionState", state_json c)])
        else ret tt
    end.

Definition detectStalePayoutIntents (jobId : option string) : PM nat :=
  let* now := gets now_of in
  let* intents := gets (stale_intents (now - staleOutboxMs)) in
  foldM (fun _ kv => check_intent jobId kv.1 kv.2) tt intents ;;
  ret (length intents).

(** ** detectDebitWithoutPayout *)
Definition old_withdrawal (cutoff : Z) (t : Transaction) : bool :=
  (txn_type t === WITHDRAWAL) && (txn_status t === T_COMPLETED) && String.prefix "MPESA_WD-" (txn_reference t)
  && (txn_createdAt t <=? cutoff).
Definition older (a b : Transaction) : Prop := txn_createdAt a <= txn_createdAt b.
#[export] Instance older_dec a b : Decision (older a b) := decide (txn_createdAt a <= txn_createdAt b).

Definition withdrawals_checked (cutoff : Z) (d : DB) : list Transaction :=
  take 100 (merge_sort older (List.filter (old_withdrawal cutoff) (transactions d))).

(** Whether a debit has its payout intent or its payout row. *)
Definition has_payout (txnId : string) (s : PayoutWorld) : bool :=
  bool_decide (is_Some (intent_by (fun i => pi_sourceTransactionId i === txnId) s))
  || bool_decide (is_Some (payout_row_by (fun m => mp_transactionId m === Some txnId) s)).

Definition check_debit (jobId : option string) (anomalies : nat) (t : Transaction) : PM nat :=
  let* paid := gets (has_payout (txn_id t)) in
  if paid : bool then ret anomalies else
  raiseOperationalAlertOnce (mkAlertParams (txn_tenantId t) "Transaction" (txn_id t)
    "MPESA.WITHDRAWAL.DEBIT_WITHOUT_PAYOUT_ANOMALY" "CRITICAL"
    "Ledger withdrawal debit exists without payout intent or M-Pesa transaction"
    [("reference", JStr (txn_reference t)); ("accountId", JStr (txn_accountId t));
     ("amount", JStr (dp4_toString (txn_amount t))); ("createdAt", JStr (toISOString (txn_createdAt t)));
     ("jobId", json_or_null jobId); ("automaticReversalUnsafe", JBool true)]) ;;
  ret (S anomalies).

Definition detectDebitWithoutPayout (jobId : option string) : PM nat :=
  let* now := gets now_of in
  let* rows := gets (fun s => withdrawals_checked (now - staleOutboxMs) (tdb s)) in
  foldM (check_debit jobId) 0%nat rows.

(** ** runAutomatedSweep *)
Record SweepReport := mkSweep { sweep_reconciled : nat; sweep_anomalies : nat; sweep_staleOutbox : nat }.

Definition sweep_params (jobId : option string) : ReconParams :=
  mkReconParams AUTOMATED "SYSTEM" "Scheduled withdrawal reconciliation sweep" None jobId.

Definition runAutomatedSweep (jobId : option string) : PM SweepReport :=
  let* staleOutbox := detectStalePayoutIntents jobId in
  let* debitAnomalies := detectDebitWithoutPayout jobId in
  let* rows := gets eligible_rows in
  let* reconciled := foldM (fun n id =>
    let* result := reconcileTransaction id (sweep_params jobId) in
    ret (if rr_action result === "SKIPPED" then n else S n)) 0%nat rows in
  ret (mkSweep reconciled debitAnomalies staleOutbox).

(** ** An operator's decisions *)
Definition requireWithdrawal (id tenantId : string) : PM MpesaTransaction :=
  let* found := gets (row_of id) in
  match found with
  | Some m =>
      if (mp_tenantId m === tenantId) && (mpd_referenceType (mp_details m) === Some FOSA_WITHDRAWAL)
         && (mpd_type (mp_details m) === MT_B2C)
      then ret m else throw (NotFound "M-Pesa FOSA withdrawal transaction not found")
  | None => throw (NotFound "M-Pesa FOSA withdrawal transaction not found")
  end.

Definition requireEvidence (e : Evidence) : PM unit :=
  throw_if ((trim (ev_reason e) === "") || (trim (ev_reference e) === ""))
    (BadRequest "Manual reconciliation requires reason and evidenceReference").

Definition refreshProviderStatus (id tenantId actorId : string) (reason ipAddress : option string) : PM ReconResult :=
  requireWithdrawal id tenantId ;;
  reconcileTransaction id (mkReconParams MANUAL_REFRESH actorId (default "Manual provider-status refresh" reason) ipAddress None).

Definition manual_audit (tenantId actorId action id : string) (old new : TransactionStatus) (e : Evidence)
    (more : list (string * json)) (ipAddress : option string) : PM unit :=
  entity_audit tenantId actorId action "MpesaTransaction" id (Some (status_json old))
    (Some (JObj [("status", JStr (status_text new)); ("reason", JStr (ev_reason e)); ("evidenceReference", JStr (ev_reference e))]))
    ([("evidenceReference", JStr (ev_reference e)); ("evidenceNote", json_or_null (ev_note e)); ("reason", JStr (ev_reason e))] ++ more)
    None ipAddress.

Definition TERMINAL : exn := Conflict "Withdrawal is already terminal or being reconciled".

Definition row_decided_completed (e : Evidence) (m : MpesaTransaction) : MpesaTransaction :=
  set_outcome T_COMPLETED (mp_resultCode m) ("Manually completed with provider evidence " +:+ ev_reference e)
    (mp_transactionDate m) (mp_details m) m.
Definition row_decided_failed (e : Evidence) (m : MpesaTransaction) : MpesaTransaction :=
  set_outcome T_FAILED (mp_resultCode m) ("Manual reversal with evidence " +:+ ev_reference e)
    (mp_transactionDate m) (set_failureReason "MANUAL_CONFIRMED_PROVIDER_FAILURE" (mp_details m)) m.

Definition decide_row (id tenantId : string) (f : MpesaTransaction -> MpesaTransaction) (reason : string) : PM unit :=
  let* now := gets now_of in
  let* count := payout_updateMany id (fun m _ => (mp_tenantId m === tenantId) && is_open m) f (decided reason now) in
  throw_if (Nat.eqb count 0) TERMINAL.

Definition finish_manual (attemptId : string) (m : MpesaTransaction) (new : TransactionStatus) (reason : string) : PM unit :=
  let* now := gets now_of in
  attempt_update attemptId (fun a => finish_attempt now (mpd_conversationId (mp_details m)) (mp_status m) new reason
    (ra_errorCategory a) (ra_nextRetryAt a) a).

Definition complete_manually_body (id tenantId actorId : string) (m : MpesaTransaction) (e : Evidence)
    (ipAddress : option string) : PM ReconResult :=
  let* c := gets (columns_of id) in
  let* attempt := createAttempt id m c MANUAL_COMPLETE actorId in
  decide_row id tenantId (row_decided_completed e) "MANUAL_COMPLETED_WITH_EVIDENCE" ;;
  finish_manual attempt.1 m T_COMPLETED "MANUAL_COMPLETED_WITH_EVIDENCE" ;;
  manual_audit tenantId actorId "MPESA.WITHDRAWAL.MANUAL_COMPLETE" id (mp_status m) T_COMPLETED e [] ipAddress ;;
  ret (mkReconResult "MANUAL_COMPLETE" (Some T_COMPLETED) None None).

Definition markCompletedWithEvidence (id tenantId actorId : string) (e : Evidence) (ipAddress : option string) : PM ReconResult :=
  let* m := requireWithdrawal id tenantId in
  requireEvidence e ;;
  payout_transaction (complete_manually_body id tenantId actorId m e ipAddress).

Definition reverse_manually_body (id tenantId actorId originalTransactionId : string) (m : MpesaTransaction) (e : Evidence)
    (ipAddress : option string) : PM ReconResult :=
  let* c := gets (columns_of id) in
  let* attempt := createAttempt id m c MANUAL_REVERSE actorId in
  decide_row id tenantId (row_decided_failed e) "MANUAL_CONFIRMED_PROVIDER_FAILURE" ;;
  let* reversal := on_world (reverseTransaction tenantId originalTransactionId
    ("Manual confirmed B2C failure: " +:+ ev_reason e +:+ " (" +:+ ev_reference e +:+ ")") (Some actorId) true) in
  finish_manual attempt.1 m T_FAILED "MANUAL_CONFIRMED_PROVIDER_FAILURE" ;;
  manual_audit tenantId actorId "MPESA.WITHDRAWAL.MANUAL_REVERSE" id (mp_status m) T_FAILED e
    [("reversalTransactionId", JStr (txn_id reversal.1))] ipAddress ;;
  ret (mkReconResult "MANUAL_REVERSE" (Some T_FAILED) None None).

Definition reverseConfirmedFailure (id tenantId actorId : string) (e : Evidence) (ipAddress : option string) : PM ReconResult :=
  let* m := requireWithdrawal id tenantId in
  requireEvidence e ;;
  let* txnId := or_throw (truthy (mp_transactionId m))
    (BadRequest "No linked ledger debit exists; cannot reverse through LedgerService") in
  payout_transaction (reverse_manually_body id tenantId actorId txnId m e ipAddress).

(** Sending again is always refused. *)
Definition controlledResend (id tenantId actorId : string) (e : Evidence) (ipAddress : option string) : PM ReconResult :=
  let* m := requireWithdrawal id tenantId in
  requireEvidence e ;;
  let* c := gets (columns_of id) in
  entity_audit tenantId actorId "MPESA.WITHDRAWAL.MANUAL_RESEND_BLOCKED" "MpesaTransaction" id (Some (status_json (mp_status m)))
    (Some (JObj [("action", JStr "CONTROLLED_RESEND_BLOCKED")]))
    [("reason", JStr (ev_reason e)); ("evidenceReference", JStr (ev_reference e)); ("evidenceNote", json_or_null (ev_note e));
     ("providerSubmissionState", state_json c);
     ("providerSendAttemptedAt", json_or_null (toISOString <$> pc_sendAttemptedAt c));
     ("automaticDuplicatePayoutProtection", JBool true)] None ipAddress ;;
  throw (BadRequest
    "CONTROLLED_RESEND is blocked until non-submission can be proven by a formal provider reconciliation workflow").
End Recon.

(** ** What the member is told ([mapWithdrawalMemberState],
    [src/src/modules/members/member-portal.service.ts]) *)
Record MemberState := mkMemberState { memberStatus : string; member_terminal : bool; legacyStatus : string }.

Definition mapWithdrawalMemberState (transactionStatus mpesaStatus : option TransactionStatus)
    (providerSubmissionState : option string) (manualReviewRequired : bool) : MemberState :=
  if mpesaStatus === Some T_COMPLETED then mkMemberState "COMPLETED" true "SUCCESS"
  else if (mpesaStatus === Some T_FAILED) && (transactionStatus === Some T_REVERSED)
  then mkMemberState "FAILED_FUNDS_RESTORED" true "FAILED"
  else if (mpesaStatus === Some T_RECON_PENDING) || manualReviewRequired
          || (providerSubmissionState === Some "PROVIDER_OUTCOME_UNKNOWN") || (mpesaStatus === Some T_FAILED)
  then mkMemberState "CONFIRMATION_DELAYED" false "PENDING"
  else if providerSubmissionState === Some "SEND_IN_PROGRESS" then mkMemberState "SENDING_TO_MPESA" false "PENDING"
  else mkMemberState "PROCESSING" false "PENDING".

(** * The daily settlement reconciliation
    ([src/src/modules/financial/reconciliation.service.ts])

    It compares the day's rows, payouts among them, with the ledger, and flags
    the pending ones that are older than two hours.  The rows are read once; the
    flags are written afterwards, one by one, by id.  Queued audit messages and
    the cached copy of the report are left out. *)
Module DailyRecon.
Record ReconMismatch := mkMismatch {
  rm_checkoutRequestId : string;
  darajaAmount : Z;
  rm_postedAmount : option Z;
  rm_status : string;
  rm_reason : string;
}.

Record ReconReport := mkReconReport {
  settlementDate : Z;   (* days since 1970-01-01, UTC *)
  rr_tenantId : string;
  totalDaraja : Z;
  totalPosted : Z;
  mismatches : list ReconMismatch;
  duplicates : list string;
  autoResolved : nat;
}.

(** A row as it was read, with the amount of the transaction it links to. *)
Record ReadRow := mkReadRow {
  rr_id : string;
  rr_row : MpesaTransaction;
  rr_createdAt : Z;
  rr_posted : option Z;
}.

Definition PENDING_STALE_MINUTES : Z := 120.
Definition DAY_MS : Z := 86400000.

Definition emptyReport (tenantId : string) (day : Z) : ReconReport := mkReconReport day tenantId 0 0 [] [] 0.

Definition read_row (id : string) (m : MpesaTransaction) (s : PayoutWorld) : ReadRow :=
  mkReadRow id m (pc_createdAt (columns_of id s))
    (match mp_transactionId m with
     | Some t => txn_amount <$> List.find (fun x => txn_id x === t) (transactions (tdb s))
     | None => None
     end).

(** [findMany]: the rows created on the day. *)
Definition read_rows (tenantId : string) (day : Z) (s : PayoutWorld) : list ReadRow :=
  let dateStart := day * DAY_MS in
  let dateEnd := dateStart + DAY_MS - 1 in
  List.filter (fun r => (mp_tenantId (rr_row r) === tenantId) && (dateStart <=? rr_createdAt r) && (rr_createdAt r <=? dateEnd))
    (map (fun x => read_row x.1 x.2 s) (map_to_list (mpesaTransactions (tdb s)))).

Definition row_stale (reason : string) (m : MpesaTransaction) : MpesaTransaction :=
  set_outcome T_RECON_PENDING (mp_resultCode m) reason (mp_transactionDate m) (mp_details m) m.

Definition row_label (r : ReadRow) : string := default (rr_id r) (mpd_checkoutRequestId (mp_details (rr_row r))).

Definition add_mismatch (r : ReadRow) (posted : option Z) (status reason : string) (acc : ReconReport) : ReconReport :=
  mkReconReport (settlementDate acc) (rr_tenantId acc) (totalDaraja acc) (totalPosted acc)
    (mismatches acc ++ [mkMismatch (row_label r) (mp_amount (rr_row r)) posted status reason])
    (duplicates acc) (autoResolved acc).
Definition add_totals (daraja posted : Z) (acc : ReconReport) : ReconReport :=
  mkReconReport (settlementDate acc) (rr_tenantId acc) (totalDaraja acc + daraja) (totalPosted acc + posted)
    (mismatches acc) (duplicates acc) (autoResolved acc).
Definition add_resolved (acc : ReconReport) : ReconReport :=
  mkReconReport (settlementDate acc) (rr_tenantId acc) (totalDaraja acc) (totalPosted acc)
    (mismatches acc) (duplicates acc) (S (autoResolved acc)).
Definition add_duplicate (r : ReadRow) (acc : ReconReport) : ReconReport :=
  mkReconReport (settlementDate acc) (rr_tenantId acc) (totalDaraja acc) (totalPosted acc)
    (mismatches acc) (duplicates acc ++ [row_label r]) (autoResolved acc).

Definition compare_posted (r : ReadRow) (acc : ReconReport) : ReconReport :=
  let amount := mp_amount (rr_row r) in
  match rr_posted r with
  | Some posted =>
      let acc := add_totals amount posted acc in
      if amount === posted then acc
      else add_mismatch r (Some posted) "AMOUNT_MISMATCH"
             ("Daraja says " +:+ dp4_toString amount +:+ " but posted " +:+ dp4_toString posted) acc
  | None =>
      add_mismatch r None "MISSING_TRANSACTION" "MpesaTransaction completed but no Transaction record linked"
        (add_totals amount 0 acc)
  end.

(** Still pending two hours after it was created, when it was read. *)
Definition is_stale (now : Z) (r : ReadRow) : bool :=
  (mp_status (rr_row r) === T_PENDING) && (PENDING_STALE_MINUTES * 60 * 1000 <? now - rr_createdAt r).

(** The turn of the loop for one row. *)
Definition settle_row (now : Z) (acc : ReconReport) (r : ReadRow) : PM ReconReport :=
  let reason := "Stale PENDING after " +:+ pretty ((now - rr_createdAt r) / 60000) +:+ " minutes" in
  let* acc := (
    if mp_status (rr_row r) === T_COMPLETED then ret (compare_posted r acc)
    else if is_stale now r then
      payout_update (rr_id r) (row_stale reason) (fun c => c) ;;
      ret (add_resolved (add_mismatch r None "RECON_PENDING" reason acc))
    else ret acc) in
  match truthy (mp_receipt (rr_row r)) with
  | Some receipt =>
      let* others := gets (fun s => List.filter (fun x => (mp_tenantId x.2 === rr_tenantId acc)
        && (mp_receipt x.2 === Some receipt) && negb (x.1 === rr_id r)) (map_to_list (mpesaTransactions (tdb s)))) in
      ret (match others with [] => acc | _ => add_duplicate r acc end)
  | None => ret acc
  end.

(** [locked] is what the Redis lock of the tenant and day answered. *)
Definition runReconciliation (locked : bool) (tenantId : string) (day : Z) : PM ReconReport :=
  if negb locked then ret (emptyReport tenantId day) else
  let* rows := gets (read_rows tenantId day) in
  let* now := gets now_of in
  foldM (settle_row now) (emptyReport tenantId day) rows.
End DailyRecon.
