(* ===== verification/Redis.v ===== *)
(** * Redis: distributed locks

    The lock operations of [src/src/common/services/redis.service.ts] over the
    key-value store.  A key may also disappear when its time to live ends,
    which is a step of the environment ([Expired]). *)
From S2P Require Import Prelude Schema.

(** ** try ... finally *)
Definition finally {A} (m : M A) (k : M unit) : M A := fun w =>
  match m w with
  | (Ok a, w') => (k ;; ret a) w'
  | (Err e, w') => match k w' with
                   | (Ok _, w'') => (Err e, w'')
                   | (Err e', w'') => (Err e', w'')
                   end
  end.

(** [set(key, value, ttl, nx)] with a time to live: under [nx] the key must be
    absent.  When the server cannot be reached the operation returns [false],
    as it does for a key that is taken. *)
Definition redis_set (key value : string) (nx : bool) : M bool :=
  let* held := gets (fun w => locks w !! key) in
  match held, nx with
  | Some _, true => ret false
  | _, _ => modify (with_locks (<[key := value]>)) ;; ret true
  end.

Inductive ConsumeResult := consumed | missing | mismatch.

Definition consumeIfValue (key expectedValue : string) : M ConsumeResult :=
  let* held := gets (fun w => locks w !! key) in
  match held with
  | None => ret missing
  | Some v =>
      if v === expectedValue
      then modify (with_locks (delete key)) ;; ret consumed
      else ret mismatch
  end.

Section Locks.
Context `{UuidSource}.

Definition acquireLock (key : string) : M (option string) :=
  let* token := fresh_id in
  let* acquired := redis_set key token true in
  ret (if acquired then Some token else None).

Definition releaseLock (key token : string) : M unit :=
  consumeIfValue key token ;; ret tt.

(** ** What they do *)
Lemma acquireLock_run key w :
  acquireLock key w =
  match locks w !! key with
  | Some _ => (Ok None, bump_uuid w)
  | None => (Ok (Some (uuid (nextUuid w))), with_locks (<[key := uuid (nextUuid w)]>) (bump_uuid w))
  end.
Proof.
  unfold acquireLock, bind, fresh_id, redis_set, gets, modify, ret. cbn.
  by destruct (locks w !! key).
Qed.

Lemma releaseLock_run key token w :
  releaseLock key token w =
  (Ok tt, match locks w !! key with
          | Some v => if v === token then with_locks (delete key) w else w
          | None => w
          end).
Proof.
  unfold releaseLock, consumeIfValue, bind, gets, modify, ret.
  destruct (locks w !! key) as [v|]; [|done]. by destruct (v === token).
Qed.

Lemma finally_Ok {A} (m : M A) (k : M unit) w a w' :
  finally m k w = (Ok a, w') -> exists w1 u, m w = (Ok a, w1) /\ k w1 = (Ok u, w').
Proof.
  unfold finally. destruct (m w) as [[b|e] w1].
  - intros Hr. run_inv. eauto.
  - destruct (k w1) as [[|] ?]; discriminate.
Qed.
End Locks.
