(* ===== verification/Frames.v ===== *)
(** * Frames: parts of the state an operation leaves alone

    [frames f m] says that [m], whether it returns or throws, does not change
    the projection [f] of the state.  The class is closed under the monad's
    plumbing, so that instance search proves it for whole handlers. *)
From S2P Require Import Prelude Money Json Schema Ledger AuditLogs Redis.

Class Frames {St X A : Type} (f : St -> X) (m : comp St A) : Prop :=
  frames : forall w, f (m w).2 = f w.

Section Plumbing.
Context {St X : Type} (f : St -> X).

#[export] Instance frames_ret {A} (a : A) : Frames f (ret a).
Proof. done. Qed.
#[export] Instance frames_throw {A} e : Frames f (throw e : comp St A).
Proof. done. Qed.
#[export] Instance frames_gets {A} (g : St -> A) : Frames f (gets g).
Proof. done. Qed.
#[export] Instance frames_throw_if c e : Frames f (throw_if c e).
Proof. intros w. by destruct c. Qed.
#[export] Instance frames_or_throw {A} (o : option A) e : Frames f (or_throw o e).
Proof. intros w. by destruct o. Qed.
#[export] Instance frames_bind {A B} (m : comp St A) (k : A -> comp St B) :
  Frames f m -> (forall a, Frames f (k a)) -> Frames f (bind m k).
Proof.
  intros Hm Hk w. unfold bind. specialize (Hm w). destruct (m w) as [[a|e] w']; cbn in *; [|done].
  by rewrite (Hk a w').
Qed.

#[export] Instance frames_foldM {A B} (body : B -> A -> comp St B) acc xs :
  (forall b a, Frames f (body b a)) -> Frames f (foldM body acc xs).
Proof.
  intros Hb. revert acc. induction xs as [|x xs IH]; intros acc; [done|].
  apply frames_bind; [done|]. intros b. apply IH.
Qed.

Lemma frames_Ok {A} (m : comp St A) r w w' : Frames f m -> m w = (r, w') -> f w' = f w.
Proof. intros Hm E. specialize (Hm w). by rewrite E in Hm. Qed.
End Plumbing.

#[export] Instance frames_lift_result {X A} (f : World -> X) (r : result A) : Frames f (lift_result r).
Proof. intros w. by destruct r. Qed.

(** Case analysis inside a handler. *)
#[export] Hint Extern 5 (Frames _ (match ?x with _ => _ end)) => destruct x : typeclass_instances.
#[export] Hint Extern 5 (Frames _ (if ?x then _ else _)) => destruct x : typeclass_instances.
#[export] Hint Extern 9 (Frames _ _) => progress cbv zeta : typeclass_instances.

(** A write that leaves the projection alone by computation. *)
Lemma frames_modify {St X} (f : St -> X) g : (forall w, f (g w) = f w) -> Frames f (modify g).
Proof. done. Qed.
#[export] Hint Extern 2 (Frames _ (modify _)) =>
  apply frames_modify; intros ?; reflexivity : typeclass_instances.

(** ** Invariants of a computation, whatever it returns *)
Class Preserves {St A : Type} (P : St -> Prop) (m : comp St A) : Prop :=
  preserves : forall s r s', m s = (r, s') -> P s -> P s'.

Section Invariants.
Context {St : Type} (P : St -> Prop).

#[export] Instance preserves_ret {A} (a : A) : Preserves P (ret a).
Proof. by intros s r s' [= <- <-]. Qed.
#[export] Instance preserves_throw {A} e : Preserves P (throw e : comp St A).
Proof. by intros s r s' [= <- <-]. Qed.
#[export] Instance preserves_gets {A} (g : St -> A) : Preserves P (gets g).
Proof. by intros s r s' [= <- <-]. Qed.
#[export] Instance preserves_throw_if c e : Preserves P (throw_if c e).
Proof. destruct c; apply _. Qed.
#[export] Instance preserves_or_throw {A} (o : option A) e : Preserves P (or_throw o e).
Proof. destruct o; apply _. Qed.
#[export] Instance preserves_bind {A B} (m : comp St A) (k : A -> comp St B) :
  Preserves P m -> (forall a, Preserves P (k a)) -> Preserves P (bind m k).
Proof.
  intros Hm Hk s r s' E HP. unfold bind in E. destruct (m s) as [[a|e] s1] eqn:E1.
  - exact (Hk a _ _ _ E (Hm _ _ _ E1 HP)).
  - injection E as <- <-. exact (Hm _ _ _ E1 HP).
Qed.
#[export] Instance preserves_foldM {A B} (body : B -> A -> comp St B) acc xs :
  (forall b a, Preserves P (body b a)) -> Preserves P (foldM body acc xs).
Proof. intros Hb. revert acc. induction xs as [|x xs IH]; intros acc; cbn [foldM]; apply _. Qed.
Lemma preserves_modify g : (forall s, P s -> P (g s)) -> Preserves P (modify g).
Proof. intros Hg s r s' [= <- <-]. apply Hg. Qed.
End Invariants.

#[export] Hint Extern 5 (Preserves _ (match ?x with _ => _ end)) => destruct x : typeclass_instances.
#[export] Hint Extern 5 (Preserves _ (if ?x then _ else _)) => destruct x : typeclass_instances.
#[export] Hint Extern 9 (Preserves _ _) => progress cbv zeta : typeclass_instances.

(** A projection that drawing an identifier leaves alone, and that has its old
    value after a rollback when nothing changed it. *)
Class Rollback {X} (f : World -> X) : Prop := {
  stable_rollback : forall w w', f w' = f w -> f (with_db (fun _ => db w) w') = f w;
  stable_uuid : forall w, f (bump_uuid w) = f w;
}.

(** One that updates of account and loan rows leave alone, too. *)
Class Stable {X} (f : World -> X) : Prop := {
  #[global] stable_all :: Rollback f;
  stable_account : forall id a w, f (with_db (set_accounts (<[id := a]> (accounts (db w)))) w) = f w;
  stable_loan : forall id l w, f (with_db (set_loans (<[id := l]> (loans (db w)))) w) = f w;
}.

Definition users_of (w : World) : list User := users (db w).
#[export] Instance stable_locks : Stable locks.
Proof. by repeat split. Qed.
#[export] Instance stable_users : Stable users_of.
Proof. by repeat split. Qed.

Section Operations.
Context {X : Type} (f : World -> X) `{!Stable f}.

#[export] Instance frames_account id c g : Frames f (account_updateMany id c g).
Proof. intros w. unfold account_updateMany. repeat case_match; try done. apply stable_account. Qed.
#[export] Instance frames_loan id c g : Frames f (loan_updateMany id c g).
Proof. intros w. unfold loan_updateMany. repeat case_match; try done. apply stable_loan. Qed.
End Operations.

Section Rollbacks.
Context {X : Type} (f : World -> X) `{!Rollback f}.

#[export] Instance frames_transaction {A} (m : M A) : Frames f m -> Frames f (transaction m).
Proof.
  intros Hm w. unfold transaction. specialize (Hm w). destruct (m w) as [[a|e] w']; [done|].
  by apply stable_rollback.
Qed.
#[export] Instance frames_fresh_id `{UuidSource} : Frames f fresh_id.
Proof. intros w. apply stable_uuid. Qed.
#[export] Instance frames_pair t a b : Frames f (findGlAccountPair t a b).
Proof. unfold findGlAccountPair. apply _. Qed.
End Rollbacks.

(** ** The handlers *)
Ltac frame_handler x := unfold x; apply _.

Section Handlers.
Context `{UuidSource}.

#[export] Instance frames_locks_txn td : Frames locks (transaction_create td).
Proof. frame_handler @transaction_create. Qed.
#[export] Instance frames_users_txn td : Frames users_of (transaction_create td).
Proof. frame_handler @transaction_create. Qed.
#[export] Instance frames_locks_journal jd : Frames locks (journal_create jd).
Proof. frame_handler @journal_create. Qed.
#[export] Instance frames_users_journal jd : Frames users_of (journal_create jd).
Proof. frame_handler @journal_create. Qed.
#[export] Instance frames_locks_guarantor id c g : Frames locks (guarantor_updateMany id c g).
Proof. frame_handler @guarantor_updateMany. Qed.
#[export] Instance frames_users_guarantor id c g : Frames users_of (guarantor_updateMany id c g).
Proof. frame_handler @guarantor_updateMany. Qed.
#[export] Instance frames_locks_actor t o : Frames locks (actor_or_system t o).
Proof. unfold actor_or_system, resolveSystemActorId. apply _. Qed.
#[export] Instance frames_users_actor t o : Frames users_of (actor_or_system t o).
Proof. unfold actor_or_system, resolveSystemActorId. apply _. Qed.
#[export] Instance frames_locks_leg t ref leg amt dc x o descr notes jt :
  Frames locks (postGlOnlyLegEntry t ref leg amt dc x o descr notes jt).
Proof. unfold postGlOnlyLegEntry, positive_amount. apply _. Qed.
#[export] Instance frames_users_leg t ref leg amt dc x o descr notes jt :
  Frames users_of (postGlOnlyLegEntry t ref leg amt dc x o descr notes jt).
Proof. unfold postGlOnlyLegEntry, positive_amount. apply _. Qed.
#[export] Instance frames_locks_audit_row row : Frames locks (audit_row_create row).
Proof. frame_handler @audit_row_create. Qed.
#[export] Instance frames_users_audit_row row : Frames users_of (audit_row_create row).
Proof. frame_handler @audit_row_create. Qed.
End Handlers.

#[export] Instance frames_locks_audit_tx `{UuidSource, Sha256} t a ac et ei md :
  Frames locks (createAuditLogInTransaction t a ac et ei md).
Proof. unfold createAuditLogInTransaction. apply _. Qed.
#[export] Instance frames_users_audit_tx `{UuidSource, Sha256} t a ac et ei md :
  Frames users_of (createAuditLogInTransaction t a ac et ei md).
Proof. unfold createAuditLogInTransaction. apply _. Qed.
#[export] Instance frames_locks_createAtomic `{UuidSource, Sha256, Environment} dto :
  Frames locks (createAtomic dto).
Proof. unfold createAtomic, logAtomic. apply _. Qed.

(** ** Locks *)
Section Locking.
Context {X : Type} (f : World -> X).

#[export] Instance frames_finally {A} (m : M A) k : Frames f m -> Frames f k -> Frames f (finally m k).
Proof.
  intros Hm Hk w. unfold finally. specialize (Hm w). destruct (m w) as [[a|e] w'].
  - unfold bind. specialize (Hk w'). destruct (k w') as [[?|?] ?]; cbn in *; congruence.
  - specialize (Hk w'). destruct (k w') as [[?|?] ?]; cbn in *; congruence.
Qed.
End Locking.

#[export] Instance frames_users_acquire `{UuidSource} key : Frames users_of (acquireLock key).
Proof. unfold acquireLock, redis_set. apply _. Qed.
#[export] Instance frames_users_release key token : Frames users_of (releaseLock key token).
Proof. unfold releaseLock, consumeIfValue. apply _. Qed.
