(* ===== verification/ImportFacts.v ===== *)
(** * ImportFacts: lemmas on the member import

    What one row does to the users and to the report, the batches of a run,
    and the keys of a validated list. *)
From S2P Require Import Prelude Json ImportText Fuzzy Schema Accounts AccountFacts Frames.
From S2P Require Import Import ImportRun ImportJobs.

(** ** Parts of the import state *)

(** The report without the list of created stages, which a rolled back row
    may have extended. *)
Definition report_core (r : ImportReport) : ImportReport :=
  mkReport (batchId r) (importLogId r) (totalRows r) (successCount r) (failedCount r) (warningCount r)
    (skippedCount r) (dryRun r) (report_errors r) (createdUsers r) [].
Definition core (s : ImportWorld) : ImportReport := report_core (report s).
Definition profiles_of (s : ImportWorld) : list UserProfile := profiles (tables s).
Definition wards_of (s : ImportWorld) : list string := wards (tables s).
Definition logs_of (s : ImportWorld) : list DataImportLog := importLogs (tables s).

(** Parts that neither the rest of the application nor a random draw touch. *)
Class Beside {X} (f : ImportWorld -> X) : Prop := {
  beside_base : forall g s, f (with_base g s) = f s;
  beside_draw : forall s, f (draw s) = f s;
}.
#[export] Instance beside_core : Beside core. Proof. by split. Qed.
#[export] Instance beside_profiles : Beside profiles_of. Proof. by split. Qed.
#[export] Instance beside_wards : Beside wards_of. Proof. by split. Qed.
#[export] Instance beside_logs : Beside logs_of. Proof. by split. Qed.

Section BesideFrames.
Context `{UuidSource} `{Entropy} {X : Type} (f : ImportWorld -> X) `{!Beside f}.

#[export] Instance frames_lift {A} (m : M A) : Frames f (lift m).
Proof. intros s. unfold lift. destruct (m (base s)) as [r w]. apply beside_base. Qed.
#[export] Instance frames_random lo hi : Frames f (random_int lo hi).
Proof. intros s. apply beside_draw. Qed.
#[export] Instance frames_hash p : Frames f (hash_password p).
Proof. intros s. apply beside_draw. Qed.
#[export] Instance frames_password : Frames f generateTempPassword.
Proof. unfold generateTempPassword. apply _. Qed.
#[export] Instance frames_number n t : Frames f (member_number_attempts n t).
Proof. induction n as [|n IH]; cbn; apply _. Qed.
#[export] Instance frames_unique_number t : Frames f (generateUniqueMemberNumber t).
Proof. unfold generateUniqueMemberNumber. apply _. Qed.
#[export] Instance frames_email t e n : Frames f (uniqueImportEmail t e n).
Proof. unfold uniqueImportEmail. apply _. Qed.
End BesideFrames.

(** The inserts are unfolded: which tables they leave alone is computed. *)
#[export] Hint Extern 4 (Frames _ (find_or_create_stage _ _)) => unfold find_or_create_stage, stage_create : typeclass_instances.
#[export] Hint Extern 4 (Frames _ (user_create _)) => unfold user_create : typeclass_instances.
#[export] Hint Extern 4 (Frames _ (member_create _ _ _)) => unfold member_create : typeclass_instances.
#[export] Hint Extern 4 (Frames _ (stageAssignment_upsert _)) => unfold stageAssignment_upsert : typeclass_instances.
#[export] Hint Extern 4 (Frames _ (memberStage_upsert _)) => unfold memberStage_upsert : typeclass_instances.

(** Tables a row does not touch. *)
Lemma frames_import_transaction {A X} (g : ImportTables -> X) (m : IM A) :
  Frames (fun s => g (tables s)) m -> Frames (fun s => g (tables s)) (import_transaction m).
Proof. intros Hm s. unfold import_transaction. specialize (Hm s). by destruct (m s) as [[a|e] s']. Qed.

(** ** One row *)
Section OneRow.
Context `{UuidSource} `{Entropy}.
Implicit Types (s : ImportWorld) (c : RowContext) (v : ValidatedRow).

(** A computation that leaves a projection alone when it throws. *)
Definition errs {A X} (f : ImportWorld -> X) (m : IM A) : Prop :=
  forall s e s', m s = (Err e, s') -> f s' = f s.

Lemma errs_bind {A B X} (f : ImportWorld -> X) (m : IM A) (k : A -> IM B) :
  Frames f m -> (forall a, errs f (k a)) -> errs f (bind m k).
Proof.
  intros Hm Hk s e s' Hr. unfold bind in Hr. pose proof (Hm s) as Hs. destruct (m s) as [[a|e1] s1]; cbn in Hs.
  - rewrite <- Hs. by eapply Hk.
  - by injection Hr as <- <-.
Qed.

Lemma processRowBody_Err c h v : errs core (processRowBody c h v).
Proof.
  unfold processRowBody. repeat (apply errs_bind; [apply _|intros ?]).
  intros s e s' Hr. by vm_compute in Hr.
Qed.

Lemma user_create_Ok p s u s' : user_create p s = (Ok u, s') ->
  existsb (user_clash p) (profiles_of s) = false /\ user_exists (up_id p) (db (base s)) = false /\
  profiles_of s' = profiles_of s ++ [p] /\ users (db (base s')) = users (db (base s)) ++ [mkUser (up_id p) (up_tenantId p) MEMBER].
Proof. unfold user_create. intros Hr. run_inv. apply orb_false_elim in Hguard as [H1 H2]. done. Qed.

Lemma core_count w u s : core (with_report (count_success w u) s) = count_success w u (core s).
Proof. done. Qed.

Lemma processRowBody_Ok c h v s u s' : processRowBody c h v s = (Ok u, s') ->
  exists email, let p := row_profile c u email h (parsed v) in
    existsb (user_clash p) (profiles_of s) = false /\ profiles_of s' = profiles_of s ++ [p] /\
    core s' = count_success (negb (Nat.eqb (length (warnings v)) 0)) u (core s).
Proof.
  unfold processRowBody. intros Hr.
  apply bind_Ok in Hr as (stage & s1 & E1 & Hr). apply bind_Ok in Hr as (email & s2 & E2 & Hr).
  apply bind_Ok in Hr as (uid & s3 & E3 & Hr). apply bind_Ok in Hr as (? & s4 & E4 & Hr).
  apply bind_Ok in Hr as (number & s5 & E5 & Hr). apply bind_Ok in Hr as (mid & s6 & E6 & Hr).
  apply bind_Ok in Hr as (? & s7 & E7 & Hr). apply bind_Ok in Hr as (? & s8 & E8 & Hr).
  apply bind_Ok in Hr as (? & s9 & E9 & Hr). apply bind_Ok in Hr as (? & s10 & E10 & Hr).
  apply bind_Ok in Hr as (? & s11 & E11 & Hr). apply modify_Ok in E11. apply ret_Ok in Hr as [<- <-]. subst s11.
  rewrite core_count. exists email.
  pose proof (user_create_Ok _ _ _ _ E4) as (Hclash & _ & Hp & _).
  apply (frames_Ok profiles_of) in E1 as P1, E2 as P2, E3 as P3, E5 as P5, E6 as P6, E7 as P7, E8 as P8, E9 as P9, E10 as P10;
    [|apply _..].
  apply (frames_Ok core) in E1, E2, E3, E4, E5, E6, E7, E8, E9, E10; [|apply _..].
  change (profiles_of (with_report _ s10)) with (profiles_of s10). split_and!; [congruence..|].
  f_equal. congruence.
Qed.

Lemma processRow_tables {X} (g : ImportTables -> X) c v :
  (forall x t, g (set_stages x t) = g t) -> (forall x t, g (set_profiles x t) = g t) ->
  (forall x t, g (set_nationalIds x t) = g t) -> (forall x t, g (set_stageAssignments x t) = g t) ->
  (forall x t, g (set_memberStages x t) = g t) ->
  Frames (fun s => g (tables s)) (processRow c v).
Proof.
  intros H1 H2 H3 H4 H5.
  assert (Beside (fun s => g (tables s))) as Hb by (by split).
  assert (forall f s, g (tables (with_base f s)) = g (tables s)) as Hbase by done.
  unfold processRow. repeat (apply frames_bind; [apply _|intros ?]).
  apply frames_bind; [apply frames_import_transaction|intros ?; apply _].
  unfold processRowBody, find_or_create_stage, stage_create, user_create, member_create, stageAssignment_upsert,
    memberStage_upsert.
  repeat first [apply _ | apply frames_modify; intros ?; cbn; by rewrite ?H1, ?H2, ?H3, ?H4, ?H5
               | apply frames_bind; [|intros ?] | case_match].
Qed.

(** The outcome of one row: a new user and one success counted, or nothing but
    one failure. *)
Lemma try_row_cases c v s r s' : try_row c v s = (r, s') ->
  r = Ok tt /\ wards_of s' = wards_of s /\ logs_of s' = logs_of s /\
  ((exists u email hash, let p := row_profile c u email hash (parsed v) in
      existsb (user_clash p) (profiles_of s) = false /\ profiles_of s' = profiles_of s ++ [p] /\
      core s' = count_success (negb (Nat.eqb (length (warnings v)) 0)) u (core s)) \/
   (exists e, profiles_of s' = profiles_of s /\ core s' = count_failure (row_failure v e) (core s))).
Proof.
  unfold try_row. pose proof (processRow_tables wards c v ltac:(done) ltac:(done) ltac:(done) ltac:(done) ltac:(done) s) as Hw.
  pose proof (processRow_tables importLogs c v ltac:(done) ltac:(done) ltac:(done) ltac:(done) ltac:(done) s) as Hl.
  destruct (processRow c v s) as [[u|e] s1] eqn:E; cbn in Hw, Hl; intros [= <- <-]; (split_and!; [done|done|done|]).
  - left. unfold processRow in E. apply bind_Ok in E as (pw & s2 & E2 & E). apply bind_Ok in E as (hash & s3 & E3 & E).
    apply bind_Ok in E as (userId & s4 & E4 & E).
    assert (profiles_of s1 = profiles_of s4 /\ core s1 = core s4) as [-> ->].
    { split; (eapply frames_Ok; [|exact E]); case_match; apply _. }
    unfold import_transaction in E4. destruct (processRowBody c hash v s3) as [[u4|e4] s5] eqn:E5; [|discriminate].
    injection E4 as -> ->. apply processRowBody_Ok in E5 as (email & Hc & Hp & Hcore).
    apply (frames_Ok profiles_of) in E2 as P2, E3 as P3; [|apply _..].
    apply (frames_Ok core) in E2, E3; [|apply _..].
    exists userId, email, hash. rewrite Hp, Hcore. split_and!; congruence.
  - right. exists e. unfold processRow in E. unfold bind in E.
    destruct (generateTempPassword s) as [[pw|e2] s2] eqn:E2.
    2: { injection E as -> ->. apply (frames_Ok profiles_of) in E2 as P2; [|apply _].
         apply (frames_Ok core) in E2; [|apply _]. split; [done|]. by rewrite <- E2. }
    destruct (hash_password pw s2) as [[hash|e3] s3] eqn:E3; [|discriminate].
    apply (frames_Ok profiles_of) in E2 as P2, E3 as P3; [|apply _..].
    apply (frames_Ok core) in E2, E3; [|apply _..].
    unfold import_transaction in E. destruct (processRowBody c hash v s3) as [[u4|e4] s5] eqn:E5.
    + destruct (truthy _); discriminate E.
    + injection E as -> <-. apply processRowBody_Err in E5. split; [change (profiles_of s3 = profiles_of s); congruence|].
      transitivity (count_failure (row_failure v e) (core s5)); [done|]. f_equal. congruence.
Qed.
End OneRow.

(** ** Batches *)

(** No two users share an identifier, a phone number or an ID number. *)
Definition distinct_users (l : list UserProfile) : Prop :=
  NoDup (up_id <$> l) /\ NoDup (omap up_phoneNumber l) /\ NoDup (omap up_idNumber l).

Lemma user_clash_false p q : user_clash p q = false ->
  up_id p <> up_id q /\ (forall k, up_phoneNumber p = Some k -> up_phoneNumber q <> Some k) /\
  (forall k, up_idNumber p = Some k -> up_idNumber q <> Some k).
Proof.
  unfold user_clash. rewrite !orb_false_iff. intros [[[Hid Hn] Hp] _]. apply same_false in Hid.
  split_and!; [done|..]; intros k E1 E2; [rewrite E1, E2 in Hp|rewrite E1, E2 in Hn]; cbn in *;
    by rewrite same_refl in *.
Qed.

Lemma NoDup_omap_snoc {A B} (f : A -> option B) l x : NoDup (omap f l) ->
  (forall y k, y ∈ l -> f x = Some k -> f y <> Some k) -> NoDup (omap f (l ++ [x])).
Proof.
  intros Hl Hx. rewrite omap_app. cbn. destruct (f x) as [k|] eqn:E; [|by rewrite app_nil_r].
  apply NoDup_app. split_and!; [done| |apply NoDup_singleton].
  intros z Hz Hz'. apply list_elem_of_singleton in Hz' as ->. apply list_elem_of_omap in Hz as (y & Hy & Ey).
  by eapply Hx.
Qed.

Lemma distinct_users_snoc l p : distinct_users l -> existsb (user_clash p) l = false -> distinct_users (l ++ [p]).
Proof.
  intros (H1 & H2 & H3) Hno.
  assert (forall q, q ∈ l -> user_clash p q = false) as Hq.
  { intros q Hq. apply not_true_iff_false. intros Hc. apply not_true_iff_false in Hno. apply Hno.
    apply existsb_exists. exists q. by rewrite <- list_elem_of_In. }
  split_and!.
  - rewrite fmap_app. apply NoDup_app. split_and!; [done| |apply NoDup_singleton].
    intros z Hz Hz'. apply list_elem_of_singleton in Hz' as ->. apply list_elem_of_fmap in Hz as (q & E & Hin).
    by destruct (user_clash_false _ _ (Hq q Hin)) as [? _].
  - apply NoDup_omap_snoc; [done|]. intros q k Hin E. by apply (user_clash_false _ _ (Hq q Hin)).
  - apply NoDup_omap_snoc; [done|]. intros q k Hin E. by apply (user_clash_false _ _ (Hq q Hin)).
Qed.

Section Batches.
Context `{UuidSource} `{Entropy}.
Implicit Types (s : ImportWorld) (c : RowContext) (v : ValidatedRow) (vs : list ValidatedRow).

(** What a user created from a row of [vs] carries. *)
Definition imported_from c vs (p : UserProfile) : Prop :=
  up_tenantId p = rc_tenantId c /\ up_importBatchId p = Some (rc_batchId c) /\ up_wardId p = Some (rc_wardId c) /\
  exists v, v ∈ vs /\ up_phoneNumber p = phoneNumber (parsed v) /\ up_idNumber p = idNumber (parsed v).

(** [vs] were tried between [s] and [s']; [new] are the users it created. *)
Record ran c vs s s' (new : list UserProfile) : Prop := {
  ran_profiles : profiles_of s' = profiles_of s ++ new;
  ran_from : Forall (imported_from c vs) new;
  ran_success : successCount (core s') = successCount (core s) + Z.of_nat (length new);
  ran_created : createdUsers (core s') = createdUsers (core s) ++ (up_id <$> new);
  ran_failed : failedCount (core s') + Z.of_nat (length new) = failedCount (core s) + Z.of_nat (length vs);
  ran_same : (totalRows (core s'), skippedCount (core s'), batchId (core s')) = (totalRows (core s), skippedCount (core s), batchId (core s));
  ran_wards : wards_of s' = wards_of s;
  ran_logs : logs_of s' = logs_of s;
  ran_distinct : distinct_users (profiles_of s) -> distinct_users (profiles_of s');
}.

Lemma ran_nil c s : ran c [] s s [].
Proof. split; cbn; rewrite ?app_nil_r; try done; lia. Qed.

Lemma imported_from_mono c vs vs' p : vs ⊆ vs' -> imported_from c vs p -> imported_from c vs' p.
Proof. intros Hsub (? & ? & ? & v & Hv & ?). unfold imported_from. split_and!; try done. exists v. auto. Qed.

Lemma ran_app c vs vs' s s1 s2 n1 n2 :
  ran c vs s s1 n1 -> ran c vs' s1 s2 n2 -> ran c (vs ++ vs') s s2 (n1 ++ n2).
Proof.
  intros [A1 A2 A3 A4 A5 A6 A7 A8 A9] [B1 B2 B3 B4 B5 B6 B7 B8 B9].
  split; rewrite ?length_app, ?fmap_app, ?Nat2Z.inj_add; [by rewrite B1, A1, app_assoc| |lia|by rewrite B4, A4, app_assoc|lia|congruence..|auto].
  apply Forall_app. split; eapply Forall_impl; try eassumption; intros p; apply imported_from_mono; set_solver.
Qed.

Lemma ran_one c v s r s' : try_row c v s = (r, s') -> r = Ok tt /\ exists new, ran c [v] s s' new.
Proof.
  intros Hr. apply try_row_cases in Hr as (-> & Hw & Hl & [(u & email & hash & Hc & Hp & Hcore)|(e & Hp & Hcore)]);
    (split; [done|]).
  - eexists [_]. split; rewrite ?Hp, ?Hcore; try done; try (cbn; lia); [|by intros ?; apply distinct_users_snoc].
    apply Forall_singleton. split_and!; try done. exists v. split; [set_solver|done].
  - exists []. split; rewrite ?Hp, ?Hcore, ?app_nil_r; try done; cbn; lia.
Qed.

Lemma processBatch_ran c vs s : exists s' new, processBatch c vs s = (Ok tt, s') /\ ran c vs s s' new.
Proof.
  unfold processBatch. revert s. induction vs as [|v vs IH]; intros s; [by eexists s, []; split; [|apply ran_nil]|].
  cbn [foldM]. destruct (try_row c v s) as [r s1] eqn:E. apply ran_one in E as E1. destruct E1 as (-> & n1 & H1).
  destruct (IH s1) as (s2 & n2 & E2 & H2). exists s2, (n1 ++ n2). split; [by rewrite (bind_run _ _ _ _ _ E)|].
  by apply (ran_app c [v] vs _ s1).
Qed.

(** A change of the report's error list alone. *)
Lemma ran_push c vs s s' new e : ran c vs s s' new -> ran c vs s (with_report (push_error e) s') new.
Proof. intros []. by split. Qed.

(** The batches run in order; they stop early only above the threshold. *)
Lemma run_batches_ran c total processable batches : forall processed s,
  exists s' vs rest new, run_batches c total processable processed batches s = (Ok tt, s') /\
    mjoin batches = vs ++ rest /\ ran c vs s s' new /\
    (rest <> [] -> num_lt FAILURE_THRESHOLD (num_div (num_of_Z (failedCount (core s'))) (num_of_Z (Z.of_nat total))) = true).
Proof.
  induction batches as [|b batches IH]; intros processed s; cbn [run_batches].
  { exists s, [], [], []. split_and!; [done..|apply ran_nil|done]. }
  destruct (processBatch_ran c b s) as (s1 & n1 & E1 & H1). rewrite (bind_run _ _ _ _ _ E1).
  cbn [gets bind].
  change (failedCount (report s1)) with (failedCount (core s1)).
  match goal with |- context [if ?cond then _ else _] => destruct cond eqn:Eh end.
  - apply andb_prop in Eh as [Eh _]. eexists _, b, (mjoin batches), n1. split_and!; [done..|by apply ran_push|done].
  - destruct (IH (processed + length b)%nat s1) as (s2 & vs & rest & n2 & E2 & Hj & H2 & Hh).
    exists s2, (b ++ vs), rest, (n1 ++ n2). split_and!; [done| |by eapply ran_app|done].
    change (mjoin (b :: batches)) with (b ++ mjoin batches). by rewrite Hj, app_assoc.
Qed.
End Batches.

(** ** The batching loop *)
Lemma chunk_from_runs {A} (n : nat) (arr : list A) : (0 < n)%nat -> forall fuel i,
  (length arr <= fuel + i)%nat -> exists bs, chunk_from fuel n i arr = Some bs /\
  mjoin bs = drop i arr /\ Forall (fun b => 0 < length b <= n)%nat bs.
Proof.
  intros Hn. induction fuel as [|fuel IH]; intros i Hi; cbn -[Nat.ltb]; destruct (Nat.ltb_spec i (length arr)) as [Hlt|Hge]; try lia;
    try (exists []; rewrite drop_ge by lia; by split_and!).
  destruct (IH (i + n)%nat) as (bs & -> & Hj & Hf); [lia|].
  exists (take n (drop i arr) :: bs). split_and!; [done| |].
  - change (mjoin (take n (drop i arr) :: bs)) with (take n (drop i arr) ++ mjoin bs).
    by rewrite Hj, <- drop_drop, take_drop.
  - constructor; [|done]. rewrite length_take, length_drop. lia.
Qed.

Lemma chunk_from_stuck {A} (arr : list A) : (0 < length arr)%nat -> forall fuel, chunk_from fuel 0 0 arr = None.
Proof.
  intros Hl. induction fuel as [|fuel IH]; cbn -[Nat.ltb]; destruct (Nat.ltb_spec 0 (length arr)); try lia; [done|].
  by rewrite IH.
Qed.

Lemma chunk_join {A} (arr : list A) n : (0 < n)%nat -> mjoin (chunk arr n) = arr.
Proof.
  intros Hn. unfold chunk. destruct (chunk_from_runs n arr Hn (length arr) 0) as (bs & -> & Hj & _); [lia|].
  by rewrite drop_0 in Hj.
Qed.

(** ** Whole imports *)
Lemma filter_filter_none {A} (P Q : A -> bool) (l : list A) :
  (forall x, P x = true -> Q x = true -> False) -> List.filter P (List.filter Q l) = [].
Proof.
  intros HPQ. induction l as [|x l IH]; cbn; [done|]. destruct (Q x) eqn:EQ; [|done]. cbn.
  destruct (P x) eqn:EP; [by destruct (HPQ x)|done].
Qed.

Lemma filter_filter_all {A} (P Q : A -> bool) (l : list A) :
  (forall x, P x = true -> Q x = true) -> List.filter P (List.filter Q l) = List.filter P l.
Proof.
  intros HPQ. induction l as [|x l IH]; cbn; [done|]. destruct (Q x) eqn:EQ; cbn; [by rewrite IH|].
  destruct (P x) eqn:EP; [by rewrite (HPQ x EP) in EQ|done].
Qed.

Lemma count_skipped rows :
  count_status ERROR (List.filter (fun v => negb (processable_row v)) rows) = count_status ERROR rows.
Proof.
  unfold count_status, count_where. rewrite filter_filter_all; [done|]. intros v Hv. apply (proj1 (same_true _ _)) in Hv.
  unfold processable_row. rewrite Hv, same_refl. by destruct (action v === CREATE).
Qed.

Section Whole.
Context `{UuidSource} `{Entropy}.

(** A run that writes, in a known ward. *)
Lemma executeImport_ran logId c rows s : rc_wardId c ∈ wards_of s ->
  let processable := List.filter processable_row rows in
  let s0 := with_report (fun _ => initial_report (rc_batchId c) logId false rows) s in
  exists rep s' vs rest new, executeImport logId c false rows s = (Ok rep, s') /\ report_core rep = core s' /\
    processable = vs ++ rest /\ ran c vs s0 s' new /\
    (rest <> [] -> num_lt FAILURE_THRESHOLD (num_div (num_of_Z (failedCount rep)) (num_of_Z (Z.of_nat (length rows)))) = true).
Proof.
  intros Hw processable s0.
  destruct (run_batches_ran c (length rows) (length processable) (chunk processable BATCH_SIZE) 0 s0)
    as (s1 & vs & rest & new & Er & Hj & Hran & Hh).
  rewrite chunk_join in Hj by (unfold BATCH_SIZE; lia).
  exists (report s1), (with_base (log_audit "BULK_IMPORT") s1), vs, rest, new. split_and!; try done.
  - unfold executeImport. cbn [bind modify gets]. fold s0.
    change (wards (tables s0)) with (wards_of s). rewrite bool_decide_eq_true_2 by done. cbn [negb throw_if].
    by rewrite (bind_run _ _ _ tt s0), (bind_run _ _ _ _ _ Er).
  - by destruct Hran.
Qed.

(** A run that does not write, or one whose ward is unknown. *)
Lemma executeImport_dry logId c rows s :
  executeImport logId c true rows s =
  let r := dry_report (List.filter processable_row rows) (initial_report (rc_batchId c) logId true rows) in
  (Ok r, with_report (fun _ => r) s).
Proof. done. Qed.

Lemma executeImport_no_ward logId c rows s : rc_wardId c ∉ wards_of s ->
  executeImport logId c false rows s =
  (Err (PlainError ("Ward " +:+ rc_wardId c +:+ " not found")),
   with_report (fun _ => initial_report (rc_batchId c) logId false rows) s).
Proof.
  intros Hw. unfold executeImport. cbn [bind modify gets].
  match goal with |- context [bool_decide ?P] => rewrite (bool_decide_eq_false_2 P) by done end. done.
Qed.
End Whole.

(** ** Import logs *)
Section Logs.
Context `{UuidSource} `{Entropy}.

(** An update that keeps a log's keys. *)
Definition keeps_keys (f : DataImportLog -> DataImportLog) : Prop :=
  forall l, il_id (f l) = il_id l /\ il_tenantId (f l) = il_tenantId l.

Lemma find_update_where_hit {A} (P Q : A -> bool) f l x :
  (forall y, P (f y) = P y) -> (P x = true -> Q x = true) -> List.find P l = Some x ->
  List.find P (update_where Q f l) = Some (f x).
Proof.
  intros Hf HQ. induction l as [|y l IH]; cbn; [done|]. destruct (P y) eqn:Ey.
  - intros [= <-]. rewrite (HQ Ey), Hf, Ey. done.
  - intros Hl. destruct (Q y); [rewrite Hf|]; rewrite Ey; by apply IH.
Qed.

Lemma log_update_run t i f s l : keeps_keys f -> find_log t i (tables s) = Some l ->
  exists s', log_update i f s = (Ok tt, s') /\ find_log t i (tables s') = Some (f l) /\
    profiles_of s' = profiles_of s /\ wards_of s' = wards_of s /\ stages (tables s') = stages (tables s).
Proof.
  intros Hf Hl. pose proof (find_some_elem _ _ _ Hl) as [Hin HP]. apply andb_prop in HP as [Hid _].
  exists (with_tables (fun t => set_importLogs (update_where (fun l => il_id l === i) f (importLogs t)) t) s).
  split_and!; [|apply find_update_where_hit; [|done|done]|done..].
  - unfold log_update, gets, bind, throw_if, modify. assert (existsb (fun l => il_id l === i) (importLogs (tables s)) = true) as ->; [|done].
    apply existsb_exists. exists l. by rewrite <- list_elem_of_In.
  - intros y. by destruct (Hf y) as [-> ->].
Qed.

Lemma keeps_processing now : keeps_keys (log_processing now). Proof. by intros l. Qed.
Lemma keeps_settled st r now : keeps_keys (log_settled st r now). Proof. by intros l. Qed.
Lemma keeps_fatal msg now : keeps_keys (log_fatal msg now). Proof. by intros l. Qed.
Lemma keeps_queued j d : keeps_keys (log_queued j d). Proof. by intros l. Qed.
Lemma keeps_job j : keeps_keys (log_job j). Proof. by intros l. Qed.

Lemma find_log_logs t i s s' : logs_of s' = logs_of s -> find_log t i (tables s') = find_log t i (tables s).
Proof. unfold find_log, logs_of. by intros ->. Qed.

(** How the processor leaves the log of a job. *)
Lemma run_import_cases l l0 c rows s t :
  find_log t (il_id l) (tables s) = Some l0 -> il_errorDetails l0 = ED_rows rows ->
  exists r s' l', run_import l c rows s = (r, s') /\ find_log t (il_id l) (tables s') = Some l' /\
    (exists now, il_completedAt l' = Some now) /\
    match executeImport (il_id l) c (il_dryRun l) rows s with
    | (Ok rep, s1) => r = Ok tt /\ profiles_of s' = profiles_of s1 /\ il_reportData l' = Some rep /\
        il_status l' = finalStatus rep /\ il_errorDetails l' = ED_rows rows /\
        il_counts l' = (successCount rep, failedCount rep, warningCount rep, skippedCount rep)
    | (Err e, s1) => r = Err e /\ profiles_of s' = profiles_of s1 /\ il_status l' = FAILED /\
        il_errorDetails l' = ED_fatal (exn_message e)
    end.
Proof.
  intros Hl Hd. unfold run_import, settle, fail_fatally.
  assert (forall s1, logs_of s1 = logs_of s -> find_log t (il_id l) (tables s1) = Some l0) as Hfind.
  { intros s1 E. by rewrite (find_log_logs _ _ s s1 E). }
  assert (logs_of (executeImport (il_id l) c (il_dryRun l) rows s).2 = logs_of s) as Hlogs.
  { destruct (il_dryRun l) eqn:Hdry; [by rewrite executeImport_dry|].
    destruct (decide (rc_wardId c ∈ wards_of s)) as [Hw|Hw]; [|by rewrite executeImport_no_ward].
    destruct (executeImport_ran (il_id l) c rows s Hw) as (rep & s1 & vs & rest & new & -> & _ & _ & Hran & _).
    by destruct Hran. }
  destruct (executeImport _ _ _ _ s) as [[rep|e] s1] eqn:E; cbn in Hlogs.
  - destruct (log_update_run t (il_id l) (log_settled (finalStatus rep) rep (clock (base s1))) s1 l0) as (s2 & E2 & F2 & P2 & _);
      [apply keeps_settled|by apply Hfind|].
    exists (Ok tt), s2, (log_settled (finalStatus rep) rep (clock (base s1)) l0).
    rewrite (bind_run _ _ _ _ _ E). unfold bind, gets. rewrite E2. split_and!; try done. by eexists.
  - destruct (log_update_run t (il_id l) (log_fatal (exn_message e) (clock (base s1))) s1 l0) as (s2 & E2 & F2 & P2 & _);
      [apply keeps_fatal|by apply Hfind|].
    exists (Err e), s2, (log_fatal (exn_message e) (clock (base s1)) l0).
    rewrite (bind_Err _ _ _ _ _ E). unfold bind, gets. rewrite E2. split_and!; try done. by eexists.
Qed.

Definition job_context (t : string) (l : DataImportLog) (s : ImportWorld) : RowContext :=
  mkRowContext t (first_ward t (tables s)) (il_initiatedBy l) (il_batchId l).

Lemma process_cases t i s l rows :
  find_log t i (tables s) = Some l -> il_errorDetails l = ED_rows rows ->
  exists r s1 s' l', process (i, t) s = (r, s') /\ find_log t i (tables s') = Some l' /\
    (exists now, il_completedAt l' = Some now) /\ profiles_of s1 = profiles_of s /\ wards_of s1 = wards_of s /\
    match executeImport i (job_context t l s) (il_dryRun l) rows s1 with
    | (Ok rep, s2) => r = Ok tt /\ profiles_of s' = profiles_of s2 /\ il_reportData l' = Some rep /\
        il_status l' = finalStatus rep /\ il_errorDetails l' = ED_rows rows /\
        il_counts l' = (successCount rep, failedCount rep, warningCount rep, skippedCount rep)
    | (Err e, s2) => r = Err e /\ profiles_of s' = profiles_of s2 /\ il_status l' = FAILED /\
        il_errorDetails l' = ED_fatal (exn_message e)
    end.
Proof.
  intros Hl Hd. pose proof (find_some_elem _ _ _ Hl) as [_ HP]. apply andb_prop in HP as [Hid _].
  apply bool_decide_eq_true_1 in Hid as Hi.
  destruct (log_update_run t i (log_processing (clock (base s))) s l (keeps_processing _) Hl) as (s1 & E1 & F1 & P1 & W1 & _).
  destruct (run_import_cases l (log_processing (clock (base s)) l) (job_context t l s) rows s1 t)
    as (r & s2 & l2 & E2 & F2 & Hnow & H2); [by rewrite Hi|done|].
  rewrite Hi in F2, H2. exists r, s1, s2, l2. split_and!; try done.
  unfold process, gets, bind, or_throw, ret. rewrite Hl, Hd, E1. exact E2.
Qed.

Lemma log_create_Ok t a f n d ed s l s' : log_create t a f n d ed s = (Ok l, s') ->
  find_log t (il_id l) (tables s') = Some l /\ profiles_of s' = profiles_of s /\
  il_errorDetails l = ed /\ il_dryRun l = d /\ il_tenantId l = t.
Proof.
  unfold log_create. intros Hr. apply bind_Ok in Hr as (id & sa & Ea & Hr). apply bind_Ok in Hr as (b & sb & Eb & Hr).
  apply (frames_Ok profiles_of) in Ea, Eb; [|apply _..]. run_inv. split_and!; [|by rewrite <- Ea, <- Eb|done..].
  unfold find_log. cbn. rewrite find_app_none; [cbn; by rewrite !same_refl|].
  destruct (List.find _ _) as [l0|] eqn:Ef; [|done]. apply find_some_elem in Ef as [Hin HP].
  apply not_true_iff_false in Hguard. destruct Hguard. apply existsb_exists. exists l0.
  rewrite <- list_elem_of_In. apply andb_prop in HP as [HP _]. split; [done|]. by rewrite HP.
Qed.
End Logs.

(** ** Validation *)
Definition id_key (r : ParsedCsvRow) : option string := truthy (idNumber r).
Definition phone_key (r : ParsedCsvRow) : option string := truthy (phoneNumber r).

(** The keys of the rows in [l] have been recorded. *)
Definition seen_all (seen : Seen) (l : list ValidatedRow) : Prop :=
  forall v, v ∈ l ->
    (forall k, id_key (parsed v) = Some k -> is_Some (seenIdNumbers seen !! k)) /\
    (forall k, phone_key (parsed v) = Some k -> is_Some (seenPhones seen !! k)).

Lemma check_seen_spec f w c m k n : let '(errs, m') := check_seen f w c m k n in
  (errs = [] -> m !! k = None) /\ is_Some (m' !! k) /\ (forall k', is_Some (m !! k') -> is_Some (m' !! k')).
Proof.
  unfold check_seen. destruct (m !! k) eqn:E; split_and!; try done; try (by eexists).
  - by rewrite lookup_insert_eq.
  - intros k' Hk'. destruct (decide (k = k')) as [->|]; [by rewrite lookup_insert_eq|by rewrite lookup_insert_ne].
Qed.

Lemma id_seen_spec m row : let '(errs, m') := id_seen m row in
  (errs = [] -> forall k, id_key row = Some k -> m !! k = None) /\
  (forall k, id_key row = Some k -> is_Some (m' !! k)) /\ (forall k', is_Some (m !! k') -> is_Some (m' !! k')).
Proof.
  unfold id_seen. fold (id_key row). destruct (id_key row) as [k|]; [|done].
  match goal with |- context [check_seen ?f ?w ?c m k ?n] =>
    pose proof (check_seen_spec f w c m k n) as Hs; destruct (check_seen f w c m k n) as [errs m'] end.
  destruct Hs as (H1 & H2 & H3). naive_solver.
Qed.

Lemma phone_seen_spec m row : let '(errs, m') := phone_seen m row in
  (errs = [] -> exists k, phone_key row = Some k /\ m !! k = None) /\
  (forall k, phone_key row = Some k -> is_Some (m' !! k)) /\ (forall k', is_Some (m !! k') -> is_Some (m' !! k')).
Proof.
  unfold phone_seen. fold (phone_key row). destruct (phone_key row) as [k|]; [|done].
  match goal with |- context [check_seen ?f ?w ?c m k ?n] =>
    pose proof (check_seen_spec f w c m k n) as Hs; destruct (check_seen f w c m k n) as [errs m'] end.
  destruct Hs as (H1 & H2 & H3). naive_solver.
Qed.

Lemma phone_user_spec m byId row :
  (phone_user m byId row).2 = None -> byId = None /\ forall k, phone_key row = Some k -> m !! k = None.
Proof.
  unfold phone_user. fold (phone_key row). destruct (phone_key row) as [p|]; [|done].
  destruct (m !! p) as [u|] eqn:E, byId as [u'|]; cbn; try done; [by case_match|]. intros _. split; [done|]. by intros k [= <-].
Qed.

Record row_checked (ex : Existing) (seen : Seen) (row : ParsedCsvRow) (v : ValidatedRow) (seen' : Seen) : Prop := {
  rw_parsed : parsed v = row;
  rw_id : status v <> ERROR -> forall k, id_key row = Some k -> seenIdNumbers seen !! k = None;
  rw_phone : status v <> ERROR -> exists k, phone_key row = Some k /\ seenPhones seen !! k = None;
  rw_new : processable_row v = true ->
    (forall k, id_key row = Some k -> existingByIdNumber ex !! k = None) /\
    (forall k, phone_key row = Some k -> existingByPhone ex !! k = None);
  rw_seen : forall l, seen_all seen l -> seen_all seen' (l ++ [v]);
}.

Lemma row_checks ex seen row : let '(v, seen') := validateRow ex seen row in row_checked ex seen row v seen'.
Proof.
  unfold validateRow. pose proof (id_seen_spec (seenIdNumbers seen) row) as Hi.
  pose proof (phone_seen_spec (seenPhones seen) row) as Hp.
  pose proof (phone_user_spec (existingByPhone ex) (id_user (existingByIdNumber ex) row) row) as Hu.
  destruct (id_seen _ _) as [idE ids], (phone_seen _ _) as [phE phs], (phone_user _ _ _) as [confl user], (check_stage _ _) as [sw sm].
  destruct Hi as (Hi1 & Hi2 & Hi3), Hp as (Hp1 & Hp2 & Hp3). cbn [snd] in Hu.
  match goal with |- context [if negb (Nat.eqb (length ?l) 0) then ?a else ?b] =>
    destruct (if negb (Nat.eqb (length l) 0) then a else b) as [st act] eqn:Est end.
  assert (st <> ERROR -> name_errors row ++ idE ++ phE ++ confl = []) as Hne.
  { intros Hst. apply nil_length_inv. destruct (Nat.eqb_spec (length (name_errors row ++ idE ++ phE ++ confl)) 0) as [E|E]; [done|].
    cbn [negb] in Est. by injection Est as <- <-. }
  split; cbn; try done.
  - intros Hst. apply Hi1. specialize (Hne Hst). by apply app_nil in Hne as [_ [? _]%app_nil].
  - intros Hst. apply Hp1. specialize (Hne Hst). by apply app_nil in Hne as [_ [_ [? _]%app_nil]%app_nil].
  - intros Hproc. destruct Hu as [Hid Hph]; [|split; [|done]].
    + destruct user as [u|]; [|done]. destruct (negb _); [injection Est as <- <-; discriminate|].
      by injection Est as <- <-.
    + intros k Hk. unfold id_user in Hid. fold (id_key row) in Hid. by rewrite Hk in Hid.
  - intros l Hl v [Hv| ->%list_elem_of_singleton]%elem_of_app; cbn; [|done].
    destruct (Hl v Hv) as [H1 H2]. naive_solver.
Qed.

(** The whole list: the rows are kept in order, and the keys of an accepted
    row occur in no earlier row. *)
Record list_checked (ex : Existing) (rows : list ParsedCsvRow) (vs : list ValidatedRow) (seen : Seen) : Prop := {
  lc_rows : parsed <$> vs = rows;
  lc_seen : seen_all seen vs;
  lc_keys : forall i j v w, (i < j)%nat -> vs !! i = Some v -> vs !! j = Some w -> status w <> ERROR ->
    (forall k, id_key (parsed w) = Some k -> id_key (parsed v) <> Some k) /\
    (exists k, phone_key (parsed w) = Some k /\ phone_key (parsed v) <> Some k);
  lc_new : forall v, v ∈ vs -> processable_row v = true ->
    (forall k, id_key (parsed v) = Some k -> existingByIdNumber ex !! k = None) /\
    (forall k, phone_key (parsed v) = Some k -> existingByPhone ex !! k = None);
}.

Lemma list_checks ex rows : let '(vs, seen, _) := validate_all ex rows in list_checked ex rows vs seen.
Proof.
  induction rows as [|row rows IH] using rev_ind.
  { split; [done|by intros v ?%not_elem_of_nil|by intros i j v w _ ?|by intros v ?%not_elem_of_nil]. }
  unfold validate_all in *. rewrite foldl_app. cbn [foldl].
  destruct (foldl (validate_step ex) _ rows) as [[vs seen] sts]. unfold validate_step.
  pose proof (row_checks ex seen row) as Hr. destruct (validateRow ex seen row) as [v seen'].
  destruct IH as [I1 I2 I3 I4], Hr as [R1 R2 R3 R4 R5]. split.
  - by rewrite fmap_app, I1, <- R1.
  - by apply R5.
  - intros i j v1 v2 Hij Hi Hj Hst. apply lookup_lt_Some in Hj as Hlen. rewrite length_app in Hlen. cbn in Hlen.
    rewrite lookup_app_l in Hi by lia. destruct (decide (j < length vs)%nat) as [Hlt|Hge].
    + rewrite lookup_app_l in Hj by done. exact (I3 i j v1 v2 Hij Hi Hj Hst).
    + rewrite lookup_app_r in Hj by lia. replace (j - length vs)%nat with 0%nat in Hj by lia. injection Hj as <-.
      destruct (I2 v1 ltac:(by eapply list_elem_of_lookup_2)) as [S1 S2]. rewrite R1 in *. split.
      * intros k Hk Hk'. specialize (R2 Hst k Hk). destruct (S1 k Hk') as [? E]. congruence.
      * destruct (R3 Hst) as (k & Hk & Hno). exists k. split; [done|]. intros Hk'. destruct (S2 k Hk') as [? E]. congruence.
  - intros w [Hw| ->%list_elem_of_singleton]%elem_of_app Hproc; [by apply I4|]. rewrite R1. by apply R4.
Qed.
