(* ===== verification/Recovery.v ===== *)
(** * Recovery: collecting a defaulted loan from its guarantors

    [src/src/modules/loans/loan-recovery.service.ts] and the worker that runs
    it, [src/src/modules/notifications/processors/guarantor-recovery.processor.ts]. *)
From S2P Require Import Prelude Money Json Format Schema Ledger Repayment AuditLogs Redis.

(** ** Names shared with the queue *)
Definition guarantorForfeitureLockKey (tenantId loanId : string) : string :=
  "lock:guarantor_forfeiture:" +:+ tenantId +:+ ":" +:+ loanId.

Definition guarantorForfeitureReference (tenantId loanId accountId recoveryAttemptId : string) : string :=
  "GUAR_FORFEIT-" +:+ tenantId +:+ "-" +:+ loanId +:+ "-" +:+ accountId +:+ "-" +:+ recoveryAttemptId.

(** [queue.add(name, data, { jobId })]: BullMQ ignores a job whose id is on the
    queue already. *)
Definition queue_add (j : QueueJob) : M unit :=
  let* taken := gets (fun w => existsb (fun x => job_id x === job_id j) (jobs w)) in
  if taken then ret tt else modify (with_jobs (fun js => js ++ [j])).

(** ** Reads *)
Definition created_before (a b : LoanGuarantor) : Prop := lg_createdAt a <= lg_createdAt b.
#[export] Instance created_before_dec : RelDecision created_before.
Proof. intros a b. unfold created_before. apply _. Defined.

(** The loan's accepted guarantors whose hold is not released, oldest first. *)
Definition held_guarantors (tenantId loanId : string) (d : DB) : list LoanGuarantor :=
  merge_sort created_before (List.filter (fun g => (lg_loanId g === loanId)
    && (lg_tenantId g === tenantId) && (lg_status g === G_ACCEPTED)
    && (lg_holdReleasedAt g === None)) (loanGuarantors d)).

Definition loan_product (l : Loan) (d : DB) : option LoanProduct := loanProducts d !! loan_loanProductId l.

(** [accountMap.get(memberId)], built from the member accounts found. *)
Definition recovery_account (tenantId memberId : string) (T : AccountType) (d : DB)
  : option (string * Account) :=
  last (List.filter (fun kv => (acc_tenantId kv.2 === tenantId) && (acc_memberId kv.2 === memberId)
    && (acc_accountType kv.2 === T) && acc_isActive kv.2) (map_to_list (accounts d))).

(** ** allocateRecovery *)
Record RecoveryAllocation := mkAllocation {
  ra_guarantor : LoanGuarantor;
  ra_deduction : Z;
  ra_account : option (string * Account);
}.

(** [Decimal.min(a, b).toDecimalPlaces(4)] on four-digit amounts is [Z.min]. *)
Record Capacity := mkCapacity {
  cap_guarantor : LoanGuarantor;
  cap_amount : Z;
  cap_account : option (string * Account);
}.

Section Allocation.
Context `{DecimalLib}.

Definition guarantee_capacity (sumHolds outstandingBalance : Z) (g : LoanGuarantor) : Z :=
  let left := lg_guaranteedAmount g - lg_recoveredAmount g in
  if (0 <? sumHolds) && (outstandingBalance <? sumHolds)
  then to_dp4 (d_times (dec left) (d_div (dec outstandingBalance) (dec sumHolds)))
  else left.

Definition account_capacity (account : option (string * Account)) : Z :=
  match account with
  | Some (_, a) => Z.min (acc_balance a) (acc_frozenSavings a)
  | None => 0
  end.

Definition capacities (tenantId : string) (guarantors : list LoanGuarantor) (T : AccountType)
    (outstandingBalance : Z) (d : DB) : list Capacity :=
  let sumHolds := sum_by lg_guaranteedAmount guarantors in
  (fun g => let account := recovery_account tenantId (lg_memberId g) T d in
     mkCapacity g (Z.min (guarantee_capacity sumHolds outstandingBalance g) (account_capacity account))
       account) <$> guarantors.

(** Each guarantor in turn gives its proportional share of what remains. *)
Fixpoint allocate (remainingDebt remainingCapacity : Z) (items : list Capacity) : list RecoveryAllocation :=
  match items with
  | [] => []
  | item :: items' =>
      if (remainingDebt =? 0) || (remainingCapacity =? 0) || (cap_amount item <=? 0)
      then mkAllocation (cap_guarantor item) 0 (cap_account item)
             :: allocate remainingDebt remainingCapacity items'
      else
        let proportionalShare := to_dp4 (d_div (d_times (dec remainingDebt) (dec (cap_amount item)))
                                           (dec remainingCapacity)) in
        let deduction := min3 (cap_amount item) proportionalShare remainingDebt in
        mkAllocation (cap_guarantor item) deduction (cap_account item)
          :: allocate (remainingDebt - deduction) (remainingCapacity - cap_amount item) items'
  end.

Definition allocateRecovery (tenantId : string) (guarantors : list LoanGuarantor) (T : AccountType)
    (defaultAmount : Q) (outstandingBalance : Z) (d : DB) : list RecoveryAllocation :=
  let items := capacities tenantId guarantors T outstandingBalance d in
  allocate (to_dp4 defaultAmount) (sum_by cap_amount items) items.
End Allocation.

(** ** Row updates *)
Definition forfeit_account (balance frozen : Z) (a : Account) : Account :=
  set_balance balance (acc_version a + 1) (set_frozen frozen (acc_version a + 1) a).

Definition recover_guarantor (amount : Z) (recoveryDate : Z) (release : bool) (g : LoanGuarantor)
  : LoanGuarantor :=
  mkLoanGuarantor (lg_id g) (lg_tenantId g) (lg_loanId g) (lg_memberId g) (lg_status g)
    (lg_guaranteedAmount g) (lg_recoveredAmount g + amount) (Some recoveryDate)
    (if release then Some recoveryDate else lg_holdReleasedAt g) (lg_createdAt g).

Definition set_outstanding (z : Z) (l : Loan) : Loan :=
  mkLoan (loan_tenantId l) (loan_memberId l) (loan_loanProductId l) (loan_loanNumber l) (loan_status l)
    (loan_principalAmount l) z (loan_totalRepaid l) (loan_accruedInterest l) (loan_arrearsAmount l)
    (loan_arrearsDays l) (loan_staging l) (loan_lastAccrualDate l) (loan_dueDate l)
    (loan_disbursedAt l) (loan_createdAt l) (loan_updatedAt l) (loan_terms l).

Record LoanRecoverySummary := mkRecovery {
  totalRecovered : Z;
  remainingDebt : Q;
}.

Definition invalid_default_amount : exn :=
  BadRequest "INVALID_DEFAULT_AMOUNT: defaultAmount must be greater than zero".
Definition concurrent_modification : exn := Conflict "Concurrent balance modification, retry".

Section Recovery.
Context `{UuidSource, Sha256, DecimalLib}.

(** ** recoverFromGuarantors *)

(** One allocation: the guarantor's account, guarantor row, transaction,
    general ledger and audit entry; the amount taken. *)
Definition recover_allocation (tenantId loanId actorId recoveryAttemptId : string) (loan : Loan)
    (T : AccountType) (recoveryDate : Z) (allocation : RecoveryAllocation) : M Z :=
  if ra_deduction allocation =? 0 then ret 0 else
  match ra_account allocation with
  | None => ret 0
  | Some (accountId, _) =>
      let reference := guarantorForfeitureReference tenantId loanId accountId recoveryAttemptId in
      let* existingRecovery := gets (fun w => txn_by_reference tenantId reference (db w)) in
      if bool_decide (is_Some existingRecovery) then ret 0 else
      let* lockedRow := gets (fun w => accounts (db w) !! accountId) in
      let* locked := or_throw lockedRow concurrent_modification in
      let balanceBefore := acc_balance locked in
      let frozenSavings := acc_frozenSavings locked in
      let actualDeduction := min3 (ra_deduction allocation) balanceBefore frozenSavings in
      if actualDeduction <=? 0 then ret 0 else
      let balanceAfter := balanceBefore - actualDeduction in
      let remainingFrozenSavings := frozenSavings - actualDeduction in
      let* count := account_updateMany accountId
        (fun a => (acc_tenantId a === tenantId) && acc_isActive a && (acc_version a =? acc_version locked))
        (fun a => forfeit_account balanceAfter (acc_frozenSavings a - actualDeduction) a) in
      throw_if (negb (Nat.eqb count 1)) concurrent_modification ;;
      let* gcount := guarantor_updateMany (lg_id (ra_guarantor allocation))
        (fun g => (lg_tenantId g === tenantId) && (lg_status g === G_ACCEPTED))
        (recover_guarantor actualDeduction recoveryDate (remainingFrozenSavings <=? 0)) in
      throw_if (negb (Nat.eqb gcount 1))
        (BadRequest ("RECOVERY_GUARANTOR_UPDATE_FAILED: guarantor "
           +:+ lg_memberId (ra_guarantor allocation) +:+ " was not updated")) ;;
      let description := "Guarantor recovery for loan " +:+ loan_loanNumber loan in
      let* txn := transaction_create (mkTxnData tenantId accountId (Some loanId) LOAN_REPAYMENT
        T_COMPLETED actualDeduction balanceBefore balanceAfter reference description actorId None) in
      postGuarantorForfeitureEntry tenantId reference (dec actualDeduction) T (txn_id txn)
        (Some actorId) (Some description) ;;
      createAuditLogInTransaction tenantId actorId "AUDIT_RECOVERY" "LoanGuarantor"
        (lg_id (ra_guarantor allocation))
        (JObj [("loanId", JStr loanId); ("loanNumber", JStr (loan_loanNumber loan));
               ("guarantorMemberId", JStr (lg_memberId (ra_guarantor allocation)));
               ("accountType", JStr (match T with BOSA => "BOSA" | FOSA => "FOSA" end));
               ("recoveredAmount", JNum (dp4_toString actualDeduction));
               ("recoveryDate", JStr (toISOString recoveryDate))]) ;;
      ret actualDeduction
  end.

Definition recoveryBody (loanId tenantId : string) (defaultAmount : Q) (actorId recoveryAttemptId : string)
  : M LoanRecoverySummary :=
  let* found := gets (fun w => tenant_loan tenantId loanId (db w)) in
  let* guarantors := gets (fun w => held_guarantors tenantId loanId (db w)) in
  let* loan := or_throw found (NotFound "Loan not found") in
  throw_if (Nat.eqb (length guarantors) 0)
    (BadRequest "NO_ACCEPTED_GUARANTORS: loan has no accepted guarantors for recovery") ;;
  let* product := gets (fun w => loan_product loan (db w)) in
  let T := match product with Some p => default FOSA (lp_requiredAccountType p) | None => FOSA end in
  let* allocations := gets (fun w => allocateRecovery tenantId guarantors T defaultAmount
    (loan_outstandingBalance loan) (db w)) in
  let* recoveryDate := gets clock in
  let* total := foldM (fun total allocation =>
      let* taken := recover_allocation tenantId loanId actorId recoveryAttemptId loan T recoveryDate
        allocation in
      ret (total + taken)) 0 allocations in
  (if 0 <? total then
     let outstandingDeduction := Z.min (loan_outstandingBalance loan) total in
     loan_updateMany loanId (fun l => loan_tenantId l === tenantId)
       (fun l => set_outstanding (loan_outstandingBalance l - outstandingDeduction) l) ;;
     ret tt
   else ret tt) ;;
  ret (mkRecovery total (Qmax_ (defaultAmount - dec total)%Q 0%Q)).

Definition recoverFromGuarantorsLocked (loanId tenantId : string) (defaultAmount : Q) (actorId : string)
  : M LoanRecoverySummary :=
  let* recoveryAttemptId := fresh_id in
  transaction (recoveryBody loanId tenantId defaultAmount actorId recoveryAttemptId).

Definition recoverFromGuarantors (loanId tenantId : string) (defaultAmount : decimal) (actorId : string)
  : M LoanRecoverySummary :=
  throw_if (not_positive defaultAmount) invalid_default_amount ;;
  let lockKey := guarantorForfeitureLockKey tenantId loanId in
  let* lockToken := acquireLock lockKey in
  match lockToken with
  | None => throw (Conflict ("GUARANTOR_FORFEITURE_LOCKED: another forfeiture/recovery is already in progress for loan "
              +:+ loanId))
  | Some token =>
      finally (recoverFromGuarantorsLocked loanId tenantId (finite_value defaultAmount) actorId)
        (releaseLock lockKey token)
  end.

(** ** initiateGuarantorRecovery *)
Definition initiateGuarantorRecovery (loanId tenantId : string) (defaultAmount : decimal)
    (actorId : string) : M string :=
  throw_if (not_positive defaultAmount) invalid_default_amount ;;
  let* found := gets (fun w => tenant_loan tenantId loanId (db w)) in
  let* loan := or_throw found (NotFound "Loan not found") in
  let* product := gets (fun w => loan_product loan (db w)) in
  let gracePeriod := match product with Some p => lp_gracePeriodDays p | None => 14 end in
  throw_if ((loan_arrearsDays loan <? gracePeriod) && negb (loan_status loan === DEFAULTED))
    (BadRequest ("GUARANTOR_RECOVERY_NOTICE_REQUIRES_T" +:+ pretty gracePeriod +:+ "_DEFAULT")) ;;
  let jobId := GUARANTOR_RECOVERY_NOTICE_JOB +:+ "." +:+ tenantId +:+ "." +:+ loanId in
  let amount := dp4_toString (to_dp4 (finite_value defaultAmount)) in
  let* now := gets clock in
  queue_add (mkJob jobId GUARANTOR_RECOVERY_NOTICE_JOB tenantId loanId actorId amount (toISOString now) 0) ;;
  let* id := fresh_id in
  audit_row_create (mkAuditLog id tenantId (Some actorId) "GUARANTOR_RECOVERY.NOTICE_QUEUED" "Loan"
    (Some loanId) now None None None
    (Some (JObj [("defaultAmount", JStr amount); ("jobId", JStr jobId)])) None JNull JNull None None) ;;
  ret jobId.
End Recovery.
