(* ===== verification/Loans.v ===== *)
(** * Loans: approval, payout and rejection of loans

    [src/src/modules/loans/loans.service.ts].  Domain events, the applicant's
    risk score for display and cache invalidation are not modelled; of an
    e-mail job the type, the address and the loan number are kept. *)
From S2P Require Import Prelude Money Json Format Calendar Schema Schedule Ledger Repayment.
From S2P Require Import AuditLogs.
From S2P Require Import LoanRules Guarantors ApprovalChains Redis Recovery.

Definition loan_not_found : exn := NotFound "Loan not found".

Definition enqueueEmail (type : string) (email : option string) (loanNumber : string) : M unit :=
  match truthy email with
  | Some a => modify (send_message (mkMessage EMAIL type a loanNumber))
  | None => ret tt
  end.

Definition member_email (memberId : string) (d : DB) : option string := members d !! memberId ≫= mem_email.

(** ** approve *)
Definition approvableStatuses : list LoanStatus := [PENDING_REVIEW; PENDING_APPROVAL].

Definition not_approvable (s : LoanStatus) : exn :=
  BadRequest ("Cannot approve a loan in " +:+ quote (loan_status_name s) +:+ " status. Expected one of: "
    +:+ join ", " (loan_status_name <$> approvableStatuses) +:+ ".").

(** A comment that is empty leaves the notes alone. *)
Definition approve_terms (now : Z) (approvedBy : string) (comment : option string) (t : LoanTerms) : LoanTerms :=
  mkTerms (lt_interestRate t) (lt_processingFee t) (lt_tenureMonths t) (lt_gracePeriodMonths t)
    (lt_monthlyInstalment t) (lt_repaymentScheduleGenerated t) (Some now) (Some approvedBy) (lt_disbursedBy t)
    (match truthy comment with Some c => Some c | None => lt_notes t end).

Definition json_date (o : option Z) : json :=
  match o with Some t => JStr (toISOString t) | None => JNull end.

Definition approval_json (id : string) (l : Loan) : json :=
  let t := loan_terms l in
  JObj [("id", JStr id); ("loanNumber", JStr (loan_loanNumber l)); ("status", JStr (loan_status_name (loan_status l)));
        ("approvedAt", json_date (lt_approvedAt t)); ("approvedBy", json_or_null (lt_approvedBy t));
        ("notes", json_or_null (lt_notes t))].

Section Loans.
Context `{UuidSource, Sha256, Environment, DecimalLib}.

Definition approveBody (id tenantId approvedBy : string) (loan : Loan) (comment ipAddress userAgent : option string)
  : M Loan :=
  let* found := gets (fun w => tenant_loan tenantId id (db w)) in
  let* oldValue := or_throw found loan_not_found in
  throw_if (negb (bool_decide (loan_status oldValue ∈ approvableStatuses))) (not_approvable (loan_status oldValue)) ;;
  let* now := gets clock in
  loan_update id (fun l => set_loan_status APPROVED (approve_terms now approvedBy comment (loan_terms l)) l) ;;
  let* updated := gets (fun w => loans (db w) !! id) in
  let* approvedLoan := or_throw updated (RecordNotFound "Loan") in
  logAtomic (mkAuditDto tenantId (Some approvedBy) None "LOAN.APPROVE" (Some "Loan") None (Some id) None
    (Some (approval_json id oldValue)) (Some (approval_json id approvedLoan))
    ([("loanNumber", JStr (loan_loanNumber loan)); ("memberId", JStr (loan_memberId loan))]
     ++ json_opt_field "comment" comment) None ipAddress userAgent None) ;;
  ret approvedLoan.

(** The loan and whether it still needs two signatures. *)
Definition approve (id tenantId approvedBy : string) (comment ipAddress userAgent : option string)
  : M (Loan * bool) :=
  let* found := gets (fun w => tenant_loan tenantId id (db w)) in
  let* loan := or_throw found loan_not_found in
  throw_if (negb (bool_decide (loan_status loan ∈ approvableStatuses))) (not_approvable (loan_status loan)) ;;
  assertPassed tenantId id ;;
  let* email := gets (fun w => member_email (loan_memberId loan) (db w)) in
  let* updated := transaction (approveBody id tenantId approvedBy loan comment ipAddress userAgent) in
  enqueueEmail "LOAN_APPROVED" email (loan_loanNumber loan) ;;
  let dual := requiresDualApproval (loan_principalAmount loan) in
  (if dual then initApprovalChain id tenantId else ret tt) ;;
  ret (updated, dual).

Definition signApprovalChain (id tenantId actorId : string) (actorRole : UserRole) (approve : bool)
    (notes ipAddress : option string) : M SignOff :=
  let* found := gets (fun w => tenant_loan tenantId id (db w)) in
  let* _ := or_throw found loan_not_found in
  signOff id tenantId actorId actorRole approve notes ipAddress.

(** ** disburse *)
Record Disbursal := mkDisbursal {
  dis_loan : Loan;
  dis_transaction : Transaction;
  dis_newBalance : Z;
  dis_dueDate : option Z;
}.

Definition disbursement_reference (id : string) : string := "LOAN-DISBURSEMENT-" +:+ id.
Definition fee_reference (id : string) : string := "LOAN-DISBURSEMENT-" +:+ id +:+ "-FEE".

Definition disburse_terms (disbursedBy : string) (t : LoanTerms) : LoanTerms :=
  mkTerms (lt_interestRate t) (lt_processingFee t) (lt_tenureMonths t) (lt_gracePeriodMonths t)
    (lt_monthlyInstalment t) true (lt_approvedAt t) (lt_approvedBy t) (Some disbursedBy) (lt_notes t).

Definition disbursed_loan (disbursedBy : string) (disbursedAt dueDate : Z) (l : Loan) : Loan :=
  mkLoan (loan_tenantId l) (loan_memberId l) (loan_loanProductId l) (loan_loanNumber l) ACTIVE
    (loan_principalAmount l) (loan_outstandingBalance l) (loan_totalRepaid l) (loan_accruedInterest l)
    (loan_arrearsAmount l) (loan_arrearsDays l) (loan_staging l) (loan_lastAccrualDate l) (Some dueDate)
    (Some disbursedAt) (loan_createdAt l) (loan_updatedAt l) (disburse_terms disbursedBy (loan_terms l)).

(** The [i]-th row of the schedule, [i] from 1. *)
Definition schedule_row (id tenantId loanId : string) (disbursedAt gracePeriodMonths i : Z) (p : Period)
  : LoanRepayment :=
  mkLoanRepayment id tenantId loanId i (add_months disbursedAt (gracePeriodMonths + i)) I_PENDING (principalDue p)
    (interestDue p) 0 0 0 0 0 None "SCHEDULED" None.

(** [skipDuplicates]: a row whose unique key is taken is left out. *)
Definition schedule_clash (r : LoanRepayment) (d : DB) : bool :=
  existsb (fun x => (lr_id x === lr_id r) || ((lr_loanId x === lr_loanId r) && (lr_dayNumber x =? lr_dayNumber r)
    && (lr_tenantId x === lr_tenantId r))) (loanRepayments d).

Definition installment_create (r : LoanRepayment) : M unit :=
  throw_if (negb (fits_18_4 (lr_principalDue r) && fits_18_4 (lr_interestDue r))) NumericOverflow ;;
  let* clash := gets (fun w => schedule_clash r (db w)) in
  if clash then ret tt else modify (with_db (fun d => set_loanRepayments (loanRepayments d ++ [r]) d)).

(** [loanRepayment.createMany({ data: schedule.map(...), skipDuplicates: true })] *)
Definition create_schedule (tenantId loanId : string) (disbursedAt gracePeriodMonths : Z) (schedule : list Period)
  : M unit :=
  foldM (fun i p =>
    let* id := fresh_id in
    installment_create (schedule_row id tenantId loanId disbursedAt gracePeriodMonths i p) ;;
    ret (i + 1)) 1 schedule ;;
  ret tt.

Definition not_disbursable (s : LoanStatus) : exn :=
  BadRequest ("Cannot disburse a loan in " +:+ quote (loan_status_name s) +:+ " status. Expected APPROVED.").

Definition disburse_audit (id tenantId disbursedBy fosaAccountId : string) (locked : Loan) (txn : Transaction)
    (after disbursedAt dueDate : Z) (ipAddress : option string) : M unit :=
  let t := loan_terms locked in
  let* auditId := fresh_id in
  audit_row_create (mkAuditLog auditId tenantId (Some disbursedBy) "LOAN.DISBURSE" "Loan" (Some id) disbursedAt
    None None None
    (Some (JObj [("loanNumber", JStr (loan_loanNumber locked));
      ("principalAmount", JNum (dp4_toString (loan_principalAmount locked)));
      ("processingFee", JNum (dp4_toString (lt_processingFee t)));
      ("netDisbursement", JNum (dp4_toString (loan_principalAmount locked - lt_processingFee t)));
      ("fosaAccountId", JStr fosaAccountId); ("reference", JStr (disbursement_reference id));
      ("feeReference", JStr (fee_reference id)); ("gracePeriodMonths", JNum (pretty (lt_gracePeriodMonths t)));
      ("disbursedAt", JStr (toISOString disbursedAt)); ("dueDate", JStr (toISOString dueDate))]))
    None
    (JObj [("status", JStr (loan_status_name (loan_status locked)));
           ("accountBalance", JNum (dp4_toString (txn_balanceBefore txn)))])
    (JObj [("status", JStr "ACTIVE"); ("accountBalance", JNum (dp4_toString after))]) ipAddress None).

Definition disburseBody (id tenantId disbursedBy : string) (fosaAccountId : string) (ipAddress : option string)
  : M Disbursal :=
  let* found := gets (fun w => tenant_loan tenantId id (db w)) in
  let* locked := or_throw found loan_not_found in
  let* product := gets (fun w => loan_product locked (db w)) in
  let* product := or_throw product loan_not_found in
  throw_if (loan_status locked === ACTIVE)
    (Conflict ("Loan " +:+ loan_loanNumber locked +:+ " has already been disbursed and is ACTIVE.")) ;;
  throw_if (negb (loan_status locked === APPROVED)) (not_disbursable (loan_status locked)) ;;
  assertPassed tenantId id ;;
  let t := loan_terms locked in
  let principal := loan_principalAmount locked in
  let processingFee := lt_processingFee t in
  throw_if (principal - processingFee <? 0) (BadRequest "Processing fee cannot exceed loan principal.") ;;
  let* principalTxn := postEntry (mkPostEntry tenantId (disbursement_reference id) JLOAN_DISBURSEMENT fosaAccountId
    (dec principal) CREDIT (Some disbursedBy) (Some ("Loan disbursement – " +:+ loan_loanNumber locked)) None
    (Some id) true) in
  let* feeTxn := if 0 <? processingFee then
      let* r := postEntry (mkPostEntry tenantId (fee_reference id) JFEE_CHARGE fosaAccountId (dec processingFee) DEBIT
        (Some disbursedBy) (Some ("Loan processing fee - " +:+ loan_loanNumber locked)) None (Some id) true) in
      ret (Some (posted_transaction r))
    else ret None in
  let principalRow := posted_transaction principalTxn in
  let balanceAfter := txn_balanceAfter (default principalRow feeTxn) in
  let* disbursedAt := gets clock in
  let dueDate := add_months disbursedAt (lt_gracePeriodMonths t + lt_tenureMonths t) in
  loan_update id (disbursed_loan disbursedBy disbursedAt dueDate) ;;
  let* updated := gets (fun w => loans (db w) !! id) in
  let* updatedLoan := or_throw updated (RecordNotFound "Loan") in
  (if lt_repaymentScheduleGenerated t then ret tt
   else create_schedule tenantId id disbursedAt (lt_gracePeriodMonths t)
     (buildAmortizationSchedule principal (lt_interestRate t) (lt_tenureMonths t) (lp_interestType product)
        (lt_monthlyInstalment t))) ;;
  disburse_audit id tenantId disbursedBy fosaAccountId locked principalRow balanceAfter disbursedAt dueDate ipAddress ;;
  ret (mkDisbursal updatedLoan principalRow balanceAfter (Some dueDate)).

Definition disburse (id tenantId disbursedBy : string) (ipAddress : option string) (disburseToMpesa : bool)
  : M Disbursal :=
  throw_if disburseToMpesa
    (BadRequest "Direct M-Pesa disbursement is disabled for security and reconciliation reasons. Funds must be disbursed to the member's FOSA account first.") ;;
  let* found := gets (fun w => tenant_loan tenantId id (db w)) in
  let* loan := or_throw found loan_not_found in
  if loan_status loan === ACTIVE then
    let* existingPrincipalTxn := gets (fun w => txn_by_reference tenantId (disbursement_reference id) (db w)) in
    let* existingFeeTxn := gets (fun w => txn_by_reference tenantId (fee_reference id) (db w)) in
    let* principalTxn := or_throw existingPrincipalTxn
      (Conflict ("Loan " +:+ loan_loanNumber loan +:+ " is ACTIVE but its disbursement transaction ("
        +:+ disbursement_reference id +:+ ") could not be found — ledger is inconsistent")) in
    ret (mkDisbursal loan principalTxn (txn_balanceAfter (default principalTxn existingFeeTxn)) (loan_dueDate loan))
  else
  throw_if (negb (loan_status loan === APPROVED)) (not_disbursable (loan_status loan)) ;;
  let* signed := gets (fun w => isChainApproved id tenantId (db w)) in
  throw_if (negb signed)
    (BadRequest "This loan requires MANAGER and TELLER sign-off before disbursement (4-eyes principle for loans ≥ KES 500,000).") ;;
  let* member := gets (fun w => members (db w) !! loan_memberId loan) in
  throw_if (negb (match member with
                  | Some m => (mem_tenantId m === tenantId) && (mem_kycStatus m === KYC_APPROVED)
                  | None => false end))
    (BadRequest "KYC must be approved before loan disbursement.") ;;
  let* fosa := gets (fun w => member_account tenantId (loan_memberId loan) FOSA (db w)) in
  let* account := or_throw fosa
    (BadRequest "Member has no active FOSA account. Please open a FOSA account before disbursing.") in
  let* email := gets (fun w => member_email (loan_memberId loan) (db w)) in
  let* result := transaction (disburseBody id tenantId disbursedBy account.1 ipAddress) in
  enqueueEmail "LOAN_DISBURSED" email (loan_loanNumber loan) ;;
  ret result.

(** ** reject *)
Definition rejectableStatuses : list LoanStatus := [PENDING_APPROVAL; PENDING_GUARANTORS; PENDING_REVIEW].

Definition not_rejectable (s : LoanStatus) : exn :=
  BadRequest ("Cannot reject a loan in " +:+ quote (loan_status_name s) +:+ " status").

Definition release_guarantor (now : Z) (g : LoanGuarantor) : LoanGuarantor :=
  mkLoanGuarantor (lg_id g) (lg_tenantId g) (lg_loanId g) (lg_memberId g) (lg_status g) (lg_guaranteedAmount g)
    (lg_recoveredAmount g) (lg_recoveryDate g) (Some now) (lg_createdAt g).

(** Release what is held for one guarantor; the amount released. *)
Definition release_held (tenantId : string) (T : AccountType) (g : LoanGuarantor) : M Z :=
  let* found := gets (fun w => member_account tenantId (lg_memberId g) T (db w)) in
  match found with
  | None => ret 0
  | Some (accountId, account) =>
      let releaseAmount := Z.min (acc_frozenSavings account) (lg_guaranteedAmount g) in
      if releaseAmount <=? 0 then ret 0 else
      account_updateMany accountId (fun a => (acc_tenantId a === tenantId) && acc_isActive a)
        (change_frozen (- releaseAmount)) ;;
      let* now := gets clock in
      guarantor_updateMany (lg_id g) (fun x => lg_tenantId x === tenantId) (release_guarantor now) ;;
      ret releaseAmount
  end.

Definition held_json (g : LoanGuarantor) (amount : Z) : json :=
  JObj [("guarantorId", JStr (lg_id g)); ("memberId", JStr (lg_memberId g)); ("releasedAmount", JStr (dp4_toString amount))].

(** [loanGuarantor.findMany({ where: { ..., status: ACCEPTED, holdReleasedAt: null } })] *)
Definition accepted_held (tenantId loanId : string) (d : DB) : list LoanGuarantor :=
  List.filter (fun g => (lg_tenantId g === tenantId) && (lg_loanId g === loanId) && (lg_status g === G_ACCEPTED)
    && (lg_holdReleasedAt g === None)) (loanGuarantors d).

Definition required_account (l : Loan) (d : DB) : AccountType :=
  match loan_product l d with Some p => default FOSA (lp_requiredAccountType p) | None => FOSA end.

Definition rejectBody (id tenantId reason rejectedBy : string) (loan : Loan) (T : AccountType)
    (ipAddress userAgent : option string) : M Loan :=
  let* found := gets (fun w => tenant_loan tenantId id (db w)) in
  let* locked := or_throw found loan_not_found in
  throw_if (negb (bool_decide (loan_status locked ∈ rejectableStatuses))) (not_rejectable (loan_status locked)) ;;
  let* guarantors := gets (fun w => accepted_held tenantId id (db w)) in
  let* released := foldM (fun acc g =>
      let* n := release_held tenantId T g in
      ret (if 0 <? n then acc ++ [held_json g n] else acc)) [] guarantors in
  loan_update id (fun l => set_loan_status REJECTED (note_terms (Some reason) (loan_terms l)) l) ;;
  let* updated := gets (fun w => loans (db w) !! id) in
  let* rejectedLoan := or_throw updated (RecordNotFound "Loan") in
  logAtomic (mkAuditDto tenantId (Some rejectedBy) None "LOAN.REJECT" (Some "Loan") None (Some id) None
    (Some (JObj [("status", JStr (loan_status_name (loan_status locked)))]))
    (Some (JObj [("status", JStr "REJECTED"); ("notes", JStr reason)]))
    [("loanNumber", JStr (loan_loanNumber loan)); ("reason", JStr reason); ("releasedHolds", JArr released)]
    None ipAddress userAgent None) ;;
  ret rejectedLoan.

Definition reject (id reason tenantId rejectedBy : string) (ipAddress userAgent : option string) : M Loan :=
  let* found := gets (fun w => tenant_loan tenantId id (db w)) in
  let* loan := or_throw found loan_not_found in
  throw_if (negb (bool_decide (loan_status loan ∈ rejectableStatuses))) (not_rejectable (loan_status loan)) ;;
  let* T := gets (fun w => required_account loan (db w)) in
  let* email := gets (fun w => member_email (loan_memberId loan) (db w)) in
  let* updated := transaction (rejectBody id tenantId reason rejectedBy loan T ipAddress userAgent) in
  enqueueEmail "LOAN_REJECTED" email (loan_loanNumber loan) ;;
  ret updated.

(** ** respondAsGuarantor *)
Definition checkAndAdvanceLoanStatus (loanId tenantId : string) : M unit :=
  let* found := gets (fun w => tenant_loan tenantId loanId (db w)) in
  match found with
  | None => ret tt
  | Some loan =>
      if negb (loan_status loan === PENDING_GUARANTORS) then ret tt else
      let* accepted := gets (fun w => List.filter (fun g => (lg_loanId g === loanId) && (lg_status g === G_ACCEPTED))
        (loanGuarantors (db w))) in
      if loan_principalAmount loan <=? sum_by lg_guaranteedAmount accepted
      then loan_update loanId (fun l => set_loan_status PENDING_APPROVAL (loan_terms l) l)
      else ret tt
  end.

Definition set_guarantor_status (s : GuarantorStatus) (g : LoanGuarantor) : LoanGuarantor :=
  mkLoanGuarantor (lg_id g) (lg_tenantId g) (lg_loanId g) (lg_memberId g) s (lg_guaranteedAmount g)
    (lg_recoveredAmount g) (lg_recoveryDate g) (lg_holdReleasedAt g) (lg_createdAt g).

Definition guarantor_status_name (s : GuarantorStatus) : string :=
  match s with
  | G_PENDING => "PENDING" | G_ACCEPTED => "ACCEPTED" | G_REJECTED => "REJECTED" | G_EXPIRED => "EXPIRED"
  | G_RELEASED => "RELEASED"
  end.

Definition respondAsGuarantor (loanId memberId tenantId : string) (accept : bool) : M GuarantorStatus :=
  let* found := gets (fun w => List.find (fun g => (lg_loanId g === loanId) && (lg_memberId g === memberId)
    && (lg_tenantId g === tenantId)) (loanGuarantors (db w))) in
  let* guarantor := or_throw found (NotFound "LoanGuarantor record not found for this loan") in
  throw_if (negb (lg_status guarantor === G_PENDING))
    (BadRequest ("You have already " +:+ toLowerCase (guarantor_status_name (lg_status guarantor))
       +:+ " this guarantee request")) ;;
  let newStatus := if accept then G_ACCEPTED else G_REJECTED in
  guarantor_updateMany (lg_id guarantor) (fun _ => true) (set_guarantor_status newStatus) ;;
  modify (log_audit (if accept then "LOAN.GUARANTOR_ACCEPTED" else "LOAN.GUARANTOR_REJECTED")) ;;
  checkAndAdvanceLoanStatus loanId tenantId ;;
  ret newStatus.
End Loans.
