(* ===== verification/LoanRepay.v ===== *)
(** * LoanRepay: repayment recorded by staff

    [repay] and [releaseGuarantorHoldsOnFullRepayment] of
    [src/src/modules/loans/loans.service.ts].  The amount has at most four
    decimal places and is counted in units of 0.0001, so that rounding to four
    places changes nothing.  Domain events and cache invalidation are not
    modelled. *)
From S2P Require Import Prelude Money Json Format Schema Ledger Repayment AuditLogs LoanRules.
From S2P Require Import Guarantors.
From S2P Require Import ApprovalChains Redis Recovery Loans.

(** [new Date().toISOString().slice(0, 16).replace(/[-:T]/g, '')] *)
Fixpoint drop_separators (s : string) : string :=
  match s with
  | EmptyString => EmptyString
  | String c s' =>
      if (c === "-"%char) || (c === ":"%char) || (c === "T"%char) then drop_separators s'
      else String c (drop_separators s')
  end.

Definition minute_stamp (now : Z) : string := drop_separators (String.substring 0 16 (toISOString now)).

Definition repay_reference (tenantId loanId : string) (amount now : Z) (idempotencyKey : option string) : string :=
  match truthy idempotencyKey with
  | Some key => "REPAY-" +:+ tenantId +:+ "-" +:+ key
  | None => "TXN-REPAY-" +:+ tenantId +:+ "-" +:+ loanId +:+ "-" +:+ dp4_toString amount +:+ "-" +:+ minute_stamp now
  end.

(** Penalties, then interest, then principal. *)
Record Split := mkSplit {
  toArrears : Z;
  toInterest : Z;
  toPrincipal : Z;
}.

Definition total_owed (l : Loan) : Z := loan_arrearsAmount l + loan_accruedInterest l + loan_outstandingBalance l.

Definition split_repayment (actualRepayment : Z) (l : Loan) : Split :=
  let toArrears := Z.min actualRepayment (loan_arrearsAmount l) in
  let remaining := actualRepayment - toArrears in
  let toInterest := Z.min remaining (loan_accruedInterest l) in
  mkSplit toArrears toInterest (remaining - toInterest).

Definition repaid_loan (actualRepayment : Z) (s : Split) (l : Loan) : Loan :=
  let newOutstanding := loan_outstandingBalance l - toPrincipal s in
  mkLoan (loan_tenantId l) (loan_memberId l) (loan_loanProductId l) (loan_loanNumber l)
    (if newOutstanding <=? 0 then FULLY_PAID else ACTIVE) (loan_principalAmount l)
    (if newOutstanding <? 0 then 0 else newOutstanding) (loan_totalRepaid l + actualRepayment)
    (if loan_accruedInterest l - toInterest s <? 0 then 0 else loan_accruedInterest l - toInterest s)
    (if loan_arrearsAmount l - toArrears s <? 0 then 0 else loan_arrearsAmount l - toArrears s)
    (loan_arrearsDays l) (loan_staging l) (loan_lastAccrualDate l) (loan_dueDate l)
    (loan_disbursedAt l) (loan_createdAt l) (loan_updatedAt l) (loan_terms l).

Record Repaid := mkRepaid {
  rp_loan : Loan;
  rp_transaction : Transaction;
  rp_reference : string;
  rp_paidAt : Z;
  rp_newOutstandingBalance : Z;
  rp_allocation : Split;
}.

Definition insufficient_balance (balance amount : Z) : exn :=
  Unprocessable ("Insufficient FOSA balance KES " +:+ toFixed2 (dec balance) +:+ " for repayment of KES "
    +:+ toFixed2 (dec amount) +:+ ". Please deposit funds before repaying.").

(** [account.update({ where: { id }, data: { balance } })]: the version stays. *)
Definition account_set_balance (id : string) (balance : Z) : M unit :=
  let* n := account_updateMany id (fun _ => true) (fun a => set_balance balance (acc_version a) a) in
  throw_if (Nat.eqb n 0) (RecordNotFound "Account").

Section Repay.
Context `{UuidSource, Sha256, Environment}.

(** The hold-release audit row, hashed over its own JSON text. *)
Definition release_audit (tenantId loanId actorId : string) (g : LoanGuarantor) (releaseAmount : Z) : M unit :=
  let* auditTimestamp := gets clock in
  let* prevHash := gets (fun w => latest_hash tenantId (db w)) in
  let auditPayload := JObj [("loanId", JStr loanId); ("guarantorMemberId", JStr (lg_memberId g));
    ("releasedAmount", JStr (dp4_toString releaseAmount)); ("reason", JStr "LOAN_FULLY_PAID")] in
  let entryHash := sha256 (stringify (JObj [("tenantId", JStr tenantId); ("actorId", JStr actorId);
    ("action", JStr "GUARANTOR.HOLD_RELEASED_LOAN_REPAID"); ("entityType", JStr "LoanGuarantor");
    ("entityId", JStr (lg_id g)); ("payload", auditPayload); ("prevHash", json_or_null prevHash);
    ("timestamp", JStr (toISOString auditTimestamp))])) in
  let* id := fresh_id in
  audit_row_create (mkAuditLog id tenantId (Some actorId) "GUARANTOR.HOLD_RELEASED_LOAN_REPAID" "LoanGuarantor"
    (Some (lg_id g)) auditTimestamp prevHash (Some entryHash) None (Some auditPayload) (Some auditPayload)
    JNull JNull None None).

(** [found] is the account as it was read before the loop. *)
Definition release_paid (tenantId loanId actorId : string) (found : option (string * Account)) (g : LoanGuarantor)
  : M unit :=
  match found with
  | None => ret tt
  | Some (accountId, account) =>
      let releaseAmount := Z.min (acc_frozenSavings account) (lg_guaranteedAmount g) in
      if releaseAmount <=? 0 then ret tt else
      account_updateMany accountId (fun a => (acc_tenantId a === tenantId) && acc_isActive a)
        (change_frozen (- releaseAmount)) ;;
      let* now := gets clock in
      guarantor_updateMany (lg_id g) (fun x => lg_tenantId x === tenantId) (release_guarantor now) ;;
      release_audit tenantId loanId actorId g releaseAmount
  end.

Definition releaseGuarantorHoldsOnFullRepayment (tenantId loanId actorId : string) : M unit :=
  let* found := gets (fun w => tenant_loan tenantId loanId (db w)) in
  let* guarantors := gets (fun w => accepted_held tenantId loanId (db w)) in
  match found, guarantors with
  | Some loan, _ :: _ =>
      let* T := gets (fun w => required_account loan (db w)) in
      let* accountMap := gets (fun w g => recovery_account tenantId (lg_memberId g) T (db w)) in
      foldM (fun _ g => release_paid tenantId loanId actorId (accountMap g) g) tt guarantors
  | _, _ => ret tt
  end.

(** One general-ledger leg, when it carries anything. *)
Definition repay_leg (tenantId reference : string) (leg : Leg) (amount : Z) (txnId actorId : string) : M unit :=
  if 0 <? amount then
    postAccountSourcedRepaymentLegEntry tenantId reference leg (dec amount) FOSA txnId actorId None ;; ret tt
  else ret tt.

Definition repay_legs (tenantId reference : string) (s : Split) (txnId actorId : string) : M unit :=
  repay_leg tenantId (reference +:+ "-PENALTY") LEG_PENALTY (toArrears s) txnId actorId ;;
  repay_leg tenantId (reference +:+ "-INTEREST") LEG_INTEREST (toInterest s) txnId actorId ;;
  repay_leg tenantId (reference +:+ "-PRINCIPAL") LEG_PRINCIPAL (toPrincipal s) txnId actorId.

Definition repayBody (loanId accountId tenantId processedBy reference : string) (loan : Loan) (amount : Z)
    (ipAddress : option string) : M Repaid :=
  let* existingReplay := gets (fun w => txn_by_reference tenantId reference (db w)) in
  match existingReplay with
  | Some t =>
      let* found := gets (fun w => tenant_loan tenantId loanId (db w)) in
      let* currentLoan := or_throw found loan_not_found in
      ret (mkRepaid currentLoan t reference (txn_createdAt t) (Z.max 0 (loan_outstandingBalance currentLoan))
             (mkSplit 0 0 0))
  | None =>
      let* lockedAccount := gets (fun w => active_account tenantId accountId (db w)) in
      let* lockedLoan := gets (fun w => tenant_loan tenantId loanId (db w)) in
      let* acc := or_throw lockedAccount (NotFound "FOSA account not found or inactive") in
      let* currentLoan := or_throw lockedLoan loan_not_found in
      throw_if (negb (loan_status currentLoan === ACTIVE))
        (BadRequest ("Loan status changed to " +:+ quote (loan_status_name (loan_status currentLoan))
           +:+ " during concurrent processing. Please retry the repayment.")) ;;
      let balBefore := acc_balance acc in
      let actualRepayment := Z.min amount (total_owed currentLoan) in
      throw_if (balBefore <? actualRepayment) (insufficient_balance balBefore actualRepayment) ;;
      let s := split_repayment actualRepayment currentLoan in
      let balAfter := balBefore - actualRepayment in
      let* txn := transaction_create (mkTxnData tenantId accountId (Some loanId) LOAN_REPAYMENT T_COMPLETED
        actualRepayment balBefore balAfter reference ("Loan repayment – " +:+ loan_loanNumber loan) processedBy None) in
      account_set_balance accountId balAfter ;;
      repay_legs tenantId reference s (txn_id txn) processedBy ;;
      loan_update loanId (repaid_loan actualRepayment s) ;;
      let* updated := gets (fun w => loans (db w) !! loanId) in
      let* updatedLoan := or_throw updated (RecordNotFound "Loan") in
      let newOutstanding := loan_outstandingBalance currentLoan - toPrincipal s in
      (if newOutstanding <=? 0 then releaseGuarantorHoldsOnFullRepayment tenantId loanId processedBy else ret tt) ;;
      createAtomic (mkAuditDto tenantId None (Some processedBy) "LOAN.REPAYMENT" None (Some "Loan") None (Some loanId)
        None None
        [("loanNumber", JStr (loan_loanNumber loan)); ("amount", JNum (dp4_toString actualRepayment));
         ("newOutstanding", JNum (dp4_toString (Z.max 0 newOutstanding)));
         ("newStatus", JStr (loan_status_name (if newOutstanding <=? 0 then FULLY_PAID else ACTIVE)));
         ("reference", JStr reference)]
        None ipAddress None None) ;;
      let* now := gets clock in
      ret (mkRepaid updatedLoan txn reference now (Z.max 0 newOutstanding) s)
  end.

Definition repay (loanId : string) (amountKes : Z) (tenantId processedBy : string)
    (ipAddress idempotencyKey : option string) : M Repaid :=
  throw_if (amountKes <=? 0) (BadRequest "Repayment amount must be positive") ;;
  let* found := gets (fun w => tenant_loan tenantId loanId (db w)) in
  let* loan := or_throw (match found with
      | Some l => if loan_status l === ACTIVE then Some l else None
      | None => None end) (NotFound "Active loan not found") in
  let* fosa := gets (fun w => member_account tenantId (loan_memberId loan) FOSA (db w)) in
  let* account := or_throw fosa (BadRequest "No active FOSA account for repayment") in
  let* email := gets (fun w => member_email (loan_memberId loan) (db w)) in
  let* now := gets clock in
  let reference := repay_reference tenantId loanId amountKes now idempotencyKey in
  let* result := transaction (repayBody loanId account.1 tenantId processedBy reference loan amountKes ipAddress) in
  enqueueEmail "REPAYMENT_RECEIPT" email (loan_loanNumber loan) ;;
  ret result.
End Repay.
