(* ===== verification/Lending.v ===== *)
(** * Lending: idempotency keys, and the tables behind a loan application

    [src/src/common/services/idempotency.service.ts], and the state of the
    application and consent services: the columns of members, products,
    tenants and guarantors that only they use, kept beside the rows of
    [Schema] under the same ids; the queues of reminders and expiry checks;
    and the computations over all of these. *)
From S2P Require Import Prelude Money Json Format Schema Ledger AuditLogs Redis Recovery Loans.

(** ** IdempotencyService

    A key is reserved before the work, holds the answer after it, and is
    deleted when the work fails.  A Redis that cannot be reached answers
    [false] to SET and nothing to GET.  Keys do not lapse here: their lifetime
    is left out. *)
Inductive IdemEntry (R : Type) :=
  | Processing
  | Completed (result : R)
  | Unreadable.
Arguments Processing {R}.
Arguments Completed {R} result.
Arguments Unreadable {R}.

Record IdemStore (R : Type) := mkIdem {
  idem_entries : gmap string (IdemEntry R);
  idem_reachable : bool;
}.
Arguments mkIdem {R}.
Arguments idem_entries {R}.
Arguments idem_reachable {R}.

Inductive IdempotencyResult (R : Type) :=
  | IS_NEW
  | IS_PROCESSING
  | IS_COMPLETED (result : R).
Arguments IS_NEW {R}.
Arguments IS_PROCESSING {R}.
Arguments IS_COMPLETED {R} result.

Definition buildKey (key tenantId : string) : string := "idempotency:" +:+ tenantId +:+ ":" +:+ key.

Section Idempotency.
Context {R : Type}.

Definition idem_set (redisKey : string) (e : IdemEntry R) (nx : bool) : comp (IdemStore R) bool := fun st =>
  if negb (idem_reachable st) then (Ok false, st)
  else match idem_entries st !! redisKey, nx with
       | Some _, true => (Ok false, st)
       | _, _ => (Ok true, mkIdem (<[redisKey := e]> (idem_entries st)) (idem_reachable st))
       end.

Definition idem_get (redisKey : string) : comp (IdemStore R) (option (IdemEntry R)) :=
  gets (fun st => if idem_reachable st then idem_entries st !! redisKey else None).

Definition checkAndReserve (key tenantId : string) : comp (IdemStore R) (IdempotencyResult R) :=
  let redisKey := buildKey key tenantId in
  let* reserved := idem_set redisKey Processing true in
  if (reserved : bool) then ret IS_NEW else
  let* raw := idem_get redisKey in
  match raw with
  | None => ret IS_NEW
  | Some (Completed result) => ret (IS_COMPLETED result)
  | Some Processing => ret IS_PROCESSING
  | Some Unreadable => idem_set redisKey Processing false ;; ret IS_NEW
  end.

Definition acquire (key tenantId : string) : comp (IdemStore R) bool :=
  idem_set (buildKey key tenantId) Processing true.

Definition getResult (key tenantId : string) : comp (IdemStore R) (option R) :=
  let* raw := idem_get (buildKey key tenantId) in
  ret (match raw with Some (Completed result) => Some result | _ => None end).

Definition complete (key tenantId : string) (result : R) : comp (IdemStore R) unit :=
  idem_set (buildKey key tenantId) (Completed result) false ;; ret tt.

Definition storeResult : string -> string -> R -> comp (IdemStore R) unit := complete.

Definition release (key tenantId : string) : comp (IdemStore R) unit :=
  modify (fun st => if idem_reachable st
    then mkIdem (delete (buildKey key tenantId) (idem_entries st)) (idem_reachable st) else st).

Definition idem_exists (key tenantId : string) : comp (IdemStore R) bool :=
  let* raw := idem_get (buildKey key tenantId) in
  ret (bool_decide (is_Some raw)).
End Idempotency.

(** ** Numbers

    Conversions between decimal.js and JavaScript numbers, and the texts of
    both: a double keeps fifteen significant decimal digits.  [Decimal.pow] is
    rounded like the other operations of the library. *)
Class Numbers := {
  to_number : Q -> Q;             (* new Decimal(d.toNumber()) *)
  number_text : Q -> string;      (* the number as JSON *)
  decimal_text : Q -> string;     (* d.toString() *)
  d_pow : Q -> Z -> Q;
  to_number_exact : forall z, Z.abs z < 10 ^ 15 -> (to_number (dec z) == dec z)%Q;
}.

Definition d_plus `{DecimalLib} (a b : Q) : Q := rnd (a + b)%Q.
Definition d_minus `{DecimalLib} (a b : Q) : Q := rnd (a - b)%Q.

(** [x.toDecimalPlaces(4, Decimal.ROUND_DOWN)] *)
Definition trunc_dp4 (q : Q) : Z := Z.quot (Qnum q * 10000) (Z.pos (Qden q)).

(** [a.div(b)] where [b] may be zero. *)
Definition div_or_nan `{DecimalLib} (a b : Q) : decimal :=
  if Qeq_bool b 0 then NonFinite else Finite (d_div a b).

(** ** Rows *)
Inductive AccountStatus := AS_PENDING | AS_ACTIVE | AS_REJECTED | AS_SUSPENDED.
#[export] Instance AccountStatus_dec : EqDecision AccountStatus. Proof. solve_decision. Defined.

(** The columns of a member that decide whether it may borrow or guarantee,
    with its user's account status. *)
Record MemberColumns := mkMemberColumns {
  mc_isActive : bool;
  mc_isBlacklisted : bool;
  mc_accountStatus : AccountStatus;
}.

Record ProductColumns := mkProductColumns {
  pc_minAmount : Z;
  pc_maxAmount : Z;
  pc_interestRate : Z;
  pc_maxTenureMonths : Z;
  pc_processingFeeRate : Z;
  pc_gracePeriodMonths : Z;
  pc_isActive : bool;
}.

Record Tenant := mkTenant {
  tn_isActive : bool;
  tn_settings : json;
}.

(** Where a guarantor's consent came from. *)
Inductive DecisionSource := SRC_MEMBER | SRC_ADMIN_OVERRIDE | SRC_SYSTEM_EXPIRY.
#[export] Instance DecisionSource_dec : EqDecision DecisionSource. Proof. solve_decision. Defined.

Record ConsentColumns := mkConsent {
  co_invitedAt : Z;
  co_respondedAt : option Z;
  co_expiresAt : option Z;
  co_holdPlacedAt : option Z;
  co_decidedByUserId : option string;
  co_decisionSource : option DecisionSource;
  co_notes : option string;
}.

(** The columns of a row nothing has answered yet. *)
Definition asked (invitedAt : Z) (expiresAt : option Z) : ConsentColumns :=
  mkConsent invitedAt None expiresAt None None None None.

Record InAppNotification := mkInApp {
  ia_tenantId : string;
  ia_userId : string;
  ia_title : string;
  ia_body : string;
  ia_type : string;
}.

(** ** Queues *)
(** A delayed check on one guarantor; the queue gives it an id of its own. *)
Record ExpiryJob := mkExpiryJob {
  ej_tenantId : option string;
  ej_loanId : option string;
  ej_guarantorId : option string;
  ej_cutoff : option Z;
  ej_runAt : Z;
}.

Record ReminderJob := mkReminder {
  rj_tenantId : string;
  rj_loanId : string;
  rj_memberId : string;
  rj_stage : Z;
  rj_runAt : Z;
}.

(** ** Answers *)
Record DecisionResult := mkDecision {
  dr_loanId : string;
  dr_guarantorId : string;
  dr_memberId : string;
  dr_status : GuarantorStatus;
  dr_loanStatus : LoanStatus;
  dr_remainingCoverage : option Z;
}.

Inductive ReviewResult :=
  | RV_APPROVED (loan : Loan) (dual : bool)
  | RV_REJECTED (loan : Loan)
  | RV_DISBURSED (d : Disbursal).

(** ** The state *)
Record LendingTables := mkLendingTables {
  memberColumns : gmap string MemberColumns;
  productColumns : gmap string ProductColumns;
  tenants : gmap string Tenant;
  loanSeqs : gmap string Z;                     (* TenantCounter.loanSeq *)
  consents : gmap string ConsentColumns;        (* by guarantor row *)
  inAppNotifications : list InAppNotification;
}.

Record LendingWorld := mkLW {
  lw_base : World;
  lw_tables : LendingTables;
  applyKeys : IdemStore (string * Loan);
  respondKeys : IdemStore DecisionResult;
  reviewKeys : IdemStore ReviewResult;
  expiryQueue : list ExpiryJob;
  reminderQueue : gmap string ReminderJob;
}.

Abbreviation LM := (comp LendingWorld).

Definition set_lw_base (w : World) (s : LendingWorld) : LendingWorld :=
  mkLW w (lw_tables s) (applyKeys s) (respondKeys s) (reviewKeys s) (expiryQueue s) (reminderQueue s).
Definition set_lw_tables (t : LendingTables) (s : LendingWorld) : LendingWorld :=
  mkLW (lw_base s) t (applyKeys s) (respondKeys s) (reviewKeys s) (expiryQueue s) (reminderQueue s).
Definition set_applyKeys (k : IdemStore (string * Loan)) (s : LendingWorld) : LendingWorld :=
  mkLW (lw_base s) (lw_tables s) k (respondKeys s) (reviewKeys s) (expiryQueue s) (reminderQueue s).
Definition set_respondKeys (k : IdemStore DecisionResult) (s : LendingWorld) : LendingWorld :=
  mkLW (lw_base s) (lw_tables s) (applyKeys s) k (reviewKeys s) (expiryQueue s) (reminderQueue s).
Definition set_reviewKeys (k : IdemStore ReviewResult) (s : LendingWorld) : LendingWorld :=
  mkLW (lw_base s) (lw_tables s) (applyKeys s) (respondKeys s) k (expiryQueue s) (reminderQueue s).
Definition set_expiryQueue (q : list ExpiryJob) (s : LendingWorld) : LendingWorld :=
  mkLW (lw_base s) (lw_tables s) (applyKeys s) (respondKeys s) (reviewKeys s) q (reminderQueue s).
Definition set_reminderQueue (q : gmap string ReminderJob) (s : LendingWorld) : LendingWorld :=
  mkLW (lw_base s) (lw_tables s) (applyKeys s) (respondKeys s) (reviewKeys s) (expiryQueue s) q.

Definition set_loanSeqs (x : gmap string Z) (t : LendingTables) : LendingTables :=
  mkLendingTables (memberColumns t) (productColumns t) (tenants t) x (consents t) (inAppNotifications t).
Definition set_consents (x : gmap string ConsentColumns) (t : LendingTables) : LendingTables :=
  mkLendingTables (memberColumns t) (productColumns t) (tenants t) (loanSeqs t) x (inAppNotifications t).
Definition set_inApp (x : list InAppNotification) (t : LendingTables) : LendingTables :=
  mkLendingTables (memberColumns t) (productColumns t) (tenants t) (loanSeqs t) (consents t) x.

Definition ldb (s : LendingWorld) : DB := db (lw_base s).
Definition lnow (s : LendingWorld) : Z := clock (lw_base s).

(** ** Computations *)
Definition on_base {A} (m : M A) : LM A := fun s =>
  let '(r, w) := m (lw_base s) in (r, set_lw_base w s).
Definition on_apply {A} (m : comp (IdemStore (string * Loan)) A) : LM A := fun s =>
  let '(r, k) := m (applyKeys s) in (r, set_applyKeys k s).
Definition on_respond {A} (m : comp (IdemStore DecisionResult) A) : LM A := fun s =>
  let '(r, k) := m (respondKeys s) in (r, set_respondKeys k s).
Definition on_review {A} (m : comp (IdemStore ReviewResult) A) : LM A := fun s =>
  let '(r, k) := m (reviewKeys s) in (r, set_reviewKeys k s).
Definition modify_lending (f : LendingTables -> LendingTables) : LM unit :=
  modify (fun s => set_lw_tables (f (lw_tables s)) s).

(** [prisma.$transaction(body)]: the tables roll back; queues, keys and
    messages stay. *)
Definition lending_transaction {A} (body : LM A) : LM A := fun s =>
  match body s with
  | (Ok a, s') => (Ok a, s')
  | (Err e, s') =>
      (Err e, set_lw_tables (lw_tables s) (set_lw_base (with_db (fun _ => db (lw_base s)) (lw_base s')) s'))
  end.

(** [try { m } catch (e) { h(e) }] *)
Definition catching {A} (m : LM A) (h : exn -> LM A) : LM A := fun s =>
  match m s with
  | (Ok a, s') => (Ok a, s')
  | (Err e, s') => h e s'
  end.

Definition lreturn {A} (r : result A) : LM A := on_base (lift_result r).

(** ** Reads *)

(** A member row of the tenant with all its columns. *)
Definition full_member (tenantId id : string) (s : LendingWorld) : option (Member * MemberColumns) :=
  match members (ldb s) !! id, memberColumns (lw_tables s) !! id with
  | Some m, Some c => if mem_tenantId m === tenantId then Some (m, c) else None
  | _, _ => None
  end.

(** [member.findFirst({ where: { id, tenantId, isActive: true } })] *)
Definition active_member (tenantId id : string) (s : LendingWorld) : option (Member * MemberColumns) :=
  match full_member tenantId id s with
  | Some (m, c) => if mc_isActive c then Some (m, c) else None
  | None => None
  end.

(** [member.user.role === MEMBER] *)
Definition is_member_user (m : Member) (s : LendingWorld) : bool :=
  match List.find (fun u => user_id u === mem_userId m) (users (ldb s)) with
  | Some u => user_role u === MEMBER
  | None => false
  end.

(** [loanProduct.findFirst({ where: { id, tenantId, isActive: true } })] *)
Definition active_product (tenantId id : string) (s : LendingWorld) : option (LoanProduct * ProductColumns) :=
  match loanProducts (ldb s) !! id, productColumns (lw_tables s) !! id with
  | Some p, Some c => if (lp_tenantId p === tenantId) && pc_isActive c then Some (p, c) else None
  | _, _ => None
  end.

Definition consent_of (g : LoanGuarantor) (s : LendingWorld) : ConsentColumns :=
  default (asked (lg_createdAt g) None) (consents (lw_tables s) !! lg_id g).

(** [loan.findFirst({ where: { memberId, tenantId, status: { in: statuses } } })] *)
Definition member_loan_in (statuses : list LoanStatus) (tenantId memberId : string) (d : DB)
  : option (string * Loan) :=
  List.find (fun kv => (loan_memberId kv.2 === memberId) && (loan_tenantId kv.2 === tenantId)
    && bool_decide (loan_status kv.2 ∈ statuses)) (map_to_list (loans d)).

(** The statuses of the partial unique index loan_one_open_per_member. *)
Definition open_statuses : list LoanStatus :=
  [DRAFT; PENDING_GUARANTORS; PENDING_REVIEW; PENDING_APPROVAL; APPROVED; DISBURSED; ACTIVE; DEFAULTED].
Definition loan_open (l : Loan) : bool := bool_decide (loan_status l ∈ open_statuses).

(** ** Writes *)
Definition put_consent (id : string) (c : ConsentColumns) : LM unit :=
  modify_lending (fun t => set_consents (<[id := c]> (consents t)) t).

(** [loanGuarantor.updateMany({ where: { id, ...cond }, data: f, c })] *)
Definition consent_updateMany (id : string) (cond : LoanGuarantor -> bool)
    (f : LoanGuarantor -> LoanGuarantor) (c : ConsentColumns -> ConsentColumns) : LM nat :=
  let* hit := gets (fun s => List.find (fun g => (lg_id g === id) && cond g) (loanGuarantors (ldb s))) in
  match hit with
  | None => ret 0%nat
  | Some g =>
      let* columns := gets (consent_of g) in
      let* n := on_base (guarantor_updateMany id cond f) in
      put_consent id (c columns) ;;
      ret n
  end.

Definition INDEX_ONE_OPEN : string := "loan_one_open_per_member".

(** The unique keys of a new loan row: its id, its number in the tenant, and
    the index on open loans. *)
Definition number_taken (l : Loan) (d : DB) : bool :=
  existsb (fun kv => (loan_tenantId kv.2 === loan_tenantId l) && (loan_loanNumber kv.2 === loan_loanNumber l))
    (map_to_list (loans d)).

Definition loan_create (id : string) (l : Loan) : M unit :=
  let* d := gets db in
  throw_if (negb (loan_fits l && fits_18_4 (lt_processingFee (loan_terms l))
    && fits_18_4 (lt_monthlyInstalment (loan_terms l)))) NumericOverflow ;;
  throw_if (bool_decide (is_Some (loans d !! id)) || number_taken l d) (UniqueViolation "Loan") ;;
  throw_if (loan_open l
      && bool_decide (is_Some (member_loan_in open_statuses (loan_tenantId l) (loan_memberId l) d)))
    (UniqueViolation INDEX_ONE_OPEN) ;;
  throw_if (negb (bool_decide (is_Some (members d !! loan_memberId l))
      && bool_decide (is_Some (loanProducts d !! loan_loanProductId l)))) (ForeignKeyViolation "Loan") ;;
  modify (with_db (fun d => set_loans (<[id := l]> (loans d)) d)).

Definition guarantor_pair (g : LoanGuarantor) : string * string := (lg_loanId g, lg_memberId g).

(** [loanGuarantor.create]: one row per loan and member. *)
Definition guarantor_create (g : LoanGuarantor) (c : ConsentColumns) : LM unit :=
  let* d := gets ldb in
  throw_if (negb (fits_18_4 (lg_guaranteedAmount g))) NumericOverflow ;;
  throw_if (existsb (fun x => (lg_id x === lg_id g) || (guarantor_pair x === guarantor_pair g)) (loanGuarantors d))
    (UniqueViolation "Guarantor") ;;
  throw_if (negb (bool_decide (is_Some (members d !! lg_memberId g))
      && bool_decide (is_Some (loans d !! lg_loanId g)))) (ForeignKeyViolation "Guarantor") ;;
  on_base (modify (with_db (fun d => set_loanGuarantors (loanGuarantors d ++ [g]) d))) ;;
  put_consent (lg_id g) c.

(** ** The audit rows these services write themselves *)
Section Audit.
Context `{UuidSource, Sha256, Environment}.

(** [auditLog.create] inside a transaction, linked to the tenant's latest row;
    [hash] is what the service digests. *)
Definition chained_audit (tenantId : string) (actorId : option string) (action entityType entityId : string)
    (oldValue newValue : json) (metadata : json) (payload : option json)
    (ipAddress userAgent requestId : option string) (hash : option string -> Z -> string) : M unit :=
  let* timestamp := gets clock in
  let* prevHash := gets (fun w => latest_hash tenantId (db w)) in
  let* id := fresh_id in
  audit_row_create (mkAuditLog id tenantId actorId action entityType (Some entityId) timestamp prevHash
    (Some (hash prevHash timestamp)) requestId (Some metadata) payload oldValue newValue ipAddress userAgent).
End Audit.
