(* ===== verification/AuthState.v ===== *)
(** * AuthState: users, sessions, codes and tokens

    The state of sign-in: the columns of [User] that AuthService and its
    helpers read or write, refresh sessions, PIN records, counters of failed
    logins, and the part of Redis that holds one-time codes, revoked tokens and
    rate limits.  Passwords are hashed by argon2, tokens are signed by
    jsonwebtoken, secrets are sealed by AES-GCM, and codes come from Node's
    random generator: parameters, with the documented behaviour as laws. *)
From S2P Require Import Prelude Money Json Format ImportText Schema AuditLogs Lending.

(** ** Libraries *)

(** [argon2.hash] salts: each call has a salt of its own.  [argon2.verify]
    throws, here [None], on a text that is not a hash. *)
Class Argon2 := {
  argon2_hash : N -> string -> string;
  argon2_verify : string -> string -> option bool;
  argon2_verify_hash : forall salt p q, argon2_verify (argon2_hash salt p) q = Some (p === q);
}.

(** What the code puts in a token: the claims of access, refresh and 2FA-setup
    tokens, and of the links that reset a password. *)
Record JwtPayload := mkPayload {
  jp_sub : string;
  jp_email : string;
  jp_phone : option string;
  jp_role : option UserRole;
  jp_tenantId : option string;
  jp_jti : option string;
  jp_scope : option string;
  jp_purpose : option string;
  jp_nonce : option string;
}.
#[export] Instance JwtPayload_dec : EqDecision JwtPayload. Proof. solve_decision. Defined.

(** [jwt.sign(payload, { secret, expiresIn })] at [iat], both in seconds, and
    [jwt.verify(token, { secret })] at a time in milliseconds: a token verifies
    under the secret it was signed with until it expires. *)
Class Jwt := {
  jwt_sign : string -> Z -> Z -> JwtPayload -> string;
  jwt_verify : string -> Z -> string -> option JwtPayload;
  jwt_verify_sign : forall secret secret' now iat ttl p,
    jwt_verify secret' now (jwt_sign secret iat ttl p) =
    if (secret === secret') && (now / 1000 <? iat + ttl) then Some p else None;
}.

(** What otplib's [verify({ token, secret })] answers at a time.  Older
    versions answer with a boolean; version 13, which the project installs, with
    an object whose field [valid] tells.  It throws, here [None], on a token or
    secret it cannot read. *)
Inductive TotpAnswer :=
  | TA_boolean (b : bool)
  | TA_object (valid : bool).
Class Totp := { totp_verify : string -> string -> Z -> option TotpAnswer }.

(** AES-256-GCM under a key, with the IV drawn for the call; opening with
    another key throws. *)
Record EncryptedPayload := mkSealed {
  ep_body : string;     (* ciphertext, iv and tag *)
  ep_keyId : string;
}.
Class AesGcm := {
  gcm_seal : string -> N -> string -> string;
  gcm_open : string -> string -> option string;
  gcm_open_seal : forall key iv text, gcm_open key (gcm_seal key iv text) = Some text;
  hmac_key : string -> string -> string;   (* createHmac('sha256', k).update(t).digest() *)
}.

(** Node's [randomInt(n)] and [randomBytes(n).toString('hex')], the [k]-th
    draw. *)
Class RandomSource := {
  rand_int : N -> Z -> Z;
  rand_hex : N -> nat -> string;
  rand_int_range : forall k n, 0 < n -> 0 <= rand_int k n < n;
}.

(** The configuration AuthService reads; expirations in seconds. *)
Class AuthConfig := {
  jwt_secret : string;
  jwt_refreshSecret : string;
  accessExpiration : Z;
  refreshExpiration : Z;
  app_feature : string -> option string;
  encryption_config : string -> option string;
}.

(** [configService.get(name) === 'true'] *)
Definition feature_on `{AuthConfig} (name : string) : bool := app_feature name === Some "true".

(** ** Rows *)
Record UserIdentity := mkIdentity {
  ui_email : string;
  ui_phone : option string;
  ui_phoneNumber : option string;
  ui_firstName : string;
  ui_lastName : string;
  ui_role : UserRole;
  ui_tenantId : string;
}.

Record SecondFactor := mkSecondFactor {
  sf_enabled : bool;
  sf_totpSecret : option EncryptedPayload;
  sf_backupCodes : list string;
  sf_enrolledAt : option Z;
}.

Record AuthUser := mkAuthUser {
  au_id : string;
  au_identity : UserIdentity;
  au_accountStatus : AccountStatus;
  au_emailVerified : bool;
  au_phoneVerified : bool;
  au_mustChangePassword : bool;
  au_pinLoginRequired : bool;
  au_passwordHash : string;
  au_lastPasswordChangeAt : Z;
  au_tempPasswordEncrypted : option string;
  au_tempPasswordExpiresAt : option Z;
  au_refreshToken : option string;
  au_lastLoginAt : option Z;
  au_passwordResetToken : option string;
  au_passwordResetExpiry : option Z;
  au_secondFactor : SecondFactor;
}.

Definition au_email (u : AuthUser) : string := ui_email (au_identity u).
Definition au_role (u : AuthUser) : UserRole := ui_role (au_identity u).
Definition au_tenantId (u : AuthUser) : string := ui_tenantId (au_identity u).
(** [user.phone ?? user.phoneNumber ?? null] *)
Definition au_anyPhone (u : AuthUser) : option string :=
  first_of (ui_phone (au_identity u)) (ui_phoneNumber (au_identity u)).

Record RefreshSession := mkSession {
  rs_id : string;
  rs_userId : string;
  rs_deviceId : string;
  rs_fingerprint : string;
  rs_expiresAt : Z;
  rs_isRevoked : bool;
  rs_createdAt : Z;
}.

Inductive PinPurpose := FIRST_LOGIN | PASSWORD_RESET.
#[export] Instance PinPurpose_dec : EqDecision PinPurpose. Proof. solve_decision. Defined.

Record PinVerification := mkPin {
  pv_id : string;
  pv_tenantId : string;
  pv_userId : string;
  pv_purpose : PinPurpose;
  pv_codeHash : string;
  pv_length : Z;
  pv_expiresAt : Z;
  pv_consumedAt : option Z;
  pv_revokedAt : option Z;
  pv_attempts : Z;
  pv_requestedByIp : option string;
}.

Record FailedLoginAttempt := mkFailed {
  fl_tenantId : string;
  fl_ipAddress : string;
  fl_username : string;
  fl_attempts : Z;
  fl_lastAttemptAt : Z;
  fl_expiresAt : Z;
}.

Record BlockedIP := mkBlockedIP {
  bi_tenantId : string;
  bi_ipAddress : string;
  bi_reason : string;
  bi_blockedAt : Z;
  bi_expiresAt : Z;
  bi_isActive : bool;
}.

(** ** Redis *)
Inductive RedisValue :=
  | RV_otp (code : string) (attempts : Z)          (* an OtpRecord *)
  | RV_pin (codeHash : string) (attempts : Z)      (* a PinRedisRecord *)
  | RV_text (text : string)
  | RV_count (n : Z).

Record RedisEntry := mkEntry {
  re_value : RedisValue;
  re_expiresAt : option Z;   (* milliseconds *)
}.

(** A row of the audit trail, a queued SMS and a queued e-mail. *)
Record AuthAudit := mkAuthAudit {
  aa_action : string;
  aa_userId : option string;
  aa_reason : string;
}.
Record SmsJob := mkSms { sms_type : string; sms_phone : string; sms_message : string }.
Record EmailJob := mkEmail { em_type : string; em_to : string; em_detail : string }.

(** ** The world of sign-in *)
Record AuthTables := mkAuthTables {
  at_users : list AuthUser;
  at_sessions : list RefreshSession;
  at_pins : list PinVerification;
  at_failed : list FailedLoginAttempt;
  at_blocked : list BlockedIP;
}.

Record AuthWorld := mkAuthWorld {
  aw_tables : AuthTables;
  aw_tenants : gmap string Tenant;
  aw_redis : gmap string RedisEntry;
  aw_redisUp : bool;           (* whether Redis answers *)
  aw_clock : Z;                (* [Date.now()] *)
  aw_draws : N;                (* identifiers, salts and random values drawn *)
  aw_audit : list AuthAudit;
  aw_sms : list SmsJob;
  aw_emails : list EmailJob;
}.

Definition aw_users (s : AuthWorld) : list AuthUser := at_users (aw_tables s).
Definition aw_sessions (s : AuthWorld) : list RefreshSession := at_sessions (aw_tables s).
Definition aw_pins (s : AuthWorld) : list PinVerification := at_pins (aw_tables s).

Definition with_tables (f : AuthTables -> AuthTables) (s : AuthWorld) : AuthWorld :=
  mkAuthWorld (f (aw_tables s)) (aw_tenants s) (aw_redis s) (aw_redisUp s) (aw_clock s) (aw_draws s)
    (aw_audit s) (aw_sms s) (aw_emails s).
Definition with_redis (f : gmap string RedisEntry -> gmap string RedisEntry) (s : AuthWorld) : AuthWorld :=
  mkAuthWorld (aw_tables s) (aw_tenants s) (f (aw_redis s)) (aw_redisUp s) (aw_clock s) (aw_draws s)
    (aw_audit s) (aw_sms s) (aw_emails s).
Definition at_time (now : Z) (s : AuthWorld) : AuthWorld :=
  mkAuthWorld (aw_tables s) (aw_tenants s) (aw_redis s) (aw_redisUp s) now (aw_draws s)
    (aw_audit s) (aw_sms s) (aw_emails s).
Definition bump_draws (s : AuthWorld) : AuthWorld :=
  mkAuthWorld (aw_tables s) (aw_tenants s) (aw_redis s) (aw_redisUp s) (aw_clock s) (N.succ (aw_draws s))
    (aw_audit s) (aw_sms s) (aw_emails s).
Definition add_audit (a : AuthAudit) (s : AuthWorld) : AuthWorld :=
  mkAuthWorld (aw_tables s) (aw_tenants s) (aw_redis s) (aw_redisUp s) (aw_clock s) (aw_draws s)
    (aw_audit s ++ [a]) (aw_sms s) (aw_emails s).
Definition add_sms (j : SmsJob) (s : AuthWorld) : AuthWorld :=
  mkAuthWorld (aw_tables s) (aw_tenants s) (aw_redis s) (aw_redisUp s) (aw_clock s) (aw_draws s)
    (aw_audit s) (aw_sms s ++ [j]) (aw_emails s).
Definition add_email (j : EmailJob) (s : AuthWorld) : AuthWorld :=
  mkAuthWorld (aw_tables s) (aw_tenants s) (aw_redis s) (aw_redisUp s) (aw_clock s) (aw_draws s)
    (aw_audit s) (aw_sms s) (aw_emails s ++ [j]).

Definition set_users_table (x : list AuthUser) (t : AuthTables) : AuthTables :=
  mkAuthTables x (at_sessions t) (at_pins t) (at_failed t) (at_blocked t).
Definition set_sessions_table (x : list RefreshSession) (t : AuthTables) : AuthTables :=
  mkAuthTables (at_users t) x (at_pins t) (at_failed t) (at_blocked t).
Definition set_pins_table (x : list PinVerification) (t : AuthTables) : AuthTables :=
  mkAuthTables (at_users t) (at_sessions t) x (at_failed t) (at_blocked t).
Definition set_failed_table (x : list FailedLoginAttempt) (t : AuthTables) : AuthTables :=
  mkAuthTables (at_users t) (at_sessions t) (at_pins t) x (at_blocked t).
Definition set_blocked_table (x : list BlockedIP) (t : AuthTables) : AuthTables :=
  mkAuthTables (at_users t) (at_sessions t) (at_pins t) (at_failed t) x.

Abbreviation AM := (comp AuthWorld).

(** A draw from the generator of identifiers, salts and random values. *)
Definition draw : AM N := fun s => (Ok (aw_draws s), bump_draws s).
Definition now : AM Z := gets aw_clock.

(** [try { m } catch (e) { h(e) }] *)
Definition handling {A} (m : AM A) (h : exn -> AM A) : AM A := fun s =>
  match m s with
  | (Ok a, s') => (Ok a, s')
  | (Err e, s') => h e s'
  end.

(** ** The tenant of a request

    Inside a request the Prisma middleware adds the request's tenant to every
    query on a tenant-scoped table, in place of any tenant the caller gave;
    inside [tenantAsyncStorage.run(undefined, ...)] it adds nothing. *)
Definition scoped (ctx : option string) (tenantId : string) : bool :=
  match ctx with Some t => tenantId === t | None => true end.

(** ** Users *)
Definition user_findFirst (ctx : option string) (where_ : AuthUser -> bool) (s : AuthWorld) : option AuthUser :=
  List.find (fun u => where_ u && scoped ctx (au_tenantId u)) (aw_users s).

Definition user_findUnique (ctx : option string) (id : string) : AuthWorld -> option AuthUser :=
  user_findFirst ctx (fun u => au_id u === id).

Definition user_update (ctx : option string) (id : string) (f : AuthUser -> AuthUser) : AM unit :=
  let* found := gets (user_findUnique ctx id) in
  throw_if (bool_decide (found = None)) (RecordNotFound "User") ;;
  modify (with_tables (fun t => set_users_table
    (update_where (fun u => (au_id u === id) && scoped ctx (au_tenantId u)) f (at_users t)) t)).

(** What the updates write. *)
Definition set_refreshToken (hash : option string) (u : AuthUser) : AuthUser :=
  mkAuthUser (au_id u) (au_identity u) (au_accountStatus u) (au_emailVerified u) (au_phoneVerified u)
    (au_mustChangePassword u) (au_pinLoginRequired u) (au_passwordHash u) (au_lastPasswordChangeAt u)
    (au_tempPasswordEncrypted u) (au_tempPasswordExpiresAt u) hash (au_lastLoginAt u)
    (au_passwordResetToken u) (au_passwordResetExpiry u) (au_secondFactor u).
Definition set_login (hash : string) (at_ : Z) (u : AuthUser) : AuthUser :=
  mkAuthUser (au_id u) (au_identity u) (au_accountStatus u) (au_emailVerified u) (au_phoneVerified u)
    (au_mustChangePassword u) (au_pinLoginRequired u) (au_passwordHash u) (au_lastPasswordChangeAt u)
    (au_tempPasswordEncrypted u) (au_tempPasswordExpiresAt u) (Some hash) (Some at_)
    (au_passwordResetToken u) (au_passwordResetExpiry u) (au_secondFactor u).
Definition set_phoneVerified (u : AuthUser) : AuthUser :=
  mkAuthUser (au_id u) (au_identity u) (au_accountStatus u) (au_emailVerified u) true
    (au_mustChangePassword u) (au_pinLoginRequired u) (au_passwordHash u) (au_lastPasswordChangeAt u)
    (au_tempPasswordEncrypted u) (au_tempPasswordExpiresAt u) (au_refreshToken u) (au_lastLoginAt u)
    (au_passwordResetToken u) (au_passwordResetExpiry u) (au_secondFactor u).
Definition set_mustChangePassword (u : AuthUser) : AuthUser :=
  mkAuthUser (au_id u) (au_identity u) (au_accountStatus u) (au_emailVerified u) (au_phoneVerified u)
    true (au_pinLoginRequired u) (au_passwordHash u) (au_lastPasswordChangeAt u)
    (au_tempPasswordEncrypted u) (au_tempPasswordExpiresAt u) (au_refreshToken u) (au_lastLoginAt u)
    (au_passwordResetToken u) (au_passwordResetExpiry u) (au_secondFactor u).
Definition set_resetNonce (hash : option string) (expiry : option Z) (u : AuthUser) : AuthUser :=
  mkAuthUser (au_id u) (au_identity u) (au_accountStatus u) (au_emailVerified u) (au_phoneVerified u)
    (au_mustChangePassword u) (au_pinLoginRequired u) (au_passwordHash u) (au_lastPasswordChangeAt u)
    (au_tempPasswordEncrypted u) (au_tempPasswordExpiresAt u) (au_refreshToken u) (au_lastLoginAt u)
    hash expiry (au_secondFactor u).
Definition set_temporary (text : option string) (expiry : option Z) (u : AuthUser) : AuthUser :=
  mkAuthUser (au_id u) (au_identity u) (au_accountStatus u) (au_emailVerified u) (au_phoneVerified u)
    (au_mustChangePassword u) (au_pinLoginRequired u) (au_passwordHash u) (au_lastPasswordChangeAt u)
    text expiry (au_refreshToken u) (au_lastLoginAt u)
    (au_passwordResetToken u) (au_passwordResetExpiry u) (au_secondFactor u).
Definition set_secondFactor (x : SecondFactor) (u : AuthUser) : AuthUser :=
  mkAuthUser (au_id u) (au_identity u) (au_accountStatus u) (au_emailVerified u) (au_phoneVerified u)
    (au_mustChangePassword u) (au_pinLoginRequired u) (au_passwordHash u) (au_lastPasswordChangeAt u)
    (au_tempPasswordEncrypted u) (au_tempPasswordExpiresAt u) (au_refreshToken u) (au_lastLoginAt u)
    (au_passwordResetToken u) (au_passwordResetExpiry u) x.
(** A new password: no forced change, no refresh token. *)
Definition set_password (hash : string) (at_ : Z) (u : AuthUser) : AuthUser :=
  mkAuthUser (au_id u) (au_identity u) (au_accountStatus u) (au_emailVerified u) (au_phoneVerified u)
    false (au_pinLoginRequired u) hash at_ (au_tempPasswordEncrypted u) (au_tempPasswordExpiresAt u)
    None (au_lastLoginAt u) (au_passwordResetToken u) (au_passwordResetExpiry u) (au_secondFactor u).
(** The end of PIN onboarding: the PIN proved the phone. *)
Definition set_onboarded (u : AuthUser) : AuthUser :=
  mkAuthUser (au_id u) (au_identity u) (au_accountStatus u) (au_emailVerified u) true
    (au_mustChangePassword u) false (au_passwordHash u) (au_lastPasswordChangeAt u)
    (au_tempPasswordEncrypted u) (au_tempPasswordExpiresAt u) (au_refreshToken u) (au_lastLoginAt u)
    (au_passwordResetToken u) (au_passwordResetExpiry u) (au_secondFactor u).

(** ** RedisService

    An entry is live until it expires; when Redis does not answer, reads find
    nothing, writes answer [false] and [incr] answers 0. *)
Definition live (at_ : Z) (e : RedisEntry) : bool :=
  match re_expiresAt e with Some t => at_ <? t | None => true end.

Definition redis_get (key : string) (s : AuthWorld) : option RedisValue :=
  if aw_redisUp s then
    match aw_redis s !! key with
    | Some e => if live (aw_clock s) e then Some (re_value e) else None
    | None => None
    end
  else None.

Definition redis_setex (key : string) (v : RedisValue) (ttlSeconds : Z) : AM bool := fun s =>
  if aw_redisUp s
  then (Ok true, with_redis <[key := mkEntry v (Some (aw_clock s + ttlSeconds * 1000))]> s)
  else (Ok false, s).

Definition redis_del (key : string) : AM unit :=
  modify (fun s => if aw_redisUp s then with_redis (delete key) s else s).

Definition redis_exists (key : string) (s : AuthWorld) : bool := bool_decide (is_Some (redis_get key s)).

(** A counter keeps the expiry of its first increment. *)
Definition redis_incr (key : string) (ttlSeconds : Z) : AM Z := fun s =>
  if negb (aw_redisUp s) then (Ok 0, s) else
  match redis_get key s, aw_redis s !! key with
  | Some (RV_count n), Some e => (Ok (n + 1), with_redis <[key := mkEntry (RV_count (n + 1)) (re_expiresAt e)]> s)
  | _, _ => (Ok 1, with_redis <[key := mkEntry (RV_count 1) (Some (aw_clock s + ttlSeconds * 1000))]> s)
  end.

(** ** Settings of a tenant *)
Fixpoint json_path (path : list string) (v : json) : option json :=
  match path with
  | [] => Some v
  | key :: path' =>
      match v with
      | JObj fields => match List.find (fun f => f.1 === key) fields with
                       | Some (_, x) => json_path path' x
                       | None => None
                       end
      | _ => None
      end
  end.

Definition tenant_setting (tenantId : string) (path : list string) (s : AuthWorld) : option json :=
  match aw_tenants s !! tenantId with
  | Some t => json_path path (tn_settings t)
  | None => None
  end.

(** [typeof x === 'number'] and its value *)
Definition json_number (v : option json) : option Q :=
  match v with Some (JNum text) => parse_decimal text | _ => None end.
(** [x === true] *)
Definition json_true (v : option json) : bool :=
  match v with Some (JBool true) => true | _ => false end.
