(* ===== verification/AuthParts.v ===== *)
(** * AuthParts: the services behind sign-in

    One-time codes ([otp.service.ts], [pin/pin.service.ts]), revoked tokens
    ([jwt-blocklist.service.ts]), the password policy, refresh sessions
    ([session.service.ts]), the second factor ([two-factor.service.ts]) and the
    check of a bearer token ([strategies/], [jwt.guard.ts]). *)
From S2P Require Import Prelude Money Json Format ImportText Schema AuditLogs Lending AuthState.

Definition unauthorized {A} (msg : string) : AM A := throw (Unauthorized msg).

(** A write to the audit trail; its failures are swallowed. *)
Definition auth_audit (action : string) (userId : option string) (reason : string) : AM unit :=
  modify (add_audit (mkAuthAudit action userId reason)).

Definition enqueueSms (type phone message : string) : AM unit := modify (add_sms (mkSms type phone message)).

(** [prisma.$transaction([...])]: the tables roll back. *)
Definition auth_transaction {A} (body : AM A) : AM A := fun s =>
  match body s with
  | (Ok a, s') => (Ok a, s')
  | (Err e, s') => (Err e, with_tables (fun _ => aw_tables s) s')
  end.

(** ** OtpService *)
Module Otp.
Section Otp.
Context `{Sha256, RandomSource}.

Definition OTP_TTL_SECONDS : Z := 30 * 60.
Definition MAX_ATTEMPTS : Z := 3.
Definition OTP_KEY_PREFIX : string := "otp:pwd-reset:".

Definition otp_key (phone : string) : string := OTP_KEY_PREFIX +:+ sha256 (trim phone).

(** [String(randomInt(100_000, 1_000_000))] *)
Definition otp_code (k : N) : string := pretty (100000 + rand_int k 900000).

Definition generate (phone : string) : AM string :=
  let* k := draw in
  redis_setex (otp_key phone) (RV_otp (otp_code k) 0) OTP_TTL_SECONDS ;;
  ret (otp_code k).

(** What [validate] does with the record it read. *)
Definition settle (phone code expected : string) (attempts : Z) : AM bool :=
  let key := otp_key phone in
  if trim code === expected then redis_del key ;; ret true else
  let nextAttempts := attempts + 1 in
  if MAX_ATTEMPTS <=? nextAttempts then redis_del key ;; ret false else
  redis_setex key (RV_otp expected nextAttempts) OTP_TTL_SECONDS ;; ret false.

Definition validate (phone code : string) : AM bool :=
  let* record := gets (redis_get (otp_key phone)) in
  match record with
  | Some (RV_otp expected attempts) => settle phone code expected attempts
  | _ => ret false
  end.

Definition delete_otp (phone : string) : AM unit := redis_del (otp_key phone).
End Otp.
End Otp.

(** ** PinService *)
Module Pin.
Section Pin.
Context `{Sha256, RandomSource}.

Definition CODE_LENGTH : nat := 8.
Definition MAX_ATTEMPTS : Z := 5.
Definition CODE_UPPER : string := "ABCDEFGHJKMNPQRSTUVWXYZ".
Definition CODE_LOWER : string := "abcdefghjkmnpqrstuvwxyz".
Definition CODE_DIGITS : string := "23456789".
Definition CODE_SYMBOLS : string := "@#$!".
Definition CODE_ALL : string := CODE_UPPER +:+ CODE_LOWER +:+ CODE_DIGITS +:+ CODE_SYMBOLS.
Definition PIN_TTL_SECONDS : Z := 20 * 60.

(** [chars[randomInt(chars.length)]] *)
Definition pickChar (chars : string) : AM ascii :=
  let* k := draw in
  ret (default " "%char (String.get (Z.to_nat (rand_int k (Z.of_nat (String.length chars)))) chars)).

Fixpoint pick_more (n : nat) (chars : list ascii) : AM (list ascii) :=
  match n with
  | O => ret chars
  | S n' => let* c := pickChar CODE_ALL in pick_more n' (chars ++ [c])
  end.

(** [[chars[i], chars[j]] = [chars[j], chars[i]]] *)
Definition swap (i j : nat) (chars : list ascii) : list ascii :=
  match chars !! i, chars !! j with
  | Some x, Some y => <[i := y]> (<[j := x]> chars)
  | _, _ => chars
  end.

(** The loop [for (let i = ...; i > 0; i -= 1)]. *)
Fixpoint shuffle (i : nat) (chars : list ascii) : AM (list ascii) :=
  match i with
  | O => ret chars
  | S i' =>
      let* k := draw in
      shuffle i' (swap i (Z.to_nat (rand_int k (Z.of_nat i + 1))) chars)
  end.

Definition generateCode (length_ : nat) : AM string :=
  let* u := pickChar CODE_UPPER in
  let* l := pickChar CODE_LOWER in
  let* d := pickChar CODE_DIGITS in
  let* y := pickChar CODE_SYMBOLS in
  let* chars := pick_more (length_ - 4) [u; l; d; y] in
  let* chars := shuffle (length chars - 1) chars in
  ret (String.string_of_list_ascii chars).

Definition purpose_name (p : PinPurpose) : string :=
  match p with FIRST_LOGIN => "FIRST_LOGIN" | PASSWORD_RESET => "PASSWORD_RESET" end.

Definition pin_key (tenantId userId : string) (purpose : PinPurpose) : string :=
  "pin:" +:+ tenantId +:+ ":" +:+ userId +:+ ":" +:+ purpose_name purpose.

Definition hashPin (pin : string) : string := sha256 pin.

(** [consumedAt: null, revokedAt: null] *)
Definition pin_open (p : PinVerification) : bool :=
  bool_decide (pv_consumedAt p = None) && bool_decide (pv_revokedAt p = None).

Definition of_purpose (userId : string) (purpose : PinPurpose) (p : PinVerification) : bool :=
  (pv_userId p === userId) && (pv_purpose p === purpose).

Definition set_pin_times (consumed revoked : option Z) (attempts : Z) (p : PinVerification) : PinVerification :=
  mkPin (pv_id p) (pv_tenantId p) (pv_userId p) (pv_purpose p) (pv_codeHash p) (pv_length p) (pv_expiresAt p)
    consumed revoked attempts (pv_requestedByIp p).

(** [pinVerification.updateMany({ where: { userId, purpose, consumedAt: null,
    revokedAt: null }, data })] for the tenant [tenant] selects. *)
Definition pins_update (tenant : string -> bool) (userId : string) (purpose : PinPurpose)
    (f : PinVerification -> PinVerification) : AM unit :=
  modify (with_tables (fun t => set_pins_table
    (update_where (fun p => of_purpose userId purpose p && tenant (pv_tenantId p) && pin_open p) f (at_pins t)) t)).

Definition invalidateActivePins (ctx : option string) (userId : string) (purpose : PinPurpose) : AM unit :=
  let* at_ := now in
  pins_update (scoped ctx) userId purpose (fun p => set_pin_times (pv_consumedAt p) (Some at_) (pv_attempts p) p).

(** The tenant a request's middleware leaves in the where clause. *)
Definition pin_tenant (ctx : option string) (tenantId : string) (t : string) : bool := default tenantId ctx === t.

Definition markConsumed (ctx : option string) (userId tenantId : string) (purpose : PinPurpose) : AM unit :=
  auth_transaction
    (let* at_ := now in
     pins_update (pin_tenant ctx tenantId) userId purpose
       (fun p => set_pin_times (Some at_) (pv_revokedAt p) (pv_attempts p) p) ;;
     user_update ctx userId set_phoneVerified).

Definition recordAttempts (ctx : option string) (userId tenantId : string) (purpose : PinPurpose) (attempts : Z)
  : AM unit :=
  pins_update (pin_tenant ctx tenantId) userId purpose
    (fun p => set_pin_times (pv_consumedAt p) (pv_revokedAt p) attempts p).

Definition pin_message (purpose : PinPurpose) (firstName pin : string) : string :=
  match purpose with
  | FIRST_LOGIN => "Hello " +:+ firstName +:+ ", your Beba SACCO temporary access code is " +:+ pin +:+ ". "
      +:+ "It expires in 20 minutes. Do not share this with anyone."
  | PASSWORD_RESET => "Your Beba SACCO password reset code is " +:+ pin +:+ ". It expires in 20 minutes. "
      +:+ "Do not share this code with anyone."
  end.

Definition dispatchSms (phone pin : string) (purpose : PinPurpose) (firstName : string) : AM unit :=
  enqueueSms (match purpose with FIRST_LOGIN => "FIRST_LOGIN_PIN" | PASSWORD_RESET => "PASSWORD_RESET_OTP" end)
    phone (pin_message purpose firstName pin).

Record IssuedPin := mkIssued { ip_pin : string; ip_verificationId : string; ip_expiresAt : Z }.

Context `{UuidSource}.

Definition pin_create (ctx : option string) (tenantId userId : string) (purpose : PinPurpose) (codeHash : string)
    (expiresAt : Z) (ip : option string) : AM string :=
  let* k := draw in
  let row := mkPin (uuid k) (default tenantId ctx) userId purpose codeHash (Z.of_nat CODE_LENGTH) expiresAt
    None None 0 ip in
  modify (with_tables (fun t => set_pins_table (at_pins t ++ [row]) t)) ;;
  ret (uuid k).

Definition generateAndIssuePin (ctx : option string) (userId tenantId : string) (purpose : PinPurpose)
    (requestedByIp : option string) : AM IssuedPin :=
  let* found := gets (user_findUnique ctx userId) in
  let* user := or_throw found (RecordNotFound "User") in
  let* phone := or_throw (truthy (au_anyPhone user))
    (PlainError ("Cannot issue PIN — user " +:+ userId +:+ " has no phone number on file")) in
  let* pin := generateCode CODE_LENGTH in
  let codeHash := hashPin pin in
  let* at_ := now in
  let expiresAt := at_ + PIN_TTL_SECONDS * 1000 in
  invalidateActivePins ctx userId purpose ;;
  let* id := pin_create ctx tenantId userId purpose codeHash expiresAt requestedByIp in
  redis_setex (pin_key tenantId userId purpose) (RV_pin codeHash 0) PIN_TTL_SECONDS ;;
  dispatchSms phone pin purpose (ui_firstName (au_identity user)) ;;
  ret (mkIssued pin id expiresAt).

Definition validatePin (ctx : option string) (userId tenantId : string) (purpose : PinPurpose) (plainPin : string)
  : AM bool :=
  let key := pin_key tenantId userId purpose in
  let* record := gets (redis_get key) in
  match record with
  | Some (RV_pin codeHash attempts) =>
      if hashPin (trim plainPin) === codeHash then
        redis_del key ;;
        markConsumed ctx userId tenantId purpose ;;
        ret true
      else
        let nextAttempts := attempts + 1 in
        recordAttempts ctx userId tenantId purpose nextAttempts ;;
        if MAX_ATTEMPTS <=? nextAttempts then redis_del key ;; ret false else
        redis_setex key (RV_pin codeHash nextAttempts) PIN_TTL_SECONDS ;; ret false
  | _ => ret false
  end.

Definition regenerateAndRevealPin (ctx : option string) (userId tenantId adminId : string) (purpose : PinPurpose)
    (requestedByIp : option string) : AM IssuedPin :=
  let* issued := generateAndIssuePin ctx userId tenantId purpose requestedByIp in
  auth_audit "ADMIN_REVEAL_PIN" (Some adminId) userId ;;
  ret issued.

Definition assertIssuanceRateLimit (scopeKey : string) (limit windowSeconds : Z) : AM unit :=
  let* count := redis_incr ("pin:ratelimit:" +:+ scopeKey) windowSeconds in
  throw_if (limit <? count) (TooManyRequests "Too many PIN requests. Please try again later.").
End Pin.
End Pin.

(** ** JwtBlocklistService *)
Definition DEFAULT_TTL_SECONDS : Z := 15 * 60.
Definition blocklist_key (jti : string) : string := "blocklist:access:" +:+ jti.

Definition blocklist_add (jti : string) (ttlSec : Z) : AM unit :=
  let* ok := redis_setex (blocklist_key jti) (RV_text "1") ttlSec in
  throw_if (negb ok) (HttpException 503 "Token revocation temporarily unavailable — please try again" []) ;;
  redis_setex ("blocklist:" +:+ jti) (RV_text "1") ttlSec ;;
  ret tt.

Definition isBlocked (jti : string) : AuthWorld -> bool := redis_exists (blocklist_key jti).

(** ** PasswordPolicyService *)
Definition some_char (P : ascii -> bool) (s : string) : bool := negb (all_chars (fun c => negb (P c)) s).
Definition is_special (c : ascii) : bool := negb (is_upper c || is_lower c || is_digit c).

Definition min_length_setting (tenantId : string) (s : AuthWorld) : option json :=
  tenant_setting tenantId ["security"; "passwordPolicy"; "minLength"] s.
Definition min_length (tenantId : string) (s : AuthWorld) : Q :=
  default (inject_Z 8) (json_number (min_length_setting tenantId s)).
Definition min_length_text (tenantId : string) (s : AuthWorld) : string :=
  match min_length_setting tenantId s with Some (JNum text) => text | _ => "8" end.

Definition is_complex (password : string) : bool :=
  some_char is_upper password && some_char is_lower password && some_char is_digit password
  && some_char is_special password.

Definition validatePassword (tenantId password : string) : AM unit :=
  let* minLength := gets (min_length tenantId) in
  let* text := gets (min_length_text tenantId) in
  throw_if (negb (Qle_bool minLength (inject_Z (Z.of_nat (String.length password)))))
    (BadRequest ("Password must be at least " +:+ text +:+ " characters long")) ;;
  let* requireComplexity := gets (fun s =>
    json_true (tenant_setting tenantId ["security"; "passwordPolicy"; "requireComplexity"] s)) in
  throw_if (requireComplexity && negb (is_complex password))
    (BadRequest "Password must contain at least one uppercase letter, one lowercase letter, one digit, and one special character").

(** [typeof expiryDays === 'number' && expiryDays > 0], and whether the age is
    past it. *)
Definition password_too_old (tenantId : string) (lastChange : Z) (s : AuthWorld) : bool :=
  match json_number (tenant_setting tenantId ["security"; "passwordPolicy"; "expiryDays"] s) with
  | Some days => negb (Qle_bool days 0)
      && negb (Qle_bool (inject_Z (aw_clock s - lastChange)) (days * inject_Z msPerDay))
  | None => false
  end.

Definition validatePasswordAge (tenantId : string) (lastChange : Z) : AM unit :=
  let* old := gets (password_too_old tenantId lastChange) in
  throw_if old (BadRequest "Password expired. Please change your password.").

(** ** SessionService *)
Module Sessions.
Section Sessions.
Context `{Sha256, UuidSource}.

Record DeviceInfo := mkDevice {
  dev_userAgent : string;
  dev_timezone : option string;
  dev_screenRes : option string;
}.

Definition MAX_CONCURRENT_SESSIONS : nat := 3.
Definition REFRESH_TOKEN_TTL_DAYS : Z := 7.

Definition generateDeviceId (info : DeviceInfo) : string :=
  sha256 (join "|" [dev_userAgent info; default "UTC" (dev_timezone info); default "1920x1080" (dev_screenRes info)]).

Definition fingerprint (info : DeviceInfo) : string :=
  String.substring 0 50 (dev_userAgent info) +:+ " | " +:+ default "UTC" (dev_timezone info).

(** [new Date(Date.now() + minutes * 60 * 1000)]: whole milliseconds. *)
Definition getSessionExpiryDate (tenantId : string) (s : AuthWorld) : Z :=
  let fallback := aw_clock s + REFRESH_TOKEN_TTL_DAYS * msPerDay in
  match json_number (tenant_setting tenantId ["security"; "sessionTimeoutMinutes"] s) with
  | Some m => if negb (Qle_bool m 0) then Qfloor (inject_Z (aw_clock s) + m * 60000) else fallback
  | None => fallback
  end.

(** The first of the rows that no other row precedes. *)
Fixpoint first_by {A} (before : A -> A -> bool) (l : list A) : option A :=
  match l with
  | [] => None
  | x :: l' => match first_by before l' with
               | Some y => if before y x then Some y else Some x
               | None => Some x
               end
  end.
Definition older (a b : RefreshSession) : bool := rs_createdAt a <? rs_createdAt b.
Definition newer (a b : RefreshSession) : bool := rs_createdAt b <? rs_createdAt a.

(** [{ userId, isRevoked: false }], and with [expiresAt: { gt: new Date() }] *)
Definition unrevoked (userId : string) (r : RefreshSession) : bool :=
  (rs_userId r === userId) && negb (rs_isRevoked r).
Definition active (userId : string) (at_ : Z) (r : RefreshSession) : bool :=
  unrevoked userId r && (at_ <? rs_expiresAt r).

Definition active_count (userId : string) (s : AuthWorld) : nat :=
  count_where (active userId (aw_clock s)) (aw_sessions s).
Definition oldest_unrevoked (userId : string) (s : AuthWorld) : option RefreshSession :=
  first_by older (List.filter (unrevoked userId) (aw_sessions s)).
Definition newest_active (userId : string) (s : AuthWorld) : option RefreshSession :=
  first_by newer (List.filter (active userId (aw_clock s)) (aw_sessions s)).

Definition revoke (r : RefreshSession) : RefreshSession :=
  mkSession (rs_id r) (rs_userId r) (rs_deviceId r) (rs_fingerprint r) (rs_expiresAt r) true (rs_createdAt r).
Definition sessions_revoke (P : RefreshSession -> bool) : AM unit :=
  modify (with_tables (fun t => set_sessions_table (update_where P revoke (at_sessions t)) t)).

Definition createSession (userId : string) (deviceInfo : DeviceInfo) (tenantId : string) : AM string :=
  let* expiresAt := gets (getSessionExpiryDate tenantId) in
  let* activeSessions := gets (active_count userId) in
  (if Nat.leb MAX_CONCURRENT_SESSIONS activeSessions then
     let* oldest := gets (oldest_unrevoked userId) in
     match oldest with
     | Some o => sessions_revoke (fun r => rs_id r === rs_id o)
     | None => ret tt
     end
   else ret tt) ;;
  let* k := draw in
  let* at_ := now in
  let row := mkSession (uuid k) userId (generateDeviceId deviceInfo) (fingerprint deviceInfo) expiresAt false at_ in
  modify (with_tables (fun t => set_sessions_table (at_sessions t ++ [row]) t)) ;;
  auth_audit "AUTH.SESSION.CREATED" (Some userId) (uuid k) ;;
  ret (uuid k).

Definition session_by_id (id : string) (s : AuthWorld) : option RefreshSession :=
  List.find (fun r => rs_id r === id) (aw_sessions s).

Definition rotateSession (sessionId userId : string) (deviceInfo : DeviceInfo) (tenantId : string) : AM string :=
  let* found := gets (session_by_id sessionId) in
  let* session := or_throw found (Unauthorized "Invalid session") in
  throw_if (negb (rs_userId session === userId)) (Unauthorized "Invalid session") ;;
  (if rs_isRevoked session then
     sessions_revoke (fun r => rs_userId r === userId) ;;
     auth_audit "AUTH.SESSION.REUSE_DETECTED" (Some userId) sessionId ;;
     unauthorized "Session reuse detected – all sessions revoked"
   else ret tt) ;;
  let* at_ := now in
  throw_if (rs_expiresAt session <? at_) (Unauthorized "Session expired") ;;
  (if negb (rs_deviceId session === generateDeviceId deviceInfo) then
     auth_audit "AUTH.SESSION.DEVICE_MISMATCH" (Some userId) sessionId ;;
     throw (Forbidden "Device fingerprint mismatch")
   else ret tt) ;;
  sessions_revoke (fun r => rs_id r === sessionId) ;;
  let* newSessionId := createSession userId deviceInfo tenantId in
  auth_audit "AUTH.SESSION.ROTATED" (Some userId) newSessionId ;;
  ret newSessionId.

Definition revokeSession (sessionId userId : string) : AM unit :=
  let* found := gets (session_by_id sessionId) in
  let* session := or_throw found (Unauthorized "Session not found") in
  throw_if (negb (rs_userId session === userId)) (Unauthorized "Session not found") ;;
  sessions_revoke (fun r => rs_id r === sessionId) ;;
  auth_audit "AUTH.SESSION.REVOKED" (Some userId) sessionId.
End Sessions.
End Sessions.

(** ** EncryptionService and TwoFactorService *)
Module TwoFactor.
Section TwoFactor.
Context `{Argon2, Totp, AesGcm, RandomSource, AuthConfig}.

(** The key of a tenant: derived from the vault token or from the master key. *)
Definition getTenantKey (tenantId : string) : string * string :=
  if encryption_config "KMS_ENABLED" === Some "true"
  then (hmac_key (default "dev-token" (encryption_config "VAULT_TOKEN")) ("tenant-key:" +:+ tenantId),
        "kms-" +:+ String.substring 0 8 tenantId)
  else (hmac_key (default "beba-sacco-dev-master-key-32bytes!" (encryption_config "ENCRYPTION_MASTER_KEY")) tenantId,
        "env-" +:+ String.substring 0 8 tenantId).

Definition encrypt (plaintext tenantId : string) : AM EncryptedPayload :=
  let* iv := draw in
  let '(key, keyId) := getTenantKey tenantId in
  ret (mkSealed (gcm_seal key iv plaintext) keyId).

Definition decrypt (payload : EncryptedPayload) (tenantId : string) : AM string :=
  or_throw (gcm_open (getTenantKey tenantId).1 (ep_body payload))
    (PlainError "Unsupported state or unable to authenticate data").

(** [const isValid = await verify({ token, secret }); if (!isValid) throw]: an
    object is truthy whatever it says. *)
Definition is_truthy (answer : TotpAnswer) : bool :=
  match answer with TA_boolean b => b | TA_object _ => true end.

Definition check_totp (token secret : string) : AM unit :=
  let* at_ := now in
  let* isValid := or_throw (totp_verify token secret at_) (PlainError "Invalid token or secret") in
  throw_if (negb (is_truthy isValid)) (BadRequest "Invalid TOTP token").

(** [randomBytes(4).toString('hex')] and its hash, ten times. *)
Fixpoint backup_codes (n : nat) : AM (list (string * string)) :=
  match n with
  | O => ret []
  | S n' =>
      let* k := draw in
      let* salt := draw in
      let code := rand_hex k 4 in
      let* rest := backup_codes n' in
      ret ((code, argon2_hash salt code) :: rest)
  end.

Definition verifyAndEnable (ctx : option string) (userId tenantId secret token : string) : AM (list string) :=
  check_totp token secret ;;
  let* sealed := encrypt secret tenantId in
  let* codes := backup_codes 10 in
  let* at_ := now in
  user_update ctx userId (set_secondFactor (mkSecondFactor true (Some sealed) codes.*2 (Some at_))) ;;
  auth_audit "AUTH.2FA_ENABLED" (Some userId) "" ;;
  ret (codes.*1).

(** [user.findUnique({ where: { id, tenantId } })]: inside a request the
    tenant is the request's. *)
Definition verifyToken (ctx : option string) (userId token tenantId : string) : AM unit :=
  let* found := gets (user_findFirst ctx (fun u => (au_id u === userId) && (default tenantId ctx === au_tenantId u))) in
  let* user := or_throw found (BadRequest "2FA not enabled for this user") in
  let* sealed := or_throw (sf_totpSecret (au_secondFactor user)) (BadRequest "2FA not enabled for this user") in
  throw_if (negb (sf_enabled (au_secondFactor user))) (BadRequest "2FA not enabled for this user") ;;
  let* secret := decrypt sealed tenantId in
  check_totp token secret.

(** The loop over the stored codes: the first that matches is dropped. *)
Fixpoint consume_code (code : string) (codes : list string) : AM (option (list string)) :=
  match codes with
  | [] => ret None
  | c :: rest =>
      let* isValid := or_throw (argon2_verify c code) (PlainError "Invalid hash") in
      if (isValid : bool) then ret (Some rest) else
      let* left := consume_code code rest in
      ret (cons c <$> left)
  end.

Definition set_backupCodes (codes : list string) (u : AuthUser) : AuthUser :=
  set_secondFactor (mkSecondFactor (sf_enabled (au_secondFactor u)) (sf_totpSecret (au_secondFactor u)) codes
    (sf_enrolledAt (au_secondFactor u))) u.

Definition verifyBackupCode (ctx : option string) (userId code : string) : AM unit :=
  let* found := gets (user_findUnique ctx userId) in
  let* user := or_throw found (BadRequest "Invalid backup code") in
  let* newCodes := consume_code code (sf_backupCodes (au_secondFactor user)) in
  match newCodes with
  | None => throw (BadRequest "Invalid backup code")
  | Some codes =>
      user_update ctx userId (set_backupCodes codes) ;;
      auth_audit "AUTH.2FA_BACKUP_CODE_USED" (Some userId) (pretty (Z.of_nat (length codes)))
  end.

Definition regenerateBackupCodes (ctx : option string) (userId : string) : AM (list string) :=
  let* codes := backup_codes 10 in
  user_update ctx userId (set_backupCodes codes.*2) ;;
  auth_audit "AUTH.2FA_BACKUP_CODES_REGENERATED" (Some userId) "" ;;
  ret (codes.*1).

Definition disable2FA (ctx : option string) (userId : string) : AM unit :=
  user_update ctx userId (set_secondFactor (mkSecondFactor false None [] None)) ;;
  auth_audit "AUTH.2FA_DISABLED" (Some userId) "".

(** The password or a TOTP token, as both routes of the controller ask. *)
Definition reauthenticate (ctx : option string) (user : AuthUser) (password token : option string) : AM unit :=
  match truthy password, truthy token with
  | Some p, _ =>
      let* isValid := or_throw (argon2_verify (au_passwordHash user) p) (PlainError "Invalid hash") in
      throw_if (negb isValid) (Forbidden "Invalid password")
  | None, Some t => verifyToken ctx (au_id user) t (au_tenantId user)
  | None, None => throw (Forbidden "Password or TOTP token required")
  end.

(** [POST auth/2fa/backup-codes/regenerate] *)
Definition regenerate_route (ctx : option string) (userId : string) (password token : option string)
  : AM (list string) :=
  throw_if (bool_decide (truthy password = None) && bool_decide (truthy token = None))
    (Forbidden "Password or TOTP token required") ;;
  let* found := gets (user_findUnique ctx userId) in
  let* user := or_throw found (Unauthorized "Unauthorized") in
  reauthenticate ctx user password token ;;
  regenerateBackupCodes ctx userId.

(** [POST auth/2fa/disable] *)
Definition disable_route (ctx : option string) (userId userTenantId : string) (password token : option string)
  : AM unit :=
  let* required := gets (fun s => json_true (tenant_setting userTenantId ["security"; "require2FA"] s)) in
  throw_if required (Forbidden "Tenant policy requires 2FA. You cannot disable it.") ;;
  let* found := gets (user_findUnique ctx userId) in
  let* user := or_throw found (Unauthorized "Unauthorized") in
  reauthenticate ctx user password token ;;
  disable2FA ctx userId.
End TwoFactor.
End TwoFactor.

(** ** The bearer token of a request

    Guards run before the tenant of the request is set. *)
Section Bearer.
Context `{Jwt, AuthConfig}.

(** [`${undefined}`] *)
Definition text_of (o : option string) : string := default "undefined" o.

(** JwtStrategy.validate *)
Definition strategy_validate (payload : JwtPayload) : AM AuthUser :=
  throw_if (jp_scope payload === Some "2fa_setup") (Unauthorized "Token is restricted to 2FA setup") ;;
  let* blocked := gets (isBlocked (text_of (jp_jti payload))) in
  throw_if blocked (Unauthorized "Token has been revoked") ;;
  let* found := gets (user_findUnique None (jp_sub payload)) in
  let* user := or_throw found (Unauthorized "User no longer exists") in
  throw_if (negb (Some (au_tenantId user) === jp_tenantId payload) && negb (au_role user === SUPER_ADMIN))
    (Unauthorized "Token tenant mismatch") ;;
  throw_if (negb (au_accountStatus user === AS_ACTIVE)) (Unauthorized "Account has been deactivated") ;;
  ret user.

(** passport-jwt checks signature and expiry before the strategy. *)
Definition verify_bearer (token : string) : AM JwtPayload :=
  let* at_ := now in
  or_throw (jwt_verify jwt_secret at_ token) (Unauthorized "Authentication required").

(** JwtAuthGuard *)
Definition authenticate (skipPasswordCheck : bool) (token : string) : AM AuthUser :=
  let* payload := verify_bearer token in
  let* user := strategy_validate payload in
  throw_if (au_mustChangePassword user && negb skipPasswordCheck)
    (Forbidden "Password change required — please update your password via PATCH /auth/change-password") ;;
  ret user.

(** TwoFactorSetupStrategy *)
Definition setup_validate (token : string) : AM AuthUser :=
  let* payload := verify_bearer token in
  throw_if (negb (jp_scope payload === Some "2fa_setup")) (Unauthorized "Token is not a 2FA setup token") ;;
  let* found := gets (user_findUnique None (jp_sub payload)) in
  or_throw found (Unauthorized "User no longer exists").
End Bearer.
