(* ===== verification/Auth.v ===== *)
(** * Auth: AuthService

    [src/src/modules/auth/auth.service.ts]: sign-in by password, by PIN and by
    one-time code, registration, rotation of refresh tokens, sign-out, and the
    ways to set a new password.  Each method runs in a request of the tenant
    [tenantId]; queries inside [tenantAsyncStorage.run(undefined, ...)] have no
    tenant ([None]). *)
From S2P Require Import Prelude Money Json Format ImportText Schema AuditLogs Lending AuthState AuthParts.

Definition strip_plus (s : string) : string := if String.prefix "+" s then slice 1 s else s.

Record LoginDto := mkLoginDto {
  ld_email : option string;
  ld_phone : option string;
  ld_password : string;
  ld_totpToken : option string;
  ld_backupCode : option string;
}.

Record LoginUserDto := mkLoginUser {
  lu_id : string;
  lu_email : string;
  lu_firstName : string;
  lu_lastName : string;
  lu_role : UserRole;
  lu_tenantId : string;
  lu_mustChangePassword : bool;
}.

Record LoginResponseDto := mkLoginResponse {
  lr_accessToken : string;
  lr_refreshToken : string;
  lr_requiresPasswordChange : bool;
  lr_user : LoginUserDto;
}.

Definition toUserDto (u : AuthUser) (mustChangePassword : bool) : LoginUserDto :=
  let i := au_identity u in
  mkLoginUser (au_id u) (ui_email i) (ui_firstName i) (ui_lastName i) (ui_role i) (ui_tenantId i) mustChangePassword.

Section AuthService.
Context `{Argon2, Jwt, Totp, AesGcm, RandomSource, AuthConfig, Sha256, UuidSource}.

(** ** Failed attempts *)
Definition BLOCK_THRESHOLD : Z := 5.
Definition BLOCK_DURATION_MS : Z := 12 * 60 * 60 * 1000.

Definition failed_key (tenantId ip username : string) (f : FailedLoginAttempt) : bool :=
  (fl_tenantId f === tenantId) && (fl_ipAddress f === ip) && (fl_username f === username).

Definition failed_upsert (tenantId ip username : string) (at_ : Z) (l : list FailedLoginAttempt)
  : list FailedLoginAttempt * Z :=
  let expiresAt := at_ + 24 * 60 * 60 * 1000 in
  match List.find (failed_key tenantId ip username) l with
  | Some f =>
      (update_where (failed_key tenantId ip username)
         (fun f => mkFailed (fl_tenantId f) (fl_ipAddress f) (fl_username f) (fl_attempts f + 1) at_ expiresAt) l,
       fl_attempts f + 1)
  | None => (l ++ [mkFailed tenantId ip username 1 at_ expiresAt], 1)
  end.

Definition blocked_upsert (tenantId ip : string) (at_ : Z) (l : list BlockedIP) : list BlockedIP :=
  let of_ip b := (bi_tenantId b === tenantId) && (bi_ipAddress b === ip) in
  let expiry := at_ + BLOCK_DURATION_MS in
  if existsb of_ip l
  then update_where of_ip (fun b => mkBlockedIP (bi_tenantId b) (bi_ipAddress b) (bi_reason b) at_ expiry true) l
  else l ++ [mkBlockedIP tenantId ip "Brute Force" at_ expiry true].

Definition trackFailedAttempt (tenantId username : string) (ipAddress : option string) : AM unit :=
  match truthy ipAddress with
  | None => ret tt
  | Some ip =>
      let* at_ := now in
      let* updated := gets (fun s => failed_upsert tenantId ip username at_ (at_failed (aw_tables s))) in
      modify (with_tables (set_failed_table updated.1)) ;;
      if BLOCK_THRESHOLD <=? updated.2
      then modify (with_tables (fun t => set_blocked_table (blocked_upsert tenantId ip at_ (at_blocked t)) t))
      else ret tt
  end.

(** ** Tokens *)
Definition access_payload (u : AuthUser) (jti : string) : JwtPayload :=
  mkPayload (au_id u) (au_email u) (au_anyPhone u) (Some (au_role u)) (Some (au_tenantId u)) (Some jti)
    None None None.

Definition generateTokens (u : AuthUser) : AM (string * string) :=
  let* k := draw in
  let* at_ := now in
  let payload := access_payload u (uuid k) in
  let iat := at_ / 1000 in
  ret (jwt_sign jwt_secret iat accessExpiration payload, jwt_sign jwt_refreshSecret iat refreshExpiration payload).

Definition hash (text : string) : AM string := let* salt := draw in ret (argon2_hash salt text).

(** What every sign-in ends with: tokens, the hash of the refresh token on the
    user's row, a line in the audit trail. *)
Definition issueSession (ctx : option string) (u : AuthUser) (mustChangePassword : bool)
    (also : AuthUser -> AuthUser) (action : string) : AM LoginResponseDto :=
  let* '(accessToken, refreshToken) := generateTokens u in
  let* refreshHash := hash refreshToken in
  let* at_ := now in
  user_update ctx (au_id u) (fun x => set_login refreshHash at_ (also x)) ;;
  auth_audit action (Some (au_id u)) "" ;;
  ret (mkLoginResponse accessToken refreshToken mustChangePassword (toUserDto u mustChangePassword)).

Definition assertTenantAcceptsLogin (tenantId : string) : AM unit :=
  let* tenant := gets (fun s => aw_tenants s !! tenantId) in
  throw_if (negb (from_option tn_isActive false tenant)) (Unauthorized "Invalid credentials").

(** [try { await argon2.verify(...) } catch { return false }] *)
Definition verifyPassword (passwordHash password : string) : bool :=
  default false (argon2_verify passwordHash password).

Definition otp_message (otp : string) : string :=
  "Your Beba SACCO verification code is " +:+ otp
  +:+ ". It expires in 30 minutes. Do not share this with anyone.".

(** ** login *)

(** [{ OR: [{ tenantId }, { role: SUPER_ADMIN }] }] *)
Definition reachable_from (tenantId : string) (u : AuthUser) : bool :=
  (au_tenantId u === tenantId) || (au_role u === SUPER_ADMIN).

Definition has_phone (phones : list string) (u : AuthUser) : bool :=
  match ui_phone (au_identity u) with Some p => bool_decide (p ∈ phones) | None => false end
  || match ui_phoneNumber (au_identity u) with Some p => bool_decide (p ∈ phones) | None => false end.

Definition login_identifier (dto : LoginDto) : option string * option string :=
  (truthy ((fun e => toLowerCase (trim e)) <$> ld_email dto),
   truthy ((fun p => strip_plus (trim p)) <$> ld_phone dto)).

Definition login_failed (user : option AuthUser) (reason : string) : AM unit :=
  auth_audit "AUTH.LOGIN.FAILED" (au_id <$> user) reason.

(** The temporary password an administrator made, past its time. *)
Definition temp_expired (u : AuthUser) (at_ : Z) : bool :=
  au_mustChangePassword u && bool_decide (is_Some (truthy (au_tempPasswordEncrypted u)))
  && match au_tempPasswordExpiresAt u with Some t => t <=? at_ | None => false end.

Definition emailOnlyStaffTempPassword (u : AuthUser) : bool :=
  au_mustChangePassword u && bool_decide (is_Some (truthy (au_tempPasswordEncrypted u)))
  && negb (au_role u === MEMBER) && negb (au_role u === CHAIRMAN).

Definition needs_phone_check (u : AuthUser) : bool :=
  au_mustChangePassword u && negb (au_phoneVerified u)
  && negb (feature_on "smsOtpBypassAdminCreated") && negb (emailOnlyStaffTempPassword u).

Definition canonical_phone (raw : string) : string := default raw (normalized (normalizePhone (Some raw))).

Definition require_phone_check (user : AuthUser) : AM unit :=
  let* rawPhone := or_throw (truthy (au_anyPhone user)) (Unauthorized "No phone number on file for verification") in
  let phone := canonical_phone rawPhone in
  let* otp := Otp.generate phone in
  enqueueSms "LOGIN_OTP" phone (otp_message otp) ;;
  auth_audit "AUTH.LOGIN.PHONE_VERIFICATION_REQUIRED" (Some (au_id user)) "phone_not_verified" ;;
  throw (HttpException 403 "Phone verification required" [("phone", phone)]).

(** A password past its age must be changed; a failed update is logged and
    passed over. *)
Definition expire_password (tenantId : string) (user : AuthUser) : AM bool :=
  let* old := gets (password_too_old tenantId (au_lastPasswordChangeAt user)) in
  if old && negb (au_mustChangePassword user) then
    handling
      (user_update (Some tenantId) (au_id user) set_mustChangePassword ;;
       auth_audit "AUTH.PASSWORD_EXPIRED" (Some (au_id user)) "")
      (fun _ => ret tt) ;;
    ret true
  else ret (au_mustChangePassword user).

Definition setup_payload (u : AuthUser) : JwtPayload :=
  mkPayload (au_id u) (au_email u) (au_anyPhone u) (Some (au_role u)) (Some (au_tenantId u)) None
    (Some "2fa_setup") None None.

Definition second_factor (tenantId : string) (user : AuthUser) (dto : LoginDto) : AM unit :=
  if sf_enabled (au_secondFactor user) then
    match truthy (ld_totpToken dto), truthy (ld_backupCode dto) with
    | None, None => throw (HttpException 403 "2FA token required" [("requires2FA", "true")])
    | _, Some code => TwoFactor.verifyBackupCode (Some tenantId) (au_id user) code
    | Some token, None => TwoFactor.verifyToken (Some tenantId) (au_id user) token tenantId
    end
  else
    let* require2FA := gets (fun s => json_true (tenant_setting tenantId ["security"; "require2FA"] s)) in
    if require2FA then
      let* at_ := now in
      throw (HttpException 403 "2FA setup required"
        [("setupToken", jwt_sign jwt_secret (at_ / 1000) (15 * 60) (setup_payload user))])
    else ret tt.

Definition login_candidate (tenantId : string) (email phone : option string) : AuthWorld -> option AuthUser :=
  user_findFirst None (fun u =>
    match email, phone with
    | Some e, _ => au_email u === e
    | None, Some p => has_phone [p] u
    | None, None => false
    end && reachable_from tenantId u).

(** The checks of the account, in order. *)
Definition check_account (tenantId : string) (user : AuthUser) (dto : LoginDto) (ipAddress : option string)
  : AM unit :=
  (if negb (au_accountStatus user === AS_ACTIVE) then
     login_failed (Some user) "account_deactivated" ;;
     trackFailedAttempt tenantId (au_email user) ipAddress ;;
     unauthorized "Invalid credentials"
   else ret tt) ;;
  (if au_pinLoginRequired user then
     login_failed (Some user) "pin_login_required" ;;
     unauthorized "This account has not been activated yet. Verify your PIN via POST /auth/verify-pin first."
   else ret tt) ;;
  (if negb (verifyPassword (au_passwordHash user) (ld_password dto)) then
     login_failed (Some user) "invalid_password" ;;
     trackFailedAttempt tenantId (au_email user) ipAddress ;;
     unauthorized "Invalid credentials"
   else ret tt) ;;
  let* at_ := now in
  (if temp_expired user at_ then
     login_failed (Some user) "temporary_password_expired" ;;
     unauthorized "Temporary password has expired. Ask an administrator to generate a new temporary password."
   else ret tt) ;;
  (if needs_phone_check user then require_phone_check user else ret tt) ;;
  (if feature_on "emailVerificationEnforced" && negb (au_emailVerified user) then
     auth_audit "LOGIN_ATTEMPT_UNVERIFIED_EMAIL" (Some (au_id user)) "email_not_verified" ;;
     unauthorized "Email not verified. Please check your inbox or request a new verification link."
   else ret tt).

Definition login (dto : LoginDto) (tenantId : string) (ipAddress : option string) : AM LoginResponseDto :=
  assertTenantAcceptsLogin tenantId ;;
  let '(email, phone) := login_identifier dto in
  let* identifier := or_throw (first_of email phone) (Unauthorized "Provide email or phone") in
  let* candidate := gets (login_candidate tenantId email phone) in
  match candidate with
  | None =>
      login_failed None "user_not_found" ;;
      trackFailedAttempt tenantId identifier ipAddress ;;
      unauthorized "Invalid credentials"
  | Some user =>
      check_account tenantId user dto ipAddress ;;
      let* mustChangePassword := expire_password tenantId user in
      second_factor tenantId user dto ;;
      issueSession None user mustChangePassword id "AUTH.LOGIN"
  end.

(** ** verifyPin *)
Definition verifyPin (phone pin tenantId : string) (ipAddress : option string) : AM LoginResponseDto :=
  assertTenantAcceptsLogin tenantId ;;
  let normalizedPhone := strip_plus (trim phone) in
  let* candidate := gets (user_findFirst None (fun u => has_phone [normalizedPhone] u && reachable_from tenantId u)) in
  let refuse reason user msg :=
    auth_audit "AUTH.PIN_LOGIN.FAILED" user reason ;;
    trackFailedAttempt tenantId normalizedPhone ipAddress ;;
    unauthorized msg in
  match candidate with
  | None => refuse "user_not_found" None "Invalid phone number or PIN"
  | Some user =>
      if negb (au_accountStatus user === AS_ACTIVE)
      then refuse "account_inactive" None "Invalid phone number or PIN" else
      let* valid := Pin.validatePin (Some tenantId) (au_id user) (au_tenantId user) FIRST_LOGIN pin in
      if negb valid then refuse "invalid_or_expired_pin" (Some (au_id user)) "Invalid or expired PIN" else
      issueSession None user (au_mustChangePassword user) id "AUTH.PIN_LOGIN"
  end.

(** ** verifyLoginOtp and resendLoginOtp *)
Definition phoneLookupVariants (canonicalPhone : string) : list string :=
  if String.prefix "254" canonicalPhone && Nat.eqb (String.length canonicalPhone) 12
  then [canonicalPhone; "0" +:+ slice 3 canonicalPhone] else [canonicalPhone].

Definition otp_phone (phone : string) : string :=
  default (strip_plus (trim phone)) (normalized (normalizePhone (Some phone))).

Definition otp_candidate (tenantId phone : string) : AuthWorld -> option AuthUser :=
  user_findFirst None (fun u => has_phone (phoneLookupVariants phone) u && reachable_from tenantId u).

Definition verifyLoginOtp (phone otp tenantId : string) (ipAddress : option string) : AM LoginResponseDto :=
  assertTenantAcceptsLogin tenantId ;;
  let normalizedPhone := otp_phone phone in
  let* candidate := gets (otp_candidate tenantId normalizedPhone) in
  let refuse reason user msg :=
    auth_audit "AUTH.LOGIN_OTP.FAILED" user reason ;;
    trackFailedAttempt tenantId normalizedPhone ipAddress ;;
    unauthorized msg in
  match candidate with
  | None => refuse "user_not_found" None "Invalid phone number or code"
  | Some user =>
      if negb (au_accountStatus user === AS_ACTIVE)
      then refuse "account_inactive" None "Invalid phone number or code" else
      let* valid := Otp.validate normalizedPhone otp in
      if negb valid then refuse "invalid_or_expired_otp" (Some (au_id user)) "Invalid or expired code" else
      issueSession None user (au_mustChangePassword user) set_phoneVerified "AUTH.LOGIN_OTP.VERIFIED"
  end.

Definition resendLoginOtp (phone tenantId : string) : AM unit :=
  let normalizedPhone := otp_phone phone in
  let* candidate := gets (otp_candidate tenantId normalizedPhone) in
  match candidate with
  | None => ret tt
  | Some user =>
      let* otp := Otp.generate normalizedPhone in
      enqueueSms "LOGIN_OTP" normalizedPhone (otp_message otp) ;;
      auth_audit "AUTH.LOGIN_OTP.RESENT" (Some (au_id user)) ""
  end.

(** ** register *)
Record RegisterDto := mkRegister {
  rd_email : string;
  rd_password : string;
  rd_firstName : string;
  rd_lastName : string;
  rd_phone : option string;
}.

Definition new_user (id hash_ : string) (at_ : Z) (email tenantId : string) (dto : RegisterDto) : AuthUser :=
  mkAuthUser id (mkIdentity email (rd_phone dto) None (rd_firstName dto) (rd_lastName dto) MEMBER tenantId)
    AS_ACTIVE false true false false hash_ at_ None None None None None None (mkSecondFactor false None [] None).

Definition register (dto : RegisterDto) (tenantId : string) : AM LoginResponseDto :=
  let normalizedEmail := toLowerCase (rd_email dto) in
  let* existing := gets (user_findFirst (Some tenantId) (fun u => au_email u === normalizedEmail)) in
  throw_if (bool_decide (is_Some existing)) (Conflict "An account with this email already exists") ;;
  validatePassword tenantId (rd_password dto) ;;
  let* passwordHash := hash (rd_password dto) in
  let* k := draw in
  let* at_ := now in
  let user := new_user (uuid k) passwordHash at_ normalizedEmail tenantId dto in
  modify (with_tables (fun t => set_users_table (at_users t ++ [user]) t)) ;;
  let* r := issueSession (Some tenantId) user false id "AUTH.REGISTER" in
  modify (add_email (mkEmail "WELCOME" normalizedEmail "")) ;;
  ret r.

(** ** refreshToken *)
Definition revoke_everything (user : AuthUser) : AM unit :=
  Sessions.sessions_revoke (Sessions.unrevoked (au_id user)) ;;
  user_update None (au_id user) (set_refreshToken None).

(** The handler runs outside any transaction; it is cut where another call can
    come between.  First it reads the user's row and tests the token ... *)
Definition refresh_read (incomingToken tenantId : string) : AM (AuthUser * bool) :=
  throw_if (incomingToken === "") (Unauthorized "Refresh token required") ;;
  let* at_ := now in
  let* payload := or_throw (jwt_verify jwt_refreshSecret at_ incomingToken)
    (Unauthorized "Invalid or expired refresh token") in
  let* found := gets (user_findUnique None (jp_sub payload)) in
  let* user := or_throw found (Unauthorized "Invalid refresh token") in
  throw_if (negb (au_accountStatus user === AS_ACTIVE)) (Unauthorized "Invalid refresh token") ;;
  let* stored := or_throw (truthy (au_refreshToken user)) (Unauthorized "Invalid refresh token") in
  validatePasswordAge (au_tenantId user) (au_lastPasswordChangeAt user) ;;
  throw_if (negb (au_role user === SUPER_ADMIN) && negb (au_tenantId user === tenantId))
    (Unauthorized "Token/tenant mismatch") ;;
  let* isValid := or_throw (argon2_verify stored incomingToken) (PlainError "Invalid hash") in
  ret (user, isValid).

(** ... a token that is not the stored one ends everything ... *)
Definition refresh_reuse (user : AuthUser) : AM (string * string) :=
  revoke_everything user ;;
  auth_audit "AUTH.TOKEN.REUSE_DETECTED" (Some (au_id user)) "HIGH" ;;
  unauthorized "Invalid refresh token".

(** ... else the session is rotated and a new pair made ... *)
Definition refresh_session (user : AuthUser) (deviceInfo : option Sessions.DeviceInfo) : AM unit :=
  match deviceInfo with
  | Some device =>
      let* activeSession := gets (Sessions.newest_active (au_id user)) in
      match activeSession with
      | Some session => Sessions.rotateSession (rs_id session) (au_id user) device (au_tenantId user) ;; ret tt
      | None => ret tt
      end
  | None => ret tt
  end.
Definition new_pair (user : AuthUser) : AM (string * string * string) :=
  let* '(accessToken, newToken) := generateTokens user in
  let* newHash := hash newToken in
  ret (accessToken, newToken, newHash).
Definition refresh_prepare (user : AuthUser) (deviceInfo : option Sessions.DeviceInfo) : AM (string * string * string) :=
  refresh_session user deviceInfo ;;
  new_pair user.

(** ... and its hash is stored, by the user's id alone. *)
Definition refresh_store (user : AuthUser) (newHash : string) : AM unit :=
  user_update None (au_id user) (set_refreshToken (Some newHash)) ;;
  auth_audit "AUTH.TOKEN.REFRESH" (Some (au_id user)) "".

Definition refreshToken (incomingToken tenantId : string) (deviceInfo : option Sessions.DeviceInfo)
  : AM (string * string) :=
  let* '(user, isValid) := refresh_read incomingToken tenantId in
  if negb isValid then refresh_reuse user else
  let* '(accessToken, newToken, newHash) := refresh_prepare user deviceInfo in
  refresh_store user newHash ;;
  ret (accessToken, newToken).

(** ** logout *)
Definition logout (userId tenantId : string) (accessTokenJti : option string) : AM unit :=
  user_update (Some tenantId) userId (set_refreshToken None) ;;
  (match truthy accessTokenJti with Some jti => blocklist_add jti DEFAULT_TTL_SECONDS | None => ret tt end) ;;
  auth_audit "AUTH.LOGOUT" (Some userId) "".

(** ** Password reset by a link (retired unless a feature is on) *)
Definition RESET_TOKEN_TTL_SECONDS : Z := 15 * 60.

Definition assertLegacyAuthEndpointsEnabled : AM unit :=
  throw_if (negb (feature_on "legacyAuthEndpointsEnabled"))
    (HttpException 410 "This endpoint has been retired. Use POST /auth/request-password-reset and POST /auth/reset-password/confirm instead." []).

Definition reset_payload (u : AuthUser) (nonce : string) : JwtPayload :=
  mkPayload (au_id u) (au_email u) None None None None None (Some "password_reset") (Some nonce).

Definition forgotPassword (email tenantId : string) : AM unit :=
  assertLegacyAuthEndpointsEnabled ;;
  let normalizedEmail := toLowerCase email in
  let* found := gets (user_findFirst (Some tenantId) (fun u => au_email u === normalizedEmail)) in
  auth_audit "AUTH.FORGOT_PASSWORD.REQUESTED" (au_id <$> found) "" ;;
  match found with
  | None => ret tt
  | Some user =>
      if negb (au_accountStatus user === AS_ACTIVE) then ret tt else
      let* k := draw in
      let nonce := rand_hex k 32 in
      let* nonceHash := hash nonce in
      let* at_ := now in
      user_update (Some tenantId) (au_id user)
        (set_resetNonce (Some nonceHash) (Some (at_ + RESET_TOKEN_TTL_SECONDS * 1000))) ;;
      let token := jwt_sign jwt_secret (at_ / 1000) RESET_TOKEN_TTL_SECONDS (reset_payload user nonce) in
      modify (add_email (mkEmail "PASSWORD_RESET" (au_email user) token))
  end.

Definition bad_link : exn := BadRequest "Reset link is invalid or has expired".

(** The stored hash of the nonce, while the link is alive. *)
Definition open_nonce (user : AuthUser) (at_ : Z) : option string :=
  match truthy (au_passwordResetToken user), au_passwordResetExpiry user with
  | Some h, Some t => if t <? at_ then None else Some h
  | _, _ => None
  end.

Definition revoke_access (jti : option string) : AM unit :=
  match truthy jti with Some j => blocklist_add j DEFAULT_TTL_SECONDS | None => ret tt end.

Definition resetPassword (token newPassword tenantId : string) (accessTokenJti : option string) : AM unit :=
  assertLegacyAuthEndpointsEnabled ;;
  let* at_ := now in
  let* payload := or_throw (jwt_verify jwt_secret at_ token) bad_link in
  throw_if (negb (jp_purpose payload === Some "password_reset")) (BadRequest "Invalid reset token") ;;
  let* found := gets (user_findUnique (Some tenantId) (jp_sub payload)) in
  let* user := or_throw found bad_link in
  throw_if (negb (au_accountStatus user === AS_ACTIVE)) bad_link ;;
  let refuse {A} reason : AM A :=
    auth_audit "AUTH.RESET_PASSWORD.FAILED" (Some (au_id user)) reason ;; throw bad_link in
  match open_nonce user at_ with
  | None => refuse "token_expired_or_used"
  | Some h =>
      let* nonceValid := or_throw (argon2_verify h (default "" (jp_nonce payload))) (PlainError "Invalid hash") in
      if negb nonceValid then refuse "nonce_mismatch" else
      validatePassword tenantId newPassword ;;
      let* newPasswordHash := hash newPassword in
      user_update (Some tenantId) (au_id user)
        (fun u => set_resetNonce None None (set_password newPasswordHash at_ u)) ;;
      revoke_access accessTokenJti ;;
      auth_audit "AUTH.RESET_PASSWORD" (Some (au_id user)) ""
  end.

(** ** Password reset by a one-time code (retired unless a feature is on) *)
Inductive PasswordResetMethod := M_EMAIL | M_SMS.
#[local] Instance PasswordResetMethod_dec : EqDecision PasswordResetMethod. Proof. solve_decision. Defined.

Definition formatPhoneForOtp (phone : option string) : string :=
  let trimmed := default "" (trim <$> phone) in
  if trimmed === "" then "" else if String.prefix "+" trimmed then trimmed else "+" +:+ trimmed.

Definition normalizePasswordResetIdentifier (method : PasswordResetMethod) (identifier : string) : string :=
  match method with
  | M_EMAIL => toLowerCase (trim identifier)
  | M_SMS => formatPhoneForOtp (Some (trim identifier))
  end.

Definition hashIdentifier (identifier : string) : string := sha256 identifier.

Definition assertPasswordResetRequestAllowed (identifier : string) (ipAddress : option string) : AM unit :=
  let key := "auth:password-reset:req:" +:+ hashIdentifier (default "unknown-ip" ipAddress) +:+ ":"
    +:+ hashIdentifier identifier in
  let* count := redis_incr key (15 * 60) in
  throw_if (3 <? count) (HttpException 429 "Too many password reset requests" []).

Definition findUserByPasswordResetIdentifier (method : PasswordResetMethod) (identifier tenantId : string)
  : AuthWorld -> option AuthUser :=
  user_findFirst (Some tenantId) (fun u => (au_accountStatus u === AS_ACTIVE) &&
    match method with
    | M_EMAIL => au_email u === identifier
    | M_SMS => has_phone [identifier; strip_plus identifier] u
    end).

Definition resolveOtpKey (method : PasswordResetMethod) (identifier : string) (user : AuthUser) : option string :=
  match method with
  | M_EMAIL => Some (toLowerCase (au_email user))
  | M_SMS =>
      let i := au_identity user in
      if formatPhoneForOtp (Some (default "" (ui_phoneNumber i))) === identifier
      then Some (formatPhoneForOtp (ui_phoneNumber i))
      else if formatPhoneForOtp (Some (default "" (ui_phone i))) === identifier
      then Some (formatPhoneForOtp (ui_phone i)) else None
  end.

Definition reset_otp_message (otp : string) : string :=
  "Your Beba SACCO password reset code is " +:+ otp
  +:+ ". Valid for 30 minutes. Do not share this code with anyone.".

Definition by_method (method : PasswordResetMethod) (sms email : string) : string :=
  match method with M_SMS => sms | M_EMAIL => email end.

Definition reset_target (method : PasswordResetMethod) (identifier tenantId : string) (s : AuthWorld)
  : option (AuthUser * string) :=
  match findUserByPasswordResetIdentifier method identifier tenantId s with
  | Some user => match truthy (resolveOtpKey method identifier user) with
                 | Some otpKey => Some (user, otpKey)
                 | None => None
                 end
  | None => None
  end.

Definition requestPasswordResetSms (method : PasswordResetMethod) (identifier tenantId : string)
    (ipAddress : option string) : AM unit :=
  assertLegacyAuthEndpointsEnabled ;;
  let identifier := normalizePasswordResetIdentifier method identifier in
  assertPasswordResetRequestAllowed identifier ipAddress ;;
  let* user := gets (findUserByPasswordResetIdentifier method identifier tenantId) in
  let* target := gets (reset_target method identifier tenantId) in
  auth_audit (by_method method "AUTH.PASSWORD_RESET_SMS.REQUESTED" "AUTH.PASSWORD_RESET_EMAIL_OTP_REQUESTED")
    (au_id <$> user) "" ;;
  match target with
  | None => ret tt
  | Some (user, otpKey) =>
      let* otp := Otp.generate otpKey in
      match method with
      | M_SMS => enqueueSms "PASSWORD_RESET_OTP" otpKey (reset_otp_message otp)
      | M_EMAIL => modify (add_email (mkEmail "PASSWORD_RESET_OTP" (au_email user) otp))
      end
  end.

Definition verifyPasswordResetSms (method : PasswordResetMethod) (identifier otp newPassword tenantId : string)
  : AM unit :=
  assertLegacyAuthEndpointsEnabled ;;
  let identifier := normalizePasswordResetIdentifier method identifier in
  let* target := gets (reset_target method identifier tenantId) in
  let failed := by_method method "AUTH.PASSWORD_RESET_SMS.FAILED" "AUTH.PASSWORD_RESET_EMAIL_OTP_FAILED" in
  match target with
  | None => auth_audit failed None "user_not_found" ;; throw (BadRequest "Invalid or expired OTP")
  | Some (user, otpKey) =>
      let* otpValid := Otp.validate otpKey otp in
      if negb otpValid then
        auth_audit failed (Some (au_id user)) "invalid_otp" ;; throw (BadRequest "Invalid or expired OTP")
      else
      validatePassword tenantId newPassword ;;
      let* newPasswordHash := hash newPassword in
      let* at_ := now in
      user_update (Some tenantId) (au_id user)
        (fun u => set_resetNonce None None (set_password newPasswordHash at_ u)) ;;
      Otp.delete_otp otpKey ;;
      auth_audit (by_method method "AUTH.PASSWORD_RESET_SMS.COMPLETED" "AUTH.PASSWORD_RESET_EMAIL_OTP_COMPLETED")
        (Some (au_id user)) ""
  end.

(** ** Password reset by a PIN *)
Definition requestPasswordResetPin (phone tenantId : string) (ipAddress : option string) : AM unit :=
  let identifier := normalizePasswordResetIdentifier M_SMS phone in
  let ipHash := hashIdentifier (default "unknown-ip" ipAddress) in
  let phoneHash := hashIdentifier identifier in
  Pin.assertIssuanceRateLimit ("pwd-reset:" +:+ ipHash +:+ ":" +:+ phoneHash) 3 3600 ;;
  let* user := gets (findUserByPasswordResetIdentifier M_SMS identifier tenantId) in
  auth_audit "AUTH.PIN_PASSWORD_RESET_REQUESTED" (au_id <$> user) "" ;;
  match user with
  | None => ret tt
  | Some u => Pin.generateAndIssuePin (Some tenantId) (au_id u) tenantId PASSWORD_RESET ipAddress ;; ret tt
  end.

Definition confirmPasswordResetPin (phone pin newPassword tenantId : string) : AM unit :=
  let identifier := normalizePasswordResetIdentifier M_SMS phone in
  let* found := gets (findUserByPasswordResetIdentifier M_SMS identifier tenantId) in
  match found with
  | None =>
      auth_audit "AUTH.PIN_PASSWORD_RESET.FAILED" None "user_not_found" ;; throw (BadRequest "Invalid or expired PIN")
  | Some user =>
      let* valid := Pin.validatePin (Some tenantId) (au_id user) tenantId PASSWORD_RESET pin in
      if negb valid then
        auth_audit "AUTH.PIN_PASSWORD_RESET.FAILED" (Some (au_id user)) "invalid_or_expired_pin" ;;
        throw (BadRequest "Invalid or expired PIN")
      else
      validatePassword tenantId newPassword ;;
      let* newHash := hash newPassword in
      let* at_ := now in
      user_update (Some tenantId) (au_id user) (fun u => set_onboarded (set_password newHash at_ u)) ;;
      auth_audit "AUTH.PIN_PASSWORD_RESET" (Some (au_id user)) ""
  end.

(** ** changePassword *)
Record ChangePasswordDto := mkChangePassword {
  cp_currentPassword : option string;
  cp_newPassword : string;
  cp_accessTokenJti : option string;
}.

(** The new password ends the PIN onboarding of an account still in it. *)
Definition changed_password (hash_ : string) (at_ : Z) (onboarding : bool) (u : AuthUser) : AuthUser :=
  let u := set_temporary None None (set_password hash_ at_ u) in
  if onboarding then set_onboarded u else u.

Definition check_current (user : AuthUser) (dto : ChangePasswordDto) : AM unit :=
  if au_pinLoginRequired user then ret tt else
  let* current := or_throw (truthy (cp_currentPassword dto)) (BadRequest "currentPassword is required") in
  let* currentValid := or_throw (argon2_verify (au_passwordHash user) current) (PlainError "Invalid hash") in
  if negb currentValid then
    auth_audit "AUTH.CHANGE_PASSWORD.FAILED" (Some (au_id user)) "invalid_current_password" ;;
    unauthorized "Current password is incorrect"
  else ret tt.

Definition changePassword (userId tenantId : string) (dto : ChangePasswordDto) : AM unit :=
  let* found := gets (user_findUnique None userId) in
  let* user := or_throw found (Unauthorized "User not found") in
  throw_if (negb (au_role user === SUPER_ADMIN) && negb (au_tenantId user === tenantId))
    (Unauthorized "User not found") ;;
  check_current user dto ;;
  validatePassword tenantId (cp_newPassword dto) ;;
  let* newHash := hash (cp_newPassword dto) in
  let* at_ := now in
  user_update None userId (changed_password newHash at_ (au_pinLoginRequired user)) ;;
  revoke_access (cp_accessTokenJti dto) ;;
  auth_audit "AUTH.CHANGE_PASSWORD" (Some userId) "".

(** ** validateUser *)
Definition validateUser (email password tenantId : string) (s : AuthWorld) : option AuthUser :=
  match user_findFirst (Some tenantId) (fun u => au_email u === toLowerCase email) s with
  | Some user =>
      if (au_accountStatus user === AS_ACTIVE) && verifyPassword (au_passwordHash user) password
      then Some user else None
  | None => None
  end.
End AuthService.
