(* ===== verification/Accounting.v ===== *)
(** * Accounting: AccountingService

    [src/src/modules/accounting/accounting.service.ts]: journal entries by
    hand with their approval, the manual match of a payment to an account, and
    the chart of accounts of a new tenant.  The queries and reports of the
    service change nothing and are left out. *)
From S2P Require Import Prelude Money Json Format Calendar ImportText MpesaTypes Schema Ledger.

(** ** Rows

    A journal entry made by hand has columns that [JournalEntry] fixes for the
    entries of LedgerService; the rows are kept beside them, in the same table:
    numbers are unique over both. *)
Record ManualPosting := mkManualPosting {
  mq_debitAccountId : string;
  mq_creditAccountId : string;
  mq_amount : Z;
  mq_description : option string;
}.

Record ManualEntry := mkManualEntry {
  me_id : string;
  me_tenantId : string;
  me_entryNumber : string;
  me_type : JournalEntryType;
  me_status : JournalEntryStatus;
  me_description : string;
  me_referenceType : option string;
  me_referenceId : option string;
  me_totalAmount : Z;
  me_createdById : string;
  me_approvedById : option string;
  me_rejectedById : option string;
  me_approvalNotes : option string;
  me_postings : list ManualPosting;
}.

Inductive GLAccountType := ASSET | LIABILITY | EQUITY | REVENUE | EXPENSE.

(** The columns of GLAccount and User that only provisioning writes. *)
Record GLAccountColumns := mkGLColumns {
  gc_name : string;
  gc_type : GLAccountType;
  gc_isSystemAccount : bool;
}.
Record SystemUserColumns := mkSystemUser {
  su_email : string;
  su_suspended : bool;
}.

Record AccountingWorld := mkAccountingWorld {
  kw_base : World;
  kw_manual : list ManualEntry;
  kw_glColumns : gmap string GLAccountColumns;
  kw_userColumns : gmap string SystemUserColumns;
}.

Definition set_books (w : World) (s : AccountingWorld) : AccountingWorld :=
  mkAccountingWorld w (kw_manual s) (kw_glColumns s) (kw_userColumns s).
Definition set_manual (l : list ManualEntry) (s : AccountingWorld) : AccountingWorld :=
  mkAccountingWorld (kw_base s) l (kw_glColumns s) (kw_userColumns s).
Definition put_glColumns (id : string) (c : GLAccountColumns) (s : AccountingWorld) : AccountingWorld :=
  mkAccountingWorld (kw_base s) (kw_manual s) (<[id := c]> (kw_glColumns s)) (kw_userColumns s).
Definition put_userColumns (id : string) (c : SystemUserColumns) (s : AccountingWorld) : AccountingWorld :=
  mkAccountingWorld (kw_base s) (kw_manual s) (kw_glColumns s) (<[id := c]> (kw_userColumns s)).

Abbreviation AC := (comp AccountingWorld).
Definition kdb (s : AccountingWorld) : DB := db (kw_base s).
Definition on_books {A} (m : M A) : AC A := fun s =>
  let '(r, w) := m (kw_base s) in (r, set_books w s).
Definition accounting_audit (action : string) : AC unit := on_books (modify (log_audit action)).

Definition set_glAccounts (x : list GLAccount) (d : DB) : DB :=
  mkDB (accounts d) (transactions d) (journalEntries d) x (users d) (loans d)
    (loanRepayments d) (loanGuarantors d) (loanProducts d) (members d) (policies d)
    (accountSeqs d) (auditLogs d) (mpesaTransactions d) (notificationLogs d) (loanApprovalChains d).
Definition set_policies (x : list AccountTypePolicy) (d : DB) : DB :=
  mkDB (accounts d) (transactions d) (journalEntries d) (glAccounts d) (users d) (loans d)
    (loanRepayments d) (loanGuarantors d) (loanProducts d) (members d) x
    (accountSeqs d) (auditLogs d) (mpesaTransactions d) (notificationLogs d) (loanApprovalChains d).

(** ** Journal entries by hand *)
Record GLPostingLineDto := mkPostingLine {
  pl_debitAccountId : string;
  pl_creditAccountId : string;
  pl_amount : Q;
  pl_description : option string;
}.
Record CreateJournalEntryDto := mkCreateEntry {
  ce_description : string;
  ce_type : JournalEntryType;
  ce_postings : list GLPostingLineDto;
  ce_referenceType : option string;
  ce_referenceId : option string;
}.

Definition APPROVAL_THRESHOLD : Q := inject_Z 100000.

Definition gl_usable (tenantId id : string) (d : DB) : bool :=
  existsb (fun g => (gl_id g === id) && (gl_tenantId g === tenantId) && gl_isActive g) (glAccounts d).

(** The greatest row of [orderBy: { entryNumber: 'desc' }]. *)
Fixpoint greatest (l : list string) : option string :=
  match l with
  | [] => None
  | x :: l' => match greatest l' with
               | Some y => if String.leb x y then Some y else Some x
               | None => Some x
               end
  end.

(** [journalEntry.findFirst({ where: { tenantId, entryNumber: { startsWith } },
    orderBy: { entryNumber: 'desc' } })] *)
Definition numbers_of (tenantId : string) (s : AccountingWorld) : list string :=
  (me_entryNumber <$> List.filter (fun e => me_tenantId e === tenantId) (kw_manual s))
  ++ (je_entryNumber <$> List.filter (fun e => je_tenantId e === tenantId) (journalEntries (kdb s))).
Definition last_number (tenantId prefix : string) (s : AccountingWorld) : option string :=
  greatest (List.filter (fun n => String.prefix prefix n) (numbers_of tenantId s)).

(** [parseInt(text, 10)]; [None] is NaN. *)
Fixpoint leading_digits (s : string) : string :=
  match s with
  | String c s' => if is_digit c then String c (leading_digits s') else ""
  | EmptyString => ""
  end.
Definition parse_digits (s : string) : option Z :=
  match leading_digits s with EmptyString => None | d => digits_value 0 d end.
Definition parseInt (text : string) : option Z :=
  match trim_start text with
  | String "-" s => Z.opp <$> parse_digits s
  | String "+" s => parse_digits s
  | s => parse_digits s
  end.

Definition getFullYear (ms : Z) : Z := (civil_from_days (ms / msPerDay)).1.
Definition year_prefix (year : Z) : string := "JE-" +:+ pretty year +:+ "-".

Definition next_seq (last : option string) : Z :=
  match last with
  | Some n => match parseInt (default "" (split_on "-" n !! 2%nat)) with
              | Some lastSeq => lastSeq + 1
              | None => 1
              end
  | None => 1
  end.
Definition entry_number (year seq : Z) : string := year_prefix year +:+ pad 6 seq.

(** The unique key and the foreign keys of a row of JournalEntry. *)
Definition number_taken (tenantId number : string) (s : AccountingWorld) : bool :=
  bool_decide (number ∈ numbers_of tenantId s).
Definition entry_id_taken (id : string) (s : AccountingWorld) : bool :=
  existsb (fun e => me_id e === id) (kw_manual s) || existsb (fun e => je_id e === id) (journalEntries (kdb s)).

Section Accounting.
Context `{UuidSource, DecimalLib}.

Definition manual_create (row : string -> ManualEntry) : AC ManualEntry :=
  let* id := on_books fresh_id in
  let e := row id in
  throw_if (negb (fits_18_4 (me_totalAmount e) && forallb (fun p => fits_18_4 (mq_amount p)) (me_postings e)))
    NumericOverflow ;;
  let* clash := gets (fun s => entry_id_taken id s || number_taken (me_tenantId e) (me_entryNumber e) s) in
  throw_if clash (UniqueViolation "JournalEntry") ;;
  let* known := gets (fun s => user_exists (me_createdById e) (kdb s)) in
  throw_if (negb known) (ForeignKeyViolation "JournalEntry") ;;
  modify (fun s => set_manual (kw_manual s ++ [e]) s) ;;
  ret e.

Definition total_of (lines : list GLPostingLineDto) : Q :=
  foldl (fun sum p => rnd (sum + pl_amount p)%Q) 0%Q lines.

Definition line_accounts (lines : list GLPostingLineDto) : list string :=
  flat_map (fun p => [pl_debitAccountId p; pl_creditAccountId p]) lines.

Definition new_entry (tenantId actorId number : string) (dto : CreateJournalEntryDto) (total : Q)
    (status : JournalEntryStatus) (id : string) : ManualEntry :=
  let approved := status === JE_APPROVED in
  mkManualEntry id tenantId number (ce_type dto) status (ce_description dto) (ce_referenceType dto)
    (ce_referenceId dto) (to_dp4 total) actorId
    (if approved then Some actorId else None) None
    (if approved then Some "Auto-approved: amount below approval threshold" else None)
    ((fun p => mkManualPosting (pl_debitAccountId p) (pl_creditAccountId p) (to_dp4 (pl_amount p)) (pl_description p))
       <$> ce_postings dto).

Definition createJournalEntry (tenantId : string) (dto : CreateJournalEntryDto) (actorId : string) : AC ManualEntry :=
  let totalAmount := total_of (ce_postings dto) in
  throw_if (Qle_bool totalAmount 0) (BadRequest "Total posting amount must be positive") ;;
  let* missing := gets (fun s =>
    List.find (fun id => negb (gl_usable tenantId id (kdb s))) (line_accounts (ce_postings dto))) in
  (match missing with
   | Some id => throw (BadRequest ("GL account " +:+ id +:+ " not found or inactive in this tenant"))
   | None => ret tt
   end) ;;
  throw_if (existsb (fun p => pl_debitAccountId p === pl_creditAccountId p) (ce_postings dto))
    (BadRequest "Debit and credit accounts must be different in each posting line") ;;
  let* year := gets (fun s => getFullYear (clock (kw_base s))) in
  let* last := gets (last_number tenantId (year_prefix year)) in
  let number := entry_number year (next_seq last) in
  let status := if Qle_bool APPROVAL_THRESHOLD totalAmount then JE_PENDING_APPROVAL else JE_APPROVED in
  let* entry := manual_create (new_entry tenantId actorId number dto totalAmount status) in
  accounting_audit "JOURNAL_ENTRY.CREATED" ;;
  ret entry.

(** ** Approval

    [journalEntry.findFirst({ where: { id, tenantId } })] sees the entries of
    LedgerService too. *)
Record EntryView := mkView {
  ev_status : JournalEntryStatus;
  ev_createdById : string;
  ev_entryNumber : string;
}.
Definition find_entry (tenantId id : string) (s : AccountingWorld) : option EntryView :=
  match List.find (fun e => (me_id e === id) && (me_tenantId e === tenantId)) (kw_manual s) with
  | Some e => Some (mkView (me_status e) (me_createdById e) (me_entryNumber e))
  | None =>
      match List.find (fun e => (je_id e === id) && (je_tenantId e === tenantId)) (journalEntries (kdb s)) with
      | Some e => Some (mkView (je_status e) (je_createdById e) (je_entryNumber e))
      | None => None
      end
  end.

Definition status_name (s : JournalEntryStatus) : string :=
  match s with
  | JE_DRAFT => "DRAFT" | JE_PENDING_APPROVAL => "PENDING_APPROVAL" | JE_APPROVED => "APPROVED"
  | JE_REJECTED => "REJECTED" | JE_POSTED => "POSTED"
  end.

Definition pending_entry (tenantId id : string) : AC EntryView :=
  let* found := gets (find_entry tenantId id) in
  let* entry := or_throw found (NotFound ("Journal entry " +:+ id +:+ " not found in this tenant")) in
  throw_if (negb (ev_status entry === JE_PENDING_APPROVAL))
    (Conflict ("Journal entry " +:+ ev_entryNumber entry +:+ " is " +:+ status_name (ev_status entry)
      +:+ ", not PENDING_APPROVAL")) ;;
  ret entry.

(** [journalEntry.update({ where: { id }, data })]; the approver is a foreign
    key. *)
Definition manual_update (id actorId : string) (f : ManualEntry -> ManualEntry) : AC unit :=
  let* hit := gets (fun s => existsb (fun e => me_id e === id) (kw_manual s)) in
  throw_if (negb hit) (RecordNotFound "JournalEntry") ;;
  let* known := gets (fun s => user_exists actorId (kdb s)) in
  throw_if (negb known) (ForeignKeyViolation "JournalEntry") ;;
  modify (fun s => set_manual (update_where (fun e => me_id e === id) f (kw_manual s)) s).

(** [notes?.trim() || fallback] *)
Definition notes_or (notes : option string) (fallback : string) : string :=
  default fallback (truthy (trim <$> notes)).

Definition set_approved (actorId notes : string) (e : ManualEntry) : ManualEntry :=
  mkManualEntry (me_id e) (me_tenantId e) (me_entryNumber e) (me_type e) JE_APPROVED (me_description e)
    (me_referenceType e) (me_referenceId e) (me_totalAmount e) (me_createdById e) (Some actorId)
    (me_rejectedById e) (Some notes) (me_postings e).
Definition set_rejected (actorId notes : string) (e : ManualEntry) : ManualEntry :=
  mkManualEntry (me_id e) (me_tenantId e) (me_entryNumber e) (me_type e) JE_REJECTED (me_description e)
    (me_referenceType e) (me_referenceId e) (me_totalAmount e) (me_createdById e) (me_approvedById e)
    (Some actorId) (Some notes) (me_postings e).

(** Each method reads and checks, then writes by the identifier alone: two
    phases that other requests may come between. *)
Definition approve_check (tenantId id actorId : string) : AC unit :=
  let* entry := pending_entry tenantId id in
  throw_if (ev_createdById entry === actorId)
    (Forbidden "Maker-checker violation: you cannot approve your own journal entry").
Definition approve_write (id actorId : string) (notes : option string) : AC unit :=
  manual_update id actorId (set_approved actorId (notes_or notes "Approved")) ;;
  accounting_audit "JOURNAL_ENTRY.APPROVED".
Definition approveJournalEntry (tenantId id actorId : string) (notes : option string) : AC unit :=
  approve_check tenantId id actorId ;; approve_write id actorId notes.

Definition reject_check (tenantId id : string) : AC unit := pending_entry tenantId id ;; ret tt.
Definition reject_write (id actorId : string) (notes : option string) : AC unit :=
  manual_update id actorId (set_rejected actorId (notes_or notes "Rejected")) ;;
  accounting_audit "JOURNAL_ENTRY.REJECTED".
Definition rejectJournalEntry (tenantId id actorId : string) (notes : option string) : AC unit :=
  reject_check tenantId id ;; reject_write id actorId notes.

(** ** Matching a payment to an account by hand *)
Record MatchResult := mkMatch {
  mr_transactionId : string;
  mr_amount : Z;
  mr_balanceBefore : Z;
  mr_balanceAfter : Z;
  mr_accountNumber : string;
  mr_memberName : string;
}.

(** [mpesaTransaction.findFirst({ where: { id, tenantId, status: RECON_PENDING,
    transactionId: null } })] *)
Definition unmatched_payment (tenantId id : string) (d : DB) : option MpesaTransaction :=
  match mpesaTransactions d !! id with
  | Some m => if (mp_tenantId m === tenantId) && (mp_status m === T_RECON_PENDING)
                && bool_decide (mp_transactionId m = None) then Some m else None
  | None => None
  end.

Definition set_memberId (id : string) (d : MpesaDetails) : MpesaDetails :=
  mkDetails (mpd_type d) (mpd_phoneNumber d) (Some id) (mpd_accountReference d) (mpd_checkoutRequestId d)
    (mpd_conversationId d) (mpd_originatorConversationId d) (mpd_referenceType d) (mpd_referenceId d)
    (mpd_failureReason d) (mpd_callbackPayload d).
Definition set_matched (txnId memberId note : string) (m : MpesaTransaction) : MpesaTransaction :=
  mkMpesaTransaction (mp_tenantId m) (mp_reference m) (mp_amount m) T_COMPLETED (Some txnId) (mp_loanId m)
    (mp_resultCode m) (Some ("Manually reconciled - " +:+ note)) (mp_receipt m) (mp_transactionDate m)
    (set_memberId memberId (mp_details m)).

Definition recon_reference (mpesaTxId : string) : string := "MPESA-RECON-" +:+ mpesaTxId.
Definition recon_description (mpesaTxId : string) (m : MpesaTransaction) (note : string) : string :=
  "Manual M-Pesa reconciliation - receipt " +:+ default mpesaTxId (mp_receipt m) +:+ " - " +:+ note.

(** The body of the Serializable transaction: the balances and the
    transaction. *)
Definition matchBody (mpesaTxId tenantId accountId actorId note : string) (m : MpesaTransaction) (memberId : string)
  : M (string * (Z * Z)) :=
  let reference := recon_reference mpesaTxId in
  let amount := mp_amount m in
  let* existing := gets (fun w => txn_by_reference tenantId reference (db w)) in
  match existing with
  | Some dup => ret (txn_id dup, (txn_balanceBefore dup, txn_balanceAfter dup))
  | None =>
      let* found := gets (fun w => active_account tenantId accountId (db w)) in
      let* freshAccount := or_throw found (NotFound ("Account " +:+ accountId +:+ " disappeared during transaction")) in
      let before := acc_balance freshAccount in
      let after := before + amount in
      let* count := account_updateMany accountId (fun a => (acc_tenantId a === tenantId) && acc_isActive a)
        (fun a => set_balance (acc_balance a + amount) (acc_version a + 1) a) in
      throw_if (Nat.eqb count 0) (BadRequest "Insufficient funds or concurrent modification") ;;
      let* ledgerTx := transaction_create (mkTxnData tenantId accountId None DEPOSIT T_COMPLETED amount before after
        reference (recon_description mpesaTxId m note) actorId None) in
      let* glAccounts := gets (fun w => List.filter (fun g => (gl_tenantId g === tenantId)
        && ((gl_code g === "1000") || (gl_code g === "2000")) && gl_isActive g) (glAccounts (db w))) in
      match List.find (fun g => gl_code g === "1000") glAccounts, List.find (fun g => gl_code g === "2000") glAccounts with
      | Some cashAccount, Some memberSavingsAccount =>
          journal_create (mkJournalData tenantId ("JE-MPESA-RECON-" +:+ mpesaTxId) MPESA_DEPOSIT
            (recon_description mpesaTxId m note) (txn_id ledgerTx) amount actorId
            "System-posted with operational ledger transaction" None
            (mkGLPosting (gl_id cashAccount) (gl_id memberSavingsAccount) amount
               ("Manual M-Pesa reconciliation - " +:+ reference))) ;;
          mpesa_update mpesaTxId
            (set_matched (txn_id ledgerTx) (default memberId (mpd_memberId (mp_details m))) note) ;;
          ret (txn_id ledgerTx, (before, after))
      | _, _ => throw (BadRequest "Required system GL accounts are not configured for this tenant")
      end
  end.

(** What a request reads before its transaction. *)
Definition match_read (mpesaTxId tenantId accountId : string) : M (MpesaTransaction * Account) :=
  let* payment := gets (fun w => unmatched_payment tenantId mpesaTxId (db w)) in
  let* m := or_throw payment (NotFound ("RECON_PENDING M-Pesa transaction " +:+ mpesaTxId
    +:+ " not found, already matched, or belongs to a different tenant")) in
  let* found := gets (fun w => active_account tenantId accountId (db w)) in
  let* account := or_throw found (NotFound ("Active account " +:+ accountId +:+ " not found in this tenant")) in
  ret (m, account).

(** [note?.trim() ?? 'No note provided'] *)
Definition note_text (note : option string) : string := default "No note provided" (trim <$> note).

Definition match_commit (mpesaTxId tenantId accountId actorId : string) (note : option string)
    (read_ : MpesaTransaction * Account) : M MatchResult :=
  let '(m, account) := read_ in
  let* posted := transaction (matchBody mpesaTxId tenantId accountId actorId (note_text note) m (acc_memberId account)) in
  modify (log_audit "MPESA.MANUAL_MATCH") ;;
  let* member := gets (fun w => members (db w) !! acc_memberId account) in
  let memberName := match member with Some x => mem_firstName x +:+ " " +:+ mem_lastName x | None => "" end in
  ret (mkMatch posted.1 (mp_amount m) posted.2.1 posted.2.2 (acc_accountNumber account) memberName).

Definition matchMpesaTransaction (mpesaTxId tenantId accountId actorId : string) (note : option string)
  : M MatchResult :=
  let* read_ := match_read mpesaTxId tenantId accountId in
  match_commit mpesaTxId tenantId accountId actorId note read_.

(** ** Provisioning of a tenant *)
Record GLAccountSeed := mkSeed {
  gs_code : string;
  gs_name : string;
  gs_type : GLAccountType;
}.

(** Every seed is a system account. *)
Definition DEFAULT_GL_ACCOUNTS : list GLAccountSeed := [
  mkSeed "1000" "Cash at Bank - M-Pesa" ASSET; mkSeed "1010" "Cash at Bank - Commercial" ASSET;
  mkSeed "1100" "Accounts Receivable" ASSET; mkSeed "1300" "Loan Portfolio - Development" ASSET;
  mkSeed "1301" "Loan Portfolio - Jipange" ASSET; mkSeed "1302" "Loan Portfolio - Emergency" ASSET;
  mkSeed "1400" "Provision for Bad Debts" ASSET;
  mkSeed "2000" "Member Savings" LIABILITY; mkSeed "2100" "Member Shares" LIABILITY;
  mkSeed "2200" "Accounts Payable" LIABILITY; mkSeed "2300" "Member Deposits - FOSA" LIABILITY;
  mkSeed "2400" "Member Deposits - BOSA" LIABILITY;
  mkSeed "3000" "Share Capital" EQUITY; mkSeed "3100" "Retained Earnings" EQUITY; mkSeed "3200" "Statutory Reserve" EQUITY;
  mkSeed "4000" "Interest Income - Loans" REVENUE; mkSeed "4100" "Fee Income" REVENUE;
  mkSeed "4200" "Penalty Income" REVENUE; mkSeed "4300" "Processing Fee Income" REVENUE;
  mkSeed "5000" "Operating Expenses" EXPENSE; mkSeed "5100" "Staff Costs" EXPENSE;
  mkSeed "5200" "M-Pesa Transaction Fees" EXPENSE; mkSeed "5300" "Bad Debt Write-off" EXPENSE;
  mkSeed "5400" "Interest Expense" EXPENSE].

Definition SYSTEM_USER_EMAIL : string := "system@beba-sacco.internal".
Definition DEFAULT_ACCOUNT_TYPE_POLICIES : list AccountType := [FOSA; BOSA].

Definition gl_seeded (tenantId code : string) (d : DB) : bool :=
  existsb (fun g => (gl_tenantId g === tenantId) && (gl_code g === code)) (glAccounts d).

(** [gLAccount.upsert({ where: { tenantId_code }, update: {}, create })] *)
Definition seed_gl_account (tenantId : string) (seed : GLAccountSeed) : AC unit :=
  let* there := gets (fun s => gl_seeded tenantId (gs_code seed) (kdb s)) in
  if (there : bool) then ret tt else
  let* id := on_books fresh_id in
  let* dupId := gets (fun s => existsb (fun g => gl_id g === id) (glAccounts (kdb s))) in
  throw_if dupId (UniqueViolation "GLAccount") ;;
  on_books (modify (with_db (fun d =>
    set_glAccounts (glAccounts d ++ [mkGLAccount id tenantId (gs_code seed) true]) d))) ;;
  modify (put_glColumns id (mkGLColumns (gs_name seed) (gs_type seed) true)).

Definition each {A} (f : A -> AC unit) : list A -> AC unit :=
  fix go l := match l with [] => ret tt | x :: l' => f x ;; go l' end.

Definition seedDefaultChartOfAccounts (tenantId : string) : AC nat :=
  each (seed_gl_account tenantId) DEFAULT_GL_ACCOUNTS ;;
  ret (length DEFAULT_GL_ACCOUNTS).

Definition seed_policy (tenantId : string) (t : AccountType) : AC unit :=
  let* there := gets (fun s => existsb (fun p => (pol_tenantId p === tenantId) && (pol_accountType p === t)) (policies (kdb s))) in
  if (there : bool) then ret tt else
  on_books (modify (with_db (fun d => set_policies (policies d ++ [mkPolicy tenantId t 0 false]) d))).

Definition seedDefaultAccountTypePolicies (tenantId : string) : AC nat :=
  each (seed_policy tenantId) DEFAULT_ACCOUNT_TYPE_POLICIES ;;
  ret (length DEFAULT_ACCOUNT_TYPE_POLICIES).

Definition has_email (email id : string) (s : AccountingWorld) : bool :=
  match kw_userColumns s !! id with Some c => su_email c === email | None => false end.

Definition system_user (tenantId : string) (s : AccountingWorld) : option User :=
  List.find (fun u => (user_tenantId u === tenantId) && has_email SYSTEM_USER_EMAIL (user_id u) s) (users (kdb s)).

Definition ensureSystemUser (tenantId : string) : AC string :=
  let* existing := gets (system_user tenantId) in
  match existing with
  | Some u => ret (user_id u)
  | None =>
      let* id := on_books fresh_id in
      let* dupId := gets (fun s => user_exists id (kdb s)) in
      throw_if dupId (UniqueViolation "User") ;;
      on_books (modify (with_db (fun d => set_users (users d ++ [mkUser id tenantId SYSTEM]) d))) ;;
      modify (put_userColumns id (mkSystemUser SYSTEM_USER_EMAIL true)) ;;
      ret id
  end.

Record Provisioned := mkProvisioned {
  pr_glAccountsSeeded : nat;
  pr_policiesSeeded : nat;
  pr_systemUserId : string;
}.

(** [Promise.all]: three independent parts. *)
Definition provisionTenantAccounting (tenantId : string) : AC Provisioned :=
  let* gl := seedDefaultChartOfAccounts tenantId in
  let* policies := seedDefaultAccountTypePolicies tenantId in
  let* systemUser := ensureSystemUser tenantId in
  ret (mkProvisioned gl policies systemUser).
End Accounting.
