(* ===== verification/LoanApply.v ===== *)
(** * LoanApply: applying for a loan and inviting guarantors

    [src/src/modules/loans/loan-application.service.ts], the member's request
    for guarantors of [src/src/modules/members/member-portal.controller.ts] and
    [src/src/modules/loans/loan-review.service.ts].  A JavaScript amount is a
    rational; the purpose of a loan, domain events and log lines are left out,
    and of an e-mail job the type, the address and the loan number are kept. *)
From S2P Require Import Prelude Money Json Format Schema Ledger AuditLogs Redis Recovery Loans.
From S2P Require Import Accounts LoanRules Guarantors ApprovalChains Lending.

Definition HOUR : Z := 60 * 60 * 1000.
Definition CONSENT_WINDOW : Z := 72 * HOUR.

(** ** Requests *)
Record GuarantorNomination := mkNomination {
  gn_memberId : string;
  gn_guaranteedAmount : Q;
}.

Record MemberApplyLoanDto := mkApplyDto {
  ad_loanProductId : string;
  ad_principalAmount : Q;
  ad_tenureMonths : Z;
  ad_notes : option string;
  ad_guarantors : list GuarantorNomination;
  ad_guarantorIds : list string;
}.

Record Request := mkRequest {
  rq_requestId : option string;    (* x-request-id *)
  rq_ip : option string;
  rq_userAgent : option string;
}.

(** An eligibility verdict: the reason against, if there is one. *)
Record Eligibility := mkEligibility {
  el_memberId : string;
  el_reason : option string;
}.
Definition eligible (e : Eligibility) : bool := el_reason e === None.

(** The statuses of a loan in which a guarantee given on it is still open. *)
Definition guaranteeing_statuses : list LoanStatus :=
  [PENDING_GUARANTORS; PENDING_REVIEW; PENDING_APPROVAL; APPROVED; ACTIVE; DISBURSED].
Definition running_statuses : list LoanStatus := [ACTIVE; APPROVED; DISBURSED].

(** [g.loan], the loan a guarantor row belongs to. *)
Definition row_loan (g : LoanGuarantor) (d : DB) : option Loan := loans d !! lg_loanId g.

Definition loan_in (statuses : list LoanStatus) (o : option Loan) : bool :=
  match o with Some l => bool_decide (loan_status l ∈ statuses) | None => false end.

(** ** resolveMaxConcurrentGuarantees

    A number in the settings counts when it is a positive integer. *)
Definition resolveMaxConcurrentGuarantees (settings : json) : Z :=
  match settings with
  | JObj fields =>
      match List.find (fun f => f.1 === "maxConcurrentGuarantees") fields with
      | Some (_, JNum text) =>
          match parse_decimal text with
          | Some q => if Qeq_bool q (inject_Z (Qfloor q)) && (0 <? Qfloor q) then Qfloor q else 3
          | None => 3
          end
      | _ => 3
      end
  | _ => 3
  end.

Definition max_guarantees (tenantId : string) (s : LendingWorld) : Z :=
  resolveMaxConcurrentGuarantees
    (match tenants (lw_tables s) !! tenantId with Some t => tn_settings t | None => JNull end).

(** ** sumAvailableSavings *)
Definition available (a : Account) : Z := acc_balance a - acc_lockedBalance a - acc_frozenSavings a.

(** [account.findMany({ where: { memberId, tenantId, isActive: true } })] *)
Definition active_accounts (tenantId memberId : string) (d : DB) : list Account :=
  List.filter (fun a => (acc_memberId a === memberId) && (acc_tenantId a === tenantId) && acc_isActive a)
    ((map_to_list (accounts d)).*2).

Definition sumAvailableSavings (rows : list Account) (T : AccountType) : Z :=
  sum_by available (List.filter (fun a => acc_accountType a === T) rows).

(** ** validateMemberEligibility *)
Record MemberEligibility := mkMemberEligibility {
  me_reason : option string;
  me_fosaBalance : Z;
  me_bosaBalance : Z;
  me_kycStatus : option KycStatus;   (* [None] for UNKNOWN *)
}.

Definition validateMemberEligibility (memberId tenantId : string) : LM MemberEligibility :=
  let* found := gets (active_member tenantId memberId) in
  match found with
  | None => ret (mkMemberEligibility (Some "Member not found or inactive") 0 0 None)
  | Some (member, columns) =>
      let kyc := Some (mem_kycStatus member) in
      if negb (mem_kycStatus member === KYC_APPROVED) then
        ret (mkMemberEligibility (Some "KYC verification required before applying for a loan") 0 0 kyc)
      else if mc_isBlacklisted columns then
        ret (mkMemberEligibility (Some "Member is blacklisted and cannot apply for loans") 0 0 kyc)
      else
        let* rows := gets (fun s => active_accounts tenantId memberId (ldb s)) in
        if negb (existsb (fun a => acc_accountType a === FOSA) rows)
           && negb (existsb (fun a => acc_accountType a === BOSA) rows) then
          ret (mkMemberEligibility (Some "No active FOSA or BOSA account found") 0 0 kyc)
        else
          let fosaBalance := sumAvailableSavings rows FOSA in
          let bosaBalance := sumAvailableSavings rows BOSA in
          let* defaulted := gets (fun s => member_loan_in [DEFAULTED] tenantId memberId (ldb s)) in
          ret (mkMemberEligibility
            (match defaulted with Some _ => Some "Member has an active defaulted loan" | None => None end)
            fosaBalance bosaBalance kyc)
  end.

(** ** Guarantor eligibility *)
Definition self_guarantee : string := "Member cannot guarantee their own loan".
Definition guarantor_unknown : string := "Guarantor not found or inactive".
Definition guarantor_inactive : string := "Guarantor must be an active approved member".
Definition circular_guarantee : string :=
  "Circular guarantee detected. This member is already guaranteeing a loan for the applicant.".

(** Does the borrower guarantee an open loan of [guarantorMemberId]? *)
Definition circular_row (tenantId borrowerMemberId guarantorMemberId : string) (d : DB) (g : LoanGuarantor) : bool :=
  (lg_tenantId g === tenantId) && (lg_memberId g === borrowerMemberId)
  && bool_decide (lg_status g ∈ [G_PENDING; G_ACCEPTED])
  && match row_loan g d with
     | Some l => (loan_tenantId l === tenantId) && (loan_memberId l === guarantorMemberId)
                 && bool_decide (loan_status l ∈ guaranteeing_statuses)
     | None => false
     end.

Definition limit_reached (maxGuarantees : Z) : string :=
  "Guarantor has reached the maximum concurrent guarantee limit (" +:+ pretty maxGuarantees +:+ ")".

Definition insufficient_text (label : string) (availableBalance : Z) (amount : Q) : string :=
  "Insufficient " +:+ label +:+ " available balance: available KES " +:+ toFixed2 (dec availableBalance)
  +:+ ", committing KES " +:+ toFixed2 amount.

(** The checks on the guarantor itself, in their order. *)
Definition member_reason (member : Member) (columns : MemberColumns) (s : LendingWorld) : option string :=
  if negb (is_member_user member s) || negb (mc_accountStatus columns === AS_ACTIVE) then Some guarantor_inactive
  else if negb (mem_kycStatus member === KYC_APPROVED) then Some "Guarantor KYC is not approved"
  else if mc_isBlacklisted columns then Some "Guarantor is blacklisted"
  else None.

(** [validateGuarantorEligibility]: a query for each rule. *)
Definition validateGuarantorEligibility (guarantorMemberId tenantId : string) (proposedAmount : Q)
    (borrowerMemberId : string) (T : AccountType) : LM Eligibility :=
  let no reason := ret (mkEligibility guarantorMemberId (Some reason)) in
  if guarantorMemberId === borrowerMemberId then no self_guarantee else
  let* found := gets (active_member tenantId guarantorMemberId) in
  match found with
  | None => no guarantor_unknown
  | Some (member, columns) =>
      let* reason := gets (member_reason member columns) in
      match reason with
      | Some r => no r
      | None =>
          let* circular := gets (fun s => existsb (circular_row tenantId borrowerMemberId guarantorMemberId (ldb s))
            (loanGuarantors (ldb s))) in
          if (circular : bool) then no circular_guarantee else
          let* account := gets (fun s => member_account tenantId guarantorMemberId T (ldb s)) in
          match account with
          | None => no "Guarantor has no active FOSA account"
          | Some (_, a) =>
              if negb (Qle_bool proposedAmount (dec (available a)))
              then no (insufficient_text "FOSA" (available a) proposedAmount) else
              let* defaulted := gets (fun s => member_loan_in [DEFAULTED] tenantId guarantorMemberId (ldb s)) in
              match defaulted with
              | Some _ => no "Guarantor has a defaulted loan"
              | None =>
                  let* maxGuarantees := gets (max_guarantees tenantId) in
                  let* active := gets (fun s => count_where (fun g => (lg_memberId g === guarantorMemberId)
                    && (lg_tenantId g === tenantId) && (lg_status g === G_ACCEPTED)
                    && loan_in running_statuses (row_loan g (ldb s))) (loanGuarantors (ldb s))) in
                  if maxGuarantees <=? Z.of_nat active then no (limit_reached maxGuarantees)
                  else ret (mkEligibility guarantorMemberId None)
              end
          end
      end
  end.

(** [validateGuarantorsEligibilityBatchInTransaction]: five queries for all the
    guarantors, and a verdict for each from their answers. *)
Record GuarantorFactsRow := mkGuarantorView {
  gv_member : Member;
  gv_columns : MemberColumns;
  gv_accounts : list Account;
}.

Definition memberById (tenantId : string) (ids : list string) (T : AccountType) (s : LendingWorld)
  : gmap string GuarantorFactsRow :=
  map_imap (fun id m =>
    match memberColumns (lw_tables s) !! id with
    | Some c => if (mem_tenantId m === tenantId) && bool_decide (id ∈ ids) && mc_isActive c
                then Some (mkGuarantorView m c (List.filter (fun a => (acc_memberId a === id)
                  && (acc_accountType a === T) && acc_isActive a) ((map_to_list (accounts (ldb s))).*2)))
                else None
    | None => None
    end) (members (ldb s)).

(** [circularGuarantees], and the members whose loans they are for. *)
Definition circularGuarantorIds (tenantId borrowerMemberId : string) (ids : list string) (d : DB) : gset string :=
  list_to_set (omap (fun g =>
    if (lg_tenantId g === tenantId) && (lg_memberId g === borrowerMemberId)
       && bool_decide (lg_status g ∈ [G_PENDING; G_ACCEPTED])
    then match row_loan g d with
         | Some l => if (loan_tenantId l === tenantId) && bool_decide (loan_memberId l ∈ ids)
                        && bool_decide (loan_status l ∈ guaranteeing_statuses)
                     then Some (loan_memberId l) else None
         | None => None
         end
    else None) (loanGuarantors d)).

Definition defaultedGuarantorIds (tenantId : string) (ids : list string) (d : DB) : gset string :=
  list_to_set (omap (fun kv : string * Loan =>
    if bool_decide (loan_memberId kv.2 ∈ ids) && (loan_tenantId kv.2 === tenantId)
       && (loan_status kv.2 === DEFAULTED)
    then Some (loan_memberId kv.2) else None) (map_to_list (loans d))).

(** [groupBy({ by: ['memberId'], _count })] as a map. *)
Definition activeGuaranteesByMember (tenantId : string) (ids : list string) (d : DB) : gmap string nat :=
  foldr (fun g m => <[lg_memberId g := S (default 0%nat (m !! lg_memberId g))]> m) ∅
    (List.filter (fun g => bool_decide (lg_memberId g ∈ ids) && (lg_tenantId g === tenantId)
      && (lg_status g === G_ACCEPTED)
      && match row_loan g d with
         | Some l => (loan_tenantId l === tenantId) && bool_decide (loan_status l ∈ running_statuses)
         | None => false
         end) (loanGuarantors d)).

Definition batch_verdict (s : LendingWorld) (byId : gmap string GuarantorFactsRow) (circular defaulted : gset string)
    (counts : gmap string nat) (maxGuarantees : Z) (borrowerMemberId : string) (T : AccountType)
    (guarantorMemberId : string) (amount : Q) : option string :=
  if guarantorMemberId === borrowerMemberId then Some self_guarantee else
  match byId !! guarantorMemberId with
  | None => Some guarantor_unknown
  | Some v =>
      match member_reason (gv_member v) (gv_columns v) s with
      | Some r => Some r
      | None =>
          if bool_decide (guarantorMemberId ∈ circular) then Some circular_guarantee else
          match gv_accounts v with
          | [] => Some ("Guarantor has no active " +:+ account_type_name T +:+ " account")
          | a :: _ =>
              if negb (Qle_bool amount (dec (available a)))
              then Some (insufficient_text (account_type_name T) (available a) amount)
              else if bool_decide (guarantorMemberId ∈ defaulted) then Some "Guarantor has a defaulted loan"
              else if maxGuarantees <=? Z.of_nat (default 0%nat (counts !! guarantorMemberId))
              then Some (limit_reached maxGuarantees)
              else None
          end
      end
  end.

Definition validateGuarantorsEligibilityBatch (guarantors : list GuarantorNomination)
    (tenantId borrowerMemberId : string) (T : AccountType) : LM (list Eligibility) := fun s =>
  let ids := gn_memberId <$> guarantors in
  let d := ldb s in
  let byId := memberById tenantId ids T s in
  let circular := circularGuarantorIds tenantId borrowerMemberId ids d in
  let defaulted := defaultedGuarantorIds tenantId ids d in
  let counts := activeGuaranteesByMember tenantId ids d in
  let maxGuarantees := max_guarantees tenantId s in
  (Ok ((fun g => mkEligibility (gn_memberId g)
     (batch_verdict s byId circular defaulted counts maxGuarantees borrowerMemberId T
        (gn_memberId g) (gn_guaranteedAmount g))) <$> guarantors), s).

(** ** The instalment *)
Section Instalment.
Context `{DecimalLib, Numbers}.

Definition calculateInstalment (principal annualRate : Q) (tenureMonths : Z) (interestType : InterestType) : decimal :=
  match interestType with
  | FLAT =>
      let totalInterest := d_div (d_times (d_times principal annualRate) (inject_Z tenureMonths)) (inject_Z 12) in
      div_or_nan (d_plus principal totalInterest) (inject_Z tenureMonths)
  | REDUCING_BALANCE =>
      let monthlyRate := d_div annualRate (inject_Z 12) in
      let pow := d_pow (d_plus monthlyRate 1) tenureMonths in
      div_or_nan (d_times (d_times principal monthlyRate) pow) (d_minus pow 1)
  end.

(** The required coverage in equal shares, the last one taking what rounding
    left over. *)
Definition equal_shares (requiredCoverage : Z) (guarantorIds : list string) : list GuarantorNomination :=
  let n := length guarantorIds in
  let equalShare := trunc_dp4 (d_div (dec requiredCoverage) (inject_Z (Z.of_nat n))) in
  imap (fun index guarantorId =>
    let guaranteedAmount :=
      if Nat.eqb index (n - 1)
      then to_dp4 (d_minus (dec requiredCoverage) (d_times (dec equalShare) (inject_Z (Z.of_nat n - 1))))
      else equalShare in
    mkNomination guarantorId (to_number (dec guaranteedAmount))) guarantorIds.
End Instalment.

(** ** memberApply *)
Definition open_loan_exists (l : Loan) : exn :=
  BadRequest ("ONE_OPEN_LOAN_ONLY: You already have loan " +:+ loan_loanNumber l +:+ " in "
    +:+ map_string (fun c => if Ascii.eqb c "_" then " "%char else c) (loan_status_name (loan_status l))
    +:+ " status. You can apply for another loan after it is fully paid.").

Definition oneOpenLoanConflict : exn :=
  Conflict "ONE_OPEN_LOAN_ONLY: You already have an open loan. You can apply for another loan after it is fully paid.".

(** A unique-key error on the index of open loans. *)
Definition isOneOpenLoanConstraintViolation (e : exn) : bool :=
  match e with UniqueViolation t => t === INDEX_ONE_OPEN | _ => false end.

(** The exceptions [_doMemberApply] lets through as they are. *)
Definition passes_through (e : exn) : bool :=
  match e with BadRequest _ | NotFound _ | Conflict _ | Forbidden _ => true | _ => false end.

Definition apply_failed : exn := InternalError "Loan application could not be completed. Please retry.".

Definition loan_number (ms seq : Z) : string :=
  "LN-" +:+ pretty (civil_from_days (ms / msPerDay)).1 +:+ "-" +:+ pad 6 seq.

(** [tenantCounter.upsert] *)
Definition claim_loan_seq (tenantId : string) : LM Z :=
  let* last := gets (fun s => default 0 (loanSeqs (lw_tables s) !! tenantId)) in
  modify_lending (fun t => set_loanSeqs (<[tenantId := last + 1]> (loanSeqs t)) t) ;;
  ret (last + 1).

Definition guarantor_text (m : Member) : string :=
  let names := List.filter (fun n => negb (n === "")) [mem_firstName m; mem_lastName m] in
  if join " " names === "" then mem_memberNumber m else join " " names.

Record PendingGuarantor := mkPending {
  pg_guarantorId : string;
  pg_memberId : string;
  pg_guaranteedAmount : Q;
}.

Record TxResult := mkTxResult {
  tr_loanId : string;
  tr_loan : Loan;
  tr_borrowerName : string;
  tr_guarantors : list PendingGuarantor;
}.

Definition coverage_input (g : GuarantorNomination) : GuarantorCoverageInput :=
  mkCoverageInput (gn_memberId g) (Finite (gn_guaranteedAmount g)).

Definition rule_product (p : LoanProduct) : ProductRuleProduct :=
  mkProductRule (lp_name p) (lp_requiredAccountType p) (Some (lp_savingsMultiplier p)) (lp_minGuarantors p)
    (lp_maxGuarantors p).

(** A new row in the Guarantor table. *)
Definition new_guarantor (id tenantId loanId memberId : string) (amount : Z) (now : Z) : LoanGuarantor :=
  mkLoanGuarantor id tenantId loanId memberId G_PENDING amount 0 None None now.

(** The row [loan.create] writes. *)
Definition new_loan (tenantId memberId : string) (dto : MemberApplyLoanDto) (p : ProductColumns)
    (loanNumber : string) (status : LoanStatus) (principal processingFee instalment now : Z) : Loan :=
  mkLoan tenantId memberId (ad_loanProductId dto) loanNumber status principal principal 0 0 0 0 PERFORMING None None
    None now now
    (mkTerms (pc_interestRate p) processingFee (ad_tenureMonths dto) (pc_gracePeriodMonths p) instalment false
       None None None (ad_notes dto)).

Definition apply_status (minGuarantors : Z) (guarantors : list GuarantorNomination) : LoanStatus :=
  if (0 <? minGuarantors) || negb (Nat.eqb (length guarantors) 0) then PENDING_GUARANTORS else DRAFT.

Section Apply.
Context `{UuidSource, Sha256, Environment, DecimalLib, Numbers}.

(** The service's writer of audit rows: the verifier's text is digested. *)
Definition application_audit (tenantId actorId action entityType entityId : string) (metadata : json)
    (req : Request) (requestId : option string) : M unit :=
  chained_audit tenantId (Some actorId) action entityType entityId JNull JNull metadata None
    (rq_ip req) (rq_userAgent req) requestId
    (fun prevHash timestamp => computeEntryHash tenantId (Some actorId) action entityType (Some entityId)
       timestamp prevHash).

(** The guarantors of the application: equal shares for bare ids. *)
Definition nominated (dto : MemberApplyLoanDto) (product : LoanProduct) : list GuarantorNomination :=
  match ad_guarantorIds dto with
  | [] => ad_guarantors dto
  | ids => equal_shares (to_dp4 (d_times (ad_principalAmount dto) (dec (lp_guarantorCoverageRatio product)))) ids
  end.

Definition check_amounts (dto : MemberApplyLoanDto) (columns : ProductColumns) : LM unit :=
  throw_if (negb (Qle_bool (dec (pc_minAmount columns)) (ad_principalAmount dto))
            || negb (Qle_bool (ad_principalAmount dto) (dec (pc_maxAmount columns))))
    (BadRequest ("Principal must be between KES " +:+ dp4_toString (pc_minAmount columns) +:+ " and KES "
       +:+ dp4_toString (pc_maxAmount columns))) ;;
  throw_if (pc_maxTenureMonths columns <? ad_tenureMonths dto)
    (BadRequest ("Maximum tenure is " +:+ pretty (pc_maxTenureMonths columns) +:+ " months")).

(** The coverage of the nominated guarantors and their eligibility. *)
Definition check_guarantors (dto : MemberApplyLoanDto) (product : LoanProduct) (tenantId memberId : string)
    (minGuarantors : Z) (guarantors : list GuarantorNomination) : LM GuarantorCoverageResult :=
  let requiresGuarantors := (0 <? minGuarantors) || negb (Nat.eqb (length guarantors) 0) in
  let* coverage :=
    if requiresGuarantors
    then on_base (validateGuarantorCoverage tenantId (ad_principalAmount dto) (coverage_input <$> guarantors)
           (lp_requiredAccountType product) (Some (lp_guarantorCoverageRatio product)))
    else ret (mkCoverageResult 0 0 (lp_guarantorCoverageRatio product)) in
  (if Nat.eqb (length guarantors) 0 then ret tt else
   let* results := validateGuarantorsEligibilityBatch guarantors tenantId memberId
     (resolveAccountType (lp_requiredAccountType product)) in
   match List.find (fun e => negb (eligible e)) results with
   | Some e => throw (BadRequest ("GUARANTOR_NOT_ELIGIBLE: guarantor " +:+ el_memberId e +:+ " not eligible: "
                 +:+ default "" (el_reason e)))
   | None => ret tt
   end) ;;
  ret coverage.

(** The PENDING rows of the nominated guarantors. *)
Definition create_guarantors (tenantId loanId : string) (guarantors : list GuarantorNomination)
  : LM (list PendingGuarantor) :=
  foldM (fun acc item =>
    let* id := on_base fresh_id in
    let* now := gets lnow in
    guarantor_create (new_guarantor id tenantId loanId (gn_memberId item) (to_dp4 (gn_guaranteedAmount item)) now)
      (asked now (Some (now + CONSENT_WINDOW))) ;;
    ret (acc ++ [mkPending id (gn_memberId item) (gn_guaranteedAmount item)])) [] guarantors.

Definition apply_metadata (dto : MemberApplyLoanDto) (memberId : string) (loan : Loan) (product : LoanProduct)
    (instalment : Q) (rules : ProductRuleResult) (guarantorCount : nat) (coverage : GuarantorCoverageResult)
    (correlationId : string) : json :=
  JObj [("loanNumber", JStr (loan_loanNumber loan)); ("memberId", JStr memberId);
    ("principalAmount", JNum (number_text (ad_principalAmount dto)));
    ("tenureMonths", JNum (pretty (ad_tenureMonths dto)));
    ("monthlyInstalment", JNum (number_text instalment));
    ("loanProductId", JStr (ad_loanProductId dto)); ("productName", JStr (lp_name product));
    ("requiredAccountType", JStr (match lp_requiredAccountType product with
       | Some T => account_type_name T | None => "COMBINED" end));
    ("savingsMultiplier", JNum (number_text (dec (savingsMultiplier rules))));
    ("eligibleSavings", JNum (number_text (dec (eligibleSavings rules))));
    ("minGuarantors", JNum (pretty (minGuarantors rules)));
    ("guarantorCount", JNum (pretty (Z.of_nat guarantorCount)));
    ("guarantorCoverageRatio", JNum (number_text (dec (coverageRatio coverage))));
    ("totalGuaranteed", JNum (number_text (totalGuaranteed coverage)));
    ("requiredCoverage", JNum (number_text (dec (cov_requiredCoverage coverage))));
    ("correlationId", JStr correlationId)].

Definition applyBody (dto : MemberApplyLoanDto) (tenantId memberId userId : string) (req : Request)
    (correlationId : string) : LM TxResult :=
  let* found := gets (active_member tenantId memberId) in
  let* '(member, memberCols) := or_throw found (NotFound "Member not found or inactive") in
  throw_if (negb (mem_kycStatus member === KYC_APPROVED))
    (BadRequest "KYC verification required before applying for a loan") ;;
  throw_if (mc_isBlacklisted memberCols) (Forbidden "Member is blacklisted and cannot apply for loans") ;;
  let* existing := gets (fun s => member_loan_in open_statuses tenantId memberId (ldb s)) in
  match existing with Some (_, l) => throw (open_loan_exists l) | None => ret tt end ;;
  let* foundProduct := gets (active_product tenantId (ad_loanProductId dto)) in
  let* '(product, columns) := or_throw foundProduct (NotFound "Loan product not found or inactive") in
  let guarantors := nominated dto product in
  check_amounts dto columns ;;
  let* defaulted := gets (fun s => member_loan_in [DEFAULTED] tenantId memberId (ldb s)) in
  throw_if (bool_decide (is_Some defaulted)) (BadRequest "Member has an active defaulted loan") ;;
  let* rows := gets (fun s => active_accounts tenantId memberId (ldb s)) in
  let fosaBalance := sumAvailableSavings rows FOSA in
  let bosaBalance := sumAvailableSavings rows BOSA in
  throw_if (fosaBalance + bosaBalance =? 0) (BadRequest "No active FOSA or BOSA account found") ;;
  let* rules := lreturn (assertLoanApplicationRules (rule_product product) (ad_principalAmount dto)
    (Z.of_nat (length guarantors)) fosaBalance bosaBalance) in
  let* coverage := check_guarantors dto product tenantId memberId (minGuarantors rules) guarantors in
  let principal := ad_principalAmount dto in
  let processingFee := to_dp4 (d_times principal (dec (pc_processingFeeRate columns))) in
  let monthlyInstalment := calculateInstalment principal (dec (pc_interestRate columns)) (ad_tenureMonths dto)
    (lp_interestType product) in
  let* seq := claim_loan_seq tenantId in
  let* now := gets lnow in
  let* loanId := on_base fresh_id in
  throw_if (match monthlyInstalment with NonFinite => true | Finite _ => false end)
    (PlainError "Invalid value for argument monthlyInstalment") ;;
  let instalment := finite_value monthlyInstalment in
  let loan := new_loan tenantId memberId dto columns (loan_number now seq)
    (apply_status (minGuarantors rules) guarantors) (to_dp4 principal) processingFee (to_dp4 instalment) now in
  on_base (loan_create loanId loan) ;;
  let* pending := create_guarantors tenantId loanId guarantors in
  on_base (application_audit tenantId userId "LOAN.APPLY" "Loan" loanId
    (apply_metadata dto memberId loan product instalment rules (length guarantors) coverage correlationId)
    req (Some (correlationId +:+ ":loan-apply"))) ;;
  ret (mkTxResult loanId loan (guarantor_text member) pending).

(** Tell one guarantor, and plan the check on its answer. *)
Definition invite_text (borrowerName loanNumber : string) (amount : Q) : string :=
  "Beba SACCO: " +:+ borrowerName +:+ " requested you to guarantee loan " +:+ loanNumber +:+ " for KES "
  +:+ number_text amount +:+ ". Log in to respond.".

Definition add_expiry_job (tenantId loanId guarantorId : string) : LM unit :=
  modify (fun s => set_expiryQueue (expiryQueue s ++
    [mkExpiryJob (Some tenantId) (Some loanId) (Some guarantorId) None (lnow s + CONSENT_WINDOW)]) s).

Definition notify_nominee (tenantId : string) (tx : TxResult) (g : PendingGuarantor) : LM unit :=
  let* m := gets (fun s => match members (ldb s) !! pg_memberId g with
                           | Some m => if mem_tenantId m === tenantId then Some m else None
                           | None => None end) in
  add_expiry_job tenantId (tr_loanId tx) (pg_guarantorId g) ;;
  on_base (enqueueEmail "GUARANTOR_INVITE" (m ≫= mem_email) (loan_loanNumber (tr_loan tx))) ;;
  match truthy (m ≫= mem_phone) with
  | Some phone => on_base (modify (send_message (mkMessage SMS "GUARANTOR_INVITE" phone
      (invite_text (tr_borrowerName tx) (loan_loanNumber (tr_loan tx)) (pg_guaranteedAmount g)))))
  | None => ret tt
  end.

Definition doMemberApply (dto : MemberApplyLoanDto) (tenantId memberId userId : string) (req : Request)
    (correlationId : string) : LM (string * Loan) :=
  catching
    (let* tx := lending_transaction (applyBody dto tenantId memberId userId req correlationId) in
     foldM (fun _ g => notify_nominee tenantId tx g) tt (tr_guarantors tx) ;;
     ret (tr_loanId tx, tr_loan tx))
    (fun e => throw (if passes_through e then e else apply_failed)).

Definition apply_key (userId memberId loanProductId idempotencyKey : string) : string :=
  "loan:apply:" +:+ userId +:+ ":" +:+ memberId +:+ ":" +:+ loanProductId +:+ ":" +:+ idempotencyKey.

(** [x-request-id], or a new identifier. *)
Definition correlation_id (req : Request) : LM string :=
  match rq_requestId req with Some id => ret id | None => on_base fresh_id end.

Definition memberApply (dto : MemberApplyLoanDto) (tenantId memberId userId : string) (req : Request)
    (idempotencyKey : string) : LM (string * Loan) :=
  throw_if (trim idempotencyKey === "") (BadRequest "IDEMPOTENCY_KEY_REQUIRED") ;;
  let idemKey := apply_key userId memberId (ad_loanProductId dto) idempotencyKey in
  let* check := on_apply (checkAndReserve idemKey tenantId) in
  match check with
  | IS_COMPLETED result => ret result
  | IS_PROCESSING => throw (Conflict "Loan application is already being processed. Please wait.")
  | IS_NEW =>
      catching
        (let* correlationId := correlation_id req in
         let* result := doMemberApply dto tenantId memberId userId req correlationId in
         on_apply (complete idemKey tenantId result) ;;
         ret result)
        (fun e => on_apply (release idemKey tenantId) ;;
                  throw (if isOneOpenLoanConstraintViolation e then oneOpenLoanConflict else e))
  end.
End Apply.

(** ** Inviting guarantors to an existing loan *)
Inductive InviteStatus := Invited | Skipped (reason : string).
Record InviteResult := mkInviteResult {
  ir_memberId : string;
  ir_guaranteedAmount : Q;
  ir_status : InviteStatus;
}.
Definition invited (r : InviteResult) : bool := match ir_status r with Invited => true | Skipped _ => false end.

Record InviteSummary := mkInviteSummary {
  is_invitedCount : nat;
  is_totalGuaranteedAmount : Q;
  is_minimumCoverageRequired : Q;
  is_coverageMet : bool;
  is_results : list InviteResult;
}.

Definition active_guarantor_row (g : LoanGuarantor) : bool := bool_decide (lg_status g ∈ [G_PENDING; G_ACCEPTED]).

(** A row asked again: pending, with the new amount. *)
Definition asked_again (amount : Z) (g : LoanGuarantor) : LoanGuarantor :=
  mkLoanGuarantor (lg_id g) (lg_tenantId g) (lg_loanId g) (lg_memberId g) G_PENDING amount (lg_recoveredAmount g)
    (lg_recoveryDate g) (lg_holdReleasedAt g) (lg_createdAt g).
Definition asked_again_columns (invitedAt : Z) (c : ConsentColumns) : ConsentColumns :=
  mkConsent invitedAt None (Some (invitedAt + CONSENT_WINDOW)) (co_holdPlacedAt c) (co_decidedByUserId c)
    (co_decisionSource c) (co_notes c).

Definition guarantor_of (loanId memberId : string) (d : DB) : option LoanGuarantor :=
  List.find (fun g => guarantor_pair g === (loanId, memberId)) (loanGuarantors d).

Definition not_invitable (s : LoanStatus) : exn :=
  BadRequest ("Cannot add guarantors to a loan in " +:+ quote (loan_status_name s) +:+ " status").
Definition invitable (s : LoanStatus) : bool := (s === DRAFT) || (s === PENDING_GUARANTORS).

Definition reminder_id (hours loanId memberId : string) : string :=
  "guarantor-reminder-" +:+ hours +:+ "h." +:+ loanId +:+ "." +:+ memberId.

(** [queue.add(..., { jobId })]: a job whose id the queue knows is ignored. *)
Definition add_reminder (jobId : string) (j : ReminderJob) : LM unit :=
  modify (fun s => match reminderQueue s !! jobId with
                   | Some _ => s
                   | None => set_reminderQueue (<[jobId := j]> (reminderQueue s)) s end).

Section Invite.
Context `{UuidSource, Sha256, Environment, DecimalLib, Numbers}.

(** [loanGuarantor.upsert] on the pair of loan and member; the row's id. *)
Definition upsert_guarantor (tenantId loanId : string) (item : GuarantorNomination) : LM string :=
  let* now := gets lnow in
  let amount := to_dp4 (gn_guaranteedAmount item) in
  let* found := gets (fun s => guarantor_of loanId (gn_memberId item) (ldb s)) in
  match found with
  | Some g =>
      throw_if (negb (fits_18_4 amount)) NumericOverflow ;;
      consent_updateMany (lg_id g) (fun _ => true) (asked_again amount) (asked_again_columns now) ;;
      ret (lg_id g)
  | None =>
      let* id := on_base fresh_id in
      guarantor_create (new_guarantor id tenantId loanId (gn_memberId item) amount now)
        (asked now (Some (now + CONSENT_WINDOW))) ;;
      ret id
  end.

Definition schedule_reminders (tenantId loanId memberId : string) : LM unit :=
  let* now := gets lnow in
  add_reminder (reminder_id "24" loanId memberId) (mkReminder tenantId loanId memberId 1 (now + 24 * HOUR)) ;;
  add_reminder (reminder_id "48" loanId memberId) (mkReminder tenantId loanId memberId 2 (now + 48 * HOUR)).

Definition invite_one (tenantId loanId : string) (loan : Loan) (T : AccountType) (item : GuarantorNomination)
  : LM InviteResult :=
  let* eligibility := validateGuarantorEligibility (gn_memberId item) tenantId (gn_guaranteedAmount item)
    (loan_memberId loan) T in
  match el_reason eligibility with
  | Some reason => ret (mkInviteResult (gn_memberId item) (gn_guaranteedAmount item) (Skipped reason))
  | None =>
      let* guarantorId := upsert_guarantor tenantId loanId item in
      let* email := gets (fun s => member_email (gn_memberId item) (ldb s)) in
      on_base (enqueueEmail "GUARANTOR_INVITE" email (loan_loanNumber loan)) ;;
      schedule_reminders tenantId loanId (gn_memberId item) ;;
      add_expiry_job tenantId loanId guarantorId ;;
      ret (mkInviteResult (gn_memberId item) (gn_guaranteedAmount item) Invited)
  end.

Definition too_many_guarantors (maxGuarantors : Z) : exn :=
  BadRequest ("This product allows at most " +:+ pretty maxGuarantors +:+ " guarantor(s).").

Definition inviteGuarantors (loanId : string) (guarantors : list GuarantorNomination) (tenantId : string)
  : LM InviteSummary :=
  let* found := gets (fun s => tenant_loan tenantId loanId (ldb s)) in
  let* loan := or_throw found loan_not_found in
  let* foundProduct := gets (fun s => loan_product loan (ldb s)) in
  let* product := or_throw foundProduct loan_not_found in
  throw_if (negb (invitable (loan_status loan))) (not_invitable (loan_status loan)) ;;
  let minCoverageRequired := d_times (dec (loan_principalAmount loan)) (dec (lp_guarantorCoverageRatio product)) in
  let* existing := gets (fun s => count_where (fun g => (lg_tenantId g === tenantId) && (lg_loanId g === loanId)
    && active_guarantor_row g) (loanGuarantors (ldb s))) in
  throw_if ((0 <? lp_maxGuarantors product)
      && (lp_maxGuarantors product <? Z.of_nat existing + Z.of_nat (length guarantors)))
    (too_many_guarantors (lp_maxGuarantors product)) ;;
  let T := resolveAccountType (lp_requiredAccountType product) in
  let* results := foldM (fun acc item =>
    let* r := invite_one tenantId loanId loan T item in ret (acc ++ [r])) [] guarantors in
  on_base (loan_update loanId (fun l => set_loan_status PENDING_GUARANTORS (loan_terms l) l)) ;;
  let total := foldl (fun acc r => d_plus acc (ir_guaranteedAmount r)) 0%Q (List.filter invited results) in
  on_base (modify (log_audit "LOAN.GUARANTORS_INVITED")) ;;
  ret (mkInviteSummary (length (List.filter invited results)) total minCoverageRequired
    (Qle_bool minCoverageRequired total) results).

(** ** MemberPortalController.requestGuarantors *)
Record MemberRequestGuarantorsDto := mkRequestDto {
  rd_guarantors : list GuarantorNomination;
  rd_guarantorIds : list string;
}.

Fixpoint distinct (seen xs : list string) : list string :=
  match xs with
  | [] => []
  | x :: xs' => if bool_decide (x ∈ seen) then distinct seen xs' else x :: distinct (x :: seen) xs'
  end.

(** [loan.guarantors] *)
Definition rows_of_loan (loanId : string) (d : DB) : list LoanGuarantor :=
  List.filter (fun g => lg_loanId g === loanId) (loanGuarantors d).

Definition buildGuarantorNominationsFromIds (guarantorIds : list string) (loan : Loan) (product : LoanProduct)
    (rows : list LoanGuarantor) : list GuarantorNomination :=
  let uniqueIds := distinct [] (List.filter (fun x => negb (x === "")) guarantorIds) in
  let n := length uniqueIds in
  let principal := dec (loan_principalAmount loan) in
  let requiredCoverage := d_times principal (dec (lp_guarantorCoverageRatio product)) in
  let activeCoverage := dec (sum_by lg_guaranteedAmount (List.filter active_guarantor_row rows)) in
  let remainingCoverage := Qmax_ (d_minus requiredCoverage activeCoverage) 0 in
  let fallbackShare := if 0 <? lp_minGuarantors product
    then d_div requiredCoverage (inject_Z (lp_minGuarantors product))
    else d_div principal (inject_Z (Z.of_nat n)) in
  let amountToSplit := if negb (Qle_bool remainingCoverage 0) then remainingCoverage
    else d_times fallbackShare (inject_Z (Z.of_nat n)) in
  let equalShare := trunc_dp4 (d_div amountToSplit (inject_Z (Z.of_nat n))) in
  imap (fun index memberId => mkNomination memberId (to_number (dec
    (if Nat.eqb index (n - 1)
     then to_dp4 (d_minus amountToSplit (d_times (dec equalShare) (inject_Z (Z.of_nat n - 1))))
     else equalShare)))) uniqueIds.

Definition requestGuarantors (loanId tenantId memberId : string) (dto : MemberRequestGuarantorsDto)
  : LM InviteSummary :=
  let* found := gets (fun s => match tenant_loan tenantId loanId (ldb s) with
    | Some l => if loan_memberId l === memberId then Some l else None
    | None => None end) in
  let* loan := or_throw found (Forbidden "Loan not found or does not belong to you") in
  let* foundProduct := gets (fun s => loan_product loan (ldb s)) in
  let* product := or_throw foundProduct (Forbidden "Loan not found or does not belong to you") in
  let* rows := gets (fun s => rows_of_loan loanId (ldb s)) in
  throw_if (negb (invitable (loan_status loan)))
    (BadRequest ("Cannot request guarantors for a loan in " +:+ quote (loan_status_name (loan_status loan))
       +:+ " status")) ;;
  let requested := match rd_guarantors dto with
    | [] => buildGuarantorNominationsFromIds (rd_guarantorIds dto) loan product rows
    | gs => gs end in
  throw_if (Nat.eqb (length requested) 0) (BadRequest "At least one guarantor is required") ;;
  let active := List.filter active_guarantor_row rows in
  throw_if ((0 <? lp_maxGuarantors product)
      && (lp_maxGuarantors product <? Z.of_nat (length active) + Z.of_nat (length requested)))
    (too_many_guarantors (lp_maxGuarantors product)) ;;
  throw_if (existsb (fun g => bool_decide (gn_memberId g ∈ lg_memberId <$> active)) requested)
    (BadRequest "This member has already been requested or has already accepted.") ;;
  inviteGuarantors loanId requested tenantId.

(** ** checkAndAdvanceLoanStatus *)
Definition advance_on_coverage (loanId tenantId : string) : LM unit :=
  let* found := gets (fun s => tenant_loan tenantId loanId (ldb s)) in
  match found with
  | None => ret tt
  | Some loan =>
      if negb (loan_status loan === PENDING_GUARANTORS) then ret tt else
      let* foundProduct := gets (fun s => loan_product loan (ldb s)) in
      let* product := or_throw foundProduct loan_not_found in
      let* acceptedGuarantors := gets (fun s => List.filter accepted (loan_guarantors tenantId loanId (ldb s))) in
      let totalAccepted := sum_by lg_guaranteedAmount acceptedGuarantors in
      let minCoverage := d_times (dec (loan_principalAmount loan)) (dec (lp_guarantorCoverageRatio product)) in
      if (lp_minGuarantors product <=? Z.of_nat (length acceptedGuarantors))
         && Qle_bool minCoverage (dec totalAccepted)
      then on_base (loan_updateMany loanId (fun l => loan_tenantId l === tenantId)
             (fun l => set_loan_status PENDING_APPROVAL (loan_terms l) l)) ;; ret tt
      else ret tt
  end.

(** ** getGuarantorStatus *)
Record GuarantorStatusView := mkGuarantorStatus {
  gs_principalAmount : Z;
  gs_totalAccepted : Z;
  gs_coverageMet : bool;
  gs_guarantors : list LoanGuarantor;
}.

Definition getGuarantorStatus (loanId tenantId : string) (memberId : option string) : LM GuarantorStatusView :=
  let* found := gets (fun s => tenant_loan tenantId loanId (ldb s)) in
  let* loan := or_throw found loan_not_found in
  let* rows := gets (fun s => List.filter (fun g => match truthy memberId with
    | Some m => lg_memberId g === m | None => true end) (rows_of_loan loanId (ldb s))) in
  let totalAccepted := sum_by lg_guaranteedAmount (List.filter accepted rows) in
  ret (mkGuarantorStatus (loan_principalAmount loan) totalAccepted (loan_principalAmount loan <=? totalAccepted) rows).

(** ** getGuarantorExposure *)
Record GuarantorExposure := mkExposure {
  ge_maxConcurrentGuarantees : Z;
  ge_currentGuaranteeCount : Z;
  ge_totalGuaranteedAmount : Z;
  ge_remainingCapacity : Z;
  ge_canGuarantee : bool;
}.

Definition exposure_statuses : list LoanStatus := [ACTIVE; APPROVED; DISBURSED; PENDING_GUARANTORS; PENDING_REVIEW].

(** What a guarantee weighs once the loan is partly repaid. *)
Definition effective_hold (d : DB) (g : LoanGuarantor) : Z :=
  let outstanding := match row_loan g d with Some l => loan_outstandingBalance l | None => 0 end in
  let sumHolds := sum_by lg_guaranteedAmount (List.filter (fun x => (lg_loanId x === lg_loanId g) && accepted x
    && (lg_holdReleasedAt x === None)) (loanGuarantors d)) in
  if (0 <? sumHolds) && (outstanding <? sumHolds)
  then to_dp4 (d_times (dec (lg_guaranteedAmount g)) (d_div (dec outstanding) (dec sumHolds)))
  else lg_guaranteedAmount g.

Definition getGuarantorExposure (memberId tenantId : string) : LM GuarantorExposure :=
  let* found := gets (active_member tenantId memberId) in
  let* _ := or_throw found (NotFound "Member not found") in
  let* maxGuarantees := gets (max_guarantees tenantId) in
  let* d := gets ldb in
  let activeGuarantees := List.filter (fun g => (lg_memberId g === memberId) && (lg_tenantId g === tenantId)
    && accepted g && loan_in exposure_statuses (row_loan g d)) (loanGuarantors d) in
  let currentCount := Z.of_nat (length activeGuarantees) in
  let canGuarantee := currentCount <? maxGuarantees in
  ret (mkExposure maxGuarantees currentCount (sum_by (effective_hold d) activeGuarantees)
    (if canGuarantee then maxGuarantees - currentCount else 0) canGuarantee).

(** ** updateStatus *)
Definition may_update_status (r : UserRole) : bool :=
  bool_decide (r ∈ [LOAN_OFFICER; MANAGER; TENANT_ADMIN; SUPER_ADMIN]).

Definition workflow_transitions (s : LoanStatus) : list LoanStatus :=
  match s with
  | DRAFT => [PENDING_GUARANTORS]
  | PENDING_GUARANTORS => [PENDING_REVIEW; PENDING_APPROVAL; REJECTED_GUARANTOR_DECLINE]
  | _ => []
  end.

Definition updateStatus (loanId : string) (targetStatus : LoanStatus) (reason : option string) (tenantId actorId : string)
    (actorRole : UserRole) (req : Request) : LM Loan :=
  throw_if (negb (may_update_status actorRole))
    (Forbidden "Only loan officers and above can update loan status") ;;
  let* found := gets (fun s => tenant_loan tenantId loanId (ldb s)) in
  let* loan := or_throw found loan_not_found in
  let oldStatus := loan_status loan in
  throw_if (negb (canTransition oldStatus targetStatus))
    (BadRequest ("Cannot transition from " +:+ loan_status_name oldStatus +:+ " to "
       +:+ loan_status_name targetStatus)) ;;
  throw_if (targetStatus === DISBURSED)
    (BadRequest "DISBURSED transitions must go through PATCH /admin/loans/:id/status which routes to LoansService.disburse() for financial processing. Direct calls to updateStatus() with DISBURSED are not permitted.") ;;
  if targetStatus === APPROVED then
    let* r := on_base (approve loanId tenantId actorId reason (rq_ip req) (rq_userAgent req)) in ret r.1
  else if targetStatus === REJECTED then
    match truthy reason with
    | None => throw (BadRequest "Reason is required when rejecting a loan")
    | Some why => on_base (reject loanId why tenantId actorId (rq_ip req) (rq_userAgent req))
    end
  else
  throw_if (negb (bool_decide (targetStatus ∈ workflow_transitions oldStatus)))
    (BadRequest ("Cannot transition from " +:+ quote (loan_status_name oldStatus) +:+ " to "
       +:+ quote (loan_status_name targetStatus) +:+ ". Valid transitions: "
       +:+ join ", " (loan_status_name <$> workflow_transitions oldStatus))) ;;
  on_base (loan_update loanId (fun l => set_loan_status targetStatus
    (match truthy reason with Some why => note_terms (Some why) (loan_terms l) | None => loan_terms l end) l)) ;;
  let* updated := gets (fun s => loans (ldb s) !! loanId) in
  on_base (modify (log_audit ("LOAN.STATUS." +:+ loan_status_name targetStatus))) ;;
  or_throw updated loan_not_found.

(** ** LoanReviewService.process *)
Inductive ReviewLoanAction := RA_APPROVE | RA_DECLINE | RA_DISBURSE.
#[export] Instance ReviewLoanAction_dec : EqDecision ReviewLoanAction. Proof. solve_decision. Defined.

Definition review_action_name (a : ReviewLoanAction) : string :=
  match a with RA_APPROVE => "APPROVE" | RA_DECLINE => "DECLINE" | RA_DISBURSE => "DISBURSE" end.

Definition review_execute (loanId : string) (action : ReviewLoanAction) (reason comment : option string)
    (tenantId actorId : string) (ipAddress : option string) : M ReviewResult :=
  match action with
  | RA_APPROVE => let* r := approve loanId tenantId actorId comment ipAddress None in ret (RV_APPROVED r.1 r.2)
  | RA_DECLINE => let* l := reject loanId (default "" reason) tenantId actorId ipAddress None in ret (RV_REJECTED l)
  | RA_DISBURSE => let* r := disburse loanId tenantId actorId ipAddress false in ret (RV_DISBURSED r)
  end.

Definition review_process (loanId : string) (action : ReviewLoanAction) (reason comment : option string)
    (tenantId actorId : string) (ipAddress idempotencyHeader : option string) : LM ReviewResult :=
  let header := truthy (trim <$> idempotencyHeader) in
  throw_if ((action === RA_DISBURSE) && (header === None))
    (BadRequest "Idempotency-Key header is required for disbursement") ;;
  let execute := on_base (review_execute loanId action reason comment tenantId actorId ipAddress) in
  match header with
  | None => execute
  | Some key =>
      let idemKey := "loan:review:" +:+ loanId +:+ ":" +:+ review_action_name action +:+ ":" +:+ key in
      let* check := on_review (checkAndReserve idemKey tenantId) in
      match check with
      | IS_COMPLETED result => ret result
      | IS_PROCESSING => throw (Conflict "Loan review request is already processing")
      | IS_NEW =>
          catching (let* result := execute in on_review (complete idemKey tenantId result) ;; ret result)
            (fun e => on_review (release idemKey tenantId) ;; throw e)
      end
  end.
End Invite.
