(* ===== verification/GuarantorConsent.v ===== *)
(** * GuarantorConsent: answering, overriding and expiring a guarantee request

    [src/src/loans/guarantor-response.service.ts] and
    [src/src/modules/queue/processors/guarantor-expiry.consumer.ts].  The notice
    to loan officers, the request evidence kept with a decision and log lines
    are left out. *)
From S2P Require Import Prelude Money Json Format Schema Ledger AuditLogs Redis Recovery Loans.
From S2P Require Import Accounts LoanRules Guarantors ApprovalChains Lending LoanApply.

Definition decision_source_text (x : DecisionSource) : string :=
  match x with
  | SRC_MEMBER => "MEMBER" | SRC_ADMIN_OVERRIDE => "ADMIN_OVERRIDE" | SRC_SYSTEM_EXPIRY => "SYSTEM_EXPIRY"
  end.

Inductive GuarantorMatcher :=
  | ByMember (memberId : string)
  | ByIdOrMember (idOrMemberId : string).

Record GuarantorWorkflowDto := mkWorkflowDto {
  gw_action : string;
  gw_notes : option string;
  gw_digitalAcknowledgment : bool;
}.

Definition WINDOW_EXPIRED : string := "Consent window expired (72h)".

(** [lockGuarantor] *)
Definition lockGuarantor (tenantId loanId : string) (matcher : GuarantorMatcher) (d : DB) : option LoanGuarantor :=
  List.find (fun g => (lg_tenantId g === tenantId) && (lg_loanId g === loanId)
    && match matcher with
       | ByMember m => lg_memberId g === m
       | ByIdOrMember x => (lg_id g === x) || (lg_memberId g === x)
       end) (loanGuarantors d).

(** [loanGuarantor.updateMany({ ..., status: PENDING }, data)] of a decision. *)
Definition decided_columns (nextStatus : GuarantorStatus) (now : Z) (notes actorUserId : option string)
    (source : DecisionSource) (c : ConsentColumns) : ConsentColumns :=
  mkConsent (co_invitedAt c) (Some now) (co_expiresAt c)
    (if nextStatus === G_ACCEPTED then Some now else co_holdPlacedAt c)
    actorUserId (Some source)
    (if nextStatus === G_EXPIRED then Some WINDOW_EXPIRED
     else match notes with Some n => Some n | None => co_notes c end).

Definition expired_columns (now : Z) (c : ConsentColumns) : ConsentColumns :=
  mkConsent (co_invitedAt c) (Some now) (co_expiresAt c) (co_holdPlacedAt c) (co_decidedByUserId c)
    (co_decisionSource c) (Some WINDOW_EXPIRED).

(** An expired row; its hold counts as released when one had been placed. *)
Definition expire_row (held : option Z) (now : Z) (g : LoanGuarantor) : LoanGuarantor :=
  mkLoanGuarantor (lg_id g) (lg_tenantId g) (lg_loanId g) (lg_memberId g) G_EXPIRED (lg_guaranteedAmount g)
    (lg_recoveredAmount g) (lg_recoveryDate g)
    (match held with Some _ => Some now | None => lg_holdReleasedAt g end) (lg_createdAt g).

Definition hold_input (memberId : string) (amount : Z) : list GuarantorCoverageInput :=
  [mkCoverageInput memberId (Finite (dec amount))].

Definition declined_loan (l : Loan) : Loan :=
  set_loan_status REJECTED_GUARANTOR_DECLINE (note_terms (Some "REJECTED_GUARANTOR_DECLINE") (loan_terms l)) l.

Definition notify_in_app (n : InAppNotification) : LM unit :=
  modify_lending (fun t => set_inApp (inAppNotifications t ++ [n]) t).

Section Consent.
Context `{UuidSource, Sha256, Environment, DecimalLib, Numbers}.

(** ** GuarantorResponseService

    [writeAudit] digests the JSON text of the entry. *)
Definition response_audit (tenantId : string) (actorId : option string) (action entityType entityId : string)
    (oldValue newValue : option json) (payload : json) : M unit :=
  let field k o := match o with Some v => [(k, v)] | None => [] end in
  chained_audit tenantId actorId action entityType entityId (default JNull oldValue) (default JNull newValue)
    payload (Some payload) None None None
    (fun prevHash timestamp => sha256 (stringify (JObj
       ([("tenantId", JStr tenantId); ("actorId", json_or_null actorId); ("action", JStr action);
         ("entityType", JStr entityType); ("entityId", JStr entityId)]
        ++ field "oldValue" oldValue ++ field "newValue" newValue
        ++ [("payload", payload); ("prevHash", json_or_null prevHash);
            ("timestamp", JStr (toISOString timestamp))])))).

Definition assertGuarantorCanAccept (tenantId memberId : string) : LM unit :=
  let* found := gets (active_member tenantId memberId) in
  match found with
  | Some (member, columns) =>
      throw_if (negb (mc_accountStatus columns === AS_ACTIVE))
        (BadRequest "GUARANTOR_NOT_ACTIVE: guarantor must be an active SACCO member") ;;
      throw_if (negb (mem_kycStatus member === KYC_APPROVED))
        (BadRequest "GUARANTOR_KYC_NOT_VERIFIED: guarantor KYC must be verified")
  | None => throw (BadRequest "GUARANTOR_NOT_ACTIVE: guarantor must be an active SACCO member")
  end.

(** Release the holds of the accepted guarantors of a declined loan; [audit]
    writes the caller's row for each. *)
Definition release_one (tenantId : string) (T : AccountType) (audit : LoanGuarantor -> M unit) (g : LoanGuarantor)
  : LM unit :=
  if negb (lg_holdReleasedAt g === None) then ret tt else
  on_base (releaseGuarantorHolds tenantId (hold_input (lg_memberId g) (lg_guaranteedAmount g)) T) ;;
  let* now := gets lnow in
  on_base (guarantor_updateMany (lg_id g) (fun x => lg_tenantId x === tenantId) (release_guarantor now)) ;;
  on_base (audit g).

Definition releaseAcceptedHolds (tenantId : string) (T : AccountType) (audit : LoanGuarantor -> M unit)
    (rows : list LoanGuarantor) : LM unit :=
  foldM (fun _ g => release_one tenantId T audit g) tt rows.

Definition released_payload (loanId reason : string) (T : AccountType) (g : LoanGuarantor) : json :=
  JObj [("loanId", JStr loanId); ("guarantorMemberId", JStr (lg_memberId g));
    ("guaranteedAmount", JStr (dp4_toString (lg_guaranteedAmount g)));
    ("accountType", JStr (account_type_name T)); ("reason", JStr reason)].

(** The tally a decision is judged by. *)
Record Tally := mkTally {
  ta_accepted : list LoanGuarantor;
  ta_pending : nat;
  ta_hasDecline : bool;
  ta_totalAccepted : Z;
  ta_requiredCoverage : Q;
}.

Definition tally (tenantId loanId : string) (loan : Loan) (product : LoanProduct) (d : DB) : Tally :=
  let rows := loan_guarantors tenantId loanId d in
  mkTally (List.filter accepted rows) (count_where (fun g => lg_status g === G_PENDING) rows)
    (existsb (fun g => (lg_status g === G_REJECTED) || (lg_status g === G_EXPIRED)) rows)
    (sum_by lg_guaranteedAmount (List.filter accepted rows))
    (d_times (dec (loan_principalAmount loan)) (dec (lp_guarantorCoverageRatio product))).

Definition acceptedCount (t : Tally) : Z := Z.of_nat (length (ta_accepted t)).
Definition remaining (t : Tally) : Z :=
  to_dp4 (Qmax_ (d_minus (ta_requiredCoverage t) (dec (ta_totalAccepted t))) 0).

Definition criteriaMet (minGuarantors : Z) (t : Tally) : bool :=
  Nat.eqb (ta_pending t) 0 && (minGuarantors <=? acceptedCount t)
  && Qle_bool (ta_requiredCoverage t) (dec (ta_totalAccepted t)).

Definition activeGuarantors (t : Tally) : Z := acceptedCount t + Z.of_nat (ta_pending t).
Definition availableReplacementSlots (maxGuarantors : Z) (t : Tally) : Z :=
  Z.max 0 (maxGuarantors - activeGuarantors t).
Definition replacementStillFeasible (minGuarantors maxGuarantors : Z) (t : Tally) : bool :=
  minGuarantors <=? activeGuarantors t + availableReplacementSlots maxGuarantors t.

Definition shouldTerminallyReject (minGuarantors maxGuarantors : Z) (latest : GuarantorStatus) (t : Tally) : bool :=
  (latest === G_EXPIRED)
  || (Nat.eqb (ta_pending t) 0
      && negb (ta_hasDecline t && replacementStillFeasible minGuarantors maxGuarantors t)).

Definition tally_payload (t : Tally) : json :=
  JObj [("acceptedCount", JNum (pretty (acceptedCount t)));
    ("totalAccepted", JStr (dp4_toString (ta_totalAccepted t)));
    ("requiredCoverage", JStr (decimal_text (ta_requiredCoverage t)))].

Definition status_json (s : string) : option json := Some (JObj [("status", JStr s)]).

(** [loan.updateMany({ where: { id, tenantId, status: PENDING_GUARANTORS } })] *)
Definition move_pending_loan (tenantId loanId : string) (f : Loan -> Loan) : LM unit :=
  on_base (loan_updateMany loanId
    (fun l => (loan_tenantId l === tenantId) && (loan_status l === PENDING_GUARANTORS)) f) ;;
  ret tt.

Definition to_pending_approval (l : Loan) : Loan := set_loan_status PENDING_APPROVAL (loan_terms l) l.

Definition applyLoanState (tenantId loanId : string) (loan : Loan) (product : LoanProduct) (borrowerUserId : string)
    (actorId : option string) (latestStatus : GuarantorStatus) : LM (LoanStatus * option Z) :=
  if negb (loan_status loan === PENDING_GUARANTORS) then ret (loan_status loan, None) else
  let* t := gets (fun s => tally tenantId loanId loan product (ldb s)) in
  let minG := lp_minGuarantors product in
  let maxG := lp_maxGuarantors product in
  if criteriaMet minG t then
    move_pending_loan tenantId loanId to_pending_approval ;;
    on_base (response_audit tenantId actorId "LOAN.PENDING_APPROVAL" "Loan" loanId
      (status_json (loan_status_name (loan_status loan))) (status_json "PENDING_APPROVAL") (tally_payload t)) ;;
    ret (PENDING_APPROVAL, Some 0)
  else if shouldTerminallyReject minG maxG latestStatus t then
    let T := resolveAccountType (lp_requiredAccountType product) in
    releaseAcceptedHolds tenantId T (fun g =>
      response_audit tenantId actorId "GUARANTOR.HOLD_RELEASED" "LoanGuarantor" (lg_id g) None None
        (released_payload loanId "GUARANTOR_DECLINE_OR_TIMEOUT" T g)) (ta_accepted t) ;;
    move_pending_loan tenantId loanId declined_loan ;;
    on_base (response_audit tenantId actorId "LOAN.REJECTED_GUARANTOR_DECLINE" "Loan" loanId
      (status_json (loan_status_name (loan_status loan))) (status_json "REJECTED_GUARANTOR_DECLINE")
      (tally_payload t)) ;;
    ret (REJECTED_GUARANTOR_DECLINE, Some (remaining t))
  else
    (if ta_hasDecline t then
       on_base (response_audit tenantId actorId "LOAN.GUARANTOR_REPLACEMENT_INVITABLE" "Loan" loanId None None
         (JObj [("activeGuarantors", JNum (pretty (activeGuarantors t)));
                ("availableReplacementSlots", JNum (pretty (availableReplacementSlots maxG t)));
                ("minGuarantors", JNum (pretty minG)); ("maxGuarantors", JNum (pretty maxG));
                ("remainingCoverage", JStr (dp4_toString (remaining t)))])) ;;
       notify_in_app (mkInApp tenantId borrowerUserId "Guarantor declined"
         ("A guarantor declined your loan request. Remaining guarantor coverage required: KES "
          +:+ toFixed2 (dec (remaining t)) +:+ ".") "LOAN_GUARANTOR_DECLINED")
     else ret tt) ;;
    ret (loan_status loan, Some (remaining t)).

Definition next_status (source : DecisionSource) (action : string) (now invitedAt : Z) : GuarantorStatus :=
  if (source === SRC_SYSTEM_EXPIRY) || (invitedAt + CONSENT_WINDOW <? now) then G_EXPIRED
  else if action === "ACCEPT" then G_ACCEPTED else G_REJECTED.

(** What an acceptance does before the row changes: the checks and the hold. *)
Definition accept_hold (tenantId : string) (g : LoanGuarantor) (T : AccountType) : LM unit :=
  assertGuarantorCanAccept tenantId (lg_memberId g) ;;
  on_base (placeGuarantorHolds tenantId (hold_input (lg_memberId g) (lg_guaranteedAmount g)) T).

Definition hold_audit (loanId tenantId : string) (actorUserId : option string) (acknowledged : bool)
    (g : LoanGuarantor) (T : AccountType) : M unit :=
  response_audit tenantId actorUserId "GUARANTOR.HOLD_PLACED" "LoanGuarantor" (lg_id g)
    (Some (JObj [("lockedBalance", JStr "UNCHANGED")])) (Some (JObj [("lockedBalance", JStr "INCREMENTED")]))
    (JObj [("loanId", JStr loanId); ("guarantorMemberId", JStr (lg_memberId g));
           ("guaranteedAmount", JStr (dp4_toString (lg_guaranteedAmount g)));
           ("accountType", JStr (account_type_name T)); ("digitalAcknowledgment", JBool acknowledged)]).

Definition decision_audit (loanId tenantId : string) (actorUserId : option string) (source : DecisionSource)
    (nextStatus : GuarantorStatus) (notes : option string) (g : LoanGuarantor) : M unit :=
  response_audit tenantId actorUserId
    (if source === SRC_ADMIN_OVERRIDE then "GUARANTOR.ADMIN_OVERRIDE"
     else "GUARANTOR." +:+ guarantor_status_name nextStatus)
    "LoanGuarantor" (lg_id g) (status_json (guarantor_status_name (lg_status g)))
    (status_json (guarantor_status_name nextStatus))
    (JObj ([("loanId", JStr loanId); ("guarantorMemberId", JStr (lg_memberId g))] ++ json_opt_field "reason" notes
           ++ [("source", JStr (decision_source_text source))])).

Definition decisionBody (loanId tenantId : string) (actorUserId : option string) (matcher : GuarantorMatcher)
    (action : string) (notes : option string) (acknowledged : bool) (source : DecisionSource) : LM DecisionResult :=
  let* found := gets (fun s => lockGuarantor tenantId loanId matcher (ldb s)) in
  let* locked := or_throw found (NotFound "Guarantor request not found") in
  throw_if (negb (lg_status locked === G_PENDING))
    (Conflict ("Guarantor request already " +:+ guarantor_status_name (lg_status locked))) ;;
  let* foundLoan := gets (fun s => tenant_loan tenantId loanId (ldb s)) in
  let* loan := or_throw foundLoan (NotFound "Loan not found") in
  let* foundProduct := gets (fun s => loan_product loan (ldb s)) in
  let* product := or_throw foundProduct (NotFound "Loan not found") in
  let* borrower := gets (fun s => members (ldb s) !! loan_memberId loan) in
  let* borrowerRow := or_throw borrower (NotFound "Loan not found") in
  let* now := gets lnow in
  let* columns := gets (consent_of locked) in
  let nextStatus := next_status source action now (co_invitedAt columns) in
  let T := resolveAccountType (lp_requiredAccountType product) in
  (if nextStatus === G_ACCEPTED then accept_hold tenantId locked T else ret tt) ;;
  consent_updateMany (lg_id locked) (fun g => (lg_tenantId g === tenantId) && (lg_status g === G_PENDING))
    (set_guarantor_status nextStatus) (decided_columns nextStatus now notes actorUserId source) ;;
  (if nextStatus === G_ACCEPTED then on_base (hold_audit loanId tenantId actorUserId acknowledged locked T) else ret tt) ;;
  on_base (decision_audit loanId tenantId actorUserId source nextStatus notes locked) ;;
  let* '(loanStatus, remainingCoverage) :=
    applyLoanState tenantId loanId loan product (mem_userId borrowerRow) actorUserId nextStatus in
  ret (mkDecision loanId (lg_id locked) (lg_memberId locked) nextStatus loanStatus remainingCoverage).

Definition applyDecision (loanId tenantId : string) (actorUserId : option string) (matcher : GuarantorMatcher)
    (dto : GuarantorWorkflowDto) (source : DecisionSource) : LM DecisionResult :=
  throw_if (negb (gw_action dto === "ACCEPT") && negb (gw_action dto === "DECLINE"))
    (BadRequest "INVALID_GUARANTOR_ACTION: action must be ACCEPT or DECLINE") ;;
  throw_if ((gw_action dto === "ACCEPT") && (source === SRC_MEMBER) && negb (gw_digitalAcknowledgment dto))
    (BadRequest "DIGITAL_ACKNOWLEDGMENT_REQUIRED: you must confirm you understand the guarantee obligation before accepting") ;;
  lending_transaction (decisionBody loanId tenantId actorUserId matcher (gw_action dto) (gw_notes dto)
    (gw_digitalAcknowledgment dto) source).

Definition response_key (loanId guarantorMemberId header : string) : string :=
  "guarantor:response:" +:+ loanId +:+ ":" +:+ guarantorMemberId +:+ ":" +:+ header.

Definition respondAsMember (loanId guarantorMemberId : string) (dto : GuarantorWorkflowDto)
    (tenantId actorUserId idempotencyHeader : string) : LM DecisionResult :=
  let header := trim idempotencyHeader in
  throw_if (header === "") (BadRequest "IDEMPOTENCY_KEY_REQUIRED") ;;
  let* found := gets (active_member tenantId guarantorMemberId) in
  throw_if (negb (match found with Some (m, _) => mem_userId m === actorUserId | None => false end))
    (Forbidden "Not authorized to respond to this guarantor request") ;;
  let idemKey := response_key loanId guarantorMemberId header in
  let* check := on_respond (checkAndReserve idemKey tenantId) in
  match check with
  | IS_COMPLETED result => ret result
  | IS_PROCESSING => throw (Conflict "Guarantor response is already processing")
  | IS_NEW =>
      catching
        (let* result := applyDecision loanId tenantId (Some actorUserId) (ByMember guarantorMemberId) dto SRC_MEMBER in
         on_respond (complete idemKey tenantId result) ;;
         ret result)
        (fun e => on_respond (release idemKey tenantId) ;; throw e)
  end.

Definition adminOverride (loanId guarantorIdOrMemberId : string) (dto : GuarantorWorkflowDto)
    (tenantId actorUserId : string) : LM DecisionResult :=
  throw_if (truthy (trim <$> gw_notes dto) === None) (BadRequest "ADMIN_OVERRIDE_REASON_REQUIRED") ;;
  applyDecision loanId tenantId (Some actorUserId) (ByIdOrMember guarantorIdOrMemberId) dto SRC_ADMIN_OVERRIDE.

Definition getPendingRequests (tenantId guarantorMemberId : string) : LM (list LoanGuarantor) :=
  gets (fun s => List.filter (fun g => (lg_tenantId g === tenantId) && (lg_memberId g === guarantorMemberId)
    && (lg_status g === G_PENDING)) (loanGuarantors (ldb s))).

(** ** GuarantorExpiryConsumer

    Its audit rows carry the verifier's text, without an actor. *)
Definition expiry_audit (tenantId action entityType entityId : string) (oldValue newValue : option json)
    (metadata : json) : M unit :=
  chained_audit tenantId None action entityType entityId (default JNull oldValue) (default JNull newValue)
    metadata (Some metadata) None None None
    (fun prevHash timestamp => computeEntryHash tenantId None action entityType (Some entityId) timestamp prevHash).

Definition timeout_payload (minGuarantors : Z) (t : Tally) : json :=
  JObj [("acceptedCount", JNum (pretty (acceptedCount t))); ("minGuarantors", JNum (pretty minGuarantors));
    ("totalAccepted", JStr (dp4_toString (ta_totalAccepted t)));
    ("requiredCoverage", JStr (decimal_text (ta_requiredCoverage t)))].

Definition rejectLoanForGuarantorTimeout (tenantId loanId : string) (product : LoanProduct) : LM unit :=
  let* found := gets (fun s => tenant_loan tenantId loanId (ldb s)) in
  match found with
  | None => ret tt
  | Some loan =>
      if negb (loan_status loan === PENDING_GUARANTORS) then ret tt else
      let* t := gets (fun s => tally tenantId loanId loan product (ldb s)) in
      let T := resolveAccountType (lp_requiredAccountType product) in
      releaseAcceptedHolds tenantId T (fun g =>
        expiry_audit tenantId "GUARANTOR.HOLD_RELEASED" "LoanGuarantor" (lg_id g) None None
          (released_payload loanId "LOAN_REJECTED_AFTER_GUARANTOR_EXPIRY" T g)) (ta_accepted t) ;;
      lreturn (assertTransition (loan_status loan) REJECTED_GUARANTOR_DECLINE) ;;
      move_pending_loan tenantId loanId declined_loan ;;
      on_base (expiry_audit tenantId "LOAN.REJECTED_GUARANTOR_DECLINE" "Loan" loanId
        (status_json (loan_status_name (loan_status loan))) (status_json "REJECTED_GUARANTOR_DECLINE")
        (timeout_payload (lp_minGuarantors product) t))
  end.

(** A row as the queries select it: with the product of its loan and whether a
    hold was placed for it. *)
Record ExpiredGuarantorRow := mkExpired {
  ex_row : LoanGuarantor;
  ex_holdPlacedAt : option Z;
  ex_product : LoanProduct;
}.

Definition expired_view (g : LoanGuarantor) (s : LendingWorld) : option ExpiredGuarantorRow :=
  match row_loan g (ldb s) with
  | Some l => match loan_product l (ldb s) with
              | Some p => Some (mkExpired g (co_holdPlacedAt (consent_of g s)) p)
              | None => None
              end
  | None => None
  end.

Definition expireGuarantor (tenantId : string) (x : ExpiredGuarantorRow) (cutoff : Z) : LM unit :=
  let g := ex_row x in
  let T := resolveAccountType (lp_requiredAccountType (ex_product x)) in
  let held := bool_decide (is_Some (ex_holdPlacedAt x)) in
  (if held
   then on_base (releaseGuarantorHolds tenantId (hold_input (lg_memberId g) (lg_guaranteedAmount g)) T)
   else ret tt) ;;
  let* now := gets lnow in
  consent_updateMany (lg_id g) (fun y => (lg_tenantId y === tenantId) && (lg_status y === G_PENDING))
    (expire_row (ex_holdPlacedAt x) now) (expired_columns now) ;;
  (if held
   then on_base (expiry_audit tenantId "GUARANTOR.HOLD_RELEASED" "LoanGuarantor" (lg_id g) None None
     (JObj [("loanId", JStr (lg_loanId g)); ("guarantorMemberId", JStr (lg_memberId g));
       ("accountType", JStr (account_type_name T));
       ("guaranteedAmount", JStr (dp4_toString (lg_guaranteedAmount g)));
       ("reason", JStr "EXPIRED"); ("cutoff", JStr (toISOString cutoff))]))
   else ret tt) ;;
  on_base (expiry_audit tenantId "GUARANTOR.EXPIRED" "LoanGuarantor" (lg_id g) (status_json "PENDING")
    (status_json "EXPIRED")
    (JObj [("loanId", JStr (lg_loanId g)); ("guarantorMemberId", JStr (lg_memberId g));
           ("cutoff", JStr (toISOString cutoff))])) ;;
  rejectLoanForGuarantorTimeout tenantId (lg_loanId g) (ex_product x).

(** [loanGuarantor.findMany({ where: { tenantId, status: PENDING, invitedAt: { lt: cutoff } } })] *)
Definition overdue_requests (tenantId : string) (cutoff : Z) (s : LendingWorld) : list ExpiredGuarantorRow :=
  omap (fun g => if (lg_tenantId g === tenantId) && (lg_status g === G_PENDING)
      && (co_invitedAt (consent_of g s) <? cutoff) then expired_view g s else None) (loanGuarantors (ldb s)).

Definition expireTenantGuarantors (tenantId : string) (cutoff : Z) : LM unit :=
  lending_transaction
    (let* expired := gets (overdue_requests tenantId cutoff) in
     foldM (fun _ x => expireGuarantor tenantId x cutoff) tt expired).

Definition pending_request (tenantId loanId guarantorId : string) (s : LendingWorld) : option LoanGuarantor :=
  List.find (fun g => (lg_tenantId g === tenantId) && (lg_loanId g === loanId) && (lg_status g === G_PENDING)
    && ((lg_id g === guarantorId) || (lg_memberId g === guarantorId))) (loanGuarantors (ldb s)).

Definition expireSpecificGuarantor (tenantId loanId guarantorId : string) (cutoff : Z) : LM unit :=
  lending_transaction
    (let* found := gets (fun s => pending_request tenantId loanId guarantorId s ≫= fun g => expired_view g s) in
     match found with
     | Some x => expireGuarantor tenantId x cutoff
     | None => ret tt
     end).

Definition getActiveTenantIds (s : LendingWorld) : list string :=
  omap (fun kv : string * Tenant => if tn_isActive kv.2 then Some kv.1 else None) (map_to_list (tenants (lw_tables s))).

Definition sweep_tenants (tenantIds : list string) (cutoff : Z) : LM unit :=
  foldM (fun _ tenantId => expireTenantGuarantors tenantId cutoff) tt tenantIds.

Definition runHourlyExpirySweep : LM unit :=
  let* now := gets lnow in
  let* tenantIds := gets getActiveTenantIds in
  sweep_tenants tenantIds (now - CONSENT_WINDOW).

(** [process(job)]: one guarantor when the job names one, otherwise a sweep. *)
Definition expiry_process (job : ExpiryJob) : LM unit :=
  let* now := gets lnow in
  let cutoff := default (now - CONSENT_WINDOW) (ej_cutoff job) in
  match truthy (ej_tenantId job), truthy (ej_loanId job), truthy (ej_guarantorId job) with
  | Some tenantId, Some loanId, Some guarantorId => expireSpecificGuarantor tenantId loanId guarantorId now
  | Some tenantId, _, _ => sweep_tenants [tenantId] cutoff
  | None, _, _ => let* tenantIds := gets getActiveTenantIds in sweep_tenants tenantIds cutoff
  end.
End Consent.
