(* ===== verification/LoansFacts.v ===== *)
(** * LoansFacts: what the calls of LoansService did *)
From S2P Require Import Prelude Money Json Format Calendar Schema Schedule Ledger LedgerFacts.
From S2P Require Import LedgerInv.
From S2P Require Import LedgerProps LedgerLegs Repayment AuditLogs LoanRules Guarantors.
From S2P Require Import ApprovalChains.
From S2P Require Import AccountFacts GuarantorFacts Redis Frames Recovery Loans.

(** ** Paying out *)
Section Payout.
Context `{UuidSource, Sha256, Environment, DecimalLib}.

(** A posting in its journal type's natural direction under a fresh reference. *)
Lemma postEntry_moves p w r w' :
  postEntry p w = (Ok r, w') -> natural_direction (pe_journalType p) = Some (pe_direction p) ->
  txn_by_reference (pe_tenantId p) (pe_reference p) (db w) = None ->
  let n := signed (pe_direction p) (to_dp4 (pe_amount p)) in
  let x := posted_transaction r in
  exists a e, accounts (db w) !! pe_accountId p = Some a /\
    db w' = posted_db (pe_accountId p) (moved a n) [x] e (db w) /\
    txn_tenantId x = pe_tenantId p /\ txn_reference x = pe_reference p /\
    txn_balanceBefore x = acc_balance a /\ txn_balanceAfter x = acc_balance a + n /\
    (ledger_ok (db w) -> ledger_ok (db w')).
Proof.
  intros Hr Hdir Hnew n x. apply postEntry_Ok in Hr as (actor & w1 & w2 & _ & Hpos & Hb & -> & E1 & _).
  apply postEntryBody_Ok in Hb as Hcase. destruct Hcase as [(_ & _ & Hx & _)|Hf]; [congruence|].
  destruct Hf as (a & ty & codes & p1 & p2 & _ & (Ha & _) & _ & _ & _ & _ & _ & _ & _ & Er & Ew).
  rewrite E1 in Ha. apply active_account_Some in Ha as (Hl & _ & _). exists a, (posted_journalEntry r).
  subst x n. split_and!; try (by rewrite Er); [done| |].
  - rewrite Ew, Er. cbn. by rewrite E1.
  - rewrite <- E1. intros Hok. by eapply postEntryBody_keeps.
Qed.

(** What writing installments and the audit row leaves alone. *)
Definition books (w : World) :=
  (accounts (db w), transactions (db w), journalEntries (db w), glAccounts (db w), loans (db w)).

#[export] Instance rollback_books : Rollback books.
Proof. split; [|done]. intros w w' _. unfold books. done. Qed.
#[export] Instance frames_books_schedule t id at_ grace ps : Frames books (create_schedule t id at_ grace ps).
Proof. unfold create_schedule, installment_create. apply _. Qed.
#[export] Instance frames_books_audit id t who acct l x after_ at_ due ip :
  Frames books (disburse_audit id t who acct l x after_ at_ due ip).
Proof. unfold disburse_audit, audit_row_create. apply _. Qed.

Lemma disbursement_references id : fee_reference id <> disbursement_reference id.
Proof.
  unfold fee_reference, disbursement_reference. intros E. apply (f_equal String.length) in E.
  rewrite !str_length_app in E. cbn in E. lia.
Qed.

(** The rows a payout leaves, as a later call finds them. *)
Definition payout_rows (t id : string) (d : DB) (row : Transaction) (after_ : Z) : Prop :=
  txn_by_reference t (disbursement_reference id) d = Some row /\
  after_ = txn_balanceAfter (default row (txn_by_reference t (fee_reference id) d)).

(** The loan once paid out at [at_]. *)
Definition paid_out (who : string) (at_ now : Z) (l : Loan) : Loan :=
  touch_loan now (disbursed_loan who at_
    (add_months at_ (lt_gracePeriodMonths (loan_terms l) + lt_tenureMonths (loan_terms l))) l).

Lemma txn_by_reference_snoc t ref d x xs :
  txn_by_reference t ref d = None -> txn_tenantId x = t ->
  List.find (fun y => (txn_tenantId y === t) && (txn_reference y === ref)) (transactions d ++ x :: xs) =
  if txn_reference x === ref then Some x
  else List.find (fun y => (txn_tenantId y === t) && (txn_reference y === ref)) xs.
Proof. intros Hn Ht. rewrite find_app_none by done. cbn. by rewrite Ht, same_refl. Qed.

(** The two postings of a payout. *)
Lemma payout_posts id t who acct l w r1 w1 fee w2 :
  let principal := loan_principalAmount l in
  let processingFee := lt_processingFee (loan_terms l) in
  postEntry (mkPostEntry t (disbursement_reference id) JLOAN_DISBURSEMENT acct (dec principal) CREDIT (Some who)
    (Some ("Loan disbursement – " +:+ loan_loanNumber l)) None (Some id) true) w = (Ok r1, w1) ->
  (if 0 <? processingFee then
     let* r := postEntry (mkPostEntry t (fee_reference id) JFEE_CHARGE acct (dec processingFee) DEBIT (Some who)
       (Some ("Loan processing fee - " +:+ loan_loanNumber l)) None (Some id) true) in
     ret (Some (posted_transaction r))
   else ret None) w1 = (Ok fee, w2) ->
  txn_by_reference t (disbursement_reference id) (db w) = None ->
  txn_by_reference t (fee_reference id) (db w) = None ->
  exists a a', accounts (db w) !! acct = Some a /\ accounts (db w2) = <[acct := a']> (accounts (db w)) /\
    acc_balance a' = acc_balance a + principal - Z.max 0 processingFee /\
    payout_rows t id (db w2) (posted_transaction r1) (txn_balanceAfter (default (posted_transaction r1) fee)) /\
    txn_balanceAfter (default (posted_transaction r1) fee) = acc_balance a' /\
    loans (db w2) = loans (db w) /\ loanRepayments (db w2) = loanRepayments (db w) /\
    (ledger_ok (db w) -> ledger_ok (db w2)).
Proof.
  intros principal processingFee H1' H2' N1 N2. pose proof (disbursement_references id) as Hne.
  apply postEntry_moves in H1' as (a & e & Ha & Ew1 & Ht & Href & _ & Haft & Hok); [|done..].
  cbn [pe_tenantId pe_reference pe_accountId pe_direction pe_amount signed] in *.
  rewrite to_dp4_dec in *. set (x := posted_transaction r1) in *.
  assert (txn_by_reference t (fee_reference id) (db w1) = None) as N3.
  { unfold txn_by_reference. rewrite Ew1. cbn. rewrite txn_by_reference_snoc by done.
    rewrite Href. by rewrite (proj2 (same_false _ _)) by done. }
  destruct (Z.ltb_spec 0 processingFee).
  - run_inv. match goal with Hf : postEntry _ _ = _ |- _ => apply postEntry_moves in Hf
      as (b & e2 & Hb & Ew2 & Ht2 & Href2 & _ & Haft2 & Hok2) end; [|done..].
    cbn [pe_tenantId pe_reference pe_accountId pe_direction pe_amount signed] in *. rewrite to_dp4_dec in *.
    rewrite Ew1 in Hb. cbn in Hb. rewrite lookup_insert_eq in Hb. injection Hb as <-.
    assert (ledger_ok (db w) -> ledger_ok (db w2)) as Hl by auto. rewrite Ew2, Ew1 in Hl |- *.
    eexists a, _. split; [done|]. cbn. rewrite insert_insert_eq. split; [done|].
    split; [cbn; lia|]. split; [|split_and!; done].
    + unfold payout_rows, txn_by_reference. cbn. rewrite <- app_assoc. cbn.
      rewrite !txn_by_reference_snoc by done. rewrite Href, same_refl.
      rewrite (proj2 (same_false _ _)) by done. cbn. by rewrite Ht2, Href2, !same_refl.
  - run_inv. eexists a, _. split; [done|]. rewrite Ew1. cbn. split; [done|]. split; [cbn; lia|].
    split; [|split_and!; try done].
    + unfold payout_rows. rewrite <- Ew1, N3. split; [|done]. unfold txn_by_reference. rewrite Ew1. cbn.
      rewrite txn_by_reference_snoc by done. by rewrite Href, same_refl.
    + rewrite <- Ew1. auto.
Qed.

(** *** The installments *)

(** The next identifiers and the day numbers from [i] on are not taken. *)
Definition schedule_free (t loanId : string) (i : Z) (w : World) : Prop :=
  (forall n, (nextUuid w <= n)%N -> uuid n ∉ (lr_id <$> loanRepayments (db w))) /\
  (forall r, r ∈ loanRepayments (db w) -> lr_loanId r = loanId -> lr_tenantId r = t -> lr_dayNumber r < i).

(** The rows written for the periods [ps], numbered from [i]. *)
Definition rows_for (t loanId : string) (at_ grace i : Z) (ps : list Period) (rs : list LoanRepayment) : Prop :=
  lr_principalDue <$> rs = principalDue <$> ps /\ lr_interestDue <$> rs = interestDue <$> ps /\
  lr_dueDate <$> rs = (fun k => add_months at_ (grace + k)) <$> seqZ i (Z.of_nat (length ps)) /\
  Forall (fun r => lr_loanId r = loanId /\ lr_tenantId r = t /\ lr_status r = I_PENDING /\
    lr_principalPaid r = 0 /\ lr_interestPaid r = 0) rs.

Lemma schedule_free_clash t loanId at_ grace i p w :
  schedule_free t loanId i w ->
  schedule_clash (schedule_row (uuid (nextUuid w)) t loanId at_ grace i p) (db w) = false.
Proof.
  intros [Hid Hday]. apply Bool.not_true_iff_false. intros Hc. apply List.existsb_exists in Hc as (r & Hin & Hc).
  apply list_elem_of_In in Hin. apply orb_true_iff in Hc as [Hc|Hc]; reflect.
  - apply (Hid (nextUuid w)); [lia|]. apply list_elem_of_fmap. eauto.
  - specialize (Hday r Hin ltac:(done) ltac:(done)). cbn in *. lia.
Qed.

Lemma installment_create_Ok r w u w' :
  installment_create r w = (Ok u, w') -> schedule_clash r (db w) = false ->
  w' = with_db (fun d => set_loanRepayments (loanRepayments d ++ [r]) d) w.
Proof. unfold installment_create. intros Hr Hc. run_inv. rewrite Hc in *. by run_inv. Qed.

Lemma create_schedule_loop `{!Inj (=) (=) uuid} t loanId at_ grace ps : forall i w j w',
  foldM (fun i p =>
    let* id := fresh_id in
    installment_create (schedule_row id t loanId at_ grace i p) ;;
    ret (i + 1)) i ps w = (Ok j, w') ->
  schedule_free t loanId i w ->
  exists rs, loanRepayments (db w') = loanRepayments (db w) ++ rs /\ rows_for t loanId at_ grace i ps rs.
Proof.
  induction ps as [|p ps IH]; intros i w j w' Hr Hfree; cbn [foldM] in Hr; run_inv.
  { exists []. rewrite app_nil_r. split; [done|]. by repeat split. }
  match goal with Hf : fresh_id _ = _ |- _ => injection Hf as <- <- end.
  pose proof (schedule_free_clash t loanId at_ grace i p _ Hfree) as Hcl.
  match goal with Hc : installment_create _ _ = _ |- _ => apply installment_create_Ok in Hc as ->; [|done] end.
  match goal with Hf : foldM _ _ _ _ = _ |- _ => apply IH in Hf as (rs & E & E1 & E2 & E3 & HF) end.
  - eexists (_ :: rs). split; [rewrite E; cbn; by rewrite <- app_assoc|].
    split_and!; cbn [fmap list_fmap length]; [by rewrite E1|by rewrite E2| |].
    + rewrite seqZ_cons by lia. cbn. rewrite E3. do 3 f_equal; lia.
    + by constructor.
  - destruct Hfree as [Hid Hday]. split; cbn.
    + intros n Hn. rewrite fmap_app. cbn. intros [Hx|Hx]%elem_of_app.
      * apply (Hid n); [lia|done].
      * apply list_elem_of_singleton in Hx. apply (inj uuid) in Hx. lia.
    + intros r [Hx|Hx%list_elem_of_singleton]%elem_of_app Hl Ht; [specialize (Hday r Hx Hl Ht); lia|].
      subst r. cbn. lia.
Qed.

(** The due dates of [n] months from the [i]-th on. *)
Lemma due_dates_sorted_from at_ grace n : forall i,
  StronglySorted Z.lt ((fun k => add_months at_ (grace + k)) <$> seqZ i (Z.of_nat n)).
Proof.
  induction n as [|n IH]; intros i; [constructor|]. rewrite seqZ_cons by lia. cbn [fmap list_fmap].
  replace (Z.pred (Z.of_nat (S n))) with (Z.of_nat n) by lia. constructor; [apply IH|].
  apply Forall_fmap, Forall_forall. intros k Hk. apply elem_of_seqZ in Hk. unfold compose.
  pose proof (add_months_later at_ (grace + i) (grace + k) ltac:(lia)) as Hlate. unfold msPerDay in Hlate. lia.
Qed.

Lemma due_dates_sorted at_ grace n :
  StronglySorted Z.lt ((fun k => add_months at_ (grace + k)) <$> seqZ 1 n).
Proof.
  destruct (Z.le_gt_cases 0 n); [rewrite <- (Z2Nat.id n) by done; apply due_dates_sorted_from|].
  rewrite seqZ_nil by lia. constructor.
Qed.

Lemma due_dates_last at_ grace n : 1 <= n ->
  last ((fun k => add_months at_ (grace + k)) <$> seqZ 1 n) = Some (add_months at_ (grace + n)).
Proof.
  intros Hn. rewrite fmap_last. replace n with ((n - 1) + 1) at 1 by lia. rewrite seqZ_app by lia.
  rewrite last_app. replace (1 + (n - 1)) with n by lia. done.
Qed.

(** *** The whole payout *)
Definition schedules (w : World) : list LoanRepayment := loanRepayments (db w).
#[export] Instance rollback_schedules : Rollback schedules.
Proof. done. Qed.
#[export] Instance frames_schedules_audit id t who acct l x after_ at_ due ip :
  Frames schedules (disburse_audit id t who acct l x after_ at_ due ip).
Proof. unfold disburse_audit, audit_row_create. apply _. Qed.

Lemma assertPassed_same t id w u w' : assertPassed t id w = (Ok u, w') -> w' = w.
Proof. unfold assertPassed, evaluate. intros Hr. by run_inv. Qed.

Lemma payout_rows_same t id d d' row n :
  transactions d' = transactions d -> payout_rows t id d row n -> payout_rows t id d' row n.
Proof. unfold payout_rows, txn_by_reference. by intros ->. Qed.

Lemma disburseBody_Ok id t who acct ip w r w' l :
  disburseBody id t who acct ip w = (Ok r, w') -> tenant_loan t id (db w) = Some l ->
  txn_by_reference t (disbursement_reference id) (db w) = None ->
  txn_by_reference t (fee_reference id) (db w) = None ->
  let principal := loan_principalAmount l in
  let tm := loan_terms l in
  loan_status l = APPROVED /\ is_ok (assertPassed t id w).1 = true /\ lt_processingFee tm <= principal /\
  payout_rows t id (db w') (dis_transaction r) (dis_newBalance r) /\
  (ledger_ok (db w) -> ledger_ok (db w')) /\
  (exists a a', accounts (db w) !! acct = Some a /\ accounts (db w') = <[acct := a']> (accounts (db w)) /\
     acc_balance a' = acc_balance a + principal - Z.max 0 (lt_processingFee tm) /\
     dis_newBalance r = acc_balance a') /\
  (exists at_ now product, dis_loan r = paid_out who at_ now l /\ dis_dueDate r = loan_dueDate (dis_loan r) /\
     loans (db w') = <[id := dis_loan r]> (loans (db w)) /\ loan_product l (db w) = Some product /\
     (Inj (=) (=) uuid -> lt_repaymentScheduleGenerated tm = false ->
      (forall n, uuid n ∉ (lr_id <$> loanRepayments (db w))) ->
      (forall x, x ∈ loanRepayments (db w) -> lr_loanId x <> id) ->
      exists rs, loanRepayments (db w') = loanRepayments (db w) ++ rs /\
        rows_for t id at_ (lt_gracePeriodMonths tm) 1
          (buildAmortizationSchedule principal (lt_interestRate tm) (lt_tenureMonths tm)
             (lp_interestType product) (lt_monthlyInstalment tm)) rs)).
Proof.
  intros Hr Hl N1 N2 principal tm. unfold disburseBody in Hr. apply bind_Ok in Hr as (o & w0 & Hg & Hr).
  injection Hg as <- <-. rewrite Hl in Hr. subst principal tm. run_inv.
  assert (r0 = l) as -> by congruence.
  match goal with Hf : assertPassed _ _ ?w0 = _ |- _ =>
    assert (is_ok (assertPassed t id w0).1 = true) as Hpass by (by rewrite Hf); apply assertPassed_same in Hf as -> end.
  match goal with Hf : disburse_audit _ _ _ _ _ _ _ _ _ _ _ = _ |- _ =>
    pose proof (frames_Ok schedules _ _ _ _ _ Hf) as Es; apply (frames_Ok books) in Hf as Eb; [|apply _] end.
  match goal with Hf : (if lt_repaymentScheduleGenerated _ then _ else _) _ = _ |- _ =>
    pose proof Hf as Hsch; apply (frames_Ok books) in Hf as Eb1; [|apply _] end.
  match goal with Hf : postEntry _ _ = _, Hg : (if 0 <? _ then _ else _) _ = _ |- _ =>
    destruct (payout_posts _ _ _ _ _ _ _ _ _ _ Hf Hg N1 N2) as (a & a' & Ha & Ea & Hb & Hrows & Hbal & El & Er & Hok)
  end.
  inv_call loan_update_Ok as (l0 & Hl0 & _ & ->). apply tenant_loan_Some in Hl as Hll. destruct Hll as [Hll _].
  rewrite El, Hll in Hl0. injection Hl0 as <-. rewrite Eb1 in Eb. unfold books in Eb.
  injection Eb as Eb1' Eb2 Eb3 Eb4 Eb5.
  cbn [loans db with_db set_loans] in Hsome, Eb5. rewrite lookup_insert_eq in Hsome. injection Hsome as <-. reflect.
  cbn [dis_transaction dis_newBalance dis_loan dis_dueDate].
  split; [done|]. split; [done|]. split; [lia|]. split; [by eapply payout_rows_same|]. split; [|split].
  - intros Hl1. eapply ledger_ok_frame; [exact (Hok Hl1)|..]; congruence.
  - exists a, a'. split_and!; congruence.
  - do 3 eexists. split; [reflexivity|]. split; [reflexivity|]. split; [by rewrite Eb5, El|]. split; [done|].
    intros Hinj Hgen Hids Hnone. rewrite Hgen in Hsch. unfold create_schedule in Hsch. run_inv.
    match goal with Hf : foldM _ _ _ _ = _ |- _ =>
      destruct (create_schedule_loop _ _ _ _ _ _ _ _ _ Hf) as (rs & E & Hrs) end.
    + split; cbn; rewrite Er; [intros; apply Hids|]. intros x Hx E. by destruct (Hnone x Hx).
    + exists rs. split; [|done]. change (loanRepayments (db w')) with (schedules w'). rewrite Es. unfold schedules.
      rewrite E. cbn. by rewrite Er.
Qed.

(** A call on an APPROVED loan. *)
Lemma disburse_approved id t who ip mpesa w r w' l :
  disburse id t who ip mpesa w = (Ok r, w') -> tenant_loan t id (db w) = Some l -> loan_status l <> ACTIVE ->
  isChainApproved id t (db w) = true /\
  (exists m, members (db w) !! loan_memberId l = Some m /\ mem_tenantId m = t /\ mem_kycStatus m = KYC_APPROVED) /\
  exists acct a w1, member_account t (loan_memberId l) FOSA (db w) = Some (acct, a) /\
    disburseBody id t who acct ip w = (Ok r, w1) /\ db w' = db w1.
Proof.
  intros Hr Hl Hst. unfold disburse in Hr. run_inv. rewrite Hl in *. run_inv.
  match goal with Hs : Some l = Some ?x |- _ => injection Hs as <- end. rewrite (proj2 (same_false _ _)) in * by done.
  run_inv. reflect. split; [done|]. split.
  - destruct (members _ !! _) as [m|]; [|done]. reflect. eauto.
  - match goal with Hf : transaction _ _ = _ |- _ => apply transaction_Ok in Hf end. 
    match goal with Hf : member_account _ _ _ _ = Some ?x |- _ => destruct x as [acct a] end. cbn [fst] in *.
    do 3 eexists. split; [eassumption|]. split; [eassumption|].
    match goal with Hf : enqueueEmail _ _ _ _ = _ |- _ => unfold enqueueEmail in Hf; case_match; by run_inv end.
Qed.

(** A call on an ACTIVE loan only reads. *)
Lemma disburse_replayed id t who ip w r w' l :
  disburse id t who ip false w = (Ok r, w') -> tenant_loan t id (db w) = Some l -> loan_status l = ACTIVE -> w' = w.
Proof.
  intros Hr Hl Ha. unfold disburse in Hr. cbn [throw_if] in Hr. run_inv. rewrite Hl in *.
  match goal with Hs : Some l = Some ?x |- _ => injection Hs as <- end. rewrite Ha, same_refl in *. by run_inv.
Qed.
End Payout.

(** ** Holds given back *)

(** [n] in all was released from the accounts' holds, and nothing else about
    money changed. *)
Record unfrozen (n : Z) (d d' : DB) : Prop := {
  un_nonneg : 0 <= n;
  un_frozen : map_sum acc_frozenSavings (accounts d') = map_sum acc_frozenSavings (accounts d) - n;
  un_each : forall id, option_relation
    (fun a a' => exists k v, (k = 0 \/ 0 < k <= acc_frozenSavings a) /\
       a' = set_frozen (acc_frozenSavings a - k) v a)
    (fun _ => False) (fun _ => False) (accounts d !! id) (accounts d' !! id);
  un_rows : transactions d' = transactions d /\ journalEntries d' = journalEntries d;
  un_loans : loans d' = loans d;
  un_ledger : ledger_ok d -> ledger_ok d';
}.

Lemma unfrozen_same d d' :
  same_ledger d d' -> loans d' = loans d -> unfrozen 0 d d'.
Proof.
  intros Hs El. pose proof Hs as (Ea & Et & Ej & _). split; try done.
  - rewrite Ea. lia.
  - intros id. rewrite Ea. destruct (accounts d !! id) as [a|]; [|done]. exists 0, (acc_version a).
    split; [by left|]. rewrite Z.sub_0_r. by destruct a.
  - by rewrite <- Hs.
Qed.

Lemma unfrozen_trans n m d1 d2 d3 : unfrozen n d1 d2 -> unfrozen m d2 d3 -> unfrozen (n + m) d1 d3.
Proof.
  intros [N1 F1 E1 [T1 J1] L1 K1] [N2 F2 E2 [T2 J2] L2 K2]. split; try lia; try (split; congruence); [|congruence|auto].
  intros id. specialize (E1 id). specialize (E2 id).
  destruct (accounts d1 !! id) as [a|], (accounts d2 !! id) as [b|], (accounts d3 !! id) as [c|]; cbn in *; try done.
  destruct E1 as (k & v & Hk & ->), E2 as (k' & v' & Hk' & ->). cbn in *. exists (k + k'), v'.
  split; [lia|]. unfold set_frozen. cbn. f_equal; lia.
Qed.

Lemma unfrozen_one d id a n :
  accounts d !! id = Some a -> 0 < n <= acc_frozenSavings a ->
  unfrozen n d (set_accounts (<[id := change_frozen (- n) a]> (accounts d)) d).
Proof.
  intros Ha Hn. split; try done; [lia| | |].
  - cbn. rewrite (map_sum_replace _ _ _ a) by done. cbn. lia.
  - intros k. cbn. destruct (decide (id = k)) as [<-|Hne].
    + rewrite lookup_insert_eq, Ha. exists n, (acc_version a + 1). split; [by right|]. done.
    + rewrite lookup_insert_ne by done. destruct (accounts d !! k) as [b|]; [|done]. exists 0, (acc_version b).
      split; [by left|]. rewrite Z.sub_0_r. by destruct b.
  - intros Hok. by apply ledger_ok_refreeze.
Qed.

Lemma unfrozen_committed n d d' : unfrozen n d d' -> committed d -> committed d'.
Proof.
  intros Hu Hc id a' Ha'. pose proof (un_each _ _ _ Hu id) as Hr. rewrite Ha' in Hr.
  destruct (accounts d !! id) as [a|] eqn:Ha; [|done]. destruct (Hc id a Ha) as [Hf Hl].
  destruct Hr as (k & v & Hk & ->). cbn. lia.
Qed.

Lemma release_held_Ok t T g w n w' :
  release_held t T g w = (Ok n, w') ->
  n <= Z.max 0 (lg_guaranteedAmount g) /\ unfrozen n (db w) (db w').
Proof.
  unfold release_held. intros Hr. run_inv.
  destruct (member_account _ _ _ _) as [[id a]|] eqn:Hm; [|run_inv; split; [lia|by apply unfrozen_same]].
  apply member_account_Some in Hm as (Ha & <- & _ & _ & Hact).
  destruct (Z.leb_spec (Z.min (acc_frozenSavings a) (lg_guaranteedAmount g)) 0);
    [run_inv; split; [lia|by apply unfrozen_same]|].
  run_inv. inv_call guarantor_updateMany_Ok as [-> _]. split; [lia|].
  match goal with Hx : account_updateMany _ _ _ _ = _ |- _ =>
    eapply account_updateMany_hit in Hx as [-> ->]; [|done|cbn; by rewrite Hact, same_refl] end.
  replace (Z.min _ _) with (Z.min (acc_frozenSavings a) (lg_guaranteedAmount g) + 0) at 1 by lia.
  eapply unfrozen_trans; [apply (unfrozen_one _ id a)|apply unfrozen_same]; try done. lia.
Qed.

Lemma release_loop t T gs : forall acc w acc' w',
  foldM (fun acc g =>
      let* n := release_held t T g in
      ret (if 0 <? n then acc ++ [held_json g n] else acc)) acc gs w = (Ok acc', w') ->
  exists n, n <= sum_by (fun g => Z.max 0 (lg_guaranteedAmount g)) gs /\ unfrozen n (db w) (db w').
Proof.
  induction gs as [|g gs IH]; intros acc w acc' w' Hr; cbn [foldM] in Hr; run_inv.
  { exists 0. split; [done|]. by apply unfrozen_same. }
  match goal with Hf : foldM _ _ _ _ = _ |- _ => apply IH in Hf as (m & Hm & Hu) end.
  inv_call release_held_Ok as (Hn & Hu1). eexists. rewrite sum_by_cons.
  split; [|by eapply unfrozen_trans]. lia.
Qed.

(** ** Approving, rejecting, responding *)
Section Decisions.
Context `{UuidSource, Sha256, Environment, DecimalLib}.

#[export] Instance frames_books_logAtomic dto : Frames books (logAtomic dto).
Proof. unfold logAtomic, audit_row_create. apply _. Qed.
#[export] Instance frames_books_chain id t : Frames books (initApprovalChain id t).
Proof. unfold initApprovalChain, slot_create. apply _. Qed.
#[export] Instance frames_books_email ty e n : Frames books (enqueueEmail ty e n).
Proof. unfold enqueueEmail. apply _. Qed.

(** A call that decided on the loan [id]: it had an allowed status and now has
    row [l'], and no money moved. *)
Definition decided (id t : string) (l l' : Loan) (d d' : DB) : Prop :=
  tenant_loan t id d = Some l /\ loans d' = <[id := l']> (loans d) /\ loan_step (loan_status l) (loan_status l').

Lemma books_ledger w w' : books w' = books w -> same_ledger (db w) (db w') /\ loans (db w') = loans (db w).
Proof. unfold books, same_ledger. intros E. by injection E as -> -> -> -> ->. Qed.

Lemma approvable_step s : s ∈ approvableStatuses -> loan_step s APPROVED.
Proof. unfold approvableStatuses. set_unfold. intros [->|[->|[]]]; done. Qed.
Lemma rejectable_step s : s ∈ rejectableStatuses -> loan_step s REJECTED.
Proof. unfold rejectableStatuses. set_unfold. intros [->|[->|[->|[]]]]; done. Qed.

Lemma approveBody_Ok id t who loan c ip ua w r w' :
  approveBody id t who loan c ip ua w = (Ok r, w') ->
  exists l now, r = touch_loan now (set_loan_status APPROVED (approve_terms now who c (loan_terms l)) l) /\
    decided id t l r (db w) (db w') /\ same_ledger (db w) (db w').
Proof.
  unfold approveBody. intros Hr. run_inv.
  match goal with Hf : tenant_loan _ _ _ = Some ?l |- _ => exists l; eexists; pose proof Hf as Hl end.
  apply tenant_loan_Some in Hl as [Hl _].
  match goal with Hf : logAtomic _ _ = _ |- _ => apply (frames_Ok books) in Hf as Eb; [|apply _] end.
  apply books_ledger in Eb as [Es El]. inv_call loan_update_Ok as (l0 & Hl0 & _ & ->).
  rewrite Hl in Hl0. injection Hl0 as <-. cbn in *. rewrite lookup_insert_eq in *.
  match goal with Hx : Some _ = Some r |- _ => injection Hx as <- end.
  split; [done|]. split; [|by etrans; [|exact Es]]. split; [done|]. split; [done|]. cbn. reflect.
  by apply approvable_step.
Qed.

Lemma initApprovalChain_nonempty id t w u w' :
  initApprovalChain id t w = (Ok u, w') -> chain_of t id (db w') <> [].
Proof.
  unfold initApprovalChain. intros Hr. run_inv. destruct (negb _) eqn:Hn in *; run_inv.
  - intros E. by rewrite E in Hn.
  - match goal with Hf : transaction _ _ = _ |- _ => apply transaction_Ok in Hf end. run_inv.
    unfold slot_create in *. run_inv. unfold chain_of. cbn. rewrite !List.filter_app. cbn.
    unfold of_loan at 2. cbn. rewrite !same_refl. cbn. intros E. apply (f_equal length) in E.
    rewrite !length_app in E. cbn in E. lia.
Qed.

Lemma approve_Ok id t who c ip ua w r w' :
  approve id t who c ip ua w = (Ok r, w') ->
  exists l, decided id t l r.1 (db w) (db w') /\ same_ledger (db w) (db w') /\
    loan_status r.1 = APPROVED /\ lt_approvedBy (loan_terms r.1) = Some who /\
    is_ok (assertPassed t id w).1 = true /\
    r.2 = requiresDualApproval (loan_principalAmount l) /\ (r.2 = true -> chain_of t id (db w') <> []).
Proof.
  unfold approve. intros Hr. run_inv.
  match goal with Hf : assertPassed _ _ ?w0 = _ |- _ =>
    assert (is_ok (assertPassed t id w0).1 = true) as Hpass by (by rewrite Hf); apply assertPassed_same in Hf as -> end.
  match goal with Hf : transaction _ _ = _ |- _ => apply transaction_Ok, approveBody_Ok in Hf
    as (l & now & -> & Hd & Hs) end.
  match goal with Hf : enqueueEmail _ _ _ _ = _ |- _ => apply (frames_Ok books) in Hf as Eb1; [|apply _] end.
  match goal with Hf : (if requiresDualApproval _ then _ else _) _ = _ |- _ =>
    pose proof Hf as Hchain; apply (frames_Ok books) in Hf as Eb2; [|apply _] end.
  rewrite Eb1 in Eb2. apply books_ledger in Eb2 as [Es El]. exists l. destruct Hd as (Hl & El1 & Hst).
  match goal with Hx : tenant_loan _ _ _ = Some ?y |- _ => assert (y = l) as -> by congruence end.
  cbn [fst snd]. split; [split_and!; [done|congruence|done]|]. split; [by etrans|]. split_and!; [done..|].
  intros Hdual. rewrite Hdual in Hchain. by eapply initApprovalChain_nonempty.
Qed.

Lemma rejectBody_Ok id t reason who loan T ip ua w r w' :
  rejectBody id t reason who loan T ip ua w = (Ok r, w') ->
  exists l n, tenant_loan t id (db w) = Some l /\ loan_step (loan_status l) (loan_status r) /\
    loan_status r = REJECTED /\ lt_notes (loan_terms r) = Some reason /\
    loans (db w') = <[id := r]> (loans (db w)) /\
    n <= sum_by (fun g => Z.max 0 (lg_guaranteedAmount g)) (accepted_held t id (db w)) /\
    exists d1, unfrozen n (db w) d1 /\ same_ledger d1 (db w').
Proof.
  unfold rejectBody. intros Hr. run_inv.
  match goal with Hf : tenant_loan _ _ _ = Some ?l |- _ => exists l; pose proof Hf as Hl end.
  match goal with Hf : foldM _ _ _ _ = _ |- _ => apply release_loop in Hf as (n & Hn & Hu) end. exists n.
  match goal with Hf : logAtomic _ _ = _ |- _ => apply (frames_Ok books) in Hf as Eb; [|apply _] end.
  apply books_ledger in Eb as [Es El]. inv_call loan_update_Ok as (l0 & Hl0 & _ & ->).
  apply tenant_loan_Some in Hl as [Hl' _]. rewrite (un_loans _ _ _ Hu), Hl' in Hl0. injection Hl0 as <-.
  cbn in *. rewrite lookup_insert_eq in *. match goal with Hx : Some _ = Some r |- _ => injection Hx as <- end.
  reflect. split; [done|]. split; [by apply rejectable_step|]. split_and!; [done..| |done|].
  - rewrite El. by rewrite (un_loans _ _ _ Hu).
  - eexists. split; [exact Hu|]. by etrans; [|exact Es].
Qed.

Lemma checkAndAdvance_Ok id t w u w' :
  checkAndAdvanceLoanStatus id t w = (Ok u, w') ->
  same_ledger (db w) (db w') /\ loanGuarantors (db w') = loanGuarantors (db w) /\
  (loans (db w') = loans (db w) \/
   exists l l', decided id t l l' (db w) (db w') /\ loan_status l = PENDING_GUARANTORS /\
     loan_status l' = PENDING_APPROVAL /\
     loan_principalAmount l <= sum_by lg_guaranteedAmount
       (List.filter (fun g => (lg_loanId g === id) && (lg_status g === G_ACCEPTED)) (loanGuarantors (db w)))).
Proof.
  unfold checkAndAdvanceLoanStatus. intros Hr. run_inv.
  destruct (tenant_loan _ _ _) as [l|] eqn:Hl; [|run_inv; by repeat split; left].
  case_bool_decide as Hst; cbn [negb] in *; [|run_inv; by repeat split; left]. run_inv.
  match goal with Hx : (if ?c then _ else _) _ = _ |- _ => destruct c eqn:Hcov end; [|run_inv; by repeat split; left].
  inv_call loan_update_Ok as (l0 & Hl0 & _ & ->). apply tenant_loan_Some in Hl as Hl'. destruct Hl' as [Hl' _].
  rewrite Hl' in Hl0. injection Hl0 as <-. split; [done|]. split; [done|]. right. eexists l, _.
  split; [split_and!; [done|reflexivity|]|]; cbn; [by rewrite Hst|]. reflect. split_and!; done.
Qed.

Lemma respondAsGuarantor_Ok id m t accept w r w' :
  respondAsGuarantor id m t accept w = (Ok r, w') ->
  exists w1, checkAndAdvanceLoanStatus id t w1 = (Ok tt, w') /\ same_ledger (db w) (db w1) /\
    loans (db w1) = loans (db w) /\ r = (if accept then G_ACCEPTED else G_REJECTED) /\
    exists g, g ∈ loanGuarantors (db w) /\ lg_loanId g = id /\ lg_memberId g = m /\ lg_status g = G_PENDING /\
      loanGuarantors (db w1) = update_where (fun x => lg_id x === lg_id g) (set_guarantor_status r)
        (loanGuarantors (db w)).
Proof.
  unfold respondAsGuarantor. intros Hr. run_inv. inv_call guarantor_updateMany_Ok as [-> _].
  match goal with u : () |- _ => destruct u end.
  match goal with Hf : checkAndAdvanceLoanStatus _ _ _ = _ |- _ => eexists; split; [exact Hf|] end.
  split; [done|]. split; [done|]. split; [done|].
  match goal with Hf : List.find _ _ = Some ?g |- _ => exists g; apply find_some_elem in Hf as [Hin Hg] end. reflect.
  split_and!; try done. cbn. apply list_fmap_ext. intros i x _. by rewrite andb_true_r.
Qed.
End Decisions.
