(* ===== verification/LoanRepayFacts.v ===== *)
(** * LoanRepayFacts: what a repayment recorded by staff changes *)
From S2P Require Import Prelude Money Json Format Schema Ledger LedgerFacts LedgerInv.
From S2P Require Import LedgerProps LedgerLegs.
From S2P Require Import AccountFacts Repayment AuditLogs LoanRules Guarantors GuarantorFacts.
From S2P Require Import ApprovalChains Redis.
From S2P Require Import Frames Recovery Loans LoanRepay LoansFacts.

(** ** Legs posted against an account that was debited before *)

(** Were the account [id] to hold [b], the ledger would be in step. *)
Definition backs (id : string) (a : Account) (b : Z) (d : DB) : Prop :=
  forall a', acc_tenantId a' = acc_tenantId a -> acc_accountType a' = acc_accountType a -> acc_balance a' = b ->
    ledger_ok (set_accounts (<[id := a']> (accounts d)) d).

(** An entry that refers to a row of a type that spans several postings. *)
Lemma ledger_ok_deduct_leg d id a a' n e p1 p2 cc descr x :
  ledger_ok d -> accounts d !! id = Some a ->
  acc_tenantId a' = acc_tenantId a -> acc_accountType a' = acc_accountType a -> acc_balance a' = acc_balance a - n ->
  x ∈ transactions d -> single_account_type (txn_type x) = false -> je_referenceId e = txn_id x ->
  not_deposit_code cc ->
  find_gl (acc_tenantId a) (memberDepositsCode (acc_accountType a)) d = Some p1 ->
  find_gl (acc_tenantId a) cc d = Some p2 ->
  je_postings e = [mkGLPosting (gl_id p1) (gl_id p2) n descr] ->
  ledger_ok (set_journalEntries (journalEntries d ++ [e]) (set_accounts (<[id := a']> (accounts d)) d)).
Proof.
  intros Hok Ha Ht' HT' Hb Hx Hty Href Hcc Hg1 Hg2 Hp.
  pose proof Hok as [Hgl Hids Hback Hrefs Hpairs].
  assert (same_kinds d (set_accounts (<[id := a']> (accounts d)) d)) as Hk by (by eapply same_kinds_insert).
  split; try done.
  - eapply (gl_backed_step d _ e _ (account_effect a (- n))); try done.
    + intros t' T g Hg. rewrite (pair_effect d (acc_tenantId a) _ _ p1 p2 _ _ Hgl Hg1 Hg2 t' T g Hg).
      rewrite code_effect_debit by done. unfold account_effect.
      by destruct (acc_tenantId a === t'), (acc_accountType a === T).
    + intros t' T. unfold deposits at 1. cbn. rewrite (deposits_insert t' T _ _ a) by done. unfold account_effect.
      destruct (_ && _); lia.
  - intros e0 [He|He%list_elem_of_singleton]%elem_of_app; [by apply Hrefs|]. subst e0. rewrite Href.
    by apply list_elem_of_fmap_2.
  - intros t0 e0 Ht0 [He|He%list_elem_of_singleton]%elem_of_app Hr Hs.
    + eapply coherent_mono; [exact Hk|done|]. by apply Hpairs.
    + subst e0. exfalso. rewrite Href in Hr. assert (x = t0) as <- by (by eapply (NoDup_key_inj txn_id)). congruence.
Qed.

Section Repay.
Context `{UuidSource, Sha256, Environment}.

(** What posting a leg leaves alone, and the entries it may add. *)
Definition legs_only (refs : list string) (t : string) (d d' : DB) : Prop :=
  accounts d' = accounts d /\ transactions d' = transactions d /\ glAccounts d' = glAccounts d /\
  loans d' = loans d /\ loanRepayments d' = loanRepayments d /\
  exists es, journalEntries d' = journalEntries d ++ es /\
    Forall (fun e => je_tenantId e = t /\ exists ref, ref ∈ refs /\ je_entryNumber e = "JE-LEDGER-" +:+ ref) es.

Lemma legs_only_refl refs t d : legs_only refs t d d.
Proof. repeat split; try done. exists []. by rewrite app_nil_r. Qed.

Lemma legs_only_trans refs1 refs2 t d1 d2 d3 :
  legs_only refs1 t d1 d2 -> legs_only refs2 t d2 d3 -> legs_only (refs1 ++ refs2) t d1 d3.
Proof.
  intros (A1 & T1 & G1 & L1 & R1 & es1 & E1 & F1) (A2 & T2 & G2 & L2 & R2 & es2 & E2 & F2).
  split_and!; try congruence. exists (es1 ++ es2). split; [by rewrite E2, E1, app_assoc|].
  apply Forall_app. split; (eapply Forall_impl; [eassumption|]); intros e (? & ref & ? & ?); (split; [done|]);
    exists ref; set_solver.
Qed.

Lemma legs_only_fresh refs t d d' ref :
  legs_only refs t d d' -> ref ∉ refs -> je_by_number t ("JE-LEDGER-" +:+ ref) d = None ->
  je_by_number t ("JE-LEDGER-" +:+ ref) d' = None.
Proof.
  intros (_ & _ & _ & _ & _ & es & E & F) Hnot Hn. unfold je_by_number in *. rewrite E, find_app_none by done.
  clear E Hn. induction F as [|e es (_ & r & Hr & Hnum) F IH]; [done|]. cbn.
  rewrite (proj2 (same_false (je_entryNumber e) _)), andb_false_r; [done|].
  rewrite Hnum. intros ->%str_app_inv. done.
Qed.

Lemma repay_leg_Ok t ref leg n txnId actor w u w' id a b x :
  repay_leg t ref leg n txnId actor w = (Ok u, w') ->
  je_by_number t ("JE-LEDGER-" +:+ ref) (db w) = None ->
  acc_tenantId a = t -> acc_accountType a = FOSA -> x ∈ transactions (db w) ->
  txn_id x = txnId -> single_account_type (txn_type x) = false -> 0 <= n ->
  legs_only [ref] t (db w) (db w') /\ clock w' = clock w /\ (backs id a b (db w) -> backs id a (b - n) (db w')).
Proof.
  unfold repay_leg. intros Hr. destruct (Z.ltb_spec 0 n).
  2: { run_inv. intros _ _ _ _ _ _ Hn. split; [apply legs_only_refl|]. by replace (b - n) with b by lia. }
  run_inv. unfold postAccountSourcedRepaymentLegEntry in *. intros Hnew Ht HT Hx Hid Hty Hn.
  inv_call postGlOnlyLegEntry_Ok as (_ & Hcl & [(_ & _ & Hold)|Hp]); [congruence|].
  destruct Hp as (who & p1 & p2 & _ & _ & Hg1 & Hg2 & Er & Ew). rewrite to_dp4_dec in *.
  rewrite Ew. split; [|split; [done|]].
  - repeat split; try done. eexists. split; [reflexivity|]. constructor; [|done]. rewrite Er. cbn.
    split; [done|]. exists ref. set_solver.
  - intros Hb a' Ht' HT' Hbal. cbn.
    change (ledger_ok (set_journalEntries (journalEntries (db w) ++ [r.1])
      (set_accounts (<[id := a']> (accounts (db w))) (db w)))).
    set (a0 := set_balance b 0 a). pose proof (Hb a0 eq_refl eq_refl eq_refl) as Hok.
    eapply (ledger_ok_deduct_leg _ id a0 a' n r.1 p1 p2) in Hok; cbn;
      [|by rewrite lookup_insert_eq|done|done|done|exact Hx|done|by rewrite Er|apply leg_code_not_deposit
       |by rewrite Ht, HT|by rewrite Ht|by rewrite Er].
    cbn in Hok. by rewrite insert_insert_eq in Hok.
Qed.

Definition leg_refs (reference : string) : list string :=
  [reference +:+ "-PENALTY"; reference +:+ "-INTEREST"; reference +:+ "-PRINCIPAL"].

(** No entry is numbered for the legs of [reference]. *)
Definition legs_unused (t reference : string) (d : DB) : Prop :=
  Forall (fun ref => je_by_number t ("JE-LEDGER-" +:+ ref) d = None) (leg_refs reference).

Lemma repay_legs_Ok t ref s txnId actor w u w' id a b x :
  repay_legs t ref s txnId actor w = (Ok u, w') -> legs_unused t ref (db w) ->
  acc_tenantId a = t -> acc_accountType a = FOSA -> x ∈ transactions (db w) ->
  txn_id x = txnId -> single_account_type (txn_type x) = false ->
  0 <= toArrears s -> 0 <= toInterest s -> 0 <= toPrincipal s ->
  legs_only (leg_refs ref) t (db w) (db w') /\ clock w' = clock w /\
  (backs id a b (db w) -> backs id a (b - (toArrears s + toInterest s + toPrincipal s)) (db w')).
Proof.
  unfold repay_legs. intros Hr Hnew Ht HT Hx Hid Hty Ha Hi Hp.
  unfold legs_unused, leg_refs in Hnew. rewrite !Forall_cons in Hnew. destruct Hnew as (N1 & N2 & N3 & _). run_inv.
  assert (forall y z : string, y <> z -> ref +:+ y ∉ [ref +:+ z]) as Hne.
  { intros y z Hyz Hin%list_elem_of_singleton. by apply str_app_inv in Hin. }
  match goal with A : repay_leg _ _ LEG_PENALTY _ _ _ _ = _, B : repay_leg _ _ LEG_INTEREST _ _ _ _ = _,
    C : repay_leg _ _ LEG_PRINCIPAL _ _ _ _ = _ |- _ => rename A into R1; rename B into R2; rename C into R3 end.
  apply (repay_leg_Ok _ _ _ _ _ _ _ _ _ id a b x) in R1 as (L1 & C1 & B1); try done.
  assert (x ∈ transactions (db s0)) as Hx1 by (by destruct L1 as (_ & -> & _)).
  apply (repay_leg_Ok _ _ _ _ _ _ _ _ _ id a (b - toArrears s) x) in R2 as (L2 & C2 & B2); try done.
  2: by eapply legs_only_fresh; [exact L1|apply Hne|].
  pose proof (legs_only_trans _ _ _ _ _ _ L1 L2) as L12.
  apply (repay_leg_Ok _ _ _ _ _ _ _ _ _ id a (b - toArrears s - toInterest s) x) in R3 as (L3 & C3 & B3); try done.
  - split; [exact (legs_only_trans _ _ _ _ _ _ L12 L3)|]. split; [congruence|]. intros Hb.
    replace (b - (toArrears s + toInterest s + toPrincipal s)) with (b - toArrears s - toInterest s - toPrincipal s)
      by lia. auto.
  - eapply legs_only_fresh; [exact L12| |done]. cbn.
    intros [Hin|[Hin|Hin]%elem_of_cons]%elem_of_cons; [by apply str_app_inv in Hin..|by apply elem_of_nil in Hin].
  - by destruct L12 as (_ & -> & _).
Qed.

(** ** Holds given back when the loan is settled *)

(** Only holds, guarantor rows and audit rows changed. *)
Record refrozen (d d' : DB) : Prop := {
  rf_each : forall id, option_relation (fun a a' => exists f v, a' = set_frozen f v a)
    (fun _ => False) (fun _ => False) (accounts d !! id) (accounts d' !! id);
  rf_rows : transactions d' = transactions d /\ journalEntries d' = journalEntries d;
  rf_loans : loans d' = loans d /\ loanRepayments d' = loanRepayments d;
  rf_ledger : ledger_ok d -> ledger_ok d';
}.

Lemma refrozen_same d d' :
  same_ledger d d' -> loans d' = loans d -> loanRepayments d' = loanRepayments d -> refrozen d d'.
Proof.
  intros Hs El Er. pose proof Hs as (Ea & Et & Ej & _). split; try done; [|by rewrite <- Hs].
  intros id. rewrite Ea. destruct (accounts d !! id) as [a|]; [|done]. exists (acc_frozenSavings a), (acc_version a).
  by destruct a.
Qed.

Lemma refrozen_trans d1 d2 d3 : refrozen d1 d2 -> refrozen d2 d3 -> refrozen d1 d3.
Proof.
  intros [E1 [T1 J1] [L1 R1] K1] [E2 [T2 J2] [L2 R2] K2]. split; [|split; congruence..|auto].
  intros id. specialize (E1 id). specialize (E2 id).
  destruct (accounts d1 !! id) as [a|], (accounts d2 !! id) as [b|], (accounts d3 !! id) as [c|]; cbn in *; try done.
  destruct E1 as (f & v & ->), E2 as (f' & v' & ->). by exists f', v'.
Qed.

Lemma refrozen_one d id a f v :
  accounts d !! id = Some a -> refrozen d (set_accounts (<[id := set_frozen f v a]> (accounts d)) d).
Proof.
  intros Ha. split; try done.
  - intros k. cbn. destruct (decide (id = k)) as [<-|Hne]; [rewrite lookup_insert_eq, Ha; by exists f, v|].
    rewrite lookup_insert_ne by done. destruct (accounts d !! k) as [b|]; [|done].
    exists (acc_frozenSavings b), (acc_version b). by destruct b.
  - intros Hok. by apply ledger_ok_refreeze.
Qed.

Lemma refrozen_balances d d' : refrozen d d' ->
  forall id, acc_balance <$> accounts d' !! id = acc_balance <$> accounts d !! id.
Proof.
  intros Hr id. pose proof (rf_each _ _ Hr id) as Hk.
  destruct (accounts d !! id), (accounts d' !! id); cbn in *; try done. by destruct Hk as (? & ? & ->).
Qed.

#[export] Instance frames_books_release t loanId actor g n : Frames books (release_audit t loanId actor g n).
Proof. unfold release_audit, audit_row_create. apply _. Qed.
#[export] Instance frames_schedules_release t loanId actor g n : Frames schedules (release_audit t loanId actor g n).
Proof. unfold release_audit, audit_row_create. apply _. Qed.
#[export] Instance frames_schedules_logAtomic dto : Frames schedules (logAtomic dto).
Proof. unfold logAtomic, audit_row_create. apply _. Qed.

Lemma books_refrozen w w' : books w' = books w -> schedules w' = schedules w -> refrozen (db w) (db w').
Proof. intros Eb Es. apply books_ledger in Eb as [Hs El]. by apply refrozen_same. Qed.

Lemma release_paid_Ok t loanId actor found g w u w' :
  release_paid t loanId actor found g w = (Ok u, w') -> refrozen (db w) (db w').
Proof.
  unfold release_paid. intros Hr. destruct found as [[id a]|]; [|run_inv; by apply refrozen_same].
  destruct (_ <=? 0); [run_inv; by apply refrozen_same|]. run_inv.
  match goal with Hf : release_audit _ _ _ _ _ _ = _ |- _ =>
    pose proof (frames_Ok schedules _ _ _ _ _ Hf) as Es; apply (frames_Ok books) in Hf as Eb; [|apply _] end.
  apply books_refrozen in Eb; [|done]. inv_call guarantor_updateMany_Ok as [-> _].
  eapply refrozen_trans; [|exact Eb].
  inv_call account_updateMany_Ok as [[-> ->]|(a' & -> & Ha' & _ & _ & ->)]; [by apply refrozen_same|].
  eapply refrozen_trans; [by apply (refrozen_one _ id a')|]. by apply refrozen_same.
Qed.

Lemma release_on_full_Ok t loanId actor w u w' :
  releaseGuarantorHoldsOnFullRepayment t loanId actor w = (Ok u, w') -> refrozen (db w) (db w').
Proof.
  unfold releaseGuarantorHoldsOnFullRepayment. intros Hr. run_inv.
  destruct (tenant_loan _ _ _) as [l|]; [|run_inv; by apply refrozen_same].
  destruct (accepted_held _ _ _) as [|g gs] eqn:Eg; [run_inv; by apply refrozen_same|]. run_inv.
  match goal with Hf : foldM ?body tt ?xs ?w0 = _ |- _ =>
    apply (foldM_inv body (fun _ s => refrozen (db w0) (db s)) xs) in Hf; [done| |by apply refrozen_same] end.
  intros _ x w1 [] w2 _ Hi Hb. eapply refrozen_trans; [exact Hi|]. by eapply release_paid_Ok.
Qed.

(** ** The whole repayment *)
Lemma split_sums n l : toArrears (split_repayment n l) + toInterest (split_repayment n l)
  + toPrincipal (split_repayment n l) = n.
Proof. unfold split_repayment. cbn. lia. Qed.

Definition owes_nothing_negative (l : Loan) : Prop :=
  0 <= loan_arrearsAmount l /\ 0 <= loan_accruedInterest l /\ 0 <= loan_outstandingBalance l.

(** A split of at most the debt leaves each part between zero and what is owed. *)
Lemma split_bounds n l : 0 <= n <= total_owed l -> owes_nothing_negative l ->
  let s := split_repayment n l in
  0 <= toArrears s <= loan_arrearsAmount l /\ 0 <= toInterest s <= loan_accruedInterest l /\
  0 <= toPrincipal s <= loan_outstandingBalance l.
Proof. unfold total_owed, owes_nothing_negative, split_repayment. cbn. lia. Qed.

(** What a repayment of [n] on the loan [l] from the account [acct] did. *)
Definition repaid (t loanId acct ref who : string) (l : Loan) (n : Z) (x : Transaction) (d d' : DB) : Prop :=
  exists a d1 now, let s := split_repayment n l in
    accounts d !! acct = Some a /\ acc_tenantId a = t /\ n <= acc_balance a /\
    txn_tenantId x = t /\ txn_reference x = ref /\ txn_accountId x = acct /\ txn_amount x = n /\
    txn_balanceAfter x = acc_balance a - n /\
    accounts d1 = <[acct := set_balance (acc_balance a - n) (acc_version a) a]> (accounts d) /\
    transactions d1 = transactions d ++ [x] /\
    loans d1 = <[loanId := touch_loan now (repaid_loan n s l)]> (loans d) /\
    loanRepayments d1 = loanRepayments d /\
    (acc_accountType a = FOSA -> 0 <= n <= total_owed l -> owes_nothing_negative l -> legs_unused t ref d ->
       ledger_ok d -> ledger_ok d1) /\
    refrozen d1 d' /\ (0 < loan_outstandingBalance l - toPrincipal s -> accounts d' = accounts d1).

(** What posting a leg leaves alone, in every case. *)
Definition tables (w : World) :=
  (accounts (db w), transactions (db w), glAccounts (db w), loans (db w), loanRepayments (db w)).

#[export] Instance rollback_tables : Rollback tables.
Proof. done. Qed.
#[export] Instance frames_tables_legs t ref s txnId who : Frames tables (repay_legs t ref s txnId who).
Proof.
  unfold repay_legs, repay_leg, postAccountSourcedRepaymentLegEntry, postGlOnlyLegEntry, positive_amount,
    actor_or_system, resolveSystemActorId, journal_create. apply _.
Qed.

Lemma account_set_balance_Ok id b w u w' :
  account_set_balance id b w = (Ok u, w') ->
  exists a, accounts (db w) !! id = Some a /\
    w' = with_db (set_accounts (<[id := set_balance b (acc_version a) a]> (accounts (db w)))) w.
Proof.
  unfold account_set_balance. intros Hr. run_inv.
  inv_call account_updateMany_Ok as [[-> ->]|(a & -> & Ha & _ & _ & ->)]; [done|]. eauto.
Qed.

(** The account debited in full, then the legs: the ledger is in step again. *)
Lemma debit_then_legs t ref s x n who a acct (w w1 w2 : World) u :
  accounts (db w) !! acct = Some a -> acc_tenantId a = t -> acc_accountType a = FOSA ->
  (txn_id x ∉ (txn_id <$> transactions (db w))) -> single_account_type (txn_type x) = false ->
  toArrears s + toInterest s + toPrincipal s = n ->
  let a' := set_balance (acc_balance a - n) (acc_version a) a in
  db w1 = set_accounts (<[acct := a']> (accounts (db w))) (set_transactions (transactions (db w) ++ [x]) (db w)) ->
  repay_legs t ref s (txn_id x) who w1 = (Ok u, w2) -> legs_unused t ref (db w) ->
  0 <= toArrears s -> 0 <= toInterest s -> 0 <= toPrincipal s -> ledger_ok (db w) -> ledger_ok (db w2).
Proof.
  intros Ha Ht HT Hid Hty Hn a' E1 Hl Hnew P1 P2 P3 Hok.
  apply (repay_legs_Ok _ _ _ _ _ _ _ _ acct a (acc_balance a) x) in Hl as (Hlegs & _ & Hb); try done.
  2: by rewrite E1. 2: (rewrite E1; cbn; set_solver).
  apply (ledger_ok_add_txn _ x) in Hok; [|done]. rewrite Hn in Hb.
  assert (backs acct a (acc_balance a) (db w1)) as Hstart.
  { intros b Hbt HbT Hbb. rewrite E1. cbn. rewrite insert_insert_eq.
    by apply (ledger_ok_same_balance _ acct a b) in Hok. }
  specialize (Hb Hstart a' eq_refl eq_refl eq_refl). destruct Hlegs as (Ea & _).
  assert (accounts (db w2) !! acct = Some a') as Ha' by (by rewrite Ea, E1; cbn; rewrite lookup_insert_eq).
  eapply ledger_ok_proper; [|exact Hb]. repeat split; try done. cbn. by rewrite insert_id.
Qed.

Lemma repayBody_Ok loanId acct t who ref loan n0 ip w r w' :
  repayBody loanId acct t who ref loan n0 ip w = (Ok r, w') -> txn_by_reference t ref (db w) = None ->
  exists l, tenant_loan t loanId (db w) = Some l /\ loan_status l = ACTIVE /\
    let n := Z.min n0 (total_owed l) in
    let s := split_repayment n l in
    rp_reference r = ref /\ rp_allocation r = s /\
    rp_newOutstandingBalance r = Z.max 0 (loan_outstandingBalance l - toPrincipal s) /\
    repaid t loanId acct ref who l n (rp_transaction r) (db w) (db w').
Proof.
  unfold repayBody. intros Hr Hnew. apply bind_Ok in Hr as (o & w0 & Hg & Hr). injection Hg as <- <-.
  rewrite Hnew in Hr. run_inv.
  match goal with Hf : tenant_loan _ _ _ = Some ?x |- _ => rename x into l; pose proof Hf as Hl end.
  match goal with Hf : active_account _ _ _ = Some ?x |- _ => rename x into a; apply active_account_Some in Hf as (Ha & Ht & _) end.
  exists l. cbn [rp_reference rp_allocation rp_newOutstandingBalance rp_transaction]. reflect.
  split; [done|]. split; [done|]. split; [done|]. split; [done|]. split; [done|].
  set (n := Z.min n0 (total_owed l)) in *. set (s := split_repayment n l) in *.
  inv_call transaction_create_Ok as (-> & _ & _ & Hid & _ & ->).
  match goal with |- context [txn_of_data ?i ?c ?td] => set (x := txn_of_data i c td) in * end.
  inv_call account_set_balance_Ok as (a0 & Ha0 & ->). cbn [db with_db accounts set_transactions bump_uuid] in Ha0.
  assert (a0 = a) as -> by congruence.
  match goal with Hf : repay_legs _ _ _ _ _ ?w1 = _ |- _ =>
    pose proof (frames_Ok tables _ _ _ _ _ Hf) as Et; rename Hf into Hlegs end.
  inv_call loan_update_Ok as (l0 & Hl0 & _ & ->). injection Et as Ea Etx Eg El Er. cbn in Ea, Etx, Eg, El, Er.
  apply tenant_loan_Some in Hl as Hl'. destruct Hl' as [Hl' _].
  assert (l0 = l) as -> by congruence.
  match type of Hlegs with _ = (_, ?v) => rename v into w1 end.
  match goal with Hf : createAtomic _ ?v = _ |- _ => rename v into w2;
    pose proof (frames_Ok books _ _ _ _ _ Hf) as Eb; pose proof (frames_Ok schedules _ _ _ _ _ Hf) as Es;
    pose proof (books_refrozen _ _ Eb Es) as Haud; assert (accounts (db w') = accounts (db w2)) as Hea end.
  { by injection Eb. }
  match goal with Hf : (if _ <=? 0 then _ else _) ?v = (Ok _, w2) |- _ => assert (refrozen (db v) (db w2)) as Hrel end.
  { case_match; [by eapply release_on_full_Ok|run_inv; by apply refrozen_same]. }
  exists a, (set_loans (<[loanId := touch_loan (clock w1) (repaid_loan n s l)]> (loans (db w1))) (db w1)), (clock w1).
  cbn zeta. fold s. split_and!; try done; [cbn; by rewrite El| | |].
  - intros HT Hn Howes Hunused Hok. destruct (split_bounds n l Hn Howes) as (B1 & B2 & B3). fold s in B1, B2, B3.
    assert (ledger_ok (db w1)) as Hok1; [|by apply (ledger_ok_frame (db w1))].
    eapply (debit_then_legs t ref s x n who a acct); try exact Hlegs; try done; try lia. apply split_sums.
  - eapply refrozen_trans; [exact Hrel|exact Haud].
  - intros Hpos. rewrite Hea. destruct (Z.leb_spec (loan_outstandingBalance l - toPrincipal s) 0); [lia|by run_inv].
Qed.
End Repay.
