(* ===== verification/RecoveryFacts.v ===== *)
(** * RecoveryFacts: what one forfeiture changes

    A forfeiture takes the same amount from the balance and the frozen savings
    of one account, records it in a transaction row, and posts it against the
    loan receivable.  Both the recovery service and the daily forfeiture are
    series of such steps. *)
From S2P Require Import Prelude Money Json Schema Ledger LedgerFacts LedgerInv LedgerProps.
From S2P Require Import LedgerLegs AuditLogs Redis Recovery GuarantorFacts.

(** The account after a forfeiture of [n]. *)
Definition taken_from (a : Account) (n : Z) : Account :=
  forfeit_account (acc_balance a - n) (acc_frozenSavings a - n) a.

(** Tables a forfeiture's bookkeeping leaves alone. *)
Definition same_balances (d d' : DB) : Prop := same_ledger d d' /\ loans d' = loans d.

Section Facts.
Context `{UuidSource}.

(** A deduction of [n] posted against a code that is not a deposit. *)
Lemma deduction_keeps t T id a a' n txn e p1 p2 cc descr d :
  ledger_ok d -> accounts d !! id = Some a -> acc_tenantId a = t -> acc_accountType a = T ->
  acc_tenantId a' = t -> acc_accountType a' = T -> acc_balance a' = acc_balance a - n -> 0 < n ->
  (txn_id txn ∉ (txn_id <$> transactions d)) ->
  txn_accountId txn = id -> txn_tenantId txn = t -> txn_amount txn = n ->
  txn_balanceAfter txn = txn_balanceBefore txn - n -> not_deposit_code cc ->
  find_gl t (memberDepositsCode T) d = Some p1 -> find_gl t cc d = Some p2 ->
  je_postings e = [mkGLPosting (gl_id p1) (gl_id p2) n descr] -> je_referenceId e = txn_id txn ->
  ledger_ok (posted_db id a' [txn] e d).
Proof.
  intros Hok Ha <- <- Ht' HT' Hb Hn Hfresh Hid Htn Hamt Haft Hcc Hg1 Hg2 Hp Href. subst n.
  eapply ledger_ok_extends; [done|]. eapply (extends_single d id a _ txn e _ DEBIT); try done; try lia.
  intros t' T g Hg. rewrite (pair_effect d (acc_tenantId a) _ _ p1 p2 _ _ (ok_gl_ids _ Hok) Hg1 Hg2 t' T g Hg).
  rewrite code_effect_debit by done. unfold account_effect, signed.
  by destruct (acc_tenantId a === t'), (acc_accountType a === T).
Qed.

(** One forfeiture step of [n] from account [acct]. *)
Record forfeited (t acct ref : string) (T : AccountType) (n : Z) (d d' : DB) : Prop := {
  ff_account : exists a, accounts d !! acct = Some a /\ acc_tenantId a = t /\
    0 < n /\ n <= acc_balance a /\ n <= acc_frozenSavings a /\
    accounts d' = <[acct := taken_from a n]> (accounts d);
  ff_new : txn_by_reference t ref d = None;
  ff_row : exists x, transactions d' = transactions d ++ [x] /\ txn_tenantId x = t /\ txn_reference x = ref /\
    txn_amount x = n;
  ff_entries : journalEntries d' = journalEntries d \/
    exists e, journalEntries d' = journalEntries d ++ [e] /\ je_tenantId e = t /\
      je_entryNumber e = "JE-LEDGER-" +:+ ref;
  ff_loans : loans d' = loans d;
  ff_ledger : (forall a, accounts d !! acct = Some a -> acc_accountType a = T) ->
    je_by_number t ("JE-LEDGER-" +:+ ref) d = None -> ledger_ok d -> ledger_ok d';
}.

(** The transaction row and the general-ledger entry complete a forfeiture
    whose account has been debited. *)
Lemma forfeited_intro t acct loan ty n a ref descr by_ T o d (w w1 w2 : World) txn r d' :
  accounts d !! acct = Some a -> acc_tenantId a = t -> 0 < n -> n <= acc_balance a ->
  n <= acc_frozenSavings a ->
  same_balances (set_accounts (<[acct := taken_from a n]> (accounts d)) d) (db w) ->
  transaction_create (mkTxnData t acct loan ty T_COMPLETED n (acc_balance a) (acc_balance a - n) ref descr
    by_ None) w = (Ok txn, w1) ->
  postGuarantorForfeitureEntry t ref (dec n) T (txn_id txn) o (Some descr) w1 = (Ok r, w2) ->
  same_balances (db w2) d' ->
  forfeited t acct ref T n d d'.
Proof.
  intros Ha Htn Hn Hb Hf [(Ea & Et & Ej & Eg) El] Ht Hp [(Ea2 & Et2 & Ej2 & Eg2) El2]. cbn in Ea, Et, Ej, Eg, El.
  apply transaction_create_Ok in Ht as (-> & _ & Hnew & Hfresh & _ & ->). cbn in Hnew.
  unfold postGuarantorForfeitureEntry in Hp. apply postGlOnlyLegEntry_Ok in Hp as (_ & _ & Hp).
  rewrite to_dp4_dec in Hp. cbn [db with_db bump_uuid] in Hp.
  assert (txn_by_reference t ref d = None) as Hnew' by (unfold txn_by_reference in *; by rewrite <- Et).
  destruct Hp as [(_ & Hdb & Hje)|(actor & p1 & p2 & _ & Hje & Hg1 & Hg2 & He & Hdb)]; rewrite Hdb in *; cbn in *.
  - split; [exists a; split_and!; congruence|done| |left; congruence|congruence|].
    { eexists. rewrite Et2, Et. split_and!; done. }
    intros _ Hno _. unfold je_by_number in *. cbn in Hje. rewrite Ej in Hje. congruence.
  - split; [exists a; split_and!; congruence|done| | |congruence|].
    { eexists. rewrite Et2, Et. split_and!; done. }
    { right. exists r.1. rewrite Ej2, Ej, He. done. }
    intros HT Hno Hok.
    apply (ledger_ok_proper (posted_db acct (taken_from a n) [txn_of_data (uuid (nextUuid w)) (clock w)
      (mkTxnData t acct loan ty T_COMPLETED n (acc_balance a) (acc_balance a - n) ref descr by_ None)] r.1 d)).
    { unfold same_ledger, posted_db. cbn. by rewrite Ea2, Et2, Ej2, Eg2, Ea, Et, Ej, Eg. }
    eapply (deduction_keeps t T _ a _ _ _ _ p1 p2 GL_CODES.LOAN_RECEIVABLE); try done.
    + by apply HT.
    + cbn. by apply HT.
    + by rewrite <- Et.
    + apply loans_not_deposit.
    + unfold find_gl in *. cbn in Hg1. by rewrite <- Eg.
    + unfold find_gl in *. cbn in Hg2. by rewrite <- Eg.
    + by rewrite He.
    + by rewrite He.
Qed.

Lemma guarantor_update_sum id cond f k w n w' :
  guarantor_updateMany id cond f w = (Ok n, w') ->
  (forall g, lg_recoveredAmount (f g) = lg_recoveredAmount g + k) ->
  same_balances (db w) (db w') /\ clock w' = clock w /\
  sum_by lg_recoveredAmount (loanGuarantors (db w')) =
  sum_by lg_recoveredAmount (loanGuarantors (db w)) + k * Z.of_nat n.
Proof.
  intros Hr Hf. apply guarantor_updateMany_Ok in Hr as [-> ->].
  split; [done|]. split; [done|]. cbn. rewrite (sum_by_update_where_by _ f lg_recoveredAmount k) by auto. done.
Qed.

Lemma leg_guarantors td t ref amt T txnId o descr (w w1 w2 : World) txn r :
  transaction_create td w = (Ok txn, w1) ->
  postGuarantorForfeitureEntry t ref amt T txnId o descr w1 = (Ok r, w2) ->
  loanGuarantors (db w2) = loanGuarantors (db w).
Proof.
  intros Ht Hp. apply transaction_create_Ok in Ht as (_ & _ & _ & _ & _ & ->).
  apply postGlOnlyLegEntry_Ok in Hp as (_ & _ & [(_ & -> & _)|(? & ? & ? & _ & _ & _ & _ & _ & ->)]); done.
Qed.

Lemma audit_row_create_frame row w u w' :
  audit_row_create row w = (Ok u, w') ->
  same_balances (db w) (db w') /\ loanGuarantors (db w') = loanGuarantors (db w).
Proof. unfold audit_row_create. intros Hr. by run_inv. Qed.

Lemma account_take_Ok id cond b f w n w' :
  account_updateMany id cond (forfeit_account b f) w = (Ok n, w') -> n <> 0%nat ->
  exists a, accounts (db w) !! id = Some a /\ cond a = true /\
    w' = with_db (set_accounts (<[id := forfeit_account b f a]> (accounts (db w)))) w.
Proof. intros Hr Hn. apply account_updateMany_Ok in Hr as [[-> _]|(a & -> & Ha & Hc & _ & ->)]; [done|]. by exists a. Qed.
End Facts.

(** ** Series of forfeitures *)

(** An account after zero or more forfeitures, [k] in all. *)
Definition reduced (a a' : Account) : Prop :=
  exists k v, (k = 0 \/ 0 < k /\ k <= acc_balance a /\ k <= acc_frozenSavings a) /\
    a' = set_balance (acc_balance a - k) v (set_frozen (acc_frozenSavings a - k) v a).

(** Entries numbered for the references [R] come with a transaction row. *)
Definition entries_have_rows (t : string) (R : string -> string) (d : DB) : Prop :=
  forall acct, is_Some (je_by_number t ("JE-LEDGER-" +:+ R acct) d) ->
    is_Some (txn_by_reference t (R acct) d).

Record collected (t : string) (R : string -> string) (n : Z) (d d' : DB) : Prop := {
  co_nonneg : 0 <= n;
  co_balance : map_sum acc_balance (accounts d') = map_sum acc_balance (accounts d) - n;
  co_frozen : map_sum acc_frozenSavings (accounts d') = map_sum acc_frozenSavings (accounts d) - n;
  co_rows : exists xs, transactions d' = transactions d ++ xs /\ sum_by txn_amount xs = n;
  co_each : forall id, option_relation reduced (fun _ => False) (fun _ => False)
    (accounts d !! id) (accounts d' !! id);
  co_loans : loans d' = loans d;
  co_ledger : entries_have_rows t R d -> ledger_ok d -> entries_have_rows t R d' /\ ledger_ok d';
}.

Lemma reduced_same a : reduced a a.
Proof. exists 0, (acc_version a). split; [by left|]. rewrite !Z.sub_0_r. by destruct a. Qed.

Lemma reduced_trans a b c : reduced a b -> reduced b c -> reduced a c.
Proof.
  intros (k & v & Hk & ->) (k' & v' & Hk' & ->). exists (k + k'), v'. cbn in Hk'. split; [lia|].
  unfold set_balance, set_frozen. cbn. f_equal; lia.
Qed.

Lemma collected_refl t R d : collected t R 0 d d.
Proof.
  split; try done; try lia.
  - exists []. by rewrite app_nil_r.
  - intros id. destruct (accounts d !! id); [apply reduced_same|done].
Qed.

Lemma collected_trans t R n m d1 d2 d3 :
  collected t R n d1 d2 -> collected t R m d2 d3 -> collected t R (n + m) d1 d3.
Proof.
  intros [N1 B1 F1 (xs1 & E1 & S1) H1 L1 K1] [N2 B2 F2 (xs2 & E2 & S2) H2 L2 K2].
  split; try lia; try congruence.
  - exists (xs1 ++ xs2). by rewrite E2, E1, app_assoc, sum_by_app, S1, S2.
  - intros id. specialize (H1 id). specialize (H2 id).
    destruct (accounts d1 !! id), (accounts d2 !! id), (accounts d3 !! id); cbn in *; try done.
    by eapply reduced_trans.
  - intros He Hok. destruct (K1 He Hok). by apply K2.
Qed.

Lemma collected_kinds t R n d d' : collected t R n d d' -> same_kinds d d'.
Proof.
  intros Hc id a Ha. pose proof (co_each _ _ _ _ _ Hc id) as Hr. rewrite Ha in Hr.
  destruct (accounts d' !! id) as [a'|]; [|done]. destruct Hr as (k & v & _ & ->). by eexists.
Qed.

Lemma collected_committed t R n d d' : collected t R n d d' -> committed d -> committed d'.
Proof.
  intros Hc Hok id a' Ha'. pose proof (co_each _ _ _ _ _ Hc id) as Hr. rewrite Ha' in Hr.
  destruct (accounts d !! id) as [a|] eqn:Ha; [|done]. destruct (Hok id a Ha) as [Hf Hl].
  destruct Hr as (k & v & Hk & ->). cbn. lia.
Qed.

Lemma je_by_number_app t num d d' e :
  journalEntries d' = journalEntries d ++ [e] -> is_Some (je_by_number t num d') ->
  is_Some (je_by_number t num d) \/ je_entryNumber e = num.
Proof.
  unfold je_by_number. intros -> [x Hx].
  destruct (List.find _ (journalEntries d)) eqn:Ef; [left; by eexists|right].
  rewrite find_app_none in Hx by done. apply find_some_elem in Hx as [->%list_elem_of_singleton HP].
  by reflect.
Qed.

Lemma txn_by_reference_app t ref d d' xs :
  transactions d' = transactions d ++ xs -> is_Some (txn_by_reference t ref d) ->
  is_Some (txn_by_reference t ref d').
Proof. unfold txn_by_reference. intros -> [x Hx]. exists x. by apply find_app_some. Qed.

(** Entries keep their rows when one row and at most the entry numbered for it
    are added. *)
Lemma rows_kept t ref R d d' :
  (exists x, transactions d' = transactions d ++ [x] /\ txn_tenantId x = t /\ txn_reference x = ref) ->
  (journalEntries d' = journalEntries d \/
   exists e, journalEntries d' = journalEntries d ++ [e] /\ je_tenantId e = t /\
     je_entryNumber e = "JE-LEDGER-" +:+ ref) ->
  txn_by_reference t ref d = None -> entries_have_rows t R d -> entries_have_rows t R d'.
Proof.
  intros (x & Ex & Hxt & Hxr) He Hnew Hrows.
  assert (is_Some (txn_by_reference t ref d')) as Hrow.
  { exists x. unfold txn_by_reference in *. rewrite Ex, find_app_none by done. cbn.
    by rewrite Hxt, Hxr, !same_refl. }
  intros k Hje. destruct He as [Ej|(e & Ej & Het & Hen)].
  - unfold je_by_number in Hje. rewrite Ej in Hje. by eapply txn_by_reference_app, Hrows.
  - apply (je_by_number_app _ _ _ _ _ Ej) in Hje as [Hje|Hnum]; [by eapply txn_by_reference_app, Hrows|].
    rewrite Hen in Hnum. by apply (str_app_inv "JE-LEDGER-") in Hnum as <-.
Qed.

Lemma forfeited_collected t R acct T n d d' :
  forfeited t acct (R acct) T n d d' ->
  (forall a, accounts d !! acct = Some a -> acc_accountType a = T) ->
  collected t R n d d'.
Proof.
  intros [(a & Ha & Ht & Hn & Hb & Hf & Ea) Hnew (x & Ex & Hxt & Hxr & Hxn) He El Hkeep] HT.
  split; try done.
  - lia.
  - rewrite Ea, (map_sum_replace _ _ _ a) by done. cbn. lia.
  - rewrite Ea, (map_sum_replace _ _ _ a) by done. cbn. lia.
  - exists [x]. split; [done|]. simpl. lia.
  - intros id. rewrite Ea. destruct (decide (acct = id)) as [<-|Hne].
    + rewrite Ha, lookup_insert_eq. exists n, (acc_version a + 1). split; [by right|done].
    + rewrite lookup_insert_ne by done. destruct (accounts d !! id); [apply reduced_same|done].
  - intros Hrows Hok. split.
    + eapply (rows_kept t (R acct)); [by exists x|done..].
    + apply Hkeep; [done| |done]. destruct (je_by_number _ _ d) eqn:Eje; [|done].
      destruct (Hrows acct) as [? Hs]; [by eexists|]. congruence.
Qed.

Section Steps.
Context `{UuidSource, Sha256}.

Lemma createAuditLogInTransaction_frame t actor ac et ei md w u w' :
  createAuditLogInTransaction t actor ac et ei md w = (Ok u, w') ->
  same_balances (db w) (db w') /\ loanGuarantors (db w') = loanGuarantors (db w).
Proof.
  unfold createAuditLogInTransaction. intros Hr. run_inv.
  match goal with Hf : fresh_id _ = _ |- _ => unfold fresh_id in Hf; injection Hf as <- <- end.
  by inv_call audit_row_create_frame as Hf.
Qed.

Lemma recover_allocation_Ok t loanId actor att loan T date al w n w' :
  recover_allocation t loanId actor att loan T date al w = (Ok n, w') ->
  (n = 0 /\ w' = w) \/
  exists acct a0, ra_account al = Some (acct, a0) /\ n <= ra_deduction al /\
    forfeited t acct (guarantorForfeitureReference t loanId acct att) T n (db w) (db w') /\
    sum_by lg_recoveredAmount (loanGuarantors (db w')) =
    sum_by lg_recoveredAmount (loanGuarantors (db w)) + n.
Proof.
  unfold recover_allocation. intros Hr.
  destruct (ra_deduction al =? 0); [run_inv; by left|].
  destruct (ra_account al) as [[acct a0]|]; [|run_inv; by left].
  run_inv. case_bool_decide; [run_inv; by left|]. run_inv.
  match goal with Hx : (if ?c then _ else _) _ = _ |- _ => destruct c eqn:Hpos end; [run_inv; by left|].
  right. exists acct, a0. run_inv. reflect.
  match goal with Hx : 0 < ?m |- _ => set (n := m) in * end.
  assert (n <= ra_deduction al /\ n <= acc_balance r0 /\ n <= acc_frozenSavings r0) as (Hd & Hb & Hf)
    by (unfold n, min3; lia).
  inv_call account_updateMany_Ok as [[-> _]|(a & -> & Ha & Hc & _ & ->)]; [done|]. assert (a = r0) as -> by congruence.
  apply guarantor_update_sum with (k := n) in Hrun0 as (Hg & _ & Hsum); [|done].
  apply Nat.eqb_eq in Hguard as ->. rewrite Z.mul_1_r in Hsum.
  apply createAuditLogInTransaction_frame in Hrun5 as (Hs & Egu').
  pose proof (leg_guarantors _ _ _ _ _ _ _ _ _ _ _ _ _ Hrun3 Hrun4) as Egu. reflect.
  split; [done|]. split; [done|]. split; [|by rewrite Egu', Egu, Hsum].
  by eapply (forfeited_intro _ _ _ _ _ r0 _ _ _ _ _ _ s3).
Qed.
End Steps.
