(* ===== verification/ConsentFacts.v ===== *)
(** * ConsentFacts: savings held for guarantors, step by step

    [consent_ok]: what is frozen on an account is what its member guarantees by
    accepted rows whose hold is not released.  Atomic steps keep it one by one;
    a hold and the row that accounts for it change together. *)
From S2P Require Import Prelude Money Json Format Schema Ledger LedgerFacts LedgerInv.
From S2P Require Import LedgerLegs.
From S2P Require Import AuditLogs Frames Redis.
From S2P Require Import Recovery RecoveryFacts Loans Accounts AccountFacts LoanRules.
From S2P Require Import Guarantors.
From S2P Require Import GuarantorFacts ApprovalChains Lending LoanApply GuarantorConsent.

(** ** Success-only invariants *)
Class Keeps {St A} (P : St -> Prop) (m : comp St A) : Prop :=
  keeps : forall s a s', m s = (Ok a, s') -> P s -> P s'.

Section Keeping.
Context {St : Type} (P : St -> Prop).

#[export] Instance keeps_preserves {A} (m : comp St A) : Preserves P m -> Keeps P m | 10.
Proof. intros Hm s a s' E. exact (Hm _ _ _ E). Qed.
#[export] Instance keeps_bind {A B} (m : comp St A) (k : A -> comp St B) :
  Keeps P m -> (forall a, Keeps P (k a)) -> Keeps P (bind m k) | 2.
Proof. intros Hm Hk s b s' E HP. apply bind_Ok in E as (a & s1 & E1 & E2). exact (Hk a _ _ _ E2 (Hm _ _ _ E1 HP)). Qed.
#[export] Instance keeps_foldM {A B} (body : B -> A -> comp St B) acc xs :
  (forall b a, Keeps P (body b a)) -> Keeps P (foldM body acc xs) | 2.
Proof. intros Hb. revert acc. induction xs as [|x xs IH]; intros acc; cbn [foldM]; apply _. Qed.

(** A computation that keeps a projection keeps what is said of it alone. *)
Lemma preserves_frames {X A} (f : St -> X) (Q : X -> Prop) (m : comp St A) :
  Frames f m -> Preserves (fun s => Q (f s)) m.
Proof. intros Hm s r s' E. by rewrite (frames_Ok f _ _ _ _ Hm E). Qed.
End Keeping.

#[export] Hint Extern 5 (Keeps _ (match ?x with _ => _ end)) => destruct x : typeclass_instances.
#[export] Hint Extern 5 (Keeps _ (if ?x then _ else _)) => destruct x : typeclass_instances.
#[export] Hint Extern 9 (Keeps _ _) => progress cbv zeta : typeclass_instances.

(** ** The invariant *)
Definition type_of_loan (loanId : string) (d : DB) : AccountType :=
  match loans d !! loanId with Some l => required_account l d | None => FOSA end.

(** Accepted, and the hold still in place. *)
Definition held (g : LoanGuarantor) : bool := accepted g && (lg_holdReleasedAt g === None).

(** What row [g] freezes on account [a]. *)
Definition weight (d : DB) (a : Account) (g : LoanGuarantor) : Z :=
  if held g && ((lg_tenantId g === acc_tenantId a) && (lg_memberId g === acc_memberId a)
    && (type_of_loan (lg_loanId g) d === acc_accountType a))
  then lg_guaranteedAmount g else 0.

Definition guaranteed (d : DB) (a : Account) : Z := sum_by (weight d a) (loanGuarantors d).

Definition columns_in (cs : gmap string ConsentColumns) (g : LoanGuarantor) : ConsentColumns :=
  default (asked (lg_createdAt g) None) (cs !! lg_id g).

(** A guarantor row belongs to a loan; an amount is held only for an accepted
    row, and nothing is marked as placed or released on any other. *)
Record row_ok (d : DB) (c : ConsentColumns) (g : LoanGuarantor) : Prop := {
  row_loan_exists : is_Some (loans d !! lg_loanId g);
  row_amount : lg_status g = G_ACCEPTED -> 0 <= lg_guaranteedAmount g;
  row_unheld : lg_status g <> G_ACCEPTED -> lg_holdReleasedAt g = None /\ co_holdPlacedAt c = None;
}.

Record consent_ok (d : DB) (cs : gmap string ConsentColumns) : Prop := {
  ck_one : one_account_each d;
  ck_ids : NoDup (lg_id <$> loanGuarantors d);
  ck_rows : forall g, g ∈ loanGuarantors d -> row_ok d (columns_in cs g) g;
  ck_exact : forall id a, accounts d !! id = Some a -> acc_isActive a = true ->
    acc_frozenSavings a = guaranteed d a;
}.

Definition ok (s : LendingWorld) : Prop := consent_ok (ldb s) (consents (lw_tables s)).
Definition ok_base (cs : gmap string ConsentColumns) (w : World) : Prop := consent_ok (db w) cs.

(** ** Weights *)
Lemma weight_held d a g : held g = false -> weight d a g = 0.
Proof. unfold weight. by intros ->. Qed.

Lemma weight_active d a g : acc_isActive a = true ->
  weight d a g = if held g && holdsb (lg_tenantId g) (lg_memberId g) (type_of_loan (lg_loanId g) d) a
                 then lg_guaranteedAmount g else 0.
Proof.
  intros Ha. unfold weight, holdsb. rewrite Ha, andb_true_r.
  by rewrite (bool_decide_ext (lg_tenantId g = acc_tenantId a) (acc_tenantId a = lg_tenantId g)),
    (bool_decide_ext (lg_memberId g = acc_memberId a) (acc_memberId a = lg_memberId g)),
    (bool_decide_ext (type_of_loan (lg_loanId g) d = acc_accountType a) (acc_accountType a = type_of_loan (lg_loanId g) d)).
Qed.

Lemma weight_frozen d x v a g : weight d (set_frozen x v a) g = weight d a g.
Proof. done. Qed.

Lemma weight_nonneg d c a g : row_ok d c g -> 0 <= weight d a g.
Proof.
  intros Hg. unfold weight. destruct (held g && _) eqn:E; [|lia].
  apply (row_amount _ _ _ Hg). unfold held, accepted in E. by reflect.
Qed.

(** Loans that keep their product keep the account type. *)
Definition same_types (d d' : DB) : Prop :=
  (forall id, is_Some (loans d !! id) -> is_Some (loans d' !! id)) /\
  (forall id, is_Some (loans d !! id) -> type_of_loan id d' = type_of_loan id d).

Lemma same_types_eq d d' : loans d' = loans d -> loanProducts d' = loanProducts d -> same_types d d'.
Proof. intros El Ep. unfold same_types, type_of_loan, required_account, loan_product. by rewrite El, Ep. Qed.

Lemma same_types_insert d id l l' :
  loans d !! id = Some l -> loan_loanProductId l' = loan_loanProductId l ->
  same_types d (set_loans (<[id := l']> (loans d)) d).
Proof.
  intros Hl Hp. split; intros k [x Hx]; cbn; destruct (decide (id = k)) as [<-|Hne].
  - rewrite lookup_insert_eq. by eexists.
  - rewrite lookup_insert_ne by done. by eexists.
  - unfold type_of_loan. cbn. rewrite lookup_insert_eq, Hl. unfold required_account, loan_product. cbn. by rewrite Hp.
  - unfold type_of_loan. cbn. by rewrite lookup_insert_ne by done.
Qed.

Lemma same_types_new d id l : loans d !! id = None -> same_types d (set_loans (<[id := l]> (loans d)) d).
Proof.
  intros Hl. split; intros k [x Hx]; cbn; (destruct (decide (id = k)) as [<-|Hne]; [congruence|]).
  - rewrite lookup_insert_ne by done. by eexists.
  - unfold type_of_loan. cbn. by rewrite lookup_insert_ne by done.
Qed.

Lemma weight_types d d' c a g : same_types d d' -> row_ok d c g -> weight d' a g = weight d a g.
Proof. intros [_ Ht] Hg. unfold weight. by rewrite (Ht _ (row_loan_exists _ _ _ Hg)). Qed.

Lemma row_ok_types d d' c g : same_types d d' -> row_ok d c g -> row_ok d' c g.
Proof. intros [Hs _] [H1 H2 H3]. split; auto. Qed.

(** ** Steps that touch no row and no hold *)
Lemma consent_ok_frame d d' cs :
  (forall id, option_relation (fun a a' => acc_tenantId a' = acc_tenantId a /\ acc_memberId a' = acc_memberId a /\
      acc_accountType a' = acc_accountType a /\ acc_isActive a' = acc_isActive a /\
      acc_frozenSavings a' = acc_frozenSavings a) (fun _ => False) (fun _ => False)
    (accounts d !! id) (accounts d' !! id)) ->
  loanGuarantors d' = loanGuarantors d -> same_types d d' -> consent_ok d cs -> consent_ok d' cs.
Proof.
  intros Ha Eg Ht [H1 H2 H3 H4].
  assert (forall id a', accounts d' !! id = Some a' -> exists a, accounts d !! id = Some a /\
    acc_tenantId a' = acc_tenantId a /\ acc_memberId a' = acc_memberId a /\
    acc_accountType a' = acc_accountType a /\ acc_isActive a' = acc_isActive a /\
    acc_frozenSavings a' = acc_frozenSavings a) as Hback.
  { intros id a' E. specialize (Ha id). rewrite E in Ha. destruct (accounts d !! id) as [a|]; [|done]. by exists a. }
  split.
  - intros t m T id1 a1 id2 a2 E1 E2 (?&?&?&?) (?&?&?&?).
    destruct (Hback _ _ E1) as (b1 & ? & ? & ? & ? & ? & _), (Hback _ _ E2) as (b2 & ? & ? & ? & ? & ? & _).
    eapply (H1 t m T id1 b1 id2 b2); [done|done|..]; unfold holds; split_and!; congruence.
  - by rewrite Eg.
  - intros g Hg. rewrite Eg in Hg. by eapply row_ok_types, H3.
  - intros id a' E Hact. destruct (Hback _ _ E) as (a & Ea & E1 & E2 & E3 & E4 & E5).
    rewrite E5, (H4 id a Ea) by congruence. unfold guaranteed. rewrite Eg. apply sum_by_ext. intros g Hg.
    rewrite (weight_types d d' _ a' g Ht (H3 g Hg)). unfold weight. by rewrite E1, E2, E3.
Qed.

Lemma same_accounts (accs : gmap string Account) : forall id, option_relation (fun a a' => acc_tenantId a' = acc_tenantId a /\
    acc_memberId a' = acc_memberId a /\ acc_accountType a' = acc_accountType a /\ acc_isActive a' = acc_isActive a /\
    acc_frozenSavings a' = acc_frozenSavings a) (fun _ => False) (fun _ => False) (accs !! id) (accs !! id).
Proof. intros id. by destruct (accs !! id). Qed.

(** ** A row and its hold change together *)
Lemma guaranteed_replace d a g g' : NoDup (lg_id <$> loanGuarantors d) -> g ∈ loanGuarantors d -> lg_id g' = lg_id g ->
  sum_by (weight d a) (replace_row lg_id g' (loanGuarantors d)) = guaranteed d a - weight d a g + weight d a g'.
Proof. intros. by apply sum_by_replace_row. Qed.

Lemma in_replace_row g' l y : y ∈ replace_row lg_id g' l -> y = g' \/ (y ∈ l /\ lg_id y <> lg_id g').
Proof.
  intros (x & E & Hx)%list_elem_of_fmap. case_bool_decide as Ex; subst; [by left|right; done].
Qed.

Lemma consent_ok_row d d' cs cs' g g' f :
  consent_ok d cs -> g ∈ loanGuarantors d -> lg_id g' = lg_id g -> lg_loanId g' = lg_loanId g ->
  reframed f d d' -> loanGuarantors d' = replace_row lg_id g' (loanGuarantors d) ->
  loans d' = loans d -> loanProducts d' = loanProducts d ->
  (forall a, acc_isActive a = true -> f a = weight d a g' - weight d a g) ->
  (forall x, x ∈ loanGuarantors d -> lg_id x <> lg_id g -> columns_in cs' x = columns_in cs x) ->
  row_ok d (columns_in cs' g') g' ->
  consent_ok d' cs'.
Proof.
  intros [H1 H2 H3 H4] Hg Eid Eloan Hr Eg El Ep Hf Hcs Hok.
  assert (same_types d d') as Ht by by apply same_types_eq. split.
  - by eapply one_each_reframed.
  - rewrite Eg, replace_row_keys. done.
  - intros x Hx. rewrite Eg in Hx. apply in_replace_row in Hx as [->|[Hx Hne]]; [by eapply row_ok_types|].
    rewrite Hcs by congruence. by eapply row_ok_types, H3.
  - intros id a' Ea Hact. pose proof (Hr id) as Hra. rewrite Ea in Hra.
    destruct (accounts d !! id) as [a|] eqn:Ha; [|done]. destruct Hra as [v ->]. cbn in Hact |- *.
    rewrite (H4 id a Ha Hact), (Hf a Hact). unfold guaranteed at 2. rewrite Eg.
    rewrite (sum_by_ext (weight d' _) (weight d a)).
    + rewrite (guaranteed_replace d a g g') by done. lia.
    + intros x Hx. rewrite weight_frozen. apply in_replace_row in Hx as [->|[Hx _]].
      * exact (weight_types _ _ _ _ _ Ht Hok).
      * exact (weight_types _ _ _ _ _ Ht (H3 x Hx)).
Qed.

Lemma update_is_replace d (cond : LoanGuarantor -> bool) f g :
  NoDup (lg_id <$> loanGuarantors d) -> g ∈ loanGuarantors d -> cond g = true -> lg_id (f g) = lg_id g ->
  update_where (fun x => (lg_id x === lg_id g) && cond x) f (loanGuarantors d)
  = replace_row lg_id (f g) (loanGuarantors d).
Proof.
  intros Hnd Hg Hc Eid. apply list_fmap_ext. intros i x Hx. rewrite Eid. case_bool_decide as E; [|done].
  assert (x = g) as -> by (eapply NoDup_key_inj; [done|by eapply list_elem_of_lookup_2|done|done]).
  by rewrite Hc.
Qed.

(** ** Computations over the application's state *)
Definition base_core (w : World) := (accounts (db w), loanGuarantors (db w), loans (db w), loanProducts (db w)).
Definition core (s : LendingWorld) := (base_core (lw_base s), consents (lw_tables s)).

#[export] Instance rollback_core : Rollback base_core.
Proof. split; [|done]. intros w w' _. done. Qed.

Lemma ok_core s s' : core s' = core s -> ok s -> ok s'.
Proof.
  unfold ok, core, base_core, ldb. intros [= E1 E2 E3 E4 E5]. rewrite E5. apply consent_ok_frame.
  - rewrite E1. apply same_accounts.
  - done.
  - by apply same_types_eq.
Qed.

#[export] Instance ok_frames {A} (m : LM A) : Frames core m -> Preserves ok m | 20.
Proof. intros Hm s r s' E. apply ok_core. by eapply frames_Ok. Qed.
#[export] Instance ok_base_frames {A} cs (m : M A) : Frames base_core m -> Preserves (ok_base cs) m | 20.
Proof.
  intros Hm w r w' E. pose proof (frames_Ok _ _ _ _ _ Hm E) as Ec. unfold base_core in Ec. injection Ec as E1 E2 E3 E4.
  apply consent_ok_frame; [rewrite E1; apply same_accounts|done|by apply same_types_eq].
Qed.

#[export] Instance frames_on_base {A X} (f : World -> X) (m : M A) :
  Frames f m -> Frames (fun s => f (lw_base s)) (on_base m).
Proof. intros Hm s. unfold on_base. specialize (Hm (lw_base s)). by destruct (m (lw_base s)). Qed.
#[export] Instance core_on_base {A} (m : M A) : Frames base_core m -> Frames core (on_base m).
Proof. intros Hm s. unfold on_base, core. specialize (Hm (lw_base s)). destruct (m (lw_base s)). cbn in *. by rewrite Hm. Qed.
#[export] Instance core_on_apply {A} (m : comp _ A) : Frames core (on_apply m).
Proof. intros s. unfold on_apply. by destruct (m (applyKeys s)). Qed.
#[export] Instance core_on_respond {A} (m : comp _ A) : Frames core (on_respond m).
Proof. intros s. unfold on_respond. by destruct (m (respondKeys s)). Qed.
#[export] Instance core_on_review {A} (m : comp _ A) : Frames core (on_review m).
Proof. intros s. unfold on_review. by destruct (m (reviewKeys s)). Qed.
#[export] Instance core_lreturn {A} (r : result A) : Frames core (lreturn r).
Proof. unfold lreturn. apply _. Qed.
#[export] Instance core_catching {A} (m : LM A) h : Frames core m -> (forall e, Frames core (h e)) -> Frames core (catching m h).
Proof.
  intros Hm Hh s. unfold catching. specialize (Hm s). destruct (m s) as [[a|e] s1]; [done|].
  by rewrite (Hh e s1).
Qed.

#[export] Instance ok_on_base {A} (m : M A) : (forall cs, Preserves (ok_base cs) m) -> Preserves ok (on_base m).
Proof.
  intros Hm s r s' E HP. unfold on_base in E. destruct (m (lw_base s)) as [r0 w] eqn:Em. injection E as <- <-.
  exact (Hm _ _ _ _ Em HP).
Qed.
#[export] Instance ok_catching {A} (m : LM A) h :
  Preserves ok m -> (forall e, Preserves ok (h e)) -> Preserves ok (catching m h).
Proof.
  intros Hm Hh s r s' E HP. unfold catching in E. destruct (m s) as [[a|e] s1] eqn:Em.
  - injection E as <- <-. exact (Hm _ _ _ Em HP).
  - exact (Hh _ _ _ _ E (Hm _ _ _ Em HP)).
Qed.

(** A transaction need only keep the invariant when it commits. *)
#[export] Instance ok_transaction {A} (m : LM A) : Keeps ok m -> Preserves ok (lending_transaction m).
Proof.
  intros Hm s r s' E HP. unfold lending_transaction in E. destruct (m s) as [[a|e] s1] eqn:Em; injection E as <- <-.
  - exact (Hm _ _ _ Em HP).
  - exact HP.
Qed.
#[export] Instance ok_base_transaction {A} cs (m : M A) :
  Keeps (ok_base cs) m -> Preserves (ok_base cs) (transaction m).
Proof.
  intros Hm s r s' E HP. unfold transaction in E. destruct (m s) as [[a|e] s1] eqn:Em; injection E as <- <-.
  - exact (Hm _ _ _ Em HP).
  - exact HP.
Qed.

(** ** Operations that leave rows and holds alone *)
Lemma ok_base_accounts cs id cond f : (forall a, acc_tenantId (f a) = acc_tenantId a /\ acc_memberId (f a) = acc_memberId a /\
    acc_accountType (f a) = acc_accountType a /\ acc_isActive (f a) = acc_isActive a /\
    acc_frozenSavings (f a) = acc_frozenSavings a) ->
  Preserves (ok_base cs) (account_updateMany id cond f).
Proof.
  intros Hf w r w' E. unfold account_updateMany in E. repeat case_match; simplify_eq; try done.
  apply consent_ok_frame; [|done|by apply same_types_eq]. intros k. cbn. destruct (decide (id = k)) as [<-|Hne].
  - rewrite lookup_insert_eq. match goal with Hx : accounts _ !! id = Some ?a |- _ => rewrite Hx; exact (Hf a) end.
  - rewrite lookup_insert_ne by done. apply same_accounts.
Qed.
#[export] Hint Extern 3 (Preserves (ok_base _) (account_updateMany _ _ _)) =>
  apply ok_base_accounts; intros ?; by split_and! : typeclass_instances.

Lemma ok_base_loans cs id cond f : (forall l, loan_loanProductId (f l) = loan_loanProductId l) ->
  Preserves (ok_base cs) (loan_updateMany id cond f).
Proof.
  intros Hf w r w' E. unfold loan_updateMany in E. repeat case_match; simplify_eq; try done.
  apply consent_ok_frame; [apply same_accounts|done|]. by eapply same_types_insert; [|cbn; apply Hf].
Qed.
#[export] Hint Extern 3 (Preserves (ok_base _) (loan_updateMany _ _ _)) =>
  apply ok_base_loans; intros ?; reflexivity : typeclass_instances.
#[export] Instance ok_base_loan_update cs id f :
  Preserves (ok_base cs) (loan_updateMany id (fun _ => true) f) -> Preserves (ok_base cs) (loan_update id f).
Proof. intros Hf. unfold loan_update. apply _. Qed.

Section Operations.
Context `{UuidSource, Sha256, Environment, DecimalLib, Numbers}.

#[local] Typeclasses Opaque logAtomic enqueueEmail initApprovalChain assertPassed application_audit response_audit
  expiry_audit chained_audit audit_row_create loan_update loan_updateMany fresh_id set_loan_status.
#[export] Instance core_audit_row row : Frames base_core (audit_row_create row).
Proof. frame_handler @audit_row_create. Qed.
#[export] Instance core_chained t a ac et ei o n md p ip ua rq h :
  Frames base_core (chained_audit t a ac et ei o n md p ip ua rq h).
Proof. unfold chained_audit. apply _. Qed.
#[export] Instance core_application_audit t a ac et ei md req rq : Frames base_core (application_audit t a ac et ei md req rq).
Proof. unfold application_audit. apply _. Qed.
#[export] Instance core_response_audit t a ac et ei o n p : Frames base_core (response_audit t a ac et ei o n p).
Proof. unfold response_audit. apply _. Qed.
#[export] Instance core_expiry_audit t ac et ei o n md : Frames base_core (expiry_audit t ac et ei o n md).
Proof. unfold expiry_audit. apply _. Qed.
#[export] Instance core_email ty e n : Frames base_core (enqueueEmail ty e n).
Proof. unfold enqueueEmail. apply _. Qed.
#[export] Instance core_logAtomic dto : Frames base_core (logAtomic dto).
Proof. unfold logAtomic. apply _. Qed.
#[export] Instance core_chain id t : Frames base_core (initApprovalChain id t).
Proof. unfold initApprovalChain, slot_create. apply _. Qed.
#[export] Instance core_passed t id : Frames base_core (assertPassed t id).
Proof. unfold assertPassed, evaluate. apply _. Qed.

#[export] Instance core_expiry_job t l g : Frames core (add_expiry_job t l g).
Proof. unfold add_expiry_job. apply _. Qed.
#[export] Instance core_reminder id j : Frames core (add_reminder id j).
Proof. intros s. unfold add_reminder, modify. cbn. by destruct (reminderQueue s !! id). Qed.
#[export] Instance core_reminders t l m : Frames core (schedule_reminders t l m).
Proof. unfold schedule_reminders. apply _. Qed.
#[export] Instance core_notify t tx g : Frames core (notify_nominee t tx g).
Proof. unfold notify_nominee. apply _. Qed.
#[export] Instance core_in_app n : Frames core (notify_in_app n).
Proof. intros s. done. Qed.
#[export] Instance core_claim t : Frames core (claim_loan_seq t).
Proof. unfold claim_loan_seq, modify_lending. apply _. Qed.
#[export] Instance core_batch gs t b T : Frames core (validateGuarantorsEligibilityBatch gs t b T).
Proof. done. Qed.
#[export] Instance core_eligibility g t q b T : Frames core (validateGuarantorEligibility g t q b T).
Proof. unfold validateGuarantorEligibility. apply _. Qed.
#[export] Instance core_coverage t q gs ty r : Frames base_core (validateGuarantorCoverage t q gs ty r).
Proof. unfold validateGuarantorCoverage, covering_account, getActiveAccount. apply _. Qed.
#[export] Instance core_check dto p t m n gs : Frames core (check_guarantors dto p t m n gs).
Proof. unfold check_guarantors. apply _. Qed.
#[export] Instance core_can_accept t m : Frames core (assertGuarantorCanAccept t m).
Proof. unfold assertGuarantorCanAccept. apply _. Qed.

#[export] Instance ok_approve id t who c ip ua cs : Preserves (ok_base cs) (approve id t who c ip ua).
Proof. unfold approve, approveBody. apply _. Qed.
#[export] Instance ok_move t id f : (forall l, loan_loanProductId (f l) = loan_loanProductId l) ->
  Preserves ok (move_pending_loan t id f).
Proof.
  intros Hf. unfold move_pending_loan. apply preserves_bind; [|apply _]. apply ok_on_base. intros cs. by apply ok_base_loans.
Qed.
End Operations.

(** ** New rows *)
Lemma ok_base_loan_create cs id l : Preserves (ok_base cs) (loan_create id l).
Proof.
  intros w r w' E. unfold loan_create, bind, gets, throw_if, throw, ret, modify in E.
  repeat case_match; simplify_eq; try done. apply consent_ok_frame; [apply same_accounts|done|].
  apply same_types_new. match goal with Hx : (bool_decide (is_Some _) || _) = false |- _ => rename Hx into Hfree end.
  apply orb_false_iff in Hfree as [Hfree _]. apply bool_decide_eq_false in Hfree. by apply eq_None_not_Some.
Qed.
#[export] Existing Instance ok_base_loan_create.

Lemma bind_throw_if {St A} c e (k : unit -> comp St A) s :
  bind (throw_if c e) k s = if c then (Err e, s) else k tt s.
Proof. by destruct c. Qed.

Lemma bind_gets {St A B} (f : St -> A) (k : A -> comp St B) s : bind (gets f) k s = k (f s) s.
Proof. done. Qed.
Lemma bind_or_throw {St A B} (o : option A) e (k : A -> comp St B) s :
  bind (or_throw o e) k s = match o with Some a => k a s | None => (Err e, s) end.
Proof. by destruct o. Qed.

Lemma guarantor_create_Ok g c s u s' :
  guarantor_create g c s = (Ok u, s') ->
  (lg_id g ∉ (lg_id <$> loanGuarantors (ldb s))) /\ is_Some (loans (ldb s) !! lg_loanId g) /\
  (guarantor_pair g ∉ (guarantor_pair <$> loanGuarantors (ldb s))) /\
  s' = set_lw_tables (set_consents (<[lg_id g := c]> (consents (lw_tables s))) (lw_tables s))
    (set_lw_base (with_db (fun d => set_loanGuarantors (loanGuarantors d ++ [g]) d) (lw_base s)) s).
Proof.
  unfold guarantor_create, put_consent, modify_lending. intros Hr. run_inv.
  match goal with Hx : existsb _ (loanGuarantors (ldb ?z)) = false |- _ => rename z into s; rename Hx into Hfree end.
  match goal with Hx : on_base _ _ = _ |- _ => unfold on_base, modify in Hx; injection Hx as ? ?; subst end.
  match goal with Hx : negb (_ && _) = false |- _ => rename Hx into Hfk end.
  apply negb_false_iff, andb_true_iff in Hfk as [_ Hl%bool_decide_eq_true].
  assert (forall x, x ∈ loanGuarantors (ldb s) -> lg_id x <> lg_id g /\ guarantor_pair x <> guarantor_pair g) as Hn.
  { intros x Hx. apply not_true_iff_false in Hfree. split; intros E; apply Hfree, existsb_exists; exists x;
      rewrite <- list_elem_of_In, E, same_refl; split; (done || by rewrite ?orb_true_r). }
  split_and!; [|done| |done]; intros (x & E & Hx)%list_elem_of_fmap; by destruct (Hn x Hx).
Qed.

Lemma consent_ok_new d cs g c :
  consent_ok d cs -> (lg_id g ∉ (lg_id <$> loanGuarantors d)) -> is_Some (loans d !! lg_loanId g) ->
  lg_status g = G_PENDING -> lg_holdReleasedAt g = None -> co_holdPlacedAt c = None ->
  consent_ok (set_loanGuarantors (loanGuarantors d ++ [g]) d) (<[lg_id g := c]> cs).
Proof.
  intros [H1 H2 H3 H4] Hid Hl Hst Hrel Hpl. split.
  - done.
  - cbn. rewrite fmap_app. apply NoDup_app. split; [done|]. split; [|apply NoDup_singleton].
    intros x Hx Hx2. cbn in Hx2. apply list_elem_of_singleton in Hx2. congruence.
  - intros x [Hx|Hx]%elem_of_app.
    + unfold columns_in. rewrite lookup_insert_ne; [by destruct (H3 x Hx)|].
      intros E. apply Hid. rewrite E. by apply list_elem_of_fmap_2.
    + apply list_elem_of_singleton in Hx as ->. unfold columns_in. rewrite lookup_insert_eq. cbn.
      split; [done|congruence|done].
  - intros id a Ha Hact. rewrite (H4 id a Ha Hact). unfold guaranteed. cbn. rewrite sum_by_app. cbn.
    rewrite (weight_held _ _ g); [|unfold held, accepted; by rewrite Hst]. change (weight _ a) with (weight d a) at 2. lia.
Qed.

Lemma keeps_guarantor_create g c : lg_status g = G_PENDING -> lg_holdReleasedAt g = None -> co_holdPlacedAt c = None ->
  Preserves ok (guarantor_create g c).
Proof.
  intros Hst Hrel Hpl s r s' E HP. destruct r as [u|e].
  - apply guarantor_create_Ok in E as (Hid & Hl & _ & ->). by apply consent_ok_new.
  - unfold guarantor_create in E. unfold bind at 1, gets in E. cbn beta iota in E.
    repeat (rewrite bind_throw_if in E; case_match; [by simplify_eq|]). discriminate E.
Qed.
#[export] Hint Extern 3 (Preserves ok (guarantor_create _ _)) =>
  apply keeps_guarantor_create; reflexivity : typeclass_instances.

(** ** Changing one row *)
Lemma consent_updateMany_Ok id cond f c s n s' :
  consent_updateMany id cond f c s = (Ok n, s') ->
  (s' = s /\ forall g, g ∈ loanGuarantors (ldb s) -> lg_id g = id -> cond g = false) \/
  exists g, g ∈ loanGuarantors (ldb s) /\ lg_id g = id /\ cond g = true /\
    s' = set_lw_tables (set_consents (<[id := c (consent_of g s)]> (consents (lw_tables s))) (lw_tables s))
      (set_lw_base (with_db (fun d => set_loanGuarantors
        (update_where (fun x => (lg_id x === id) && cond x) f (loanGuarantors d)) d) (lw_base s)) s).
Proof.
  unfold consent_updateMany, bind, gets. destruct (List.find _ _) as [g|] eqn:Hf.
  - apply find_some_elem in Hf as [Hg Hc]. apply andb_true_iff in Hc as [Hid%bool_decide_eq_true Hc].
    unfold on_base. destruct (guarantor_updateMany id cond f (lw_base s)) as [[k|e] w] eqn:E; [|done].
    apply guarantor_updateMany_Ok in E as [-> ->]. intros [= <- <-]. right. exists g. by split_and!.
  - intros [= <- <-]. left. split; [done|]. intros g Hg <-. eapply List.find_none in Hf; [|by apply list_elem_of_In].
    by rewrite same_refl in Hf.
Qed.

(** The invariant across one changed row, given what its hold did. *)
Lemma ok_consent_update id cond f c s n s' d0 h :
  consent_updateMany id cond f c s = (Ok n, s') -> consent_ok d0 (consents (lw_tables s)) ->
  reframed h d0 (ldb s) -> loanGuarantors (ldb s) = loanGuarantors d0 -> loans (ldb s) = loans d0 ->
  loanProducts (ldb s) = loanProducts d0 ->
  (forall g, lg_id (f g) = lg_id g /\ lg_loanId (f g) = lg_loanId g) ->
  (forall g, g ∈ loanGuarantors d0 -> lg_id g = id -> cond g = true ->
     row_ok d0 (c (consent_of g s)) (f g) /\
     forall a, acc_isActive a = true -> h a = weight d0 a (f g) - weight d0 a g) ->
  (exists g, g ∈ loanGuarantors d0 /\ lg_id g = id /\ cond g = true) -> ok s'.
Proof.
  intros E HP Hr Eg El Ep Hid Hrow (g1 & Hg1 & Hi1 & Hc1). apply consent_updateMany_Ok in E as [[-> Hno]|(g & Hg & Hi & Hc & ->)].
  - rewrite Eg in Hno. by rewrite (Hno g1 Hg1 Hi1) in Hc1.
  - rewrite Eg in Hg. destruct (Hrow g Hg Hi Hc) as [Hok Hh]. subst id.
    eapply (consent_ok_row d0 _ _ _ g (f g) h); try done; try apply Hid.
    + change (update_where (fun x => (lg_id x === lg_id g) && cond x) f (loanGuarantors (ldb s))
              = replace_row lg_id (f g) (loanGuarantors d0)).
      rewrite Eg. apply update_is_replace; [apply HP|done|done|apply Hid].
    + intros x _ Hne. unfold columns_in. cbn. by rewrite lookup_insert_ne.
    + unfold columns_in. cbn. destruct (Hid g) as [-> _]. by rewrite lookup_insert_eq.
Qed.

(** ** A decision and its hold *)
Lemma hold_norm m n gs : normalizeGuarantors (hold_input m n) = Ok gs -> gs = [(m, dec n)] /\ 0 < n.
Proof.
  unfold normalizeGuarantors, hold_input. cbn [normalize_from gc_memberId gc_guaranteedAmount not_positive].
  rewrite bool_decide_eq_false_2 by set_solver. destruct (Qle_bool (dec n) 0) eqn:E; [done|].
  intros [= <-]. split; [done|]. destruct (decide (0 < n)); [done|]. exfalso. apply not_true_iff_false in E.
  apply E, Qle_bool_iff. unfold Qle. cbn. lia.
Qed.

Lemma held_weight d g n : held g = true -> lg_guaranteedAmount g = n ->
  forall a, acc_isActive a = true ->
    hold_amount (lg_tenantId g) (type_of_loan (lg_loanId g) d) [(lg_memberId g, dec n)] a = weight d a g.
Proof. intros Hh <- a Ha. rewrite hold_amount_one, weight_active, Hh by done. cbn. by rewrite to_dp4_dec. Qed.

Section Units.
Context `{UuidSource, Sha256, Environment, DecimalLib, Numbers}.

Lemma accept_hold_Ok t g T s u s' :
  accept_hold t g T s = (Ok u, s') ->
  0 < lg_guaranteedAmount g /\
  exists w, s' = set_lw_base w s /\
    place_hold t T (lg_memberId g, dec (lg_guaranteedAmount g)) (lw_base s) = (Ok tt, w).
Proof.
  unfold accept_hold. intros Hr. apply bind_Ok in Hr as (u1 & s1 & K1 & K2).
  assert (s1 = s) as ->.
  { unfold assertGuarantorCanAccept in K1. run_inv. case_match; [|run_inv]. destruct p. by run_inv. }
  unfold on_base in K2. destruct (placeGuarantorHolds _ _ _ _) as [r w] eqn:E. injection K2 as -> <-.
  apply placeGuarantorHolds_Ok in E as (norm & Hn & Hf). apply hold_norm in Hn as [-> Hpos]. split; [done|].
  exists w. split; [done|]. cbn [foldM] in Hf. apply bind_Ok in Hf as (u2 & w2 & Hp & Hr).
  apply ret_Ok in Hr as [_ ->]. by destruct u2.
Qed.

Lemma place_hold_tables t T g w u w' : place_hold t T g w = (Ok u, w') ->
  loanGuarantors (db w') = loanGuarantors (db w) /\ loans (db w') = loans (db w) /\
  loanProducts (db w') = loanProducts (db w).
Proof. intros Hp. by apply place_hold_Ok in Hp as (id & a & _ & _ & ->). Qed.

(** Steps 1 and 2 of a decision: the hold of an acceptance, and the row. *)
Definition decide_row (t : string) (g : LoanGuarantor) (T : AccountType) (st : GuarantorStatus)
    (c : ConsentColumns -> ConsentColumns) : LM unit :=
  (if st === G_ACCEPTED then accept_hold t g T else ret tt) ;;
  consent_updateMany (lg_id g) (fun x => (lg_tenantId x === t) && (lg_status x === G_PENDING))
    (set_guarantor_status st) c ;; ret tt.

Lemma same_row d g x : NoDup (lg_id <$> loanGuarantors d) -> g ∈ loanGuarantors d -> x ∈ loanGuarantors d ->
  lg_id x = lg_id g -> x = g.
Proof. intros Hnd Hg Hx E. by eapply NoDup_key_inj. Qed.

Lemma decide_row_ok t g T st c s u s' :
  g ∈ loanGuarantors (ldb s) -> lg_tenantId g = t -> lg_status g = G_PENDING -> T = type_of_loan (lg_loanId g) (ldb s) ->
  (forall x, st <> G_ACCEPTED -> co_holdPlacedAt (c x) = co_holdPlacedAt x) ->
  decide_row t g T st c s = (Ok u, s') -> ok s -> ok s'.
Proof.
  intros Hg Ht Hst -> Hc Hr HP. unfold decide_row in Hr. apply bind_Ok in Hr as (u1 & s1 & K1 & K2).
  apply bind_Ok in K2 as (n & s2 & K2 & K3). apply ret_Ok in K3 as [_ <-].
  destruct (ck_rows _ _ HP g Hg) as [R1 R2 R3]. rewrite Hst in R3. destruct (R3 ltac:(done)) as [Hrel Hpl].
  assert (held g = false) as Hh0 by (unfold held, accepted; by rewrite Hst).
  assert (forall x, x ∈ loanGuarantors (ldb s) -> lg_id x = lg_id g -> x = g) as Huniq
    by (intros x Hx; apply (same_row (ldb s)); [apply HP|done|done]).
  case_bool_decide as Ea.
  - apply accept_hold_Ok in K1 as (Hpos & w & -> & Hp).
    pose proof (place_hold_tables _ _ _ _ _ _ Hp) as (E1 & E2 & E3).
    pose proof (place_hold_reframed _ _ _ _ _ _ (ck_one _ _ HP) Hp) as Hre.
    eapply (ok_consent_update _ _ _ _ _ _ _ (ldb s) _ K2 HP Hre E1 E2 E3); [done| |].
    + intros x Hx Hi _. rewrite (Huniq x Hx Hi). split; [split; cbn; [done|lia|congruence]|].
      intros a Ha. rewrite (weight_held _ _ g Hh0), <- Ht.
      rewrite <- (held_weight (ldb s) (set_guarantor_status st g) (lg_guaranteedAmount g)); [cbn; lia| |done|done].
      unfold held, accepted. cbn. by rewrite Hrel, Ea.
    + exists g. split_and!; [done|done|]. by rewrite Ht, Hst, !same_refl.
  - apply ret_Ok in K1 as [_ <-].
    eapply (ok_consent_update _ _ _ _ _ _ _ (ldb s) (fun _ => 0) K2 HP); [by apply reframed_zero|done..| |].
    + intros x Hx Hi _. rewrite (Huniq x Hx Hi). split; [split; cbn; [done|done|]|].
      * intros _. split; [done|]. by rewrite Hc.
      * intros a Ha. rewrite !weight_held; [done|done|]. unfold held, accepted. cbn. by rewrite bool_decide_eq_false_2.
    + exists g. split_and!; [done|done|]. by rewrite Ht, Hst, !same_refl.
Qed.
End Units.

(** ** Releasing the holds of a declined loan *)
Section Release.
Context `{UuidSource, Sha256, Environment, DecimalLib, Numbers}.

Lemma releaseGuarantorHolds_one t m n T w u w' :
  releaseGuarantorHolds t (hold_input m n) T w = (Ok u, w') ->
  0 < n /\ foldM (fun _ g => release_hold t T g) tt [(m, dec n)] w = (Ok u, w').
Proof.
  unfold releaseGuarantorHolds. intros Hr. run_inv. inv_call lift_result_Ok as (Hn & ->).
  apply hold_norm in Hn as [-> Hpos]. done.
Qed.

Lemma release_hold_tables t T g w u w' : release_hold t T g w = (Ok u, w') ->
  loanGuarantors (db w') = loanGuarantors (db w) /\ loans (db w') = loans (db w) /\
  loanProducts (db w') = loanProducts (db w).
Proof. intros Hp. by apply release_hold_Ok in Hp as [(_ & ->)|(id & a & _ & [[_ ->]| ->])]. Qed.

Lemma guaranteed_ge d cs a g : consent_ok d cs -> g ∈ loanGuarantors d -> weight d a g <= guaranteed d a.
Proof.
  intros HP Hg. unfold guaranteed. pose proof (ck_rows _ _ HP) as Hrows. revert Hg Hrows.
  generalize (loanGuarantors d). intros l. induction l as [|x l IH]; intros Hg Hrows; [by apply elem_of_nil in Hg|].
  cbn. assert (0 <= sum_by (weight d a) l) by (apply sum_by_nonneg; intros; eapply weight_nonneg, Hrows; by right).
  assert (0 <= weight d a x) by (eapply weight_nonneg, Hrows; by left).
  apply elem_of_cons in Hg as [->|Hg]; [lia|]. assert (weight d a g <= sum_by (weight d a) l); [|lia].
  apply IH; [done|]. intros y Hy. apply Hrows. by right.
Qed.

(** The world after the hold of [g] is given back. *)
Lemma release_reframed t T g w u w' cs :
  consent_ok (db w) cs -> g ∈ loanGuarantors (db w) -> lg_tenantId g = t -> held g = true ->
  T = type_of_loan (lg_loanId g) (db w) ->
  releaseGuarantorHolds t (hold_input (lg_memberId g) (lg_guaranteedAmount g)) T w = (Ok u, w') ->
  reframed (fun a => - hold_amount t T [(lg_memberId g, dec (lg_guaranteedAmount g))] a) (db w) (db w') /\
  loanGuarantors (db w') = loanGuarantors (db w) /\ loans (db w') = loans (db w) /\
  loanProducts (db w') = loanProducts (db w).
Proof.
  intros HP Hg <- Hh -> Hr. apply releaseGuarantorHolds_one in Hr as [Hpos Hr]. split.
  - cbn [foldM] in Hr. apply bind_Ok in Hr as (u1 & w1 & Hp & Hr). apply ret_Ok in Hr as [_ <-].
    apply release_hold_Ok in Hp as [(Hm & ->)|(id & a & Hm & Hcase)]; cbn [fst snd] in *.
    + intros id. destruct (accounts (db w) !! id) as [a|] eqn:Ha; [|done].
      change (exists v, a = set_frozen (acc_frozenSavings a
        + - hold_amount (lg_tenantId g) (type_of_loan (lg_loanId g) (db w))
              [(lg_memberId g, dec (lg_guaranteedAmount g))] a) v a).
      rewrite hold_amount_one. destruct (holdsb _ _ _ a) eqn:E; [|apply set_frozen_same].
      apply holdsb_spec in E. cbn [fst] in E. by rewrite (member_account_held _ _ _ _ _ _ (ck_one _ _ HP) Ha E) in Hm.
    + apply member_account_Some in Hm as [Ha Hh2].
      assert (lg_guaranteedAmount g <= acc_frozenSavings a) as Hge.
      { destruct Hh2 as (E1 & E2 & E3 & Hact). rewrite (ck_exact _ _ HP id a Ha Hact).
        etrans; [|by eapply (guaranteed_ge _ _ a g)]. unfold weight. rewrite Hh, E1, E2, E3, !same_refl. done. }
      rewrite to_dp4_dec, Z.min_r in Hcase by done. destruct Hcase as [[E0 _]|Ew]; [lia|]. rewrite Ew.
      eapply reframed_insert; [apply HP|done|done|]. intros b. rewrite hold_amount_one. cbn [fst snd].
      rewrite to_dp4_dec. by destruct (holdsb _ _ _ b).
  - cbn [foldM] in Hr. apply bind_Ok in Hr as (u1 & w1 & Hp & Hr). apply ret_Ok in Hr as [_ <-].
    by eapply release_hold_tables.
Qed.

(** The row of a released hold: released, and the invariant again. *)
Lemma row_released cs w0 w g h now n w' :
  consent_ok (db w0) cs -> g ∈ loanGuarantors (db w0) -> held g = true ->
  reframed h (db w0) (db w) -> loanGuarantors (db w) = loanGuarantors (db w0) -> loans (db w) = loans (db w0) ->
  loanProducts (db w) = loanProducts (db w0) ->
  (forall a, acc_isActive a = true -> h a = - weight (db w0) a g) ->
  guarantor_updateMany (lg_id g) (fun x => lg_tenantId x === lg_tenantId g) (release_guarantor now) w = (Ok n, w') ->
  ok_base cs w' /\ loanGuarantors (db w') = replace_row lg_id (release_guarantor now g) (loanGuarantors (db w0)) /\
  loans (db w') = loans (db w0) /\ loanProducts (db w') = loanProducts (db w0).
Proof.
  intros HP Hg Hh Hr Eg El Ep Hw Hu. apply guarantor_updateMany_Ok in Hu as [-> _].
  assert (update_where (fun x => (lg_id x === lg_id g) && (lg_tenantId x === lg_tenantId g)) (release_guarantor now)
    (loanGuarantors (db w)) = replace_row lg_id (release_guarantor now g) (loanGuarantors (db w0))) as E.
  { rewrite Eg. apply (update_is_replace _ (fun x => lg_tenantId x === lg_tenantId g));
      [apply HP|done|apply same_refl|done]. }
  split; [|split; [exact E|done]].
  eapply (consent_ok_row (db w0) _ cs cs g (release_guarantor now g) h); try done.
  - intros a Ha. rewrite Hw by done. rewrite (weight_held _ _ (release_guarantor now g)); [lia|].
    unfold held. cbn. by rewrite andb_false_r.
  - destruct (ck_rows _ _ HP g Hg) as [R1 R2 R3]. split; cbn; [done|done|].
    intros Hne. unfold held, accepted in Hh. reflect. congruence.
Qed.

Lemma release_one_Ok t T audit g s u s' :
  (forall x, Frames base_core (audit x)) -> ok s -> g ∈ loanGuarantors (ldb s) -> lg_tenantId g = t ->
  accepted g = true -> T = type_of_loan (lg_loanId g) (ldb s) ->
  release_one t T audit g s = (Ok u, s') ->
  ok s' /\ loans (ldb s') = loans (ldb s) /\ loanProducts (ldb s') = loanProducts (ldb s) /\
  exists g', lg_id g' = lg_id g /\ held g' = false /\ lg_loanId g' = lg_loanId g /\ accepted g' = true /\
    loanGuarantors (ldb s') = replace_row lg_id g' (loanGuarantors (ldb s)).
Proof.
  intros Ha HP Hg Ht Hacc HT Hr. unfold release_one in Hr. case_bool_decide as Erel; cbn [negb] in Hr.
  - apply bind_Ok in Hr as (u1 & s1 & K1 & Hr). unfold on_base in K1.
    destruct (releaseGuarantorHolds _ _ _ _) as [r w] eqn:Er. injection K1 as -> <-.
    apply bind_Ok in Hr as (now & s2 & K2 & Hr). apply gets_Ok in K2 as [<- <-].
    apply bind_Ok in Hr as (n & s3 & K3 & Hr). unfold on_base in K3.
    destruct (guarantor_updateMany _ _ _ _) as [r2 w2] eqn:Eu. injection K3 as -> <-.
    assert (held g = true) as Hh by (unfold held; by rewrite Hacc, Erel).
    destruct (release_reframed t T g (lw_base s) u1 w _ HP Hg Ht Hh HT Er) as (Hre & E1 & E2 & E3). subst t T.
    assert (forall a, acc_isActive a = true ->
      - hold_amount (lg_tenantId g) (type_of_loan (lg_loanId g) (ldb s)) [(lg_memberId g, dec (lg_guaranteedAmount g))] a
      = - weight (ldb s) a g) as Hwt by (intros a Hact; f_equal; by apply held_weight).
    destruct (row_released _ _ _ g _ _ _ _ HP Hg Hh Hre E1 E2 E3 Hwt Eu) as (Hok & F1 & F2 & F3).
    pose proof (core_on_base _ (Ha g)) as Hfr. apply (frames_Ok core) in Hr as Ec; [|exact Hfr].
    split; [by eapply ok_core|]. unfold core, base_core in Ec. injection Ec as _ G1 G2 G3 _.
    unfold ldb. rewrite G1, G2, G3. cbn. split_and!; [done|done|]. eexists. split_and!; [| | | |exact F1]; try done.
    unfold held. cbn. by rewrite andb_false_r.
  - apply ret_Ok in Hr as [_ <-]. split_and!; [done..|]. exists g. split_and!; [done| |done|done|].
    + unfold held. by rewrite bool_decide_eq_false_2, andb_false_r.
    + symmetry. apply replace_row_self; [apply HP|done].
Qed.

(** The loop releases every row it is given, and touches no other. *)
Lemma release_all_Ok t T audit L gs : (forall x, Frames base_core (audit x)) -> forall s u s',
  ok s -> NoDup (lg_id <$> gs) ->
  (forall g, g ∈ gs -> g ∈ loanGuarantors (ldb s) /\ lg_tenantId g = t /\ lg_loanId g = L /\ accepted g = true) ->
  T = type_of_loan L (ldb s) -> releaseAcceptedHolds t T audit gs s = (Ok u, s') ->
  ok s' /\ loans (ldb s') = loans (ldb s) /\ loanProducts (ldb s') = loanProducts (ldb s) /\
  (forall x, x ∈ loanGuarantors (ldb s') ->
     (x ∈ loanGuarantors (ldb s) /\ (lg_id x ∉ (lg_id <$> gs))) \/
     (held x = false /\ accepted x = true /\ (lg_id x ∈ (lg_id <$> gs)))) /\
  lg_id <$> loanGuarantors (ldb s') = lg_id <$> loanGuarantors (ldb s).
Proof.
  intros Ha. induction gs as [|g gs IH]; intros s u s' HP Hnd Hgs HT Hr; cbn [releaseAcceptedHolds foldM] in Hr.
  { apply ret_Ok in Hr as [_ <-]. split_and!; try done. intros x Hx. left. split; [done|]. cbn. set_solver. }
  cbn in Hnd. apply NoDup_cons in Hnd as [Hnew Hnd].
  apply bind_Ok in Hr as (u1 & s1 & K1 & Hr). destruct (Hgs g ltac:(by left)) as (Hg & Ht & HL & Hacc).
  apply release_one_Ok in K1 as (HP1 & E1 & E2 & g' & Ei & Hh & _ & Hac & Eg); [|done|done|done|done|done|by rewrite HL].
  destruct u1. apply IH in Hr as (HP2 & F1 & F2 & F3 & F4); [|done|done| |].
  - split_and!; [done|congruence|congruence| |].
    + intros x Hx. destruct (F3 x Hx) as [[Hx1 Hx2]|(?&?&?)]; [|right; split_and!; [done|done|by right]].
      rewrite Eg in Hx1. apply in_replace_row in Hx1 as [->|[Hx1 Hne]].
      * right. split_and!; [done|done|]. rewrite Ei. by left.
      * left. split; [done|]. cbn. rewrite not_elem_of_cons. split; congruence.
    + by rewrite F4, Eg, replace_row_keys.
  - intros x Hx. destruct (Hgs x ltac:(by right)) as (?&?&?&?). split_and!; [|done..]. rewrite Eg.
    apply replace_row_other; [done|]. rewrite Ei. intros E. apply Hnew. rewrite <- E. by apply list_elem_of_fmap_2.
  - rewrite HT. unfold type_of_loan, required_account, loan_product. by rewrite E1, E2.
Qed.
End Release.

(** ** Whole decisions *)
Section Decisions.
Context `{UuidSource, Sha256, Environment, DecimalLib, Numbers}.

(** Rows whose hold is untouched may change freely. *)
Lemma ok_consent_flat id cond f c s n s' :
  consent_updateMany id cond f c s = (Ok n, s') -> ok s ->
  (forall g, lg_id (f g) = lg_id g /\ lg_loanId (f g) = lg_loanId g) ->
  (forall g, g ∈ loanGuarantors (ldb s) -> lg_id g = id -> cond g = true ->
     row_ok (ldb s) (c (consent_of g s)) (f g) /\ held g = false /\ held (f g) = false) -> ok s'.
Proof.
  intros E HP Hid Hrow. pose proof E as E0. apply consent_updateMany_Ok in E0 as [[-> _]|(g & Hg & Hi & Hc & _)]; [done|].
  eapply (ok_consent_update _ _ _ _ _ _ _ (ldb s) (fun _ => 0) E HP); [by apply reframed_zero|done|done|done|done| |eauto].
  intros x Hx Hxi Hxc. destruct (Hrow x Hx Hxi Hxc) as (Hok & E1 & E2). split; [done|].
  intros a _. by rewrite !weight_held.
Qed.

Lemma consent_update_loans id cond f c s n s' : consent_updateMany id cond f c s = (Ok n, s') ->
  loans (ldb s') = loans (ldb s) /\ loanProducts (ldb s') = loanProducts (ldb s).
Proof. intros E. by apply consent_updateMany_Ok in E as [[-> _]|(g & _ & _ & _ & ->)]. Qed.

Lemma move_pending_Ok t id f l s u s' :
  loans (ldb s) !! id = Some l -> loan_tenantId l = t -> loan_status l = PENDING_GUARANTORS ->
  move_pending_loan t id f s = (Ok u, s') ->
  ldb s' = set_loans (<[id := touch_loan (lnow s) (f l)]> (loans (ldb s))) (ldb s) /\ lw_tables s' = lw_tables s.
Proof.
  intros Hl Ht Hst Hr. unfold move_pending_loan in Hr. apply bind_Ok in Hr as (n & s1 & K1 & Hr).
  apply ret_Ok in Hr as [_ <-]. unfold on_base in K1. destruct (loan_updateMany _ _ _ _) as [r w] eqn:E.
  injection K1 as -> <-. unfold loan_updateMany in E. unfold ldb in Hl. rewrite Hl, Ht, Hst, !same_refl in E. cbn in E.
  destruct (loan_fits (f l)); simplify_eq. done.
Qed.

(** Where a row stands in the tally. *)
Lemma tally_accepted t id loan product d g :
  g ∈ ta_accepted (tally t id loan product d) <->
  g ∈ loanGuarantors d /\ lg_tenantId g = t /\ lg_loanId g = id /\ accepted g = true.
Proof.
  cbn. unfold loan_guarantors. rewrite !list_elem_of_In, !List.filter_In, andb_true_iff, !bool_decide_eq_true. tauto.
Qed.

Lemma tally_ids t id loan product d : NoDup (lg_id <$> loanGuarantors d) ->
  NoDup (lg_id <$> ta_accepted (tally t id loan product d)).
Proof. intros Hnd. by apply NoDup_key_filter, NoDup_key_filter. Qed.

(** Releasing the accepted guarantors of a loan leaves none of them held. *)
Lemma release_tally_Ok t id loan product T audit s u s' :
  (forall x, Frames base_core (audit x)) -> ok s -> T = type_of_loan id (ldb s) ->
  releaseAcceptedHolds t T audit (ta_accepted (tally t id loan product (ldb s))) s = (Ok u, s') ->
  ok s' /\ loans (ldb s') = loans (ldb s) /\ loanProducts (ldb s') = loanProducts (ldb s) /\
  (forall x, x ∈ loanGuarantors (ldb s') -> lg_tenantId x = t -> lg_loanId x = id -> held x = false) /\
  (forall x, x ∈ loanGuarantors (ldb s') -> accepted x = false -> x ∈ loanGuarantors (ldb s)).
Proof.
  intros Ha HP HT Hr. eapply release_all_Ok in Hr as (HP' & E1 & E2 & Hrows & _);
    [|exact Ha|exact HP|apply tally_ids, HP| |exact HT].
  - split_and!; [done..| |].
    + intros x Hx Ht Hid. destruct (Hrows x Hx) as [[Hx0 Hno]|(Hh & _)]; [|done].
      destruct (held x) eqn:Hh; [|done]. exfalso. apply Hno, list_elem_of_fmap_2, tally_accepted.
      unfold held in Hh. reflect. done.
    + intros x Hx Hna. destruct (Hrows x Hx) as [[Hx0 _]|(_ & Hac & _)]; [done|congruence].
  - intros g Hg. by apply tally_accepted in Hg as (? & ? & ? & ?).
Qed.

Definition settled (s s' : LendingWorld) : Prop :=
  loanGuarantors (ldb s') = loanGuarantors (ldb s) /\ accounts (ldb s') = accounts (ldb s).

(** What happens to the loan after a decision. *)
Inductive loan_outcome (t id : string) (loan : Loan) (product : LoanProduct) (latest : GuarantorStatus)
    (s s' : LendingWorld) : LoanStatus -> Prop :=
  | Outcome_elsewhere : loan_status loan <> PENDING_GUARANTORS -> core s' = core s ->
      loan_outcome t id loan product latest s s' (loan_status loan)
  | Outcome_approval l' : criteriaMet (lp_minGuarantors product) (tally t id loan product (ldb s)) = true ->
      loan_status loan = PENDING_GUARANTORS -> settled s s' ->
      loans (ldb s') = <[id := l']> (loans (ldb s)) -> loan_status l' = PENDING_APPROVAL ->
      loan_outcome t id loan product latest s s' PENDING_APPROVAL
  | Outcome_declined l' :
      criteriaMet (lp_minGuarantors product) (tally t id loan product (ldb s)) = false ->
      shouldTerminallyReject (lp_minGuarantors product) (lp_maxGuarantors product) latest
        (tally t id loan product (ldb s)) = true ->
      loan_status loan = PENDING_GUARANTORS ->
      loans (ldb s') = <[id := l']> (loans (ldb s)) -> loan_status l' = REJECTED_GUARANTOR_DECLINE ->
      (forall x, x ∈ loanGuarantors (ldb s') -> lg_tenantId x = t -> lg_loanId x = id -> held x = false) ->
      loan_outcome t id loan product latest s s' REJECTED_GUARANTOR_DECLINE
  | Outcome_waiting :
      criteriaMet (lp_minGuarantors product) (tally t id loan product (ldb s)) = false ->
      shouldTerminallyReject (lp_minGuarantors product) (lp_maxGuarantors product) latest
        (tally t id loan product (ldb s)) = false ->
      loan_status loan = PENDING_GUARANTORS -> core s' = core s ->
      loan_outcome t id loan product latest s s' PENDING_GUARANTORS.

#[local] Typeclasses Opaque response_audit expiry_audit notify_in_app.

Lemma type_of_product t id loan product d :
  tenant_loan t id d = Some loan -> loan_product loan d = Some product ->
  resolveAccountType (lp_requiredAccountType product) = type_of_loan id d.
Proof.
  intros Hl Hp. apply tenant_loan_Some in Hl as [Hl _]. unfold type_of_loan, required_account. by rewrite Hl, Hp.
Qed.

Lemma applyLoanState_Ok t id loan product who actor st s r s' :
  ok s -> tenant_loan t id (ldb s) = Some loan -> loan_product loan (ldb s) = Some product ->
  applyLoanState t id loan product who actor st s = (Ok r, s') ->
  ok s' /\ loan_outcome t id loan product st s s' r.1.
Proof.
  intros HP Hl Hp Hr. pose proof (type_of_product _ _ _ _ _ Hl Hp) as HT.
  apply tenant_loan_Some in Hl as [Hl Ht]. unfold applyLoanState in Hr.
  case_bool_decide as Hst; cbn [negb] in Hr; [|apply ret_Ok in Hr as [<- <-]; by split; [|constructor]].
  apply bind_Ok in Hr as (ta & s1 & K1 & Hr). apply gets_Ok in K1 as [<- <-].
  destruct (criteriaMet _ _) eqn:Hc; [|destruct (shouldTerminallyReject _ _ _ _) eqn:Hj].
  - apply bind_Ok in Hr as (u1 & s2 & K1 & Hr). apply bind_Ok in Hr as (u2 & s3 & K2 & Hr). apply ret_Ok in Hr as [<- <-].
    assert (ok s2) as HP2 by (eapply (ok_move t id to_pending_approval); [intros ?; reflexivity|exact K1|exact HP]).
    apply (frames_Ok core) in K2; [|apply _]. split; [by eapply ok_core|].
    apply (move_pending_Ok _ _ _ loan) in K1 as [E _]; [|done..]. unfold core, base_core in K2. injection K2 as G1 G2 G3 _ _.
    eapply Outcome_approval; [done|done| |unfold ldb in *; rewrite G3, E; reflexivity|done].
    unfold settled, ldb in *. by rewrite G1, G2, E.
  - apply bind_Ok in Hr as (u1 & s2 & K1 & Hr). apply bind_Ok in Hr as (u2 & s3 & K2 & Hr).
    apply bind_Ok in Hr as (u3 & s4 & K3 & Hr). apply ret_Ok in Hr as [<- <-].
    apply release_tally_Ok in K1 as (HP2 & E1 & E2 & Hrel & _); [|intros; apply _|done|done].
    assert (ok s3) as HP3 by (eapply (ok_move t id declined_loan); [intros ?; reflexivity|exact K2|exact HP2]).
    apply (frames_Ok core) in K3; [|apply _]. split; [by eapply ok_core|].
    apply (move_pending_Ok _ _ _ loan) in K2 as [E _]; [|by rewrite E1|done..].
    unfold core, base_core in K3. injection K3 as G1 G2 G3 _ _.
    eapply Outcome_declined; [done|done|done|unfold ldb in *; rewrite G3, E; cbn; rewrite E1; reflexivity|done|].
    unfold ldb in *. rewrite G2, E. cbn. exact Hrel.
  - apply bind_Ok in Hr as (u1 & s2 & K1 & Hr). apply ret_Ok in Hr as [<- <-]. cbn [fst].
    assert (core s2 = core s) as E by (eapply (frames_Ok core); [|exact K1]; apply _).
    split; [by eapply ok_core|]. rewrite Hst. by constructor.
Qed.

Lemma decide_row_loans t g T st c s u s' : decide_row t g T st c s = (Ok u, s') ->
  loans (ldb s') = loans (ldb s) /\ loanProducts (ldb s') = loanProducts (ldb s).
Proof.
  unfold decide_row. intros Hr. apply bind_Ok in Hr as (u1 & s1 & K1 & Hr). apply bind_Ok in Hr as (n & s2 & K2 & Hr).
  apply ret_Ok in Hr as [_ <-]. apply consent_update_loans in K2 as [-> ->].
  case_bool_decide; [|by apply ret_Ok in K1 as [_ <-]].
  apply accept_hold_Ok in K1 as (_ & w & -> & Hp). by apply place_hold_tables in Hp as (_ & E1 & E2).
Qed.

Lemma tenant_loan_core t id s s' : core s' = core s -> tenant_loan t id (ldb s') = tenant_loan t id (ldb s).
Proof. unfold core, base_core, tenant_loan, ldb. by intros [= _ _ -> _ _]. Qed.
Lemma tenant_loan_eq t id d d' : loans d' = loans d -> tenant_loan t id d' = tenant_loan t id d.
Proof. unfold tenant_loan. by intros ->. Qed.
Lemma loan_product_eq l d d' : loanProducts d' = loanProducts d -> loan_product l d' = loan_product l d.
Proof. unfold loan_product. by intros ->. Qed.
Lemma core_tables s s' : core s' = core s -> loans (ldb s') = loans (ldb s) /\
  loanProducts (ldb s') = loanProducts (ldb s) /\ loanGuarantors (ldb s') = loanGuarantors (ldb s) /\
  accounts (ldb s') = accounts (ldb s) /\ consents (lw_tables s') = consents (lw_tables s).
Proof. unfold core, base_core, ldb. by intros [= -> -> -> -> ->]. Qed.

(** A committed decision: the invariant, and the loan judged by the rows as
    they are after the answer. *)
Lemma decisionBody_Ok id t who matcher action notes ack src s r s' :
  ok s -> decisionBody id t who matcher action notes ack src s = (Ok r, s') ->
  ok s' /\ exists g loan product s1,
    lockGuarantor t id matcher (ldb s) = Some g /\ lg_status g = G_PENDING /\
    tenant_loan t id (ldb s) = Some loan /\ loan_product loan (ldb s) = Some product /\
    r = mkDecision id (lg_id g) (lg_memberId g) (dr_status r) (dr_loanStatus r) (dr_remainingCoverage r) /\
    dr_status r = next_status src action (lnow s) (co_invitedAt (consent_of g s)) /\
    decide_row t g (resolveAccountType (lp_requiredAccountType product)) (dr_status r)
      (decided_columns (dr_status r) (lnow s) notes who src) s = (Ok tt, s1) /\
    exists s2, ok s2 /\ core s2 = core s1 /\ loan_outcome t id loan product (dr_status r) s2 s' (dr_loanStatus r).
Proof.
  intros HP Hr. unfold decisionBody in Hr. run_inv.
  match goal with Hf : lockGuarantor t id matcher (ldb ?z) = Some ?g |- _ => rename z into s; rename g into row; rename Hf into Hg end.
  match goal with Hf : tenant_loan t id _ = Some ?l |- _ => rename l into loan, Hf into Hl end.
  match goal with Hf : loan_product loan _ = Some ?p |- _ => rename p into product, Hf into Hp end.
  match goal with Hf : applyLoanState _ _ _ _ _ _ _ ?z = (Ok ?x, _) |- _ => rename z into s2, Hf into Ha; destruct x as [ls rem] end.
  run_inv. cbn [dr_status dr_loanStatus dr_remainingCoverage].
  match goal with Hx : negb (lg_status row === G_PENDING) = false |- _ => rename Hx into Hst end.
  apply negb_false_iff, bool_decide_eq_true in Hst.
  pose proof (type_of_product _ _ _ _ _ Hl Hp) as HT. set (st := next_status src action _ _) in *.
  match goal with Hf : consent_updateMany _ _ _ _ ?y = (Ok ?n, ?z) |- _ =>
    assert (decide_row t row (resolveAccountType (lp_requiredAccountType product)) st
      (decided_columns st (lnow s) notes who src) s = (Ok tt, z)) as Hd;
    [unfold decide_row; erewrite bind_run by eassumption; erewrite bind_run by eassumption; done|rename z into s1] end.
  pose proof Hg as Hg'. apply find_some_elem in Hg' as [Hin Hc]. rewrite !andb_true_iff, !bool_decide_eq_true in Hc.
  destruct Hc as [[Ht Hid] _].
  assert (ok s1) as HP1.
  { eapply decide_row_ok; [exact Hin|exact Ht|exact Hst|by rewrite Hid| |exact Hd|exact HP].
    intros x Hne. cbn. by rewrite bool_decide_eq_false_2. }
  pose proof (decide_row_loans _ _ _ _ _ _ _ _ Hd) as [El Ep].
  assert (core s2 = core s1) as Ec.
  { etrans; [|symmetry; symmetry; eapply (frames_Ok core); [|eassumption]; apply _].
    eapply (frames_Ok core); [|eassumption]. unfold decision_audit. apply _. }
  assert (ok s2) as HP2 by (by eapply ok_core). apply core_tables in Ec as Et. destruct Et as (F1 & F2 & _).
  apply applyLoanState_Ok in Ha as [HP' Ho]; [|done|by rewrite (tenant_loan_eq _ _ (ldb s)); [|congruence]
    |by rewrite (loan_product_eq _ (ldb s)); [|congruence]].
  split; [done|]. exists row, loan, product, s1. split_and!; try done. by exists s2.
Qed.
End Decisions.

(** ** The services keep the invariant *)
Section Services.
Context `{UuidSource, Sha256, Environment, DecimalLib, Numbers}.
#[local] Typeclasses Opaque response_audit expiry_audit application_audit notify_in_app chained_audit decisionBody
  expireGuarantor.

#[export] Instance ok_decisionBody id t who m a n k src : Keeps ok (decisionBody id t who m a n k src).
Proof. intros s r s' E HP. by apply decisionBody_Ok in E as [? _]. Qed.
#[export] Instance ok_applyDecision id t who m dto src : Preserves ok (applyDecision id t who m dto src).
Proof. unfold applyDecision. apply _. Qed.
#[export] Instance ok_respond id m dto t u h : Preserves ok (respondAsMember id m dto t u h).
Proof. unfold respondAsMember. apply _. Qed.
#[export] Instance ok_override id x dto t u : Preserves ok (adminOverride id x dto t u).
Proof. unfold adminOverride. apply _. Qed.

(** *** Expiry *)
Definition expirable (x : ExpiredGuarantorRow) (s : LendingWorld) : Prop :=
  ex_holdPlacedAt x = None /\
  resolveAccountType (lp_requiredAccountType (ex_product x)) = type_of_loan (lg_loanId (ex_row x)) (ldb s).

Lemma type_eq id d d' : loans d' = loans d -> loanProducts d' = loanProducts d -> type_of_loan id d' = type_of_loan id d.
Proof. unfold type_of_loan, required_account, loan_product. by intros -> ->. Qed.

Lemma type_of_moved id k l l' d : loans d !! id = Some l -> loan_loanProductId l' = loan_loanProductId l ->
  type_of_loan k (set_loans (<[id := l']> (loans d)) d) = type_of_loan k d.
Proof.
  intros Hl Hp. unfold type_of_loan, required_account, loan_product. cbn. destruct (decide (id = k)) as [<-|].
  - by rewrite lookup_insert_eq, Hl, Hp.
  - by rewrite lookup_insert_ne.
Qed.

(** The loan after its request expired: declined and nothing held, when it was
    waiting for guarantors. *)
Definition timed_out (t id : string) (s s' : LendingWorld) : Prop :=
  match tenant_loan t id (ldb s) with
  | Some l =>
      if loan_status l === PENDING_GUARANTORS then
        (exists l', loans (ldb s') = <[id := l']> (loans (ldb s)) /\ loan_status l' = REJECTED_GUARANTOR_DECLINE) /\
        forall x, x ∈ loanGuarantors (ldb s') -> lg_tenantId x = t -> lg_loanId x = id -> held x = false
      else core s' = core s
  | None => core s' = core s
  end.

Lemma rejectLoan_Ok t id product s u s' :
  ok s -> resolveAccountType (lp_requiredAccountType product) = type_of_loan id (ldb s) ->
  rejectLoanForGuarantorTimeout t id product s = (Ok u, s') ->
  ok s' /\ (forall k, type_of_loan k (ldb s') = type_of_loan k (ldb s)) /\ timed_out t id s s' /\
  (forall x, x ∈ loanGuarantors (ldb s') -> accepted x = false -> x ∈ loanGuarantors (ldb s)).
Proof.
  intros HP HT Hr. unfold rejectLoanForGuarantorTimeout, timed_out in *.
  apply bind_Ok in Hr as (o & s0 & K0 & Hr). apply gets_Ok in K0 as [<- <-].
  destruct (tenant_loan t id (ldb s)) as [loan|] eqn:Hl; [|by apply ret_Ok in Hr as [_ <-]].
  apply tenant_loan_Some in Hl as [Hl Ht].
  case_bool_decide as Hst; cbn [negb] in Hr; [|by apply ret_Ok in Hr as [_ <-]].
  apply bind_Ok in Hr as (ta & s0 & K0 & Hr). apply gets_Ok in K0 as [<- <-].
  apply bind_Ok in Hr as (u1 & s1 & K1 & Hr). apply bind_Ok in Hr as (u2 & s2 & K2 & Hr).
  apply bind_Ok in Hr as (u3 & s3 & K3 & Hr).
  apply release_tally_Ok in K1 as (HP1 & E1 & E2 & Hrel & Hback); [|intros; apply _|done|done].
  apply (frames_Ok core) in K2 as Ec2; [|apply _]. assert (ok s2) as HP2 by (by eapply ok_core).
  assert (ok s3) as HP3 by (eapply (ok_move t id declined_loan); [intros ?; reflexivity|exact K3|exact HP2]).
  apply (frames_Ok core) in Hr as Ec; [|apply _]. apply core_tables in Ec as (G1 & G2 & G3 & _).
  apply core_tables in Ec2 as (F1 & F2 & F3 & _).
  apply (move_pending_Ok _ _ _ loan) in K3 as [E _]; [|congruence|done..].
  split; [eapply ok_core; [|exact HP3]; by eapply (frames_Ok core); [|exact Hr]; apply _|]. split.
  - intros k. rewrite (type_eq k (ldb s3)) by done. rewrite E, (type_of_moved _ _ loan); [|congruence|done].
    apply type_eq; congruence.
  - split.
    + split; [eexists; rewrite G1, E; cbn; rewrite F1, E1; split; [reflexivity|done]|].
      rewrite G3, E. cbn. rewrite F3. exact Hrel.
    + rewrite G3, E. cbn. rewrite F3. exact Hback.
Qed.

(** The row after its request expired. *)
Definition row_expired (t : string) (g : LoanGuarantor) (s' : LendingWorld) : Prop :=
  forall y, y ∈ loanGuarantors (ldb s') -> lg_id y = lg_id g -> lg_tenantId y = t -> lg_status y <> G_PENDING.

Lemma expireGuarantor_Ok t x cutoff s u s' :
  ok s -> expirable x s -> expireGuarantor t x cutoff s = (Ok u, s') ->
  ok s' /\ (forall k, type_of_loan k (ldb s') = type_of_loan k (ldb s)) /\
  row_expired t (ex_row x) s' /\
  exists s1, loans (ldb s1) = loans (ldb s) /\ timed_out t (lg_loanId (ex_row x)) s1 s'.
Proof.
  intros HP [Hpl HT] Hr. unfold expireGuarantor in Hr. rewrite Hpl in Hr.
  rewrite (bool_decide_eq_false_2 (is_Some _)) in Hr by (by intros [? ?]).
  apply bind_Ok in Hr as (u1 & s1 & K1 & Hr). apply ret_Ok in K1 as [_ <-].
  apply bind_Ok in Hr as (now & s1 & K1 & Hr). apply gets_Ok in K1 as [<- <-].
  apply bind_Ok in Hr as (n & s1 & K1 & Hr). apply bind_Ok in Hr as (u2 & s2 & K2 & Hr). apply ret_Ok in K2 as [_ <-].
  apply bind_Ok in Hr as (u3 & s3 & K3 & Hr).
  assert (ok s1) as HP1.
  { eapply (ok_consent_flat _ _ _ _ _ _ _ K1 HP); [done|]. intros g Hg _ Hc. apply andb_true_iff in Hc as [_ Hst].
    apply bool_decide_eq_true in Hst. destruct (ck_rows _ _ HP g Hg) as [R1 R2 R3].
    destruct (R3 ltac:(by rewrite Hst)) as [Hrel Hplaced].
    split_and!; [split; cbn; [done|done|intros _; split; [exact Hrel|exact Hplaced]]|unfold held, accepted; by rewrite Hst|reflexivity]. }
  apply consent_update_loans in K1 as E. destruct E as [E1 E2].
  apply (frames_Ok core) in K3 as Ec; [|apply _]. assert (ok s3) as HP3 by (by eapply ok_core).
  apply core_tables in Ec as (F1 & F2 & F3 & _).
  apply rejectLoan_Ok in Hr as (HP' & Ht & Hto & Hback); [|done|].
  - split; [done|]. split; [intros k; rewrite Ht; apply type_eq; congruence|].
    split; [|exists s3; split; [congruence|exact Hto]].
    intros y Hy Hi Hty Hst. apply Hback in Hy; [|unfold accepted; by rewrite Hst]. rewrite F3 in Hy. apply consent_updateMany_Ok in K1 as [[-> Hno]|(g & Hg & Hgi & Hc & ->)].
    + specialize (Hno y Hy Hi). by rewrite Hty, Hst, !same_refl in Hno.
    + change (y ∈ update_where (fun x0 => (lg_id x0 === lg_id (ex_row x)) && ((lg_tenantId x0 === t) && (lg_status x0 === G_PENDING)))
        (expire_row None (lnow s)) (loanGuarantors (ldb s))) in Hy.
      apply list_elem_of_fmap in Hy as (z & -> & Hz).
      destruct ((lg_id z === lg_id (ex_row x)) && ((lg_tenantId z === t) && (lg_status z === G_PENDING))) eqn:Ez; [done|].
      by rewrite Hi, Hty, Hst, !same_refl in Ez.
  - rewrite HT. symmetry. apply type_eq; congruence.
Qed.
End Services.

(** ** Rejection of a loan *)
Section Rejection.
Context `{UuidSource, Sha256, Environment, DecimalLib, Numbers}.

Lemma release_held_ok cs t T g w n w' :
  ok_base cs w -> g ∈ loanGuarantors (db w) -> lg_tenantId g = t -> held g = true ->
  T = type_of_loan (lg_loanId g) (db w) -> release_held t T g w = (Ok n, w') ->
  ok_base cs w' /\ loans (db w') = loans (db w) /\ loanProducts (db w') = loanProducts (db w) /\
  forall x, x ∈ loanGuarantors (db w) -> lg_id x <> lg_id g -> x ∈ loanGuarantors (db w').
Proof.
  intros HP Hg <- Hh -> Hr. unfold release_held in Hr.
  apply bind_Ok in Hr as (o & w1 & K1 & Hr). apply gets_Ok in K1 as [<- <-].
  destruct (member_account _ _ _ _) as [[id a]|] eqn:Hm; [|apply ret_Ok in Hr as [_ <-]; by split_and!].
  apply member_account_Some in Hm as [Ha Hah].
  destruct (_ <=? 0) eqn:Hpos; [apply ret_Ok in Hr as [_ <-]; by split_and!|]. apply Z.leb_gt in Hpos.
  apply bind_Ok in Hr as (n1 & w1 & K1 & Hr). apply bind_Ok in Hr as (now & w2 & K2 & Hr).
  apply gets_Ok in K2 as [<- <-]. apply bind_Ok in Hr as (n2 & w3 & K3 & Hr). apply ret_Ok in Hr as [_ <-].
  pose proof Hah as (Et & Em & ET & Hact).
  eapply account_updateMany_hit in K1; [|exact Ha|cbn; by rewrite Hact, Et, same_refl]. destruct K1 as [_ ->].
  assert (lg_guaranteedAmount g <= acc_frozenSavings a) as Hge.
  { rewrite (ck_exact _ _ HP id a Ha Hact). etrans; [|by eapply (guaranteed_ge _ _ a g)].
    unfold weight. by rewrite Hh, Et, Em, ET, !same_refl. }
  rewrite Z.min_r in K3 by done.
  eapply (row_released cs w) in K3 as (Hok & F1 & F2 & F3); [|exact HP|done|done| |done..|].
  - split_and!; [done..|]. intros x Hx Hne. rewrite F1. by apply replace_row_other.
  - cbn. eapply (reframed_insert _ (lg_tenantId g) (lg_memberId g)); [apply HP|done|done|reflexivity].
  - intros b Hb. cbn. rewrite (weight_active _ b) by done. rewrite Hh. cbn. by destruct (holdsb _ _ _ b).
Qed.

Lemma release_held_loop cs t T L gs : forall acc w acc' w',
  ok_base cs w -> NoDup (lg_id <$> gs) ->
  (forall g, g ∈ gs -> g ∈ loanGuarantors (db w) /\ lg_tenantId g = t /\ lg_loanId g = L /\ held g = true) ->
  T = type_of_loan L (db w) ->
  foldM (fun acc g =>
    let* n := release_held t T g in
    ret (if 0 <? n then acc ++ [held_json g n] else acc)) acc gs w = (Ok acc', w') -> ok_base cs w'.
Proof.
  induction gs as [|g gs IH]; intros acc w acc' w' HP Hnd Hgs HT Hr; cbn [foldM] in Hr.
  { by apply ret_Ok in Hr as [_ <-]. }
  cbn in Hnd. apply NoDup_cons in Hnd as [Hnew Hnd].
  apply bind_Ok in Hr as (acc1 & w1 & K1 & Hr). apply bind_Ok in K1 as (n & w2 & K1 & K2).
  apply ret_Ok in K2 as [_ <-]. destruct (Hgs g ltac:(by left)) as (Hg & Ht & HL & Hh).
  eapply release_held_ok in K1 as (HP1 & E1 & E2 & Hkeep); [|done|done|done|done|by rewrite HL].
  eapply IH in Hr; [done|done|done| |].
  - intros x Hx. destruct (Hgs x ltac:(by right)) as (?&?&?&?). split_and!; [|done..]. apply Hkeep; [done|].
    intros E. apply Hnew. rewrite <- E. by apply list_elem_of_fmap_2.
  - rewrite HT. symmetry. unfold type_of_loan, required_account, loan_product. by rewrite E1, E2.
Qed.

#[local] Typeclasses Opaque logAtomic enqueueEmail rejectBody.

Lemma rejectBody_ok cs id t reason who loan T ip ua w r w' :
  ok_base cs w -> T = type_of_loan id (db w) -> rejectBody id t reason who loan T ip ua w = (Ok r, w') -> ok_base cs w'.
Proof.
  intros HP HT Hr. unfold rejectBody in Hr.
  apply bind_Ok in Hr as (o & w1 & K1 & Hr). apply gets_Ok in K1 as [<- <-].
  apply bind_Ok in Hr as (locked & w1 & K1 & Hr). apply or_throw_Ok in K1 as [_ <-].
  apply bind_Ok in Hr as (u & w1 & K1 & Hr). apply throw_if_Ok in K1 as [_ <-].
  apply bind_Ok in Hr as (gs & w1 & K1 & Hr). apply gets_Ok in K1 as [<- <-].
  apply bind_Ok in Hr as (released & w1 & K1 & Hr).
  apply (release_held_loop cs t T id) in K1 as HP1; [|exact HP| | |exact HT].
  - clear K1. revert w1 HP1 Hr. match goal with |- forall w, _ -> ?m w = _ -> _ =>
      assert (Preserves (ok_base cs) m) as Hm by apply _ end.
    intros w1 HP1 Hr. exact (Hm _ _ _ Hr HP1).
  - apply NoDup_key_filter, HP.
  - intros g Hg. unfold accepted_held in Hg. rewrite list_elem_of_In, List.filter_In, <- list_elem_of_In in Hg.
    destruct Hg as [Hg Hc]. unfold held, accepted. reflect. by simplify_eq.
Qed.

#[export] Instance ok_reject cs id reason t who ip ua : Preserves (ok_base cs) (reject id reason t who ip ua).
Proof.
  intros w r w' E HP. unfold reject in E. unfold bind at 1, gets at 1 in E.
  destruct (tenant_loan t id (db w)) as [loan|] eqn:Hl; [|cbn in E; by simplify_eq].
  cbn [or_throw] in E. unfold bind at 1, ret at 1 in E. rewrite bind_throw_if in E. case_match; [by simplify_eq|].
  unfold bind at 1, gets at 1 in E. unfold bind at 1, gets at 1 in E. unfold bind at 1 in E.
  apply tenant_loan_Some in Hl as [Hl _].
  unfold transaction in E. destruct (rejectBody _ _ _ _ _ _ _ _ w) as [[l|e] w1] eqn:Eb; [|by simplify_eq].
  apply rejectBody_ok with (cs := cs) in Eb; [|done|unfold type_of_loan; by rewrite Hl].
  assert (Preserves (ok_base cs) (enqueueEmail "LOAN_REJECTED" (member_email (loan_memberId loan) (db w))
    (loan_loanNumber loan) ;; ret l)) as Hk by apply _. exact (Hk _ _ _ E Eb).
Qed.
End Rejection.

(** ** Expiry, invitations and applications *)
Section Endpoints.
Context `{UuidSource, Sha256, Environment, DecimalLib, Numbers}.
#[local] Typeclasses Opaque response_audit expiry_audit application_audit notify_in_app chained_audit
  expireGuarantor upsert_guarantor inviteGuarantors approve reject add_reminder add_expiry_job notify_nominee
  enqueueEmail schedule_reminders validateGuarantorEligibility validateGuarantorsEligibilityBatch check_guarantors
  guarantor_create loan_create claim_loan_seq.

(** *** Expiry *)
Lemma expired_view_expirable g s x :
  ok s -> g ∈ loanGuarantors (ldb s) -> lg_status g = G_PENDING -> expired_view g s = Some x -> expirable x s.
Proof.
  intros HP Hg Hst Hx. unfold expired_view in Hx. destruct (row_loan g (ldb s)) as [l|] eqn:Hl; [|done].
  destruct (loan_product l (ldb s)) as [p|] eqn:Hp; [|done]. injection Hx as <-. unfold expirable. cbn. split.
  - by apply (row_unheld _ _ _ (ck_rows _ _ HP g Hg)); rewrite Hst.
  - unfold row_loan in Hl. unfold type_of_loan, required_account. by rewrite Hl, Hp.
Qed.

Lemma expirable_types x s s' : (forall k, type_of_loan k (ldb s') = type_of_loan k (ldb s)) ->
  expirable x s -> expirable x s'.
Proof. intros Ht [Hp HT]. split; [done|]. by rewrite Ht. Qed.

Lemma expire_all_ok t cutoff xs : forall s u s',
  ok s -> Forall (fun x => expirable x s) xs ->
  foldM (fun _ x => expireGuarantor t x cutoff) tt xs s = (Ok u, s') -> ok s'.
Proof.
  induction xs as [|x xs IH]; intros s u s' HP Hx Hr; cbn [foldM] in Hr; [by apply ret_Ok in Hr as [_ <-]|].
  apply Forall_cons in Hx as [Hx Hxs]. apply bind_Ok in Hr as ([] & s1 & K1 & Hr).
  apply expireGuarantor_Ok in K1 as (HP1 & Ht & _); [|done..]. eapply IH; [done| |done].
  eapply Forall_impl; [done|]. intros y. by apply expirable_types.
Qed.

#[export] Instance ok_expireTenant t cutoff : Preserves ok (expireTenantGuarantors t cutoff).
Proof.
  apply ok_transaction. intros s u s' E HP. apply bind_Ok in E as (xs & s1 & K1 & E). apply gets_Ok in K1 as [<- <-].
  eapply expire_all_ok; [done| |exact E]. apply Forall_forall. intros x Hx.
  unfold overdue_requests in Hx. apply list_elem_of_omap in Hx as (g & Hg & Hx).
  destruct (_ && _ && _) eqn:Ec; [|done]. reflect. by eapply expired_view_expirable.
Qed.

#[export] Instance ok_expireSpecific t l g cutoff : Preserves ok (expireSpecificGuarantor t l g cutoff).
Proof.
  apply ok_transaction. intros s u s' E HP. apply bind_Ok in E as (o & s1 & K1 & E). apply gets_Ok in K1 as [<- <-].
  destruct (pending_request t l g s) as [row|] eqn:Hrow; [|by apply ret_Ok in E as [_ <-]].
  cbn in E. destruct (expired_view row s) as [x|] eqn:Hx; [|by apply ret_Ok in E as [_ <-]].
  apply find_some_elem in Hrow as [Hin Hc]. rewrite !andb_true_iff in Hc. destruct Hc as [[_ Hst] _].
  apply bool_decide_eq_true in Hst. eapply expireGuarantor_Ok in E as [HP' _]; [done|done|].
  by eapply expired_view_expirable.
Qed.

#[export] Instance ok_sweep ts cutoff : Preserves ok (sweep_tenants ts cutoff).
Proof. unfold sweep_tenants. apply _. Qed.
#[export] Instance ok_hourly : Preserves ok runHourlyExpirySweep.
Proof. unfold runHourlyExpirySweep. apply _. Qed.
#[export] Instance ok_expiry_process job : Preserves ok (expiry_process job).
Proof. unfold expiry_process. apply _. Qed.

(** *** Invitations *)
Definition open_to (loanId : string) (ms : list string) (s : LendingWorld) : Prop :=
  forall g, g ∈ loanGuarantors (ldb s) -> lg_loanId g = loanId -> lg_memberId g ∈ ms -> lg_status g <> G_ACCEPTED.
Definition inviting (loanId : string) (ms : list string) (s : LendingWorld) : Prop := ok s /\ open_to loanId ms s.

#[export] Instance inviting_frames {A} id ms (m : LM A) : Frames core m -> Preserves (inviting id ms) m | 20.
Proof.
  intros Hm s r s' E [HP Ho]. pose proof (frames_Ok _ _ _ _ _ Hm E) as Ec. split; [by eapply ok_core|].
  apply core_tables in Ec as (_ & _ & Eg & _). unfold open_to. by rewrite Eg.
Qed.

Lemma consent_update_Err id cond f c s e s' : consent_updateMany id cond f c s = (Err e, s') -> s' = s.
Proof.
  unfold consent_updateMany, bind, gets. destruct (List.find _ _) as [g|]; [|done].
  unfold on_base. destruct (guarantor_updateMany id cond f (lw_base s)) as [[k|e'] w] eqn:E; [done|].
  unfold guarantor_updateMany in E. unfold bind at 1, gets in E. rewrite bind_throw_if in E.
  case_match; [|discriminate E]. injection E as _ <-. intros [= _ <-]. by destruct s.
Qed.

Lemma inviting_upsert t id ms item : gn_memberId item ∈ ms -> Preserves (inviting id ms) (upsert_guarantor t id item).
Proof.
  intros Hm s r s' E [HP Ho]. unfold upsert_guarantor in E. unfold bind at 1, gets at 1 in E.
  unfold bind at 1, gets at 1 in E. destruct (guarantor_of id _ (ldb s)) as [g|] eqn:Hg.
  - apply find_some_elem in Hg as [Hg Hp]. apply bool_decide_eq_true in Hp. injection Hp as Hl Hmem.
    rewrite bind_throw_if in E. case_match; [by simplify_eq|]. unfold bind at 1 in E.
    destruct (consent_updateMany _ _ _ _ s) as [[n|e] s1] eqn:K.
    + injection E as <- <-. assert (lg_status g <> G_ACCEPTED) as Hst by (apply Ho; [done|done|by rewrite Hmem]).
      pose proof (ck_rows _ _ HP g Hg) as Hrow. pose proof (row_unheld _ _ _ Hrow Hst) as [Hrel Hpl].
      assert (forall x, x ∈ loanGuarantors (ldb s) -> lg_id x = lg_id g -> x = g) as Huniq
        by (intros x Hx; apply (same_row (ldb s)); [apply HP|done|done]).
      split.
      * eapply ok_consent_flat; [exact K|done|done|]. intros x Hx Hi _. rewrite (Huniq x Hx Hi).
        split_and!; [split; cbn; [apply Hrow|done|done]| |reflexivity].
        unfold held, accepted. by rewrite bool_decide_eq_false_2.
      * intros y Hy Hyl Hym. apply consent_updateMany_Ok in K as [[-> _]|(g1 & _ & _ & _ & ->)]; [by apply Ho|].
        change (y ∈ update_where (fun x => (lg_id x === lg_id g) && true) (asked_again (to_dp4 (gn_guaranteedAmount item)))
          (loanGuarantors (ldb s))) in Hy.
        apply list_elem_of_fmap in Hy as (z & -> & Hz). case_match; [done|by apply Ho].
    + apply consent_update_Err in K as ->. by simplify_eq.
  - revert E. match goal with |- ?m s = _ -> _ => assert (Preserves (inviting id ms) m) as Hm' end.
    { assert (Preserves (inviting id ms) (on_base fresh_id : LM string)) as Hf by apply _.
      intros s0 r0 s0' E0 HI0. unfold bind at 1 in E0. destruct (on_base fresh_id s0) as [[i|e] s1] eqn:Ef;
        [|injection E0 as <- <-; exact (Hf _ _ _ Ef HI0)].
      pose proof (Hf _ _ _ Ef HI0) as [HP1 Ho1]. unfold bind at 1 in E0.
      destruct (guarantor_create _ _ s1) as [[u|e] s2] eqn:K; injection E0 as <- <-.
      - split; [eapply keeps_guarantor_create; [..|exact K|exact HP1]; done|].
        apply guarantor_create_Ok in K as (_ & _ & _ & ->). intros y Hy Hyl Hym.
        apply elem_of_app in Hy as [Hy|Hy]; [by apply Ho1|]. by apply list_elem_of_singleton in Hy as ->.
      - split; [eapply keeps_guarantor_create; [..|exact K|exact HP1]; done|].
        unfold guarantor_create in K. unfold bind at 1, gets in K. cbn beta iota in K.
        repeat (rewrite bind_throw_if in K; case_match; [by simplify_eq|]). discriminate K. }
    intros E. exact (Hm' _ _ _ E (conj HP Ho)).
Qed.

Lemma inviting_one t id loan T ms item : gn_memberId item ∈ ms -> Preserves (inviting id ms) (invite_one t id loan T item).
Proof. intros Hm. pose proof (inviting_upsert t id ms item Hm). unfold invite_one. apply _. Qed.

Lemma preserves_foldM_in {St A B} (P : St -> Prop) (body : B -> A -> comp St B) xs : forall acc,
  (forall b x, x ∈ xs -> Preserves P (body b x)) -> Preserves P (foldM body acc xs).
Proof.
  induction xs as [|x xs IH]; intros acc Hb; cbn [foldM]; [apply _|].
  apply preserves_bind; [apply Hb; by left|]. intros b. apply IH. intros b' y Hy. apply Hb. by right.
Qed.

Lemma preserves_strengthen {St A} (P Q : St -> Prop) (m : comp St A) : Preserves (fun s => P s /\ Q s) m ->
  forall s r s', m s = (r, s') -> P s -> Q s -> P s'.
Proof. intros Hm s r s' E HP HQ. by destruct (Hm _ _ _ E (conj HP HQ)). Qed.

Definition guarantor_rows (w : World) : list LoanGuarantor := loanGuarantors (db w).
#[local] Instance stable_guarantor_rows : Stable guarantor_rows.
Proof. by repeat split. Qed.

Lemma inviting_loan id ms f : (forall l, loan_loanProductId (f l) = loan_loanProductId l) ->
  Preserves (inviting id ms) (on_base (loan_update id f)).
Proof.
  intros Hf s r s' E [HP Ho]. split.
  - assert (Preserves ok (on_base (loan_update id f))) as Hm; [|exact (Hm _ _ _ E HP)].
    apply ok_on_base. intros cs. apply ok_base_loan_update. by apply ok_base_loans.
  - unfold on_base in E. destruct (loan_update id f (lw_base s)) as [r0 w] eqn:K. injection E as _ <-.
    assert (loanGuarantors (db w) = loanGuarantors (ldb s)) as Eg; [|unfold open_to, ldb in *; cbn; by rewrite Eg].
    apply (frames_Ok guarantor_rows) in K; [done|]. unfold loan_update. apply _.
Qed.

(** Guarantors may be asked again as long as none of them has accepted. *)
Lemma inviting_guarantors id gs t : Preserves (inviting id (gn_memberId <$> gs)) (inviteGuarantors id gs t).
Proof.
  unfold inviteGuarantors. repeat (apply preserves_bind; [apply _|intros ?]).
  apply preserves_bind.
  - apply preserves_foldM_in. intros acc item Hin. apply preserves_bind; [|apply _].
    apply inviting_one. by apply list_elem_of_fmap_2.
  - intros results. apply preserves_bind; [by apply inviting_loan|]. intros ?. apply _.
Qed.

#[export] Instance ok_request id t m dto : Preserves ok (requestGuarantors id t m dto).
Proof.
  intros s r s' E HP. unfold requestGuarantors in E.
  rewrite bind_gets, bind_or_throw in E. case_match; [|by simplify_eq].
  rewrite bind_gets, bind_or_throw in E. case_match; [|by simplify_eq].
  rewrite bind_gets in E. do 4 (rewrite bind_throw_if in E; case_match; [by simplify_eq|]).
  match type of E with inviteGuarantors _ ?gs _ _ = _ => set (requested := gs) in * end.
  match goal with Hx : existsb _ requested = false |- _ => rename Hx into Hno end.
  refine (preserves_strengthen _ _ _ (inviting_guarantors id requested t) _ _ _ E HP _).
  intros g Hg Hl (item & Em & Hin)%list_elem_of_fmap Hst. apply not_true_iff_false in Hno. apply Hno.
  apply existsb_exists. exists item. rewrite <- list_elem_of_In. split; [done|]. apply bool_decide_eq_true.
  rewrite <- Em. apply list_elem_of_fmap_2. unfold rows_of_loan.
  apply list_elem_of_In, List.filter_In. split; [apply List.filter_In; split; [by apply list_elem_of_In|]|].
  - by apply bool_decide_eq_true_2.
  - unfold active_guarantor_row. by rewrite Hst.
Qed.

(** *** Applications *)
#[export] Instance core_lift {A X} (f : LendingWorld -> X) (r : result A) : Frames f (lreturn r).
Proof. intros s. unfold lreturn, on_base. by destruct r, s. Qed.

#[export] Instance ok_create_guarantors t id gs : Preserves ok (create_guarantors t id gs).
Proof. unfold create_guarantors. apply _. Qed.
#[export] Instance ok_applyBody dto t m u req c : Preserves ok (applyBody dto t m u req c).
Proof. unfold applyBody, check_amounts. apply _. Qed.
#[export] Instance ok_doApply dto t m u req c : Preserves ok (doMemberApply dto t m u req c).
Proof. unfold doMemberApply. apply _. Qed.
#[export] Instance ok_memberApply dto t m u req key : Preserves ok (memberApply dto t m u req key).
Proof. unfold memberApply, correlation_id. apply _. Qed.

(** *** Status updates and reviews *)
#[export] Instance ok_updateStatus id target reason t who role req :
  Preserves ok (updateStatus id target reason t who role req).
Proof. unfold updateStatus. apply _. Qed.

End Endpoints.

(** *** Money that moves meanwhile *)
Section Postings.
Context `{UuidSource, Sha256, Environment, DecimalLib, Numbers}.

#[export] Instance core_txn td : Frames base_core (transaction_create td).
Proof. frame_handler @transaction_create. Qed.
#[export] Instance core_txn_update id f : Frames base_core (transaction_update id f).
Proof. frame_handler @transaction_update. Qed.
#[export] Instance core_journal jd : Frames base_core (journal_create jd).
Proof. frame_handler @journal_create. Qed.
#[export] Instance core_actor t o : Frames base_core (actor_or_system t o).
Proof. unfold actor_or_system, resolveSystemActorId. apply _. Qed.
#[export] Instance core_installment r : Frames base_core (installment_create r).
Proof. frame_handler @installment_create. Qed.
#[export] Instance ok_balance cs t id amount dir : Preserves (ok_base cs) (applyBalanceChange t id amount dir).
Proof. unfold applyBalanceChange. apply _. Qed.
#[export] Instance ok_postEntry cs p : Preserves (ok_base cs) (postEntry p).
Proof. unfold postEntry, postEntryBody, positive_amount. apply _. Qed.
#[export] Instance ok_transfer cs t a b n ref who descr : Preserves (ok_base cs) (postInternalTransfer t a b n ref who descr).
Proof. unfold postInternalTransfer, transferBody, positive_amount. apply _. Qed.
#[export] Instance core_schedule t l at_ g sch : Frames base_core (create_schedule t l at_ g sch).
Proof. unfold create_schedule. apply _. Qed.
#[export] Instance core_disburse_audit id t who acct l txn z at_ due ip : Frames base_core (disburse_audit id t who acct l txn z at_ due ip).
Proof. unfold disburse_audit. apply _. Qed.
#[export] Instance ok_disburse cs id t who ip m : Preserves (ok_base cs) (disburse id t who ip m).
Proof. unfold disburse, disburseBody. apply _. Qed.
#[export] Instance ok_review id a reason c t who ip h : Preserves ok (review_process id a reason c t who ip h).
Proof. unfold review_process, review_execute. apply _. Qed.
End Postings.
