(* ===== verification/RecoveryJobs.v ===== *)
(** * RecoveryJobs: the worker of the guarantor-recovery queue

    [src/src/modules/notifications/processors/guarantor-recovery.processor.ts]:
    the notice of intent, and the debit executed after it.  Clocks are in UTC;
    seven days later is seven times 24 hours later. *)
From S2P Require Import Prelude Money Json Format Schema Ledger Repayment AuditLogs Redis.
From S2P Require Import LoanRules Recovery.

(** The member's messages: a text to each address that is not empty. *)
Definition notify (channel : NotificationChannel) (type : string) (address : option string)
    (body : string) : M bool :=
  match truthy address with
  | None => ret false
  | Some a => modify (send_message (mkMessage channel type a body)) ;; ret true
  end.

(** [notificationLog.create] *)
Definition logNotification (row : NotificationLog) : M unit :=
  modify (with_db (fun d => set_notificationLogs (notificationLogs d ++ [row]) d)).

Definition notify_logged (tenantId memberId : string) (channel : NotificationChannel) (type : string)
    (address : option string) (template body : string) : M unit :=
  let* sent := notify channel type address body in
  if sent
  then logNotification (mkNotificationLog tenantId memberId channel (default "" address) template body)
  else ret tt.

Definition isStillDefaulted (status : LoanStatus) (arrearsDays : Z) : bool :=
  (status === DEFAULTED) || (14 <=? arrearsDays).

(** The loan's accepted guarantors, whether or not their hold was released. *)
Definition accepted_guarantors (tenantId loanId : string) (d : DB) : list LoanGuarantor :=
  List.filter (fun g => (lg_loanId g === loanId) && (lg_tenantId g === tenantId)
    && (lg_status g === G_ACCEPTED)) (loanGuarantors d).

Definition mem_contact (d : DB) (memberId : string) : option string * option string :=
  match members d !! memberId with
  | Some m => (mem_phone m, mem_email m)
  | None => (None, None)
  end.

Section Jobs.
Context `{UuidSource, Sha256, DecimalLib}.

(** The worker writes its audit rows itself, under the actor SYSTEM. *)
Definition audit (tenantId action : string) (entityId : option string) (metadata : list (string * json))
  : M unit :=
  let* id := fresh_id in
  let* now := gets clock in
  audit_row_create (mkAuditLog id tenantId (Some "SYSTEM") action "Queue" entityId now None None None
    (Some (JObj metadata)) None JNull JNull None None).

Definition sendNoticeAndScheduleDebit (payload : QueueJob) : M unit :=
  let tenantId := job_tenantId payload in
  let loanId := job_loanId payload in
  let* d := gets db in
  let* loan := or_throw (tenant_loan tenantId loanId d) (NotFound "Loan not found for guarantor recovery notice") in
  if negb (isStillDefaulted (loan_status loan) (loan_arrearsDays loan)) then ret tt else
  let* now := gets clock in
  let executionDate := now + 7 * msPerDay in
  let* parsed := or_throw (parse_decimal (job_defaultAmount payload)) (invalid_decimal (job_defaultAmount payload)) in
  let amount := toFixed2 parsed in
  let borrowerName := match members d !! loan_memberId loan with
    | Some m => mem_firstName m +:+ " " +:+ mem_lastName m
    | None => "" end in
  let message := "NOTICE: " +:+ borrowerName +:+ " is in default. KES " +:+ amount
    +:+ " will be deducted from your account on " +:+ iso_date executionDate
    +:+ " to cover their guarantee. Contact support to dispute." in
  foldM (fun _ g =>
      let contact := mem_contact d (lg_memberId g) in
      notify_logged tenantId (lg_memberId g) SMS "GUARANTOR_RECOVERY_NOTICE" contact.1
        "GUARANTOR_RECOVERY_NOTICE" message ;;
      notify_logged tenantId (lg_memberId g) EMAIL "SYSTEM_NOTICE" contact.2
        "GUARANTOR_RECOVERY_NOTICE" message) tt (accepted_guarantors tenantId loanId d) ;;
  queue_add (mkJob (GUARANTOR_DEBIT_JOB +:+ "." +:+ tenantId +:+ "." +:+ loanId) GUARANTOR_DEBIT_JOB
    tenantId loanId (job_actorId payload) (job_defaultAmount payload) (toISOString executionDate)
    (Z.max (executionDate - now) 0)) ;;
  audit tenantId "GUARANTOR_RECOVERY.DEBIT_SCHEDULED" (Some loanId)
    [("executeAfterIso", JStr (toISOString executionDate)); ("defaultAmount", JStr (job_defaultAmount payload))].

(** What was taken from a guarantor since the rows [before] were read. *)
Definition deducted_since (before : list LoanGuarantor) (g : LoanGuarantor) : Z :=
  lg_recoveredAmount g
  - match List.find (fun b => lg_id b === lg_id g) before with
    | Some b => lg_recoveredAmount b
    | None => 0
    end.

Definition executeDelayedDebit (payload : QueueJob) : M unit :=
  let tenantId := job_tenantId payload in
  let loanId := job_loanId payload in
  let* d := gets db in
  let* loan := or_throw (tenant_loan tenantId loanId d) (NotFound "Loan not found for guarantor debit") in
  if negb (isStillDefaulted (loan_status loan) (loan_arrearsDays loan)) then
    audit tenantId "GUARANTOR_RECOVERY.DEBIT_SKIPPED" (Some loanId)
      [("reason", JStr "LOAN_NO_LONGER_DEFAULTED"); ("status", JStr (loan_status_name (loan_status loan)));
       ("arrearsDays", JNum (pretty (loan_arrearsDays loan)))]
  else
  let before := accepted_guarantors tenantId loanId d in
  let* amount := or_throw (parse_decimal (job_defaultAmount payload)) (invalid_decimal (job_defaultAmount payload)) in
  let* summary := recoverFromGuarantors loanId tenantId (Finite amount) (job_actorId payload) in
  let* d' := gets db in
  foldM (fun _ g =>
      let deducted := deducted_since before g in
      if deducted <=? 0 then ret tt else
      let message := "Guarantor recovery completed: KES " +:+ toFixed2 (dec deducted)
        +:+ " has been deducted for loan " +:+ loan_loanNumber loan +:+ "." in
      let contact := mem_contact d' (lg_memberId g) in
      notify SMS "GUARANTOR_RECOVERY_DEBITED" contact.1 message ;;
      notify EMAIL "SYSTEM_NOTICE" contact.2 message ;;
      ret tt) tt (accepted_guarantors tenantId loanId d') ;;
  audit tenantId "GUARANTOR_RECOVERY.DEBIT_EXECUTED" (Some loanId)
    [("totalRecovered", JStr (toFixed4 (dec (totalRecovered summary))));
     ("remainingDebt", JStr (toFixed4 (remainingDebt summary)))].

Definition process (job : QueueJob) : M unit :=
  if job_name job === GUARANTOR_RECOVERY_NOTICE_JOB then sendNoticeAndScheduleDebit job
  else if job_name job === GUARANTOR_DEBIT_JOB then executeDelayedDebit job
  else throw (BadRequest ("Unsupported guarantor recovery job " +:+ job_name job)).

(** The worker's events after a job. *)
Definition onCompleted (job : QueueJob) : M unit :=
  audit (job_tenantId job) "QUEUE.JOB_COMPLETED" (Some (job_loanId job))
    [("queue", JStr "loan.guarantor.recovery"); ("jobId", JStr (job_id job)); ("name", JStr (job_name job))].

Definition onFailed (job : QueueJob) (error : string) : M unit :=
  audit (job_tenantId job) "QUEUE.JOB_FAILED" (Some (job_loanId job))
    [("queue", JStr "loan.guarantor.recovery"); ("jobId", JStr (job_id job)); ("name", JStr (job_name job));
     ("error", JStr error)].

(** [attempts: 3]: the queue runs a job again when it failed. *)
Fixpoint attempt (n : nat) (job : QueueJob) : M unit := fun w =>
  match process job w with
  | (Err e, w') => match n with
                   | S n' => attempt n' job w'
                   | O => (Err e, w')
                   end
  | r => r
  end.
Definition run_job (job : QueueJob) : M unit := attempt 2 job.
End Jobs.
