(* ===== verification/Offset.v ===== *)
(** * Offset: the daily forfeiture of guarantors of defaulted loans

    [src/src/modules/queue/processors/guarantor-default-offset.processor.ts].
    Domain events for in-process listeners are not modelled. *)
From S2P Require Import Prelude Money Json Format Schema Ledger Repayment AuditLogs Redis.
From S2P Require Import LoanRules Recovery RecoveryJobs.

Definition PROCESS_GUARANTOR_FORFEITURE_JOB : string := "process-guarantor-forfeiture".

Record ForfeitureNotification := mkForfeiture {
  fn_tenantId : string;
  fn_guarantorMemberId : string;
  fn_guarantorUserId : string;
  fn_loanId : string;
  fn_loanNumber : string;
  fn_amountForfeited : Z;
  fn_remainingGuarantee : Z;
  fn_phone : option string;
  fn_email : option string;
  fn_firstName : string;
}.

Definition offset_eligible (l : Loan) : bool :=
  negb (bool_decide (loan_status l ∈ [FULLY_PAID; WRITTEN_OFF]))
  && ((loan_staging l === NPL) || (90 <? loan_arrearsDays l)).

Definition staging_text (s : LoanStaging) : string :=
  match s with PERFORMING => "PERFORMING" | WATCHLIST => "WATCHLIST" | NPL => "NPL" end.

Definition system_audit (tenantId action entityType entityId : string) (oldValue newValue : json)
    (metadata : list (string * json)) : CreateAuditLogDto :=
  mkAuditDto tenantId (Some "SYSTEM") None action (Some entityType) None (Some entityId) None
    (Some oldValue) (Some newValue) metadata None None None None.

(** The guarantor rows the forfeiture may still touch. *)
Definition forfeitable (tenantId : string) (g : LoanGuarantor) : bool :=
  (lg_tenantId g === tenantId) && (lg_status g === G_ACCEPTED) && (lg_holdReleasedAt g === None).

Definition offset_loan_row (outstandingAfter : Z) (l : Loan) : Loan :=
  let nextStatus := if outstandingAfter <=? 0 then FULLY_PAID else WRITTEN_OFF in
  mkLoan (loan_tenantId l) (loan_memberId l) (loan_loanProductId l) (loan_loanNumber l) nextStatus
    (loan_principalAmount l) (if outstandingAfter <=? 0 then 0 else outstandingAfter) (loan_totalRepaid l)
    (loan_accruedInterest l) (if outstandingAfter <=? 0 then 0 else loan_arrearsAmount l)
    (loan_arrearsDays l) (if nextStatus === FULLY_PAID then PERFORMING else NPL)
    (loan_lastAccrualDate l) (loan_dueDate l) (loan_disbursedAt l) (loan_createdAt l) (loan_updatedAt l) (loan_terms l).

Section Offset.
Context `{UuidSource, Sha256, Environment}.

(** One guarantor of the loan: nothing, or the amount forfeited and the
    message to send. *)
Definition forfeit_guarantor (tenantId loanId recoveryAttemptId : string) (jobId : option string)
    (loan : Loan) (forfeitedAt : Z) (guarantor : LoanGuarantor) : M (option ForfeitureNotification) :=
  let* d := gets db in
  match member_account tenantId (lg_memberId guarantor) BOSA d with
  | None => ret None
  | Some (accountId, account) =>
      let remainingGuarantee := Z.max (lg_guaranteedAmount guarantor - lg_recoveredAmount guarantor) 0 in
      let balance := acc_balance account in
      let frozenSavings := acc_frozenSavings account in
      let amount := min3 remainingGuarantee balance frozenSavings in
      if amount <=? 0 then ret None else
      let reference := guarantorForfeitureReference tenantId loanId accountId recoveryAttemptId in
      let* existingForfeiture := gets (fun w => txn_by_reference tenantId reference (db w)) in
      if bool_decide (is_Some existingForfeiture) then ret None else
      let balanceAfter := balance - amount in
      let frozenAfter := frozenSavings - amount in
      let* count := account_updateMany accountId
        (fun a => (acc_tenantId a === tenantId) && (acc_version a =? acc_version account)
          && (acc_balance a =? balance) && (acc_frozenSavings a =? frozenSavings))
        (forfeit_account balanceAfter frozenAfter) in
      throw_if (negb (Nat.eqb count 1))
        (PlainError ("Account OCC update failed for guarantor " +:+ lg_memberId guarantor)) ;;
      guarantor_updateMany (lg_id guarantor) (forfeitable tenantId)
        (recover_guarantor amount forfeitedAt true) ;;
      let description := "Guarantor default offset for loan " +:+ loan_loanNumber loan in
      let* txn := transaction_create (mkTxnData tenantId accountId (Some loanId) WITHDRAWAL T_COMPLETED
        amount balance balanceAfter reference description "SYSTEM" None) in
      postGuarantorForfeitureEntry tenantId reference (dec amount) BOSA (txn_id txn) None
        (Some description) ;;
      createAtomic (system_audit tenantId "GUARANTOR.DEFAULT_OFFSET.FORFEITED" "LoanGuarantor"
        (lg_id guarantor)
        (JObj [("accountBalance", JStr (dp4_toString balance)); ("frozenSavings", JStr (dp4_toString frozenSavings));
               ("recoveredAmount", JStr (dp4_toString (lg_recoveredAmount guarantor)))])
        (JObj [("accountBalance", JStr (dp4_toString balanceAfter)); ("frozenSavings", JStr (dp4_toString frozenAfter));
               ("recoveredAmountIncrement", JStr (dp4_toString amount))])
        (json_opt_field "jobId" jobId ++ [("loanId", JStr loanId); ("loanNumber", JStr (loan_loanNumber loan));
           ("guarantorMemberId", JStr (lg_memberId guarantor))])) ;;
      let member := members d !! lg_memberId guarantor in
      ret (Some (mkForfeiture tenantId (lg_memberId guarantor)
        (from_option mem_userId "" member) loanId (loan_loanNumber loan) amount (remainingGuarantee - amount)
        (member ≫= mem_phone) (member ≫= mem_email) (from_option mem_firstName "" member)))
  end.

Definition offsetBody (loanId tenantId : string) (jobId : option string) (recoveryAttemptId : string)
  : M (Z * list ForfeitureNotification) :=
  let* found := gets (fun w => tenant_loan tenantId loanId (db w)) in
  let* guarantors := gets (fun w => held_guarantors tenantId loanId (db w)) in
  match found with
  | None => ret (0, [])
  | Some loan =>
      if negb (offset_eligible loan) || Nat.eqb (length guarantors) 0 then ret (0, []) else
      let* forfeitedAt := gets clock in
      let* result := foldM (fun acc g =>
          let* n := forfeit_guarantor tenantId loanId recoveryAttemptId jobId loan forfeitedAt g in
          ret match n with
              | Some n => (acc.1 + fn_amountForfeited n, acc.2 ++ [n])
              | None => acc
              end) (0, []) guarantors in
      let totalForfeited := result.1 in
      if totalForfeited <=? 0 then ret (0, []) else
      let outstandingBefore := loan_outstandingBalance loan in
      let outstandingDeduction := Z.min outstandingBefore totalForfeited in
      let outstandingAfter := outstandingBefore - outstandingDeduction in
      let* count := loan_updateMany loanId
        (fun l => (loan_tenantId l === tenantId) && (loan_updatedAt l =? loan_updatedAt loan))
        (offset_loan_row outstandingAfter) in
      throw_if (negb (Nat.eqb count 1)) (PlainError ("Loan OCC update failed for " +:+ loanId)) ;;
      let outstanding_text := if outstandingAfter <=? 0 then "0" else dp4_toString outstandingAfter in
      createAtomic (system_audit tenantId "LOAN.DEFAULT_OFFSET.APPLIED" "Loan" loanId
        (JObj [("status", JStr (loan_status_name (loan_status loan))); ("staging", JStr (staging_text (loan_staging loan)));
               ("outstandingBalance", JStr (dp4_toString outstandingBefore))])
        (JObj [("status", JStr (if outstandingAfter <=? 0 then "FULLY_PAID" else "WRITTEN_OFF"));
               ("outstandingBalance", JStr outstanding_text)])
        (json_opt_field "jobId" jobId ++ [("totalForfeited", JStr (dp4_toString totalForfeited));
           ("outstandingDeduction", JStr (dp4_toString outstandingDeduction));
           ("arrearsDays", JNum (pretty (loan_arrearsDays loan)))])) ;;
      ret (totalForfeited, result.2)
  end.

Definition offsetLoanLocked (loanId tenantId : string) (jobId : option string)
  : M (Z * list ForfeitureNotification) :=
  let* nonce := fresh_id in
  let recoveryAttemptId := match truthy jobId with Some j => j +:+ "-" +:+ nonce | None => nonce end in
  transaction (offsetBody loanId tenantId jobId recoveryAttemptId).

Definition offsetLoan (loanId tenantId : string) (jobId : option string)
  : M (Z * list ForfeitureNotification) :=
  let lockKey := guarantorForfeitureLockKey tenantId loanId in
  let* lockToken := acquireLock lockKey in
  match lockToken with
  | None => ret (0, [])
  | Some token => finally (offsetLoanLocked loanId tenantId jobId) (releaseLock lockKey token)
  end.

(** The messages; a failure to queue one is logged and dropped. *)
Definition notifyGuarantor (n : ForfeitureNotification) : M unit :=
  let message := "Beba SACCO: Automatic guarantor forfeiture - KES " +:+ toFixed2 (dec (fn_amountForfeited n))
    +:+ " has been deducted from your savings to cover the default on loan " +:+ fn_loanNumber n
    +:+ " you guaranteed. Remaining guarantee balance: KES " +:+ toFixed2 (dec (fn_remainingGuarantee n))
    +:+ ". Contact support if you have questions." in
  notify SMS "GUARANTOR_RECOVERY_DEBITED" (fn_phone n) message ;;
  notify EMAIL "SYSTEM_NOTICE" (fn_email n) message ;;
  ret tt.

(** [orderBy: { updatedAt: 'asc' }, take: 250] *)
Definition updated_before (a b : string * Loan) : Prop := loan_updatedAt a.2 <= loan_updatedAt b.2.
#[export] Instance updated_before_dec : RelDecision updated_before.
Proof. intros a b. unfold updated_before. apply _. Defined.

Definition loans_to_offset (d : DB) : list (string * Loan) :=
  take 250 (merge_sort updated_before (List.filter (fun kv => offset_eligible kv.2
    && existsb (fun g => (lg_loanId g === kv.1) && (lg_status g === G_ACCEPTED)
                         && (lg_holdReleasedAt g === None)) (loanGuarantors d))
    (map_to_list (loans d)))).

Definition process (jobName : string) (jobId : option string) : M (Z * string) :=
  if negb (jobName === PROCESS_GUARANTOR_FORFEITURE_JOB) then ret (0, "0.0000") else
  let* loans := gets (fun w => loans_to_offset (db w)) in
  let* result := foldM (fun acc loan =>
      let* r := offsetLoan loan.1 (loan_tenantId loan.2) jobId in
      foldM (fun _ n => notifyGuarantor n) tt r.2 ;;
      ret (if 0 <? r.1 then (acc.1 + 1, acc.2 + r.1) else acc)) (0, 0) loans in
  ret (result.1, dp4_toString result.2).
End Offset.
