(* ===== verification/Financial.v ===== *)
(** * Financial: daily accrual, arrears and the ledger integrity check

    [src/src/modules/financial/financial.service.ts].  An accrual date is a day
    number, midnight UTC of that day in milliseconds. *)
From S2P Require Import Prelude Money Json Format Schema Ledger Repayment AuditLogs Redis.

(** [try { await m } catch (e) { ... }] *)
Definition attempted {A} (m : M A) : M (result A) := fun w => let (r, w') := m w in (Ok r, w').

(** ** Staging *)
Definition classifyStaging (arrearsDays : Z) : LoanStaging :=
  if 90 <=? arrearsDays then NPL else if 30 <=? arrearsDays then WATCHLIST else PERFORMING.

(** ** Installments *)
Definition due_before (a b : LoanRepayment) : Prop := lr_dueDate a <= lr_dueDate b.
#[export] Instance due_before_dec : RelDecision due_before.
Proof. intros a b. unfold due_before. apply _. Defined.

(** The loan's installments that satisfy [P], in table order. *)
Definition loan_installments (tenantId loanId : string) (P : LoanRepayment -> bool) (d : DB)
  : list LoanRepayment :=
  List.filter (fun r => (lr_tenantId r === tenantId) && (lr_loanId r === loanId) && P r)
    (loanRepayments d).

Definition unpaid (r : LoanRepayment) : bool := negb (lr_status r === I_PAID).

(** [OR: [{ lastPenaltyAccrualDate: null }, { lastPenaltyAccrualDate: { lt: accrualDate } }]] *)
Definition not_charged_since (accrualDate : Z) (r : LoanRepayment) : bool :=
  match lr_lastPenaltyAccrualDate r with None => true | Some d => d <? accrualDate end.

(** [Math.round] of a quotient of integers. *)
Definition math_round (n d : Z) : Z := (2 * n + d) / (2 * d).

Section Accrual.
Context `{DecimalLib}.

(** ** The day's interest *)
Definition previous_installment (tenantId loanId : string) (dayNumber : Z) (d : DB) : option LoanRepayment :=
  List.find (fun r => (lr_tenantId r === tenantId) && (lr_loanId r === loanId)
    && (lr_dayNumber r =? dayNumber)) (loanRepayments d).

Definition period_start (tenantId loanId : string) (disbursedAt : option Z) (current : LoanRepayment)
    (d : DB) : Z :=
  let previous := if 1 <? lr_dayNumber current
                  then lr_dueDate <$> previous_installment tenantId loanId (lr_dayNumber current - 1) d
                  else None in
  match previous with
  | Some s => s
  | None => default (lr_dueDate current) disbursedAt
  end.

Definition daysInPeriod (dueDate periodStart : Z) : Z :=
  Z.max 1 (math_round (dueDate - periodStart) msPerDay).

Definition daily_interest (interestDue days : Z) : Z := to_dp4 (d_div (dec interestDue) (inject_Z days)).

Definition computeScheduleBasedDailyInterest (tenantId loanId : string) (disbursedAt : option Z)
    (accrualDate : Z) (d : DB) : Z :=
  let unpaidInstallments := merge_sort due_before (loan_installments tenantId loanId unpaid d) in
  match unpaidInstallments with
  | [] => 0
  | first :: _ =>
      let current := default first
        (List.find (fun r => accrualDate <=? lr_dueDate r) unpaidInstallments) in
      if lr_dueDate current <? accrualDate then 0
      else
        let periodStart := period_start tenantId loanId disbursedAt current d in
        daily_interest (lr_interestDue current) (daysInPeriod (lr_dueDate current) periodStart)
  end.

(** ** Arrears *)
Definition PENALTY_GRACE_DAYS : Z := 3.
Definition penaltyRate : Q := 1 # 100.

Definition installment_penalty (r : LoanRepayment) : Z :=
  to_dp4 (d_times (dec (lr_principalDue r + lr_interestDue r)) penaltyRate).

Definition charge_installment (penalty accrualDate : Z) (r : LoanRepayment) : LoanRepayment :=
  mkLoanRepayment (lr_id r) (lr_tenantId r) (lr_loanId r) (lr_dayNumber r) (lr_dueDate r) I_OVERDUE
    (lr_principalDue r) (lr_interestDue r) (lr_penaltyDue r + penalty) (lr_principalPaid r)
    (lr_interestPaid r) (lr_penaltyPaid r) (lr_amountPaid r) (lr_paidAt r) (lr_method r)
    (Some accrualDate).

(** What is still owed on an installment, never less than zero. *)
Definition installment_shortfall (r : LoanRepayment) : Z :=
  let due := lr_principalDue r + lr_interestDue r + lr_penaltyDue r in
  let paid := lr_principalPaid r + lr_interestPaid r + lr_penaltyPaid r in
  Z.max (due - paid) 0.

Record Arrears := mkArrears {
  arrearsDays : Z;
  arrearsAmount : Z;
  staging : LoanStaging;
}.

Definition overdue_installments (tenantId loanId : string) (accrualDate : Z) (d : DB) : list LoanRepayment :=
  merge_sort due_before (loan_installments tenantId loanId
    (fun r => unpaid r && (lr_dueDate r <? accrualDate)) d).

Definition arrears_of (tenantId loanId : string) (accrualDate : Z) (d : DB) : Arrears :=
  match overdue_installments tenantId loanId accrualDate d with
  | [] => mkArrears 0 0 (classifyStaging 0)
  | earliest :: _ as overdue =>
      let days := (accrualDate - lr_dueDate earliest) / msPerDay in
      mkArrears days (sum_by installment_shortfall overdue) (classifyStaging days)
  end.

Context `{UuidSource}.

Definition penalty_reference (tenantId loanId installmentId : string) (accrualDate : Z) : string :=
  "PENALTY-" +:+ tenantId +:+ "-" +:+ loanId +:+ "-" +:+ installmentId +:+ "-" +:+ iso_date accrualDate.

(** One overdue installment: its penalty is recognised as owed, no balance
    changes. *)
Definition accrue_installment (tenantId loanId fosaAccountId : string) (accrualDate : Z)
    (installment : LoanRepayment) : M unit :=
  let penalty := installment_penalty installment in
  if penalty <=? 0 then ret tt else
  let* updated := installment_updateMany (lr_id installment)
    (fun r => (lr_tenantId r === tenantId) && not_charged_since accrualDate r)
    (charge_installment penalty accrualDate) in
  if Nat.eqb updated 0 then ret tt else
  let reference := penalty_reference tenantId loanId (lr_id installment) accrualDate in
  let* existing := gets (fun w => txn_by_reference tenantId reference (db w)) in
  if bool_decide (is_Some existing) then ret tt else
  let* account := gets (fun w => accounts (db w) !! fosaAccountId) in
  let balance := from_option acc_balance 0 account in
  let description := "Daily overdue installment penalty for loan " +:+ loanId in
  let* txn := transaction_create (mkTxnData tenantId fosaAccountId (Some loanId) PENALTY T_COMPLETED
    penalty balance balance reference description "SYSTEM" None) in
  postPenaltyReceivableEntry tenantId reference (dec penalty) (txn_id txn) None (Some description) ;;
  ret tt.

Definition penalty_eligible (tenantId loanId : string) (accrualDate : Z) : DB -> list LoanRepayment :=
  loan_installments tenantId loanId (fun r => unpaid r
    && (lr_dueDate r <? accrualDate - PENALTY_GRACE_DAYS * msPerDay) && not_charged_since accrualDate r).

Definition applyOverdueInstallmentsAndArrears (tenantId loanId fosaAccountId : string) (accrualDate : Z)
  : M Arrears :=
  let* penaltyEligible := gets (fun w => penalty_eligible tenantId loanId accrualDate (db w)) in
  foldM (fun _ r => accrue_installment tenantId loanId fosaAccountId accrualDate r) tt penaltyEligible ;;
  gets (fun w => arrears_of tenantId loanId accrualDate (db w)).

(** ** Charging the FOSA account *)
Definition debitAccountWithCas (accountId : string) (amount : Z) : M (Z * Z) :=
  let* row := gets (fun w => accounts (db w) !! accountId) in
  let* lockedAccount := or_throw row (Conflict "Concurrent balance modification, retry") in
  let before := acc_balance lockedAccount in
  let after := before - amount in
  let* count := account_updateMany accountId (fun a => acc_version a =? acc_version lockedAccount)
    (fun a => set_balance after (acc_version a + 1) a) in
  throw_if (Nat.eqb count 0) (Conflict "Concurrent balance modification, retry") ;;
  ret (before, after).

(** The interest leg and the legacy maturity penalty have one shape. *)
Definition charge (tenantId loanId accountId reference : string) (type : TransactionType) (amount : Z)
    (description : string) (post : string -> M (JournalEntry * bool)) : M unit :=
  if amount <=? 0 then ret tt else
  let* existing := gets (fun w => txn_by_reference tenantId reference (db w)) in
  if bool_decide (is_Some existing) then ret tt else
  let* '(before, after) := debitAccountWithCas accountId amount in
  let* txn := transaction_create (mkTxnData tenantId accountId (Some loanId) type T_COMPLETED amount
    before after reference description "SYSTEM" None) in
  post (txn_id txn) ;; ret tt.

Definition maturity_penalty (loan : Loan) (accrualDate : Z) : Z :=
  match loan_dueDate loan with
  | Some due => if due <? accrualDate
                then to_dp4 (d_times (dec (loan_outstandingBalance loan)) (1 # 1000)) else 0
  | None => 0
  end.

Definition accrual_reference (tenantId loanId : string) (accrualDate : Z) : string :=
  "ACCRUAL-" +:+ tenantId +:+ "-" +:+ loanId +:+ "-" +:+ iso_date accrualDate.
Definition maturity_reference (tenantId loanId : string) (accrualDate : Z) : string :=
  "PENALTY-" +:+ tenantId +:+ "-" +:+ loanId +:+ "-" +:+ iso_date accrualDate.

Definition accrued_loan (a : Arrears) (accrualDate interest : Z) (l : Loan) : Loan :=
  mkLoan (loan_tenantId l) (loan_memberId l) (loan_loanProductId l) (loan_loanNumber l)
    (if staging a === NPL then DEFAULTED else loan_status l)
    (loan_principalAmount l) (loan_outstandingBalance l) (loan_totalRepaid l)
    (loan_accruedInterest l + interest) (arrearsAmount a) (arrearsDays a) (staging a)
    (Some accrualDate) (loan_dueDate l) (loan_disbursedAt l) (loan_createdAt l) (loan_updatedAt l) (loan_terms l).

Definition accrualBody (loanId : string) (loan : Loan) (accountId : string) (accrualDate interest penalty : Z)
  : M unit :=
  let t := loan_tenantId loan in
  let interestReference := accrual_reference t loanId accrualDate in
  let interestDescription := "Daily interest accrual – " +:+ iso_date accrualDate in
  charge t loanId accountId interestReference INTEREST_ACCRUAL interest interestDescription
    (fun txnId => postInterestAccrualEntry t interestReference (dec interest) FOSA txnId None
       (Some interestDescription)) ;;
  let penaltyReference := maturity_reference t loanId accrualDate in
  let penaltyDescription := "Overdue penalty – " +:+ iso_date accrualDate in
  charge t loanId accountId penaltyReference PENALTY penalty penaltyDescription
    (fun txnId => postPenaltyDeductionEntry t penaltyReference (dec penalty) FOSA txnId None
       (Some penaltyDescription)) ;;
  let* arrears := applyOverdueInstallmentsAndArrears t loanId accountId accrualDate in
  loan_update loanId (accrued_loan arrears accrualDate interest).

(** One loan: [loan] and [fosaAccount] are the rows the run read. *)
Definition accrueInterestForLoan (loanId : string) (loan : Loan) (fosaAccount : option string)
    (accrualDate : Z) : M unit :=
  if loan_outstandingBalance loan <=? 0 then ret tt else
  let* interest := gets (fun w => computeScheduleBasedDailyInterest (loan_tenantId loan) loanId
    (loan_disbursedAt loan) accrualDate (db w)) in
  let penalty := maturity_penalty loan accrualDate in
  match fosaAccount with
  | None => ret tt
  | Some accountId =>
      transaction (accrualBody loanId loan accountId accrualDate interest penalty) ;;
      modify (log_audit "INTEREST.ACCRUAL")
  end.

(** ** The daily run *)
Definition accrual_due (tenantId : string) (accrualDate : Z) (l : Loan) : bool :=
  (loan_tenantId l === tenantId) && bool_decide (loan_status l ∈ [ACTIVE; DISBURSED])
  && match loan_lastAccrualDate l with None => true | Some d => d <? accrualDate end.

(** [member: { include: { accounts: { where: ..., take: 1 } } }] *)
Definition member_fosa (memberId : string) (d : DB) : option string :=
  fst <$> List.find (fun kv => (acc_memberId kv.2 === memberId) && (acc_accountType kv.2 === FOSA)
    && acc_isActive kv.2) (map_to_list (accounts d)).

Definition loans_to_accrue (tenantId : string) (accrualDate : Z) (d : DB)
  : list (string * Loan * option string) :=
  (fun kv => (kv.1, kv.2, member_fosa (loan_memberId kv.2) d)) <$>
    List.filter (fun kv => accrual_due tenantId accrualDate kv.2) (map_to_list (loans d)).

Definition accrual_lock (tenantId : string) (accrualDate : Z) : string :=
  "accrual:" +:+ tenantId +:+ ":" +:+ iso_date accrualDate.

Definition runDailyAccrual (tenantId : string) (day : Z) : M (Z * Z) :=
  let accrualDate := day * msPerDay in
  let* locked := redis_set (accrual_lock tenantId accrualDate) "1" true in
  if negb locked then ret (0, 0) else
  let* _ := fresh_id in
  let* loans := gets (fun w => loans_to_accrue tenantId accrualDate (db w)) in
  foldM (fun acc x =>
    let* r := attempted (accrueInterestForLoan x.1.1 x.1.2 x.2 accrualDate) in
    ret (if is_ok r then (acc.1 + 1, acc.2) else (acc.1, acc.2 + 1))) (0, 0) loans.
End Accrual.

(** ** Exposure of a guarantor *)
Definition guarantor_exposure (memberId tenantId : string) (d : DB) : Z :=
  sum_by lg_guaranteedAmount (List.filter (fun g => (lg_memberId g === memberId)
    && (lg_tenantId g === tenantId) && (lg_status g === G_ACCEPTED)
    && match loans d !! lg_loanId g with
       | Some l => bool_decide (loan_status l ∈ [ACTIVE; DISBURSED; APPROVED])
       | None => false end) (loanGuarantors d)).

(** The exposure, the FOSA balance, and whether the exposure is under one and
    a half times the balance (the ratio for display is left out). *)
Definition getGuarantorExposure (memberId tenantId : string) (d : DB) : Z * Z * bool :=
  let totalExposure := guarantor_exposure memberId tenantId d in
  let fosaBalance := match member_account tenantId memberId FOSA d with
                     | Some (_, a) => acc_balance a | None => 0 end in
  (totalExposure, fosaBalance, 2 * totalExposure <? 3 * fosaBalance).

(** ** Integrity check *)
Definition CREDIT_TYPES : list TransactionType := [DEPOSIT; LOAN_DISBURSEMENT; INTEREST_EARNED; DIVIDEND_PAYOUT].
Definition DEBIT_TYPES : list TransactionType := [WITHDRAWAL; LOAN_REPAYMENT; INTEREST_ACCRUAL; PENALTY; FEE_CHARGE].

Definition completed_sum (accountId : string) (types : list TransactionType) (d : DB) : Z :=
  sum_by txn_amount (List.filter (fun t => (txn_accountId t === accountId)
    && (txn_status t === T_COMPLETED) && bool_decide (txn_type t ∈ types)) (transactions d)).

Record Drift := mkDrift {
  drift_accountId : string;
  drift_expected : Z;
  drift_actual : Z;
}.

Definition account_drift (d : DB) (kv : string * Account) : option Drift :=
  let expected := completed_sum kv.1 CREDIT_TYPES d - completed_sum kv.1 DEBIT_TYPES d in
  let actual := acc_balance kv.2 in
  if 1 <? Z.abs (actual - expected) then Some (mkDrift kv.1 expected actual) else None.

Definition tenant_accounts (tenantId : string) (d : DB) : list (string * Account) :=
  List.filter (fun kv => (acc_tenantId kv.2 === tenantId) && acc_isActive kv.2) (map_to_list (accounts d)).

Definition GL_BYPASS_SCAN_LIMIT : nat := 500.

Definition newer (a b : Transaction) : Prop := txn_createdAt b <= txn_createdAt a.
#[export] Instance newer_dec : RelDecision newer.
Proof. intros a b. unfold newer. apply _. Defined.

Definition has_entry (t : Transaction) (d : DB) : bool :=
  existsb (fun e => (je_tenantId e === txn_tenantId t) && (je_referenceType e === "TRANSACTION")
    && ((je_referenceId e === txn_id t) || (Some (je_referenceId e) === txn_linkedTransactionId t)))
    (journalEntries d).

Definition bypass_rows (tenantId : string) (d : DB) : list Transaction :=
  merge_sort newer (List.filter (fun t => (txn_tenantId t === tenantId)
    && bool_decide (txn_status t ∈ [T_COMPLETED; T_REVERSED]) && negb (has_entry t d)) (transactions d)).

Definition findGlBypasses (tenantId : string) (d : DB) : list Transaction * bool :=
  let rows := take (S GL_BYPASS_SCAN_LIMIT) (bypass_rows tenantId d) in
  let truncated := Nat.ltb GL_BYPASS_SCAN_LIMIT (length rows) in
  (if truncated then take GL_BYPASS_SCAN_LIMIT rows else rows, truncated).

Record IntegrityReport := mkIntegrity {
  checked : nat;
  drifts : list Drift;
  glBypasses : list Transaction;
  glBypassTruncated : bool;
}.

Definition runLedgerIntegrityCheck (tenantId : string) (d : DB) : IntegrityReport :=
  let accounts := tenant_accounts tenantId d in
  let bypasses := findGlBypasses tenantId d in
  mkIntegrity (length accounts) (omap (account_drift d) accounts) bypasses.1 bypasses.2.
