(* ===== verification/FinancialFacts.v ===== *)
(** * FinancialFacts: what one charge and one penalty change *)
From S2P Require Import Prelude Money Json Format Schema Ledger LedgerFacts LedgerInv.
From S2P Require Import LedgerProps LedgerLegs.
From S2P Require Import Repayment AuditLogs Redis Recovery RecoveryFacts Financial.

#[export] Instance LoanRepayment_dec : EqDecision LoanRepayment.
Proof. solve_decision. Defined.

(** A row for [ref] was added, with at most the entry numbered for it. *)
Record recorded (t ref : string) (n : Z) (d d' : DB) : Prop := {
  rc_new : txn_by_reference t ref d = None;
  rc_row : exists x, transactions d' = transactions d ++ [x] /\ txn_tenantId x = t /\ txn_reference x = ref /\
    txn_amount x = n;
  rc_entries : journalEntries d' = journalEntries d \/
    exists e, journalEntries d' = journalEntries d ++ [e] /\ je_tenantId e = t /\
      je_entryNumber e = "JE-LEDGER-" +:+ ref;
}.

Lemma recorded_rows t ref n R d d' : recorded t ref n d d' -> entries_have_rows t R d -> entries_have_rows t R d'.
Proof. intros [Hn (x & Ex & Ht & Hr & _) He]. eapply rows_kept; eauto. Qed.

(** Tables the accrual's charges leave alone. *)
Definition same_loan_tables (d d' : DB) : Prop :=
  loans d' = loans d /\ loanRepayments d' = loanRepayments d /\ loanGuarantors d' = loanGuarantors d.

#[export] Instance same_loan_tables_trans : PreOrder same_loan_tables.
Proof.
  split; [done|]. intros d1 d2 d3 (E1 & E2 & E3) (F1 & F2 & F3). unfold same_loan_tables.
  by rewrite F1, F2, F3.
Qed.

(** The account less [n], at version [v]. *)
Definition debited (n v : Z) (a : Account) : Account := set_balance (acc_balance a - n) v a.

(** [n] charged to the account, once per reference. *)
Record charged (t acct ref : string) (n : Z) (d d' : DB) : Prop := {
  ch_positive : 0 < n;
  ch_account : exists a, accounts d !! acct = Some a /\
    accounts d' = <[acct := debited n (acc_version a + 1) a]> (accounts d);
  ch_recorded : recorded t ref n d d';
  ch_tables : same_loan_tables d d';
  ch_ledger : (forall a, accounts d !! acct = Some a -> acc_tenantId a = t /\ acc_accountType a = FOSA) ->
    je_by_number t ("JE-LEDGER-" +:+ ref) d = None -> ledger_ok d -> ledger_ok d';
}.

Section Facts.
Context `{UuidSource}.

Lemma debitAccountWithCas_Ok acct n w r w' :
  debitAccountWithCas acct n w = (Ok r, w') ->
  exists a, accounts (db w) !! acct = Some a /\ r = (acc_balance a, acc_balance a - n) /\
    w' = with_db (set_accounts (<[acct := debited n (acc_version a + 1) a]> (accounts (db w)))) w.
Proof.
  unfold debitAccountWithCas. intros Hr. run_inv. reflect.
  inv_call account_updateMany_Ok as [[-> _]|(a & -> & Ha & _ & _ & ->)]; [done|].
  match goal with Hx : accounts _ !! _ = Some ?b |- _ => assert (b = a) as -> by congruence end.
  by exists a.
Qed.

(** The posting of a charge: the account's deposits against [leg]'s income. *)
Definition income_post (t ref : string) (leg : Leg) (n : Z) (descr notes : string)
    (jt : option JournalEntryType) (txnId : string) : M (JournalEntry * bool) :=
  postGlOnlyLegEntry t ref leg (dec n) (memberDepositsCode FOSA) txnId None descr notes jt.

Lemma charge_Ok t loanId acct ref type n descr leg notes jt w u w' :
  charge t loanId acct ref type n descr (income_post t ref leg n descr notes jt) w = (Ok u, w') ->
  (w' = w /\ (n <= 0 \/ is_Some (txn_by_reference t ref (db w)))) \/ charged t acct ref n (db w) (db w').
Proof.
  unfold charge. intros Hr. destruct (Z.leb_spec n 0); [run_inv; auto|]. run_inv.
  case_bool_decide as Hx; [run_inv; auto|]. apply eq_None_not_Some in Hx. run_inv.
  match goal with Hd : debitAccountWithCas _ _ _ = _ |- _ => apply debitAccountWithCas_Ok in Hd as (a & Ha & -> & ->) end.
  run_inv. inv_call transaction_create_Ok as (-> & _ & Hnew & Hid & _ & ->).
  match goal with Hp : income_post _ _ _ _ _ _ _ _ _ = _ |- _ => rename Hp into Hpost end.
  unfold income_post in Hpost. apply postGlOnlyLegEntry_Ok in Hpost as (_ & _ & Hpost).
  rewrite to_dp4_dec in *. right. cbn [db with_db bump_uuid nextUuid clock td_tenantId td_reference] in *.
  set (x := txn_of_data _ _ _) in *. cbn in Hnew, Hid.
  destruct Hpost as [(_ & Hdb & Hje)|Hp].
  - rewrite Hdb. split; [done|by exists a| |done|].
    + split; [done| |by left]. eexists. split; [done|]. done.
    + cbn in Hje. unfold je_by_number in *. cbn in Hje. congruence.
  - destruct Hp as (actor & p1 & p2 & _ & Hje & Hg1 & Hg2 & He & Hdb).
    split; [done|by exists a; rewrite Hdb| |by rewrite Hdb|].
    + split; [done|eexists; by rewrite Hdb|]. right. exists r0.1. by rewrite Hdb, He.
    + intros HT Hno Hok. destruct (HT a Ha) as [Ht HF]. rewrite Hdb.
      change (ledger_ok (posted_db acct (debited n (acc_version a + 1) a) [x] r0.1 (db s))).
      apply (deduction_keeps t FOSA acct a (debited n (acc_version a + 1) a) n x _ p1 p2 (leg_credit_code leg) descr);
        try done.
      * apply leg_code_not_deposit.
      * by rewrite He.
      * by rewrite He.
Qed.

(** A penalty recognised as owed: rows are added, no balance moves. *)
Record penalty_recorded (t acct ref : string) (n : Z) (d d' : DB) : Prop := {
  pr_recorded : recorded t ref n d d';
  pr_row : exists x, transactions d' = transactions d ++ [x] /\ txn_accountId x = acct /\
    txn_type x = PENALTY /\ txn_status x = T_COMPLETED /\ txn_amount x = n;
  pr_accounts : accounts d' = accounts d;
  pr_loans : loans d' = loans d;
  pr_installments : loanRepayments d' = loanRepayments d;
  pr_ledger : ledger_ok d -> ledger_ok d';
}.

Lemma penalty_receivable_Ok t acct loanId ref n bal descr (w w1 w2 : World) txn r :
  transaction_create (mkTxnData t acct (Some loanId) PENALTY T_COMPLETED n bal bal ref descr "SYSTEM" None) w
    = (Ok txn, w1) ->
  postPenaltyReceivableEntry t ref (dec n) (txn_id txn) None (Some descr) w1 = (Ok r, w2) ->
  penalty_recorded t acct ref n (db w) (db w2).
Proof.
  intros Ht Hp. apply transaction_create_Ok in Ht as (-> & _ & Hnew & Hid & _ & ->).
  apply postGlOnlyLegEntry_Ok in Hp as (_ & _ & Hp). rewrite to_dp4_dec in Hp.
  set (x := txn_of_data _ _ _) in *. cbn in Hnew, Hid.
  destruct Hp as [(_ & Hdb & _)|(actor & p1 & p2 & _ & _ & Hg1 & Hg2 & He & Hdb)]; rewrite Hdb.
  - split; try done; [split; [done|by exists x|by left]|by exists x|]. intros Hok. exact (ledger_ok_add_txn _ x Hok Hid).
  - split; try done; [split; [done|by exists x|]|by exists x|].
    + right. exists r.1. by rewrite He.
    + intros Hok. change (ledger_ok (set_journalEntries (journalEntries (db w) ++ [r.1])
        (set_transactions (transactions (db w) ++ [x]) (db w)))).
      eapply (ledger_ok_leg _ x _ (mkGLPosting (gl_id p1) (gl_id p2) n _) Hok Hid);
        [done|by rewrite He|by rewrite He|].
      intros t' T g Hg. rewrite (pair_effect (db w) t _ _ p1 p2 _ _ (ok_gl_ids _ Hok) Hg1 Hg2 t' T g Hg).
      rewrite code_effect_other by auto with sacco. by destruct (_ === t').
Qed.

Context `{DecimalLib}.

Lemma accrue_installment_Ok t loanId acct date i w u w' :
  accrue_installment t loanId acct date i w = (Ok u, w') ->
  let P r := (lr_id r === lr_id i) && ((lr_tenantId r === t) && not_charged_since date r) in
  let d1 := set_loanRepayments (update_where P (charge_installment (installment_penalty i) date)
    (loanRepayments (db w))) (db w) in
  let ref := penalty_reference t loanId (lr_id i) date in
  (installment_penalty i <= 0 /\ w' = w) \/
  0 < installment_penalty i /\
    (List.filter P (loanRepayments (db w)) = [] \/ is_Some (txn_by_reference t ref (db w))) /\ db w' = d1 \/
  0 < installment_penalty i /\ penalty_recorded t acct ref (installment_penalty i) d1 (db w').
Proof.
  intros Hr P d1 ref. unfold accrue_installment in Hr.
  destruct (Z.leb_spec (installment_penalty i) 0); [run_inv; auto|]. run_inv.
  inv_call installment_updateMany_Ok as [-> ->].
  match goal with Hx : (if ?c then _ else _) _ = _ |- _ => destruct c eqn:Hn end.
  { run_inv. apply Nat.eqb_eq, length_zero_iff_nil in Hn. right. left. auto. }
  run_inv. case_bool_decide as Hex; [run_inv; right; left; auto|]. run_inv.
  right. right. split; [done|].
  match goal with Hc : transaction_create _ _ = _, Hp : postPenaltyReceivableEntry _ _ _ _ _ _ _ = _ |- _ =>
    exact (penalty_receivable_Ok _ _ _ _ _ _ _ _ _ _ _ _ Hc Hp) end.
Qed.

(** ** The day's penalties *)

(** What [accrue_installment] makes of an installment it was given. *)
Definition charged_row (date : Z) (r : LoanRepayment) : LoanRepayment :=
  if 0 <? installment_penalty r then charge_installment (installment_penalty r) date r else r.

(** Rows were added; no balance, loan or installment changed apart from the
    installments charged. *)
Record penalties_added (t : string) (d d' : DB) : Prop := {
  pa_accounts : accounts d' = accounts d;
  pa_loans : loans d' = loans d;
  pa_transactions : exists xs, transactions d' = transactions d ++ xs;
  pa_rows : forall R, entries_have_rows t R d -> entries_have_rows t R d';
  pa_ledger : ledger_ok d -> ledger_ok d';
}.

Lemma penalties_added_refl t d : penalties_added t d d.
Proof. split; try done. exists []. by rewrite app_nil_r. Qed.

Lemma penalties_added_trans t d1 d2 d3 :
  penalties_added t d1 d2 -> penalties_added t d2 d3 -> penalties_added t d1 d3.
Proof.
  intros [A1 L1 (xs & X1) R1 K1] [A2 L2 (ys & X2) R2 K2]. split; try congruence; auto.
  exists (xs ++ ys). by rewrite X2, X1, app_assoc.
Qed.

Lemma set_loanRepayments_added t x d : penalties_added t d (set_loanRepayments x d).
Proof.
  split; try done; [exists []; by rewrite app_nil_r|]. intros Hok. by eapply ledger_ok_frame.
Qed.

Lemma penalty_recorded_added t acct ref n d d' : penalty_recorded t acct ref n d d' -> penalties_added t d d'.
Proof.
  intros [Hr (x & Ex & _) Ha Hl _ Hk]. split; try done; [by exists [x]|].
  intros R. by eapply recorded_rows.
Qed.

Lemma update_one {A} (key : A -> string) (P : A -> bool) f l i :
  NoDup (key <$> l) -> i ∈ l -> P i = true -> (forall x, P x = true -> key x = key i) ->
  key (f i) = key i -> update_where P f l = replace_row key (f i) l.
Proof.
  intros Hnd Hi HP Hkey Hf. unfold replace_row, update_where. apply list_fmap_ext. intros k x Hx.
  assert (x ∈ l) as Hin by (by eapply list_elem_of_lookup_2). destruct (P x) eqn:E.
  - rewrite (NoDup_key_inj key l x i) by auto. by rewrite Hf, same_refl.
  - rewrite (proj2 (same_false _ _)); [done|]. rewrite Hf. intros Ek.
    rewrite (NoDup_key_inj key l x i) in E by auto. congruence.
Qed.

Lemma accrue_installment_step t loanId acct date i w u w' :
  accrue_installment t loanId acct date i w = (Ok u, w') ->
  NoDup (lr_id <$> loanRepayments (db w)) -> i ∈ loanRepayments (db w) -> lr_tenantId i = t ->
  not_charged_since date i = true ->
  penalties_added t (db w) (db w') /\
  loanRepayments (db w') = replace_row lr_id (charged_row date i) (loanRepayments (db w)).
Proof.
  intros Hr Hnd Hi Ht Hnc. apply accrue_installment_Ok in Hr. unfold charged_row.
  destruct Hr as [[Hn ->]|Hr].
  { rewrite (proj2 (Z.ltb_ge _ _)) by done. split; [apply penalties_added_refl|]. symmetry. by apply replace_row_self. }
  match type of Hr with context [update_where ?P ?f _] =>
    assert (update_where P f (loanRepayments (db w)) = replace_row lr_id (f i) (loanRepayments (db w))) as Hup end.
  { apply update_one; try done; [by rewrite Ht, Hnc, !same_refl|]. intros x Hx. by reflect. }
  rewrite Hup in Hr. destruct Hr as [(Hp & _ & ->)|(Hp & Hrec)]; rewrite (proj2 (Z.ltb_lt _ _)) by done.
  - split; [apply set_loanRepayments_added|done].
  - split; [|by rewrite (pr_installments _ _ _ _ _ _ Hrec)].
    eapply penalties_added_trans; [apply set_loanRepayments_added|by eapply penalty_recorded_added].
Qed.

Lemma charged_row_id date r : lr_id (charged_row date r) = lr_id r.
Proof. unfold charged_row. by destruct (0 <? _). Qed.

Lemma penalties_loop t loanId acct date rest : forall w u w',
  foldM (fun _ r => accrue_installment t loanId acct date r) tt rest w = (Ok u, w') ->
  let l := loanRepayments (db w) in
  NoDup (lr_id <$> l) -> NoDup (lr_id <$> rest) ->
  (forall i, i ∈ rest -> i ∈ l /\ lr_tenantId i = t /\ not_charged_since date i = true) ->
  penalties_added t (db w) (db w') /\
  lr_id <$> loanRepayments (db w') = lr_id <$> l /\
  (forall r, r ∈ l -> (if decide (r ∈ rest) then charged_row date r else r) ∈ loanRepayments (db w')).
Proof.
  induction rest as [|i rest IH]; intros w u w' Hr l Hnd Hnr Hin; cbn [foldM] in Hr; run_inv.
  { split_and!; [apply penalties_added_refl|done|]. intros r Hrl. by rewrite decide_False by apply not_elem_of_nil. }
  destruct (Hin i) as (Hi & Ht & Hnc); [set_solver|]. cbn in Hnr. apply NoDup_cons in Hnr as [Hni Hnr].
  match goal with Hx : accrue_installment _ _ _ _ _ _ = _ |- _ =>
    apply accrue_installment_step in Hx as (Hadd & El); [|done..] end.
  assert (forall r, r ∈ l -> r <> i -> lr_id r <> lr_id i) as Hdiff.
  { intros x Hrl Hne E. by apply Hne, (NoDup_key_inj lr_id l). }
  assert (forall r, r ∈ l -> r <> i -> r ∈ loanRepayments (db s)) as Hother.
  { intros x Hrl Hne. rewrite El. apply replace_row_other; [done|]. rewrite charged_row_id. by apply Hdiff. }
  match goal with Hf : foldM _ ?x _ _ = _ |- _ => destruct x; apply IH in Hf as (Hadd' & Hk & Hrows) end.
  - rewrite El, replace_row_keys in Hk. split_and!; [by eapply penalties_added_trans|done|].
    intros x Hrl. destruct (decide (x = i)) as [->|Hne].
    + rewrite decide_True by set_solver.
      assert (charged_row date i ∉ rest) as Hno.
      { intros Hx. apply Hni. rewrite <- (charged_row_id date i). by apply list_elem_of_fmap_2. }
      specialize (Hrows (charged_row date i)). rewrite decide_False in Hrows by done. apply Hrows.
      rewrite El. apply list_elem_of_fmap. exists i. split; [|done]. by rewrite charged_row_id, same_refl.
    + specialize (Hrows x (Hother x Hrl Hne)).
      destruct (decide (x ∈ rest)); [rewrite decide_True by set_solver|rewrite decide_False by set_solver]; done.
  - by rewrite El, replace_row_keys.
  - done.
  - intros j Hj. destruct (Hin j) as (Hjl & Hjt & Hjn); [set_solver|]. split_and!; try done.
    apply Hother; [done|]. intros ->. apply Hni. by apply list_elem_of_fmap_2.
Qed.
End Facts.
