(* ===== verification/Fixture.v ===== *)
(** * Fixture: a small tenant the witnesses run on *)
From S2P Require Import Prelude Money Json Schema Ledger Repayment AuditLogs.

(** Identifiers [id-0], [id-1], ... *)
Definition counter_uuid : UuidSource := {| uuid n := "id-" +:+ pretty n |}.
#[export] Existing Instance counter_uuid.

(** A digest for the witnesses: 64 bits of a polynomial hash. *)
Fixpoint poly_hash (acc : N) (s : string) : N :=
  match s with
  | EmptyString => acc
  | String c s' => poly_hash ((acc * 257 + N_of_ascii c + 1) mod 2 ^ 64)%N s'
  end.

Fixpoint bits (n : nat) (h : N) : string :=
  match n with
  | O => ""
  | S n' => String (if N.testbit h (N.of_nat n') then "1" else "0")%char (bits n' h)
  end.

Lemma bits_length n h : String.length (bits n h) = n.
Proof. induction n as [|n IH]; [done|]. cbn. by rewrite IH. Qed.

Lemma bits_no_bar n h : no_bar (bits n h) = true.
Proof. induction n as [|n IH]; [done|]. cbn. rewrite IH. by destruct (N.testbit _ _). Qed.

#[export] Instance toy_sha256 : Sha256 := {|
  sha256 s := bits 64 (poly_hash 7 s);
  sha256_length s := bits_length 64 _;
  sha256_hex s := bits_no_bar 64 _ |}.

#[export] Instance no_environment : Environment := {| env _ := None |}.

Definition ks (n : Z) : Z := n * 10000.

Definition account (member : string) (T : AccountType) (balance frozen : Z) : Account :=
  mkAccount "t1" member ("ACC-" +:+ member) T balance true 0 0 frozen false 0.

Definition gl (id code : string) : GLAccount := mkGLAccount id "t1" code true.

Definition chart : list GLAccount :=
  [gl "gl-cash" GL_CODES.CASH; gl "gl-loans" GL_CODES.LOAN_RECEIVABLE;
   gl "gl-fosa" GL_CODES.FOSA_DEPOSITS; gl "gl-bosa" GL_CODES.BOSA_DEPOSITS;
   gl "gl-interest" GL_CODES.INTEREST_INCOME; gl "gl-fees" GL_CODES.FEE_INCOME;
   gl "gl-penalty" GL_CODES.PENALTY_INCOME].

Definition staff : list User :=
  [mkUser "teller" "t1" TELLER; mkUser "system" "t1" SYSTEM].

Definition product : LoanProduct :=
  mkLoanProduct "t1" "Boda" None 2 3 (ks 3) (ks 1) 14 REDUCING_BALANCE.

(** Twelve percent over three months, with a fee of 10. *)
Definition terms : LoanTerms :=
  mkTerms 1200 (ks 10) 3 0 3400221 false None None None None.

Definition open_db : DB :=
  mkDB {[ "fosa1" := account "m1" FOSA 0 0; "bosa1" := account "m1" BOSA 0 0;
          "fosa2" := account "m2" FOSA 0 0; "bosa2" := account "m2" BOSA 0 0 ]}
    [] [] chart staff ∅ [] [] {[ "p1" := product ]}
    {[ "m1" := mkMember "t1" "M-1" "u1" "Ann" "A" (Some "254700000001") None KYC_APPROVED;
       "m2" := mkMember "t1" "M-2" "u2" "Ben" "B" None (Some "m2@example.com") KYC_APPROVED ]}
    [] ∅ [] ∅ [] [].

(** A tenant with a chart of accounts, staff, two members and no money. *)
Definition open_world : World := mkWorld open_db 0 1000 ∅ ∅ [] [] [].

Definition deposit_call (account : string) (amount : Z) (reference : string) : PostEntryParams :=
  mkPostEntry "t1" reference JDEPOSIT account (inject_Z amount) CREDIT (Some "teller") None None
    None false.

Definition withdraw_call (account : string) (amount : Z) (reference : string) : PostEntryParams :=
  mkPostEntry "t1" reference JWITHDRAWAL account (inject_Z amount) DEBIT (Some "teller") None None
    None false.

(** The world after a call, whatever it returned. *)
Definition after {A} (m : M A) (w : World) : World := (m w).2.

Definition balance_of (id : string) (w : World) : option Z :=
  acc_balance <$> accounts (db w) !! id.

(** The fixture with 1000 shillings deposited on [fosa1]. *)
Definition funded_world : World := after (postEntry (deposit_call "fosa1" 1000 "D-1")) open_world.

Example funded_balance : balance_of "fosa1" funded_world = Some (ks 1000).
Proof. reflexivity. Qed.

(** A running loan of member [m1]: 600 principal, 40 interest and 10 penalty
    owed, on three installments of which one is overdue. *)
Definition loan1 : Loan :=
  mkLoan "t1" "m1" "p1" "LN-1" ACTIVE (ks 1000) (ks 600) 0 (ks 40) (ks 10) 0 PERFORMING None None
    (Some 10) 0 0 terms.

Definition installment (id : string) (day : Z) (status : InstallmentStatus) (pen int prin : Z)
  : LoanRepayment :=
  mkLoanRepayment id "t1" "loan1" day (day * 86400000) status (ks prin) (ks int) (ks pen) 0 0 0 0 None
    "CASH" None.

Definition installments : list LoanRepayment :=
  [installment "r1" 1 I_OVERDUE 10 20 200; installment "r2" 2 I_PENDING 0 20 200;
   installment "r3" 3 I_PENDING 0 20 200].

Definition loan_world : World :=
  with_db (fun d => set_loanRepayments installments (set_loans {[ "loan1" := loan1 ]} d)) funded_world.

Definition repay_call (amount : Z) (reference : string) : ProcessRepaymentInput :=
  mkRepaymentInput "t1" (Finite (inject_Z amount)) reference "teller" None (Some "loan1") None None
    None None None None None None.

(** A run that would have thrown did not. *)
Ltac refute := match goal with E : _ = (Err _, _) |- _ => vm_compute in E; discriminate E end.
