(* ===== verification/LedgerTheorems.v ===== *)
(** * LedgerTheorems: what LedgerService promises

    Natural postings, transfers, reversals of single postings and legs keep the
    general ledger equal to the members' balances, postings are
    idempotent, committed funds are never debited, a reversal restores the
    balance once; and where the code departs from its documentation. *)
From S2P Require Import Prelude Money Schema Ledger LedgerFacts LedgerInv LedgerProps LedgerLegs Fixture.

Section Theorems.
Context `{UuidSource}.

(** One call of the public API.  A call that opens its own database
    transaction may fail; a call inside its caller's transaction counts when
    the caller commits it (an error there rolls the caller back).  Postings go
    in their natural direction; reversals target single-account postings, as
    reverseTransaction's documentation asks.  A caller may write a transaction
    row of its own that moves no balance, and post general-ledger-only legs
    that refer to it, between accounts that hold no member deposits. *)
Inductive ledger_step : World -> World -> Prop :=
| step_post p dir w r w' :
    natural_direction (pe_journalType p) = Some dir -> pe_direction p = dir ->
    (pe_inTx p = true -> is_ok r = true) -> postEntry p w = (r, w') -> ledger_step w w'
| step_transfer t f to amt ref actor descr w r w' :
    postInternalTransfer t f to amt ref actor descr w = (r, w') -> ledger_step w w'
| step_reverse t id reason o inTx w r w' :
    (forall t0, txn_by_id t id (db w) = Some t0 -> single_account_type (txn_type t0) = true) ->
    (inTx = true -> is_ok r = true) -> reverseTransaction t id reason o inTx w = (r, w') -> ledger_step w w'
| step_row row w :
    (txn_id row ∉ (txn_id <$> transactions (db w))) ->
    ledger_step w (with_db (fun d => set_transactions (transactions d ++ [row]) d) w)
| step_leg t ref leg amt row actor descr w r w' :
    row ∈ transactions (db w) -> single_account_type (txn_type row) = false ->
    postLoanRepaymentLegEntry t ref leg amt (txn_id row) actor descr w = (Ok r, w') -> ledger_step w w'
| step_penalty t ref amt row actor descr w r w' :
    row ∈ transactions (db w) -> single_account_type (txn_type row) = false ->
    postPenaltyReceivableEntry t ref amt (txn_id row) actor descr w = (Ok r, w') -> ledger_step w w'.

Lemma ledger_step_ok w w' : ledger_ok (db w) -> ledger_step w w' -> ledger_ok (db w').
Proof.
  intros Hok Hs. destruct Hs as [p dir w [r|e] w' Hd <- Hin Hr|t f to amt ref actor descr w [r|e] w' Hr
    |t id reason o inTx w [r|e] w' Hty Hin Hr|row w Hf|? ? ? ? row ? ? w r w' Hrow Hty Hr
    |? ? ? row ? ? w r w' Hrow Hty Hr].
  - apply postEntry_Ok in Hr as (actor & w1 & w2 & _ & Hpos & Hb & -> & E1 & _).
    rewrite <- E1 in Hok. by eapply postEntryBody_keeps.
  - apply postEntry_Err in Hr as ->; [done|]. destruct (pe_inTx p); [by discriminate Hin|done].
  - apply postInternalTransfer_Ok in Hr as (w1 & Hpos & Hne & Hb & ->).
    by eapply transferBody_keeps.
  - by apply postInternalTransfer_Err in Hr as ->.
  - apply reverseTransaction_Ok in Hr as (actor & w1 & w2 & _ & Hb & -> & E1).
    rewrite <- E1 in Hok, Hty. apply reverseTransactionBody_Ok in Hb.
    pose proof Hb as (t0 & ? & ? & ? & Ht0 & _).
    eapply reversed_posting_keeps; eauto.
  - destruct inTx; [by discriminate Hin|]. by apply reverseTransaction_Err in Hr as ->.
  - by apply ledger_ok_add_txn.
  - by eapply postGlOnlyLegEntry_keeps; [exact Hok|apply cash_not_deposit|..].
  - by eapply postGlOnlyLegEntry_keeps; [exact Hok|apply loans_not_deposit|..].
Qed.

(** C1: Along every sequence of the LedgerService calls of [ledger_step] (a
    posting in its natural direction, a transfer, a reversal of a
    single-account posting, and the general-ledger-only legs of a cash
    repayment and of a penalty accrual; in a transaction of their own, failing
    ones included, or in a caller's that commits), the ledger invariant
    stays: each tenant's deposit accounts in the general ledger carry exactly
    the sum of the members' balances, every journal entry refers to a
    transaction row, and single-account postings stay reversible.  (A leg that
    debits a deposit account balances only together with the debit its caller
    makes, which the theorems of those callers cover.) *)
Theorem ledger_reachable_ok w w' :
  ledger_ok (db w) -> rtc ledger_step w w' -> ledger_ok (db w').
Proof. intros Hok Hs. induction Hs; eauto using ledger_step_ok. Qed.

(** ** Idempotency *)
Lemma find_none_of {A} (P : A -> bool) (l : list A) :
  (forall x, x ∈ l -> P x = false) -> List.find P l = None.
Proof.
  intros HP. destruct (List.find P l) as [x|] eqn:E; [|done].
  apply find_some_elem in E as [Hin Hx]. rewrite HP in Hx by done. done.
Qed.

(** An entry referring to a fresh id is the only one. *)
Lemma je_by_fresh_transaction t id d e :
  (forall e0, e0 ∈ journalEntries d -> je_referenceId e0 ∈ (txn_id <$> transactions d)) ->
  (id ∉ (txn_id <$> transactions d)) ->
  je_tenantId e = t -> je_referenceType e = "TRANSACTION" -> je_referenceId e = id ->
  List.find (fun e => (je_tenantId e === t) && (je_referenceType e === "TRANSACTION")
    && (je_referenceId e === id)) (journalEntries d ++ [e]) = Some e.
Proof.
  intros Hrefs Hid Ht Hty Hr. rewrite find_app_none.
  - cbn. by rewrite Ht, Hty, Hr, !same_refl.
  - apply find_none_of. intros x Hx. apply andb_false_iff. right. apply bool_decide_eq_false.
    intros Heq. apply Hrefs in Hx. by rewrite Heq in Hx.
Qed.

(** After a posting, its reference finds its row and its row finds its entry. *)
Lemma postEntryBody_recorded t ref j id amount dir actor descr link loan w r w' :
  ledger_ok (db w) ->
  postEntryBody t ref j id amount dir actor descr link loan w = (Ok r, w') ->
  txn_by_reference t ref (db w') = Some (posted_transaction r) /\
  je_by_transaction t (txn_id (posted_transaction r)) (db w') = Some (posted_journalEntry r).
Proof.
  intros Hok Hr. apply postEntryBody_Ok in Hr as [(_ & -> & ? & ?)|Hf]; [done|].
  destruct Hf as (a & ty & codes & p1 & p2 & Href & _ & _ & _ & _ & _ & Hid & _ & _ & -> & ->).
  split.
  - unfold txn_by_reference in *. cbn. rewrite find_app_none by done. cbn.
    by rewrite !same_refl.
  - by apply je_by_fresh_transaction; [apply ok_refs|..].
Qed.

(** C2: Idempotency: once a reference has been posted, any further postEntry
    call with the same tenant and reference, whatever its other parameters,
    returns the stored transaction and journal entry, marked as a replay,
    and leaves the database and the audit trail untouched. *)
Theorem postEntry_idempotent p p2 actor w r w1 :
  ledger_ok (db w) -> postEntry p w = (Ok r, w1) ->
  pe_tenantId p2 = pe_tenantId p -> pe_reference p2 = pe_reference p ->
  0 < to_dp4 (pe_amount p2) -> pe_actorId p2 = Some actor ->
  postEntry p2 w1 =
    (Ok (mkPosted (posted_transaction r) (posted_journalEntry r) true), w1).
Proof.
  intros Hok Hr Ht Href Hpos Ha.
  apply postEntry_Ok in Hr as (actor0 & w0 & w2 & _ & _ & Hb & E2 & E1 & _).
  rewrite <- E1 in Hok. apply (postEntryBody_recorded _ _ _ _ _ _ _ _ _ _ _ _ _ Hok) in Hb as [Hx Hy].
  rewrite <- E2 in Hx, Hy. unfold postEntry, positive_amount. rewrite Ha, Ht, Href.
  unfold bind at 1. cbn [actor_or_system ret]. unfold bind at 1.
  replace (to_dp4 (pe_amount p2) <=? 0) with false by (symmetry; by apply Z.leb_gt).
  cbn [throw_if ret].
  assert (forall j id a d act ds l lo, postEntryBody (pe_tenantId p) (pe_reference p) j id a d act
    ds l lo w1 = (Ok (mkPosted (posted_transaction r) (posted_journalEntry r) true), w1)) as Hrun.
  { intros. unfold postEntryBody, bind, gets. rewrite Hx. by rewrite Hy. }
  unfold bind at 1. destruct (pe_inTx p2); [|unfold transaction]; by rewrite Hrun.
Qed.

(** ** Funds that must stay *)

(** C3: Safety of a debit: when postEntry debits an account, the balance falls
    by exactly the rounded amount, no other account changes, the funds
    committed to guarantor holds and locks stay covered, and the minimum
    balance stays unless the account allows negatives. *)
Theorem postEntry_debit_floor p w r w' :
  postEntry p w = (Ok r, w') -> pe_direction p = DEBIT -> posted_replayed r = false ->
  exists a a', accounts (db w) !! pe_accountId p = Some a /\
    accounts (db w') = <[pe_accountId p := a']> (accounts (db w)) /\
    acc_balance a' = acc_balance a - to_dp4 (pe_amount p) /\
    acc_lockedBalance a' + acc_frozenSavings a' <= acc_balance a' /\
    (acc_allowsNegative a' = false -> acc_minimumBalance a' <= acc_balance a').
Proof.
  intros Hr Hd Hnew. apply postEntry_Ok in Hr as (actor & w1 & w2 & _ & Hpos & Hb & -> & E1 & _).
  apply postEntryBody_Ok in Hb as [(Hrep & _)|Hf]; [congruence|].
  destruct Hf as (a & ty & codes & p1 & p2 & _ & (Ha & Hfl & _) & _ & _ & _ & _ & _ & _ & _ & -> & ->).
  rewrite Hd, E1 in *. apply active_account_Some in Ha as (Hl & _ & _). specialize (Hfl eq_refl).
  exists a, (moved a (signed DEBIT (to_dp4 (pe_amount p)))). unfold debit_floor in Hfl.
  split_and!; [done|cbn; by rewrite E1|cbn; lia|cbn; lia|]. cbn. intros Hn. rewrite Hn in Hfl. lia.
Qed.

(** An account flagged allowsNegative still cannot be overdrawn: when its
    committed funds are non-negative, no debit that goes through leaves a
    negative balance. *)
Theorem allowsNegative_cannot_overdraw t id amount w ch w' a :
  applyBalanceChange t id amount DEBIT w = (Ok ch, w') ->
  accounts (db w) !! id = Some a -> acc_allowsNegative a = true ->
  0 <= acc_lockedBalance a + acc_frozenSavings a ->
  0 <= balanceAfter ch.
Proof.
  intros Hr Ha Hneg Hc. apply applyBalanceChange_Ok in Hr as (b & Hb & Hfl & -> & _ & _).
  apply active_account_Some in Hb as (Hb & _ & _). assert (b = a) as -> by congruence.
  specialize (Hfl eq_refl). unfold debit_floor in Hfl. cbn. lia.
Qed.

(** ** Refinement of an account book *)

(** The abstract state: the balance of every account, and the references
    already posted, in order. *)
Definition Book : Type := gmap string Z * list (string * string).

Definition book_of (d : DB) : Book :=
  (acc_balance <$> accounts d,
   (fun t => (txn_tenantId t, txn_reference t)) <$> transactions d).

(** Posting under a reference moves one balance, once. *)
Definition book_post (key : string * string) (id : string) (delta : Z) (b : Book) : Book :=
  if bool_decide (key ∈ b.2) then b
  else (alter (Z.add delta) id b.1, b.2 ++ [key]).

(** A transfer moves two, once. *)
Definition book_transfer (src dst : string * string) (from to : string) (amount : Z) (b : Book)
  : Book :=
  if bool_decide (src ∈ b.2) then b
  else (alter (Z.add amount) to (alter (Z.add (- amount)) from b.1), b.2 ++ [src; dst]).

Lemma txn_by_reference_None t ref d :
  txn_by_reference t ref d = None -> (t, ref) ∉ (book_of d).2.
Proof.
  intros Hn Hin. cbn in Hin. apply list_elem_of_fmap in Hin as (x & [= -> ->] & Hx).
  apply list_elem_of_In in Hx. eapply List.find_none in Hn; [|exact Hx]. cbn in Hn.
  by rewrite !same_refl in Hn.
Qed.

Lemma txn_by_reference_Some t ref d x :
  txn_by_reference t ref d = Some x -> (t, ref) ∈ (book_of d).2.
Proof.
  intros Hs. apply find_some_elem in Hs as [Hin HP]. reflect. subst.
  cbn. apply list_elem_of_fmap. by exists x.
Qed.

Lemma balances_insert (m : gmap string Account) id a delta :
  m !! id = Some a -> acc_balance <$> <[id := moved a delta]> m =
  alter (Z.add delta) id (acc_balance <$> m).
Proof.
  intros Ha. apply map_eq. intros k. rewrite lookup_fmap, lookup_alter, !lookup_fmap.
  case_decide as Hk; [subst k|].
  - rewrite lookup_insert_eq, Ha. cbn. f_equal. lia.
  - by rewrite lookup_insert_ne.
Qed.

(** C37: Refinement: seen through the account book, a successful postEntry is
    exactly one abstract posting of the rounded, signed amount, replays
    included. *)
Theorem postEntry_refines_book p w r w' :
  postEntry p w = (Ok r, w') ->
  book_of (db w') = book_post (pe_tenantId p, pe_reference p) (pe_accountId p)
    (signed (pe_direction p) (to_dp4 (pe_amount p))) (book_of (db w)).
Proof.
  intros Hr. apply postEntry_Ok in Hr as (actor & w1 & w2 & _ & Hpos & Hb & -> & <- & _).
  unfold book_post. apply postEntryBody_Ok in Hb as [(_ & -> & Hs & _)|Hf].
  - apply txn_by_reference_Some in Hs. by rewrite bool_decide_eq_true_2.
  - destruct Hf as (a & ty & codes & p1 & p2 & Hn & (Ha & _) & _ & _ & _ & _ & _ & _ & _ & -> & ->).
    apply txn_by_reference_None in Hn. rewrite bool_decide_eq_false_2 by done.
    apply active_account_Some in Ha as (Hl & _ & _). unfold book_of. cbn.
    by rewrite (balances_insert _ _ a), fmap_app.
Qed.

(** Refinement: a successful internal transfer is one abstract transfer:
    the source loses what the destination gains, under two linked
    references, and a repeated transfer moves nothing. *)
Theorem transfer_refines_book t f to amt ref actor descr w r w' :
  postInternalTransfer t f to amt ref actor descr w = (Ok r, w') ->
  book_of (db w') = book_transfer (t, ref +:+ "-SRC") (t, ref +:+ "-DST") f to (to_dp4 amt)
    (book_of (db w)).
Proof.
  intros Hr. apply postInternalTransfer_Ok in Hr as (w1 & Hpos & Hne & Hb & ->).
  unfold book_transfer. apply transferBody_Ok in Hb as [(_ & [x Hs] & ->)|Hf].
  - apply txn_by_reference_Some in Hs. by rewrite bool_decide_eq_true_2.
  - destruct Hf as (a & b & codes & p1 & p2 & Hn & (Ha & _) & (Hb & _) & _ & _ & _ & _ & _ & _ & ->).
    apply txn_by_reference_None in Hn. rewrite bool_decide_eq_false_2 by done.
    apply active_account_Some in Ha as (Hla & _ & _).
    apply active_account_Some in Hb as (Hlb & _ & _).
    unfold book_of. cbn. cbn in Hlb. f_equal.
    + by rewrite (balances_insert _ _ b), (balances_insert _ _ a).
    + unfold update_where. rewrite <- list_fmap_compose, (list_fmap_ext _
        (fun t => (txn_tenantId t, txn_reference t))).
      * by rewrite !fmap_app, <- app_assoc.
      * intros i x _. cbn. by destruct (_ === _).
Qed.

(** ** Reversals *)
Lemma txn_by_fresh_id t id (l : list Transaction) x :
  (id ∉ (txn_id <$> l)) -> txn_id x = id -> txn_tenantId x = t ->
  List.find (fun y => (txn_id y === id) && (txn_tenantId y === t)) (l ++ [x]) = Some x.
Proof.
  intros Hid Hx Ht. rewrite find_app_none.
  - cbn. by rewrite Hx, Ht, !same_refl.
  - apply find_none_of. intros y Hy. apply andb_false_iff. left. apply bool_decide_eq_false.
    intros <-. apply Hid. apply list_elem_of_fmap. by exists y.
Qed.

Lemma alter_add_back (m : gmap string Z) id delta :
  alter (Z.add (- delta)) id (alter (Z.add delta) id m) = m.
Proof.
  apply map_eq. intros k. rewrite !lookup_alter.
  case_decide as Hk; [subst k|done]. destruct (m !! id) as [x|]; [|by case_decide].
  rewrite decide_True by done. simpl. f_equal. lia.
Qed.

(** A reversal undoes a posting once: every balance is back where it was
    before the posting, and any further attempt to reverse the same
    transaction is refused as a conflict without touching anything. *)
Theorem reversal_restores_once p w r w1 reason o rv w2 reason' actor inTx :
  ledger_ok (db w) -> natural_direction (pe_journalType p) = Some (pe_direction p) ->
  postEntry p w = (Ok r, w1) -> posted_replayed r = false ->
  reverseTransaction (pe_tenantId p) (txn_id (posted_transaction r)) reason o false w1
    = (Ok rv, w2) ->
  acc_balance <$> accounts (db w2) = acc_balance <$> accounts (db w) /\
  reverseTransaction (pe_tenantId p) (txn_id (posted_transaction r)) reason' (Some actor) inTx w2
    = (Err (Conflict ("Transaction " +:+ txn_id (posted_transaction r)
         +:+ " has already been reversed")), w2).
Proof.
  intros Hok Hdir Hr Hnew Hrev.
  apply postEntry_Ok in Hr as (act & w0 & w1' & _ & Hpos & Hb & Ew1 & Ew0 & _).
  apply postEntryBody_Ok in Hb as [(Hrep & _)|Hf]; [congruence|].
  destruct Hf as (a & ty & codes & p1 & p2 & _ & (Ha & _) & _ & _ & _ & _ & Hid & _ & _ & -> & ->).
  apply active_account_Some in Ha as (Hla & Hta & _). rewrite Ew0 in *.
  cbn [posted_transaction txn_id txn_of_data] in *.
  apply reverseTransaction_Ok in Hrev as (act2 & w3 & w4 & _ & Hb & Ew2 & Ew3).
  apply reverseTransactionBody_Ok in Hb
    as (t0 & e0 & p0 & b & Ht0 & _ & _ & _ & _ & (Hb & _) & _ & _ & _ & _ & _ & _ & Hdb).
  rewrite Ew3, Ew1 in *. cbn [db with_db bump_uuid] in *. rewrite Ew0 in *.
  unfold txn_by_id in Ht0. cbn [transactions posted_db set_journalEntries set_transactions] in Ht0.
  rewrite txn_by_fresh_id in Ht0 by done. injection Ht0 as <-.
  apply active_account_Some in Hb as (Hlb & _ & _). cbn [txn_accountId txn_of_data td_accountId] in Hlb.
  cbn in Hlb. rewrite lookup_insert_eq in Hlb. injection Hlb as <-.
  split.
  - match type of Hdb with context [reversal_direction ?x] =>
      assert (signed (reversal_direction x) (txn_amount x)
        = - signed (pe_direction p) (to_dp4 (pe_amount p))) as Hs
        by by apply reversal_direction_opposite
    end.
    rewrite Ew2, Hdb. cbn zeta. rewrite Hs. cbn.
    rewrite (balances_insert _ _ (moved a (signed (pe_direction p) (to_dp4 (pe_amount p)))))
      by apply lookup_insert_eq.
    rewrite (balances_insert _ _ a) by done. apply alter_add_back.
  - unfold reverseTransaction. unfold bind at 1. cbn [actor_or_system ret].
    assert (reverseTransactionBody (pe_tenantId p) (uuid (nextUuid w0)) reason' actor w2 =
      (Err (Conflict ("Transaction " +:+ uuid (nextUuid w0) +:+ " has already been reversed")), w2))
      as Hbody.
    { unfold reverseTransactionBody. unfold bind at 1, gets at 1. cbn beta iota.
      unfold txn_by_id. rewrite Ew2, Hdb. cbn [transactions set_transactions].
      rewrite find_update_where by done. cbn [transactions posted_db set_journalEntries set_transactions].
      erewrite find_app_some by (by apply txn_by_fresh_id). csimpl.
      rewrite same_refl. unfold bind at 1. cbn. by rewrite same_refl. }
    unfold bind. destruct inTx; [by rewrite Hbody|].
    unfold transaction. rewrite Hbody. by destruct w2.
Qed.

(** Journal types DIVIDEND_PAYOUT and TRANSFER are never posted by
    postEntry: on a reference not used before the call throws, and when it
    runs in its own transaction the database is as before. *)
Theorem postEntry_unsupported p w r w' :
  txn_by_reference (pe_tenantId p) (pe_reference p) (db w) = None ->
  pe_journalType p = JDIVIDEND_PAYOUT \/ pe_journalType p = JTRANSFER ->
  postEntry p w = (r, w') ->
  is_ok r = false /\ (pe_inTx p = false -> db w' = db w).
Proof.
  intros Hn Hj Hr. destruct r as [r|e]; [exfalso|split; [done|]].
  - apply postEntry_Ok in Hr as (act & w1 & w2 & _ & _ & Hb & _ & E1 & _).
    apply postEntryBody_Ok in Hb as [(_ & _ & Hs & _)|Hf]; [rewrite E1 in Hs; congruence|].
    destruct Hf as (a & ty & codes & p1 & p2 & _ & _ & _ & Hcodes & _).
    destruct Hj as [Hj|Hj]; rewrite Hj in Hcodes; discriminate.
  - intros Hin. by eapply postEntry_Err.
Qed.

(** Reversing one leg of a transfer is accepted and corrupts the books:
    after a transfer, reverseTransaction on the source leg returns normally,
    credits the source without debiting the destination, and leaves the
    destination's deposit account in the general ledger short of the members'
    balances by the amount transferred. *)
Theorem reversed_transfer_leg_unbacks t f to amt ref actor descr w r w1 reason o rv w2 b g :
  ledger_ok (db w) -> postInternalTransfer t f to amt ref actor descr w = (Ok r, w1) ->
  tr_replayed r = false -> accounts (db w) !! to = Some b ->
  find_gl t (memberDepositsCode (acc_accountType b)) (db w) = Some g ->
  reverseTransaction t (txn_id (tr_from r)) reason o false w1 = (Ok rv, w2) ->
  gl_net (gl_id g) (db w2) = deposits t (acc_accountType b) (db w2) - to_dp4 amt.
Proof.
  intros Hok Hr Hnew Hb Hg Hrev.
  apply postInternalTransfer_Ok in Hr as (w0 & Hpos & Hne & Hbody & Ew1).
  pose proof (transferBody_keeps _ _ _ _ _ _ _ _ _ _ Hok Hpos Hne Hbody) as Hok1.
  apply transferBody_Ok in Hbody as [(Hrep & _)|Hf]; [congruence|].
  destruct Hf as (a & b' & codes & p1 & p2 & _ & (Ha & _) & (Hb' & _) & Hcodes & Hg1 & Hg2 &
    Hid1 & Hid2 & -> & Ed1).
  apply active_account_Some in Ha as (Hla & Hta & _).
  apply active_account_Some in Hb' as (Hlb & Htb & _).
  cbn in Hlb. rewrite lookup_insert_ne in Hlb by done. assert (b' = b) as -> by congruence.
  set (rows := transfer_rows t f to ref actor (default "Internal transfer" descr) (to_dp4 amt) a b w) in *.
  apply reverseTransaction_Ok in Hrev as (act2 & w3 & w4 & _ & Hbody & Ew2 & Ew3).
  apply reverseTransactionBody_Ok in Hbody
    as (t0 & e0 & p0 & c & Ht0 & _ & He0 & Hp0 & _ & (Hc & _) & _ & _ & _ & Hpost & _ & _ & Hdb).
  rewrite Ew3, Ew1 in *.
  (* the row and the entry the reversal works from *)
  assert (t0 = set_txn_link (txn_id rows.2) rows.1) as ->.
  { unfold txn_by_id in Ht0. rewrite Ed1 in Ht0. cbn [transactions set_journalEntries set_transactions] in Ht0.
    rewrite find_update_where in Ht0 by done.
    erewrite find_app_some in Ht0 by (by apply txn_by_fresh_id). csimpl in Ht0.
    rewrite same_refl in Ht0. by injection Ht0. }
  unfold je_by_transaction in He0. rewrite Ed1 in He0. cbn [journalEntries set_journalEntries] in He0.
  rewrite je_by_fresh_transaction in He0 by (done || apply Hok). injection He0 as <-.
  injection Hp0 as <-. apply active_account_Some in Hc as (Hlc & Htc & _).
  assert (acc_tenantId c = t /\ acc_accountType c = acc_accountType a) as [_ HTc].
  { rewrite Ed1 in Hlc. cbn in Hlc. rewrite lookup_insert_ne, lookup_insert_eq in Hlc by done.
    by injection Hlc as <-. }
  set (src := set_txn_link (txn_id rows.2) rows.1) in *.
  assert (signed (reversal_direction src) (txn_amount src) = to_dp4 amt) as Hs.
  { rewrite (reversal_direction_opposite src DEBIT Hpos eq_refl). cbn. lia. }
  assert (find_gl t (memberDepositsCode (acc_accountType b)) (db w0) = Some g) as Hg0
    by (by rewrite Ed1).
  (* the ledger and the deposits after the reversal *)
  rewrite Ew2, Hdb. cbn zeta. unfold gl_net, deposits.
  cbn [journalEntries accounts set_transactions posted_db set_journalEntries set_accounts].
  rewrite gl_net_app, (entry_net_single _ _ _ Hpost), (ok_backed _ Hok1 _ _ _ Hg0).
  rewrite (deposits_insert _ _ _ _ c) by done.
  cbn [jd_posting]. rewrite posting_net_swapped.
  rewrite (pair_effect _ t _ _ _ _ _ _ (ok_gl_ids _ Hok) Hg1 Hg2 t _ g Hg).
  rewrite same_refl, (resolveGlCodes_transfer _ _ _ _ _ Hcodes), Htc, HTc, !same_refl.
  cbn [andb acc_balance moved set_balance]. rewrite Hs. destruct (_ === _); lia.
Qed.
End Theorems.

(** ** Witnesses *)
Lemma open_ok : ledger_ok open_db.
Proof.
  split.
  - by_decision.
  - constructor.
  - intros t T g Hg. unfold deposits. rewrite map_sum_zero; [done|].
    eapply (map_Forall_impl (fun _ a => acc_balance a = 0));
      [by_decision|].
    intros k a Ha. unfold deposit_of. by destruct (_ && _).
  - intros e He. by apply elem_of_nil in He.
  - intros t e Ht. by apply elem_of_nil in Ht.
Qed.

(** A deposit, a transfer between the member's accounts, a withdrawal that
    overdraws and fails, and the reversal of the deposit. *)
Definition day_1 : World := funded_world.
Definition day_2 : World :=
  after (postInternalTransfer "t1" "fosa1" "bosa1" (inject_Z 200) "X-1" "teller" None) day_1.
Definition day_3 : World := after (postEntry (withdraw_call "fosa1" 5000 "W-1")) day_2.
Definition day_4 : World := after (postEntry (withdraw_call "fosa1" 300 "W-2")) day_3.

Lemma run_after {A} (m : M A) w : m w = ((m w).1, after m w).
Proof. unfold after. by destruct (m w). Qed.

Lemma ledger_reachable_ok_witness :
  rtc ledger_step open_world day_4 /\ ledger_ok (db day_4) /\
  balance_of "fosa1" day_4 = Some (ks 500) /\ balance_of "bosa1" day_4 = Some (ks 200).
Proof.
  assert (rtc ledger_step open_world day_4) as Hs.
  { eapply rtc_l; [by eapply (step_post (deposit_call "fosa1" 1000 "D-1") CREDIT), run_after|].
    eapply rtc_l; [by eapply step_transfer, run_after|].
    eapply rtc_l; [by eapply (step_post (withdraw_call "fosa1" 5000 "W-1") DEBIT), run_after|].
    eapply rtc_l; [by eapply (step_post (withdraw_call "fosa1" 300 "W-2") DEBIT), run_after|].
    apply rtc_refl. }
  split_and!; [exact Hs|exact (ledger_reachable_ok open_world day_4 open_ok Hs)|..]; vm_compute; reflexivity.
Defined.

Definition replay_call : PostEntryParams := deposit_call "fosa1" 7 "D-1".

Lemma postEntry_idempotent_witness :
  match postEntry (deposit_call "fosa1" 1000 "D-1") open_world with
  | (Ok r, w1) => postEntry replay_call w1 =
      (Ok (mkPosted (posted_transaction r) (posted_journalEntry r) true), w1)
  | _ => False
  end.
Proof.
  destruct (postEntry _ open_world) as [[r|e] w1] eqn:E; [|refute].
  by apply (postEntry_idempotent (deposit_call "fosa1" 1000 "D-1") replay_call "teller" open_world r w1 open_ok E).
Defined.

Lemma postEntry_debit_floor_witness :
  match postEntry (withdraw_call "fosa1" 300 "W-9") funded_world with
  | (Ok r, w') => exists a a', accounts (db funded_world) !! "fosa1" = Some a /\
      accounts (db w') = <["fosa1" := a']> (accounts (db funded_world)) /\
      acc_balance a' = acc_balance a - to_dp4 (inject_Z 300) /\
      acc_lockedBalance a' + acc_frozenSavings a' <= acc_balance a' /\
      (acc_allowsNegative a' = false -> acc_minimumBalance a' <= acc_balance a')
  | _ => False
  end.
Proof.
  destruct (postEntry _ funded_world) as [[r|e] w'] eqn:E; [|refute].
  apply (postEntry_debit_floor (withdraw_call "fosa1" 300 "W-9") funded_world r w' E eq_refl).
  vm_compute in E. by injection E as <- _.
Defined.

(** An account that allows negatives. *)
Definition overdraft_world : World :=
  with_db (fun d => set_accounts (<["fosa1" :=
    mkAccount "t1" "m1" "ACC-m1" FOSA (ks 50) true 0 0 (ks 10) true 0]> (accounts d)) d) open_world.

Lemma allowsNegative_cannot_overdraw_witness :
  match applyBalanceChange "t1" "fosa1" (ks 40) DEBIT overdraft_world with
  | (Ok ch, _) => 0 <= balanceAfter ch
  | _ => False
  end /\
  (applyBalanceChange "t1" "fosa1" (ks 41) DEBIT overdraft_world).1 = Err insufficient_funds.
Proof.
  split; [|vm_compute; reflexivity].
  destruct (applyBalanceChange _ _ _ _ overdraft_world) as [[ch|e] w'] eqn:E; [|refute].
  by eapply (allowsNegative_cannot_overdraw "t1" "fosa1" (ks 40) overdraft_world ch w' _ E).
Defined.

Lemma postEntry_refines_book_witness :
  match postEntry (withdraw_call "fosa1" 300 "W-9") funded_world with
  | (Ok _, w') => book_of (db w') = book_post ("t1", "W-9") "fosa1" (- ks 300) (book_of (db funded_world))
  | _ => False
  end.
Proof.
  destruct (postEntry _ funded_world) as [[r|e] w'] eqn:E; [|refute].
  exact (postEntry_refines_book (withdraw_call "fosa1" 300 "W-9") funded_world r w' E).
Defined.

Lemma transfer_refines_book_witness :
  match postInternalTransfer "t1" "fosa1" "bosa1" (inject_Z 200) "X-1" "teller" None funded_world with
  | (Ok _, w') => book_of (db w') = book_transfer ("t1", "X-1-SRC") ("t1", "X-1-DST") "fosa1" "bosa1"
      (ks 200) (book_of (db funded_world))
  | _ => False
  end.
Proof.
  destruct (postInternalTransfer _ _ _ _ _ _ _ funded_world) as [[r|e] w'] eqn:E; [|refute].
  exact (transfer_refines_book "t1" "fosa1" "bosa1" (inject_Z 200) "X-1" "teller" None funded_world r w' E).
Defined.

Lemma reversal_restores_once_witness :
  match postEntry (deposit_call "fosa1" 1000 "D-1") open_world with
  | (Ok r, w1) =>
      let id := txn_id (posted_transaction r) in
      match reverseTransaction "t1" id "typo" None false w1 with
      | (Ok _, w2) => acc_balance <$> accounts (db w2) = acc_balance <$> accounts open_db /\
          reverseTransaction "t1" id "again" (Some "teller") false w2 =
            (Err (Conflict ("Transaction " +:+ id +:+ " has already been reversed")), w2)
      | _ => False
      end
  | _ => False
  end.
Proof.
  destruct (postEntry _ open_world) as [[r|e] w1] eqn:E; [|refute]. cbn zeta.
  assert (posted_replayed r = false) as Hnew by (vm_compute in E; by injection E as <- _).
  destruct (reverseTransaction _ _ "typo" None false w1) as [[rv|e] w2] eqn:E2.
  - exact (reversal_restores_once (deposit_call "fosa1" 1000 "D-1") open_world r w1 "typo" None rv w2
      "again" "teller" false open_ok eq_refl E Hnew E2).
  - vm_compute in E. injection E as <- <-. refute.
Defined.

Definition dividend_call : PostEntryParams :=
  mkPostEntry "t1" "DIV-1" JDIVIDEND_PAYOUT "fosa1" (inject_Z 50) CREDIT (Some "teller") None None
    None false.

Lemma postEntry_unsupported_witness :
  is_ok (postEntry dividend_call funded_world).1 = false /\
  (pe_inTx dividend_call = false -> db (after (postEntry dividend_call) funded_world) = db funded_world).
Proof.
  apply (postEntry_unsupported dividend_call funded_world);
    [vm_compute; reflexivity|by left|apply run_after].
Defined.

Lemma funded_ok : ledger_ok (db funded_world).
Proof.
  apply (ledger_step_ok open_world); [exact open_ok|].
  by apply (step_post (deposit_call "fosa1" 1000 "D-1") CREDIT open_world _ funded_world
    eq_refl eq_refl ltac:(discriminate) (run_after _ open_world)).
Qed.

Lemma reversed_transfer_leg_unbacks_witness :
  match postInternalTransfer "t1" "fosa1" "bosa1" (inject_Z 200) "X-1" "teller" None funded_world with
  | (Ok r, w1) =>
      match reverseTransaction "t1" (txn_id (tr_from r)) "undo" None false w1 with
      | (Ok _, w2) => gl_net "gl-bosa" (db w2) = deposits "t1" BOSA (db w2) - ks 200
      | _ => False
      end
  | _ => False
  end.
Proof.
  destruct (postInternalTransfer _ _ _ _ _ _ _ funded_world) as [[r|e] w1] eqn:E; [|refute].
  assert (tr_replayed r = false) as Hnew by (vm_compute in E; by injection E as <- _).
  destruct (reverseTransaction _ _ "undo" None false w1) as [[rv|e] w2] eqn:E2.
  - by apply (reversed_transfer_leg_unbacks "t1" "fosa1" "bosa1" (inject_Z 200) "X-1" "teller" None
      funded_world r w1 "undo" None rv w2 (account "m1" BOSA 0 0) (gl "gl-bosa" GL_CODES.BOSA_DEPOSITS)
      funded_ok E Hnew).
  - vm_compute in E. injection E as <- <-. refute.
Defined.
