(* ===== verification/AccountsTheorems.v ===== *)
(** * AccountsTheorems: what account opening, transfers and the history promise *)
From S2P Require Import Prelude Money Schema Ledger LedgerFacts LedgerInv LedgerProps Accounts.
From S2P Require Import AccountFacts Fixture LedgerTheorems.

Section Accounts.
Context `{UuidSource}.

Lemma provisionMemberAccounts_run t m w :
  has_active_account t m (db w) FOSA = true -> has_active_account t m (db w) BOSA = true ->
  provisionMemberAccounts t m w = (Ok ([], REQUIRED_TYPES), w).
Proof. intros HF HB. unfold provisionMemberAccounts, bind, gets. cbn. by rewrite HF, HB. Qed.

(** Provisioning a member gives them an active FOSA and an active BOSA
    account, never a second one of a type; what it reports as created and
    skipped are the two types, and running it again creates nothing. *)
Theorem provisioning_complete t m w r w' :
  one_account_each (db w) -> provisionMemberAccounts t m w = (Ok r, w') ->
  has_active_account t m (db w') FOSA = true /\ has_active_account t m (db w') BOSA = true /\
  one_account_each (db w') /\ r.1 ++ r.2 ≡ₚ REQUIRED_TYPES /\
  provisionMemberAccounts t m w' = (Ok ([], REQUIRED_TYPES), w').
Proof.
  intros Hone Hr.
  assert (has_active_account t m (db w') FOSA = true /\ has_active_account t m (db w') BOSA = true /\
    one_account_each (db w') /\ r.1 ++ r.2 ≡ₚ REQUIRED_TYPES) as (HF & HB & Hone' & Hperm).
  2: { split_and!; try done. by apply provisionMemberAccounts_run. }
  unfold provisionMemberAccounts in Hr. cbn [REQUIRED_TYPES List.filter] in Hr.
  apply bind_Ok in Hr as (d & w0 & Hg & Hr). apply gets_Ok in Hg as [<- <-].
  destruct (has_active_account t m (db w) FOSA) eqn:EF, (has_active_account t m (db w) BOSA) eqn:EB;
    cbn [negb] in Hr; run_inv; try done;
    match goal with Hc : claim_account_seq _ _ _ = _ |- _ => apply claim_account_seq_Ok in Hc as Ea end;
    match goal with Hf : foldM _ _ _ ?w0 = _ |- _ =>
      apply create_missing_holds in Hf as (Hin & Hout & Ho);
      [|repeat constructor; set_solver
       |intros T HT; rewrite (has_active_ext _ _ _ _ _ Ea); set_solver] end;
    (split_and!; [..|apply Ho; by eapply one_account_ext|try done; by apply Permutation_swap]);
    first [apply Hin; set_solver|rewrite Hout by set_solver; by rewrite (has_active_ext _ _ _ _ _ Ea)].
Qed.

(** Opening an account keeps one active account per member and type, gives
    the new account an empty balance and the tenant's policy, and is refused
    when the member already has an active account of the type. *)
Theorem create_opens_once t m T w r w' :
  one_account_each (db w) -> create t m T w = (r, w') ->
  one_account_each (db w') /\
  match r with
  | Ok id => has_active_account t m (db w) T = false /\
      exists number, accounts (db w') =
        <[id := new_account t m number T (account_policy t T (db w))]> (accounts (db w))
  | Err _ => accounts (db w') = accounts (db w)
  end.
Proof.
  intros Hone Hr. destruct r as [id|e].
  - unfold create in Hr. run_inv. destruct (List.find _ _) as [[i0 a0]|] eqn:Hno; run_inv.
    assert (has_active_account t m (db s) T = false) as Hnone.
    { apply not_true_iff_false. intros (i1 & a & Ha & Ht & Hm & HT & Hact)%has_active_account_spec.
      eapply List.find_none in Hno; [|by apply list_elem_of_In, elem_of_map_to_list].
      cbn in Hno. by rewrite Hm, HT, Hact, !same_refl in Hno. }
    inv_call claim_account_seq_Ok as Ea.
    match goal with Hc : account_create _ _ = _ |- _ =>
      pose proof (account_create_holds _ _ _ _ _ _ _ _ Hc) as (_ & _ & Ho);
      apply account_create_Ok in Hc as (_ & _ & ->) end.
    cbn [db log_audit with_db]. split_and!; [|done|].
    + apply Ho; [by eapply one_account_ext|by rewrite (has_active_ext _ _ _ _ _ Ea)].
    + eexists. cbn. by rewrite Ea.
  - assert (accounts (db w') = accounts (db w)) as Ea; [|split; [by eapply one_account_ext|done]].
    revert Hr. unfold create, bind, gets, throw_if.
    destruct (negb _); [by intros [= _ <-]|]. cbn [ret].
    destruct (List.find _ _) as [[i0 a0]|]; [by intros [= _ <-]|].
    destruct (claim_account_seq t 1 w) as [[seq|e1] w1] eqn:Ec; [|by injection Ec].
    apply claim_account_seq_Ok in Ec.
    destruct (account_create _ w1) as [[id|e1] w2] eqn:E2; [done|]. intros [= _ <-]. rewrite <- Ec.
    revert E2. unfold account_create, bind, gets, throw_if, fresh_id. cbn.
    destruct (_ || _); [by intros [= _ <-]|]. cbn [ret].
    destruct (bool_decide _); [by intros [= _ <-]|done].
Qed.

(** What a member owns in total. *)
Definition member_total (m : string) (d : DB) : Z :=
  map_sum (fun a => if acc_memberId a === m then acc_balance a else 0) (accounts d).

(** A transfer stays within one member: both accounts belong to the same
    member of the tenant, they differ, and nobody's total changes. *)
Theorem transfer_conserves_members src dto t actor w r w' :
  transfer src dto t actor w = (Ok r, w') ->
  src <> dto_destinationAccountId dto /\
  (exists a b, active_account t src (db w) = Some a /\
     active_account t (dto_destinationAccountId dto) (db w) = Some b /\
     acc_memberId a = acc_memberId b) /\
  forall m, member_total m (db w') = member_total m (db w).
Proof.
  unfold transfer. intros Hr. run_inv. reflect. subst.
  inv_call @postInternalTransfer_Ok as (w1 & _ & Hne & Hb & Ew).
  split_and!; [done|naive_solver|]. intros m. cbn [db log_audit]. rewrite Ew.
  apply transferBody_Ok in Hb as [(_ & _ & ->)|Hf]; [done|].
  destruct Hf as (a & b & codes & p1 & p2 & _ & (Ha & _) & (Hb & _) & _ & _ & _ & _ & _ & _ & ->).
  apply active_account_Some in Ha as (Hla & _). apply active_account_Some in Hb as (Hlb & _).
  apply active_account_Some in Hsome0 as (Hls & _). apply active_account_Some in Hsome as (Hld & _).
  unfold member_total. cbn in Hlb |- *. rewrite lookup_insert_ne in Hlb by done.
  rewrite (map_sum_replace _ _ _ b), (map_sum_replace _ _ _ a)
    by (rewrite ?lookup_insert_ne by done; done).
  assert (acc_memberId a = acc_memberId b) as Hm by congruence.
  cbn. rewrite Hm. destruct (_ === m); lia.
Qed.

(** ** History pages *)
Lemma pages_concat {A} (l : list A) (limit n : nat) :
  (0 < limit)%nat -> (length l <= n * limit)%nat ->
  concat ((fun i => take limit (drop (i * limit) l)) <$> seq 0 n) = l.
Proof.
  intros Hl. revert l. induction n as [|n IH]; intros l Hn.
  - destruct l; [done|]. cbn in Hn. lia.
  - cbn [seq fmap list_fmap concat]. rewrite <- fmap_S_seq, <- list_fmap_compose. cbn [Nat.mul].
    rewrite drop_0. etrans; [|apply (take_drop limit)]. f_equal.
    rewrite <- (IH (drop limit l)) by (rewrite length_drop; lia). f_equal.
    apply list_fmap_ext. intros i x _. cbn. by rewrite drop_drop.
Qed.

(** The history pages 1 to totalPages, read one after the other, list every
    transaction of the account exactly once, newest first. *)
Theorem history_pages_partition id t limit w :
  (0 < limit)%nat -> is_ok (getTransactions id t 1 limit w).1 = true ->
  exists pages total totalPages,
    (forall page, (1 <= page <= totalPages)%nat -> getTransactions id t page limit w =
       (Ok (pages !!! (page - 1)%nat, (total, totalPages)), w)) /\
    length pages = totalPages /\
    Sorted newer (concat pages) /\
    concat pages ≡ₚ List.filter (fun x => (txn_accountId x === id) && (txn_tenantId x === t))
      (transactions (db w)) /\
    total = length (concat pages).
Proof.
  intros Hlim Hok. set (h := account_history id t (db w)).
  set (n := ((length h + limit - 1) / limit)%nat).
  assert (length h <= n * limit)%nat as Hn.
  { unfold n. pose proof (Nat.div_mod_eq (length h + limit - 1) limit).
    pose proof (Nat.mod_upper_bound (length h + limit - 1) limit). nia. }
  exists ((fun i => take limit (drop (i * limit) h)) <$> seq 0 n), (length h), n.
  rewrite (pages_concat h) by done. split_and!; [| | |apply merge_sort_Permutation|done].
  - intros page [Hp1 Hp2]. erewrite (list_lookup_total_correct _ (page - 1))
      by (rewrite list_lookup_fmap, lookup_seq_lt by lia; reflexivity). revert Hok.
    unfold getTransactions, bind, gets, throw_if. by destruct (negb _).
  - by rewrite length_fmap, length_seq.
  - apply Sorted_merge_sort. intros x y. unfold newer. lia.
Qed.
End Accounts.

(** ** Witnesses *)
Definition fresh_member_db : DB :=
  mkDB ∅ [] [] chart staff ∅ [] [] ∅
    {[ "m1" := mkMember "t1" "M-1" "u1" "Ann" "A" None None KYC_APPROVED ]}
    [mkPolicy "t1" BOSA (ks 500) false] ∅ [] ∅ [] [].
Definition fresh_member_world : World := mkWorld fresh_member_db 0 1000 ∅ ∅ [] [] [].

Lemma fresh_one_account : one_account_each fresh_member_db.
Proof. intros t m T id1 a1 id2 a2 H1. cbn in H1. by rewrite lookup_empty in H1. Qed.

Lemma provisioning_complete_witness :
  match provisionMemberAccounts "t1" "m1" fresh_member_world with
  | (Ok r, w') => r = ([FOSA; BOSA], []) /\
      provisionMemberAccounts "t1" "m1" w' = (Ok ([], [FOSA; BOSA]), w')
  | _ => False
  end.
Proof.
  destruct (provisionMemberAccounts "t1" "m1" fresh_member_world) as [[r|e] w'] eqn:E; [|refute].
  split; [vm_compute in E; by injection E as <-|].
  exact (proj2 (proj2 (proj2 (proj2
    (provisioning_complete "t1" "m1" fresh_member_world r w' fresh_one_account E))))).
Defined.

Lemma create_opens_once_witness :
  match create "t1" "m1" BOSA fresh_member_world with
  | (Ok id, w') => one_account_each (db w') /\
      acc_minimumBalance <$> accounts (db w') !! id = Some (ks 500) /\
      (create "t1" "m1" BOSA w').1 = Err (Conflict "Member already has an active BOSA account (ACC-BOSA-000001)")
  | _ => False
  end.
Proof.
  destruct (create "t1" "m1" BOSA fresh_member_world) as [[id|e] w'] eqn:E; [|refute].
  split; [exact (proj1 (create_opens_once "t1" "m1" BOSA fresh_member_world (Ok id) w' fresh_one_account E))|].
  vm_compute in E. injection E as <- <-. by vm_compute.
Defined.

Definition own_transfer : TransferFundsDto := mkTransferDto "bosa1" (inject_Z 250) "k1" None.

Lemma transfer_conserves_members_witness :
  match transfer "fosa1" own_transfer "t1" "teller" funded_world with
  | (Ok _, w') => member_total "m1" (db w') = member_total "m1" (db funded_world) /\
      balance_of "bosa1" w' = Some (ks 250)
  | _ => False
  end.
Proof.
  destruct (transfer "fosa1" own_transfer "t1" "teller" funded_world) as [[r|e] w'] eqn:E; [|refute].
  split; [exact (proj2 (proj2 (transfer_conserves_members "fosa1" own_transfer "t1" "teller"
    funded_world r w' E)) "m1")|].
  vm_compute in E. by injection E as <- <-.
Defined.

Lemma history_pages_partition_witness :
  exists pages total totalPages,
    (forall page, (1 <= page <= totalPages)%nat -> getTransactions "fosa1" "t1" page 2 day_4 =
       (Ok (pages !!! (page - 1)%nat, (total, totalPages)), day_4)) /\
    length pages = totalPages /\
    Sorted newer (concat pages) /\
    concat pages ≡ₚ List.filter (fun x => (txn_accountId x === "fosa1") && (txn_tenantId x === "t1"))
      (transactions (db day_4)) /\
    total = length (concat pages).
Proof.
  apply (history_pages_partition "fosa1" "t1" 2 day_4); [lia|vm_compute; reflexivity].
Defined.
