(* ===== verification/RepaymentTheorems.v ===== *)
(** * RepaymentTheorems: what LoanRepaymentService promises *)
From S2P Require Import Prelude Money Json Schema Ledger LedgerFacts LedgerInv LedgerProps.
From S2P Require Import LedgerLegs Repayment RepaymentFacts Fixture LedgerTheorems.

Definition legs_nonneg (l : Legs) : Prop := 0 <= penalty l /\ 0 <= interest l /\ 0 <= principal l.

(** [paid] follows the waterfall order within what is [owed]. *)
Definition waterfall_order (paid owed : Legs) (over : Z) : Prop :=
  legs_nonneg paid /\ 0 <= over /\
  penalty paid <= penalty owed /\ interest paid <= interest owed /\ principal paid <= principal owed /\
  (0 < interest paid -> penalty paid = penalty owed) /\
  (0 < principal paid -> penalty paid = penalty owed /\ interest paid = interest owed) /\
  (0 < over -> paid = owed).

Lemma waterfall_spec amount owed paid over :
  0 <= amount -> legs_nonneg owed -> waterfall amount owed = (paid, over) ->
  waterfall_order paid owed over /\ legs_sum paid + over = amount.
Proof.
  intros Ha (Hp & Hi & Hr) Hw. unfold waterfall in Hw. injection Hw as <- <-.
  unfold waterfall_order, legs_nonneg, legs_sum. cbn [penalty interest principal].
  destruct (0 <? _) eqn:E; reflect; split_and!; try lia.
  intros _. destruct owed as [p i r]. cbn [penalty interest principal] in *. f_equal; lia.
Qed.

Lemma target_loan_Some input d id l :
  target_loan input d = Some (id, l) -> loans d !! id = Some l.
Proof.
  unfold target_loan, tenant_loan. set (n := match in_loanNumber input with Some _ => _ | None => _ end).
  destruct (truthy (in_loanId input)) as [i|].
  - destruct (loans d !! i) as [l0|] eqn:E; [|done]. case_match; [|done]. by intros [= <- <-].
  - destruct (truthy n) as [num|].
    + intros Hf. apply find_some_elem in Hf as [Hin _]. by apply elem_of_map_to_list in Hin.
    + intros Hh. apply elem_of_map_to_list. apply head_Some_elem_of in Hh.
      rewrite merge_sort_Permutation in Hh. apply list_elem_of_In, List.filter_In in Hh.
      apply list_elem_of_In, Hh.
Qed.

Section Theorems.
Context `{UuidSource}.

Lemma repaymentBody_Ok input amount w s fresh w' :
  repaymentBody input amount w = (Ok (s, fresh), w') ->
  (fresh = false /\ w' = w /\ is_Some (txn_by_reference (in_tenantId input) (in_reference input) (db w))) \/
  (fresh = true /\ repayment_fresh input amount w = (Ok s, w')).
Proof.
  unfold repaymentBody, repayment_replay. intros Hr. run_inv.
  destruct (txn_by_reference _ _ _) as [t|] eqn:E; [destruct (truthy _)|]; run_inv;
    match goal with E0 : (_, _) = (s, fresh) |- _ => injection E0 as <- <- end; eauto 8.
Qed.

Lemma cancelDelayed_db t loan w u w' :
  cancelDelayedGuarantorDebit t loan w = (Ok u, w') -> db w' = db w.
Proof.
  unfold cancelDelayedGuarantorDebit. intros Hr. run_inv.
  refine (foldM_inv _ (fun _ w1 => db w1 = db s) _ _ _ _ _ _ eq_refl Hrun0).
  intros acc x s1 acc' s' _ HI Hb. destruct (_ && _); by run_inv.
Qed.

Lemma processRepayment_Ok input w s w' :
  processRepayment input w = (Ok s, w') ->
  exists fresh w1, not_positive (in_amount input) = false /\
    repaymentBody input (to_dp4 (finite_value (in_amount input))) w = (Ok (s, fresh), w1) /\
    db w' = db w1.
Proof.
  unfold processRepayment. intros Hr. run_inv.
  destruct r0 as [sm fresh]. exists fresh, s1. cbn [fst snd] in *.
  assert (db w' = db s1) as ->.
  { destruct (sum_status sm === DEFAULTED); [run_inv|apply cancelDelayed_db in Hrun0 as <-];
      destruct fresh; by run_inv. }
  unfold on_error in Hrun1. destruct (transaction _ s0) as [[a|e] w1] eqn:Et; [|discriminate Hrun1].
  injection Hrun1 as -> <-. split_and!; [done|by apply transaction_Ok|done].
Qed.

Lemma cancelDelayed_run t loan w :
  exists w', cancelDelayedGuarantorDebit t loan w = (Ok tt, w').
Proof.
  unfold cancelDelayedGuarantorDebit. unfold bind, gets.
  match goal with |- exists w', foldM ?body ?acc ?xs ?w0 = _ =>
    assert (exists acc' w1, foldM body acc xs w0 = (Ok acc', w1)) as ([] & w1 & ->) end; [|by eexists].
  apply foldM_total. intros acc x s. destruct (_ && _); by eexists _, _.
Qed.

Lemma processRepayment_Err input w e w' :
  processRepayment input w = (Err e, w') -> db w' = db w.
Proof.
  unfold processRepayment, throw_if. unfold bind at 1.
  destruct (not_positive _); [by intros [= _ <-]|]. cbn [ret]. unfold bind at 1, on_error at 1.
  destruct (transaction _ w) as [[[s fresh]|e1] w1] eqn:Et.
  - unfold bind. cbn [fst snd]. destruct (sum_status s === DEFAULTED); [by destruct fresh|].
    destruct (cancelDelayed_run (in_tenantId input) (sum_loanId s) w1) as (w2 & ->). by destruct fresh.
  - apply transaction_Err in Et as <-. by intros [= _ <-].
Qed.

Lemma positive_input_nonneg (d : decimal) :
  not_positive d = false -> 0 <= to_dp4 (finite_value d).
Proof.
  intros Hpos. apply to_dp4_nonneg. destruct d as [q|]; [|done]. cbn in *.
  apply Qlt_le_weak, Qnot_le_lt. intros Hle. apply Qle_bool_iff in Hle. congruence.
Qed.

(** A repayment under a reference the ledger has not seen is allocated. *)
Lemma processRepayment_fresh input w s w' :
  processRepayment input w = (Ok s, w') ->
  txn_by_reference (in_tenantId input) (in_reference input) (db w) = None ->
  exists w1, 0 <= to_dp4 (finite_value (in_amount input)) /\
    repayment_fresh input (to_dp4 (finite_value (in_amount input))) w = (Ok s, w1) /\ db w' = db w1.
Proof.
  intros Hr Hn. apply processRepayment_Ok in Hr as (fresh & w1 & Hpos & Hb & E).
  apply repaymentBody_Ok in Hb as [(_ & _ & [x Hx])|[-> Hf]]; [congruence|].
  exists w1. split_and!; [|done|done]. by apply positive_input_nonneg.
Qed.

(** Every shilling of a repayment is accounted for: under new references and
    on a loan with non-negative legs, the amount received (at four decimals)
    equals what the loan's debt falls by plus what the member's FOSA account
    rises by; the loan's total repaid rises by the former; no other loan and no
    other account changes. *)
Theorem repayment_conserves input w s w' id l :
  processRepayment input w = (Ok s, w') ->
  txn_by_reference (in_tenantId input) (in_reference input) (db w) = None ->
  txn_by_reference (in_tenantId input) (in_reference input +:+ "-OVERPAY") (db w) = None ->
  target_loan input (db w) = Some (id, l) -> legs_nonneg (owed_by l) ->
  exists l' accId a,
    let over := sum_overpaymentToFosa s in
    member_account (in_tenantId input) (loan_memberId l) FOSA (db w) = Some (accId, a) /\
    loans (db w') = <[id := l']> (loans (db w)) /\
    to_dp4 (finite_value (in_amount input)) =
      (legs_sum (owed_by l) - legs_sum (owed_by l')) + over /\
    loan_totalRepaid l' = loan_totalRepaid l + (legs_sum (owed_by l) - legs_sum (owed_by l')) /\
    legs_nonneg (owed_by l') /\ 0 <= over /\
    accounts (db w') =
      if 0 <? over then <[accId := moved a over]> (accounts (db w)) else accounts (db w).
Proof.
  intros Hr Hn Hno Htl Hnn. apply processRepayment_fresh in Hr as (w1 & Hamt & Hf & ->); [|done].
  apply repayment_fresh_Ok in Hf as (id0 & l0 & accId & a & paid & over & w2 & Htl0 & _ & Hacc & Hw &
    _ & _ & (-> & l1 & now & Hl1 & Hls) & _ & _ & Haccs).
  assert (id0 = id /\ l0 = l) as [-> ->] by (by rewrite Htl in Htl0; injection Htl0).
  pose proof (target_loan_Some _ _ _ _ Htl) as Hl. assert (l1 = l) as -> by congruence.
  apply waterfall_spec in Hw as [(Hpn & Hov & H1 & H2 & H3 & _) Hsum]; [|done..].
  eexists _, accId, a. cbn zeta. cbn [sum_overpaymentToFosa]. split; [done|]. split; [exact Hls|].
  unfold legs_nonneg, owed_by in *. cbn in *. unfold legs_sum in *. cbn in *. split_and!; try lia.
  destruct (0 <? over) eqn:E; reflect.
  - destruct Haccs as [(_ & [?|[x Hx]])|(_ & b & Hb & ->)]; [lia|congruence|].
    apply find_some_elem in Hacc as [Hin _]. apply elem_of_map_to_list in Hin.
    apply active_account_Some in Hb as (Hb & _). by assert (b = a) as -> by congruence.
  - destruct Haccs as [(-> & _)|(? & _)]; [done|lia].
Qed.

(** The waterfall: a repayment pays the loan's penalty first, then its
    interest, then its principal, each at most what is owed; only what is left
    when all three are settled goes to the FOSA account. *)
Theorem repayment_waterfall_order input w s w' id l :
  processRepayment input w = (Ok s, w') ->
  txn_by_reference (in_tenantId input) (in_reference input) (db w) = None ->
  target_loan input (db w) = Some (id, l) -> legs_nonneg (owed_by l) ->
  waterfall_order (sum_allocated s) (owed_by l) (sum_overpaymentToFosa s).
Proof.
  intros Hr Hn Htl Hnn. apply processRepayment_fresh in Hr as (w1 & Hamt & Hf & _); [|done].
  apply repayment_fresh_Ok in Hf as (id0 & l0 & accId & a & paid & over & w2 & Htl0 & _ & _ & Hw &
    _ & _ & (-> & _) & _).
  assert (id0 = id /\ l0 = l) as [-> ->] by (by rewrite Htl in Htl0; injection Htl0).
  by apply waterfall_spec in Hw as [Hord _].
Qed.

(** A repayment keeps the ledger invariant: its penalty, interest and
    principal legs post to the general ledger without touching the deposit
    accounts, its overpayment is an ordinary deposit; and a repayment that
    throws leaves the database as it was. *)
Theorem repayment_keeps_ledger input w r w' :
  ledger_ok (db w) -> processRepayment input w = (r, w') ->
  ledger_ok (db w') /\ (is_ok r = false -> db w' = db w).
Proof.
  intros Hok Hr. destruct r as [s|e].
  - split; [|done]. apply processRepayment_Ok in Hr as (fresh & w1 & _ & Hb & ->).
    apply repaymentBody_Ok in Hb as [(_ & -> & _)|[_ Hf]]; [done|].
    apply repayment_fresh_Ok in Hf as (id & l & accId & a & paid & over & w2 & _ & _ & _ & _ & _ & _ &
      _ & _ & Hkeep & _). by apply Hkeep.
  - apply processRepayment_Err in Hr as ->. done.
Qed.

(** The duplicate check of processRepayment never recognises a repayment it
    allocated itself: a reference the ledger had not seen is still unseen
    after the repayment went through, so submitting it again allocates it
    again. *)
Theorem repayment_not_idempotent input w s w' :
  processRepayment input w = (Ok s, w') ->
  txn_by_reference (in_tenantId input) (in_reference input) (db w) = None ->
  txn_by_reference (in_tenantId input) (in_reference input) (db w') = None.
Proof.
  intros Hr Hn. apply processRepayment_fresh in Hr as (w1 & _ & Hf & ->); [|done].
  apply repayment_fresh_Ok in Hf as (id & l & accId & a & paid & over & w2 & _ & _ & _ & _ & _ & _ &
    _ & Hown & _).
  rewrite (appended_lookup _ _ _ _ _ _ Hown); [done|].
  intros x Hx _. by apply str_app_longer in Hx.
Qed.
End Theorems.

(** ** Witnesses *)
Lemma loan_world_ok : ledger_ok (db loan_world).
Proof.
  assert (forall d l m, ledger_ok d -> ledger_ok (set_loanRepayments l (set_loans m d))) as Hset.
  { intros d l m. by apply ledger_ok_proper. }
  exact (Hset _ _ _ funded_ok).
Qed.

Lemma loan1_target amount ref : target_loan (repay_call amount ref) (db loan_world) = Some ("loan1", loan1).
Proof. vm_compute. reflexivity. Qed.

Lemma new_reference amount :
  txn_by_reference "t1" "R-1" (db loan_world) = None /\
  txn_by_reference "t1" (in_reference (repay_call amount "R-1") +:+ "-OVERPAY") (db loan_world) = None.
Proof. split; vm_compute; reflexivity. Qed.

Lemma loan1_nonneg : legs_nonneg (owed_by loan1).
Proof. split_and!; by vm_compute. Qed.

(** 700 received against 650 owed: 50 land on the FOSA account. *)
Lemma repayment_conserves_witness :
  match processRepayment (repay_call 700 "R-1") loan_world with
  | (Ok s, w') => exists l' accId a,
      let over := sum_overpaymentToFosa s in
      member_account "t1" "m1" FOSA (db loan_world) = Some (accId, a) /\
      loans (db w') = <["loan1" := l']> (loans (db loan_world)) /\
      to_dp4 (inject_Z 700) = (legs_sum (owed_by loan1) - legs_sum (owed_by l')) + over /\
      loan_totalRepaid l' = loan_totalRepaid loan1 + (legs_sum (owed_by loan1) - legs_sum (owed_by l')) /\
      legs_nonneg (owed_by l') /\ 0 <= over /\
      accounts (db w') =
        if 0 <? over then <[accId := moved a over]> (accounts (db loan_world))
        else accounts (db loan_world)
  | _ => False
  end.
Proof.
  destruct (processRepayment (repay_call 700 "R-1") loan_world) as [[s|e] w'] eqn:E; [|refute].
  exact (repayment_conserves (repay_call 700 "R-1") loan_world s w' "loan1" loan1 E
    (proj1 (new_reference 700)) (proj2 (new_reference 700)) (loan1_target 700 "R-1") loan1_nonneg).
Defined.

Lemma repayment_waterfall_order_witness :
  match processRepayment (repay_call 30 "R-1") loan_world with
  | (Ok s, w') => waterfall_order (sum_allocated s) (owed_by loan1) (sum_overpaymentToFosa s) /\
      sum_allocated s = mkLegs (ks 10) (ks 20) 0
  | _ => False
  end.
Proof.
  destruct (processRepayment (repay_call 30 "R-1") loan_world) as [[s|e] w'] eqn:E; [|refute].
  split.
  - exact (repayment_waterfall_order (repay_call 30 "R-1") loan_world s w' "loan1" loan1 E
      (proj1 (new_reference 30)) (loan1_target 30 "R-1") loan1_nonneg).
  - vm_compute in E. by injection E as <- _.
Defined.

Lemma repayment_keeps_ledger_witness :
  ledger_ok (db (after (processRepayment (repay_call 700 "R-1")) loan_world)) /\
  is_ok (processRepayment (repay_call 700 "R-1") loan_world).1 = true.
Proof.
  split; [|vm_compute; reflexivity].
  exact (proj1 (repayment_keeps_ledger (repay_call 700 "R-1") loan_world _ _ loan_world_ok
    (run_after _ loan_world))).
Defined.

(** The same repayment submitted twice is taken twice. *)
Lemma repayment_not_idempotent_witness :
  match processRepayment (repay_call 100 "R-1") loan_world with
  | (Ok _, w1) => txn_by_reference "t1" "R-1" (db w1) = None /\
      match processRepayment (repay_call 100 "R-1") w1 with
      | (Ok _, w2) => loan_totalRepaid <$> (loans (db w2) !! "loan1") = Some (ks 200)
      | _ => False
      end
  | _ => False
  end.
Proof.
  destruct (processRepayment (repay_call 100 "R-1") loan_world) as [[s|e] w1] eqn:E; [|refute].
  split; [exact (repayment_not_idempotent (repay_call 100 "R-1") loan_world s w1 E (proj1 (new_reference 100)))|].
  vm_compute in E. injection E as <- <-. vm_compute. reflexivity.
Defined.

(** * how a repayment lands on the installments *)
(** What an installment can still take of each leg. *)
Definition principal_target (r : LoanRepayment) : Z :=
  if 0 <? lr_principalDue r then lr_principalDue r else lr_amountPaid r * 100.
Definition penalty_room (r : LoanRepayment) : Z := Z.max (lr_penaltyDue r - lr_penaltyPaid r) 0.
Definition interest_room (r : LoanRepayment) : Z := Z.max (lr_interestDue r - lr_interestPaid r) 0.
Definition principal_room (r : LoanRepayment) : Z := Z.max (principal_target r - lr_principalPaid r) 0.

(** [r'] is [r] after taking something: no leg falls or passes what is due. *)
Record takes (r r' : LoanRepayment) : Prop := {
  takes_id : lr_id r' = lr_id r;
  takes_loan : lr_loanId r' = lr_loanId r /\ lr_tenantId r' = lr_tenantId r;
  takes_due : lr_penaltyDue r' = lr_penaltyDue r /\ lr_interestDue r' = lr_interestDue r /\
    lr_principalDue r' = lr_principalDue r;
  takes_penalty : lr_penaltyPaid r <= lr_penaltyPaid r' <= lr_penaltyPaid r + penalty_room r;
  takes_interest : lr_interestPaid r <= lr_interestPaid r' <= lr_interestPaid r + interest_room r;
  takes_principal : lr_principalPaid r <= lr_principalPaid r' <= lr_principalPaid r + principal_room r;
}.

(** One row takes of each leg what it has room for. *)
Lemma allocate_row_spec now legs row legs' o :
  legs_nonneg legs -> allocate_row now legs row = (legs', o) ->
  legs_nonneg legs' /\
  penalty legs' = penalty legs - Z.min (penalty legs) (penalty_room row) /\
  interest legs' = interest legs - Z.min (interest legs) (interest_room row) /\
  principal legs' = principal legs - Z.min (principal legs) (principal_room row) /\
  let row' := default row o in
  takes row row' /\
  lr_penaltyPaid row' = lr_penaltyPaid row + Z.min (penalty legs) (penalty_room row) /\
  lr_interestPaid row' = lr_interestPaid row + Z.min (interest legs) (interest_room row) /\
  lr_principalPaid row' = lr_principalPaid row + Z.min (principal legs) (principal_room row).
Proof.
  intros (Hp & Hi & Hr) Ha. unfold allocate_row in Ha.
  assert (0 <= penalty_room row /\ 0 <= interest_room row /\ 0 <= principal_room row) as (? & ? & ?)
    by (unfold penalty_room, interest_room, principal_room; lia).
  change (if 0 <? lr_principalDue row then lr_principalDue row else lr_amountPaid row * 100)
    with (principal_target row) in Ha.
  change (Z.max (lr_penaltyDue row - lr_penaltyPaid row) 0) with (penalty_room row) in Ha.
  change (Z.max (lr_interestDue row - lr_interestPaid row) 0) with (interest_room row) in Ha.
  change (Z.max (principal_target row - lr_principalPaid row) 0) with (principal_room row) in Ha.
  unfold legs_nonneg, legs_sum in *.
  destruct (penalty legs + interest legs + principal legs <=? 0) eqn:E1; reflect;
    [|destruct (Z.min (penalty legs) (penalty_room row) + Z.min (interest legs) (interest_room row)
      + Z.min (principal legs) (principal_room row) <=? 0) eqn:E2; reflect];
    injection Ha as <- <-; cbn [default from_option penalty interest principal
      lr_penaltyPaid lr_interestPaid lr_principalPaid id];
    (split_and!; try lia); split; try done; cbn; lia.
Qed.

Section Allocation.
Context `{UuidSource}.

Definition allocation_body (paidAt : Z) (legs : Legs) (row : LoanRepayment) : M Legs :=
  let (legs', updated) := allocate_row paidAt legs row in
  (match updated with
   | Some row' => installment_update (lr_id row) (fun _ => row')
   | None => ret tt
   end) ;;
  ret legs'.

(** One pass of the loop replaces the row in the table. *)
Lemma allocation_body_Ok now legs row w legs' w' :
  NoDup (lr_id <$> loanRepayments (db w)) -> row ∈ loanRepayments (db w) -> legs_nonneg legs ->
  allocation_body now legs row w = (Ok legs', w') ->
  exists row', allocate_row now legs row = (legs', row') /\
    loanRepayments (db w') = replace_row lr_id (default row row') (loanRepayments (db w)).
Proof.
  intros Hnd Hrow Hnn Hr. unfold allocation_body in Hr.
  destruct (allocate_row now legs row) as [legs1 o] eqn:E. exists o. run_inv.
  destruct (allocate_row_spec _ _ _ _ _ Hnn E) as (_ & _ & _ & _ & Ht & _).
  split; [done|]. destruct o as [row'|]; run_inv; cbn [default from_option id].
  - inv_call installment_update_Ok as ->. cbn. unfold replace_row.
    pose proof (takes_id _ _ Ht) as Eid. cbn in Eid. by rewrite Eid.
  - by rewrite replace_row_self.
Qed.

Definition row_paid (rows : list LoanRepayment) (r r' : LoanRepayment) : Prop :=
  r' = r \/ (lr_id r ∈ (lr_id <$> rows) /\ takes r r').

Lemma row_paid_trans row rows x y z :
  (lr_id row ∉ (lr_id <$> rows)) ->
  row_paid [row] x y -> row_paid rows y z -> row_paid (row :: rows) x z.
Proof.
  intros Hnew [->|[Hx1 Hx2]] [->|[Hz1 Hz2]]; unfold row_paid; rewrite fmap_cons.
  - by left.
  - right. split; [apply elem_of_cons; by right|done].
  - right. split; [|done]. apply list_elem_of_singleton in Hx1. rewrite Hx1. apply elem_of_cons; by left.
  - exfalso. apply list_elem_of_singleton in Hx1. rewrite (takes_id _ _ Hx2), Hx1 in Hz1. done.
Qed.

(** What the loop adds to each leg over a list of distinct rows of the table. *)
Lemma allocation_loop now rows : forall legs w legs' w',
  NoDup (lr_id <$> loanRepayments (db w)) -> NoDup (lr_id <$> rows) ->
  (forall r, r ∈ rows -> r ∈ loanRepayments (db w)) -> legs_nonneg legs ->
  foldM (allocation_body now) legs rows w = (Ok legs', w') ->
  sum_by lr_penaltyPaid (loanRepayments (db w')) = sum_by lr_penaltyPaid (loanRepayments (db w))
    + Z.min (penalty legs) (sum_by penalty_room rows) /\
  sum_by lr_interestPaid (loanRepayments (db w')) = sum_by lr_interestPaid (loanRepayments (db w))
    + Z.min (interest legs) (sum_by interest_room rows) /\
  sum_by lr_principalPaid (loanRepayments (db w')) = sum_by lr_principalPaid (loanRepayments (db w))
    + Z.min (principal legs) (sum_by principal_room rows) /\
  Forall2 (row_paid rows) (loanRepayments (db w)) (loanRepayments (db w')).
Proof.
  induction rows as [|row rows IH]; intros legs w legs' w' Hnd Hnr Hin Hnn Hr; cbn [foldM] in Hr.
  { run_inv. unfold legs_nonneg in Hnn. cbn [sum_by]. split_and!; [lia..|].
    apply Forall_Forall2_diag, Forall_forall. by left. }
  apply bind_Ok in Hr as (legs1 & w1 & Hb & Hf).
  assert (row ∈ loanRepayments (db w)) as Hrow by (apply Hin; set_solver).
  cbn in Hnr. apply NoDup_cons in Hnr as [Hnew Hnr].
  apply allocation_body_Ok in Hb as (o & Ha & Et); [|done..].
  destruct (allocate_row_spec _ _ _ _ _ Hnn Ha) as (Hnn1 & Ep & Ei & Er & Ht & Pp & Pi & Pr).
  set (row' := default row o) in *. pose proof (takes_id _ _ Ht) as Eid.
  apply IH in Hf as (Sp & Si & Sr & HF); [|by rewrite Et, replace_row_keys|done| |done].
  2: { intros r Hr. rewrite Et. apply replace_row_other; [apply Hin; set_solver|].
       rewrite Eid. intros E. apply Hnew. rewrite <- E. by apply list_elem_of_fmap_2. }
  rewrite Et in Sp, Si, Sr, HF.
  rewrite (sum_by_replace_row _ _ row) in Sp by done. rewrite (sum_by_replace_row _ _ row) in Si by done.
  rewrite (sum_by_replace_row _ _ row) in Sr by done.
  rewrite !sum_by_cons, Sp, Si, Sr, Pp, Pi, Pr, Ep, Ei, Er. unfold legs_nonneg in Hnn.
  assert (forall f, (forall x, 0 <= f x) -> 0 <= sum_by f rows) as Hs by (intros; by apply sum_by_nonneg).
  assert (0 <= sum_by penalty_room rows /\ 0 <= sum_by interest_room rows /\ 0 <= sum_by principal_room rows)
    as (? & ? & ?) by (split_and!; apply Hs; intros; unfold penalty_room, interest_room, principal_room; lia).
  assert (0 <= penalty_room row /\ 0 <= interest_room row /\ 0 <= principal_room row) as (? & ? & ?)
    by (unfold penalty_room, interest_room, principal_room; lia).
  split_and!; [lia..|].
  eapply Forall2_trans; [|apply (replace_row_Forall2 lr_id (row_paid [row]) row row'); try done|exact HF].
  - intros x y z. by apply row_paid_trans.
  - intros y _. by left.
  - right. split; [by apply list_elem_of_singleton|done].
Qed.

Lemma open_installments_In t loan d r :
  r ∈ open_installments t loan d ->
  r ∈ loanRepayments d /\ bool_decide (lr_status r ∈ [I_PENDING; I_PARTIAL]) = true.
Proof.
  unfold open_installments. rewrite merge_sort_Permutation. intros Hr.
  apply list_elem_of_In, List.filter_In in Hr as [Hr HP]. apply andb_true_iff in HP as [_ HP].
  split; [by apply list_elem_of_In|done].
Qed.

(** The installments receive what the waterfall paid: each leg of the
    allocation raises the paid totals by exactly as much as the loan's PENDING
    and PARTIAL installments have room for, no installment is paid beyond what
    is due on a leg, and every other row of the table is left as it was. *)
Theorem allocation_complete t loan legs w u w' :
  NoDup (lr_id <$> loanRepayments (db w)) -> legs_nonneg legs ->
  applyInstallmentAllocation t loan legs w = (Ok u, w') ->
  let rows := open_installments t loan (db w) in
  sum_by lr_penaltyPaid (loanRepayments (db w')) = sum_by lr_penaltyPaid (loanRepayments (db w))
    + Z.min (penalty legs) (sum_by penalty_room rows) /\
  sum_by lr_interestPaid (loanRepayments (db w')) = sum_by lr_interestPaid (loanRepayments (db w))
    + Z.min (interest legs) (sum_by interest_room rows) /\
  sum_by lr_principalPaid (loanRepayments (db w')) = sum_by lr_principalPaid (loanRepayments (db w))
    + Z.min (principal legs) (sum_by principal_room rows) /\
  Forall2 (row_paid rows) (loanRepayments (db w)) (loanRepayments (db w')).
Proof.
  intros Hnd Hnn Hr. unfold applyInstallmentAllocation in Hr. run_inv.
  apply (allocation_loop (clock s0)) in Hrun0; [done|done| |by intros r [? _]%open_installments_In|done].
  unfold open_installments. rewrite merge_sort_Permutation. by apply NoDup_key_filter.
Qed.

(** A repayment never reaches an OVERDUE installment: every row whose status
    is OVERDUE is still in the table, unpaid as before, after the repayment,
    even when the loan becomes FULLY_PAID. *)
Theorem overdue_never_allocated input w s w' r :
  NoDup (lr_id <$> loanRepayments (db w)) ->
  (forall id l, target_loan input (db w) = Some (id, l) -> legs_nonneg (owed_by l)) ->
  processRepayment input w = (Ok s, w') ->
  r ∈ loanRepayments (db w) -> lr_status r = I_OVERDUE -> r ∈ loanRepayments (db w').
Proof.
  intros Hnd Hnn Hr Hin Hod. pose proof Hr as Hr0.
  apply processRepayment_Ok in Hr as (fresh & w1 & Hpos & Hb & ->).
  apply repaymentBody_Ok in Hb as [(_ & -> & _)|[_ Hf]]; [done|].
  apply repayment_fresh_Ok in Hf as (id & l & accId & a & paid & over & w2 & Htl & _ & _ & Hw & Hal &
    -> & _).
  apply waterfall_spec in Hw as [(Hpn & _) _]; [|by apply positive_input_nonneg|by eapply Hnn].
  apply allocation_complete in Hal as (_ & _ & _ & HF); [|done..].
  apply list_elem_of_lookup in Hin as [i Hi].
  destruct (Forall2_lookup_l _ _ _ _ _ HF Hi) as (r' & Hi' & [->|[Hopen _]]).
  { by eapply list_elem_of_lookup_2. }
  exfalso. apply list_elem_of_fmap in Hopen as (x & Ex & Hx).
  apply open_installments_In in Hx as (Hx & Hst).
  rewrite (NoDup_key_inj lr_id _ r x Hnd) in Hod; [|by eapply list_elem_of_lookup_2|done|done].
  rewrite Hod in Hst. by vm_compute in Hst.
Qed.
End Allocation.

(** ** Witnesses *)
Lemma installment_ids : NoDup (lr_id <$> loanRepayments (db loan_world)).
Proof. by_decision. Qed.

Lemma allocation_complete_witness :
  match applyInstallmentAllocation "t1" "loan1" (mkLegs 0 (ks 30) (ks 250)) loan_world with
  | (Ok _, w') =>
      let rows := open_installments "t1" "loan1" (db loan_world) in
      sum_by lr_penaltyPaid (loanRepayments (db w')) = sum_by lr_penaltyPaid (loanRepayments (db loan_world))
        + Z.min 0 (sum_by penalty_room rows) /\
      sum_by lr_interestPaid (loanRepayments (db w')) = sum_by lr_interestPaid (loanRepayments (db loan_world))
        + Z.min (ks 30) (sum_by interest_room rows) /\
      sum_by lr_principalPaid (loanRepayments (db w')) = sum_by lr_principalPaid (loanRepayments (db loan_world))
        + Z.min (ks 250) (sum_by principal_room rows) /\
      Forall2 (row_paid rows) (loanRepayments (db loan_world)) (loanRepayments (db w'))
  | _ => False
  end.
Proof.
  destruct (applyInstallmentAllocation _ _ (mkLegs 0 (ks 30) (ks 250)) loan_world) as [[u|e] w'] eqn:E; [|refute].
  assert (legs_nonneg (mkLegs 0 (ks 30) (ks 250))) as Hnn by (split_and!; by vm_compute).
  exact (allocation_complete "t1" "loan1" (mkLegs 0 (ks 30) (ks 250)) loan_world u w' installment_ids Hnn E).
Defined.

(** The whole debt is paid, the overdue installment is not. *)
Lemma overdue_never_allocated_witness :
  match processRepayment (repay_call 650 "R-1") loan_world with
  | (Ok s, w') => sum_status s = FULLY_PAID /\
      installment "r1" 1 I_OVERDUE 10 20 200 ∈ loanRepayments (db w')
  | _ => False
  end.
Proof.
  destruct (processRepayment (repay_call 650 "R-1") loan_world) as [[s|e] w'] eqn:E; [|refute].
  split; [vm_compute in E; by injection E as <- _|].
  assert (forall id l, target_loan (repay_call 650 "R-1") (db loan_world) = Some (id, l) ->
    legs_nonneg (owed_by l)) as Hnn.
  { intros id l. rewrite (loan1_target 650 "R-1"). intros [= <- <-]. exact loan1_nonneg. }
  apply (overdue_never_allocated (repay_call 650 "R-1") loan_world s w' _ installment_ids Hnn E);
    [by left|done].
Defined.
