(* ===== verification/MpesaFacts.v ===== *)
(** * MpesaFacts: what the callback handlers do to the tables *)
From S2P Require Import Prelude Money Json Format Calendar ImportText MpesaTypes Schema.
From S2P Require Import Ledger LedgerFacts LedgerInv LedgerProps LedgerLegs AccountFacts.
From S2P Require Import Repayment RepaymentFacts.
From S2P Require Import AuditLogs Frames Mpesa MpesaCallbacks RepaymentTheorems.

(** ** Rows *)

(** The provider's request id names one row, as its unique index promises. *)
Definition unique_by {A} (f : MpesaTransaction -> option A) (d : DB) : Prop :=
  forall i j m n x, mpesaTransactions d !! i = Some m -> mpesaTransactions d !! j = Some n ->
    f m = Some x -> f n = Some x -> i = j.

Lemma truthy_Some o s : truthy o = Some s -> o = Some s.
Proof. unfold truthy. repeat case_match; naive_solver. Qed.

Lemma mpesa_find_Some P d id m :
  mpesa_find P d = Some (id, m) -> mpesaTransactions d !! id = Some m /\ P m = true.
Proof.
  intros Hf. apply find_some_elem in Hf as [Hin HP]. by apply elem_of_map_to_list in Hin.
Qed.

Lemma mpesa_find_None P d id m :
  mpesa_find P d = None -> mpesaTransactions d !! id = Some m -> P m = false.
Proof.
  intros Hn Hm. apply (List.find_none _ _ Hn (id, m)). by apply list_elem_of_In, elem_of_map_to_list.
Qed.

Lemma mpesa_find_unique `{EqDecision A} (f : MpesaTransaction -> option A) x d id m :
  unique_by f d -> mpesaTransactions d !! id = Some m -> f m = Some x ->
  mpesa_find (fun m => f m === Some x) d = Some (id, m).
Proof.
  intros Hu Hm Hx. destruct (mpesa_find _ d) as [[j n]|] eqn:E.
  - apply mpesa_find_Some in E as [Hj Hn]. reflect.
    assert (j = id) as -> by eauto. by assert (n = m) as -> by congruence.
  - apply (mpesa_find_None _ _ id m) in E; [|done]. cbn in E. rewrite Hx in E. by rewrite same_refl in E.
Qed.

Lemma unique_by_insert {A} (f : MpesaTransaction -> option A) d d' id m m' :
  unique_by f d -> mpesaTransactions d !! id = Some m -> f m' = f m ->
  mpesaTransactions d' = <[id := m']> (mpesaTransactions d) -> unique_by f d'.
Proof.
  intros Hu Hm Hf E i j a b x. rewrite E, !lookup_insert. repeat case_decide; subst; intros; simplify_eq.
  - done.
  - eapply (Hu _ _ m); eauto; congruence.
  - eapply (Hu _ _ _ m); eauto; congruence.
  - eauto.
Qed.

Lemma mpesa_update_hit id f w u w' :
  mpesa_update id f w = (Ok u, w') ->
  exists m, mpesaTransactions (db w) !! id = Some m /\ mpesa_clash id (f m) (db w) = false /\
    w' = with_db (set_mpesaTransactions (<[id := f m]> (mpesaTransactions (db w)))) w.
Proof. unfold mpesa_update. intros Hr. run_inv. eauto. Qed.

Lemma mpesa_updateMany_Ok id cond f w n w' :
  mpesa_updateMany id cond f w = (Ok n, w') ->
  (n = 0%nat /\ w' = w /\ forall m, mpesaTransactions (db w) !! id = Some m -> cond m = false) \/
  (exists m, n = 1%nat /\ mpesaTransactions (db w) !! id = Some m /\ cond m = true /\
     mpesa_clash id (f m) (db w) = false /\
     w' = with_db (set_mpesaTransactions (<[id := f m]> (mpesaTransactions (db w)))) w).
Proof.
  unfold mpesa_updateMany. intros Hr. apply bind_Ok in Hr as (o & s & Hg & Hr). run_inv.
  destruct (mpesaTransactions (db s) !! id) as [m|] eqn:E; [destruct (cond m) eqn:Ec|]; run_inv.
  - right. inv_call mpesa_update_hit as (m0 & Hm & Hcl & ->). simplify_eq. eauto 6.
  - left. split_and!; [done..|]. intros ? [= <-]. done.
  - left. split_and!; [done..|]. intros ? [=].
Qed.

Section Handlers.
Context `{UuidSource, Sha256, Environment, DateReader}.

Lemma mpesa_create_Ok m w id w' :
  mpesa_create m w = (Ok id, w') ->
  exists uw, db uw = db w /\ mpesaTransactions (db w) !! id = None /\
    w' = with_db (set_mpesaTransactions (<[id := m]> (mpesaTransactions (db w)))) uw.
Proof.
  unfold mpesa_create. intros Hr. apply bind_Ok in Hr as (i & s & Hi & Hr).
  unfold fresh_id in Hi. injection Hi as <- <-. run_inv. reflect.
  exists (bump_uuid w). split_and!; [done| |done].
  by apply eq_None_not_Some.
Qed.

(** An audit record changes no other table. *)
Lemma createAtomic_Ok dto w u w' :
  createAtomic dto w = (Ok u, w') -> clock w' = clock w /\ exists rows, db w' = set_auditLogs rows (db w).
Proof.
  unfold createAtomic, logAtomic, audit_row_create, fresh_id. intros Hr. run_inv.
  split; [done|]. by eexists.
Qed.

Lemma mpesa_audit_Ok t a id old new md rid w u w' :
  mpesa_audit t a id old new md rid w = (Ok u, w') ->
  t <> UNRESOLVED /\ clock w' = clock w /\ exists rows, db w' = set_auditLogs rows (db w).
Proof.
  unfold mpesa_audit. intros Hr. apply bind_Ok in Hr as (? & s & Hg & Hr). run_inv. reflect.
  apply createAtomic_Ok in Hr. done.
Qed.

Lemma account_by_number_Some t n d id a :
  account_by_number t n d = Some (id, a) ->
  accounts d !! id = Some a /\ acc_accountNumber a = n /\ acc_tenantId a = t /\ acc_isActive a = true.
Proof.
  intros Hf. apply find_some_elem in Hf as [Hin HP]. apply elem_of_map_to_list in Hin.
  apply andb_true_iff in HP as [HP Ha]. by reflect.
Qed.
End Handlers.

(** ** Postings *)
Section Postings.
Context `{UuidSource, Sha256, Environment, DateReader}.

(** A posting touches neither the provider's rows nor the loans. *)
Lemma postEntry_tables p w r w' :
  postEntry p w = (Ok r, w') ->
  mpesaTransactions (db w') = mpesaTransactions (db w) /\ loans (db w') = loans (db w) /\
  users (db w') = users (db w).
Proof.
  intros Hr. apply postEntry_Ok in Hr as (actor & w1 & w2 & _ & _ & Hb & -> & <- & _).
  apply postEntryBody_Ok in Hb as [(_ & -> & _)|Hf]; [done|].
  by destruct Hf as (a & ty & codes & p1 & p2 & _ & _ & _ & _ & _ & _ & _ & _ & _ & _ & ->).
Qed.

(** A posting in its natural direction keeps the ledger. *)
Lemma postEntry_keeps p w r w' :
  ledger_ok (db w) -> natural_direction (pe_journalType p) = Some (pe_direction p) ->
  postEntry p w = (Ok r, w') -> ledger_ok (db w').
Proof.
  intros Hok Hd Hr. apply postEntry_Ok in Hr as (actor & w1 & w2 & _ & Hpos & Hb & -> & E & _).
  rewrite <- E in Hok. by eapply postEntryBody_keeps.
Qed.

Lemma depositBody_Ok p n w u w' :
  depositBody p n w = (Ok u, w') ->
  (account_by_number (pl_tenantId p) n (db w) = None /\ w' = w) \/
  exists accId a posted w1 date m rows,
    account_by_number (pl_tenantId p) n (db w) = Some (accId, a) /\
    postEntry (deposit_entry p accId) w = (Ok posted, w1) /\ pl_date p = Some date /\
    mpesaTransactions (db w) !! pl_mpesaTxId p = Some m /\
    db w' = set_auditLogs rows (set_mpesaTransactions
      (<[pl_mpesaTxId p := completed_row p (txn_id (posted_transaction posted)) date m]> (mpesaTransactions (db w)))
      (db w1)).
Proof.
  unfold depositBody. intros Hr. apply bind_Ok in Hr as (o & s & Hg & Hr). apply gets_Ok in Hg as [<- <-].
  destruct (account_by_number _ _ _) as [[accId a]|] eqn:Ea; [right|left; by apply ret_Ok in Hr as [_ <-]].
  apply bind_Ok in Hr as (posted & w1 & Hp & Hr). apply bind_Ok in Hr as (date & w2 & Hd & Hr).
  apply or_throw_Ok in Hd as [Hd <-]. apply bind_Ok in Hr as ([] & w3 & Hm & Hr).
  apply mpesa_update_hit in Hm as (m & Hm & _ & ->). apply mpesa_audit_Ok in Hr as (_ & _ & rows & Hrows).
  destruct (postEntry_tables _ _ _ _ Hp) as (Et & _). rewrite Et in *. exists accId, a, posted, w1, date, m, rows. done.
Qed.

(** A push that succeeded, reported for a row still pending. *)
Lemma stk_success_run cb id m w :
  mpesa_by_checkout (stk_CheckoutRequestID cb) (db w) = Some (id, m) -> is_pending m = true -> stk_ResultCode cb = 0 ->
  exists receipt w1, db w1 = db w /\
    (forall r, meta_get "MpesaReceiptNumber" (parseStkMeta (stk_Item cb)) = Some r -> receipt = r) /\
    handleStkCallback cb w = postLedgerEntry (stk_params id m cb receipt (clock w)) w1.
Proof.
  intros Hf Hp Hc. unfold handleStkCallback, bind, gets. rewrite Hf, Hp, Hc. cbn [negb Z.eqb].
  destruct (meta_get _ _) as [r|]; [exists r, w; naive_solver|]. by exists (uuid (nextUuid w)), (bump_uuid w).
Qed.

(** With the receipt at hand nothing is drawn first. *)
Lemma stk_success_receipt cb id m receipt w :
  mpesa_by_checkout (stk_CheckoutRequestID cb) (db w) = Some (id, m) -> is_pending m = true -> stk_ResultCode cb = 0 ->
  meta_get "MpesaReceiptNumber" (parseStkMeta (stk_Item cb)) = Some receipt ->
  handleStkCallback cb w = postLedgerEntry (stk_params id m cb receipt (clock w)) w.
Proof. intros Hf Hp Hc Hm. unfold handleStkCallback, bind, gets. by rewrite Hf, Hp, Hc, Hm. Qed.

(** A push already dealt with is left alone. *)
Lemma stk_settled cb id m w :
  mpesa_by_checkout (stk_CheckoutRequestID cb) (db w) = Some (id, m) -> is_pending m = false ->
  handleStkCallback cb w = (Ok tt, w).
Proof. intros Hf Hp. unfold handleStkCallback, bind, gets. by rewrite Hf, Hp. Qed.

Lemma b2c_settled cb id m w :
  mpesa_by_conversation (b2c_ConversationID cb) (db w) = Some (id, m) -> is_open m = false ->
  handleB2cCallback cb w = (Ok tt, w).
Proof. intros Hf Hp. unfold handleB2cCallback, bind, gets. by rewrite Hf, Hp. Qed.

(** The account a deposit's reference names: the member's FOSA account, or
    the active account of that number; the tables decide whether there is one. *)
Definition deposit_number (reference t : string) (d : DB) : option string :=
  let parsed := parseReference reference in
  if isMemberIdDeposit parsed then acc_accountNumber ∘ snd <$> member_account t (ref_target parsed) FOSA d
  else Some (ref_target parsed).
Definition deposit_account (reference t : string) (d : DB) : option (string * Account) :=
  n ← deposit_number reference t d; account_by_number t n d.

Lemma post_deposit_run p w :
  ref_type (parseReference (pl_accountReference p)) = REF_DEPOSIT ->
  match deposit_number (pl_accountReference p) (pl_tenantId p) (db w) with
  | Some n => postLedgerEntry p w = transaction (depositBody p n) w
  | None => exists e, postLedgerEntry p w = (Err e, w)
  end.
Proof.
  intros Hty. unfold postLedgerEntry, deposit_number, resolveDefaultFosaByMember. rewrite Hty. unfold bind at 1.
  destruct (isMemberIdDeposit _); [|done]. unfold bind, gets.
  destruct (member_account _ _ _ _) as [[i a]|]; cbn; [done|by eexists].
Qed.

(** Account [accId] has been credited [n] under the reference [ref] by the
    transaction [txn]: now, or by an earlier posting of the same reference. *)
Definition credited (t ref accId : string) (a : Account) (n : Z) (txn : Transaction) (d d' : DB) : Prop :=
  match txn_by_reference t ref d with
  | Some old => txn = old /\ accounts d' = accounts d /\ transactions d' = transactions d
  | None => accounts d' = <[accId := moved a n]> (accounts d) /\ transactions d' = transactions d ++ [txn] /\
      txn_reference txn = ref /\ txn_accountId txn = accId /\ txn_amount txn = n
  end.

Lemma deposit_credited p accId a n w posted w1 :
  postEntry (deposit_entry p accId) w = (Ok posted, w1) -> pl_amount p = dec n -> accounts (db w) !! accId = Some a ->
  credited (pl_tenantId p) (deposit_reference p) accId a n (posted_transaction posted) (db w) (db w1).
Proof.
  intros Hp Hn Ha. apply postEntry_Ok in Hp as (actor & w3 & w4 & _ & _ & Hb & E4 & E3 & _).
  cbn [deposit_entry pe_amount] in Hb. rewrite Hn, to_dp4_dec in Hb. unfold credited.
  apply postEntryBody_Ok in Hb as [(_ & -> & Href & _)|Hf].
  - rewrite E3 in Href. cbn in Href. rewrite Href, E4, E3. done.
  - destruct Hf as (b & ty & codes & p1 & p2 & Href & (Hb & _) & _ & _ & _ & _ & _ & _ & _ & Ep & Ew).
    apply active_account_Some in Hb as (Hb & _). cbn [deposit_entry pe_accountId] in Hb. rewrite E3 in Hb.
    assert (b = a) as -> by congruence. rewrite E3 in Href. cbn in Href. rewrite Href, E4, Ew, Ep. cbn. by rewrite E3.
Qed.

(** What posting a deposit does, in every outcome. *)
Lemma post_deposit p w r w' :
  ref_type (parseReference (pl_accountReference p)) = REF_DEPOSIT -> postLedgerEntry p w = (r, w') ->
  match r, deposit_account (pl_accountReference p) (pl_tenantId p) (db w) with
  | Ok _, Some (accId, a) => exists posted w1 date m rows,
      postEntry (deposit_entry p accId) w = (Ok posted, w1) /\
      mpesaTransactions (db w) !! pl_mpesaTxId p = Some m /\
      db w' = set_auditLogs rows (set_mpesaTransactions
        (<[pl_mpesaTxId p := completed_row p (txn_id (posted_transaction posted)) date m]> (mpesaTransactions (db w)))
        (db w1))
  | _, _ => db w' = db w
  end.
Proof.
  intros Hty Hr. pose proof (post_deposit_run p w Hty) as Hrun. unfold deposit_account.
  destruct (deposit_number _ _ _) as [n|]; cbn [mbind option_bind].
  2: { destruct Hrun as [e Hrun]. rewrite Hrun in Hr. by injection Hr as <- <-. }
  rewrite Hrun in Hr. destruct r as [[]|e]; [|by apply transaction_Err in Hr].
  apply transaction_Ok, depositBody_Ok in Hr as [[-> ->]|Hr]; [done|].
  destruct Hr as (accId & a & posted & w1 & date & m & rows & -> & Hp & _ & Hm & E). eauto 9.
Qed.

(** The audit record of a processor never fails: it names no actor. *)
Lemma mpesa_audit_runs t a id old new md w :
  t <> UNRESOLVED -> (mpesa_audit t a id old new md None w).1 = Ok tt.
Proof. intros Ht. unfold mpesa_audit. by rewrite (proj2 (same_false _ _) Ht). Qed.

(** When the ledger takes a deposit to an account that exists, it goes through. *)
Lemma post_deposit_succeeds p w accId a posted w1 date m :
  ref_type (parseReference (pl_accountReference p)) = REF_DEPOSIT ->
  deposit_account (pl_accountReference p) (pl_tenantId p) (db w) = Some (accId, a) ->
  postEntry (deposit_entry p accId) w = (Ok posted, w1) -> pl_date p = Some date ->
  mpesaTransactions (db w) !! pl_mpesaTxId p = Some m ->
  mpesa_clash (pl_mpesaTxId p) (completed_row p (txn_id (posted_transaction posted)) date m) (db w) = false ->
  pl_tenantId p <> UNRESOLVED -> (postLedgerEntry p w).1 = Ok tt.
Proof.
  intros Hty Ha Hp Hd Hm Hcl Ht. pose proof (post_deposit_run p w Hty) as Hrun. unfold deposit_account in Ha.
  destruct (deposit_number _ _ _) as [n|]; cbn [mbind option_bind] in Ha; [|done]. rewrite Hrun.
  destruct (postEntry_tables _ _ _ _ Hp) as (Et & _). unfold mpesa_clash in Hcl. rewrite <- Et in Hm, Hcl.
  unfold transaction, depositBody. unfold bind at 1, gets at 1. rewrite Ha.
  rewrite (bind_run _ _ _ _ _ Hp). rewrite Hd. unfold bind at 1, or_throw at 1, ret at 1.
  unfold mpesa_update, mpesa_clash. unfold bind at 1 2, gets at 1. rewrite Hm. cbn [or_throw].
  unfold bind at 1 2 3, ret at 1, gets at 1. rewrite Hcl. cbn [throw_if].
  unfold ret at 1, modify at 1.
  match goal with |- context [mpesa_audit ?t ?x ?y ?o ?n ?md None ?w2] =>
    pose proof (mpesa_audit_runs t x y o n md w2 Ht) as Hau; destruct (mpesa_audit t x y o n md None w2) as [[u|e] w3] end; done.
Qed.
End Postings.

(** ** Refunds *)
Section Refunds.
Context `{UuidSource, Sha256, Environment, DateReader}.

Lemma refund_body_Ok id m cb txnId w u w' :
  refund_body id m cb txnId w = (Ok u, w') -> mpesaTransactions (db w) !! id = Some m -> is_open m = true ->
  exists t0 a rows,
    let m' := set_result T_FAILED (b2c_ResultCode cb) (b2c_ResultDesc cb) (P_b2c cb) m in
    txn_by_id (mp_tenantId m) txnId (db w) = Some t0 /\ txn_status t0 <> T_REVERSED /\
    accounts (db w) !! txn_accountId t0 = Some a /\
    accounts (db w') = <[txn_accountId t0 := moved a (signed (reversal_direction t0) (txn_amount t0))]> (accounts (db w)) /\
    transactions (db w') = update_where (fun x => txn_id x === txn_id t0) (set_txn_status T_REVERSED) (transactions (db w) ++ rows) /\
    mpesaTransactions (db w') = <[id := m']> (mpesaTransactions (db w)).
Proof.
  unfold refund_body. intros Hr Hm Ho. apply bind_Ok in Hr as (n & w1 & Hu & Hr).
  apply mpesa_updateMany_Ok in Hu as [(_ & _ & Hno)|(m0 & -> & Hm0 & _ & _ & ->)];
    [apply Hno in Hm; congruence|]. simplify_eq. cbn [Nat.eqb] in Hr.
  apply bind_Ok in Hr as (rv & w2 & Hrv & Hr). apply mpesa_audit_Ok in Hr as (_ & _ & rows & ->).
  apply reverseTransaction_Ok in Hrv as (actor & w3 & w4 & _ & Hrv & E & E3). rewrite E.
  apply reverseTransactionBody_Ok in Hrv as (t0 & e0 & p0 & a & Ht0 & Hst & _ & _ & _ & (Ha & _) & _ & _ & _ & _ & _ & _ & Edb).
  apply active_account_Some in Ha as (Ha & _). rewrite Edb. rewrite E3 in *. cbn. by eexists t0, a, [_].
Qed.

(** The tables once a failure has claimed its row. *)
Definition refund_reason (cb : B2cResult) : string :=
  "B2C withdrawal failed: " +:+ b2c_ResultDesc cb +:+ " (code " +:+ pretty (b2c_ResultCode cb) +:+ ")".
Definition refund_claimed (id : string) (m : MpesaTransaction) (cb : B2cResult) (w : World) : World :=
  with_db (set_mpesaTransactions
    (<[id := set_result T_FAILED (b2c_ResultCode cb) (b2c_ResultDesc cb) (P_b2c cb) m]> (mpesaTransactions (db w)))) w.

Lemma refund_body_runs id m cb txnId w rv w1 :
  mpesaTransactions (db w) !! id = Some m -> is_open m = true -> mpesa_clash id m (db w) = false ->
  mp_tenantId m <> UNRESOLVED ->
  reverseTransaction (mp_tenantId m) txnId (refund_reason cb) None true (refund_claimed id m cb w) = (Ok rv, w1) ->
  (refund_body id m cb txnId w).1 = Ok tt.
Proof.
  intros Hm Ho Hcl Ht Hrv.
  assert (mpesa_updateMany id is_open (set_result T_FAILED (b2c_ResultCode cb) (b2c_ResultDesc cb) (P_b2c cb)) w
          = (Ok 1%nat, refund_claimed id m cb w)) as Hup.
  { unfold mpesa_updateMany, mpesa_update, bind, gets. rewrite Hm, Ho.
    cbv beta iota delta [or_throw ret]. rewrite Hm, (Hcl : mpesa_clash id (set_result T_FAILED (b2c_ResultCode cb) (b2c_ResultDesc cb) (P_b2c cb) m) (db w) = false). done. }
  unfold refund_body. rewrite (bind_run _ _ _ _ _ Hup). cbn [Nat.eqb]. fold (refund_reason cb).
  rewrite (bind_run _ _ _ _ _ Hrv). by apply mpesa_audit_runs.
Qed.

(** The transaction a refund reversed, looked up afterwards. *)
Lemma txn_by_id_reversed t id d d' t0 rows :
  txn_by_id t id d = Some t0 ->
  transactions d' = update_where (fun x => txn_id x === txn_id t0) (set_txn_status T_REVERSED) (transactions d ++ rows) ->
  txn_by_id t id d' = Some (set_txn_status T_REVERSED t0).
Proof.
  intros Ht0 E. pose proof (txn_by_id_Some _ _ _ _ Ht0) as (_ & Hid & _). unfold txn_by_id in *. rewrite E.
  apply (find_app_some _ _ rows) in Ht0. rewrite find_update_where by done. rewrite Ht0. cbn. by rewrite same_refl.
Qed.
End Refunds.

(** ** Repayments by a user that does not exist

    A journal entry's author is a foreign key. *)
Section NoSuchUser.
Context `{UuidSource}.

Lemma leg_entry_author t ref leg amt dc txnId actor descr notes jt w r w' :
  postGlOnlyLegEntry t ref leg amt dc txnId (Some actor) descr notes jt w = (Ok r, w') ->
  je_by_number t ("JE-LEDGER-" +:+ ref) (db w) = None -> user_exists actor (db w) = true.
Proof.
  unfold postGlOnlyLegEntry, positive_amount. intros Hr Hn. cbn [actor_or_system] in Hr. run_inv.
  rewrite Hn in *. run_inv. inv_call findGlAccountPair_Ok as (_ & _ & ->).
  by inv_call journal_create_Ok as (_ & _ & Hu & _).
Qed.

Lemma post_leg_author input acc loan bal leg amount w ids w' :
  post_leg input acc loan bal leg amount w = (Ok ids, w') ->
  user_exists (in_processedBy input) (db w) = false ->
  je_by_number (in_tenantId input) ("JE-LEDGER-" +:+ in_reference input +:+ "-" +:+ leg_key leg) (db w) = None ->
  amount <= 0 /\ w' = w.
Proof.
  unfold post_leg. intros Hr Hu Hn. destruct (0 <? amount) eqn:Hpos; run_inv; [exfalso|reflect; split; [lia|done]].
  inv_call createAllocationTransaction_Ok as (t & nonce & _ & _ & _ & _ & Hdb).
  unfold postLoanRepaymentLegEntry in *. inv_call leg_entry_author as Ha; [|by rewrite Hdb].
  rewrite Hdb in Ha. cbn in Ha. unfold user_exists in *. cbn in Ha. congruence.
Qed.

Lemma post_overpayment_author input acc loan over w ids w' :
  post_overpayment input acc loan over w = (Ok ids, w') ->
  user_exists (in_processedBy input) (db w) = false ->
  txn_by_reference (in_tenantId input) (in_reference input +:+ "-OVERPAY") (db w) = None -> over <= 0.
Proof.
  unfold post_overpayment. intros Hr Hu Hn. destruct (0 <? over) eqn:Hpos; reflect; [exfalso|lia]. run_inv.
  inv_call @postEntry_Ok as (actor & w1 & w2 & Ha & _ & Hb & _ & E1 & _).
  cbn [pe_tenantId pe_reference pe_actorId actor_or_system] in *. apply ret_Ok in Ha as [<- <-].
  apply postEntryBody_Ok in Hb as [(_ & _ & Hs & _)|Hf]; [congruence|].
  destruct Hf as (a & ty & codes & p1 & p2 & _ & _ & _ & _ & _ & _ & _ & Hx & _). congruence.
Qed.

#[local] Instance frames_users_allocation t loan legs : Frames users_of (applyInstallmentAllocation t loan legs).
Proof. unfold applyInstallmentAllocation, installment_update. apply _. Qed.

(** No earlier posting carries one of the repayment's references. *)
Definition unposted (t ref : string) (d : DB) : Prop :=
  txn_by_reference t ref d = None /\ txn_by_reference t (ref +:+ "-OVERPAY") d = None /\
  forall leg, je_by_number t ("JE-LEDGER-" +:+ ref +:+ "-" +:+ leg_key leg) d = None.

Lemma repayment_needs_author input amount w s w' :
  0 < amount -> (forall id l, loans (db w) !! id = Some l -> legs_nonneg (owed_by l)) ->
  user_exists (in_processedBy input) (db w) = false -> unposted (in_tenantId input) (in_reference input) (db w) ->
  repayment_fresh input amount w <> (Ok s, w').
Proof.
  intros Ha Hnn Hu (_ & Ho & Hj) Hr. unfold repayment_fresh in Hr. run_inv.
  inv_call lockTargetLoan_Ok as (Htl & _ & ->). inv_call lockFosaAccount_Ok as (_ & ->).
  destruct (waterfall _ _) as [paid over] eqn:Hw. run_inv.
  pose proof (applyInstallmentAllocation_frame _ _ _ _ _ _ Hrun) as ((_ & Et & Ej & _) & _).
  pose proof (frames_Ok users_of _ _ _ _ _ Hrun) as Eu. unfold users_of in Eu.
  assert (user_exists (in_processedBy input) (db s0) = false) as Hu0 by (unfold user_exists in *; by rewrite Eu).
  assert (forall leg, je_by_number (in_tenantId input) ("JE-LEDGER-" +:+ in_reference input +:+ "-" +:+ leg_key leg) (db s0) = None)
    as Hj0 by (unfold je_by_number in *; by rewrite Ej).
  do 3 (inv_call post_leg_author as (? & ->); [|done|by apply Hj0]).
  inv_call post_overpayment_author as Hover; [|done|by unfold txn_by_reference in *; rewrite Et].
  destruct r as [id l]. apply target_loan_Some, Hnn in Htl.
  apply waterfall_spec in Hw as [_ Hsum]; [|lia|done]. unfold legs_sum in Hsum. lia.
Qed.

(** Such a repayment of a positive amount always throws, and leaves the tables
    as they were. *)
Lemma processRepayment_no_author input w r w' :
  (forall id l, loans (db w) !! id = Some l -> legs_nonneg (owed_by l)) ->
  user_exists (in_processedBy input) (db w) = false -> unposted (in_tenantId input) (in_reference input) (db w) ->
  0 < to_dp4 (finite_value (in_amount input)) ->
  processRepayment input w = (r, w') -> is_ok r = false /\ db w' = db w.
Proof.
  intros Hnn Hu Hf Hpos Hr. destruct r as [s|e]; [exfalso|split; [done|by eapply processRepayment_Err]].
  apply processRepayment_Ok in Hr as (fresh & w1 & _ & Hb & _).
  apply repaymentBody_Ok in Hb as [(_ & _ & Hs)|[_ Hb]].
  - destruct Hf as (Hn & _). rewrite Hn in Hs. by destruct Hs.
  - by eapply repayment_needs_author.
Qed.
End NoSuchUser.

(** ** Callbacks and the ledger invariant

    A handler keeps the ledger when whatever it returns, the state it leaves
    satisfies [ledger_ok]; a transaction's body need only do so when it
    succeeds.  The two notions compose along the handlers' structure. *)
Abbreviation KeepsLedger := (Preserves (fun w => ledger_ok (db w))).
Class OkKeepsLedger {A} (m : M A) : Prop :=
  ok_keeps_ledger : forall w a w', m w = (Ok a, w') -> ledger_ok (db w) -> ledger_ok (db w').

Definition ledger_view (w : World) :=
  (accounts (db w), transactions (db w), journalEntries (db w), glAccounts (db w)).
#[export] Instance ledger_view_rollback : Rollback ledger_view.
Proof. by split. Qed.

Lemma same_view w w' : ledger_view w' = ledger_view w -> same_ledger (db w) (db w').
Proof. unfold ledger_view. intros E. by injection E. Qed.

Section Plumbing.
#[export] Instance keeps_frames {A} (m : M A) : Frames ledger_view m -> KeepsLedger m | 20.
Proof. intros Hm w r w' E Hok. apply (frames_Ok _ _ _ _ _ Hm), same_view in E. by rewrite <- E. Qed.
#[export] Instance ok_keeps_keeps {A} (m : M A) : KeepsLedger m -> OkKeepsLedger m | 20.
Proof. intros Hm w a w' E. by eapply Hm. Qed.

#[export] Instance ok_keeps_bind {A B} (m : M A) (k : A -> M B) :
  OkKeepsLedger m -> (forall a, OkKeepsLedger (k a)) -> OkKeepsLedger (bind m k).
Proof.
  intros Hm Hk w b w' E Hok. apply bind_Ok in E as (a & w1 & E1 & E2).
  eapply Hk; [done|]. by eapply Hm.
Qed.
#[export] Instance keeps_transaction {A} (m : M A) : OkKeepsLedger m -> KeepsLedger (transaction m).
Proof.
  intros Hm w r w' E Hok. destruct r as [a|e].
  - apply transaction_Ok in E. by eapply Hm.
  - apply transaction_Err in E. by rewrite E.
Qed.
End Plumbing.

#[export] Hint Extern 5 (OkKeepsLedger (match ?x with _ => _ end)) => destruct x : typeclass_instances.
#[export] Hint Extern 5 (OkKeepsLedger (if ?x then _ else _)) => destruct x : typeclass_instances.
#[export] Hint Extern 9 (OkKeepsLedger _) => progress cbv zeta : typeclass_instances.

(** ** The tables' operations *)
Section Operations.
Context `{UuidSource, Sha256, Environment, DateReader}.

#[export] Instance view_mpesa_update id f : Frames ledger_view (mpesa_update id f).
Proof. unfold mpesa_update. apply _. Qed.
#[export] Instance view_mpesa_updateMany id c f : Frames ledger_view (mpesa_updateMany id c f).
Proof. unfold mpesa_updateMany. apply _. Qed.
#[export] Instance view_mpesa_create m : Frames ledger_view (mpesa_create m).
Proof. unfold mpesa_create. apply _. Qed.
#[export] Instance view_mpesa_audit t a id o n md rid : Frames ledger_view (mpesa_audit t a id o n md rid).
Proof. unfold mpesa_audit, createAtomic, logAtomic, audit_row_create. apply _. Qed.
#[export] Instance view_loan_update id f : Frames ledger_view (loan_update id f).
Proof. intros w. unfold loan_update, loan_updateMany, bind, gets, throw_if, ret, throw, modify. by repeat case_match; simplify_eq. Qed.

Lemma ok_keeps_postEntry p :
  natural_direction (pe_journalType p) = Some (pe_direction p) -> OkKeepsLedger (postEntry p).
Proof. intros Hd w r w' E Hok. by eapply postEntry_keeps. Qed.
#[local] Hint Extern 1 (OkKeepsLedger (postEntry _)) =>
  apply ok_keeps_postEntry; reflexivity : typeclass_instances.

#[export] Instance keeps_repayment input : KeepsLedger (processRepayment input).
Proof. intros w r w' E Hok. by eapply repayment_keeps_ledger. Qed.

#[local] Typeclasses Opaque mpesa_update mpesa_updateMany mpesa_create mpesa_audit loan_update postEntry
  processRepayment throw throw_if or_throw gets modify ret bind foldM transaction fresh_id.

(** ** The handlers *)
#[export] Instance ok_keeps_deposit p n : OkKeepsLedger (depositBody p n).
Proof. unfold depositBody. apply _. Qed.
#[export] Instance ok_keeps_disbursement p id : OkKeepsLedger (disbursementBody p id).
Proof. unfold disbursementBody, getFosaAccountId. apply _. Qed.
#[export] Instance keeps_post p : KeepsLedger (postLedgerEntry p).
Proof. unfold postLedgerEntry, post_repayment, resolveDefaultFosaByMember, createAuditOnce. apply _. Qed.
#[export] Instance keeps_stk cb : KeepsLedger (handleStkCallback cb).
Proof. unfold handleStkCallback, stk_failed_body. apply _. Qed.
#[export] Instance keeps_skip m : KeepsLedger m -> KeepsLedger (skip_duplicates m).
Proof.
  intros Hm w r w' E Hok. unfold skip_duplicates in E. destruct (m w) as [r0 w0] eqn:E0.
  pose proof (Hm _ _ _ E0 Hok) as Hok'. by destruct r0 as [[]|[]]; injection E as <- <-.
Qed.
#[export] Instance view_reject cb t tx a c d r more : Frames ledger_view (c2b_reject_body cb t tx a c d r more).
Proof. unfold c2b_reject_body. cbv zeta. apply _. Qed.
#[export] Instance keeps_c2b cb t tx : KeepsLedger (handleC2bCallback cb t tx).
Proof.
  unfold handleC2bCallback, c2bBody. apply keeps_skip. apply preserves_bind; [apply _|]. intros existing.
  cbv beta zeta. match goal with |- Preserves _ (if ?x then _ else _) => destruct x; [apply _|] end.
  apply preserves_bind; [apply _|]. intros amount. cbv zeta. apply preserves_bind; [apply _|].
  intros [|[i a] [|]]; apply _.
Qed.

#[export] Instance keeps_mismatch id m cb xs : KeepsLedger (transaction (mismatch_body id m cb xs)).
Proof. unfold mismatch_body. apply _. Qed.
#[export] Instance keeps_failed id m cb : KeepsLedger (transaction (b2c_failed_body id m cb)).
Proof. unfold b2c_failed_body. apply _. Qed.
#[export] Instance keeps_review id m cb ref : KeepsLedger (transaction (manual_review_body id m cb ref)).
Proof. unfold manual_review_body. apply _. Qed.
#[export] Instance keeps_success id m cb : KeepsLedger (b2c_success id m cb).
Proof. unfold b2c_success, withdrawal_done_body, postDisbursementLedger, createAuditOnce. apply _. Qed.

(** A withdrawal's row points at the posting that debited the account, which
    a reversal may undo. *)
Definition payout_linked (d : DB) (m : MpesaTransaction) (txnId : string) : Prop :=
  forall t0, txn_by_id (mp_tenantId m) txnId d = Some t0 -> single_account_type (txn_type t0) = true.
Definition payouts_linked (d : DB) : Prop :=
  forall id m txnId, mpesaTransactions d !! id = Some m -> mp_transactionId m = Some txnId ->
    mpd_referenceType (mp_details m) = Some FOSA_WITHDRAWAL -> payout_linked d m txnId.

Lemma refund_keeps id m cb txnId w r w' :
  refund_body id m cb txnId w = (Ok r, w') -> payout_linked (db w) m txnId ->
  ledger_ok (db w) -> ledger_ok (db w').
Proof.
  unfold refund_body. intros Hr Hl Hok. apply bind_Ok in Hr as (n & w1 & Hu & Hr).
  pose proof (same_view _ _ (frames_Ok ledger_view _ _ _ _ _ Hu)) as Hs. rewrite Hs in Hok.
  destruct (Nat.eqb n 0); [by apply ret_Ok in Hr as [_ <-]|].
  apply bind_Ok in Hr as (rv & w2 & Hrv & Hr). apply mpesa_audit_Ok in Hr as (_ & _ & rows & ->).
  apply reverseTransaction_Ok in Hrv as (actor & w3 & w4 & _ & Hrv & E & E3). rewrite E.
  apply reverseTransactionBody_Ok in Hrv. pose proof Hrv as (t0 & e0 & p0 & a & Ht0 & _).
  assert (ledger_ok (db w4)) as Hok'; [|by apply (ledger_ok_frame (db w4))].
  eapply reversed_posting_keeps; [by rewrite E3|exact Ht0| |exact Hrv]. apply Hl.
  rewrite E3 in Ht0. destruct Hs as (_ & Et & _). unfold txn_by_id in *. by rewrite <- Et.
Qed.

Lemma b2c_failure_keeps id m cb w r w' :
  b2c_failure id m cb w = (r, w') -> payouts_linked (db w) -> mpesaTransactions (db w) !! id = Some m ->
  ledger_ok (db w) -> ledger_ok (db w').
Proof.
  unfold b2c_failure. intros Hr Hl Hm Hok. destruct (_ === Some FOSA_WITHDRAWAL) eqn:Ety.
  2: { revert Hr Hok. apply (_ : KeepsLedger (transaction (b2c_failed_body id m cb))). }
  apply (proj1 (same_true _ _)) in Ety. destruct (truthy (mp_transactionId m)) as [txnId|] eqn:Etx.
  - destruct r as [u|e]; [|apply transaction_Err in Hr; by rewrite Hr].
    apply transaction_Ok, refund_keeps in Hr; [done| |done].
    apply (Hl id); [done|by apply truthy_Some|done].
  - revert Hr Hok. destruct (truthy (mpd_referenceId _)) as [ref|].
    + apply (_ : KeepsLedger (transaction (manual_review_body id m cb ref))).
    + apply (_ : KeepsLedger (transaction (b2c_failed_body id m cb))).
Qed.

Lemma b2c_keeps cb w r w' :
  handleB2cCallback cb w = (r, w') -> payouts_linked (db w) -> ledger_ok (db w) -> ledger_ok (db w').
Proof.
  unfold handleB2cCallback. intros Hr Hl Hok. unfold bind at 1, gets at 1 in Hr.
  destruct (mpesa_by_conversation _ _) as [[id m]|] eqn:Ef; [|by injection Hr as <- <-].
  apply mpesa_find_Some in Ef as [Hm _]. destruct (negb (is_open m)); [by injection Hr as <- <-|].
  destruct (findB2cCallbackMismatches _ _) as [[|x xs]|e].
  - destruct (negb _); [by eapply b2c_failure_keeps|].
    revert Hr Hok. apply (_ : KeepsLedger (b2c_success id m cb)).
  - revert Hr Hok. apply (_ : KeepsLedger (transaction (mismatch_body id m cb (x :: xs)))).
  - by injection Hr as <- <-.
Qed.
End Operations.
