(* ===== verification/PayoutFacts.v ===== *)
(** * PayoutFacts: what the wallet client and the payout operations do

    Counting the money that was asked for, and the plumbing that carries
    invariants from the tables and the wallet to whole handlers. *)
From S2P Require Import Prelude Money Json Format ImportText MpesaTypes Schema.
From S2P Require Import Ledger AuditLogs Frames Mpesa MpesaCallbacks MpesaInbox MpesaFacts.
From S2P Require Import MwaloniClient.
From S2P Require Import PayoutState Payouts PayoutOutbox.

(** ** Requests for money *)

(** The order a request asks to pay; requests about anything else name none. *)
Definition order_of (r : HttpRequest) : option string :=
  string_field (opt_member "order_number" (Some (post_body r))).

(** The orders the wallet was asked to pay, oldest first. *)
Definition asked (x : Wallet) : list string := omap order_of (posts x).

Section Client.
Context `{Network, MwaloniConfig, Sha256}.

Lemma send_post_asked r x : asked (send_post r x).2 = asked x ++ option_list (order_of r).
Proof. unfold asked, send_post. cbn [snd posts]. rewrite omap_app. cbn. by destruct (order_of r). Qed.

Lemma frames_send_post r : order_of r = None -> Frames asked (send_post r).
Proof. intros E x. rewrite send_post_asked, E. apply app_nil_r. Qed.

#[export] Instance frames_read_member key v : Frames asked (read_member key v).
Proof. intros x. by destruct v. Qed.
#[export] Instance frames_read_response label answer : Frames asked (read_response label answer).
Proof. unfold read_response, getRequiredConfig. apply _. Qed.

#[export] Instance frames_attempts {A} (fn : comp Wallet A) n e :
  Frames asked fn -> Frames asked (attempts_from fn n e).
Proof.
  intros Hf. revert e. induction n as [|n IH]; intros e x; [done|]. cbn. specialize (Hf x).
  destruct (fn x) as [[a|e'] x']; cbn in *; [done|]. destruct (permanent e'); [done|]. by rewrite (IH e' x').
Qed.
#[export] Instance frames_retry {A} (fn : comp Wallet A) n label :
  Frames asked fn -> Frames asked (withRetry fn n label).
Proof.
  intros Hf x. unfold withRetry. pose proof (frames_attempts fn n (PlainError "No attempts made") Hf x) as E.
  by destruct (attempts_from _ _ _ x) as [[a|e] x'].
Qed.

(** A request whose body names no order asks for no money. *)
Definition no_order (body : json) : Prop := string_field (opt_member "order_number" (Some body)) = None.

Lemma frames_post_once token endpoint body label apiKey :
  no_order body -> Frames asked token -> Frames asked (post_once token endpoint body label apiKey).
Proof.
  intros Hb Ht. unfold post_once. apply frames_bind; [done|]. intros bearer. apply frames_bind; [|apply _].
  by apply frames_send_post.
Qed.
Lemma frames_post token endpoint body label n :
  no_order body -> Frames asked token -> Frames asked (post token endpoint body label n).
Proof.
  intros Hb Ht. unfold post, getRequiredConfig. apply frames_bind; [apply _|]. intros apiKey.
  apply frames_retry. by apply frames_post_once.
Qed.
End Client.

#[export] Hint Extern 1 (Frames asked (post _ _ _ _ _)) =>
  apply frames_post; [reflexivity|] : typeclass_instances.

Section Requests.
Context `{Network, MwaloniConfig, Sha256}.
#[local] Typeclasses Opaque post getRequiredConfig.

#[export] Instance frames_config key env : Frames asked (getRequiredConfig key env).
Proof. unfold getRequiredConfig. apply _. Qed.
#[export] Instance frames_configured : Frames asked assertConfigured.
Proof. unfold assertConfigured. apply _. Qed.
#[export] Instance frames_authenticate now : Frames asked (authenticate now).
Proof. unfold authenticate, fetch_token. apply _. Qed.
#[export] Instance frames_getStatus now order : Frames asked (getStatus now order).
Proof. unfold getStatus, makeRequest. apply _. Qed.

(** ** Sending money asks once, and for the order it was given *)
Definition asks_once {A} (o : string) (m : comp Wallet A) : Prop :=
  forall x, asked (m x).2 = asked x \/ asked (m x).2 = asked x ++ [o].

Lemma asks_after {A B} o (m : comp Wallet A) (f : A -> comp Wallet B) :
  Frames asked m -> (forall a, asks_once o (f a)) -> asks_once o (bind m f).
Proof.
  intros Hm Hf x. unfold bind. specialize (Hm x). destruct (m x) as [[a|e] x1]; cbn in Hm; [|by left].
  rewrite <- Hm. apply Hf.
Qed.
Lemma asks_then {A B} o (m : comp Wallet A) (f : A -> comp Wallet B) :
  asks_once o m -> (forall a, Frames asked (f a)) -> asks_once o (bind m f).
Proof.
  intros Hm Hf x. unfold bind. specialize (Hm x). destruct (m x) as [[a|e] x1]; cbn in *; [|done].
  by rewrite (Hf a x1).
Qed.
Lemma asks_retry_one {A} o (fn : comp Wallet A) label : asks_once o fn -> asks_once o (withRetry fn 1 label).
Proof.
  intros Hf x. specialize (Hf x). unfold withRetry, attempts_from.
  destruct (fn x) as [[a|e] x1]; [done|]. by destruct (permanent e).
Qed.

Lemma send_money_order serviceId p :
  string_field (opt_member "order_number" (Some (send_money_body serviceId p))) = Some (mo_orderNumber p).
Proof. reflexivity. Qed.

Lemma sendMobile_asks now p : asks_once (mo_orderNumber p) (sendMobile now p).
Proof.
  unfold sendMobile, makeRequest, post. do 2 (apply asks_after; [apply _|]; intros ?).
  apply asks_after; [apply _|]. intros apiKey. apply asks_retry_one.
  unfold post_once. apply asks_after; [apply _|]. intros bearer. apply asks_then; [|apply _].
  intros x. right. rewrite send_post_asked. unfold order_of. cbn [post_body]. by rewrite send_money_order.
Qed.
End Requests.

(** ** Updates of a row and of its columns *)
Lemma set_base_id s : set_base (pw_base s) s = s.
Proof. by destruct s. Qed.

(** The state after the row [id] and its columns were replaced. *)
Definition updated (id : string) (m : MpesaTransaction) (c : ProviderColumns) (s : PayoutWorld) : PayoutWorld :=
  set_tables (set_columns (<[id := c]> (providerColumns (tables s))) (tables s))
    (set_base (with_db (set_mpesaTransactions (<[id := m]> (mpesaTransactions (tdb s)))) (pw_base s)) s).

Lemma on_world_Ok {A} (m : M A) s a s' :
  on_world m s = (Ok a, s') -> exists w, m (pw_base s) = (Ok a, w) /\ s' = set_base w s.
Proof. unfold on_world. destruct (m _) as [r w]. intros [= -> <-]. eauto. Qed.

Lemma mpesa_update_cases id f w r w' :
  mpesa_update id f w = (r, w') ->
  (exists e, r = Err e /\ w' = w) \/
  (exists m, r = Ok tt /\ mpesaTransactions (db w) !! id = Some m /\
     w' = with_db (set_mpesaTransactions (<[id := f m]> (mpesaTransactions (db w)))) w).
Proof.
  unfold mpesa_update, bind, gets, or_throw, throw_if, throw, ret, modify. intros Hr.
  destruct (mpesaTransactions (db w) !! id) as [m|]; [destruct (mpesa_clash id (f m) (db w))|];
    injection Hr as <- <-; eauto 6.
Qed.

Lemma payout_update_cases id f g s r s' :
  payout_update id f g s = (r, s') ->
  (exists e, r = Err e /\ s' = s) \/
  (exists m, r = Ok tt /\ row_of id s = Some m /\ s' = updated id (f m) (g (columns_of id s)) s).
Proof.
  unfold payout_update, bind, gets, on_world. intros Hr.
  destruct (mpesa_update id f (pw_base s)) as [r1 w] eqn:E.
  apply mpesa_update_cases in E as [(e & -> & ->)|(m & -> & Hm & ->)].
  - rewrite set_base_id in Hr. injection Hr as <- <-. eauto.
  - right. exists m. unfold put_columns, modify_tables, modify in Hr. by injection Hr as <- <-.
Qed.

Lemma payout_updateMany_cases id cond f g s r s' :
  payout_updateMany id cond f g s = (r, s') ->
  ((exists e, r = Err e) /\ s' = s) \/
  (r = Ok 0%nat /\ s' = s /\ forall m, row_of id s = Some m -> cond m (columns_of id s) = false) \/
  (exists m, r = Ok 1%nat /\ row_of id s = Some m /\ cond m (columns_of id s) = true /\
     s' = updated id (f m) (g (columns_of id s)) s).
Proof.
  unfold payout_updateMany, bind at 1, gets at 1. intros Hr. unfold bind at 1, gets at 1 in Hr.
  destruct (row_of id s) as [m|] eqn:Em; [destruct (cond m (columns_of id s)) eqn:Ec|].
  - unfold bind, on_world in Hr. destruct (mpesa_update id f (pw_base s)) as [r1 w] eqn:E.
    apply mpesa_update_cases in E as [(e & -> & ->)|(m' & -> & Hm & ->)].
    + rewrite set_base_id in Hr. injection Hr as <- <-. left. eauto.
    + right; right. exists m. unfold row_of, tdb in Em. rewrite Em in Hm. injection Hm as <-.
      unfold put_columns, modify_tables, modify, ret in Hr. by injection Hr as <- <-.
  - injection Hr as <- <-. right; left. split_and!; [done..|]. by intros ? [= <-].
  - injection Hr as <- <-. right; left. split_and!; [done..|]. by intros ? [=].
Qed.

Lemma columns_updated id m c s j : columns_of j (updated id m c s) = if decide (id = j) then c else columns_of j s.
Proof. unfold columns_of, updated. cbn. rewrite lookup_insert. by case_decide. Qed.
Lemma row_updated id m c s j : row_of j (updated id m c s) = if decide (id = j) then Some m else row_of j s.
Proof. unfold row_of, updated. cbn. by rewrite lookup_insert. Qed.
