(* ===== verification/PayoutRefines.v ===== *)
(** * PayoutRefines: the payout code implements the payout machine

    [abs] reads a machine state off the tables and the wallet, given the orders
    whose claim a worker still holds.  [Within m] says that a computation,
    whether it returns or throws, is a sequence of the machine's transitions;
    it composes along the code, so that instance search follows the handlers. *)
From stdpp Require Import relations.
From S2P Require Import Prelude Money Json Format ImportText MpesaTypes Schema.
From S2P Require Import Ledger LedgerProps AuditLogs Frames Mpesa MpesaCallbacks MpesaInbox.
From S2P Require Import MpesaFacts.
From S2P Require Import MwaloniClient PayoutState PayoutMachine Payouts PayoutOutbox.
From S2P Require Import WithdrawalRecon PayoutFacts.

(** ** The abstraction *)
Definition abs_row (c : ProviderColumns) (m : MpesaTransaction) : PayoutRow :=
  mkPayoutRow (mp_reference m) (mpd_conversationId (mp_details m)) (mp_transactionId m) (mp_status m) (pc_state c).

Definition rows_of (s : PayoutWorld) : gmap string PayoutRow :=
  map_imap (fun id m => Some (abs_row (columns_of id s) m)) (mpesaTransactions (tdb s)).

Definition reversed_of (d : DB) : gset string :=
  list_to_set (txn_id <$> List.filter (fun t => txn_status t === T_REVERSED) (transactions d)).

Definition abs (C : list string) (s : PayoutWorld) : Machine :=
  mkMachine (rows_of s) (asked (wallet s)) C (reversed_of (tdb s)).

Lemma lookup_rows id s : rows_of s !! id = abs_row (columns_of id s) <$> row_of id s.
Proof. unfold rows_of. rewrite map_lookup_imap. unfold row_of. by destruct (_ !! id). Qed.

Lemma abs_lookup C id s m :
  row_of id s = Some m -> a_rows (abs C s) !! id = Some (abs_row (columns_of id s) m).
Proof. intros Hm. cbn [abs a_rows]. by rewrite lookup_rows, Hm. Qed.

(** What [abs] depends on. *)
Definition payout_view (s : PayoutWorld) :=
  (mpesaTransactions (tdb s), providerColumns (tables s), asked (wallet s), reversed_of (tdb s)).

Lemma abs_view C s s' : payout_view s' = payout_view s -> abs C s' = abs C s.
Proof.
  unfold payout_view, abs. intros [= E1 E2 E3 E4]. f_equal; try done.
  unfold rows_of, columns_of. by rewrite E1, E2.
Qed.

(** ** Computations within the machine *)
Class Within {A} (m : PM A) : Prop :=
  within : forall C s r s', m s = (r, s') -> machine_ok (abs C s) -> rtc payout_step (abs C s) (abs C s').

(** Computations that ask the wallet for no money. *)
Abbreviation NoAsk := (Frames (fun s => asked (wallet s))).

Section Plumbing.
#[export] Instance within_view {A} (m : PM A) : Frames payout_view m -> Within m | 20.
Proof. intros Hm C s r s' E _. rewrite (abs_view C s s'); [done|]. by apply (frames_Ok _ _ _ _ _ Hm E). Qed.

#[export] Instance within_bind {A B} (m : PM A) (k : A -> PM B) :
  Within m -> (forall a, Within (k a)) -> Within (bind m k).
Proof.
  intros Hm Hk C s r s' E Hok. unfold bind in E. destruct (m s) as [[a|e] s1] eqn:E1.
  - pose proof (Hm C _ _ _ E1 Hok) as H1. etrans; [exact H1|]. apply (Hk a C _ _ _ E).
    by eapply payout_steps_ok.
  - injection E as <- <-. by eapply Hm.
Qed.
#[export] Instance within_rescue {A} (m : PM A) h : Within m -> (forall e, Within (h e)) -> Within (rescue m h).
Proof.
  intros Hm Hh C s r s' E Hok. unfold rescue in E. destruct (m s) as [[a|e] s1] eqn:E1.
  - injection E as <- <-. by eapply Hm.
  - pose proof (Hm C _ _ _ E1 Hok) as H1. etrans; [exact H1|]. apply (Hh e C _ _ _ E). by eapply payout_steps_ok.
Qed.
#[export] Instance within_foldM {A B} (body : B -> A -> PM B) acc xs :
  (forall b a, Within (body b a)) -> Within (foldM body acc xs).
Proof. intros Hb. revert acc. induction xs as [|x xs IH]; intros acc; cbn [foldM]; apply _. Qed.

#[export] Instance noask_rescue {A} (m : PM A) h : NoAsk m -> (forall e, NoAsk (h e)) -> NoAsk (rescue m h).
Proof.
  intros Hm Hh s. unfold rescue. specialize (Hm s). destruct (m s) as [[a|e] s1]; [done|]. by rewrite (Hh e s1).
Qed.
#[export] Instance noask_on_world {A} (m : M A) : NoAsk (on_world m).
Proof. intros s. unfold on_world. by destruct (m _). Qed.
#[export] Instance noask_on_wallet {A} (m : comp Wallet A) : Frames asked m -> NoAsk (on_wallet m).
Proof. intros Hm s. unfold on_wallet. specialize (Hm (wallet s)). by destruct (m _). Qed.
#[export] Instance noask_tables f : NoAsk (modify_tables f).
Proof. done. Qed.

(** A transaction that is rolled back is no step at all. *)
#[export] Instance within_transaction {A} (body : PM A) : Within body -> NoAsk body -> Within (payout_transaction body).
Proof.
  intros Hb Hn C s r s' E Hok. unfold payout_transaction in E. destruct (body s) as [[a|e] s1] eqn:E1.
  - injection E as <- <-. exact (Hb C _ _ _ E1 Hok).
  - injection E as <- <-. pose proof (frames_Ok _ _ _ _ _ Hn E1) as Ea. cbn in Ea.
    erewrite abs_view; [done|]. unfold payout_view. cbn. by rewrite Ea.
Qed.
#[export] Instance noask_transaction {A} (body : PM A) : NoAsk body -> NoAsk (payout_transaction body).
Proof. intros Hn s. unfold payout_transaction. specialize (Hn s). by destruct (body s) as [[a|e] s1]. Qed.
End Plumbing.

#[export] Hint Extern 5 (Within (match ?x with _ => _ end)) => destruct x : typeclass_instances.
#[export] Hint Extern 5 (Within (if ?x then _ else _)) => destruct x : typeclass_instances.
#[export] Hint Extern 9 (Within _) => progress cbv zeta : typeclass_instances.

(** ** The services' tables *)
Definition world_view (w : World) := (mpesaTransactions (db w), reversed_of (db w)).
#[export] Instance world_view_rollback : Rollback world_view.
Proof. by split. Qed.
#[export] Instance world_view_stable : Stable world_view.
Proof. split; [apply _|done|done]. Qed.

#[export] Instance view_on_world {A} (m : M A) : Frames world_view m -> Frames payout_view (on_world m).
Proof.
  intros Hm s. unfold on_world. specialize (Hm (pw_base s)). destruct (m _) as [r w]. cbn in Hm.
  unfold payout_view, tdb. cbn. unfold world_view in Hm. by injection Hm as -> ->.
Qed.

Section World.
Context `{UuidSource, Sha256, Environment}.

Lemma reversed_app ts t : txn_status t <> T_REVERSED ->
  List.filter (fun t => txn_status t === T_REVERSED) (ts ++ [t]) = List.filter (fun t => txn_status t === T_REVERSED) ts.
Proof. intros Hn. rewrite List.filter_app. cbn. rewrite bool_decide_eq_false_2 by done. apply app_nil_r. Qed.

Lemma view_txn_create td : td_status td <> T_REVERSED -> Frames world_view (transaction_create td).
Proof.
  intros Hst. unfold transaction_create. do 5 (apply frames_bind; [apply _|]; intros ?). apply frames_bind; [apply _|]. intros ?.
  cbv zeta. apply frames_bind; [apply _|]. intros ?. apply frames_bind; [apply _|]. intros ?.
  apply frames_bind; [|apply _]. intros w. unfold world_view, reversed_of. cbn. by rewrite reversed_app.
Qed.

#[local] Hint Extern 1 (Frames world_view (transaction_create _)) => apply view_txn_create; intros ?; cbn in *; discriminate : typeclass_instances.

#[export] Instance view_journal jd : Frames world_view (journal_create jd).
Proof. unfold journal_create. apply _. Qed.
#[export] Instance view_balance t id amt dir : Frames world_view (applyBalanceChange t id amt dir).
Proof. unfold applyBalanceChange. apply _. Qed.
#[export] Instance view_actor t o : Frames world_view (actor_or_system t o).
Proof. unfold actor_or_system, resolveSystemActorId. apply _. Qed.
#[export] Instance view_postEntry p : Frames world_view (postEntry p).
Proof. unfold postEntry, postEntryBody, positive_amount. apply _. Qed.
#[export] Instance view_createAtomic dto : Frames world_view (createAtomic dto).
Proof. unfold createAtomic, logAtomic, audit_row_create. apply _. Qed.
#[export] Instance view_loan_update id f : Frames world_view (loan_update id f).
Proof. unfold loan_update. apply _. Qed.
#[export] Instance view_plain_audit t a et ei o n md : Frames world_view (plain_audit t a et ei o n md).
Proof. unfold plain_audit, audit_row_create. apply _. Qed.

(** A reversal marks one debit as given back, or throws before it does. *)
Definition may_reverse {A} (t : string) (m : M A) : Prop := forall w,
  mpesaTransactions (db (m w).2) = mpesaTransactions (db w) /\
  (reversed_of (db (m w).2) = reversed_of (db w) \/ reversed_of (db (m w).2) = {[t]} ∪ reversed_of (db w)).

Lemma may_after {A B} t (m : M A) (k : A -> M B) :
  Frames world_view m -> (forall a, may_reverse t (k a)) -> may_reverse t (bind m k).
Proof.
  intros Hm Hk w. unfold bind. specialize (Hm w). destruct (m w) as [[a|e] w1]; unfold world_view in Hm; cbn in Hm;
    injection Hm as E1 E2; [|cbn; auto]. destruct (Hk a w1) as [F1 F2]. by rewrite F1, E1, <- E2.
Qed.
Lemma may_then {A B} t (m : M A) (k : A -> M B) :
  may_reverse t m -> (forall a, Frames world_view (k a)) -> may_reverse t (bind m k).
Proof.
  intros Hm Hk w. unfold bind. specialize (Hm w). destruct (m w) as [[a|e] w1]; cbn in *; [|done].
  pose proof (Hk a w1) as E. unfold world_view in E. by injection E as -> ->.
Qed.
Lemma may_frames {A} t (m : M A) : Frames world_view m -> may_reverse t m.
Proof. intros Hm w. specialize (Hm w). unfold world_view in Hm. injection Hm as E1 E2. auto. Qed.

Lemma elem_of_reversed x d : x ∈ reversed_of d <-> exists t, t ∈ transactions d /\ txn_id t = x /\ txn_status t = T_REVERSED.
Proof.
  unfold reversed_of. rewrite elem_of_list_to_set, list_elem_of_fmap. split.
  - intros (t & -> & Ht). apply list_elem_of_In, List.filter_In in Ht as [Ht Hs].
    apply list_elem_of_In in Ht. apply (proj1 (same_true _ _)) in Hs. eauto.
  - intros (t & Ht & <- & Hs). exists t. split; [done|]. apply list_elem_of_In, List.filter_In.
    split; [by apply list_elem_of_In|by apply same_true].
Qed.

Lemma reversed_update t d :
  existsb (fun x => txn_id x === t) (transactions d) = true ->
  reversed_of (set_transactions (update_where (fun x => txn_id x === t) (set_txn_status T_REVERSED) (transactions d)) d)
  = {[t]} ∪ reversed_of d.
Proof.
  intros (t0 & Hin & Et)%existsb_exists. apply list_elem_of_In in Hin. reflect. apply set_eq. intros x.
  rewrite elem_of_union, elem_of_singleton, !elem_of_reversed. cbn [set_transactions transactions]. unfold update_where. split.
  - intros (y & (z & -> & Hz)%list_elem_of_fmap & <- & Hst). destruct (txn_id z === t) eqn:Ez; [apply (proj1 (same_true _ _)) in Ez; by left|]. eauto.
  - intros [->|(y & Hy & <- & Hst)].
    + exists (set_txn_status T_REVERSED t0). split_and!; [|done|done]. apply list_elem_of_fmap.
      exists t0. by rewrite Et, same_refl.
    + exists (if txn_id y === t then set_txn_status T_REVERSED y else y). destruct (txn_id y === t) eqn:Ey;
        (split_and!; [apply list_elem_of_fmap; exists y; by rewrite Ey|done|done]).
Qed.

Lemma may_reverse_update t : may_reverse t (transaction_update t (set_txn_status T_REVERSED)).
Proof.
  intros w. unfold transaction_update, bind, gets, throw_if. destruct (existsb _ _) eqn:E; [|cbn; auto].
  split; [done|]. right. by apply reversed_update.
Qed.

Lemma may_gets {X B} t (g : World -> X) (k : X -> M B) :
  (forall w, may_reverse t (k (g w))) -> may_reverse t (bind (gets g) k).
Proof. intros Hk w. exact (Hk w w). Qed.
Lemma may_ret {X B} t (x : X) (k : X -> M B) : may_reverse t (k x) -> may_reverse t (bind (ret x) k).
Proof. intros Hk w. exact (Hk w). Qed.

Lemma reverse_may t id reason o : may_reverse id (reverseTransaction t id reason o true).
Proof.
  unfold reverseTransaction. apply may_after; [apply _|]. intros actor. cbv zeta.
  apply may_then; [|apply _]. unfold reverseTransactionBody. apply may_gets. intros w.
  destruct (txn_by_id t id (db w)) as [t0|] eqn:E; [|apply may_frames, _].
  assert (txn_id t0 = id) as <-. { apply find_some_elem in E as [_ E]. by reflect. }
  apply may_ret. cbv zeta. repeat first
    [ apply may_then; [apply may_reverse_update|apply _] | apply may_after; [apply _|intros ?] ].
Qed.
End World.

(** ** Updates of a row *)
Lemma rows_updated id m c s : rows_of (updated id m c s) = <[id := abs_row c m]> (rows_of s).
Proof.
  apply map_eq. intros j. rewrite lookup_insert, !lookup_rows, row_updated, columns_updated.
  by case_decide.
Qed.

Lemma abs_updated C id m c s :
  abs C (updated id m c s) = mkMachine (<[id := abs_row c m]> (rows_of s)) (asked (wallet s)) C (reversed_of (tdb s)).
Proof. unfold abs. by rewrite rows_updated. Qed.

(** What an update may do to a row and its columns. *)
Record fair_update (m m' : MpesaTransaction) (c c' : ProviderColumns) : Prop := {
  fu_reference : mp_reference m' = mp_reference m;
  fu_order : mpd_conversationId (mp_details m') = mpd_conversationId (mp_details m);
  fu_txn : mp_transactionId m' = mp_transactionId m;
  fu_state : onward (pc_state c) (pc_state c');
  fu_status : mp_status m' = mp_status m \/ is_open m = true;
}.

Lemma updated_step C id m m' c' s :
  row_of id s = Some m -> fair_update m m' (columns_of id s) c' ->
  rtc payout_step (abs C s) (abs C (updated id m' c' s)).
Proof.
  intros Hm [F1 F2 F3 F4 F5]. rewrite abs_updated. apply rtc_once, (ps_change (abs C s)).
  eapply rows_change_insert; [cbn; rewrite lookup_rows, Hm; reflexivity|]. by split.
Qed.

(** Updates that are fair whenever their condition holds. *)
Class FairUpdate (cond : MpesaTransaction -> ProviderColumns -> bool)
    (f : MpesaTransaction -> MpesaTransaction) (g : ProviderColumns -> ProviderColumns) : Prop :=
  fair : forall m c, cond m c = true -> fair_update m (f m) c (g c).

#[export] Instance within_updateMany id cond f g : FairUpdate cond f g -> Within (payout_updateMany id cond f g).
Proof.
  intros Hf C s r s' E _. apply payout_updateMany_cases in E as [[_ ->]|[(_ & -> & _)|(m & _ & Hm & Hc & ->)]]; [done..|].
  eapply updated_step; [done|]. by apply Hf.
Qed.
#[export] Instance within_update id f g : FairUpdate (fun _ _ => true) f g -> Within (payout_update id f g).
Proof.
  intros Hf C s r s' E _. apply payout_update_cases in E as [(e & _ & ->)|(m & _ & Hm & ->)]; [done|].
  eapply updated_step; [done|]. by apply Hf.
Qed.

Ltac fair_solver :=
  intros ?m ?c ?Hc; repeat match goal with H : (_ && _) = true |- _ => apply andb_true_iff in H as [? ?] end;
  split; try reflexivity; try done; first [by left | by right | right; discriminate | by right; intros [=]].
#[export] Hint Extern 1 (FairUpdate _ _ _) => fair_solver : typeclass_instances.

#[export] Instance noask_update id f g : NoAsk (payout_update id f g).
Proof. unfold payout_update, put_columns. apply _. Qed.
#[export] Instance noask_updateMany id cond f g : NoAsk (payout_updateMany id cond f g).
Proof. unfold payout_updateMany, put_columns. apply _. Qed.

(** ** Settling a payout *)
Section Settle.
Context `{UuidSource, Sha256, Environment, Network, MwaloniConfig}.

#[export] Instance view_audit t a ac et ei o n md rid ip : Frames payout_view (entity_audit t a ac et ei o n md rid ip).
Proof. unfold entity_audit, payout_audit. apply _. Qed.
#[export] Instance noask_audit t a ac et ei o n md rid ip : NoAsk (entity_audit t a ac et ei o n md rid ip).
Proof. unfold entity_audit, payout_audit. apply _. Qed.
#[export] Instance view_rescue {A X} (f : PayoutWorld -> X) (m : PM A) h :
  Frames f m -> (forall e, Frames f (h e)) -> Frames f (rescue m h).
Proof. intros Hm Hh s. unfold rescue. specialize (Hm s). destruct (m s) as [[a|e] s1]; [done|]. by rewrite (Hh e s1). Qed.
#[export] Instance view_schedule a b c d : Frames payout_view (scheduleB2cTimeoutCheck a b c d).
Proof.
  unfold scheduleB2cTimeoutCheck, best_effort. apply frames_bind; [apply _|]. intros now. cbv zeta.
  apply view_rescue; [|apply _]. do 2 (apply frames_bind; [apply _|]; intros ?).
  intros s. cbn. by destruct (timeoutQueue s !! _).
Qed.

#[local] Typeclasses Opaque payout_updateMany payout_update entity_audit payout_transaction rescue on_world on_wallet
  scheduleB2cTimeoutCheck bind gets ret throw throw_if or_throw modify foldM.

#[export] Instance within_unknown id reason : Within (markMwaloniOutcomeUnknown id reason).
Proof. unfold markMwaloniOutcomeUnknown, outcome_unknown_body. apply _. Qed.
#[export] Instance within_mismatch id m p xs msg : Within (markMwaloniMismatchReconciliation id m p xs msg).
Proof. unfold markMwaloniMismatchReconciliation, mismatch_reconciliation_body. apply _. Qed.
#[export] Instance within_complete id r d p : Within (payout_transaction (complete_body id r d p)).
Proof. unfold complete_body, row_or_throw. apply _. Qed.

(** Giving a debit back is a step once its row has failed. *)
Definition failed_row (txnId : string) (s : PayoutWorld) : Prop :=
  exists id m, row_of id s = Some m /\ mp_transactionId m = Some txnId /\ mp_status m = T_FAILED.

Lemma reverse_within C s r s' t txnId reason o :
  on_world (reverseTransaction t txnId reason o true) s = (r, s') -> failed_row txnId s ->
  rtc payout_step (abs C s) (abs C s').
Proof.
  intros E (id & m & Hm & Htx & Hst). unfold on_world in E.
  pose proof (reverse_may t txnId reason o (pw_base s)) as [E1 E2]. destruct (reverseTransaction _ _ _ _ _ _) as [r1 w].
  injection E as <- <-. cbn in E1, E2. assert (rows_of (set_base w s) = rows_of s) as Er.
  { unfold rows_of, columns_of, tdb. cbn. by rewrite E1. }
  unfold abs. cbn. rewrite Er. unfold tdb. cbn [pw_base set_base]. destruct E2 as [->| ->]; [done|]. apply rtc_once.
  eapply (ps_refund (abs C s) id); [by cbn; rewrite lookup_rows, Hm|done..].
Qed.

Lemma within_fail_body id code desc reason p : Within (fail_body id code desc reason p).
Proof.
  intros C s r s' E Hok. unfold fail_body, bind at 1, gets at 1 in E.
  destruct (row_of id s) as [m|] eqn:Hm; [|by injection E as <- <-]. unfold bind at 1, or_throw, ret at 1 in E.
  destruct (is_open m) eqn:Hop; cbn [negb] in E; [|by injection E as <- <-]. unfold bind at 1, gets at 1 in E.
  unfold bind at 1 in E. destruct (payout_update id _ _ s) as [r1 s1] eqn:Eu.
  apply payout_update_cases in Eu as [(e & -> & ->)|(m0 & -> & Hm0 & ->)]; [by injection E as <- <-|]. simplify_eq.
  set (s1 := updated _ _ _ _) in E.
  assert (rtc payout_step (abs C s) (abs C s1)) as Hs1.
  { apply (updated_step C id m); [done|]. split; try done; [right; discriminate|by right]. }
  etrans; [exact Hs1|]. pose proof (payout_steps_ok _ _ Hs1 Hok) as Hok1. unfold bind at 1 in E.
  match type of E with context [match ?x s1 with _ => _ end] => destruct (x s1) as [r2 s2] eqn:E2 end.
  assert (rtc payout_step (abs C s1) (abs C s2)) as Hs2.
  { destruct (_ === _); [|by injection E2 as <- <-]. destruct (truthy _) as [t|] eqn:Et; [|by injection E2 as <- <-].
    apply truthy_Some in Et. unfold bind in E2. destruct (on_world _ s1) as [r3 s3] eqn:E3.
    apply (reverse_within C) in E3; [by destruct r3; injection E2 as <- <-|].
    exists id, (row_failed code desc reason p m). unfold s1. rewrite row_updated, decide_True by done. done. }
  etrans; [exact Hs2|]. destruct r2 as [u|e]; [|by injection E as <- <-].
  apply (within_view _ _ C _ _ _ E). by eapply payout_steps_ok.
Qed.

#[export] Instance within_fail id code desc reason p : Within (failMwaloniTransaction id code desc reason p).
Proof.
  unfold failMwaloniTransaction. apply within_transaction; [apply within_fail_body|]. unfold fail_body. apply _.
Qed.

#[export] Instance within_apply id r src : Within (applyMwaloniStatus id r src).
Proof.
  unfold applyMwaloniStatus, read_member. apply _.
Qed.

#[export] Instance view_status now order : Frames payout_view (on_wallet (getStatus now order)).
Proof.
  intros s. pose proof (noask_on_wallet (getStatus now order) _ s) as E. unfold on_wallet in *.
  destruct (getStatus now order (wallet s)) as [r x]. unfold payout_view. cbn in *. by rewrite E.
Qed.
#[export] Instance within_refresh id : Within (refreshMwaloniB2cStatus id).
Proof. unfold refreshMwaloniB2cStatus. apply _. Qed.
#[export] Instance within_refresh_by t c : Within (refreshMwaloniB2cStatusByConversation t c).
Proof. unfold refreshMwaloniB2cStatusByConversation. apply _. Qed.

(** ** Sending *)

(** The row of [id] is about the order [o]. *)
Definition about_order (id o : string) (s : PayoutWorld) : Prop :=
  exists m, row_of id s = Some m /\ mpd_conversationId (mp_details m) = Some o.

(** A worker that gets the claim holds it for the row's order. *)
Lemma claim_send_step C id o s s' r :
  claim_send id s = (r, s') -> about_order id o s ->
  match r with
  | Ok true => rtc payout_step (abs C s) (abs (o :: C) s')
  | _ => s' = s
  end.
Proof.
  intros E (m & Hm & Ho). unfold claim_send, bind at 1, gets at 1, bind in E.
  destruct (payout_updateMany _ _ _ _ s) as [r1 s1] eqn:Eu.
  apply payout_updateMany_cases in Eu as [[[e ->] ->]|[(-> & -> & _)|(m0 & -> & Hm0 & Hc & ->)]];
    [by injection E as <- <-|by injection E as <- <-|].
  injection E as <- <-. assert (m0 = m) as -> by congruence. apply andb_true_iff in Hc as [Hop Hloc]. apply (proj1 (same_true _ _)) in Hloc.
  rewrite abs_updated. apply rtc_once.
  exact (ps_claim (abs C s) id (abs_row (columns_of id s) m) o
    (eq_trans (lookup_rows id s) (f_equal (fmap (abs_row (columns_of id s))) Hm)) Hop Hloc Ho).
Qed.

(** Asking for the money, or failing to, ends the claim. *)
Lemma ask_step C o s s' r now p :
  on_wallet (sendMobile now p) s = (r, s') -> mo_orderNumber p = o ->
  payout_step (abs (o :: C) s) (abs C s').
Proof.
  intros E <-. unfold on_wallet in E. pose proof (sendMobile_asks now p (wallet s)) as Ha.
  destruct (sendMobile now p (wallet s)) as [r1 x]. injection E as <- <-. cbn in Ha.
  unfold abs. cbn [wallet set_wallet]. destruct Ha as [->| ->].
  - exact (ps_drop (abs (mo_orderNumber p :: C) s) _ [] C eq_refl).
  - exact (ps_send (abs (mo_orderNumber p :: C) s) _ [] C eq_refl).
Qed.

Lemma send_and_apply_steps C id o p s s' r :
  send_and_apply id o p s = (r, s') -> machine_ok (abs (o :: C) s) -> rtc payout_step (abs (o :: C) s) (abs C s').
Proof.
  intros E Hok. unfold send_and_apply, bind at 1, gets at 1 in E. unfold bind at 1 in E.
  destruct (on_wallet _ s) as [r1 s1] eqn:Ew. apply (ask_step C o) in Ew; [|done].
  eapply rtc_l; [exact Ew|]. pose proof (payout_step_ok _ _ Ew Hok) as Hok1.
  destruct r1 as [response|e]; [|by injection E as <- <-]. exact (within C _ _ _ E Hok1).
Qed.

Lemma send_claimed_steps C id o p s s' r :
  send_claimed id o p s = (r, s') -> machine_ok (abs (o :: C) s) -> rtc payout_step (abs (o :: C) s) (abs C s').
Proof.
  intros E Hok. unfold send_claimed, bind at 1 in E.
  destruct (best_effort _ s) as [r0 s0] eqn:E0.
  assert (payout_view s0 = payout_view s) as Hv.
  { unfold best_effort in E0. apply (frames_Ok payout_view _ _ _ _ _ E0). }
  rewrite <- (abs_view _ _ _ Hv) in Hok |- *.
  assert (exists u, r0 = Ok u) as [u ->]. { unfold best_effort, rescue in E0. destruct (entity_audit _ _ _ _ _ _ _ _ _ _ s) as [[]]; injection E0 as <- <-; eauto. }
  unfold rescue in E. destruct (send_and_apply id o p s0) as [r1 s1] eqn:E1.
  apply (send_and_apply_steps C) in E1; [|done]. etrans; [exact E1|].
  destruct r1 as [u1|e]; [by injection E as <- <-|]. pose proof (payout_steps_ok _ _ E1 Hok) as Hok1. exact (within C _ _ _ E Hok1).
Qed.

Lemma submit_steps C id o p s s' r :
  submitMwaloniMobilePayout id o p s = (r, s') -> about_order id o s -> machine_ok (abs C s) ->
  rtc payout_step (abs C s) (abs C s').
Proof.
  intros E Ho Hok. unfold submitMwaloniMobilePayout, bind at 1 in E.
  destruct (claim_send id s) as [r1 s1] eqn:Ec. apply (claim_send_step C id o) in Ec; [|done].
  destruct r1 as [[]|e]; [|subst s1|subst s1; by injection E as <- <-].
  - etrans; [exact Ec|]. pose proof (payout_steps_ok _ _ Ec Hok) as Hok1. unfold bind in E.
    destruct (send_claimed id o p s1) as [r2 s2] eqn:Es. apply (send_claimed_steps C) in Es; [|done].
    by destruct r2; injection E as <- <-.
  - unfold row_or_throw in E. exact (within C _ _ _ E Hok).
Qed.

(** ** Creating a payout *)
Lemma mpesa_create_cases m w r w' :
  mpesa_create m w = (r, w') ->
  (exists e, r = Err e /\ world_view w' = world_view w) \/
  (exists id, r = Ok id /\ mpesaTransactions (db w) !! id = None /\
     (forall j n, mpesaTransactions (db w) !! j = Some n -> mpesa_unique m n = false) /\
     mpesaTransactions (db w') = <[id := m]> (mpesaTransactions (db w)) /\ reversed_of (db w') = reversed_of (db w)).
Proof.
  unfold mpesa_create. unfold bind at 1, fresh_id. set (id := uuid _). unfold bind at 1, gets at 1.
  destruct (bool_decide _ || existsb _ _) eqn:Ec; [by intros [= <- <-]; left; eauto|].
  apply orb_false_iff in Ec as [Hn Hu]. apply bool_decide_eq_false in Hn.
  cbn [bump_uuid db] in Hu, Hn.
  assert (forall j n, mpesaTransactions (db w) !! j = Some n -> mpesa_unique m n = false) as Hun.
  { intros j n Hj. destruct (mpesa_unique m n) eqn:E; [|done].
    assert (existsb (fun kv => mpesa_unique m kv.2) (map_to_list (mpesaTransactions (db w))) = true); [|congruence].
    apply existsb_exists. exists (j, n). split; [|done]. by apply list_elem_of_In, elem_of_map_to_list. }
  apply eq_None_not_Some in Hn. unfold bind, throw_if, throw, ret, modify. intros Hr.
  repeat case_match; simplify_eq; first [by left; eauto | right; by exists id].
Qed.

Lemma unique_columns m n :
  mpesa_unique m n = false ->
  mp_reference n <> mp_reference m /\ (is_Some (mp_transactionId m) -> mp_transactionId n <> mp_transactionId m).
Proof.
  unfold mpesa_unique. rewrite !orb_false_iff. intros ((((Hr & _) & Ht) & _) & _).
  apply (proj1 (same_false _ _)) in Hr. split; [congruence|]. intros Hs E. rewrite E in Ht.
  rewrite bool_decide_eq_true_2 in Ht by done. by rewrite same_refl in Ht.
Qed.

Lemma create_payout_steps C o p s s' r :
  create_payout_body o (b2c_reference o) p s = (r, s') -> machine_ok (abs C s) ->
  rtc payout_step (abs C s) (abs C s') /\ (forall id, r = Ok id -> about_order id o s').
Proof.
  intros E Hok. unfold create_payout_body in E. unfold bind at 1, gets at 1 in E. unfold bind at 1, gets at 1 in E.
  unfold bind at 1, throw_if at 1 in E. destruct (negb _); [by injection E as <- <-|]. unfold ret at 1 in E.
  unfold bind at 1, on_world at 1 in E. destruct (mpesa_create _ _) as [r1 w1] eqn:Ec.
  apply mpesa_create_cases in Ec as [(e & -> & Hv)|(id & -> & Hid & Hun & Em & Er)].
  { injection E as <- <-. split; [|done]. erewrite abs_view; [done|]. unfold world_view in Hv. injection Hv as E1 E2.
    unfold payout_view, tdb. cbn. by rewrite E1, E2. }
  unfold bind at 1, put_columns, modify_tables, modify in E.
  set (s2 := set_tables _ _) in E. unfold bind in E.
  match type of E with context [match ?x s2 with _ => _ end] => destruct (x s2) as [r3 s3] eqn:Ea end.
  assert (payout_view s3 = payout_view s2) as Hv3 by apply (frames_Ok payout_view _ _ _ _ _ Ea).
  assert (row_of id s2 = Some (payout_row o (b2c_reference o) p)) as Hrow.
  { unfold row_of, tdb, s2. cbn. by rewrite Em, lookup_insert_eq. }
  assert (abs C s2 = put_row id (abs_row (created_columns (now_of s)) (payout_row o (b2c_reference o) p)) (abs C s)) as Habs.
  { unfold abs, put_row. cbn [a_rows a_sent a_claimed a_refunded]. f_equal; [|exact Er]. apply map_eq. intros j.
    rewrite lookup_insert, !lookup_rows. unfold row_of, columns_of, tdb, s2. cbn. rewrite Em, !lookup_insert.
    by case_decide. }
  assert (rtc payout_step (abs C s) (abs C s2)) as Hs2.
  { rewrite Habs. apply rtc_once. apply ps_create; cbn [abs a_rows].
    - rewrite lookup_rows. unfold row_of, tdb. by rewrite Hid.
    - intros j x Hj. rewrite lookup_rows in Hj. apply fmap_Some in Hj as (n & Hn & ->). cbn.
      by apply (unique_columns (payout_row o (b2c_reference o) p) n), (Hun j).
    - intros j x Hj. rewrite lookup_rows in Hj. apply fmap_Some in Hj as (n & Hn & ->). cbn.
      by apply (unique_columns (payout_row o (b2c_reference o) p) n), (Hun j). }
  rewrite <- (abs_view C _ _ Hv3) in Hs2.
  assert (about_order id o s3) as Hab.
  { exists (payout_row o (b2c_reference o) p). split; [|done]. unfold payout_view in Hv3. injection Hv3 as E1 _ _ _.
    unfold row_of. by rewrite E1. }
  destruct r3; injection E as <- <-; (split; [done|]); [|done]. by intros ? [= <-].
Qed.

Lemma execute_payout_within p : Within (executeMwaloniMobilePayout p).
Proof.
  intros C s r s' E Hok. unfold executeMwaloniMobilePayout in E. unfold bind at 1, gets at 1 in E.
  set (o := buildMwaloniOrderNumber _ _ _) in E. unfold bind at 1, gets at 1 in E.
  destruct (payout_row_by _ s) as [[id m]|] eqn:Ef.
  - apply mpesa_find_Some in Ef as [Hm Href]. apply (proj1 (same_true _ _)) in Href. unfold bind at 1, gets at 1 in E.
    destruct (pc_state (columns_of id s) === Some LOCAL_CREATED) eqn:Hloc.
    + apply (proj1 (same_true _ _)) in Hloc. eapply submit_steps; [exact E| |done]. exists m. split; [done|].
      destruct (mo_local _ Hok id (abs_row (columns_of id s) m)) as (o' & Ho & Hr & _);
        [by apply abs_lookup|done|]. cbn in Ho, Hr.
      rewrite Hr in Href. apply b2c_reference_inj in Href. congruence.
    + exact (within C _ _ _ E Hok).
  - unfold bind at 1, payout_transaction in E.
    destruct (create_payout_body o (b2c_reference o) p s) as [r1 s1] eqn:Ec.
    pose proof (create_payout_steps C _ _ _ _ _ Ec Hok) as [Hs1 Hab].
    destruct r1 as [id|e].
    + etrans; [exact Hs1|]. pose proof (payout_steps_ok _ _ Hs1 Hok) as Hok1. unfold bind at 1 in E.
      destruct (submitMwaloniMobilePayout id o p s1) as [r2 s2] eqn:Es.
      apply (submit_steps C) in Es; [|by apply Hab|done]. etrans; [exact Es|].
      destruct r2 as [d|e]; [|by injection E as <- <-].
      apply (within C _ _ _ E). by eapply payout_steps_ok.
    + injection E as <- <-. pose proof (frames_Ok (fun s => asked (wallet s)) _ _ _ _ _ Ec) as Ea. cbn in Ea.
      erewrite abs_view; [done|]. unfold payout_view. cbn. by rewrite Ea.
Qed.

#[local] Typeclasses Opaque applyMwaloniStatus refreshMwaloniB2cStatus refreshMwaloniB2cStatusByConversation
  markMwaloniOutcomeUnknown executeMwaloniMobilePayout submitMwaloniMobilePayout.

Lemma resume_steps C id o m p s s' r :
  resume_payout id o m p s = (r, s') -> about_order id o s -> machine_ok (abs C s) -> rtc payout_step (abs C s) (abs C s').
Proof.
  intros E Ho Hok. unfold resume_payout, bind at 1, gets at 1 in E. destruct (_ === Some LOCAL_CREATED).
  - unfold bind, throw_if in E. destruct (negb mwaloni_enabled); [by injection E as <- <-|]. cbn in E.
    by eapply submit_steps.
  - exact (within C _ _ _ E Hok).
Qed.

#[export] Instance within_disbursement a b t ph amt by_ src : Within (executeB2cDisbursement a b t ph amt by_ src).
Proof.
  unfold executeB2cDisbursement. apply within_bind; [apply _|]. intros _. apply within_bind; [apply _|]. intros found.
  apply within_bind; [apply _|]. intros acc. cbv zeta. intros C s r s' E Hok. unfold bind at 1, gets at 1 in E.
  set (p := mkPayout _ _ _ _ _ _ _ _ _) in E.
  destruct (match truthy src with Some _ => _ | None => _ end) as [[id m]|] eqn:Ef.
  - destruct (truthy (mpd_conversationId (mp_details m))) as [o|] eqn:Eo; [|by injection E as <- <-].
    eapply resume_steps; [exact E| |done]. exists m. destruct (truthy src); [|done].
    apply mpesa_find_Some in Ef as [Hm _]. split; [done|by apply truthy_Some].
  - unfold bind, throw_if in E. destruct (negb mwaloni_enabled); [by injection E as <- <-|]. cbn in E.
    by apply (execute_payout_within p C _ _ _ E).
Qed.

(** ** The outbox and the queues *)
#[export] Instance view_payout_add j d : Frames payout_view (payout_add j d).
Proof.
  unfold payout_add. do 2 (apply frames_bind; [apply _|]; intros ?). intros s. cbn. by destruct (payoutQueue s !! j).
Qed.
#[export] Instance view_intent_update id f : Frames payout_view (intent_update id f).
Proof. unfold intent_update, put_intent, modify_tables. apply _. Qed.
#[export] Instance view_dispatch id : Frames payout_view (dispatchIntent id).
Proof. unfold dispatchIntent, markQueueFailure. apply _. Qed.
#[export] Instance view_dispatch_due n : Frames payout_view (dispatchDueIntents n).
Proof. unfold dispatchDueIntents. apply _. Qed.
#[export] Instance view_delivered a b c : Frames payout_view (markDelivered a b c).
Proof. unfold markDelivered, put_intent, modify_tables. apply _. Qed.
#[export] Instance within_dead_letter j n e d : Within (markDeadLetter j n e d).
Proof.
  unfold markDeadLetter. apply within_transaction; unfold dead_letter_body; [|unfold intent_update, put_intent]; apply _.
Qed.
#[export] Instance within_disburse d : Within (disburse d).
Proof. unfold disburse. apply _. Qed.
#[export] Instance within_run_payout j : Within (run_payout j).
Proof. unfold run_payout, best_effort, disbursement_failed. apply _. Qed.
#[export] Instance view_timeout_audit j a b c d e f : Frames payout_view (timeout_audit j a b c d e f).
Proof. unfold timeout_audit. apply _. Qed.
#[export] Instance noask_timeout_audit j a b c d e f : NoAsk (timeout_audit j a b c d e f).
Proof. unfold timeout_audit. apply _. Qed.

Definition open_row (id : string) (s : PayoutWorld) : Prop := exists m, row_of id s = Some m /\ is_open m = true.

Lemma open_row_view id s s' : payout_view s' = payout_view s -> open_row id s -> open_row id s'.
Proof. unfold payout_view, open_row, row_of. intros [= -> _ _ _]. done. Qed.

Lemma timed_out_steps {A} C id (k : PM A) s r s' :
  Within k -> (payout_update id row_timed_out (fun c => c) ;; k) s = (r, s') -> open_row id s -> machine_ok (abs C s) ->
  rtc payout_step (abs C s) (abs C s').
Proof.
  intros Hk E (m & Hm & Ho) Hok. unfold bind in E. destruct (payout_update _ _ _ s) as [r1 s1] eqn:Eu.
  apply payout_update_cases in Eu as [(e & -> & ->)|(m0 & -> & Hm0 & ->)]; [by injection E as <- <-|].
  assert (m0 = m) as -> by congruence.
  assert (rtc payout_step (abs C s) (abs C (updated id (row_timed_out m) (columns_of id s) s))) as Hs1.
  { eapply updated_step; [done|]. split; try done; [by left|by right]. }
  etrans; [exact Hs1|]. apply (within C _ _ _ E). by eapply payout_steps_ok.
Qed.

#[export] Instance within_timeout j jobId : Within (payout_transaction (timeout_body j jobId)).
Proof.
  apply within_transaction; [|unfold timeout_body, loan_timeout; apply _].
  intros C s r s' E Hok. unfold timeout_body, bind at 1, gets at 1 in E.
  destruct (payout_row_by _ s) as [[id m]|] eqn:Ef; [|by injection E as <- <-].
  apply mpesa_find_Some in Ef as [Hm Hp]. assert (open_row id s) as Ho.
  { exists m. split; [done|]. unfold timed_out in Hp. apply andb_true_iff in Hp as [_ Hp]. unfold is_open. by rewrite Hp. }
  destruct (tj_referenceType j === _).
  - unfold loan_timeout in E. cbv zeta in E. unfold bind at 1, gets at 1 in E.
    destruct (tenant_loan _ _ _) as [loan|]; [|by injection E as <- <-].
    destruct (negb _); [by injection E as <- <-|]. unfold bind at 1 in E.
    destruct (on_world _ s) as [r1 s1] eqn:El.
    assert (payout_view s1 = payout_view s) as Hv by apply (frames_Ok payout_view _ _ _ _ _ El).
    rewrite <- (abs_view C _ _ Hv) in Hok |- *. destruct r1; [|by injection E as <- <-].
    eapply timed_out_steps; [|exact E|by eapply open_row_view|done]. apply _.
  - eapply timed_out_steps; [|exact E|done|done]. apply _.
Qed.

#[export] Instance within_process_timeout jobId j : Within (process_timeout jobId j).
Proof. unfold process_timeout. apply _. Qed.
#[export] Instance within_run_timeout j : Within (run_timeout j).
Proof. unfold run_timeout. apply _. Qed.

(** ** Withdrawing, and the sweeps of pushes *)
#[export] Instance view_withdraw r : Frames payout_view (withdraw_body r).
Proof. unfold withdraw_body, intent_upsert, put_intent, modify_tables. apply _. Qed.
#[export] Instance within_withdraw r : Within (executeWithdrawMpesa r).
Proof.
  unfold executeWithdrawMpesa. apply within_bind; [|apply _]. apply within_transaction; [apply _|].
  unfold withdraw_body, intent_upsert, put_intent. apply _.
Qed.

Lemma within_sweep P f :
  (forall id m, P id m = true -> is_open m = true /\ mp_reference (f m) = mp_reference m /\
     mpd_conversationId (mp_details (f m)) = mpd_conversationId (mp_details m) /\ mp_transactionId (f m) = mp_transactionId m) ->
  Within (sweep_rows P f).
Proof.
  intros Hf C s r s' E _. unfold sweep_rows, modify in E. injection E as <- <-. apply rtc_once.
  apply (ps_change (abs C s)). intros id. cbn [a_rows abs]. rewrite !lookup_rows.
  unfold row_of, columns_of, tdb. cbn. rewrite map_lookup_imap. unfold tdb.
  destruct (mpesaTransactions (db (pw_base s)) !! id) as [m|]; cbn; constructor.
  destruct (P id m) eqn:Ep; [|apply row_change_refl]. destruct (Hf id m Ep) as (Ho & E1 & E2 & E3).
  split; try done; [by left|by right].
Qed.

Lemma stale_open cutoff s id m : stale_push cutoff s id m = true -> is_open m = true.
Proof. unfold stale_push, is_open. rewrite !andb_true_iff. by intros [[_ ->] _]. Qed.

Lemma within_read {A B} (g : PayoutWorld -> A) (k : A -> PM B) : (forall s, Within (k (g s))) -> Within (bind (gets g) k).
Proof. intros Hk C s. exact (Hk s C s). Qed.

Ltac sweep_solver :=
  apply within_bind; [apply _|]; intros ?; apply within_read; intros ?; apply within_sweep; intros ? ? ?Hp;
  split; [by eapply stale_open|done].
#[export] Instance within_cleanup : Within cleanupStaleStkTransactions.
Proof. unfold cleanupStaleStkTransactions. sweep_solver. Qed.
#[export] Instance within_expire : Within expire_pushes.
Proof. unfold expire_pushes. sweep_solver. Qed.
End Settle.

(** ** Reconciliation *)
Section Reconciliation.
Context `{UuidSource, Sha256, Environment, Network, MwaloniConfig, ReconConfig}.
#[local] Typeclasses Opaque payout_updateMany payout_update entity_audit payout_transaction rescue on_world on_wallet
  bind gets ret throw throw_if or_throw modify foldM refreshMwaloniB2cStatus dispatchIntent.

#[export] Instance view_attempt_update id f : Frames payout_view (attempt_update id f).
Proof. unfold attempt_update, modify_tables. apply _. Qed.
#[export] Instance view_createAttempt id m c t a : Frames payout_view (createAttempt id m c t a).
Proof. unfold createAttempt, modify_tables. apply _. Qed.
#[export] Instance within_claim id t a : Within (claim id t a).
Proof. unfold claim, row_or_throw. apply _. Qed.
#[export] Instance within_complete_attempt a id m c o : Within (completeAttemptAndSchedule a id m c o).
Proof.
  unfold completeAttemptAndSchedule, row_or_throw. apply within_bind; [apply _|]. intros after. apply within_bind; [apply _|].
  intros now. cbv zeta. apply within_transaction; [apply _|]. unfold attempt_update. apply _.
Qed.
#[export] Instance within_alert a : Within (raiseOperationalAlertOnce a).
Proof. unfold raiseOperationalAlertOnce. apply within_transaction; [unfold modify_tables|]; apply _. Qed.
#[export] Instance within_reconcile id p : Within (reconcileTransaction id p).
Proof.
  unfold reconcileTransaction, begin_attempt, not_contacted, query_provider, retry_later, recon_audit, row_or_throw. apply _.
Qed.
#[export] Instance within_sweep_all j : Within (runAutomatedSweep j).
Proof.
  unfold runAutomatedSweep, detectStalePayoutIntents, check_intent, detectDebitWithoutPayout, check_debit. apply _.
Qed.
#[export] Instance within_refresh_status id t a r ip : Within (refreshProviderStatus id t a r ip).
Proof. unfold refreshProviderStatus, requireWithdrawal. apply _. Qed.
#[export] Instance within_resend id t a e ip : Within (controlledResend id t a e ip).
Proof. unfold controlledResend, requireWithdrawal, requireEvidence. apply _. Qed.
#[export] Instance within_mark id t a e ip : Within (markCompletedWithEvidence id t a e ip).
Proof.
  unfold markCompletedWithEvidence, requireWithdrawal, requireEvidence.
  repeat first [apply within_transaction | apply within_bind; [apply _|intros ?]];
  unfold complete_manually_body, decide_row, finish_manual, manual_audit; [apply _|].
  unfold createAttempt, attempt_update. apply _.
Qed.
End Reconciliation.
