(* ===== verification/PayoutSystem.v ===== *)
(** * PayoutSystem: every way a payout moves, interleaved

    The provider's callbacks and an operator's decisions follow the payout
    machine as the workers do; [system_step] interleaves them with workers that
    stop between the claim and the answer; [program_step] adds the two other
    writers of payout rows, the daily reconciliation and the match by hand.
    Deposits and repayments by M-Pesa have rows of their own and are left out. *)
From stdpp Require Import relations.
From S2P Require Import Prelude Money Json Format ImportText MpesaTypes Schema.
From S2P Require Import Ledger LedgerProps AuditLogs Frames Mpesa MpesaCallbacks MpesaInbox.
From S2P Require Import MpesaFacts.
From S2P Require Import MwaloniClient PayoutState PayoutMachine Payouts PayoutOutbox.
From S2P Require Import WithdrawalRecon.
From S2P Require Import LedgerFacts LedgerLegs Accounting.
From S2P Require Import PayoutFacts PayoutRefines.

(** ** An operator gives the money back *)
Section Decisions.
Context `{UuidSource, Sha256, Environment, Network, MwaloniConfig, ReconConfig}.

Lemma within_reverse_body id t a txnId m e ip C s r s' :
  reverse_manually_body id t a txnId m e ip s = (r, s') -> row_of id s = Some m -> mp_transactionId m = Some txnId ->
  machine_ok (abs C s) -> rtc payout_step (abs C s) (abs C s').
Proof.
  intros E Hm Htx Hok. unfold reverse_manually_body, bind at 1, gets at 1 in E. unfold bind at 1 in E.
  destruct (createAttempt _ _ _ _ _ s) as [r1 s1] eqn:E1.
  assert (payout_view s1 = payout_view s) as Hv by apply (frames_Ok payout_view _ _ _ _ _ E1).
  rewrite <- (abs_view C _ _ Hv) in Hok |- *. destruct r1 as [attempt|]; [|by injection E as <- <-].
  unfold bind at 1 in E. destruct (decide_row _ _ _ _ s1) as [r2 s2] eqn:E2.
  assert (row_of id s1 = Some m) as Hm1. { rewrite <- Hm. unfold payout_view in Hv. injection Hv as Hv _ _ _. unfold row_of. by rewrite Hv. }
  unfold decide_row, bind at 1, gets at 1 in E2. unfold bind at 1 in E2.
  destruct (payout_updateMany _ _ _ _ s1) as [r3 s3] eqn:E3.
  apply payout_updateMany_cases in E3 as [[[x ->] ->]|[(-> & -> & _)|(m0 & -> & Hm0 & Hc & ->)]];
    [injection E2 as <- <-; by injection E as <- <-..|]. injection E2 as <- <-. assert (m0 = m) as -> by congruence.
  apply andb_true_iff in Hc as [_ Hc]. set (s2 := updated _ _ _ _) in E.
  assert (rtc payout_step (abs C s1) (abs C s2)) as Hs2.
  { apply (updated_step C id m); [done|]. split; try done; [by left|by right]. }
  etrans; [exact Hs2|]. pose proof (payout_steps_ok _ _ Hs2 Hok) as Hok2. unfold bind at 1 in E.
  destruct (on_world _ s2) as [r4 s4] eqn:E4.
  assert (rtc payout_step (abs C s2) (abs C s4)) as Hs4.
  { apply (reverse_within C _ _ _ _ _ _ _ E4). exists id, (row_decided_failed e m). unfold s2. by rewrite row_updated, decide_True. }
  etrans; [exact Hs4|]. pose proof (payout_steps_ok _ _ Hs4 Hok2) as Hok4.
  destruct r4 as [reversal|]; [|by injection E as <- <-].
  revert E Hok4. apply within_view. unfold finish_manual, attempt_update, modify_tables, manual_audit. apply _.
Qed.

#[export] Instance within_reverse id t a e ip : Within (reverseConfirmedFailure id t a e ip).
Proof.
  intros C s r s' E Hok. unfold reverseConfirmedFailure, bind at 1 in E.
  destruct (requireWithdrawal id t s) as [r1 s1] eqn:E1.
  assert (s1 = s /\ forall m, r1 = Ok m -> row_of id s = Some m) as [-> Hm].
  { unfold requireWithdrawal, bind, gets in E1. destruct (row_of id s) as [m|]; [destruct (_ && _)|]; injection E1 as <- <-;
      (split; [done|]); by intros ? [= <-]. }
  destruct r1 as [m|]; [|by injection E as <- <-]. unfold bind at 1, requireEvidence, throw_if in E.
  destruct (_ || _); [by injection E as <- <-|]. unfold ret at 1 in E. unfold bind at 1, or_throw in E.
  destruct (truthy (mp_transactionId m)) as [txnId|] eqn:Et; [|by injection E as <- <-]. apply truthy_Some in Et. unfold ret at 1 in E.
  unfold payout_transaction in E. destruct (reverse_manually_body id t a txnId m e ip s) as [[x|x] s2] eqn:E2.
  - injection E as <- <-. exact (within_reverse_body _ _ _ _ _ _ _ _ _ _ _ E2 (Hm _ eq_refl) Et Hok).
  - injection E as <- <-. assert (NoAsk (reverse_manually_body id t a txnId m e ip)) as Hn.
    { unfold reverse_manually_body, createAttempt, decide_row, finish_manual, manual_audit, attempt_update. apply _. }
    pose proof (frames_Ok _ _ _ _ _ Hn E2) as Ea. cbn in Ea. erewrite abs_view; [done|]. unfold payout_view. cbn. by rewrite Ea.
Qed.
End Decisions.

(** ** The provider's callbacks *)
Section Results.
Context `{UuidSource, Sha256, Environment, DateReader}.

Lemma on_bind {A B} (m : M A) (k : A -> M B) s :
  on_world (bind m k) s = bind (on_world m) (fun a => on_world (k a)) s.
Proof. unfold on_world, bind. destruct (m (pw_base s)) as [[a|e] w]; [|done]. cbn [pw_base set_base]. by destruct (k a w). Qed.

Lemma within_on_bind {A B} (m : M A) (k : A -> M B) :
  Within (on_world m) -> (forall a, Within (on_world (k a))) -> Within (on_world (bind m k)).
Proof. intros Hm Hk C s r s' E. rewrite on_bind in E. exact (within_bind _ _ Hm Hk C s r s' E). Qed.

Lemma on_transaction {A} (body : M A) s : on_world (transaction body) s = payout_transaction (on_world body) s.
Proof.
  unfold on_world, transaction, payout_transaction. destruct (body (pw_base s)) as [[a|e] w]; [done|]. by destruct s.
Qed.
Lemma within_on_transaction {A} (body : M A) : Within (on_world body) -> Within (on_world (transaction body)).
Proof. intros Hb C s r s' E. rewrite on_transaction in E. revert E. by apply within_transaction; [|apply _]. Qed.

Lemma within_on_update id cond f :
  FairUpdate (fun m _ => cond m) f (fun c => c) -> Within (on_world (mpesa_updateMany id cond f)).
Proof.
  intros Hf C s r s' E _. unfold on_world, mpesa_updateMany, bind at 1, gets in E.
  destruct (mpesaTransactions (db (pw_base s)) !! id) as [m|] eqn:Em;
    [destruct (cond m) eqn:Ec|]; [|by unfold ret in E; rewrite set_base_id in E; injection E as <- <-..].
  unfold bind in E. destruct (mpesa_update id f (pw_base s)) as [r1 w] eqn:E1.
  apply mpesa_update_cases in E1 as [(e & -> & ->)|(m0 & -> & Hm0 & ->)];
    [rewrite set_base_id in E; by injection E as <- <-|].
  injection E as <- <-. simplify_eq. destruct (Hf m (columns_of id s) Ec) as [F1 F2 F3 F4 F5].
  apply rtc_once. assert (rows_of (set_base (with_db (set_mpesaTransactions (<[id:=f m]> (mpesaTransactions (db (pw_base s))))) (pw_base s)) s)
    = <[id := abs_row (columns_of id s) (f m)]> (rows_of s)) as Er.
  { apply map_eq. intros j. rewrite lookup_insert, !lookup_rows. unfold row_of, columns_of, tdb. cbn.
    rewrite lookup_insert. by case_decide; subst. }
  unfold abs. rewrite Er. apply (ps_change (abs C s)).
  eapply rows_change_insert; [by cbn; rewrite lookup_rows; unfold row_of, tdb; rewrite Em|]. by split.
Qed.

#[local] Hint Extern 1 (Within (on_world (bind _ _))) => apply within_on_bind; [|intros ?] : typeclass_instances.
#[local] Hint Extern 1 (Within (on_world (transaction _))) => apply within_on_transaction : typeclass_instances.
#[local] Hint Extern 1 (Within (on_world (mpesa_updateMany _ _ _))) => apply within_on_update : typeclass_instances.
#[local] Hint Extern 2 (Within (on_world (match ?x with _ => _ end))) => destruct x : typeclass_instances.
#[local] Hint Extern 2 (Within (on_world (if ?x then _ else _))) => destruct x : typeclass_instances.

#[export] Instance view_mpesa_audit t a id o n md r : Frames world_view (mpesa_audit t a id o n md r).
Proof. unfold mpesa_audit. apply _. Qed.
#[export] Instance view_once a : Frames world_view (createAuditOnce a).
Proof. done. Qed.

Lemma within_refund_body C id m cb txnId s r s' :
  on_world (refund_body id m cb txnId) s = (r, s') -> row_of id s = Some m -> mp_transactionId m = Some txnId ->
  machine_ok (abs C s) -> rtc payout_step (abs C s) (abs C s').
Proof.
  intros E Hm Htx Hok. unfold refund_body in E. rewrite on_bind in E. unfold bind at 1 in E.
  destruct (on_world _ s) as [r1 s1] eqn:E1. pose proof (fun Hf => within_on_update id is_open _ Hf C _ _ _ E1 Hok) as Hs1.
  specialize (Hs1 ltac:(apply _)). etrans; [exact Hs1|]. pose proof (payout_steps_ok _ _ Hs1 Hok) as Hok1.
  destruct r1 as [n|]; [|by injection E as <- <-].
  destruct (Nat.eqb n 0) eqn:En; [by injection E as <- <-; destruct s1|].
  assert (failed_row txnId s1) as Hf.
  { apply on_world_Ok in E1 as (w & E1 & ->). apply mpesa_updateMany_Ok in E1 as [(-> & _)|(m0 & _ & Hm0 & _ & _ & ->)]; [done|].
    assert (m0 = m) as -> by (unfold row_of, tdb in Hm; congruence). eexists id, _. unfold row_of, tdb. cbn. by rewrite lookup_insert_eq. }
  rewrite on_bind in E. unfold bind at 1 in E. destruct (on_world _ s1) as [r2 s2] eqn:E2.
  apply (reverse_within C) in E2; [|done]. etrans; [exact E2|]. pose proof (payout_steps_ok _ _ E2 Hok1) as Hok2.
  destruct r2; [|by injection E as <- <-]. revert E Hok2. apply within_view. apply _.
Qed.

Lemma within_success id m cb :
  mpd_referenceType (mp_details m) = Some FOSA_WITHDRAWAL -> Within (on_world (b2c_success id m cb)).
Proof. intros Hty. unfold b2c_success, withdrawal_done_body. rewrite Hty, same_refl. apply _. Qed.
Lemma within_unlinked id m cb : Within (on_world match truthy (mpd_referenceId (mp_details m)) with
  | Some referenceId => transaction (manual_review_body id m cb referenceId)
  | None => transaction (b2c_failed_body id m cb)
  end).
Proof. unfold manual_review_body, b2c_failed_body. apply _. Qed.

Lemma within_different id m cb xs : Within (on_world (transaction (mismatch_body id m cb xs))).
Proof. unfold mismatch_body. apply _. Qed.

Lemma withdrawal_callback C cb s r s' :
  on_world (handleB2cCallback cb) s = (r, s') ->
  (forall id m, mpesa_by_conversation (b2c_ConversationID cb) (tdb s) = Some (id, m) ->
     mpd_referenceType (mp_details m) = Some FOSA_WITHDRAWAL) ->
  machine_ok (abs C s) -> rtc payout_step (abs C s) (abs C s').
Proof.
  intros E Hty Hok. unfold handleB2cCallback in E. rewrite on_bind in E. unfold bind, on_world at 1, gets in E.
  rewrite set_base_id in E. fold (tdb s) in E. destruct (mpesa_by_conversation _ (tdb s)) as [[id m]|] eqn:Ef;
    [|by injection E as <- <-; destruct s].
  specialize (Hty _ _ eq_refl). apply mpesa_find_Some in Ef as [Hm _]. fold (row_of id s) in Hm.
  destruct (is_open m) eqn:Ho; cbn [negb] in E; [|by injection E as <- <-; destruct s].
  destruct (findB2cCallbackMismatches _ _) as [[|x xs]|e] eqn:Ex; [| |by injection E as <- <-; destruct s].
  - destruct (negb _).
    + unfold b2c_failure in E. rewrite Hty, same_refl in E.
      destruct (truthy (mp_transactionId m)) as [txnId|] eqn:Et.
      * apply truthy_Some in Et. rewrite on_transaction in E. unfold payout_transaction in E.
        destruct (on_world _ s) as [[u|e] s1] eqn:E1; injection E as <- <-.
        -- by eapply within_refund_body.
        -- pose proof (frames_Ok (fun s => asked (wallet s)) _ _ _ _ (noask_on_world _) E1) as Ea. cbn in Ea.
           erewrite abs_view; [done|]. unfold payout_view. cbn. by rewrite Ea.
      * revert E Hok. by apply (within_unlinked id m cb).
    + revert E Hok. by apply (within_success id m cb).
  - revert E Hok. by apply (within_different id m cb (x :: xs)).
Qed.
End Results.

(** ** The system *)
Section System.
Context `{UuidSource, Sha256, Environment, DateReader, Network, MwaloniConfig, ReconConfig}.

(** The entry points, each run without interruption. *)
Inductive operation : forall {A}, PM A -> Prop :=
  | op_withdraw r : operation (executeWithdrawMpesa r)
  | op_dispatch id : operation (dispatchIntent id)
  | op_dispatch_due n : operation (dispatchDueIntents n)
  | op_run_payout j : operation (run_payout j)
  | op_run_timeout j : operation (run_timeout j)
  | op_disburse a b t ph amt by_ src : operation (executeB2cDisbursement a b t ph amt by_ src)
  | op_sweep j : operation (runAutomatedSweep j)
  | op_refresh id t a r ip : operation (refreshProviderStatus id t a r ip)
  | op_complete id t a e ip : operation (markCompletedWithEvidence id t a e ip)
  | op_reverse id t a e ip : operation (reverseConfirmedFailure id t a e ip)
  | op_resend id t a e ip : operation (controlledResend id t a e ip)
  | op_cleanup : operation cleanupStaleStkTransactions
  | op_expire : operation expire_pushes
  (* The database transactions of a worker that was interrupted, in any order. *)
  | op_outcome_unknown id reason : operation (markMwaloniOutcomeUnknown id reason)
  | op_mismatch id m p xs msg : operation (markMwaloniMismatchReconciliation id m p xs msg)
  | op_accepted id now : operation (payout_updateMany id (fun _ _ => true) (fun m => m) (set_accepted now))
  | op_pending id desc p now : operation (payout_update id (row_pending desc p) (set_checked now))
  | op_completed id r desc p : operation (payout_transaction (complete_body id r desc p))
  | op_failed id code desc reason p : operation (failMwaloniTransaction id code desc reason p).

#[local] Typeclasses Opaque executeWithdrawMpesa dispatchIntent dispatchDueIntents run_payout run_timeout
  executeB2cDisbursement runAutomatedSweep refreshProviderStatus markCompletedWithEvidence reverseConfirmedFailure
  controlledResend cleanupStaleStkTransactions expire_pushes markMwaloniOutcomeUnknown
  markMwaloniMismatchReconciliation payout_updateMany payout_update payout_transaction complete_body failMwaloniTransaction.

Lemma operation_within {A} (m : PM A) : operation m -> Within m.
Proof. intros Hop. destruct Hop; apply _. Qed.

(** The claims that workers hold, and the state. *)
Definition Sys : Type := list string * PayoutWorld.

Inductive system_step : Sys -> Sys -> Prop :=
  | sys_operation {A} (m : PM A) C s r s' :
      operation m -> m s = (r, s') -> system_step (C, s) (C, s')
  (* A worker creates the row of a payout ... *)
  | sys_create C s o p r s' :
      payout_transaction (create_payout_body o (b2c_reference o) p) s = (r, s') -> system_step (C, s) (C, s')
  (* ... or claims one that is waiting ... *)
  | sys_claim C s id o s' :
      about_order id o s -> claim_send id s = (Ok true, s') -> system_step (C, s) (o :: C, s')
  (* ... asks the wallet to pay the order it claimed, whatever the answer ... *)
  | sys_send C1 C2 s p r s' now :
      on_wallet (sendMobile now p) s = (r, s') ->
      system_step (C1 ++ mo_orderNumber p :: C2, s) (C1 ++ C2, s')
  (* ... or dies. *)
  | sys_crash C1 C2 o s : system_step (C1 ++ o :: C2, s) (C1 ++ C2, s)
  (* The provider reports on a withdrawal. *)
  | sys_callback C s cb r s' :
      (forall id m, mpesa_by_conversation (b2c_ConversationID cb) (tdb s) = Some (id, m) ->
         mpd_referenceType (mp_details m) = Some FOSA_WITHDRAWAL) ->
      on_world (handleB2cCallback cb) s = (r, s') -> system_step (C, s) (C, s')
  (* Time passes, the stores forget, and the services work that write neither
     payments nor reversals. *)
  | sys_other C s s' : payout_view s' = payout_view s -> tables s' = tables s -> system_step (C, s) (C, s').

Definition abs_sys (x : Sys) : Machine := abs x.1 x.2.

Lemma create_within C s o p r s' :
  payout_transaction (create_payout_body o (b2c_reference o) p) s = (r, s') -> machine_ok (abs C s) ->
  rtc payout_step (abs C s) (abs C s').
Proof.
  intros E Hok. unfold payout_transaction in E.
  destruct (create_payout_body o (b2c_reference o) p s) as [[id|e] s1] eqn:Ec; injection E as <- <-.
  - by apply (create_payout_steps C _ _ _ _ _ Ec).
  - pose proof (frames_Ok (fun s => asked (wallet s)) _ _ _ _ _ Ec) as Ea. cbn in Ea.
    erewrite abs_view; [done|]. unfold payout_view. cbn. by rewrite Ea.
Qed.

Lemma send_within C1 C2 s p r s' now :
  on_wallet (sendMobile now p) s = (r, s') ->
  payout_step (abs (C1 ++ mo_orderNumber p :: C2) s) (abs (C1 ++ C2) s').
Proof.
  intros E. unfold on_wallet in E. pose proof (sendMobile_asks now p (wallet s)) as Ha.
  destruct (sendMobile now p (wallet s)) as [r1 x]. injection E as <- <-. cbn in Ha.
  unfold abs. cbn [wallet set_wallet]. destruct Ha as [->| ->].
  - by eapply (ps_drop (abs (C1 ++ mo_orderNumber p :: C2) s)).
  - by eapply (ps_send (abs (C1 ++ mo_orderNumber p :: C2) s)).
Qed.

Lemma system_step_within x y :
  system_step x y -> machine_ok (abs_sys x) -> rtc payout_step (abs_sys x) (abs_sys y).
Proof.
  intros Hs Hok. destruct Hs; unfold abs_sys in *; cbn [fst snd] in *.
  - eapply operation_within; eauto.
  - by eapply create_within.
  - by apply (claim_send_step C id o s s' (Ok true)).
  - apply rtc_once. by eapply send_within.
  - apply rtc_once. by eapply (ps_drop (abs (C1 ++ o :: C2) s)).
  - by eapply withdrawal_callback.
  - by rewrite (abs_view C s s').
Qed.

Lemma system_steps_within x y :
  rtc system_step x y -> machine_ok (abs_sys x) -> rtc payout_step (abs_sys x) (abs_sys y).
Proof.
  induction 1 as [|x y z Hxy _ IH]; intros Hok; [done|]. pose proof (system_step_within _ _ Hxy Hok) as Hs.
  etrans; [exact Hs|]. apply IH. by eapply payout_steps_ok.
Qed.

Lemma system_steps_ok x y : rtc system_step x y -> machine_ok (abs_sys x) -> machine_ok (abs_sys y).
Proof. intros Hs Hok. by eapply payout_steps_ok, Hok; apply system_steps_within. Qed.

(** *** The daily reconciliation and the match by hand among them

    The reconciliation is cut after the read and after each row, so that a row
    it writes was read at any earlier time.  A match ([AccountingService], from
    what it read earlier) takes a row without a transaction: it reads no other,
    and only a match gives the row of a payout one.  [P] says which rows may be
    flagged or matched. *)
Inductive program_step (P : string -> Prop) : Sys -> Sys -> Prop :=
  | prog_system x y : system_step x y -> program_step P x y
  | prog_daily C s now acc row r s' :
      (DailyRecon.is_stale now row = true -> P (DailyRecon.rr_id row)) ->
      DailyRecon.settle_row now acc row s = (r, s') -> program_step P (C, s) (C, s')
  | prog_match C s id t acc actor note read_ r s' :
      P id -> (forall m, row_of id s = Some m -> mp_transactionId m = None) ->
      on_world (match_commit id t acc actor note read_) s = (r, s') -> program_step P (C, s) (C, s').

(** A match leaves the payments as they are, or completes its row with a
    transaction no other row has. *)
Lemma match_commit_cases id t acc actor note read_ w r w' :
  match_commit id t acc actor note read_ w = (r, w') ->
  world_view w' = world_view w \/
  exists m txn mem, mpesaTransactions (db w) !! id = Some m /\
    mpesa_clash id (set_matched txn mem (note_text note) m) (db w) = false /\
    world_view w' = (<[id := set_matched txn mem (note_text note) m]> (mpesaTransactions (db w)), reversed_of (db w)).
Proof.
  destruct read_ as [m account]. unfold match_commit. unfold bind at 1.
  destruct (transaction _ w) as [[posted|e] w1] eqn:E.
  2: { intros [= <- <-]. left. apply transaction_Err in E. unfold world_view. by rewrite E. }
  intros En. assert (world_view w' = world_view w1) as ->.
  { revert En. unfold bind, modify, gets, ret. intros En. injection En as _ <-. done. }
  clear En.
  apply transaction_Ok in E. unfold matchBody in E. run_inv. destruct (txn_by_reference _ _ _); run_inv; [by left|right].
  inv_call account_updateMany_Ok as [(-> & ->)|(b & -> & _ & _ & _ & ->)]; [done|].
  inv_call transaction_create_Ok as (-> & _ & _ & _ & _ & ->).
  match goal with H : match List.find _ _ with _ => _ end _ = _ |- _ => rename H into Hgl end.
  destruct (List.find _ _) as [cash|]; [|discriminate]. destruct (List.find _ _) as [savings|]; [|discriminate]. run_inv.
  inv_call journal_create_Ok as (-> & _ & _ & ->). inv_call mpesa_update_hit as (m0 & Hm & Hcl & ->).
  do 3 eexists. split; [exact Hm|]. split; [exact Hcl|]. unfold world_view, reversed_of. cbn. by rewrite reversed_app.
Qed.

Lemma match_cases C id t acc actor note read_ s r s' :
  on_world (match_commit id t acc actor note read_) s = (r, s') ->
  (forall m, row_of id s = Some m -> mp_transactionId m = None) -> machine_ok (abs C s) ->
  exists txn, (abs C s' = abs C s \/ abs C s' = match_row id txn (abs C s)) /\ machine_ok (abs C s').
Proof.
  intros E Hnone Hok. unfold on_world in E. destruct (match_commit _ _ _ _ _ _ (pw_base s)) as [r1 w1] eqn:E1.
  injection E as <- <-. apply match_commit_cases in E1 as [E1|(m & txn & mem & Hm & Hcl & E1)].
  - exists "". assert (abs C (set_base w1 s) = abs C s) as Ea.
    { apply abs_view. unfold payout_view, tdb. cbn. unfold world_view in E1. by injection E1 as -> ->. }
    rewrite Ea. auto.
  - exists txn. unfold world_view in E1. injection E1 as Em Er.
    assert (abs C (set_base w1 s) = match_row id txn (abs C s)) as Ea.
    { unfold abs, match_row. cbn. unfold tdb. cbn [pw_base set_base]. rewrite Er. f_equal. apply map_eq. intros j.
      rewrite lookup_alter. unfold rows_of, columns_of, tdb. cbn. rewrite Em, !map_lookup_imap, lookup_insert.
      case_decide; [subst|done]. by rewrite Hm. }
    split; [by right|]. rewrite Ea. apply match_row_ok; [| |done].
    + cbn. intros x. rewrite lookup_rows. unfold row_of in *. unfold tdb in *. rewrite Hm. intros [= <-]. by apply Hnone.
    + cbn. intros j x Hne. rewrite lookup_rows. intros (mj & Hj & ->)%fmap_Some. cbn. intros Etx.
      enough (mpesa_clash id (set_matched txn mem (note_text note) m) (db (pw_base s)) = true) by congruence.
      apply existsb_exists. exists (j, mj). split; [by apply list_elem_of_In, elem_of_map_to_list|].
      cbn. rewrite Etx, (proj2 (same_false _ _) Hne), same_refl. cbn. by rewrite orb_true_r.
Qed.

(** A row of the loop leaves everything as it is, or flags its row. *)
Lemma settle_row_cases C now acc row s r s' :
  DailyRecon.settle_row now acc row s = (r, s') ->
  s' = s \/ (DailyRecon.is_stale now row = true /\ abs C s' = flag_row (DailyRecon.rr_id row) (abs C s)).
Proof.
  unfold DailyRecon.settle_row, bind at 1. set (reason := _ +:+ _). intros E.
  destruct (_ s) as [r1 s1] eqn:E1 in E.
  assert (s' = s1) as -> by (destruct r1; [repeat case_match; by injection E|by injection E]). clear E.
  destruct (_ === T_COMPLETED) in E1; [left; by injection E1|].
  destruct (DailyRecon.is_stale now row); [|left; by injection E1].
  unfold bind in E1. destruct (payout_update _ _ _ s) as [r2 s2] eqn:E2.
  assert (s1 = s2) as -> by (destruct r2; by injection E1). clear E1.
  apply payout_update_cases in E2 as [(e & _ & ->)|(m & _ & Hm & ->)]; [by left|right]. split; [done|].
  rewrite abs_updated. unfold flag_row, abs. cbn. f_equal. apply map_eq. intros j.
  rewrite lookup_insert, lookup_alter. case_decide; [subst|done]. by rewrite lookup_rows, Hm.
Qed.

(** When the loop goes on, a stale row was flagged. *)
Lemma settle_row_flags now acc row s acc' s' :
  DailyRecon.is_stale now row = true -> DailyRecon.settle_row now acc row s = (Ok acc', s') ->
  exists m', row_of (DailyRecon.rr_id row) s' = Some m' /\ mp_status m' = T_RECON_PENDING.
Proof.
  intros Hst. unfold DailyRecon.settle_row, bind at 1. set (reason := _ +:+ _). intros E.
  pose proof Hst as [Hp _]%andb_prop. apply bool_decide_eq_true_1 in Hp. rewrite Hp, Hst in E.
  change (T_PENDING === T_COMPLETED) with false in E. cbv iota in E. unfold bind at 1 in E.
  destruct (payout_update (DailyRecon.rr_id row) (DailyRecon.row_stale reason) (fun c => c) s) as [r2 s2] eqn:E2.
  apply payout_update_cases in E2 as [(e & -> & ->)|(m & -> & Hm & ->)]; [done|]. unfold ret at 1 in E.
  assert (s' = updated (DailyRecon.rr_id row) (DailyRecon.row_stale reason m) (columns_of (DailyRecon.rr_id row) s) s) as ->
    by (repeat case_match; by injection E).
  exists (DailyRecon.row_stale reason m). by rewrite row_updated, decide_True.
Qed.

Lemma program_step_ok P x y : program_step P x y -> machine_ok (abs_sys x) -> machine_ok (abs_sys y).
Proof.
  intros Hs Hok. destruct Hs as [x y Hs|C s now acc row r s' _ E|C s id t acc actor note read_ r s' _ Hn E].
  - eapply system_steps_ok, Hok. by apply rtc_once.
  - apply (settle_row_cases C) in E as [->|[_ E]]; [done|]. unfold abs_sys in *. cbn in *. rewrite E. by apply flag_row_ok.
  - by apply (match_cases C) in E as (txn & _ & Hok').
Qed.
Lemma program_steps_ok P x y : rtc (program_step P) x y -> machine_ok (abs_sys x) -> machine_ok (abs_sys y).
Proof. induction 1; eauto using program_step_ok. Qed.

(** A row that is neither flagged nor matched moves as in the machine. *)
Lemma unflagged_step id x y (K : Machine -> Prop) :
  (forall a b, rtc payout_step a b -> machine_ok a -> K a -> K b) ->
  (forall a b, a_rows b !! id = a_rows a !! id -> a_refunded b = a_refunded a -> K a -> K b) ->
  program_step (fun i => i <> id) x y -> machine_ok (abs_sys x) -> K (abs_sys x) -> K (abs_sys y).
Proof.
  intros Hm Hf Hs Hok HK. destruct Hs as [x y Hs|C s now acc row r s' HP E|C s i t acc actor note read_ r s' HP Hn E].
  - eapply Hm, HK; [|done]. by apply system_step_within.
  - apply (settle_row_cases C) in E as [->|[Hst E]]; [done|]. unfold abs_sys in *. cbn [fst snd] in *. rewrite E.
    eapply Hf, HK; [|done]. apply flagged_other. intros ->. by apply HP.
  - apply (match_cases C) in E as (txn & [E|E] & _); [| |done|done]; unfold abs_sys in *; cbn [fst snd] in *; rewrite E; [done|].
    eapply Hf, HK; [|done]. apply matched_other. congruence.
Qed.
Lemma unflagged_steps id x y (K : Machine -> Prop) :
  (forall a b, rtc payout_step a b -> machine_ok a -> K a -> K b) ->
  (forall a b, a_rows b !! id = a_rows a !! id -> a_refunded b = a_refunded a -> K a -> K b) ->
  rtc (program_step (fun i => i <> id)) x y -> machine_ok (abs_sys x) -> K (abs_sys x) -> K (abs_sys y).
Proof.
  intros Hm Hf Hs. induction Hs as [|x y z Hxy _ IH]; intros Hok HK; [done|].
  apply IH; [by eapply program_step_ok|by eapply unflagged_step].
Qed.
End System.

(** ** Where it starts: no payments yet *)
Record no_payments (s : PayoutWorld) : Prop := {
  np_rows : mpesaTransactions (tdb s) = ∅;
  np_asked : asked (wallet s) = [];
  np_reversed : reversed_of (tdb s) = ∅;
}.

Lemma no_payments_ok s : no_payments s -> machine_ok (abs_sys ([], s)).
Proof.
  intros [E1 E2 E3]. assert (rows_of s = ∅) as Er by (unfold rows_of; by rewrite E1, map_imap_empty).
  unfold abs_sys, abs; cbn [fst snd]. rewrite Er, E2, E3. split; cbn.
  - done.
  - intros o Ho. by apply elem_of_nil in Ho.
  - apply NoDup_nil_2.
  - intros i j r r' x Hi. by rewrite lookup_empty in Hi.
  - intros i j r r' x Hi. by rewrite lookup_empty in Hi.
  - intros t Ht. set_solver.
Qed.
