(* ===== verification/LoanRulesTheorems.v ===== *)
(** * LoanRulesTheorems: which loans may be applied for, moved on and disbursed *)
From S2P Require Import Prelude Money Schema Ledger LedgerFacts Repayment RepaymentFacts.
From S2P Require Import LoanRules Fixture LedgerTheorems RepaymentTheorems.
From Stdlib Require Import Lqa.
#[local] Open Scope Z_scope.

(** ** The state machine *)
(** Statuses in which money is, or has been, out. *)
Definition money_out (s : LoanStatus) : bool :=
  bool_decide (s ∈ [DISBURSED; ACTIVE; FULLY_PAID; DEFAULTED; WRITTEN_OFF]).

Lemma loan_step_cases s s' :
  loan_step s s' -> s' ∈ LOAN_TRANSITIONS s.
Proof. apply bool_decide_eq_true. Qed.

(** A draft loan cannot reach a status in which money is out without passing
    APPROVED, a loan is written off only from DEFAULTED, and the statuses
    REJECTED, REJECTED_GUARANTOR_DECLINE, FULLY_PAID and WRITTEN_OFF are never
    left. *)
Theorem state_machine_safe :
  (forall s, rtc (fun a b => loan_step a b /\ b <> APPROVED) DRAFT s -> money_out s = false) /\
  (forall s, loan_step s WRITTEN_OFF -> s = DEFAULTED) /\
  (forall s s', rtc loan_step s s' ->
     s ∈ [REJECTED; REJECTED_GUARANTOR_DECLINE; FULLY_PAID; WRITTEN_OFF] -> s' = s).
Proof.
  split_and!.
  - intros s Hr. assert (money_out s = false /\ s <> APPROVED) as [? _]; [|done].
    remember DRAFT as s0 eqn:E0. assert (money_out s0 = false /\ s0 <> APPROVED) as H0 by (by subst).
    clear E0. induction Hr as [|x y z [Hs Hne] _ IH]; [done|]. apply IH. split; [|done].
    destruct H0 as [Hx Hxa]. apply loan_step_cases in Hs. clear IH.
    destruct x; try discriminate Hx; try done; cbn in Hs; set_unfold in Hs;
      naive_solver.
  - intros s Hs. apply loan_step_cases in Hs. destruct s; cbn in Hs; set_unfold in Hs; naive_solver.
  - intros s s' Hr Hs. inversion Hr as [|? y ? Hxy _]; [done|subst]. exfalso.
    apply loan_step_cases in Hxy. set_unfold in Hs. destruct s; try naive_solver; by apply elem_of_nil in Hxy.
Qed.

Lemma loan_status_name_inj s s' : loan_status_name s = loan_status_name s' -> s = s'.
Proof. by destruct s, s'. Qed.

(** The transition guard lets a request with a target status through only
    when the loan exists in the request's tenant and the state machine allows
    the move, and it never writes. *)
Theorem guard_admits_only_transitions r raw w b w' s :
  gr_guarded r = true -> nonempty (gr_targetStatus r) = Some raw ->
  target_status r raw = loan_status_name s ->
  canActivate r w = (Ok b, w') ->
  w' = w /\ exists t id l, request_tenant r = Some t /\ gr_loanId r = Some id /\
    tenant_loan t id (db w) = Some l /\ loan_step (loan_status l) s.
Proof.
  intros Hg Hraw Hs Hr. unfold canActivate in Hr. rewrite Hg, Hraw in Hr. cbn [negb] in Hr. run_inv.
  rewrite Hs in *. reflect. split; [done|].
  assert (forall o x, nonempty o = Some x -> o = Some x) as Hne.
  { intros [y|] x; cbn; [|done]. by case_bool_decide. }
  do 3 eexists. split_and!; [by apply Hne|by apply Hne|eassumption|].
  match goal with Hin : loan_status_name s ∈ _ |- _ => apply list_elem_of_fmap in Hin as (s0 & E & Hin) end.
  apply loan_status_name_inj in E as <-. by apply bool_decide_eq_true.
Qed.

Lemma status_after_moves current newPrincipal residual :
  repayable current = true ->
  let next := status_after current newPrincipal residual in
  (next = current \/ loan_step current next) <-> ~ (next = FULLY_PAID /\ current <> ACTIVE).
Proof.
  intros Hc. cbn zeta. unfold status_after.
  destruct (newPrincipal <=? 0) eqn:E.
  - destruct current; try discriminate Hc; split; intros Hx.
    all: try (destruct Hx as [Hx|Hx]; [discriminate|by vm_compute in Hx]).
    all: try (by exfalso; apply Hx). 2: by right.
    intros [_ Hn]. by apply Hn.
  - destruct current; try discriminate Hc; cbn; [| |destruct (0 <? residual)];
      (split; [intros _ [? _]; discriminate|intros _]); [by right|by left|by left|by right].
Qed.

(** A repayment keeps to the state machine except when it settles a loan:
    the status it writes is the old one or an allowed move, unless it makes a
    DISBURSED or DEFAULTED loan FULLY_PAID, which the machine does not allow. *)
Theorem repayment_status_moves input w s w' id l :
  processRepayment input w = (Ok s, w') ->
  txn_by_reference (in_tenantId input) (in_reference input) (db w) = None ->
  target_loan input (db w) = Some (id, l) ->
  exists next, loan_status <$> (loans (db w') !! id) = Some next /\
    ((next = loan_status l \/ loan_step (loan_status l) next) <->
     ~ (next = FULLY_PAID /\ loan_status l <> ACTIVE)).
Proof.
  intros Hr Hn Htl. apply processRepayment_fresh in Hr as (w1 & _ & Hf & ->); [|done].
  apply repayment_fresh_Ok in Hf as (id0 & l0 & accId & a & paid & over & w2 & Htl0 & Hrep & _ & _ &
    _ & _ & (_ & l1 & now & _ & ->) & _).
  assert (id0 = id /\ l0 = l) as [-> ->] by (by rewrite Htl in Htl0; injection Htl0).
  eexists. split; [by rewrite lookup_insert_eq|]. by apply status_after_moves.
Qed.

(** ** The disbursement gate *)
Lemma reasons_nil (b1 b2 b3 b4 : bool) (r1 r2 r3 r4 : string) :
  (if b1 then [r1] else []) ++ (if b2 then [r2] else []) ++ (if b3 then [r3] else [])
    ++ (if b4 then [r4] else []) = [] <->
  b1 = false /\ b2 = false /\ b3 = false /\ b4 = false.
Proof. destruct b1, b2, b3, b4; naive_solver. Qed.

Section Rules.
Context `{DecimalLib}.

(** The disbursement gate opens exactly when the product needs no guarantor,
    or every guarantor of the loan has accepted, there are at least as many as
    the product requires, and their guarantees cover the principal times the
    coverage ratio. *)
Theorem gate_passes_iff required principalAmount ratio guarantors :
  gatePassed (gate_result required principalAmount ratio guarantors) = true <->
  required <= 0 \/
  (Forall (fun g => lg_status g = G_ACCEPTED) guarantors /\
   required <= Z.of_nat (length guarantors) /\
   (d_times (dec principalAmount) (dec ratio) <= dec (sum_by lg_guaranteedAmount guarantors))%Q).
Proof.
  unfold gate_result. cbn [gatePassed]. rewrite bool_decide_eq_true, reasons_nil.
  destruct (Z.ltb_spec 0 required) as [Hpos|Hle]; [|by split; [left|]].
  cbn [andb].
  assert (existsb (fun g => negb (accepted g)) guarantors = false ->
    List.filter accepted guarantors = guarantors /\ Forall (fun g => lg_status g = G_ACCEPTED) guarantors) as Hall.
  { clear. induction guarantors as [|g gs IH]; intros Hf; [done|]. cbn in Hf.
    apply orb_false_iff in Hf as [Hg Hf]. apply negb_false_iff in Hg. cbn. rewrite Hg.
    destruct (IH Hf) as [-> HF]. split; [done|]. constructor; [|done]. by apply bool_decide_eq_true in Hg. }
  assert (Forall (fun g => lg_status g = G_ACCEPTED) guarantors ->
    existsb (fun g => negb (accepted g)) guarantors = false) as Hall'.
  { clear. induction 1 as [|g gs Hg HF IH]; [done|]. cbn. unfold accepted at 1. rewrite Hg. done. }
  rewrite !Z.ltb_ge, negb_false_iff, Qle_bool_iff. split.
  - intros (Hn & Hex & Hacc & Hcov). destruct (Hall Hex) as [Hfil HF]. rewrite Hfil in *. right. done.
  - intros [?|(HF & Hn & Hcov)]; [lia|]. destruct (Hall (Hall' HF)) as [Hfil _]. rewrite Hfil.
    split_and!; auto.
Qed.

(** ** Product rules *)

(** A loan application satisfies its product exactly when the savings that
    count are not zero, the number of guarantors lies within the product's
    bounds (no upper bound when the maximum is zero or less), and the principal
    does not exceed savings times multiplier. *)
Theorem product_rules_iff product principal n fosa bosa :
  is_ok (assertLoanApplicationRules product principal n fosa bosa) = true <->
  let savings := eligibleSavings (resolve product fosa bosa) in
  savings <> 0 /\ pr_minGuarantors product <= n /\
  (0 < pr_maxGuarantors product -> n <= pr_maxGuarantors product) /\
  (principal <= d_times (dec savings) (dec (default 30000%Z (pr_savingsMultiplier product))))%Q.
Proof.
  unfold assertLoanApplicationRules. cbn zeta. set (savings := eligibleSavings _).
  change (minGuarantors _) with (pr_minGuarantors product).
  change (maxGuarantors _) with (pr_maxGuarantors product).
  change (LoanRules.savingsMultiplier _) with (default 30000 (pr_savingsMultiplier product)).
  rewrite <- Qle_bool_iff.
  destruct (Z.eqb_spec savings 0) as [?|?]; [by split; [|intros [? _]]|].
  destruct (Z.ltb_spec n (pr_minGuarantors product)); [split; [done|lia]|].
  destruct (Z.ltb_spec 0 (pr_maxGuarantors product)); cbn [andb].
  - destruct (Z.ltb_spec (pr_maxGuarantors product) n); [split; [done|lia]|].
    destruct (Qle_bool _ _); cbn; naive_solver.
  - destruct (Qle_bool _ _); cbn; [|naive_solver]. split; [|done]. intros _. split_and!; [done..|lia|done].
Qed.
End Rules.

(** ** Witnesses *)
Definition approve_request : GuardRequest :=
  mkGuardRequest true (Some "loan1") (Some "t1") None None (Some "default") [("default", "DEFAULTED")].

Lemma guard_admits_only_transitions_witness :
  exists t id l, request_tenant approve_request = Some t /\ gr_loanId approve_request = Some id /\
    tenant_loan t id (db loan_world) = Some l /\ loan_step (loan_status l) DEFAULTED.
Proof.
  destruct (canActivate approve_request loan_world) as [[b|e] w'] eqn:E; [|refute].
  exact (proj2 (guard_admits_only_transitions approve_request "default" loan_world b w' DEFAULTED
    eq_refl eq_refl eq_refl E)).
Defined.

Definition defaulted_world : World :=
  with_db (set_loans {[ "loan1" := mkLoan "t1" "m1" "p1" "LN-1" DEFAULTED (ks 1000) (ks 600) 0 (ks 40)
    (ks 10) 95 NPL None None (Some 10) 0 0 terms ]}) loan_world.

(** A defaulted loan paid off in one repayment jumps to FULLY_PAID. *)
Lemma repayment_status_moves_witness :
  match target_loan (repay_call 650 "R-1") (db defaulted_world),
        processRepayment (repay_call 650 "R-1") defaulted_world with
  | Some (id, l), (Ok _, w') => exists next, loan_status <$> (loans (db w') !! id) = Some next /\
      ((next = loan_status l \/ loan_step (loan_status l) next) <->
       ~ (next = FULLY_PAID /\ loan_status l <> ACTIVE)) /\
      loan_status <$> (loans (db w') !! id) = Some FULLY_PAID /\ canTransition (loan_status l) FULLY_PAID = false
  | _, _ => False
  end.
Proof.
  destruct (target_loan _ _) as [[id l]|] eqn:Et; [|by vm_compute in Et].
  destruct (processRepayment (repay_call 650 "R-1") defaulted_world) as [[s|e] w'] eqn:E; [|refute].
  assert (txn_by_reference "t1" "R-1" (db defaulted_world) = None) as Hn by (vm_compute; reflexivity).
  destruct (repayment_status_moves (repay_call 650 "R-1") defaulted_world s w' id l E Hn Et) as (next & H1 & H2).
  exists next. split_and!; [exact H1|exact H2|..].
  - vm_compute in Et. injection Et as <- <-. vm_compute in E. injection E as <- <-. by vm_compute.
  - vm_compute in Et. by injection Et as <- <-.
Defined.

Definition accepted_guarantor (id : string) (amount : Z) : LoanGuarantor :=
  mkLoanGuarantor id "t1" "loan1" ("m-" +:+ id) G_ACCEPTED amount 0 None None 0.

Lemma gate_passes_iff_witness :
  gatePassed (gate_result 2 (ks 1000) 10000 [accepted_guarantor "g1" (ks 600); accepted_guarantor "g2" (ks 400)])
    = true.
Proof.
  apply (gate_passes_iff 2 (ks 1000) 10000 [accepted_guarantor "g1" (ks 600); accepted_guarantor "g2" (ks 400)]).
  right. split_and!; [repeat constructor|by vm_compute|by vm_compute].
Defined.

Definition boda_rule : ProductRuleProduct := mkProductRule "Boda" (Some FOSA) None 1 0.

Lemma product_rules_iff_witness :
  is_ok (assertLoanApplicationRules boda_rule (inject_Z 3000) 5 (ks 1000) (ks 99)) = true /\
  is_ok (assertLoanApplicationRules boda_rule (inject_Z 3001) 5 (ks 1000) (ks 99)) = false.
Proof.
  split; [|vm_compute; reflexivity].
  apply (product_rules_iff boda_rule (inject_Z 3000) 5 (ks 1000) (ks 99)).
  split_and!; by vm_compute.
Defined.
