(* ===== verification/GuarantorTheorems.v ===== *)
(** * GuarantorTheorems: coverage checks and holds on guarantors' savings *)
From S2P Require Import Prelude Money Schema Ledger LedgerFacts Accounts AccountFacts.
From S2P Require Import Guarantors GuarantorFacts Fixture LedgerTheorems AccountsTheorems.
From S2P Require Import Json LedgerProps LedgerLegs.
From S2P Require Import AuditLogs LoanRules.
From S2P Require Import ApprovalChains Redis Frames.

(** Placing holds reserves exactly the guaranteed amounts: every nominated
    member has an active account of the type, its frozen savings rise by the
    amount (at four decimals), no balance changes, and when all holds were
    covered by their balances before, they still are. *)
Theorem holds_reserve t gs T w u w' :
  one_account_each (db w) -> committed (db w) -> placeGuarantorHolds t gs T w = (Ok u, w') ->
  exists norm, normalizeGuarantors gs = Ok norm /\
    (forall m, m ∈ gc_memberId <$> gs -> has_active_account t m (db w) T = true) /\
    reframed (hold_amount t T norm) (db w) (db w') /\ committed (db w').
Proof.
  intros Hone Hc Hr. apply placeGuarantorHolds_Ok in Hr as (norm & Hn & Hf). exists norm.
  pose proof (normalized_nonneg _ _ Hn) as Hnn. split_and!; [done| | |].
  - pose proof (place_holds_members _ _ _ _ _ _ Hone Hf) as Hm.
    apply normalize_from_Ok in Hn as (<- & _). exact Hm.
  - by eapply place_holds_reframed.
  - by eapply place_holds_committed.
Qed.

(** C40: Releasing undoes placing: holds placed for a list of guarantors and then
    released for the same list leave every account as it was, up to its
    version number. *)
Theorem release_undoes_place t gs T w u w1 u' w2 :
  one_account_each (db w) -> committed (db w) ->
  placeGuarantorHolds t gs T w = (Ok u, w1) -> releaseGuarantorHolds t gs T w1 = (Ok u', w2) ->
  reframed (fun _ => 0) (db w) (db w2).
Proof.
  intros Hone Hc Hp Hr. apply placeGuarantorHolds_Ok in Hp as (norm & Hn & Hf).
  unfold releaseGuarantorHolds in Hr. run_inv. inv_call lift_result_Ok as (Hn' & ->).
  assert (r = norm) as -> by congruence.
  pose proof (normalized_nonneg _ _ Hn) as Hnn.
  pose proof (place_holds_reframed _ _ _ _ _ _ Hone Hf) as H1.
  apply release_holds_reframed in Hrun0; [|by eapply one_each_reframed|done|].
  - eapply reframed_ext; [|refine (reframed_trans _ _ _ _ _ _ H1 Hrun0); done]. intros a. cbn. lia.
  - intros id a Ha. specialize (H1 id). rewrite Ha in H1.
    destruct (accounts (db w) !! id) as [b|] eqn:Hb; [|done]. destruct H1 as [v ->].
    destruct (Hc id b Hb) as [Hfz _]. rewrite hold_amount_frozen. cbn. lia.
Qed.

Section Coverage.
Context `{DecimalLib}.

(** A coverage check that passes means: the guarantors are distinct, their
    amounts sum to at least the required coverage, and each has an active
    account of the required type whose balance net of locks and holds is at
    least the amount; and the check writes nothing. *)
Theorem coverage_validated t loanAmount gs ty ratio w r w' :
  validateGuarantorCoverage t loanAmount gs ty ratio w = (Ok r, w') ->
  w' = w /\ NoDup (gc_memberId <$> gs) /\
  cov_requiredCoverage r = to_dp4 (d_times loanAmount (dec (default 10000 ratio))) /\
  (dec (cov_requiredCoverage r) <= totalGuaranteed r)%Q /\
  exists norm, normalizeGuarantors gs = Ok norm /\
    totalGuaranteed r = foldr (fun g acc => (g.2 + acc)%Q) 0%Q norm /\
    forall g, g ∈ norm -> exists id a,
      member_account t g.1 (resolveAccountType ty) (db w) = Some (id, a) /\
      (g.2 <= dec (acc_balance a - acc_lockedBalance a - acc_frozenSavings a))%Q.
Proof.
  unfold validateGuarantorCoverage. intros Hr. run_inv. inv_call lift_result_Ok as (Hn & ->).
  apply negb_false_iff, Qle_bool_iff in Hguard. cbn.
  assert (forall norm w1 u, foldM (fun (_ : unit) g => covering_account t g.1 (resolveAccountType ty) g.2 ;; ret tt)
      tt norm w = (Ok u, w1) -> w1 = w /\ forall g, g ∈ norm -> exists id a,
      member_account t g.1 (resolveAccountType ty) (db w) = Some (id, a) /\
      (g.2 <= dec (acc_balance a - acc_lockedBalance a - acc_frozenSavings a))%Q) as Hloop.
  { clear. induction norm as [|g norm IH]; intros w1 u Hr; cbn [foldM] in Hr; run_inv.
    { split; [done|]. intros g Hg. by apply elem_of_nil in Hg. }
    inv_call covering_account_Ok as (-> & Hle & a & Hm & Hb).
    destruct r0 as [id bal lock fro av]. injection Hb as -> -> -> ->.
    destruct (IH _ _ Hrun0) as [-> Hrest]. split; [done|]. intros x [->|Hx]%elem_of_cons; [|by apply Hrest].
    by exists id, a. }
  match goal with Hf : foldM _ _ _ _ = _ |- _ => destruct (Hloop _ _ _ Hf) as [-> Hall] end.
  pose proof Hn as Hn'. apply normalize_from_Ok in Hn' as (E & Hnd & _).
  split_and!; [done|by rewrite <- E|done|done|]. by exists r0.
Qed.
End Coverage.

(** ** Witnesses *)
Lemma funded_one_each : one_account_each (db funded_world).
Proof.
  assert (bool_decide (map_Forall (fun id1 a1 => map_Forall (fun id2 a2 =>
    (id1 = id2) \/ acc_tenantId a1 <> acc_tenantId a2 \/ acc_memberId a1 <> acc_memberId a2 \/
    acc_accountType a1 <> acc_accountType a2) (accounts (db funded_world))) (accounts (db funded_world))) = true)
    as Hd by (vm_compute; reflexivity).
  apply bool_decide_eq_true in Hd. intros t m T id1 a1 id2 a2 H1 H2 (?&?&?&_) (?&?&?&_).
  destruct (Hd id1 a1 H1 id2 a2 H2) as [?|[?|[?|?]]]; congruence.
Qed.

Lemma funded_committed : committed (db funded_world).
Proof. by_decision. Qed.

Definition nominees : list GuarantorCoverageInput := [mkCoverageInput "m1" (Finite (inject_Z 400))].

Lemma holds_reserve_witness :
  match placeGuarantorHolds "t1" nominees FOSA funded_world with
  | (Ok _, w') => committed (db w') /\
      acc_frozenSavings <$> accounts (db w') !! "fosa1" = Some (ks 400)
  | _ => False
  end.
Proof.
  destruct (placeGuarantorHolds "t1" nominees FOSA funded_world) as [[u|e] w'] eqn:E; [|refute].
  destruct (holds_reserve "t1" nominees FOSA funded_world u w' funded_one_each funded_committed E)
    as (norm & _ & _ & _ & Hc).
  split; [exact Hc|]. vm_compute in E. injection E as <- <-. by vm_compute.
Defined.

Lemma release_undoes_place_witness :
  match placeGuarantorHolds "t1" nominees FOSA funded_world with
  | (Ok _, w1) => match releaseGuarantorHolds "t1" nominees FOSA w1 with
      | (Ok _, w2) => reframed (fun _ => 0) (db funded_world) (db w2)
      | _ => False
      end
  | _ => False
  end.
Proof.
  destruct (placeGuarantorHolds "t1" nominees FOSA funded_world) as [[u|e] w1] eqn:E; [|refute].
  destruct (releaseGuarantorHolds "t1" nominees FOSA w1) as [[u'|e] w2] eqn:E2.
  - exact (release_undoes_place "t1" nominees FOSA funded_world u w1 u' w2 funded_one_each funded_committed E E2).
  - vm_compute in E. injection E as <- <-. refute.
Defined.

Lemma coverage_validated_witness :
  match validateGuarantorCoverage "t1" (inject_Z 800) nominees None (Some 5000) funded_world with
  | (Ok r, w') => (dec (cov_requiredCoverage r) <= totalGuaranteed r)%Q
  | _ => False
  end.
Proof.
  destruct (validateGuarantorCoverage "t1" (inject_Z 800) nominees None (Some 5000) funded_world)
    as [[r|e] w'] eqn:E; [|refute].
  exact (proj1 (proj2 (proj2 (proj2 (coverage_validated "t1" (inject_Z 800) nominees None (Some 5000)
    funded_world r w' E))))).
Defined.

(** * large loans need two people *)
Definition chains (w : World) : list LoanApprovalChain := loanApprovalChains (db w).
#[export] Instance stable_chains : Stable chains.
Proof. by repeat split. Qed.

Section FourEyes.
Context `{UuidSource, Sha256, Environment}.

#[export] Instance frames_chains_audit dto : Frames chains (logAtomic dto).
Proof. unfold logAtomic, audit_row_create. apply _. Qed.

(** A slot that was decided. *)
Definition signed (s : LoanApprovalChain) : Prop := ac_status s <> AP_PENDING.

(** A loan's chain: none, or a manager's and a teller's slot that one person
    cannot both have decided. *)
Definition chain_ok (chain : list LoanApprovalChain) : Prop :=
  chain = [] \/ exists s1 s2, chain = [s1; s2] /\ ac_role s1 = MANAGER /\ ac_role s2 = TELLER /\
    (signed s1 -> signed s2 -> ac_approverId s1 <> ac_approverId s2).

Record chains_ok (l : list LoanApprovalChain) : Prop := {
  co_ids : NoDup (ac_id <$> l);
  co_chains : forall t loanId, chain_ok (List.filter (of_loan t loanId) l);
}.

Lemma slot_create_Ok s w u w' :
  slot_create s w = (Ok u, w') -> chains w' = chains w ++ [s] /\ (ac_id s ∉ (ac_id <$> chains w)).
Proof. unfold slot_create. intros Hr. run_inv. split; [done|]. by apply existsb_id_false. Qed.

Lemma filter_update_where {A} (P Q : A -> bool) f (l : list A) :
  (forall x, P (f x) = P x) -> List.filter P (update_where Q f l) = update_where Q f (List.filter P l).
Proof.
  intros Hf. induction l as [|x l IH]; [done|]. unfold update_where in *. cbn [fmap list_fmap List.filter].
  destruct (Q x) eqn:Eq; rewrite ?Hf; destruct (P x); cbn; by rewrite ?Eq, IH.
Qed.

Lemma NoDup_key_snoc {A} (key : A -> string) l x :
  NoDup (key <$> l) -> (key x ∉ (key <$> l)) -> NoDup (key <$> (l ++ [x])).
Proof.
  intros Hl Hx. rewrite fmap_app. apply NoDup_app. split; [done|]. split; [|apply NoDup_singleton].
  intros y Hy ->%list_elem_of_singleton. done.
Qed.

Lemma chains_ok_init t loanId id1 id2 l :
  chains_ok l -> List.filter (of_loan t loanId) l = [] ->
  (id1 ∉ (ac_id <$> l)) -> (id2 ∉ (ac_id <$> (l ++ [mkSlot id1 t loanId "" MANAGER AP_PENDING]))) ->
  chains_ok ((l ++ [mkSlot id1 t loanId "" MANAGER AP_PENDING]) ++ [mkSlot id2 t loanId "" TELLER AP_PENDING]).
Proof.
  intros [Hid Hc] Hnil Hn1 Hn2. split.
  - apply NoDup_key_snoc; [|done]. by apply NoDup_key_snoc.
  - intros t' loanId'. rewrite !List.filter_app. cbn.
    assert (forall id r, of_loan t' loanId' (mkSlot id t loanId "" r AP_PENDING)
      = (loanId === loanId') && (t === t')) as E by done. rewrite !E.
    destruct ((loanId === loanId') && (t === t')) eqn:Eq; [|rewrite !app_nil_r; apply Hc].
    reflect. subst. rewrite Hnil. right. do 2 eexists. split; [reflexivity|]. split_and!; [done..|].
    intros Hs. by destruct Hs.
Qed.

Lemma update_where_pair {A} (key : A -> string) f (s1 s2 slot : A) :
  NoDup (key <$> [s1; s2]) -> slot ∈ [s1; s2] ->
  slot = s1 /\ update_where (fun s => key s === key slot) f [s1; s2] = [f s1; s2] \/
  slot = s2 /\ update_where (fun s => key s === key slot) f [s1; s2] = [s1; f s2].
Proof.
  intros Hnd Hin. cbn in Hnd. apply NoDup_cons in Hnd as [Hne _].
  apply elem_of_cons in Hin as [->|Hin]; [left|right; apply list_elem_of_singleton in Hin as ->];
    (split; [done|]); unfold update_where; cbn; rewrite same_refl, bool_decide_eq_false_2; set_solver.
Qed.

Lemma chains_ok_sign who status slot l t loanId :
  chains_ok l -> slot ∈ List.filter (of_loan t loanId) l ->
  existsb (fun c => (ac_approverId c === who) && negb (ac_status c === AP_PENDING))
    (List.filter (of_loan t loanId) l) = false ->
  chains_ok (update_where (fun s => ac_id s === ac_id slot) (sign_slot who status) l).
Proof.
  intros [Hid Hc] Hslot Hno. pose proof Hslot as Hin.
  apply list_elem_of_In, List.filter_In in Hin as [Hin Hof]. apply list_elem_of_In in Hin. split.
  - unfold update_where. rewrite <- list_fmap_compose. erewrite list_fmap_ext; [exact Hid|].
    intros i x _. cbn. by destruct (ac_id x === ac_id slot).
  - intros t' loanId'. rewrite filter_update_where by (by intros []).
    destruct (of_loan t' loanId' slot) eqn:Hof'.
    + assert (t' = t /\ loanId' = loanId) as [-> ->].
      { unfold of_loan in Hof, Hof'. reflect. by subst. }
      destruct (Hc t loanId) as [Hnil|(s1 & s2 & E & R1 & R2 & Hdiff)]; [rewrite Hnil in Hslot; set_solver|].
      pose proof (NoDup_key_filter ac_id (of_loan t loanId) l Hid) as Hnd. rewrite E in *.
      assert (forall c, c ∈ [s1; s2] -> signed c -> ac_approverId c <> who) as Hother.
      { intros c Hcin Hsig <-. apply Bool.not_true_iff_false in Hno. apply Hno.
        apply List.existsb_exists. exists c. split; [by apply list_elem_of_In|].
        rewrite same_refl. unfold signed in Hsig. by rewrite bool_decide_eq_false_2. }
      right. destruct (update_where_pair ac_id (sign_slot who status) s1 s2 slot Hnd Hslot) as [[-> ->]|[-> ->]];
        do 2 eexists; (split; [reflexivity|]); split_and!; try done; cbn.
      * intros _ Hs2 E1. symmetry in E1. by apply (Hother s2); [set_solver|..].
      * intros Hs1 _ E1. by apply (Hother s1); [set_solver|..].
    + rewrite update_where_none; [apply Hc|]. intros x Hx. apply same_false. intros Ex.
      apply list_elem_of_In, List.filter_In in Hx as [Hx Hofx]. apply list_elem_of_In in Hx.
      rewrite (NoDup_key_inj ac_id l x slot) in Hofx by done. congruence.
Qed.

(** ** Histories *)
Inductive chain_step : World -> World -> Prop :=
  | step_init loanId t w : chain_step w (initApprovalChain loanId t w).2
  | step_sign loanId t who role approve notes ip w :
      chain_step w (signOff loanId t who role approve notes ip w).2.

Lemma transaction_chains {A} (m : M A) w :
  (forall a w', m w = (Ok a, w') -> chains_ok (chains w) -> chains_ok (chains w')) ->
  chains_ok (chains w) -> chains_ok (chains (transaction m w).2).
Proof.
  intros Hm Hok. unfold transaction. destruct (m w) as [[a|e] w'] eqn:E; [by eapply Hm|done].
Qed.

Lemma init_chains loanId t w : chains_ok (chains w) -> chains_ok (chains (initApprovalChain loanId t w).2).
Proof.
  intros Hok. unfold initApprovalChain, bind, gets, fresh_id.
  destruct (Nat.eqb (length (chain_of t loanId (db w))) 0) eqn:Hn; cbn [negb]; [|done].
  apply Nat.eqb_eq, length_zero_iff_nil in Hn. apply transaction_chains; [|done].
  intros u w' Hr _. apply bind_Ok in Hr as (u1 & w1 & H1' & H2').
  apply slot_create_Ok in H1' as [E1 N1]. apply slot_create_Ok in H2' as [E2 N2].
  rewrite E2, E1 in *. by apply chains_ok_init.
Qed.

Lemma signOffBody_chains loanId t who role approve notes ip w r w' :
  signOffBody loanId t who role approve notes ip w = (Ok r, w') ->
  exists slot status, slot ∈ chain_of t loanId (db w) /\
    existsb (fun c => (ac_approverId c === who) && negb (ac_status c === AP_PENDING)) (chain_of t loanId (db w))
      = false /\
    chains w' = update_where (fun s => ac_id s === ac_id slot) (sign_slot who status) (chains w).
Proof.
  unfold signOffBody. intros Hr. run_inv.
  match goal with Hf : List.find _ _ = Some ?s |- _ => exists s; apply find_some_elem in Hf as [Hin _] end.
  eexists. split; [done|]. split; [done|].
  match goal with Hx : logAtomic _ _ = (Ok _, ?w1) |- _ => apply (frames_Ok chains) in Hx as E1; [|apply _] end.
  match goal with Hx : (if existsb _ _ then _ else _) _ = _ |- _ =>
    apply (frames_Ok chains) in Hx as E2; [|apply _] end.
  rewrite E2, E1. reflexivity.
Qed.

Lemma chain_step_ok w w' : chain_step w w' -> chains_ok (chains w) -> chains_ok (chains w').
Proof.
  intros [loanId t w0|loanId t who role approve notes ip w0] Hok; [by apply init_chains|].
  apply transaction_chains; [|done]. intros r w1 Hr _.
  apply signOffBody_chains in Hr as (slot & status & Hin & Hno & ->). by eapply chains_ok_sign.
Qed.

(** C11: Once a loan has an approval chain, the chain counts as approved only
    after two different people signed it, one as MANAGER and one as TELLER,
    whatever sequence of initialisations and sign-offs, failed ones included,
    led there. *)
Theorem four_eyes t loanId w0 w :
  chains w0 = [] -> rtc chain_step w0 w ->
  chain_of t loanId (db w) <> [] -> isChainApproved loanId t (db w) = true ->
  exists s1 s2, chain_of t loanId (db w) = [s1; s2] /\
    ac_role s1 = MANAGER /\ ac_role s2 = TELLER /\
    ac_status s1 = AP_APPROVED /\ ac_status s2 = AP_APPROVED /\
    ac_approverId s1 <> ac_approverId s2.
Proof.
  intros Hnil Hsteps Hne Happ.
  assert (chains_ok (chains w)) as [_ Hc].
  { assert (chains_ok (chains w0)) as Hstart by (rewrite Hnil; split; [constructor|by left]).
    clear Hnil Hne Happ. induction Hsteps as [|x y z Hxy _ IH]; [done|]. by eapply IH, chain_step_ok. }
  destruct (Hc t loanId) as [Hn|(s1 & s2 & E & R1 & R2 & Hdiff)]; [done|].
  unfold chains in E. unfold isChainApproved, chain_of in *. rewrite E in *. cbn in Happ. reflect.
  exists s1, s2. split; [done|]. split_and!; try done. apply Hdiff; unfold signed; congruence.
Qed.
End FourEyes.

(** ** Witness *)
Definition signers_world : World :=
  with_db (fun d => mkDB (accounts d) (transactions d) (journalEntries d) (glAccounts d)
    (mkUser "manager" "t1" MANAGER :: users d) (loans d) (loanRepayments d) (loanGuarantors d) (loanProducts d)
    (members d) (policies d) (accountSeqs d) (auditLogs d) (mpesaTransactions d) (notificationLogs d)
    (loanApprovalChains d)) open_world.

(** The manager tries to sign both slots; the teller then signs the second. *)
Definition signed_world : World :=
  let w := after (initApprovalChain "loan1" "t1") signers_world in
  let w := after (signOff "loan1" "t1" "manager" MANAGER true None None) w in
  let w := after (signOff "loan1" "t1" "manager" TELLER true None None) w in
  after (signOff "loan1" "t1" "teller" TELLER true None None) w.

Lemma signed_history : rtc chain_step signers_world signed_world.
Proof.
  eapply rtc_l; [apply (step_init "loan1" "t1")|]. eapply rtc_l; [apply (step_sign "loan1" "t1" "manager" MANAGER true None None)|].
  eapply rtc_l; [apply (step_sign "loan1" "t1" "manager" TELLER true None None)|].
  eapply rtc_l; [apply (step_sign "loan1" "t1" "teller" TELLER true None None)|]. apply rtc_refl.
Qed.

Lemma four_eyes_witness :
  exists s1 s2, chain_of "t1" "loan1" (db signed_world) = [s1; s2] /\ ac_approverId s1 <> ac_approverId s2.
Proof.
  destruct (four_eyes "t1" "loan1" signers_world signed_world) as (s1 & s2 & E & _ & _ & _ & _ & Hd).
  - reflexivity.
  - exact signed_history.
  - intros E. vm_compute in E. discriminate E.
  - vm_compute. reflexivity.
  - exists s1, s2. split; [exact E|exact Hd].
Defined.
