(* ===== verification/AuditTheorems.v ===== *)
(** * AuditTheorems: what verifying the audit chain establishes *)
From S2P Require Import Prelude Money Json Schema AuditLogs AuditFacts Fixture.
From S2P Require Import AuditEvents.

Section Chain.
Context `{UuidSource, Sha256, Environment}.

Lemma tenant_audit_app t d e :
  tenant_audit t (set_auditLogs (auditLogs d ++ [e]) d) =
  tenant_audit t d ++ (if al_tenantId e === t then [e] else []).
Proof. unfold tenant_audit. cbn. rewrite List.filter_app. done. Qed.

Lemma audit_row_create_Ok row w u w' :
  audit_row_create row w = (Ok u, w') ->
  w' = with_db (fun d => set_auditLogs (auditLogs d ++ [row]) d) w.
Proof. unfold audit_row_create. intros Hr. by run_inv. Qed.

Lemma createAuditLogInTransaction_Ok t a ac et ei md w u w' :
  createAuditLogInTransaction t a ac et ei md w = (Ok u, w') ->
  exists e, db w' = set_auditLogs (auditLogs (db w) ++ [e]) (db w) /\
    al_tenantId e = t /\ al_timestamp e = clock w /\ al_prevHash e = latest_hash t (db w) /\
    al_entryHash e = Some (sha256 (text_of e)) /\ clock w' = clock w.
Proof.
  unfold createAuditLogInTransaction. intros Hr. run_inv.
  inv_call audit_row_create_Ok as ->.
  match goal with H : fresh_id _ = _ |- _ => unfold fresh_id in H; injection H as <- <- end.
  by eexists.
Qed.

Lemma logAtomic_Ok dto w u w' :
  logAtomic dto w = (Ok u, w') ->
  exists e, db w' = set_auditLogs (auditLogs (db w) ++ [e]) (db w) /\
    al_tenantId e = au_tenantId dto /\
    al_entryHash e = Some (sha256 (dto_text dto (latest_hash (au_tenantId dto) (db w)) (clock w))).
Proof.
  unfold logAtomic. intros Hr. run_inv.
  inv_call audit_row_create_Ok as ->.
  match goal with H : fresh_id _ = _ |- _ => unfold fresh_id in H; injection H as <- <- end.
  by eexists.
Qed.

(** The databases a tenant reaches when its entries are written, at increasing
    times, by the recovery service's writer; everything else may change. *)
Inductive audit_history (t : string) : DB -> Prop :=
  | history_start d : tenant_audit t d = [] -> audit_history t d
  | history_write w a ac et ei md u w' :
      audit_history t (db w) ->
      Forall (fun e => al_timestamp e < clock w) (tenant_audit t (db w)) ->
      createAuditLogInTransaction t a ac et ei md w = (Ok u, w') ->
      audit_history t (db w')
  | history_other d d' :
      audit_history t d -> tenant_audit t d' = tenant_audit t d -> audit_history t d'.

Lemma audit_history_linked t d :
  audit_history t d -> chronological al_timestamp (tenant_audit t d) /\ linked None (tenant_audit t d).
Proof.
  induction 1 as [d E|w a ac et ei md u w' _ [Hs Hl] Hlt Hw|d d' _ IH E].
  - rewrite E. split; [constructor|done].
  - apply createAuditLogInTransaction_Ok in Hw as (e & -> & <- & Hts & Hp & Hh & _).
    rewrite tenant_audit_app, same_refl. split.
    + apply chronological_snoc; [done|]. unfold before. by rewrite Hts.
    + apply linked_app. split; [done|]. cbn. split_and!; [done| |done].
      intros p Ep. rewrite Hp. unfold latest_hash, latest_audit. rewrite sort_later_head by done.
      by destruct (last _).
  - by rewrite E.
Qed.

(** C39: The in-transaction writer and the chain verifier agree: after any
    history of entries it wrote at increasing times, verification of the
    tenant's chain, whatever the limit, reports a valid chain with every entry
    verified and no tamper evidence. *)
Theorem written_chain_verifies t d w limit r w' :
  audit_history t d -> db w = d -> verifyChain t limit w = (Ok r, w') ->
  valid r = true /\ tamperEvidence r = [] /\ verifiedEntries r = totalEntries r /\
  totalEntries r = Z.of_nat (Nat.min limit (length (tenant_audit t d))).
Proof.
  intros Hd <- Hv. apply audit_history_linked in Hd as [Hs Hl].
  apply verifyChain_Ok in Hv as (_ & He & Hval & Ht & Hc).
  rewrite sort_earlier_chronological in * by done.
  assert (linked None (take limit (tenant_audit t (db w)))) as Hl' by by apply linked_take.
  pose proof (proj2 (check_chain_linked _ _) Hl') as E. rewrite E in *.
  split_and!; [by apply Hval|done| |]; [cbn in Hc; lia|]. by rewrite Ht, length_take.
Qed.

(** C38: A chain that verifies commits to its history: when the chains of two
    databases both verify, have equally many entries and end in the same hash,
    then all their entries hash the same text, and agree on every hashed field
    where no field contains the separator; or two of their entries are a
    SHA-256 collision.  (With the separator inside a field two different
    entries can share one text.) *)
Theorem chain_commits t limit w1 w2 r1 r2 w1' w2' :
  let es w := take limit (merge_sort earlier (tenant_audit t (db w))) in
  verifyChain t limit w1 = (Ok r1, w1') -> valid r1 = true ->
  verifyChain t limit w2 = (Ok r2, w2') -> valid r2 = true ->
  totalEntries r1 = totalEntries r2 ->
  (al_entryHash <$> last (es w1)) = (al_entryHash <$> last (es w2)) ->
  (text_of <$> es w1 = text_of <$> es w2 /\
   (Forall bar_free (es w1) -> Forall bar_free (es w2) -> hashed_fields <$> es w1 = hashed_fields <$> es w2)) \/
  exists e1 e2, e1 ∈ es w1 /\ e2 ∈ es w2 /\
    text_of e1 <> text_of e2 /\ sha256 (text_of e1) = sha256 (text_of e2).
Proof.
  intros es Hv1 Hok1 Hv2 Hok2 Hlen Hlast.
  apply verifyChain_Ok in Hv1 as (_ & _ & Hl1 & Ht1 & _). apply Hl1 in Hok1.
  apply verifyChain_Ok in Hv2 as (_ & _ & Hl2 & Ht2 & _). apply Hl2 in Hok2.
  fold (es w1) in Hok1, Ht1. fold (es w2) in Hok2, Ht2.
  assert (length (es w1) = length (es w2)) as Hlen' by lia.
  destruct (linked_commits _ _ Hok1 Hok2 Hlen' Hlast) as [E|?]; [left|by right].
  split; [exact E|]. intros B1 B2. by apply texts_fields.
Qed.

Lemma dto_text_not_entry_text dto prev now e :
  al_tenantId e = au_tenantId dto -> String.get 0 (au_tenantId dto) <> Some "{"%char ->
  dto_text dto prev now <> text_of e.
Proof.
  intros Et Hc E. apply (f_equal (String.get 0)) in E. unfold text_of, entry_text in E.
  rewrite Et in E. apply Hc. by destruct (au_tenantId dto).
Qed.

(** The entries AuditService writes do not verify: it digests a JSON text
    while the verifier digests the bar-joined fields, so verification reports
    every such entry as HASH_MISMATCH and the chain as invalid (unless the two
    texts happen to collide). *)
Theorem service_entries_flagged dto w u w' limit r w'' :
  String.get 0 (au_tenantId dto) <> Some "{"%char ->
  logAtomic dto w = (Ok u, w') ->
  verifyChain (au_tenantId dto) limit w' = (Ok r, w'') ->
  (length (tenant_audit (au_tenantId dto) (db w')) <= limit)%nat ->
  exists e stored,
    auditLogs (db w') = auditLogs (db w) ++ [e] /\ al_entryHash e = Some (sha256 stored) /\
    stored <> text_of e /\
    (sha256 stored = sha256 (text_of e) \/
     valid r = false /\
     evidence e HASH_MISMATCH (Some (sha256 (text_of e))) (Some (sha256 stored)) ∈ tamperEvidence r).
Proof.
  intros Hc Hlog Hv Hlim. apply logAtomic_Ok in Hlog as (e & Hdb & Ht & Hh).
  apply verifyChain_Ok in Hv as (_ & Hev & Hval & _).
  eexists e, _. split; [by rewrite Hdb|]. split; [exact Hh|].
  split; [by apply dto_text_not_entry_text|].
  match goal with |- ?x = ?y \/ _ => destruct (decide (x = y)) as [?|Hne]; [by left|right] end.
  rewrite take_ge in * by (rewrite length_merge_sort_perm; done).
  assert (e ∈ merge_sort earlier (tenant_audit (au_tenantId dto) (db w'))) as He.
  { rewrite merge_sort_Permutation, Hdb, tenant_audit_app, Ht, same_refl. set_solver. }
  pose proof (mismatch_reported None _ _ _ He Hh (sha256_nonempty _) Hne) as Hin.
  rewrite <- Hev in Hin. split; [|done].
  destruct (valid r) eqn:Ev; [|done]. exfalso.
  pose proof (proj2 (check_chain_linked _ _) (proj1 Hval eq_refl)) as E0. clear Ev. rewrite <- Hev in E0. rewrite E0 in Hin. by apply elem_of_nil in Hin.
Qed.
End Chain.

(** ** Witnesses *)
Definition later_world (w : World) : World :=
  mkWorld (db w) (nextUuid w) (clock w + 1) (systemUserIdCache w) (locks w) (jobs w) (auditTrail w) (outbox w).

(** Two entries, one after the other. *)
Definition audited_once (md : json) : World :=
  after (createAuditLogInTransaction "t1" "teller" "AUDIT_RECOVERY" "LoanGuarantor" "g1" md) open_world.
Definition audited_twice (md : json) : World :=
  after (createAuditLogInTransaction "t1" "system" "AUDIT_RECOVERY" "LoanGuarantor" "g2" md)
    (later_world (audited_once md)).

Lemma audited_twice_history md : audit_history "t1" (db (audited_twice md)).
Proof.
  eapply (history_write "t1" (later_world (audited_once md)) "system" "AUDIT_RECOVERY" "LoanGuarantor"
    "g2" md tt); [|by apply Forall_singleton|vm_compute; reflexivity].
  change (db (later_world (audited_once md))) with (db (audited_once md)).
  eapply (history_write "t1" open_world "teller" "AUDIT_RECOVERY" "LoanGuarantor" "g1" md tt);
    [by apply history_start|constructor|vm_compute; reflexivity].
Qed.

Lemma written_chain_verifies_witness :
  exists r, (verifyChain "t1" 100 (audited_twice JNull)).1 = Ok r /\ valid r = true /\ totalEntries r = 2.
Proof.
  destruct (verifyChain "t1" 100 (audited_twice JNull)) as [[r|e] w'] eqn:E; [|done].
  destruct (written_chain_verifies "t1" _ _ _ _ _ (audited_twice_history JNull) eq_refl E)
    as (Hv & _ & _ & Ht).
  exists r. split_and!; [done|done|]. rewrite Ht. vm_compute. reflexivity.
Defined.

Lemma chain_commits_witness :
  let es md := take 100 (merge_sort earlier (tenant_audit "t1" (db (audited_twice md)))) in
  text_of <$> es JNull = text_of <$> es (JBool true) /\ hashed_fields <$> es JNull = hashed_fields <$> es (JBool true) \/
  exists e1 e2, e1 ∈ es JNull /\ e2 ∈ es (JBool true) /\
    text_of e1 <> text_of e2 /\ sha256 (text_of e1) = sha256 (text_of e2).
Proof.
  destruct (verifyChain "t1" 100 (audited_twice JNull)) as [[r1|e] w1'] eqn:E1; [|done].
  destruct (verifyChain "t1" 100 (audited_twice (JBool true))) as [[r2|e] w2'] eqn:E2; [|done].
  destruct (chain_commits "t1" 100 (audited_twice JNull) (audited_twice (JBool true)) r1 r2 w1' w2' E1) as [[Et Ef]|Hc];
    try exact E2; [| | | |left; split; [exact Et|apply Ef; by_decision]|by right].
  - revert E1. vm_compute. by intros [= <- _].
  - revert E2. vm_compute. by intros [= <- _].
  - revert E1 E2. vm_compute. by intros [= <- _] [= <- _].
  - vm_compute. reflexivity.
Defined.

Definition login_entry : CreateAuditLogDto :=
  mkAuditDto "t1" (Some "teller") None "USER.LOGIN" (Some "User") None (Some "u1") None None None [] None
    None None None.

Definition logged : World := after (logAtomic login_entry) open_world.

Lemma logged_few : (length (tenant_audit "t1" (db logged)) <= 100)%nat.
Proof. by_decision. Qed.

Lemma logged_mismatch :
  Forall (fun e => al_entryHash e <> Some (sha256 (text_of e))) (auditLogs (db logged)).
Proof. by_decision. Qed.

Lemma service_entries_flagged_witness :
  exists r, (verifyChain "t1" 100 logged).1 = Ok r /\ valid r = false.
Proof.
  destruct (logAtomic login_entry open_world) as [[[]|e] w'] eqn:E; [|refute].
  assert (w' = logged) as -> by (unfold logged, after; by rewrite E).
  destruct (verifyChain "t1" 100 logged) as [[r|e] w''] eqn:Ev; [|refute].
  exists r. split; [done|].
  destruct (service_entries_flagged login_entry open_world tt logged 100 r w'' ltac:(done) E Ev logged_few)
    as (e & s & Ha & Hh & _ & [Hc|[Hv _]]); [|done].
  exfalso. pose proof logged_mismatch as Hm. rewrite Ha in Hm.
  apply Forall_app in Hm as [_ Hm]. rewrite Forall_singleton in Hm. apply Hm. by rewrite Hh, Hc.
Defined.

(** ** When the signed event chain verifies *)
Section Chain.
Context `{UuidSource, Sha256, Hmac, AuditConfig}.

(** The hash a walk expects after the rows. *)
Definition end_hash (previous : string) (rows : list AuditEvent) : string :=
  match last rows with Some e => ae_eventHash e | None => previous end.

Definition text_at (e : AuditEvent) : string :=
  event_text (ae_prevHash e) (ae_fields e) (ae_timestamp e).

Lemma walk_cons p e rows :
  walk p (e :: rows) = None <->
  ae_prevHash e = p /\ event_valid e = true /\ walk (ae_eventHash e) rows = None.
Proof.
  cbn [walk]. case_bool_decide; cbn; [destruct (event_valid e)|]; cbn; naive_solver.
Qed.

Lemma end_hash_cons p e rows : end_hash p (e :: rows) = end_hash (ae_eventHash e) rows.
Proof.
  unfold end_hash. destruct rows as [|x rows]; [done|]. change (last (e :: x :: rows)) with (last (x :: rows)).
  destruct (last (x :: rows)) eqn:E; [done|]. by apply last_None in E.
Qed.

Lemma walk_app p l1 l2 :
  walk p (l1 ++ l2) = None <-> walk p l1 = None /\ walk (end_hash p l1) l2 = None.
Proof.
  revert p. induction l1 as [|e l1 IH]; intros p; [cbn; naive_solver|].
  cbn [app]. rewrite !walk_cons, IH, end_hash_cons. naive_solver.
Qed.

(** In a walk that succeeds, the hash it ends in is nobody's previous hash. *)
Lemma end_hash_not_prev p rows :
  walk p rows = None -> NoDup (p :: (ae_eventHash <$> rows)) ->
  forall x, x ∈ rows -> ae_prevHash x <> end_hash p rows.
Proof.
  revert p. induction rows as [|e rows IH]; intros p Hw Hnd x Hx; [by apply elem_of_nil in Hx|].
  apply walk_cons in Hw as (Hp & _ & Hw). rewrite end_hash_cons.
  cbn in Hnd. apply NoDup_cons in Hnd as [Hni Hnd]. apply elem_of_cons in Hx as [->|Hx].
  - rewrite Hp. intros E. apply Hni. rewrite E. unfold end_hash.
    destruct (last rows) as [z|] eqn:Ez; [|by left].
    right. apply last_Some in Ez as [l' ->]. rewrite fmap_app. apply elem_of_app. right. by left.
  - by apply IH.
Qed.

Lemma end_hash_in p rows : end_hash p rows ∈ p :: (ae_eventHash <$> rows).
Proof.
  unfold end_hash. destruct (last rows) as [z|] eqn:Ez; [|by left].
  right. apply last_Some in Ez as [l' ->]. rewrite fmap_app. apply elem_of_app. right. by left.
Qed.

(** ** What one persist does *)
Definition head_hash (t : string) (s : AuditStore) : string :=
  match chainHeads s !! t with
  | Some h => if lastHash h === "" then GENESIS_HASH else lastHash h
  | None => GENESIS_HASH
  end.

Definition new_text (payload : AuditPersistJobPayload) (s : AuditStore) : string :=
  event_text (head_hash (ef_tenantId (pj_fields payload)) s) (pj_fields payload)
    (default (storeClock s) (pj_timestamp payload)).

(** No stored event of the tenant is a collision with the new one. *)
Definition no_collision (payload : AuditPersistJobPayload) (s : AuditStore) : Prop :=
  Forall (fun x => text_at x <> new_text payload s -> ae_eventHash x <> sha256 (new_text payload s))
    (tenant_events (ef_tenantId (pj_fields payload)) s).

Definition appended (payload : AuditPersistJobPayload) (s s' : AuditStore) (e : AuditEvent) : Prop :=
  let t := ef_tenantId (pj_fields payload) in
  ae_timestamp e = default (storeClock s) (pj_timestamp payload) /\ ae_fields e = pj_fields payload /\
  ae_prevHash e = head_hash t s /\ ae_eventHash e = sha256 (new_text payload s) /\
  event_valid e = true /\ auditEvents s' = auditEvents s ++ [e] /\
  head_hash t s' = ae_eventHash e.

Definition row_hash (h : ChainHeadRow) : string :=
  if lastHash h === "" then GENESIS_HASH else lastHash h.

Lemma lockChainHead_Ok t s h s' :
  lockChainHead t s = (Ok h, s') ->
  row_hash h = head_hash t s /\ chainHeads s' !! t = Some h /\ auditEvents s' = auditEvents s.
Proof.
  unfold lockChainHead, head_hash. intros Hr. run_inv.
  destruct (chainHeads s !! t) as [h0|] eqn:E; cbn in Hsome.
  - rewrite E in Hsome. injection Hsome as ->. by rewrite E.
  - cbn. rewrite !lookup_insert_eq in *. by injection Hsome as <-.
Qed.

Lemma event_insert_Ok e s u s' :
  event_insert e s = (Ok u, s') ->
  (ae_eventHash e ∉ (ae_eventHash <$> tenant_events (ef_tenantId (ae_fields e)) s)) ->
  s' = set_events (auditEvents s ++ [e]) s.
Proof.
  unfold event_insert. intros Hr Hfresh. run_inv.
  match goal with H : (if existsb ?P ?l then _ else _) _ = _ |- _ => destruct (existsb P l) eqn:E end;
    [|by run_inv]. exfalso. apply Hfresh.
  apply existsb_exists in E as (x & Hx%list_elem_of_In & E). reflect. subst.
  apply list_elem_of_fmap. exists x. split; [congruence|].
  apply list_elem_of_In, List.filter_In. split; [by apply list_elem_of_In|]. by rewrite same_true.
Qed.

Lemma persistEvent_Ok payload s h s' :
  persistEvent payload s = (Ok h, s') ->
  (sha256 (new_text payload s) ∉ (ae_eventHash <$> tenant_events (ef_tenantId (pj_fields payload)) s)) ->
  exists e, appended payload s s' e.
Proof.
  intros Hr Hfresh. unfold persistEvent in Hr.
  destruct (persistBody _ _ _) as [[h'|?] s1] eqn:E; [|done]. injection Hr as -> ->.
  unfold persistBody in E. run_inv. inv_call lockChainHead_Ok as (Hh & Hl & He).
  fold (row_hash r) in *. rewrite Hh in *. fold (new_text payload s) in *.
  inv_call event_insert_Ok as ->; [|cbn [ae_eventHash ae_fields]; unfold tenant_events in *; by rewrite <- He in Hfresh].
  cbn [chainHeads set_events]. rewrite Hl. cbn.
  exists (mkEvent (uuid (storeUuid s1)) (default (storeClock s) (pj_timestamp payload))
    (pj_fields payload) (head_hash (ef_tenantId (pj_fields payload)) s) (sha256 (new_text payload s))
    (sign (ef_tenantId (pj_fields payload)) (sha256 (new_text payload s)))).
  unfold appended. split_and!; [reflexivity..| | |].
  - unfold event_valid, verifySignature. cbn. by rewrite !same_refl.
  - cbn. by rewrite He.
  - cbn. unfold head_hash. cbn. rewrite lookup_insert_eq. cbn.
    rewrite bool_decide_eq_false_2; [done|]. apply sha256_nonempty.
Qed.

#[export] Instance event_le_total : Total event_le.
Proof.
  intros a b. unfold event_le. destruct (String.leb_total (ae_id a) (ae_id b)), (Z.lt_total (ae_timestamp a) (ae_timestamp b));
    naive_solver lia.
Qed.

Lemma event_le_time a b : event_le a b -> ae_timestamp a <= ae_timestamp b.
Proof. unfold event_le. lia. Qed.

(** ** Chains built in the order of their timestamps *)
Record chain_ok (t : string) (s : AuditStore) : Prop := {
  chain_times : chronological ae_timestamp (tenant_events t s);
  chain_walk : walk GENESIS_HASH (tenant_events t s) = None;
  chain_distinct : NoDup (GENESIS_HASH :: (ae_eventHash <$> tenant_events t s));
  chain_head : head_hash t s = end_hash GENESIS_HASH (tenant_events t s);
}.

Lemma event_valid_hash e : event_valid e = true -> ae_eventHash e = sha256 (text_at e).
Proof. unfold event_valid. intros Hv. reflect. done. Qed.

Lemma walk_valid p rows : walk p rows = None -> Forall (fun e => event_valid e = true) rows.
Proof. revert p. induction rows; intros p Hw; constructor; apply walk_cons in Hw; naive_solver. Qed.

Lemma hashes_no_bar p rows :
  walk p rows = None -> no_bar p = true ->
  Forall (fun h => no_bar h = true) (p :: (ae_eventHash <$> rows)).
Proof.
  intros Hw Hp. constructor; [done|]. apply Forall_fmap. eapply Forall_impl; [by eapply walk_valid|].
  intros e He%event_valid_hash. cbn. rewrite He. apply sha256_hex.
Qed.

Lemma walk_prev_in p rows : walk p rows = None ->
  forall x, x ∈ rows -> ae_prevHash x ∈ p :: (ae_eventHash <$> rows).
Proof.
  revert p. induction rows as [|e rows IH]; intros p Hw x Hx; [by apply elem_of_nil in Hx|].
  apply walk_cons in Hw as (Hp & _ & Hw). apply elem_of_cons in Hx as [->|Hx]; [rewrite Hp; by left|].
  right. cbn. by apply IH.
Qed.

(** The text of a new event differs from those of all events of the chain. *)
Lemma new_text_differs t payload s x :
  chain_ok t s -> ef_tenantId (pj_fields payload) = t -> x ∈ tenant_events t s ->
  text_at x <> new_text payload s.
Proof.
  intros [_ Hw Hd Hh] Ht Hx E. unfold text_at, new_text, event_text in E. rewrite Ht, Hh in E.
  pose proof (hashes_no_bar _ _ Hw eq_refl) as Hb. rewrite Forall_forall in Hb.
  apply bar_prefix_inj in E as [E _].
  - by apply (end_hash_not_prev _ _ Hw Hd _ Hx).
  - by apply Hb, (walk_prev_in _ _ Hw).
  - by apply Hb, end_hash_in.
Qed.

Lemma new_hash_fresh t payload s :
  chain_ok t s -> ef_tenantId (pj_fields payload) = t -> no_collision payload s ->
  (sha256 (new_text payload s) ∉ (ae_eventHash <$> tenant_events t s)).
Proof.
  unfold no_collision. intros Hok Ht Hc (x & E & Hx)%list_elem_of_fmap. rewrite Ht, Forall_forall in Hc.
  apply (Hc x Hx); [|done]. by eapply new_text_differs.
Qed.

Lemma tenant_events_appended t payload s s' e :
  ef_tenantId (pj_fields payload) = t -> appended payload s s' e ->
  tenant_events t s' = tenant_events t s ++ [e].
Proof.
  intros Ht (_ & Ef & _ & _ & _ & Ea & _). unfold tenant_events. rewrite Ea, List.filter_app. cbn.
  by rewrite Ef, Ht, same_refl.
Qed.

Lemma fresh_hash_distinct es e :
  NoDup (GENESIS_HASH :: (ae_eventHash <$> es)) -> (ae_eventHash e ∉ (ae_eventHash <$> es)) ->
  String.length (ae_eventHash e) = 64%nat -> NoDup (GENESIS_HASH :: (ae_eventHash <$> es ++ [e])).
Proof.
  intros Hnd Hfresh Hl. rewrite fmap_app, app_comm_cons. apply NoDup_app.
  split_and!; [done| |apply NoDup_singleton].
  intros x Hx ->%list_elem_of_singleton. apply elem_of_cons in Hx as [Hx|Hx]; [|done].
  by rewrite Hx in Hl.
Qed.

Lemma chain_ok_persist t payload s h s' :
  chain_ok t s -> ef_tenantId (pj_fields payload) = t -> no_collision payload s ->
  Forall (fun x => ae_timestamp x < default (storeClock s) (pj_timestamp payload)) (tenant_events t s) ->
  persistEvent payload s = (Ok h, s') -> chain_ok t s'.
Proof.
  intros Hok Ht Hc Hlt Hr. pose proof (new_hash_fresh _ _ _ Hok Ht Hc) as Hfresh.
  rewrite <- Ht in Hfresh. apply persistEvent_Ok in Hr as [e He]; [|done].
  pose proof (tenant_events_appended _ _ _ _ _ Ht He) as Ets.
  destruct He as (Ets' & Ef & Ep & Eh & Ev & _ & Ehd). rewrite Ht in *. destruct Hok as [Hs Hw Hd Hh].
  split; rewrite Ets.
  - apply chronological_snoc; [done|]. unfold before. by rewrite Ets'.
  - apply walk_app. split; [done|]. rewrite <- Hh. by apply walk_cons.
  - apply fresh_hash_distinct; [done|by rewrite Eh|]. rewrite Eh. apply sha256_length.
  - unfold end_hash. by rewrite last_snoc.
Qed.

(** The stores a tenant's chain reaches when its events are persisted in the
    order of their timestamps and no digest collides; rows of other tenants
    may change in between. *)
Inductive event_history (t : string) : AuditStore -> Prop :=
  | events_start s : chainHeads s !! t = None -> tenant_events t s = [] -> event_history t s
  | events_persist payload s h s' :
      event_history t s -> ef_tenantId (pj_fields payload) = t -> no_collision payload s ->
      Forall (fun x => ae_timestamp x < default (storeClock s) (pj_timestamp payload)) (tenant_events t s) ->
      persistEvent payload s = (Ok h, s') -> event_history t s'
  | events_other s s' :
      event_history t s -> tenant_events t s' = tenant_events t s ->
      chainHeads s' !! t = chainHeads s !! t -> event_history t s'.

Lemma event_history_ok t s : event_history t s -> chain_ok t s.
Proof.
  induction 1 as [s Eh Ee|payload s h s' _ IH Ht Hc Hlt Hr|s s' _ [Hs Hw Hd Hh] Ee Eh].
  - split; unfold head_hash; rewrite ?Eh, Ee; [constructor|done|apply NoDup_singleton|done].
  - by eapply chain_ok_persist.
  - split; unfold head_hash in *; by rewrite ?Eh, Ee.
Qed.

(** The event chain of a tenant verifies, with no failing event, at every
    point of a history in which the workers persisted its events in the order
    of their timestamps. *)
Theorem ordered_events_verify t s :
  event_history t s -> verifyTenantChain t s = (Ok (true, None), s).
Proof.
  intros [Hs Hw _ _]%event_history_ok. unfold verifyTenantChain, bind, gets, ret. cbn.
  rewrite (sort_chronological ae_timestamp event_le _ event_le_time Hs), Hw. done.
Qed.

(** An event linked to [z] but sorted before it is not where its link says. *)
Lemma early_event_breaks es e z :
  NoDup (GENESIS_HASH :: (ae_eventHash <$> es ++ [e])) -> z ∈ es ->
  ae_timestamp e < ae_timestamp z -> ae_prevHash e = ae_eventHash z ->
  walk GENESIS_HASH (merge_sort event_le (es ++ [e])) <> None.
Proof.
  intros Hnd Hz Hlt Hp Hw. set (l := merge_sort event_le (es ++ [e])) in *.
  assert (l ≡ₚ es ++ [e]) as Hperm by apply merge_sort_Permutation.
  pose proof (merge_sort_times ae_timestamp event_le (es ++ [e]) event_le_time) as Htimes. fold l in Htimes.
  assert (e ∈ l) as (l1 & l2 & El)%list_elem_of_split by (rewrite Hperm; set_solver).
  rewrite <- Hperm, El, fmap_app, app_comm_cons in Hnd. apply NoDup_app in Hnd as (_ & Hdis & _).
  assert (z ∈ l2) as Hz2.
  { assert (z ∈ l) as Hzl by (rewrite Hperm; set_solver). rewrite El in Hzl, Htimes.
    apply elem_of_app in Hzl as [Hzl|[->|Hzl]%elem_of_cons]; [|lia|done].
    apply StronglySorted_app in Htimes as (Hle & _ & _). specialize (Hle z e Hzl ltac:(set_solver)). lia. }
  rewrite El in Hw. apply walk_app in Hw as [_ (Hpe & _)%walk_cons].
  apply (Hdis (ae_eventHash z)).
  - rewrite <- Hp, Hpe. apply end_hash_in.
  - rewrite fmap_cons. right. by apply list_elem_of_fmap_2.
Qed.

(** Verification assumes that order: one event persisted after an event
    with a later timestamp (a retried or overtaken job) makes an untampered
    chain fail. *)
Theorem late_event_fails_verification t s z payload h s' :
  event_history t s -> last (tenant_events t s) = Some z ->
  ef_tenantId (pj_fields payload) = t -> no_collision payload s ->
  default (storeClock s) (pj_timestamp payload) < ae_timestamp z ->
  persistEvent payload s = (Ok h, s') ->
  exists id, verifyTenantChain t s' = (Ok (false, Some id), s').
Proof.
  intros Hok%event_history_ok Hz Ht Hc Hlt Hr. pose proof (new_hash_fresh _ _ _ Hok Ht Hc) as Hfresh.
  rewrite <- Ht in Hfresh. apply persistEvent_Ok in Hr as [e He]; [|done].
  pose proof (tenant_events_appended _ _ _ _ _ Ht He) as Ets.
  destruct He as (Ets' & Ef & Ep & Eh & Ev & _ & Ehd). rewrite Ht in *.
  unfold verifyTenantChain, bind, gets, ret. rewrite Ets.
  destruct (walk GENESIS_HASH (merge_sort event_le (tenant_events t s ++ [e]))) as [id|] eqn:Ew; [by exists id|].
  exfalso. revert Ew. apply (early_event_breaks _ _ z).
  - apply fresh_hash_distinct; [by destruct Hok|by rewrite Eh|]. rewrite Eh. apply sha256_length.
  - apply last_Some in Hz as [? ->]. set_solver.
  - by rewrite Ets'.
  - rewrite Ep, (chain_head _ _ Hok). unfold end_hash. by rewrite Hz.
Qed.
End Chain.

(** ** Witnesses *)
#[export] Instance toy_hmac : Hmac := {| hmac_sha256 k s := sha256 (k +:+ s) |}.
#[export] Instance no_secret : AuditConfig := {| hmacSecret := None |}.

Definition event_job (action : string) (time : Z) : AuditPersistJobPayload :=
  mkPersist (Some time) (mkFields ("c-" +:+ action) "t1" (Some "u1") None action None None None None
    (Some (JObj [("b", JNum "1"); ("a", JNull)])) None None None None 200 true None).

Definition empty_store : AuditStore := mkStore [] ∅ 0 0.
Definition store_1 : AuditStore := (persistEvent (event_job "LOGIN" 1000) empty_store).2.
Definition store_2 : AuditStore := (persistEvent (event_job "LOGOUT" 2000) store_1).2.
Definition store_3 : AuditStore := (persistEvent (event_job "LATE" 1500) store_2).2.

Definition collision_free (payload : AuditPersistJobPayload) (s : AuditStore) : bool :=
  forallb (fun x => negb (ae_eventHash x === sha256 (new_text payload s)))
    (tenant_events (ef_tenantId (pj_fields payload)) s).

Lemma collision_free_ok payload s : collision_free payload s = true -> no_collision payload s.
Proof.
  unfold collision_free, no_collision. intros Hc. apply Forall_forall. intros x Hx _ E.
  rewrite forallb_forall in Hc. specialize (Hc x (proj1 (list_elem_of_In _ _) Hx)).
  rewrite E in Hc. by rewrite same_refl in Hc.
Qed.

Lemma store_2_history : event_history "t1" store_2.
Proof.
  eapply (events_persist _ (event_job "LOGOUT" 2000) store_1);
    [|done|apply collision_free_ok; vm_compute; reflexivity|by_decision|vm_compute; reflexivity].
  eapply (events_persist _ (event_job "LOGIN" 1000) empty_store);
    [by apply events_start|done|constructor|constructor|vm_compute; reflexivity].
Qed.

Lemma ordered_events_verify_witness :
  verifyTenantChain "t1" store_2 = (Ok (true, None), store_2) /\ length (auditEvents store_2) = 2%nat.
Proof. split; [exact (ordered_events_verify "t1" store_2 store_2_history)|vm_compute; reflexivity]. Defined.

Lemma late_event_fails_verification_witness :
  exists id, verifyTenantChain "t1" store_3 = (Ok (false, Some id), store_3).
Proof.
  destruct (persistEvent (event_job "LATE" 1500) store_2) as [[h|e] s'] eqn:E; [|refute].
  assert (store_3 = s') as -> by (unfold store_3; by rewrite E).
  destruct (last (tenant_events "t1" store_2)) as [z|] eqn:Ez; [|vm_compute in Ez; discriminate Ez].
  refine (late_event_fails_verification "t1" store_2 z (event_job "LATE" 1500) h s' store_2_history Ez
    eq_refl _ _ E).
  - apply collision_free_ok. vm_compute. reflexivity.
  - vm_compute in Ez. injection Ez as <-. reflexivity.
Defined.
