(* ===== verification/RecoveryTheorems.v ===== *)
(** * RecoveryTheorems: what collecting from guarantors establishes *)
From S2P Require Import Prelude Money Json Format Schema Ledger LedgerFacts LedgerInv.
From S2P Require Import LedgerProps LedgerLegs Repayment AuditLogs Frames Redis Recovery.
From S2P Require Import GuarantorFacts RecoveryFacts Fixture LedgerTheorems.
From S2P Require Import RecoveryJobs.

(** ** Allocation *)
Section Allocation.
Context `{DecimalLib}.

(** What an allocation says of the capacity it was made from. *)
Definition within (i : Capacity) (a : RecoveryAllocation) : Prop :=
  0 <= ra_deduction a <= cap_amount i /\ ra_guarantor a = cap_guarantor i /\ ra_account a = cap_account i.

Lemma allocate_nothing C items :
  Forall (fun i => 0 <= cap_amount i) items ->
  Forall2 within items (allocate 0 C items) /\ sum_by ra_deduction (allocate 0 C items) = 0.
Proof.
  induction 1 as [|i items Hi _ [IH1 IH2]]; [by repeat constructor|].
  cbn [allocate Z.eqb orb]. split; [|by rewrite sum_by_cons, IH2].
  constructor; [|done]. split; [cbn; lia|done].
Qed.

Lemma share_nonneg D c C : 0 <= D -> 0 <= c -> 0 < C ->
  0 <= to_dp4 (d_div (d_times (dec D) (dec c)) (dec C)).
Proof.
  intros HD Hc HC. assert (forall q, (0 <= q)%Q -> (0 <= rnd q)%Q) as Hr.
  { intros q Hq. pose proof (rnd_exact 0 ltac:(done)) as E. apply Qle_trans with (rnd (dec 0)); [rewrite E; unfold Qle; cbn; lia|].
    apply rnd_mono. unfold Qle in *. cbn in *. lia. }
  apply to_dp4_nonneg, Hr, Qle_shift_div_l; [unfold Qlt, dec; cbn; lia|].
  rewrite Qmult_0_l. apply Hr. unfold Qle, dec. cbn. nia.
Qed.

Lemma allocate_within items : forall D,
  0 <= D -> Forall (fun i => 0 <= cap_amount i) items ->
  let out := allocate D (sum_by cap_amount items) items in
  Forall2 within items out /\ sum_by ra_deduction out <= D.
Proof.
  induction items as [|i items IH]; intros D HD Hcap out; [by repeat constructor|].
  pose proof Hcap as Hall. inversion_clear Hcap as [|? ? Hi Hrest]. subst out. cbn [allocate].
  pose proof (sum_by_nonneg cap_amount items ltac:(by apply Forall_forall)) as Hs.
  destruct (Z.eqb_spec D 0) as [->|HD0].
  { pose proof (allocate_nothing (sum_by cap_amount (i :: items)) _ Hall) as [H1 H2]. cbn [allocate Z.eqb orb] in *.
    split; [done|lia]. }
  destruct ((sum_by cap_amount (i :: items) =? 0) || (cap_amount i <=? 0)) eqn:E; cbn [orb].
  - replace (sum_by cap_amount (i :: items)) with (sum_by cap_amount items) in *
      by (rewrite sum_by_cons in *; apply orb_true_iff in E as [E|E]; lia).
    rewrite E. cbn [orb]. destruct (IH D HD Hrest) as [H1 H2]. rewrite sum_by_cons. cbn [ra_deduction].
    split; [constructor; [split; [cbn; lia|done]|done]|lia].
  - rewrite E. apply orb_false_iff in E as [EC Ei]. reflect. rewrite !(sum_by_cons cap_amount) in *.
    pose proof (share_nonneg D (cap_amount i) (cap_amount i + sum_by cap_amount items)
      HD Hi ltac:(lia)) as Hsh.
    replace (cap_amount i + sum_by cap_amount items - cap_amount i) with (sum_by cap_amount items) by lia.
    match goal with |- context [min3 ?a ?b ?c] => set (n := min3 a b c) in *;
      assert (0 <= n <= a /\ n <= c) as [Hn HnD] by (unfold n, min3; lia) end.
    destruct (IH (D - n) ltac:(lia) Hrest) as [H1 H2]. rewrite sum_by_cons. cbn [ra_deduction].
    split; [constructor; [split; [cbn; lia|done]|done]|lia].
Qed.

(** When products and quotients are exact, the shares add up to the whole. *)
Lemma share_covers D c C :
  (forall q, (rnd q == q)%Q) -> 0 <= D -> 0 <= c <= C -> 0 < C ->
  let s := to_dp4 (d_div (d_times (dec D) (dec c)) (dec C)) in
  (C <= D -> c <= s) /\ (D <= C -> D - (C - c) <= s).
Proof.
  intros Hex HD Hc HC s.
  assert (forall k, k * C <= D * c -> k <= s) as Hk.
  { intros k Hle. rewrite <- (to_dp4_dec k). apply to_dp4_mono.
    unfold d_div. rewrite Hex. apply Qle_shift_div_l; [unfold Qlt, dec; cbn; lia|].
    unfold d_times. rewrite Hex. unfold Qle, dec. cbn. nia. }
  split; intros Hle; apply Hk; nia.
Qed.

Lemma allocate_exact items : forall D,
  (forall q, (rnd q == q)%Q) -> 0 <= D -> Forall (fun i => 0 <= cap_amount i) items ->
  sum_by ra_deduction (allocate D (sum_by cap_amount items) items) = Z.min D (sum_by cap_amount items).
Proof.
  induction items as [|i items IH]; intros D Hex HD Hcap; [simpl; lia|].
  pose proof Hcap as Hall. inversion_clear Hcap as [|? ? Hi Hrest]. cbn [allocate].
  pose proof (sum_by_nonneg cap_amount items ltac:(by apply Forall_forall)) as Hs.
  destruct (Z.eqb_spec D 0) as [->|HD0].
  { pose proof (allocate_nothing (sum_by cap_amount (i :: items)) _ Hall) as [_ H2]. cbn [allocate Z.eqb orb] in *.
    rewrite H2, sum_by_cons. lia. }
  destruct ((sum_by cap_amount (i :: items) =? 0) || (cap_amount i <=? 0)) eqn:E; cbn [orb].
  - replace (sum_by cap_amount (i :: items)) with (sum_by cap_amount items) in *
      by (rewrite sum_by_cons in *; apply orb_true_iff in E as [E|E]; lia).
    rewrite E. cbn [orb]. rewrite sum_by_cons, IH by done. cbn [ra_deduction]. lia.
  - rewrite E. apply orb_false_iff in E as [EC Ei]. reflect. rewrite !(sum_by_cons cap_amount) in *.
    pose proof (share_nonneg D (cap_amount i) (cap_amount i + sum_by cap_amount items)
      HD Hi ltac:(lia)) as Hsh.
    pose proof (share_covers D (cap_amount i) (cap_amount i + sum_by cap_amount items) Hex HD
      ltac:(lia) ltac:(lia)) as [Hbig Hsmall]. cbn zeta in Hbig, Hsmall.
    set (s := to_dp4 _) in *.
    replace (cap_amount i + sum_by cap_amount items - cap_amount i) with (sum_by cap_amount items) by lia.
    rewrite sum_by_cons. cbn [ra_deduction]. unfold min3 in *. rewrite IH by (done || lia). lia.
Qed.

(** Allocating a debt over guarantors takes from each at most its capacity
    and from all together at most the debt; and when the decimal library's
    products and quotients are exact, it takes exactly the smaller of the debt
    and the total capacity. *)
Theorem allocation_fair D items :
  0 <= D -> Forall (fun i => 0 <= cap_amount i) items ->
  let out := allocate D (sum_by cap_amount items) items in
  Forall2 within items out /\ sum_by ra_deduction out <= D /\
  ((forall q, (rnd q == q)%Q) ->
   sum_by ra_deduction out = Z.min D (sum_by cap_amount items)).
Proof.
  intros HD Hcap out. destruct (allocate_within items D HD Hcap) as [H1 H2].
  split_and!; [done|done|]. intros Hex. by apply allocate_exact.
Qed.
End Allocation.

Section Recovery.
Context `{UuidSource, Sha256, DecimalLib}.

(** ** The loop *)
Definition alloc_typed (T : AccountType) (d : DB) (al : RecoveryAllocation) : Prop :=
  forall acct a0, ra_account al = Some (acct, a0) ->
    exists a, accounts d !! acct = Some a /\ acc_accountType a = T.

Lemma alloc_typed_collected t R n T d d' al :
  collected t R n d d' -> alloc_typed T d al -> alloc_typed T d' al.
Proof.
  intros Hc Hty acct a0 Ea. destruct (Hty acct a0 Ea) as (a & Ha & <-).
  destruct (collected_kinds _ _ _ _ _ Hc acct a Ha) as (a' & Ha' & _ & HT). by exists a'.
Qed.

Lemma recover_loop t loanId actor att loan T date als : forall total w total' w',
  let R acct := guarantorForfeitureReference t loanId acct att in
  Forall (alloc_typed T (db w)) als ->
  foldM (fun total al =>
    let* taken := recover_allocation t loanId actor att loan T date al in ret (total + taken)) total als w
    = (Ok total', w') ->
  collected t R (total' - total) (db w) (db w') /\
  sum_by lg_recoveredAmount (loanGuarantors (db w')) =
    sum_by lg_recoveredAmount (loanGuarantors (db w)) + (total' - total) /\
  (Forall (fun al => 0 <= ra_deduction al) als -> total' - total <= sum_by ra_deduction als).
Proof.
  induction als as [|al als IH]; intros total w total' w' R Hty Hr; cbn [foldM] in Hr; run_inv.
  { rewrite Z.sub_diag. split; [apply collected_refl|]. simpl. lia. }
  inversion_clear Hty as [|? ? Hty1 Hty2].
  match goal with Hf : foldM _ _ _ _ = _ |- _ => rename Hf into Hrest end.
  match goal with Hx : recover_allocation _ _ _ _ _ _ _ _ _ = (Ok ?n, _) |- _ => rename n into taken end.
  inv_call recover_allocation_Ok as [(-> & ->)|(acct & a0 & Ea & Hle & Hff & Hsum)].
  - rewrite Z.add_0_r in *. destruct (IH _ _ _ _ Hty2 Hrest) as (H1' & H2' & H3').
    split; [done|]. split; [done|]. intros Hp. inversion_clear Hp. rewrite sum_by_cons. specialize (H3' ltac:(done)). lia.
  - assert (collected t R taken (db w) (db s)) as Hc.
    { eapply (forfeited_collected t R acct T); [exact Hff|]. intros a Ha.
      destruct (Hty1 acct a0 Ea) as (a' & Ha' & <-). congruence. }
    assert (Forall (alloc_typed T (db s)) als) as Hty'.
    { eapply Forall_impl; [exact Hty2|]. intros x. by eapply alloc_typed_collected. }
    destruct (IH _ _ _ _ Hty' Hrest) as (H1' & H2' & H3').
    replace (total' - total) with (taken + (total' - (total + taken))) by lia.
    split; [by eapply collected_trans|]. split; [lia|].
    intros Hp. inversion_clear Hp. rewrite sum_by_cons. specialize (H3' ltac:(done)). lia.
Qed.

(** ** The transaction *)
Lemma recovery_account_Some t m T d id a :
  recovery_account t m T d = Some (id, a) -> accounts d !! id = Some a /\ acc_accountType a = T.
Proof.
  unfold recovery_account. intros [l' E]%last_Some.
  assert ((id, a) ∈ List.filter (fun kv => (acc_tenantId kv.2 === t) && (acc_memberId kv.2 === m)
    && (acc_accountType kv.2 === T) && acc_isActive kv.2) (map_to_list (accounts d))) as Hin
    by (rewrite E; set_solver).
  apply list_elem_of_In, List.filter_In in Hin as [Hin HP].
  apply list_elem_of_In, elem_of_map_to_list in Hin. by reflect.
Qed.

(** The guarantees of the loan are sound: nothing recovered beyond what was
    guaranteed, nothing owed is negative. *)
Record sound_guarantees (t loanId : string) (loan : Loan) (d : DB) : Prop := {
  sg_outstanding : 0 <= loan_outstandingBalance loan;
  sg_recovered : Forall (fun g => lg_recoveredAmount g <= lg_guaranteedAmount g) (held_guarantors t loanId d);
  sg_balances : map_Forall (fun _ a => 0 <= acc_balance a /\ 0 <= acc_frozenSavings a) (accounts d);
}.

Lemma capacities_nonneg t loanId loan T d :
  sound_guarantees t loanId loan d ->
  Forall (fun i => 0 <= cap_amount i)
    (capacities t (held_guarantors t loanId d) T (loan_outstandingBalance loan) d).
Proof.
  intros [Ho Hg Hb]. unfold capacities. apply Forall_fmap. eapply Forall_impl; [exact Hg|].
  intros g Hle. cbn in Hle |- *. apply Z.min_glb.
  - unfold guarantee_capacity. destruct (_ && _) eqn:E; [|lia]. reflect.
    apply to_dp4_nonneg, rnd_nonneg, Qmult_le_0_compat; [unfold Qle, dec; cbn; lia|].
    apply rnd_nonneg, Qle_shift_div_l; [unfold Qlt, dec; cbn; lia|].
    rewrite Qmult_0_l. unfold Qle, dec. cbn. lia.
  - unfold account_capacity. destruct (recovery_account _ _ _ _) as [[id a]|] eqn:E; [|lia].
    apply recovery_account_Some in E as [Ha _]. destruct (Hb id a Ha). lia.
Qed.

Lemma allocate_accounts items : forall D C,
  Forall2 (fun i a => ra_account a = cap_account i) items (allocate D C items).
Proof.
  induction items as [|i items IH]; intros D C; [constructor|]. cbn [allocate].
  destruct (_ || _); constructor; auto.
Qed.

Lemma allocations_typed t guarantors T D out d :
  Forall (alloc_typed T d) (allocateRecovery t guarantors T D out d).
Proof.
  unfold allocateRecovery. cbv zeta. set (items := capacities _ _ _ _ _).
  apply Forall_forall. intros a Ha acct a0 Ea.
  pose proof (allocate_accounts items (to_dp4 D) (sum_by cap_amount items)) as HF.
  apply list_elem_of_lookup in Ha as [k Hk]. eapply Forall2_lookup_r in HF as (i & Hi & E); [|exact Hk].
  assert (i ∈ items) as Hin by (by eapply list_elem_of_lookup_2). rewrite E in Ea.
  apply list_elem_of_fmap in Hin as (g & -> & _). apply recovery_account_Some in Ea. eauto.
Qed.

(** What a committed recovery did: money collected, and the loan's debt cut by
    the smaller of the debt and the money. *)
Definition recovered (loanId t : string) (defaultAmount : Q) (att : string) (s : LoanRecoverySummary)
    (d d' : DB) : Prop :=
  exists loan d1,
    tenant_loan t loanId d = Some loan /\ held_guarantors t loanId d <> [] /\
    collected t (fun acct => guarantorForfeitureReference t loanId acct att) (totalRecovered s) d d1 /\
    sum_by lg_recoveredAmount (loanGuarantors d1) =
      sum_by lg_recoveredAmount (loanGuarantors d) + totalRecovered s /\
    remainingDebt s = Qmax_ (defaultAmount - dec (totalRecovered s))%Q 0%Q /\
    (totalRecovered s = 0 /\ d' = d1 \/
     0 < totalRecovered s /\ exists now, d' = set_loans (<[loanId := touch_loan now (set_outstanding
       (loan_outstandingBalance loan - Z.min (loan_outstandingBalance loan) (totalRecovered s)) loan)]>
       (loans d)) d1) /\
    (0 <= to_dp4 defaultAmount -> sound_guarantees t loanId loan d ->
     totalRecovered s <= to_dp4 defaultAmount).

Lemma allocations_nonneg t guarantors T D out d :
  Forall (fun i => 0 <= cap_amount i) (capacities t guarantors T out d) -> 0 <= to_dp4 D ->
  Forall (fun al => 0 <= ra_deduction al) (allocateRecovery t guarantors T D out d) /\
  sum_by ra_deduction (allocateRecovery t guarantors T D out d) <= to_dp4 D.
Proof.
  intros Hc HD. destruct (allocate_within _ _ HD Hc) as [H1' H2']. split; [|done].
  apply Forall_forall. intros a Ha. apply list_elem_of_lookup in Ha as [k Hk].
  eapply Forall2_lookup_r in H1' as (i & _ & Hw); [|exact Hk]. apply Hw.
Qed.

Lemma recoveryBody_Ok loanId t q actor att w s w' :
  recoveryBody loanId t q actor att w = (Ok s, w') -> recovered loanId t q att s (db w) (db w').
Proof.
  unfold recoveryBody. intros Hr. run_inv. reflect.
  match goal with Hf : foldM _ _ _ _ = _ |- _ => rename Hf into Hloop end.
  match goal with Hx : tenant_loan _ _ _ = Some ?l |- _ => rename l into loan, Hx into Hl end.
  match type of Hl with tenant_loan _ _ (db ?w) = _ => rename w into w0 end.
  match type of Hloop with foldM _ _ _ _ = (Ok ?n, ?w) => rename n into total, w into w1 end.
  apply recover_loop in Hloop as (Hc & Hsum & Hbound); [|apply allocations_typed]. rewrite Z.sub_0_r in *.
  destruct (tenant_loan_Some _ _ _ _ Hl) as [Hll Hlt]. pose proof (co_nonneg _ _ _ _ _ Hc) as Hnn.
  exists loan, (db w1). split_and!; try done.
  - intros E. by rewrite E in *.
  - cbn [totalRecovered]. destruct (0 <? total) eqn:E; reflect; run_inv; [|left; split; [lia|done]].
    right. split; [done|].
    match goal with Hu : loan_updateMany _ _ _ _ = _ |- _ =>
      apply loan_updateMany_hit with (l := loan) in Hu as [_ ->] end;
      [|by rewrite (co_loans _ _ _ _ _ Hc)|by apply same_true].
    cbn. rewrite (co_loans _ _ _ _ _ Hc). by eexists.
  - intros HD Hsg. destruct (allocations_nonneg t (held_guarantors t loanId (db w0))
      match loan_product loan (db w0) with
      | Some p => default FOSA (lp_requiredAccountType p)
      | None => FOSA
      end q (loan_outstandingBalance loan) (db w0)) as [H1' H2']; [by apply capacities_nonneg|done|].
    specialize (Hbound H1'). cbn. lia.
Qed.

#[export] Instance frames_locks_recovery loanId t q actor :
  Frames locks (recoverFromGuarantorsLocked loanId t q actor).
Proof.
  unfold recoverFromGuarantorsLocked, recoveryBody, recover_allocation, postGuarantorForfeitureEntry.
  apply _.
Qed.

#[export] Instance frames_users_recovery loanId t q actor :
  Frames users_of (recoverFromGuarantorsLocked loanId t q actor).
Proof.
  unfold recoverFromGuarantorsLocked, recoveryBody, recover_allocation, postGuarantorForfeitureEntry.
  apply _.
Qed.

#[export] Instance frames_users_recover loanId t amount actor :
  Frames users_of (recoverFromGuarantors loanId t amount actor).
Proof. unfold recoverFromGuarantors. apply _. Qed.

Lemma recoverFromGuarantors_Ok loanId t amount actor w s w' :
  recoverFromGuarantors loanId t amount actor w = (Ok s, w') ->
  not_positive amount = false /\
  recovered loanId t (finite_value amount) (uuid (N.succ (nextUuid w))) s (db w) (db w').
Proof.
  unfold recoverFromGuarantors. intros Hr. run_inv. split; [done|].
  rewrite acquireLock_run in *. destruct (locks _ !! _) as [tok|] eqn:El; run_inv.
  match goal with Hf : finally _ _ _ = _ |- _ => apply finally_Ok in Hf as (w1 & u & Hm & Hk) end.
  rewrite releaseLock_run in Hk. injection Hk as <- <-.
  match goal with |- recovered _ _ _ _ _ _ (db ?x) => replace (db x) with (db w1) by (by repeat case_match) end.
  unfold recoverFromGuarantorsLocked in Hm. apply bind_Ok in Hm as (att & w2 & Ha & Hm).
  injection Ha as <- <-. apply transaction_Ok, recoveryBody_Ok in Hm. exact Hm.
Qed.

(** C21: A recovery takes from each guarantor account the same amount of balance
    and frozen savings; what the accounts lose in all is the total recovered,
    the guarantors' recovered amounts rise by it, the loan's outstanding
    balance falls by the smaller of itself and it, every hold stays covered,
    and the general ledger stays in step with the deposits.  With sound
    guarantees no more than the amount in default is taken. *)
Theorem recovery_conserves loanId t amount actor w s w' :
  recoverFromGuarantors loanId t amount actor w = (Ok s, w') ->
  let n := totalRecovered s in
  let R acct := guarantorForfeitureReference t loanId acct (uuid (N.succ (nextUuid w))) in
  exists loan, tenant_loan t loanId (db w) = Some loan /\ 0 <= n /\
    map_sum acc_balance (accounts (db w')) = map_sum acc_balance (accounts (db w)) - n /\
    map_sum acc_frozenSavings (accounts (db w')) = map_sum acc_frozenSavings (accounts (db w)) - n /\
    sum_by lg_recoveredAmount (loanGuarantors (db w')) =
      sum_by lg_recoveredAmount (loanGuarantors (db w)) + n /\
    (exists xs, transactions (db w') = transactions (db w) ++ xs /\ sum_by txn_amount xs = n) /\
    loan_outstandingBalance <$> loans (db w') !! loanId =
      Some (if 0 <? n then loan_outstandingBalance loan - Z.min (loan_outstandingBalance loan) n
            else loan_outstandingBalance loan) /\
    (committed (db w) -> committed (db w')) /\
    (entries_have_rows t R (db w) -> ledger_ok (db w) -> ledger_ok (db w')) /\
    (sound_guarantees t loanId loan (db w) -> n <= to_dp4 (finite_value amount)).
Proof.
  intros Hr n R. apply recoverFromGuarantors_Ok in Hr as (Hpos & loan & d1 & Hl & _ & Hc & Hsum & _ & Hd' & Hbound).
  fold n in Hc, Hsum, Hd', Hbound. fold R in Hc. pose proof (co_nonneg _ _ _ _ _ Hc) as Hn.
  apply tenant_loan_Some in Hl as Hll. destruct Hll as [Hll _].
  assert (accounts (db w') = accounts d1 /\ transactions (db w') = transactions d1 /\
    loanGuarantors (db w') = loanGuarantors d1 /\ same_ledger d1 (db w')) as (Ea & Et & Eg & Es)
    by (destruct Hd' as [[_ ->]|[_ [now ->]]]; done).
  exists loan. split_and!; [done|done| | | | | | | |].
  - rewrite Ea. apply (co_balance _ _ _ _ _ Hc).
  - rewrite Ea. apply (co_frozen _ _ _ _ _ Hc).
  - by rewrite Eg.
  - rewrite Et. apply (co_rows _ _ _ _ _ Hc).
  - destruct Hd' as [[En ->]|[En [now ->]]]; cbn.
    + by rewrite (co_loans _ _ _ _ _ Hc), Hll, En.
    + rewrite lookup_insert_eq. cbn. f_equal. by rewrite (proj2 (Z.ltb_lt _ _) En).
  - intros Hcm. unfold committed. rewrite Ea. by apply (collected_committed _ _ _ _ _ Hc).
  - intros Hrows Hok. rewrite <- Es. by apply (co_ledger _ _ _ _ _ Hc).
  - intros Hsg. apply Hbound; [|done]. apply to_dp4_nonneg.
    destruct amount as [q|]; [|done]. cbn in *. apply Qlt_le_weak, Qnot_le_lt. intros Hle. apply Qle_bool_iff in Hle.
    congruence.
Qed.
End Recovery.

(** ** Witnesses *)
Lemma allocation_fair_witness :
  let g := mkLoanGuarantor "g1" "t1" "loan1" "m2" G_ACCEPTED (ks 400) 0 None None 0 in
  let items := [mkCapacity g 3 None; mkCapacity g 5 None; mkCapacity g 4 None] in
  sum_by ra_deduction (allocate 7 (sum_by cap_amount items) items) = 7.
Proof.
  intros g items. destruct (allocation_fair 7 items) as (_ & _ & Hex); [lia|by repeat constructor|].
  rewrite Hex; [vm_compute; reflexivity|]. intros q. apply Qeq_refl.
Defined.

(** Two guarantors of the defaulted loan, 400 and 200 of their savings held. *)
Definition guarantee (id member : string) (amount : Z) : LoanGuarantor :=
  mkLoanGuarantor id "t1" "loan1" member G_ACCEPTED (ks amount) 0 None None 0.

Definition defaulted_loan : Loan :=
  mkLoan "t1" "m1" "p1" "LN-1" DEFAULTED (ks 1000) (ks 600) 0 (ks 40) (ks 10) 95 NPL None None
    (Some 10) 0 0 terms.

Definition defaulted_world : World :=
  let w := after (postEntry (deposit_call "fosa2" 1000 "D-2")) funded_world in
  let w := after (postEntry (deposit_call "bosa2" 500 "D-3")) w in
  with_db (fun d => set_accounts
      (alter (fun a => set_frozen (ks 400) (acc_version a) a) "fosa2"
        (alter (fun a => set_frozen (ks 300) (acc_version a) a) "bosa2" (accounts d)))
    (set_loans {[ "loan1" := defaulted_loan ]} (set_loanGuarantors [guarantee "g1" "m2" 400] d))) w.

Abbreviation recover_call amount :=
  (recoverFromGuarantors "loan1" "t1" (Finite (inject_Z amount)) "teller").

Lemma defaulted_committed : committed (db defaulted_world).
Proof. by_decision. Qed.

Lemma recovery_conserves_witness :
  match recover_call 250 defaulted_world with
  | (Ok s, w') => totalRecovered s = ks 250 /\
      map_sum acc_balance (accounts (db w')) = map_sum acc_balance (accounts (db defaulted_world)) - ks 250 /\
      committed (db w')
  | _ => False
  end.
Proof.
  destruct (recover_call 250 defaulted_world) as [[s|e] w'] eqn:E; [|refute].
  destruct (recovery_conserves "loan1" "t1" (Finite (inject_Z 250)) "teller" defaulted_world s w' E)
    as (loan & _ & _ & Hb & _ & _ & _ & _ & Hc & _).
  assert (totalRecovered s = ks 250) as Hs by (vm_compute in E; by injection E as <- _).
  rewrite Hs in Hb. split_and!; [exact Hs|exact Hb|exact (Hc defaulted_committed)].
Defined.

(** ** What the recovery worker does around a debit *)
(** Sending a message always succeeds and writes no table. *)
#[export] Instance frames_db_notify channel type address body : Frames db (notify channel type address body).
Proof. unfold notify. destruct (truthy address); [apply _|done]. Qed.

Lemma notify_total channel type address body w :
  exists sent w', notify channel type address body w = (Ok sent, w').
Proof. unfold notify. destruct (truthy address); by eexists _, _. Qed.

(** Two total parts run after each other are total. *)
Lemma bind_total {A B} (m : M A) (k : A -> M B) :
  (forall w, exists a w', m w = (Ok a, w')) -> (forall a w, exists b w', k a w = (Ok b, w')) ->
  forall w, exists b w', bind m k w = (Ok b, w').
Proof. intros Hm Hk w. unfold bind. destruct (Hm w) as (a & w' & ->). apply Hk. Qed.

Section Jobs.
Context `{UuidSource, Sha256, DecimalLib}.

Lemma audit_without_system t action id md w :
  user_exists "SYSTEM" (db w) = false ->
  exists w', RecoveryJobs.audit t action id md w = (Err (ForeignKeyViolation "AuditLog"), w') /\
    db w' = db w /\ locks w' = locks w.
Proof.
  unfold user_exists. intros Hs.
  unfold RecoveryJobs.audit, fresh_id, audit_row_create, bind, gets, throw_if, throw. cbn.
  rewrite Hs. cbn. by eexists.
Qed.

(** Without a user named SYSTEM the worker fails after the recovery has
    committed: the guarantors stay debited, and the queue's retry runs the
    recovery again. *)
Theorem delayed_debit_repeats n job loan amount s w w1 :
  user_exists "SYSTEM" (db w) = false ->
  job_name job = GUARANTOR_DEBIT_JOB ->
  tenant_loan (job_tenantId job) (job_loanId job) (db w) = Some loan ->
  isStillDefaulted (loan_status loan) (loan_arrearsDays loan) = true ->
  parse_decimal (job_defaultAmount job) = Some amount ->
  recoverFromGuarantors (job_loanId job) (job_tenantId job) (Finite amount) (job_actorId job) w
    = (Ok s, w1) ->
  exists w', RecoveryJobs.process job w = (Err (ForeignKeyViolation "AuditLog"), w') /\
    db w' = db w1 /\
    map_sum acc_balance (accounts (db w')) = map_sum acc_balance (accounts (db w)) - totalRecovered s /\
    attempt (S n) job w = attempt n job w'.
Proof.
  intros Hs Hname Hl Hd Hp Hr.
  assert (exists w', RecoveryJobs.process job w = (Err (ForeignKeyViolation "AuditLog"), w') /\
    db w' = db w1) as (w' & E & Hdb).
  { unfold RecoveryJobs.process, executeDelayedDebit. rewrite Hname. cbn [negb].
    rewrite (proj2 (same_false GUARANTOR_DEBIT_JOB GUARANTOR_RECOVERY_NOTICE_JOB)) by done. rewrite same_refl.
    unfold bind at 1, gets at 1. rewrite Hl. unfold bind at 1, or_throw, ret at 1. rewrite Hd. cbn [negb].
    rewrite Hp. unfold bind at 1, ret at 1. rewrite (bind_run _ _ _ _ _ Hr).
    unfold bind at 1, gets at 1.
    match goal with |- context [foldM ?f tt ?xs] =>
      assert (exists u w2, foldM f tt xs w1 = (Ok u, w2)) as (u & w2 & Hf) by
        (apply foldM_total; intros _ g; destruct (_ <=? 0); [by eexists _, _|];
         repeat (apply bind_total; [apply notify_total|intros _]); by eexists _, _);
      pose proof (frames_Ok db (foldM f tt xs) _ _ _ _ Hf) as Hdb2
    end.
    rewrite (bind_run _ _ _ _ _ Hf).
    destruct (audit_without_system (job_tenantId job) "GUARANTOR_RECOVERY.DEBIT_EXECUTED" (Some (job_loanId job))
      [("totalRecovered", JStr (toFixed4 (dec (totalRecovered s))));
       ("remainingDebt", JStr (toFixed4 (remainingDebt s)))] w2) as (w3 & Ha & Hdb3 & _).
    - rewrite Hdb2. pose proof (frames_Ok users_of _ _ _ _ _ Hr) as Hu. unfold users_of in Hu.
      unfold user_exists in *. by rewrite Hu.
    - exists w3. split; [exact Ha|congruence]. }
  exists w'. split; [done|]. split; [done|]. split.
  - apply recovery_conserves in Hr as (l & _ & _ & Hb & _). by rewrite Hdb.
  - cbn [attempt]. by rewrite E.
Qed.
End Jobs.

(** ** Witness *)
Definition debit_job : QueueJob :=
  mkJob (GUARANTOR_DEBIT_JOB +:+ ".t1.loan1") GUARANTOR_DEBIT_JOB "t1" "loan1" "teller" "150" "" 1.

(** A job for 150 takes 375 in its three attempts. *)
Lemma delayed_debit_repeats_witness :
  match run_job debit_job defaulted_world with
  | (Err (ForeignKeyViolation "AuditLog"), w') =>
      map_sum acc_balance (accounts (db w')) = map_sum acc_balance (accounts (db defaulted_world)) - ks 375
  | _ => False
  end.
Proof.
  destruct (recover_call 150 defaulted_world) as [[s|e] w1] eqn:E; [|refute].
  destruct (delayed_debit_repeats 1 debit_job defaulted_loan (inject_Z 150) s defaulted_world w1
    ltac:(reflexivity) ltac:(reflexivity) ltac:(reflexivity) ltac:(reflexivity) ltac:(reflexivity) E)
    as (w' & Hp & _ & _ & Hagain).
  unfold run_job. rewrite Hagain. assert (w' = after (RecoveryJobs.process debit_job) defaulted_world) as ->
    by (unfold after; rewrite Hp; reflexivity).
  clear. vm_compute. reflexivity.
Defined.
