(* ===== verification/OffsetTheorems.v ===== *)
(** * OffsetTheorems: what the daily forfeiture establishes

    One amount leaves the guarantors' savings and holds, is recorded on their
    guarantees and settles the loan as far as the debt goes. *)
From S2P Require Import Prelude Money Json Format Schema Ledger LedgerFacts LedgerInv.
From S2P Require Import LedgerProps LedgerLegs.
From S2P Require Import AccountFacts Repayment AuditLogs Frames Redis Recovery GuarantorFacts.
From S2P Require Import RecoveryFacts.
From S2P Require Import RecoveryJobs Offset Fixture LedgerTheorems RecoveryTheorems.

Section Offset.
Context `{UuidSource, Sha256, Environment}.

Lemma createAtomic_frame dto w u w' :
  createAtomic dto w = (Ok u, w') ->
  same_balances (db w) (db w') /\ loanGuarantors (db w') = loanGuarantors (db w).
Proof.
  unfold createAtomic, logAtomic. intros Hr. run_inv.
  match goal with Hf : fresh_id _ = _ |- _ => unfold fresh_id in Hf; injection Hf as <- <- end.
  by inv_call audit_row_create_frame as Hf.
Qed.

(** A guarantor row after a forfeiture for [loanId] at [now]: as it was, or
    charged once, within what was left of the guarantee, and its hold released. *)
Definition guarantee_charged (t loanId : string) (now : Z) (g g' : LoanGuarantor) : Prop :=
  g' = g \/ exists k, lg_loanId g = loanId /\ forfeitable t g = true /\
    0 < k <= lg_guaranteedAmount g - lg_recoveredAmount g /\ g' = recover_guarantor k now true g.

Lemma guarantee_charged_trans t loanId now g1 g2 g3 :
  guarantee_charged t loanId now g1 g2 -> guarantee_charged t loanId now g2 g3 -> guarantee_charged t loanId now g1 g3.
Proof.
  intros [->|(k & Hl & Hf & Hk & ->)] H23; [done|]. destruct H23 as [->|(k' & _ & Hf' & _)]; [right; by exists k|].
  unfold forfeitable in Hf'. cbn in Hf'. by rewrite andb_false_r in Hf'.
Qed.

(** A charge updates the rows of one id; ids being unique, it replaces a row. *)
Definition charge (t id : string) (k now : Z) : list LoanGuarantor -> list LoanGuarantor :=
  update_where (fun x => (lg_id x === id) && forfeitable t x) (recover_guarantor k now true).

Lemma charge_row t k now g rows :
  NoDup (lg_id <$> rows) -> g ∈ rows -> forfeitable t g = true ->
  charge t (lg_id g) k now rows = replace_row lg_id (recover_guarantor k now true g) rows.
Proof.
  intros Hnd Hg Hf. apply list_fmap_ext. intros i x Hx. cbn. case_bool_decide as E; [|done].
  assert (x = g) as -> by (eapply (NoDup_key_inj lg_id); eauto using list_elem_of_lookup_2). by rewrite Hf.
Qed.

(** The guarantor rows of a whole forfeiture of [n]. *)
Definition rows_charged (t loanId : string) (now n : Z) (rows rows' : list LoanGuarantor) : Prop :=
  Forall2 (guarantee_charged t loanId now) rows rows' /\
  sum_by lg_recoveredAmount rows' = sum_by lg_recoveredAmount rows + n.

Lemma rows_charged_refl t loanId now rows : rows_charged t loanId now 0 rows rows.
Proof. split; [|lia]. apply Forall_Forall2_diag, Forall_forall. by left. Qed.

Lemma rows_charged_trans t loanId now n m r1 r2 r3 :
  rows_charged t loanId now n r1 r2 -> rows_charged t loanId now m r2 r3 -> rows_charged t loanId now (n + m) r1 r3.
Proof.
  intros [F1 S1] [F2 S2]. split; [|lia]. eapply Forall2_trans; [intros ???; apply guarantee_charged_trans|exact F1|exact F2].
Qed.

Lemma rows_charged_one t loanId now k g rows :
  NoDup (lg_id <$> rows) -> g ∈ rows -> forfeitable t g = true -> lg_loanId g = loanId ->
  0 < k <= lg_guaranteedAmount g - lg_recoveredAmount g ->
  rows_charged t loanId now k rows (replace_row lg_id (recover_guarantor k now true g) rows).
Proof.
  intros Hnd Hg Hf Hl Hk. split.
  - eapply replace_row_Forall2; [by left| |done..]. right. by exists k.
  - rewrite (sum_by_replace_row _ _ g) by done. cbn. lia.
Qed.

(** The guarantors a forfeiture works through. *)
Definition to_charge (t loanId : string) (rows gs : list LoanGuarantor) : Prop :=
  NoDup (lg_id <$> rows) /\ NoDup (lg_id <$> gs) /\
  Forall (fun g => g ∈ rows /\ forfeitable t g = true /\ lg_loanId g = loanId) gs.

Lemma to_charge_next t loanId k now g gs rows :
  to_charge t loanId rows (g :: gs) -> to_charge t loanId (replace_row lg_id (recover_guarantor k now true g) rows) gs.
Proof.
  intros (Hnd & Hgs & Hall). cbn in Hgs. apply NoDup_cons in Hgs as [Hg Hgs]. inversion_clear Hall as [|? ? _ Hall'].
  split_and!; [by rewrite replace_row_keys|done|]. rewrite Forall_forall in Hall' |- *. intros x Hx.
  destruct (Hall' x Hx) as (Hin & Hf). split; [|done]. apply replace_row_other; [done|]. cbn. intros E.
  apply Hg. rewrite <- E. by apply list_elem_of_fmap_2.
Qed.

Lemma to_charge_held t loanId d : NoDup (lg_id <$> loanGuarantors d) ->
  to_charge t loanId (loanGuarantors d) (held_guarantors t loanId d).
Proof.
  intros Hnd. unfold held_guarantors. split_and!; [done| |].
  - rewrite merge_sort_Permutation. by apply NoDup_key_filter.
  - apply Forall_forall. intros g Hg. rewrite merge_sort_Permutation in Hg.
    apply list_elem_of_In, List.filter_In in Hg as [Hg HP]. split; [by apply list_elem_of_In|].
    unfold forfeitable. reflect. by subst.
Qed.

Lemma forfeit_guarantor_Ok t loanId att jobId loan at_ g w r w' :
  forfeit_guarantor t loanId att jobId loan at_ g w = (Ok r, w') ->
  match r with
  | None => w' = w
  | Some n => exists acct a, accounts (db w) !! acct = Some a /\ acc_accountType a = BOSA /\
      0 < fn_amountForfeited n <= lg_guaranteedAmount g - lg_recoveredAmount g /\
      loanGuarantors (db w') = charge t (lg_id g) (fn_amountForfeited n) at_ (loanGuarantors (db w)) /\
      forfeited t acct (guarantorForfeitureReference t loanId acct att) BOSA (fn_amountForfeited n)
        (db w) (db w')
  end.
Proof.
  unfold forfeit_guarantor. intros Hr. run_inv.
  destruct (member_account _ _ _ _) as [[acct a]|] eqn:Hacc; [|by run_inv].
  match goal with Hx : (if ?c then _ else _) _ = _ |- _ => destruct c eqn:Hpos end; [by run_inv|].
  run_inv. case_bool_decide; [by run_inv|]. run_inv. reflect.
  apply member_account_Some in Hacc as (Ha & Ht & _ & HT & _).
  exists acct, a. cbn [fn_amountForfeited]. split; [done|]. split; [done|].
  match goal with |- 0 < ?m <= _ /\ _ => set (n := m) in * end.
  assert (0 < n <= lg_guaranteedAmount g - lg_recoveredAmount g /\ n <= acc_balance a /\ n <= acc_frozenSavings a)
    as (Hg & Hb & Hf) by (unfold n, min3; unfold n, min3 in *; lia).
  split; [done|].
  inv_call account_updateMany_Ok as [[-> _]|(a' & -> & Ha' & Hc & _ & ->)]; [done|].
  assert (a' = a) as -> by congruence.
  inv_call guarantor_updateMany_Ok as (-> & _).
  match goal with Hx : createAtomic _ _ = _ |- _ => apply createAtomic_frame in Hx as (Hs2 & Eg2) end.
  match goal with Ht : transaction_create _ _ = _, Hp : postGuarantorForfeitureEntry _ _ _ _ _ _ _ _ = _ |- _ =>
    pose proof (leg_guarantors _ _ _ _ _ _ _ _ _ _ _ _ _ Ht Hp) as Eg end.
  reflect. split; [by rewrite Eg2, Eg|]. eapply (forfeited_intro _ _ _ _ _ a); eauto. done.
Qed.

Lemma forfeit_loop t loanId att jobId loan at_ gs : forall acc w acc' w',
  let R acct := guarantorForfeitureReference t loanId acct att in
  foldM (fun acc g =>
      let* n := forfeit_guarantor t loanId att jobId loan at_ g in
      ret match n with
          | Some n => (acc.1 + fn_amountForfeited n, acc.2 ++ [n])
          | None => acc
          end) acc gs w = (Ok acc', w') ->
  collected t R (acc'.1 - acc.1) (db w) (db w') /\
  (exists ns, acc'.2 = acc.2 ++ ns /\ sum_by fn_amountForfeited ns = acc'.1 - acc.1) /\
  (acc'.1 = acc.1 -> w' = w) /\
  (to_charge t loanId (loanGuarantors (db w)) gs ->
   rows_charged t loanId at_ (acc'.1 - acc.1) (loanGuarantors (db w)) (loanGuarantors (db w'))).
Proof.
  induction gs as [|g gs IH]; intros acc w acc' w' R Hr; cbn [foldM] in Hr; run_inv.
  { rewrite Z.sub_diag. split_and!; [apply collected_refl| |done|intros _; apply rows_charged_refl].
    exists []. by rewrite app_nil_r. }
  match goal with Hf : foldM _ _ _ _ = _ |- _ => apply IH in Hf as (Hc & (ns & En & Hsum) & Hno & Hrows) end.
  inv_call forfeit_guarantor_Ok as Hone. destruct r0 as [n|].
  - destruct Hone as (acct & a & Ha & HT & Hn & Erows & Hff).
    apply (forfeited_collected t R acct BOSA) in Hff as Hc1; [|congruence].
    cbn [fst snd] in *. split; [|split; [|split]].
    + replace (acc'.1 - acc.1) with (fn_amountForfeited n + (acc'.1 - (acc.1 + fn_amountForfeited n))) by lia.
      by eapply collected_trans.
    + exists (n :: ns). rewrite En, <- app_assoc. split; [done|]. rewrite sum_by_cons. lia.
    + intros E. pose proof (co_nonneg _ _ _ _ _ Hc). destruct (ff_account _ _ _ _ _ _ _ Hff) as (? & _ & _ & Hp & _).
      lia.
    + intros Hch. pose proof Hch as (Hnd & _ & Hall). inversion_clear Hall as [|? ? (Hg & Hf & Hl) _].
      replace (acc'.1 - acc.1) with (fn_amountForfeited n + (acc'.1 - (acc.1 + fn_amountForfeited n))) by lia.
      rewrite Erows, charge_row in Hrows by done. eapply rows_charged_trans; [by apply rows_charged_one|].
      by eapply Hrows, to_charge_next.
  - subst. split_and!; [done|eauto|done|]. intros (Hnd & Hgs & Hall). apply Hrows.
    cbn in Hgs. apply NoDup_cons in Hgs as [_ Hgs]. by inversion_clear Hall.
Qed.

#[export] Instance frames_locks_offset loanId t jobId : Frames locks (offsetLoanLocked loanId t jobId).
Proof. unfold offsetLoanLocked, offsetBody, forfeit_guarantor, postGuarantorForfeitureEntry. apply _. Qed.

(** The loan's row after [n] was forfeited for it. *)
Definition offset_row (n now : Z) (loan : Loan) : Loan :=
  touch_loan now (offset_loan_row (loan_outstandingBalance loan - Z.min (loan_outstandingBalance loan) n) loan).

(** What a committed forfeiture did. *)
Definition offset (loanId t att : string) (n : Z) (ns : list ForfeitureNotification) (d d' : DB) : Prop :=
  sum_by fn_amountForfeited ns = n /\
  (n = 0 /\ d' = d \/
   0 < n /\ exists loan d1 now, tenant_loan t loanId d = Some loan /\ offset_eligible loan = true /\
     collected t (fun acct => guarantorForfeitureReference t loanId acct att) n d d1 /\
     same_ledger d1 d' /\ loans d' = <[loanId := offset_row n now loan]> (loans d) /\
     (NoDup (lg_id <$> loanGuarantors d) ->
      exists at_, rows_charged t loanId at_ n (loanGuarantors d) (loanGuarantors d'))).

Lemma offsetBody_Ok loanId t jobId att w r w' :
  offsetBody loanId t jobId att w = (Ok r, w') -> offset loanId t att r.1 r.2 (db w) (db w').
Proof.
  unfold offsetBody. intros Hr. run_inv.
  destruct (tenant_loan _ _ _) as [loan|] eqn:Hl; [|run_inv; by split; [|left]].
  match goal with Hx : (if ?c then _ else _) _ = _ |- _ => destruct c eqn:Hel end; [run_inv; by split; [|left]|].
  run_inv. apply orb_false_iff in Hel as [Hel _]. apply negb_false_iff in Hel.
  match goal with Hf : foldM _ _ _ _ = _ |- _ => apply forfeit_loop in Hf as (Hc & (ns & En & Hsum) & Hno & Hrows) end.
  cbn [fst snd] in *. rewrite Z.sub_0_r in *. pose proof (co_nonneg _ _ _ _ _ Hc) as Hn.
  match goal with Hx : (if ?c then _ else _) _ = _ |- _ => destruct c eqn:Hz end; reflect.
  { run_inv. split; [done|left]. split; [done|]. by rewrite Hno by lia. }
  run_inv. match goal with Hx : createAtomic _ _ = _ |- _ => apply createAtomic_frame in Hx as ([Hs El] & Eg) end.
  apply tenant_loan_Some in Hl as Hll. destruct Hll as [Hll _].
  match goal with Hu : loan_updateMany _ _ _ _ = _ |- _ =>
    apply loan_updateMany_Ok in Hu as [[-> _]|(l & -> & Hl' & _ & _ & ->)] end; [done|].
  rewrite (co_loans _ _ _ _ _ Hc), Hll in Hl'. injection Hl' as <-.
  split; [cbn; rewrite En; exact Hsum|]. right. split; [done|]. eexists loan, _, _. split_and!; [done..|exact Hc|exact Hs| |].
  - rewrite El. cbn. rewrite (co_loans _ _ _ _ _ Hc). reflexivity.
  - intros Hnd. eexists. rewrite Eg. by apply Hrows, to_charge_held.
Qed.

Definition attempt_id (jobId : option string) (w : World) : string :=
  let nonce := uuid (N.succ (nextUuid w)) in
  match truthy jobId with Some j => j +:+ "-" +:+ nonce | None => nonce end.

Lemma offsetLoan_Ok loanId t jobId w r w' :
  offsetLoan loanId t jobId w = (Ok r, w') -> offset loanId t (attempt_id jobId w) r.1 r.2 (db w) (db w').
Proof.
  unfold offsetLoan. intros Hr. run_inv. rewrite acquireLock_run in *.
  destruct (locks _ !! _) as [tok|] eqn:El; run_inv; [by split; [|left]|].
  match goal with Hf : finally _ _ _ = _ |- _ => apply finally_Ok in Hf as (w1 & u & Hm & Hk) end.
  rewrite releaseLock_run in Hk. injection Hk as <- <-.
  match goal with |- offset _ _ _ _ _ _ (db ?x) => replace (db x) with (db w1) by (by repeat case_match) end.
  unfold offsetLoanLocked in Hm. apply bind_Ok in Hm as (nonce & w2 & Ha & Hm).
  injection Ha as <- <-. apply transaction_Ok, offsetBody_Ok in Hm. exact Hm.
Qed.

(** C36: A daily forfeiture takes the same amount of balance and frozen savings
    from the guarantors' accounts, [n] in all, records it in its transactions
    and reports it in its messages.  Every guarantor row is left as it was or,
    being an accepted guarantee of the loan, charged once, within what was left
    of it, and its hold released; the recovered amounts rise by [n] in all.
    The loan's debt falls by the smaller of the debt and [n]: what was taken
    beyond the debt reduces nothing.  The loan becomes FULLY_PAID when nothing
    is left and WRITTEN_OFF otherwise, no other loan changes, every hold stays
    covered and the general ledger in step.  When nothing was taken nothing
    changed. *)
Theorem forfeiture_settles_loan loanId t jobId w r w' :
  offsetLoan loanId t jobId w = (Ok r, w') ->
  let n := r.1 in
  let R acct := guarantorForfeitureReference t loanId acct (attempt_id jobId w) in
  0 <= n /\ sum_by fn_amountForfeited r.2 = n /\
  map_sum acc_balance (accounts (db w')) = map_sum acc_balance (accounts (db w)) - n /\
  map_sum acc_frozenSavings (accounts (db w')) = map_sum acc_frozenSavings (accounts (db w)) - n /\
  (exists xs, transactions (db w') = transactions (db w) ++ xs /\ sum_by txn_amount xs = n) /\
  (NoDup (lg_id <$> loanGuarantors (db w)) ->
   exists now, rows_charged t loanId now n (loanGuarantors (db w)) (loanGuarantors (db w'))) /\
  (n = 0 -> db w' = db w) /\
  (0 < n -> exists loan loan', tenant_loan t loanId (db w) = Some loan /\ offset_eligible loan = true /\
     loans (db w') = <[loanId := loan']> (loans (db w)) /\
     loan_outstandingBalance loan' = Z.max 0 (loan_outstandingBalance loan - n) /\
     loan_status loan' = if loan_outstandingBalance loan <=? n then FULLY_PAID else WRITTEN_OFF) /\
  (committed (db w) -> committed (db w')) /\
  (entries_have_rows t R (db w) -> ledger_ok (db w) -> ledger_ok (db w')).
Proof.
  intros Hr n R. apply offsetLoan_Ok in Hr as (Hsum & Hcase). fold n in Hsum, Hcase.
  destruct Hcase as [[Hz ->]|(Hn & loan & d1 & now & Hl & Hel & Hc & Hs & El & Hrows)].
  - rewrite Hz, !Z.sub_0_r. split_and!; try done; try lia; [exists []; by rewrite app_nil_r|].
    intros _. exists 0. apply rows_charged_refl.
  - fold R in Hc. destruct Hs as (Ea & Et & Hs). split_and!; [lia|done| | | | |lia| | |].
    + rewrite Ea. apply (co_balance _ _ _ _ _ Hc).
    + rewrite Ea. apply (co_frozen _ _ _ _ _ Hc).
    + rewrite Et. apply (co_rows _ _ _ _ _ Hc).
    + done.
    + intros _. exists loan. eexists. split_and!; [done..|exact El| |]; unfold offset_row, offset_loan_row; cbn;
        destruct (Z.leb_spec (loan_outstandingBalance loan) n).
      * rewrite Z.min_l, Z.sub_diag by done. cbn. lia.
      * rewrite Z.min_r by lia. rewrite (proj2 (Z.leb_gt _ _)) by lia. lia.
      * by rewrite Z.min_l, Z.sub_diag by done.
      * rewrite Z.min_r by lia. by rewrite (proj2 (Z.leb_gt _ _)) by lia.
    + intros Hcm. unfold committed. rewrite Ea. by apply (collected_committed _ _ _ _ _ Hc).
    + intros Hr0 Hok. rewrite <- (conj Ea (conj Et Hs) : same_ledger d1 (db w')). by apply (co_ledger _ _ _ _ _ Hc).
Qed.
End Offset.

(** ** Locking *)
Section Locking.
Context `{UuidSource, Sha256, Environment, DecimalLib}.

Lemma finally_release {A} (m : M A) key token w :
  Frames locks m -> locks w !! key = Some token ->
  locks (finally m (releaseLock key token) w).2 = delete key (locks w).
Proof.
  intros Hm Hk. unfold finally. specialize (Hm w). destruct (m w) as [[a|e] w']; cbn in Hm.
  - unfold bind. rewrite releaseLock_run, Hm, Hk, same_refl. cbn. by rewrite Hm.
  - rewrite releaseLock_run, Hm, Hk, same_refl. cbn. by rewrite Hm.
Qed.

(** Recovery and the daily forfeiture exclude each other per loan: while
    the loan's lock is held one refuses and the other skips the loan, and
    neither writes anything; when the lock is free each of them gives it back
    whether it succeeds or fails, and touches no other lock; and releasing
    with another holder's token does nothing. *)
Theorem forfeiture_lock_exclusive loanId t amount actor jobId w :
  not_positive amount = false ->
  let key := guarantorForfeitureLockKey t loanId in
  let recover := recoverFromGuarantors loanId t amount actor in
  let offset := offsetLoan loanId t jobId in
  (forall holder, locks w !! key = Some holder ->
     recover w = (Err (Conflict ("GUARANTOR_FORFEITURE_LOCKED: another forfeiture/recovery is already in progress for loan "
                         +:+ loanId)), bump_uuid w) /\
     offset w = (Ok (0, []), bump_uuid w) /\
     (forall token, token <> holder -> releaseLock key token w = (Ok tt, w))) /\
  (locks w !! key = None -> locks (recover w).2 = locks w /\ locks (offset w).2 = locks w).
Proof.
  intros Hpos key recover offset. split.
  - intros holder Hk. unfold recover, offset, recoverFromGuarantors, offsetLoan. fold key.
    rewrite Hpos. unfold bind, throw_if. cbn [ret]. rewrite !acquireLock_run, Hk. split_and!; [done..|].
    intros token Hne. rewrite releaseLock_run, Hk. by rewrite (proj2 (same_false holder token)) by done.
  - intros Hk. unfold recover, offset, recoverFromGuarantors, offsetLoan. fold key.
    rewrite Hpos. unfold bind, throw_if. cbn [ret]. rewrite !acquireLock_run, Hk.
    split; (rewrite finally_release; [|apply _|by cbn; rewrite lookup_insert_eq]); cbn;
      by rewrite delete_insert_id.
Qed.
End Locking.

(** ** Witnesses *)

(** The defaulted loan with only 100 of debt left. *)
Definition nearly_paid_world : World :=
  with_db (fun d => set_loans {[ "loan1" := set_outstanding (ks 100) defaulted_loan ]} d) defaulted_world.

Abbreviation offset_call := (offsetLoan "loan1" "t1" (Some "job-1")).

(** A debt of 100 costs the guarantor the 300 that were held. *)
Lemma forfeiture_settles_loan_witness :
  match offset_call nearly_paid_world with
  | (Ok r, w') => r.1 = ks 300 /\
      map_sum acc_balance (accounts (db w')) = map_sum acc_balance (accounts (db nearly_paid_world)) - ks 300 /\
      sum_by lg_recoveredAmount (loanGuarantors (db w'))
        = sum_by lg_recoveredAmount (loanGuarantors (db nearly_paid_world)) + ks 300 /\
      loan_outstandingBalance <$> loans (db w') !! "loan1" = Some 0
  | _ => False
  end.
Proof.
  destruct (offset_call nearly_paid_world) as [[r|e] w'] eqn:E; [|refute].
  destruct (forfeiture_settles_loan "loan1" "t1" (Some "job-1") nearly_paid_world r w' E)
    as (_ & _ & Hb & _ & _ & Hrows & _ & Hloan & _).
  assert (r.1 = ks 300) as Hr by (vm_compute in E; by injection E as <- _).
  rewrite Hr in *. destruct Hrows as (now & _ & Hsum); [by_decision|].
  destruct Hloan as (loan & loan' & Hl & _ & El & Ho & _); [reflexivity|].
  vm_compute in Hl. injection Hl as <-.
  split; [reflexivity|]. split; [exact Hb|]. split; [exact Hsum|]. rewrite El.
  rewrite lookup_insert_eq. cbn. f_equal. exact Ho.
Defined.

Lemma forfeiture_lock_exclusive_witness :
  let w := with_locks (<[guarantorForfeitureLockKey "t1" "loan1" := "other"]>) defaulted_world in
  is_ok (recover_call 100 w).1 = false /\ (offset_call w).1 = Ok (0, []).
Proof.
  intros w. destruct (forfeiture_lock_exclusive "loan1" "t1" (Finite (inject_Z 100)) "teller" (Some "job-1") w
    ltac:(reflexivity)) as [Hheld _].
  destruct (Hheld "other" ltac:(apply lookup_insert_eq)) as (Hr & Ho & _). rewrite Hr, Ho. by split.
Defined.
