(* ===== verification/FinancialTheorems.v ===== *)
(** * FinancialTheorems: what the daily accrual establishes *)
From S2P Require Import Prelude Money Json Format Schema Ledger LedgerFacts LedgerInv.
From S2P Require Import LedgerProps LedgerLegs.
From S2P Require Import Repayment AuditLogs Redis Recovery RecoveryFacts Financial.
From S2P Require Import FinancialFacts Fixture.
From S2P Require Import LedgerTheorems.

Lemma foldM_noop {S A B} (body : B -> A -> comp S B) acc xs s :
  (forall x, x ∈ xs -> body acc x s = (Ok acc, s)) -> foldM body acc xs s = (Ok acc, s).
Proof.
  induction xs as [|x xs IH]; intros Hb; [done|]. cbn [foldM]. rewrite (bind_run _ _ _ _ _ (Hb x ltac:(set_solver))).
  apply IH. intros y Hy. apply Hb. set_solver.
Qed.

Section Penalties.
Context `{UuidSource, DecimalLib}.

(** The installments charged on a day. *)
Definition penalty_due (t loanId : string) (date : Z) (r : LoanRepayment) : bool :=
  (lr_tenantId r === t) && (lr_loanId r === loanId) && (unpaid r
    && (lr_dueDate r <? date - PENALTY_GRACE_DAYS * msPerDay) && not_charged_since date r).

Definition day_charge (t loanId : string) (date : Z) (r : LoanRepayment) : LoanRepayment :=
  if penalty_due t loanId date r then charged_row date r else r.

Lemma penalty_eligible_In t loanId date d r :
  r ∈ penalty_eligible t loanId date d <-> r ∈ loanRepayments d /\ penalty_due t loanId date r = true.
Proof. unfold penalty_eligible, loan_installments. by rewrite !list_elem_of_In, List.filter_In. Qed.

Lemma day_charge_id t loanId date r : lr_id (day_charge t loanId date r) = lr_id r.
Proof. unfold day_charge. destruct (penalty_due _ _ _ _); [apply charged_row_id|done]. Qed.

Lemma penalties_Ok t loanId acct date w a w' :
  applyOverdueInstallmentsAndArrears t loanId acct date w = (Ok a, w') ->
  NoDup (lr_id <$> loanRepayments (db w)) ->
  penalties_added t (db w) (db w') /\
  loanRepayments (db w') = day_charge t loanId date <$> loanRepayments (db w) /\
  a = arrears_of t loanId date (db w').
Proof.
  unfold applyOverdueInstallmentsAndArrears. intros Hr Hnd. run_inv.
  match goal with Hf : foldM _ ?x _ _ = _ |- _ =>
    apply penalties_loop in Hf as (Hadd & Hk & Hrows); [|done| |] end.
  - split_and!; [done| |done]. apply (keyed_ext lr_id).
    + rewrite <- list_fmap_compose. erewrite list_fmap_ext; [exact Hnd|]. intros. apply day_charge_id.
    + rewrite Hk, <- list_fmap_compose. apply list_fmap_ext. intros. symmetry. apply day_charge_id.
    + intros x (r & -> & Hx)%list_elem_of_fmap. specialize (Hrows r Hx). unfold day_charge.
      destruct (penalty_due t loanId date r) eqn:E.
      * by rewrite decide_True in Hrows by (by apply penalty_eligible_In).
      * rewrite decide_False in Hrows; [done|]. intros [_ E']%penalty_eligible_In. congruence.
  - by apply NoDup_key_filter.
  - intros i [Hi HP]%penalty_eligible_In. unfold penalty_due in HP. by reflect.
Qed.

(** Once charged, an installment is not due again that day. *)
Lemma charged_not_due t loanId date r :
  penalty_due t loanId date (day_charge t loanId date r) = true ->
  installment_penalty (day_charge t loanId date r) <= 0.
Proof.
  unfold day_charge. destruct (penalty_due t loanId date r) eqn:E; [|congruence].
  unfold charged_row. destruct (Z.ltb_spec 0 (installment_penalty r)); [|done].
  intros Hd. unfold penalty_due, not_charged_since in Hd. cbn in Hd. rewrite Z.ltb_irrefl, !andb_false_r in Hd. done.
Qed.

(** The day's penalties are charged once: every installment of the loan
    that is unpaid three days after its due date gets one percent of what it
    was due, the other installments and all balances stay as they are, the
    arrears reported are those of the new schedule, and a second run on that
    day changes nothing and reports the same arrears. *)
Theorem penalties_once t loanId acct date w a w' :
  NoDup (lr_id <$> loanRepayments (db w)) ->
  applyOverdueInstallmentsAndArrears t loanId acct date w = (Ok a, w') ->
  loanRepayments (db w') = day_charge t loanId date <$> loanRepayments (db w) /\
  accounts (db w') = accounts (db w) /\
  a = arrears_of t loanId date (db w') /\
  applyOverdueInstallmentsAndArrears t loanId acct date w' = (Ok a, w').
Proof.
  intros Hnd Hr. apply penalties_Ok in Hr as (Hadd & El & ->); [|done].
  split_and!; [done|apply (pa_accounts _ _ _ Hadd)|done|].
  unfold applyOverdueInstallmentsAndArrears. unfold bind at 1, gets at 1.
  rewrite (bind_run _ _ w' tt w'); [done|]. apply foldM_noop.
  intros x [Hx HP]%penalty_eligible_In. rewrite El in Hx. apply list_elem_of_fmap in Hx as (r & -> & _).
  apply charged_not_due in HP. unfold accrue_installment. by rewrite (proj2 (Z.leb_le _ _)).
Qed.
End Penalties.

Section Accrual.
Context `{UuidSource, DecimalLib}.

(** What is charged under a reference: nothing when a row has it. *)
Definition to_charge (t ref : string) (n : Z) (d : DB) : Z :=
  match txn_by_reference t ref d with Some _ => 0 | None => Z.max n 0 end.

(** The entries for accruals and penalties come with their rows. *)
Definition accruals_have_rows (t : string) (d : DB) : Prop :=
  entries_have_rows t (String.append "ACCRUAL-") d /\ entries_have_rows t (String.append "PENALTY-") d.

(** Charges that may have happened, [n] in all. *)
Record charged_up_to (t acct : string) (n : Z) (d d' : DB) : Prop := {
  cu_account : forall a, accounts d !! acct = Some a ->
    exists v, accounts d' = <[acct := debited n v a]> (accounts d);
  cu_tables : same_loan_tables d d';
  cu_ledger : (forall a, accounts d !! acct = Some a -> acc_tenantId a = t /\ acc_accountType a = FOSA) ->
    accruals_have_rows t d -> ledger_ok d -> accruals_have_rows t d' /\ ledger_ok d';
}.

Lemma debited_none a : debited 0 (acc_version a) a = a.
Proof. unfold debited, set_balance. rewrite Z.sub_0_r. by destruct a. Qed.

Lemma charge_step t loanId acct s n type descr leg notes jt w u w' pre :
  pre = "ACCRUAL-" \/ pre = "PENALTY-" ->
  charge t loanId acct (pre +:+ s) type n descr (income_post t (pre +:+ s) leg n descr notes jt) w = (Ok u, w') ->
  charged_up_to t acct (to_charge t (pre +:+ s) n (db w)) (db w) (db w') /\
  (forall ref, ref <> pre +:+ s -> txn_by_reference t ref (db w') = txn_by_reference t ref (db w)).
Proof.
  intros Hpre Hr. apply charge_Ok in Hr as [[-> Hno]|Hc].
  - split; [|done]. assert (to_charge t (pre +:+ s) n (db w) = 0) as ->.
    { unfold to_charge. destruct Hno as [Hn|[x ->]]; [|done]. destruct (txn_by_reference _ _ _); lia. }
    split; [|done|done]. intros a Ha. exists (acc_version a). by rewrite debited_none, insert_id.
  - destruct Hc as [Hn (a & Ha & Ea) Hrec Htab Hk].
    assert (to_charge t (pre +:+ s) n (db w) = n) as ->
      by (unfold to_charge; rewrite (rc_new _ _ _ _ _ Hrec); lia).
    split; [split|].
    + intros a' Ha'. exists (acc_version a + 1). by assert (a' = a) as -> by congruence.
    + done.
    + intros HT [R1 R2] Hok. split; [split; by eapply recorded_rows|]. apply Hk; [done| |done].
      destruct (je_by_number _ _ (db w)) eqn:Eje; [|done]. exfalso.
      assert (is_Some (txn_by_reference t (pre +:+ s) (db w))) as [y Hy].
      { destruct Hpre as [-> | ->]; [apply R1|apply R2]; by rewrite Eje. }
      rewrite (rc_new _ _ _ _ _ Hrec) in Hy. done.
    + intros ref Hne. destruct (rc_row _ _ _ _ _ Hrec) as (x & Ex & _ & Hx & _).
      unfold txn_by_reference. rewrite Ex. destruct (List.find _ (transactions (db w))) eqn:Ef.
      * by apply find_app_some.
      * rewrite find_app_none by done. cbn. rewrite Hx, (proj2 (same_false (pre +:+ s) ref)) by congruence.
        by rewrite andb_false_r.
Qed.

Lemma charged_trans t acct n m d1 d2 d3 :
  is_Some (accounts d1 !! acct) ->
  charged_up_to t acct n d1 d2 -> charged_up_to t acct m d2 d3 -> charged_up_to t acct (n + m) d1 d3.
Proof.
  intros [a Ha] [A1 T1 K1] [A2 T2 K2]. destruct (A1 a Ha) as (v & E1).
  destruct (A2 (debited n v a)) as (v2 & E2); [by rewrite E1, lookup_insert_eq|]. split.
  - intros a' Ha'. exists v2. rewrite E2, E1, insert_insert_eq. f_equal. assert (a' = a) as -> by congruence.
    unfold debited, set_balance. cbn. f_equal. lia.
  - by transitivity d2.
  - intros HT HR Hok. destruct (K1 HT HR Hok) as [R2 Hok2]. apply K2; [|done..].
    intros b Hb. rewrite E1, lookup_insert_eq in Hb. injection Hb as <-. destruct (HT a Ha). done.
Qed.

Lemma loans_to_accrue_In t date d x :
  x ∈ loans_to_accrue t date d -> loans d !! x.1.1 = Some x.1.2 /\ accrual_due t date x.1.2 = true.
Proof.
  unfold loans_to_accrue. intros ([id l] & -> & Hin)%list_elem_of_fmap.
  apply list_elem_of_In, List.filter_In in Hin as [Hin Hdue].
  by apply list_elem_of_In, elem_of_map_to_list in Hin.
Qed.

(** Accruing a day's interest for a loan debits the member's FOSA account
    by exactly the day's interest and maturity penalty that were not charged
    before, leaves the loan's debt alone, stores the arrears and staging of
    the charged schedule (DEFAULTED when non-performing), does not become due
    again on that day or an earlier one, and keeps the general ledger in step
    with the deposits. *)
Theorem accrual_charges_once loanId loan acct date w u w' l a :
  accrueInterestForLoan loanId loan (Some acct) date w = (Ok u, w') ->
  0 < loan_outstandingBalance loan ->
  loans (db w) !! loanId = Some l -> accounts (db w) !! acct = Some a ->
  NoDup (lr_id <$> loanRepayments (db w)) ->
  let t := loan_tenantId loan in
  let interest := computeScheduleBasedDailyInterest t loanId (loan_disbursedAt loan) date (db w) in
  let k := to_charge t (accrual_reference t loanId date) interest (db w)
           + to_charge t (maturity_reference t loanId date) (maturity_penalty loan date) (db w) in
  (exists v, accounts (db w') = <[acct := debited k v a]> (accounts (db w))) /\
  loanRepayments (db w') = day_charge t loanId date <$> loanRepayments (db w) /\
  (exists now, loans (db w') = <[loanId :=
     touch_loan now (accrued_loan (arrears_of t loanId date (db w')) date interest l)]> (loans (db w))) /\
  (forall t' day, day <= date -> loanId ∉ (loans_to_accrue t' day (db w')).*1.*1) /\
  (acc_tenantId a = t -> acc_accountType a = FOSA -> accruals_have_rows t (db w) ->
   ledger_ok (db w) -> ledger_ok (db w')).
Proof.
  intros Hr Hpos Hl Ha Hnd t interest k. unfold accrueInterestForLoan in Hr.
  rewrite (proj2 (Z.leb_gt _ _)) in Hr by done. run_inv.
  match type of Hl with loans (db ?x) !! _ = _ => rename x into w end. cbn [db log_audit with_db].
  match goal with Ht : transaction _ _ = _ |- _ => apply transaction_Ok in Ht; rename Ht into Hb end.
  unfold accrualBody in Hb. fold t in Hb. run_inv.
  match goal with Hc : charge _ _ _ (accrual_reference _ _ _) _ _ _ _ _ = _ |- _ =>
    apply (charge_step _ _ _ _ _ _ _ LEG_INTEREST _ _ _ _ _ "ACCRUAL-") in Hc as (H1 & Href); [|by left] end.
  match goal with Hc : charge _ _ _ (maturity_reference _ _ _) _ _ _ _ _ = _ |- _ =>
    apply (charge_step _ _ _ _ _ _ _ LEG_PENALTY _ _ _ _ _ "PENALTY-") in Hc as (H2 & _); [|by right] end.
  unfold to_charge in H2 at 1. rewrite Href in H2 by done. fold (to_charge t (maturity_reference t loanId date)
    (maturity_penalty loan date) (db w)) in H2.
  pose proof (charged_trans _ _ _ _ _ _ _ ltac:(by eexists) H1 H2) as [Hacc Htab Hk].
  destruct Htab as (ELo & ER & _). destruct (Hacc a Ha) as [v Ev].
  match goal with Hp : applyOverdueInstallmentsAndArrears _ _ _ _ _ = _ |- _ =>
    apply penalties_Ok in Hp as ([EA EL _ HR HK] & EI & ->) end; [|by rewrite ER].
  match goal with Hu : loan_update _ _ _ = _ |- _ => apply loan_update_Ok in Hu as (l' & Hl' & _ & ->) end.
  assert (l' = l) as -> by congruence. cbn [db with_db set_loans accounts loanRepayments loans]. split_and!.
  - exists v. by rewrite EA.
  - by rewrite EI, ER.
  - eexists. by rewrite EL, ELo.
  - intros t' day Hle Hin. rewrite <- list_fmap_compose in Hin.
    apply list_elem_of_fmap in Hin as (x & Ex & Hin). cbn in Ex.
    apply loans_to_accrue_In in Hin as [Hx Hdue]. cbn [loans set_loans db with_db] in Hx.
    rewrite <- Ex, lookup_insert_eq in Hx. injection Hx as Hx. rewrite <- Hx in Hdue.
    unfold accrual_due in Hdue. cbn in Hdue. reflect. lia.
  - intros Ht HF Hrows Hok. apply (ledger_ok_proper (db s2)); [done|]. apply HK.
    apply Hk; [|done..]. intros b Hb. assert (b = a) as -> by congruence. done.
Qed.

(** With exact division, a period of [days] equal daily accruals differs
    from the installment's interest by at most half a unit of 0.0001 a day,
    and equals it only when the interest divides evenly. *)
Theorem daily_interest_spread due days :
  (forall q, (rnd q == q)%Q) -> 0 < days ->
  2 * Z.abs (days * daily_interest due days - due) <= days /\
  (days * daily_interest due days = due <-> (days | due)).
Proof.
  intros Hex Hd. destruct days as [|p|p]; [lia| |lia].
  assert (daily_interest due (Z.pos p) = round_half_up due p) as ->.
  { unfold daily_interest, d_div. rewrite Hex. unfold to_dp4, Qdiv, Qmult, Qinv, inject_Z, dec. cbn [Qnum Qden].
    rewrite Z.mul_1_r, (Pos.mul_comm 10000 p). apply (round_half_up_scale due p 10000). }
  pose proof (round_half_up_error due p) as He. rewrite (Z.mul_comm (Z.pos p)). split; [done|]. split.
  - intros <-. apply Z.divide_factor_r.
  - intros [k ->]. by rewrite round_half_up_exact.
Qed.

(** ** The integrity check *)
Definition expected_balance (acct : string) (d : DB) : Z :=
  completed_sum acct CREDIT_TYPES d - completed_sum acct DEBIT_TYPES d.

Lemma completed_sum_snoc acct types d d' x :
  transactions d' = transactions d ++ [x] -> txn_accountId x = acct -> txn_status x = T_COMPLETED ->
  completed_sum acct types d' =
  completed_sum acct types d + (if bool_decide (txn_type x ∈ types) then txn_amount x else 0).
Proof.
  intros Ex Ha Hs. unfold completed_sum. rewrite Ex, List.filter_app, sum_by_app. f_equal.
  cbn. rewrite Ha, Hs, !same_refl. cbn. case_bool_decide; cbn; lia.
Qed.

(** A penalty recognised as owed moves no balance, but the integrity check
    counts its row as a debit: an account that agreed with its rows is
    reported with a drift of the penalty. *)
Theorem penalty_reported_as_drift t loanId acct date i w u w' a :
  accrue_installment t loanId acct date i w = (Ok u, w') ->
  i ∈ loanRepayments (db w) -> lr_tenantId i = t -> not_charged_since date i = true ->
  txn_by_reference t (penalty_reference t loanId (lr_id i) date) (db w) = None ->
  1 < installment_penalty i ->
  accounts (db w) !! acct = Some a -> acc_tenantId a = t -> acc_isActive a = true ->
  expected_balance acct (db w) = acc_balance a ->
  mkDrift acct (acc_balance a - installment_penalty i) (acc_balance a)
    ∈ drifts (runLedgerIntegrityCheck t (db w')).
Proof.
  intros Hr Hi Ht Hnc Hnew Hp Ha Hat Hact Hexp. apply accrue_installment_Ok in Hr.
  destruct Hr as [[? _]|[(_ & [Hnil|[x Hx]] & _)|(_ & Hrec)]]; [lia| |congruence|].
  { apply (f_equal (fun l => i ∈ l)) in Hnil. exfalso. apply (not_elem_of_nil i). rewrite <- Hnil.
    apply list_elem_of_In, List.filter_In. split; [by apply list_elem_of_In|]. by rewrite Ht, Hnc, !same_refl. }
  destruct Hrec as [_ (x & Ex & Hxa & Hty & Hst & Hamt) Eacc _ _ _]. cbn in Ex, Eacc.
  cbn [drifts runLedgerIntegrityCheck]. apply list_elem_of_omap. exists (acct, a). split.
  - apply list_elem_of_In, List.filter_In. cbn. rewrite Hat, Hact, same_refl. split; [|done].
    apply list_elem_of_In, elem_of_map_to_list. by rewrite Eacc.
  - unfold account_drift. cbn [fst snd]. unfold expected_balance in Hexp.
    rewrite !(completed_sum_snoc acct _ (db w) (db w') x) by done. rewrite Hty, Hamt.
    replace (bool_decide (PENALTY ∈ CREDIT_TYPES)) with false by reflexivity.
    replace (bool_decide (PENALTY ∈ DEBIT_TYPES)) with true by reflexivity.
    rewrite (proj2 (Z.ltb_lt _ _)) by lia. do 2 f_equal. lia.
Qed.
End Accrual.

(** ** Witnesses *)
Lemma loan_world_installments : NoDup (lr_id <$> loanRepayments (db loan_world)).
Proof. by_decision. Qed.

Abbreviation day_10 := (10 * msPerDay).
Abbreviation arrears_call := (applyOverdueInstallmentsAndArrears "t1" "loan1" "fosa1" day_10).

Lemma penalties_once_witness :
  match arrears_call loan_world with
  | (Ok a, w') => arrears_call w' = (Ok a, w')
  | _ => False
  end.
Proof.
  destruct (arrears_call loan_world) as [[a|e] w'] eqn:E; [|refute].
  destruct (penalties_once "t1" "loan1" "fosa1" day_10 loan_world a w' loan_world_installments E)
    as (_ & _ & _ & Hagain). exact Hagain.
Defined.

(** The borrower's FOSA savings are all held for another loan. *)
Definition held_world : World :=
  with_db (fun d => set_accounts (alter (fun a => set_frozen (ks 1000) (acc_version a) a) "fosa1" (accounts d)) d)
    loan_world.

Abbreviation accrue_call := (accrueInterestForLoan "loan1" loan1 (Some "fosa1") (2 * msPerDay)).

(** The day's interest of 20 is taken although every shilling is held. *)
Lemma accrual_charges_once_witness :
  match accrue_call held_world with
  | (Ok _, w') => balance_of "fosa1" w' = Some (ks 980) /\
      acc_frozenSavings <$> accounts (db w') !! "fosa1" = Some (ks 1000)
  | _ => False
  end.
Proof.
  destruct (accrue_call held_world) as [[u|e] w'] eqn:E; [|refute].
  destruct (accounts (db held_world) !! "fosa1") as [a|] eqn:Ha; [|vm_compute in Ha; discriminate Ha].
  destruct (accrual_charges_once "loan1" loan1 "fosa1" (2 * msPerDay) held_world u w' loan1 a E
    ltac:(reflexivity) ltac:(reflexivity) Ha loan_world_installments) as ([v Ev] & _).
  unfold balance_of. rewrite Ev, lookup_insert_eq. vm_compute in Ha. injection Ha as <-.
  split; vm_compute; reflexivity.
Defined.

(** An interest of 1 over three days accrues 0.9999. *)
Lemma daily_interest_spread_witness :
  3 * daily_interest (ks 1) 3 = 9999 /\ ~ (3 | ks 1).
Proof.
  destruct (daily_interest_spread (ks 1) 3) as [_ Hdiv]; [intros q; apply Qeq_refl|lia|].
  split; [vm_compute; reflexivity|]. intros Hd. apply Hdiv in Hd. vm_compute in Hd. discriminate Hd.
Defined.

Abbreviation charge_call := (accrue_installment "t1" "loan1" "fosa1" day_10 (installment "r1" 1 I_OVERDUE 10 20 200)).

Lemma penalty_reported_as_drift_witness :
  match charge_call loan_world with
  | (Ok _, w') => mkDrift "fosa1" (ks 1000 - 22000) (ks 1000)
      ∈ drifts (runLedgerIntegrityCheck "t1" (db w'))
  | _ => False
  end.
Proof.
  destruct (charge_call loan_world) as [[u|e] w'] eqn:E; [|refute].
  destruct (accounts (db loan_world) !! "fosa1") as [a|] eqn:Ha; [|vm_compute in Ha; discriminate Ha].
  pose proof (penalty_reported_as_drift "t1" "loan1" "fosa1" day_10 (installment "r1" 1 I_OVERDUE 10 20 200)
    loan_world u w' a E ltac:(left) ltac:(reflexivity) ltac:(reflexivity) ltac:(reflexivity)
    ltac:(reflexivity) Ha) as Hd.
  vm_compute in Ha. injection Ha as <-. exact (Hd eq_refl eq_refl eq_refl).
Defined.
