(* ===== verification/LoansTheorems.v ===== *)
(** * LoansTheorems: a loan is paid out once, fully scheduled and properly signed off *)
From S2P Require Import Prelude Money Json Format Calendar Schema Schedule Ledger LedgerFacts.
From S2P Require Import LedgerInv.
From S2P Require Import LedgerProps LedgerLegs Repayment AuditLogs LoanRules Guarantors.
From S2P Require Import ApprovalChains.
From S2P Require Import AccountFacts Redis Frames Recovery Loans GuarantorFacts LoansFacts.
From S2P Require Import Fixture.
From S2P Require Import LoanRepay LoanRepayFacts.

(** ** The schedule *)
Section Schedule.
Context `{DecimalLib}.

(** C20: The schedule of a loan of at least one month has one period per month
    and its principal parts sum to exactly the principal, whatever the stored
    instalment.  Under FLAT interest the interest parts sum to exactly the
    loan's total interest, and, while that is not negative and below the
    library's precision, every part but the last is the same and not negative,
    and the last differs from them by less than one ten-thousandth a month: it
    takes the rounding, and can be negative.  Under REDUCING_BALANCE, when the
    rate is not negative and the instalment covers a month's interest on the
    principal, no part is negative, no principal part exceeds the principal and
    no interest part the instalment. *)
Theorem amortization_complete principal annualRate tenureMonths interestType instalment :
  1 <= tenureMonths ->
  let ps := buildAmortizationSchedule principal annualRate tenureMonths interestType instalment in
  let total := flat_total_interest principal annualRate tenureMonths in
  Z.of_nat (length ps) = tenureMonths /\
  sum_by principalDue ps = principal /\
  (interestType = FLAT -> sum_by interestDue ps = total /\
     (0 <= total < 10 ^ 20 -> exists rest final per, ps = rest ++ [final] /\ 0 <= per /\
        Forall (fun p => interestDue p = per) rest /\ Z.abs (interestDue final - per) <= tenureMonths - 1)) /\
  (interestType = REDUCING_BALANCE -> 0 <= principal -> 0 <= annualRate ->
     monthly_interest (d_div (dec annualRate) 12) principal <= instalment ->
     Forall (fun p => 0 <= principalDue p <= principal /\ 0 <= interestDue p <= instalment) ps).
Proof.
  intros Ht ps total. destruct (schedule_sums principal annualRate tenureMonths interestType instalment Ht) as [Hlen Hsum].
  split; [exact Hlen|]. split; [exact Hsum|]. subst ps total. unfold buildAmortizationSchedule.
  split; intros ->.
  - set (total := flat_total_interest _ _ _). set (per := to_dp4 _).
    destruct (flat_periods_sums (Z.to_nat tenureMonths) principal total per instalment 0 0 ltac:(lia)) as (_ & _ & Hi).
    split; [lia|]. intros Hb. destruct (flat_share total tenureMonths Hb Ht) as [Hper Hdiff]. fold per in Hper, Hdiff.
    destruct (Z.to_nat tenureMonths) as [|k] eqn:Ek; [lia|].
    destruct (flat_periods_parts k principal total per instalment 0 0) as (rest & final & -> & Hr & Hf).
    exists rest, final, per. split_and!; [done|done|done|]. rewrite Hf. nia.
  - intros Hp Hr Hi. apply reducing_periods_nonneg; try done; try lia.
    apply rnd_nonneg. unfold Qle, dec. cbn. lia.
Qed.
End Schedule.

(** ** Paying out *)
Section Payout.
Context `{UuidSource, Sha256, Environment, DecimalLib}.

(** C10: Paying out an APPROVED loan under unused references: the gate has
    passed, a large loan's chain is approved, the member's KYC is approved and
    the fee does not exceed the principal; the FOSA account receives exactly
    the principal less the fee, the loan is ACTIVE and due after its grace
    period and tenure, the general ledger stays in step; and every later call
    on the resulting database returns the same transaction and balance and
    writes nothing. *)
Theorem disburse_pays_once id t who ip w r w' l :
  disburse id t who ip false w = (Ok r, w') -> tenant_loan t id (db w) = Some l -> loan_status l <> ACTIVE ->
  txn_by_reference t (disbursement_reference id) (db w) = None ->
  txn_by_reference t (fee_reference id) (db w) = None ->
  let tm := loan_terms l in
  loan_status l = APPROVED /\ is_ok (assertPassed t id w).1 = true /\ isChainApproved id t (db w) = true /\
  (exists m, members (db w) !! loan_memberId l = Some m /\ mem_kycStatus m = KYC_APPROVED) /\
  lt_processingFee tm <= loan_principalAmount l /\
  (exists acct a a', member_account t (loan_memberId l) FOSA (db w) = Some (acct, a) /\
     accounts (db w') = <[acct := a']> (accounts (db w)) /\
     acc_balance a' = acc_balance a + loan_principalAmount l - Z.max 0 (lt_processingFee tm)) /\
  (exists l' at_, loans (db w') = <[id := l']> (loans (db w)) /\ loan_status l' = ACTIVE /\
     loan_disbursedAt l' = Some at_ /\ loan_principalAmount l' = loan_principalAmount l /\
     loan_dueDate l' = Some (add_months at_ (lt_gracePeriodMonths tm + lt_tenureMonths tm))) /\
  (ledger_ok (db w) -> ledger_ok (db w')) /\
  (forall who' ip' w2, db w2 = db w' -> disburse id t who' ip' false w2 = (Ok r, w2)).
Proof.
  intros Hr Hl Hst N1 N2 tm. destruct (disburse_approved _ _ _ _ _ _ _ _ _ Hr Hl Hst)
    as (Hchain & (m & Hm & _ & Hk) & acct & a & w1 & Hacc & Hb & ->).
  destruct (disburseBody_Ok _ _ _ _ _ _ _ _ _ Hb Hl N1 N2) as
    (Happ & Hpass & Hfee & [Hrow Hafter] & Hled & (b & a' & Hb1 & Ea & Hbal & _) & (at_ & now & p & El & Edue & Els & _)).
  apply member_account_Some in Hacc as Hacc'. destruct Hacc' as (Ha & _). assert (b = a) as -> by congruence.
  split_and!; try done.
  - eauto.
  - by exists acct, a, a'.
  - eexists _, at_. split; [exact Els|]. by rewrite El.
  - intros who' ip' w2 E2. apply tenant_loan_Some in Hl as [Hl Ht]. unfold disburse, bind, gets, throw_if, ret.
    assert (tenant_loan t id (db w2) = Some (dis_loan r)) as ->.
    { unfold tenant_loan. rewrite E2, Els, lookup_insert_eq, El. cbn. by rewrite Ht, same_refl. }
    cbn [or_throw ret]. replace (loan_status (dis_loan r) === ACTIVE) with true by (by rewrite El).
    rewrite E2, Hrow. cbn. rewrite <- Hafter, <- Edue. by destruct r.
Qed.

(** A payout whose loan has no schedule yet writes exactly one unpaid
    installment per month of tenure, whose principal parts sum to the
    principal; the due dates strictly increase and the last one is the loan's
    own due date. *)
Theorem disbursed_schedule id t who ip w r w' l :
  disburse id t who ip false w = (Ok r, w') -> tenant_loan t id (db w) = Some l -> loan_status l <> ACTIVE ->
  txn_by_reference t (disbursement_reference id) (db w) = None ->
  txn_by_reference t (fee_reference id) (db w) = None ->
  Inj (=) (=) uuid -> (forall n, uuid n ∉ (lr_id <$> loanRepayments (db w))) ->
  (forall x, x ∈ loanRepayments (db w) -> lr_loanId x <> id) ->
  let tm := loan_terms l in
  lt_repaymentScheduleGenerated tm = false -> 1 <= lt_tenureMonths tm ->
  exists rs, loanRepayments (db w') = loanRepayments (db w) ++ rs /\
    Z.of_nat (length rs) = lt_tenureMonths tm /\ sum_by lr_principalDue rs = loan_principalAmount l /\
    Forall (fun x => lr_loanId x = id /\ lr_tenantId x = t /\ lr_status x = I_PENDING /\
      lr_principalPaid x = 0 /\ lr_interestPaid x = 0) rs /\
    StronglySorted Z.lt (lr_dueDate <$> rs) /\ last (lr_dueDate <$> rs) = dis_dueDate r.
Proof.
  intros Hr Hl Hst N1 N2 Hinj Hids Hnone tm Hgen Hten. subst tm.
  destruct (disburse_approved _ _ _ _ _ _ _ _ _ Hr Hl Hst) as (_ & _ & acct & a & w1 & _ & Hb & ->).
  destruct (disburseBody_Ok _ _ _ _ _ _ _ _ _ Hb Hl N1 N2) as
    (_ & _ & _ & _ & _ & _ & at_ & now & p & El & Edue & _ & _ & Hrs).
  destruct (Hrs Hinj Hgen Hids Hnone) as (rs & E & E1 & _ & E3 & HF).
  destruct (schedule_sums (loan_principalAmount l) (lt_interestRate (loan_terms l))
    (lt_tenureMonths (loan_terms l)) (lp_interestType p) (lt_monthlyInstalment (loan_terms l)) Hten) as (Hlen & Hsum).
  rewrite Hlen in E3. exists rs. split; [done|]. split; [|split; [|split; [done|]]].
  - apply (f_equal length) in E1. rewrite !length_fmap in E1. by rewrite E1.
  - rewrite <- Hsum, <- (sum_by_fmap principalDue (fun x => x)), <- E1. by rewrite sum_by_fmap.
  - rewrite E3, Edue, El. split; [apply due_dates_sorted|by apply due_dates_last].
Qed.
End Payout.

(** ** Decisions *)
Section Decisions.
Context `{UuidSource, Sha256, Environment, DecimalLib}.

(** An approved loan waited for approval and passed the disbursement gate;
    it records its approver, no money moved, and one of 500,000 shillings or
    more is reported as needing two signatures and has an approval chain. *)
Theorem approve_gated id t who c ip ua w r w' :
  approve id t who c ip ua w = (Ok r, w') ->
  exists l, tenant_loan t id (db w) = Some l /\ loan_status l ∈ approvableStatuses /\
    is_ok (assertPassed t id w).1 = true /\
    loans (db w') = <[id := r.1]> (loans (db w)) /\ same_ledger (db w) (db w') /\
    loan_status r.1 = APPROVED /\ lt_approvedBy (loan_terms r.1) = Some who /\
    (r.2 = true <-> 500000 * 10000 <= loan_principalAmount l) /\
    (r.2 = true -> chain_of t id (db w') <> []).
Proof.
  intros Hr. apply approve_Ok in Hr as Ha. destruct Ha as (l & (Hl & El & Hst) & Hs & Happ & Hwho & Hpass & Hd & Hc).
  exists l. split_and!; try done.
  - unfold approve in Hr. apply bind_Ok in Hr as (o & w0 & Hg & Hr). injection Hg as <- <-. rewrite Hl in Hr.
    cbn [or_throw] in Hr. run_inv. by reflect.
  - rewrite Hd. apply Z.leb_le.
Qed.

(** A rejected loan waited for a decision and records the reason; what is
    released from its accepted guarantors' holds is at most what they
    guaranteed, comes out of frozen savings alone, never below zero, and leaves
    balances, postings and the ledger as they were. *)
Theorem reject_releases_holds id reason t who ip ua w r w' :
  reject id reason t who ip ua w = (Ok r, w') ->
  exists l n, tenant_loan t id (db w) = Some l /\ loan_status l ∈ rejectableStatuses /\
    loan_status r = REJECTED /\ lt_notes (loan_terms r) = Some reason /\
    loans (db w') = <[id := r]> (loans (db w)) /\
    0 <= n <= sum_by (fun g => Z.max 0 (lg_guaranteedAmount g)) (accepted_held t id (db w)) /\
    map_sum acc_frozenSavings (accounts (db w')) = map_sum acc_frozenSavings (accounts (db w)) - n /\
    (forall k, acc_balance <$> accounts (db w') !! k = acc_balance <$> accounts (db w) !! k) /\
    transactions (db w') = transactions (db w) /\
    (committed (db w) -> committed (db w')) /\ (ledger_ok (db w) -> ledger_ok (db w')).
Proof.
  intros Hr. unfold reject in Hr. run_inv.
  match goal with Hf : transaction _ _ = _ |- _ => apply transaction_Ok, rejectBody_Ok in Hf
    as (l & n & Hl & Hst & Hrej & Hn & El & Hb & d1 & Hu & Hs) end.
  match goal with Hf : enqueueEmail _ _ _ _ = _ |- _ => apply (frames_Ok books) in Hf as Eb; [|apply _] end.
  apply books_ledger in Eb as [Es' El']. assert (same_ledger d1 (db w')) as Hs' by (by etrans). clear Hs Es'.
  match goal with Hx : tenant_loan _ _ _ = Some ?y |- _ => assert (y = l) as -> by congruence end.
  exists l, n. reflect. pose proof Hs' as (Ea & Et & _).
  split_and!; try done; [by rewrite El'|by apply un_nonneg in Hu| | | | |].
  - rewrite Ea. apply (un_frozen _ _ _ Hu).
  - intros k. rewrite Ea. pose proof (un_each _ _ _ Hu k) as Hk.
    destruct (accounts _ !! k) as [a|], (accounts d1 !! k) as [a'|]; cbn in *; try done.
    by destruct Hk as (? & ? & _ & ->).
  - rewrite Et. by destruct (un_rows _ _ _ Hu).
  - intros Hc. unfold committed. rewrite Ea. by eapply unfrozen_committed.
  - intros Hok. rewrite <- Hs'. by apply (un_ledger _ _ _ Hu).
Qed.

(** One successful call of the service about the loan [id]. *)
Inductive loan_call (id : string) : World -> World -> Prop :=
  | call_approve t who c ip ua w r w' : approve id t who c ip ua w = (Ok r, w') -> loan_call id w w'
  | call_disburse t who ip mpesa w r w' : disburse id t who ip mpesa w = (Ok r, w') ->
      txn_by_reference t (disbursement_reference id) (db w) = None ->
      txn_by_reference t (fee_reference id) (db w) = None -> loan_call id w w'
  | call_reject reason t who ip ua w r w' : reject id reason t who ip ua w = (Ok r, w') -> loan_call id w w'
  | call_respond m t accept w r w' : respondAsGuarantor id m t accept w = (Ok r, w') -> loan_call id w w'.

(** The status the database holds for the loan. *)
Definition status_of (id : string) (w : World) : option LoanStatus := loan_status <$> loans (db w) !! id.

Lemma decided_status id t l l' w w' :
  decided id t l l' (db w) (db w') ->
  status_of id w = Some (loan_status l) /\ status_of id w' = Some (loan_status l').
Proof.
  intros (Hl & El & _). apply tenant_loan_Some in Hl as [Hl _]. unfold status_of.
  by rewrite El, Hl, lookup_insert_eq.
Qed.

(** Every successful approval, payout and rejection by LoansService, and its own
    (unused) guarantor answer, leaves the loan's status alone or makes a move of
    the loan state machine, and touches no other loan. *)
Lemma service_calls_follow_machine id w w' :
  loan_call id w w' ->
  (forall k, k <> id -> loans (db w') !! k = loans (db w) !! k) /\
  (status_of id w' = status_of id w \/
   exists s s', status_of id w = Some s /\ status_of id w' = Some s' /\ loan_step s s').
Proof.
  assert (forall t l l' w w', decided id t l l' (db w) (db w') ->
    (forall k, k <> id -> loans (db w') !! k = loans (db w) !! k) /\
    (status_of id w' = status_of id w \/
     exists s s', status_of id w = Some s /\ status_of id w' = Some s' /\ loan_step s s')) as Hdec.
  { clear. intros t l l' w w' Hd. split.
    - intros k Hk. destruct Hd as (_ & -> & _). by rewrite lookup_insert_ne.
    - right. destruct (decided_status _ _ _ _ _ _ Hd) as [-> ->]. destruct Hd as (_ & _ & Hst). eauto. }
  assert (forall w w', loans (db w') = loans (db w) ->
    (forall k, k <> id -> loans (db w') !! k = loans (db w) !! k) /\ status_of id w' = status_of id w) as Hsame.
  { intros v v' E. unfold status_of. by rewrite E. }
  intros [t who c ip ua v r v' Hr|t who ip mpesa v r v' Hr N1 N2|reason t who ip ua v r v' Hr|m t accept v r v' Hr].
  - apply approve_Ok in Hr as (l & Hd & _). by eapply Hdec.
  - destruct mpesa; [by unfold disburse, bind in Hr|].
    destruct (tenant_loan t id (db v)) as [l|] eqn:Hl; [|unfold disburse in Hr; run_inv; congruence].
    destruct (decide (loan_status l = ACTIVE)) as [Ha|Hna].
    + apply disburse_replayed with (l := l) in Hr as ->; [|done..]. destruct (Hsame v v eq_refl). auto.
    + destruct (disburse_approved _ _ _ _ _ _ _ _ _ Hr Hl Hna) as (_ & _ & acct & a & w1 & _ & Hb & E).
      destruct (disburseBody_Ok _ _ _ _ _ _ _ _ _ Hb Hl N1 N2) as
        (Happ & _ & _ & _ & _ & _ & at_ & now & p & El & _ & Els & _).
      eapply (Hdec t l (dis_loan r)). split; [done|]. rewrite E. split; [exact Els|]. by rewrite Happ, El.
  - unfold reject in Hr. run_inv.
    match goal with Hf : transaction _ _ = _ |- _ => apply transaction_Ok, rejectBody_Ok in Hf
      as (l & n & Hl & Hst & _ & _ & El & _) end.
    match goal with Hf : enqueueEmail _ _ _ _ = _ |- _ => apply (frames_Ok books) in Hf as Eb; [|apply _] end.
    apply books_ledger in Eb as [_ El']. eapply (Hdec t l r). split; [done|]. by rewrite El'.
  - apply respondAsGuarantor_Ok in Hr as (w1 & Hc & _ & El & _).
    apply checkAndAdvance_Ok in Hc as (_ & _ & [El'|(l & l' & (Hl & El' & Hst) & _)]).
    + destruct (Hsame v v'); [congruence|]. auto.
    + eapply (Hdec t l l'). split; [by unfold tenant_loan in *; rewrite <- El|]. by rewrite <- El.
Qed.
End Decisions.

(** ** Witnesses *)

(** A loan of 1000 of member [m1] that waits for approval, guaranteed by [m2]
    with 700 of which 600 are still held, and by [m3] with 300. *)
Definition waiting_loan : Loan :=
  mkLoan "t1" "m1" "p1" "LN-2" PENDING_APPROVAL (ks 1000) (ks 1000) 0 0 0 0 PERFORMING None None None 0 0 terms.

Definition guarantor (id member : string) (status : GuarantorStatus) (amount : Z) : LoanGuarantor :=
  mkLoanGuarantor id "t1" "loan2" member status amount 0 None None 0.

Definition waiting_world : World :=
  with_db (fun d => set_loanGuarantors [guarantor "g1" "m2" G_ACCEPTED (ks 700); guarantor "g2" "m3" G_ACCEPTED (ks 300)]
    (set_accounts (<["fosa2" := account "m2" FOSA (ks 900) (ks 600)]> (accounts d))
      (set_loans {[ "loan2" := waiting_loan ]} d))) open_world.

Abbreviation approve_call := (approve "loan2" "t1" "teller" (Some "checked") None None).
Abbreviation disburse_call := (disburse "loan2" "t1" "teller" None false).
Abbreviation reject_call := (reject "loan2" "too risky" "t1" "teller" None None).

Definition approved_world : World := after approve_call waiting_world.

Example approve_runs : is_ok (approve_call waiting_world).1 = true.
Proof. vm_compute. reflexivity. Qed.
Example disburse_runs : is_ok (disburse_call approved_world).1 = true.
Proof. vm_compute. reflexivity. Qed.
Example reject_runs : is_ok (reject_call waiting_world).1 = true.
Proof. vm_compute. reflexivity. Qed.

#[local] Instance counter_inj : Inj (=) (=) (@uuid counter_uuid).
Proof. intros m n E. apply str_app_inv in E. by apply (inj pretty). Qed.

Lemma amortization_complete_witness :
  (let ps := buildAmortizationSchedule (ks 1000) 1200 3 REDUCING_BALANCE 3400221 in
   sum_by principalDue ps = ks 1000 /\ interestDue <$> ps = [ks 10; 66998; 33666] /\
   Forall (fun p => 0 <= principalDue p <= ks 1000 /\ 0 <= interestDue p <= 3400221) ps) /\
  (let ps := buildAmortizationSchedule (ks 6) 1 12 FLAT 5001 in
   sum_by interestDue ps = 6 /\ last (interestDue <$> ps) = Some (-5)).
Proof.
  split.
  - destruct (amortization_complete (ks 1000) 1200 3 REDUCING_BALANCE 3400221 ltac:(lia)) as (_ & Hs & _ & Hr).
    split; [exact Hs|]. split; [vm_compute; reflexivity|]. apply Hr; [reflexivity|unfold ks; lia|lia|].
    vm_compute. discriminate.
  - destruct (amortization_complete (ks 6) 1 12 FLAT 5001 ltac:(lia)) as (_ & _ & Hf & _).
    destruct (Hf eq_refl) as [Hi _]. split; [rewrite Hi; vm_compute; reflexivity|vm_compute; reflexivity].
Defined.

Lemma approve_gated_witness :
  match approve_call waiting_world with
  | (Ok r, w') => loan_status r.1 = APPROVED /\ (r.2 = true <-> 500000 * 10000 <= ks 1000)
  | _ => False
  end.
Proof.
  destruct (approve_call waiting_world) as [[r|e] w'] eqn:E; [|refute].
  destruct (approve_gated "loan2" "t1" "teller" (Some "checked") None None waiting_world r w' E)
    as (l & Hl & _ & _ & _ & _ & Ha & _ & Hd & _).
  vm_compute in Hl. injection Hl as <-. split; [exact Ha|exact Hd].
Defined.

(** 990 reach the account, and paying out again changes nothing. *)
Lemma disburse_pays_once_witness :
  match disburse_call approved_world with
  | (Ok r, w') => balance_of "fosa1" w' = Some (ks 990) /\ disburse_call w' = (Ok r, w')
  | _ => False
  end.
Proof.
  destruct (tenant_loan "t1" "loan2" (db approved_world)) as [l|] eqn:Hl; [|vm_compute in Hl; discriminate].
  destruct (disburse_call approved_world) as [[r|e] w'] eqn:E; [|refute].
  destruct (disburse_pays_once "loan2" "t1" "teller" None approved_world r w' l E Hl)
    as (_ & _ & _ & _ & _ & (acct & a & a' & Hm & Ea & Hb) & _ & _ & Hagain).
  - intros Hs. vm_compute in Hl. injection Hl as <-. discriminate Hs.
  - vm_compute. reflexivity.
  - vm_compute. reflexivity.
  - split; [|by apply Hagain]. vm_compute in Hl, Hm. injection Hl as <-. injection Hm as <- <-.
    unfold balance_of. rewrite Ea, lookup_insert_eq. cbn [fmap option_fmap option_map]. by rewrite Hb.
Defined.

Lemma disbursed_schedule_witness :
  match disburse_call approved_world with
  | (Ok r, w') => sum_by lr_principalDue (loanRepayments (db w')) = ks 1000 /\
      last (lr_dueDate <$> loanRepayments (db w')) = dis_dueDate r
  | _ => False
  end.
Proof.
  destruct (tenant_loan "t1" "loan2" (db approved_world)) as [l|] eqn:Hl; [|vm_compute in Hl; discriminate].
  destruct (disburse_call approved_world) as [[r|e] w'] eqn:E; [|refute].
  assert (loan_principalAmount l = ks 1000 /\ lt_repaymentScheduleGenerated (loan_terms l) = false /\
    lt_tenureMonths (loan_terms l) = 3 /\ loan_status l = APPROVED) as (Hp & Hg & Ht & Hs).
  { vm_compute in Hl. injection Hl as <-. by repeat split. }
  assert (loanRepayments (db approved_world) = []) as Hnil by (vm_compute; reflexivity).
  destruct (disbursed_schedule "loan2" "t1" "teller" None approved_world r w' l E Hl) as (rs & Er & _ & Hsum & _ & _ & Hlast).
  - by rewrite Hs.
  - vm_compute. reflexivity.
  - vm_compute. reflexivity.
  - apply _.
  - intros n. rewrite Hnil. apply not_elem_of_nil.
  - intros x Hx. rewrite Hnil in Hx. exfalso. exact (not_elem_of_nil x Hx).
  - exact Hg.
  - lia.
  - rewrite Hnil in Er. cbn in Er. rewrite Er, <- Hp. by split.
Defined.

(** All 600 that were still held are given back. *)
Lemma reject_releases_holds_witness :
  match reject_call waiting_world with
  | (Ok r, w') => loan_status r = REJECTED /\ balance_of "fosa2" w' = Some (ks 900) /\
      acc_frozenSavings <$> accounts (db w') !! "fosa2" = Some 0
  | _ => False
  end.
Proof.
  destruct (reject_call waiting_world) as [[r|e] w'] eqn:E; [|refute].
  destruct (reject_releases_holds "loan2" "too risky" "t1" "teller" None None waiting_world r w' E)
    as (l & n & _ & _ & Hr & _ & _ & _ & _ & Hb & _).
  split; [exact Hr|]. split; [unfold balance_of; rewrite (Hb "fosa2"); vm_compute; reflexivity|].
  vm_compute in E. injection E as _ <-. vm_compute. reflexivity.
Defined.

(** * what a repayment recorded by staff promises, and what it does not *)
Section Theorems.
Context `{UuidSource, Sha256, Environment}.

(** The reference a call uses. *)
Definition call_reference (loanId : string) (amount : Z) (t : string) (key : option string) (w : World) : string :=
  repay_reference t loanId amount (clock w) key.

Lemma email_books ty e n w u w' : enqueueEmail ty e n w = (Ok u, w') -> db w' = db w.
Proof. unfold enqueueEmail. intros Hr. case_match; by run_inv. Qed.

Lemma repay_Ok loanId amt t who ip key w r w' :
  repay loanId amt t who ip key w = (Ok r, w') ->
  exists l acct a w1, 0 < amt /\ tenant_loan t loanId (db w) = Some l /\ loan_status l = ACTIVE /\
    member_account t (loan_memberId l) FOSA (db w) = Some (acct, a) /\
    repayBody loanId acct t who (call_reference loanId amt t key w) l amt ip w = (Ok r, w1) /\ db w' = db w1.
Proof.
  unfold repay. intros Hr. run_inv. reflect.
  match goal with Hx : match ?o with _ => _ end = Some _ |- _ => destruct o as [l|] eqn:Hl; [|done] end.
  case_bool_decide; [|done]. match goal with Hx : Some l = Some _ |- _ => injection Hx as <- end.
  match goal with Hx : member_account _ _ _ _ = Some ?p |- _ => destruct p as [acct a] end.
  match goal with Hx : transaction _ _ = _ |- _ => apply transaction_Ok in Hx end.
  match goal with Hx : enqueueEmail _ _ _ _ = _ |- _ => apply email_books in Hx end.
  exists l, acct, a. eexists. by split_and!.
Qed.

(** The parts of the world a repayment of a fresh reference determines. *)
Lemma repay_fresh loanId amt t who ip key w r w' :
  repay loanId amt t who ip key w = (Ok r, w') ->
  txn_by_reference t (call_reference loanId amt t key w) (db w) = None ->
  exists l acct a n, 0 < amt /\ tenant_loan t loanId (db w) = Some l /\ loan_status l = ACTIVE /\
    member_account t (loan_memberId l) FOSA (db w) = Some (acct, a) /\ n = Z.min amt (total_owed l) /\
    rp_allocation r = split_repayment n l /\
    repaid t loanId acct (call_reference loanId amt t key w) who l n (rp_transaction r) (db w) (db w').
Proof.
  intros Hr Hnew. apply repay_Ok in Hr as (l & acct & a & w1 & Hpos & Hl & Hst & Hacc & Hb & ->).
  apply repayBody_Ok in Hb as (l' & Hl' & _ & _ & Hs & _ & Hrep); [|done].
  assert (l' = l) as -> by congruence. exists l, acct, a, (Z.min amt (total_owed l)). by split_and!.
Qed.

(** C19: A repayment under a new reference takes the smaller of the amount and
    the debt from the member's FOSA account, in one row, and off the loan:
    first penalties, then interest, then principal; the loan is FULLY_PAID
    exactly when no principal is left, other accounts keep their balances, no
    other loan changes, and the general ledger stays in step. *)
Theorem repay_conserves loanId amt t who ip key w r w' :
  repay loanId amt t who ip key w = (Ok r, w') ->
  let ref := call_reference loanId amt t key w in
  txn_by_reference t ref (db w) = None -> legs_unused t ref (db w) ->
  (forall l, tenant_loan t loanId (db w) = Some l -> owes_nothing_negative l) ->
  exists l l' acct a n, tenant_loan t loanId (db w) = Some l /\
    member_account t (loan_memberId l) FOSA (db w) = Some (acct, a) /\ n = Z.min amt (total_owed l) /\
    n <= acc_balance a /\
    (forall k, acc_balance <$> accounts (db w') !! k =
       if k === acct then Some (acc_balance a - n) else acc_balance <$> accounts (db w) !! k) /\
    (exists x, transactions (db w') = transactions (db w) ++ [x] /\ txn_amount x = n /\ txn_reference x = ref) /\
    loans (db w') = <[loanId := l']> (loans (db w)) /\
    total_owed l' = total_owed l - n /\ loan_totalRepaid l' = loan_totalRepaid l + n /\
    (loan_arrearsAmount l' = 0 \/ loan_accruedInterest l' = loan_accruedInterest l) /\
    (loan_accruedInterest l' = 0 \/ loan_outstandingBalance l' = loan_outstandingBalance l) /\
    (loan_status l' = FULLY_PAID <-> loan_outstandingBalance l' = 0) /\
    (ledger_ok (db w) -> ledger_ok (db w')).
Proof.
  intros Hr ref Hnew Hlegs Howes. apply repay_fresh in Hr as (l & acct & a & n & Hpos & Hl & Hst & Hacc & Hn & _ & Hrep);
    [|done]. fold ref in Hrep. specialize (Howes l Hl).
  destruct Hrep as (a0 & d1 & now & Ha0 & _ & Hbal & _ & Href & _ & Hamt & _ & Ea & Et & El & _ & Hled & Hre & _).
  apply member_account_Some in Hacc as Ha. destruct Ha as (Ha & _ & _ & HT & _). assert (a0 = a) as -> by congruence.
  assert (0 <= n <= total_owed l) as Hrange by (unfold total_owed, owes_nothing_negative in *; lia).
  destruct (split_bounds n l Hrange Howes) as (B1 & B2 & B3). pose proof (split_sums n l) as Hsum.
  set (s := split_repayment n l) in *. eexists l, _, acct, a, n. split_and!; try done.
  - intros k. rewrite (refrozen_balances _ _ Hre), Ea. case_bool_decide as Hk.
    + subst k. by rewrite lookup_insert_eq.
    + by rewrite lookup_insert_ne.
  - exists (rp_transaction r). destruct (rf_rows _ _ Hre) as [-> _]. done.
  - destruct (rf_loans _ _ Hre) as [-> _]. exact El.
  - unfold total_owed in *. cbn. repeat case_match; reflect; lia.
  - cbn. repeat case_match; reflect; unfold s, split_repayment in *; cbn in *; lia.
  - cbn. repeat case_match; reflect; unfold s, split_repayment in *; cbn in *; lia.
  - cbn. repeat case_match; reflect; unfold s, split_repayment in *; cbn in *; lia.
  - cbn. repeat case_match; reflect; split; intros; try done; lia.
  - intros Hok. apply (rf_ledger _ _ Hre). by apply Hled.
Qed.

(** A repayment that does not settle the loan checks the balance alone: it
    goes through, leaves the account's holds and locks as they are, and so
    leaves committed funds uncovered whenever what remains is less. *)
Theorem repay_ignores_holds loanId amt t who ip key w r w' l acct a :
  repay loanId amt t who ip key w = (Ok r, w') ->
  txn_by_reference t (call_reference loanId amt t key w) (db w) = None ->
  tenant_loan t loanId (db w) = Some l -> owes_nothing_negative l -> amt < total_owed l ->
  0 < loan_outstandingBalance l - toPrincipal (split_repayment amt l) ->
  member_account t (loan_memberId l) FOSA (db w) = Some (acct, a) ->
  exists a', accounts (db w') !! acct = Some a' /\ acc_balance a' = acc_balance a - amt /\
    acc_frozenSavings a' = acc_frozenSavings a /\ acc_lockedBalance a' = acc_lockedBalance a /\
    (acc_balance a - amt < acc_lockedBalance a + acc_frozenSavings a -> ~ committed (db w')).
Proof.
  intros Hr Hnew Hl Howes Hless Hout Hacc. apply repay_fresh in Hr as (l0 & acct0 & b & n & _ & Hl0 & _ & Hacc0 & Hn & _ & Hrep);
    [|done]. assert (l0 = l) as -> by congruence. assert (acct0 = acct /\ b = a) as [-> ->] by (split; congruence).
  destruct Hrep as (a0 & d1 & now & Ha0 & _ & _ & _ & _ & _ & _ & _ & Ea & _ & _ & _ & _ & _ & Hsame).
  apply member_account_Some in Hacc as (Ha & _). assert (a0 = a) as -> by congruence.
  rewrite Z.min_l in Hn by lia. subst n. specialize (Hsame Hout).
  eexists. split; [rewrite Hsame, Ea; apply lookup_insert_eq|]. split_and!; try done.
  intros Hlow Hc. assert (accounts (db w') !! acct = Some (set_balance (acc_balance a - amt) (acc_version a) a)) as Hx
    by (rewrite Hsame, Ea; apply lookup_insert_eq).
  destruct (Hc acct _ Hx) as [_ Hc2]. cbn in Hc2. lia.
Qed.

(** Two calls that share a reference, by an idempotency key or by falling
    in the same minute without one, post once: the second returns the first
    one's transaction and writes nothing; but when the first settled the loan,
    the second is refused as if the loan did not exist. *)
Theorem repay_retry loanId amt t who ip key w r w' :
  repay loanId amt t who ip key w = (Ok r, w') ->
  txn_by_reference t (call_reference loanId amt t key w) (db w) = None ->
  forall w2, db w2 = db w' -> call_reference loanId amt t key w2 = call_reference loanId amt t key w ->
  (forall l, loans (db w') !! loanId = Some l -> loan_status l = ACTIVE -> forall r2 w3,
     repay loanId amt t who ip key w2 = (Ok r2, w3) -> rp_transaction r2 = rp_transaction r /\ db w3 = db w2) /\
  (forall l, loans (db w') !! loanId = Some l -> loan_status l = FULLY_PAID ->
     repay loanId amt t who ip key w2 = (Err (NotFound "Active loan not found"), w2)).
Proof.
  intros Hr Hnew w2 E2 Eref. pose proof Hr as Hr0.
  apply repay_fresh in Hr as (l0 & acct & a & n & Hpos & Hl0 & _ & _ & _ & _ & Hrep); [|done].
  destruct Hrep as (a0 & d1 & now & _ & _ & _ & Htt & Href & _ & _ & _ & _ & Et & _ & _ & _ & Hre & _).
  assert (transactions (db w') = transactions (db w) ++ [rp_transaction r]) as Et' by (by destruct (rf_rows _ _ Hre) as [-> _]).
  split; intros l Hl Hst.
  - intros r2 w3 Hr2. apply repay_Ok in Hr2 as (l2 & acct2 & a2 & w4 & _ & _ & _ & _ & Hb & ->).
    rewrite Eref in Hb. unfold repayBody in Hb. apply bind_Ok in Hb as (o & w5 & Hg & Hb). injection Hg as <- <-.
    assert (txn_by_reference t (call_reference loanId amt t key w) (db w2) = Some (rp_transaction r)) as Hx.
    { unfold txn_by_reference. rewrite E2, Et', find_app_none by done. cbn. by rewrite Htt, Href, !same_refl. }
    rewrite Hx in Hb. run_inv. done.
  - unfold repay, throw_if. rewrite (proj2 (Z.leb_gt _ _)) by done. unfold bind, gets. cbn [ret].
    assert (tenant_loan t loanId (db w2) = Some l \/ tenant_loan t loanId (db w2) = None) as [->| ->].
    { unfold tenant_loan. rewrite E2, Hl. case_bool_decide; auto. }
    + cbn. by rewrite Hst.
    + done.
Qed.
End Theorems.

(** ** Witnesses *)
Abbreviation pay_call n := (repay "loan1" (ks n) "t1" "teller" None None).

Lemma loan1_owes l : tenant_loan "t1" "loan1" (db loan_world) = Some l -> owes_nothing_negative l /\ total_owed l = ks 650.
Proof. intros Hl. vm_compute in Hl. injection Hl as <-. by_decision. Qed.

Lemma repay_conserves_witness :
  match pay_call 700 loan_world with
  | (Ok r, w') => acc_balance <$> accounts (db w') !! "fosa1" = Some (ks 350) /\
      (exists l', loans (db w') !! "loan1" = Some l' /\ loan_status l' = FULLY_PAID)
  | _ => False
  end.
Proof.
  destruct (pay_call 700 loan_world) as [[r|e] w'] eqn:E; [|refute].
  destruct (repay_conserves "loan1" (ks 700) "t1" "teller" None None loan_world r w' E)
    as (l & l' & acct & a & n & Hl & Hacc & Hn & _ & Hb & _ & El & Hd & _ & _ & _ & Hst & _).
  - vm_compute. reflexivity.
  - repeat constructor; vm_compute; reflexivity.
  - intros l Hl. by apply loan1_owes.
  - destruct (loan1_owes l Hl) as [_ Ho]. rewrite Ho in *. vm_compute in Hl. injection Hl as <-.
    vm_compute in Hacc. injection Hacc as <- <-. assert (n = ks 650) as -> by (rewrite Hn; vm_compute; reflexivity).
    split; [rewrite (Hb "fosa1"); vm_compute; reflexivity|]. exists l'. split; [by rewrite El, lookup_insert_eq|].
    apply Hst. assert (loan_outstandingBalance <$> loans (db w') !! "loan1" = Some 0) as Hout
      by (vm_compute in E; injection E as _ <-; vm_compute; reflexivity).
    rewrite El, lookup_insert_eq in Hout. cbn in Hout. by injection Hout.
Defined.

(** The account holds 1000, of which 900 guarantee another loan. *)
Definition holding_world : World :=
  with_db (fun d => set_accounts (<["fosa1" := account "m1" FOSA (ks 1000) (ks 900)]> (accounts d)) d) loan_world.

Lemma repay_ignores_holds_witness :
  match pay_call 400 holding_world with
  | (Ok _, w') => ~ committed (db w')
  | _ => False
  end.
Proof.
  destruct (tenant_loan "t1" "loan1" (db holding_world)) as [l|] eqn:Hl; [|exfalso; vm_compute in Hl; discriminate Hl].
  destruct (member_account "t1" (loan_memberId l) FOSA (db holding_world)) as [[acct a]|] eqn:Ha;
    [|exfalso; vm_compute in Hl; injection Hl as <-; vm_compute in Ha; discriminate Ha].
  destruct (pay_call 400 holding_world) as [[r|e] w'] eqn:E; [|refute].
  destruct (repay_ignores_holds "loan1" (ks 400) "t1" "teller" None None holding_world r w' l acct a E)
    as (a' & _ & _ & _ & _ & Hnot).
  - vm_compute. reflexivity.
  - exact Hl.
  - vm_compute in Hl. injection Hl as <-. by_decision.
  - vm_compute in Hl. injection Hl as <-. by_decision.
  - vm_compute in Hl. injection Hl as <-. by_decision.
  - exact Ha.
  - apply Hnot. vm_compute in Hl. injection Hl as <-. vm_compute in Ha. injection Ha as <- <-. by_decision.
Defined.

(** Two cash payments of 100 in one minute: the second is taken for a retry. *)
Lemma repay_retry_witness :
  match pay_call 100 loan_world with
  | (Ok r, w') => match pay_call 100 w' with
      | (Ok r2, w3) => rp_transaction r2 = rp_transaction r /\ db w3 = db w'
      | _ => False end
  | _ => False
  end.
Proof.
  destruct (pay_call 100 loan_world) as [[r|e] w'] eqn:E; [|refute].
  destruct (pay_call 100 w') as [[r2|e] w3] eqn:E2.
  - destruct (loans (db w') !! "loan1") as [l|] eqn:Hl;
      [|exfalso; vm_compute in E; injection E as _ <-; vm_compute in Hl; discriminate Hl].
    refine (proj1 (repay_retry "loan1" (ks 100) "t1" "teller" None None loan_world r w' E _ w' eq_refl _) l Hl _ r2 w3 E2).
    + vm_compute. reflexivity.
    + vm_compute in E. injection E as _ <-. vm_compute. reflexivity.
    + vm_compute in E. injection E as _ <-. vm_compute in Hl. by injection Hl as <-.
  - vm_compute in E. injection E as <- <-. vm_compute in E2. discriminate E2.
Defined.
