(* ===== verification/ConsentTheorems.v ===== *)
(** * ConsentTheorems: loans are covered by real savings, and what breaks that

    An application is gated, sent once and opens one loan; a decision settles
    the loan by the answers given; the calls follow the loan state machine but
    for a rejecting sign-off; savings stay frozen for exactly what is
    guaranteed; and the ways around it. *)
From S2P Require Import Prelude Money Json Format Schema Ledger LedgerFacts LedgerInv.
From S2P Require Import LedgerLegs Repayment.
From S2P Require Import AuditLogs Frames Redis Recovery Loans Accounts AccountFacts LoanRules.
From S2P Require Import Guarantors.
From S2P Require Import GuarantorFacts GuarantorTheorems ApprovalChains Lending LoanApply.
From S2P Require Import GuarantorConsent ConsentFacts Fixture.
From S2P Require Import LedgerProps LoansFacts.
From S2P Require LoansTheorems.

(** ** The system of lending calls

    A call of an endpoint or a queue, a posting of the ledger, or time going
    by. *)
Inductive LendingCall :=
  | CallApply (dto : MemberApplyLoanDto) (tenantId memberId userId : string) (req : Request) (key : string)
  | CallRequestGuarantors (loanId tenantId memberId : string) (dto : MemberRequestGuarantorsDto)
  | CallRespond (loanId memberId : string) (dto : GuarantorWorkflowDto) (tenantId userId key : string)
  | CallOverride (loanId guarantorId : string) (dto : GuarantorWorkflowDto) (tenantId userId : string)
  | CallExpiry (job : ExpiryJob)
  | CallHourlySweep
  | CallUpdateStatus (loanId : string) (target : LoanStatus) (reason : option string) (tenantId actorId : string)
      (role : UserRole) (req : Request)
  | CallReview (loanId : string) (action : ReviewLoanAction) (reason comment : option string)
      (tenantId actorId : string) (ip key : option string)
  | CallPosting (p : PostEntryParams)
  | CallTransfer (tenantId fromId toId : string) (amount : Q) (reference actorId : string) (descr : option string)
  | Wait (ms : Z).

Definition wait (ms : Z) (s : LendingWorld) : LendingWorld :=
  let w := lw_base s in
  set_lw_base (mkWorld (db w) (nextUuid w) (clock w + ms) (systemUserIdCache w) (locks w) (jobs w) (auditTrail w)
    (outbox w)) s.

Section System.
Context `{UuidSource, Sha256, Environment, DecimalLib, Numbers}.

(** The state after a call, whatever it answered. *)
Definition lending_run (c : LendingCall) (s : LendingWorld) : LendingWorld :=
  match c with
  | CallApply dto t m u req k => (memberApply dto t m u req k s).2
  | CallRequestGuarantors l t m dto => (requestGuarantors l t m dto s).2
  | CallRespond l m dto t u k => (respondAsMember l m dto t u k s).2
  | CallOverride l g dto t u => (adminOverride l g dto t u s).2
  | CallExpiry job => (expiry_process job s).2
  | CallHourlySweep => (runHourlyExpirySweep s).2
  | CallUpdateStatus l st why t u role req => (updateStatus l st why t u role req s).2
  | CallReview l a why c t u ip k => (review_process l a why c t u ip k s).2
  | CallPosting p => (on_base (postEntry p) s).2
  | CallTransfer t a b n ref u d => (on_base (postInternalTransfer t a b n ref u d) s).2
  | Wait ms => wait ms s
  end.

#[local] Typeclasses Opaque memberApply requestGuarantors respondAsMember adminOverride expiry_process
  runHourlyExpirySweep updateStatus review_process postEntry postInternalTransfer.

Lemma preserves_after {A} (P : LendingWorld -> Prop) (m : LM A) s : Preserves P m -> P s -> P (m s).2.
Proof. intros Hm HP. destruct (m s) as [r s'] eqn:E. exact (Hm _ _ _ E HP). Qed.

Lemma lending_run_ok c s : ok s -> ok (lending_run c s).
Proof. intros HP. destruct c; cbn [lending_run]; try (apply preserves_after; [apply _|exact HP]). done. Qed.

Lemma lending_runs_ok calls : forall s, ok s -> ok (foldl (fun s c => lending_run c s) s calls).
Proof. induction calls as [|c calls IH]; intros s HP; [done|]. by apply IH, lending_run_ok. Qed.

(** C12: Whatever applications, invitations, answers, overrides, expiry jobs and
    sweeps, status updates, reviews, postings and transfers run, failing ones
    included, and however they follow one another in time: what is frozen on an
    active account is exactly what its member guarantees by accepted rows whose
    hold is not released. *)
Theorem holds_match_guarantees calls s id a :
  ok s ->
  let s' := foldl (fun s c => lending_run c s) s calls in
  accounts (ldb s') !! id = Some a -> acc_isActive a = true -> acc_frozenSavings a = guaranteed (ldb s') a.
Proof.
  intros HP. cbn. apply (ck_exact _ _ (lending_runs_ok calls s HP)).
Qed.
End System.

Lemma on_base_Ok {A} (m : M A) s a s' : on_base m s = (Ok a, s') ->
  exists w, m (lw_base s) = (Ok a, w) /\ s' = set_lw_base w s.
Proof. unfold on_base. destruct (m (lw_base s)) as [r w]. intros [= -> <-]. by exists w. Qed.

(** ** Decisions *)
Section Decisions.
Context `{UuidSource, Sha256, Environment, DecimalLib, Numbers}.

Lemma lending_commit_Ok {A} (m : LM A) s a s' : lending_transaction m s = (Ok a, s') -> m s = (Ok a, s').
Proof. unfold lending_transaction. destruct (m s) as [[?|?] ?]; congruence. Qed.

Lemma applyDecision_Ok id t who m dto src s r s' : applyDecision id t who m dto src s = (Ok r, s') ->
  decisionBody id t who m (gw_action dto) (gw_notes dto) (gw_digitalAcknowledgment dto) src s = (Ok r, s').
Proof. unfold applyDecision. intros Hr. run_inv. by apply lending_commit_Ok. Qed.

(** The decision, its loan and product as the caller knows them. *)
Lemma decision_Ok id t who m dto src s r s' loan product :
  ok s -> tenant_loan t id (ldb s) = Some loan -> loan_product loan (ldb s) = Some product ->
  applyDecision id t who m dto src s = (Ok r, s') ->
  ok s' /\ exists g s1 s2, lockGuarantor t id m (ldb s) = Some g /\ lg_status g = G_PENDING /\
    decide_row t g (resolveAccountType (lp_requiredAccountType product)) (dr_status r)
      (decided_columns (dr_status r) (lnow s) (gw_notes dto) who src) s = (Ok tt, s1) /\
    ok s2 /\ core s2 = core s1 /\ loans (ldb s1) = loans (ldb s) /\
    loan_outcome t id loan product (dr_status r) s2 s' (dr_loanStatus r).
Proof.
  intros HP Hl Hp Hr. apply applyDecision_Ok, decisionBody_Ok in Hr; [|done].
  destruct Hr as (HP' & g & loan' & product' & s1 & Hg & Hst & Hl' & Hp' & _ & _ & Hd & s2 & HP2 & Ec & Ho).
  rewrite Hl in Hl'. injection Hl' as <-. rewrite Hp in Hp'. injection Hp' as <-. split; [done|].
  exists g, s1, s2. split_and!; try done. by apply decide_row_loans in Hd as [-> _].
Qed.

Lemma count_where_zero {A} (P : A -> bool) l : count_where P l = 0%nat -> Forall (fun x => P x = false) l.
Proof.
  unfold count_where. induction l as [|x l IH]; [constructor|]. cbn. destruct (P x) eqn:E; [done|].
  intros Hn. constructor; auto.
Qed.

Lemma tally_eq t id loan product d d' : loanGuarantors d' = loanGuarantors d ->
  tally t id loan product d' = tally t id loan product d.
Proof. unfold tally, loan_guarantors. by intros ->. Qed.

(** C13: When a guarantor's answer takes a loan waiting for guarantors to
    PENDING_APPROVAL, no request of the loan is open any more, at least the
    product's number of guarantors has accepted, what they guarantee together
    is at least the required part of the principal, and only the row of the
    loan changed among the loans.  ([updateStatus] makes the same move by hand
    without this check; [approve] asks a gate of its own.) *)
Theorem approval_fully_guaranteed id t who m dto src s r s' loan product :
  ok s -> tenant_loan t id (ldb s) = Some loan -> loan_product loan (ldb s) = Some product ->
  loan_status loan = PENDING_GUARANTORS ->
  applyDecision id t who m dto src s = (Ok r, s') -> dr_loanStatus r = PENDING_APPROVAL ->
  let rows := loan_guarantors t id (ldb s') in
  Forall (fun g => lg_status g <> G_PENDING) rows /\
  lp_minGuarantors product <= Z.of_nat (length (List.filter accepted rows)) /\
  (d_times (dec (loan_principalAmount loan)) (dec (lp_guarantorCoverageRatio product))
   <= dec (sum_by lg_guaranteedAmount (List.filter accepted rows)))%Q /\
  exists l', loans (ldb s') = <[id := l']> (loans (ldb s)) /\ loan_status l' = PENDING_APPROVAL.
Proof.
  intros HP Hl Hp Hst Hr Hls. eapply decision_Ok in Hr as (_ & g & s1 & s2 & _ & _ & _ & _ & Ec & El & Ho); [|done..].
  rewrite Hls in Ho. apply core_tables in Ec as (F1 & _). inversion Ho as [Hne| l' Hc _ [Eg _] E' Hl' | |]; [congruence|].
  cbn. unfold criteriaMet in Hc. rewrite !andb_true_iff in Hc. destruct Hc as [[Hpend Hmin] Hcov].
  apply Nat.eqb_eq in Hpend. apply Z.leb_le in Hmin. apply Qle_bool_iff in Hcov.
  rewrite <- (tally_eq _ _ _ _ _ (ldb s') Eg) in Hpend, Hmin, Hcov. split_and!; [|exact Hmin|exact Hcov|].
  - cbn in Hpend. apply count_where_zero in Hpend. eapply Forall_impl; [exact Hpend|]. intros x Hx.
    by apply bool_decide_eq_false in Hx.
  - exists l'. split; [|done]. rewrite E'. congruence.
Qed.

(** ** The calls that move a loan

    What the endpoints run on a loan: approval, payout and rejection by
    LoansService; a guarantor's answer by GuarantorResponseService, whoever
    gives it (the guarantor, an administrator, the expiry of the request); a
    manual update of the status; and a sign-off in the approval chain, which is
    marked by [true]. *)
Inductive live_call (id : string) : bool -> LendingWorld -> LendingWorld -> Prop :=
  | live_service s w' : LoansTheorems.loan_call id (lw_base s) w' -> live_call id false s (set_lw_base w' s)
  | live_answer t who m dto src s r s' :
      applyDecision id t who m dto src s = (Ok r, s') -> live_call id false s s'
  | live_update target reason t who role req s r s' :
      updateStatus id target reason t who role req s = (Ok r, s') -> live_call id false s s'
  | live_sign t who role approve notes ip s r s' :
      on_base (signOff id t who role approve notes ip) s = (Ok r, s') -> live_call id true s s'.

Definition lstatus (id : string) (s : LendingWorld) : option LoanStatus := loan_status <$> loans (ldb s) !! id.

(** One loan's row is replaced, or none is. *)
Definition moves (id : string) (step : LoanStatus -> LoanStatus -> Prop) (d d' : gmap string Loan) : Prop :=
  (forall k, k <> id -> d' !! k = d !! k) /\
  (loan_status <$> d' !! id = loan_status <$> d !! id \/
   exists x y, loan_status <$> d !! id = Some x /\ loan_status <$> d' !! id = Some y /\ step x y).

Lemma moves_same id step d : moves id step d d.
Proof. split; [done|by left]. Qed.
Lemma moves_row id (step : LoanStatus -> LoanStatus -> Prop) d l l' :
  d !! id = Some l -> step (loan_status l) (loan_status l') -> moves id step d (<[id := l']> d).
Proof.
  intros Hl Hs. split; [intros k Hk; by rewrite lookup_insert_ne|]. right. exists (loan_status l), (loan_status l').
  by rewrite Hl, lookup_insert_eq.
Qed.

Lemma service_moves id w w' : LoansTheorems.loan_call id w w' -> moves id loan_step (loans (db w)) (loans (db w')).
Proof. intros Hc. exact (LoansTheorems.service_calls_follow_machine id w w' Hc). Qed.

Lemma answer_moves id t who m dto src s r s' :
  ok s -> applyDecision id t who m dto src s = (Ok r, s') -> moves id loan_step (loans (ldb s)) (loans (ldb s')).
Proof.
  intros HP Hr. apply applyDecision_Ok, decisionBody_Ok in Hr; [|done].
  destruct Hr as (_ & g & loan & product & s1 & _ & _ & Hl & _ & _ & _ & Hd & s2 & _ & Ec & Ho).
  apply decide_row_loans in Hd as [El _]. apply tenant_loan_Some in Hl as [Hl _].
  apply core_tables in Ec as (El2 & _). rewrite <- El, <- El2 in Hl |- *. clear El El2.
  inversion Ho as [_ Ec| l' _ Hst _ E' Hl'|l' _ _ Hst E' Hl' _|_ _ _ Ec]; subst;
    try (rewrite E'; eapply moves_row; [exact Hl|by rewrite Hst, Hl'; vm_compute]);
    apply core_tables in Ec as (-> & _); apply moves_same.
Qed.

Lemma update_moves id target reason t who role req s r s' :
  updateStatus id target reason t who role req s = (Ok r, s') -> moves id loan_step (loans (ldb s)) (loans (ldb s')).
Proof.
  intros Hr. unfold updateStatus in Hr. apply bind_Ok in Hr as (u & s1 & Hg & Hr). apply throw_if_Ok in Hg as [_ ->].
  run_inv. match goal with Hf : tenant_loan _ _ _ = Some ?l |- _ => rename l into loan, Hf into Hl end.
  match goal with Hf : (if target === APPROVED then _ else _) _ = _ |- _ => rename Hf into Hmove end.
  destruct (target === APPROVED); [|destruct (target === REJECTED)].
  - run_inv. match goal with Hb : on_base _ _ = _ |- _ => apply on_base_Ok in Hb as (w & Hb & ->) end.
    apply (service_moves id _ w). by eapply LoansTheorems.call_approve.
  - destruct (truthy reason) as [why|]; [|done]. apply on_base_Ok in Hmove as (w & Hb & ->).
    apply (service_moves id _ w). by eapply LoansTheorems.call_reject.
  - run_inv. match goal with Hb : on_base (loan_update _ _) _ = _ |- _ => apply on_base_Ok in Hb as (w & Hupd & ->) end.
    apply loan_update_Ok in Hupd as (l & Hl' & _ & ->). apply tenant_loan_Some in Hl as [Hl _].
    unfold ldb in Hl. assert (l = loan) as -> by congruence.
    match goal with Hx : on_base (modify _) _ = _ |- _ => injection Hx as _ <- end.
    eapply moves_row; [exact Hl'|]. match goal with Hx : negb (canTransition _ _) = false |- _ => by apply negb_false_iff in Hx end.
Qed.

(** A sign-off that refuses the loan takes it from APPROVED to REJECTED. *)
Definition chain_refusal (x y : LoanStatus) : Prop := x = APPROVED /\ y = REJECTED.

Lemma sign_moves id t who role approve notes ip w r w' :
  signOff id t who role approve notes ip w = (Ok r, w') -> moves id chain_refusal (loans (db w)) (loans (db w')).
Proof.
  assert (forall dto (v v' : World) u, logAtomic dto v = (Ok u, v') -> loans (db v') = loans (db v)) as Hlog.
  { intros dto v v' u Hf. apply (frames_Ok books) in Hf as Eb; [|apply _]. by apply books_ledger in Eb as [_ El]. }
  unfold signOff. intros Hr%transaction_Ok. unfold signOffBody in Hr. run_inv.
  match goal with Hf : logAtomic _ _ = (Ok _, ?v) |- _ => apply Hlog in Hf as El; rename v into w1; cbn in El end.
  rewrite <- El. match goal with Hx : (if ?b then _ else _) w1 = _ |- _ => rename Hx into Hmove; destruct b end;
    [|injection Hmove as _ <-; apply moves_same].
  apply bind_Ok in Hmove as (loan & w2 & Hg & Hmove). injection Hg as <- <-.
  apply bind_Ok in Hmove as (n & w2 & Hu & Hmove).
  assert (loans (db w') = loans (db w2)) as -> by (destruct (0 <? n)%nat; [by eapply Hlog|by injection Hmove as _ <-]).
  apply loan_updateMany_Ok in Hu as [(_ & ->)|(l & _ & Hl & Hc & _ & ->)]; [apply moves_same|].
  apply andb_prop in Hc as [_ Hc%bool_decide_eq_true]. eapply moves_row; [exact Hl|]. by split.
Qed.

(** C18: Every successful approval, payout, rejection, guarantor's answer (by
    the guarantor, an administrator or expiry) and manual update of the status
    leaves the loan's status alone or makes a move of the loan state machine,
    and touches no other loan.  A sign-off in the approval chain is the
    exception: it leaves the status alone or takes an APPROVED loan to REJECTED,
    which the machine does not allow. *)
Theorem loan_calls_follow_machine id signs s s' :
  ok s -> live_call id signs s s' ->
  (forall k, k <> id -> loans (ldb s') !! k = loans (ldb s) !! k) /\
  (lstatus id s' = lstatus id s \/
   exists x y, lstatus id s = Some x /\ lstatus id s' = Some y /\
     if signs then x = APPROVED /\ y = REJECTED /\ ~ loan_step x y else loan_step x y).
Proof.
  intros HP Hc. assert (exists step, moves id step (loans (ldb s)) (loans (ldb s')) /\
    forall x y, step x y -> if signs then x = APPROVED /\ y = REJECTED /\ ~ loan_step x y else loan_step x y) as (step & [Hk Hm] & Hs).
  { destruct Hc as [s w' Hc|t who m dto src s r s' Hr|target reason t who role req s r s' Hr|t who role approve notes ip s r s' Hr].
    - exists loan_step. split; [by apply service_moves|done].
    - exists loan_step. split; [by eapply answer_moves|done].
    - exists loan_step. split; [by eapply update_moves|done].
    - exists chain_refusal. apply on_base_Ok in Hr as (w & Hr & ->). split; [by eapply sign_moves|].
      intros x y [-> ->]. split_and!; [done|done|]. intros Hx. vm_compute in Hx. discriminate Hx. }
  split; [exact Hk|]. destruct Hm as [Hm|(x & y & Hx & Hy & Hxy)]; [by left|right]. exists x, y.
  split_and!; [exact Hx|exact Hy|by apply Hs].
Qed.

(** What the account guarantees on other loans than [id]. *)
Definition guaranteed_elsewhere (t id : string) (d : DB) (a : Account) : Z :=
  sum_by (weight d a) (List.filter (fun g => negb ((lg_tenantId g === t) && (lg_loanId g === id))) (loanGuarantors d)).

Lemma nothing_held t id d a :
  (forall x, x ∈ loanGuarantors d -> lg_tenantId x = t -> lg_loanId x = id -> held x = false) ->
  guaranteed d a = guaranteed_elsewhere t id d a.
Proof.
  unfold guaranteed, guaranteed_elsewhere. induction (loanGuarantors d) as [|x l IH]; intros Hx; [done|].
  cbn [sum_by List.filter]. rewrite IH by (intros y Hy; apply Hx; by right).
  destruct ((lg_tenantId x === t) && (lg_loanId x === id)) eqn:E; cbn [negb]; [|done].
  apply andb_true_iff in E as [E1%bool_decide_eq_true E2%bool_decide_eq_true].
  rewrite weight_held; [lia|]. apply Hx; [by left|done|done].
Qed.

(** When a guarantor's answer takes a loan waiting for guarantors to
    REJECTED_GUARANTOR_DECLINE, the required consent cannot be had any more,
    none of the loan's guarantors has savings held for it, and every active
    account has frozen only what its member guarantees on other loans. *)
Theorem declined_loan_releases id t who m dto src s r s' loan product :
  ok s -> tenant_loan t id (ldb s) = Some loan -> loan_product loan (ldb s) = Some product ->
  loan_status loan = PENDING_GUARANTORS ->
  applyDecision id t who m dto src s = (Ok r, s') -> dr_loanStatus r = REJECTED_GUARANTOR_DECLINE ->
  (forall g, g ∈ loan_guarantors t id (ldb s') -> held g = false) /\
  (forall k a, accounts (ldb s') !! k = Some a -> acc_isActive a = true ->
     acc_frozenSavings a = guaranteed_elsewhere t id (ldb s') a) /\
  exists l', loans (ldb s') = <[id := l']> (loans (ldb s)) /\ loan_status l' = REJECTED_GUARANTOR_DECLINE.
Proof.
  intros HP Hl Hp Hst Hr Hls. eapply decision_Ok in Hr as (HP' & g & s1 & s2 & _ & _ & _ & _ & Ec & El & Ho); [|done..].
  rewrite Hls in Ho. apply core_tables in Ec as (F1 & _). inversion Ho as [Hne| | l' _ _ _ E' Hl' Hrel|]; [congruence|].
  split_and!.
  - intros x Hx. unfold loan_guarantors in Hx. rewrite list_elem_of_In, List.filter_In, <- list_elem_of_In in Hx.
    destruct Hx as [Hx Hc]. reflect. by apply Hrel.
  - intros k a Ha Hact. rewrite (ck_exact _ _ HP' k a Ha Hact). by apply nothing_held.
  - exists l'. split; [|done]. rewrite E'. congruence.
Qed.

Lemma decide_accept_Ok t g T c s u s' :
  decide_row t g T G_ACCEPTED c s = (Ok u, s') -> g ∈ loanGuarantors (ldb s) -> lg_tenantId g = t ->
  lg_status g = G_PENDING ->
  0 < lg_guaranteedAmount g /\
  (exists k a, member_account t (lg_memberId g) T (ldb s) = Some (k, a) /\
    accounts (ldb s') = <[k := change_frozen (lg_guaranteedAmount g) a]> (accounts (ldb s))) /\
  exists x, x ∈ loanGuarantors (ldb s') /\ lg_id x = lg_id g /\ lg_status x = G_ACCEPTED /\
    lg_guaranteedAmount x = lg_guaranteedAmount g.
Proof.
  intros Hr Hg <- Hst. unfold decide_row in Hr. rewrite same_refl in Hr.
  apply bind_Ok in Hr as (u1 & s1 & K1 & K2). apply bind_Ok in K2 as (n & s2 & K2 & K3). apply ret_Ok in K3 as [_ <-].
  apply accept_hold_Ok in K1 as (Hpos & w & -> & Hp). pose proof (place_hold_tables _ _ _ _ _ _ Hp) as (E1 & _).
  apply place_hold_Ok in Hp as (k & a & Hm & _ & Ew). cbn in Hm. cbn in E1. split; [done|].
  cbn [fst snd] in Ew. rewrite to_dp4_dec in Ew.
  apply consent_updateMany_Ok in K2 as [[-> Hno]|(y & Hy & Hi & Hc & ->)].
  - exfalso. unfold ldb in Hno at 1. cbn [lw_base set_lw_base] in Hno. rewrite E1 in Hno. specialize (Hno g Hg eq_refl). by rewrite Hst, !same_refl in Hno.
  - split; [exists k, a; split; [done|]; unfold ldb; cbn; by rewrite Ew|].
    exists (set_guarantor_status G_ACCEPTED g). split_and!; try done. unfold ldb. cbn. rewrite E1. unfold update_where.
    apply list_elem_of_fmap. exists g. by rewrite Hst, !same_refl.
Qed.

(** No answer asks whether the loan still waits for guarantors: accepting
    a request left open on a declined loan freezes the guarantor's savings,
    leaves the loan declined, and no rejection and no status update of the
    loan can be made afterwards to give the savings back. *)
Theorem late_acceptance_freezes id t who m dto src s r s' loan product :
  ok s -> tenant_loan t id (ldb s) = Some loan -> loan_product loan (ldb s) = Some product ->
  loan_status loan = REJECTED_GUARANTOR_DECLINE ->
  applyDecision id t who m dto src s = (Ok r, s') -> dr_status r = G_ACCEPTED ->
  (exists g k a, lockGuarantor t id m (ldb s) = Some g /\ 0 < lg_guaranteedAmount g /\
     member_account t (lg_memberId g) (resolveAccountType (lp_requiredAccountType product)) (ldb s) = Some (k, a) /\
     accounts (ldb s') = <[k := change_frozen (lg_guaranteedAmount g) a]> (accounts (ldb s)) /\
     exists x, x ∈ loanGuarantors (ldb s') /\ lg_id x = lg_id g /\ lg_status x = G_ACCEPTED) /\
  dr_loanStatus r = REJECTED_GUARANTOR_DECLINE /\ loans (ldb s') = loans (ldb s) /\
  (forall why by' ip ua, (reject id why t by' ip ua (lw_base s')).1 = Err (not_rejectable REJECTED_GUARANTOR_DECLINE)) /\
  (forall target why by' role req, exists e, (updateStatus id target why t by' role req s').1 = Err e).
Proof.
  intros HP Hl Hp Hst Hr Hacc.
  eapply decision_Ok in Hr as (_ & g & s1 & s2 & Hg & Hgs & Hd & _ & Ec & El & Ho); [|done..].
  rewrite Hacc in Hd, Ho. apply core_tables in Ec as (F1 & F2 & F3 & F4 & _).
  inversion Ho as [Hne Ec' Els| | |]; [|congruence..]. apply core_tables in Ec' as (G1 & _ & G3 & G4 & _).
  pose proof Hg as Hg'. apply find_some_elem in Hg' as [Hin Hc]. rewrite !andb_true_iff in Hc.
  destruct Hc as [[Ht%bool_decide_eq_true _] _].
  apply decide_accept_Ok in Hd as (Hpos & (k & a & Hm & Ea) & x & Hx & Hxi & Hxs & _); [|done..].
  assert (loans (ldb s') = loans (ldb s)) as E by congruence.
  assert (tenant_loan t id (ldb s') = Some loan) as Hl' by (rewrite <- Hl; by apply tenant_loan_eq).
  split_and!; [|done|done| |].
  - exists g, k, a. split_and!; [done|done|done|congruence|]. exists x. rewrite G3, F3. done.
  - intros. unfold reject. rewrite bind_gets. unfold ldb in Hl'. rewrite Hl', bind_or_throw, bind_throw_if. by rewrite Hst.
  - intros. unfold updateStatus. rewrite bind_throw_if. case_match; [by eexists|].
    rewrite bind_gets, Hl', bind_or_throw, bind_throw_if, Hst. eexists. reflexivity.
Qed.
End Decisions.

(** ** Around the decision *)
Section Expiry.
Context `{UuidSource, Sha256, Environment, DecimalLib, Numbers}.

(** The check planned when a guarantor is invited expires its request
    whenever it is still open, however lately the guarantor was asked again:
    the request is not pending afterwards, and a loan that waited for
    guarantors is REJECTED_GUARANTOR_DECLINE with no savings held, whatever
    the other guarantors had accepted. *)
Theorem expiry_job_ignores_invitation t id gid cutoff runAt s s' g x :
  ok s -> truthy (Some t) = Some t -> truthy (Some id) = Some id -> truthy (Some gid) = Some gid ->
  pending_request t id gid s = Some g -> expired_view g s = Some x ->
  expiry_process (mkExpiryJob (Some t) (Some id) (Some gid) cutoff runAt) s = (Ok tt, s') ->
  (forall y, y ∈ loanGuarantors (ldb s') -> lg_id y = lg_id g -> lg_tenantId y = t -> lg_status y <> G_PENDING) /\
  (forall l, tenant_loan t id (ldb s) = Some l -> loan_status l = PENDING_GUARANTORS ->
     (exists l', loans (ldb s') = <[id := l']> (loans (ldb s)) /\ loan_status l' = REJECTED_GUARANTOR_DECLINE) /\
     forall y, y ∈ loan_guarantors t id (ldb s') -> held y = false).
Proof.
  intros HP Ht Hid Hgid Hg Hx Hr. unfold expiry_process in Hr. rewrite bind_gets in Hr. cbn [ej_tenantId ej_loanId ej_guarantorId] in Hr.
  rewrite Ht, Hid, Hgid in Hr. unfold expireSpecificGuarantor in Hr. apply lending_commit_Ok in Hr. rewrite bind_gets, Hg in Hr.
  cbn [mbind option_bind] in Hr. rewrite Hx in Hr.
  pose proof Hg as Hg'. apply find_some_elem in Hg' as [Hin Hc]. rewrite !andb_true_iff in Hc.
  destruct Hc as [[[_ Hl%bool_decide_eq_true] Hst%bool_decide_eq_true] _].
  assert (ex_row x = g) as Ex by (unfold expired_view in Hx; repeat case_match; by simplify_eq).
  apply expireGuarantor_Ok in Hr as (HP' & _ & Hrow & s1 & El & Hto); [|done|by eapply expired_view_expirable].
  rewrite Ex in *. split; [exact Hrow|]. intros l Hlo Hls. unfold timed_out in Hto. rewrite Hl in Hto.
  rewrite (tenant_loan_eq t id (ldb s)), Hlo, Hls, same_refl in Hto by done. destruct Hto as [(l' & E & Hl') Hrel].
  split; [exists l'; split; [by rewrite E, El|done]|]. intros y Hy. unfold loan_guarantors in Hy.
  rewrite list_elem_of_In, List.filter_In, <- list_elem_of_In in Hy. destruct Hy as [Hy Hc]. reflect. by apply Hrel.
Qed.

(** Taking a loan to REJECTED_GUARANTOR_DECLINE by hand changes the loan
    alone: every guarantor keeps its row and its frozen savings, and the loan
    can neither be rejected nor moved on afterwards. *)
Theorem admin_decline_strands_holds id why t who role req s l s' :
  updateStatus id REJECTED_GUARANTOR_DECLINE why t who role req s = (Ok l, s') ->
  loan_status l = REJECTED_GUARANTOR_DECLINE /\ tenant_loan t id (ldb s') = Some l /\
  loanGuarantors (ldb s') = loanGuarantors (ldb s) /\ accounts (ldb s') = accounts (ldb s) /\
  (forall why' by' ip ua, (reject id why' t by' ip ua (lw_base s')).1 = Err (not_rejectable REJECTED_GUARANTOR_DECLINE)) /\
  (forall target why' by' role' req', exists e, (updateStatus id target why' t by' role' req' s').1 = Err e).
Proof.
  intros Hr.
  assert (loan_status l = REJECTED_GUARANTOR_DECLINE /\ tenant_loan t id (ldb s') = Some l /\
    loanGuarantors (ldb s') = loanGuarantors (ldb s) /\ accounts (ldb s') = accounts (ldb s)) as (Hl & Ht & Hg & Ha).
  { unfold updateStatus in Hr. rewrite bind_throw_if in Hr. case_match; [done|].
    rewrite bind_gets, bind_or_throw in Hr. destruct (tenant_loan t id (ldb s)) as [l0|] eqn:Hl0; [|done].
    rewrite bind_throw_if in Hr. case_match; [done|]. cbn in Hr.
    do 2 (apply bind_Ok in Hr as ([] & ? & K0 & Hr); apply throw_if_Ok in K0 as [_ <-]).
    apply bind_Ok in Hr as (u & s1 & K1 & Hr). rewrite bind_gets in Hr. apply bind_Ok in Hr as (u2 & s2 & K2 & Hr).
    apply or_throw_Ok in Hr as [Hl ->]. unfold on_base in K1, K2.
    destruct (loan_update _ _ _) as [r1 w1] eqn:E1. injection K1 as -> <-. injection K2 as _ <-.
    apply tenant_loan_Some in Hl0 as [Hl0 Hten].
    unfold loan_update, loan_updateMany in E1. unfold bind in E1. unfold ldb in Hl0. rewrite Hl0 in E1. cbn in E1.
    destruct (loan_fits _); [|by simplify_eq]. injection E1 as <- <-. unfold ldb in *. cbn in *.
    rewrite lookup_insert_eq in Hl. injection Hl as <-. split_and!; try done.
    unfold tenant_loan. cbn. rewrite lookup_insert_eq. cbn. by rewrite Hten, same_refl. }
  split_and!; try done.
  - intros. unfold reject. rewrite bind_gets. unfold ldb in Ht. rewrite Ht, bind_or_throw, bind_throw_if. by rewrite Hl.
  - intros. unfold updateStatus. rewrite bind_throw_if. case_match; [by eexists|].
    rewrite bind_gets, Ht, bind_or_throw, bind_throw_if, Hl. eexists. reflexivity.
Qed.
End Expiry.

(** ** A key is answered once *)
Section Replays.
Context `{UuidSource, Sha256, Environment, DecimalLib, Numbers}.

Lemma reserve_completed {R} key t (st : IdemStore R) result :
  idem_reachable st = true -> idem_entries st !! buildKey key t = Some (Completed result) ->
  checkAndReserve key t st = (Ok (IS_COMPLETED result), st).
Proof.
  intros Hup He. unfold checkAndReserve, idem_set, idem_get, bind, gets, ret. rewrite Hup. cbn. rewrite He. cbn.
  by rewrite Hup, He.
Qed.

Lemma reserve_new {R} key t (st : IdemStore R) : idem_reachable st = true -> idem_entries st !! buildKey key t = None ->
  checkAndReserve key t st = (Ok IS_NEW, mkIdem (<[buildKey key t := Processing]> (idem_entries st)) true).
Proof. intros Hup He. unfold checkAndReserve, idem_set, bind, ret. by rewrite Hup, He. Qed.

Lemma complete_entry {R} key t result (st st' : IdemStore R) u :
  idem_reachable st = true -> complete key t result st = (Ok u, st') ->
  idem_reachable st' = true /\ idem_entries st' !! buildKey key t = Some (Completed result).
Proof.
  unfold complete, idem_set, bind, ret. intros -> Hr. cbn in Hr. destruct (idem_entries st !! _); injection Hr as _ <-;
    cbn; by rewrite lookup_insert_eq.
Qed.

Definition apply_store (s : LendingWorld) := applyKeys s.
Definition respond_store (s : LendingWorld) := respondKeys s.

#[local] Typeclasses Opaque application_audit chained_audit response_audit.
#[local] Instance apply_on_base {A} (m : M A) : Frames apply_store (on_base m).
Proof. intros s. unfold on_base. by destruct (m (lw_base s)). Qed.
#[local] Instance respond_on_base {A} (m : M A) : Frames respond_store (on_base m).
Proof. intros s. unfold on_base. by destruct (m (lw_base s)). Qed.
#[local] Instance apply_transaction {A} (m : LM A) : Frames apply_store m -> Frames apply_store (lending_transaction m).
Proof. intros Hm s. unfold lending_transaction. specialize (Hm s). by destruct (m s) as [[?|?] ?]. Qed.
#[local] Instance respond_transaction {A} (m : LM A) : Frames respond_store m -> Frames respond_store (lending_transaction m).
Proof. intros Hm s. unfold lending_transaction. specialize (Hm s). by destruct (m s) as [[?|?] ?]. Qed.

#[local] Instance apply_catching {A} (m : LM A) h :
  Frames apply_store m -> (forall e, Frames apply_store (h e)) -> Frames apply_store (catching m h).
Proof.
  intros Hm Hh s. unfold catching. specialize (Hm s). destruct (m s) as [[a|e] s1]; [done|]. by rewrite (Hh e s1).
Qed.
#[local] Instance apply_lreturn {A} (r : result A) : Frames apply_store (lreturn r).
Proof. unfold lreturn. apply _. Qed.
#[local] Instance apply_checks dto p t m n gs : Frames apply_store (check_guarantors dto p t m n gs).
Proof. unfold check_guarantors, validateGuarantorsEligibilityBatch. apply _. Qed.
#[local] Instance apply_body dto t m u req c : Frames apply_store (applyBody dto t m u req c).
Proof. unfold applyBody, check_amounts, claim_loan_seq, create_guarantors, guarantor_create, put_consent, modify_lending. apply _. Qed.
#[local] Instance apply_do dto t m u req c : Frames apply_store (doMemberApply dto t m u req c).
Proof. unfold doMemberApply, notify_nominee, add_expiry_job. apply _. Qed.

(** An application answered under an idempotency key is answered the same
    whenever the key is sent again for the product, whatever the second
    request asks for, and the second request changes nothing. *)
Theorem application_replayed dto t m u req key s r s' dto' req' s2 :
  idem_reachable (applyKeys s) = true -> memberApply dto t m u req key s = (Ok r, s') ->
  ad_loanProductId dto' = ad_loanProductId dto -> applyKeys s2 = applyKeys s' ->
  memberApply dto' t m u req' key s2 = (Ok r, s2).
Proof.
  intros Hup Hr Ep Ek. unfold memberApply in *. rewrite bind_throw_if in *. destruct (trim key === "") eqn:Ekey; [done|].
  rewrite Ep. set (k := apply_key u m (ad_loanProductId dto) key) in *.
  assert (idem_reachable (applyKeys s') = true /\
    idem_entries (applyKeys s') !! buildKey k t = Some (Completed r)) as [Hup' He].
  { apply bind_Ok in Hr as (c & s1 & K1 & Hr). unfold on_apply in K1.
    destruct (checkAndReserve k t (applyKeys s)) as [r1 st] eqn:Ec. injection K1 as -> <-.
    unfold checkAndReserve, idem_set, idem_get, bind, gets, ret in Ec. rewrite Hup in Ec. cbn in Ec.
    destruct (idem_entries (applyKeys s) !! buildKey k t) as [[|r0|]|] eqn:E0; cbn in Ec; rewrite ?Hup in Ec; cbn in Ec;
      rewrite ?E0 in Ec; cbn in Ec; rewrite ?Hup, ?E0 in Ec; injection Ec as <- <-; try discriminate Hr.
    1: { apply ret_Ok in Hr as [-> <-]. by split. }
    all: unfold catching in Hr; match type of Hr with (match ?x with _ => _ end) = _ => destruct x as [[a|e] s3] eqn:E3 end;
      [injection Hr as -> <-|unfold on_apply, bind in Hr; repeat case_match; discriminate Hr].
    all: apply bind_Ok in E3 as (c & s4 & K2 & E3); apply bind_Ok in E3 as (r2 & s5 & K3 & E3);
      apply bind_Ok in E3 as (u1 & s6 & K4 & E3); apply ret_Ok in E3 as [<- <-].
    all: apply (frames_Ok apply_store) in K2; [|unfold correlation_id; apply _]; apply (frames_Ok apply_store) in K3; [|apply _].
    all: unfold on_apply in K4; destruct (complete k t r2 (applyKeys s5)) as [r3 st3] eqn:Eco; injection K4 as -> <-.
    all: unfold apply_store in K2, K3; eapply complete_entry; [|exact Eco]; by rewrite K3, K2. }
  unfold on_apply at 1. unfold bind at 1. rewrite Ek, (reserve_completed k t _ r) by done.
  unfold ret. by rewrite <- Ek; destruct s2.
Qed.
End Replays.

(** ** What an accepted application is *)
Section Application.
Context `{UuidSource, Sha256, Environment, DecimalLib, Numbers}.

#[local] Typeclasses Opaque application_audit chained_audit notify_nominee add_expiry_job enqueueEmail.

Lemma loan_create_Ok id l w u w' : loan_create id l w = (Ok u, w') ->
  loans (db w) !! id = None /\ w' = with_db (fun d => set_loans (<[id := l]> (loans d)) d) w.
Proof.
  unfold loan_create. intros Hr. rewrite bind_gets in Hr. do 4 (rewrite bind_throw_if in Hr; case_match; [done|]).
  injection Hr as _ <-. split; [|done]. match goal with Hx : (bool_decide (is_Some _) || _) = false |- _ =>
    apply orb_false_iff in Hx as [Hx _]; apply bool_decide_eq_false in Hx; by apply eq_None_not_Some end.
Qed.

(** The new rows of the guarantors, one per nomination. *)
Definition asked_row (t id : string) (n : GuarantorNomination) (g : LoanGuarantor) : Prop :=
  lg_tenantId g = t /\ lg_loanId g = id /\ lg_memberId g = gn_memberId n /\ lg_status g = G_PENDING /\
  lg_guaranteedAmount g = to_dp4 (gn_guaranteedAmount n) /\ lg_holdReleasedAt g = None.

Lemma create_guarantors_Ok t id gs : forall acc s pending s',
  foldM (fun acc item =>
    let* gid := on_base fresh_id in
    let* now := gets lnow in
    guarantor_create (new_guarantor gid t id (gn_memberId item) (to_dp4 (gn_guaranteedAmount item)) now)
      (asked now (Some (now + CONSENT_WINDOW))) ;;
    ret (acc ++ [mkPending gid (gn_memberId item) (gn_guaranteedAmount item)])) acc gs s = (Ok pending, s') ->
  loans (ldb s') = loans (ldb s) /\ accounts (ldb s') = accounts (ldb s) /\
  exists rows, loanGuarantors (ldb s') = loanGuarantors (ldb s) ++ rows /\ Forall2 (asked_row t id) gs rows.
Proof.
  induction gs as [|g gs IH]; intros acc s pending s' Hr; cbn [foldM] in Hr.
  { apply ret_Ok in Hr as [_ <-]. split_and!; [done..|]. exists []. by rewrite app_nil_r. }
  apply bind_Ok in Hr as (acc1 & s1 & K1 & Hr). apply IH in Hr as (E1 & E2 & rows & E3 & Hrows).
  apply bind_Ok in K1 as (gid & s2 & K1 & K2). apply (frames_Ok core) in K1 as Ec; [|apply _].
  apply core_tables in Ec as (F1 & _ & F3 & F4 & _). rewrite bind_gets in K2.
  apply bind_Ok in K2 as (u & s3 & K2 & K3). apply ret_Ok in K3 as [_ <-].
  apply guarantor_create_Ok in K2 as (_ & _ & _ & ->).
  split_and!; [rewrite E1; exact F1|rewrite E2; exact F4|].
  eexists (_ :: rows). split; [rewrite E3; unfold ldb in *; cbn; rewrite F3, <- app_assoc; reflexivity|].
  constructor; [done|exact Hrows].
Qed.

Lemma set_lw_base_same s : set_lw_base (lw_base s) s = s.
Proof. by destruct s. Qed.

Lemma normalized_inputs gs : forall seen norm, normalize_from seen (coverage_input <$> gs) = Ok norm ->
  norm = (fun g => (gn_memberId g, gn_guaranteedAmount g)) <$> gs.
Proof.
  induction gs as [|g gs IH]; intros seen norm Hn; cbn in Hn; [by injection Hn as <-|].
  repeat (case_match; try done). injection Hn as <-. cbn. f_equal. by eapply IH.
Qed.

(** The nominated guarantors cover the loan. *)
Definition covered (dto : MemberApplyLoanDto) (p : LoanProduct) (gs : list GuarantorNomination) : Prop :=
  NoDup (gn_memberId <$> gs) /\
  (dec (to_dp4 (d_times (ad_principalAmount dto) (dec (lp_guarantorCoverageRatio p))))
   <= foldr (fun g acc => gn_guaranteedAmount g + acc)%Q 0%Q gs)%Q.

Lemma coverage_inputs dto p t gs w c w' :
  validateGuarantorCoverage t (ad_principalAmount dto) (coverage_input <$> gs) (lp_requiredAccountType p)
    (Some (lp_guarantorCoverageRatio p)) w = (Ok c, w') -> w' = w /\ covered dto p gs.
Proof.
  intros Hr. apply coverage_validated in Hr as (-> & Hnd & E & Hle & norm & Hn & Et & _). split; [done|].
  apply normalized_inputs in Hn. split; [by rewrite <- list_fmap_compose in Hnd|].
  rewrite E, Et, Hn in Hle. cbn [default option_fmap] in Hle. revert Hle. clear. cbn.
  match goal with |- (_ <= foldr ?f _ (?h <$> gs))%Q -> (_ <= ?R)%Q => replace R with (foldr f 0%Q (h <$> gs)); [done|] end.
  induction gs as [|g gs IH]; [done|]. cbn. by rewrite IH.
Qed.

Lemma check_guarantors_Ok dto p t m n gs s c s' :
  check_guarantors dto p t m n gs s = (Ok c, s') ->
  s' = s /\ (gs <> [] -> covered dto p gs /\
    exists rs, validateGuarantorsEligibilityBatch gs t m (resolveAccountType (lp_requiredAccountType p)) s = (Ok rs, s) /\
      Forall (fun e => eligible e = true) rs).
Proof.
  intros Hr. unfold check_guarantors in Hr. apply bind_Ok in Hr as (cov & s1 & K1 & Hr).
  apply bind_Ok in Hr as (u & s2 & K2 & Hr). apply ret_Ok in Hr as [_ <-].
  assert (s1 = s /\ (gs <> [] -> covered dto p gs)) as [-> Hcov].
  { destruct (_ || _) eqn:Eg.
    - apply on_base_Ok in K1 as (w & K1 & ->). apply coverage_inputs in K1 as [-> Hc]. by rewrite set_lw_base_same.
    - apply ret_Ok in K1 as [_ <-]. split; [done|]. intros Hne. apply orb_false_iff in Eg as [_ Eg]. by destruct gs. }
  destruct (Nat.eqb (length gs) 0) eqn:E0.
  { apply ret_Ok in K2 as [_ <-]. split; [done|]. intros Hne. by destruct gs. }
  unfold validateGuarantorsEligibilityBatch in *. unfold bind at 1 in K2.
  destruct (List.find _ _) as [e|] eqn:Ef; [done|]. apply ret_Ok in K2 as [_ <-]. split; [done|].
  intros Hne. split; [by apply Hcov|]. eexists. split; [done|]. apply Forall_forall. intros e He.
  eapply List.find_none in Ef; [|apply list_elem_of_In; exact He]. by apply negb_false_iff in Ef.
Qed.

Definition member_savings (t m : string) (T : AccountType) (s : LendingWorld) : Z :=
  sumAvailableSavings (active_accounts t m (ldb s)) T.

(** What has to hold for a member to apply. *)
Record admissible (dto : MemberApplyLoanDto) (t m : string) (member : Member) (mc : MemberColumns)
    (product : LoanProduct) (columns : ProductColumns) (s : LendingWorld) : Prop := {
  ad_member : active_member t m s = Some (member, mc);
  ad_kyc : mem_kycStatus member = KYC_APPROVED;
  ad_not_blacklisted : mc_isBlacklisted mc = false;
  ad_no_open_loan : member_loan_in open_statuses t m (ldb s) = None;
  ad_product : active_product t (ad_loanProductId dto) s = Some (product, columns);
  ad_amount : (dec (pc_minAmount columns) <= ad_principalAmount dto <= dec (pc_maxAmount columns))%Q;
  ad_tenure : ad_tenureMonths dto <= pc_maxTenureMonths columns;
  ad_rules : is_ok (assertLoanApplicationRules (rule_product product) (ad_principalAmount dto)
    (Z.of_nat (length (nominated dto product))) (member_savings t m FOSA s) (member_savings t m BOSA s)) = true;
  ad_covered : nominated dto product <> [] -> covered dto product (nominated dto product);
  ad_eligible : nominated dto product <> [] -> exists rs,
    validateGuarantorsEligibilityBatch (nominated dto product) t m
      (resolveAccountType (lp_requiredAccountType product)) s = (Ok rs, s) /\
    Forall (fun e => eligible e = true) rs;
}.

Lemma bind_ret {St A B} (a : A) (k : A -> comp St B) s : bind (ret a) k s = k a s.
Proof. done. Qed.

Lemma rules_minimum p P n f b r : assertLoanApplicationRules p P n f b = Ok r -> minGuarantors r = pr_minGuarantors p /\
  pr_minGuarantors p <= n.
Proof.
  unfold assertLoanApplicationRules. intros Hr. repeat (case_match; try done). injection Hr as <-. split; [done|].
  match goal with Hx : (n <? _) = false |- _ => by apply Z.ltb_ge in Hx end.
Qed.

(** The loan an admissible application leaves behind. *)
Definition opened (dto : MemberApplyLoanDto) (t m id : string) (product : LoanProduct) (l : Loan) (s s' : LendingWorld)
  : Prop :=
  loans (ldb s) !! id = None /\ loans (ldb s') = <[id := l]> (loans (ldb s)) /\
  loan_tenantId l = t /\ loan_memberId l = m /\ loan_principalAmount l = to_dp4 (ad_principalAmount dto) /\
  loan_outstandingBalance l = loan_principalAmount l /\
  loan_status l = (match nominated dto product with [] => DRAFT | _ => PENDING_GUARANTORS end) /\
  accounts (ldb s') = accounts (ldb s) /\
  exists rows, loanGuarantors (ldb s') = loanGuarantors (ldb s) ++ rows /\
    Forall2 (asked_row t id) (nominated dto product) rows.

Lemma open_rows t id l gs s u s1 pending s2 s' :
  on_base (loan_create id l) s = (Ok u, s1) -> create_guarantors t id gs s1 = (Ok pending, s2) -> core s' = core s2 ->
  loans (ldb s) !! id = None /\ loans (ldb s') = <[id := l]> (loans (ldb s)) /\
  accounts (ldb s') = accounts (ldb s) /\
  exists rows, loanGuarantors (ldb s') = loanGuarantors (ldb s) ++ rows /\ Forall2 (asked_row t id) gs rows.
Proof.
  intros K1 K2 (E1 & _ & E3 & E4 & _)%core_tables. apply on_base_Ok in K1 as (w & K1 & ->).
  apply loan_create_Ok in K1 as [Hfree ->]. apply create_guarantors_Ok in K2 as (F1 & F2 & rows & F3 & Hrows).
  split; [exact Hfree|]. split; [by rewrite E1, F1|]. split; [by rewrite E4, F2|]. exists rows. by rewrite E3, F3.
Qed.

Ltac guard_passed H := rewrite bind_throw_if in H;
  match type of H with (if ?b then _ else _) = _ => destruct b eqn:?; [discriminate H|] end.

Lemma applyBody_Ok dto t m u req c s tx s' :
  applyBody dto t m u req c s = (Ok tx, s') ->
  exists member mc product columns, admissible dto t m member mc product columns s /\
    opened dto t m (tr_loanId tx) product (tr_loan tx) s s'.
Proof.
  intros Hr. unfold applyBody in Hr. rewrite bind_gets, bind_or_throw in Hr.
  destruct (active_member t m s) as [[member mc]|] eqn:Hm; [|done].
  do 2 guard_passed Hr. rewrite bind_gets in Hr.
  destruct (member_loan_in open_statuses t m (ldb s)) eqn:Ho; [destruct p; discriminate Hr|]. rewrite bind_ret in Hr.
  rewrite bind_gets, bind_or_throw in Hr. destruct (active_product t _ s) as [[product columns]|] eqn:Hp; [|done].
  set (gs := nominated dto product) in *. apply bind_Ok in Hr as (u1 & s1 & K1 & Hr).
  unfold check_amounts in K1. guard_passed K1. apply throw_if_Ok in K1 as [Hten <-].
  rewrite bind_gets in Hr. guard_passed Hr. rewrite bind_gets in Hr. guard_passed Hr.
  apply bind_Ok in Hr as (rules & s1 & K1 & Hr). unfold lreturn in K1. apply on_base_Ok in K1 as (w & K1 & ->).
  apply lift_result_Ok in K1 as [Hrules ->]. rewrite set_lw_base_same in Hr.
  apply bind_Ok in Hr as (cov & s1 & K1 & Hr). apply check_guarantors_Ok in K1 as [-> Hgs].
  apply bind_Ok in Hr as (seq & s1 & K1 & Hr). rewrite bind_gets in Hr. apply bind_Ok in Hr as (id & s2 & K2 & Hr).
  guard_passed Hr. apply bind_Ok in Hr as (u2 & s3 & K3 & Hr). apply bind_Ok in Hr as (pending & s4 & K4 & Hr).
  apply bind_Ok in Hr as (u3 & s5 & K5 & Hr). apply ret_Ok in Hr as [<- <-]. cbn [tr_loanId tr_loan].
  apply (frames_Ok core) in K1; [|apply _]. apply (frames_Ok core) in K2; [|apply _]. apply (frames_Ok core) in K5; [|apply _].
  assert (core s2 = core s) as (E1 & _ & E3 & E4 & _)%core_tables by congruence.
  destruct (open_rows _ _ _ _ _ _ _ _ _ _ K3 K4 K5) as (Hfree & El & Ea & rows & Eg & Hrows).
  destruct (rules_minimum _ _ _ _ _ _ Hrules) as [Emin Hmin].
  exists member, mc, product, columns. split.
  - repeat match goal with Hx : negb _ = false |- _ => apply negb_false_iff in Hx
      | Hx : (_ || _) = false |- _ => apply orb_false_iff in Hx as [? ?] end.
    split; try done.
    + by apply bool_decide_eq_true in Heqb.
    + by split; apply Qle_bool_iff.
    + by apply Z.ltb_ge.
    + unfold member_savings. fold gs. by rewrite Hrules.
    + intros Hne. by apply Hgs.
    + intros Hne. by apply Hgs.
  - unfold opened. rewrite E1 in Hfree, El. rewrite E4 in Ea. rewrite E3 in Eg. split_and!; try done; [|by exists rows].
    cbn. unfold apply_status. rewrite Emin. cbn in Hmin |- *. fold gs. destruct gs as [|g0 gs0]; cbn in Hmin |- *; [|by rewrite orb_true_r].
    rewrite orb_false_r. by rewrite (proj2 (Z.ltb_ge _ _)).
Qed.

(** C14: An application goes through only when the member may borrow (active,
    with approved KYC, not blacklisted, without an open or defaulted loan),
    the product's limits and savings rule hold, and the nominated guarantors
    are distinct, eligible and cover the required part; it then opens exactly
    one loan in full, waiting for its guarantors if it has any, asks exactly
    the nominated guarantors for their amounts, and moves no money. *)
Theorem application_gated dto t m u req c s id l s' :
  doMemberApply dto t m u req c s = (Ok (id, l), s') ->
  exists member mc product columns, admissible dto t m member mc product columns s /\
    opened dto t m id product l s s'.
Proof.
  intros Hr. unfold doMemberApply, catching in Hr. destruct (bind _ _ s) as [[a|e] s1] eqn:E; [|done].
  injection Hr as -> <-. apply bind_Ok in E as (tx & s2 & K1 & E). apply lending_commit_Ok, applyBody_Ok in K1.
  apply bind_Ok in E as (u1 & s3 & K2 & E). apply ret_Ok in E as [[= <- <-] <-].
  apply (frames_Ok core) in K2; [|apply _]. destruct K1 as (member & mc & product & columns & Had & Hop).
  exists member, mc, product, columns. split; [done|]. apply core_tables in K2 as (E1 & _ & E3 & E4 & _).
  unfold opened in *. by rewrite E1, E3, E4.
Qed.
End Application.

(** ** The two checks of a guarantor's eligibility agree *)
Section Eligibility.
Context `{UuidSource, Sha256, Environment, DecimalLib, Numbers}.

Lemma find_head {A} (P : A -> bool) l : List.find P l = head (List.filter P l).
Proof. induction l as [|x l IH]; [done|]. cbn. by destruct (P x). Qed.

Lemma filter_fmap_snd {A B} (P : B -> bool) (l : list (A * B)) :
  List.filter P (l.*2) = (List.filter (fun kv => P kv.2) l).*2.
Proof. induction l as [|x l IH]; [done|]. cbn. destruct (P x.2); cbn; by rewrite IH. Qed.

Lemma filter_filter {A} (P Q : A -> bool) l : List.filter P (List.filter Q l) = List.filter (fun x => Q x && P x) l.
Proof. induction l as [|x l IH]; [done|]. cbn. destruct (Q x); cbn; [destruct (P x)|]; by rewrite IH. Qed.

Lemma filter_ext_elem {A} (P Q : A -> bool) l : (forall x, x ∈ l -> P x = Q x) -> List.filter P l = List.filter Q l.
Proof.
  induction l as [|x l IH]; intros Hx; [done|]. cbn. rewrite (Hx x ltac:(by left)), IH; [done|]. intros y Hy. apply Hx. by right.
Qed.

(** A guarantor row belongs to the tenant of its loan, an account to the tenant
    of its member. *)
Record tenants_agree (d : DB) : Prop := {
  ta_rows : forall g l, g ∈ loanGuarantors d -> row_loan g d = Some l -> loan_tenantId l = lg_tenantId g;
  ta_accounts : forall k a m, accounts d !! k = Some a -> members d !! acc_memberId a = Some m ->
    acc_tenantId a = mem_tenantId m;
}.

(** The accounts the batch reads for one guarantor. *)
Definition batch_accounts (id : string) (T : AccountType) (s : LendingWorld) : list Account :=
  List.filter (fun a => (acc_memberId a === id) && (acc_accountType a === T) && acc_isActive a)
    ((map_to_list (accounts (ldb s))).*2).

Lemma batch_account t id T s m c : tenants_agree (ldb s) -> active_member t id s = Some (m, c) ->
  head (batch_accounts id T s) = snd <$> member_account t id T (ldb s).
Proof.
  intros Ht Hm. unfold active_member, full_member in Hm. destruct (members (ldb s) !! id) as [m0|] eqn:Em; [|done].
  assert (mem_tenantId m0 = t) as Etm by (repeat case_match; try done; simplify_eq; by eapply bool_decide_eq_true_1).
  unfold batch_accounts, member_account. rewrite filter_fmap_snd, find_head.
  match goal with |- head (List.filter ?f ?l).*2 = snd <$> head (List.filter ?g ?l) =>
    rewrite (filter_ext_elem f g l); [by destruct (List.filter g l)|] end.
  intros [k a] Hk%elem_of_map_to_list. cbn. destruct (acc_memberId a === id) eqn:Ea; [|by rewrite andb_false_r].
  apply bool_decide_eq_true in Ea. subst id. by rewrite (ta_accounts _ Ht k a m0 Hk Em), Etm, same_refl.
Qed.

Lemma member_view t ids T s id : id ∈ ids ->
  memberById t ids T s !! id = (fun mc => mkGuarantorView mc.1 mc.2 (batch_accounts id T s)) <$> active_member t id s.
Proof.
  intros Hid. unfold memberById, active_member, full_member. rewrite map_lookup_imap.
  destruct (members (ldb s) !! id) as [m|]; [|done]. cbn. destruct (memberColumns (lw_tables s) !! id) as [c|]; [|done].
  rewrite (bool_decide_eq_true_2 _ Hid), andb_true_r. case_bool_decide; [|done]. cbn. by destruct (mc_isActive c).
Qed.

Lemma circular_member t b ids d id : id ∈ ids ->
  bool_decide (id ∈ circularGuarantorIds t b ids d) = existsb (circular_row t b id d) (loanGuarantors d).
Proof.
  intros Hid. apply eq_true_iff_eq. rewrite bool_decide_eq_true, existsb_exists. unfold circularGuarantorIds.
  rewrite elem_of_list_to_set, list_elem_of_omap. split.
  - intros (g & Hg & Hx). exists g. split; [by apply list_elem_of_In|]. unfold circular_row.
    destruct (_ && _ && _); [|done]. destruct (row_loan g d) as [l|]; [|done]. destruct (_ && _ && _) eqn:E; [|done].
    injection Hx as <-. rewrite !andb_true_iff in E. destruct E as [[E1 _] E2]. by rewrite E1, E2, same_refl.
  - intros (g & Hg & Hx). exists g. split; [by apply list_elem_of_In|]. unfold circular_row in Hx.
    apply andb_true_iff in Hx as [-> Hx]. destruct (row_loan g d) as [l|]; [|done]. rewrite !andb_true_iff in Hx.
    destruct Hx as [[E1 E2%bool_decide_eq_true] E3]. subst id. by rewrite E1, E3, (bool_decide_eq_true_2 _ Hid).
Qed.

Lemma defaulted_member t ids d id : id ∈ ids ->
  bool_decide (id ∈ defaultedGuarantorIds t ids d) = bool_decide (is_Some (member_loan_in [DEFAULTED] t id d)).
Proof.
  intros Hid. apply bool_decide_ext. unfold defaultedGuarantorIds. rewrite elem_of_list_to_set, list_elem_of_omap.
  unfold member_loan_in. split.
  - intros (kv & Hkv & Hx). destruct (_ && _ && _) eqn:E; [|done]. injection Hx as <-.
    rewrite !andb_true_iff in E. destruct E as [[_ E1] E2%bool_decide_eq_true].
    destruct (List.find _ _) eqn:Ef; [by eexists|]. eapply List.find_none in Ef; [|by apply list_elem_of_In].
    rewrite same_refl, E1, E2 in Ef. discriminate Ef.
  - intros [kv Hf]. apply find_some_elem in Hf as [Hkv Hc]. exists kv. split; [done|]. rewrite !andb_true_iff in Hc.
    destruct Hc as [[E1%bool_decide_eq_true E2] E3%bool_decide_eq_true]. apply list_elem_of_singleton in E3.
    by rewrite E1, E2, E3, (bool_decide_eq_true_2 _ Hid).
Qed.

Lemma group_count (gs : list LoanGuarantor) id :
  default 0%nat (foldr (fun g (m : gmap string nat) => <[lg_memberId g := S (default 0%nat (m !! lg_memberId g))]> m) ∅ gs !! id)
  = count_where (fun g => lg_memberId g === id) gs.
Proof.
  unfold count_where. induction gs as [|g gs IH]; [done|]. cbn. case_bool_decide as E.
  - subst id. rewrite lookup_insert_eq. cbn. by rewrite IH.
  - by rewrite lookup_insert_ne.
Qed.

Lemma active_count t ids d id : id ∈ ids -> tenants_agree d ->
  default 0%nat (activeGuaranteesByMember t ids d !! id)
  = count_where (fun g => (lg_memberId g === id) && (lg_tenantId g === t) && (lg_status g === G_ACCEPTED)
      && loan_in running_statuses (row_loan g d)) (loanGuarantors d).
Proof.
  intros Hid Ht. unfold activeGuaranteesByMember. rewrite group_count. unfold count_where. rewrite filter_filter. f_equal.
  apply filter_ext_elem. intros g Hg. unfold loan_in.
  destruct (lg_memberId g === id) eqn:Em; [|by rewrite andb_false_r]. apply bool_decide_eq_true in Em.
  rewrite Em, (bool_decide_eq_true_2 _ Hid). cbn [andb]. rewrite andb_true_r.
  destruct (lg_tenantId g === t) eqn:Et; [|done]. apply bool_decide_eq_true in Et.
  destruct (row_loan g d) as [l|] eqn:El; [|done]. by rewrite (ta_rows _ Ht g l Hg El), Et, same_refl.
Qed.

(** C28: Checking all guarantors of an application with five queries gives each
    of them the verdict that checking it alone, query by query, gives, and the
    same reason when the product requires a FOSA account. *)
Theorem batch_matches_single gs t b T s rs :
  tenants_agree (ldb s) -> validateGuarantorsEligibilityBatch gs t b T s = (Ok rs, s) ->
  Forall2 (fun g r => exists e,
    validateGuarantorEligibility (gn_memberId g) t (gn_guaranteedAmount g) b T s = (Ok e, s) /\
    el_memberId r = gn_memberId g /\ eligible r = eligible e /\ (T = FOSA -> r = e)) gs rs.
Proof.
  intros Ht Hr. unfold validateGuarantorsEligibilityBatch in Hr. injection Hr as <-.
  apply Forall2_fmap_r, Forall_Forall2_diag, Forall_forall. intros g Hg.
  set (ids := gn_memberId <$> gs). assert (gn_memberId g ∈ ids) as Hid by by apply list_elem_of_fmap_2.
  unfold compose, validateGuarantorEligibility, batch_verdict. cbv beta zeta. set (id := gn_memberId g) in *.
  destruct (id === b); [eexists; by split_and!|]. rewrite bind_gets, (member_view _ _ _ _ _ Hid).
  destruct (active_member t id s) as [[m c]|] eqn:Hm; [|eexists; by split_and!]. cbn [fmap option_fmap option_map gv_member gv_columns gv_accounts fst snd].
  rewrite bind_gets. destruct (member_reason m c s); [eexists; by split_and!|]. rewrite bind_gets, (circular_member _ _ _ _ _ Hid).
  destruct (existsb _ _); [eexists; by split_and!|]. rewrite bind_gets. pose proof (batch_account t id T s m c Ht Hm) as Ha.
  destruct (batch_accounts id T s) as [|a accs], (member_account t id T (ldb s)) as [[k a']|]; try done.
  { eexists. split_and!; [done|done|done|]. by intros ->. }
  injection Ha as <-. destruct (negb _); [eexists; split_and!; [done|done|done|by intros ->]|].
  rewrite bind_gets, (defaulted_member _ _ _ _ Hid). destruct (member_loan_in _ _ _ _); cbn; [eexists; by split_and!|].
  rewrite (active_count _ _ _ _ Hid Ht). destruct (_ <=? _); eexists; by split_and!.
Qed.
End Eligibility.

(** ** Equal shares *)
Section Shares.
Context `{DecimalLib, Numbers}.

Lemma trunc_dp4_dec z : trunc_dp4 (dec z) = z.
Proof. unfold trunc_dp4, dec. cbn. by rewrite Z.quot_mul. Qed.

Lemma trunc_dp4_mono p q : (0 <= p)%Q -> (p <= q)%Q -> trunc_dp4 p <= trunc_dp4 q.
Proof.
  unfold trunc_dp4, Qle. destruct p as [a b], q as [c d]. cbn. intros Ha Hle.
  assert (0 <= c) by nia. rewrite !Z.quot_div_nonneg by nia.
  apply Z.div_le_lower_bound; [lia|]. pose proof (Z.mul_div_le (a * 10000) (Z.pos b) ltac:(lia)). nia.
Qed.

(** One share is the exact quotient, rounded down; the decimal division may
    bring it up to the next ten-thousandth. *)
Lemma share_near C n : 0 <= C < 10 ^ 15 -> 1 <= n ->
  let share := trunc_dp4 (d_div (dec C) (inject_Z n)) in C / n <= share <= C / n + 1.
Proof.
  intros HC Hn. cbn. unfold d_div. pose proof (Z.div_mod C n ltac:(lia)). pose proof (Z.mod_pos_bound C n ltac:(lia)).
  assert (0 <= C / n) by (apply Z.div_pos; lia). assert (C / n <= C) by (apply Z.div_le_upper_bound; nia).
  assert (dec (C / n) <= dec C / inject_Z n)%Q as K1.
  { apply Qle_shift_div_l; [unfold Qlt; cbn; lia|]. unfold Qle, dec, Qmult, inject_Z. cbn. nia. }
  assert (dec C / inject_Z n <= dec (C / n + 1))%Q as K2.
  { apply Qle_shift_div_r; [unfold Qlt; cbn; lia|]. unfold Qle, dec, Qmult, inject_Z. cbn. nia. }
  apply rnd_mono in K1, K2. rewrite rnd_exact in K1, K2 by lia. split.
  - rewrite <- (trunc_dp4_dec (C / n)). apply trunc_dp4_mono; [|done]. unfold Qle, dec. cbn. lia.
  - rewrite <- (trunc_dp4_dec (C / n + 1)). apply trunc_dp4_mono; [|done].
    eapply Qle_trans; [|exact K1]. unfold Qle, dec. cbn. lia.
Qed.

Lemma rnd_dec q z : (q == dec z)%Q -> Z.abs z < 10 ^ 20 -> (rnd q == dec z)%Q.
Proof.
  intros E Hz. rewrite <- (rnd_exact z Hz). apply Qle_antisym; apply rnd_mono; rewrite E; apply Qle_refl.
Qed.

Lemma number_dp4 z : Z.abs z < 10 ^ 15 -> to_dp4 (to_number (dec z)) = z.
Proof. intros Hz. by rewrite (to_number_exact z Hz), to_dp4_dec. Qed.

(** What the last guarantor takes. *)
Lemma last_share C s n : 0 <= C < 10 ^ 15 -> 0 <= s <= C + 1 -> 1 <= n < 10 ^ 4 ->
  to_dp4 (d_minus (dec C) (d_times (dec s) (inject_Z (n - 1)))) = C - s * (n - 1).
Proof.
  intros HC Hs Hn. assert (d_times (dec s) (inject_Z (n - 1)) == dec (s * (n - 1)))%Q as E.
  { apply rnd_dec; [|nia]. unfold Qeq, dec, Qmult, Qminus, Qplus, Qopp, inject_Z. cbn. lia. }
  unfold d_minus. rewrite (rnd_dec _ (C - s * (n - 1))); [by rewrite to_dp4_dec| |nia].
  rewrite E. unfold Qeq, dec, Qminus, Qplus, Qopp. cbn. lia.
Qed.

Lemma equal_shares_snoc C front x :
  let n := Z.of_nat (length front) + 1 in
  let s := trunc_dp4 (d_div (dec C) (inject_Z n)) in
  equal_shares C (front ++ [x]) =
    ((fun id => mkNomination id (to_number (dec s))) <$> front)
    ++ [mkNomination x (to_number (dec (to_dp4 (d_minus (dec C) (d_times (dec s) (inject_Z (n - 1)))))))].
Proof.
  cbn zeta. unfold equal_shares. rewrite length_app. cbn [length]. rewrite !Nat2Z.inj_add. cbn [Z.of_nat Pos.of_succ_nat].
  replace (length front + 1 - 1)%nat with (length front) by lia. rewrite imap_app. f_equal.
  - rewrite <- imap_const. apply imap_ext. intros i y Hi. apply lookup_lt_Some in Hi. cbn.
    by rewrite (proj2 (Nat.eqb_neq _ _)) by lia.
  - cbn. by rewrite Nat.add_0_r, Nat.eqb_refl.
Qed.

(** Guarantors named without amounts get equal shares: one each, in their
    order, that add up to the required coverage to the last ten-thousandth,
    every one within as many ten-thousandths of the exact quotient as there
    are guarantors. *)
Theorem equal_shares_exact C ids :
  0 <= C < 10 ^ 14 -> ids <> [] -> Z.of_nat (length ids) < 10 ^ 4 ->
  let gs := equal_shares C ids in
  gn_memberId <$> gs = ids /\ sum_by (fun g => to_dp4 (gn_guaranteedAmount g)) gs = C /\
  Forall (fun g => Z.abs (to_dp4 (gn_guaranteedAmount g) - C / Z.of_nat (length ids)) <= Z.of_nat (length ids)) gs.
Proof.
  intros HC Hne Hn. cbn zeta. destruct (exists_last Hne) as (front & x & ->). rewrite length_app in *. cbn [length] in *.
  rewrite Nat2Z.inj_add in *. change (Z.of_nat 1) with 1 in *. rewrite equal_shares_snoc.
  set (n := Z.of_nat (length front) + 1) in *. assert (1 <= n) by lia.
  pose proof (share_near C n ltac:(lia) ltac:(done)) as Hs. cbn zeta in Hs. set (s := trunc_dp4 _) in *.
  pose proof (Z.div_mod C n ltac:(lia)). pose proof (Z.mod_pos_bound C n ltac:(lia)).
  assert (0 <= C / n <= C) as Hq by (split; [apply Z.div_pos; lia|apply Z.div_le_upper_bound; nia]).
  rewrite last_share by lia. assert (Z.abs (C - s * (n - 1)) < 10 ^ 15) by nia. split_and!.
  - rewrite fmap_app, <- list_fmap_compose. cbn. f_equal. apply list_fmap_id.
  - rewrite sum_by_app, sum_by_fmap. cbn [sum_by gn_guaranteedAmount]. rewrite !number_dp4 by lia.
    assert (forall l : list string, sum_by (fun _ => s) l = s * Z.of_nat (length l)) as ->; [|nia].
    induction l as [|y l IH]; [cbn; lia|]. cbn [sum_by length]. rewrite IH. lia.
  - apply Forall_app. split.
    + apply Forall_fmap, Forall_forall. intros y _. cbn [compose gn_guaranteedAmount]. rewrite number_dp4 by lia. lia.
    + constructor; [|constructor]. cbn [gn_guaranteedAmount]. rewrite number_dp4 by done.
      assert (s = C / n \/ s = C / n + 1) as [-> | ->] by lia; nia.
Qed.
End Shares.

(** ** Witnesses

    A borrower, two guarantors, a product that asks for two of three. *)
#[local] Instance plain_numbers : Numbers :=
  {| to_number q := q; number_text _ := ""; decimal_text _ := ""; d_pow := Qpower; to_number_exact _ _ := Qeq_refl _ |}.

Definition lend_member (n : string) : Member :=
  mkMember "t1" ("M-" +:+ n) ("u" +:+ n) "Ann" n (Some "254700000001") None KYC_APPROVED.
Definition lend_db : DB :=
  mkDB {[ "fosa1" := account "m1" FOSA (ks 1000) 0; "fosa2" := account "m2" FOSA (ks 900) 0;
          "fosa3" := account "m3" FOSA (ks 900) 0 ]}
    [] [] chart (staff ++ [mkUser "u1" "t1" MEMBER; mkUser "u2" "t1" MEMBER; mkUser "u3" "t1" MEMBER; mkUser "boss" "t1" MANAGER])
    ∅ [] [] {[ "p1" := product ]}
    {[ "m1" := lend_member "1"; "m2" := lend_member "2"; "m3" := lend_member "3" ]} [] ∅ [] ∅ [] [].
Definition lend_start : LendingWorld :=
  let active := mkMemberColumns true false AS_ACTIVE in
  mkLW (mkWorld lend_db 0 0 ∅ ∅ [] [] [])
    (mkLendingTables {[ "m1" := active; "m2" := active; "m3" := active ]}
       {[ "p1" := mkProductColumns (ks 100) (ks 5000) 1200 24 100 0 true ]} {[ "t1" := mkTenant true JNull ]} ∅ ∅ [])
    (mkIdem ∅ true) (mkIdem ∅ true) (mkIdem ∅ true) [] ∅.

Definition lend_req : Request := mkRequest (Some "R") None None.
Definition lend_dto : MemberApplyLoanDto := mkApplyDto "p1" (inject_Z 600) 6 None [] ["m2"; "m3"].
Definition apply_call : LendingCall := CallApply lend_dto "t1" "m1" "u1" lend_req "K1".
Definition answer (n action key : string) : LendingCall :=
  CallRespond "id-0" ("m" +:+ n) (mkWorkflowDto action None true) "t1" ("u" +:+ n) key.
Definition ask_again (n : string) : LendingCall :=
  CallRequestGuarantors "id-0" "t1" "m1" (mkRequestDto [mkNomination ("m" +:+ n) (inject_Z 300)] []).
Definition runs (calls : list LendingCall) : LendingWorld := foldl (fun s c => lending_run c s) lend_start calls.
Definition frozen_of (k : string) (s : LendingWorld) : option Z := acc_frozenSavings <$> accounts (ldb s) !! k.
Definition statuses (s : LendingWorld) := (loan_status <$> loans (ldb s) !! "id-0", lg_status <$> loanGuarantors (ldb s)).

Lemma outcome {A} (p : result A * LendingWorld) (test : A -> bool) :
  match p with (Ok a, _) => test a | (Err _, _) => false end = true -> exists a s', p = (Ok a, s') /\ test a = true.
Proof. destruct p as [[a|e] s']; [|done]. intros Ht. by exists a, s'. Qed.

Lemma some_if {A} (o : option A) : bool_decide (is_Some o) = true -> exists a, o = Some a.
Proof. intros [a Ha]%bool_decide_eq_true. by exists a. Qed.

Lemma lend_start_ok : ok lend_start.
Proof.
  split.
  - assert (bool_decide (map_Forall (fun id1 a1 => map_Forall (fun id2 a2 =>
      (id1 = id2) \/ acc_tenantId a1 <> acc_tenantId a2 \/ acc_memberId a1 <> acc_memberId a2 \/
      acc_accountType a1 <> acc_accountType a2) (accounts (ldb lend_start))) (accounts (ldb lend_start))) = true)
      as Hd by (vm_compute; reflexivity).
    apply bool_decide_eq_true in Hd. intros t m T id1 a1 id2 a2 H1 H2 (?&?&?&_) (?&?&?&_).
    destruct (Hd id1 a1 H1 id2 a2 H2) as [?|[?|[?|?]]]; congruence.
  - constructor.
  - intros g Hg. by apply elem_of_nil in Hg.
  - intros id a Ha _.
    assert (bool_decide (map_Forall (fun _ a => acc_frozenSavings a = 0) (accounts (ldb lend_start))) = true)
      as Hd by (vm_compute; reflexivity).
    apply bool_decide_eq_true in Hd. exact (Hd id a Ha).
Qed.
Lemma runs_ok calls : ok (runs calls).
Proof. apply lending_runs_ok, lend_start_ok. Qed.

Lemma account_if k test s : match accounts (ldb s) !! k with Some a => test a | None => false end = true ->
  exists a, accounts (ldb s) !! k = Some a /\ test a = true.
Proof. destruct (accounts (ldb s) !! k) as [a|]; [|done]. intros Ht. by exists a. Qed.

Definition two_calls : list LendingCall := [apply_call; answer "2" "ACCEPT" "a"].
#[local] Opaque lending_run.

Lemma holds_match_guarantees_witness :
  exists a, accounts (ldb (runs two_calls)) !! "fosa2" = Some a /\ acc_frozenSavings a = guaranteed (ldb (runs two_calls)) a /\
    (acc_frozenSavings a =? ks 300) = true.
Proof.
  destruct (account_if "fosa2" (fun a => acc_isActive a && (acc_frozenSavings a =? ks 300)) (runs two_calls)) as (a & Ea & Ht);
    [vm_compute; reflexivity|]. apply andb_true_iff in Ht as [Hact Hf]. exists a. split; [exact Ea|]. split; [|exact Hf].
  unfold runs in *. exact (holds_match_guarantees two_calls lend_start "fosa2" a lend_start_ok Ea Hact).
Defined.

Lemma loan_if t id st s : match tenant_loan t id (ldb s) with
    | Some l => match loan_product l (ldb s) with Some _ => loan_status l === st | None => false end
    | None => false end = true ->
  exists l p, tenant_loan t id (ldb s) = Some l /\ loan_product l (ldb s) = Some p /\ loan_status l = st.
Proof.
  destruct (tenant_loan t id (ldb s)) as [l|]; [|done]. destruct (loan_product l (ldb s)) as [p|] eqn:Hp; [|done].
  intros Hst%bool_decide_eq_true. by exists l, p.
Qed.

Definition cen_accepts (s : LendingWorld) : result DecisionResult * LendingWorld :=
  applyDecision "id-0" "t1" (Some "u3") (ByMember "m3") (mkWorkflowDto "ACCEPT" None true) SRC_MEMBER s.
(** Cen answers a day too late; and while a second invitation outlives the loan. *)
Definition too_late : list LendingCall := [apply_call; answer "2" "ACCEPT" "a"; Wait (73 * HOUR)].
Definition loan_lost : list LendingCall := [apply_call; answer "3" "DECLINE" "b"; Wait (71 * HOUR);
  ask_again "3"; Wait (2 * HOUR); answer "2" "ACCEPT" "a"].
#[local] Opaque runs applyDecision.

Lemma approval_fully_guaranteed_witness :
  exists l p r s', cen_accepts (runs two_calls) = (Ok r, s') /\
    let rows := loan_guarantors "t1" "id-0" (ldb s') in
    Forall (fun g => lg_status g <> G_PENDING) rows /\
    lp_minGuarantors p <= Z.of_nat (length (List.filter accepted rows)) /\
    (d_times (dec (loan_principalAmount l)) (dec (lp_guarantorCoverageRatio p))
     <= dec (sum_by lg_guaranteedAmount (List.filter accepted rows)))%Q.
Proof.
  destruct (loan_if "t1" "id-0" PENDING_GUARANTORS (runs two_calls)) as (l & p & Hl & Hp & Hst); [vm_compute; reflexivity|].
  destruct (outcome (cen_accepts (runs two_calls)) (fun r => dr_loanStatus r === PENDING_APPROVAL)) as (r & s' & E & Hr);
    [vm_compute; reflexivity|]. apply bool_decide_eq_true in Hr. exists l, p, r, s'. split; [exact E|]. unfold cen_accepts in E.
  destruct (approval_fully_guaranteed "id-0" "t1" (Some "u3") (ByMember "m3") (mkWorkflowDto "ACCEPT" None true) SRC_MEMBER
    (runs two_calls) r s' l p (runs_ok two_calls) Hl Hp Hst E Hr) as (H1 & H2 & H3 & _). exact (conj H1 (conj H2 H3)).
Defined.

(** Cen's answer takes the loan on. *)
Lemma loan_calls_follow_machine_witness :
  exists r s', cen_accepts (runs two_calls) = (Ok r, s') /\
    (lstatus "id-0" s' = lstatus "id-0" (runs two_calls) \/
     exists x y, lstatus "id-0" (runs two_calls) = Some x /\ lstatus "id-0" s' = Some y /\ loan_step x y).
Proof.
  destruct (outcome (cen_accepts (runs two_calls)) (fun r => dr_loanStatus r === PENDING_APPROVAL)) as (r & s' & E & _);
    [vm_compute; reflexivity|]. exists r, s'. split; [exact E|]. unfold cen_accepts in E.
  exact (proj2 (loan_calls_follow_machine "id-0" false (runs two_calls) s' (runs_ok two_calls) (live_answer "id-0" _ _ _ _ _ _ _ _ E))).
Defined.

Lemma declined_loan_releases_witness :
  exists r s', cen_accepts (runs too_late) = (Ok r, s') /\ (forall g, g ∈ loan_guarantors "t1" "id-0" (ldb s') -> held g = false).
Proof.
  destruct (loan_if "t1" "id-0" PENDING_GUARANTORS (runs too_late)) as (l & p & Hl & Hp & Hst); [vm_compute; reflexivity|].
  destruct (outcome (cen_accepts (runs too_late)) (fun r => dr_loanStatus r === REJECTED_GUARANTOR_DECLINE)) as (r & s' & E & Hr);
    [vm_compute; reflexivity|]. apply bool_decide_eq_true in Hr. exists r, s'. split; [exact E|]. unfold cen_accepts in E.
  exact (proj1 (declined_loan_releases "id-0" "t1" (Some "u3") (ByMember "m3") (mkWorkflowDto "ACCEPT" None true) SRC_MEMBER
    (runs too_late) r s' l p (runs_ok too_late) Hl Hp Hst E Hr)).
Defined.

Lemma late_acceptance_freezes_witness :
  exists r s', cen_accepts (runs loan_lost) = (Ok r, s') /\ dr_loanStatus r = REJECTED_GUARANTOR_DECLINE /\
    exists k a, accounts (ldb s') = <[k := change_frozen (ks 300) a]> (accounts (ldb (runs loan_lost))).
Proof.
  destruct (loan_if "t1" "id-0" REJECTED_GUARANTOR_DECLINE (runs loan_lost)) as (l & p & Hl & Hp & Hst); [vm_compute; reflexivity|].
  destruct (outcome (cen_accepts (runs loan_lost)) (fun r => dr_status r === G_ACCEPTED)) as (r & s' & E & Hr);
    [vm_compute; reflexivity|]. apply bool_decide_eq_true in Hr. exists r, s'. split; [exact E|]. unfold cen_accepts in E.
  destruct (late_acceptance_freezes "id-0" "t1" (Some "u3") (ByMember "m3") (mkWorkflowDto "ACCEPT" None true) SRC_MEMBER
    (runs loan_lost) r s' l p (runs_ok loan_lost) Hl Hp Hst E Hr) as ((g & k & a & Hg & _ & _ & Ha & _) & Hls & _).
  split; [exact Hls|]. exists k, a.
  assert (match lockGuarantor "t1" "id-0" (ByMember "m3") (ldb (runs loan_lost)) with
    | Some g => lg_guaranteedAmount g =? ks 300 | None => false end = true) as Hn by (vm_compute; reflexivity).
  rewrite Hg in Hn. apply Z.eqb_eq in Hn. rewrite Hn in Ha. exact Ha.
Defined.

(** The check planned at the first invitation, an hour after the second. *)
Definition asked_twice : list LendingCall := [apply_call; answer "2" "ACCEPT" "a"; answer "3" "DECLINE" "b";
  Wait (71 * HOUR); ask_again "3"; Wait HOUR].
Definition first_check : ExpiryJob := mkExpiryJob (Some "t1") (Some "id-0") (Some "id-2") None (72 * HOUR).
#[local] Opaque expiry_process.

Lemma expiry_job_ignores_invitation_witness :
  List.nth_error (expiryQueue (runs asked_twice)) 1 = Some first_check /\
  exists g s', co_invitedAt (consent_of g (runs asked_twice)) + HOUR = lnow (runs asked_twice) /\
    expiry_process first_check (runs asked_twice) = (Ok tt, s') /\
    forall y, y ∈ loanGuarantors (ldb s') -> lg_id y = lg_id g -> lg_tenantId y = "t1" -> lg_status y <> G_PENDING.
Proof.
  split; [vm_compute; reflexivity|].
  assert (match pending_request "t1" "id-0" "id-2" (runs asked_twice) with
    | Some g => (co_invitedAt (consent_of g (runs asked_twice)) + HOUR =? lnow (runs asked_twice))
        && bool_decide (is_Some (expired_view g (runs asked_twice))) | None => false end = true) as Hn by (vm_compute; reflexivity).
  destruct (pending_request "t1" "id-0" "id-2" (runs asked_twice)) as [g|] eqn:Hg; [|discriminate Hn].
  apply andb_true_iff in Hn as [Hage Hx]. apply Z.eqb_eq in Hage. apply bool_decide_eq_true in Hx. destruct Hx as [x Hx].
  destruct (outcome (expiry_process first_check (runs asked_twice)) (fun _ => true)) as ([] & s' & E & _); [vm_compute; reflexivity|].
  exists g, s'. split; [exact Hage|]. split; [exact E|]. unfold first_check in E.
  exact (proj1 (expiry_job_ignores_invitation "t1" "id-0" "id-2" None (72 * HOUR) (runs asked_twice) s' g x (runs_ok asked_twice)
    eq_refl eq_refl eq_refl Hg Hx E)).
Defined.

Definition boss_declines (s : LendingWorld) : result Loan * LendingWorld :=
  updateStatus "id-0" REJECTED_GUARANTOR_DECLINE None "t1" "boss" MANAGER lend_req s.
#[local] Opaque updateStatus memberApply doMemberApply.

Lemma admin_decline_strands_holds_witness :
  exists l s', boss_declines (runs two_calls) = (Ok l, s') /\ accounts (ldb s') = accounts (ldb (runs two_calls)) /\
    (exists a, accounts (ldb (runs two_calls)) !! "fosa2" = Some a /\ (acc_frozenSavings a =? ks 300) = true) /\
    exists e, (updateStatus "id-0" REJECTED None "t1" "boss" MANAGER lend_req s').1 = Err e.
Proof.
  destruct (outcome (boss_declines (runs two_calls)) (fun _ => true)) as (l & s' & E & _); [vm_compute; reflexivity|].
  exists l, s'. split; [exact E|]. unfold boss_declines in E.
  destruct (admin_decline_strands_holds "id-0" None "t1" "boss" MANAGER lend_req (runs two_calls) l s' E)
    as (_ & _ & _ & Ha & _ & Hu). split; [exact Ha|]. split; [|exact (Hu REJECTED None "boss" MANAGER lend_req)].
  apply account_if. vm_compute; reflexivity.
Defined.

Lemma application_replayed_witness :
  exists r s', memberApply lend_dto "t1" "m1" "u1" lend_req "K1" lend_start = (Ok r, s') /\
    memberApply (mkApplyDto "p1" (inject_Z 4000) 12 None [] []) "t1" "m1" "u1" (mkRequest None None None) "K1" s' = (Ok r, s').
Proof.
  destruct (outcome (memberApply lend_dto "t1" "m1" "u1" lend_req "K1" lend_start) (fun _ => true)) as (r & s' & E & _);
    [vm_compute; reflexivity|]. exists r, s'. split; [exact E|].
  exact (application_replayed lend_dto "t1" "m1" "u1" lend_req "K1" lend_start r s' (mkApplyDto "p1" (inject_Z 4000) 12 None [] [])
    (mkRequest None None None) s' eq_refl E eq_refl eq_refl).
Defined.

Lemma application_gated_witness :
  exists id l s', doMemberApply lend_dto "t1" "m1" "u1" lend_req "R" lend_start = (Ok (id, l), s') /\
    exists member mc product columns, admissible lend_dto "t1" "m1" member mc product columns lend_start /\
      opened lend_dto "t1" "m1" id product l lend_start s'.
Proof.
  destruct (outcome (doMemberApply lend_dto "t1" "m1" "u1" lend_req "R" lend_start) (fun _ => true)) as ([id l] & s' & E & _);
    [vm_compute; reflexivity|]. exists id, l, s'. split; [exact E|].
  exact (application_gated lend_dto "t1" "m1" "u1" lend_req "R" lend_start id l s' E).
Defined.

(** One nominee can afford its share, the other cannot. *)
Definition two_nominees : list GuarantorNomination := [mkNomination "m2" (inject_Z 300); mkNomination "m3" (inject_Z 901)].

Lemma batch_matches_single_witness :
  exists r1 r2, validateGuarantorsEligibilityBatch two_nominees "t1" "m1" FOSA lend_start = (Ok [r1; r2], lend_start) /\
    eligible r1 = true /\ eligible r2 = false /\
    exists e, validateGuarantorEligibility "m3" "t1" (inject_Z 901) "m1" FOSA lend_start = (Ok e, lend_start) /\ r2 = e.
Proof.
  assert (tenants_agree (ldb lend_start)) as Ht.
  { split; [intros g l Hg; by apply elem_of_nil in Hg|].
    assert (bool_decide (map_Forall (fun _ a => acc_tenantId a = "t1") (accounts (ldb lend_start))
      /\ map_Forall (fun _ m => mem_tenantId m = "t1") (members (ldb lend_start))) = true) as Hd by (vm_compute; reflexivity).
    apply bool_decide_eq_true in Hd. destruct Hd as [Ha Hm]. intros k a m Hk Hmk. by rewrite (Ha k a Hk), (Hm _ m Hmk). }
  assert (exists r1 r2, validateGuarantorsEligibilityBatch two_nominees "t1" "m1" FOSA lend_start = (Ok [r1; r2], lend_start) /\
    eligible r1 = true /\ eligible r2 = false) as (r1 & r2 & Hr & H1 & H2).
  { eexists _, _. split; [reflexivity|]. split; vm_compute; reflexivity. }
  pose proof (batch_matches_single two_nominees "t1" "m1" FOSA lend_start [r1; r2] Ht Hr) as Hb.
  apply Forall2_cons in Hb as [_ Hb]. apply Forall2_cons in Hb as [(e & He & _ & _ & Heq) _].
  exists r1, r2. split; [exact Hr|]. split; [exact H1|]. split; [exact H2|]. exists e. split; [exact He|exact (Heq eq_refl)].
Defined.

Lemma equal_shares_exact_witness :
  sum_by (fun g => to_dp4 (gn_guaranteedAmount g)) (equal_shares (ks 1000) ["m1"; "m2"; "m3"]) = ks 1000 /\
  (to_dp4 ∘ gn_guaranteedAmount) <$> equal_shares (ks 1000) ["m1"; "m2"; "m3"] = [3333333; 3333333; 3333334].
Proof.
  split; [|vm_compute; reflexivity].
  exact (proj1 (proj2 (equal_shares_exact (ks 1000) ["m1"; "m2"; "m3"] ltac:(unfold ks; lia) ltac:(discriminate) ltac:(cbn; lia)))).
Defined.
