(* ===== verification/AuthTheorems.v ===== *)
(** * AuthTheorems: what sign-in promises

    A refresh token is refused once its successor is stored; a replay revokes
    everything; signing in by password takes the password and the second factor;
    a one-time code dies after three wrong guesses, and the ways around these
    rules: overlapping exchanges of one token are both accepted. *)
From S2P Require Import Prelude Money Json Format ImportText Schema Ledger LedgerFacts AuditLogs Redis Frames.
From S2P Require Import Fixture Lending AuthState AuthParts Auth.

(** Two programs that begin alike and agree wherever the invariant holds. *)
Lemma bind_agree {X Y} (I : AuthWorld -> Prop) (m : AM X) (f g : X -> AM Y) s :
  Preserves I m -> I s -> (forall x s1, I s1 -> f x s1 = g x s1) -> bind m f s = bind m g s.
Proof.
  intros Hm Hs Hfg. unfold bind. destruct (m s) as [[x|e] s1] eqn:E; [|done]. apply Hfg. exact (Hm _ _ _ E Hs).
Qed.

Lemma bind_cong {X Y} (m m' : AM X) (f : X -> AM Y) s : m s = m' s -> bind m f s = bind m' f s.
Proof. unfold bind. by intros ->. Qed.

(** ** Refresh tokens

    [tokens_ok A s]: the hash on a user's row is that of a refresh token signed
    for that user with an identifier drawn before, and every token stored now
    or signed later satisfies [A]. *)
Section Tokens.
Context `{Argon2, Jwt, Totp, AesGcm, RandomSource, AuthConfig, Sha256, UuidSource}.

Definition refresh_token (iat : Z) (p : JwtPayload) : string := jwt_sign jwt_refreshSecret iat refreshExpiration p.

Lemma jwt_sign_inj secret iat ttl p iat' ttl' p' :
  jwt_sign secret iat ttl p = jwt_sign secret iat' ttl' p' -> p = p'.
Proof.
  intros E. set (now := 1000 * (Z.min (iat + ttl) (iat' + ttl') - 1)).
  pose proof (jwt_verify_sign secret secret now iat ttl p) as Hv1.
  pose proof (jwt_verify_sign secret secret now iat' ttl' p') as Hv2. rewrite E in Hv1.
  assert (now / 1000 = Z.min (iat + ttl) (iat' + ttl') - 1) as Hn by (unfold now; rewrite Z.mul_comm; apply Z.div_mul; lia).
  rewrite same_refl, Hn, (proj2 (Z.ltb_lt _ _)) in Hv1 by lia.
  rewrite same_refl, Hn, (proj2 (Z.ltb_lt _ _)) in Hv2 by lia. cbn in Hv1, Hv2. congruence.
Qed.

Definition issued (A : string -> Prop) (n : N) (u : AuthUser) (h : string) : Prop :=
  exists salt iat p k, h = argon2_hash salt (refresh_token iat p) /\ jp_jti p = Some (uuid k) /\ (k < n)%N /\
    jp_sub p = au_id u /\ A (refresh_token iat p).

Record tokens_ok (A : string -> Prop) (s : AuthWorld) : Prop := {
  tok_stored : forall u h, u ∈ aw_users s -> au_refreshToken u = Some h -> issued A (aw_draws s) u h;
  tok_later : forall k iat p, (aw_draws s <= k)%N -> jp_jti p = Some (uuid k) -> A (refresh_token iat p);
}.

Lemma issued_mono A n n' u h : (n <= n')%N -> issued A n u h -> issued A n' u h.
Proof. intros Hn (salt & iat & p & k & ? & ? & ? & ? & ?). exists salt, iat, p, k. split_and!; try done. lia. Qed.

(** Users whose tokens come from before, and no identifier drawn twice. *)
Lemma tokens_ok_step A s s' :
  (forall u h, u ∈ aw_users s' -> au_refreshToken u = Some h ->
    exists v, v ∈ aw_users s /\ au_id v = au_id u /\ au_refreshToken v = Some h) ->
  (aw_draws s <= aw_draws s')%N -> tokens_ok A s -> tokens_ok A s'.
Proof.
  intros Hu Hn [Hs Hl]. split; [|intros; apply (Hl k); lia || done].
  intros u h Hin Hh. destruct (Hu u h Hin Hh) as (v & Hv & Hid & Hvh).
  destruct (issued_mono _ _ _ _ _ Hn (Hs v h Hv Hvh)) as (salt & iat & p & k & ? & ? & ? & ? & ?).
  exists salt, iat, p, k. split_and!; try done. congruence.
Qed.

Lemma tokens_ok_weaken (A B : string -> Prop) s : (forall t, A t -> B t) -> tokens_ok A s -> tokens_ok B s.
Proof.
  intros HAB [Hs Hl]. split; [|eauto]. intros u h Hu Hh. destruct (Hs u h Hu Hh) as (salt & iat & p & k & ? & ? & ? & ? & ?).
  exists salt, iat, p, k. split_and!; auto.
Qed.

Lemma tokens_ok_frame A s s' :
  aw_users s' = aw_users s -> (aw_draws s <= aw_draws s')%N -> tokens_ok A s -> tokens_ok A s'.
Proof. intros Hu Hn. apply tokens_ok_step; [|done]. intros u h Hin Hh. rewrite Hu in Hin. eauto. Qed.

(** An update that keeps a row's id and keeps or clears its token. *)
Class KeepsToken (f : AuthUser -> AuthUser) : Prop :=
  keeps_token : forall u, au_id (f u) = au_id u /\ (au_refreshToken (f u) = au_refreshToken u \/ au_refreshToken (f u) = None).

Class KeepsId (f : AuthUser -> AuthUser) : Prop := keeps_id : forall u, au_id (f u) = au_id u.

Lemma elem_update_where {X} (P : X -> bool) f (l : list X) y :
  y ∈ update_where P f l -> exists x, x ∈ l /\ y = if P x then f x else x.
Proof. intros Hy. apply list_elem_of_fmap in Hy as (x & -> & Hx). eauto. Qed.

Lemma user_update_cases ctx id f s r s' :
  user_update ctx id f s = (r, s') ->
  (exists e, r = Err e /\ s' = s) \/
  (r = Ok tt /\ s' = with_tables (fun t => set_users_table
     (update_where (fun u => (au_id u === id) && scoped ctx (au_tenantId u)) f (at_users t)) t) s).
Proof.
  unfold user_update, bind, gets, throw_if, throw, modify. destruct (bool_decide _); intros [= <- <-]; eauto.
Qed.

Lemma tokens_user_update A ctx id f : KeepsToken f -> Preserves (tokens_ok A) (user_update ctx id f).
Proof.
  intros Hf s r s' E. apply user_update_cases in E as [(e & _ & ->)|[_ ->]]; [done|].
  apply tokens_ok_step; [|cbn; lia]. cbn. intros u h Hin Hh.
  apply elem_update_where in Hin as (v & Hv & ->). case_match; [|by eauto].
  destruct (Hf v) as [Hid [Ht|Ht]]; [|congruence]. exists v. split_and!; congruence || done.
Qed.
End Tokens.

#[export] Hint Extern 0 (KeepsToken _) =>
  intros ?; unfold changed_password; repeat case_match; split; first [reflexivity | left; reflexivity | right; reflexivity]
  : typeclass_instances.
#[export] Hint Extern 0 (KeepsId _) => intros ?; reflexivity : typeclass_instances.

(** ** Invariants of sign-in

    What an invariant has to survive for every handler to keep it.  A counter
    or a code lives at least the 15 minutes of a revoked token, and no key that
    is deleted is a revoked token's. *)
Definition harmless (s s' : AuthWorld) : Prop :=
  aw_users s' = aw_users s /\ aw_sessions s' = aw_sessions s /\ aw_redis s' = aw_redis s /\
  aw_clock s' = aw_clock s /\ aw_draws s' = aw_draws s.

Class Foreign (key : string) : Prop := foreign : forall jti, key <> blocklist_key jti.
#[export] Hint Extern 0 (Foreign _) => intros ?; discriminate : typeclass_instances.

Section Elementary.
Context `{Argon2, Jwt, Totp, AesGcm, RandomSource, AuthConfig, Sha256, UuidSource}.

Class AuthInvariant (I : AuthWorld -> Prop) : Prop := {
  inv_harmless : forall f, (forall s, harmless s (f s)) -> Preserves I (modify f);
  inv_draw : Preserves I draw;
  inv_setex : forall key v ttl, DEFAULT_TTL_SECONDS <= ttl -> Preserves I (redis_setex key v ttl);
  inv_incr : forall key ttl, DEFAULT_TTL_SECONDS <= ttl -> Preserves I (redis_incr key ttl);
  inv_del : forall key, Foreign key -> Preserves I (redis_del key);
  inv_user_update : forall ctx id f, KeepsToken f -> Preserves I (user_update ctx id f);
  inv_consumed : forall ctx u t p, Preserves I (Pin.markConsumed ctx u t p);
  inv_new_user : forall id hash_ at_ email t dto,
    Preserves I (modify (with_tables (fun tb => set_users_table (at_users tb ++ [new_user id hash_ at_ email t dto]) tb)));
  inv_revoke : forall P, Preserves I (Sessions.sessions_revoke P);
  inv_rotate : forall sid uid dev t, Preserves I (Sessions.rotateSession sid uid dev t);
  inv_issue : forall ctx u m also action, KeepsId also -> Preserves I (issueSession ctx u m also action);
  inv_reissue : forall u, Preserves I
    (let* '(accessToken, newToken, newHash) := new_pair u in
     refresh_store u newHash ;;
     ret (accessToken, newToken));
}.
End Elementary.

#[export] Hint Extern 2 (Preserves _ (modify _)) =>
  apply inv_harmless; intros ?; split_and!; reflexivity : typeclass_instances.
#[export] Hint Extern 1 (Preserves _ (redis_setex _ _ _)) => apply inv_setex; vm_compute; discriminate : typeclass_instances.
#[export] Hint Extern 1 (Preserves _ (redis_incr _ _)) => apply inv_incr; vm_compute; discriminate : typeclass_instances.
#[export] Existing Instances inv_draw inv_del inv_user_update inv_consumed inv_new_user inv_revoke inv_rotate inv_issue.

(** The end of an accepted exchange, run at once. *)
Lemma refresh_tail `{Argon2, Jwt, Totp, AesGcm, RandomSource, AuthConfig, Sha256, UuidSource} {A} user dev
    (k : string * string * string -> AM A) s :
  bind (refresh_prepare user dev) k s = (refresh_session user dev ;; bind (new_pair user) k) s.
Proof. unfold refresh_prepare, bind. by destruct (refresh_session user dev s) as [[?|?] ?]. Qed.

(** Every handler keeps such an invariant. *)
Section Handlers.
Context `{Argon2, Jwt, Totp, AesGcm, RandomSource, AuthConfig, Sha256, UuidSource}.
Context (I : AuthWorld -> Prop) `{!AuthInvariant I}.

#[local] Typeclasses Opaque bind gets ret throw throw_if or_throw modify foldM.

#[export] Instance inv_handling {X} (m : AM X) h :
  Preserves I m -> (forall e, Preserves I (h e)) -> Preserves I (handling m h).
Proof.
  intros Hm Hh s r s' E. unfold handling in E. destruct (m s) as [[a|e] s1] eqn:E1.
  - injection E as <- <-. exact (Hm _ _ _ E1).
  - intros Hs. exact (Hh e _ _ _ E (Hm _ _ _ E1 Hs)).
Qed.

#[export] Instance inv_otp_generate phone : Preserves I (Otp.generate phone).
Proof. unfold Otp.generate. apply _. Qed.
#[export] Instance inv_otp_validate phone code : Preserves I (Otp.validate phone code).
Proof. unfold Otp.validate, Otp.settle. apply _. Qed.
#[export] Instance inv_otp_delete phone : Preserves I (Otp.delete_otp phone).
Proof. unfold Otp.delete_otp. apply _. Qed.
#[export] Instance inv_pickChar cs : Preserves I (Pin.pickChar cs).
Proof. unfold Pin.pickChar. apply _. Qed.
#[export] Instance inv_pick_more n cs : Preserves I (Pin.pick_more n cs).
Proof. revert cs. induction n; intros cs; cbn; apply _. Qed.
#[export] Instance inv_shuffle n cs : Preserves I (Pin.shuffle n cs).
Proof. revert cs. induction n; intros cs; cbn [Pin.shuffle]; apply _. Qed.
#[export] Instance inv_issue_pin ctx u t p ip : Preserves I (Pin.generateAndIssuePin ctx u t p ip).
Proof.
  unfold Pin.generateAndIssuePin, Pin.generateCode, Pin.invalidateActivePins, Pin.pins_update, Pin.pin_create,
    Pin.dispatchSms, enqueueSms, now. apply _.
Qed.
#[export] Instance inv_validatePin ctx u t p pin : Preserves I (Pin.validatePin ctx u t p pin).
Proof. unfold Pin.validatePin, Pin.recordAttempts, Pin.pins_update. apply _. Qed.
#[export] Instance inv_blocklist jti : Preserves I (blocklist_add jti DEFAULT_TTL_SECONDS).
Proof. unfold blocklist_add. apply _. Qed.
#[export] Instance inv_policy t p : Preserves I (validatePassword t p).
Proof. unfold validatePassword. apply _. Qed.
#[export] Instance inv_age t p : Preserves I (validatePasswordAge t p).
Proof. unfold validatePasswordAge. apply _. Qed.
#[export] Instance inv_consume code codes : Preserves I (TwoFactor.consume_code code codes).
Proof. induction codes; cbn; apply _. Qed.
#[export] Instance inv_backup_codes n : Preserves I (TwoFactor.backup_codes n).
Proof. induction n; cbn; apply _. Qed.
#[export] Instance inv_verifyToken ctx u tok t : Preserves I (TwoFactor.verifyToken ctx u tok t).
Proof. unfold TwoFactor.verifyToken, TwoFactor.decrypt, TwoFactor.check_totp, now. apply _. Qed.
#[export] Instance inv_verifyBackup ctx u code : Preserves I (TwoFactor.verifyBackupCode ctx u code).
Proof. unfold TwoFactor.verifyBackupCode, auth_audit. apply _. Qed.
#[export] Instance inv_track t u ip : Preserves I (trackFailedAttempt t u ip).
Proof. unfold trackFailedAttempt, now. apply _. Qed.

#[export] Instance inv_audit a u r : Preserves I (auth_audit a u r).
Proof. unfold auth_audit. apply _. Qed.
#[export] Instance inv_sms a u r : Preserves I (enqueueSms a u r).
Proof. unfold enqueueSms. apply _. Qed.
#[export] Instance inv_check_account t u dto ip : Preserves I (check_account t u dto ip).
Proof. unfold check_account, login_failed, require_phone_check, unauthorized, now. apply _. Qed.
#[export] Instance inv_expire t u : Preserves I (expire_password t u).
Proof. unfold expire_password. apply _. Qed.
#[export] Instance inv_second_factor t u dto : Preserves I (second_factor t u dto).
Proof. unfold second_factor, now. apply _. Qed.
#[export] Instance inv_login dto t ip : Preserves I (login dto t ip).
Proof. unfold login, assertTenantAcceptsLogin, login_failed, unauthorized. apply _. Qed.
#[export] Instance inv_verifyPin phone pin t ip : Preserves I (verifyPin phone pin t ip).
Proof. unfold verifyPin, assertTenantAcceptsLogin, auth_audit, unauthorized. apply _. Qed.
#[export] Instance inv_verifyLoginOtp phone otp t ip : Preserves I (verifyLoginOtp phone otp t ip).
Proof. unfold verifyLoginOtp, assertTenantAcceptsLogin, auth_audit, unauthorized. apply _. Qed.
#[export] Instance inv_resend phone t : Preserves I (resendLoginOtp phone t).
Proof. unfold resendLoginOtp, enqueueSms, auth_audit. apply _. Qed.
#[export] Instance inv_logout u t jti : Preserves I (logout u t jti).
Proof. unfold logout, auth_audit. apply _. Qed.
#[export] Instance inv_forgot e t : Preserves I (forgotPassword e t).
Proof. unfold forgotPassword, assertLegacyAuthEndpointsEnabled, auth_audit, hash, now. apply _. Qed.
#[export] Instance inv_reset tok p t jti : Preserves I (resetPassword tok p t jti).
Proof. unfold resetPassword, assertLegacyAuthEndpointsEnabled, revoke_access, auth_audit, hash, now. apply _. Qed.
#[export] Instance inv_requestSms m i t ip : Preserves I (requestPasswordResetSms m i t ip).
Proof.
  unfold requestPasswordResetSms, assertLegacyAuthEndpointsEnabled, assertPasswordResetRequestAllowed.
  apply _.
Qed.
#[export] Instance inv_verifySms m i o p t : Preserves I (verifyPasswordResetSms m i o p t).
Proof. unfold verifyPasswordResetSms, assertLegacyAuthEndpointsEnabled, auth_audit, hash, now. apply _. Qed.
#[export] Instance inv_requestPin phone t ip : Preserves I (requestPasswordResetPin phone t ip).
Proof. unfold requestPasswordResetPin, Pin.assertIssuanceRateLimit, auth_audit. apply _. Qed.
#[export] Instance inv_confirmPin phone pin p t : Preserves I (confirmPasswordResetPin phone pin p t).
Proof. unfold confirmPasswordResetPin, auth_audit, hash, now. apply _. Qed.
#[export] Instance inv_change u t dto : Preserves I (changePassword u t dto).
Proof. unfold changePassword, check_current, revoke_access, auth_audit, unauthorized, hash, now. apply _. Qed.

#[export] Instance inv_refresh tok t dev : Preserves I (refreshToken tok t dev).
Proof.
  unfold refreshToken. apply preserves_bind; [unfold refresh_read, now; apply _|]. intros [user [|]]; cbn [negb].
  - intros s r s' E Hs. rewrite refresh_tail in E. revert E Hs. apply preserves_bind; [unfold refresh_session; apply _|].
    intros _. apply inv_reissue.
  - unfold refresh_reuse, revoke_everything, unauthorized. apply _.
Qed.
#[export] Instance inv_register dto t : Preserves I (register dto t).
Proof. unfold register, hash, now. apply _. Qed.
End Handlers.

(** An invariant of the sessions, Redis and the clock alone. *)
Section Elsewhere.
Context `{Argon2, Jwt, Totp, AesGcm, RandomSource, AuthConfig, Sha256, UuidSource}.
Context (I : AuthWorld -> Prop).
Hypothesis of_the_rest : forall s s',
  aw_sessions s' = aw_sessions s -> aw_redis s' = aw_redis s -> aw_clock s' = aw_clock s -> I s -> I s'.

#[local] Typeclasses Opaque bind gets ret throw throw_if or_throw modify foldM.

#[local] Instance rest_modify f :
  (forall s, aw_sessions (f s) = aw_sessions s /\ aw_redis (f s) = aw_redis s /\ aw_clock (f s) = aw_clock s) ->
  Preserves I (modify f).
Proof. intros Hf. apply preserves_modify. intros s. destruct (Hf s) as (? & ? & ?). by apply of_the_rest. Qed.
#[local] Hint Extern 3 (Preserves I (modify _)) =>
  apply rest_modify; intros ?; split_and!; reflexivity : typeclass_instances.
#[local] Instance rest_draw : Preserves I draw.
Proof. intros s r s' [= <- <-]. by apply of_the_rest. Qed.
#[local] Instance rest_user_update ctx id f : Preserves I (user_update ctx id f).
Proof. unfold user_update. apply _. Qed.
#[local] Instance rest_transaction {X} (m : AM X) :
  Frames aw_sessions m -> Preserves I m -> Preserves I (auth_transaction m).
Proof.
  intros Hf Hm s r s' E Hs. unfold auth_transaction in E. destruct (m s) as [[a|e] s1] eqn:E1; injection E as <- <-.
  - exact (Hm _ _ _ E1 Hs).
  - apply (of_the_rest s1); [|done|done|exact (Hm _ _ _ E1 Hs)]. symmetry. exact (frames_Ok aw_sessions m _ _ _ Hf E1).
Qed.

Lemma elsewhere_invariant :
  (forall key v ttl, DEFAULT_TTL_SECONDS <= ttl -> Preserves I (redis_setex key v ttl)) ->
  (forall key ttl, DEFAULT_TTL_SECONDS <= ttl -> Preserves I (redis_incr key ttl)) ->
  (forall key, Foreign key -> Preserves I (redis_del key)) ->
  (forall P, Preserves I (Sessions.sessions_revoke P)) ->
  (forall sid uid dev t, Preserves I (Sessions.rotateSession sid uid dev t)) ->
  AuthInvariant I.
Proof.
  intros Hset Hincr Hdel Hrev Hrot. split; try done; try apply _.
  - intros f Hf. apply rest_modify. intros s. by destruct (Hf s) as (_ & ? & ? & ? & _).
  - intros. unfold Pin.markConsumed, Pin.pins_update, now. apply rest_transaction; [|apply _].
    unfold user_update. apply _.
  - intros. unfold issueSession, generateTokens, hash, auth_audit, now. apply _.
  - intros. unfold new_pair, refresh_store, generateTokens, hash, auth_audit, now. apply _.
Qed.
End Elsewhere.

(** *** The stored refresh tokens *)
Section Rotation.
Context `{Argon2, Jwt, Totp, AesGcm, RandomSource, AuthConfig, Sha256, UuidSource}.
Variable A : string -> Prop.

#[local] Typeclasses Opaque bind gets ret throw throw_if or_throw modify foldM.
#[local] Hint Extern 3 (Preserves (tokens_ok _) (modify _)) =>
  apply preserves_modify; intros ?; apply tokens_ok_frame; [reflexivity | cbn; lia] : typeclass_instances.

#[local] Instance tokens_draw : Preserves (tokens_ok A) draw.
Proof. intros s r s' [= <- <-]. apply tokens_ok_frame; [done|cbn; lia]. Qed.
#[local] Instance tokens_transaction {X} (m : AM X) :
  Frames aw_draws m -> Preserves (tokens_ok A) m -> Preserves (tokens_ok A) (auth_transaction m).
Proof.
  intros Hf Hm s r s' E. unfold auth_transaction in E. destruct (m s) as [[a|e] s1] eqn:E1; injection E as <- <-.
  - exact (Hm _ _ _ E1).
  - apply tokens_ok_frame; [done|]. cbn. rewrite (frames_Ok aw_draws m _ _ _ Hf E1). lia.
Qed.
#[local] Instance frames_user_update ctx id f : Frames aw_draws (user_update ctx id f).
Proof. unfold user_update. apply _. Qed.

(** Storing the hash of a token just signed. *)
Lemma tokens_ok_store s s' ctx id (g : string -> AuthUser -> AuthUser) salt iat p k :
  let f := g (argon2_hash salt (refresh_token iat p)) in
  tokens_ok A s -> (aw_draws s <= k)%N -> (k < aw_draws s')%N -> jp_jti p = Some (uuid k) -> jp_sub p = id ->
  (forall x, au_id (f x) = au_id x /\ au_refreshToken (f x) = Some (argon2_hash salt (refresh_token iat p))) ->
  aw_users s' = update_where (fun u => (au_id u === id) && scoped ctx (au_tenantId u)) f (aw_users s) ->
  tokens_ok A s'.
Proof.
  intros f [Hs Hl] Hk Hn Hj Hid Hf Hu. split; [|intros k' iat' p' Hk' Hj'; apply (Hl k'); [lia|done]].
  intros u h Hin Hh. rewrite Hu in Hin. apply elem_update_where in Hin as (v & Hv & ->).
  destruct ((au_id v === id) && _) eqn:E.
  - reflect. destruct (Hf v) as [Hfi Hft]. exists salt, iat, p, k. split_and!; try done; [congruence..|].
    by apply (Hl k).
  - apply (issued_mono _ (aw_draws s)); [lia|]. by apply Hs.
Qed.

Lemma tokens_issue ctx u m also action :
  KeepsId also -> Preserves (tokens_ok A) (issueSession ctx u m also action).
Proof.
  intros Ha s r s' E Hs. unfold issueSession, generateTokens, hash, bind, draw, now, gets, ret in E.
  match type of E with context [user_update ?c ?i ?f ?s0] => destruct (user_update c i f s0) as [r1 s1] eqn:Eu end.
  apply user_update_cases in Eu as [(e & -> & ->)|[-> ->]]; injection E as <- <-.
  - apply (tokens_ok_frame A s); [done|cbn; lia|done].
  - apply (tokens_ok_store s _ ctx (au_id u) (fun h x => set_login h (aw_clock s) (also x)) (N.succ (aw_draws s))
      (aw_clock s / 1000) (access_payload u (uuid (aw_draws s))) (aw_draws s));
      [done|reflexivity|cbn; lia|reflexivity|reflexivity| |reflexivity].
    intros x. split; [apply Ha|reflexivity].
Qed.

Lemma tokens_reissue u : Preserves (tokens_ok A)
  (let* '(accessToken, newToken, newHash) := new_pair u in
   refresh_store u newHash ;;
   ret (accessToken, newToken)).
Proof.
  intros s r s' E Hs. unfold new_pair, refresh_store, generateTokens, hash, auth_audit, bind, draw, now, gets, ret in E.
  match type of E with context [user_update ?c ?i ?f ?s0] => destruct (user_update c i f s0) as [r1 s1] eqn:Eu end.
  apply user_update_cases in Eu as [(e & -> & ->)|[-> ->]]; injection E as <- <-.
  - apply (tokens_ok_frame A s); [done|cbn; lia|done].
  - apply (tokens_ok_store s _ None (au_id u) (fun h => set_refreshToken (Some h)) (N.succ (aw_draws s)) (aw_clock s / 1000)
      (access_payload u (uuid (aw_draws s))) (aw_draws s)); [done|reflexivity|cbn; lia|done..].
Qed.

#[export] Instance tokens_invariant : AuthInvariant (tokens_ok A).
Proof.
  split.
  - intros f Hf. apply preserves_modify. intros s. destruct (Hf s) as (Hu & _ & _ & _ & Hd).
    apply tokens_ok_frame; [done|lia].
  - apply _.
  - intros key v ttl _ s r s'. unfold redis_setex. case_match; intros [= <- <-]; [|done]. apply tokens_ok_frame; [done|cbn; lia].
  - intros key ttl _ s r s'. unfold redis_incr. repeat case_match; intros [= <- <-]; try done; (apply tokens_ok_frame; [done|cbn; lia]).
  - intros key _. apply preserves_modify. intros s. case_match; [|done]. apply tokens_ok_frame; [done|cbn; lia].
  - intros. by apply tokens_user_update.
  - intros. pose proof tokens_user_update. unfold Pin.markConsumed, Pin.pins_update, now. apply _.
  - intros. apply preserves_modify. intros s. apply tokens_ok_step; [|cbn; lia].
    cbn. intros u h Hin Hh. apply elem_of_app in Hin as [Hin|Hin]; [by eauto|].
    apply list_elem_of_singleton in Hin as ->. done.
  - intros. unfold Sessions.sessions_revoke. apply _.
  - intros. unfold Sessions.rotateSession, Sessions.createSession, Sessions.sessions_revoke, auth_audit, unauthorized, now.
    apply _.
  - intros. by apply tokens_issue.
  - intros. apply tokens_reissue.
Qed.
End Rotation.

(** Calls of the API, and what the rest of the system may do meanwhile: add
    and change users, but neither invent a refresh token nor move one to
    another user; time passes; Redis comes, goes and forgets. *)
Section Histories.
Context `{Argon2, Jwt, Totp, AesGcm, RandomSource, AuthConfig, Sha256, UuidSource}.

Inductive auth_op : forall X : Type, AM X -> Prop :=
| op_login dto t ip : auth_op _ (login dto t ip)
| op_verifyPin phone pin t ip : auth_op _ (verifyPin phone pin t ip)
| op_verifyLoginOtp phone otp t ip : auth_op _ (verifyLoginOtp phone otp t ip)
| op_resendLoginOtp phone t : auth_op _ (resendLoginOtp phone t)
| op_register dto t : auth_op _ (register dto t)
| op_refresh tok t dev : auth_op _ (refreshToken tok t dev)
| op_logout u t jti : auth_op _ (logout u t jti)
| op_forgot e t : auth_op _ (forgotPassword e t)
| op_reset tok p t jti : auth_op _ (resetPassword tok p t jti)
| op_requestSms m i t ip : auth_op _ (requestPasswordResetSms m i t ip)
| op_verifySms m i o p t : auth_op _ (verifyPasswordResetSms m i o p t)
| op_requestPin phone t ip : auth_op _ (requestPasswordResetPin phone t ip)
| op_confirmPin phone pin p t : auth_op _ (confirmPasswordResetPin phone pin p t)
| op_changePassword u t dto : auth_op _ (changePassword u t dto)
| op_rotate sid uid dev t : auth_op _ (Sessions.rotateSession sid uid dev t)
| op_enable ctx u t secret tok : auth_op _ (TwoFactor.verifyAndEnable ctx u t secret tok)
| op_backup_codes ctx u p tok : auth_op _ (TwoFactor.regenerate_route ctx u p tok)
| op_disable ctx u t p tok : auth_op _ (TwoFactor.disable_route ctx u t p tok).

Inductive auth_step (s s' : AuthWorld) : Prop :=
| step_call X (m : AM X) r : auth_op X m -> m s = (r, s') -> auth_step s s'
| step_elsewhere :
    (forall u h, u ∈ aw_users s' -> au_refreshToken u = Some h ->
      exists v, v ∈ aw_users s /\ au_id v = au_id u /\ au_refreshToken v = Some h) ->
    (aw_draws s <= aw_draws s')%N -> auth_step s s'.

#[local] Typeclasses Opaque bind gets ret throw throw_if or_throw modify foldM.

Lemma auth_op_invariant I X (m : AM X) : AuthInvariant I -> auth_op X m -> Preserves I m.
Proof.
  intros HI Hm. destruct Hm; try apply _;
    unfold TwoFactor.verifyAndEnable, TwoFactor.check_totp, TwoFactor.encrypt, TwoFactor.regenerate_route, TwoFactor.disable_route,
      TwoFactor.reauthenticate, TwoFactor.regenerateBackupCodes, TwoFactor.disable2FA, now; apply _.
Qed.

Lemma auth_steps_tokens A s s' : rtc auth_step s s' -> tokens_ok A s -> tokens_ok A s'.
Proof.
  induction 1 as [|s s1 s2 Hs _ IH]; [done|]. intros Hok. apply IH. destruct Hs as [X m r Hm E|Hu Hn].
  - exact (auth_op_invariant _ X m _ Hm _ _ _ E Hok).
  - by eapply tokens_ok_step.
Qed.

(** Nobody is signed in. *)
Definition signed_out (s : AuthWorld) : Prop := forall u, u ∈ aw_users s -> au_refreshToken u = None.

Lemma signed_out_tokens s : signed_out s -> tokens_ok (fun _ => True) s.
Proof. intros Hs. split; [|done]. intros u h Hu Hh. rewrite (Hs u Hu) in Hh. discriminate. Qed.

Lemma truthy_is o x : truthy o = Some x -> o = Some x.
Proof. destruct o as [y|]; [|done]. unfold truthy. by destruct (_ === _). Qed.

Lemma truthy_nonempty x : x <> "" -> truthy (Some x) = Some x.
Proof. intros Hx. unfold truthy. by rewrite (proj2 (same_false _ _) Hx). Qed.

Lemma validatePasswordAge_Ok t l s u s' :
  validatePasswordAge t l s = (Ok u, s') -> s' = s /\ password_too_old t l s = false.
Proof. unfold validatePasswordAge. intros Hr. by run_inv. Qed.

Lemma user_update_Ok ctx id f s u s' :
  user_update ctx id f s = (Ok u, s') ->
  s' = with_tables (fun t => set_users_table
    (update_where (fun u => (au_id u === id) && scoped ctx (au_tenantId u)) f (at_users t)) t) s.
Proof. intros Hr. by apply user_update_cases in Hr as [(e & ? & _)|[_ ->]]. Qed.

(** What each part of an exchange found and left. *)
Lemma refresh_read_Ok tok t s user b s' :
  refresh_read tok t s = (Ok (user, b), s') ->
  s' = s /\ exists payload stored,
    jwt_verify jwt_refreshSecret (aw_clock s) tok = Some payload /\
    user_findUnique None (jp_sub payload) s = Some user /\ au_accountStatus user = AS_ACTIVE /\
    au_refreshToken user = Some stored /\ argon2_verify stored tok = Some b /\
    (au_role user = SUPER_ADMIN \/ au_tenantId user = t).
Proof.
  unfold refresh_read. intros Hr. run_inv. unfold now in *. run_inv. inv_call validatePasswordAge_Ok as (-> & _).
  match goal with E : (_, _) = (user, b) |- _ => injection E as -> -> end.
  match goal with E : truthy _ = Some _ |- _ => apply truthy_is in E end.
  split; [done|]. do 2 eexists. reflect. split_and!; eassumption.
Qed.

Definition new_token (user : AuthUser) (s : AuthWorld) : string :=
  refresh_token (aw_clock s / 1000) (access_payload user (uuid (aw_draws s))).
Definition new_hash (user : AuthUser) (s : AuthWorld) : string := argon2_hash (N.succ (aw_draws s)) (new_token user s).
Definition new_access (user : AuthUser) (s : AuthWorld) : string :=
  jwt_sign jwt_secret (aw_clock s / 1000) accessExpiration (access_payload user (uuid (aw_draws s))).

Lemma new_pair_runs user s : exists s',
  new_pair user s = (Ok (new_access user s, new_token user s, new_hash user s), s') /\
  aw_draws s' = N.succ (N.succ (aw_draws s)) /\ aw_users s' = aw_users s /\ aw_clock s' = aw_clock s.
Proof. eexists. split; [reflexivity|done]. Qed.

Lemma refresh_session_Ok user dev s u s' :
  refresh_session user dev s = (Ok u, s') ->
  s' = s \/ exists device x i, dev = Some device /\ Sessions.newest_active (au_id user) s = Some x /\
    Sessions.rotateSession (rs_id x) (au_id user) device (au_tenantId user) s = (Ok i, s').
Proof.
  unfold refresh_session. destruct dev as [device|]; [|intros [= <- <-]; by left].
  unfold bind at 1, gets. destruct (Sessions.newest_active _ _); intros Hr; run_inv; [right|by left]. naive_solver.
Qed.

Lemma refresh_store_cases user h s r s' :
  refresh_store user h s = (r, s') ->
  (exists e, r = Err e /\ s' = s) \/
  (r = Ok tt /\ aw_draws s' = aw_draws s /\ aw_clock s' = aw_clock s /\
   aw_users s' = update_where (fun u => (au_id u === au_id user) && true) (set_refreshToken (Some h)) (aw_users s)).
Proof.
  unfold refresh_store, bind. destruct (user_update _ _ _ s) as [r1 s1] eqn:Eu.
  apply user_update_cases in Eu as [(e & -> & ->)|[-> ->]]; [intros [= <- <-]; left; eauto|].
  unfold auth_audit. intros [= <- <-]. by right.
Qed.

Lemma refresh_reuse_fails user s : is_ok (refresh_reuse user s).1 = false.
Proof.
  destruct (refresh_reuse user s) as [[r|e] s'] eqn:E; [exfalso|done]. unfold refresh_reuse, unauthorized in E. by run_inv.
Qed.

(** What a rotation found and left. *)
Lemma refreshToken_Ok tok t dev s r s' :
  refreshToken tok t dev s = (Ok r, s') ->
  exists payload user stored s1,
    jwt_verify jwt_refreshSecret (aw_clock s) tok = Some payload /\
    user_findUnique None (jp_sub payload) s = Some user /\ au_accountStatus user = AS_ACTIVE /\
    au_refreshToken user = Some stored /\ argon2_verify stored tok = Some true /\
    (au_role user = SUPER_ADMIN \/ au_tenantId user = t) /\
    (s1 = s \/ exists device x i, dev = Some device /\ Sessions.newest_active (au_id user) s = Some x /\
       Sessions.rotateSession (rs_id x) (au_id user) device (au_tenantId user) s = (Ok i, s1)) /\
    r = (new_access user s1, new_token user s1) /\
    aw_draws s' = N.succ (N.succ (aw_draws s1)) /\
    aw_users s' = update_where (fun u => (au_id u === au_id user) && true)
      (set_refreshToken (Some (new_hash user s1))) (aw_users s1).
Proof.
  unfold refreshToken. intros Hr. apply bind_Ok in Hr as ([user b] & s0 & Hread & Hr).
  apply refresh_read_Ok in Hread as (-> & payload & stored & Hv & Hu & Ha & Hst & Hb & Hrole).
  destruct b; cbn [negb] in Hr; [|by unfold refresh_reuse, unauthorized in Hr; run_inv].
  rewrite refresh_tail in Hr. apply bind_Ok in Hr as (u & s1 & Hs & Hr). apply refresh_session_Ok in Hs.
  destruct (new_pair_runs user s1) as (s2 & Hp & Hd & Hus & _). unfold bind at 1 in Hr. rewrite Hp in Hr.
  apply bind_Ok in Hr as (v & s3 & Hst' & Hret). apply refresh_store_cases in Hst' as [(e & [=] & _)|(_ & Hd3 & _ & Hu3)].
  injection Hret as <- <-. exists payload, user, stored, s1. split_and!; try done; congruence.
Qed.

(** Identifiers are only drawn forward. *)
Definition drawn (n : N) (s : AuthWorld) : Prop := (n < aw_draws s)%N.
#[local] Hint Extern 3 (Preserves (drawn _) (modify _)) =>
  apply preserves_modify; intros ?; exact (fun x => x) : typeclass_instances.
#[export] Instance drawn_invariant n : AuthInvariant (drawn n).
Proof.
  assert (forall s s', (aw_draws s <= aw_draws s')%N -> drawn n s -> drawn n s') as Hle by (unfold drawn; lia).
  assert (forall f, (forall s, (aw_draws s <= aw_draws (f s))%N) -> Preserves (drawn n) (modify f)) as Hm.
  { intros f Hf. apply preserves_modify. intros s. by apply Hle. }
  assert (Preserves (drawn n) draw) as Hd. { intros s r s' [= <- <-]. apply Hle. cbn. lia. }
  assert (forall ctx id f, Preserves (drawn n) (user_update ctx id f)) as Hu.
  { intros ctx id f s r s' E. apply user_update_cases in E as [(e & _ & ->)|[_ ->]]; [done|]. by apply Hle. }
  assert (forall P, Preserves (drawn n) (Sessions.sessions_revoke P)) as Hr by (intros P; by apply Hm).
  assert (forall a u r, Preserves (drawn n) (auth_audit a u r)) as Ha by (intros; by apply Hm).
  assert (forall X (m : AM X), Preserves (drawn n) m -> Preserves (drawn n) (auth_transaction m)) as Ht.
  { intros X m Hp s r s' E. unfold auth_transaction in E. destruct (m s) as [[a|e] s1] eqn:E1; injection E as <- <-; intros Hs;
      pose proof (Hp _ _ _ E1 Hs); [done|]. by apply (Hle s1). }
  assert (forall u, Preserves (drawn n) (generateTokens u)) as Hg by (intros u; unfold generateTokens, now; apply _).
  split; try done.
  - intros f Hf. apply Hm. intros s. destruct (Hf s) as (_ & _ & _ & _ & ->). lia.
  - intros key v ttl _ s r s'. unfold redis_setex. case_match; intros [= <- <-]; [|done]. by apply Hle.
  - intros key ttl _ s r s'. unfold redis_incr. repeat case_match; intros [= <- <-]; try done; by apply Hle.
  - intros key _. apply Hm. intros s. by case_match.
  - intros ctx u t p. unfold Pin.markConsumed, Pin.pins_update, now.
    apply Ht, preserves_bind; [apply _|]. intros at_. apply preserves_bind; [by apply Hm|]. intros _. apply Hu.
  - intros. by apply Hm.
  - intros sid uid dev t. unfold Sessions.rotateSession, Sessions.createSession, unauthorized, now. apply _.
  - intros. unfold issueSession, hash, now. apply _.
  - intros. unfold new_pair, refresh_store, hash. apply _.
Qed.

Lemma draws_monotone X (m : AM X) s r s' : (forall n, Preserves (drawn n) m) -> m s = (r, s') -> (aw_draws s <= aw_draws s')%N.
Proof.
  intros Hm E. destruct (N.eq_dec (aw_draws s) 0) as [->|Hne]; [lia|].
  specialize (Hm (N.pred (aw_draws s)) s r s' E). unfold drawn in Hm. lia.
Qed.

(** A rotation retires the token it was called with. *)
Lemma rotation_retires tok t dev s r s' :
  Inj (=) (=) uuid -> tokens_ok (fun _ => True) s -> refreshToken tok t dev s = (Ok r, s') ->
  tokens_ok (fun x => x <> tok) s'.
Proof.
  intros Hinj Hok Hr. apply refreshToken_Ok in Hr
    as (payload & user & stored & mid & _ & Hu & _ & Hst & Hv & _ & Hmid & _ & Hd & Hus).
  apply find_some_elem in Hu as [Hu _].
  destruct (tok_stored _ _ Hok user stored Hu Hst) as (salt & iat & p & k & -> & Hj & Hk & Hid & _).
  rewrite argon2_verify_hash in Hv. injection Hv as Hv. apply bool_decide_eq_true_1 in Hv. subst tok.
  assert (drawn k mid /\ tokens_ok (fun _ => True) mid) as [Hkm Hokm].
  { destruct Hmid as [->|(device & x & i & _ & _ & Hi)]; [done|]. split; [exact (inv_rotate _ _ _ _ _ _ _ Hi Hk)|].
    exact (inv_rotate _ _ _ _ _ _ _ Hi Hok). }
  unfold drawn in Hkm. split.
  - intros u h Hin Hh. rewrite Hus in Hin. apply elem_update_where in Hin as (v & Hin & ->).
    destruct ((au_id v === au_id user) && true) eqn:E; rewrite andb_true_r in E; reflect.
    + cbn in Hh. injection Hh as <-. do 3 eexists. exists (aw_draws mid). split_and!; [done|done|lia|cbn; congruence|].
      intros Heq. apply jwt_sign_inj in Heq. rewrite <- Heq in Hj. injection Hj as Hj%Hinj. lia.
    + destruct (tok_stored _ _ Hokm v h Hin Hh) as (salt' & iat' & p' & k' & -> & Hj' & Hk' & Hid' & _).
      exists salt', iat', p', k'. split_and!; try done; [lia|]. intros Heq. apply jwt_sign_inj in Heq. congruence.
  - intros k' iat' p' Hk' Hj' Heq. apply jwt_sign_inj in Heq. subst p'. rewrite Hj in Hj'. injection Hj' as Hj'%Hinj. lia.
Qed.

End Histories.

(** ** Exchanges that overlap

    The exchange of a refresh token is cut after the row is read, after the new
    pair is made and after its hash is stored; between two parts anything may
    happen, other exchanges of the same token included. *)
Section Exchanges.
Context `{Argon2, Jwt, Totp, AesGcm, RandomSource, AuthConfig, Sha256, UuidSource}.

(** An exchange under way: the token presented, the user it was accepted for,
    and the new token with its hash once they are made. *)
Record Exchange := mkExchange { ex_token : string; ex_user : AuthUser; ex_new : option (string * string) }.

Record Api := mkApi {
  api : AuthWorld;
  under_way : list Exchange;
  exchanged : list string;     (* tokens whose successor was stored *)
}.

Inductive api_step : Api -> Api -> Prop :=
  (* Any other call, run without interruption, and what happens elsewhere. *)
  | as_other s s' es spent : auth_step s s' -> api_step (mkApi s es spent) (mkApi s' es spent)
  (* An exchange begins: its token is the stored one ... *)
  | as_read s es spent tok t user s' :
      refresh_read tok t s = (Ok (user, true), s') ->
      api_step (mkApi s es spent) (mkApi s' (mkExchange tok user None :: es) spent)
  (* ... or is not, and everything is revoked, then or later ... *)
  | as_reuse s es spent user r s' : refresh_reuse user s = (r, s') -> api_step (mkApi s es spent) (mkApi s' es spent)
  (* ... its session is rotated, or not ... *)
  | as_session s es spent user dev r s' : refresh_session user dev s = (r, s') -> api_step (mkApi s es spent) (mkApi s' es spent)
  (* ... its new pair is made ... *)
  | as_pair s es1 tok user es2 spent a new h s' :
      new_pair user s = (Ok (a, new, h), s') ->
      api_step (mkApi s (es1 ++ mkExchange tok user None :: es2) spent)
               (mkApi s' (es1 ++ mkExchange tok user (Some (new, h)) :: es2) spent)
  (* ... and stored, in whatever order the exchanges get there. *)
  | as_store s es1 tok user new h es2 spent s' :
      refresh_store user h s = (Ok tt, s') ->
      api_step (mkApi s (es1 ++ mkExchange tok user (Some (new, h)) :: es2) spent) (mkApi s' (es1 ++ es2) (tok :: spent))
  (* An exchange fails or its process dies. *)
  | as_end s es1 e es2 spent : api_step (mkApi s (es1 ++ e :: es2) spent) (mkApi s (es1 ++ es2) spent).

Definition new_tokens (es : list Exchange) : list string :=
  omap (fun e => fst <$> ex_new e) es.
#[local] Arguments new_tokens : simpl never.

(** A token signed for [user] with an identifier drawn before [n]. *)
Definition signed_for (n : N) (user : AuthUser) (tok : string) : Prop :=
  exists iat p k, tok = refresh_token iat p /\ jp_jti p = Some (uuid k) /\ (k < n)%N /\ jp_sub p = au_id user.

Record api_ok (x : Api) : Prop := {
  ao_tokens : tokens_ok (fun t => ~ (t ∈ exchanged x ++ new_tokens (under_way x))) (api x);
  ao_presented : forall e, e ∈ under_way x -> signed_for (aw_draws (api x)) (ex_user e) (ex_token e);
  ao_new : forall e new h, e ∈ under_way x -> ex_new e = Some (new, h) ->
    (exists salt, h = argon2_hash salt new) /\ signed_for (aw_draws (api x)) (ex_user e) new /\
    (new ∉ exchanged x) /\ forall e', e' ∈ under_way x -> ex_token e' <> new;
  ao_distinct : NoDup (new_tokens (under_way x));
}.

Lemma signed_for_mono n n' user tok : (n <= n')%N -> signed_for n user tok -> signed_for n' user tok.
Proof. intros Hn (iat & p & k & ? & ? & ? & ?). exists iat, p, k. split_and!; try done. lia. Qed.

(** A token signed later is another one. *)
Lemma signed_fresh n user tok k iat p :
  Inj (=) (=) uuid -> signed_for n user tok -> (n <= k)%N -> jp_jti p = Some (uuid k) -> refresh_token iat p <> tok.
Proof.
  intros Hinj (iat' & p' & k' & -> & Hj' & Hk' & _) Hk Hj E. apply jwt_sign_inj in E. subst p'.
  rewrite Hj in Hj'. injection Hj' as Hj'%Hinj. lia.
Qed.

Lemma elem_of_new_tokens es new : new ∈ new_tokens es <-> exists e h, e ∈ es /\ ex_new e = Some (new, h).
Proof.
  unfold new_tokens. rewrite list_elem_of_omap. split.
  - intros (e & He & Hn). destruct (ex_new e) as [[x h]|] eqn:E; [|done]. injection Hn as <-. eauto.
  - intros (e & h & He & Hn). exists e. by rewrite Hn.
Qed.

(** The parts that neither make nor store a token. *)
Lemma api_ok_world s s' es spent :
  (forall A, tokens_ok A s -> tokens_ok A s') -> (aw_draws s <= aw_draws s')%N ->
  api_ok (mkApi s es spent) -> api_ok (mkApi s' es spent).
Proof.
  intros Hw Hd [Ht Hp Hn Hnd]. split; cbn in *; [by apply Hw| | |done].
  - intros e He. eapply signed_for_mono; [exact Hd|by apply Hp].
  - intros e new h He E. destruct (Hn e new h He E) as (Hh & Hs & Hsp & Hpr). split_and!; try done.
    by eapply signed_for_mono.
Qed.

Lemma api_ok_invariant {X} (m : AM X) s r s' es spent :
  (forall I, AuthInvariant I -> Preserves I m) -> m s = (r, s') -> api_ok (mkApi s es spent) -> api_ok (mkApi s' es spent).
Proof.
  intros Hm E. apply api_ok_world; [intros A; exact (Hm _ _ _ _ _ E)|].
  eapply (draws_monotone _ m); [|exact E]. intros n. apply Hm, _.
Qed.

Lemma auth_step_draws s s' : auth_step s s' -> (aw_draws s <= aw_draws s')%N.
Proof.
  intros [X m r Hm E|_ Hn]; [|done]. eapply (draws_monotone _ m); [|exact E].
  intros n. by eapply auth_op_invariant; [apply _|].
Qed.

(** A smaller system is as good. *)
Lemma api_ok_fewer s es1 e es2 spent : api_ok (mkApi s (es1 ++ e :: es2) spent) -> api_ok (mkApi s (es1 ++ es2) spent).
Proof.
  intros [Ht Hp Hn Hnd]; cbn in *. assert (forall x, x ∈ es1 ++ es2 -> x ∈ es1 ++ e :: es2) as Hin by set_solver.
  assert (sublist (new_tokens (es1 ++ es2)) (new_tokens (es1 ++ e :: es2))) as Hsub.
  { unfold new_tokens. rewrite !omap_app. apply sublist_app; [done|]. cbn. destruct (fst <$> ex_new e); [by apply sublist_cons|done]. }
  split; cbn.
  - eapply tokens_ok_weaken, Ht. intros t Hno [Hx|Hx]%elem_of_app; apply Hno, elem_of_app; [by left|right].
    by eapply elem_of_sublist.
  - auto.
  - intros x new h Hx E. destruct (Hn x new h (Hin x Hx) E) as (? & ? & ? & Hpr). split_and!; auto.
  - by eapply sublist_NoDup.
Qed.

Lemma read_presents s tok t user A n :
  tokens_ok A s -> refresh_read tok t s = (Ok (user, true), s) -> n = aw_draws s -> signed_for n user tok /\ A tok.
Proof.
  intros Ht (_ & payload & stored & _ & Hu & _ & Hst & Hv & _)%refresh_read_Ok ->.
  apply find_some_elem in Hu as [Hu _]. destruct (tok_stored _ _ Ht user stored Hu Hst) as (salt & iat & p & k & -> & ? & ? & ? & ?).
  rewrite argon2_verify_hash in Hv. injection Hv as Hv. apply bool_decide_eq_true_1 in Hv. subst tok.
  split; [|done]. by exists iat, p, k.
Qed.
(** The new pair of an exchange joins the system. *)
Lemma api_ok_pair s es1 tok user es2 spent a new h s' :
  Inj (=) (=) uuid -> new_pair user s = (Ok (a, new, h), s') ->
  api_ok (mkApi s (es1 ++ mkExchange tok user None :: es2) spent) ->
  api_ok (mkApi s' (es1 ++ mkExchange tok user (Some (new, h)) :: es2) spent).
Proof.
  intros Hinj E [Ht Hp Hn Hnd]; cbn [api under_way exchanged] in *. set (old := mkExchange tok user None) in *. set (e := mkExchange tok user (Some (new, h))).
  destruct (new_pair_runs user s) as (s1 & E1 & Hd & Hus & _). rewrite E1 in E. injection E as <- <- <- <-.
  assert (new_tokens (es1 ++ old :: es2) = new_tokens es1 ++ new_tokens es2) as Hold by (unfold new_tokens; by rewrite omap_app).
  assert (new_tokens (es1 ++ e :: es2) = new_tokens es1 ++ new_token user s :: new_tokens es2) as Hnew
    by (unfold new_tokens; by rewrite omap_app).
  rewrite Hold in Ht, Hnd. assert (signed_for (aw_draws s1) user (new_token user s)) as Hsig.
  { eexists _, _, (aw_draws s). split_and!; [reflexivity|reflexivity|rewrite Hd; lia|reflexivity]. }
  assert (forall u' t', signed_for (aw_draws s) u' t' -> new_token user s <> t') as Hfresh.
  { intros u' t' Ht'. eapply (signed_fresh _ _ _ (aw_draws s)); [done|exact Ht'|lia|done]. }
  pose proof (tok_later _ _ Ht (aw_draws s) (aw_clock s / 1000) (access_payload user (uuid (aw_draws s))) (N.le_refl _) eq_refl) as Hno.
  fold (new_token user s) in Hno. cbn beta in Hno.
  assert (forall u t, signed_for (aw_draws s) u t -> signed_for (aw_draws s1) u t) as Hmono.
  { intros u t. apply signed_for_mono. rewrite Hd. lia. }
  assert (forall x, x ∈ es1 ++ e :: es2 -> x = e \/ x ∈ es1 ++ old :: es2) as Hin by set_solver.
  assert (old ∈ es1 ++ old :: es2) as Hold' by set_solver.
  split; cbn.
  - rewrite Hnew. split.
    + intros u x Hu Hx. rewrite Hus in Hu. destruct (tok_stored _ _ Ht u x Hu Hx) as (salt & iat & p & k & -> & Hj & Hk & Hid & HA).
      exists salt, iat, p, k. split_and!; [done|done|lia|done|]. intros Hin'. apply HA.
      assert (refresh_token iat p <> new_token user s) as Hne by (intros Heq; eapply (Hfresh u); [by exists iat, p, k|done]).
      set_solver.
    + intros k iat p Hk Hj Hin'. apply (tok_later _ _ Ht k iat p); [lia|done|].
      assert (refresh_token iat p <> new_token user s) as Hne by (by eapply signed_fresh).
      set_solver.
  - intros x [->|Hx]%Hin; apply Hmono; [exact (Hp old Hold')|by apply Hp].
  - intros x n h' [->|Hx]%Hin Hex.
    + injection Hex as <- <-. split_and!; [by eexists|done|set_solver|].
      intros e' [->|He']%Hin; [apply not_eq_sym, (Hfresh user), (Hp old Hold')|apply not_eq_sym; by eapply Hfresh, Hp].
    + destruct (Hn x n h' Hx Hex) as (Hh & Hs & Hsp & Hpr). split_and!; [done| |done|].
      * by apply Hmono.
      * intros e' [->|He']%Hin; [exact (Hpr old Hold')|by apply Hpr].
  - rewrite Hnew. apply NoDup_app in Hnd as (H1' & H2' & H3'). apply NoDup_app. split_and!; [done| |].
    + intros x Hx [->|Hx']%elem_of_cons; [set_solver|by eapply H2'].
    + apply NoDup_cons. split; [set_solver|done].
Qed.

(** Its storing retires the token that was presented. *)
Lemma api_ok_store s es1 tok user new h es2 spent s' :
  Inj (=) (=) uuid -> refresh_store user h s = (Ok tt, s') ->
  api_ok (mkApi s (es1 ++ mkExchange tok user (Some (new, h)) :: es2) spent) ->
  api_ok (mkApi s' (es1 ++ es2) (tok :: spent)).
Proof.
  intros Hinj E Hok. pose proof (api_ok_fewer _ _ _ _ _ Hok) as [Ht Hp Hn Hnd]. destruct Hok as [_ Hp0 Hn0 Hnd0]; cbn [api under_way exchanged] in *.
  set (e := mkExchange tok user (Some (new, h))) in *. assert (e ∈ es1 ++ e :: es2) as He by set_solver.
  apply refresh_store_cases in E as [(x & [=] & _)|(_ & Hd & _ & Hus)].
  pose proof (Hp0 e He) as Htok. cbn in Htok. destruct (Hn0 e new h He eq_refl) as ([salt ->] & Hsig & Hsp & Hpr).
  assert (new ∉ new_tokens es1 ++ new_tokens es2) as Hno.
  { unfold new_tokens in *. rewrite omap_app in Hnd0. cbn in Hnd0. apply NoDup_app in Hnd0 as (_ & Hx & Hy).
    apply NoDup_cons in Hy as [Hy _]. set_solver. }
  assert (new_tokens (es1 ++ es2) = new_tokens es1 ++ new_tokens es2) as Happ by (unfold new_tokens; by rewrite omap_app).
  assert (forall x, x ∈ es1 ++ es2 -> x ∈ es1 ++ e :: es2) as Hin by set_solver.
  split; cbn.
  - split.
    + intros u x Hu Hx. rewrite Hus in Hu. apply elem_update_where in Hu as (v & Hv & ->). rewrite andb_true_r in *.
      destruct (au_id v === au_id user) eqn:Ev; reflect.
      * cbn in Hx. injection Hx as <-. destruct Hsig as (iat & p & k & -> & Hj & Hk & Hid).
        exists salt, iat, p, k. split_and!; [done|done|lia|exact (eq_trans Hid (eq_sym Ev))|]. rewrite Happ.
        intros [Heq|[Hx|Hx]%elem_of_app]%elem_of_cons; [by apply (Hpr e He)|done..].
      * destruct (tok_stored _ _ Ht v x Hv Hx) as (salt' & iat & p & k & -> & Hj & Hk & Hid & HA).
        exists salt', iat, p, k. split_and!; [done|done|lia|done|]. intros [Heq|Hx']%elem_of_cons; [|done].
        destruct Htok as (iat' & p' & k' & -> & _ & _ & Hid'). apply jwt_sign_inj in Heq. congruence.
    + intros k iat p Hk Hj [Heq|Hx]%elem_of_cons.
      * rewrite Hd in Hk. by eapply (signed_fresh (aw_draws s) user tok k iat p).
      * eapply (tok_later _ _ Ht k iat p); [lia|done|done].
  - intros x Hx. rewrite Hd. by apply Hp.
  - intros x n h' Hx Hex. rewrite Hd. destruct (Hn x n h' Hx Hex) as (Hh & Hs & Hsp' & Hpr'). split_and!; try done.
    intros [->|Hx']%elem_of_cons; [|done]. destruct (Hn0 x tok h' (Hin x Hx) Hex) as (_ & _ & _ & Hpr2). by apply (Hpr2 e He).
  - done.
Qed.

Lemma api_ok_step x y : Inj (=) (=) uuid -> api_step x y -> api_ok x -> api_ok y.
Proof.
  intros Hinj Hs Hok. destruct Hs as [s s' es spent Hs|s es spent tok t user s' E|s es spent user r s' E|s es spent user dev r s' E
    |s es1 tok user es2 spent a new h s' E|s es1 tok user new h es2 spent s' E|s es1 e es2 spent].
  - apply (api_ok_world s); [|by apply auth_step_draws|done]. intros A. by apply auth_steps_tokens, rtc_once.
  - assert (s' = s) as -> by (by apply refresh_read_Ok in E as [-> _]). destruct Hok as [Ht Hp Hn Hnd]; cbn [api under_way exchanged] in *.
    destruct (read_presents _ _ _ _ _ _ Ht E eq_refl) as [Hsig HA]. split; cbn; [done| | |done].
    + intros e [->|He]%elem_of_cons; [done|by apply Hp].
    + intros e new h [->|He]%elem_of_cons Hex; [done|]. destruct (Hn e new h He Hex) as (? & ? & ? & Hpr). split_and!; try done.
      intros e' [->|He']%elem_of_cons; [|by apply Hpr]. cbn. intros ->. apply HA, elem_of_app. right.
      apply elem_of_new_tokens. eauto.
  - eapply (api_ok_invariant (refresh_reuse user)); [|exact E|exact Hok]. intros I HI.
    unfold refresh_reuse, revoke_everything, unauthorized. apply _.
  - eapply (api_ok_invariant (refresh_session user dev)); [|exact E|exact Hok]. intros I HI. unfold refresh_session. apply _.
  - by eapply api_ok_pair.
  - by eapply api_ok_store.
  - by eapply api_ok_fewer.
Qed.

Lemma api_ok_start s : signed_out s -> api_ok (mkApi s [] []).
Proof.
  intros Hs. split; cbn; [|intros e He|intros e n h He|apply NoDup_nil_2]; [|by apply elem_of_nil in He..].
  eapply tokens_ok_weaken, signed_out_tokens, Hs. intros t _ Ht. by apply elem_of_nil in Ht.
Qed.

(** C8: A refresh token whose successor has been stored is never accepted
    again: however the parts of exchanges, those of the same token included,
    interleave with each other, with sign-ins, resets and changes of password
    and with failures, a presentation of it that begins after that is not found
    valid, and a whole call with it fails. *)
Theorem refresh_token_single_use s0 x tok :
  Inj (=) (=) uuid -> signed_out s0 -> rtc api_step (mkApi s0 [] []) x -> tok ∈ exchanged x ->
  (forall t user b, (refresh_read tok t (api x)).1 = Ok (user, b) -> b = false) /\
  (forall t dev, is_ok (refreshToken tok t dev (api x)).1 = false).
Proof.
  intros Hinj Hout Hs Htok. assert (api_ok x) as Hok.
  { pose proof (api_ok_start _ Hout) as Hok. induction Hs as [|x y z Hxy _ IH]; [done|]. by eapply IH, api_ok_step. }
  assert (forall t user b, (refresh_read tok t (api x)).1 = Ok (user, b) -> b = false) as Hread.
  { intros t user [|] E; [exfalso|done]. destruct (refresh_read tok t (api x)) as [r s'] eqn:Er. cbn in E. subst r.
    pose proof Er as [-> _]%refresh_read_Ok. destruct (read_presents _ _ _ _ _ _ (ao_tokens _ Hok) Er eq_refl) as [_ HA].
    apply HA, elem_of_app. by left. }
  split; [done|]. intros t dev. unfold refreshToken, bind at 1. specialize (Hread t).
  destruct (refresh_read tok t (api x)) as [[[user b]|e] s']; [|done].
  rewrite (Hread user b eq_refl). apply refresh_reuse_fails.
Qed.

(** Two presentations that both read before either stores are both accepted,
    and the pair the first one handed out dies with the second. *)
Theorem overlapping_exchanges_accepted tok t s user :
  refresh_read tok t s = (Ok (user, true), s) ->
  exists p1 s1 s2 p2 s3 s4,
    refresh_prepare user None s = (Ok p1, s1) /\ refresh_store user p1.2 s1 = (Ok tt, s2) /\
    refresh_prepare user None s2 = (Ok p2, s3) /\ refresh_store user p2.2 s3 = (Ok tt, s4) /\
    (forall u, u ∈ aw_users s4 -> au_id u = au_id user -> au_refreshToken u = Some p2.2).
Proof.
  intros (_ & payload & stored & _ & Hu & _)%refresh_read_Ok.
  assert (forall s' : AuthWorld, au_id <$> aw_users s' = au_id <$> aw_users s -> exists v, user_findUnique None (au_id user) s' = Some v) as Hfind.
  { intros s' Es. apply find_some_elem in Hu as [Hin Hid]. assert (au_id user ∈ au_id <$> aw_users s') as Hx
      by (rewrite Es; by apply list_elem_of_fmap_2). apply list_elem_of_fmap in Hx as (v & Ev & Hv).
    destruct (user_findUnique None (au_id user) s') as [w|] eqn:Ef; [by eexists|exfalso].
    apply list_elem_of_In in Hv. apply (List.find_none _ _ Ef) in Hv. cbn in Hv. by rewrite Ev, same_refl in Hv. }
  assert (forall h s', au_id <$> aw_users s' = au_id <$> aw_users s -> exists s'', refresh_store user h s' = (Ok tt, s'') /\
    aw_users s'' = update_where (fun u => (au_id u === au_id user) && true) (set_refreshToken (Some h)) (aw_users s')) as Hstore.
  { intros h s' Es. destruct (Hfind s' Es) as [v Hv]. unfold refresh_store, user_update, bind, gets, throw_if.
    rewrite Hv. by eexists. }
  assert (forall P f l, (forall v, au_id (f v) = au_id v) -> au_id <$> update_where P f l = au_id <$> l) as Hids.
  { intros P f l Hf. unfold update_where. rewrite <- list_fmap_compose. apply list_fmap_ext. intros i v _. cbn. by case_match. }
  destruct (new_pair_runs user s) as (s1 & E1 & _ & U1 & _).
  destruct (Hstore (new_hash user s) s1) as (s2 & E2 & U2); [by rewrite U1|].
  destruct (new_pair_runs user s2) as (s3 & E3 & _ & U3 & _).
  destruct (Hstore (new_hash user s2) s3) as (s4 & E4 & U4); [by rewrite U3, U2, Hids, U1|].
  eexists (_, _, _), s1, s2, (_, _, _), s3, s4. split_and!; [exact E1|exact E2|exact E3|exact E4|].
  intros u Hin Hid. rewrite U4 in Hin. apply elem_update_where in Hin as (v & _ & ->). rewrite andb_true_r in *.
  destruct (au_id v === au_id user) eqn:E; [done|]. reflect. congruence.
Qed.
End Exchanges.

(** ** Replays *)
Section Replay.
Context `{Argon2, Jwt, Totp, AesGcm, RandomSource, AuthConfig, Sha256, UuidSource}.

(** Without a stored token nothing is accepted for a user. *)
Lemma no_token_no_rotation tok t dev s payload :
  jwt_verify jwt_refreshSecret (aw_clock s) tok = Some payload ->
  (forall u, u ∈ aw_users s -> au_id u = jp_sub payload -> au_refreshToken u = None) ->
  is_ok (refreshToken tok t dev s).1 = false.
Proof.
  intros Hv Hn. destruct (refreshToken tok t dev s) as [[r|e] s'] eqn:E; [exfalso|done].
  apply refreshToken_Ok in E as (payload' & user & stored & mid & Hv' & Hu & _ & Hst & _).
  rewrite Hv in Hv'. injection Hv' as <-. apply find_some_elem in Hu as [Hin Hid]. reflect.
  rewrite (Hn user Hin) in Hst; [discriminate|tauto].
Qed.

(** The row a refresh token's call works on, and its being usable. *)
Record presentable (tok t : string) (s : AuthWorld) (user : AuthUser) (stored : string) : Prop := {
  pr_payload : exists payload, jwt_verify jwt_refreshSecret (aw_clock s) tok = Some payload /\
    user_findUnique None (jp_sub payload) s = Some user;
  pr_text : tok <> "";
  pr_active : au_accountStatus user = AS_ACTIVE;
  pr_stored : truthy (au_refreshToken user) = Some stored;
  pr_fresh : password_too_old (au_tenantId user) (au_lastPasswordChangeAt user) s = false;
  pr_tenant : au_role user = SUPER_ADMIN \/ au_tenantId user = t;
}.

Lemma user_findUnique_Some ctx id s u : user_findUnique ctx id s = Some u -> u ∈ aw_users s /\ au_id u = id.
Proof.
  intros Hu. apply find_some_elem in Hu as [Hin Hid]. apply andb_true_iff in Hid as [Hid _].
  apply bool_decide_eq_true_1 in Hid. done.
Qed.

(** A token that is not the stored one ends every session of its user. *)
Lemma refused_token_revokes tok t dev s user stored :
  presentable tok t s user stored -> argon2_verify stored tok = Some false ->
  exists s', refreshToken tok t dev s = (Err (Unauthorized "Invalid refresh token"), s') /\
    (forall u, u ∈ aw_users s' -> au_id u = au_id user -> au_refreshToken u = None) /\
    (forall x, x ∈ aw_sessions s' -> rs_userId x = au_id user -> rs_isRevoked x = true) /\
    aw_clock s' = aw_clock s.
Proof.
  intros [(payload & Hv & Hu) Htok Ha Hst Hage Ht] Hno.
  assert (user_findUnique None (au_id user) s = Some user) as Hu'
    by (by rewrite (proj2 (user_findUnique_Some _ _ _ _ Hu))).
  assert (negb (au_role user === SUPER_ADMIN) && negb (au_tenantId user === t) = false) as Hrole.
  { destruct Ht as [-> | ->]; rewrite same_refl; [done|]. by rewrite andb_false_r. }
  eexists. split; [|split; [|split]].
  - unfold refreshToken, refresh_read, refresh_reuse, validatePasswordAge, revoke_everything, unauthorized, auth_audit, Sessions.sessions_revoke,
      user_update, now, bind, gets, modify. rewrite (proj2 (same_false _ _) Htok). cbn [throw_if ret].
    rewrite Hv. cbn [or_throw ret]. rewrite Hu. cbn [or_throw ret]. rewrite Ha, same_refl. cbn [negb throw_if ret].
    rewrite Hst. cbn [or_throw ret]. rewrite Hage. cbn [throw_if ret]. rewrite Hrole. cbn [throw_if ret].
    rewrite Hno. cbn [or_throw ret negb].
    match goal with |- context [user_findUnique None _ ?s0] =>
      change (user_findUnique None (au_id user) s0) with (user_findUnique None (au_id user) s) end.
    rewrite Hu'. cbn. reflexivity.
  - cbn. intros u Hin Hid. apply elem_update_where in Hin as (v & _ & ->). rewrite andb_true_r in *.
    destruct (au_id v === au_id user) eqn:E; [done|]. reflect. congruence.
  - cbn. intros x Hin Hid. apply elem_update_where in Hin as (v & _ & ->).
    destruct (Sessions.unrevoked (au_id user) v) eqn:E; [done|]. unfold Sessions.unrevoked in E.
    rewrite Hid, same_refl in E. by destruct (rs_isRevoked v).
  - done.
Qed.

(** C15: A refresh token presented again, after it was exchanged and whatever
    happened in between, signs its user out everywhere: the call is refused, no
    refresh token is left on the user's row, every session of the user is
    revoked, and no refresh token signed for the user is accepted from the
    state it leaves. *)
Theorem replay_revokes_everything s0 s tok t dev r s1 s2 t' dev' user stored :
  Inj (=) (=) uuid -> signed_out s0 -> rtc auth_step s0 s ->
  refreshToken tok t dev s = (Ok r, s1) -> rtc auth_step s1 s2 ->
  presentable tok t' s2 user stored ->
  exists s3, refreshToken tok t' dev' s2 = (Err (Unauthorized "Invalid refresh token"), s3) /\
    (forall u, u ∈ aw_users s3 -> au_id u = au_id user -> au_refreshToken u = None) /\
    (forall x, x ∈ aw_sessions s3 -> rs_userId x = au_id user -> rs_isRevoked x = true) /\
    (forall tok' t'' dev'' payload,
       jwt_verify jwt_refreshSecret (aw_clock s3) tok' = Some payload -> jp_sub payload = au_id user ->
       is_ok (refreshToken tok' t'' dev'' s3).1 = false).
Proof.
  intros Hinj Hout H0s Hr H12 Hp. apply signed_out_tokens in Hout. apply (auth_steps_tokens _ _ _ H0s) in Hout.
  apply (rotation_retires _ _ _ _ _ _ Hinj Hout) in Hr. apply (auth_steps_tokens _ _ _ H12) in Hr.
  assert (argon2_verify stored tok = Some false) as Hno.
  { destruct Hp as [(payload & _ & Hu) _ _ Hst%truthy_is _ _]. apply user_findUnique_Some in Hu as [Hu _].
    destruct (tok_stored _ _ Hr user stored Hu Hst) as (salt & iat & p & k & -> & _ & _ & _ & Hne).
    rewrite argon2_verify_hash. f_equal. by apply same_false. }
  destruct (refused_token_revokes tok t' dev' s2 user stored Hp Hno) as (s3 & E & Hu & Hx & _).
  exists s3. split_and!; [done..|]. intros tok' t'' dev'' payload Hv Hsub.
  apply (no_token_no_rotation tok' t'' dev'' s3 payload Hv). intros u Hin Hid. apply Hu; congruence.
Qed.
End Replay.

(** ** Signing in by password *)
Section Login.
Context `{Argon2, Jwt, Totp, AesGcm, RandomSource, AuthConfig, Sha256, UuidSource}.

(** A search after an update that does not disturb it. *)
Lemma auth_find_updated {X} (P Q : X -> bool) f (l : list X) :
  (forall x, P (f x) = P x) ->
  List.find P (update_where Q f l) = (fun x => if Q x then f x else x) <$> List.find P l.
Proof.
  intros Hf. unfold update_where in *. induction l as [|x l IH]; [done|]. cbn [List.find fmap list_fmap]. rewrite IH.
  destruct (Q x) eqn:E; rewrite ?Hf; destruct (P x); cbn; rewrite ?E; done.
Qed.

(** Every check of the account in a sign-in that went on. *)
Record account_ok (user : AuthUser) (dto : LoginDto) (at_ : Z) : Prop := {
  ao_active : au_accountStatus user = AS_ACTIVE;
  ao_onboarded : au_pinLoginRequired user = false;
  ao_password : argon2_verify (au_passwordHash user) (ld_password dto) = Some true;
  ao_temporary : temp_expired user at_ = false;
  ao_phone : needs_phone_check user = false;
  ao_email : feature_on "emailVerificationEnforced" = true -> au_emailVerified user = true;
}.

Lemma check_account_Ok tenantId user dto ip s x s' :
  check_account tenantId user dto ip s = (Ok x, s') -> s' = s /\ account_ok user dto (aw_clock s).
Proof.
  unfold check_account, unauthorized, now. intros Hr.
  destruct (au_accountStatus user === AS_ACTIVE) eqn:E1; cbn [negb] in Hr; [|by run_inv].
  destruct (au_pinLoginRequired user) eqn:E2; [by run_inv|].
  destruct (verifyPassword _ _) eqn:E3; cbn [negb] in Hr; [|by run_inv].
  unfold bind, gets, ret in Hr.
  destruct (temp_expired user (aw_clock s)) eqn:E4; [done|].
  destruct (needs_phone_check user) eqn:E5.
  { exfalso. destruct (require_phone_check user s) as [[u0|e0] s0] eqn:E; [|done]. clear Hr. unfold require_phone_check in E. by run_inv. }
  destruct (feature_on _ && _) eqn:E6; [done|]. injection Hr as _ <-. split; [done|]. split; try done.
  - by apply bool_decide_eq_true_1 in E1.
  - unfold verifyPassword in E3. by destruct (argon2_verify _ _) as [[]|].
  - intros Hf. rewrite Hf in E6. by destruct (au_emailVerified user).
Qed.

(** What an expired password changes: at most a flag on the user's row. *)
Lemma expire_password_Ok tenantId user s b s' :
  expire_password tenantId user s = (Ok b, s') ->
  b = au_mustChangePassword user || password_too_old tenantId (au_lastPasswordChangeAt user) s /\
  aw_tenants s' = aw_tenants s /\ aw_clock s' = aw_clock s /\
  (forall v, v ∈ aw_users s' -> exists u, u ∈ aw_users s /\ (v = u \/ v = set_mustChangePassword u)).
Proof.
  unfold expire_password. intros Hr. unfold bind at 1, gets at 1 in Hr.
  set (old := password_too_old tenantId (au_lastPasswordChangeAt user) s) in *.
  destruct (old && negb (au_mustChangePassword user)) eqn:E.
  - apply andb_true_iff in E as [-> _]. rewrite orb_true_r.
    unfold handling, bind, auth_audit, modify, ret in Hr.
    destruct (user_update _ _ _ s) as [r1 s1] eqn:Eu.
    apply user_update_cases in Eu as [(e & -> & ->)|[-> ->]]; injection Hr as <- <-; (split_and!; [done..|]).
    + intros v Hv. exists v. auto.
    + intros v Hv. apply elem_update_where in Hv as (u & Hu & ->). exists u. split; [done|]. case_match; auto.
  - injection Hr as <- <-. split_and!; try done.
    + by destruct old, (au_mustChangePassword user).
    + intros v Hv. exists v. auto.
Qed.

(** A second factor that was shown, of a user of the request's tenant: a backup
    code still on the list, else a code of the authenticator to which the
    library's answer is truthy. *)
Definition factor_shown (tenantId : string) (user : AuthUser) (dto : LoginDto) (at_ : Z) : Prop :=
  au_tenantId user = tenantId /\
  match truthy (ld_backupCode dto) with
  | Some code => exists c, c ∈ sf_backupCodes (au_secondFactor user) /\ argon2_verify c code = Some true
  | None => exists token sealed secret, truthy (ld_totpToken dto) = Some token /\
      sf_totpSecret (au_secondFactor user) = Some sealed /\
      gcm_open (TwoFactor.getTenantKey tenantId).1 (ep_body sealed) = Some secret /\
      exists answer, totp_verify token secret at_ = Some answer /\ TwoFactor.is_truthy answer = true
  end.

Lemma consume_code_Some code codes s left_ s' :
  TwoFactor.consume_code code codes s = (Ok (Some left_), s') ->
  s' = s /\ exists c, c ∈ codes /\ argon2_verify c code = Some true.
Proof.
  revert left_. induction codes as [|c codes IH]; intros left_ Hr; cbn in Hr; [by run_inv|].
  unfold bind at 1 in Hr. destruct (argon2_verify c code) as [v|] eqn:Ev; cbn in Hr; [|done].
  destruct v; cbn in Hr.
  - injection Hr as _ <-. split; [done|]. exists c. split; [by left|done].
  - unfold bind in Hr. destruct (TwoFactor.consume_code code codes s) as [[[l|]|e] s1] eqn:E; try done.
    injection Hr as _ <-. destruct (IH l eq_refl) as (-> & c' & Hc & Hv). split; [done|]. exists c'. split; [by right|done].
Qed.

Lemma verifyBackupCode_Ok ctx id code s x s' :
  TwoFactor.verifyBackupCode ctx id code s = (Ok x, s') ->
  exists u c, user_findUnique ctx id s = Some u /\ c ∈ sf_backupCodes (au_secondFactor u) /\
    argon2_verify c code = Some true.
Proof.
  unfold TwoFactor.verifyBackupCode. intros Hr. unfold bind at 1, gets at 1 in Hr.
  destruct (user_findUnique ctx id s) as [u|] eqn:Eu; [|done]. unfold bind at 1 in Hr. cbn [or_throw ret] in Hr.
  unfold bind at 1 in Hr. destruct (TwoFactor.consume_code _ _ s) as [[[l|]|e] s1] eqn:E; try done.
  apply consume_code_Some in E as (_ & c & Hc & Hv). eauto.
Qed.

Lemma verifyToken_Ok t id token s x s' :
  TwoFactor.verifyToken (Some t) id token t s = (Ok x, s') ->
  exists u sealed secret, user_findUnique (Some t) id s = Some u /\ sf_totpSecret (au_secondFactor u) = Some sealed /\
    gcm_open (TwoFactor.getTenantKey t).1 (ep_body sealed) = Some secret /\
    exists answer, totp_verify token secret (aw_clock s) = Some answer /\ TwoFactor.is_truthy answer = true.
Proof.
  unfold TwoFactor.verifyToken, TwoFactor.decrypt, TwoFactor.check_totp, now. intros Hr. unfold bind at 1, gets at 1 in Hr. cbn [default] in Hr.
  assert (forall u, (au_id u === id) && (t === au_tenantId u) && scoped (Some t) (au_tenantId u)
    = (au_id u === id) && scoped (Some t) (au_tenantId u)) as Hsame.
  { intros u. cbn. destruct (au_id u === id), (t === au_tenantId u) eqn:E; cbn; try done.
    symmetry. apply bool_decide_eq_false_2. apply bool_decide_eq_false_1 in E. congruence. }
  unfold user_findUnique, user_findFirst in *. rewrite (find_ext _ _ _ Hsame) in Hr.
  destruct (List.find _ _) as [u|] eqn:Eu; [|done]. unfold bind at 1 in Hr. cbn [or_throw ret] in Hr.
  destruct (sf_totpSecret (au_secondFactor u)) as [sealed|] eqn:Es; [|done]. run_inv. reflect.
  simplify_eq. do 3 eexists. split_and!; [done..|]. eauto.
Qed.

Lemma second_factor_Ok t user dto s x s' s0 :
  NoDup (au_id <$> aw_users s0) -> user ∈ aw_users s0 ->
  (forall v, v ∈ aw_users s -> exists u, u ∈ aw_users s0 /\ (v = u \/ v = set_mustChangePassword u)) ->
  second_factor t user dto s = (Ok x, s') ->
  (sf_enabled (au_secondFactor user) = true -> factor_shown t user dto (aw_clock s)) /\
  (json_true (tenant_setting t ["security"; "require2FA"] s) = true -> sf_enabled (au_secondFactor user) = true).
Proof.
  intros Hnd Hin Hrows Hr.
  assert (forall v, user_findUnique (Some t) (au_id user) s = Some v ->
    au_tenantId user = t /\ au_secondFactor v = au_secondFactor user) as Hfound.
  { intros v Hv. assert (au_tenantId v = t) as Ht.
    { apply find_some_elem in Hv as [_ Hv]. apply andb_true_iff in Hv as [_ Hv]. by apply bool_decide_eq_true_1 in Hv. }
    apply user_findUnique_Some in Hv as [Hv Hid]. destruct (Hrows v Hv) as (u & Hu & Hvu).
    assert (u = user) as -> by (eapply (NoDup_key_inj au_id); [done..|]; by destruct Hvu; subst).
    by destruct Hvu; subst. }
  unfold second_factor in Hr. destruct (sf_enabled (au_secondFactor user)) eqn:Ee; (split; [|done || intros Hreq]).
  - intros _. unfold factor_shown. destruct (truthy (ld_backupCode dto)) as [code|] eqn:Eb.
    + assert (TwoFactor.verifyBackupCode (Some t) (au_id user) code s = (Ok x, s')) as Hc by (by case_match).
      apply verifyBackupCode_Ok in Hc as (v & c & Hv & Hc & Hver). destruct (Hfound v Hv) as [-> <-]. eauto.
    + destruct (truthy (ld_totpToken dto)) as [token|] eqn:Et; [|done].
      apply verifyToken_Ok in Hr as (v & sealed & secret & Hv & Hs & Ho & Hver). destruct (Hfound v Hv) as [-> <-].
      split; [done|]. by exists token, sealed, secret.
  - done.
  - unfold bind at 1, gets at 1 in Hr. rewrite Hreq in Hr. done.
Qed.

(** What a sign-in leaves: the hash of the refresh token it answers with. *)
Lemma issueSession_Ok u m also action s resp s' :
  KeepsId also ->
  issueSession None u m also action s = (Ok resp, s') ->
  lr_requiresPasswordChange resp = m /\ lr_user resp = toUserDto u m /\
  jwt_verify jwt_secret (aw_clock s) (lr_accessToken resp) =
    (if 0 <? accessExpiration then Some (access_payload u (uuid (aw_draws s))) else None) /\
  exists row h, user_findUnique None (au_id u) s' = Some row /\ au_refreshToken row = Some h /\
    argon2_verify h (lr_refreshToken resp) = Some true /\ au_lastLoginAt row = Some (aw_clock s).
Proof.
  intros Ha. unfold issueSession, generateTokens, hash, bind at 1, bind, draw, now, gets, ret. intros Hr.
  match type of Hr with context [user_update ?c ?i ?f ?s0] => destruct (user_update c i f s0) as [r1 s1] eqn:Eu end.
  pose proof Eu as Efound. apply user_update_cases in Eu as [(e & -> & ->)|[-> ->]]; [done|]. injection Hr as <- <-. cbn.
  split_and!; [done..| |].
  - rewrite jwt_verify_sign, same_refl. cbn. destruct (0 <? accessExpiration) eqn:E; reflect.
    + by rewrite (proj2 (Z.ltb_lt _ _)) by lia.
    + by rewrite (proj2 (Z.ltb_ge _ _)) by lia.
  - unfold user_update, bind, gets, throw_if, throw in Efound.
    match type of Efound with context [user_findUnique None ?i ?s0] =>
      change (user_findUnique None i s0) with (user_findUnique None i s) in Efound end.
    destruct (user_findUnique None (au_id u) s) as [v|] eqn:Ev; [clear Efound|done].
    unfold user_findUnique, user_findFirst in *. cbn. rewrite auth_find_updated.
    2: { intros y. cbn. by rewrite (Ha y). }
    unfold aw_users in Ev. cbn in Ev. rewrite Ev. cbn. apply find_some_elem in Ev as [_ Ev]. rewrite Ev.
    do 2 eexists. split_and!; [done|done| |done]. rewrite argon2_verify_hash. by rewrite same_refl.
Qed.

(** C7: Signing in by password takes everything it should.  When [login]
    answers with tokens: the tenant is active; the user carries the address or
    phone, belongs to the tenant or is a super administrator, is ACTIVE and past
    PIN onboarding; the password verifies, and is no expired temporary one; the
    phone is verified where it must be; with 2FA enrolled a backup code was
    shown, or a code to which the TOTP library's answer is truthy, in the user's
    own tenant; where the
    tenant requires 2FA the user has it.  The answer asks for a new password
    exactly when the row does or the password is past its age, and the row now
    stores the hash of the refresh token of the answer. *)
Theorem login_sound dto tenantId ip s resp s' :
  NoDup (au_id <$> aw_users s) -> login dto tenantId ip s = (Ok resp, s') ->
  exists user,
    (let '(email, phone) := login_identifier dto in login_candidate tenantId email phone s = Some user) /\
    from_option tn_isActive false (aw_tenants s !! tenantId) = true /\
    reachable_from tenantId user = true /\ account_ok user dto (aw_clock s) /\
    (sf_enabled (au_secondFactor user) = true -> factor_shown tenantId user dto (aw_clock s)) /\
    (json_true (tenant_setting tenantId ["security"; "require2FA"] s) = true ->
      sf_enabled (au_secondFactor user) = true) /\
    lr_requiresPasswordChange resp =
      au_mustChangePassword user || password_too_old tenantId (au_lastPasswordChangeAt user) s /\
    exists row h, user_findUnique None (au_id user) s' = Some row /\ au_refreshToken row = Some h /\
      argon2_verify h (lr_refreshToken resp) = Some true.
Proof.
  intros Hnd Hr. unfold login, assertTenantAcceptsLogin in Hr. destruct (login_identifier dto) as [email phone].
  unfold bind at 1 2, gets at 1 in Hr.
  destruct (from_option tn_isActive false (aw_tenants s !! tenantId)) eqn:Et; [|done]. cbn [negb throw_if ret] in Hr.
  unfold bind at 1 in Hr. destruct (first_of email phone) as [idf|]; [|done]. cbn [or_throw ret] in Hr.
  unfold bind at 1, gets at 1 in Hr. destruct (login_candidate tenantId email phone s) as [user|] eqn:Ec; [|by run_inv].
  pose proof Ec as Eu. apply find_some_elem in Eu as [Hin Eu].
  apply andb_true_iff in Eu as [[_ Hreach]%andb_true_iff _]. exists user.
  unfold bind at 1 in Hr. destruct (check_account _ _ _ _ s) as [[u0|e0] s0] eqn:E1; [|done].
  apply check_account_Ok in E1 as [-> Hok].
  unfold bind at 1 in Hr. destruct (expire_password tenantId user s) as [[m|e1] s1] eqn:E2; [|done].
  apply expire_password_Ok in E2 as (-> & Htn & Hclock & Hrows).
  unfold bind at 1 in Hr. destruct (second_factor tenantId user dto s1) as [[u2|e2] s2] eqn:E3; [|done].
  apply (second_factor_Ok _ _ _ _ _ _ s) in E3 as [Hf Hreq]; [|done..].
  rewrite Hclock in Hf. unfold tenant_setting in *. rewrite Htn in Hreq.
  apply issueSession_Ok in Hr as (-> & _ & _ & row & h & Hrow & Hh & Hv & _); [|by intros ?].
  split_and!; try done. by exists row, h.
Qed.

(** Signing in with a code of the authenticator. *)
Definition with_code (dto : LoginDto) (token : string) : LoginDto :=
  mkLoginDto (ld_email dto) (ld_phone dto) (ld_password dto) (Some token) None.

Definition answers_alike (token token' : string) : Prop := forall secret t,
  (totp_verify token secret t = None /\ totp_verify token' secret t = None) \/
  (exists v v', totp_verify token secret t = Some (TA_object v) /\ totp_verify token' secret t = Some (TA_object v')).

Lemma alike_sym token token' : answers_alike token token' -> answers_alike token' token.
Proof. intros Hl secret t. destruct (Hl secret t) as [[? ?]|(v & v' & ? & ?)]; [by left|right; eauto]. Qed.

Lemma check_totp_alike token token' secret s :
  answers_alike token token' -> TwoFactor.check_totp token secret s = TwoFactor.check_totp token' secret s.
Proof.
  intros Hl. unfold TwoFactor.check_totp, now, bind, gets.
  destruct (Hl secret (aw_clock s)) as [[-> ->]|(v & v' & -> & ->)]; done.
Qed.

Lemma second_factor_alike tenantId user dto token token' s :
  token <> "" -> token' <> "" -> answers_alike token token' ->
  second_factor tenantId user (with_code dto token) s = second_factor tenantId user (with_code dto token') s.
Proof.
  intros Hn Hn' Hl. unfold second_factor. destruct (sf_enabled _); [|done]. unfold with_code. cbn [ld_totpToken ld_backupCode].
  rewrite !truthy_nonempty by done. cbn [truthy]. unfold TwoFactor.verifyToken.
  do 5 (apply (bind_agree (fun _ => True)); [done|done|intros ? ? _]). by apply check_totp_alike.
Qed.

(** C34: With the answers of the installed TOTP library, an object that is true
    whatever it says, the code of the authenticator decides nothing: signing in
    with any code the library can read gives what signing in with the right code
    gives, tokens included.  So the second factor of an enrolled user is passed
    by any six digits. *)
Theorem any_totp_code_signs_in dto right wrong tenantId ip s :
  right <> "" -> wrong <> "" -> answers_alike right wrong ->
  login (with_code dto wrong) tenantId ip s = login (with_code dto right) tenantId ip s.
Proof.
  intros Hr Hw Hl. unfold login. change (login_identifier (with_code dto wrong)) with (login_identifier (with_code dto right)).
  destruct (login_identifier (with_code dto right)) as [email phone].
  repeat (apply (bind_agree (fun _ => True)); [done|done|intros ? ? _]).
  case_match; [|done].
  repeat (apply (bind_agree (fun _ => True)); [done|done|intros ? ? _]).
  rewrite (bind_cong _ _ _ _ (second_factor_alike tenantId _ dto wrong right _ Hw Hr (alike_sym _ _ Hl))). done.
Qed.
End Login.

(** ** Sessions that never begin *)
Section NoSessions.
Context `{Argon2, Jwt, Totp, AesGcm, RandomSource, AuthConfig, Sha256, UuidSource}.

Definition no_sessions (s : AuthWorld) : Prop := aw_sessions s = [].

#[local] Instance no_sessions_rotate sid uid dev t : Preserves no_sessions (Sessions.rotateSession sid uid dev t).
Proof.
  intros s r s' E Hs. unfold Sessions.rotateSession, bind at 1, gets at 1, Sessions.session_by_id in E.
  rewrite Hs in E. cbn in E. by injection E as _ <-.
Qed.

#[local] Instance no_sessions_invariant : AuthInvariant no_sessions.
Proof.
  apply elsewhere_invariant; unfold no_sessions.
  - intros s s' -> _ _. done.
  - intros key v ttl _ s r s'. unfold redis_setex. case_match; by intros [= <- <-].
  - intros key ttl _ s r s'. unfold redis_incr. repeat case_match; by intros [= <- <-].
  - intros key _. apply preserves_modify. intros s. by case_match.
  - intros P. apply preserves_modify. intros s. unfold aw_sessions. cbn. by intros ->.
  - apply no_sessions_rotate.
Qed.

(** A run of calls of the API and of changes that leave the sessions alone. *)
Inductive session_step (s s' : AuthWorld) : Prop :=
| ss_call X (m : AM X) r : auth_op X m -> m s = (r, s') -> session_step s s'
| ss_elsewhere : aw_sessions s' = aw_sessions s -> session_step s s'.

(** No sign-in ever begins a refresh session.  The only call that creates
    one is the rotation of a session that exists, so from a database without
    sessions every run of the API stays without: the limit of three devices and
    the device check never apply, and every rotation of a refresh token is
    made without them. *)
Theorem no_session_ever_begins s s' :
  aw_sessions s = [] -> rtc session_step s s' ->
  aw_sessions s' = [] /\
  (forall tok t device, refreshToken tok t (Some device) s' = refreshToken tok t None s').
Proof.
  intros Hs Hrun. assert (no_sessions s') as Hn.
  { induction Hrun as [|s s1 s2 Hstep _ IH]; [done|]. apply IH. destruct Hstep as [X m r Hm E|E].
    - exact (auth_op_invariant no_sessions X m _ Hm _ _ _ E Hs).
    - by rewrite E. }
  split; [done|]. intros tok t device. clear s Hs Hrun. unfold refreshToken.
  apply (bind_agree no_sessions); [unfold refresh_read, validatePasswordAge, now; apply _|exact Hn|].
  clear s' Hn. intros [user b] s' Hn. case_match; [done|]. rewrite !refresh_tail. unfold refresh_session, bind at 1 2 3, gets at 1.
  unfold Sessions.newest_active. rewrite Hn. done.
Qed.
End NoSessions.

(** ** Access tokens that were signed out *)
Section Revoked.
Context `{Argon2, Jwt, Totp, AesGcm, RandomSource, AuthConfig, Sha256, UuidSource}.

(** Redis keeps the entry of a revoked token until [until], which is at most
    the 15 minutes of an entry made now. *)
Definition blocked_until (jti : string) (until : Z) (s : AuthWorld) : Prop :=
  until <= aw_clock s + DEFAULT_TTL_SECONDS * 1000 /\
  exists e, aw_redis s !! blocklist_key jti = Some e /\ (forall t, re_expiresAt e = Some t -> until <= t).

Section Kept.
Variables (jti : string) (until : Z).
Abbreviation I := (blocked_until jti until).
#[local] Typeclasses Opaque bind gets ret throw throw_if or_throw modify foldM.

Lemma blocked_rest s s' :
  aw_sessions s' = aw_sessions s -> aw_redis s' = aw_redis s -> aw_clock s' = aw_clock s -> I s -> I s'.
Proof. intros _ Hr Hc [Hu He]. unfold blocked_until. rewrite Hr, Hc. done. Qed.

Lemma blocked_write s key v t :
  (key = blocklist_key jti -> forall x, t = Some x -> until <= x) -> I s -> I (with_redis <[key := mkEntry v t]> s).
Proof.
  intros Ht [Hu (e & He & Hl)]. split; [done|]. cbn. destruct (decide (key = blocklist_key jti)) as [->|Hne].
  - eexists. split; [apply lookup_insert_eq|]. by apply Ht.
  - exists e. by rewrite lookup_insert_ne.
Qed.

Lemma blocked_modify f :
  (forall s, aw_redis (f s) = aw_redis s /\ aw_clock (f s) = aw_clock s) -> Preserves I (modify f).
Proof.
  intros Hf. apply preserves_modify. intros s [Hu He]. destruct (Hf s) as [Hr Hc]. unfold blocked_until. by rewrite Hr, Hc.
Qed.
#[local] Hint Extern 3 (Preserves (blocked_until _ _) (modify _)) =>
  apply blocked_modify; intros ?; split; reflexivity : typeclass_instances.
#[local] Instance blocked_draw : Preserves I draw.
Proof. by intros s r s' [= <- <-]. Qed.

Lemma blocked_incr key ttl : DEFAULT_TTL_SECONDS <= ttl -> Preserves I (redis_incr key ttl).
Proof.
  intros Httl s r s'. unfold redis_incr. case_match; [by intros [= <- <-]|].
  assert (forall v, I s -> I (with_redis <[key := mkEntry v (Some (aw_clock s + ttl * 1000))]> s)) as Hnew.
  { intros v Hs. apply blocked_write; [|done]. intros _ x [= <-]. destruct Hs as [Hu _].
    unfold DEFAULT_TTL_SECONDS in *. lia. }
  destruct (redis_get key s) as [[]|], (aw_redis s !! key) as [e|] eqn:Ek; intros [= <- <-]; try (by apply Hnew).
  intros Hs. apply blocked_write; [|done]. intros -> x Hx. destruct Hs as [Hu (e' & He' & Hl)]. apply Hl. congruence.
Qed.

#[export] Instance blocked_invariant : AuthInvariant I.
Proof.
  apply elsewhere_invariant.
  - apply blocked_rest.
  - intros key v ttl Httl s r s'. unfold redis_setex. case_match; intros [= <- <-]; [|done].
    intros Hs. apply blocked_write; [|done]. intros _ x [= <-]. destruct Hs as [Hu _]. unfold DEFAULT_TTL_SECONDS in *. lia.
  - apply blocked_incr.
  - intros key Hf. apply preserves_modify. intros s [Hu (e & He & Hl)]. case_match; [|by (split; [|eauto])].
    split; [done|]. exists e. split; [|done]. cbn. rewrite lookup_delete_ne; [done|]. apply Hf.
  - intros P. unfold Sessions.sessions_revoke. apply _.
  - intros. unfold Sessions.rotateSession, Sessions.createSession, Sessions.sessions_revoke, auth_audit, unauthorized, now.
    apply _.
Qed.
End Kept.

(** Calls of the API; time passes, and what other code does to the tables;
    Redis may be away but keeps what it holds. *)
Inductive kept_step (s s' : AuthWorld) : Prop :=
| ks_call X (m : AM X) r : auth_op X m -> m s = (r, s') -> kept_step s s'
| ks_elsewhere : aw_redis s' = aw_redis s -> aw_clock s <= aw_clock s' -> kept_step s s'.

Lemma kept_blocked jti until s s' : rtc kept_step s s' -> blocked_until jti until s -> blocked_until jti until s'.
Proof.
  induction 1 as [|s s1 s2 Hs _ IH]; [done|]. intros Hb. apply IH. destruct Hs as [X m r Hm E|Hr Hc].
  - exact (auth_op_invariant _ X m _ Hm _ _ _ E Hb).
  - destruct Hb as [Hu He]. split; [lia|]. by rewrite Hr.
Qed.

Lemma logout_blocks u t jti s x s' :
  jti <> "" -> logout u t (Some jti) s = (Ok x, s') ->
  blocked_until jti (aw_clock s + DEFAULT_TTL_SECONDS * 1000) s'.
Proof.
  intros Hne Hr. unfold logout in Hr. unfold bind at 1 in Hr.
  destruct (user_update _ _ _ s) as [[u1|e1] s1] eqn:E1; [|done].
  assert (aw_clock s1 = aw_clock s) as Hc by (by apply user_update_Ok in E1 as ->).
  rewrite (truthy_nonempty _ Hne) in Hr. unfold bind at 1 in Hr. destruct (blocklist_add _ _ s1) as [[u2|e2] s2] eqn:E2; [|done].
  unfold auth_audit, modify in Hr. injection Hr as _ <-. rewrite <- Hc.
  unfold blocklist_add, bind at 1, redis_setex at 1 in E2. destruct (aw_redisUp s1) eqn:Eup; [|done].
  unfold bind at 1 in E2. cbn [negb throw_if ret] in E2.
  eapply (blocked_rest _ _ s2); [done..|]. unfold bind in E2. unfold redis_setex in E2 at 1. cbn in E2. rewrite Eup in E2.
  injection E2 as _ <-. apply blocked_write.
  - intros _ y [= <-]. done.
  - split; [done|]. cbn. eexists. split; [apply lookup_insert_eq|]. by intros y [= <-].
Qed.

(** C16: A signed-out access token is refused from then on.  Once [logout]
    answered for a token, no run of the API makes the guard accept it again,
    with Redis answering at the time, while the token's lifetime is at most the
    15 minutes its identifier stays listed: it is refused as revoked until then
    and as expired after. *)
Theorem signed_out_token_refused u t jti s x s1 s2 iat p skip :
  jti <> "" -> logout u t (Some jti) s = (Ok x, s1) -> rtc kept_step s1 s2 -> aw_redisUp s2 = true ->
  jp_jti p = Some jti -> iat <= aw_clock s / 1000 -> accessExpiration <= DEFAULT_TTL_SECONDS ->
  is_ok (authenticate skip (jwt_sign jwt_secret iat accessExpiration p) s2).1 = false.
Proof.
  intros Hne Hr Hrun Hup Hj Hiat Hexp. apply logout_blocks in Hr; [|done].
  apply (kept_blocked _ _ _ _ Hrun) in Hr. destruct Hr as [_ (e & He & Hl)].
  unfold authenticate, verify_bearer, now, bind at 1 2, gets at 1. rewrite jwt_verify_sign, same_refl. cbn [andb].
  destruct (aw_clock s2 / 1000 <? iat + accessExpiration) eqn:Elive; [|done].
  apply Z.ltb_lt in Elive. cbn [or_throw ret].
  assert (aw_clock s2 < aw_clock s + DEFAULT_TTL_SECONDS * 1000) as Hlt.
  { apply Z.lt_nge. intros Hge. assert (aw_clock s / 1000 + DEFAULT_TTL_SECONDS <= aw_clock s2 / 1000); [|lia].
    rewrite <- Z.div_add by done. apply Z.div_le_mono; lia. }
  unfold bind at 1, strategy_validate. unfold bind at 1. destruct (throw_if (_ === _) _ s2) as [[y|e0] s3] eqn:E0; [|done].
  assert (s3 = s2) as -> by (by run_inv). unfold bind at 1, gets at 1. unfold isBlocked, redis_exists, redis_get.
  rewrite Hup. rewrite Hj. change (text_of (Some jti)) with jti. rewrite He. unfold live. destruct (re_expiresAt e) as [te|].
  - assert ((aw_clock s2 <? te) = true) as -> by (apply Z.ltb_lt; specialize (Hl te eq_refl); lia). done.
  - done.
Qed.
End Revoked.

(** ** One-time codes *)
Section Codes.
Context `{Argon2, Jwt, Totp, AesGcm, RandomSource, AuthConfig, Sha256, UuidSource}.

(** Codes presented for a phone, each some milliseconds after the one before,
    and which of them are accepted. *)
Fixpoint guesses (phone : string) (gs : list (Z * string)) (s : AuthWorld) : list bool :=
  match gs with
  | [] => []
  | (delay, code) :: gs' =>
      let '(r, s') := Otp.validate phone code (at_time (aw_clock s + delay) s) in
      match r with Ok b => b | Err _ => false end :: guesses phone gs' s'
  end.

(** What is promised of a code with [wrong] wrong guesses behind it: it ends
    with the guess that finds it, with the third wrong one, or when nobody
    tried for half an hour. *)
Fixpoint accepted (code : string) (wrong : Z) (gs : list (Z * string)) : list bool :=
  match gs with
  | [] => []
  | (delay, guess) :: gs' =>
      let ended (b : bool) := b :: ((fun _ => false) <$> gs') in
      if 30 * 60 * 1000 <=? delay then ended false else
      if trim guess === code then ended true else
      if 3 <=? wrong + 1 then ended false else
      false :: accepted code (wrong + 1) gs'
  end.

Definition no_code (phone : string) (s : AuthWorld) : Prop :=
  match aw_redis s !! Otp.otp_key phone with
  | Some e => exists t, re_expiresAt e = Some t /\ t <= aw_clock s
  | None => True
  end.

Lemma validate_nothing phone code s : no_code phone s -> Otp.validate phone code s = (Ok false, s).
Proof.
  intros Hs. unfold Otp.validate, bind, gets, ret. replace (redis_get _ _) with (@None RedisValue); [done|].
  unfold redis_get. case_match; [|done]. unfold no_code in Hs. case_match; [|done].
  destruct Hs as (t & Ht & Hle). unfold live. rewrite Ht. by rewrite (proj2 (Z.ltb_ge _ _)).
Qed.

Lemma no_code_later phone s d : 0 <= d -> no_code phone s -> no_code phone (at_time (aw_clock s + d) s).
Proof. intros Hd Hs. unfold no_code in *. cbn. case_match; [|done]. destruct Hs as (t & Ht & Hle). exists t. split; [done|lia]. Qed.

Lemma guesses_nothing phone gs s :
  no_code phone s -> Forall (fun g => 0 <= g.1) gs -> guesses phone gs s = (fun _ => false) <$> gs.
Proof.
  revert s. induction gs as [|[d c] gs IH]; intros s Hs Hd; [done|].
  apply Forall_cons in Hd as [Hd Hgs]. apply (no_code_later _ _ d Hd) in Hs.
  cbn [guesses]. rewrite validate_nothing by done. cbn. f_equal. by apply IH.
Qed.

Lemma validate_live phone code expected n t s :
  aw_redisUp s = true -> aw_redis s !! Otp.otp_key phone = Some (mkEntry (RV_otp expected n) (Some t)) -> aw_clock s < t ->
  Otp.validate phone code s = Otp.settle phone code expected n s.
Proof.
  intros Hup He Ht. unfold Otp.validate, bind, gets. unfold redis_get. rewrite Hup, He. unfold live. cbn.
  by rewrite (proj2 (Z.ltb_lt _ _)).
Qed.

Lemma no_code_deleted phone s : no_code phone (with_redis (delete (Otp.otp_key phone)) s).
Proof. unfold no_code. cbn. by rewrite lookup_delete_eq. Qed.

Lemma guesses_accepted phone gs code n s :
  aw_redisUp s = true -> Forall (fun g => 0 <= g.1) gs ->
  aw_redis s !! Otp.otp_key phone = Some (mkEntry (RV_otp code n) (Some (aw_clock s + Otp.OTP_TTL_SECONDS * 1000))) ->
  guesses phone gs s = accepted code n gs.
Proof.
  revert n s. induction gs as [|[d c] gs IH]; intros n s Hup Hd Hs; [done|].
  apply Forall_cons in Hd as [Hd Hgs]. cbn in Hd. cbn [guesses accepted].
  set (s1 := at_time (aw_clock s + d) s).
  destruct (30 * 60 * 1000 <=? d) eqn:Elate; [apply Z.leb_le in Elate|apply Z.leb_gt in Elate].
  { assert (no_code phone s1) as Hn.
    { unfold no_code, s1. cbn. rewrite Hs. eexists. split; [done|]. unfold Otp.OTP_TTL_SECONDS. lia. }
    rewrite validate_nothing by done. f_equal. by apply guesses_nothing. }
  rewrite (validate_live _ _ code n _ s1 Hup Hs) by (unfold s1, Otp.OTP_TTL_SECONDS; cbn; lia).
  unfold Otp.settle, Otp.MAX_ATTEMPTS. destruct (trim c === code).
  { unfold bind, redis_del, modify, ret. unfold s1 at 1. cbn [aw_redisUp at_time]. rewrite Hup. f_equal.
    apply guesses_nothing; [apply no_code_deleted|done]. }
  destruct (3 <=? n + 1).
  - unfold bind, redis_del, modify, ret. unfold s1 at 1. cbn [aw_redisUp at_time]. rewrite Hup. f_equal.
    apply guesses_nothing; [apply no_code_deleted|done].
  - unfold bind, redis_setex, ret. unfold s1 at 1. cbn [aw_redisUp at_time]. rewrite Hup. f_equal.
    apply IH; [done|done|]. cbn. by rewrite lookup_insert_eq.
Qed.

Lemma all_false_none {X} (l : list X) : List.filter id ((fun _ => false) <$> l) = [].
Proof. by induction l. Qed.

Lemma no_true_in_false {X} (l : list X) i : ((fun _ => false) <$> l) !! i <> Some true.
Proof. rewrite list_lookup_fmap. by destruct (l !! i). Qed.

Lemma accepted_once code n gs : (length (List.filter id (accepted code n gs)) <= 1)%nat.
Proof.
  revert n. induction gs as [|[d c] gs IH]; intros n; cbn; [lia|].
  repeat case_match; cbn; rewrite ?all_false_none; cbn; try lia. apply IH.
Qed.

Lemma accepted_early code n gs i :
  0 <= n <= 2 -> accepted code n gs !! i = Some true ->
  Z.of_nat i + n <= 2 /\ sum_by fst (take (S i) gs) < (Z.of_nat i + 1) * (30 * 60 * 1000).
Proof.
  revert n i. induction gs as [|[d c] gs IH]; intros n i Hn; cbn; [done|].
  destruct (30 * 60 * 1000 <=? d) eqn:Ed; [|apply Z.leb_gt in Ed].
  { destruct i; cbn; [done|]. intros Hi. by apply no_true_in_false in Hi. }
  destruct (trim c === code).
  { destruct i; cbn; [intros _; rewrite take_0; cbn; lia|]. intros Hi. by apply no_true_in_false in Hi. }
  destruct (3 <=? n + 1) eqn:E3; [|apply Z.leb_gt in E3].
  { destruct i; cbn; [done|]. intros Hi. by apply no_true_in_false in Hi. }
  destruct i as [|i]; cbn [lookup list_lookup]; [done|]. intros Hi.
  destruct (IH (n + 1) i) as [? ?]; [lia|exact Hi|]. cbn [take sum_by fst] in *. lia.
Qed.

(** C27: The guesses at a one-time code are answered as promised.  Once a code
    was issued for a phone with Redis answering, any sequence of guesses, each
    any time after the one before, is answered exactly like [accepted]: the
    code ends with its first use, with its third wrong guess, or when half an
    hour passes without a guess.  So at most one guess is accepted, it is among
    the first three, and less than half an hour per guess after the code was
    sent. *)
Theorem otp_guesses_as_promised phone s code s1 gs :
  aw_redisUp s = true -> Otp.generate phone s = (Ok code, s1) -> Forall (fun g => 0 <= g.1) gs ->
  guesses phone gs s1 = accepted code 0 gs /\
  (length (List.filter id (guesses phone gs s1)) <= 1)%nat /\
  (forall i, guesses phone gs s1 !! i = Some true ->
    (i < 3)%nat /\ sum_by fst (take (S i) gs) < (Z.of_nat i + 1) * (30 * 60 * 1000)).
Proof.
  intros Hup Hg Hd. assert (guesses phone gs s1 = accepted code 0 gs) as Heq.
  { unfold Otp.generate, bind, draw, redis_setex, ret in Hg. cbn in Hg. rewrite Hup in Hg. injection Hg as <- <-.
    apply guesses_accepted; [done|done|]. cbn. by rewrite lookup_insert_eq. }
  rewrite Heq. split_and!; [done|apply accepted_once|]. intros i Hi.
  apply accepted_early in Hi as [? ?]; [|lia]. split; [lia|done].
Qed.

Lemma all_chars_lacks (P : ascii -> bool) text :
  (forall x, P x = false -> lacks x text = true) -> all_chars P text = true.
Proof.
  induction text as [|c text IH]; intros Hl; [done|]. cbn. apply andb_true_iff. split.
  - destruct (P c) eqn:E; [done|]. specialize (Hl c E). by rewrite lacks_cons, Ascii.eqb_refl in Hl.
  - apply IH. intros x Hx. specialize (Hl x Hx). rewrite lacks_cons in Hl. by apply andb_true_iff in Hl as [_ Hl].
Qed.

Lemma trim_pretty (z : Z) : trim (pretty z) = pretty z.
Proof.
  apply trim_all, all_chars_lacks. intros x Hx. apply lacks_pretty. apply negb_false_iff in Hx. revert Hx. clear z.
  destruct x as [[] [] [] [] [] [] [] []]; vm_compute; done.
Qed.

Lemma user_findUnique_own (u : AuthUser) s : u ∈ aw_users s -> exists v, user_findUnique None (au_id u) s = Some v.
Proof.
  intros Hu. unfold user_findUnique, user_findFirst. destruct (List.find _ _) as [v|] eqn:E; [eauto|].
  apply list_elem_of_In in Hu. pose proof (List.find_none _ _ E u Hu) as Hn. cbn in Hn. by rewrite same_refl in Hn.
Qed.

Lemma issueSession_total u m also action s :
  u ∈ aw_users s -> exists resp s', issueSession None u m also action s = (Ok resp, s').
Proof.
  intros [v Hv]%user_findUnique_own. unfold issueSession, generateTokens, hash, user_update, auth_audit, bind, draw, now, gets, ret.
  match goal with |- context [user_findUnique None (au_id u) ?s0] =>
    change (user_findUnique None (au_id u) s0) with (user_findUnique None (au_id u) s) end.
  rewrite Hv. cbn. eauto.
Qed.

(** C35: A code sent to the phone signs in on its own.  For any ACTIVE user who
    can be found by the phone, of an active tenant, with Redis answering:
    [resendLoginOtp] texts a code without any sign of the password, and
    [verifyLoginOtp] answers that code with a full session, whatever the
    password, an enrolled second factor or one the tenant requires, an
    unfinished PIN onboarding or an expired temporary password. *)
Theorem texted_code_signs_in phone tenantId ip s user :
  from_option tn_isActive false (aw_tenants s !! tenantId) = true -> aw_redisUp s = true ->
  otp_candidate tenantId (otp_phone phone) s = Some user -> au_accountStatus user = AS_ACTIVE ->
  exists code s1 resp s2,
    resendLoginOtp phone tenantId s = (Ok tt, s1) /\
    aw_sms s1 = aw_sms s ++ [mkSms "LOGIN_OTP" (otp_phone phone) (otp_message code)] /\
    verifyLoginOtp phone code tenantId ip s1 = (Ok resp, s2) /\
    lr_user resp = toUserDto user (au_mustChangePassword user) /\
    exists row h, user_findUnique None (au_id user) s2 = Some row /\ au_refreshToken row = Some h /\
      argon2_verify h (lr_refreshToken resp) = Some true.
Proof.
  intros Ht Hup Hc Ha. exists (Otp.otp_code (aw_draws s)).
  assert (exists s1, resendLoginOtp phone tenantId s = (Ok tt, s1) /\
    aw_sms s1 = aw_sms s ++ [mkSms "LOGIN_OTP" (otp_phone phone) (otp_message (Otp.otp_code (aw_draws s)))] /\
    aw_tables s1 = aw_tables s /\ aw_tenants s1 = aw_tenants s /\ aw_redisUp s1 = true /\
    aw_redis s1 !! Otp.otp_key (otp_phone phone)
      = Some (mkEntry (RV_otp (Otp.otp_code (aw_draws s)) 0) (Some (aw_clock s1 + Otp.OTP_TTL_SECONDS * 1000))))
    as (s1 & Hr & Hsms & Htb & Htn & Hup1 & He).
  { eexists. split; [|split; [|split; [|split; [|split]]]].
    - unfold resendLoginOtp, Otp.generate, enqueueSms, auth_audit, bind, gets, draw, redis_setex, ret, modify.
      rewrite Hc. cbn. rewrite Hup. reflexivity.
    - done.
    - done.
    - done.
    - done.
    - cbn. by rewrite lookup_insert_eq. }
  exists s1. assert (aw_users s1 = aw_users s) as Hus by (unfold aw_users; by rewrite Htb).
  unfold verifyLoginOtp, assertTenantAcceptsLogin. unfold bind at 1 2, gets at 1. rewrite Htn, Ht. cbn [negb throw_if ret].
  unfold bind at 1, gets at 1. unfold otp_candidate, user_findFirst in *. rewrite Hus, Hc, Ha, same_refl. cbn [negb].
  unfold bind at 1. rewrite (validate_live _ _ _ _ _ _ Hup1 He) by (unfold Otp.OTP_TTL_SECONDS; lia).
  unfold Otp.settle, Otp.otp_code. rewrite trim_pretty, same_refl. unfold bind at 1, redis_del, modify, ret at 1. rewrite Hup1.
  cbn [negb]. pose proof Hc as [Hin _]%find_some_elem. rewrite <- Hus in Hin.
  destruct (issueSession_total user (au_mustChangePassword user) set_phoneVerified "AUTH.LOGIN_OTP.VERIFIED"
    (with_redis (delete (Otp.otp_key (otp_phone phone))) s1) Hin) as (resp & s2 & E).
  exists resp, s2. split_and!; [done|done|done| |]; (apply issueSession_Ok in E; [|by intros ?]).
  - by destruct E as (_ & ? & _).
  - destruct E as (_ & _ & _ & row & h & ? & ? & ? & _). by exists row, h.
Qed.
End Codes.

(** ** PIN codes *)
Section PinCodes.
Context `{RandomSource}.

Lemma swap_perm i j chars : Pin.swap i j chars ≡ₚ chars.
Proof.
  unfold Pin.swap. destruct (chars !! i) as [x|] eqn:Ei; [|done]. destruct (chars !! j) as [y|] eqn:Ej; [|done].
  pose proof (lookup_lt_Some _ _ _ Ei) as Hi. pose proof (lookup_lt_Some _ _ _ Ej) as Hj.
  apply Permutation_inj. split; [by rewrite !length_insert|].
  exists (fun k => if decide (k = i) then j else if decide (k = j) then i else k). split.
  - intros k1 k2. repeat case_decide; congruence.
  - intros k. repeat case_decide; subst.
    + rewrite list_lookup_insert_eq by (by rewrite length_insert). done.
    + rewrite list_lookup_insert_ne by done. rewrite list_lookup_insert_eq by done. done.
    + rewrite !list_lookup_insert_ne by done. done.
Qed.

Lemma shuffle_perm i chars s : exists out s', Pin.shuffle i chars s = (Ok out, s') /\ out ≡ₚ chars.
Proof.
  revert chars s. induction i as [|i IH]; intros chars s; cbn [Pin.shuffle]; [by exists chars, s|].
  unfold bind, draw. destruct (IH (Pin.swap (S i) (Z.to_nat (rand_int (aw_draws s) (Z.of_nat (S i) + 1))) chars) (bump_draws s))
    as (out & s' & E & Hp).
  exists out, s'. split; [done|]. by rewrite Hp, swap_perm.
Qed.

Definition chars_of (text : string) : list ascii := String.list_ascii_of_string text.

Lemma get_char n text : (n < String.length text)%nat -> exists c, String.get n text = Some c /\ c ∈ chars_of text.
Proof.
  revert n. induction text as [|c text IH]; intros n Hn; cbn in *; [lia|].
  destruct n as [|n]; [exists c; split; [done|by left]|]. destruct (IH n) as (x & ? & ?); [lia|].
  exists x. split; [done|by right].
Qed.

Lemma pickChar_Ok text s : text <> "" -> exists c s', Pin.pickChar text s = (Ok c, s') /\ c ∈ chars_of text.
Proof.
  intros Hne. unfold Pin.pickChar, bind, draw, ret.
  assert (0 < Z.of_nat (String.length text)) as Hl by (destruct text; cbn; [done|lia]).
  pose proof (rand_int_range (aw_draws s) _ Hl) as Hr.
  destruct (get_char (Z.to_nat (rand_int (aw_draws s) (Z.of_nat (String.length text)))) text) as (c & -> & Hc); [lia|].
  by exists c, (bump_draws s).
Qed.

Lemma pick_more_Ok n chars s :
  exists more s', Pin.pick_more n chars s = (Ok (chars ++ more), s') /\ length more = n /\
    Forall (fun c => c ∈ chars_of Pin.CODE_ALL) more.
Proof.
  revert chars s. induction n as [|n IH]; intros chars s; cbn [Pin.pick_more]; [exists [], s; by rewrite app_nil_r|].
  destruct (pickChar_Ok Pin.CODE_ALL s) as (c & s1 & Hc & Hin); [done|]. unfold bind at 1. rewrite Hc.
  destruct (IH (chars ++ [c]) s1) as (more & s' & -> & Hlen & Hall).
  exists (c :: more), s'. rewrite <- app_assoc. split_and!; [done|cbn; lia|by constructor].
Qed.

Lemma code_all_parts : chars_of Pin.CODE_ALL =
  chars_of Pin.CODE_UPPER ++ chars_of Pin.CODE_LOWER ++ chars_of Pin.CODE_DIGITS ++ chars_of Pin.CODE_SYMBOLS.
Proof. reflexivity. Qed.

(** A generated PIN code has the shape that is promised for any source of
    randomness: of the length asked for (of four at least), every character from
    the alphabet without look-alikes, with an upper case and a lower case
    letter, a digit and a symbol; and it is always produced. *)
Theorem pin_code_shape n s :
  (4 <= n)%nat ->
  exists code s', Pin.generateCode n s = (Ok code, s') /\ String.length code = n /\
    Forall (fun c => c ∈ chars_of Pin.CODE_ALL) (chars_of code) /\
    (exists c, c ∈ chars_of code /\ c ∈ chars_of Pin.CODE_UPPER) /\
    (exists c, c ∈ chars_of code /\ c ∈ chars_of Pin.CODE_LOWER) /\
    (exists c, c ∈ chars_of code /\ c ∈ chars_of Pin.CODE_DIGITS) /\
    (exists c, c ∈ chars_of code /\ c ∈ chars_of Pin.CODE_SYMBOLS).
Proof.
  intros Hn. unfold Pin.generateCode.
  destruct (pickChar_Ok Pin.CODE_UPPER s) as (u & s1 & Eu & Hu); [done|]. unfold bind at 1. rewrite Eu.
  destruct (pickChar_Ok Pin.CODE_LOWER s1) as (l & s2 & El & Hl); [done|]. unfold bind at 1. rewrite El.
  destruct (pickChar_Ok Pin.CODE_DIGITS s2) as (d & s3 & Ed & Hd); [done|]. unfold bind at 1. rewrite Ed.
  destruct (pickChar_Ok Pin.CODE_SYMBOLS s3) as (y & s4 & Ey & Hy); [done|]. unfold bind at 1. rewrite Ey.
  destruct (pick_more_Ok (n - 4) [u; l; d; y] s4) as (more & s5 & Em & Hlen & Hall). unfold bind at 1. rewrite Em.
  destruct (shuffle_perm (length ([u; l; d; y] ++ more) - 1) ([u; l; d; y] ++ more) s5) as (out & s6 & Es & Hp).
  unfold bind at 1. rewrite Es. exists (String.string_of_list_ascii out), s6.
  assert (chars_of (String.string_of_list_ascii out) = out) as -> by apply String.list_ascii_of_string_of_list_ascii.
  split_and!; [done| | | | | |].
  - replace (String.length _) with (length out).
    + rewrite Hp. cbn. lia.
    + clear. by induction out as [|c out IH]; cbn; [|rewrite IH].
  - rewrite Hp. repeat (constructor; [rewrite code_all_parts, !elem_of_app; tauto|]). done.
  - exists u. rewrite Hp. split; [by left|done].
  - exists l. rewrite Hp. split; [by right; left|done].
  - exists d. rewrite Hp. split; [by do 2 right; left|done].
  - exists y. rewrite Hp. split; [by do 3 right; left|done].
Qed.
End PinCodes.

(** ** Witnesses

    A hash that shows its text, tokens that spell out their fields, a second
    factor that is its secret: libraries simple enough to run, with the laws. *)
Module Toy.
Definition argon2 : Argon2.
Proof.
  refine {| argon2_hash _ p := "$" +:+ p;
            argon2_verify h q := match h with String "$" p => Some (p === q) | _ => None end |}.
  done.
Defined.

(** A field: each character after a 1, then a 0. *)
Fixpoint field (s : string) : string :=
  match s with EmptyString => "0" | String c s' => String "1" (String c (field s')) end.
Fixpoint read_field (t : string) : option (string * string) :=
  match t with
  | String "1" (String c t') => match read_field t' with Some (s, rest) => Some (String c s, rest) | None => None end
  | String "0" t' => Some ("", t')
  | _ => None
  end.
Lemma read_field_app s rest : read_field (field s +:+ rest) = Some (s, rest).
Proof.
  induction s as [|c s IH]; [done|]. change (read_field (String "1" (String c (field s +:+ rest))) = Some (String c s, rest)).
  cbn. by rewrite IH.
Qed.

Fixpoint fields (l : list string) : string := match l with [] => "" | s :: l' => field s +:+ fields l' end.
Fixpoint read_fields (n : nat) (t : string) : option (list string) :=
  match n with
  | O => Some []
  | S n' => match read_field t with
            | Some (s, rest) => cons s <$> read_fields n' rest
            | None => None
            end
  end.
Lemma read_fields_fields l : read_fields (length l) (fields l) = Some l.
Proof. induction l as [|s l IH]; [done|]. cbn. by rewrite read_field_app, IH. Qed.

Definition optional (o : option string) : string := match o with Some s => String "+" s | None => "-" end.
Definition read_optional (t : string) : option string := match t with String "+" s => Some s | _ => None end.
Lemma read_optional_optional o : read_optional (optional o) = o.
Proof. by destruct o. Qed.

Definition number (z : Z) : string := if z <? 0 then String "-" (pretty (- z)) else String "+" (pretty z).
Definition read_number (t : string) : Z :=
  match t with
  | String "-" s => - default 0 (digits_value 0 s)
  | String "+" s => default 0 (digits_value 0 s)
  | _ => 0
  end.
Lemma read_number_number z : read_number (number z) = z.
Proof.
  unfold number. destruct (z <? 0) eqn:E; [apply Z.ltb_lt in E|apply Z.ltb_ge in E]; cbn; rewrite pretty_value by lia; cbn; lia.
Qed.

Definition roles : list UserRole :=
  [SUPER_ADMIN; TENANT_ADMIN; MANAGER; TELLER; MEMBER; AUDITOR; LOAN_OFFICER; CHAIRMAN; ACCOUNTANT; SYSTEM].
Definition role_index (r : UserRole) : nat :=
  match r with
  | SUPER_ADMIN => 0 | TENANT_ADMIN => 1 | MANAGER => 2 | TELLER => 3 | MEMBER => 4 | AUDITOR => 5 | LOAN_OFFICER => 6
  | CHAIRMAN => 7 | ACCOUNTANT => 8 | SYSTEM => 9
  end.
Definition role_field (r : option UserRole) : string := match r with Some x => number (Z.of_nat (role_index x)) | None => "" end.
Definition read_role (t : string) : option UserRole :=
  match t with EmptyString => None | _ => roles !! Z.to_nat (read_number t) end.
Lemma read_role_field r : read_role (role_field r) = r.
Proof. destruct r as [[]|]; reflexivity. Qed.

Definition jwt : Jwt.
Proof.
  refine {|
    jwt_sign secret iat ttl p :=
      fields [secret; number (iat + ttl); jp_sub p; jp_email p; optional (jp_phone p); role_field (jp_role p);
        optional (jp_tenantId p); optional (jp_jti p); optional (jp_scope p); optional (jp_purpose p); optional (jp_nonce p)];
    jwt_verify secret now t :=
      match read_fields 11 t with
      | Some [key; exp; sub; email; phone; role; tenant; jti; scope; purpose; nonce] =>
          if (key === secret) && (now / 1000 <? read_number exp)
          then Some (mkPayload sub email (read_optional phone) (read_role role) (read_optional tenant)
            (read_optional jti) (read_optional scope) (read_optional purpose) (read_optional nonce))
          else None
      | _ => None
      end |}.
  intros secret secret' now iat ttl p.
  pose proof (read_fields_fields [secret; number (iat + ttl); jp_sub p; jp_email p; optional (jp_phone p); role_field (jp_role p);
        optional (jp_tenantId p); optional (jp_jti p); optional (jp_scope p); optional (jp_purpose p); optional (jp_nonce p)]) as E.
  cbn [length] in E. rewrite E. rewrite read_number_number, read_role_field, !read_optional_optional. by destruct p.
Defined.

Definition totp : Totp := {| totp_verify token secret _ :=
  if Nat.eqb (String.length token) 6 then Some (TA_object (token === secret)) else None |}.
Definition aes : AesGcm.
Proof.
  refine {| gcm_seal key _ text := field key +:+ text;
            gcm_open key body := match read_field body with
                                 | Some (k, text) => if k === key then Some text else None
                                 | None => None
                                 end;
            hmac_key k t := k +:+ "/" +:+ t |}.
  intros key iv text. by rewrite read_field_app, same_refl.
Defined.
Definition random : RandomSource.
Proof.
  refine {| rand_int k n := Z.of_N k mod n; rand_hex k _ := pretty k |}.
  intros k n Hn. by apply Z.mod_pos_bound.
Defined.
Definition config : AuthConfig := {|
  jwt_secret := "access"; jwt_refreshSecret := "refresh"; accessExpiration := 900; refreshExpiration := 604800;
  app_feature _ := None; encryption_config _ := None |}.
#[export] Existing Instances argon2 jwt totp aes random config.
#[export] Instance counter_inj : Inj (=) (=) (@uuid counter_uuid).
Proof. intros m n E. apply str_app_inv in E. by apply (inj pretty). Qed.

(** One member of one SACCO, with a password. *)
Definition jane : AuthUser :=
  mkAuthUser "u1" (mkIdentity "jane@x.co" (Some "254712345678") None "Jane" "W" MEMBER "t1") AS_ACTIVE true true false false
    "$Secret1!" 0 None None None None None None (mkSecondFactor false None [] None).
Definition world : AuthWorld :=
  mkAuthWorld (mkAuthTables [jane] [] [] [] []) {[ "t1" := mkTenant true JNull ]} ∅ true 1000000 0 [] [] [].
Definition credentials : LoginDto := mkLoginDto (Some "jane@x.co") None "Secret1!" None None.
Definition signed_in : AuthWorld := (login credentials "t1" None world).2.
Definition first_token : string :=
  match (login credentials "t1" None world).1 with Ok r => lr_refreshToken r | Err _ => "" end.
Definition rotated : AuthWorld := (refreshToken first_token "t1" None signed_in).2.
End Toy.
Import Toy.

Lemma toy_signed_out : signed_out world.
Proof. intros u [->|[]%elem_of_nil]%elem_of_cons. done. Qed.

Lemma toy_signs_in : rtc auth_step world signed_in.
Proof. eapply rtc_once, (step_call _ _ _ (login credentials "t1" None)); [constructor|apply surjective_pairing]. Qed.

(** The row a presentation of the first token reads. *)
Definition jane_now : AuthUser := match aw_users signed_in with u :: _ => u | [] => jane end.

Lemma refresh_token_single_use_witness :
  is_ok (refreshToken first_token "t1" None signed_in).1 = true /\
  is_ok (refreshToken first_token "t1" None rotated).1 = false.
Proof.
  split; [vm_compute; reflexivity|].
  set (p := match (new_pair jane_now signed_in).1 with Ok p => p | Err _ => ("", "", "") end).
  assert (rtc api_step (mkApi world [] []) (mkApi rotated [] [first_token])) as Hs.
  { eapply rtc_l; [apply as_other, (step_call _ _ _ (login credentials "t1" None) _ (op_login _ _ _) (surjective_pairing _))|].
    eapply rtc_l; [apply (as_read _ [] [] first_token "t1" jane_now); vm_compute; reflexivity|].
    eapply rtc_l; [apply (as_pair signed_in [] first_token jane_now [] [] p.1.1 p.1.2 p.2); vm_compute; reflexivity|].
    eapply rtc_l; [eapply (as_store _ [] first_token jane_now p.1.2 p.2 [] [] rotated); vm_compute; reflexivity|].
    apply rtc_refl. }
  assert (first_token ∈ exchanged (mkApi rotated [] [first_token])) as Hin by (by apply list_elem_of_singleton).
  exact (proj2 (refresh_token_single_use world _ first_token _ toy_signed_out Hs Hin) "t1" None).
Defined.

(** Two overlapping presentations: the pair stored last is the one that works. *)
Example overlapping_race :
  let s1 := (new_pair jane_now signed_in).2 in
  let p := match (new_pair jane_now signed_in).1 with Ok p => p | Err _ => ("", "", "") end in
  let q := match (new_pair jane_now s1).1 with Ok p => p | Err _ => ("", "", "") end in
  let s2 := (refresh_store jane_now q.2 (refresh_store jane_now p.2 (new_pair jane_now s1).2).2).2 in
  is_ok (refreshToken p.1.2 "t1" None s2).1 = false /\ is_ok (refreshToken q.1.2 "t1" None s2).1 = true.
Proof. vm_compute. done. Qed.

Lemma replay_revokes_everything_witness :
  (refreshToken first_token "t1" None rotated).1 = Err (Unauthorized "Invalid refresh token") /\
  (forall u, u ∈ aw_users (refreshToken first_token "t1" None rotated).2 -> au_id u = "u1" -> au_refreshToken u = None).
Proof.
  destruct (List.find (fun _ => true) (aw_users rotated)) as [user|] eqn:Eu; [|vm_compute in Eu; discriminate].
  destruct (truthy (au_refreshToken user)) as [stored|] eqn:Et;
    [|revert Et; vm_compute in Eu; injection Eu as <-; vm_compute; discriminate].
  destruct (replay_revokes_everything world signed_in first_token "t1" None
    (match (refreshToken first_token "t1" None signed_in).1 with Ok r => r | Err _ => ("", "") end)
    rotated rotated "t1" None user stored)
    as (s3 & E & Hu & _); [apply _|apply toy_signed_out|apply toy_signs_in|vm_compute; reflexivity|constructor| |].
  - split; [| |vm_compute in Eu; injection Eu as <-..].
    + vm_compute in Eu. injection Eu as <-. eexists. split; vm_compute; reflexivity.
    + vm_compute. discriminate.
    + reflexivity.
    + exact Et.
    + reflexivity.
    + right. reflexivity.
  - rewrite E. split; [done|]. intros u Hin Hid. apply Hu; [done|]. rewrite Hid.
    vm_compute in Eu. injection Eu as <-. reflexivity.
Defined.

Lemma login_sound_witness :
  exists resp s' user, login credentials "t1" None world = (Ok resp, s') /\
    login_candidate "t1" (Some "jane@x.co") None world = Some user /\ account_ok user credentials 1000000 /\
    reachable_from "t1" user = true.
Proof.
  destruct (login credentials "t1" None world) as [[resp|e] s'] eqn:E; [|exfalso; vm_compute in E; discriminate].
  destruct (login_sound credentials "t1" None world resp s') as (user & Hc & _ & Hr & Ha & _);
    [by_decision|exact E|].
  exists resp, s', user. split_and!; [done|exact Hc|exact Ha|exact Hr].
Defined.

Lemma no_session_ever_begins_witness :
  aw_sessions signed_in = [] /\
  refreshToken first_token "t1" (Some (Sessions.mkDevice "phone" None None)) signed_in = refreshToken first_token "t1" None signed_in.
Proof.
  destruct (no_session_ever_begins world signed_in) as [Hs Hr]; [reflexivity| |split; [exact Hs|apply Hr]].
  eapply rtc_once, (ss_call _ _ _ (login credentials "t1" None)); [constructor|apply surjective_pairing].
Defined.

Definition first_access : JwtPayload := access_payload jane (uuid 0).

Lemma signed_out_token_refused_witness :
  is_ok (authenticate false (jwt_sign jwt_secret 1000 accessExpiration first_access) signed_in).1 = true /\
  is_ok (authenticate false (jwt_sign jwt_secret 1000 accessExpiration first_access)
    (at_time 1500000 (logout "u1" "t1" (Some "id-0") signed_in).2)).1 = false.
Proof.
  split; [vm_compute; reflexivity|].
  eapply (signed_out_token_refused "u1" "t1" "id-0" signed_in tt (logout "u1" "t1" (Some "id-0") signed_in).2);
    [discriminate|vm_compute; reflexivity|eapply rtc_once, ks_elsewhere; [reflexivity|vm_compute; discriminate]
    |reflexivity|reflexivity|vm_compute; discriminate|vm_compute; discriminate].
Defined.

(** Two wrong guesses keep a code alive: here it is accepted 87 minutes after
    it was sent. *)
Definition late_guesses : list (Z * string) := [(29 * 60000, "1"); (29 * 60000, "2"); (29 * 60000, Otp.otp_code 0)].

Lemma otp_guesses_as_promised_witness :
  exists s1, Otp.generate "254712345678" world = (Ok (Otp.otp_code 0), s1) /\
    guesses "254712345678" late_guesses s1 = [false; false; true] /\
    guesses "254712345678" [(0, "1"); (0, "2"); (0, "3"); (0, Otp.otp_code 0)] s1 = [false; false; false; false].
Proof.
  destruct (Otp.generate "254712345678" world) as [r s1] eqn:E. assert (r = Ok (Otp.otp_code 0)) as -> by (by injection E).
  exists s1. split; [done|].
  destruct (otp_guesses_as_promised "254712345678" world (Otp.otp_code 0) s1 late_guesses) as [H1 _];
    [reflexivity|exact E|by_decision|].
  destruct (otp_guesses_as_promised "254712345678" world (Otp.otp_code 0) s1 [(0, "1"); (0, "2"); (0, "3"); (0, Otp.otp_code 0)]) as [H2 _];
    [reflexivity|exact E|by_decision|].
  rewrite H1, H2. split; vm_compute; reflexivity.
Defined.

(** Jane before she activated her account, with 2FA enrolled and her phone as
    it is typed. *)
Definition not_activated : AuthWorld :=
  with_tables (set_users_table [mkAuthUser "u1" (au_identity jane) AS_ACTIVE true true true true "$Secret1!" 0 None None None None
    None None (mkSecondFactor true None [] None)]) world.

Lemma texted_code_signs_in_witness :
  is_ok (login credentials "t1" None not_activated).1 = false /\
  exists code s1 resp s2, resendLoginOtp "0712345678" "t1" not_activated = (Ok tt, s1) /\
    verifyLoginOtp "0712345678" code "t1" None s1 = (Ok resp, s2).
Proof.
  split; [vm_compute; reflexivity|].
  destruct (texted_code_signs_in "0712345678" "t1" None not_activated
    (mkAuthUser "u1" (au_identity jane) AS_ACTIVE true true true true "$Secret1!" 0 None None None None
    None None (mkSecondFactor true None [] None))) as (code & s1 & resp & s2 & H1 & _ & H2 & _);
    [reflexivity|reflexivity|vm_compute; reflexivity|reflexivity|].
  by exists code, s1, resp, s2.
Defined.

Lemma pin_code_shape_witness :
  exists code s', Pin.generateCode 8 world = (Ok code, s') /\ String.length code = 8%nat.
Proof. destruct (pin_code_shape 8 world) as (code & s' & H1 & H2 & _); [lia|]. by exists code, s'. Defined.

(** Jane with an authenticator enrolled; its code is 123456, and 000000 signs
    in. *)
Definition enrolled : AuthWorld :=
  with_tables (set_users_table [set_secondFactor (mkSecondFactor true
    (Some (mkSealed (gcm_seal (TwoFactor.getTenantKey "t1").1 0 "123456") "env-t1")) [] (Some 0)) jane]) world.

Lemma any_totp_code_signs_in_witness :
  totp_verify "000000" "123456" 1000000 = Some (TA_object false) /\
  is_ok (login (with_code credentials "000000") "t1" None enrolled).1 = true /\
  login (with_code credentials "000000") "t1" None enrolled = login (with_code credentials "123456") "t1" None enrolled.
Proof.
  split; [reflexivity|]. split; [vm_compute; reflexivity|].
  apply (any_totp_code_signs_in credentials "123456" "000000" "t1" None enrolled); [discriminate|discriminate|].
  intros secret t. right. do 2 eexists. split; reflexivity.
Defined.
