(* ===== verification/AccountingTheorems.v ===== *)
(** * AccountingTheorems: what the accounting service promises

    Nobody approves their own entry above the threshold, however requests
    interleave; a payment is matched to an account once, but the match credits
    the wrong account of the general ledger; a provisioned tenant can post. *)
From S2P Require Import Prelude Money Json Format Calendar ImportText MpesaTypes Schema Ledger LedgerFacts LedgerInv LedgerProps LedgerLegs Frames.
From S2P Require Import Fixture LedgerTheorems Accounting.

(** ** Makers and checkers *)
Section Approval.
Context `{UuidSource, DecimalLib}.

(** A request that has passed its check and not written yet. *)
Inductive PendingWrite :=
| PW_approve (id actorId : string) (notes : option string)
| PW_reject (id actorId : string) (notes : option string).

Definition run_write (p : PendingWrite) : AC unit :=
  match p with
  | PW_approve id actorId notes => approve_write id actorId notes
  | PW_reject id actorId notes => reject_write id actorId notes
  end.

Definition books_never_pending (w : World) : Prop :=
  forall e, e ∈ journalEntries (db w) -> je_status e <> JE_PENDING_APPROVAL.

(** Requests in any interleaving: each approval and rejection is a check,
    and later its write.  [step_books] is any other work on the books:
    LedgerService makes only POSTED entries. *)
Inductive approval_step : AccountingWorld * list PendingWrite -> AccountingWorld * list PendingWrite -> Prop :=
| step_create tenantId dto actorId s r s' pool :
    createJournalEntry tenantId dto actorId s = (r, s') ->
    approval_step (s, pool) (s', pool)
| step_approve_check tenantId id actorId notes s s' pool :
    approve_check tenantId id actorId s = (Ok tt, s') ->
    approval_step (s, pool) (s', PW_approve id actorId notes :: pool)
| step_reject_check tenantId id actorId notes s s' pool :
    reject_check tenantId id s = (Ok tt, s') ->
    approval_step (s, pool) (s', PW_reject id actorId notes :: pool)
| step_write p s r s' pool1 pool2 :
    run_write p s = (r, s') ->
    approval_step (s, pool1 ++ p :: pool2) (s', pool1 ++ pool2)
| step_books w s pool :
    books_never_pending w -> approval_step (s, pool) (set_books w s, pool).

(** An approved entry had a second pair of eyes or stays under the threshold. *)
Definition checked (e : ManualEntry) : Prop :=
  me_status e = JE_APPROVED ->
  (exists approver, me_approvedById e = Some approver /\ approver <> me_createdById e)
  \/ me_totalAmount e <= ks 100000.

Definition write_allowed (l : list ManualEntry) (p : PendingWrite) : Prop :=
  match p with
  | PW_approve id actorId _ => exists e, e ∈ l /\ me_id e = id /\ me_createdById e <> actorId
  | PW_reject _ _ _ => True
  end.

Record approval_ok (c : AccountingWorld * list PendingWrite) : Prop := {
  apo_ids : NoDup (me_id <$> kw_manual c.1);
  apo_books : books_never_pending (kw_base c.1);
  apo_checked : forall e, e ∈ kw_manual c.1 -> checked e;
  apo_pool : forall p, p ∈ c.2 -> write_allowed (kw_manual c.1) p;
}.

Lemma on_books_Ok {A} (m : M A) (s : AccountingWorld) a s' :
  on_books m s = (Ok a, s') -> exists w, m (kw_base s) = (Ok a, w) /\ s' = set_books w s.
Proof. unfold on_books. destruct (m _) as [r w] eqn:E. intros [= -> <-]. by exists w. Qed.

Lemma accounting_audit_run action (s : AccountingWorld) :
  accounting_audit action s = (Ok tt, set_books (log_audit action (kw_base s)) s).
Proof. done. Qed.

Lemma manual_create_Ok row (s : AccountingWorld) e s' :
  (forall id, me_id (row id) = id) -> manual_create row s = (Ok e, s') ->
  e = row (uuid (nextUuid (kw_base s))) /\ (me_id e ∉ (me_id <$> kw_manual s)) /\
  number_taken (me_tenantId e) (me_entryNumber e) s = false /\
  s' = set_manual (kw_manual s ++ [e]) (set_books (bump_uuid (kw_base s)) s).
Proof.
  unfold manual_create. intros Hid Hr. apply bind_Ok in Hr as (id & s1 & Hf & Hr).
  injection Hf as <- <-. run_inv. unfold entry_id_taken in *. cbn in *.
  apply orb_false_iff in Hguard0 as [Hi Hn]. apply orb_false_iff in Hi as [Hi _].
  split_and!; try done. rewrite Hid. by apply existsb_id_false in Hi.
Qed.

Lemma manual_create_Err row (s : AccountingWorld) e s' :
  manual_create row s = (Err e, s') -> s' = set_books (bump_uuid (kw_base s)) s.
Proof.
  unfold manual_create, bind, on_books, fresh_id, gets, throw_if, modify, ret, throw. intros Hr.
  repeat case_match; simplify_eq; done.
Qed.

#[local] Typeclasses Opaque bind gets ret throw throw_if or_throw modify foldM.

Definition approval_with (pool : list PendingWrite) (s : AccountingWorld) : Prop := approval_ok (s, pool).

Lemma approval_books pool w (s : AccountingWorld) :
  books_never_pending w -> approval_with pool s -> approval_with pool (set_books w s).
Proof. intros Hw [? ? ? ?]. by split. Qed.

#[local] Instance audit_approval action pool : Preserves (approval_with pool) (accounting_audit action).
Proof. intros s r s' [= <- <-] Hs. apply approval_books; [|done]. exact (apo_books _ Hs). Qed.

Lemma write_allowed_mono l l' p :
  (forall e, e ∈ l -> exists e', e' ∈ l' /\ me_id e' = me_id e /\ me_createdById e' = me_createdById e) ->
  write_allowed l p -> write_allowed l' p.
Proof.
  intros Hl. destruct p as [id actorId ?|]; [|done]. intros (e & He & <- & Hc).
  destruct (Hl e He) as (e' & ? & ? & Ec). exists e'. by rewrite Ec.
Qed.

Lemma manual_create_approval row pool :
  (forall id, me_id (row id) = id) -> (forall id, checked (row id)) ->
  Preserves (approval_with pool) (manual_create row).
Proof.
  intros Hid Hc s r s' Hr Hs. destruct r as [e|e].
  - apply manual_create_Ok in Hr as (He & Hfresh & _ & ->); [|done]. destruct Hs as [Hn Hb Hch Hp].
    split; cbn in *.
    + rewrite fmap_app. apply NoDup_app. split_and!; [done|set_solver|apply NoDup_singleton].
    + exact Hb.
    + intros x [Hx|Hx%list_elem_of_singleton]%elem_of_app; [by apply Hch|]. subst x. rewrite He. apply Hc.
    + intros p Hx. eapply write_allowed_mono; [|by apply Hp].
      intros x ?. exists x. set_solver.
  - apply manual_create_Err in Hr as ->. apply approval_books; [|done]. exact (apo_books _ Hs).
Qed.

Lemma new_entry_checked tenantId actorId number dto id :
  let total := total_of (ce_postings dto) in
  checked (new_entry tenantId actorId number dto total
    (if Qle_bool APPROVAL_THRESHOLD total then JE_PENDING_APPROVAL else JE_APPROVED) id).
Proof.
  cbn zeta. destruct (Qle_bool _ _) eqn:E; [done|]. intros _. right. cbn [new_entry me_totalAmount].
  change (ks 100000) with (to_dp4 APPROVAL_THRESHOLD). apply to_dp4_mono.
  destruct (Qlt_le_dec APPROVAL_THRESHOLD (total_of (ce_postings dto))) as [Hlt|]; [|done].
  apply Qlt_le_weak, Qle_bool_iff in Hlt. congruence.
Qed.

#[local] Instance create_approval tenantId dto actorId pool :
  Preserves (approval_with pool) (createJournalEntry tenantId dto actorId).
Proof.
  unfold createJournalEntry. cbv zeta.
  apply preserves_bind; [apply _|intros _]. apply preserves_bind; [apply _|intros missing].
  apply preserves_bind; [apply _|intros _]. apply preserves_bind; [apply _|intros _].
  apply preserves_bind; [apply _|intros year]. apply preserves_bind; [apply _|intros last].
  apply preserves_bind; [|intros e; apply _].
  apply manual_create_approval; [done|]. intros id. apply new_entry_checked.
Qed.

(** A check that passes has seen the creator, and changes nothing. *)
Lemma pending_entry_Ok tenantId id (s : AccountingWorld) v s' :
  pending_entry tenantId id s = (Ok v, s') ->
  s' = s /\ find_entry tenantId id s = Some v /\ ev_status v = JE_PENDING_APPROVAL.
Proof. unfold pending_entry. intros Hr. run_inv. by reflect. Qed.

Lemma find_entry_manual tenantId id (s : AccountingWorld) v :
  books_never_pending (kw_base s) -> find_entry tenantId id s = Some v -> ev_status v = JE_PENDING_APPROVAL ->
  exists e, e ∈ kw_manual s /\ me_id e = id /\ me_createdById e = ev_createdById v.
Proof.
  unfold find_entry. intros Hb Hf Hv. destruct (List.find _ (kw_manual s)) as [e|] eqn:E.
  - injection Hf as <-. apply find_some_elem in E as [Hin HP]. reflect. by exists e.
  - destruct (List.find _ (journalEntries _)) as [e|] eqn:E2; [|done]. injection Hf as <-.
    apply find_some_elem in E2 as [Hin _]. by apply Hb in Hin.
Qed.

Lemma approve_check_allowed tenantId id actorId notes (s : AccountingWorld) s' :
  books_never_pending (kw_base s) -> approve_check tenantId id actorId s = (Ok tt, s') ->
  s' = s /\ write_allowed (kw_manual s) (PW_approve id actorId notes).
Proof.
  unfold approve_check. intros Hb Hr. apply bind_Ok in Hr as (v & s1 & Hv & Hr). run_inv.
  apply pending_entry_Ok in Hv as (-> & Hf & Hp). split; [done|].
  destruct (find_entry_manual _ _ _ _ Hb Hf Hp) as (e & ? & ? & Ec). exists e. rewrite Ec. by reflect.
Qed.

Lemma manual_update_cases id actorId f (s : AccountingWorld) r s' :
  manual_update id actorId f s = (r, s') ->
  s' = s \/ s' = set_manual (update_where (fun e => me_id e === id) f (kw_manual s)) s.
Proof.
  unfold manual_update, bind, gets, throw_if, modify, ret, throw. intros Hr.
  repeat case_match; simplify_eq; auto.
Qed.

(** A write keeps identifiers and creators; the rows it touches are [good]. *)
Lemma update_approval pool id f (s : AccountingWorld) :
  (forall e, me_id (f e) = me_id e) -> (forall e, me_createdById (f e) = me_createdById e) ->
  (forall e, e ∈ kw_manual s -> me_id e = id -> checked (f e)) ->
  approval_with pool s ->
  approval_with pool (set_manual (update_where (fun e => me_id e === id) f (kw_manual s)) s).
Proof.
  intros Hid Hcr Hgood [Hn Hb Hch Hp]. unfold update_where. split; cbn in *.
  - rewrite <- list_fmap_compose. rewrite (list_fmap_ext _ me_id); [done|].
    intros i e _. cbn. by destruct (_ === _).
  - exact Hb.
  - intros x (e & -> & He)%list_elem_of_fmap. case_bool_decide; [by apply Hgood|by apply Hch].
  - intros p Hx. eapply write_allowed_mono; [|by apply Hp]. intros e He.
    exists (if me_id e === id then f e else e).
    split; [by apply list_elem_of_fmap; exists e|].
    by destruct (_ === _); rewrite ?Hid, ?Hcr.
Qed.

Lemma run_write_approval pool p (s : AccountingWorld) r s' :
  write_allowed (kw_manual s) p -> run_write p s = (r, s') -> approval_with pool s -> approval_with pool s'.
Proof.
  intros Hw Hr Hs. assert (exists s1, approval_with pool s1 /\ (s' = s1 \/ exists w, kw_base s1 = w /\
    exists action, s' = set_books (log_audit action w) s1)) as (s1 & Hs1 & [->|(w & <- & action & ->)]).
  2: done. 2: { apply approval_books; [|done]. exact (apo_books _ Hs1). }
  destruct p as [id actorId notes|id actorId notes]; cbn [run_write] in Hr; unfold approve_write, reject_write, bind in Hr.
  all: destruct (manual_update _ _ _ s) as [[[]|e] s1] eqn:E; apply manual_update_cases in E as E'.
  all: exists s1; split; [|first [injection Hr as _ <-; by left|rewrite accounting_audit_run in Hr; injection Hr as _ <-; eauto 6]].
  all: destruct E' as [->| ->]; [done|]; apply update_approval; [done..| |done].
  all: intros x Hx Hid Hst; try discriminate Hst.
  all: destruct Hw as (y & Hy & Hyid & Hc); left; exists actorId; split; [done|]; cbn.
  all: assert (x = y) as ->; [|congruence].
  all: eapply (NoDup_key_inj me_id); [exact (apo_ids _ Hs)|done..|congruence].
Qed.

Lemma approval_step_ok c c' : approval_step c c' -> approval_ok c -> approval_ok c'.
Proof.
  intros [tenantId dto actorId s r s' pool Hr|tenantId id actorId notes s s' pool Hr
    |tenantId id actorId notes s s' pool Hr|p s r s' pool1 pool2 Hr|w s pool Hw] Hs.
  - by eapply create_approval.
  - apply (approve_check_allowed _ _ _ notes) in Hr as [-> Hw]; [|exact (apo_books _ Hs)].
    destruct Hs as [? ? ? Hp]. split; cbn in *; [done..|]. intros p [->|?]%elem_of_cons; auto.
  - unfold reject_check in Hr. run_inv. apply pending_entry_Ok in Hrun as (-> & _).
    destruct Hs as [? ? ? Hp]. split; cbn in *; [done..|]. intros p [->|?]%elem_of_cons; [done|auto].
  - eapply run_write_approval; [|exact Hr|].
    + apply Hs. cbn. set_solver.
    + destruct Hs as [? ? ? Hp]. split; cbn in *; [done..|]. intros q Hq. apply Hp. set_solver.
  - by apply approval_books.
Qed.

(** C17: Safety, over every interleaving of creations, approvals and rejections
    in which each approval may write long after its check: an approved entry
    was approved by somebody other than its creator, or its stored total does
    not exceed the threshold of 100,000. *)
Theorem maker_checker s0 s pool e :
  kw_manual s0 = [] -> books_never_pending (kw_base s0) ->
  rtc approval_step (s0, []) (s, pool) ->
  e ∈ kw_manual s -> me_status e = JE_APPROVED ->
  (exists approver, me_approvedById e = Some approver /\ approver <> me_createdById e)
  \/ me_totalAmount e <= ks 100000.
Proof.
  intros Hnone Hb Hs He. apply (apo_checked (s, pool)); [|done].
  assert (approval_ok (s0, [])) as Hok.
  { split; cbn; rewrite ?Hnone; [constructor|done|set_solver|set_solver]. }
  revert Hok. induction Hs; eauto using approval_step_ok.
Qed.

Lemma updated_row (P : ManualEntry -> bool) f l e :
  e ∈ l -> (if P e then f e else e) ∈ update_where P f l.
Proof. intros He. apply list_elem_of_fmap. by exists e. Qed.

Lemma manual_write_Ok id actorId f action (s s' : AccountingWorld) :
  (manual_update id actorId f ;; accounting_audit action) s = (Ok tt, s') ->
  kw_manual s' = update_where (fun e => me_id e === id) f (kw_manual s).
Proof.
  intros Hr. apply bind_Ok in Hr as ([] & s1 & Hu & Ha). unfold manual_update in Hu. run_inv.
  by injection Ha as <-.
Qed.

(** The last write wins: an entry both checks passed ends as the later write
    says, so a rejected entry becomes an approved one. *)
Theorem approved_after_rejection id approver notes (s s' s2 : AccountingWorld) rejecter notes2 e :
  e ∈ kw_manual s -> me_id e = id ->
  reject_write id rejecter notes2 s = (Ok tt, s') -> approve_write id approver notes s' = (Ok tt, s2) ->
  (exists e1, e1 ∈ kw_manual s' /\ me_id e1 = id /\ me_status e1 = JE_REJECTED) /\
  (exists e2, e2 ∈ kw_manual s2 /\ me_id e2 = id /\ me_status e2 = JE_APPROVED /\
    me_rejectedById e2 = Some rejecter /\ me_approvedById e2 = Some approver).
Proof.
  intros He Hid Hr Ha. apply manual_write_Ok in Hr as Er. apply manual_write_Ok in Ha as Ea.
  rewrite Ea, Er. split.
  - eexists. split; [apply updated_row; exact He|]. rewrite Hid, same_refl. done.
  - eexists. split; [apply updated_row, updated_row; exact He|]. rewrite Hid, same_refl. cbn.
    rewrite Hid, same_refl. done.
Qed.
End Approval.

(** ** The millionth entry of a year *)
Section Numbers.
Context `{UuidSource, DecimalLib}.

Lemma lacks_dash_go (n : N) s : lacks "-" s = true -> lacks "-" (pretty_N_go n s) = true.
Proof.
  revert s. induction (N.lt_wf_0 n) as [n _ IH]. intros s Hs.
  destruct (decide (n = 0)%N) as [->|Hn]; [by rewrite pretty_N_go_0|].
  rewrite pretty_N_go_step by lia. apply IH; [apply N.div_lt; lia|].
  rewrite lacks_cons, Hs, andb_true_r. unfold pretty_N_char. by repeat case_match.
Qed.

Lemma lacks_dash_pretty (y : Z) : 0 <= y -> lacks "-" (pretty y) = true.
Proof.
  intros Hy. destruct y as [|p|p]; [done| |lia].
  change (lacks "-" (pretty (Npos p)) = true). unfold pretty, pretty_N.
  case_decide; [done|by apply lacks_dash_go].
Qed.

Lemma next_of_number (y : Z) (digits : string) n :
  0 <= y -> lacks "-" digits = true -> parseInt digits = Some n ->
  next_seq (Some (year_prefix y +:+ digits)) = n + 1.
Proof.
  intros Hy Hd Hn. unfold next_seq, year_prefix. rewrite !str_app_assoc.
  change ("JE-" +:+ (pretty y +:+ ("-" +:+ digits)))
    with ("JE" +:+ String "-" (pretty y +:+ String "-" digits)).
  rewrite split_on_app by done. rewrite split_on_app by (by apply lacks_dash_pretty).
  rewrite split_on_lacks by done. cbn [lookup list_lookup default]. cbn. by rewrite Hn.
Qed.

Lemma leb_app s a b : String.leb (s +:+ a) (s +:+ b) = String.leb a b.
Proof.
  unfold String.leb. induction s as [|c s IH]; [done|]. rewrite !str_cons_app. cbn [String.compare].
  unfold Ascii.compare. by rewrite N.compare_refl.
Qed.

Lemma leb_trans a b c : String.leb a b = true -> String.leb b c = true -> String.leb a c = true.
Proof.
  unfold String.leb. revert b c. induction a as [|x a IH]; intros [|y b] [|z c]; cbn [String.compare]; try done.
  unfold Ascii.compare. intros H1 H2.
  destruct (N.compare_spec (N_of_ascii x) (N_of_ascii y)), (N.compare_spec (N_of_ascii y) (N_of_ascii z)),
    (N.compare_spec (N_of_ascii x) (N_of_ascii z)); try done; try lia. by eapply IH.
Qed.

Lemma greatest_Some l : match greatest l with
  | Some y => y ∈ l /\ forall x, x ∈ l -> String.leb x y = true
  | None => l = []
  end.
Proof.
  induction l as [|x l IH]; [done|]. cbn. destruct (greatest l) as [y|]; [|subst l].
  - destruct IH as [Hy Hmax]. destruct (String.leb x y) eqn:E.
    + split; [by right|]. intros z [-> |Hz]%elem_of_cons; auto.
    + assert (String.leb y x = true) as E' by (destruct (String.leb_total x y); congruence).
      split; [by left|]. intros z [-> |Hz]%elem_of_cons; [by destruct (String.leb_total x x)|].
      eapply leb_trans; [|exact E']. auto.
  - split; [by left|]. intros z ->%list_elem_of_singleton. by destruct (String.leb_total x x).
Qed.

Lemma greatest_intro l y : y ∈ l -> (forall x, x ∈ l -> String.leb x y = true) -> greatest l = Some y.
Proof.
  intros Hy Hmax. pose proof (greatest_Some l) as Hg. destruct (greatest l) as [z|]; [|subst; by apply elem_of_nil in Hy].
  destruct Hg as [Hz Hzmax]. f_equal. apply String.leb_antisym; auto.
Qed.

(** The number a creation asks for, whether it gets it or not. *)
Lemma createJournalEntry_number tenantId dto actorId (s : AccountingWorld) r s' :
  createJournalEntry tenantId dto actorId s = (r, s') ->
  let year := getFullYear (clock (kw_base s)) in
  let number := entry_number year (next_seq (last_number tenantId (year_prefix year) s)) in
  kdb s' = kdb s /\ clock (kw_base s') = clock (kw_base s) /\
  ((exists e, r = Ok e /\ me_entryNumber e = number /\ me_tenantId e = tenantId /\
      number_taken tenantId number s = false /\ kw_manual s' = kw_manual s ++ [e])
   \/ (exists err, r = Err err /\ kw_manual s' = kw_manual s)).
Proof.
  unfold createJournalEntry. cbv zeta. unfold bind, throw_if, gets, ret, throw. intros Hr.
  repeat (case_match; simplify_eq; eauto 8).
  all: match goal with
  | Hm : manual_create _ _ = (Ok _, _) |- _ =>
      apply manual_create_Ok in Hm as (He & _ & Hn & ->); [|done]; rewrite He in *
  | Hm : manual_create _ _ = (Err _, _) |- _ => apply manual_create_Err in Hm as ->; by eauto 8
  end.
  all: match goal with Ha : accounting_audit _ _ = (Ok _, _) |- _ => injection Ha as _ <- end.
  all: split_and!; [done..|left]; eexists; split_and!; [done..|exact Hn|done].
Qed.

(** One more number of the tenant. *)
Lemma numbers_grow (s s' : AccountingWorld) e n :
  kw_manual s' = kw_manual s ++ [e] -> kdb s' = kdb s ->
  n ∈ numbers_of (me_tenantId e) s' <-> n ∈ numbers_of (me_tenantId e) s \/ n = me_entryNumber e.
Proof.
  intros E1 E2. unfold numbers_of. rewrite E1, E2, List.filter_app, fmap_app. cbn. rewrite same_refl. cbn.
  rewrite !elem_of_app, list_elem_of_singleton. tauto.
Qed.

Lemma numbers_same (s s' : AccountingWorld) : kw_manual s' = kw_manual s -> kdb s' = kdb s ->
  forall t, numbers_of t s' = numbers_of t s.
Proof. intros E1 E2 t. unfold numbers_of. by rewrite E1, E2. Qed.

Lemma last_number_Some t prefix (s : AccountingWorld) n :
  last_number t prefix s = Some n <->
  n ∈ numbers_of t s /\ String.prefix prefix n = true /\
  forall x, x ∈ numbers_of t s -> String.prefix prefix x = true -> String.leb x n = true.
Proof.
  unfold last_number.
  assert (forall x, x ∈ List.filter (fun n => String.prefix prefix n) (numbers_of t s) <->
    x ∈ numbers_of t s /\ String.prefix prefix x = true) as Hin.
  { intros x. rewrite !list_elem_of_In. apply List.filter_In. }
  split.
  - intros E. pose proof (greatest_Some (List.filter (fun n => String.prefix prefix n) (numbers_of t s))) as Hg.
    rewrite E in Hg. destruct Hg as [Hn Hmax]. apply Hin in Hn as [? ?]. split_and!; [done..|].
    intros x ? ?. apply Hmax, Hin. done.
  - intros (Hn & Hp & Hmax). apply greatest_intro; [by apply Hin|]. intros x [? ?]%Hin. auto.
Qed.

Definition creates (tenantId : string) (s s' : AccountingWorld) : Prop :=
  exists dto actorId r, createJournalEntry tenantId dto actorId s = (r, s').

(** The state in which the greatest number is the shorter 999999. *)
Definition numbers_stuck (t : string) (y : Z) (s : AccountingWorld) : Prop :=
  getFullYear (clock (kw_base s)) = y /\ number_taken t (entry_number y 1000000) s = true /\
  last_number t (year_prefix y) s = Some (year_prefix y +:+ "999999").

Lemma stuck_step t y s s' :
  0 <= y -> numbers_stuck t y s -> creates t s s' -> kw_manual s' = kw_manual s /\ numbers_stuck t y s'.
Proof.
  intros Hy (Ey & Ht & Hl) (dto & actorId & r & Hr).
  apply createJournalEntry_number in Hr as (Edb & Ec & [(e & _ & _ & _ & Hfree & _)|(err & _ & Em)]).
  - rewrite Ey, Hl, (next_of_number y "999999" 999999) in Hfree by done.
    change (999999 + 1) with 1000000 in Hfree. congruence.
  - split; [done|]. unfold numbers_stuck, last_number, number_taken in *.
    rewrite Ec, (numbers_same s s' Em Edb). done.
Qed.

Lemma stuck_steps t y s s' :
  0 <= y -> rtc (creates t) s s' -> numbers_stuck t y s -> kw_manual s' = kw_manual s /\ numbers_stuck t y s'.
Proof.
  intros Hy. induction 1 as [|s1 s2 s3 H12 _ IH]; intros Hst; [done|].
  destruct (stuck_step _ _ _ _ Hy Hst H12) as [E Hst2]. destruct (IH Hst2) as [E3 ?]. split; [congruence|done].
Qed.

(** Bounds of the numbering: the number after JE-year-999999 has a digit
    more and is smaller as text, so once it is given the greatest number of
    the year stays 999999, every later creation asks for a number that is
    taken, and the tenant adds no entry for the rest of the year. *)
Theorem entry_numbers_run_out t dto actorId s e s1 :
  let y := getFullYear (clock (kw_base s)) in
  0 <= y -> last_number t (year_prefix y) s = Some (year_prefix y +:+ "999999") ->
  createJournalEntry t dto actorId s = (Ok e, s1) ->
  me_entryNumber e = year_prefix y +:+ "1000000" /\
  forall s2, rtc (creates t) s1 s2 -> kw_manual s2 = kw_manual s1 /\
    forall dto2 actor2, exists err, (createJournalEntry t dto2 actor2 s2).1 = Err err.
Proof.
  intros y Hy Hl Hr. apply createJournalEntry_number in Hr as (Edb & Ec & [(e0 & [= <-] & En & Et & Hfree & Em)|(? & ? & _)]); [|done].
  fold y in En, Hfree, Ec. rewrite Hl, (next_of_number y "999999" 999999) in En by done.
  change (999999 + 1) with 1000000 in En. split; [done|].
  assert (numbers_stuck t y s1) as Hstuck.
  { split_and!; [by rewrite Ec| |].
    - apply bool_decide_eq_true. rewrite <- Et, <- En. apply (numbers_grow s s1 e); auto.
    - apply last_number_Some in Hl as (Hin & Hp & Hmax). apply last_number_Some.
      assert (forall n, n ∈ numbers_of t s1 <-> n ∈ numbers_of t s \/ n = me_entryNumber e) as Hg
        by (intros n; rewrite <- Et; by apply numbers_grow).
      split_and!; [apply Hg; auto|done|]. intros x [Hx| ->]%Hg Hpx; [auto|].
      rewrite En. unfold entry_number. by rewrite leb_app. }
  intros s2 Hs. destruct (stuck_steps _ _ _ _ Hy Hs Hstuck) as [E2 Hst]. split; [done|]. intros dto2 actor2. destruct (createJournalEntry t dto2 actor2 s2) as [r s3] eqn:E. cbn.
  destruct (stuck_step _ _ s2 s3 Hy Hst) as [Hsame _]; [by do 3 eexists|].
  apply createJournalEntry_number in E as (_ & _ & [(e2 & _ & _ & _ & _ & Em2)|(err & -> & _)]); [|by exists err].
  rewrite Em2 in Hsame. by apply (f_equal length) in Hsame; rewrite length_app in Hsame; cbn in Hsame; lia.
Qed.
End Numbers.

(** ** A small tenant's books *)
Definition fresh_books : AccountingWorld := mkAccountingWorld open_world [] ∅ ∅.
Definition cash_line (amount : Q) : GLPostingLineDto := mkPostingLine "gl-cash" "gl-fees" amount None.
Definition big_entry : CreateJournalEntryDto :=
  mkCreateEntry "Sale of the van" MANUAL [cash_line (inject_Z 250000)] None None.
Definition books_made : AccountingWorld := (createJournalEntry "t1" big_entry "teller" fresh_books).2.
Definition books_rejected : AccountingWorld := (reject_write "id-0" "system" None books_made).2.
Definition books_approved : AccountingWorld := (approve_write "id-0" "system" None books_rejected).2.

Example big_entry_waits : (me_entryNumber <$> kw_manual books_made, me_status <$> kw_manual books_made)
  = (["JE-1970-000001"], [JE_PENDING_APPROVAL]).
Proof. vm_compute. reflexivity. Qed.

Lemma no_entries w : journalEntries (db w) = [] -> books_never_pending w.
Proof. intros E e He. rewrite E in He. by apply elem_of_nil in He. Qed.

(** Both checks pass, the rejection is written, then the approval. *)
Lemma books_reachable : rtc approval_step (fresh_books, []) (books_approved, []).
Proof.
  eapply rtc_l; [eapply (step_create "t1" big_entry "teller"), surjective_pairing|].
  eapply rtc_l; [apply (step_approve_check "t1" "id-0" "system" None _ books_made); vm_compute; reflexivity|].
  eapply rtc_l; [apply (step_reject_check "t1" "id-0" "system" None _ books_made); vm_compute; reflexivity|].
  eapply rtc_l; [eapply (step_write (PW_reject "id-0" "system" None) _ _ books_rejected [] [_]), surjective_pairing|].
  eapply rtc_l; [eapply (step_write (PW_approve "id-0" "system" None) _ _ books_approved [] []), surjective_pairing|].
  apply rtc_refl.
Qed.

Lemma maker_checker_witness :
  exists e, e ∈ kw_manual books_approved /\ me_status e = JE_APPROVED /\
  ((exists approver, me_approvedById e = Some approver /\ approver <> me_createdById e)
   \/ me_totalAmount e <= ks 100000).
Proof.
  eassert (kw_manual books_approved = [_]) as E by (vm_compute; reflexivity).
  eexists. split; [rewrite E; by constructor|]. split; [reflexivity|].
  apply (maker_checker fresh_books books_approved []); [done| |exact books_reachable|rewrite E; by constructor|done].
  apply no_entries. reflexivity.
Defined.

(** ** Matching a payment *)
Section Matching.
Context `{UuidSource}.

(** What a match that posts did: cash against account 2000, whatever the type
    of the account it credits. *)
Definition posted_match (x t acc : string) (amount : Z) (w : World) (r : string * (Z * Z)) (w' : World) : Prop :=
  exists a row entry cash savings m',
    txn_by_reference t (recon_reference x) (db w) = None /\
    active_account t acc (db w) = Some a /\
    find_gl t "1000" (db w) = Some cash /\ find_gl t "2000" (db w) = Some savings /\
    accounts (db w') = <[acc := moved a amount]> (accounts (db w)) /\
    transactions (db w') = transactions (db w) ++ [row] /\
    txn_tenantId row = t /\ txn_reference row = recon_reference x /\
    r = (txn_id row, (txn_balanceBefore row, txn_balanceAfter row)) /\
    txn_balanceBefore row = acc_balance a /\ txn_balanceAfter row = acc_balance a + amount /\
    journalEntries (db w') = journalEntries (db w) ++ [entry] /\
    je_postings entry = [mkGLPosting (gl_id cash) (gl_id savings) amount
      ("Manual M-Pesa reconciliation - " +:+ recon_reference x)] /\
    glAccounts (db w') = glAccounts (db w) /\
    mpesaTransactions (db w') !! x = Some m' /\ mp_transactionId m' = Some (txn_id row).

Lemma find_recon_gl t code d :
  code = "1000" \/ code = "2000" ->
  List.find (fun g => gl_code g === code)
    (List.filter (fun g => (gl_tenantId g === t) && ((gl_code g === "1000") || (gl_code g === "2000")) && gl_isActive g)
       (glAccounts d)) = find_gl t code d.
Proof.
  intros Hc. rewrite find_filter. apply find_ext. intros g.
  destruct (gl_code g === code) eqn:E; [|by destruct (_ === t), (gl_isActive g), (_ || _)].
  reflect. rewrite E. destruct (gl_tenantId g === t), (gl_isActive g); try done; by destruct Hc as [-> | ->].
Qed.

Lemma matchBody_Ok x t acc actor note m memberId w r w' :
  matchBody x t acc actor note m memberId w = (Ok r, w') ->
  (exists dup, txn_by_reference t (recon_reference x) (db w) = Some dup /\ w' = w /\
    r = (txn_id dup, (txn_balanceBefore dup, txn_balanceAfter dup)))
  \/ posted_match x t acc (mp_amount m) w r w'.
Proof.
  unfold matchBody. intros Hr. run_inv.
  destruct (txn_by_reference _ _ _) as [dup|] eqn:Href.
  - left. run_inv. by exists dup.
  - right. run_inv.
    inv_call account_updateMany_Ok as [(-> & ->)|(b & -> & Hb & _ & _ & ->)]; [done|].
    inv_call transaction_create_Ok as (-> & Hf1 & Hd1 & Hid1 & Hacc & ->).
    match goal with H : match List.find _ _ with _ => _ end _ = _ |- _ => rename H into Hgl end.
    rewrite !find_recon_gl in Hgl by auto.
    destruct (find_gl t "1000" _) as [cash|] eqn:Hc; [|discriminate].
    destruct (find_gl t "2000" _) as [savings|] eqn:Hs; [|discriminate]. run_inv.
    inv_call journal_create_Ok as (-> & Hje & Hu & ->).
    inv_call mpesa_update_Ok as (m' & ->).
    match goal with H : active_account _ _ _ = Some _ |- _ => pose proof H as Ha end.
    apply active_account_Some in Ha as (Ha & Ht & Hact). rewrite Ha in Hb. injection Hb as <-.
    do 6 eexists. split_and!; cycle 14; [apply lookup_insert_eq|try done..].
Qed.

Lemma match_commit_Ok x t acc actor note m account w r w' :
  match_commit x t acc actor note (m, account) w = (Ok r, w') ->
  exists posted w1, matchBody x t acc actor (note_text note) m (acc_memberId account) w = (Ok posted, w1) /\
    db w' = db w1 /\ mr_transactionId r = posted.1 /\ mr_balanceBefore r = posted.2.1 /\
    mr_balanceAfter r = posted.2.2.
Proof.
  unfold match_commit. intros Hr. run_inv. inv_call transaction_Ok as Hb. eauto 8.
Qed.

(** The reference of a posted match is there for every later one. *)
Lemma posted_match_reference x t acc amount w r w' :
  posted_match x t acc amount w r w' ->
  exists row, txn_by_reference t (recon_reference x) (db w') = Some row /\
    r = (txn_id row, (txn_balanceBefore row, txn_balanceAfter row)).
Proof.
  intros (a & row & entry & cash & savings & m' & Hnone & _ & _ & _ & _ & Ht & Hrt & Hrr & -> & _).
  exists row. split; [|done]. unfold txn_by_reference in *. rewrite Ht, find_app_none by done. cbn.
  by rewrite Hrt, Hrr, !same_refl.
Qed.

(** C32: A payment credits one account once: after a match has gone through,
    every other match of that payment, whatever it read and however long
    before, to whatever account and by whomever, answers with the transaction
    of the first and leaves the database alone; and a request that starts
    afterwards is told that the payment is not to be matched. *)
Theorem payment_matched_once x t acc actor note m account w r1 w1 :
  match_commit x t acc actor note (m, account) w = (Ok r1, w1) ->
  (forall acc2 actor2 note2 read2, exists r2 w2,
    match_commit x t acc2 actor2 note2 read2 w1 = (Ok r2, w2) /\ db w2 = db w1 /\
    mr_transactionId r2 = mr_transactionId r1 /\ mr_balanceAfter r2 = mr_balanceAfter r1) /\
  (txn_by_reference t (recon_reference x) (db w) = None ->
    (exists a, active_account t acc (db w) = Some a /\
      accounts (db w1) = <[acc := moved a (mp_amount m)]> (accounts (db w))) /\
    forall acc2 actor2 note2, exists e,
      matchMpesaTransaction x t acc2 actor2 note2 w1 = (Err (NotFound e), w1)).
Proof.
  intros Hr. apply match_commit_Ok in Hr as (posted & w0 & Hb & Edb & E1 & _ & E2).
  apply matchBody_Ok in Hb.
  assert (exists row, txn_by_reference t (recon_reference x) (db w1) = Some row /\
    posted = (txn_id row, (txn_balanceBefore row, txn_balanceAfter row))) as (row & Href & ->).
  { rewrite Edb. destruct Hb as [(dup & ? & -> & ->)|Hp]; [by exists dup|by eapply posted_match_reference]. }
  split.
  - intros acc2 actor2 note2 [m2 account2]. unfold match_commit, bind at 1, transaction, matchBody, bind at 1, gets at 1.
    rewrite Href. cbn [ret]. do 2 eexists. split; [reflexivity|]. by rewrite E1, E2.
  - intros Hnone. destruct Hb as [(dup & ? & _)|Hp]; [congruence|].
    destruct Hp as (a & row' & entry & cash & savings & m' & _ & Ha & _ & _ & Eacc & _ & _ & _ & _ & _ & _ & _ & _ & _
      & Hm & Htx).
    split; [exists a; by rewrite Edb|]. intros acc2 actor2 note2. eexists.
    unfold matchMpesaTransaction, match_read, unmatched_payment. unfold bind, gets. rewrite Edb, Hm, Htx.
    rewrite (bool_decide_eq_false_2 (Some _ = None)) by done. by rewrite andb_false_r.
Qed.

(** C33: A match that posts breaks the ledger: deposits of the credited type
    grow by the amount while the account of the general ledger that carries
    them does not move, since the match always posts to account 2000. *)
Theorem manual_match_unbacks x t acc actor note m account w r w' a g :
  ledger_ok (db w) -> match_commit x t acc actor note (m, account) w = (Ok r, w') ->
  txn_by_reference t (recon_reference x) (db w) = None -> active_account t acc (db w) = Some a ->
  find_gl t (memberDepositsCode (acc_accountType a)) (db w) = Some g -> 0 < mp_amount m ->
  gl_net (gl_id g) (db w') = gl_net (gl_id g) (db w) /\
  deposits t (acc_accountType a) (db w') = deposits t (acc_accountType a) (db w) + mp_amount m /\
  ~ gl_backed (db w').
Proof.
  intros Hok Hr Hnone Ha Hg Hpos. apply match_commit_Ok in Hr as (posted & w0 & Hb & -> & _).
  apply matchBody_Ok in Hb as [(dup & ? & _)|Hp]; [congruence|].
  destruct Hp as (a' & row & entry & cash & savings & m' & _ & Ha' & Hc & Hs & Eacc & _ & _ & _ & _ & _ & _ & Ej & Ep & Eg & _).
  rewrite Ha in Ha'. injection Ha' as <-. apply active_account_Some in Ha as (Hl & Ht & _).
  assert (gl_net (gl_id g) (db w0) = gl_net (gl_id g) (db w)) as Enet.
  { unfold gl_net at 1. rewrite Ej, gl_net_app, (entry_net_single _ _ _ Ep).
    rewrite (pair_effect _ t _ _ _ _ _ _ (ok_gl_ids _ Hok) Hc Hs t (acc_accountType a) g Hg), same_refl.
    by destruct (acc_accountType a); decide_codes. }
  assert (deposits t (acc_accountType a) (db w0) = deposits t (acc_accountType a) (db w) + mp_amount m) as Edep.
  { unfold deposits at 1. rewrite Eacc, (deposits_insert _ _ _ _ a) by done. rewrite Ht, !same_refl. cbn. lia. }
  split_and!; [done..|]. intros Hback.
  assert (find_gl t (memberDepositsCode (acc_accountType a)) (db w0) = Some g) as Hg' by (unfold find_gl in *; by rewrite Eg).
  apply Hback in Hg'. apply (ok_backed _ Hok) in Hg. lia.
Qed.
End Matching.

(** ** Provisioning *)
Section Provisioning.
Context `{UuidSource}.

(** A loop whose body establishes [Q x] and keeps what was established. *)
Lemma each_Ok {A} (f : A -> AC unit) (Q : A -> AccountingWorld -> Prop) (R : AccountingWorld -> AccountingWorld -> Prop) l s s' :
  (forall s, R s s) -> (forall s1 s2 s3, R s1 s2 -> R s2 s3 -> R s1 s3) ->
  (forall x s1 s2, f x s1 = (Ok tt, s2) -> Q x s2 /\ R s1 s2) ->
  (forall x s1 s2, R s1 s2 -> Q x s1 -> Q x s2) ->
  each f l s = (Ok tt, s') -> R s s' /\ forall x, x ∈ l -> Q x s'.
Proof.
  intros Hrefl Htrans Hf Hkeep. revert s. induction l as [|x l IH]; cbn [each]; intros s Hr.
  - injection Hr as <-. split; [done|]. intros x Hx. by apply elem_of_nil in Hx.
  - apply bind_Ok in Hr as ([] & s1 & Hx & Hr). apply Hf in Hx as [HQ HR].
    apply IH in Hr as [HR' HQ']. split; [by eapply Htrans|].
    intros y [-> |Hy]%elem_of_cons; [by eapply Hkeep|by apply HQ'].
Qed.

Lemma each_skip {A} (f : A -> AC unit) l s :
  (forall x, x ∈ l -> f x s = (Ok tt, s)) -> each f l s = (Ok tt, s).
Proof.
  induction l as [|x l IH]; cbn [each]; intros Hf; [done|].
  unfold bind. rewrite Hf by constructor. apply IH. intros y Hy. apply Hf. by constructor.
Qed.

(** What a part of the provisioning may change: rows are only added. *)
Record provisioned_from (t : string) (s s' : AccountingWorld) : Prop := {
  pf_gl : exists l, glAccounts (kdb s') = glAccounts (kdb s) ++ l /\ forall g, g ∈ l -> gl_isActive g = true;
  pf_policies : exists l, policies (kdb s') = policies (kdb s) ++ l;
}.

Lemma provisioned_refl t s : provisioned_from t s s.
Proof.
  split; exists []; rewrite app_nil_r; [split; [done|]|done]. intros g Hg. by apply elem_of_nil in Hg.
Qed.

Lemma provisioned_trans t s1 s2 s3 : provisioned_from t s1 s2 -> provisioned_from t s2 s3 -> provisioned_from t s1 s3.
Proof.
  intros [(l1 & E1 & H1) (k1 & F1)] [(l2 & E2 & H2) (k2 & F2)]. split.
  - exists (l1 ++ l2). rewrite E2, E1, app_assoc. split; [done|]. intros g [?|?]%elem_of_app; auto.
  - exists (k1 ++ k2). by rewrite F2, F1, app_assoc.
Qed.

Definition seeded (t : string) (seed : GLAccountSeed) (s : AccountingWorld) : Prop :=
  gl_seeded t (gs_code seed) (kdb s) = true.
Definition with_policy (t : string) (T : AccountType) (s : AccountingWorld) : Prop :=
  existsb (fun p => (pol_tenantId p === t) && (pol_accountType p === T)) (policies (kdb s)) = true.

Lemma seeded_mono t x s1 s2 : provisioned_from t s1 s2 -> seeded t x s1 -> seeded t x s2.
Proof. intros [(l & E & _) _]. unfold seeded, gl_seeded. rewrite E, existsb_app. by intros ->. Qed.
Lemma with_policy_mono t T s1 s2 : provisioned_from t s1 s2 -> with_policy t T s1 -> with_policy t T s2.
Proof. intros [_ (l & E)]. unfold with_policy. rewrite E, existsb_app. by intros ->. Qed.

Ltac books_inv :=
  repeat (match goal with H : on_books _ _ = (Ok _, _) |- _ =>
    let w := fresh "w" in let Hw := fresh "Hw" in apply on_books_Ok in H as (w & Hw & ->);
    try (unfold fresh_id, modify, ret in Hw; injection Hw as; subst) end).

Lemma seed_gl_account_Ok t x s1 s2 :
  seed_gl_account t x s1 = (Ok tt, s2) -> seeded t x s2 /\ provisioned_from t s1 s2.
Proof.
  unfold seed_gl_account. intros Hr. run_inv. destruct (gl_seeded _ _ _) eqn:E.
  - run_inv. split; [done|apply provisioned_refl].
  - run_inv. books_inv. split.
    + unfold seeded, gl_seeded. cbn. rewrite existsb_app. cbn. rewrite !same_refl. by rewrite orb_true_r.
    + split; cbn; eexists; [split; [done|]|symmetry; apply app_nil_r].
      by intros g ->%list_elem_of_singleton.
Qed.

Lemma seed_policy_Ok t T s1 s2 :
  seed_policy t T s1 = (Ok tt, s2) -> with_policy t T s2 /\ provisioned_from t s1 s2.
Proof.
  unfold seed_policy. intros Hr. run_inv. destruct (existsb _ _) eqn:E.
  - run_inv. split; [done|apply provisioned_refl].
  - run_inv. books_inv. split.
    + unfold with_policy. cbn. rewrite existsb_app. cbn. rewrite !same_refl. by rewrite orb_true_r.
    + split; cbn; eexists; [split; [symmetry; apply app_nil_r|]|done]. intros g Hg. by apply elem_of_nil in Hg.
Qed.

Lemma ensureSystemUser_Ok t s id s' :
  ensureSystemUser t s = (Ok id, s') ->
  provisioned_from t s s' /\
  (exists u, system_user t s' = Some u /\ user_id u = id) /\
  (system_user t s = None -> exists u, u ∈ users (kdb s') /\ user_tenantId u = t /\ user_role u = SYSTEM).
Proof.
  unfold ensureSystemUser. intros Hr. run_inv. destruct (system_user t s0) as [u|] eqn:E.
  - run_inv. split_and!; [apply provisioned_refl|eauto|done].
  - run_inv. books_inv. apply existsb_id_false in Hguard. cbn in Hguard. split_and!.
    + split; cbn; exists []; rewrite app_nil_r; [split; [done|]|done]. intros g Hg. by apply elem_of_nil in Hg.
    + exists (mkUser (uuid (nextUuid (kw_base s0))) t SYSTEM). split; [|done]. unfold system_user, has_email. cbn. rewrite find_app_none.
      * cbn. by rewrite lookup_insert_eq, !same_refl.
      * apply find_none_of. intros x Hx. rewrite lookup_insert_ne.
        { apply list_elem_of_In in Hx. exact (List.find_none _ _ E x Hx). }
        intros Ei. apply Hguard. rewrite Ei. by apply list_elem_of_fmap_2.
    + intros _. eexists. cbn. split; [apply elem_of_app; right; by constructor|done].
Qed.

Definition chart_code (code : string) : bool := existsb (fun x => gs_code x === code) DEFAULT_GL_ACCOUNTS.

(** Every code that LedgerService posts to is in the default chart. *)
Lemma ledger_codes_in_chart :
  (forall T j dir ct codes, resolveGlCodes T j dir ct = Ok codes ->
    chart_code codes.1 = true /\ chart_code codes.2 = true) /\
  (forall leg, chart_code (leg_credit_code leg) = true).
Proof.
  split; [|by intros []]. intros T j dir ct codes Hc.
  destruct j, T; try discriminate Hc; try (injection Hc as <-; by vm_compute).
  all: destruct ct as [[]|]; try discriminate Hc; destruct dir; injection Hc as <-; by vm_compute.
Qed.

Lemma seeded_found t code (s : AccountingWorld) :
  (forall g, g ∈ glAccounts (kdb s) -> gl_tenantId g = t -> gl_isActive g = true) ->
  (forall x, x ∈ DEFAULT_GL_ACCOUNTS -> seeded t x s) -> chart_code code = true ->
  exists g, find_gl t code (kdb s) = Some g.
Proof.
  intros Hact Hs Hc. apply existsb_exists in Hc as (x & Hx & Hcode). apply list_elem_of_In in Hx.
  specialize (Hs x Hx). apply existsb_exists in Hs as (g & Hg & Hm). reflect. subst.
  unfold find_gl. destruct (List.find _ _) as [g'|] eqn:E; [by exists g'|].
  apply (List.find_none _ _) with (x := g) in E; [|done]. apply list_elem_of_In in Hg.
  rewrite Hact in E by done. reflect. naive_solver.
Qed.

Lemma findGlAccountPair_run t dc cc w g1 g2 :
  find_gl t dc (db w) = Some g1 -> find_gl t cc (db w) = Some g2 ->
  findGlAccountPair t dc cc w = (Ok (g1, g2), w).
Proof.
  intros E1 E2. unfold findGlAccountPair, bind, gets. rewrite !find_filter.
  rewrite (find_ext _ (fun g => (gl_tenantId g === t) && (gl_code g === dc) && gl_isActive g)).
  2: { intros x. destruct (gl_tenantId x === t), (gl_isActive x), (gl_code x === dc), (gl_code x === cc); done. }
  rewrite (find_ext (fun x => _ && (gl_code x === cc))
    (fun g => (gl_tenantId g === t) && (gl_code g === cc) && gl_isActive g)).
  2: { intros x. destruct (gl_tenantId x === t), (gl_isActive x), (gl_code x === dc), (gl_code x === cc); done. }
  unfold find_gl in *. by rewrite E1, E2.
Qed.

Lemma provision_Ok t s p s' :
  provisionTenantAccounting t s = (Ok p, s') ->
  p = mkProvisioned (length DEFAULT_GL_ACCOUNTS) (length DEFAULT_ACCOUNT_TYPE_POLICIES) (pr_systemUserId p) /\
  provisioned_from t s s' /\
  (forall x, x ∈ DEFAULT_GL_ACCOUNTS -> seeded t x s') /\
  (forall T, T ∈ DEFAULT_ACCOUNT_TYPE_POLICIES -> with_policy t T s') /\
  (exists u, system_user t s' = Some u /\ user_id u = pr_systemUserId p).
Proof.
  unfold provisionTenantAccounting, seedDefaultChartOfAccounts, seedDefaultAccountTypePolicies. intros Hr. run_inv.
  match goal with H : each (seed_gl_account _) _ _ = (Ok ?u, _) |- _ => destruct u; rename H into H1 end.
  match goal with H : each (seed_policy _) _ _ = (Ok ?u, _) |- _ => destruct u; rename H into H2 end.
  match goal with H : ensureSystemUser _ _ = _ |- _ => rename H into H3 end.
  apply (each_Ok _ (seeded t) (provisioned_from t)) in H1 as [F1 Q1];
    [|by intros; apply provisioned_refl|by intros; eapply provisioned_trans|by intros; eapply seed_gl_account_Ok
     |by intros; eapply seeded_mono].
  apply (each_Ok _ (with_policy t) (provisioned_from t)) in H2 as [F2 Q2];
    [|by intros; apply provisioned_refl|by intros; eapply provisioned_trans|by intros; eapply seed_policy_Ok
     |by intros; eapply with_policy_mono].
  apply ensureSystemUser_Ok in H3 as (F3 & Q3 & _). cbn [pr_systemUserId]. split_and!; [done| | | |done].
  - eapply provisioned_trans; [exact F1|]. by eapply provisioned_trans.
  - intros x Hx. eapply seeded_mono; [exact F3|]. eapply seeded_mono; [exact F2|]. by apply Q1.
  - intros T HT. eapply with_policy_mono; [exact F3|]. by apply Q2.
Qed.

(** C25: A tenant whose provisioning went through, and whose chart had no
    deactivated rows, can post: LedgerService finds the pair of accounts of
    every code pair it can ask for, and that of every leg of a repayment;
    both account types have a policy and the system user is there.  Running
    the provisioning again answers the same and changes nothing. *)
Theorem provisioned_ledger_ready t s p s' :
  provisionTenantAccounting t s = (Ok p, s') ->
  (forall g, g ∈ glAccounts (kdb s) -> gl_tenantId g = t -> gl_isActive g = true) ->
  (forall T j dir ct codes, resolveGlCodes T j dir ct = Ok codes ->
    exists pair, findGlAccountPair t codes.1 codes.2 (kw_base s') = (Ok pair, kw_base s')) /\
  (forall leg, exists pair,
    findGlAccountPair t GL_CODES.CASH (leg_credit_code leg) (kw_base s') = (Ok pair, kw_base s')) /\
  (forall T, exists q, q ∈ policies (kdb s') /\ pol_tenantId q = t /\ pol_accountType q = T) /\
  (exists u, u ∈ users (kdb s') /\ user_tenantId u = t /\ user_id u = pr_systemUserId p) /\
  provisionTenantAccounting t s' = (Ok p, s').
Proof.
  intros Hr Hact. apply provision_Ok in Hr as (Hp & [(l & El & Hl) _] & Hs & Hpol & u & Hu & Eu).
  assert (forall g, g ∈ glAccounts (kdb s') -> gl_tenantId g = t -> gl_isActive g = true) as Hact'.
  { rewrite El. intros g [?|?]%elem_of_app ?; auto. }
  assert (forall dc cc, chart_code dc = true -> chart_code cc = true ->
    exists pair, findGlAccountPair t dc cc (kw_base s') = (Ok pair, kw_base s')) as Hpair.
  { intros dc cc Hd Hc. destruct (seeded_found t dc s' Hact' Hs Hd) as (g1 & E1).
    destruct (seeded_found t cc s' Hact' Hs Hc) as (g2 & E2). exists (g1, g2). by apply findGlAccountPair_run. }
  destruct ledger_codes_in_chart as [Hcodes Hlegs]. split_and!.
  - intros T j dir ct codes Hc. apply Hcodes in Hc as [? ?]. by apply Hpair.
  - intros leg. apply Hpair; [by vm_compute|done].
  - intros T. assert (with_policy t T s') as Hq by (apply Hpol; destruct T; set_solver).
    apply existsb_exists in Hq as (q & Hq & Hm). apply list_elem_of_In in Hq. reflect. by exists q.
  - unfold system_user in Hu. apply find_some_elem in Hu as [Hin Hm]. reflect. by exists u.
  - unfold provisionTenantAccounting, seedDefaultChartOfAccounts, seedDefaultAccountTypePolicies, bind.
    rewrite each_skip by (intros x Hx; unfold seed_gl_account, bind, gets; by rewrite (Hs x Hx)). cbn [ret].
    rewrite each_skip by (intros T HT; unfold seed_policy, bind, gets; by rewrite (Hpol T HT)). cbn [ret].
    unfold ensureSystemUser, bind, gets. rewrite Hu. cbn [ret]. by rewrite Eu, Hp.
Qed.
End Provisioning.

(** ** A payment of 500 for the FOSA account of a tenant with account 2000 *)
Definition waiting_payment : MpesaTransaction :=
  mkMpesaTransaction "t1" "STK-co1" (ks 500) T_RECON_PENDING None None None None (Some "R1") None
    (mkDetails MT_STK_PUSH "254700000001" None None None None None None None None None).
Definition recon_world : World :=
  with_db (fun d => set_glAccounts (chart ++ [gl "gl-savings" "2000"])
    (set_mpesaTransactions {["mp1" := waiting_payment]} d)) open_world.
Definition fosa1 : Account := account "m1" FOSA 0 0.

Definition matched_world : World :=
  (match_commit "mp1" "t1" "fosa1" "teller" None (waiting_payment, fosa1) recon_world).2.

Example match_reads : match_read "mp1" "t1" "fosa1" recon_world = (Ok (waiting_payment, fosa1), recon_world).
Proof. vm_compute. reflexivity. Qed.

Lemma payment_matched_once_witness :
  txn_by_reference "t1" (recon_reference "mp1") (db recon_world) = None /\
  exists a, active_account "t1" "fosa1" (db recon_world) = Some a /\
    accounts (db matched_world) = <["fosa1" := moved a (mp_amount waiting_payment)]> (accounts (db recon_world)).
Proof.
  assert (txn_by_reference "t1" (recon_reference "mp1") (db recon_world) = None) as Hn by reflexivity.
  split; [exact Hn|].
  destruct (match_commit "mp1" "t1" "fosa1" "teller" None (waiting_payment, fosa1) recon_world) as [[r|e] w] eqn:E; [|refute].
  assert (matched_world = w) as -> by (unfold matched_world; by rewrite E).
  destruct (payment_matched_once "mp1" "t1" "fosa1" "teller" None waiting_payment fosa1 recon_world r w E) as [_ Hp].
  exact (proj1 (Hp Hn)).
Defined.

Lemma recon_ok : ledger_ok (db recon_world).
Proof.
  destruct open_ok as [_ Hids _ Hrefs _].
  split; [by_decision|exact Hids| |exact Hrefs|intros t e Ht; by apply elem_of_nil in Ht].
  intros t T g _. unfold deposits. rewrite map_sum_zero; [done|].
  eapply (map_Forall_impl (fun _ a => acc_balance a = 0)); [by_decision|].
  intros k a Ha. unfold deposit_of. by destruct (_ && _).
Qed.

Lemma manual_match_unbacks_witness :
  deposits "t1" FOSA (db matched_world) = deposits "t1" FOSA (db recon_world) + ks 500 /\ ~ gl_backed (db matched_world).
Proof.
  destruct (match_commit "mp1" "t1" "fosa1" "teller" None (waiting_payment, fosa1) recon_world) as [[r|e] w] eqn:E; [|refute].
  assert (matched_world = w) as -> by (unfold matched_world; by rewrite E).
  apply (manual_match_unbacks "mp1" "t1" "fosa1" "teller" None waiting_payment fosa1 recon_world r w fosa1
    (gl "gl-fosa" "2300") recon_ok E); reflexivity.
Defined.

Definition t9_provisioned : Provisioned * AccountingWorld :=
  match provisionTenantAccounting "t9" fresh_books with
  | (Ok p, s) => (p, s)
  | (Err _, s) => (mkProvisioned 0 0 "", s)
  end.

Lemma provisioned_ledger_ready_witness :
  provisionTenantAccounting "t9" t9_provisioned.2 = (Ok t9_provisioned.1, t9_provisioned.2).
Proof.
  unfold t9_provisioned. destruct (provisionTenantAccounting "t9" fresh_books) as [[p|e] s'] eqn:E; [|refute].
  apply (provisioned_ledger_ready "t9" fresh_books p s' E).
  assert (forallb gl_isActive (glAccounts (kdb fresh_books)) = true) as Hall by reflexivity.
  intros g Hg _. rewrite forallb_forall in Hall. apply Hall. by apply list_elem_of_In.
Defined.

(** The tenant has given number 999999 of 1970. *)
Definition full_books : AccountingWorld :=
  set_manual [new_entry "t1" "teller" (entry_number 1970 999999) big_entry (inject_Z 250000) JE_PENDING_APPROVAL "old"]
    fresh_books.
Definition overflown_books : AccountingWorld := (createJournalEntry "t1" big_entry "teller" full_books).2.

Lemma entry_numbers_run_out_witness :
  (me_entryNumber <$> kw_manual overflown_books) = ["JE-1970-999999"; "JE-1970-1000000"] /\
  forall dto actorId, exists err, (createJournalEntry "t1" dto actorId overflown_books).1 = Err err.
Proof.
  split; [vm_compute; reflexivity|].
  destruct (createJournalEntry "t1" big_entry "teller" full_books) as [[e|e] s1] eqn:E; [|refute].
  assert (overflown_books = s1) as -> by (unfold overflown_books; by rewrite E).
  destruct (entry_numbers_run_out "t1" big_entry "teller" full_books e s1) as [_ Hstuck];
    [by vm_compute|vm_compute; reflexivity|exact E|].
  exact (proj2 (Hstuck s1 (rtc_refl _ _))).
Defined.
