(* ===== verification/ImportTheorems.v ===== *)
(** * ImportTheorems: the member import

    Phones and stage names, the validated list, the run of a batch and the
    life of an import job. *)
From S2P Require Import Prelude Json ImportText Fuzzy Schema Accounts Fixture Import ImportRun.
From S2P Require Import ImportJobs ImportFacts.

(** C26: The edit distance of the stage matcher is the least number of
    insertions, deletions and replacements of one character that turn the one
    name into the other: a script of that length exists, and none is shorter. *)
Theorem levenshtein_minimal a b :
  edits (String.list_ascii_of_string a) (String.list_ascii_of_string b) (levenshtein a b) /\
  forall n, edits (String.list_ascii_of_string a) (String.list_ascii_of_string b) n -> (levenshtein a b <= n)%nat.
Proof.
  set (la := String.list_ascii_of_string a). set (lb := String.list_ascii_of_string b).
  assert (levenshtein a b = lev (reverse la) (reverse lb)) as ->.
  { rewrite levenshtein_lev. unfold prefix_distance. fold la lb.
    by rewrite !take_ge by (unfold la, lb; rewrite length_list_ascii; lia). }
  split.
  - rewrite <- (reverse_involutive la), <- (reverse_involutive lb) at 1. apply edits_reverse, edits_lev.
  - intros n Hn. by apply lev_least, edits_reverse.
Qed.

(** C24: The loop that cuts the rows into batches ends whenever its step is
    positive, after at most as many turns as there are rows, with batches of
    between one row and the step that concatenate to the rows; with step 0 it
    would never end.  An import into a known ward, and a dry run, always
    return a report; a run that writes into an unknown ward always throws, and
    adds no user. *)
Theorem import_terminates `{UuidSource} `{Entropy} :
  (forall (arr : list ValidatedRow) n, (0 < n)%nat -> exists bs, chunk_from (length arr) n 0 arr = Some bs /\
     mjoin bs = arr /\ Forall (fun b => 0 < length b <= n)%nat bs) /\
  (forall (v : ValidatedRow) arr fuel, chunk_from fuel 0 0 (v :: arr) = None) /\
  (forall logId c dry rows s, dry = true \/ rc_wardId c ∈ wards (tables s) ->
     is_ok (executeImport logId c dry rows s).1 = true) /\
  (forall logId c rows s, rc_wardId c ∉ wards (tables s) ->
     (executeImport logId c false rows s).1 = Err (PlainError ("Ward " +:+ rc_wardId c +:+ " not found")) /\
     tables (executeImport logId c false rows s).2 = tables s).
Proof.
  split_and!.
  - intros arr n Hn. destruct (chunk_from_runs n arr Hn (length arr) 0) as (bs & E & Hj & Hf); [lia|].
    exists bs. by rewrite drop_0 in Hj.
  - intros v arr. apply chunk_from_stuck. cbn. lia.
  - intros logId c [] rows s Hd; [by rewrite executeImport_dry|]. destruct Hd as [|Hw]; [done|].
    destruct (executeImport_ran logId c rows s Hw) as (rep & s' & vs & rest & new & -> & _). done.
  - intros logId c rows s Hw. by rewrite executeImport_no_ward.
Qed.

(** C22: The report of a run that writes is true: the users added are as many
    as it counts and are the ones it lists, each made from a processable row
    and stamped with the batch; every row it tried is a success or a failure;
    rows are left out only when the failures exceed the threshold; and no two
    users share a phone or an ID number afterwards if none did before. *)
Theorem import_report_true `{UuidSource} `{Entropy} logId c rows s :
  rc_wardId c ∈ wards (tables s) ->
  exists rep s' new, executeImport logId c false rows s = (Ok rep, s') /\
    profiles (tables s') = profiles (tables s) ++ new /\ createdUsers rep = up_id <$> new /\
    successCount rep = Z.of_nat (length new) /\
    Forall (imported_from c (List.filter processable_row rows)) new /\
    (let tried := successCount rep + failedCount rep - count_status ERROR rows in
     let processable := Z.of_nat (count_where processable_row rows) in
     tried <= processable /\
     (tried < processable ->
        num_lt FAILURE_THRESHOLD (num_div (num_of_Z (failedCount rep)) (num_of_Z (Z.of_nat (length rows)))) = true)) /\
    (distinct_users (profiles (tables s)) -> distinct_users (profiles (tables s'))).
Proof.
  intros Hw. destruct (executeImport_ran logId c rows s Hw) as (rep & s' & vs & rest & new & E & Hrep & Hp & Hran & Hh).
  destruct Hran as [R1 R2 R3 R4 R5 _ _ _ R9].
  exists rep, s', new.
  assert (createdUsers rep = createdUsers (core s') /\ successCount rep = successCount (core s') /\
          failedCount rep = failedCount (core s')) as (HC & HS & HF) by (by rewrite <- Hrep).
  rewrite HC, HS. split_and!; [done|done|done|by rewrite R3| | |done].
  - rewrite Hp. eapply Forall_impl; [exact R2|]. intros p. apply imported_from_mono. set_solver.
  - unfold count_where. rewrite Hp, length_app, Nat2Z.inj_add. cbn in R3, R5. rewrite count_skipped in R5.
    rewrite HF. cbn. split; [lia|]. intros Hlt. cbn in HF. rewrite <- HF. apply Hh. intros ->. cbn in Hlt. lia.
Qed.

(** ** Import jobs *)

(** C23: A queued import is settled by the processor, whatever happens: its log
    ends COMPLETED, FAILED or PARTIAL, with a completion time and either the
    counts of the report or the fatal error.  A tenant without any stage can
    never import: the run fails, adds no user and overwrites the rows. *)
Theorem import_job_settles `{UuidSource} `{Entropy} t i s l rows :
  find_log t i (tables s) = Some l -> il_errorDetails l = ED_rows rows ->
  exists r s' l', process (i, t) s = (r, s') /\ find_log t i (tables s') = Some l' /\
    il_status l' ∈ [COMPLETED; FAILED; PARTIAL] /\ (exists now, il_completedAt l' = Some now) /\
    (is_ok r = true -> exists rep, il_reportData l' = Some rep /\ il_errorDetails l' = ED_rows rows /\
       il_counts l' = (successCount rep, failedCount rep, warningCount rep, skippedCount rep)) /\
    (is_ok r = false -> profiles (tables s') = profiles (tables s) /\ il_status l' = FAILED) /\
    (il_dryRun l = false -> "" ∉ wards (tables s) ->
       Forall (fun st => stage_tenantId st <> t) (stages (tables s)) ->
       is_ok r = false /\ il_errorDetails l' = ED_fatal "Ward  not found").
Proof.
  intros Hl Hd. destruct (process_cases t i s l rows Hl Hd) as (r & s1 & s2 & l2 & E2 & F2 & Hnow & P1 & W1 & H2).
  exists r, s2, l2. split_and!; [done|done| |done|..].
  - destruct (executeImport _ _ _ _ _) as [[rep|e] s3]; [destruct H2 as (_ & _ & _ & -> & _)|destruct H2 as (_ & _ & -> & _)].
    + unfold finalStatus. repeat case_match; set_solver.
    + set_solver.
  - destruct (executeImport _ _ _ _ _) as [[rep|e] s3]; [|by destruct H2 as (-> & _)]. intros _. exists rep. naive_solver.
  - destruct (il_dryRun l) eqn:Hdry.
    { rewrite executeImport_dry in H2. destruct H2 as (-> & _). done. }
    destruct (decide (rc_wardId (job_context t l s) ∈ wards_of s1)) as [Hw|Hw].
    + destruct (executeImport_ran i (job_context t l s) rows s1 Hw) as (rep & s3 & vs & rest & new & E3 & _).
      rewrite E3 in H2. destruct H2 as (-> & _). done.
    + rewrite executeImport_no_ward in H2 by done. destruct H2 as (_ & Hp & Hs & _).
      intros _. split; [|done]. transitivity (profiles_of s1); [exact Hp|exact P1].
  - intros Hdry Hno Hst. rewrite Hdry in H2.
    assert (first_ward t (tables s) = "") as Hfw.
    { unfold first_ward. destruct (List.find _ _) as [st|] eqn:Ef; [|done].
      apply find_some_elem in Ef as [Hin Ht]. apply bool_decide_eq_true_1 in Ht. rewrite Forall_forall in Hst. by destruct (Hst st). }
    assert (rc_wardId (job_context t l s) ∉ wards_of s1) as Hw by (rewrite W1; cbn; by rewrite Hfw).
    rewrite executeImport_no_ward in H2 by done. destruct H2 as (-> & _ & _ & ->). cbn. by rewrite Hfw.
Qed.

(** Retrying the failed rows of an import never imports anyone: the rows
    it queues are those validation rejected, which the run skips, so the retry
    adds no user and its log always ends FAILED. *)
Theorem retry_never_imports `{UuidSource} `{Entropy} `{JobIds} logId t actor s q s1 :
  retryFailed logId t actor s = (Ok q, s1) ->
  profiles (tables s1) = profiles (tables s) /\
  exists r s2 l, process (q_importLogId q, t) s1 = (r, s2) /\ profiles (tables s2) = profiles (tables s) /\
    find_log t (q_importLogId q) (tables s2) = Some l /\ il_status l = FAILED.
Proof.
  unfold retryFailed. intros Hr. run_inv.
  match goal with Hc : log_create _ _ _ _ _ _ _ = _ |- _ => apply log_create_Ok in Hc as (Hf & Hp & Hed & Hdr & _) end.
  set (failed := List.filter _ r2) in *.
  assert (s5 = s3) as ->. { destruct (il_errorDetails r0); run_inv; done. }
  injection Hrun5 as <- <-.
  match goal with Hu : log_update ?id ?f ?s2 = _ |- _ =>
    destruct (log_update_run t id f s2 r4 (keeps_job _) Hf) as (s4 & E4 & F4 & P4 & _); rewrite E4 in Hu;
    injection Hu as _ -> end.
  change (profiles_of _) with (profiles_of s6) in P4 at 2.
  assert (profiles_of s1 = profiles_of s3) as Hp1 by congruence. split; [exact Hp1|].
  destruct (process_cases t (il_id r4) s1 _ failed F4 Hed) as (r & sa & s2 & l2 & E2 & F2 & _ & Pa & _ & H2).
  exists r, s2, l2. split; [exact E2|]. change (il_dryRun (log_job _ r4)) with (il_dryRun r4) in H2. rewrite Hdr in H2.
  destruct (decide (rc_wardId (job_context t (log_job (bullJobId (length (importQueue s6))) r4) s1) ∈ wards_of sa)) as [Hw|Hw].
  - destruct (executeImport_ran (il_id r4) _ failed sa Hw) as (rep & sb & vs & rest & new & Eb & Hrep & Hvs & Hran & _).
    rewrite Eb in H2. destruct H2 as (_ & Hp2 & _ & -> & _).
    assert (List.filter processable_row failed = []) as Hnone.
    { apply filter_filter_none. intros v Hv Herr. apply bool_decide_eq_true_1 in Herr. unfold processable_row in Hv.
      rewrite Herr in Hv. by destruct (action v === CREATE). }
    rewrite Hnone in Hvs. destruct vs; [|done]. destruct Hran as [R1 R2 R3 _ R5 _ _ _ _]. cbn in R3, R5.
    assert (new = []) as ->.
    { destruct new as [|p new]; [done|]. apply Forall_inv in R2 as (_ & _ & _ & v & Hv & _). set_solver. }
    rewrite count_skipped in R5. unfold count_status, count_where in R5. subst failed. rewrite filter_filter_all in R5 by done.
    apply Nat.eqb_neq in Hguard. change (failedCount (report sb)) with (failedCount (core sb)) in R5.
    change (successCount (report sb)) with (successCount (core sb)) in R3. rewrite <- Hrep in R3, R5. cbn in R3, R5.
    split_and!; [|done|].
    + transitivity (profiles_of sb); [exact Hp2|]. rewrite R1, app_nil_r.
      transitivity (profiles_of sa); [done|]. by transitivity (profiles_of s1).
    + unfold finalStatus. rewrite (proj2 (Z.eqb_neq _ _)), (proj2 (Z.eqb_eq _ _)) by lia. done.
  - rewrite executeImport_no_ward in H2 by done. destruct H2 as (_ & Hp2 & Hs & _).
    split_and!; [|done|done]. transitivity (profiles_of sa); [exact Hp2|]. by transitivity (profiles_of s1).
Qed.

(** ** Cleaned values *)

(** C29: A phone the normalizer accepts is 254 followed by nine characters
    starting with 7 or 1; it has the validated E.164 form exactly when the
    text, stripped of its punctuation and of one leading plus, is all digits,
    and then normalizing it again returns it.  (A plus further inside is
    neither stripped nor refused.) *)
Theorem phone_normal_form raw p : normalized (normalizePhone raw) = Some p ->
  (exists l, p = "254" +:+ l /\ isValidKenyanLocal9 l = true) /\
  isValidE164Phone p = all_chars is_digit (phone_digits (default "" (trim <$> raw))) /\
  (isValidE164Phone p = true -> normalized (normalizePhone (Some p)) = Some p).
Proof.
  intros (l & -> & Hl & Hd)%normalizePhone_local. split; [by exists l|]. rewrite Hd.
  rewrite (valid_prefixed l Hl).
  split; [done|]. intros Hall. apply normal_phone. unfold local_digits. by rewrite Hl, Hall.
Qed.

(** A plus inside the number survives: the stored phone is not a number. *)
Example phone_inner_plus :
  normalized (normalizePhone (Some "07+1234567")) = Some "2547+1234567" /\ isValidE164Phone "2547+1234567" = false.
Proof. by vm_compute. Qed.

(** ** The validated list *)
Lemma fetch_finds (key : UserProfile -> option string) k u l : forall m : gmap string string,
  (exists v, m !! k = Some v) \/ (u ∈ l /\ key u = Some k) -> k <> "" ->
  is_Some (foldl (fun m u => match truthy (key u) with Some k => <[k := up_id u]> m | None => m end) m l !! k).
Proof.
  induction l as [|x l IH]; intros m Hm Hk; cbn.
  - destruct Hm as [[v Hv]|[Hu _]]; [by eexists|by apply not_elem_of_nil in Hu].
  - apply IH; [|done]. destruct Hm as [[v Hv]|[[->|Hu]%elem_of_cons Hu']]; [left|left|by right].
    + destruct (truthy (key x)) as [k'|]; [|by exists v]. destruct (decide (k' = k)) as [->|].
      * rewrite lookup_insert_eq. by eexists.
      * rewrite lookup_insert_ne by done. by exists v.
    + rewrite Hu'. cbn. rewrite (proj2 (same_false _ _)) by done. rewrite lookup_insert_eq. by eexists.
Qed.

Lemma statuses_sum vs :
  count_status VALID vs + count_status WARNING vs + count_status ERROR vs + count_status DUPLICATE vs = Z.of_nat (length vs).
Proof.
  unfold count_status, count_where. induction vs as [|v vs IH]; [done|]. cbn [List.filter].
  destruct (status v); repeat case_bool_decide; try done; cbn [length] in *; lia.
Qed.

(** A preview keeps every row, in order, under exactly one of the four
    statuses; an accepted row has a phone, and neither its phone nor its ID
    number occurs in an earlier row; and no row that will be imported has the
    phone or the ID number of an existing user, of any tenant. *)
Theorem preview_rows_distinct t tenantId wardId rows logId file :
  let r := validateRows (existing_of tenantId wardId t) rows logId file in
  parsed <$> pr_rows r = rows /\
  validCount r + pr_warningCount r + errorCount r + duplicateCount r = pr_totalRows r /\
  (forall i j v w, (i < j)%nat -> pr_rows r !! i = Some v -> pr_rows r !! j = Some w -> status w <> ERROR ->
     (exists k, phone_key (parsed w) = Some k /\ phone_key (parsed v) <> Some k) /\
     (forall k, id_key (parsed w) = Some k -> id_key (parsed v) <> Some k)) /\
  (forall v p k, v ∈ pr_rows r -> processable_row v = true -> p ∈ profiles t ->
     (phone_key (parsed v) = Some k -> up_phoneNumber p <> Some k) /\
     (id_key (parsed v) = Some k -> up_idNumber p <> Some k)).
Proof.
  cbv zeta. pose proof (list_checks (existing_of tenantId wardId t) rows) as Hc. unfold validateRows.
  destruct (validate_all _ rows) as [[vs seen] sts]. destruct Hc as [C1 _ C3 C4]. cbn. split_and!; [done| | |].
  - rewrite statuses_sum, <- C1, length_fmap. done.
  - intros i j v w Hij Hv Hw Hst. destruct (C3 i j v w Hij Hv Hw Hst). done.
  - assert (forall o k, truthy o = Some k -> k <> "") as Hne.
    { intros [x|] k; cbn; [|done]. case_bool_decide; [done|]. by intros [= <-]. }
    intros v p k Hv Hp Hin. destruct (C4 v Hv Hp) as [D1 D2]. cbn in D1, D2. split; intros Hk E.
    + destruct (fetch_finds up_phoneNumber k p (profiles t) ∅) as [x Hx]; [by right|by eapply Hne|].
      specialize (D2 k Hk). unfold fetchExistingByPhone in D2. congruence.
    + destruct (fetch_finds up_idNumber k p (profiles t) ∅) as [x Hx]; [by right|by eapply Hne|].
      specialize (D1 k Hk). unfold fetchExistingByIdNumber in D1. congruence.
Qed.

(** ** A concrete import *)
#[export] Instance toy_entropy : Entropy := {|
  randomInt n lo hi := lo + (Z.of_N n * 7919) mod (hi - lo);
  argon2_hash n p := "hash-" +:+ pretty n |}.
#[export] Instance toy_jobs : JobIds := {| bullJobId n := "job-" +:+ pretty n |}.

Definition member_csv : list (list string) :=
  [["KOLWA CENTRAL BODA"; ""];
   ["NO"; "NAME"; "ID NO."; "PHONE NO."; "STAGE NAME"; "POSITION"];
   ["1"; "ISAAC ODHIAMBO OLOO"; "12345678"; "0712 345 678"; "KIBOS GALLYNES"; "Chairman"];
   ["2"; "JANE ATIENO"; "12345678"; "0722345678"; "KIBOS GALYNES"; ""];
   [""; ""; ""; ""];
   ["3"; "PETER OUMA"; ""; "254733345678"; ""; "Rider"];
   ["4"; "MARY AKINYI"; "7654321"; "0799000111"; "KIBOS GALYNES"; ""]].

Definition mary : UserProfile :=
  mkProfile "u0" "t9" "mary@example.com" "h" "Mary" "Akinyi" None (Some "254799000111") None None None None None.

Definition import_tables : ImportTables :=
  mkTables ["w1"] [mkStage "s1" "KIBOS GALYNES" "w1" "t1"] [mary] ∅ [] [] [].

Definition no_report : ImportReport := mkReport "" "" 0 0 0 0 0 false [] [] [].
Definition import_world : ImportWorld := mkIW open_world import_tables 0 no_report [].

Abbreviation preview_call := (preview "members.csv" (Ok member_csv) "w1" "t1" "teller").
Definition previewed : ImportPreviewReport * ImportWorld :=
  match preview_call import_world with
  | (Ok r, s) => (r, s)
  | (Err _, s) => (mkPreview "" "" 0 0 0 0 0 [] [] false, s)
  end.
Definition queued_world : ImportWorld := (execute (pr_importLogId previewed.1) None "t1" previewed.2).2.
Definition member_rows : list ValidatedRow := pr_rows previewed.1.
Definition import_context : RowContext := mkRowContext "t1" "w1" "teller" "batch-1".

Example preview_statuses : (fun v => (status v, action v)) <$> member_rows =
  [(WARNING, CREATE); (ERROR, SKIP); (WARNING, CREATE); (DUPLICATE, UPDATE)].
Proof. by vm_compute. Qed.

Lemma levenshtein_minimal_witness : levenshtein "GALYNES" "GARLYNS" = 2%nat /\ (levenshtein "GALYNES" "GARLYNS" <= 2)%nat.
Proof.
  split; [by vm_compute|]. apply (proj2 (levenshtein_minimal "GALYNES" "GARLYNS")). 
  apply edits_keep, edits_keep, edits_insert, edits_keep, edits_keep, edits_keep, edits_delete, edits_keep, edits_nil.
Defined.

Lemma import_terminates_witness :
  (exists bs, chunk_from (length member_rows) 3 0 member_rows = Some bs /\ mjoin bs = member_rows) /\
  length (chunk member_rows 3) = 2%nat /\
  is_ok (executeImport "log" import_context false member_rows import_world).1 = true.
Proof.
  pose proof import_terminates as (Hchunk & _ & Hrun & _). split_and!.
  - destruct (Hchunk member_rows 3%nat) as (bs & E & Hj & _); [lia|]. exists bs. by split.
  - by vm_compute.
  - apply Hrun. right. cbn. set_solver.
Defined.

Lemma import_report_true_witness :
  match executeImport "log" import_context false member_rows import_world with
  | (Ok rep, s') => successCount rep = 2 /\ createdStages rep = ["UNASSIGNED"] /\ length (profiles (tables s')) = 3%nat /\
      createdUsers rep = up_id <$> drop 1 (profiles (tables s')) /\ length (outbox (base s')) = 2%nat
  | _ => False
  end.
Proof.
  destruct (import_report_true "log" import_context member_rows import_world) as (rep & s' & new & E & Hp & Hc & _).
  { cbn. set_solver. }
  rewrite E. rewrite Hp, Hc. vm_compute in E. injection E as <- <-. vm_compute in Hp. by injection Hp as <-.
Defined.

Lemma phone_normal_form_witness :
  normalized (normalizePhone (Some " +254 (712) 345-678")) = Some "254712345678" /\ isValidE164Phone "254712345678" = true.
Proof.
  assert (normalized (normalizePhone (Some " +254 (712) 345-678")) = Some "254712345678") as E by by_decision.
  split; [exact E|]. rewrite (proj1 (proj2 (phone_normal_form _ _ E))). by vm_compute.
Defined.

Lemma preview_rows_distinct_witness :
  match member_rows !! 2%nat with
  | Some v => processable_row v = true /\ phone_key (parsed v) = Some "254733345678" /\
      Forall (fun p => up_phoneNumber p <> Some "254733345678") (profiles import_tables)
  | None => False
  end.
Proof.
  pose proof (preview_rows_distinct import_tables "t1" "w1"
    (match parseBuffer member_csv with Ok rows => rows | Err _ => [] end) (pr_importLogId previewed.1) "members.csv")
    as (_ & _ & _ & Hnew).
  destruct (member_rows !! 2%nat) as [v|] eqn:E; [|exfalso; vm_compute in E; discriminate E].
  assert (processable_row v = true /\ phone_key (parsed v) = Some "254733345678") as [Hp Hk].
  { vm_compute in E. injection E as <-. by vm_compute. }
  split_and!; [exact Hp|exact Hk|]. apply Forall_forall. intros p Hin.
  refine (proj1 (Hnew v p "254733345678" _ Hp Hin) Hk). apply list_elem_of_lookup_2 in E.
  vm_compute in E |- *. exact E.
Defined.

Lemma import_job_settles_witness :
  match process (pr_importLogId previewed.1, "t1") queued_world with
  | (Ok _, s') => il_status <$> find_log "t1" (pr_importLogId previewed.1) (tables s') = Some PARTIAL /\
      exists l, find_log "t1" (pr_importLogId previewed.1) (tables s') = Some l /\ il_status l ∈ [COMPLETED; FAILED; PARTIAL]
  | _ => False
  end.
Proof.
  destruct (find_log "t1" (pr_importLogId previewed.1) (tables queued_world)) as [l|] eqn:El;
    [|exfalso; vm_compute in El; discriminate El].
  assert (exists rows, il_errorDetails l = ED_rows rows) as [rows Hd].
  { vm_compute in El. injection El as <-. eexists. reflexivity. }
  destruct (import_job_settles "t1" (pr_importLogId previewed.1) queued_world l rows El Hd)
    as (r & s' & l' & E & Hl & Hst & _).
  assert (il_status <$> find_log "t1" (pr_importLogId previewed.1)
      (tables (process (pr_importLogId previewed.1, "t1") queued_world).2) = Some PARTIAL) as Hp
    by (vm_compute; reflexivity).
  rewrite E in Hp |- *. clear El Hd. destruct r as [u|e]; [|exfalso; vm_compute in E; discriminate E].
  split; [exact Hp|]. exists l'. exact (conj Hl Hst).
Defined.

Abbreviation retry_call := (retryFailed (pr_importLogId previewed.1) "t1" "teller").
Definition settled_world : ImportWorld := (process (pr_importLogId previewed.1, "t1") queued_world).2.

Lemma retry_never_imports_witness :
  match retry_call settled_world with
  | (Ok q, s1) => q_retryCount q = Some 1 /\ exists r s2 l, process (q_importLogId q, "t1") s1 = (r, s2) /\
      profiles (tables s2) = profiles (tables settled_world) /\
      find_log "t1" (q_importLogId q) (tables s2) = Some l /\ il_status l = FAILED
  | _ => False
  end.
Proof.
  destruct (retry_call settled_world) as [[q|e] s1] eqn:E; [|exfalso; vm_compute in E; discriminate E].
  split; [|exact (proj2 (retry_never_imports _ "t1" "teller" settled_world q s1 E))].
  vm_compute in E. injection E as <- _. reflexivity.
Defined.

(** A row that fails leaves the stage it would have created in the report. *)
Definition clashing_row : ValidatedRow :=
  mkValidated (mkParsed 1 None "Mary" "Akinyi" None None None (Some "254799000111") (Some "NEW STAGE") "MEMBER" None None None)
    VALID [] [] CREATE None None.

Example created_stage_rolled_back :
  let '(r, s') := executeImport "log" import_context false [clashing_row] import_world in
  match r with
  | Ok rep => createdStages rep = ["NEW STAGE"] /\ successCount rep = 0 /\
      find_stage "t1" "w1" "NEW STAGE" (tables s') = None
  | Err _ => False
  end.
Proof. vm_compute. auto. Qed.
