(* ===== verification/MpesaTheorems.v ===== *)
(** * MpesaTheorems: what processing the provider's callbacks promises

    Deposits are credited and failed payouts refunded once, the general ledger
    stays in step; repayments are never posted, and exhausted callbacks stay. *)
From S2P Require Import Prelude Money Json Format Calendar ImportText MpesaTypes Schema.
From S2P Require Import Ledger LedgerFacts LedgerInv LedgerProps LedgerLegs AccountFacts.
From S2P Require Import Repayment RepaymentFacts.
From S2P Require Import AuditLogs Frames Mpesa MpesaCallbacks RepaymentTheorems MpesaFacts.
From S2P Require Import Fixture LedgerTheorems.
From S2P Require Import MpesaInbox.

(** * one attempt at a callback job *)
Section Facts.
Context `{UuidSource, Sha256, Environment, DateReader}.

(** A waiting job whose inbox row still has to be dealt with. *)
Record waiting_on (jobId : string) (job : CallbackJob) (id : string) (row : Inbox) (s : MpesaWorld) : Prop := {
  wo_job : callbackQueue s !! jobId = Some job;
  wo_waiting : job_state job = JOB_WAITING;
  wo_inbox : cj_callbackInboxId (job_data job) = Some id;
  wo_row : inbox s !! id = Some row;
  wo_open : ib_status row <> OB_DELIVERED;
}.

(** The row the callback is about. *)
Definition attempt_tx (job : CallbackJob) (row : Inbox) : option string :=
  match ib_mpesaTransactionId row with Some t => Some t | None => cj_mpesaTransactionId (job_data job) end.

(** What the handler does with the callback, seen from the tables. *)
Definition attempt (job : CallbackJob) (row : Inbox) (s : MpesaWorld) : result unit * World :=
  handleCallback (ib_payload row) (ib_tenantId row) (attempt_tx job row) (mw_base s).

Lemma resolve_waiting jobId job id row s :
  waiting_on jobId job id row s ->
  resolve_job (job_data job) s = (Ok (Some (ib_payload row, ib_tenantId row, attempt_tx job row)), s).
Proof.
  intros [_ _ Hi Hr Ho]. unfold resolve_job. rewrite Hi. unfold bind, gets, or_throw. rewrite Hr. cbn.
  by rewrite (proj2 (same_false _ _) Ho).
Qed.

Definition attempted (job : CallbackJob) (st : JobState) : CallbackJob :=
  mkCJob (job_data job) (S (attemptsMade job)) st.

(** One attempt: what [process] returns and where it leaves the inbox. *)
Lemma process_run jobId job id row s :
  waiting_on jobId job id row s ->
  process (job_data job) s =
  match attempt job row s with
  | (Ok _, w') => (Ok tt, mkMW w' (<[id := inbox_delivered (clock (mw_base s)) row]> (inbox s))
                            (callbackQueue s) (dlq s) (queue_up s))
  | (Err e, w') => (Err e, mkMW w' (<[id := inbox_failed (exn_message e) (clock (mw_base s)) row]> (inbox s))
                            (callbackQueue s) (dlq s) (queue_up s))
  end.
Proof.
  intros Hw. unfold process. rewrite (bind_run _ _ _ _ _ (resolve_waiting _ _ _ _ _ Hw)).
  destruct Hw as [_ _ Hi Hr _]. rewrite Hi. unfold try_catch, inbox_update, on_base, now_ms, bind, gets, or_throw.
  fold (attempt job row s). destruct (attempt job row s) as [[[]|e] w']; cbn; by rewrite Hr.
Qed.

Lemma run_job_delivered jobId job id row s w' :
  waiting_on jobId job id row s -> attempt job row s = (Ok tt, w') ->
  run_job jobId s = (Ok tt, mkMW w' (<[id := inbox_delivered (clock (mw_base s)) row]> (inbox s))
    (<[jobId := attempted job JOB_COMPLETED]> (callbackQueue s)) (dlq s) (queue_up s)).
Proof.
  intros Hw Ha. pose proof (process_run _ _ _ _ _ Hw) as Hp. rewrite Ha in Hp.
  unfold run_job, bind, gets, try_catch. rewrite (wo_job _ _ _ _ _ Hw), (wo_waiting _ _ _ _ _ Hw). cbn [negb].
  rewrite same_refl. cbn [negb]. by rewrite Hp.
Qed.

Lemma run_job_failed jobId job id row s e w' :
  waiting_on jobId job id row s -> attempt job row s = (Err e, w') ->
  exists w'' q, run_job jobId s = (Ok tt, mkMW w'' (<[id := inbox_failed (exn_message e) (clock (mw_base s)) row]> (inbox s))
      (<[jobId := attempted job (if Nat.ltb (S (attemptsMade job)) MAX_ATTEMPTS then JOB_WAITING else JOB_EXHAUSTED)]>
         (callbackQueue s)) q (queue_up s)) /\
    db w'' = db w' /\
    (if Nat.ltb (S (attemptsMade job)) MAX_ATTEMPTS then q = dlq s else exists d, q = <[d := job_data job]> (dlq s)).
Proof.
  intros Hw Ha. pose proof (process_run _ _ _ _ _ Hw) as Hp. rewrite Ha in Hp.
  unfold run_job, bind, gets, try_catch. rewrite (wo_job _ _ _ _ _ Hw), (wo_waiting _ _ _ _ _ Hw), same_refl. cbn [negb].
  rewrite Hp. unfold onFailed. cbn [attemptsMade modify].
  destruct (Nat.ltb (S (attemptsMade job)) MAX_ATTEMPTS) eqn:El;
    cbn; eexists _, _; (split; [reflexivity|]); (split; [done|]); [done|by eexists].
Qed.
End Facts.

(** ** An exhausted job blocks its inbox row

    The retry loop of the inbox hands a failed row to the queue again under the
    same job id.  While the queue remembers the exhausted job it ignores that,
    so the row is never processed again; only an operator's replay from the
    dead-letter queue, or the queue's forgetting, lets it through. *)
(** The row [i] still has to be dealt with, its job [J] is exhausted, and no
    other job is about the row. *)
Record stuck (i J : string) (s : MpesaWorld) : Prop := {
  stuck_row : exists row, inbox s !! i = Some row /\ ib_status row <> OB_DELIVERED /\ inbox_jobId row = J;
  stuck_job : exists job, callbackQueue s !! J = Some job /\ job_state job = JOB_EXHAUSTED;
  stuck_only : forall j job, callbackQueue s !! j = Some job -> cj_callbackInboxId (job_data job) = Some i -> j = J;
}.

Section Stuck.
Context `{UuidSource, Sha256, Environment, DateReader}.
Context (i J : string).

(** What [stuck] depends on. *)
Definition queue_and_row (s : MpesaWorld) := (callbackQueue s, inbox s !! i).

Lemma stuck_same s s' : queue_and_row s' = queue_and_row s -> stuck i J s -> stuck i J s'.
Proof. unfold queue_and_row. intros [= Eq Er] [Hr Hj Ho]. split; by rewrite ?Eq, ?Er. Qed.

#[local] Instance stuck_frames {A} (m : MM A) : Frames queue_and_row m -> Preserves (stuck i J) m | 20.
Proof. intros Hm s r s' E. apply stuck_same. exact (frames_Ok _ _ _ _ _ Hm E). Qed.

(** Another state of the same row that keeps it open. *)
Definition reopens (f : Inbox -> Inbox) : Prop :=
  forall r, ib_status r <> OB_DELIVERED -> ib_status (f r) <> OB_DELIVERED /\ inbox_jobId (f r) = inbox_jobId r.

Lemma stuck_insert f s row :
  reopens f -> inbox s !! i = Some row -> stuck i J s -> stuck i J (with_inbox <[i := f row]> s).
Proof.
  intros Hf Hi [(row' & Hr & Ho & Hj) Hjob Honly]. simplify_eq. split; [|done|done].
  exists (f row). cbn. rewrite lookup_insert_eq. by destruct (Hf row Ho) as [? ->].
Qed.

Lemma stuck_insert_other k row s : k <> i -> stuck i J s -> stuck i J (with_inbox <[k := row]> s).
Proof. intros Hk. apply stuck_same. unfold queue_and_row. cbn. by rewrite lookup_insert_ne. Qed.

Lemma inbox_update_stuck k f s r s' :
  reopens f -> inbox_update k f s = (r, s') -> stuck i J s -> stuck i J s'.
Proof.
  intros Hf Hr Hs. unfold inbox_update, bind, gets, or_throw, throw, ret, modify in Hr.
  destruct (inbox s !! k) as [row|] eqn:E; injection Hr as <- <-; [|done].
  destruct (decide (k = i)) as [->|]; [by apply stuck_insert|by apply stuck_insert_other].
Qed.

Lemma queue_add_stuck jobId data s r s' :
  (cj_callbackInboxId data = Some i -> jobId = J) -> queue_add jobId data s = (r, s') -> stuck i J s -> stuck i J s'.
Proof.
  intros Hd Hr Hs. unfold queue_add, bind, gets, throw_if, throw, ret, modify in Hr.
  destruct (negb (queue_up s)); injection Hr as <- <-; [done|]. destruct Hs as [Hrow (job & Hj & Hst) Honly].
  destruct (callbackQueue s !! jobId) as [job0|] eqn:E.
  - apply (stuck_same s); [unfold queue_and_row; cbn; by rewrite E|]. split; eauto.
  - assert (jobId <> J) as Hne by congruence. split; [done| |]; cbn; rewrite E.
    + exists job. by rewrite lookup_insert_ne.
    + intros j job1. destruct (decide (j = jobId)) as [->|].
      * rewrite lookup_insert_eq. intros [= <-] Hi. by apply Hd.
      * rewrite lookup_insert_ne by done. apply Honly.
Qed.

Lemma reopens_processing job now : reopens (inbox_processing job now).
Proof. by intros r Hr. Qed.
Lemma reopens_failed err now : reopens (inbox_failed err now).
Proof. by intros r Hr. Qed.
Lemma reopens_refresh p tx now : reopens (inbox_refresh p tx now).
Proof. by intros r Hr. Qed.

#[local] Instance stuck_enqueue k : Preserves (stuck i J) (enqueueCallbackInbox k).
Proof.
  intros s r s' Hr Hs. unfold enqueueCallbackInbox, bind at 1, gets at 1 in Hr.
  destruct (inbox s !! k) as [row|] eqn:Ek; [|by injection Hr as <- <-].
  destruct (ib_status row === OB_DELIVERED); [by injection Hr as <- <-|].
  unfold bind at 1, now_ms, gets at 1, try_catch, bind in Hr.
  assert (forall r1 s1, queue_add (inbox_jobId row) (inbox_job k row) s = (r1, s1) -> stuck i J s1) as Hadd.
  { intros r1 s1 E1. eapply queue_add_stuck; [|exact E1|done]. cbn. intros [= ->].
    destruct Hs as [(row' & Hrow & _ & <-) _ _]. congruence. }
  destruct (queue_add _ _ s) as [[[]|e] s1] eqn:E1; specialize (Hadd _ _ eq_refl).
  - destruct (inbox_update k _ s1) as [[[]|e] s2] eqn:E2;
      (eapply inbox_update_stuck in E2; [|apply reopens_processing|done]); [by injection Hr as <- <-|].
    destruct (inbox_update k _ s2) as [[[]|e'] s3] eqn:E3;
      (eapply inbox_update_stuck in E3; [|apply reopens_failed|done]); by injection Hr as <- <-.
  - destruct (inbox_update k _ s1) as [[[]|e'] s3] eqn:E3;
      (eapply inbox_update_stuck in E3; [|apply reopens_failed|done]); by injection Hr as <- <-.
Qed.

#[export] Instance stuck_dispatch limit : Preserves (stuck i J) (dispatchPendingCallbackInbox limit).
Proof. unfold dispatchPendingCallbackInbox. apply _. Qed.

(** ** A job about another row *)
#[local] Instance row_on_base {A} (m : M A) : Frames queue_and_row (on_base m).
Proof. intros s. unfold on_base. by destruct (m (mw_base s)). Qed.
#[local] Instance row_try {A} (m : MM A) k :
  Frames queue_and_row m -> (forall e, Frames queue_and_row (k e)) -> Frames queue_and_row (try_catch m k).
Proof.
  intros Hm Hk s. unfold try_catch. specialize (Hm s). destruct (m s) as [[a|e] s']; cbn in *; [done|].
  by rewrite (Hk e s').
Qed.
Lemma row_inbox_update k f : k <> i -> Frames queue_and_row (inbox_update k f).
Proof.
  intros Hk. unfold inbox_update. apply frames_bind; [apply _|]. intros o. apply frames_bind; [apply _|].
  intros row. apply frames_modify. intros s. unfold queue_and_row. cbn. by rewrite lookup_insert_ne.
Qed.

#[local] Hint Extern 1 (Frames queue_and_row (inbox_update _ _)) =>
  apply row_inbox_update; assumption : typeclass_instances.

Lemma row_process job : cj_callbackInboxId job <> Some i -> Frames queue_and_row (process job).
Proof.
  intros Hne. unfold process, resolve_job, now_ms. destruct (cj_callbackInboxId job) as [k|] eqn:Ek; [|apply _].
  assert (k <> i) by congruence. apply _.
Qed.

Lemma stuck_insert_job j job st s :
  callbackQueue s !! j = Some job -> j <> J -> stuck i J s ->
  stuck i J (with_queue <[j := attempted job st]> s).
Proof.
  intros Hj Hne [Hr (job0 & HJ & Hst) Ho]. split; [done| |]; cbn.
  - exists job0. by rewrite lookup_insert_ne.
  - intros j' job'. destruct (decide (j' = j)) as [->|].
    + rewrite lookup_insert_eq. intros [= <-]. by apply (Ho j job).
    + rewrite lookup_insert_ne by done. apply Ho.
Qed.

#[export] Instance stuck_run_job j : Preserves (stuck i J) (run_job j).
Proof.
  intros s r s' Hr Hs. unfold run_job, bind at 1, gets at 1 in Hr.
  destruct (callbackQueue s !! j) as [job|] eqn:Ej; [|by injection Hr as <- <-].
  destruct (negb (job_state job === JOB_WAITING)) eqn:Ew; [by injection Hr as <- <-|].
  assert (j <> J) as Hne.
  { intros ->. destruct Hs as [_ (job0 & HJ & Hst) _]. simplify_eq. by rewrite Hst in Ew. }
  assert (cj_callbackInboxId (job_data job) <> Some i) as Hi.
  { intros Hi. by apply (stuck_only _ _ _ Hs _ _ Ej) in Hi. }
  pose proof (row_process _ Hi s) as Hf. unfold try_catch, bind at 1 in Hr.
  destruct (process (job_data job) s) as [[[]|e] s1]; cbn [snd] in Hf; pose proof (stuck_same _ _ Hf Hs) as Hs1;
    (assert (callbackQueue s1 !! j = Some job) as Ej1 by (injection Hf as -> _; done)).
  - injection Hr as <- <-. by apply stuck_insert_job.
  - unfold bind in Hr. cbn [modify] in Hr.
    pose proof (stuck_insert_job j job (if Nat.ltb (S (attemptsMade job)) MAX_ATTEMPTS then JOB_WAITING else JOB_EXHAUSTED) s1 Ej1 Hne Hs1) as Hs2.
    revert Hr Hs2. unfold onFailed, createAuditOnce. apply (_ : Preserves (stuck i J) _).
Qed.

(** ** A callback delivered again, or another one *)
Lemma row_upsert p ty u t tx s r s' :
  inbox_upsert p ty u t tx s = (r, s') -> stuck i J s -> stuck i J s'.
Proof.
  intros Hr Hs. unfold inbox_upsert, now_ms in Hr. do 2 (unfold bind at 1, gets at 1 in Hr).
  destruct (inbox_by_key _ s) as [[k row]|] eqn:Ef.
  - apply find_some_elem in Ef as [Hin _]. apply elem_of_map_to_list in Hin. cbn in Hin. injection Hr as <- <-.
    destruct (decide (k = i)) as [->|]; [|by apply stuck_insert_other].
    apply stuck_insert; [apply reopens_refresh|done|done].
  - unfold bind, on_base, fresh_id, gets, throw_if, throw, ret, modify in Hr. cbn in Hr.
    set (k := uuid _) in Hr. set (s0 := mkMW _ _ _ _ _) in Hr.
    assert (stuck i J s0) as Hs0 by (by apply (stuck_same s)).
    destruct (bool_decide _) eqn:Ek; injection Hr as <- <-; [done|].
    apply stuck_insert_other; [|done]. intros ->. apply bool_decide_eq_false in Ek.
    destruct Hs as [(row & Hrow & _) _ _]. apply Ek. by exists row.
Qed.

#[local] Instance stuck_upsert p ty u t tx : Preserves (stuck i J) (inbox_upsert p ty u t tx).
Proof. intros s r s'. apply row_upsert. Qed.
#[local] Instance queue_on_base {A} (m : M A) : Frames callbackQueue (on_base m).
Proof. intros s. unfold on_base. by destruct (m (mw_base s)). Qed.
#[local] Instance stuck_transaction {A} (m : MM A) :
  Preserves (stuck i J) m -> Frames callbackQueue m -> Preserves (stuck i J) (inbox_transaction m).
Proof.
  intros Hm Hq s r s' Hr Hs. unfold inbox_transaction in Hr. specialize (Hq s).
  destruct (m s) as [[a|e] s1] eqn:E; injection Hr as <- <-; [exact (Hm _ _ _ E Hs)|].
  apply (stuck_same s); [|done]. unfold queue_and_row. cbn in *. by rewrite Hq.
Qed.

#[export] Instance stuck_callback p ty u t : Preserves (stuck i J) (enqueueCallback p ty u t).
Proof.
  unfold enqueueCallback. apply preserves_bind; [|apply _].
  unfold persistCallbackPayload, persist_known, persist_c2b, inbox_upsert, now_ms. destruct p; apply _.
Qed.
End Stuck.


Section Theorems.
Context `{UuidSource, Sha256, Environment, DateReader}.

(** No callback breaks the books: whatever the provider reports (a push, a
    paybill payment, a payout, or something unknown), for whatever tenant and
    row, and whether the handler returns or throws, every general-ledger
    balance still equals the members' deposits it stands for. *)
Theorem callbacks_keep_ledger p t tx w r w' :
  handleCallback p t tx w = (r, w') -> payouts_linked (db w) -> ledger_ok (db w) -> ledger_ok (db w').
Proof.
  destruct p as [cb|cb|cb|j]; cbn [handleCallback]; intros Hr Hl Hok.
  - by apply (keeps_stk _ _ _ _ Hr).
  - by apply (keeps_c2b _ _ _ _ _ _ Hr).
  - by apply (b2c_keeps _ _ _ _ Hr).
  - by injection Hr as <- <-.
Qed.

(** C30: A successful push for a deposit whose account exists is credited
    exactly once.  A call that returns has credited that account with the row's
    amount, by one new transaction under the receipt's reference (by none, when
    that reference was posted before), and marked the row COMPLETED with that
    transaction, and from then on every callback for the
    same request returns at once and changes nothing; it does return when the
    ledger takes the deposit, the push carries its receipt and a date that can
    be read, and no other row claims the receipt or the transaction.  A call
    that throws, and one whose reference names no account, leave the tables as
    they were; the latter returns without an error. *)
Theorem stk_deposit_once cb id m w r w' :
  unique_by (fun m => mpd_checkoutRequestId (mp_details m)) (db w) ->
  mpesaTransactions (db w) !! id = Some m ->
  mpd_checkoutRequestId (mp_details m) = Some (stk_CheckoutRequestID cb) ->
  is_pending m = true -> stk_ResultCode cb = 0 ->
  let reference := default "" (mpd_accountReference (mp_details m)) in
  let account := deposit_account reference (mp_tenantId m) (db w) in
  ref_type (parseReference reference) = REF_DEPOSIT ->
  handleStkCallback cb w = (r, w') ->
  match r, account with
  | Ok _, Some (accId, a) => exists receipt m' txn,
      (forall rc, meta_get "MpesaReceiptNumber" (parseStkMeta (stk_Item cb)) = Some rc -> receipt = rc) /\
      credited (mp_tenantId m) ("MPESA_DEP-" +:+ receipt +:+ "-" +:+ mp_tenantId m) accId a (mp_amount m) txn
        (db w) (db w') /\
      mpesaTransactions (db w') = <[id := m']> (mpesaTransactions (db w)) /\
      mp_status m' = T_COMPLETED /\ mp_transactionId m' = Some (txn_id txn) /\
      forall cb', stk_CheckoutRequestID cb' = stk_CheckoutRequestID cb -> handleStkCallback cb' w' = (Ok tt, w')
  | _, _ => db w' = db w
  end /\
  forall receipt accId a posted w1 date,
    let p := stk_params id m cb receipt (clock w) in
    meta_get "MpesaReceiptNumber" (parseStkMeta (stk_Item cb)) = Some receipt -> account = Some (accId, a) ->
    postEntry (deposit_entry p accId) w = (Ok posted, w1) -> pl_date p = Some date ->
    mpesa_clash id (completed_row p (txn_id (posted_transaction posted)) date m) (db w) = false ->
    mp_tenantId m <> UNRESOLVED -> r = Ok tt.
Proof.
  intros Hu Hm Hco Hp Hc reference account Hty Hr. split.
  2: { intros receipt accId a posted w1 date p Hrc Ha Hpost Hd Hcl Ht.
       rewrite (stk_success_receipt _ id m receipt) in Hr; [|by apply mpesa_find_unique|done..].
       pose proof (post_deposit_succeeds p w accId a posted w1 date m Hty Ha Hpost Hd Hm Hcl Ht) as Hs.
       subst p. by rewrite Hr in Hs. }
  destruct (stk_success_run cb id m w) as (receipt & w1 & E & Hrec & Hrun); [by apply mpesa_find_unique|done|done|].
  rewrite Hrun in Hr. apply post_deposit in Hr; [|done]. rewrite E in Hr. fold account in Hr.
  change (deposit_account _ _ _) with account in Hr.
  assert (deposit_account reference (mp_tenantId m) (db w) = account) as Hnamed by done.
  clearbody account. destruct r as [[]|e]; [|done]. destruct account as [[accId a]|]; [|done].
  destruct Hr as (posted & w2 & date & m0 & rows & Hpost & Hm0 & Edb). cbn in Hm0. simplify_eq.
  assert (accounts (db w) !! accId = Some a) as Ha.
  { unfold deposit_account in Hnamed. destruct (deposit_number _ _ _) as [n|]; cbn in Hnamed; [|done].
    by apply account_by_number_Some in Hnamed as (Ha & _). }
  set (m' := completed_row _ _ _ m) in Edb. exists receipt, m', (posted_transaction posted).
  apply (deposit_credited _ _ a (mp_amount m)) in Hpost; [|done|by rewrite E].
  split_and!; [done| |by rewrite Edb|done|done|].
  { unfold credited in *. by rewrite Edb, <- E. }
  intros cb' Eco. apply (stk_settled _ id m'); [|done].
  rewrite Eco. apply mpesa_find_unique; [| |done].
  - eapply (unique_by_insert _ _ _ id m m'); [exact Hu|done|done|]. by rewrite Edb.
  - rewrite Edb. by apply lookup_insert_eq.
Qed.

(** C31: A savings withdrawal whose payout the provider reports as failed is
    refunded exactly once.  A call that returns has marked the row FAILED, given
    the account back the debited amount and marked the debit REVERSED, which it
    was not before; and from then on every result for the same payout returns
    at once and changes nothing at all.  That includes a success reported late:
    it leaves neither a record nor an alarm, although the money was then paid
    out and refunded.  A call that throws leaves the tables as they were, and
    the call does return when the ledger takes the reversal of the debit. *)
Theorem failed_payout_refunded_once cb id m txnId t0 w r w' :
  unique_by (fun m => mpd_conversationId (mp_details m)) (db w) ->
  mpesaTransactions (db w) !! id = Some m ->
  mpd_conversationId (mp_details m) = Some (b2c_ConversationID cb) -> is_open m = true ->
  mpd_referenceType (mp_details m) = Some FOSA_WITHDRAWAL -> truthy (mp_transactionId m) = Some txnId ->
  txn_by_id (mp_tenantId m) txnId (db w) = Some t0 -> txn_balanceAfter t0 < txn_balanceBefore t0 ->
  b2c_ResultCode cb <> 0 -> findB2cCallbackMismatches m (parseB2cResultMeta (b2c_ResultParameter cb)) = Ok [] ->
  handleB2cCallback cb w = (r, w') ->
  match r with
  | Ok _ => exists a m',
      accounts (db w) !! txn_accountId t0 = Some a /\ txn_status t0 <> T_REVERSED /\
      accounts (db w') = <[txn_accountId t0 := moved a (txn_amount t0)]> (accounts (db w)) /\
      txn_by_id (mp_tenantId m) txnId (db w') = Some (set_txn_status T_REVERSED t0) /\
      mpesaTransactions (db w') = <[id := m']> (mpesaTransactions (db w)) /\ mp_status m' = T_FAILED /\
      forall cb', b2c_ConversationID cb' = b2c_ConversationID cb -> handleB2cCallback cb' w' = (Ok tt, w')
  | Err _ => db w' = db w
  end /\
  (mp_tenantId m <> UNRESOLVED -> mpesa_clash id m (db w) = false ->
   (exists rv w1, reverseTransaction (mp_tenantId m) txnId (refund_reason cb) None true (refund_claimed id m cb w)
                  = (Ok rv, w1)) ->
   r = Ok tt).
Proof.
  intros Hu Hm Hco Ho Hty Htx Ht0 Hdebit Hc Hmis Hr. unfold handleB2cCallback, bind, gets, mpesa_by_conversation in Hr.
  rewrite (mpesa_find_unique _ _ _ id m Hu Hm Hco), Ho, Hmis, (proj2 (Z.eqb_neq _ _) Hc) in Hr. cbn [negb] in Hr.
  unfold b2c_failure in Hr. rewrite Hty, same_refl, Htx in Hr. split.
  2: { intros Ht Hcl (rv & w1 & Hrv). pose proof (refund_body_runs id m cb txnId w rv w1 Hm Ho Hcl Ht Hrv) as Hs.
       unfold transaction in Hr. destruct (refund_body _ _ _ _ w) as [[[]|e] w2]; cbn in Hs; [|done]. by injection Hr as <- _. }
  destruct r as [[]|e]; [|by apply transaction_Err in Hr].
  apply transaction_Ok, refund_body_Ok in Hr as (t1 & a & rows & Ht1 & Hst & Ha & Ea & Et & Em); [|done|done].
  assert (t1 = t0) as -> by congruence. set (m' := set_result _ _ _ _ _) in Em. exists a, m'.
  assert (signed (reversal_direction t0) (txn_amount t0) = txn_amount t0) as Hsign.
  { unfold reversal_direction. by rewrite (proj2 (Z.leb_gt _ _) Hdebit). }
  rewrite Hsign in Ea. split_and!; try done; [by eapply txn_by_id_reversed|].
  intros cb' Eco. apply (b2c_settled _ id m'); [|done]. rewrite Eco. apply mpesa_find_unique; [| |done].
  - by eapply (unique_by_insert _ _ _ id m m').
  - rewrite Em. by apply lookup_insert_eq.
Qed.
End Theorems.

(** ** Witnesses *)
#[local] Instance no_reader : DateReader := {| new_Date _ := None |}.

Definition push_row (status : TransactionStatus) (reference : string) : MpesaTransaction :=
  mkMpesaTransaction "t1" "STK-co1" (ks 500) status None None None None None None
    (mkDetails MT_STK_PUSH "254700000001" (Some "m1") (Some reference) (Some "co1") None None None None None None).
Definition push_ok : StkCallback := mkStk "co1" 0 "ok" (Some [("MpesaReceiptNumber", Some "R1")]).

Definition with_row (id : string) (m : MpesaTransaction) (w : World) : World :=
  with_db (set_mpesaTransactions {[id := m]}) w.
Definition push_world : World := with_row "mp1" (push_row T_PENDING "DEPOSIT-m1") funded_world.

Lemma one_row {A} (f : MpesaTransaction -> option A) id m w : unique_by f (db (with_row id m w)).
Proof. intros i j a b x Hi Hj _ _. cbn in Hi, Hj. apply lookup_singleton_Some in Hi as [<- _]. by apply lookup_singleton_Some in Hj as [<- _]. Qed.

Lemma push_credited :
  balance_of "fosa1" push_world = Some (ks 1000) /\
  balance_of "fosa1" (after (handleStkCallback push_ok) push_world) = Some (ks 1500).
Proof. split; vm_compute; reflexivity. Qed.

Lemma push_account_found : fst <$> deposit_account "DEPOSIT-m1" "t1" (db push_world) = Some "fosa1".
Proof. vm_compute. reflexivity. Qed.

Lemma stk_deposit_once_witness :
  exists m', mpesaTransactions (db (after (handleStkCallback push_ok) push_world)) !! "mp1" = Some m' /\
    mp_status m' = T_COMPLETED /\
    (handleStkCallback push_ok ;; handleStkCallback push_ok) push_world = handleStkCallback push_ok push_world.
Proof.
  destruct (handleStkCallback push_ok push_world) as [r w'] eqn:E.
  destruct (stk_deposit_once push_ok "mp1" (push_row T_PENDING "DEPOSIT-m1") push_world r w'
    (one_row _ _ _ _) eq_refl eq_refl eq_refl eq_refl eq_refl E) as [Hout _].
  assert (r = Ok tt) as -> by (apply (f_equal fst) in E; vm_compute in E; exact (eq_sym E)).
  pose proof push_account_found as Hacc. change (deposit_account _ _ _) with (deposit_account "DEPOSIT-m1" "t1" (db push_world)) in Hout.
  destruct (deposit_account _ _ _) as [[accId a]|]; [|done].
  destruct Hout as (receipt & m' & txn & _ & _ & Em & Hst & _ & Hag).
  exists m'. unfold after. rewrite E. cbn [snd]. rewrite Em. split_and!; [by apply lookup_insert_eq|done|].
  by rewrite (bind_run _ _ _ _ _ E), Hag.
Defined.

(** A withdrawal of 300 whose payout the provider reports as failed. *)
Definition withdrawn_world : World := after (postEntry (withdraw_call "fosa1" 300 "W-1")) funded_world.
Definition debit : Transaction :=
  mkTransaction "id-2" "t1" "fosa1" None WITHDRAWAL T_COMPLETED (ks 300) (ks 1000) (ks 700) "W-1" "WITHDRAWAL"
    "teller" None 1000.
Definition payout_row : MpesaTransaction :=
  mkMpesaTransaction "t1" "B2C-conv1" (ks 300) T_PENDING (Some "id-2") None None None None None
    (mkDetails MT_B2C "254700000001" (Some "m1") None None (Some "conv1") (Some "orig1") (Some FOSA_WITHDRAWAL)
       (Some "fosa1") None None).
Definition payout_world : World := with_row "mp1" payout_row withdrawn_world.
Definition payout_result (code : Z) : B2cResult := mkB2c code "result" "orig1" "conv1" (Some "B2") None.

Lemma payout_refunded :
  balance_of "fosa1" payout_world = Some (ks 700) /\
  balance_of "fosa1" (after (handleB2cCallback (payout_result 1)) payout_world) = Some (ks 1000).
Proof. split; vm_compute; reflexivity. Qed.

(** The refund, and a success reported after it. *)
Lemma failed_payout_refunded_once_witness :
  exists m', mpesaTransactions (db (after (handleB2cCallback (payout_result 1)) payout_world)) !! "mp1" = Some m' /\
    mp_status m' = T_FAILED /\
    (handleB2cCallback (payout_result 1) ;; handleB2cCallback (payout_result 0)) payout_world
      = handleB2cCallback (payout_result 1) payout_world.
Proof.
  destruct (handleB2cCallback (payout_result 1) payout_world) as [r w'] eqn:E.
  destruct (failed_payout_refunded_once (payout_result 1) "mp1" payout_row "id-2" debit payout_world r w'
    (one_row _ _ _ _) eq_refl eq_refl eq_refl eq_refl eq_refl) as [Hout _];
    [vm_compute; reflexivity|done|done|vm_compute; reflexivity|exact E|].
  assert (r = Ok tt) as -> by (apply (f_equal fst) in E; vm_compute in E; exact (eq_sym E)).
  destruct Hout as (a & m' & _ & _ & _ & _ & Em & Hst & Hag).
  exists m'. unfold after. rewrite E. cbn [snd]. rewrite Em. split_and!; [by apply lookup_insert_eq|done|].
  by rewrite (bind_run _ _ _ _ _ E), Hag.
Defined.

Lemma callbacks_keep_ledger_witness :
  ledger_ok (db (after (handleCallback (P_stk push_ok) "t1" None) push_world)) /\
  mp_status <$> mpesaTransactions (db (after (handleCallback (P_stk push_ok) "t1" None) push_world)) !! "mp1" = Some T_COMPLETED.
Proof.
  split; [|vm_compute; reflexivity].
  apply (callbacks_keep_ledger (P_stk push_ok) "t1" None push_world _ _ (surjective_pairing _)).
  - intros id m txnId Hm Htx. cbn in Hm. apply lookup_singleton_Some in Hm as [_ <-]. discriminate Htx.
  - apply (ledger_ok_frame (db funded_world)); [apply funded_ok|done..].
Defined.

(** * callbacks from the inbox to the ledger, or to the
    dead-letter queue *)
Section Attempts.
Context `{UuidSource, Sha256, Environment, DateReader}.

(** A successful push that pays a loan, in tables with no user called
    MPESA_SYSTEM and no earlier posting of the receipt. *)
Record repayment_push (d : DB) (cb : StkCallback) (id : string) (m : MpesaTransaction) (receipt : string) : Prop := {
  rp_unique : unique_by (fun m => mpd_checkoutRequestId (mp_details m)) d;
  rp_row : mpesaTransactions d !! id = Some m;
  rp_checkout : mpd_checkoutRequestId (mp_details m) = Some (stk_CheckoutRequestID cb);
  rp_pending : is_pending m = true;
  rp_success : stk_ResultCode cb = 0;
  rp_receipt : meta_get "MpesaReceiptNumber" (parseStkMeta (stk_Item cb)) = Some receipt;
  rp_loan : ref_type (parseReference (default "" (mpd_accountReference (mp_details m)))) = REF_LOAN_REPAYMENT;
  rp_amount : 0 < mp_amount m;
  rp_owed : forall i l, loans d !! i = Some l -> legs_nonneg (owed_by l);
  rp_nobody : user_exists "MPESA_SYSTEM" d = false;
  rp_unposted : unposted (mp_tenantId m) ("MPESA-" +:+ receipt) d;
}.

Lemma repayment_push_throws cb id m receipt w :
  repayment_push (db w) cb id m receipt -> exists e w', handleStkCallback cb w = (Err e, w') /\ db w' = db w.
Proof.
  intros [Hu Hm Hco Hp Hc Hrc Hl Ha Hnn Hno Hun].
  unfold handleStkCallback, bind, gets. unfold mpesa_by_checkout. rewrite (mpesa_find_unique _ _ _ id m Hu Hm Hco), Hp, Hc, Hrc.
  cbn [negb Z.eqb ret]. unfold postLedgerEntry. cbn [stk_params pl_accountReference]. rewrite Hl.
  set (p := stk_params id m cb receipt (clock w)). unfold post_repayment, bind at 1.
  destruct (processRepayment _ w) as [r w1] eqn:Er.
  apply processRepayment_no_author in Er as [Hr E]; cbn; rewrite ?to_dp4_dec; try done.
  destruct r as [s|e]; [done|]. by exists e, w1.
Qed.

(** A callback whose handler throws from every world with these tables. *)
Definition hopeless (d : DB) (p : CallbackPayload) (t : string) (tx : option string) : Prop :=
  forall w, db w = d -> exists e w', handleCallback p t tx w = (Err e, w') /\ db w' = d.

Lemma hopeless_attempt jobId job id row s :
  waiting_on jobId job id row s ->
  hopeless (db (mw_base s)) (ib_payload row) (ib_tenantId row) (attempt_tx job row) ->
  exists s' e, run_job jobId s = (Ok tt, s') /\ db (mw_base s') = db (mw_base s) /\
    inbox s' !! id = Some (inbox_failed e (clock (mw_base s)) row) /\
    callbackQueue s' !! jobId = Some (attempted job
      (if Nat.ltb (S (attemptsMade job)) MAX_ATTEMPTS then JOB_WAITING else JOB_EXHAUSTED)) /\
    (Nat.ltb (S (attemptsMade job)) MAX_ATTEMPTS = false -> exists d, dlq s' !! d = Some (job_data job)).
Proof.
  intros Hw Hh. destruct (Hh (mw_base s) eq_refl) as (e & w' & Ha & E).
  destruct (run_job_failed _ _ _ _ _ _ _ Hw Ha) as (w'' & q & Hr & E' & Hq).
  eexists _, _. split; [exact Hr|]. cbn [inbox callbackQueue dlq mw_base]. rewrite !lookup_insert_eq. split_and!; [congruence|done|done|].
  intros El. rewrite El in Hq. destruct Hq as [d ->]. exists d. by rewrite lookup_insert_eq.
Qed.

(** After a failure that was not the last, the job waits on the same row. *)
Lemma waits_again jobId job id row s s' e n :
  waiting_on jobId job id row s -> inbox s' !! id = Some (inbox_failed e n row) ->
  callbackQueue s' !! jobId = Some (attempted job JOB_WAITING) ->
  waiting_on jobId (attempted job JOB_WAITING) id (inbox_failed e n row) s'.
Proof. intros [_ _ Hi _ _] Hr Hj. by split. Qed.

(** Three attempts at a hopeless callback. *)
Lemma hopeless_dead_letters jobId job id row s :
  waiting_on jobId job id row s -> attemptsMade job = 0%nat ->
  hopeless (db (mw_base s)) (ib_payload row) (ib_tenantId row) (attempt_tx job row) ->
  exists s', (run_job jobId ;; run_job jobId ;; run_job jobId) s = (Ok tt, s') /\
    db (mw_base s') = db (mw_base s) /\
    (exists r, inbox s' !! id = Some r /\ ib_status r = OB_FAILED /\ ib_attempts r = ib_attempts row + 3) /\
    (job_state <$> callbackQueue s' !! jobId = Some JOB_EXHAUSTED) /\
    exists d, dlq s' !! d = Some (job_data job).
Proof.
  intros Hw Hn Hh.
  destruct (hopeless_attempt _ _ _ _ _ Hw Hh) as (s1 & e1 & R1 & E1 & I1 & J1 & _). rewrite Hn in J1.
  pose proof (waits_again _ _ _ _ _ _ _ _ Hw I1 J1) as Hw1. rewrite <- E1 in Hh.
  destruct (hopeless_attempt _ _ _ _ _ Hw1 Hh) as (s2 & e2 & R2 & E2 & I2 & J2 & _). cbn in J2. rewrite Hn in J2.
  pose proof (waits_again _ _ _ _ _ _ _ _ Hw1 I2 J2) as Hw2. rewrite <- E2 in Hh.
  destruct (hopeless_attempt _ _ _ _ _ Hw2 Hh) as (s3 & e3 & R3 & E3 & I3 & J3 & D3). cbn in J3, D3.
  exists s3. rewrite (bind_run _ _ _ _ _ R1), (bind_run _ _ _ _ _ R2), R3. split_and!; [done|congruence| |by rewrite J3|by apply D3].
  eexists. split; [exact I3|]. cbn. split; [done|lia].
Qed.

(** A loan repaid by M-Pesa is never posted: the handler books it in the
    name of MPESA_SYSTEM, which is no user, so the journal's foreign key
    rejects it.  Each of the queue's three attempts throws and leaves every
    table as it was; the callback ends in the dead-letter queue, its inbox row
    FAILED, the provider's row still PENDING. *)
Theorem mpesa_repayment_dead_letters jobId job i row cb id m receipt s :
  waiting_on jobId job i row s -> attemptsMade job = 0%nat -> ib_payload row = P_stk cb ->
  repayment_push (db (mw_base s)) cb id m receipt ->
  exists s', (run_job jobId ;; run_job jobId ;; run_job jobId) s = (Ok tt, s') /\
    db (mw_base s') = db (mw_base s) /\
    (exists r, inbox s' !! i = Some r /\ ib_status r = OB_FAILED /\ ib_attempts r = ib_attempts row + 3) /\
    (job_state <$> callbackQueue s' !! jobId = Some JOB_EXHAUSTED) /\
    exists d, dlq s' !! d = Some (job_data job).
Proof.
  intros Hw Hn Hp Hrp. apply hopeless_dead_letters; [done|done|]. rewrite Hp. intros w Ew. rewrite <- Ew in Hrp.
  apply repayment_push_throws in Hrp as (e & w' & Hr & E). exists e, w'. by rewrite E.
Qed.
End Attempts.

(** ** The retry loop *)
Section Retry.
Context `{UuidSource, Sha256, Environment, DateReader}.

(** What happens without an operator while the queue remembers its jobs: the
    provider delivers callbacks, the scheduler dispatches due rows, the worker
    runs jobs, the queue's store comes and goes, and time and other requests
    change the tables. *)
Inductive unattended : MpesaWorld -> MpesaWorld -> Prop :=
| u_deliver p ty u t s r s' : enqueueCallback p ty u t s = (r, s') -> unattended s s'
| u_dispatch limit s r s' : dispatchPendingCallbackInbox limit s = (r, s') -> unattended s s'
| u_work jobId s r s' : run_job jobId s = (r, s') -> unattended s s'
| u_environment w up s : unattended s (mkMW w (inbox s) (callbackQueue s) (dlq s) up).

(** The retry loop does not retry: a callback whose three attempts failed
    is handed to the queue again every minute under the same job id, which the
    queue ignores while it remembers the exhausted job.  However often the
    provider delivers it again and the scheduler runs, the row is never
    processed and never DELIVERED. *)
Theorem exhausted_callback_is_stuck i J s s' :
  stuck i J s -> rtc unattended s s' ->
  stuck i J s' /\ (exists row, inbox s' !! i = Some row /\ ib_status row <> OB_DELIVERED) /\ run_job J s' = (Ok tt, s').
Proof.
  intros Hs Hr.
  assert (stuck i J s') as Hs'.
  { induction Hr as [|s1 s2 s3 Hstep _ IH]; [done|]. apply IH. destruct Hstep as [????? ?? E|??? ? E|???? E|].
    - by apply (stuck_callback i J _ _ _ _ _ _ _ E).
    - by apply (stuck_dispatch i J _ _ _ _ E).
    - by apply (stuck_run_job i J _ _ _ _ E).
    - by eapply stuck_same, Hs. }
  split; [done|]. destruct Hs' as [(row & Hrow & Ho & _) (job & Hj & Hst) _]. split; [by exists row|].
  unfold run_job, bind, gets. by rewrite Hj, Hst.
Qed.
End Retry.

(** ** Witnesses *)
#[local] Instance no_dates : DateReader := {| new_Date _ := None |}.

(** Ann pays 500 towards her loan by phone. *)
Definition loan_push_row : MpesaTransaction :=
  mkMpesaTransaction "t1" "STK-co1" (ks 500) T_PENDING None None None None None None
    (mkDetails MT_STK_PUSH "254700000001" (Some "m1") (Some "LOAN-LN-1") (Some "co1") None None None None None None).
Definition loan_push : StkCallback := mkStk "co1" 0 "ok" (Some [("MpesaReceiptNumber", Some "R1")]).
Definition quiet_world : MpesaWorld :=
  mkMW (with_db (set_mpesaTransactions {["mp1" := loan_push_row]}) loan_world) ∅ ∅ ∅ true.

(** The provider delivers the result: an inbox row and a waiting job. *)
Definition delivered : MpesaWorld := (enqueueCallback (P_stk loan_push) "STK_PUSH" "co1" "t1" quiet_world).2.
Definition push_jobId : string := "mpesa-callback-t1-STK_PUSH-co1".
Definition push_inbox : string := "id-2".

Definition persisted_row : MpesaTransaction :=
  mkMpesaTransaction "t1" "STK-co1" (ks 500) T_PENDING None None None None None None
    (set_callbackPayload (P_stk loan_push) (mp_details loan_push_row)).

Lemma loan_push_due : repayment_push (db (mw_base delivered)) loan_push "mp1" persisted_row "R1".
Proof.
  assert (mpesaTransactions (db (mw_base delivered)) = {["mp1" := persisted_row]}) as Em by (vm_compute; reflexivity).
  assert (loans (db (mw_base delivered)) = {["loan1" := loan1]}) as El by (vm_compute; reflexivity).
  split; try (vm_compute; reflexivity).
  - intros i j a b x. rewrite Em. intros [<- _]%lookup_singleton_Some [<- _]%lookup_singleton_Some _ _. done.
  - intros i l. rewrite El. intros [_ <-]%lookup_singleton_Some. apply loan1_nonneg.
  - split; [vm_compute; reflexivity|]. split; [vm_compute; reflexivity|]. intros []; vm_compute; reflexivity.
Qed.

Definition push_job : CallbackJob :=
  mkCJob (mkCallbackJob "t1" (Some "mp1") (Some push_inbox) None "STK_PUSH") 0 JOB_WAITING.
Definition push_inbox_row : Inbox :=
  mkInbox "t1" "STK_PUSH" "co1" "MPESA:t1:STK_PUSH:co1" (P_stk loan_push) (Some "mp1") OB_PROCESSING 0
    (Some push_jobId) None None 1000 1000.

Lemma delivered_waits : waiting_on push_jobId push_job push_inbox push_inbox_row delivered.
Proof. split; try (vm_compute; reflexivity). done. Qed.

(** Three attempts; the loan still owes what it owed. *)
Lemma mpesa_repayment_dead_letters_witness :
  exists s', (run_job push_jobId ;; run_job push_jobId ;; run_job push_jobId) delivered = (Ok tt, s') /\
    loans (db (mw_base s')) !! "loan1" = Some loan1 /\
    (exists r, inbox s' !! push_inbox = Some r /\ ib_status r = OB_FAILED /\ ib_attempts r = 3) /\
    exists d, dlq s' !! d = Some (job_data push_job).
Proof.
  destruct (mpesa_repayment_dead_letters push_jobId push_job push_inbox push_inbox_row loan_push "mp1" persisted_row "R1"
    delivered delivered_waits eq_refl eq_refl loan_push_due) as (s' & Hr & E & Hi & _ & Hd).
  exists s'. split_and!; [exact Hr| |exact Hi|exact Hd]. rewrite E. vm_compute. reflexivity.
Defined.

(** A minute later the scheduler dispatches the row again. *)
Definition exhausted : MpesaWorld :=
  ((run_job push_jobId ;; run_job push_jobId ;; run_job push_jobId) delivered).2.
Definition minute_later : MpesaWorld :=
  mkMW (mkWorld (db (mw_base exhausted)) (nextUuid (mw_base exhausted)) (clock (mw_base exhausted) + 60000) ∅ ∅ [] [] [])
    (inbox exhausted) (callbackQueue exhausted) (dlq exhausted) true.

Lemma exhausted_stuck : stuck push_inbox push_jobId exhausted.
Proof.
  assert (callbackQueue exhausted = {[push_jobId := mkCJob (job_data push_job) 3 JOB_EXHAUSTED]}) as E by (vm_compute; reflexivity).
  split.
  - assert ((fun r => (ib_status r, inbox_jobId r)) <$> inbox exhausted !! push_inbox = Some (OB_FAILED, push_jobId)) as Er
      by (vm_compute; reflexivity).
    destruct (inbox exhausted !! push_inbox) as [row|]; [|discriminate Er].
    apply Some_inj in Er. pose proof (f_equal fst Er) as Est. pose proof (f_equal snd Er) as Ej. cbn [fst snd] in Est, Ej.
    exists row. rewrite Est. split; [reflexivity|]. split; [discriminate|exact Ej].
  - rewrite E, lookup_singleton_eq. eexists. split; reflexivity.
  - intros j job. rewrite E. intros [<- _]%lookup_singleton_Some _. reflexivity.
Qed.

Lemma exhausted_callback_is_stuck_witness :
  (dispatchPendingCallbackInbox 50 minute_later).1 = Ok 1%nat /\
  run_job push_jobId (dispatchPendingCallbackInbox 50 minute_later).2 = (Ok tt, (dispatchPendingCallbackInbox 50 minute_later).2).
Proof.
  split; [vm_compute; reflexivity|].
  refine (proj2 (proj2 (exhausted_callback_is_stuck push_inbox push_jobId exhausted _ exhausted_stuck _))).
  eapply rtc_l; [apply u_environment|]. apply rtc_once. by eapply (u_dispatch 50), surjective_pairing.
Defined.
