(* ===== verification/PayoutTheorems.v ===== *)
(** * PayoutTheorems: what the payout of a withdrawal guarantees

    The code implements the payout machine; hence no order is paid twice and no
    payout is both completed and given back, however workers interleave, crash
    and retry, as long as the daily reconciliation does not reopen its row and
    nobody matches it by hand.  Then the places where a withdrawal is refunded, blocked or
    missed although it should not be. *)
From stdpp Require Import relations.
From S2P Require Import Prelude Money Json Format ImportText MpesaTypes Schema.
From S2P Require Import Ledger LedgerProps AuditLogs Frames Mpesa MpesaCallbacks MpesaInbox.
From S2P Require Import MpesaFacts.
From S2P Require Import MwaloniClient PayoutState PayoutMachine Payouts PayoutOutbox.
From S2P Require Import WithdrawalRecon.
From S2P Require Import PayoutFacts PayoutRefines PayoutSystem Fixture.
From S2P Require Import LedgerFacts LedgerInv LedgerTheorems.
From S2P Require Import LoanRules LoansFacts.

From S2P Require MpesaTheorems.

(** * a reconciliation that was interrupted

    [poisoned id] holds once an attempt at the payout [id] is numbered and its
    count is not: nothing the payout code does undoes that. *)
Definition poisoned (id : string) (s : PayoutWorld) : Prop :=
  is_Some (row_of id s) /\ attempt_exists id (pc_attemptCount (columns_of id s) + 1) s = true.

(** ** Rows are never deleted *)
#[local] Typeclasses Opaque bind gets ret throw throw_if or_throw modify foldM transaction mpesa_update mpesa_updateMany
  reverseTransaction postEntry loan_update createAtomic mpesa_audit createAuditOnce fresh_id.

Definition has_row (id : string) (w : World) : Prop := is_Some (mpesaTransactions (db w) !! id).

Section Rows.
Context (id : string).

#[export] Instance has_row_view {A} (m : M A) : Frames world_view m -> Preserves (has_row id) m | 20.
Proof.
  intros Hm w r w' E. pose proof (frames_Ok _ _ _ _ _ Hm E) as Ev. unfold world_view in Ev. injection Ev as Ev _.
  unfold has_row. by rewrite Ev.
Qed.
#[export] Instance has_row_transaction {A} (m : M A) : Preserves (has_row id) m -> Preserves (has_row id) (transaction m).
Proof.
  intros Hm w r w' E Hw. unfold transaction in E. destruct (m w) as [[a|e] w1] eqn:E1; injection E as <- <-; [|done]. eauto.
Qed.
#[export] Instance has_row_update i f : Preserves (has_row id) (mpesa_update i f).
Proof.
  intros w r w' E [m Hm]. apply mpesa_update_cases in E as [(e & _ & ->)|(m0 & _ & _ & ->)]; [by exists m|].
  unfold has_row. cbn. rewrite lookup_insert. case_decide; eauto.
Qed.
#[export] Instance has_row_updateMany i c f : Preserves (has_row id) (mpesa_updateMany i c f).
Proof. unfold mpesa_updateMany. apply _. Qed.
End Rows.

Section Reversals.
Context `{UuidSource, Sha256, Environment, DateReader} (id : string).

#[export] Instance has_row_reverse t x reason o : Preserves (has_row id) (reverseTransaction t x reason o true).
Proof.
  intros w r w' E. pose proof (reverse_may t x reason o w) as [Em _]. rewrite E in Em. cbn in Em. unfold has_row. by rewrite Em.
Qed.
#[export] Instance has_row_loan t l : Preserves (has_row id) (postDisbursementLedger t l).
Proof. unfold postDisbursementLedger, disbursementBody, getFosaAccountId. apply _. Qed.
#[export] Instance has_row_callback cb : Preserves (has_row id) (handleB2cCallback cb).
Proof.
  unfold handleB2cCallback, mismatch_body, b2c_failure, refund_body, manual_review_body, b2c_failed_body, b2c_success,
    withdrawal_done_body. apply _.
Qed.
End Reversals.

(** ** What keeps a payout poisoned *)
Section Plumbing.
Context (id : string).

Lemma poisoned_same s s' :
  (is_Some (row_of id s) -> is_Some (row_of id s')) -> tables s' = tables s -> poisoned id s -> poisoned id s'.
Proof. unfold poisoned, attempt_exists, columns_of. intros Hr ->. intros [? ?]. auto. Qed.

#[export] Instance poisoned_on_world {A} (m : M A) : Preserves (has_row id) m -> Preserves (poisoned id) (on_world m).
Proof.
  intros Hm s r s' E. unfold on_world in E. destruct (m (pw_base s)) as [r1 w] eqn:E1. injection E as <- <-.
  apply poisoned_same; [|done]. exact (Hm _ _ _ E1).
Qed.
#[export] Instance poisoned_on_wallet {A} (m : comp Wallet A) : Preserves (poisoned id) (on_wallet m).
Proof. intros s r s' E. unfold on_wallet in E. destruct (m _) as [r1 w]. by injection E as <- <-. Qed.
#[export] Instance poisoned_rescue {A} (m : PM A) h :
  Preserves (poisoned id) m -> (forall e, Preserves (poisoned id) (h e)) -> Preserves (poisoned id) (rescue m h).
Proof.
  intros Hm Hh s r s' E Hs. unfold rescue in E. destruct (m s) as [[a|e] s1] eqn:E1; [injection E as <- <-; eauto|].
  exact (Hh e _ _ _ E (Hm _ _ _ E1 Hs)).
Qed.
#[export] Instance poisoned_transaction {A} (m : PM A) :
  Preserves (poisoned id) m -> Preserves (poisoned id) (payout_transaction m).
Proof.
  intros Hm s r s' E Hs. unfold payout_transaction in E. destruct (m s) as [[a|e] s1] eqn:E1; injection E as <- <-; [eauto|].
  revert Hs. by apply poisoned_same.
Qed.
Lemma poisoned_tables f :
  (forall t, providerColumns (f t) = providerColumns t /\ reconAttempts (f t) = reconAttempts t) ->
  Preserves (poisoned id) (modify_tables f).
Proof.
  intros Hf s r s' E. injection E as <- <-. destruct (Hf (tables s)) as [E1 E2].
  unfold poisoned, attempt_exists, columns_of, row_of, tdb. cbn. by rewrite E1, E2.
Qed.
Lemma poisoned_queue f :
  (forall s, pw_base (f s) = pw_base s /\ tables (f s) = tables s) -> Preserves (poisoned id) (modify f).
Proof.
  intros Hf s r s' E. injection E as <- <-. destruct (Hf s) as [E1 E2]. apply poisoned_same; [|done].
  unfold row_of, tdb. by rewrite E1.
Qed.

Lemma poisoned_updated i m (g : ProviderColumns -> ProviderColumns) s :
  pc_attemptCount (g (columns_of i s)) = pc_attemptCount (columns_of i s) \/ i <> id ->
  poisoned id s -> poisoned id (updated i m (g (columns_of i s)) s).
Proof.
  intros Hg [Hr Ha]. unfold poisoned. rewrite row_updated, columns_updated.
  split; [case_decide; eauto|]. case_decide; [subst|exact Ha]. destruct Hg as [->|]; done.
Qed.
Lemma poisoned_update i f g :
  (forall c, pc_attemptCount (g c) = pc_attemptCount c) \/ i <> id -> Preserves (poisoned id) (payout_update i f g).
Proof.
  intros Hg s r s' E Hs. apply payout_update_cases in E as [(e & _ & ->)|(m & _ & _ & ->)]; [done|].
  apply poisoned_updated; [destruct Hg; auto|done].
Qed.
Lemma poisoned_updateMany i c f g :
  (forall c, pc_attemptCount (g c) = pc_attemptCount c) -> Preserves (poisoned id) (payout_updateMany i c f g).
Proof.
  intros Hg s r s' E Hs. apply payout_updateMany_cases in E as [[_ ->]|[(_ & -> & _)|(m & _ & _ & _ & ->)]]; [done..|].
  apply poisoned_updated; auto.
Qed.

#[export] Instance poisoned_sweep_rows P f : Preserves (poisoned id) (sweep_rows P f).
Proof.
  intros s r s' E. injection E as <- <-. apply poisoned_same; [|done]. intros [m Hm]. unfold row_of, tdb in *. cbn.
  rewrite map_lookup_imap. unfold tdb. by rewrite Hm.
Qed.

#[export] Instance poisoned_attempt_update a f :
  (forall x, ra_mpesaTransactionId (f x) = ra_mpesaTransactionId x /\ ra_attemptNumber (f x) = ra_attemptNumber x) ->
  Preserves (poisoned id) (attempt_update a f).
Proof.
  intros Hf. unfold attempt_update. apply preserves_bind; [apply _|]. intros hit. apply preserves_bind; [apply _|]. intros _.
  intros s r s' E [Hr Ha]. injection E as <- <-. split; [done|]. unfold attempt_exists, columns_of in *. cbn.
  apply existsb_exists in Ha as (x & Hin & Hx). apply existsb_exists.
  exists (if ra_id x === a then f x else x). split.
  - unfold update_where. apply in_map_iff. eauto.
  - destruct (Hf x) as [E1 E2]. destruct (ra_id x === a); [by rewrite E1, E2|done].
Qed.
End Plumbing.

#[export] Hint Extern 2 (Preserves (poisoned _) (modify_tables _)) => apply poisoned_tables; by split : typeclass_instances.
#[export] Hint Extern 2 (Preserves (poisoned _) (modify _)) =>
  apply poisoned_queue; intros ?; repeat case_match; by split : typeclass_instances.
#[export] Hint Extern 2 (Preserves (poisoned _) (payout_update _ _ _)) => apply poisoned_update; left; by intros [] : typeclass_instances.
#[export] Hint Extern 2 (Preserves (poisoned _) (payout_updateMany _ _ _ _)) => apply poisoned_updateMany; by intros [] : typeclass_instances.
#[export] Hint Extern 2 (Preserves (poisoned _) (attempt_update _ _)) => apply poisoned_attempt_update; by intros [] : typeclass_instances.

(** ** Payouts *)
Section Payouts.
Context `{UuidSource, Sha256, Environment, DateReader, Network, MwaloniConfig, ReconConfig} (id : string).
#[local] Typeclasses Opaque payout_updateMany payout_update payout_transaction rescue on_world on_wallet
  bind gets ret throw throw_if or_throw modify foldM modify_tables attempt_update sweep_rows.

#[export] Instance poisoned_audit t a ac et ei o n md rid ip : Preserves (poisoned id) (entity_audit t a ac et ei o n md rid ip).
Proof. unfold entity_audit, payout_audit. apply _. Qed.
#[local] Typeclasses Opaque entity_audit.
#[export] Instance poisoned_schedule a b c d : Preserves (poisoned id) (scheduleB2cTimeoutCheck a b c d).
Proof. unfold scheduleB2cTimeoutCheck, best_effort. apply _. Qed.
#[export] Instance poisoned_unknown i reason : Preserves (poisoned id) (markMwaloniOutcomeUnknown i reason).
Proof. unfold markMwaloniOutcomeUnknown, outcome_unknown_body. apply _. Qed.
#[export] Instance poisoned_mismatch i m p xs msg : Preserves (poisoned id) (markMwaloniMismatchReconciliation i m p xs msg).
Proof. unfold markMwaloniMismatchReconciliation, mismatch_reconciliation_body. apply _. Qed.
#[export] Instance poisoned_complete i r d p : Preserves (poisoned id) (payout_transaction (complete_body i r d p)).
Proof. unfold complete_body, row_or_throw. apply _. Qed.
#[export] Instance poisoned_fail i code desc reason p : Preserves (poisoned id) (failMwaloniTransaction i code desc reason p).
Proof. unfold failMwaloniTransaction, fail_body. apply _. Qed.
#[local] Typeclasses Opaque scheduleB2cTimeoutCheck markMwaloniOutcomeUnknown markMwaloniMismatchReconciliation complete_body
  failMwaloniTransaction.
#[export] Instance poisoned_apply i r src : Preserves (poisoned id) (applyMwaloniStatus i r src).
Proof. unfold applyMwaloniStatus, read_member. apply _. Qed.
#[local] Typeclasses Opaque applyMwaloniStatus.
#[export] Instance poisoned_refresh i : Preserves (poisoned id) (refreshMwaloniB2cStatus i).
Proof. unfold refreshMwaloniB2cStatus. apply _. Qed.
#[export] Instance poisoned_refresh_by t c : Preserves (poisoned id) (refreshMwaloniB2cStatusByConversation t c).
Proof. unfold refreshMwaloniB2cStatusByConversation. apply _. Qed.
#[export] Instance poisoned_submit i o p : Preserves (poisoned id) (submitMwaloniMobilePayout i o p).
Proof. unfold submitMwaloniMobilePayout, claim_send, send_claimed, send_and_apply, best_effort, row_or_throw. apply _. Qed.
#[local] Typeclasses Opaque refreshMwaloniB2cStatus refreshMwaloniB2cStatusByConversation submitMwaloniMobilePayout.

(** The row of a new payout is not the one that is stuck. *)
#[export] Instance poisoned_create o ref p : Preserves (poisoned id) (payout_transaction (create_payout_body o ref p)).
Proof.
  apply poisoned_transaction. unfold create_payout_body. do 3 (apply preserves_bind; [apply _|]; intros ?).
  intros s r s' E Hs. unfold bind at 1, on_world at 1 in E. destruct (mpesa_create _ _) as [r1 w1] eqn:Ec.
  apply mpesa_create_cases in Ec as [(e & -> & Hv)|(i & -> & Hi & _ & Em & _)].
  - injection E as <- <-. revert Hs. apply poisoned_same; [|done]. unfold world_view in Hv. injection Hv as Hv _.
    unfold row_of, tdb. cbn. by rewrite Hv.
  - destruct Hs as [Hr Ha]. assert (i <> id) as Hne. { intros ->. unfold row_of, tdb in Hr. rewrite Hi in Hr. by destruct Hr. }
    unfold bind at 1, put_columns, modify_tables, modify in E. set (s2 := set_tables _ _) in E.
    assert (poisoned id s2) as Hs2.
    { split; [unfold row_of, tdb, s2; cbn; rewrite Em, lookup_insert_ne by done; exact Hr|].
      unfold attempt_exists, columns_of, s2 in *. cbn. by rewrite lookup_insert_ne. }
    revert E Hs2. apply preserves_bind; [apply _|intros ?; apply _].
Qed.
#[local] Typeclasses Opaque create_payout_body.
#[export] Instance poisoned_disburse a b t ph amt by_ src : Preserves (poisoned id) (executeB2cDisbursement a b t ph amt by_ src).
Proof. unfold executeB2cDisbursement, executeMwaloniMobilePayout, resume_payout. apply _. Qed.
#[local] Typeclasses Opaque executeB2cDisbursement.

(** ** Queues *)
#[export] Instance poisoned_dispatch i : Preserves (poisoned id) (dispatchIntent i).
Proof. unfold dispatchIntent, payout_add, markQueueFailure, intent_update, put_intent. apply _. Qed.
#[local] Typeclasses Opaque dispatchIntent.
#[export] Instance poisoned_dispatch_due n : Preserves (poisoned id) (dispatchDueIntents n).
Proof. unfold dispatchDueIntents. apply _. Qed.
#[export] Instance poisoned_run_payout j : Preserves (poisoned id) (run_payout j).
Proof.
  unfold run_payout, best_effort, disbursement_failed, disburse, markDelivered, markDeadLetter, dead_letter_body,
    intent_update, put_intent. apply _.
Qed.
#[export] Instance poisoned_run_timeout j : Preserves (poisoned id) (run_timeout j).
Proof. unfold run_timeout, process_timeout, timeout_body, loan_timeout, timeout_audit. apply _. Qed.
#[export] Instance poisoned_withdraw r : Preserves (poisoned id) (executeWithdrawMpesa r).
Proof. unfold executeWithdrawMpesa, withdraw_body, intent_upsert, put_intent. apply _. Qed.

(** ** Reconciliation *)
Lemma createAttempt_exists i m c t a s r s' :
  createAttempt i m c t a s = (r, s') ->
  (exists e, r = Err e /\ tables s' = tables s /\ row_of id s' = row_of id s /\ wallet s' = wallet s) \/
  (exists aid x, r = Ok (aid, pc_attemptCount c + 1) /\ attempt_exists i (pc_attemptCount c + 1) s = false /\
    tables s' = set_attempts (reconAttempts (tables s) ++ [x]) (tables s) /\ row_of id s' = row_of id s /\ wallet s' = wallet s /\
    ra_mpesaTransactionId x = i /\ ra_attemptNumber x = pc_attemptCount c + 1).
Proof.
  unfold createAttempt, bind, gets, on_world, fresh_id, throw_if, modify_tables, modify, ret, throw. intros E.
  destruct (_ || _) eqn:Ex; injection E as <- <-; [left; eauto 6|right]. apply orb_false_iff in Ex as [Ex _].
  unfold attempt_exists, now_of, row_of, tdb in *. cbn in Ex. eexists _, _. split_and!; try reflexivity. exact Ex.
Qed.

#[export] Instance poisoned_createAttempt i m c t a : Preserves (poisoned id) (createAttempt i m c t a).
Proof.
  intros s r s' E Hs. apply createAttempt_exists in E as [(e & _ & Et & Er & _)|(aid & x & _ & _ & Et & Er & _)].
  - revert Hs. apply poisoned_same; [by rewrite Er|done].
  - destruct Hs as [Hr Ha]. split; [by rewrite Er|]. unfold attempt_exists, columns_of in *. rewrite Et. cbn.
    by rewrite existsb_app, Ha.
Qed.
#[local] Typeclasses Opaque createAttempt.
#[export] Instance poisoned_claim i t a : Preserves (poisoned id) (claim i t a).
Proof. unfold claim, row_or_throw. apply _. Qed.
#[local] Typeclasses Opaque claim.
Lemma poisoned_finish a i m c o : i <> id -> Preserves (poisoned id) (completeAttemptAndSchedule a i m c o).
Proof.
  intros Hi. unfold completeAttemptAndSchedule, row_or_throw. do 2 (apply preserves_bind; [apply _|]; intros ?). cbv zeta.
  apply poisoned_transaction, preserves_bind; [by apply poisoned_update; right|]. intros _. apply _.
Qed.
#[export] Instance poisoned_alert a : Preserves (poisoned id) (raiseOperationalAlertOnce a).
Proof. unfold raiseOperationalAlertOnce. apply _. Qed.
#[local] Typeclasses Opaque raiseOperationalAlertOnce completeAttemptAndSchedule.

(** An attempt that begins leaves the payout stuck until it ends. *)
Lemma claim_columns t a s m c s1 :
  claim id t a s = (Ok (Some (m, c)), s1) -> row_of id s1 = Some m /\ c = columns_of id s1.
Proof.
  unfold claim, bind at 1, gets at 1, bind at 1. destruct (payout_updateMany _ _ _ _ s) as [[n|e] s2]; [|done].
  destruct (Nat.eqb n 0); [done|]. unfold row_or_throw, bind, gets, or_throw, ret, throw.
  destruct (row_of id s2) as [m0|] eqn:Em; [|done]. by intros [= <- <- <-].
Qed.
Lemma begin_poisons p s b s1 : begin_attempt id p s = (Ok (Some b), s1) -> poisoned id s1.
Proof.
  intros E. apply bind_Ok in E as ([[m c]|] & s2 & E1 & E); [|done]. apply claim_columns in E1 as [Hm ->].
  apply bind_Ok in E as (att & s3 & E2 & E). injection E as _ <-.
  apply createAttempt_exists in E2 as [(e & [=] & _)|(aid & x & _ & _ & Et & Er & _ & Ex1 & Ex2)].
  split; [rewrite Er; eauto|]. unfold attempt_exists, columns_of in *. rewrite Et. cbn. rewrite existsb_app. cbn.
  by rewrite Ex1, Ex2, same_refl, Z.eqb_refl, orb_true_r.
Qed.

(** The next number is taken. *)
Lemma createAttempt_poisoned m t a s :
  poisoned id s -> exists e s', createAttempt id m (columns_of id s) t a s = (Err e, s').
Proof.
  intros [_ Hex]. destruct (createAttempt id m (columns_of id s) t a s) as [r s'] eqn:E.
  apply createAttempt_exists in E as [(e & -> & _)|(aid & x & _ & Hno & _)]; [eauto|congruence].
Qed.

(** No attempt at a payout that is stuck begins. *)
Lemma begin_poisoned p s r s' :
  begin_attempt id p s = (r, s') -> poisoned id s ->
  poisoned id s' /\ (r = Ok None \/ exists e, r = Err e) /\ wallet s' = wallet s /\ row_of id s' = row_of id s.
Proof.
  intros E Hs. unfold begin_attempt in E. unfold bind at 1 in E. destruct (claim id _ _ s) as [r1 s1] eqn:E1.
  pose proof (preserves _ _ _ E1 Hs) as Hs1.
  assert (wallet s1 = wallet s /\ row_of id s1 = row_of id s /\ (forall m c, r1 = Ok (Some (m, c)) -> c = columns_of id s1)) as (Hw & Hr & Hc).
  { unfold claim, bind at 1, gets at 1, bind at 1 in E1. destruct (payout_updateMany _ _ _ _ s) as [r2 s2] eqn:E2.
    assert (wallet s2 = wallet s /\ row_of id s2 = row_of id s) as [F1 F2].
    { apply payout_updateMany_cases in E2 as [[_ ->]|[(_ & -> & _)|(m & _ & Hm & _ & ->)]]; [done..|].
      split; [done|]. by rewrite row_updated, decide_True. }
    destruct r2 as [n|]; [|injection E1 as <- <-; done]. destruct (Nat.eqb n 0); [unfold ret in E1; by injection E1 as <- <-|].
    unfold row_or_throw, bind, gets, or_throw, ret, throw in E1.
    destruct (row_of id s2) as [m|] eqn:Em; injection E1 as <- <-; (split_and!; [done|congruence|]); by intros ? ? [= <- <-]. }
  destruct r1 as [[[m c]|]|e]; [|unfold ret in E; injection E as <- <-; split_and!; eauto|injection E as <- <-; split_and!; eauto].
  specialize (Hc _ _ eq_refl) as ->. unfold bind in E. destruct (createAttempt _ _ _ _ _ s1) as [r2 s2] eqn:E2.
  pose proof (preserves _ _ _ E2 Hs1) as Hs2.
  apply createAttempt_exists in E2 as [(e & -> & _ & Hr2 & Hw2)|(aid & x & _ & Hno & _)].
  - injection E as <- <-. split_and!; [done|eauto|congruence..].
  - destruct Hs1 as [_ Hex]. congruence.
Qed.

#[export] Instance poisoned_reconcile i p : Preserves (poisoned id) (reconcileTransaction i p).
Proof.
  unfold reconcileTransaction. destruct (decide (i = id)) as [->|Hi].
  - intros s r s' E Hs. unfold bind in E. destruct (begin_attempt id p s) as [r1 s1] eqn:E1.
    apply begin_poisoned in E1 as (Hs1 & [->|[e ->]] & _); [by injection E as <- <-..|done].
  - pose proof (fun a m c o => poisoned_finish a i m c o Hi).
    unfold begin_attempt, not_contacted, query_provider, retry_later, recon_audit, row_or_throw. apply _.
Qed.
#[local] Typeclasses Opaque reconcileTransaction.
#[export] Instance poisoned_sweep j : Preserves (poisoned id) (runAutomatedSweep j).
Proof. unfold runAutomatedSweep, detectStalePayoutIntents, check_intent, detectDebitWithoutPayout, check_debit. apply _. Qed.
#[export] Instance poisoned_refresh_status i t a r ip : Preserves (poisoned id) (refreshProviderStatus i t a r ip).
Proof. unfold refreshProviderStatus, requireWithdrawal. apply _. Qed.
#[export] Instance poisoned_resend i t a e ip : Preserves (poisoned id) (controlledResend i t a e ip).
Proof. unfold controlledResend, requireWithdrawal, requireEvidence. apply _. Qed.
#[export] Instance poisoned_mark i t a e ip : Preserves (poisoned id) (markCompletedWithEvidence i t a e ip).
Proof.
  unfold markCompletedWithEvidence, complete_manually_body, requireWithdrawal, requireEvidence, decide_row, finish_manual, manual_audit.
  apply _.
Qed.
#[export] Instance poisoned_reverse i t a e ip : Preserves (poisoned id) (reverseConfirmedFailure i t a e ip).
Proof.
  unfold reverseConfirmedFailure, reverse_manually_body, requireWithdrawal, requireEvidence, decide_row, finish_manual, manual_audit.
  apply _.
Qed.

(** Nor does an operator's decision about it go through. *)
Lemma not_Ok {A} (m : PM A) s : (forall a s', m s <> (Ok a, s')) -> exists e, (m s).1 = Err e.
Proof. intros Hn. destruct (m s) as [[a|e] s']; [by destruct (Hn a s')|by exists e]. Qed.

Lemma decision_blocked {A} (body : ProviderColumns -> string * Z -> PM A) m tr a s v s' :
  poisoned id s ->
  payout_transaction (let* c := gets (columns_of id) in let* att := createAttempt id m c tr a in body c att) s <> (Ok v, s').
Proof.
  intros Hp E. unfold payout_transaction, bind at 1, gets in E.
  destruct (createAttempt_poisoned m tr a s Hp) as (e & s1 & Ec). unfold bind in E. rewrite Ec in E. discriminate E.
Qed.

Lemma checks_alone t e m s s1 s2 u :
  requireWithdrawal id t s = (Ok m, s1) -> requireEvidence e s1 = (Ok u, s2) -> s2 = s.
Proof.
  intros E1 E2. assert (Frames (fun x => x) (requireWithdrawal id t)) as F1 by (unfold requireWithdrawal; apply _).
  assert (Frames (fun x : PayoutWorld => x) (requireEvidence e)) as F2 by (unfold requireEvidence; apply _).
  apply (frames_Ok _ _ _ _ _ F1) in E1. apply (frames_Ok _ _ _ _ _ F2) in E2. congruence.
Qed.

Lemma completion_blocked t a e ip s : poisoned id s -> exists x, (markCompletedWithEvidence id t a e ip s).1 = Err x.
Proof.
  intros Hp. apply not_Ok. intros v s' E. apply bind_Ok in E as (m & s1 & E1 & E). apply bind_Ok in E as (u & s2 & E2 & E).
  rewrite (checks_alone _ _ _ _ _ _ _ E1 E2) in E.
  revert E. unfold complete_manually_body. by apply decision_blocked.
Qed.
Lemma reversal_blocked t a e ip s : poisoned id s -> exists x, (reverseConfirmedFailure id t a e ip s).1 = Err x.
Proof.
  intros Hp. apply not_Ok. intros v s' E. apply bind_Ok in E as (m & s1 & E1 & E). apply bind_Ok in E as (u & s2 & E2 & E).
  apply bind_Ok in E as (x & s3 & E3 & E). rewrite (checks_alone _ _ _ _ _ _ _ E1 E2) in E3.
  assert (s3 = s) as -> by (unfold or_throw, ret, throw in E3; destruct (truthy _); congruence).
  revert E. unfold reverse_manually_body. by apply decision_blocked.
Qed.

(** ** The system *)
#[local] Typeclasses Opaque executeWithdrawMpesa dispatchIntent dispatchDueIntents run_payout run_timeout
  executeB2cDisbursement runAutomatedSweep refreshProviderStatus markCompletedWithEvidence reverseConfirmedFailure
  controlledResend.

Lemma poisoned_operation {A} (m : PM A) : operation m -> Preserves (poisoned id) m.
Proof. intros Hop. destruct Hop; try apply _; unfold cleanupStaleStkTransactions, expire_pushes; apply _. Qed.

Lemma poisoned_step x y : system_step x y -> poisoned id x.2 -> poisoned id y.2.
Proof.
  intros Hs Hp. destruct Hs as [A m C s r s' Hop E|C s o p r s' E|C s i o s' _ E|C1 C2 s p r s' now E|C1 C2 o s|C s cb r s' _ E|C s s' Ev Et];
    cbn [fst snd] in *.
  - exact (poisoned_operation _ Hop _ _ _ E Hp).
  - exact (poisoned_create _ _ _ _ _ _ E Hp).
  - revert Hp. exact ((_ : Preserves (poisoned id) (claim_send i)) _ _ _ E).
  - exact (preserves _ _ _ E Hp).
  - done.
  - exact (preserves _ _ _ E Hp).
  - revert Hp. apply poisoned_same; [|done]. unfold payout_view in Ev. injection Ev as Em _ _ _. unfold row_of. by rewrite Em.
Qed.

Lemma poisoned_steps x y : rtc system_step x y -> poisoned id x.2 -> poisoned id y.2.
Proof. induction 1; eauto using poisoned_step. Qed.
End Payouts.

Section Safety.
Context `{UuidSource, Sha256, Environment, DateReader, Network, MwaloniConfig, ReconConfig}.

(** C6: The payout code refines the payout machine: every run of the system,
    in which withdrawals, dispatches, workers at any point between claim and
    answer, crashes, timeouts, callbacks, sweeps and operators interleave, is a
    sequence of the machine's transitions on the rows, the orders asked for, the
    claims held and the debits given back, and keeps the machine's invariant,
    and that only failed payouts are given back.  (The daily reconciliation
    and the match by hand are not among these actors: their writes are no
    transitions of the machine.) *)
Theorem payouts_refine_machine x y :
  machine_ok (abs_sys x) -> rtc system_step x y ->
  rtc payout_step (abs_sys x) (abs_sys y) /\ machine_ok (abs_sys y) /\
  (refunds_ok (abs_sys x) -> refunds_ok (abs_sys y)).
Proof.
  intros Hok Hs. pose proof (system_steps_within _ _ Hs Hok) as Hm.
  split_and!; [done|by eapply system_steps_ok|]. intros Hf id. by eapply refund_steps.
Qed.

(** C4: The wallet is asked at most once for the money of an order: in every
    state the program reaches from one without payments, the flags of the daily
    reconciliation and matches by hand included, the orders that [fetch] was asked to pay are
    distinct, and none of them is still claimed. *)
Theorem paid_at_most_once s y :
  no_payments s -> rtc (program_step (fun _ => True)) ([], s) y ->
  NoDup (asked (wallet y.2)) /\ forall o, o ∈ y.1 -> o ∉ asked (wallet y.2).
Proof.
  intros Hs Hy. pose proof (mo_once _ (program_steps_ok _ _ _ Hy (no_payments_ok _ Hs))) as Hn.
  cbn in Hn. apply NoDup_app in Hn as (_ & Hd & Hn). split; [done|]. intros o Ho. by apply Hd.
Qed.

(** The row [id] is settled, with this status. *)
Definition settled_at (id : string) (st : TransactionStatus) (a : Machine) : Prop :=
  exists r, a_rows a !! id = Some r /\ ar_status r = st.
Definition pays_out (id : string) (t : option string) (a : Machine) : Prop :=
  exists r, a_rows a !! id = Some r /\ ar_txn r = t.

Lemma settled_unflagged id st x y :
  rtc (program_step (fun i => i <> id)) x y -> machine_ok (abs_sys x) -> (st === T_PENDING) || (st === T_RECON_PENDING) = false ->
  settled_at id st (abs_sys x) -> settled_at id st (abs_sys y).
Proof.
  intros Hs Hok Hst. apply (unflagged_steps id x y (settled_at id st)); [|..|done|done].
  - intros a b Hab _ (r & Hr & E). destruct (settled_steps _ _ _ _ Hab Hr) as (r' & Hr' & E'); [unfold row_open; by rewrite E|].
    exists r'. split; congruence.
  - intros a b E1 _ (r & Hr & E). exists r. by rewrite E1.
Qed.
Lemma pays_out_unflagged id t x y :
  rtc (program_step (fun i => i <> id)) x y -> machine_ok (abs_sys x) -> pays_out id t (abs_sys x) -> pays_out id t (abs_sys y).
Proof.
  intros Hs Hok. apply (unflagged_steps id x y (pays_out id t)); [|..|done|done].
  - intros a b Hab _ (r & Hr & E). destruct (payout_rows_kept _ _ _ _ Hab Hr) as (r' & Hr' & E'). exists r'. split; congruence.
  - intros a b E1 _ (r & Hr & E). exists r. by rewrite E1.
Qed.
Lemma refund_unflagged id x y :
  rtc (program_step (fun i => i <> id)) x y -> machine_ok (abs_sys x) -> refund_ok id (abs_sys x) -> refund_ok id (abs_sys y).
Proof.
  intros Hs Hok. apply (unflagged_steps id x y (refund_ok id)); [|..|done|done]; [apply refund_steps|].
  intros a b E1 E2 Hf r t. rewrite E1, E2. apply Hf.
Qed.

(** C5: A settled payout stays settled while the daily reconciliation does not
    flag it and nobody matches it by hand (a match takes only rows without a
    transaction, so not the withdrawals that carry their debit): once its row
    is neither pending nor awaiting reconciliation, no run of the program
    ([program_step]) changes its status, and the debit of a payout that
    completed is never reversed.  A daily reconciliation that read the row while
    it was pending and two hours old, and writes now, reopens it whatever it
    became in between. *)
Theorem settled_payout_final s x y id m :
  no_payments s -> rtc (program_step (fun i => i <> id)) ([], s) x -> rtc (program_step (fun i => i <> id)) x y ->
  row_of id x.2 = Some m -> is_open m = false ->
  (exists m', row_of id y.2 = Some m' /\ mp_status m' = mp_status m) /\
  (mp_status m = T_COMPLETED -> forall t, t ∈ transactions (tdb y.2) -> mp_transactionId m = Some (txn_id t) ->
     txn_status t <> T_REVERSED) /\
  (forall now acc row acc' s', DailyRecon.rr_id row = id -> DailyRecon.is_stale now row = true ->
     DailyRecon.settle_row now acc row y.2 = (Ok acc', s') ->
     exists m', row_of id s' = Some m' /\ mp_status m' = T_RECON_PENDING).
Proof.
  intros Hs Hx Hy Hm Ho. pose proof (no_payments_ok _ Hs) as Hok0. pose proof (program_steps_ok _ _ _ Hx Hok0) as Hok.
  pose proof (abs_lookup x.1 id x.2 m Hm) as Ha.
  destruct (settled_unflagged id (mp_status m) _ _ Hy Hok Ho) as (r & Hr & Est); [by eexists|].
  destruct (pays_out_unflagged id (mp_transactionId m) _ _ Hy Hok) as (r' & Hr' & Etx); [by eexists|].
  assert (r' = r) as -> by congruence.
  pose proof Hr as Hrow. cbn in Hrow. rewrite lookup_rows in Hrow. apply fmap_Some in Hrow as (m' & Hm' & ->).
  cbn in Est, Etx. split_and!; [eauto| |].
  - intros Hc t Ht Htx Hrev. assert (refund_ok id (abs_sys ([], s))) as Hf.
    { intros r t' Hr0. cbn in Hr0. rewrite lookup_rows in Hr0. unfold row_of in Hr0. by rewrite (np_rows _ Hs) in Hr0. }
    assert (refund_ok id (abs_sys y)) as Hfy by (eapply refund_unflagged, refund_unflagged; done).
    specialize (Hfy _ (txn_id t) Hr). cbn in Hfy. rewrite Est, Hc in Hfy. enough (T_COMPLETED = T_FAILED) by done.
    apply Hfy; [congruence|]. apply elem_of_reversed. eauto.
  - intros now acc row acc' s' <- Hst E. by eapply settle_row_flags in E.
Qed.
End Safety.

(** ** A wallet that pays *)
#[local] Instance no_reader : DateReader := {| new_Date _ := None |}.
#[local] Instance wallet_config : MwaloniConfig := {| mwaloni_enabled := true; mwaloni_get key := Some ("my-" +:+ key) |}.
#[local] Instance recon_config : ReconConfig := {|
  pendingThresholdMs := 1800000; retryIntervalMs := 900000; staleOutboxMs := 600000; manualReviewMs := 7200000;
  lockTtlMs := 300000; maxAttempts := 5 |}.

(** It hands out a token and answers everything else with [answer]. *)
Definition wallet_that (answer : json) : Network := {| fetch _ r := inr (mkResponse 200 "" (Some
  (match opt_member "username" (Some (post_body r)) with
   | Some _ => JObj [("status", JStr "00"); ("data", JObj [("token", JStr "tok")])]
   | None => answer
   end))) |}.
#[local] Instance paying_wallet : Network := wallet_that (JObj [("status", JStr "00"); ("message", JStr "paid")]).

Definition member_world : World := with_db (fun d => set_users (mkUser "u1" "t1" MEMBER :: users d) d) funded_world.
Definition payout_start : PayoutWorld := mkPW member_world (mkTables ∅ ∅ [] []) ∅ [] ∅ (mkWallet [] ∅) true true.

Definition withdraw_300 : WithdrawRequest := mkWithdraw "m1" "u1" "254700000001" 300 "t1" None "key-1".

Definition step {A} (m : PM A) (s : PayoutWorld) : PayoutWorld := (m s).2.

(** The debit's id. *)
Definition debit_id : string := match (executeWithdrawMpesa withdraw_300 payout_start).1 with Ok t => t | Err _ => "" end.
Definition order1 : string := "MWD-" +:+ debit_id.
Definition params1 : PayoutParams :=
  mkPayout "fosa1" FOSA_WITHDRAWAL "t1" "m1" "ACC-m1" "254700000001" (ks 300) "u1" (Some debit_id).

(** A worker writes the row and claims it; another one takes the job up and
    finds the payout in the air; the first then sends and is told it is done. *)
Definition w1 : PayoutWorld := step (executeWithdrawMpesa withdraw_300) payout_start.
Definition w2 : PayoutWorld := step (payout_transaction (create_payout_body order1 (b2c_reference order1) params1)) w1.
Definition row1 : string := match (payout_transaction (create_payout_body order1 (b2c_reference order1) params1) w1).1 with Ok t => t | Err _ => "" end.
Definition w3 : PayoutWorld := step (claim_send row1) w2.
Definition w4 : PayoutWorld := step (run_payout ("fosa-withdraw-" +:+ debit_id)) w3.
Definition w5 : PayoutWorld := step (on_wallet (sendMobile 1000 (mobile_params order1 params1))) w4.
Definition w6 : PayoutWorld := step (payout_transaction (complete_body row1 JNull "paid" JNull)) w5.

Example w6_paid : asked (wallet w6) = [order1] /\ balance_of "fosa1" (pw_base w6) = Some (ks 700) /\
  (mp_status <$> row_of row1 w6) = Some T_COMPLETED.
Proof. vm_compute. done. Qed.

Lemma start_empty : no_payments payout_start.
Proof. split; vm_compute; reflexivity. Qed.

Ltac run_step := eapply surjective_pairing.

Lemma six_steps : rtc system_step ([], payout_start) ([], w6).
Proof.
  eapply rtc_l; [exact (sys_operation _ [] _ _ w1 (op_withdraw withdraw_300) (surjective_pairing _))|].
  eapply rtc_l; [exact (sys_create [] w1 order1 params1 _ w2 (surjective_pairing _))|].
  eapply rtc_l; [eapply (sys_claim [] w2 row1 order1 w3); [eexists; split; vm_compute; reflexivity|vm_compute; reflexivity]|].
  eapply rtc_l; [exact (sys_operation _ [order1] _ _ w4 (op_run_payout _) (surjective_pairing _))|].
  eapply rtc_l; [exact (sys_send [] [] w4 (mobile_params order1 params1) _ w5 1000 (surjective_pairing _))|].
  eapply rtc_l; [exact (sys_operation _ [] _ _ w6 (op_completed _ _ _ _) (surjective_pairing _))|]. apply rtc_refl.
Qed.

#[local] Opaque w6.

Lemma payouts_refine_machine_witness :
  rtc payout_step (abs_sys ([], payout_start)) (abs_sys ([], w6)) /\ machine_ok (abs_sys ([], w6)) /\
  (refunds_ok (abs_sys ([], payout_start)) -> refunds_ok (abs_sys ([], w6))).
Proof. exact (payouts_refine_machine _ _ (no_payments_ok _ start_empty) six_steps). Defined.

Lemma six_program_steps P : rtc (program_step P) ([], payout_start) ([], w6).
Proof. eapply (rtc_congruence (fun x => x)), six_steps. intros x y. apply prog_system. Qed.

Lemma paid_at_most_once_witness :
  asked (wallet w6) = [order1] /\ NoDup (asked (wallet w6)).
Proof. split; [vm_compute; reflexivity|]. exact (proj1 (paid_at_most_once payout_start ([], w6) start_empty (six_program_steps _))). Defined.

(** A daily reconciliation that read the row before the wallet answered, and
    writes it afterwards. *)
Definition read_before : list DailyRecon.ReadRow := DailyRecon.read_rows "t1" 0 w3.
Definition daily_flag : PayoutWorld := match read_before with
  | [row] => step (DailyRecon.settle_row 7300000 (DailyRecon.emptyReport "t1" 0) row) w6
  | _ => w6
  end.

Lemma settled_payout_final_witness :
  (exists m, row_of row1 w6 = Some m /\ mp_status m = T_COMPLETED /\
    forall t, t ∈ transactions (tdb w6) -> mp_transactionId m = Some (txn_id t) -> txn_status t <> T_REVERSED) /\
  (mp_status <$> row_of row1 daily_flag) = Some T_RECON_PENDING.
Proof.
  split; [|vm_compute; reflexivity].
  pose proof (proj2 (proj2 w6_paid)) as E. destruct (row_of row1 w6) as [m|] eqn:Em; [|discriminate E].
  assert (mp_status m = T_COMPLETED) as Hc by (by injection E).
  assert (is_open m = false) as Ho by (unfold is_open, is_pending; by rewrite Hc).
  exists m. split; [reflexivity|]. split; [exact Hc|].
  exact (proj1 (proj2 (settled_payout_final payout_start ([], w6) ([], w6) row1 m start_empty (six_program_steps _) (rtc_refl _ _) Em Ho)) Hc).
Defined.

(** ** Withdrawals that begin, and withdrawals that go astray

    What a request reserves, and the ways a payout is refunded, blocked or
    missed although the code means it not to be. *)
(** ** Withdrawing *)
Section Withdraw.
Context `{UuidSource, Sha256, Environment}.

Definition dispatch_key (tenantId txnId : string) : string := "FOSA_WITHDRAWAL:" +:+ tenantId +:+ ":" +:+ txnId.

(** The payout a withdrawal asks for. *)
Definition asks_for (txnId phone : string) (amount : Z) (iid : string) (s : PayoutWorld) : Prop :=
  exists i, payoutIntents (tables s) !! iid = Some i /\
    pi_sourceTransactionId i = txnId /\ pi_phoneNumber i = phone /\ pi_amount i = amount.

Lemma asks_for_update t ph n iid j f :
  (forall i, pi_sourceTransactionId (f i) = pi_sourceTransactionId i /\ pi_phoneNumber (f i) = pi_phoneNumber i /\
     pi_amount (f i) = pi_amount i) -> Preserves (asks_for t ph n iid) (intent_update j f).
Proof.
  intros Hf s r s' E (i & Hi & E1 & E2 & E3). unfold intent_update, bind, gets, or_throw, ret, throw in E.
  destruct (payoutIntents (tables s) !! j) as [x|] eqn:Ej; [|injection E as _ <-; by exists i].
  injection E as _ <-. unfold asks_for. cbn. rewrite lookup_insert. case_decide; [subst|by exists i].
  assert (x = i) as -> by congruence. destruct (Hf i) as (F1 & F2 & F3). exists (f i). by rewrite F1, F2, F3.
Qed.
#[local] Hint Extern 1 (Preserves (asks_for _ _ _ _) (intent_update _ _)) => apply asks_for_update; by intros [] : typeclass_instances.

Lemma asks_for_queue t ph n iid j d : Preserves (asks_for t ph n iid) (payout_add j d).
Proof.
  intros s r s' E. unfold payout_add, bind, gets, throw_if, modify, throw, ret in E.
  destruct (negb _); injection E as _ <-; [done|]. by destruct (payoutQueue s !! j).
Qed.
#[local] Existing Instance asks_for_queue.

Lemma asks_for_dispatch t ph n iid j : Preserves (asks_for t ph n iid) (dispatchIntent j).
Proof.
  unfold dispatchIntent, markQueueFailure. apply preserves_bind; [apply _|]. intros [i|]; [|apply _].
  destruct (_ || _); [apply _|]. destruct (negb _); [apply _|]. apply preserves_bind; [apply _|]. intros now.
  intros s r s' E Hs. unfold rescue in E. destruct ((payout_add _ _ ;; _) s) as [[x|e] s1] eqn:E1.
  - injection E as _ <-. revert E1 Hs. apply preserves_bind; [apply _|]. intros _. apply _.
  - assert (asks_for t ph n iid s1) as Hs1. { revert E1 Hs. apply preserves_bind; [apply _|]. intros _. apply _. }
    revert E Hs1. apply preserves_bind; [apply _|]. intros _. apply _.
Qed.

#[export] Instance base_dispatch j : Frames pw_base (dispatchIntent j).
Proof.
  assert (forall A (m : PM A) h, Frames pw_base m -> (forall e, Frames pw_base (h e)) -> Frames pw_base (rescue m h)).
  { intros A m h Hm Hh s. unfold rescue. specialize (Hm s). destruct (m s) as [[a|e] s1]; [done|]. by rewrite (Hh e s1). }
  unfold dispatchIntent, markQueueFailure, intent_update, put_intent, modify_tables, payout_add.
  apply frames_bind; [apply _|]. intros [i|]; [|apply _].
  destruct (_ || _); [apply _|]. destruct (negb _); [apply _|]. apply frames_bind; [apply _|]. intros now.
  apply H2; [|apply _]. apply frames_bind; [|apply _]. do 2 (apply frames_bind; [apply _|]; intros ?).
  apply frames_modify. intros s. by destruct (payoutQueue s !! _).
Qed.

(** The tables a posting is about. *)
Definition money (s : PayoutWorld) := (accounts (tdb s), transactions (tdb s)).

#[local] Instance money_audit t a ac et ei o n md rid ip : Frames money (entity_audit t a ac et ei o n md rid ip).
Proof.
  intros s. unfold entity_audit, payout_audit, on_world.
  destruct (createAtomic _ (pw_base s)) as [r w] eqn:E. unfold money, tdb. cbn.
  unfold createAtomic, logAtomic, audit_row_create, fresh_id, bind, gets, throw_if, throw, ret, modify in E.
  repeat (case_match; simplify_eq; try done).
Qed.

Lemma withdraw_body_Ok q s t iid s3 :
  withdraw_body q s = (Ok (t, iid), s3) ->
  exists accId a w posted s2,
    member_account (wr_tenantId q) (wr_memberId q) FOSA (tdb s) = Some (accId, a) /\
    (wr_amount q <= dec (available_balance a))%Q /\
    postEntry (withdrawal_entry q accId) (pw_base s) = (Ok posted, w) /\ t = txn_id (posted_transaction posted) /\
    payoutIntents (tables s2) = payoutIntents (tables s) /\
    accounts (tdb s3) = accounts (db w) /\ transactions (tdb s3) = transactions (db w) /\
    intent_upsert (dispatch_key (wr_tenantId q) t)
      (withdrawal_intent q accId t (dispatch_key (wr_tenantId q) t) (now_of s2)) s2 = (Ok iid, s3).
Proof.
  intros Eb. unfold withdraw_body, bind at 1, gets at 1 in Eb. unfold bind at 1, or_throw in Eb.
  destruct (member_account _ _ _ _) as [[accId a]|] eqn:Ea; [|done]. unfold ret at 1 in Eb.
  unfold bind at 1, throw_if in Eb. cbn [snd] in Eb. destruct (negb _) eqn:En; [done|]. unfold ret at 1 in Eb.
  apply negb_false_iff, Qle_bool_iff in En.
  apply bind_Ok in Eb as (posted & s4 & Ep & Eb). apply on_world_Ok in Ep as (w & Ep & ->).
  apply bind_Ok in Eb as (u & s2 & Eau & Eb). pose proof (frames_Ok money _ _ _ _ _ Eau) as Hm.
  assert (tables s2 = tables s) as Ht.
  { unfold entity_audit, payout_audit in Eau. apply on_world_Ok in Eau as (w2 & _ & ->). done. }
  unfold bind at 1, gets at 1 in Eb. apply bind_Ok in Eb as (iid' & s5 & Eu & Eb). injection Eb as <- <- <-.
  assert (money s5 = money s2) as Hm2.
  { refine (frames_Ok money _ _ _ _ _ Eu). unfold intent_upsert, put_intent, modify_tables.
    apply frames_bind; [apply _|]. intros [[x1 x2]|]; [apply _|]. apply frames_bind; [intros ?; reflexivity|]. intros ?. apply _. }
  unfold money in Hm, Hm2. injection Hm as Hm3 Hm4. injection Hm2 as Hm5 Hm6.
  exists accId, a, w, posted, s2. rewrite Ht. split_and!; try done; [by rewrite Hm5, Hm3|by rewrite Hm6, Hm4].
Qed.

Lemma upsert_new k row iid s s' :
  intent_upsert k row s = (Ok iid, s') -> (forall j i, payoutIntents (tables s) !! j = Some i -> pi_dispatchKey i <> k) ->
  payoutIntents (tables s') !! iid = Some row.
Proof.
  intros E Hn. unfold intent_upsert, bind at 1, gets at 1 in E. destruct (intent_by _ s) as [[j i]|] eqn:Ei.
  - exfalso. apply find_some_elem in Ei as [Hin Hk]. apply elem_of_map_to_list in Hin. apply (Hn _ _ Hin). by reflect.
  - apply bind_Ok in E as (i & s2 & _ & E). apply bind_Ok in E as (x & s3 & _ & E). apply bind_Ok in E as (y & s4 & _ & E).
    apply bind_Ok in E as (z & s5 & _ & E). apply bind_Ok in E as (v & s6 & E & Er). injection E as _ <-. injection Er as -> <-.
    cbn. by rewrite lookup_insert_eq.
Qed.

(** A posting under a reference on record changes nothing, and finds its row. *)
Lemma postEntry_again p w x r w' :
  postEntry p w = (Ok r, w') -> txn_by_reference (pe_tenantId p) (pe_reference p) (db w) = Some x ->
  posted_transaction r = x /\ accounts (db w') = accounts (db w) /\ transactions (db w') = transactions (db w).
Proof.
  intros Hr Hx. apply postEntry_Ok in Hr as (actor & w1 & w2 & _ & _ & Hb & -> & E1 & _). rewrite <- E1 in Hx |- *.
  apply postEntryBody_Ok in Hb as [(_ & -> & Hx' & _)|(a & ty & codes & p1 & p2 & Hnone & _)]; [|congruence].
  split; [congruence|done].
Qed.

(** What a run of the request came to. *)
Lemma withdraw_cases q s r s1 :
  executeWithdrawMpesa q s = (r, s1) ->
  (tdb s1 = tdb s /\ exists e, r = Err e) \/
  (exists t iid s3, withdraw_body q s = (Ok (t, iid), s3) /\ tdb s1 = tdb s3 /\
     (forall P, Preserves P (dispatchIntent iid) -> P s3 -> P s1) /\ (forall x, r = Ok x -> x = t)).
Proof.
  unfold executeWithdrawMpesa, bind, payout_transaction. destruct (withdraw_body q s) as [[[t iid]|x] s2] eqn:Eb.
  - cbn [fst snd]. intros E. right. exists t, iid, s2. pose proof (base_dispatch iid s2) as Hb.
    destruct (dispatchIntent iid s2) as [rd s3] eqn:Ed. cbn in Hb. assert (s1 = s3 /\ forall x, r = Ok x -> x = t) as [-> Hx].
    { destruct rd; injection E as <- <-; (split; [done|]); by intros ? [= <-]. }
    split_and!; [done|unfold tdb; by rewrite Hb| |done]. intros P HP. by apply (HP _ _ _ Ed).
  - intros [= <- <-]. left. split; [done|]. by exists x.
Qed.

Lemma withdraw_again q s t x r s1 :
  executeWithdrawMpesa q s = (r, s1) -> txn_by_reference (wr_tenantId q) (withdrawal_reference q) (tdb s) = Some x ->
  t = txn_id x -> money s1 = money s /\ forall y, r = Ok y -> y = t.
Proof.
  intros E Hx ->. apply withdraw_cases in E as [[E (e & ->)]|(t & iid & s3 & E & Es & _ & Hr)].
  - unfold money. by rewrite E.
  - apply withdraw_body_Ok in E as (accId & a & w & posted & s2 & _ & _ & Ep & -> & _ & E1 & E2 & _).
    apply (postEntry_again _ _ x) in Ep as (Epo & F1 & F2); [|exact Hx]. unfold money. rewrite Es, E1, E2, F1, F2, <- Epo. done.
Qed.

(** C9: A withdrawal reserves the money it pays out: a request that is accepted
    for the first time found a FOSA account whose available balance covers the
    amount, lowers the account by exactly that amount, and leaves a payout
    intent for the same debit, phone and amount; a repeated request with the
    same key, whatever its amount or phone, changes no balance and no
    transaction and is answered, if at all, with the same debit. *)
Theorem withdrawal_reserves q s txnId s1 :
  ledger_ok (tdb s) ->
  txn_by_reference (wr_tenantId q) (withdrawal_reference q) (tdb s) = None ->
  (forall iid i, payoutIntents (tables s) !! iid = Some i -> pi_dispatchKey i <> dispatch_key (wr_tenantId q) txnId) ->
  executeWithdrawMpesa q s = (Ok txnId, s1) ->
  (exists accId a iid i,
    member_account (wr_tenantId q) (wr_memberId q) FOSA (tdb s) = Some (accId, a) /\
    (wr_amount q <= dec (available_balance a))%Q /\
    accounts (tdb s1) = <[accId := moved a (- to_dp4 (wr_amount q))]> (accounts (tdb s)) /\
    payoutIntents (tables s1) !! iid = Some i /\ pi_sourceTransactionId i = txnId /\
    pi_phoneNumber i = wr_phone q /\ pi_amount i = to_dp4 (wr_amount q)) /\
  (forall q' r s2, wr_tenantId q' = wr_tenantId q -> wr_memberId q' = wr_memberId q ->
     wr_idempotencyKey q' = wr_idempotencyKey q -> executeWithdrawMpesa q' s1 = (r, s2) ->
     accounts (tdb s2) = accounts (tdb s1) /\ transactions (tdb s2) = transactions (tdb s1) /\
     forall t, r = Ok t -> t = txnId).
Proof.
  intros Hok Hnew Hkey E. apply withdraw_cases in E as [[_ (e & [=])]|(t & iid & s3 & E & Es & HP & Ht)].
  specialize (Ht _ eq_refl) as <-.
  apply withdraw_body_Ok in E as (accId & a & w & posted & s2 & Ea & Hle & Ep & Et & Ei & E1 & E2 & Eu).
  apply upsert_new in Eu; [|by rewrite Ei]. split.
  - pose proof (postEntry_moves _ _ _ _ Ep eq_refl Hnew) as (a' & e & Ha' & Edb & _).
    assert (accounts (tdb s) !! accId = Some a) as Ha.
    { apply find_some_elem in Ea as [Hin _]. by apply elem_of_map_to_list in Hin. }
    assert (a' = a) as -> by (unfold tdb in Ha; cbn in Ha'; congruence).
    destruct (HP (asks_for txnId (wr_phone q) (to_dp4 (wr_amount q)) iid) (asks_for_dispatch _ _ _ _ _)) as (i & Hi & F1 & F2 & F3);
      [by eexists|].
    exists accId, a, iid, i. split_and!; try done. rewrite Es, E1, Edb. done.
  - intros q' r s4 Q1 Q2 Q3 E'. apply postEntry_Ok in Ep as (actor & w1 & w2 & _ & _ & Hb & Edb & E0 & _).
    assert (ledger_ok (db w1)) as Hok1 by (by rewrite E0).
    apply (postEntryBody_recorded _ _ _ _ _ _ _ _ _ _ _ _ _ Hok1) in Hb as [Hx _].
    apply (withdraw_again _ _ txnId (posted_transaction posted)) in E' as [Hm Hr].
    + unfold money in Hm. injection Hm as -> ->. done.
    + unfold txn_by_reference, withdrawal_reference in *. rewrite Q1, Q2, Q3, Es, E2, Edb. exact Hx.
    + done.
Qed.
End Withdraw.

(** ** Refunds *)
Section Refunds.
Context `{UuidSource, Sha256, Environment, Network, MwaloniConfig}.

Lemma fail_Ok id code desc reason payload m t s u s' :
  failMwaloniTransaction id code desc reason payload s = (Ok u, s') ->
  row_of id s = Some m -> is_open m = true -> mpd_referenceType (mp_details m) = Some FOSA_WITHDRAWAL ->
  truthy (mp_transactionId m) = Some t ->
  row_of id s' = Some (row_failed code desc reason payload m) /\
  exists t0 a, txn_by_id (mp_tenantId m) t (tdb s) = Some t0 /\ accounts (tdb s) !! txn_accountId t0 = Some a /\
    txn_by_id (mp_tenantId m) t (tdb s') = Some (set_txn_status T_REVERSED t0) /\
    accounts (tdb s') = <[txn_accountId t0 := moved a (signed (reversal_direction t0) (txn_amount t0))]> (accounts (tdb s)).
Proof.
  intros E Hm Ho Hty Ht. unfold failMwaloniTransaction, payout_transaction in E.
  destruct (fail_body _ _ _ _ _ s) as [[x|] s1] eqn:Eb; [|done]. injection E as _ <-.
  unfold fail_body, bind at 1, gets at 1 in Eb. rewrite Hm in Eb. unfold bind at 1, or_throw, ret at 1 in Eb.
  rewrite Ho in Eb. cbn [negb] in Eb. unfold bind at 1, gets at 1 in Eb.
  apply bind_Ok in Eb as (u1 & s2 & Eu & Eb). apply payout_update_cases in Eu as [(e & [=] & _)|(m0 & _ & Hm0 & ->)]. simplify_eq.
  rewrite Hty, same_refl, Ht in Eb. apply bind_Ok in Eb as (u2 & s3 & Er & Ea).
  apply bind_Ok in Er as (rv & s4 & Er & Hret). injection Hret as _ <-. apply on_world_Ok in Er as (w & Er & ->).
  apply reverseTransaction_Ok in Er as (actor & w1 & w2 & _ & Er & E2 & E1).
  apply reverseTransactionBody_Ok in Er as (t0 & e0 & p0 & a & Ht0 & Hst & _ & _ & _ & (Ha & _) & _ & _ & _ & _ & _ & _ & Edb).
  apply active_account_Some in Ha as (Ha & _). rewrite E1 in Edb, Ha, Ht0.
  unfold entity_audit, payout_audit in Ea. apply on_world_Ok in Ea as (w3 & Ea & ->). apply createAtomic_Ok in Ea as (_ & rows & Ea).
  cbn [pw_base set_base] in Ea. rewrite E2 in Ea. rewrite Edb in Ea.
  split; [unfold row_of, tdb; cbn [pw_base set_base]; rewrite Ea; cbn; by rewrite lookup_insert_eq|].
  exists t0, a. unfold tdb in *. cbn [pw_base set_base] in *. rewrite Ea. split_and!; [exact Ht0|exact Ha| |done].
  by eapply (txn_by_id_reversed _ _ (db (pw_base s))).
Qed.

(** An answer that says nothing refunds: whatever the wallet answers about
    an open withdrawal, if its status is absent or not one of the few the code
    knows, and nothing in the answer contradicts the row, then applying it marks
    the payout failed and gives the debit back, although the money may have been
    sent. *)
Theorem unknown_answer_refunds id m t response source s r s' :
  row_of id s = Some m -> is_open m = true -> mpd_referenceType (mp_details m) = Some FOSA_WITHDRAWAL ->
  truthy (mp_transactionId m) = Some t ->
  findMwaloniResponseMismatches m response = [] ->
  isMwaloniSuccess (response_status response) = false -> isMwaloniPending (response_status response) = false ->
  applyMwaloniStatus id response source s = (Ok r, s') ->
  (exists m', row_of id s' = Some m' /\ mp_status m' = T_FAILED /\
     mpd_failureReason (mp_details m') = Some (failure_reason (response_status response))) /\
  exists t0 a, txn_by_id (mp_tenantId m) t (tdb s) = Some t0 /\ accounts (tdb s) !! txn_accountId t0 = Some a /\
    txn_by_id (mp_tenantId m) t (tdb s') = Some (set_txn_status T_REVERSED t0) /\
    accounts (tdb s') = <[txn_accountId t0 := moved a (signed (reversal_direction t0) (txn_amount t0))]> (accounts (tdb s)).
Proof.
  intros Hm Ho Hty Ht Hmis Hs Hp E. unfold applyMwaloniStatus in E. apply bind_Ok in E as (o & s1 & Er & E).
  assert (s1 = s) as -> by (unfold read_member in Er; destruct response; by injection Er).
  unfold bind at 1, gets at 1 in E. cbv zeta in E. unfold bind at 1, gets at 1 in E. rewrite Hm in E.
  unfold bind at 1, or_throw, ret at 1 in E. rewrite Hmis, Hs, Hp in E. apply bind_Ok in E as (u & s2 & E & Hret).
  injection Hret as <- <-. apply (fail_Ok _ _ _ _ _ m t) in E as [Hrow Hback]; [|done..]. split; [|exact Hback].
  eexists. split; [exact Hrow|]. done.
Qed.
End Refunds.

(** ** Reconciliation *)
Section Reconciliation.
Context `{UuidSource, Sha256, Environment, DateReader, Network, MwaloniConfig, ReconConfig}.

(** A reconciliation that is interrupted blocks its payout: once an
    attempt has begun and did not end, because its process died or its first
    audit row could not be written, then in every later state of the system
    another reconciliation of the row is skipped or throws without asking the
    wallet or changing the row, and neither operator decision succeeds. *)
Theorem interrupted_recon_is_stuck id p b s s1 C y :
  begin_attempt id p s = (Ok (Some b), s1) -> rtc system_step (C, s1) y ->
  (forall p' r s', reconcileTransaction id p' y.2 = (r, s') ->
     (r = Ok SKIPPED \/ exists e, r = Err e) /\ wallet s' = wallet y.2 /\ row_of id s' = row_of id y.2) /\
  (forall t a e ip, exists x, (markCompletedWithEvidence id t a e ip y.2).1 = Err x) /\
  (forall t a e ip, exists x, (reverseConfirmedFailure id t a e ip y.2).1 = Err x).
Proof.
  intros Hb Hs. apply begin_poisons in Hb. pose proof (poisoned_steps id _ _ Hs Hb) as Hp. split_and!.
  - intros p' r s' E. unfold reconcileTransaction, bind in E. destruct (begin_attempt id p' y.2) as [r1 s2] eqn:E1.
    apply begin_poisoned in E1 as (_ & [->|[e ->]] & Hw & Hr); [| |done]; injection E as <- <-; eauto.
  - intros t a e ip. by apply completion_blocked.
  - intros t a e ip. by apply reversal_blocked.
Qed.

(** *** The check of debits without a payout *)
Lemma filter_none {A} (f : A -> bool) l : (forall x, x ∈ l -> f x = false) -> List.filter f l = [].
Proof. induction l as [|x l IH]; intros Hf; [done|]. cbn. rewrite Hf by set_solver. apply IH. set_solver. Qed.

Lemma early_in_sorted l (t : Transaction) n :
  StronglySorted older l -> t ∈ take n l -> NoDup l ->
  (length (List.filter (fun x => (txn_createdAt x <? txn_createdAt t)%Z) l) < n)%nat.
Proof.
  revert n. induction l as [|x l IH]; intros n Hs Hin Hnd; [by rewrite take_nil in Hin; apply elem_of_nil in Hin|].
  destruct n as [|n]; [by apply elem_of_nil in Hin|]. apply StronglySorted_inv in Hs as [Hs Hall].
  apply NoDup_cons in Hnd as [Hx Hnd]. cbn [take] in Hin. apply elem_of_cons in Hin as [->|Hin].
  - cbn. rewrite Z.ltb_irrefl. assert (List.filter (fun y => txn_createdAt y <? txn_createdAt x) l = []) as ->; [|cbn; lia].
    apply filter_none. intros y Hy. rewrite Forall_forall in Hall. specialize (Hall y Hy). unfold older in Hall.
    by apply Z.ltb_ge.
  - cbn. specialize (IH n Hs Hin Hnd). destruct (_ <? _); cbn; lia.
Qed.

#[local] Instance older_trans : Transitive older.
Proof. intros x y z. unfold older. lia. Qed.
#[local] Instance older_total : Total older.
Proof. intros x y. unfold older. lia. Qed.

Lemma filter_perm {A} (f : A -> bool) l l' : l ≡ₚ l' -> List.filter f l ≡ₚ List.filter f l'.
Proof.
  induction 1 as [|x l l' _ IH|x y l|l1 l2 l3 _ IH1 _ IH2]; cbn; [done| | |by etrans].
  - destruct (f x); [by constructor|done].
  - destruct (f x), (f y); [constructor|done..].
Qed.
Lemma filter_and {A} (f g : A -> bool) l : List.filter g (List.filter f l) = List.filter (fun x => f x && g x) l.
Proof. induction l as [|x l IH]; [done|]. cbn. destruct (f x); cbn; [destruct (g x)|]; by rewrite IH. Qed.

Lemma checked_early cutoff d t :
  NoDup (transactions d) -> t ∈ withdrawals_checked cutoff d ->
  (length (List.filter (fun x => old_withdrawal cutoff x && (txn_createdAt x <? txn_createdAt t)%Z) (transactions d)) < 100)%nat.
Proof.
  intros Hnd Ht. rewrite <- filter_and. pose proof (merge_sort_Permutation older (List.filter (old_withdrawal cutoff) (transactions d))) as Hp.
  rewrite <- (Permutation_length (filter_perm _ _ _ Hp)). apply early_in_sorted; [apply StronglySorted_merge_sort; apply _|exact Ht|].
  rewrite Hp. by apply NoDup_ListNoDup, List.NoDup_filter, NoDup_ListNoDup.
Qed.

Lemma nothing_missing job n ts s :
  Forall (fun t => has_payout (txn_id t) s = true) ts -> foldM (check_debit job) n ts s = (Ok n, s).
Proof.
  induction 1 as [|t ts Ht _ IH]; [done|]. cbn [foldM]. unfold bind at 1, check_debit at 1, bind, gets. by rewrite Ht.
Qed.

(** The check for debits without a payout sees only the hundred oldest
    withdrawals: when every other one has its payout and a hundred are older,
    a withdrawal debited without any payout is not found, no alert is raised
    and nothing is written. *)
Theorem debit_check_starves job s t :
  NoDup (txn_id <$> transactions (tdb s)) -> t ∈ transactions (tdb s) -> has_payout (txn_id t) s = false ->
  let cutoff := now_of s - staleOutboxMs in
  (forall x, x ∈ transactions (tdb s) -> old_withdrawal cutoff x = true -> x <> t -> has_payout (txn_id x) s = true) ->
  (100 <= length (List.filter (fun x => old_withdrawal cutoff x && (txn_createdAt x <? txn_createdAt t)%Z)
             (transactions (tdb s))))%nat ->
  detectDebitWithoutPayout job s = (Ok 0%nat, s).
Proof.
  intros Hnd Ht Hno cutoff Hothers Hmany. unfold detectDebitWithoutPayout, bind at 1, gets at 1, bind at 1, gets at 1.
  apply nothing_missing, Forall_forall. intros x Hx. fold cutoff in Hx.
  assert (x ∈ List.filter (old_withdrawal cutoff) (transactions (tdb s))) as Hf.
  { unfold withdrawals_checked in Hx. apply elem_of_take in Hx as (i & Hi & _). apply list_elem_of_lookup_2 in Hi.
    by rewrite merge_sort_Permutation in Hi. }
  apply list_elem_of_In, List.filter_In in Hf as [Hin Hold]. apply list_elem_of_In in Hin.
  apply Hothers; [done..|]. intros ->. apply checked_early in Hx; [lia|]. by apply NoDup_fmap_1 in Hnd.
Qed.
End Reconciliation.

(** ** Pushes *)
Section Pushes.
Context `{UuidSource, Sha256, Environment, DateReader}.

Definition push_expired (m : MpesaTransaction) : MpesaTransaction :=
  set_outcome T_FAILED (Some 17) "STK Push expired – user did not complete payment within 2 minutes"
    (mp_transactionDate m) (mp_details m) m.

Lemma cleaned s r s1 :
  cleanupStaleStkTransactions s = (r, s1) ->
  forall j, row_of j s1 = (fun m => if stale_push (now_of s - STK_TIMEOUT_MS) s j m then push_expired m else m) <$> row_of j s.
Proof.
  intros E j. injection E as _ <-. unfold row_of, tdb. cbn. rewrite map_lookup_imap. unfold tdb.
  by destruct (mpesaTransactions (db (pw_base s)) !! j).
Qed.

(** A push that is answered late is lost: once the two-minute sweep has run
    over a pending push, a callback that reports its payment, whenever it comes
    and whatever receipt it carries, is acknowledged and changes nothing. *)
Theorem late_push_lost co id m s s1 r :
  unique_by (fun m => mpd_checkoutRequestId (mp_details m)) (tdb s) ->
  row_of id s = Some m -> mpd_checkoutRequestId (mp_details m) = Some co ->
  mpd_type (mp_details m) = MT_STK_PUSH -> is_pending m = true ->
  pc_createdAt (columns_of id s) < now_of s - STK_TIMEOUT_MS ->
  cleanupStaleStkTransactions s = (r, s1) ->
  (exists m1, row_of id s1 = Some m1 /\ mp_status m1 = T_FAILED) /\
  forall cb w, mpesaTransactions (db w) = mpesaTransactions (tdb s1) -> stk_CheckoutRequestID cb = co ->
    handleStkCallback cb w = (Ok tt, w).
Proof.
  intros Hu Hm Hco Hty Hp Hold Hrun. pose proof (cleaned _ _ _ Hrun) as E.
  assert (row_of id s1 = Some (push_expired m)) as Hrow.
  { rewrite E, Hm. cbn. unfold stale_push. rewrite Hty, same_refl, Hp, (proj2 (Z.ltb_lt _ _) Hold). done. }
  split; [by eexists|]. intros cb w Ew <-. eapply (stk_settled cb id (push_expired m)); [|done].
  apply mpesa_find_unique; [|by rewrite Ew|exact Hco]. intros i j x y v Hi Hj. rewrite Ew in Hi, Hj.
  fold (row_of i s1) in Hi. fold (row_of j s1) in Hj. rewrite E in Hi, Hj.
  apply fmap_Some in Hi as (x0 & Hx & ->). apply fmap_Some in Hj as (y0 & Hy & ->). intros Fx Fy.
  apply (Hu i j x0 y0 v Hx Hy); [by destruct (stale_push _ _ _ x0)|by destruct (stale_push _ _ _ y0)].
Qed.
End Pushes.

(** ** Witnesses *)

Lemma start_ledger : ledger_ok (tdb payout_start).
Proof. pose proof funded_ok as Hok. destruct Hok. by split. Qed.

(** The same key, with another amount. *)
Definition withdraw_90 : WithdrawRequest := mkWithdraw "m1" "u1" "254700000001" 90 "t1" None "key-1".

Lemma withdrawal_reserves_witness :
  (exists a, accounts (tdb w1) !! "fosa1" = Some a /\ acc_balance a = ks 700) /\
  forall r s2, executeWithdrawMpesa withdraw_90 w1 = (r, s2) ->
    accounts (tdb s2) = accounts (tdb w1).
Proof.
  destruct (withdrawal_reserves withdraw_300 payout_start debit_id w1 start_ledger) as [_ Hagain];
    [vm_compute; reflexivity|intros iid i Hi; discriminate Hi|vm_compute; reflexivity|]. split.
  - eexists. split; [vm_compute; reflexivity|reflexivity].
  - intros r s2 E. exact (proj1 (Hagain withdraw_90 r s2 eq_refl eq_refl eq_refl E)).
Defined.

(** The wallet took the order and answered without a status. *)
Definition no_status : json := JObj [("message", JStr "Request received")].
Definition w5_refunded : PayoutWorld := step (applyMwaloniStatus row1 no_status SEND_MONEY) w5.

Lemma unknown_answer_refunds_witness :
  asked (wallet w5) = [order1] /\
  exists m', row_of row1 w5_refunded = Some m' /\ mp_status m' = T_FAILED.
Proof.
  split; [vm_compute; reflexivity|].
  destruct (row_of row1 w5) as [m|] eqn:Em; [|vm_compute in Em; discriminate Em].
  destruct (unknown_answer_refunds row1 m debit_id no_status SEND_MONEY w5 (mkRefreshed true true (Some T_FAILED)) w5_refunded) as [(m' & Hm & Hst & _) _].
  - exact Em.
  - vm_compute in Em. injection Em as <-. reflexivity.
  - vm_compute in Em. injection Em as <-. reflexivity.
  - vm_compute in Em. injection Em as <-. vm_compute. reflexivity.
  - vm_compute in Em. injection Em as <-. vm_compute. reflexivity.
  - reflexivity.
  - reflexivity.
  - vm_compute. reflexivity.
  - exists m'. split; [exact Hm|exact Hst].
Defined.

(** The process dies once the attempt is numbered. *)
Definition begun : result (option (MpesaTransaction * ProviderColumns * (string * Z))) := (begin_attempt row1 (sweep_params None) w5).1.
Definition w5_begun : PayoutWorld := step (begin_attempt row1 (sweep_params None)) w5.

Lemma begun_runs b : begun = Ok (Some b) -> begin_attempt row1 (sweep_params None) w5 = (Ok (Some b), w5_begun).
Proof. intros <-. apply surjective_pairing. Qed.
Lemma begun_Some : exists b, begun = Ok (Some b).
Proof.
  assert (match begun with Ok (Some _) => true | _ => false end = true) as Hb by (vm_compute; reflexivity).
  destruct begun as [[b|]|e]; [by exists b|discriminate Hb..].
Qed.
#[local] Opaque begun w5_begun.

Lemma interrupted_recon_is_stuck_witness :
  exists b, begun = Ok (Some b) /\
    forall t a e ip, exists x, (markCompletedWithEvidence row1 t a e ip w5_begun).1 = Err x.
Proof.
  destruct begun_Some as [b Hb]. exists b. split; [exact Hb|].
  pose proof (interrupted_recon_is_stuck row1 (sweep_params None) b w5 w5_begun [] ([], w5_begun) (begun_runs b Hb) (rtc_refl _ _)) as (_ & Hm & _).
  exact Hm.
Defined.

Definition at_time (now : Z) (w : World) : World :=
  mkWorld (db w) (nextUuid w) now (systemUserIdCache w) (locks w) (jobs w) (auditTrail w) (outbox w).

(** A hundred withdrawals with their payouts, and a younger one without. *)
Definition old_debit (n : nat) : Transaction :=
  mkTransaction ("w-" +:+ pretty n) "t1" "fosa1" None WITHDRAWAL T_COMPLETED (ks 1) (ks 1) 0 ("MPESA_WD-" +:+ pretty n) "WITHDRAWAL"
    "u1" None (Z.of_nat n).
Definition paid_row (n : nat) : MpesaTransaction :=
  mkMpesaTransaction "t1" ("B2C-" +:+ pretty n) (ks 1) T_COMPLETED (Some ("w-" +:+ pretty n)) None None None None None
    (mkDetails MT_B2C "254700000001" (Some "m1") None None None None (Some FOSA_WITHDRAWAL) (Some "fosa1") None None).
Definition crowded_world : World := at_time 10000000 (with_db (fun d =>
  set_transactions (map old_debit (List.seq 0 101))
    (set_mpesaTransactions (list_to_map (map (fun n => (pretty n, paid_row n)) (List.seq 0 100))) d)) funded_world).
Definition crowded : PayoutWorld := set_base crowded_world payout_start.

Lemma crowded_debits : transactions (tdb crowded) = map old_debit (List.seq 0 101).
Proof. reflexivity. Qed.

Lemma debit_check_starves_witness :
  has_payout "w-100" crowded = false /\ detectDebitWithoutPayout None crowded = (Ok 0%nat, crowded).
Proof.
  split; [vm_compute; reflexivity|]. apply (debit_check_starves None crowded (old_debit 100)).
  - apply (bool_decide_unpack _). vm_compute. reflexivity.
  - rewrite crowded_debits. apply list_elem_of_In, in_map, in_seq. lia.
  - vm_compute. reflexivity.
  - intros x Hx _ Hne. rewrite crowded_debits in Hx. apply list_elem_of_In, in_map_iff in Hx as (n & <- & Hn).
    assert (forallb (fun n => has_payout (txn_id (old_debit n)) crowded) (List.seq 0 100) = true) as Hall by (vm_compute; reflexivity).
    rewrite forallb_forall in Hall. apply Hall, in_seq. apply in_seq in Hn. assert (n <> 100%nat) by congruence. lia.
  - apply Nat.leb_le. vm_compute. reflexivity.
Defined.

(** A push of three minutes ago. *)
Definition slow_push : PayoutWorld :=
  set_tables (mkTables {["mp1" := blank_columns 0]} ∅ [] [])
    (set_base (at_time 180000 MpesaTheorems.push_world) payout_start).
Definition swept : PayoutWorld := step cleanupStaleStkTransactions slow_push.

Lemma late_push_lost_witness :
  handleStkCallback MpesaTheorems.push_ok (pw_base swept) = (Ok tt, pw_base swept) /\
  balance_of "fosa1" (pw_base swept) = Some (ks 1000).
Proof.
  split; [|vm_compute; reflexivity].
  refine (proj2 (late_push_lost "co1" "mp1" (MpesaTheorems.push_row T_PENDING "DEPOSIT-m1") slow_push swept (Ok tt) _ _ _ _ _ _ _) _ _ _ _);
    [apply (MpesaTheorems.one_row _ "mp1" _ funded_world)|reflexivity|reflexivity|reflexivity|reflexivity|reflexivity|reflexivity|reflexivity|reflexivity].
Defined.
